(* ===== verification/_CoqProject ===== *)
-Q . S2P
Prelude.v
ByteBuffer.v
Gtpu.v
CircularBuffer.v
RlcUmHeader.v
RlcUmTx.v
RlcUmRx.v
RlcUm.v
MacPdu.v
MacPduWire.v
MacPduCorrect.v
Float32.v
MacMch.v
Mbsfn.v
Rlc.v
Broadcast.v
BitRef.v
Per.v
PerLaws.v
PerExt.v
RrcMcch.v
RrcMcchCorrect.v
RrcSib13.v
Plmn.v
RrcEnb.v
Signalling.v
IntrusiveList.v
Timers.v
TimersCorrect.v
BitPack.v
Crc.v
CbSegm.v
TurboCoder.v
TurboCorrect.v
Sequence.v
SequenceCorrect.v
BitCopy.v
RateMatch.v
RateMatchTables.v
RateMatchCorrect.v
Sch.v
SchCorrect.v
Modulation.v
ModulationCorrect.v
PhyCommon.v
Ra.v
RaCorrect.v
MbsfnGrid.v
MbsfnGridCorrect.v
RefSignal.v
RefSignalCorrect.v
Pmch.v
PmchCorrect.v
OnAir.v
