(* ===== verification/Prelude.v ===== *)
(** * A verification library of the rt-mbms-tx broadcast path

    rt-mbms-tx is an LTE-based 5G broadcast transmitter derived from srsRAN 4G: an MBMS gateway,
    an eNodeB and the libraries they share.  This library models the path of a broadcast packet
    and of the signalling that announces it, and proves what makes that path correct.

<<
      MBMS gateway --GTP-U--> eNodeB M1-U --> RLC UM (MRB) --> MAC MCH scheduler, MCH PDU
                                                                       |
      eNodeB RRC --MCCH message (ASN.1 PER)--> MAC, PHY ------> PHY: MBSFN subframes,
                                                               CRC, segmentation, turbo code,
                                                               rate matching, scrambling,
                                                               modulation, resource grid
                                                                       |
                            UE: RLC UM <-- MCH demultiplexer <---------+
>>

    ** Files and sources

    Paths are relative to [src/]; definitions keep the names of the source, with the class as a
    prefix where two classes share a name.

    - [Prelude]: machine integers on [Z] with explicit wrap-around ([u8], [u16], [u32], [u64], [i32]),
      byte strings with checked [load] and [store], their lemmas, hints and tactics.
    - [ByteBuffer]: [byte_buffer_t] with its block, message offset and length
      ([lib/include/srsran/common/byte_buffer.h]) and the big-endian conversions ([int_helpers.h]).
    - [Gtpu]: the GTP-U header codec ([lib/src/gtpu/gtpu.cc]), the packet handler of the gateway
      ([srsepc/src/mbms-gw/mbms-gw.cc]) and the M1-U receiver ([srsenb/src/stack/upper/gtpu.cc]).
    - [CircularBuffer]: [dyn_circular_buffer] and the queue of SDUs with its counters
      ([adt/circular_buffer.h], [upper/byte_buffer_queue.h]).
    - [RlcUmHeader], [RlcUmTx], [RlcUmRx], [RlcUm]: RLC unacknowledged mode: header codec,
      transmitter, receiver, and the entity and a link of two entities
      ([lib/src/rlc/rlc_um_lte.cc], [rlc_um_base.cc], [bearer_mem_pool] left out).
    - [MacPdu], [MacPduWire], [MacPduCorrect]: [sch_pdu], [sch_subh], [mch_pdu] and [rar_pdu]
      ([lib/src/mac/pdu.cc], [lib/include/srsran/mac/pdu.h]): operations, bytes on the wire, and the
      round trip.
    - [Float32], [MacMch]: the MCH scheduler of the eNodeB ([build_mch_sched], [get_mch_sched],
      [write_mcch] of [srsenb/src/stack/mac/mac.cc]) with the rounding of its [float] arithmetic.
    - [Mbsfn]: which subframes carry which PMCH ([srsenb/src/phy/phy_common.cc],
      [lib/src/common/gen_mch_tables.c]).
    - [Rlc]: the multicast bearers of the RLC layer ([lib/src/rlc/rlc.cc]).
    - [Broadcast]: the composition: the RLC bearer, the scheduler and the PDU of the eNodeB with
      the demultiplexer of the UE ([srsue/src/stack/mac/demux.cc]) and its RLC bearers.
    - [BitRef], [Per], [PerLaws], [PerExt]: the packed encoding rules of [lib/src/asn1/asn1_utils.cc]
      and [asn1_utils.h]: the bit reader and writer, the encodings of the basic types, extension
      groups and open fields; [PerLaws] has the record [codec], the interface against which the
      messages are proved.
    - [RrcMcch], [RrcMcchCorrect]: the MCCH-Message with all its parts ([lib/src/asn1/rrc.cc],
      [rrc/common.cc], [rrc/ul_dcch_msg.cc]).
    - [RrcSib13]: system information block 13 with its extensions up to release 16
      ([lib/src/asn1/rrc/bcch_msg.cc]).
    - [Plmn]: PLMN identities ([common/bcd_helpers.h], [interfaces/rrc_interface_types.h]).
    - [RrcEnb]: the MBMS part of the eNodeB RRC ([srsenb/src/stack/rrc/rrc.cc]: [pack_mcch],
      [configure_mbsfn_sibs]), [phy::configure_mbsfn] ([srsenb/src/phy/phy.cc]) and the conversions
      of [lib/src/asn1/rrc_utils.cc].
    - [Signalling]: the composition of the signalling: RRC, PHY and MAC of the eNodeB and the
      receiver of the MCCH.
    - [IntrusiveList], [Timers], [TimersCorrect]: the intrusive lists on a store of links
      ([adt/intrusive_list.h]) and the timer wheel built on them ([common/timers.h]).
    - [BitPack], [BitCopy]: packing and unpacking of bit vectors and the copy of bits between any
      two offsets ([lib/src/phy/utils/bit.c]).
    - [Crc]: the checksums of the physical layer ([lib/src/phy/fec/crc.c], [crc.h]).
    - [CbSegm]: the segmentation into code blocks ([lib/src/phy/fec/cbsegm.c]) and the generator of
      the turbo interleaver ([fec/turbo/tc_interl_lte.c]).
    - [TurboCoder], [TurboCorrect]: the two turbo encoders ([fec/turbo/turbocoder.c]) with the bit
      interleaver of [bit.c].
    - [Sequence], [SequenceCorrect]: the pseudo-random sequences ([phy/common/sequence.c]), the
      scrambling ([phy/scrambling/scrambling.c]) and the seed of the PMCH ([phy/phch/sequences.c]).

    - [RateMatch], [RateMatchTables], [RateMatchCorrect]: the rate matching of the transmitter with
      its tables ([fec/turbo/rm_turbo.c]), what the tables hold, and the bits that are sent.
    - [Sch], [SchCorrect]: the encoder of a transport block ([phch/sch.c]) with its soft buffer
      ([fec/softbuffer.c]): the composition of checksums, segmentation, turbo code and rate
      matching.
    - [Modulation], [ModulationCorrect]: the constellations and the mapping of bits and of packed
      bytes to symbols ([phy/modem/lte_tables.c], [modem_table.c], [mod.c]).
    - [PhyCommon]: cells, subframes and the numbers of resource elements ([phy/common/phy_common.h],
      [phy_common.c]).
    - [Ra], [RaCorrect]: transport block sizes, schemes and the resource elements of a grant
      ([phch/ra.c], [ra_dl.c], [tbs_tables.h]).
    - [MbsfnGrid], [MbsfnGridCorrect]: where the channel and the reference signals of an MBSFN
      subframe are in the resource grid ([phch/prb_dl.c], [pmch.c], [ch_estimation/refsignal_dl.c]).
    - [RefSignal], [RefSignalCorrect]: the generation of the reference signals ([refsignal_dl.c]).
    - [Pmch], [PmchCorrect]: the PMCH encoder with its object and configuration ([phch/pmch.c]),
      called by the worker of the eNodeB ([srsenb/src/phy/lte/cc_worker.cc], [phy/enb/enb_dl.c]):
      the composition of [Sch], [Sequence], [Modulation] and [MbsfnGrid]; and how the decoder of
      the receiver extracts the symbols.
    - [OnAir]: the composition of the MAC scheduler with the PHY: [mac::get_mch_sched] with the block
      sizes of [Ra], and the worker that encodes its PDU.

    ** State, effects and errors

    State is passed explicitly: a record per class, a function per method that returns the new
    record.  A result of type [option] is [None] where the source leaves the bounds of an object
    or is undefined (an access outside of a block, a division by zero, an undefined shift), so
    that a theorem that a function returns [Some] includes memory safety; errors that the source
    reports are values ([bool], [SRSASN_CODE], a sum).  Locks are left out: each method of the
    source holds its lock for its whole body.

    Loops whose recursion is not structural take fuel.  The fuel is the length of what is read
    (headers, PDUs), the number of sequence numbers (the receive window of RLC UM, theorem
    [um_rx_loops_terminate]), or the number of bits or subframes; the theorems state that a
    result is returned, not only what a returned result satisfies.

    Configuration: [mch_config] and [default_rlc_um_config] are the values of
    [rlc_config_t] with the length of the SDU queue, 2048 for the bearers of the broadcast and 256
    for the others; [configure] gives it to a function [resized] that makes the empty queue of a
    length, whose instance for [byte_buffer_queue] is [bbq_resized].

    Parameters: [Libm] (file [Per]) stands for the rounding of [ceilf(log2f(x))] and
    [floorf(log2f(x) + 1)] of the C library, with the laws the encoding relies on; the instance
    [exact_libm] shows that the laws can hold.  The block sizes are
    arguments of the scheduler; [OnAir] passes those that the PHY computes.

    ** Bounds under which the theorems hold

    They are stated with each theorem; those that the code does not enforce are:

    - RLC UM: SDUs of 1 to 2047 bytes, since a longer segment does not fit its length indicator
      ([um_long_segment_li_truncated]), and a PDU with at most 512 length indicators: at most 513
      pending SDUs, or, up to the 2048 of the MCH queue, SDUs of at least 24 bytes, of which a buffer
      holds fewer ([LI_SAFE_SDU]; [um_li_array_overflows] for 514 SDUs of one byte).
    - MAC: an RLC PDU of at most 6118 bytes ([mtch_large_block_lost]); in the composed theorems
      data blocks of at most 6119 bytes, or both cases.
    - Timers: callbacks that leave the other running timers of the wheel position being served
      alone ([behave_quiet]; [stop_in_callback_ignored]).
    - PHY: one port, and all resource blocks of the cell in the area ([pmch_two_ports_fault]); the
      1.25 kHz grid for the whole chain; a receiver that starts at the first symbol.

    ** What is proved

    - The whole path: [broadcast_is_fifo] (in every reachable state of sender and receiver the
      delivered SDUs are those accepted, in order), [broadcast_period_drains] (the number of
      subframes that is announced is enough), with [um_link_is_fifo], [mtch_subframe_delivers],
      [mcch_subframe_announces] and [mch_sched_serves] for its parts.
    - Signalling: [mcch_roundtrip] (the MCCH message is decoded to what was encoded) and
      [sib13_announces_configuration] (a receiver derives the configuration that the eNodeB
      itself uses); [mcch_reaches_receiver] composes them with the
      MCCH subframe of the MAC; [mcch_parts_read_safely] for arbitrary received bytes.
    - Codecs: round trips of GTP-U, RLC UM headers, MAC PDUs and their values, constrained whole
      numbers of the packed encoding rules and PLMN identities; [pack_bytes_equivalent].
    - Invariants and refinement: [um_rx_invariant], [byte_buffer_queue_refines_fifo],
      [um_build_data_pdu_correct], [um_buffer_state_exact], [bsr_report_tight].
    - Subframes: [sf_idx_counts], [pmch_partition].
    - Channel coding: [turbo_lut_agrees] (the byte oriented encoder with tables, which the
      transmitter calls, gives the streams of the bit by bit encoder and checksums that match),
      [crc_checksum_is_remainder], [crc_attach_detects], [segmentation_covers],
      [interleaver_is_permutation], [sequence_is_gold] (the generator with its steps of 24 bits is
      the recurrence of the standard), [pmch_scrambling_undone], [apply_packed_agrees];
      [rate_matching_selects] (the tables and bit copies select what the circular buffer of the
      standard selects) and [dlsch_encodes_transport_block] (the whole encoder writes the coded
      bits of the standard); [modulation_agrees] (the modulators of bits and of bytes, and what
      the latter does where they differ).
    - Subframes of the broadcast on the air: [mcs_gives_encodable_block] (the encoder refuses no
      scheme), [mbsfn_grid_exact] (channel and reference signals fill the grid exactly) and, for
      the whole PHY chain, [pmch_subframe_exact] (the grid holds the coded transport block);
      [mtch_on_air] composes it with the MAC: what RLC gives is in the grid, or, when it is too
      long, nothing is.
    - Timers: [timers_invariant] (lists, states, free list and counters agree in every reachable
      state), [tick_serves_due], [timer_expires_exactly].
    - Errors: [mch_overload_starves], [open_field_skip], [per_constrained_unpack_exact] (which
      received fields give a value outside of its bounds); further lemmas show
      inputs that are refused, and inputs on which the code does not do what it is meant to
      ([mbms_gw_drops], [gtpu_write_refuses], [mtch_large_block_lost], [mbms_gw_read_overflows],
      [gtpu_read_runt_wraps], [mcch_period_256_fails], [per_constrained_truncates],
      [per_mme_id_lost], [mcch_truncated_overreads], [restart_in_callback_short],
      [stop_in_callback_ignored], [assign_leaks], [interleaver_accepts_other_sizes],
      [free_breaks_other_encoders], [apply_packed_short], [bpsk_rest_reads_other_byte],
      [pmch_15khz_starts_early], [pmch_two_ports_fault], [pmch_area_ignored], [clear_sf_overflows]).

    ** Not modelled

    The numerical part of [lib/src/phy] (OFDM, estimation, decoders), radio and
    threads: floating point code and hardware; of the vectorised functions the portable loops are
    modelled.  Unicast: RLC AM, TM and NR, PDCP, the unicast scheduler, RRC connections, S1AP, the
    EPC.  The other generated ASN.1 codecs have the form of the MCCH message and are built from
    the modelled primitives.  Logging, configuration files, sockets and start-up are input and
    output.

    ** Plan

    Next: the receiver's rate matching and the PMCH decoder up to its soft bits; the other
    channels of the cell acquisition subframe; the scheduling of the system information messages;
    the transparent mode of RLC; PDCP. *)

From stdpp Require Import base list gmap numbers.
From coqutil Require Import Z.bitblast.

Local Open Scope Z_scope.

(** ** Machine integers *)

(** Unsigned integers of the source are values of [Z] kept in range by an
    explicit wrap-around after each operation that may leave the range. *)
Definition u8 (x : Z) : Z := x mod 2 ^ 8.
Definition u16 (x : Z) : Z := x mod 2 ^ 16.
Definition u32 (x : Z) : Z := x mod 2 ^ 32.
Definition u64 (x : Z) : Z := x mod 2 ^ 64.

(** Conversion to a 32-bit two's complement [int]. *)
Definition i32 (x : Z) : Z := (x + 2 ^ 31) mod 2 ^ 32 - 2 ^ 31.

Definition is_u8 (x : Z) : Prop := 0 <= x < 2 ^ 8.
Definition is_u16 (x : Z) : Prop := 0 <= x < 2 ^ 16.
Definition is_u32 (x : Z) : Prop := 0 <= x < 2 ^ 32.

(** The RNTI of the MBMS user in the eNodeB. *)
Definition SRSRAN_MRNTI : Z := 0xFFFD.

(** A C truth value of a [bool] stored in an integer. *)
Definition b2z (b : bool) : Z := if b then 1 else 0.

#[export] Instance is_u8_dec x : Decision (is_u8 x).
Proof. unfold is_u8. apply _. Defined.

Lemma u8_id x : is_u8 x -> u8 x = x.
Proof. unfold is_u8, u8. intros. apply Z.mod_small. lia. Qed.

Lemma u16_id x : is_u16 x -> u16 x = x.
Proof. unfold is_u16, u16. intros. apply Z.mod_small. lia. Qed.

Lemma u32_id x : is_u32 x -> u32 x = x.
Proof. unfold is_u32, u32. intros. apply Z.mod_small. lia. Qed.

Lemma i32_id x : - 2 ^ 31 <= x < 2 ^ 31 -> i32 x = x.
Proof. unfold i32. intros. rewrite Z.mod_small by lia. lia. Qed.

Lemma is_u8_mod x : is_u8 (u8 x).
Proof. unfold is_u8, u8. apply Z.mod_pos_bound. lia. Qed.

Lemma is_u32_mod x : is_u32 (u32 x).
Proof. unfold is_u32, u32. apply Z.mod_pos_bound. lia. Qed.

(** ** Byte strings *)

Abbreviation bytes := (list Z).

Definition bytes_ok (l : bytes) : Prop := Forall is_u8 l.

(** Length of a list as an integer: sizes and offsets of the source are
    integers, so statements and definitions use [zlen]. *)
Definition zlen {A} (l : list A) : Z := Z.of_nat (length l).

(** The first [n] elements of [l] and what follows them. *)
Definition ztake {A} (n : Z) (l : list A) : list A := take (Z.to_nat n) l.
Definition zdrop {A} (n : Z) (l : list A) : list A := drop (Z.to_nat n) l.

Section ZLists.
Context {A : Type}.
Implicit Types l : list A.

Lemma zlen_nonneg l : 0 <= zlen l.
Proof. unfold zlen. lia. Qed.

Lemma zlen_nil : zlen (@nil A) = 0.
Proof. reflexivity. Qed.

Lemma zlen_cons x l : zlen (x :: l) = 1 + zlen l.
Proof. unfold zlen. simpl length. lia. Qed.

Lemma zlen_app l1 l2 : zlen (l1 ++ l2) = zlen l1 + zlen l2.
Proof. unfold zlen. rewrite length_app. lia. Qed.

Lemma zlen_0 l : zlen l = 0 -> l = [].
Proof. unfold zlen. destruct l; simpl; [done|lia]. Qed.

Lemma zlen_ztake n l : 0 <= n <= zlen l -> zlen (ztake n l) = n.
Proof. unfold zlen, ztake. intros. rewrite length_take. lia. Qed.

Lemma zlen_zdrop n l : 0 <= n <= zlen l -> zlen (zdrop n l) = zlen l - n.
Proof. unfold zlen, zdrop. intros. rewrite length_drop. lia. Qed.

Lemma ztake_zdrop n l : ztake n l ++ zdrop n l = l.
Proof. apply take_drop. Qed.

Lemma ztake_all n l : zlen l <= n -> ztake n l = l.
Proof. unfold zlen, ztake. intros. apply take_ge. lia. Qed.

Lemma zdrop_all n l : zlen l <= n -> zdrop n l = [].
Proof. unfold zlen, zdrop. intros. apply drop_ge. lia. Qed.

Lemma ztake_0 l : ztake 0 l = [].
Proof. reflexivity. Qed.

Lemma zdrop_0 l : zdrop 0 l = l.
Proof. reflexivity. Qed.

Lemma ztake_app_eq n l1 l2 : zlen l1 = n -> ztake n (l1 ++ l2) = l1.
Proof.
  unfold zlen, ztake. intros <-. rewrite Nat2Z.id. by rewrite take_app_length.
Qed.

Lemma zdrop_app_eq n l1 l2 : zlen l1 = n -> zdrop n (l1 ++ l2) = l2.
Proof.
  unfold zlen, zdrop. intros <-. rewrite Nat2Z.id. by rewrite drop_app_length.
Qed.

Lemma zdrop_zdrop n m l : 0 <= n -> 0 <= m -> zdrop n (zdrop m l) = zdrop (n + m) l.
Proof.
  unfold zdrop. intros. rewrite drop_drop. f_equal. lia.
Qed.
End ZLists.

Lemma bytes_ok_app l1 l2 : bytes_ok (l1 ++ l2) <-> bytes_ok l1 /\ bytes_ok l2.
Proof. apply Forall_app. Qed.

Lemma bytes_ok_ztake n l : bytes_ok l -> bytes_ok (ztake n l).
Proof. apply Forall_take. Qed.

Lemma bytes_ok_zdrop n l : bytes_ok l -> bytes_ok (zdrop n l).
Proof. apply Forall_drop. Qed.

(** ** Memory blocks *)

(** A C array of bytes is the list of its elements.  An access outside of the
    array is [None]: the models of code that would read or write out of bounds
    return [None]. *)
Definition load (m : bytes) (off : Z) : option Z :=
  if off <? 0 then None else m !! Z.to_nat off.

Definition store (m : bytes) (off : Z) (bs : bytes) : option bytes :=
  if (off <? 0) || (zlen m <? off + zlen bs) then None
  else Some (ztake off m ++ bs ++ zdrop (off + zlen bs) m).

Definition load_bytes (m : bytes) (off n : Z) : option bytes :=
  if (off <? 0) || (n <? 0) || (zlen m <? off + n) then None
  else Some (ztake n (zdrop off m)).

Section Memory.
Implicit Types m bs : bytes.

Lemma load_bytes_Some m off n :
  0 <= off -> 0 <= n -> off + n <= zlen m ->
  load_bytes m off n = Some (ztake n (zdrop off m)).
Proof.
  intros. unfold load_bytes.
  destruct (off <? 0) eqn:?, (n <? 0) eqn:?, (zlen m <? off + n) eqn:?; simpl; try lia.
  done.
Qed.

Lemma load_bytes_inv m off n bs :
  load_bytes m off n = Some bs ->
  0 <= off /\ 0 <= n /\ off + n <= zlen m /\ bs = ztake n (zdrop off m) /\ zlen bs = n.
Proof.
  unfold load_bytes. intros H.
  destruct (off <? 0) eqn:?, (n <? 0) eqn:?, (zlen m <? off + n) eqn:?; simpl in H;
    try discriminate.
  injection H as <-. repeat split; try lia.
  rewrite zlen_ztake; [done|]. rewrite zlen_zdrop; lia.
Qed.

Lemma store_Some m off bs :
  0 <= off -> off + zlen bs <= zlen m ->
  store m off bs = Some (ztake off m ++ bs ++ zdrop (off + zlen bs) m).
Proof.
  intros. unfold store.
  destruct (off <? 0) eqn:?, (zlen m <? off + zlen bs) eqn:?; simpl; try lia. done.
Qed.

Lemma store_inv m off bs m' :
  store m off bs = Some m' ->
  0 <= off /\ off + zlen bs <= zlen m /\
  m' = ztake off m ++ bs ++ zdrop (off + zlen bs) m.
Proof.
  unfold store. intros H.
  destruct (off <? 0) eqn:?, (zlen m <? off + zlen bs) eqn:?; simpl in H; try discriminate.
  injection H as <-. repeat split; lia.
Qed.

Lemma store_zlen m off bs m' : store m off bs = Some m' -> zlen m' = zlen m.
Proof.
  intros (?&?&->)%store_inv. pose proof (zlen_nonneg bs).
  rewrite !zlen_app, zlen_ztake, zlen_zdrop; lia.
Qed.

(** What is stored is what is read back. *)
Lemma load_store_in m off bs m' i :
  store m off bs = Some m' -> off <= i < off + zlen bs ->
  load m' i = bs !! Z.to_nat (i - off).
Proof.
  intros (?&?&->)%store_inv ?. unfold load.
  destruct (i <? 0) eqn:?; [lia|].
  assert (Hl : length (ztake off m) = Z.to_nat off).
  { unfold ztake, zlen in *. rewrite length_take. lia. }
  rewrite lookup_app_r by lia. rewrite Hl.
  rewrite lookup_app_l by (unfold zlen in *; lia).
  f_equal. lia.
Qed.

Lemma load_bytes_store_same m off bs m' n :
  store m off bs = Some m' -> n = zlen bs -> load_bytes m' off n = Some bs.
Proof.
  intros Hs ->. pose proof (zlen_nonneg bs). pose proof (store_zlen _ _ _ _ Hs).
  apply store_inv in Hs as (?&?&->).
  rewrite load_bytes_Some by lia.
  rewrite zdrop_app_eq by (apply zlen_ztake; lia). by rewrite ztake_app_eq.
Qed.

(** A store leaves what follows it unchanged. *)
Lemma load_bytes_store_after m off bs m' i n :
  store m off bs = Some m' -> off + zlen bs <= i ->
  load_bytes m' i n = load_bytes m i n.
Proof.
  intros Hs Hi. pose proof (store_zlen _ _ _ _ Hs) as Hlen.
  apply store_inv in Hs as (?&?&->). pose proof (zlen_nonneg bs).
  unfold load_bytes. rewrite Hlen.
  destruct ((i <? 0) || (n <? 0) || (zlen m <? i + n)) eqn:Hb; [done|].
  do 2 f_equal. remember (off + zlen bs) as k eqn:Hk.
  replace (zdrop i (ztake off m ++ bs ++ zdrop k m))
    with (zdrop (i - k) (zdrop k (ztake off m ++ bs ++ zdrop k m)))
    by (rewrite zdrop_zdrop by lia; f_equal; lia).
  rewrite app_assoc, zdrop_app_eq.
  - rewrite zdrop_zdrop by lia. f_equal. lia.
  - rewrite zlen_app, zlen_ztake; lia.
Qed.

Lemma load_bytes_app m off n1 n2 bs1 bs2 :
  load_bytes m off n1 = Some bs1 -> load_bytes m (off + n1) n2 = Some bs2 ->
  load_bytes m off (n1 + n2) = Some (bs1 ++ bs2).
Proof.
  intros (?&?&?&->&?)%load_bytes_inv (?&?&?&->&?)%load_bytes_inv.
  rewrite load_bytes_Some by lia. f_equal.
  rewrite <- (ztake_zdrop n1 (zdrop off m)) at 1.
  unfold ztake at 1. rewrite take_app.
  assert (Hl : length (ztake n1 (zdrop off m)) = Z.to_nat n1).
  { pose proof (zlen_ztake n1 (zdrop off m)) as E. rewrite zlen_zdrop in E by lia.
    unfold zlen in *. lia. }
  rewrite Hl, (take_ge (ztake n1 (zdrop off m))) by lia.
  f_equal. rewrite zdrop_zdrop by lia. unfold ztake, zdrop.
  f_equal; [lia|]. f_equal. lia.
Qed.

Lemma load_of_load_bytes m off n bs i :
  load_bytes m off n = Some bs -> 0 <= i < n -> load m (off + i) = bs !! Z.to_nat i.
Proof.
  intros (?&?&?&->&?)%load_bytes_inv ?. unfold load.
  destruct (off + i <? 0) eqn:?; [lia|]. unfold ztake, zdrop.
  rewrite lookup_take_lt by lia. rewrite lookup_drop. f_equal. lia.
Qed.

(** Reading past a prefix. *)
Lemma load_app_r pre l i : 0 <= i -> load (pre ++ l) (zlen pre + i) = load l i.
Proof.
  intros Hi. unfold load. pose proof (zlen_nonneg pre).
  destruct (Z.ltb_spec (zlen pre + i) 0), (Z.ltb_spec i 0); try lia.
  rewrite lookup_app_r by (unfold zlen; lia). f_equal. unfold zlen. lia.
Qed.

Lemma load_cons_0 x l : load (x :: l) 0 = Some x.
Proof. reflexivity. Qed.

Lemma load_cons_S x l i : 0 < i -> load (x :: l) i = load l (i - 1).
Proof. intros Hi. rewrite <- (load_app_r [x] l (i - 1)) by lia. f_equal. change (zlen [x]) with 1. lia. Qed.

Lemma load_bytes_suffix m off n bs1 bs2 :
  load_bytes m off n = Some (bs1 ++ bs2) ->
  load_bytes m (off + zlen bs1) (n - zlen bs1) = Some bs2.
Proof.
  intros (?&?&?&E&Hz)%load_bytes_inv. rewrite zlen_app in Hz.
  pose proof (zlen_nonneg bs1). pose proof (zlen_nonneg bs2).
  rewrite load_bytes_Some by lia. f_equal.
  rewrite <- (zdrop_app_eq (zlen bs1) bs1 bs2) by done. rewrite E.
  unfold ztake, zdrop. rewrite skipn_firstn_comm, drop_drop.
  f_equal; [lia|]. f_equal. lia.
Qed.
End Memory.

(** ** Bit fields *)

(** Proofs on packed fields of a few bits evaluate the field functions on every
    value: a decidable statement on a bounded range holds if it evaluates to
    [true] everywhere. *)
Definition range_forallb (n : Z) (f : Z -> bool) : bool :=
  forallb f (seqZ 0 n).

Lemma range_forallb_spec n f :
  range_forallb n f = true -> forall x, 0 <= x < n -> f x = true.
Proof.
  unfold range_forallb. rewrite List.forallb_forall. intros H x Hx.
  apply H. apply list_elem_of_In, elem_of_seqZ. lia.
Qed.

(** Reads a tested bit as arithmetic. *)
Lemma land_pow2_testbit x n :
  0 <= n -> negb (Z.land x (2 ^ n) =? 0) = Z.testbit x n.
Proof.
  intros Hn. destruct (Z.testbit x n) eqn:E.
  - destruct (Z.land x (2 ^ n) =? 0) eqn:E2; [|done].
    apply Z.eqb_eq in E2. pose proof (Z.land_spec x (2 ^ n) n) as H.
    rewrite E2, Z.bits_0, E, Z.pow2_bits_true in H by lia. discriminate.
  - replace (Z.land x (2 ^ n)) with 0; [done|]. symmetry.
    apply Z.bits_inj'. intros i Hi. rewrite Z.land_spec, Z.bits_0, Z.pow2_bits_eqb by lia.
    destruct (Z.eqb_spec n i) as [->|]; [by rewrite E|by rewrite andb_false_r].
Qed.

(** Fields below [2 ^ n] are or-ed to a value below [2 ^ n]. *)
Lemma lor_bound n a b :
  0 <= n -> 0 <= a < 2 ^ n -> 0 <= b < 2 ^ n -> 0 <= Z.lor a b < 2 ^ n.
Proof.
  intros Hn Ha Hb.
  replace (Z.lor a b) with (Z.land (Z.lor a b) (Z.ones n)).
  - rewrite Z.land_ones by done. apply Z.mod_pos_bound. lia.
  - rewrite Z.land_lor_distr_l, !Z.land_ones, !Z.mod_small by lia. done.
Qed.

Lemma land_ones_bound n a : 0 <= n -> 0 <= Z.land a (Z.ones n) < 2 ^ n.
Proof. intros. rewrite Z.land_ones by done. apply Z.mod_pos_bound. lia. Qed.

(** ** Automation *)

(** Splits every conditional and option match of the hypotheses and closes the
    absurd branches: the usual first step of an inversion of a model
    function. *)
Ltac inv_opt :=
  repeat match goal with
  | H : None = Some _ |- _ => discriminate H
  | H : Some _ = None |- _ => discriminate H
  | H : Some _ = Some _ |- _ => injection H as H; try subst
  | H : (_, _) = (_, _) |- _ => injection H as H; try subst
  | H : (match ?x with Some _ => _ | None => _ end) = Some _ |- _ =>
      destruct x eqn:?; [|discriminate H]
  | H : (?x ≫= _) = Some _ |- _ => destruct x eqn:?; simpl in H; [|discriminate H]
  end.

(** Reads boolean tests as propositions and calls [lia]. *)
Ltac zify_bools :=
  repeat match goal with
  | H : (_ && _) = true |- _ => apply andb_true_iff in H as [? ?]
  | H : (_ || _) = false |- _ => apply orb_false_iff in H as [? ?]
  | H : negb _ = true |- _ => apply negb_true_iff in H
  | H : negb _ = false |- _ => apply negb_false_iff in H
  end.

Ltac blia := zify_bools; lia.

(** Case analysis on the first conditional of the goal. *)
Ltac case_if :=
  match goal with
  | |- context [if ?b then _ else _] => destruct b eqn:?
  end.

Create HintDb mbms.
#[export] Hint Resolve u8_id u16_id u32_id is_u8_mod is_u32_mod zlen_nonneg : mbms.
#[export] Hint Resolve bytes_ok_ztake bytes_ok_zdrop : mbms.
