(* ===== verification/ByteBuffer.v ===== *)
(** * Byte buffers and byte-order helpers

    [lib/include/srsran/common/byte_buffer.h] (class [byte_buffer_t]) and
    [lib/include/srsran/common/int_helpers.h].  The buffer keeps its whole
    memory block, the position of [msg] in it and the number of valid bytes, so
    that headroom, tailroom and out-of-bounds accesses are those of the code. *)

From stdpp Require Import base list gmap numbers.
From coqutil Require Import Z.bitblast.
From S2P Require Import Prelude.

Local Open Scope Z_scope.

(** ** Constants of [common.h] *)

Definition SRSRAN_MAX_TBSIZE_BITS : Z := 97896.
Definition SRSRAN_BUFFER_HEADER_OFFSET : Z := 1020.
Definition SRSRAN_MAX_BUFFER_SIZE_BYTES : Z :=
  SRSRAN_MAX_TBSIZE_BITS / 8 + SRSRAN_BUFFER_HEADER_OFFSET.

(** ** The buffer *)

(** [buffer] is the memory block, [msg] the offset of the pointer [msg] in it.
    Of the metadata only [pdcp_sn] is kept: the timestamp is a clock value that
    no decision of the modelled code depends on. *)
Record byte_buffer_t := mk_byte_buffer {
  N_bytes : Z;
  buffer : bytes;
  msg : Z;
  md_pdcp_sn : Z
}.

(** The constructor: the block [mem] is whatever the allocator returned. *)
Definition byte_buffer_new (mem : bytes) : byte_buffer_t :=
  mk_byte_buffer 0 mem SRSRAN_BUFFER_HEADER_OFFSET 0.

Definition byte_buffer_clear (b : byte_buffer_t) : byte_buffer_t :=
  mk_byte_buffer 0 (buffer b) SRSRAN_BUFFER_HEADER_OFFSET 0.

Definition get_headroom (b : byte_buffer_t) : Z := u32 (msg b).

Definition get_tailroom (b : byte_buffer_t) : Z :=
  u32 (SRSRAN_MAX_BUFFER_SIZE_BYTES - msg b - N_bytes b).

Definition append_bytes (b : byte_buffer_t) (buf : bytes) : option byte_buffer_t :=
  m ← store (buffer b) (msg b + N_bytes b) buf;
  Some (mk_byte_buffer (u32 (N_bytes b + zlen buf)) m (msg b) (md_pdcp_sn b)).

(** The copy constructor and the assignment operator copy the valid bytes to
    the header offset of the destination block [mem]. *)
Definition byte_buffer_copy (mem : bytes) (src : byte_buffer_t) : option byte_buffer_t :=
  d ← load_bytes (buffer src) (msg src) (N_bytes src);
  m ← store mem SRSRAN_BUFFER_HEADER_OFFSET d;
  Some (mk_byte_buffer (N_bytes src) m SRSRAN_BUFFER_HEADER_OFFSET (md_pdcp_sn src)).

(** The bytes a buffer holds: [msg[0] .. msg[N_bytes-1]]. *)
Definition contents (b : byte_buffer_t) : option bytes :=
  load_bytes (buffer b) (msg b) (N_bytes b).

(** Type invariant: the block has its size, [msg] and the valid bytes are in it. *)
Record bb_wf (b : byte_buffer_t) : Prop := {
  bb_block : zlen (buffer b) = SRSRAN_MAX_BUFFER_SIZE_BYTES;
  bb_msg : 0 <= msg b;
  bb_nbytes : 0 <= N_bytes b;
  bb_fits : msg b + N_bytes b <= SRSRAN_MAX_BUFFER_SIZE_BYTES
}.

Ltac bb_consts :=
  unfold SRSRAN_MAX_BUFFER_SIZE_BYTES, SRSRAN_MAX_TBSIZE_BITS,
    SRSRAN_BUFFER_HEADER_OFFSET in *;
  change (97896 / 8 + 1020) with 13257 in *.

Lemma get_headroom_wf b : bb_wf b -> get_headroom b = msg b.
Proof.
  intros []. apply u32_id. unfold is_u32. bb_consts. lia.
Qed.

Lemma get_tailroom_wf b :
  bb_wf b -> get_tailroom b = SRSRAN_MAX_BUFFER_SIZE_BYTES - msg b - N_bytes b.
Proof.
  intros []. apply u32_id. unfold is_u32. bb_consts. lia.
Qed.

Lemma bb_wf_contents b :
  bb_wf b -> exists d, contents b = Some d /\ zlen d = N_bytes b.
Proof.
  intros []. unfold contents. rewrite load_bytes_Some by (bb_consts; lia).
  eexists; split; [done|]. apply zlen_ztake. rewrite zlen_zdrop; bb_consts; lia.
Qed.

Lemma byte_buffer_clear_wf b : bb_wf b -> bb_wf (byte_buffer_clear b).
Proof. intros []. constructor; simpl; bb_consts; lia. Qed.

(** Appending within the tailroom succeeds, keeps the invariant and extends the
    contents. *)
Lemma append_bytes_spec b buf d :
  bb_wf b -> contents b = Some d -> zlen buf <= get_tailroom b ->
  exists b', append_bytes b buf = Some b' /\ bb_wf b' /\
    contents b' = Some (d ++ buf) /\ N_bytes b' = N_bytes b + zlen buf /\ msg b' = msg b.
Proof.
  intros Hwf Hd Ht. rewrite get_tailroom_wf in Ht by done. destruct Hwf as [Hl Hm Hn Hf].
  pose proof (zlen_nonneg buf). unfold append_bytes.
  destruct (store _ _ _) as [m|] eqn:Hs; [|rewrite store_Some in Hs by lia; discriminate].
  simpl. eexists; split; [done|]. pose proof (store_zlen _ _ _ _ Hs).
  assert (Hu : u32 (N_bytes b + zlen buf) = N_bytes b + zlen buf).
  { apply u32_id. unfold is_u32. bb_consts. lia. }
  rewrite Hu. split; [constructor; simpl; lia|]. split; [|done].
  unfold contents; simpl. apply load_bytes_app.
  - unfold contents in Hd. rewrite <- Hd. apply store_inv in Hs as (?&?&->).
    rewrite !load_bytes_Some by
      (try lia; rewrite !zlen_app, zlen_ztake, ?zlen_zdrop by lia; lia).
    f_equal. unfold ztake, zdrop in *.
    rewrite drop_app_le by (rewrite length_take; unfold zlen in *; lia).
    rewrite take_app_le by (rewrite length_drop, length_take; unfold zlen in *; lia).
    rewrite <- (take_drop (Z.to_nat (msg b + N_bytes b)) (buffer b)) at 2.
    rewrite drop_app_le by (rewrite length_take; unfold zlen in *; lia).
    rewrite take_app_le by (rewrite length_drop, length_take; unfold zlen in *; lia).
    done.
  - by apply (load_bytes_store_same _ _ _ _ _ Hs).
Qed.

(** Writing a header in front of the contents: [msg] moves back by the header's
    length and the header is stored there. *)
Lemma prepend_spec b hdr d :
  bb_wf b -> contents b = Some d -> zlen hdr <= msg b ->
  exists m, store (buffer b) (msg b - zlen hdr) hdr = Some m /\
    bb_wf (mk_byte_buffer (u32 (N_bytes b + zlen hdr)) m (msg b - zlen hdr) (md_pdcp_sn b)) /\
    contents (mk_byte_buffer (u32 (N_bytes b + zlen hdr)) m (msg b - zlen hdr) (md_pdcp_sn b))
      = Some (hdr ++ d) /\
    u32 (N_bytes b + zlen hdr) = N_bytes b + zlen hdr.
Proof.
  intros [Hl Hm Hn Hf] Hd Hh. pose proof (zlen_nonneg hdr).
  destruct (store _ _ _) as [m|] eqn:Hs; [|rewrite store_Some in Hs by lia; discriminate].
  eexists; split; [done|]. pose proof (store_zlen _ _ _ _ Hs).
  assert (Hu : u32 (N_bytes b + zlen hdr) = N_bytes b + zlen hdr).
  { apply u32_id. unfold is_u32. bb_consts. lia. }
  rewrite Hu. split; [constructor; simpl; lia|]. split; [|done].
  unfold contents in *; simpl. rewrite Z.add_comm. apply load_bytes_app.
  - by apply (load_bytes_store_same _ _ _ _ _ Hs).
  - rewrite (load_bytes_store_after _ _ _ _ _ _ Hs) by lia. by rewrite Z.sub_add.
Qed.

(** Dropping a prefix of the contents. *)
Lemma consume_spec b hdr d :
  bb_wf b -> contents b = Some (hdr ++ d) ->
  bb_wf (mk_byte_buffer (u32 (N_bytes b - zlen hdr)) (buffer b) (msg b + zlen hdr) (md_pdcp_sn b)) /\
  contents (mk_byte_buffer (u32 (N_bytes b - zlen hdr)) (buffer b) (msg b + zlen hdr) (md_pdcp_sn b))
    = Some d.
Proof.
  intros [Hl Hm Hn Hf] Hd. pose proof (zlen_nonneg hdr). pose proof (zlen_nonneg d).
  unfold contents in *. pose proof (load_bytes_inv _ _ _ _ Hd) as (_&_&_&_&Hz).
  rewrite zlen_app in Hz.
  assert (Hu : u32 (N_bytes b - zlen hdr) = N_bytes b - zlen hdr).
  { apply u32_id. unfold is_u32. bb_consts. lia. }
  rewrite Hu. split; [constructor; simpl; lia|]. simpl. by apply load_bytes_suffix.
Qed.

(** A buffer that holds [d] at the header offset of a zeroed block: used by the
    evaluations on concrete inputs. *)
Definition buffer_with (d : bytes) : byte_buffer_t :=
  mk_byte_buffer (zlen d)
    (repeat 0 (Z.to_nat SRSRAN_BUFFER_HEADER_OFFSET) ++ d ++
     repeat 0 (Z.to_nat (SRSRAN_MAX_BUFFER_SIZE_BYTES - SRSRAN_BUFFER_HEADER_OFFSET - zlen d)))
    SRSRAN_BUFFER_HEADER_OFFSET 0.

Lemma buffer_with_spec d :
  zlen d <= SRSRAN_MAX_BUFFER_SIZE_BYTES - SRSRAN_BUFFER_HEADER_OFFSET ->
  bb_wf (buffer_with d) /\ contents (buffer_with d) = Some d.
Proof.
  intros Hd. pose proof (zlen_nonneg d). bb_consts.
  assert (Hr : forall n, 0 <= n -> zlen (repeat 0 (Z.to_nat n)) = n).
  { intros n Hn. unfold zlen. rewrite repeat_length. lia. }
  assert (Hl : zlen (buffer (buffer_with d)) = 13257).
  { unfold buffer_with. bb_consts. cbn [buffer]. rewrite !zlen_app, !Hr by lia. lia. }
  split.
  - constructor; [rewrite Hl|..]; unfold buffer_with; bb_consts; cbn [msg N_bytes]; lia.
  - unfold contents. rewrite load_bytes_Some; [|unfold buffer_with; bb_consts; cbn [msg N_bytes]; lia..
      |rewrite Hl; unfold buffer_with; bb_consts; cbn [msg N_bytes]; lia].
    unfold buffer_with; bb_consts; cbn [msg N_bytes buffer].
    rewrite zdrop_app_eq by (apply Hr; lia). by rewrite ztake_app_eq.
Qed.

(** ** Byte order helpers of [int_helpers.h] *)

Definition uint8_to_uint32 (b0 b1 b2 b3 : Z) : Z :=
  Z.lor (Z.lor (Z.lor (Z.shiftl b0 24) (Z.shiftl b1 16)) (Z.shiftl b2 8)) b3.

Definition uint32_to_uint8 (i : Z) : bytes :=
  [Z.land (Z.shiftr i 24) 0xFF; Z.land (Z.shiftr i 16) 0xFF;
   Z.land (Z.shiftr i 8) 0xFF; Z.land i 0xFF].

Definition uint8_to_uint16 (b0 b1 : Z) : Z :=
  u16 (Z.lor (Z.shiftl b0 8) b1).

Definition uint16_to_uint8 (i : Z) : bytes :=
  [Z.land (Z.shiftr i 8) 0xFF; Z.land i 0xFF].

Definition uint8_to_uint24 (b0 b1 b2 : Z) : Z :=
  Z.lor (Z.lor (Z.shiftl b0 16) (Z.shiftl b1 8)) b2.

Definition uint24_to_uint8 (i : Z) : bytes :=
  [Z.land (Z.shiftr i 16) 0xFF; Z.land (Z.shiftr i 8) 0xFF; Z.land i 0xFF].

(** A value below [2^w] is its own low [w] bits. *)
Lemma low_bits_id w x : 0 <= w -> 0 <= x < 2 ^ w -> Z.land x (Z.ones w) = x.
Proof. intros. rewrite Z.land_ones by lia. by apply Z.mod_small. Qed.

Lemma uint32_roundtrip i :
  is_u32 i ->
  match uint32_to_uint8 i with
  | [b0; b1; b2; b3] => uint8_to_uint32 b0 b1 b2 b3 = i
  | _ => False
  end.
Proof.
  intros Hi. simpl. unfold uint8_to_uint32. symmetry. rewrite <- (low_bits_id 32 i) at 1 by (done || lia).
  change 0xFF with (Z.ones 8). Z.bitblast.
Qed.

Lemma uint24_roundtrip i :
  0 <= i < 2 ^ 24 ->
  match uint24_to_uint8 i with
  | [b0; b1; b2] => uint8_to_uint24 b0 b1 b2 = i
  | _ => False
  end.
Proof.
  intros Hi. simpl. unfold uint8_to_uint24. symmetry. rewrite <- (low_bits_id 24 i) at 1 by (done || lia).
  change 0xFF with (Z.ones 8). Z.bitblast.
Qed.

Lemma uint16_roundtrip i :
  is_u16 i ->
  match uint16_to_uint8 i with
  | [b0; b1] => uint8_to_uint16 b0 b1 = i
  | _ => False
  end.
Proof.
  intros Hi. simpl. unfold uint8_to_uint16, u16. symmetry. rewrite <- (low_bits_id 16 i) at 1 by (done || lia).
  rewrite <- Z.land_ones by lia. change 0xFF with (Z.ones 8). Z.bitblast.
Qed.
