(* ===== verification/Gtpu.v ===== *)
(** * GTP-U header packing and the M1-U leg of the broadcast path

    [lib/src/gtpu/gtpu.cc], [lib/include/srsran/upper/gtpu.h]: header pack and
    unpack.  [srsepc/src/mbms-gw/mbms-gw.cc]: the MBMS gateway's handling of one
    packet of the SGi-mb interface.  [srsenb/src/stack/upper/gtpu.cc]: the
    eNodeB's M1-U receive handler. *)

From stdpp Require Import base list gmap numbers.
From S2P Require Import Prelude ByteBuffer.

Local Open Scope Z_scope.

(** ** Constants *)

Definition GTPU_BASE_HEADER_LEN : Z := 8.
Definition GTPU_EXTENDED_HEADER_LEN : Z := 12.
Definition GTPU_FLAGS_VERSION_MASK : Z := 0xE0.
Definition GTPU_FLAGS_VERSION_V1 : Z := 0x20.
Definition GTPU_FLAGS_GTP_PROTOCOL : Z := 0x10.
Definition GTPU_FLAGS_EXTENDED_HDR : Z := 0x04.
Definition GTPU_FLAGS_SEQUENCE : Z := 0x02.
Definition GTPU_FLAGS_PACKET_NUM : Z := 0x01.
Definition GTPU_MSG_ECHO_REQUEST : Z := 1.
Definition GTPU_MSG_ECHO_RESPONSE : Z := 2.
Definition GTPU_MSG_ERROR_INDICATION : Z := 26.
Definition GTPU_MSG_END_MARKER : Z := 254.
Definition GTPU_MSG_DATA_PDU : Z := 255.
Definition GTPU_EXT_HEADER_PDCP_PDU_NUMBER : Z := 0xC0.
Definition GTPU_EXT_HEADER_PDU_SESSION_CONTAINER : Z := 0x85.
Definition GTPU_EXT_HEADER_PDU_SESSION_CONTAINER_LEN : Z := 4.
Definition HEADER_PDCP_PDU_NUMBER_SIZE : Z := 4.

(** ** Header *)

Record gtpu_header_t := mk_gtpu_header {
  flags : Z;
  message_type : Z;
  length_ : Z;
  teid : Z;
  seq_number : Z;
  n_pdu : Z;
  next_ext_hdr_type : Z;
  ext_buffer : bytes
}.

Definition gtpu_header_default : gtpu_header_t := mk_gtpu_header 0 0 0 0 0 0 0 [].

Definition set_length (h : gtpu_header_t) (l : Z) : gtpu_header_t :=
  mk_gtpu_header (flags h) (message_type h) l (teid h) (seq_number h) (n_pdu h)
    (next_ext_hdr_type h) (ext_buffer h).

Definition set_n_pdu (h : gtpu_header_t) (n : Z) : gtpu_header_t :=
  mk_gtpu_header (flags h) (message_type h) (length_ h) (teid h) (seq_number h) n
    (next_ext_hdr_type h) (ext_buffer h).

Definition set_ext_buffer (h : gtpu_header_t) (e : bytes) : gtpu_header_t :=
  mk_gtpu_header (flags h) (message_type h) (length_ h) (teid h) (seq_number h) (n_pdu h)
    (next_ext_hdr_type h) e.

(** [x & mask] used as a condition. *)
Definition has_flag (x mask : Z) : bool := negb (Z.land x mask =? 0).

Definition gtpu_supported_flags_check (header : gtpu_header_t) : bool :=
  if negb (Z.land (flags header) GTPU_FLAGS_VERSION_MASK =? GTPU_FLAGS_VERSION_V1) then false
  else if negb (has_flag (flags header) GTPU_FLAGS_GTP_PROTOCOL) then false
  else if has_flag (flags header) GTPU_FLAGS_PACKET_NUM then false
  else true.

Definition gtpu_supported_msg_type_check (header : gtpu_header_t) : bool :=
  let t := message_type header in
  if negb (t =? GTPU_MSG_DATA_PDU) && negb (t =? GTPU_MSG_ECHO_REQUEST) &&
     negb (t =? GTPU_MSG_ECHO_RESPONSE) && negb (t =? GTPU_MSG_ERROR_INDICATION) &&
     negb (t =? GTPU_MSG_END_MARKER)
  then false else true.

(** If E, S or PN are set, the header is longer. *)
Definition long_header (header : gtpu_header_t) : bool :=
  has_flag (flags header)
    (Z.lor (Z.lor GTPU_FLAGS_EXTENDED_HDR GTPU_FLAGS_SEQUENCE) GTPU_FLAGS_PACKET_NUM).

(** [pdu->msg -= n; pdu->N_bytes += n]. *)
Definition grow_front (pdu : byte_buffer_t) (n : Z) : byte_buffer_t :=
  mk_byte_buffer (u32 (N_bytes pdu + n)) (buffer pdu) (msg pdu - n) (md_pdcp_sn pdu).

(** [pdu->msg += n; pdu->N_bytes -= n]. *)
Definition shrink_front (pdu : byte_buffer_t) (n : Z) : byte_buffer_t :=
  mk_byte_buffer (u32 (N_bytes pdu - n)) (buffer pdu) (msg pdu + n) (md_pdcp_sn pdu).

(** The mandatory fields, in the order they are written. *)
Definition mandatory_fields (header : gtpu_header_t) : bytes :=
  [flags header; message_type header] ++ uint16_to_uint8 (length_ header) ++
  uint32_to_uint8 (teid header).

(** The optional fields, in the order they are written. *)
Definition optional_fields (header : gtpu_header_t) : bytes :=
  (if has_flag (flags header) GTPU_FLAGS_SEQUENCE
   then uint16_to_uint8 (seq_number header) else uint16_to_uint8 0) ++
  [if has_flag (flags header) GTPU_FLAGS_PACKET_NUM then n_pdu header else 0] ++
  (if has_flag (flags header) GTPU_FLAGS_EXTENDED_HDR
   then next_ext_hdr_type header :: ext_buffer header else [0]).

(** ** [gtpu_write_header]

    The result holds the returned flag, the header (the code updates its length
    and [n_pdu]) and the buffer; [None] is an access outside of the buffer. *)
Definition gtpu_write_header (header : gtpu_header_t) (pdu : byte_buffer_t)
  : option (bool * gtpu_header_t * byte_buffer_t) :=
  if negb (gtpu_supported_flags_check header) then Some (false, header, pdu)
  else if negb (gtpu_supported_msg_type_check header) then Some (false, header, pdu)
  else if long_header header then
    if get_headroom pdu <? GTPU_EXTENDED_HEADER_LEN then Some (false, header, pdu)
    else
      let pdu1 := grow_front pdu GTPU_EXTENDED_HEADER_LEN in
      let h1 := set_length header
                  (u16 (length_ header + (GTPU_EXTENDED_HEADER_LEN - GTPU_BASE_HEADER_LEN))) in
      let ext := zlen (ext_buffer header) in
      let '(pdu2, h2) :=
        if 0 <? next_ext_hdr_type header
        then (grow_front pdu1 ext, set_length h1 (u16 (length_ h1 + ext)))
        else (pdu1, h1) in
      m ← store (buffer pdu2) (msg pdu2) (mandatory_fields h2 ++ optional_fields h2);
      let h3 := if has_flag (flags header) GTPU_FLAGS_PACKET_NUM then h2 else set_n_pdu h2 0 in
      Some (true, h3, mk_byte_buffer (N_bytes pdu2) m (msg pdu2) (md_pdcp_sn pdu2))
  else
    if get_headroom pdu <? GTPU_BASE_HEADER_LEN then Some (false, header, pdu)
    else
      let pdu1 := grow_front pdu GTPU_BASE_HEADER_LEN in
      m ← store (buffer pdu1) (msg pdu1) (mandatory_fields header);
      Some (true, header, mk_byte_buffer (N_bytes pdu1) m (msg pdu1) (md_pdcp_sn pdu1)).

(** ** [gtpu_read_ext_header]

    [ptr] is the offset of the first byte after the optional fields. *)
Definition gtpu_read_ext_header (pdu : byte_buffer_t) (ptr : Z) (header : gtpu_header_t)
  : option (bool * gtpu_header_t * byte_buffer_t) :=
  if (Z.land (flags header) GTPU_FLAGS_EXTENDED_HDR =? 0) || (next_ext_hdr_type header =? 0)
  then Some (true, header, pdu)
  else if next_ext_hdr_type header =? GTPU_EXT_HEADER_PDCP_PDU_NUMBER then
    e ← load_bytes (buffer pdu) ptr HEADER_PDCP_PDU_NUMBER_SIZE;
    Some (true, set_ext_buffer header e, shrink_front pdu HEADER_PDCP_PDU_NUMBER_SIZE)
  else if next_ext_hdr_type header =? GTPU_EXT_HEADER_PDU_SESSION_CONTAINER then
    Some (true, header, shrink_front pdu GTPU_EXT_HEADER_PDU_SESSION_CONTAINER_LEN)
  else Some (false, header, pdu).

(** ** [gtpu_read_header]

    [header] is updated in place by the code: fields that a short header does not
    carry keep their previous value. *)
Definition gtpu_read_header (pdu : byte_buffer_t) (header : gtpu_header_t)
  : option (bool * gtpu_header_t * byte_buffer_t) :=
  let at_ i := load (buffer pdu) (msg pdu + i) in
  f ← at_ 0; t ← at_ 1; l0 ← at_ 2; l1 ← at_ 3;
  t0 ← at_ 4; t1 ← at_ 5; t2 ← at_ 6; t3 ← at_ 7;
  let h1 := mk_gtpu_header f t (uint8_to_uint16 l0 l1) (uint8_to_uint32 t0 t1 t2 t3)
              (seq_number header) (n_pdu header) (next_ext_hdr_type header)
              (ext_buffer header) in
  if negb (gtpu_supported_flags_check h1) then Some (false, h1, pdu)
  else if negb (gtpu_supported_msg_type_check h1) then Some (false, h1, pdu)
  else if long_header h1 then
    let pdu1 := shrink_front pdu GTPU_EXTENDED_HEADER_LEN in
    s0 ← at_ 8; s1 ← at_ 9; np ← at_ 10; ne ← at_ 11;
    let h2 := mk_gtpu_header f t (length_ h1) (teid h1) (uint8_to_uint16 s0 s1) np ne
                (ext_buffer header) in
    gtpu_read_ext_header pdu1 (msg pdu + 12) h2
  else Some (true, h1, shrink_front pdu GTPU_BASE_HEADER_LEN).

(** ** The MBMS gateway: [mbms_gw::handle_sgi_md_pdu] *)

Definition mbms_gw_header (msg_ : byte_buffer_t) : gtpu_header_t :=
  mk_gtpu_header (Z.lor GTPU_FLAGS_VERSION_V1 GTPU_FLAGS_GTP_PROTOCOL) GTPU_MSG_DATA_PDU
    (u16 (N_bytes msg_)) 0xAAAA 0 0 0 [].

(** The result is the datagram handed to [sendto], if any, and the buffer.  The
    [version] field of [struct iphdr] is the high nibble of the first byte. *)
Definition handle_sgi_md_pdu (msg_ : byte_buffer_t)
  : option (option bytes * byte_buffer_t) :=
  let header := mbms_gw_header msg_ in
  if N_bytes msg_ <? 20 then Some (None, msg_)
  else
    b0 ← load (buffer msg_) (msg msg_);
    if negb (Z.shiftr b0 4 =? 4) then Some (None, msg_)
    else
      (* a failed header write is reported on the console and the packet is sent
         all the same *)
      '(_, _, msg1) ← gtpu_write_header header msg_;
      d ← load_bytes (buffer msg1) (msg msg1) (N_bytes msg1);
      Some (Some d, msg1).

(** One turn of the loop of [mbms_gw::run_thread] when [read] returns the packet
    [pkt]: [read] may return up to [SRSRAN_MAX_BUFFER_SIZE_BYTES] bytes and
    writes them at [msg]. *)
Definition mbms_gw_run_once (msg_ : byte_buffer_t) (pkt : bytes)
  : option (option bytes * byte_buffer_t) :=
  let m0 := byte_buffer_clear msg_ in
  let data := ztake SRSRAN_MAX_BUFFER_SIZE_BYTES pkt in
  m ← store (buffer m0) (msg m0) data;
  handle_sgi_md_pdu (mk_byte_buffer (zlen data) m (msg m0) (md_pdcp_sn m0)).

(** ** The eNodeB's M1-U handler: [gtpu::m1u_handler::handle_rx_packet]

    The result is the call made to [pdcp->write_sdu]: RNTI, bearer and SDU.  The
    code ignores the value [gtpu_read_header] returns. *)
Definition m1u_handle_rx_packet (bearer_counter : Z) (pdu : byte_buffer_t)
  : option (Z * Z * byte_buffer_t) :=
  '(_, _, pdu1) ← gtpu_read_header pdu gtpu_header_default;
  Some (SRSRAN_MRNTI, bearer_counter, pdu1).

(** ** Properties *)

Record gtpu_header_ok (h : gtpu_header_t) : Prop := {
  ok_flags : is_u8 (flags h);
  ok_type : is_u8 (message_type h);
  ok_length : is_u16 (length_ h);
  ok_teid : is_u32 (teid h);
  ok_seq : is_u16 (seq_number h);
  ok_n_pdu : is_u8 (n_pdu h);
  ok_next : is_u8 (next_ext_hdr_type h);
  ok_ext : bytes_ok (ext_buffer h)
}.

(** The extension header announced is one that both sides handle: with the E
    flag the PDCP PDU number with its 4 bytes or none, without it none. *)
Definition ext_consistent (h : gtpu_header_t) : Prop :=
  if has_flag (flags h) GTPU_FLAGS_EXTENDED_HDR
  then (next_ext_hdr_type h = GTPU_EXT_HEADER_PDCP_PDU_NUMBER /\ zlen (ext_buffer h) = 4) \/
       (next_ext_hdr_type h = 0 /\ ext_buffer h = [])
  else next_ext_hdr_type h = 0 /\ ext_buffer h = [].

(** The number of bytes the header takes on the wire. *)
Definition gtpu_header_size (h : gtpu_header_t) : Z :=
  if long_header h then GTPU_EXTENDED_HEADER_LEN + zlen (ext_buffer h)
  else GTPU_BASE_HEADER_LEN.

(** What the writer puts in the length field. *)
Definition wire_length (h : gtpu_header_t) : Z :=
  if long_header h then length_ h + 4 + zlen (ext_buffer h) else length_ h.

(** The bytes of the header on the wire. *)
Definition gtpu_wire (h : gtpu_header_t) : bytes :=
  let h' := set_length h (wire_length h) in
  mandatory_fields h' ++ (if long_header h then optional_fields h' else []).

(** The header the reader recovers: the sequence number is only carried with the
    S flag, the packet number never. *)
Definition gtpu_received (h : gtpu_header_t) : gtpu_header_t :=
  mk_gtpu_header (flags h) (message_type h) (wire_length h) (teid h)
    (if has_flag (flags h) GTPU_FLAGS_SEQUENCE then seq_number h else 0)
    0 (next_ext_hdr_type h) (ext_buffer h).

Lemma supported_flags_inv h :
  gtpu_supported_flags_check h = true ->
  has_flag (flags h) GTPU_FLAGS_PACKET_NUM = false.
Proof.
  unfold gtpu_supported_flags_check. intros H.
  destruct (negb _); [discriminate|]. destruct (negb _); [discriminate|].
  by destruct (has_flag _ GTPU_FLAGS_PACKET_NUM).
Qed.

(** A header is long when the E or the S flag is set, [PN] being refused. *)
Lemma long_header_cases h :
  is_u8 (flags h) -> gtpu_supported_flags_check h = true ->
  long_header h = has_flag (flags h) GTPU_FLAGS_EXTENDED_HDR || has_flag (flags h) GTPU_FLAGS_SEQUENCE.
Proof.
  intros Hf Hc. apply supported_flags_inv in Hc. unfold long_header.
  pose proof (range_forallb_spec 256
    (fun f => has_flag f GTPU_FLAGS_PACKET_NUM ||
      Bool.eqb (has_flag f (Z.lor (Z.lor GTPU_FLAGS_EXTENDED_HDR GTPU_FLAGS_SEQUENCE) GTPU_FLAGS_PACKET_NUM))
        (has_flag f GTPU_FLAGS_EXTENDED_HDR || has_flag f GTPU_FLAGS_SEQUENCE))
    ltac:(vm_compute; reflexivity) (flags h)) as H.
  specialize (H ltac:(unfold is_u8 in *; lia)). cbv beta in H. rewrite Hc in H. simpl in H.
  by apply Bool.eqb_prop in H.
Qed.

Lemma zlen_uint16 i : zlen (uint16_to_uint8 i) = 2.
Proof. reflexivity. Qed.

Lemma zlen_gtpu_wire h :
  is_u8 (flags h) -> gtpu_supported_flags_check h = true -> ext_consistent h ->
  zlen (gtpu_wire h) = gtpu_header_size h.
Proof.
  intros Hf Hc He. unfold gtpu_wire, gtpu_header_size, ext_consistent in *.
  pose proof (long_header_cases h Hf Hc) as Hl.
  destruct (long_header h); [|reflexivity].
  rewrite zlen_app. change (zlen (mandatory_fields _)) with 8. unfold optional_fields; simpl.
  destruct (has_flag (flags h) GTPU_FLAGS_SEQUENCE), (has_flag (flags h) GTPU_FLAGS_EXTENDED_HDR);
    try discriminate; rewrite ?zlen_app, ?zlen_cons, ?zlen_uint16, ?zlen_nil;
    unfold GTPU_EXTENDED_HEADER_LEN; try lia; destruct He as [_ ->]; reflexivity.
Qed.

(** The writer puts [gtpu_wire h] in front of the payload. *)
Lemma gtpu_write_spec h pdu d :
  gtpu_header_ok h -> gtpu_supported_flags_check h = true ->
  gtpu_supported_msg_type_check h = true -> ext_consistent h -> wire_length h < 2 ^ 16 ->
  bb_wf pdu -> contents pdu = Some d -> gtpu_header_size h <= msg pdu ->
  exists h' pdu', gtpu_write_header h pdu = Some (true, h', pdu') /\ bb_wf pdu' /\
    contents pdu' = Some (gtpu_wire h ++ d) /\ length_ h' = wire_length h.
Proof.
  intros Hok Hfl Hty Hext Hwl Hwf Hd Hroom.
  pose proof (zlen_gtpu_wire h (ok_flags _ Hok) Hfl Hext) as Hz.
  pose proof (zlen_nonneg (ext_buffer h)) as Hext0. pose proof (ok_length _ Hok) as Hlen.
  destruct (prepend_spec pdu (gtpu_wire h) d Hwf Hd ltac:(lia)) as (m & Hs & Hwf' & Hd' & Hu).
  unfold gtpu_write_header. rewrite Hfl, Hty, get_headroom_wf by done. simpl negb. cbv iota.
  rewrite (supported_flags_inv _ Hfl).
  unfold gtpu_wire, gtpu_header_size, wire_length, is_u16 in *. rewrite Hz in *.
  destruct (long_header h) eqn:Hlong; unfold GTPU_EXTENDED_HEADER_LEN, GTPU_BASE_HEADER_LEN in *.
  - destruct (Z.ltb_spec (msg pdu) 12); [lia|].
    assert (Hnext : (0 <? next_ext_hdr_type h) = false -> zlen (ext_buffer h) = 0).
    { unfold ext_consistent in Hext. intros Hn. destruct (has_flag _ _);
        [destruct Hext as [[E _]|[_ ->]]|destruct Hext as [_ ->]]; try done.
      rewrite E in Hn. discriminate. }
    set (h2 := set_length h (length_ h + 4 + zlen (ext_buffer h))) in *.
    assert (E : (if 0 <? next_ext_hdr_type h
      then (grow_front (grow_front pdu 12) (zlen (ext_buffer h)),
            set_length (set_length h (u16 (length_ h + (12 - 8))))
              (u16 (length_ (set_length h (u16 (length_ h + (12 - 8)))) + zlen (ext_buffer h))))
      else (grow_front pdu 12, set_length h (u16 (length_ h + (12 - 8))))) =
      (grow_front pdu (12 + zlen (ext_buffer h)), h2)).
    { rewrite (u16_id (length_ h + (12 - 8))) by (unfold is_u16; lia).
      unfold grow_front, h2, set_length; simpl.
      destruct (0 <? next_ext_hdr_type h) eqn:Hn.
      - rewrite u16_id by (unfold is_u16; lia).
        do 2 f_equal; [unfold u32; rewrite Zplus_mod_idemp_l; f_equal; lia|lia].
      - rewrite (Hnext eq_refl). f_equal. f_equal. lia. }
    rewrite E. cbn [grow_front buffer msg]. unfold grow_front in *; simpl in *.
    rewrite Hs; simpl. eexists _, _; split; [done|]. split; [done|]. split; [done|].
    reflexivity.
  - destruct (Z.ltb_spec (msg pdu) 8); [lia|]. unfold grow_front; simpl.
    rewrite app_nil_r in *.
    replace (set_length h (length_ h)) with h in * by (by destruct h).
    change (zlen (mandatory_fields h)) with 8 in *.
    rewrite Hs; simpl. eauto 10.
Qed.

(** Reading byte [i] of the contents. *)
Lemma load_contents pdu d i x :
  contents pdu = Some d -> d !! Z.to_nat i = Some x -> 0 <= i ->
  load (buffer pdu) (msg pdu + i) = Some x.
Proof.
  intros Hd Hx Hi. unfold contents in Hd.
  pose proof (load_bytes_inv _ _ _ _ Hd) as (_&_&_&_&Hz).
  rewrite (load_of_load_bytes _ _ _ _ i Hd), Hx; [done|].
  apply lookup_lt_Some in Hx. unfold zlen in Hz. lia.
Qed.

(** Evaluates the load of byte [i] of contents given by [Hd]. *)
Ltac load_at Hd i :=
  rewrite (load_contents _ _ i _ Hd eq_refl ltac:(lia)); cbn [mbind option_bind].

(** The reader on the optional fields, [pdu1] being the buffer after the long
    header was skipped. *)
Lemma gtpu_read_ext_spec h0 pdu1 d :
  bb_wf pdu1 -> contents pdu1 = Some (ext_buffer h0 ++ d) -> ext_consistent h0 ->
  exists pdu', gtpu_read_ext_header pdu1 (msg pdu1) (set_ext_buffer h0 []) = Some (true, h0, pdu') /\
    bb_wf pdu' /\ contents pdu' = Some d.
Proof.
  intros Hwf Hd Hext. pose proof (consume_spec pdu1 _ d Hwf Hd) as [Hwf' Hd'].
  unfold gtpu_read_ext_header, ext_consistent, has_flag in *. cbn [flags set_ext_buffer next_ext_hdr_type].
  assert (Hnil : ext_buffer h0 = [] -> set_ext_buffer h0 [] = h0 /\ contents pdu1 = Some d).
  { intros E. rewrite E in Hd. split; [|done]. destruct h0; simpl in E. by subst. }
  destruct (Z.land (flags h0) GTPU_FLAGS_EXTENDED_HDR =? 0); cbn [negb orb] in *.
  - destruct Hext as [_ E]. destruct (Hnil E) as [-> ?]. eauto.
  - destruct Hext as [[En El]|[En E]]; rewrite En.
    + unfold GTPU_EXT_HEADER_PDCP_PDU_NUMBER, HEADER_PDCP_PDU_NUMBER_SIZE. cbn [Z.eqb Pos.eqb].
      rewrite El in *. assert (Hld : load_bytes (buffer pdu1) (msg pdu1) 4 = Some (ext_buffer h0)).
      { apply load_bytes_inv in Hd as (?&?&?&E&Hz). rewrite zlen_app, El in Hz.
        pose proof (zlen_nonneg d). rewrite load_bytes_Some by lia. f_equal.
        rewrite <- (ztake_app_eq 4 (ext_buffer h0) d) by done. rewrite E.
        unfold ztake. rewrite take_take. f_equal. lia. }
      rewrite Hld; simpl. eexists; split; [|done]. unfold set_ext_buffer, shrink_front; simpl.
      by destruct h0.
    + cbn [Z.eqb]. destruct (Hnil E) as [-> ?]. eauto.
Qed.

(** The reader inverts [gtpu_wire]. *)
Lemma gtpu_read_spec h pdu d :
  gtpu_header_ok h -> gtpu_supported_flags_check h = true ->
  gtpu_supported_msg_type_check h = true -> ext_consistent h -> wire_length h < 2 ^ 16 ->
  bb_wf pdu -> contents pdu = Some (gtpu_wire h ++ d) ->
  exists pdu', gtpu_read_header pdu gtpu_header_default = Some (true, gtpu_received h, pdu') /\
    bb_wf pdu' /\ contents pdu' = Some d.
Proof.
  intros Hok Hfl Hty Hext Hwl Hwf Hd.
  pose proof (uint16_roundtrip (wire_length h)) as H16.
  pose proof (uint32_roundtrip (teid h) (ok_teid _ Hok)) as H32.
  pose proof (uint16_roundtrip (seq_number h) (ok_seq _ Hok)) as Hseq.
  pose proof (zlen_nonneg (ext_buffer h)). pose proof (ok_length _ Hok) as Hlen.
  specialize (H16 ltac:(unfold is_u16, wire_length in *; destruct (long_header h); lia)).
  simpl in H16, H32, Hseq. unfold gtpu_read_header, gtpu_wire in *.
  load_at Hd 0. load_at Hd 1. load_at Hd 2. load_at Hd 3.
  load_at Hd 4. load_at Hd 5. load_at Hd 6. load_at Hd 7.
  cbn [set_length flags message_type teid length_]. rewrite H16, H32.
  replace (gtpu_supported_flags_check _) with true by (by rewrite <- Hfl).
  replace (gtpu_supported_msg_type_check _) with true by (by rewrite <- Hty).
  replace (long_header (mk_gtpu_header _ _ _ _ _ _ _ _)) with (long_header h) by done.
  cbn [negb]. pose proof (long_header_cases h (ok_flags _ Hok) Hfl) as Hl.
  unfold gtpu_received. destruct (long_header h) eqn:Hlong.
  - assert (Hshape : exists pre, zlen pre = 12 /\
      contents pdu = Some (pre ++ ext_buffer h ++ d) /\
      uint8_to_uint16 (default 0 (pre !! 8%nat)) (default 0 (pre !! 9%nat)) =
        (if has_flag (flags h) GTPU_FLAGS_SEQUENCE then seq_number h else 0) /\
      (exists a b, pre !! 8%nat = Some a /\ pre !! 9%nat = Some b) /\
      pre !! 10%nat = Some 0 /\ pre !! 11%nat = Some (next_ext_hdr_type h)).
    { unfold optional_fields in Hd.
      cbn [set_length flags seq_number next_ext_hdr_type ext_buffer] in Hd.
      rewrite (supported_flags_inv _ Hfl) in Hd. unfold ext_consistent in Hext.
      set (mf := mandatory_fields (set_length h (wire_length h))) in *.
      set (sq := if has_flag (flags h) GTPU_FLAGS_SEQUENCE then uint16_to_uint8 (seq_number h)
                 else uint16_to_uint8 0) in *.
      exists (mf ++ sq ++ [0; next_ext_hdr_type h]).
      assert (Hsq : exists a b, sq = [a; b] /\ uint8_to_uint16 a b =
        (if has_flag (flags h) GTPU_FLAGS_SEQUENCE then seq_number h else 0)).
      { unfold sq. destruct (has_flag (flags h) GTPU_FLAGS_SEQUENCE); simpl;
          eexists _, _; split; eauto. }
      destruct Hsq as (a & b & -> & Hab). split; [reflexivity|]. split.
      { rewrite Hd. f_equal. rewrite <- !app_assoc. simpl. do 3 f_equal.
        destruct (has_flag (flags h) GTPU_FLAGS_EXTENDED_HDR); [done|].
        by destruct Hext as [-> ->]. }
      split; [done|]. split; [by eexists _, _|]. done. }
    destruct Hshape as (pre & Hp & Hd2 & Hs & (a & b & Ha & Hb) & Hnp & Hne).
    rewrite Ha, Hb in Hs. simpl in Hs.
    assert (Hat : forall i x, 0 <= i -> pre !! Z.to_nat i = Some x ->
      load (buffer pdu) (msg pdu + i) = Some x).
    { intros i x Hi Hx. apply (load_contents _ _ _ _ Hd2); [|lia].
      by apply lookup_app_l_Some. }
    rewrite (Hat 8 a), (Hat 9 b), (Hat 10 0), (Hat 11 (next_ext_hdr_type h))
      by (done || lia). cbn [mbind option_bind].
    destruct (consume_spec pdu pre _ Hwf Hd2) as [Hwf1 Hd1]. rewrite Hp in Hwf1, Hd1.
    rewrite Hs. eapply (gtpu_read_ext_spec (mk_gtpu_header _ _ _ _ _ _ _ (ext_buffer h)));
      [exact Hwf1|exact Hd1|exact Hext].
  - cbn [orb] in Hl. rewrite app_nil_r in Hd.
    destruct (consume_spec pdu _ _ Hwf Hd) as [Hwf1 Hd1].
    change (zlen (mandatory_fields _)) with 8 in Hwf1, Hd1.
    unfold shrink_front, GTPU_BASE_HEADER_LEN. eexists; split; [|done]. simpl.
    unfold ext_consistent in Hext.
    destruct (has_flag (flags h) GTPU_FLAGS_EXTENDED_HDR); [discriminate|].
    destruct Hext as [-> ->]. symmetry in Hl. cbn [orb] in Hl. rewrite Hl. done.
Qed.

(** C30: round trip.  For every header the writer supports and every payload with
    enough headroom in front of it, [gtpu_write_header] succeeds, [gtpu_read_header]
    on the result succeeds, gives back the header fields that are carried on the
    wire (with the length the writer computed) and leaves exactly the payload in
    the buffer. *)
Theorem gtpu_roundtrip h pdu d :
  gtpu_header_ok h -> gtpu_supported_flags_check h = true ->
  gtpu_supported_msg_type_check h = true -> ext_consistent h -> wire_length h < 2 ^ 16 ->
  bb_wf pdu -> contents pdu = Some d -> gtpu_header_size h <= msg pdu ->
  exists h' pdu' pdu'',
    gtpu_write_header h pdu = Some (true, h', pdu') /\
    zlen (gtpu_wire h) = gtpu_header_size h /\
    contents pdu' = Some (gtpu_wire h ++ d) /\ length_ h' = wire_length h /\
    gtpu_read_header pdu' gtpu_header_default = Some (true, gtpu_received h, pdu'') /\
    bb_wf pdu'' /\ contents pdu'' = Some d.
Proof.
  intros Hok Hfl Hty Hext Hwl Hwf Hd Hroom.
  destruct (gtpu_write_spec h pdu d) as (h' & pdu' & Hw & Hwf' & Hd' & Hl); try done.
  destruct (gtpu_read_spec h pdu' d) as (pdu'' & Hr & Hwf'' & Hd''); try done.
  exists h', pdu', pdu''. split_and!; try done. apply zlen_gtpu_wire; try done. apply Hok.
Qed.

Definition example_header : gtpu_header_t :=
  mk_gtpu_header 0x36 GTPU_MSG_DATA_PDU 3 0xAAAA 0x1234 0 GTPU_EXT_HEADER_PDCP_PDU_NUMBER
    [1; 2; 3; 0].

Lemma gtpu_roundtrip_witness :
  exists h' pdu' pdu'',
    gtpu_write_header example_header (buffer_with [0x45; 7; 9]) = Some (true, h', pdu') /\
    zlen (gtpu_wire example_header) = gtpu_header_size example_header /\
    contents pdu' = Some (gtpu_wire example_header ++ [0x45; 7; 9]) /\ length_ h' = wire_length example_header /\
    gtpu_read_header pdu' gtpu_header_default = Some (true, gtpu_received example_header, pdu'') /\
    bb_wf pdu'' /\ contents pdu'' = Some [0x45; 7; 9].
Proof.
  destruct (buffer_with_spec [0x45; 7; 9]) as [Hwf Hd]; [vm_compute; discriminate|].
  apply (gtpu_roundtrip example_header _ [0x45; 7; 9]);
    [|vm_compute; reflexivity..| |vm_compute; reflexivity|exact Hwf|exact Hd|vm_compute; discriminate].
  - constructor; try (vm_compute; split; congruence).
    repeat constructor; vm_compute; congruence.
  - vm_compute. left; split; reflexivity.
Defined.

(** The writer's error path.  On a buffer within its block the writer returns
    [false] exactly when the flags or the message type are not supported or when
    the headroom is shorter than the fixed part of the header, and then header and
    buffer are unchanged. *)
Theorem gtpu_write_refuses h pdu h' pdu' :
  bb_wf pdu ->
  gtpu_write_header h pdu = Some (false, h', pdu') <->
  (gtpu_supported_flags_check h = false \/ gtpu_supported_msg_type_check h = false \/
   msg pdu < (if long_header h then 12 else 8)) /\ h' = h /\ pdu' = pdu.
Proof.
  intros Hwf. unfold gtpu_write_header. rewrite get_headroom_wf by done.
  unfold GTPU_EXTENDED_HEADER_LEN, GTPU_BASE_HEADER_LEN.
  destruct (gtpu_supported_flags_check h), (gtpu_supported_msg_type_check h), (long_header h);
    cbn [negb]; try (split; [intros E; injection E as <- <-; auto|intros (_&->&->); done]).
  - destruct (Z.ltb_spec (msg pdu) 12).
    + split; [intros E; injection E as <- <-; auto|intros (_&->&->); done].
    + destruct (if 0 <? _ then _ else _) as [p2 h2].
      destruct (store _ _ _); simpl; (split; [discriminate|]); intros ([|[|]]&_); try done; lia.
  - destruct (Z.ltb_spec (msg pdu) 8).
    + split; [intros E; injection E as <- <-; auto|intros (_&->&->); done].
    + destruct (store _ _ _); simpl; (split; [discriminate|]); intros ([|[|]]&_); try done; lia.
Qed.

Lemma gtpu_write_refuses_witness :
  gtpu_write_header (set_length example_header 5) (byte_buffer_new (buffer (buffer_with []))) <> None /\
  gtpu_write_header (mk_gtpu_header 0x37 255 0 0 0 0 0 []) (buffer_with []) =
    Some (false, mk_gtpu_header 0x37 255 0 0 0 0 0 [], buffer_with []).
Proof.
  split; [vm_compute; discriminate|].
  apply gtpu_write_refuses; [apply buffer_with_spec; vm_compute; discriminate|].
  split; [left; reflexivity|done].
Defined.

(** The buffer after [run_thread] read a packet that fits. *)
Lemma mbms_gw_read_spec gw pkt :
  bb_wf gw -> zlen pkt <= SRSRAN_MAX_BUFFER_SIZE_BYTES - SRSRAN_BUFFER_HEADER_OFFSET ->
  exists m, bb_wf m /\ contents m = Some pkt /\ N_bytes m = zlen pkt /\
    msg m = SRSRAN_BUFFER_HEADER_OFFSET /\ mbms_gw_run_once gw pkt = handle_sgi_md_pdu m.
Proof.
  intros Hwf Hl. pose proof (zlen_nonneg pkt). unfold mbms_gw_run_once.
  rewrite ztake_all by (bb_consts; lia). cbn [byte_buffer_clear buffer msg md_pdcp_sn].
  destruct (store _ _ _) as [m|] eqn:Hs;
    [|rewrite store_Some in Hs by (destruct Hwf; bb_consts; lia); discriminate].
  exists (mk_byte_buffer (zlen pkt) m SRSRAN_BUFFER_HEADER_OFFSET 0). split_and!; try done.
  - constructor; cbn [buffer msg N_bytes]; [|bb_consts; lia..].
    rewrite (store_zlen _ _ _ _ Hs). apply Hwf.
  - unfold contents; cbn [buffer msg N_bytes]. by apply (load_bytes_store_same _ _ _ _ _ Hs).
Qed.

(** C31: broadcast packets cross the M1-U leg unchanged.  Every IPv4 packet of 20
    to 12237 bytes that the gateway reads is sent as one GTP-U datagram of 8 more
    bytes, and the eNodeB, receiving that datagram in any buffer, hands exactly
    the packet to PDCP for the MBMS RNTI and the configured bearer. *)
Theorem mbms_m1u_delivery gw b0 rest bearer :
  let pkt := b0 :: rest in
  bb_wf gw -> Z.shiftr b0 4 = 4 -> 20 <= zlen pkt <= 12237 ->
  exists dgram gw',
    mbms_gw_run_once gw pkt = Some (Some dgram, gw') /\ zlen dgram = zlen pkt + 8 /\
    forall rx, bb_wf rx -> contents rx = Some dgram ->
      exists sdu, m1u_handle_rx_packet bearer rx = Some (SRSRAN_MRNTI, bearer, sdu) /\
        contents sdu = Some pkt.
Proof.
  intros pkt Hwf Hv Hl.
  destruct (mbms_gw_read_spec gw pkt Hwf) as (m & Hm & Hd & Hn & Hmsg & ->); [bb_consts; lia|].
  set (h := mbms_gw_header m).
  assert (Hok : gtpu_header_ok h).
  { unfold h, mbms_gw_header. rewrite Hn, u16_id by (unfold is_u16; lia).
    constructor; cbn [flags message_type length_ teid seq_number n_pdu next_ext_hdr_type ext_buffer];
      try (unfold is_u16; lia); try (vm_compute; split; congruence). constructor. }
  assert (Hwl : wire_length h = zlen pkt).
  { unfold h, wire_length, mbms_gw_header. cbn. rewrite Hn. apply u16_id. unfold is_u16. lia. }
  assert (Hext : ext_consistent h) by (by split).
  destruct (gtpu_write_spec h m pkt Hok) as (h' & m' & Hw & Hwf' & Hd' & Hlen); try done; try lia.
  { rewrite Hmsg. vm_compute. congruence. }
  unfold handle_sgi_md_pdu. rewrite Hn. destruct (Z.ltb_spec (zlen pkt) 20); [lia|].
  replace (msg m) with (msg m + 0) by lia.
  rewrite (load_contents _ _ 0 b0 Hd eq_refl) by lia. cbn [mbind option_bind].
  rewrite Hv. cbn [Z.eqb Pos.eqb negb]. fold h. rewrite Hw. cbn [mbind option_bind].
  unfold contents in Hd'. rewrite Hd'. cbn [mbind option_bind].
  eexists _, _; split; [done|]. split.
  { rewrite zlen_app, (zlen_gtpu_wire h (ok_flags _ Hok)) by done. unfold gtpu_header_size.
    replace (long_header h) with false by done. unfold GTPU_BASE_HEADER_LEN. lia. }
  intros rx Hrx Hdx. destruct (gtpu_read_spec h rx pkt) as (sdu & Hr & _ & Hds); try done; try lia.
  unfold m1u_handle_rx_packet. rewrite Hr. cbn [mbind option_bind]. eauto.
Qed.

Lemma mbms_m1u_delivery_witness :
  exists dgram gw',
    mbms_gw_run_once (buffer_with []) (0x45 :: repeat 7 30) = Some (Some dgram, gw') /\
    zlen dgram = zlen (0x45 :: repeat 7 30) + 8 /\
    forall rx, bb_wf rx -> contents rx = Some dgram ->
      exists sdu, m1u_handle_rx_packet 1 rx = Some (SRSRAN_MRNTI, 1, sdu) /\
        contents sdu = Some (0x45 :: repeat 7 30).
Proof.
  apply (mbms_m1u_delivery (buffer_with []) 0x45 (repeat 7 30) 1).
  - apply buffer_with_spec. vm_compute. discriminate.
  - reflexivity.
  - vm_compute. split; discriminate.
Defined.

(** The gateway drops what is not IPv4.  A packet shorter than an IPv4 header
    or with another version is not sent. *)
Theorem mbms_gw_drops gw pkt :
  bb_wf gw -> zlen pkt <= 12237 ->
  (zlen pkt < 20 \/ exists b0 rest, pkt = b0 :: rest /\ Z.shiftr b0 4 <> 4) ->
  exists gw', mbms_gw_run_once gw pkt = Some (None, gw').
Proof.
  intros Hwf Hl Hbad.
  destruct (mbms_gw_read_spec gw pkt Hwf) as (m & Hm & Hd & Hn & Hmsg & ->); [bb_consts; lia|].
  unfold handle_sgi_md_pdu. rewrite Hn. destruct (Z.ltb_spec (zlen pkt) 20); [eauto|].
  destruct Hbad as [|(b0 & rest & -> & Hv)]; [lia|].
  replace (msg m) with (msg m + 0) by lia.
  rewrite (load_contents _ _ 0 b0 Hd eq_refl) by lia. cbn [mbind option_bind].
  destruct (Z.eqb_spec (Z.shiftr b0 4) 4); [done|]. cbn [negb]. eauto.
Qed.

Lemma mbms_gw_drops_witness :
  exists gw', mbms_gw_run_once (buffer_with []) (0x60 :: repeat 0 39) = Some (None, gw').
Proof.
  apply mbms_gw_drops; [apply buffer_with_spec; vm_compute; discriminate|vm_compute; discriminate|].
  right. exists 0x60, (repeat 0 39). split; [reflexivity|vm_compute; discriminate].
Defined.

(** The size given to [read] is that of the whole block although the data is
    put after the header offset: a packet of more than 12237 bytes is written
    past the end of the buffer. *)
Theorem mbms_gw_read_overflows gw pkt :
  bb_wf gw -> 12237 < zlen pkt -> mbms_gw_run_once gw pkt = None.
Proof.
  intros Hwf Hl. unfold mbms_gw_run_once.
  assert (H : 12237 < zlen (ztake SRSRAN_MAX_BUFFER_SIZE_BYTES pkt)).
  { bb_consts. unfold ztake, zlen in *. rewrite length_take. lia. }
  unfold store. cbn [byte_buffer_clear buffer msg]. destruct Hwf as [-> _ _ _]. bb_consts.
  destruct (Z.ltb_spec 13257 (1020 + zlen (ztake 13257 pkt))); [|lia]. reflexivity.
Qed.

Lemma mbms_gw_read_overflows_witness :
  mbms_gw_run_once (buffer_with []) (repeat 0x45 12238) = None.
Proof.
  apply mbms_gw_read_overflows; [apply buffer_with_spec; vm_compute; discriminate|].
  vm_compute. reflexivity.
Defined.

(** A datagram shorter than the header is not refused.  The reader does not
    look at [N_bytes]: when the bytes found in the block read as a short header,
    it returns [true] and the length wraps around. *)
Theorem gtpu_read_runt_wraps pdu h h' pdu' :
  0 <= N_bytes pdu < 8 -> gtpu_read_header pdu h = Some (true, h', pdu') ->
  long_header h' = false -> N_bytes pdu' = 2 ^ 32 + N_bytes pdu - 8.
Proof.
  intros Hn Hr Hl. unfold gtpu_read_header in Hr.
  repeat match type of Hr with
  | (?x ≫= _) = _ => destruct x; cbn [mbind option_bind] in Hr; [|discriminate]
  end.
  repeat match type of Hr with
  | (if negb ?c then _ else _) = _ => destruct c; cbn [negb] in Hr; [|discriminate]
  end.
  destruct (long_header (mk_gtpu_header _ _ _ _ _ _ _ _)) eqn:E.
  - exfalso.
    repeat match type of Hr with
    | (?x ≫= _) = _ => destruct x; cbn [mbind option_bind] in Hr; [|discriminate]
    end.
    revert Hr. unfold gtpu_read_ext_header. cbn [flags next_ext_hdr_type].
    repeat case_if; try (intros Hr; injection Hr as <- _; unfold long_header in *;
      cbn [flags set_ext_buffer] in *; congruence); try discriminate.
    destruct (load_bytes _ _ _); cbn [mbind option_bind]; [|discriminate].
    intros Hr; injection Hr as <- _; unfold long_header in *; cbn [flags set_ext_buffer] in *; congruence.
  - injection Hr as _ <-. unfold shrink_front, GTPU_BASE_HEADER_LEN, u32. cbn [N_bytes].
    rewrite <- (Z_mod_plus_full _ 1), Z.mod_small; lia.
Qed.

Lemma gtpu_read_runt_wraps_witness :
  exists h' pdu', gtpu_read_header
    (mk_byte_buffer 4 (buffer (buffer_with [0x30; 255; 0; 0; 0; 0; 0; 0])) 1020 0)
    gtpu_header_default = Some (true, h', pdu') /\ N_bytes pdu' = 4294967292.
Proof.
  eexists _, _; split; [vm_compute; reflexivity|].
  eapply (gtpu_read_runt_wraps
    (mk_byte_buffer 4 (buffer (buffer_with [0x30; 255; 0; 0; 0; 0; 0; 0])) 1020 0)
    gtpu_header_default); [cbn; lia|vm_compute; reflexivity|vm_compute; reflexivity].
Defined.
