(* ===== verification/CircularBuffer.v ===== *)
(** * Circular buffers and the SDU queue

    [lib/include/srsran/adt/circular_buffer.h] ([base_circular_buffer] and the
    non-blocking entry points of [base_blocking_queue]) and
    [lib/include/srsran/upper/byte_buffer_queue.h].  The circular buffer is shown
    to implement a bounded FIFO list, and the SDU queue to implement the interface
    [SduQueue] that the RLC entities use. *)

From stdpp Require Import base list gmap numbers.
From S2P Require Import Prelude ByteBuffer.

(** ** [base_circular_buffer] *)

(** A slot of the container is constructed ([Some]) or raw storage ([None]).
    [cb_max_size] is [max_size()]: the size of the array or the capacity of the
    vector. *)
Record circular_buffer (A : Type) := mk_cb {
  cb_buffer : list (option A);
  cb_max_size : nat;
  cb_rpos : nat;
  cb_count : nat
}.
Arguments mk_cb {A}.
Arguments cb_buffer {A}.
Arguments cb_max_size {A}.
Arguments cb_rpos {A}.
Arguments cb_count {A}.

Section CircularBuffer.
Context {A : Type}.
Implicit Types b : circular_buffer A.

Definition cb_new (n : nat) : circular_buffer A := mk_cb (replicate n None) n 0 0.

Definition cb_full b : bool := Nat.eqb (cb_count b) (cb_max_size b).
Definition cb_empty b : bool := Nat.eqb (cb_count b) 0.
Definition cb_size b : nat := cb_count b.

(** [push]: the assertion on a full buffer and a slot outside of the container
    are [None]. *)
Definition cb_push b (t : A) : option (circular_buffer A) :=
  if cb_full b then None
  else
    let wpos := (cb_rpos b + cb_count b) mod cb_max_size b in
    if Nat.ltb wpos (length (cb_buffer b)) then
      Some (mk_cb (<[wpos := Some t]> (cb_buffer b)) (cb_max_size b) (cb_rpos b) (S (cb_count b)))
    else None.

(** [try_push]: the returned flag and the buffer. *)
Definition cb_try_push b (t : A) : option (bool * circular_buffer A) :=
  if cb_full b then Some (false, b)
  else b' ← cb_push b t; Some (true, b').

Definition cb_pop b : option (circular_buffer A) :=
  if cb_empty b then None
  else Some (mk_cb (<[cb_rpos b := None]> (cb_buffer b)) (cb_max_size b)
               ((cb_rpos b + 1) mod cb_max_size b) (cb_count b - 1)).

Definition cb_top b : option A :=
  if cb_empty b then None else mjoin (cb_buffer b !! cb_rpos b).

Definition cb_at b (i : nat) : option A :=
  if Nat.ltb i (cb_count b) then mjoin (cb_buffer b !! ((cb_rpos b + i) mod cb_max_size b))
  else None.

Fixpoint cb_destroy (n : nat) b (slots : list (option A)) : list (option A) :=
  match n with
  | O => slots
  | S n' => <[(cb_rpos b + n') mod cb_max_size b := None]> (cb_destroy n' b slots)
  end.

Definition cb_clear b : circular_buffer A :=
  mk_cb (cb_destroy (cb_count b) b (cb_buffer b)) (cb_max_size b) (cb_rpos b) 0.

(** [set_size] of [dyn_circular_buffer]: asserted to be called on an empty buffer
    or with its own size; [std::vector::resize] cuts or extends the container and
    gives a capacity [cap], which never shrinks. *)
Definition cb_set_size b (sz cap : nat) : option (circular_buffer A) :=
  if cb_empty b || Nat.eqb sz (cb_count b)
  then Some (mk_cb (resize sz None (cb_buffer b)) (Nat.max (cb_max_size b) cap) (cb_rpos b) (cb_count b))
  else None.

(** ** The bounded FIFO it implements *)

(** [cb_rep b l]: the buffer [b] holds the elements of [l], oldest first. *)
Record cb_rep b (l : list A) : Prop := {
  cbr_len : length (cb_buffer b) = cb_max_size b;
  cbr_rpos : cb_rpos b < cb_max_size b;
  cbr_count : cb_count b = length l;
  cbr_le : length l <= cb_max_size b;
  cbr_slot : forall i x, l !! i = Some x ->
    cb_buffer b !! ((cb_rpos b + i) mod cb_max_size b) = Some (Some x)
}.

Lemma cb_rep_new n : 0 < n -> cb_rep (cb_new n) [].
Proof. intros. constructor; cbn; try lia; [by rewrite length_replicate|intros i x; by rewrite lookup_nil]. Qed.

(** Distinct positions of the window are distinct slots. *)
Lemma cb_slot_inj m r i j :
  i < m -> j < m -> (r + i) mod m = (r + j) mod m -> i = j.
Proof.
  intros Hi Hj E. assert (m <> 0) by lia.
  pose proof (Nat.div_mod_eq (r + i) m). pose proof (Nat.div_mod_eq (r + j) m).
  assert ((r + i) / m = (r + j) / m \/ (r + i) / m < (r + j) / m \/ (r + j) / m < (r + i) / m) as [?|[?|?]] by lia;
    nia.
Qed.

Lemma cb_full_spec b l : cb_rep b l -> cb_full b = true <-> length l = cb_max_size b.
Proof. intros []. unfold cb_full. rewrite Nat.eqb_eq. lia. Qed.

Lemma cb_empty_spec b l : cb_rep b l -> cb_empty b = true <-> l = [].
Proof.
  intros []. unfold cb_empty. rewrite Nat.eqb_eq. destruct l; cbn in *; [done|]. split; lia || done.
Qed.

Lemma cb_at_spec b l i : cb_rep b l -> cb_at b i = l !! i.
Proof.
  intros []. unfold cb_at. destruct (Nat.ltb_spec i (cb_count b)) as [Hi|Hi].
  - destruct (lookup_lt_is_Some_2 l i ltac:(lia)) as [x Hx]. by rewrite (cbr_slot0 _ _ Hx), Hx.
  - symmetry. apply lookup_ge_None. lia.
Qed.

Lemma cb_top_spec b l : cb_rep b l -> cb_top b = head l.
Proof.
  intros H. pose proof (cb_at_spec b l 0 H) as Ha. unfold cb_top, cb_at in *.
  destruct H. rewrite Nat.add_0_r, Nat.mod_small in Ha by lia.
  unfold cb_empty. destruct l; cbn in *; rewrite cbr_count0 in *; [done|]. done.
Qed.

Lemma cb_push_spec b l t :
  cb_rep b l -> length l < cb_max_size b ->
  exists b', cb_push b t = Some b' /\ cb_rep b' (l ++ [t]) /\ cb_max_size b' = cb_max_size b.
Proof.
  intros Hrep Hlt. pose proof (cb_full_spec b l Hrep) as Hf. destruct Hrep as [Hl Hr Hc Hle Hs].
  unfold cb_push. destruct (cb_full b); [lia|].
  pose proof (Nat.mod_upper_bound (cb_rpos b + cb_count b) (cb_max_size b) ltac:(lia)) as Hw.
  destruct (Nat.ltb_spec ((cb_rpos b + cb_count b) mod cb_max_size b) (length (cb_buffer b))); [|lia].
  eexists; split; [done|]. split; [|done]. constructor; cbn.
  - by rewrite length_insert.
  - done.
  - rewrite length_app. cbn. lia.
  - rewrite length_app. cbn. lia.
  - intros i x Hx. destruct (decide (i = length l)) as [->|Hne].
    + rewrite list_lookup_middle in Hx by done. injection Hx as ->.
      rewrite Hc. rewrite list_lookup_insert_eq; [done|]. rewrite <- Hc. lia.
    + pose proof (lookup_lt_Some _ _ _ Hx) as Hlen. rewrite length_app in Hlen. cbn in Hlen.
      rewrite lookup_app_l in Hx by lia. rewrite list_lookup_insert_ne; [by apply Hs|].
      intros E. apply cb_slot_inj in E; lia.
Qed.

Lemma cb_pop_spec b x l :
  cb_rep b (x :: l) ->
  exists b', cb_pop b = Some b' /\ cb_rep b' l /\ cb_max_size b' = cb_max_size b.
Proof.
  intros Hrep. pose proof (cb_empty_spec b _ Hrep) as He. destruct Hrep as [Hl Hr Hc Hle Hs].
  unfold cb_pop. destruct (cb_empty b); [by destruct He as [He _]; specialize (He eq_refl)|].
  eexists; split; [done|]. split; [|done]. cbn in *. constructor; cbn.
  - by rewrite length_insert.
  - apply Nat.mod_upper_bound. lia.
  - lia.
  - lia.
  - intros i y Hy. pose proof (lookup_lt_Some _ _ _ Hy).
    rewrite Nat.Div0.add_mod_idemp_l.
    replace (cb_rpos b + 1 + i) with (cb_rpos b + S i) by lia.
    rewrite list_lookup_insert_ne; [by apply Hs|]. intros E.
    rewrite <- (Nat.mod_small (cb_rpos b) (cb_max_size b)) in E at 1 by lia.
    rewrite <- (Nat.add_0_r (cb_rpos b)) in E at 1. apply cb_slot_inj in E; lia.
Qed.

Lemma cb_clear_spec b l : cb_rep b l -> cb_rep (cb_clear b) [].
Proof.
  intros []. constructor; cbn; [|done|done|lia|intros i x; by rewrite lookup_nil].
  rewrite <- cbr_len0. generalize (cb_count b) as n.
  induction n; cbn; [done|]. by rewrite length_insert.
Qed.

End CircularBuffer.

(** ** The interface the RLC entities rely on *)

(** Total size of a list of SDUs. *)
Fixpoint total_bytes (l : list bytes) : Z :=
  match l with [] => 0%Z | s :: l' => (zlen s + total_bytes l')%Z end.

Class SduQueue (Q : Type) := {
  sq_try_write : Q -> bytes -> option (bool * Q);
  sq_read : Q -> option (bytes * Q);
  sq_size : Q -> Z;
  sq_size_bytes : Q -> Z;
  sq_is_empty : Q -> bool;
  sq_is_full : Q -> bool;
  (** [sq_rep q cap l]: [q] has capacity [cap] and holds [l], oldest first. *)
  sq_rep : Q -> nat -> list bytes -> Prop
}.

(** An SDU fits in a byte buffer. *)
Definition sdu_ok (s : bytes) : Prop := (zlen s <= SRSRAN_MAX_BUFFER_SIZE_BYTES)%Z.

Class SduQueueLaws (Q : Type) `{SduQueue Q} := {
  sq_size_law q cap l : sq_rep q cap l -> sq_size q = zlen l;
  sq_size_bytes_law q cap l : sq_rep q cap l -> sq_size_bytes q = total_bytes l;
  sq_is_empty_law q cap l : sq_rep q cap l -> sq_is_empty q = true <-> l = [];
  sq_is_full_law q cap l : sq_rep q cap l -> sq_is_full q = true <-> length l = cap;
  sq_write_law q cap l s : sq_rep q cap l -> sdu_ok s -> length l < cap ->
    exists q', sq_try_write q s = Some (true, q') /\ sq_rep q' cap (l ++ [s]);
  sq_write_full_law q cap l s : sq_rep q cap l -> length l = cap ->
    sq_try_write q s = Some (false, q);
  sq_read_law q cap s l : sq_rep q cap (s :: l) ->
    exists q', sq_read q = Some (s, q') /\ sq_rep q' cap l;
  sq_sdu_law q cap l : sq_rep q cap l -> Forall sdu_ok l
}.

(** ** [byte_buffer_queue]

    The element type is a pointer to a buffer; a queued buffer is represented by
    its contents.  [bbq_active] is the flag of [base_blocking_queue]. *)
Record byte_buffer_queue := mk_bbq {
  bbq_queue : circular_buffer bytes;
  bbq_active : bool;
  unread_bytes : Z;
  n_sdus : Z
}.

Definition bbq_new (capacity : nat) : byte_buffer_queue := mk_bbq (cb_new capacity) true 0 0.

(** [push_callback] and [pop_callback]. *)
Definition push_callback (q : byte_buffer_queue) (m : bytes) : byte_buffer_queue :=
  mk_bbq (bbq_queue q) (bbq_active q) (u32 (unread_bytes q + zlen m)) (u32 (n_sdus q + 1)).

Definition pop_callback (q : byte_buffer_queue) (m : bytes) : byte_buffer_queue :=
  mk_bbq (bbq_queue q) (bbq_active q)
    (u32 (unread_bytes q - Z.min (zlen m) (unread_bytes q)))
    (u32 (Z.max 0 (i32 (n_sdus q) - 1))).

Definition bbq_set_queue (q : byte_buffer_queue) (c : circular_buffer bytes) : byte_buffer_queue :=
  mk_bbq c (bbq_active q) (unread_bytes q) (n_sdus q).

(** [try_write]: [push_] without blocking; the flag says whether the SDU was
    taken. *)
Definition bbq_try_write (q : byte_buffer_queue) (m : bytes) : option (bool * byte_buffer_queue) :=
  if negb (bbq_active q) then Some (false, q)
  else if cb_full (bbq_queue q) then Some (false, q)
  else
    let q1 := push_callback q m in
    c ← cb_push (bbq_queue q1) m;
    Some (true, bbq_set_queue q1 c).

(** [read]: [pop_] in blocking mode; [None] where the call would block or the
    queue is stopped. *)
Definition bbq_read (q : byte_buffer_queue) : option (bytes * byte_buffer_queue) :=
  if negb (bbq_active q) then None
  else
    obj ← cb_top (bbq_queue q);
    let q1 := pop_callback q obj in
    c ← cb_pop (bbq_queue q1);
    Some (obj, bbq_set_queue q1 c).

(** [stop] of the blocking queue: it is deactivated and emptied. *)
Definition bbq_stop (q : byte_buffer_queue) : byte_buffer_queue :=
  if bbq_active q then mk_bbq (cb_clear (bbq_queue q)) false (unread_bytes q) (n_sdus q) else q.

(** The largest capacity considered: the byte count of that many full buffers
    fits in the 32-bit counter. *)
Definition BBQ_MAX_CAPACITY : nat := Nat.pow 2 18.

Record bbq_rep (q : byte_buffer_queue) (cap : nat) (l : list bytes) : Prop := {
  bqr_cb : cb_rep (bbq_queue q) l;
  bqr_active : bbq_active q = true;
  bqr_bytes : unread_bytes q = total_bytes l;
  bqr_n : n_sdus q = zlen l;
  bqr_cap : cap = cb_max_size (bbq_queue q);
  bqr_max : cap <= BBQ_MAX_CAPACITY;
  bqr_ok : Forall sdu_ok l
}.

#[export] Instance byte_buffer_queue_SduQueue : SduQueue byte_buffer_queue := {
  sq_try_write := bbq_try_write;
  sq_read := bbq_read;
  sq_size q := Z.of_nat (cb_size (bbq_queue q));
  sq_size_bytes := unread_bytes;
  sq_is_empty q := cb_empty (bbq_queue q);
  sq_is_full q := cb_full (bbq_queue q);
  sq_rep := bbq_rep
}.

Local Open Scope Z_scope.

Lemma total_bytes_nonneg l : 0 <= total_bytes l.
Proof. induction l; cbn [total_bytes]; [lia|]. pose proof (zlen_nonneg a). lia. Qed.

Lemma total_bytes_app l1 l2 : total_bytes (l1 ++ l2) = total_bytes l1 + total_bytes l2.
Proof. induction l1; cbn [total_bytes app]; lia. Qed.

Lemma total_bytes_bound l : Forall sdu_ok l -> total_bytes l <= 13257 * zlen l.
Proof.
  induction 1 as [|s l Hs _ IH]; cbn [total_bytes]; [done|]. rewrite zlen_cons.
  unfold sdu_ok in Hs. bb_consts. lia.
Qed.

Lemma bbq_max_capacity_Z : Z.of_nat BBQ_MAX_CAPACITY = 2 ^ 18.
Proof. unfold BBQ_MAX_CAPACITY. rewrite Nat2Z.inj_pow. reflexivity. Qed.

Lemma bbq_try_write_spec q cap l s :
  bbq_rep q cap l -> sdu_ok s -> (length l < cap)%nat ->
  exists q', bbq_try_write q s = Some (true, q') /\ bbq_rep q' cap (l ++ [s]).
Proof.
  intros [Hcb Ha Hb Hn -> Hmax Hok] Hs Hlt. unfold bbq_try_write. rewrite Ha. cbn [negb].
  pose proof (cb_full_spec _ _ Hcb) as Hf. destruct (cb_full _); [lia|].
  destruct (cb_push_spec _ _ s Hcb Hlt) as (c & Hc & Hrep & Hm). cbn [push_callback bbq_queue].
  rewrite Hc. cbn [mbind option_bind]. eexists; split; [done|].
  pose proof (total_bytes_bound l Hok). pose proof (total_bytes_nonneg l). pose proof (zlen_nonneg s).
  pose proof bbq_max_capacity_Z. unfold sdu_ok in Hs. bb_consts.
  assert (Hcap : zlen l < 2 ^ 18) by (unfold zlen; lia).
  constructor; cbn [bbq_set_queue push_callback bbq_queue bbq_active unread_bytes n_sdus].
  - done.
  - done.
  - rewrite total_bytes_app, Hb. cbn [total_bytes]. rewrite u32_id; [lia|]. unfold is_u32. lia.
  - rewrite zlen_app, Hn. change (zlen [s]) with 1. apply u32_id. unfold is_u32, zlen. lia.
  - by rewrite Hm.
  - done.
  - apply Forall_app. split; [done|]. apply Forall_singleton. unfold sdu_ok. bb_consts. lia.
Qed.

Lemma bbq_read_spec q cap s l :
  bbq_rep q cap (s :: l) -> exists q', bbq_read q = Some (s, q') /\ bbq_rep q' cap l.
Proof.
  intros [Hcb Ha Hb Hn -> Hmax Hok]. unfold bbq_read. rewrite Ha. cbn [negb].
  rewrite (cb_top_spec _ _ Hcb). cbn [head mbind option_bind].
  destruct (cb_pop_spec _ _ _ Hcb) as (c & Hc & Hrep & Hm). cbn [pop_callback bbq_queue].
  rewrite Hc. cbn [mbind option_bind]. eexists; split; [done|].
  pose proof (total_bytes_bound _ Hok) as Hbd. pose proof (total_bytes_nonneg l). pose proof (zlen_nonneg s).
  pose proof bbq_max_capacity_Z. pose proof (cbr_le _ _ Hcb) as Hle. cbn [length] in Hle.
  rewrite zlen_cons in *. cbn [total_bytes] in Hb, Hbd. assert (Hcap : 1 + zlen l <= 2 ^ 18) by (unfold zlen; lia).
  constructor; cbn [bbq_set_queue pop_callback bbq_queue bbq_active unread_bytes n_sdus].
  - done.
  - done.
  - rewrite Hb, Z.min_l by lia. rewrite u32_id; [lia|]. unfold is_u32. lia.
  - rewrite Hn, i32_id by lia. rewrite u32_id; unfold is_u32, zlen; lia.
  - by rewrite Hm.
  - done.
  - by apply Forall_cons_1 in Hok as [_ ?].
Qed.

#[export] Instance byte_buffer_queue_laws : SduQueueLaws byte_buffer_queue.
Proof.
  constructor; cbn; intros.
  - destruct H as [[] _ _ _ _ _ _]. unfold cb_size, zlen. lia.
  - apply H.
  - apply cb_empty_spec, H.
  - rewrite (bqr_cap _ _ _ H). apply cb_full_spec, H.
  - by apply bbq_try_write_spec.
  - unfold bbq_try_write. rewrite (bqr_active _ _ _ H). cbn [negb].
    rewrite (bqr_cap _ _ _ H) in H0. apply (cb_full_spec _ _ (bqr_cb _ _ _ H)) in H0.
    by rewrite H0.
  - by apply bbq_read_spec.
  - apply H.
Qed.

Lemma bbq_new_rep cap : (0 < cap <= BBQ_MAX_CAPACITY)%nat -> bbq_rep (bbq_new cap) cap [].
Proof.
  intros []. constructor; cbn [bbq_new bbq_queue bbq_active unread_bytes n_sdus cb_new cb_max_size];
    try done. by apply cb_rep_new.
Qed.

Lemma small_capacity cap : (0 < cap <= 2048)%nat -> (0 < cap <= BBQ_MAX_CAPACITY)%nat.
Proof.
  intros []. split; [done|]. apply Nat2Z.inj_le. rewrite bbq_max_capacity_Z. lia.
Qed.

(** [resize] of the queue made by the default constructor, which has 128 places.  The
    standard lets [std::vector::resize] give more capacity than was asked for; for 256
    and 2048, the lengths that the program configures, the common implementations
    give as much. *)
Definition bbq_resize (q : byte_buffer_queue) (capacity : nat) : option byte_buffer_queue :=
  c ← cb_set_size (bbq_queue q) capacity capacity; Some (bbq_set_queue q c).

Definition bbq_resized (n : Z) : byte_buffer_queue :=
  default (bbq_new 128) (bbq_resize (bbq_new 128) (Z.to_nat n)).

(** When the queue grows it is as if it had been made with the new capacity. *)
Lemma bbq_resized_new n : (128 <= n)%Z -> bbq_resized n = bbq_new (Z.to_nat n).
Proof.
  intros Hn. unfold bbq_resized, bbq_resize, cb_set_size, bbq_set_queue, bbq_new, cb_new. cbn [bbq_queue cb_empty cb_count Nat.eqb orb mbind option_bind
    default cb_buffer cb_max_size cb_rpos bbq_active unread_bytes n_sdus]. unfold cb_empty. cbn [cb_count Nat.eqb orb mbind option_bind default from_option id].
  f_equal. f_equal; [|lia]. rewrite resize_ge by (rewrite length_replicate; lia). rewrite length_replicate, <- replicate_add. f_equal. lia.
Qed.

Lemma bbq_resized_rep n : (128 <= n <= 2048)%Z -> bbq_rep (bbq_resized n) (Z.to_nat n) [].
Proof. intros Hn. rewrite bbq_resized_new by lia. apply bbq_new_rep, small_capacity. lia. Qed.

(** A queue of capacity [cap] after [l] was written to it. *)
Definition bbq_fill (cap : nat) (l : list bytes) : byte_buffer_queue :=
  foldl (fun q s => match bbq_try_write q s with Some (_, q') => q' | None => q end) (bbq_new cap) l.

Lemma bbq_fill_rep cap l :
  (0 < cap <= BBQ_MAX_CAPACITY)%nat -> (length l <= cap)%nat -> Forall sdu_ok l ->
  bbq_rep (bbq_fill cap l) cap l.
Proof.
  intros Hc. induction l as [|s l IH] using rev_ind; intros Hl Hs; [by apply bbq_new_rep|].
  rewrite length_app in Hl. cbn [length] in Hl. apply Forall_app in Hs as [Hs1 Hs2].
  apply Forall_cons_1 in Hs2 as [Hs2 _]. unfold bbq_fill. rewrite foldl_app. cbn [foldl].
  fold (bbq_fill cap l).
  destruct (bbq_try_write_spec (bbq_fill cap l) cap l s (IH ltac:(lia) Hs1) Hs2 ltac:(lia)) as (q & -> & Hq).
  done.
Qed.

(** ** Refinement: a queue is a bounded FIFO *)

Inductive queue_op := QWrite (s : bytes) | QRead.
Inductive queue_resp := RWritten (accepted : bool) | RRead (s : bytes).

(** The specification: a list of at most [cap] SDUs.  A read of the empty list
    blocks. *)
Definition fifo_step (cap : nat) (l : list bytes) (o : queue_op)
  : option (queue_resp * list bytes) :=
  match o with
  | QWrite s => if Nat.ltb (length l) cap then Some (RWritten true, l ++ [s])
                else Some (RWritten false, l)
  | QRead => match l with [] => None | s :: l' => Some (RRead s, l') end
  end.

Fixpoint fifo_run (cap : nat) (l : list bytes) (os : list queue_op)
  : option (list queue_resp * list bytes) :=
  match os with
  | [] => Some ([], l)
  | o :: os' =>
      '(r, l1) ← fifo_step cap l o; '(rs, l2) ← fifo_run cap l1 os'; Some (r :: rs, l2)
  end.

Section QueueRefinement.
Context {Q : Type} `{SduQueueLaws Q}.

Definition queue_step (q : Q) (o : queue_op) : option (queue_resp * Q) :=
  match o with
  | QWrite s => '(b, q') ← sq_try_write q s; Some (RWritten b, q')
  | QRead => '(s, q') ← sq_read q; Some (RRead s, q')
  end.

Fixpoint queue_run (q : Q) (os : list queue_op) : option (list queue_resp * Q) :=
  match os with
  | [] => Some ([], q)
  | o :: os' => '(r, q1) ← queue_step q o; '(rs, q2) ← queue_run q1 os'; Some (r :: rs, q2)
  end.

Definition op_ok (o : queue_op) : Prop := match o with QWrite s => sdu_ok s | QRead => True end.

Lemma queue_step_refines q cap l o r l' :
  sq_rep q cap l -> (length l <= cap)%nat -> op_ok o -> fifo_step cap l o = Some (r, l') ->
  exists q', queue_step q o = Some (r, q') /\ sq_rep q' cap l' /\ (length l' <= cap)%nat.
Proof.
  intros Hr Hle Ho Hs. destruct o as [s|]; cbn [fifo_step queue_step op_ok] in *.
  - destruct (Nat.ltb_spec (length l) cap); injection Hs as <- <-.
    + destruct (sq_write_law q cap l s Hr Ho) as (q' & -> & Hr'); [done|]. cbn. eexists; split; [done|].
      split; [done|]. rewrite length_app. cbn. lia.
    + rewrite (sq_write_full_law q cap l s Hr) by lia. cbn. eauto.
  - destruct l as [|s l]; [done|]. injection Hs as <- <-.
    destruct (sq_read_law q cap s l Hr) as (q' & -> & Hr'). cbn in *. eexists; split; [done|].
    split; [done|lia].
Qed.

Lemma queue_run_refines os : forall q cap l rs l',
  sq_rep q cap l -> (length l <= cap)%nat -> Forall op_ok os -> fifo_run cap l os = Some (rs, l') ->
  exists q', queue_run q os = Some (rs, q') /\ sq_rep q' cap l'.
Proof.
  induction os as [|o os IH]; intros q cap l rs l' Hr Hle Ho Hf; cbn in *.
  - injection Hf as <- <-. eauto.
  - apply Forall_cons_1 in Ho as [Ho Hos].
    destruct (fifo_step cap l o) as [[r l1]|] eqn:Hs; [|done]. cbn in Hf.
    destruct (queue_step_refines _ _ _ _ _ _ Hr Hle Ho Hs) as (q1 & -> & Hr1 & Hle1). cbn.
    destruct (fifo_run cap l1 os) as [[rs1 l2]|] eqn:Hf1; [|done]. cbn in Hf. injection Hf as <- <-.
    destruct (IH _ _ _ _ _ Hr1 Hle1 Hos Hf1) as (q2 & -> & Hr2). cbn. eauto.
Qed.

End QueueRefinement.

(** C32: the SDU queue is a bounded FIFO.  For every sequence of writes (of SDUs
    that fit in a buffer) and of reads that do not block, the circular-buffer queue
    answers exactly what a list of at most [cap] SDUs answers, keeps the same
    contents and counts its SDUs and bytes exactly. *)
Theorem byte_buffer_queue_refines_fifo cap os rs l :
  (0 < cap <= BBQ_MAX_CAPACITY)%nat -> Forall op_ok os -> fifo_run cap [] os = Some (rs, l) ->
  exists q, queue_run (bbq_new cap) os = Some (rs, q) /\
    unread_bytes q = total_bytes l /\ n_sdus q = zlen l /\ cb_rep (bbq_queue q) l.
Proof.
  intros Hc Ho Hf.
  destruct (queue_run_refines os (bbq_new cap) cap [] rs l) as (q & Hq & []);
    [by apply bbq_new_rep|cbn; lia|done..|]. eauto.
Qed.

Lemma byte_buffer_queue_refines_fifo_witness :
  exists q, queue_run (bbq_new 2) [QWrite [1; 2]; QWrite [3]; QWrite [4]; QRead; QWrite [5]; QRead] =
      Some ([RWritten true; RWritten true; RWritten false; RRead [1; 2]; RWritten true; RRead [3]], q) /\
    unread_bytes q = total_bytes [[5]] /\ n_sdus q = zlen [[5]] /\ cb_rep (bbq_queue q) [[5]].
Proof.
  apply byte_buffer_queue_refines_fifo; [|repeat constructor; vm_compute; discriminate|reflexivity].
  apply small_capacity. lia.
Defined.
