(* ===== verification/RlcUmHeader.v ===== *)
(** * RLC UM data PDU header

    [lib/src/rlc/rlc_um_lte.cc], section "Header pack/unpack helper functions",
    with the header type of [lib/include/srsran/rlc/rlc_common.h] and the
    configuration of [lib/include/srsran/interfaces/rlc_interface_types.h]. *)

From stdpp Require Import base list gmap numbers.
From S2P Require Import Prelude ByteBuffer.

Local Open Scope Z_scope.

Definition RLC_AM_WINDOW_SIZE : Z := 512.

Definition RLC_FI_FIELD_START_AND_END_ALIGNED : Z := 0.
Definition RLC_FI_FIELD_NOT_END_ALIGNED : Z := 1.
Definition RLC_FI_FIELD_NOT_START_ALIGNED : Z := 2.
Definition RLC_FI_FIELD_NOT_START_OR_END_ALIGNED : Z := 3.

Inductive rlc_umd_sn_size_t := size5bits | size10bits | sn_size_nulltype.

#[export] Instance rlc_umd_sn_size_eq_dec : EqDecision rlc_umd_sn_size_t.
Proof. solve_decision. Defined.

(** The array [li] is represented by its first [N_li] elements, the only ones the
    code reads; it has room for [RLC_AM_WINDOW_SIZE] of them. *)
Record rlc_umd_pdu_header_t := mk_umd_header {
  fi : Z;
  sn_size : rlc_umd_sn_size_t;
  sn : Z;
  li : list Z
}.

Definition N_li (h : rlc_umd_pdu_header_t) : Z := zlen (li h).

(** [len += N_li * 1.5 + 0.5] truncates the sum to an integer. *)
Definition rlc_um_packed_length (header : rlc_umd_pdu_header_t) : Z :=
  (if decide (sn_size header = size5bits) then 1 else 2) + (3 * N_li header + 1) / 2.

Definition rlc_um_start_aligned (fi_ : Z) : bool :=
  (fi_ =? RLC_FI_FIELD_START_AND_END_ALIGNED) || (fi_ =? RLC_FI_FIELD_NOT_END_ALIGNED).

Definition rlc_um_end_aligned (fi_ : Z) : bool :=
  (fi_ =? RLC_FI_FIELD_START_AND_END_ALIGNED) || (fi_ =? RLC_FI_FIELD_NOT_START_ALIGNED).

(** ** Writing *)

(** The extension part.  Two length indicators share three bytes; the middle byte
    is written by the first one and completed by the second. *)
Fixpoint write_li (lis : list Z) : bytes :=
  match lis with
  | [] => []
  | [a] =>
      [Z.lor (Z.shiftl 0 7) (Z.shiftr (Z.land a 0x7F0) 4);
       u8 (Z.shiftl (Z.land a 0x00F) 4)]
  | a :: b :: rest =>
      let ext := b2z (match rest with [] => false | _ => true end) in
      [Z.lor (Z.shiftl 1 7) (Z.shiftr (Z.land a 0x7F0) 4);
       Z.lor (Z.lor (u8 (Z.shiftl (Z.land a 0x00F) 4)) (Z.shiftl (Z.land ext 0x01) 3))
         (Z.shiftr (Z.land b 0x700) 8);
       Z.land b 0x0FF] ++ write_li rest
  end.

(** The fixed part. *)
Definition write_fixed (header : rlc_umd_pdu_header_t) : bytes :=
  let ext := if 0 <? N_li header then 1 else 0 in
  if decide (sn_size header = size5bits) then
    [Z.lor (Z.lor (u8 (Z.shiftl (Z.land (fi header) 0x03) 6)) (Z.shiftl (Z.land ext 0x01) 5))
       (Z.land (sn header) 0x1F)]
  else
    [Z.lor (Z.lor (Z.shiftl (Z.land (fi header) 0x03) 3) (Z.shiftl (Z.land ext 0x01) 2))
       (Z.shiftr (Z.land (sn header) 0x300) 8);
     Z.land (sn header) 0xFF].

Definition umd_header_bytes (header : rlc_umd_pdu_header_t) : bytes :=
  write_fixed header ++ write_li (li header).

(** [rlc_um_write_data_pdu_header]: [msg] moves back by the packed length, the
    header is written there and [N_bytes] grows by the bytes written. *)
Definition rlc_um_write_data_pdu_header (header : rlc_umd_pdu_header_t) (pdu : byte_buffer_t)
  : option byte_buffer_t :=
  let len := rlc_um_packed_length header in
  let p := msg pdu - len in
  let bs := umd_header_bytes header in
  m ← store (buffer pdu) p bs;
  Some (mk_byte_buffer (u32 (N_bytes pdu + zlen bs)) m p (md_pdcp_sn pdu)).

(** ** Reading *)

(** The loop over the extension bit.  [ptr] is the read position in the payload
    and [acc] the indicators read so far; a read past the payload or a 513th
    indicator is [None].  Each turn moves [ptr], so [fuel] is at most the number of
    bytes. *)
Fixpoint read_li (fuel : nat) (payload : bytes) (ptr : Z) (acc : list Z) (ext : bool)
  : option (list Z) :=
  if negb ext then Some acc
  else match fuel with
  | O => None
  | S fuel' =>
      if RLC_AM_WINDOW_SIZE <=? zlen acc then None
      else if zlen acc mod 2 =? 0 then
        b0 ← load payload ptr;
        b1 ← load payload (ptr + 1);
        read_li fuel' payload (ptr + 1)
          (acc ++ [Z.lor (Z.shiftl (Z.land b0 0x7F) 4) (Z.shiftr (Z.land b1 0xF0) 4)])
          (negb (Z.land (Z.shiftr b0 7) 0x01 =? 0))
      else
        b0 ← load payload ptr;
        b1 ← load payload (ptr + 1);
        read_li fuel' payload (ptr + 2)
          (acc ++ [Z.lor (Z.shiftl (Z.land b0 0x07) 8) (Z.land b1 0xFF)])
          (negb (Z.land (Z.shiftr b0 3) 0x01 =? 0))
  end.

Definition rlc_um_read_data_pdu_header (payload : bytes) (sn_size_ : rlc_umd_sn_size_t)
  : option rlc_umd_pdu_header_t :=
  let fuel := S (length payload) in
  if decide (sn_size_ = size5bits) then
    b0 ← load payload 0;
    lis ← read_li fuel payload 1 [] (negb (Z.land (Z.shiftr b0 5) 0x01 =? 0));
    Some (mk_umd_header (Z.land (Z.shiftr b0 6) 0x03) sn_size_ (Z.land b0 0x1F) lis)
  else
    b0 ← load payload 0;
    b1 ← load payload 1;
    lis ← read_li fuel payload 2 [] (negb (Z.land (Z.shiftr b0 2) 0x01 =? 0));
    Some (mk_umd_header (Z.land (Z.shiftr b0 3) 0x03) sn_size_
            (Z.lor (Z.shiftl (Z.land b0 0x03) 8) (Z.land b1 0xFF)) lis).

(** ** Well-formed headers *)

Definition sn_mod (s : rlc_umd_sn_size_t) : Z :=
  if decide (s = size5bits) then 32 else 1024.

(** Every field fits in its bits, there are at most [RLC_AM_WINDOW_SIZE]
    indicators. *)
Record umd_header_ok (h : rlc_umd_pdu_header_t) : Prop := {
  umd_fi : 0 <= fi h < 4;
  umd_sn : 0 <= sn h < sn_mod (sn_size h);
  umd_li : Forall (fun l => 0 <= l < 2048) (li h);
  umd_n : N_li h <= RLC_AM_WINDOW_SIZE
}.

(** ** The packed length is the number of bytes written *)

(** Induction on a list two elements at a time. *)
Lemma list_pair_ind {A} (P : list A -> Prop) :
  P [] -> (forall a, P [a]) -> (forall a b l, P l -> P (a :: b :: l)) -> forall l, P l.
Proof.
  intros H0 H1 H2 l. enough (H : P l /\ forall a, P (a :: l)) by apply H.
  induction l as [|x l [IH1 IH2]]; split; auto.
Qed.

Lemma zlen_write_li l : zlen (write_li l) = (3 * zlen l + 1) / 2.
Proof.
  induction l as [|a|a b l IH] using list_pair_ind; [done..|].
  cbn [write_li]. rewrite zlen_app, IH, !zlen_cons, zlen_nil.
  replace (3 * (1 + (1 + zlen l)) + 1) with (3 * zlen l + 1 + 3 * 2) by lia.
  rewrite Z.div_add by lia. lia.
Qed.

Lemma zlen_umd_header_bytes h : zlen (umd_header_bytes h) = rlc_um_packed_length h.
Proof.
  unfold umd_header_bytes, rlc_um_packed_length, write_fixed, N_li.
  rewrite zlen_app, zlen_write_li. by destruct (decide _).
Qed.

(** ** Reading back what was written *)

(** Field arithmetic, checked on every value of the fields. *)
Lemma li_first_field a e t :
  0 <= a < 2048 -> 0 <= e < 2 -> 0 <= t < 8 ->
  let x0 := Z.lor (Z.shiftl e 7) (Z.shiftr (Z.land a 0x7F0) 4) in
  let x1 := Z.lor (Z.lor (u8 (Z.shiftl (Z.land a 0x00F) 4)) 0) t in
  let x1' := Z.lor (Z.lor (u8 (Z.shiftl (Z.land a 0x00F) 4)) 8) t in
  Z.lor (Z.shiftl (Z.land x0 0x7F) 4) (Z.shiftr (Z.land x1 0xF0) 4) = a /\
  Z.lor (Z.shiftl (Z.land x0 0x7F) 4) (Z.shiftr (Z.land x1' 0xF0) 4) = a /\
  Z.land (Z.shiftr x0 7) 0x01 = e.
Proof.
  intros Ha He Ht.
  pose proof (range_forallb_spec 2048 (fun a => range_forallb 2 (fun e => range_forallb 8 (fun t =>
    let x0 := Z.lor (Z.shiftl e 7) (Z.shiftr (Z.land a 0x7F0) 4) in
    let x1 := Z.lor (Z.lor (u8 (Z.shiftl (Z.land a 0x00F) 4)) 0) t in
    let x1' := Z.lor (Z.lor (u8 (Z.shiftl (Z.land a 0x00F) 4)) 8) t in
    (Z.lor (Z.shiftl (Z.land x0 0x7F) 4) (Z.shiftr (Z.land x1 0xF0) 4) =? a) &&
    (Z.lor (Z.shiftl (Z.land x0 0x7F) 4) (Z.shiftr (Z.land x1' 0xF0) 4) =? a) &&
    (Z.land (Z.shiftr x0 7) 0x01 =? e))))
    ltac:(vm_compute; reflexivity) a Ha) as H.
  pose proof (range_forallb_spec _ _ (range_forallb_spec _ _ H e He) t Ht) as H'.
  cbv beta zeta in H'. zify_bools. intros x0 x1 x1'.
  split_and!; by apply Z.eqb_eq.
Qed.

Lemma li_second_field a b e :
  0 <= a < 16 -> 0 <= b < 2048 -> 0 <= e < 2 ->
  let x1 := Z.lor (Z.lor (u8 (Z.shiftl a 4)) (Z.shiftl (Z.land e 0x01) 3))
              (Z.shiftr (Z.land b 0x700) 8) in
  Z.lor (Z.shiftl (Z.land x1 0x07) 8) (Z.land (Z.land b 0x0FF) 0xFF) = b /\
  Z.land (Z.shiftr x1 3) 0x01 = e.
Proof.
  intros Ha Hb He.
  pose proof (range_forallb_spec 16 (fun a => range_forallb 2048 (fun b => range_forallb 2 (fun e =>
    let x1 := Z.lor (Z.lor (u8 (Z.shiftl a 4)) (Z.shiftl (Z.land e 0x01) 3))
                (Z.shiftr (Z.land b 0x700) 8) in
    (Z.lor (Z.shiftl (Z.land x1 0x07) 8) (Z.land (Z.land b 0x0FF) 0xFF) =? b) &&
    (Z.land (Z.shiftr x1 3) 0x01 =? e))))
    ltac:(vm_compute; reflexivity) a Ha) as H.
  pose proof (range_forallb_spec _ _ (range_forallb_spec _ _ H b Hb) e He) as H'.
  cbv beta zeta in H'. zify_bools. intros x1. split; by apply Z.eqb_eq.
Qed.

Lemma fixed5_fields f e s :
  0 <= f < 4 -> 0 <= e < 2 -> 0 <= s < 32 ->
  let x := Z.lor (Z.lor (u8 (Z.shiftl (Z.land f 0x03) 6)) (Z.shiftl (Z.land e 0x01) 5))
             (Z.land s 0x1F) in
  Z.land (Z.shiftr x 6) 0x03 = f /\ Z.land (Z.shiftr x 5) 0x01 = e /\ Z.land x 0x1F = s.
Proof.
  intros Hf He Hs.
  pose proof (range_forallb_spec 4 (fun f => range_forallb 2 (fun e => range_forallb 32 (fun s =>
    let x := Z.lor (Z.lor (u8 (Z.shiftl (Z.land f 0x03) 6)) (Z.shiftl (Z.land e 0x01) 5))
               (Z.land s 0x1F) in
    (Z.land (Z.shiftr x 6) 0x03 =? f) && (Z.land (Z.shiftr x 5) 0x01 =? e) &&
    (Z.land x 0x1F =? s))))
    ltac:(vm_compute; reflexivity) f Hf) as H.
  pose proof (range_forallb_spec _ _ (range_forallb_spec _ _ H e He) s Hs) as H'.
  cbv beta zeta in H'. zify_bools. intros x. split_and!; by apply Z.eqb_eq.
Qed.

Lemma fixed10_fields f e s :
  0 <= f < 4 -> 0 <= e < 2 -> 0 <= s < 1024 ->
  let x := Z.lor (Z.lor (Z.shiftl (Z.land f 0x03) 3) (Z.shiftl (Z.land e 0x01) 2))
             (Z.shiftr (Z.land s 0x300) 8) in
  Z.land (Z.shiftr x 3) 0x03 = f /\ Z.land (Z.shiftr x 2) 0x01 = e /\
  Z.lor (Z.shiftl (Z.land x 0x03) 8) (Z.land (Z.land s 0xFF) 0xFF) = s.
Proof.
  intros Hf He Hs.
  pose proof (range_forallb_spec 4 (fun f => range_forallb 2 (fun e => range_forallb 1024 (fun s =>
    let x := Z.lor (Z.lor (Z.shiftl (Z.land f 0x03) 3) (Z.shiftl (Z.land e 0x01) 2))
               (Z.shiftr (Z.land s 0x300) 8) in
    (Z.land (Z.shiftr x 3) 0x03 =? f) && (Z.land (Z.shiftr x 2) 0x01 =? e) &&
    (Z.lor (Z.shiftl (Z.land x 0x03) 8) (Z.land (Z.land s 0xFF) 0xFF) =? s))))
    ltac:(vm_compute; reflexivity) f Hf) as H.
  pose proof (range_forallb_spec _ _ (range_forallb_spec _ _ H e He) s Hs) as H'.
  cbv beta zeta in H'. zify_bools. intros x. split_and!; by apply Z.eqb_eq.
Qed.

Lemma load_middle pre x post i :
  zlen pre = i -> load (pre ++ x :: post) i = Some x.
Proof.
  intros <-. unfold load. pose proof (zlen_nonneg pre).
  destruct (Z.ltb_spec (zlen pre) 0); [lia|]. unfold zlen. rewrite Nat2Z.id.
  by apply list_lookup_middle.
Qed.

Lemma load_second pre x y post : load (pre ++ x :: y :: post) (zlen pre + 1) = Some y.
Proof.
  replace (pre ++ x :: y :: post) with ((pre ++ [x]) ++ y :: post) by (by rewrite <- app_assoc).
  apply load_middle. rewrite zlen_app. reflexivity.
Qed.

(** One turn of the loop at an even position. *)
Lemma read_li_even fuel pre x0 x1 post acc :
  zlen acc mod 2 = 0 -> zlen acc < RLC_AM_WINDOW_SIZE ->
  read_li (S fuel) (pre ++ x0 :: x1 :: post) (zlen pre) acc true =
  read_li fuel (pre ++ x0 :: x1 :: post) (zlen pre + 1)
    (acc ++ [Z.lor (Z.shiftl (Z.land x0 0x7F) 4) (Z.shiftr (Z.land x1 0xF0) 4)])
    (negb (Z.land (Z.shiftr x0 7) 0x01 =? 0)).
Proof.
  intros He Hn. cbn [read_li negb].
  destruct (Z.leb_spec RLC_AM_WINDOW_SIZE (zlen acc)); [lia|]. rewrite He. cbn [Z.eqb].
  rewrite (load_middle pre x0 _ _ eq_refl), load_second. done.
Qed.

(** One turn of the loop at an odd position. *)
Lemma read_li_odd fuel pre x1 x2 post acc :
  zlen acc mod 2 <> 0 -> zlen acc < RLC_AM_WINDOW_SIZE ->
  read_li (S fuel) (pre ++ x1 :: x2 :: post) (zlen pre) acc true =
  read_li fuel (pre ++ x1 :: x2 :: post) (zlen pre + 2)
    (acc ++ [Z.lor (Z.shiftl (Z.land x1 0x07) 8) (Z.land x2 0xFF)])
    (negb (Z.land (Z.shiftr x1 3) 0x01 =? 0)).
Proof.
  intros He Hn. cbn [read_li negb].
  destruct (Z.leb_spec RLC_AM_WINDOW_SIZE (zlen acc)); [lia|].
  destruct (Z.eqb_spec (zlen acc mod 2) 0); [done|].
  rewrite (load_middle pre x1 _ _ eq_refl), load_second. done.
Qed.

Definition nonempty {A} (l : list A) : bool := match l with [] => false | _ => true end.

Lemma read_write_li l : forall fuel pre post acc,
  Forall (fun l => 0 <= l < 2048) l -> zlen acc mod 2 = 0 ->
  zlen acc + zlen l <= RLC_AM_WINDOW_SIZE -> (length l < fuel)%nat ->
  read_li fuel (pre ++ write_li l ++ post) (zlen pre) acc (nonempty l) = Some (acc ++ l).
Proof.
  induction l as [|a|a b l IH] using list_pair_ind; intros fuel pre post acc Hl Hm Hn Hf.
  - destruct fuel; cbn; by rewrite app_nil_r.
  - destruct fuel as [|[|fuel]]; cbn [length] in Hf; try lia.
    apply Forall_cons_1 in Hl as [Ha _]. rewrite zlen_cons, zlen_nil in Hn.
    pose proof (li_first_field a 0 0 Ha ltac:(lia) ltac:(lia)) as (E1 & _ & E2).
    rewrite Z.lor_0_r, Z.lor_0_r in E1.
    change (write_li [a] ++ post) with
      (Z.lor (Z.shiftl 0 7) (Z.shiftr (Z.land a 0x7F0) 4) :: u8 (Z.shiftl (Z.land a 0x00F) 4) :: post).
    cbn [nonempty]. rewrite read_li_even by lia. rewrite E1, E2. reflexivity.
  - destruct fuel as [|[|fuel]]; cbn [length] in Hf; try lia.
    apply Forall_cons_1 in Hl as [Ha Hl]. apply Forall_cons_1 in Hl as [Hb Hl].
    rewrite !zlen_cons in Hn. pose proof (zlen_nonneg l).
    set (e := nonempty l).
    set (x0 := Z.lor (Z.shiftl 1 7) (Z.shiftr (Z.land a 0x7F0) 4)).
    set (x1 := Z.lor (Z.lor (u8 (Z.shiftl (Z.land a 0x00F) 4)) (Z.shiftl (Z.land (b2z e) 0x01) 3))
                 (Z.shiftr (Z.land b 0x700) 8)).
    assert (Ht : 0 <= Z.shiftr (Z.land b 0x700) 8 < 8).
    { pose proof (range_forallb_spec 2048 (fun b => (0 <=? Z.shiftr (Z.land b 0x700) 8) &&
        (Z.shiftr (Z.land b 0x700) 8 <? 8)) ltac:(vm_compute; reflexivity) b Hb) as H'.
      cbv beta in H'. zify_bools. lia. }
    assert (Ha4 : 0 <= Z.land a 15 < 16).
    { change 15 with (Z.ones 4). rewrite Z.land_ones by lia. apply Z.mod_pos_bound. lia. }
    pose proof (li_first_field a 1 _ Ha ltac:(lia) Ht) as (E1 & E1' & E2).
    pose proof (li_second_field (Z.land a 15) b (b2z e) Ha4 Hb ltac:(by destruct e)) as (E3 & E4).
    assert (E1x : Z.lor (Z.shiftl (Z.land x0 0x7F) 4) (Z.shiftr (Z.land x1 0xF0) 4) = a).
    { unfold x1. destruct e; assumption. }
    fold x0 in E2. fold x1 in E3, E4.
    change (write_li (a :: b :: l)) with ([x0; x1; Z.land b 0x0FF] ++ write_li l).
    cbn [nonempty]. cbn [app]. rewrite read_li_even by lia.
    rewrite E1x, E2. cbn [Z.eqb negb].
    replace (pre ++ x0 :: x1 :: Z.land b 255 :: write_li l ++ post)
      with ((pre ++ [x0]) ++ x1 :: Z.land b 255 :: write_li l ++ post) by (by rewrite <- app_assoc).
    replace (zlen pre + 1) with (zlen (pre ++ [x0])) by (rewrite zlen_app; reflexivity).
    assert (Hodd : zlen (acc ++ [a]) mod 2 = 1).
    { rewrite zlen_app. change (zlen [a]) with 1. rewrite Z.add_mod, Hm by lia. reflexivity. }
    rewrite read_li_odd; [|lia|rewrite zlen_app; change (zlen [a]) with 1; lia].
    rewrite E3, E4, <- (app_assoc acc). cbn [app].
    replace (negb (b2z e =? 0)) with e by (by destruct e).
    replace ((pre ++ [x0]) ++ x1 :: Z.land b 255 :: write_li l ++ post)
      with ((pre ++ [x0; x1; Z.land b 255]) ++ write_li l ++ post) by (by rewrite <- !app_assoc).
    replace (zlen (pre ++ [x0]) + 2) with (zlen (pre ++ [x0; x1; Z.land b 255]))
      by (rewrite !zlen_app; change (zlen [x0]) with 1; change (zlen [x0; x1; Z.land b 255]) with 3; lia).
    unfold e. rewrite IH; [by rewrite <- app_assoc|done| |..].
    + rewrite zlen_app. change (zlen [a; b]) with 2. rewrite Z.add_mod, Hm by lia. reflexivity.
    + rewrite zlen_app. change (zlen [a; b]) with 2. lia.
    + lia.
Qed.

Lemma read_umd_header_bytes h rest :
  umd_header_ok h ->
  rlc_um_read_data_pdu_header (umd_header_bytes h ++ rest) (sn_size h) = Some h.
Proof.
  intros [Hfi Hsn Hli Hn]. unfold rlc_um_read_data_pdu_header, umd_header_bytes, write_fixed.
  pose proof (zlen_write_li (li h)) as Hz. pose proof (zlen_nonneg (li h)) as H0.
  assert (Hlen : (length (li h) <= length (write_li (li h)))%nat).
  { unfold zlen in *. assert (Z.of_nat (length (li h)) <= (3 * Z.of_nat (length (li h)) + 1) / 2)
      by (apply Z.div_le_lower_bound; lia). lia. }
  set (e := if 0 <? N_li h then 1 else 0).
  assert (He : 0 <= e < 2) by (unfold e; destruct (0 <? N_li h); lia).
  assert (Hne : negb (e =? 0) = nonempty (li h)).
  { unfold e, N_li in *. destruct (li h); [done|]. rewrite zlen_cons in *.
    destruct (Z.ltb_spec 0 (1 + zlen l)); [done|]. pose proof (zlen_nonneg l). lia. }
  unfold sn_mod in Hsn. destruct (decide (sn_size h = size5bits)) as [Hs|Hs]; cbn [app].
  - destruct (fixed5_fields (fi h) e (sn h) Hfi He Hsn) as (E1 & E2 & E3).
    set (x := Z.lor _ _) in *. change (load (x :: write_li (li h) ++ rest) 0) with (Some x). cbn [mbind option_bind].
    rewrite E1, E2, E3, Hne.
    pose proof (read_write_li (li h) (S (length (x :: write_li (li h) ++ rest))) [x] rest []) as Hr.
    cbn [app] in Hr. change (zlen [x]) with 1 in Hr. rewrite Hr; [|done..|].
    + cbn. f_equal. by destruct h.
    + cbn [length]. rewrite length_app. lia.
  - destruct (fixed10_fields (fi h) e (sn h) Hfi He Hsn) as (E1 & E2 & E3).
    set (x := Z.lor _ _) in *. set (y := Z.land (sn h) 0xFF) in *.
    change (load (x :: y :: write_li (li h) ++ rest) 0) with (Some x).
    change (load (x :: y :: write_li (li h) ++ rest) 1) with (Some y). cbn [mbind option_bind].
    rewrite E1, E2, E3, Hne.
    pose proof (read_write_li (li h) (S (length (x :: y :: write_li (li h) ++ rest))) [x; y] rest []) as Hr.
    cbn [app] in Hr. change (zlen [x; y]) with 2 in Hr. rewrite Hr; [|done..|].
    + cbn. f_equal. by destruct h.
    + cbn [length]. rewrite length_app. lia.
Qed.

Lemma rlc_um_write_spec h pdu d :
  bb_wf pdu -> contents pdu = Some d -> rlc_um_packed_length h <= msg pdu ->
  exists pdu', rlc_um_write_data_pdu_header h pdu = Some pdu' /\ bb_wf pdu' /\
    contents pdu' = Some (umd_header_bytes h ++ d).
Proof.
  intros Hwf Hd Hr. rewrite <- zlen_umd_header_bytes in Hr.
  destruct (prepend_spec pdu (umd_header_bytes h) d Hwf Hd Hr) as (m & Hs & Hwf' & Hd' & _).
  unfold rlc_um_write_data_pdu_header. rewrite <- zlen_umd_header_bytes, Hs. cbn. eauto.
Qed.

(** Round trip of the UM data PDU header.  For every header whose fields fit
    their bits (at most 512 length indicators of 11 bits), writing it in front of
    a payload and reading the result gives back the header, and the packed length
    is exactly the number of bytes in front of the payload. *)
Theorem rlc_um_header_roundtrip h pdu d :
  umd_header_ok h -> bb_wf pdu -> contents pdu = Some d -> rlc_um_packed_length h <= msg pdu ->
  exists pdu' p, rlc_um_write_data_pdu_header h pdu = Some pdu' /\ bb_wf pdu' /\
    contents pdu' = Some p /\ rlc_um_read_data_pdu_header p (sn_size h) = Some h /\
    zdrop (rlc_um_packed_length h) p = d.
Proof.
  intros Hok Hwf Hd Hr. destruct (rlc_um_write_spec h pdu d Hwf Hd Hr) as (pdu' & Hw & Hwf' & Hd').
  exists pdu', (umd_header_bytes h ++ d). split_and!; try done.
  - by apply read_umd_header_bytes.
  - apply zdrop_app_eq, zlen_umd_header_bytes.
Qed.

Definition example_umd_header : rlc_umd_pdu_header_t :=
  mk_umd_header 1 size10bits 777 [2047; 3; 1500].

Lemma rlc_um_header_roundtrip_witness :
  let h := example_umd_header in
  exists pdu' p, rlc_um_write_data_pdu_header h (buffer_with [9; 8]) = Some pdu' /\ bb_wf pdu' /\
    contents pdu' = Some p /\ rlc_um_read_data_pdu_header p (sn_size h) = Some h /\
    zdrop (rlc_um_packed_length h) p = [9; 8].
Proof.
  destruct (buffer_with_spec [9; 8]) as [Hwf Hd]; [vm_compute; discriminate|].
  apply (rlc_um_header_roundtrip example_umd_header _ [9; 8]); [|exact Hwf|exact Hd|].
  - constructor; [vm_compute; split; congruence..|repeat constructor; lia|vm_compute; congruence].
  - vm_compute. discriminate.
Defined.
