(* ===== verification/RlcUmTx.v ===== *)
(** * RLC UM transmitter

    [rlc_um_lte_tx] of [lib/src/rlc/rlc_um_lte.cc] with its base class
    [rlc_um_base_tx] of [lib/src/rlc/rlc_um_base.cc]: the SDU queue, segmentation
    and concatenation of SDUs into data PDUs, buffer state; and the configuration
    [rlc_config_t].  The queue is any implementation of [SduQueue]. *)

From stdpp Require Import base list gmap numbers.
From S2P Require Import Prelude ByteBuffer CircularBuffer RlcUmHeader.

Local Open Scope Z_scope.

(** ** Configuration *)

Record rlc_um_config_t := mk_um_config {
  t_reordering : Z;
  tx_sn_field_length : rlc_umd_sn_size_t;
  rx_sn_field_length : rlc_umd_sn_size_t;
  rx_window_size : Z;
  rx_mod : Z;
  tx_mod : Z;
  is_mrb : bool
}.

Definition RLC_TX_QUEUE_LEN : Z := 256.

(** [rlc_config_t]: what its UM entities read.  Apart from the length of the queue,
    which only [configure] reads, they read the field [um]. *)
Record rlc_config_t := mk_rlc_config {
  um : rlc_um_config_t;
  tx_queue_length : Z
}.
Coercion um : rlc_config_t >-> rlc_um_config_t.

(** What the constructor of [rlc_config_t] leaves. *)
Definition rlc_config_new : rlc_config_t :=
  mk_rlc_config (mk_um_config 0 size5bits size5bits 0 0 0 false) RLC_TX_QUEUE_LEN.

(** [rlc_config_t::mch_config] and [default_rlc_um_config]. *)
Definition mch_config : rlc_config_t :=
  mk_rlc_config (mk_um_config 45 size5bits size5bits 16 32 32 true) 2048.

Definition default_rlc_um_config (sn_size_ : Z) : rlc_config_t :=
  if sn_size_ =? 10 then
    mk_rlc_config (mk_um_config 5 size10bits size10bits 512 1024 1024 false) (tx_queue_length rlc_config_new)
  else if sn_size_ =? 5 then
    mk_rlc_config (mk_um_config 5 size5bits size5bits 16 32 32 false) (tx_queue_length rlc_config_new)
  else rlc_config_new.

(** ** State *)

(** [tx_sdu] is what remains of the SDU in transmission. *)
Record um_tx (Q : Type) := mk_um_tx {
  tx_cfg : rlc_um_config_t;
  tx_sdu_queue : Q;
  tx_sdu : option bytes;
  vt_us : Z
}.
Arguments mk_um_tx {Q}.
Arguments tx_cfg {Q}.
Arguments tx_sdu_queue {Q}.
Arguments tx_sdu {Q}.
Arguments vt_us {Q}.

Section Tx.
Context {Q : Type} `{SduQueue Q}.
Implicit Types tx : um_tx Q.

Definition set_queue tx (q : Q) : um_tx Q := mk_um_tx (tx_cfg tx) q (tx_sdu tx) (vt_us tx).

(** [rlc_um_lte_tx::configure]: refuses a modulus of zero, else gives the queue the
    configured length; [resized n] is the empty queue after [resize(n)]. *)
Definition um_tx_configure (cfg : rlc_config_t) (resized : Z -> Q) tx : bool * um_tx Q :=
  if tx_mod cfg =? 0 then (false, mk_um_tx cfg (tx_sdu_queue tx) (tx_sdu tx) (vt_us tx))
  else (true, mk_um_tx cfg (resized (tx_queue_length cfg)) (tx_sdu tx) (vt_us tx)).

(** [try_write_sdu]: [None] as argument is a null pointer; the result flag is
    [SRSRAN_SUCCESS]. *)
Definition um_try_write_sdu tx (sdu : option bytes) : option (bool * um_tx Q) :=
  match sdu with
  | None => Some (false, tx)
  | Some s => '(ok, q) ← sq_try_write (tx_sdu_queue tx) s; Some (ok, set_queue tx q)
  end.

Definition um_has_data tx : bool :=
  (match tx_sdu tx with Some _ => true | None => false end) || negb (sq_is_empty (tx_sdu_queue tx)).

(** [get_buffer_state]: the double-precision terms are truncated when they are
    added to the integer. *)
Definition um_get_buffer_state tx : Z :=
  let n0 := sq_size (tx_sdu_queue tx) in
  let b0 := sq_size_bytes (tx_sdu_queue tx) in
  let '(n1, b1) := match tx_sdu tx with
                   | Some s => (u32 (n0 + 1), u32 (b0 + zlen s))
                   | None => (n0, b0)
                   end in
  let b2 := if 1 <? n1 then u32 (b1 + (3 * (n1 - 1) + 1) / 2) else b1 in
  if 0 <? b2 then u32 (b2 + (if is_mrb (tx_cfg tx) then 2 else 3)) else b2.

(** [empty_queue]: reads until the queue is empty. *)
Fixpoint um_drain (fuel : nat) (q : Q) : option Q :=
  if sq_is_empty q then Some q
  else match fuel with
  | O => None
  | S fuel' => '(_, q') ← sq_read q; um_drain fuel' q'
  end.

Definition um_empty_queue tx : option (um_tx Q) :=
  q ← um_drain (Z.to_nat (sq_size (tx_sdu_queue tx))) (tx_sdu_queue tx);
  Some (mk_um_tx (tx_cfg tx) q None (vt_us tx)).

(** [stop]: empties the queue and resets the sequence number; [reestablish] calls
    it. *)
Definition um_tx_stop tx : option (um_tx Q) :=
  tx1 ← um_empty_queue tx;
  Some (mk_um_tx (tx_cfg tx1) (tx_sdu_queue tx1) (tx_sdu tx1) 0).

(** ** [build_data_pdu] *)

(** The local variables of [build_data_pdu]: the length indicators of the header,
    [last_li], [head_len], [pdu_space] and the PDU under construction. *)
Record build_state := mk_build {
  bs_li : list Z;
  bs_last_li : Z;
  bs_head_len : Z;
  bs_pdu_space : Z;
  bs_pdu : byte_buffer_t
}.

Definition build_header tx (fi_ : Z) (lis : list Z) : rlc_umd_pdu_header_t :=
  mk_umd_header fi_ (tx_sn_field_length (tx_cfg tx)) (vt_us tx) lis.

(** Copies up to [space] bytes of [sdu] at the end of the PDU: number of bytes,
    PDU and what remains of the SDU ([reset] when nothing does). *)
Definition move_segment (pdu : byte_buffer_t) (sdu : bytes) (space : Z)
  : option (Z * byte_buffer_t * option bytes) :=
  let to_move := if zlen sdu <=? space then zlen sdu else space in
  pdu' ← append_bytes pdu (ztake to_move sdu);
  let rest := zdrop to_move sdu in
  Some (to_move, pdu', if zlen rest =? 0 then None else Some rest).

(** The loop that pulls SDUs from the queue.  Each turn reads one SDU, so [fuel]
    is the size of the queue. *)
Fixpoint pull_sdus (fuel : nat) tx (b : build_state) : option (um_tx Q * build_state) :=
  if (bs_head_len b + 1 <? bs_pdu_space b) && (0 <? sq_size (tx_sdu_queue tx)) then
    match fuel with
    | O => None
    | S fuel' =>
        lis ← (if 0 <? bs_last_li b then
                 if RLC_AM_WINDOW_SIZE <=? zlen (bs_li b) then None
                 else Some (bs_li b ++ [u16 (bs_last_li b)])
               else Some (bs_li b));
        let head_len := rlc_um_packed_length (build_header tx 0 lis) in
        let space := u32 (bs_pdu_space b - head_len) in
        if space =? 0 then
          match lis with
          | [] => None
          | _ => Some (tx, mk_build (removelast lis) (bs_last_li b) head_len (bs_pdu_space b) (bs_pdu b))
          end
        else
          '(sdu, q) ← sq_read (tx_sdu_queue tx);
          '(to_move, pdu, rest) ← move_segment (bs_pdu b) sdu space;
          pull_sdus fuel' (mk_um_tx (tx_cfg tx) q rest (vt_us tx))
            (mk_build lis to_move head_len (i32 (bs_pdu_space b - to_move)) pdu)
    end
  else Some (tx, b).

(** [build_data_pdu]: the bytes copied to the MAC's buffer (none when it returns
    0).  [mem] is the block the buffer pool returned. *)
Definition build_data_pdu tx (mem : bytes) (nof_bytes : Z) : option (bytes * um_tx Q) :=
  if negb (um_has_data tx) then Some ([], tx)
  else
    let pdu := byte_buffer_new mem in
    let head_len := rlc_um_packed_length (build_header tx RLC_FI_FIELD_START_AND_END_ALIGNED []) in
    let pdu_space := Z.min nof_bytes (get_tailroom pdu) in
    if pdu_space <=? head_len + 1 then Some ([], tx)
    else
      (* SDU segment *)
      '(tx1, fi1, b1) ←
        (match tx_sdu tx with
         | Some sdu =>
             '(to_move, pdu', rest) ← move_segment pdu sdu (u32 (pdu_space - head_len));
             Some (mk_um_tx (tx_cfg tx) (tx_sdu_queue tx) rest (vt_us tx),
                   RLC_FI_FIELD_NOT_START_ALIGNED,
                   mk_build [] to_move head_len
                     (i32 (pdu_space - Z.min to_move (get_tailroom pdu'))) pdu')
         | None => Some (tx, RLC_FI_FIELD_START_AND_END_ALIGNED, mk_build [] 0 head_len pdu_space pdu)
         end);
      (* SDUs of the queue *)
      '(tx2, b2) ← pull_sdus (Z.to_nat (sq_size (tx_sdu_queue tx1))) tx1 b1;
      let fi2 := match tx_sdu tx2 with
                 | Some _ => Z.lor fi1 RLC_FI_FIELD_NOT_END_ALIGNED
                 | None => fi1
                 end in
      let header := build_header tx fi2 (bs_li b2) in
      let tx3 := mk_um_tx (tx_cfg tx2) (tx_sdu_queue tx2) (tx_sdu tx2)
                   (u32 (vt_us tx + 1) mod tx_mod (tx_cfg tx)) in
      pdu ← rlc_um_write_data_pdu_header header (bs_pdu b2);
      out ← contents pdu;
      Some (out, tx3).

End Tx.

(** ** Correctness of segmentation *)

(** SDUs that the 11-bit length indicator can describe. *)
Definition short_sdu (s : bytes) : Prop := 0 < zlen s < 2048.

(** With SDUs of this size no PDU has more segments than its header has room for
    length indicators: 512 of them are longer than a buffer. *)
Definition LI_SAFE_SDU : Z := 24.

(** [joined segs rest whole]: the segments [segs] followed by [rest], which
    continues the last of them, are the SDUs [whole]. *)
Definition joined (segs : list bytes) (rest : option bytes) (whole : list bytes) : Prop :=
  match rest with
  | None => whole = segs
  | Some r => exists full p, segs = full ++ [p] /\ whole = full ++ [p ++ r] /\ p <> [] /\ r <> []
  end.

(** The length indicators of [segs]: the length of every segment but the last. *)
Definition seg_li (segs : list bytes) : list Z := map zlen (removelast segs).

Lemma removelast_snoc {A} (l : list A) x : removelast (l ++ [x]) = l.
Proof. apply removelast_last. Qed.

Lemma zlen_pos_nonnil {A} (s : list A) : 0 < zlen s -> s <> [].
Proof. intros Hs ->. by apply Z.lt_irrefl in Hs. Qed.

Section TxProofs.
Context {Q : Type} `{SduQueueLaws Q}.
Implicit Types tx : um_tx Q.

(** The length of a header with the indicators [lis]. *)
Definition hdr_len tx (lis : list Z) : Z := rlc_um_packed_length (build_header tx 0 lis).

Lemma packed_length_fi tx f lis : rlc_um_packed_length (build_header tx f lis) = hdr_len tx lis.
Proof. reflexivity. Qed.

Lemma hdr_len_queue tx q r lis :
  hdr_len (mk_um_tx (tx_cfg tx) q r (vt_us tx)) lis = hdr_len tx lis.
Proof. reflexivity. Qed.

Lemma hdr_len_bounds tx lis :
  1 <= hdr_len tx lis <= 2 + (3 * zlen lis + 1) / 2 /\
  forall x, hdr_len tx lis < hdr_len tx (lis ++ [x]) <= hdr_len tx lis + 2.
Proof.
  unfold hdr_len, rlc_um_packed_length, N_li. cbn [build_header li sn_size].
  pose proof (zlen_nonneg lis). split.
  - assert (0 <= (3 * zlen lis + 1) / 2) by (apply Z.div_pos; lia).
    destruct (decide _); lia.
  - intros x. rewrite zlen_app. change (zlen [x]) with 1.
    replace (3 * (zlen lis + 1) + 1) with (3 * zlen lis + 1 + 3) by lia.
    pose proof (Z.div_mod (3 * zlen lis + 1) 2 ltac:(lia)).
    pose proof (Z.div_mod (3 * zlen lis + 1 + 3) 2 ltac:(lia)).
    pose proof (Z.mod_pos_bound (3 * zlen lis + 1) 2 ltac:(lia)).
    pose proof (Z.mod_pos_bound (3 * zlen lis + 1 + 3) 2 ltac:(lia)).
    destruct (decide _); lia.
Qed.

(** What [move_segment] does within the tailroom. *)
Lemma move_segment_spec pdu sdu space d :
  bb_wf pdu -> contents pdu = Some d -> 0 < space -> space <= get_tailroom pdu -> 0 < zlen sdu ->
  exists pdu' seg rest, move_segment pdu sdu space = Some (zlen seg, pdu', rest) /\
    bb_wf pdu' /\ contents pdu' = Some (d ++ seg) /\ msg pdu' = msg pdu /\
    N_bytes pdu' = N_bytes pdu + zlen seg /\ 0 < zlen seg <= space /\
    joined [seg] rest [sdu] /\ (rest <> None -> zlen seg = space).
Proof.
  intros Hwf Hd Hsp Htail Hs. unfold move_segment.
  set (n := if zlen sdu <=? space then zlen sdu else space).
  assert (Hn : 0 < n <= space /\ n <= zlen sdu).
  { unfold n. destruct (Z.leb_spec (zlen sdu) space); lia. }
  assert (Hz : zlen (ztake n sdu) = n) by (apply zlen_ztake; lia).
  destruct (append_bytes_spec pdu (ztake n sdu) d Hwf Hd ltac:(lia)) as (pdu' & -> & Hwf' & Hd' & Hnb & Hmsg).
  cbn [mbind option_bind].
  exists pdu', (ztake n sdu), (if zlen (zdrop n sdu) =? 0 then None else Some (zdrop n sdu)).
  rewrite Hz in *. split_and!; try done; try lia.
  - pose proof (ztake_zdrop n sdu) as Htd.
    destruct (Z.eqb_spec (zlen (zdrop n sdu)) 0) as [E|E]; cbn.
    + rewrite (zlen_0 _ E), app_nil_r in Htd. by rewrite Htd.
    + exists [], (ztake n sdu). rewrite Htd. split_and!; try done.
      * apply zlen_pos_nonnil. lia.
      * intros E'. rewrite E' in E. done.
  - intros Hr. destruct (Z.eqb_spec (zlen (zdrop n sdu)) 0); [done|].
    rewrite zlen_zdrop in * by lia. unfold n in *. destruct (Z.leb_spec (zlen sdu) space); lia.
Qed.

(** Invariant of the construction of a PDU of at most [S] bytes: [segs] are the
    segments copied so far. *)
Record build_inv tx (b : build_state) (S : Z) (segs : list bytes) : Prop := {
  bi_wf : bb_wf (bs_pdu b);
  bi_msg : msg (bs_pdu b) = SRSRAN_BUFFER_HEADER_OFFSET;
  bi_data : contents (bs_pdu b) = Some (mjoin segs);
  bi_n : N_bytes (bs_pdu b) = zlen (mjoin segs);
  bi_space : zlen (mjoin segs) + bs_pdu_space b = S;
  bi_S : S <= SRSRAN_MAX_BUFFER_SIZE_BYTES - SRSRAN_BUFFER_HEADER_OFFSET;
  bi_li : bs_li b = seg_li segs;
  bi_last : match segs with
            | [] => bs_last_li b = 0
            | _ => exists full x, segs = full ++ [x] /\ bs_last_li b = zlen x
            end;
  bi_head : bs_head_len b = hdr_len tx (bs_li b);
  bi_room : bs_head_len b <= bs_pdu_space b;
  bi_short : Forall short_sdu segs
}.

(** What the construction ends with. *)
Record build_done tx tx' (b : build_state) (S : Z) (segs : list bytes) : Prop := {
  bd_wf : bb_wf (bs_pdu b);
  bd_msg : msg (bs_pdu b) = SRSRAN_BUFFER_HEADER_OFFSET;
  bd_data : contents (bs_pdu b) = Some (mjoin segs);
  bd_li : bs_li b = seg_li segs;
  bd_size : hdr_len tx (bs_li b) + zlen (mjoin segs) <= S;
  bd_short : Forall short_sdu segs;
  bd_cfg : tx_cfg tx' = tx_cfg tx;
  bd_sn : vt_us tx' = vt_us tx
}.

Lemma build_inv_done tx b S segs : build_inv tx b S segs -> build_done tx tx b S segs.
Proof.
  intros []. constructor; try done. rewrite <- bi_head0. lia.
Qed.

Lemma bi_joined_room tx b S segs : build_inv tx b S segs ->
  zlen (mjoin segs) <= SRSRAN_MAX_BUFFER_SIZE_BYTES - SRSRAN_BUFFER_HEADER_OFFSET.
Proof. intros []. pose proof (proj1 (hdr_len_bounds tx (bs_li b))). lia. Qed.

Lemma seg_li_snoc segs x : seg_li (segs ++ [x]) = map zlen segs.
Proof. unfold seg_li. by rewrite removelast_snoc. Qed.

Lemma bi_next_li tx b S segs :
  build_inv tx b S segs -> zlen segs <= RLC_AM_WINDOW_SIZE ->
  (if 0 <? bs_last_li b then
     if RLC_AM_WINDOW_SIZE <=? zlen (bs_li b) then None else Some (bs_li b ++ [u16 (bs_last_li b)])
   else Some (bs_li b)) = Some (map zlen segs).
Proof.
  intros [] Hn. destruct segs as [|s0 segs0].
  - rewrite bi_last0, bi_li0. reflexivity.
  - destruct bi_last0 as (full & x & E & Hx). rewrite E in *.
    apply Forall_app in bi_short0 as [_ Hsx]. apply Forall_cons_1 in Hsx as [Hsx _]. unfold short_sdu in Hsx.
    rewrite Hx, bi_li0, seg_li_snoc. destruct (Z.ltb_spec 0 (zlen x)); [|lia].
    rewrite zlen_app in Hn. change (zlen [x]) with 1 in Hn.
    replace (zlen (map zlen full)) with (zlen full) by (unfold zlen; by rewrite length_map).
    destruct (Z.leb_spec RLC_AM_WINDOW_SIZE (zlen full)); [lia|].
    rewrite u16_id by (unfold is_u16; lia). by rewrite map_app.
Qed.

Lemma joined_single seg rest sdu :
  joined [seg] rest [sdu] -> short_sdu sdu -> 0 < zlen seg -> short_sdu seg.
Proof.
  unfold short_sdu. destruct rest as [r|]; cbn.
  - intros (full & p & E1 & E2 & _ & _) Hs Hp. destruct full as [|f full]; cbn in *.
    + injection E1 as ->. injection E2 as ->. rewrite zlen_app in Hs. pose proof (zlen_nonneg r). lia.
    + injection E1 as _ E1. symmetry in E1. by apply app_eq_nil in E1 as [_ ?].
  - intros E. injection E as ->. lia.
Qed.

Lemma joined_snoc segs seg rest sdu :
  joined [seg] rest [sdu] -> joined (segs ++ [seg]) rest (segs ++ [sdu]).
Proof.
  destruct rest as [r|]; cbn.
  - intros (full & p & E1 & E2 & Hp & Hr). destruct full as [|f full]; cbn in *.
    + injection E1 as ->. injection E2 as ->. eauto 10.
    + injection E1 as _ E1. symmetry in E1. by apply app_eq_nil in E1 as [_ ?].
  - intros E. injection E as ->. done.
Qed.

(** One turn of the loop: the invariant holds for the segments with one more. *)
Lemma build_inv_step tx b S segs q rest pdu seg :
  let lis := map zlen segs in
  let space := bs_pdu_space b - hdr_len tx lis in
  build_inv tx b S segs -> bb_wf pdu -> contents pdu = Some (mjoin segs ++ seg) ->
  msg pdu = msg (bs_pdu b) -> N_bytes pdu = N_bytes (bs_pdu b) + zlen seg ->
  zlen seg <= space -> short_sdu seg ->
  build_inv (mk_um_tx (tx_cfg tx) q rest (vt_us tx))
    (mk_build lis (zlen seg) (hdr_len tx lis) (i32 (bs_pdu_space b - zlen seg)) pdu) S (segs ++ [seg]).
Proof.
  intros lis space [] Hwf Hd Hm Hn Hsp Hsh. bb_consts.
  pose proof (zlen_nonneg (mjoin segs)). pose proof (proj1 (hdr_len_bounds tx lis)).
  assert (Hj : mjoin (segs ++ [seg]) = mjoin segs ++ seg).
  { rewrite join_app. cbn. by rewrite app_nil_r. }
  assert (Hi : i32 (bs_pdu_space b - zlen seg) = bs_pdu_space b - zlen seg).
  { apply i32_id. unfold short_sdu in Hsh. lia. }
  constructor; cbn [bs_pdu bs_li bs_last_li bs_head_len bs_pdu_space]; bb_consts;
    rewrite ?Hj, ?Hi, ?zlen_app; try done; try lia.
  - by rewrite seg_li_snoc.
  - destruct (segs ++ [seg]) eqn:E; [by destruct segs|]. rewrite <- E. eauto.
  - apply Forall_app. split; [done|]. by apply Forall_singleton.
Qed.

(** How a PDU of [size] bytes uses the [S] bytes it may have: everything was taken, or
    an SDU was cut and no byte is left, or the next SDU did not fit with its length
    indicator and at most two bytes are left. *)
Definition pdu_fills (rest : option bytes) (l' : list bytes) (size S : Z) : Prop :=
  (rest = None /\ l' = []) \/ (rest <> None /\ size = S) \/ (rest = None /\ l' <> [] /\ S - 2 <= size).

(** Why the length indicators fit in their array: either all the SDUs do, or those
    taken from the queue are not short and the segments are so many bytes. *)
Definition li_room tx (segs l : list bytes) : Prop :=
  zlen segs + zlen l <= RLC_AM_WINDOW_SIZE + 1 \/
  (Forall (fun s => LI_SAFE_SDU <= zlen s) l /\
   LI_SAFE_SDU * (zlen segs - match tx_sdu tx with Some _ => 2 | None => 1 end) <= zlen (mjoin segs)).

(** The number of segments, and of those that may be followed by one more. *)
Lemma li_room_segs tx segs l S : li_room tx segs l -> zlen (mjoin segs) <= S ->
  S <= SRSRAN_MAX_BUFFER_SIZE_BYTES - SRSRAN_BUFFER_HEADER_OFFSET ->
  zlen segs <= RLC_AM_WINDOW_SIZE + 1 /\ (tx_sdu tx = None -> l <> [] -> zlen segs <= RLC_AM_WINDOW_SIZE).
Proof.
  unfold li_room, LI_SAFE_SDU, RLC_AM_WINDOW_SIZE. intros Hr Hj HS. bb_consts. pose proof (zlen_nonneg l).
  destruct Hr as [Hr|[_ Hr]]; split; try (destruct (tx_sdu tx); lia).
  intros _ Hl. destruct l as [|x l]; [done|]. rewrite zlen_cons in *. pose proof (zlen_nonneg l). lia.
Qed.

(** One more segment, of the SDU [s], keeps the room. *)
Lemma li_room_step tx q rest segs seg s l : tx_sdu tx = None -> joined [seg] rest [s] ->
  li_room tx segs (s :: l) -> li_room (mk_um_tx (tx_cfg tx) q rest (vt_us tx)) (segs ++ [seg]) l.
Proof.
  unfold li_room. intros -> Hj [Hr|[[Hs Hl]%Forall_cons_1 Hr]].
  - left. rewrite zlen_app. rewrite zlen_cons in Hr. change (zlen [seg]) with 1. lia.
  - right. split; [done|]. rewrite join_app, !zlen_app. change (mjoin [seg]) with (seg ++ []). rewrite app_nil_r.
    change (zlen [seg]) with 1. cbn [tx_sdu]. pose proof (zlen_nonneg seg).
    destruct rest as [r|]; [unfold LI_SAFE_SDU in *; lia|]. cbn in Hj. injection Hj as ->. unfold LI_SAFE_SDU in *. lia.
Qed.

(** The loop stops with a full PDU or without SDUs. *)
Lemma build_inv_fills tx b S segs l :
  build_inv tx b S segs -> (bs_head_len b + 1 <? bs_pdu_space b) && (0 <? zlen l) = false ->
  (tx_sdu tx = None \/ bs_pdu_space b = bs_head_len b) ->
  pdu_fills (tx_sdu tx) l (hdr_len tx (bs_li b) + zlen (mjoin segs)) S.
Proof.
  intros [] Hc Hor. rewrite <- bi_head0. unfold pdu_fills. destruct (tx_sdu tx) as [r|].
  - right. left. destruct Hor as [|E]; [done|]. split; [done|]. lia.
  - destruct l as [|x l]; [by left|]. right. right. split_and!; [done|done|].
    rewrite zlen_cons in Hc. pose proof (zlen_nonneg l). apply andb_false_iff in Hc as [Hc|Hc]; apply Z.ltb_ge in Hc; lia.
Qed.

Lemma pull_sdus_spec fuel : forall tx b cap l S segs,
  sq_rep (tx_sdu_queue tx) cap l -> (length l <= fuel)%nat -> Forall short_sdu l ->
  li_room tx segs l -> build_inv tx b S segs ->
  (tx_sdu tx = None \/ bs_pdu_space b = bs_head_len b) ->
  exists tx' b' l' segs', pull_sdus fuel tx b = Some (tx', b') /\
    sq_rep (tx_sdu_queue tx') cap l' /\ build_done tx tx' b' S segs' /\
    (forall whole, joined segs (tx_sdu tx) whole ->
       exists whole', joined segs' (tx_sdu tx') whole' /\ whole' ++ l' = whole ++ l) /\
    (segs <> [] \/ (l <> [] /\ bs_head_len b + 1 < bs_pdu_space b) -> segs' <> []) /\
    zlen segs' <= RLC_AM_WINDOW_SIZE + 1 /\
    pdu_fills (tx_sdu tx') l' (hdr_len tx (bs_li b') + zlen (mjoin segs')) S.
Proof.
  induction fuel as [|fuel IH]; intros tx b cap l S segs Hrep Hf Hl Hcnt Hinv Hor; cbn [pull_sdus];
    rewrite (sq_size_law _ _ _ Hrep);
    (assert (Hli : zlen segs <= RLC_AM_WINDOW_SIZE + 1 /\ (tx_sdu tx = None -> l <> [] -> zlen segs <= RLC_AM_WINDOW_SIZE))
       by (apply (li_room_segs tx segs l (zlen (mjoin segs)) Hcnt); [done|by eapply bi_joined_room]));
    (destruct ((bs_head_len b + 1 <? bs_pdu_space b) && (0 <? zlen l)) eqn:Hc;
     [|exists tx, b, l, segs; split_and!; try done; [by apply build_inv_done|eauto| |apply Hli|by apply build_inv_fills];
       intros [?|[Hl' ?]]; [done|]; destruct l as [|s l]; [done|];
       rewrite zlen_cons in Hc; pose proof (zlen_nonneg l); lia]);
    apply andb_true_iff in Hc as [Hroom Hne]; apply Z.ltb_lt in Hroom; apply Z.ltb_lt in Hne;
    (destruct l as [|s l]; [done|]).
  { cbn in Hf. lia. }
  destruct Hor as [Hnone|]; [|lia]. cbn [length] in Hf.
  pose proof (zlen_nonneg l). rewrite (bi_next_li tx b S segs Hinv) by by apply Hli.
  cbn [mbind option_bind]. fold (hdr_len tx (map zlen segs)). set (lis := map zlen segs).
  apply Forall_cons_1 in Hl as [Hs Hl].
  assert (Hhl : hdr_len tx lis <= bs_head_len b + 2 /\ (segs = [] -> hdr_len tx lis = bs_head_len b)).
  { rewrite (bi_head _ _ _ _ Hinv), (bi_li _ _ _ _ Hinv). destruct segs as [|s0 segs0] using rev_ind.
    - unfold lis. cbn [map]. change (seg_li []) with (@nil Z). split; [lia|done].
    - rewrite seg_li_snoc. unfold lis. rewrite map_app. cbn [map]. split.
      + apply (proj2 (hdr_len_bounds tx (map zlen segs0))).
      + intros E. by destruct segs0. }
  pose proof (proj1 (hdr_len_bounds tx lis)) as Hpos.
  assert (Hu : u32 (bs_pdu_space b - hdr_len tx lis) = bs_pdu_space b - hdr_len tx lis).
  { apply u32_id. destruct Hinv. pose proof (zlen_nonneg (mjoin segs)). bb_consts. unfold is_u32. lia. }
  rewrite Hu. destruct (Z.eqb_spec (bs_pdu_space b - hdr_len tx lis) 0) as [E0|E0].
  - assert (Hnn : segs <> []).
    { intros E. destruct Hhl as [_ Hh]. specialize (Hh E). lia. }
    assert (Hlis : removelast lis = seg_li segs).
    { unfold lis, seg_li. destruct segs as [|x segs' _] using rev_ind; [done|].
      rewrite map_app, removelast_snoc. cbn [map]. by rewrite removelast_snoc. }
    destruct lis as [|z lis'] eqn:El; [by destruct segs|]. rewrite <- El in *.
    eexists tx, _, (s :: l), segs. split; [done|]. split_and!; try done; [|eauto|apply Hli|].
    { destruct (build_inv_done _ _ _ _ Hinv). constructor; cbn; try done.
      rewrite Hlis. by rewrite bd_li0 in bd_size0. }
    right. right. split_and!; [done|done|]. cbn [bs_li]. rewrite Hlis.
    destruct Hinv. rewrite bi_head0, bi_li0 in *. lia.
  - destruct (sq_read_law _ _ _ _ Hrep) as (q & Hq & Hrep'). rewrite Hq. cbn [mbind option_bind].
    assert (Htail : bs_pdu_space b - hdr_len tx lis <= get_tailroom (bs_pdu b)).
    { rewrite get_tailroom_wf by apply Hinv. destruct Hinv. bb_consts. lia. }
    destruct (move_segment_spec (bs_pdu b) s (bs_pdu_space b - hdr_len tx lis) (mjoin segs))
      as (pdu & seg & rest & Hmv & Hwf & Hd & Hm & Hn & Hseg & Hj & Hfull);
      [apply Hinv|apply Hinv|destruct Hhl; lia|done|unfold short_sdu in Hs; lia|].
    rewrite Hmv. cbn [mbind option_bind].
    pose proof (joined_single seg rest s Hj Hs ltac:(lia)) as Hsh.
    pose proof (build_inv_step tx b S segs q rest pdu seg Hinv Hwf Hd Hm Hn ltac:(fold lis; lia) Hsh) as Hinv'.
    fold lis in Hinv'.
    destruct (IH (mk_um_tx (tx_cfg tx) q rest (vt_us tx))
      (mk_build lis (zlen seg) (hdr_len tx lis) (i32 (bs_pdu_space b - zlen seg)) pdu)
      cap l S (segs ++ [seg]) Hrep' ltac:(lia) Hl) as (tx' & b' & l' & segs' & Hp & Hr & Hd' & Hw & Hnn & Hcnt' & Hfl);
      [by eapply li_room_step|exact Hinv'| |].
    { cbn [tx_sdu bs_pdu_space bs_head_len]. destruct rest as [r|]; [right|by left].
      rewrite Hfull by done. destruct Hinv'. cbn [bs_pdu_space bs_head_len] in *.
      assert (zlen seg = bs_pdu_space b - hdr_len tx lis) by (by apply Hfull).
      rewrite i32_id; [lia|]. destruct Hinv. bb_consts. pose proof (zlen_nonneg (mjoin segs)). lia. }
    exists tx', b', l', segs'. split_and!; try done.
    + destruct Hd'. by constructor.
    + intros whole Hwh. rewrite Hnone in Hwh. cbn in Hwh. subst whole.
      destruct (Hw (segs ++ [s])) as (whole' & Hj' & E); [by apply joined_snoc|].
      exists whole'. split; [done|]. by rewrite E, <- app_assoc.
    + intros _. apply Hnn. left. by destruct segs.
Qed.

(** ** The specification of [build_data_pdu] *)

(** The SDUs not yet transmitted completely, oldest first. *)
Definition pending tx (l : list bytes) : list bytes :=
  match tx_sdu tx with Some s => [s] | None => [] end ++ l.

(** A transmitter as the theorems expect it: the pending SDUs have 1 to 2047 bytes and
    are no more than the longest queue configured holds with one in transmission;
    when they are more than 513, those in the queue have [LI_SAFE_SDU] bytes. *)
Record um_tx_ok tx (cap : nat) (l : list bytes) : Prop := {
  uto_rep : sq_rep (tx_sdu_queue tx) cap l;
  uto_short : Forall short_sdu (pending tx l);
  uto_count : zlen (pending tx l) <= tx_queue_length mch_config + 1;
  uto_li : zlen (pending tx l) <= RLC_AM_WINDOW_SIZE + 1 \/ Forall (fun s => LI_SAFE_SDU <= zlen s) l;
  uto_mod : tx_mod (tx_cfg tx) = sn_mod (tx_sn_field_length (tx_cfg tx));
  uto_sn : 0 <= vt_us tx < tx_mod (tx_cfg tx)
}.

(** The framing info of a PDU built from [tx] when [tx'] remains. *)
Definition pdu_fi tx tx' : Z :=
  (match tx_sdu tx with Some _ => 2 | None => 0 end) +
  (match tx_sdu tx' with Some _ => 1 | None => 0 end).

Definition pdu_header tx tx' (segs : list bytes) : rlc_umd_pdu_header_t :=
  mk_umd_header (pdu_fi tx tx') (tx_sn_field_length (tx_cfg tx)) (vt_us tx) (seg_li segs).

(** A PDU was built: it carries [segs], which with what remains of the last one
    are the first pending SDUs. *)
Record pdu_built tx (l : list bytes) tx' (l' : list bytes) (out : bytes) (segs whole : list bytes)
  : Prop := {
  pb_segs : segs <> [];
  pb_out : out = umd_header_bytes (pdu_header tx tx' segs) ++ mjoin segs;
  pb_ok : umd_header_ok (pdu_header tx tx' segs);
  pb_short : Forall short_sdu segs;
  pb_joined : joined segs (tx_sdu tx') whole;
  pb_pending : whole ++ l' = pending tx l;
  pb_sn : vt_us tx' = (vt_us tx + 1) mod tx_mod (tx_cfg tx);
  pb_cfg : tx_cfg tx' = tx_cfg tx
}.

Lemma joined_length segs rest whole : joined segs rest whole -> length segs = length whole.
Proof.
  destruct rest; cbn; [|by intros ->]. intros (full & p & -> & -> & _). by rewrite !length_app.
Qed.

(** What remains pending is a part of what was. *)
Lemma joined_pending segs rest whole l' :
  joined segs rest whole -> segs <> [] -> Forall short_sdu (whole ++ l') ->
  Forall short_sdu (match rest with Some s => [s] | None => [] end ++ l') /\
  zlen (match rest with Some s => [s] | None => [] end ++ l') <= zlen (whole ++ l').
Proof.
  intros Hj Hn Hs. apply Forall_app in Hs as [Hw Hl']. destruct rest as [r|]; cbn in Hj |- *.
  - destruct Hj as (full & p & -> & -> & Hp & Hr). apply Forall_app in Hw as [_ Hpr].
    apply Forall_cons_1 in Hpr as [Hpr _]. split.
    + constructor; [|done]. unfold short_sdu in *. rewrite zlen_app in Hpr.
      destruct r as [|x r]; [done|]. rewrite zlen_cons in *.
      pose proof (zlen_nonneg r). pose proof (zlen_nonneg p). lia.
    + rewrite !zlen_app, !zlen_cons, zlen_nil. pose proof (zlen_nonneg full). lia.
  - split; [done|]. rewrite !zlen_app. pose proof (zlen_nonneg whole). lia.
Qed.

Lemma seg_li_ok segs :
  Forall short_sdu segs -> zlen segs <= RLC_AM_WINDOW_SIZE + 1 ->
  Forall (fun x => 0 <= x < 2048) (seg_li segs) /\ zlen (seg_li segs) <= RLC_AM_WINDOW_SIZE.
Proof.
  intros Hs Hn. destruct segs as [|x segs _] using rev_ind; [split; [constructor|done]|].
  rewrite seg_li_snoc. rewrite zlen_app in Hn. change (zlen [x]) with 1 in Hn.
  apply Forall_app in Hs as [Hs _]. split.
  - apply List.Forall_map. eapply Forall_impl; [|exact Hs]. unfold short_sdu. intros y. lia.
  - unfold zlen in *. rewrite length_map. lia.
Qed.

Lemma pdu_built_pending tx l tx' l' out segs whole : pdu_built tx l tx' l' out segs whole ->
  Forall short_sdu (pending tx l) -> zlen (pending tx' l') <= zlen (pending tx l).
Proof.
  intros [Hne _ _ _ Hj <- _ _] Hs. by apply (joined_pending segs _ whole).
Qed.

(** The state and the build state after the segment of the SDU in transmission,
    as an instance of the loop invariant. *)
Lemma first_segment_spec tx mem S :
  zlen mem = SRSRAN_MAX_BUFFER_SIZE_BYTES -> hdr_len tx [] + 1 < S ->
  S <= SRSRAN_MAX_BUFFER_SIZE_BYTES - SRSRAN_BUFFER_HEADER_OFFSET ->
  (forall s, tx_sdu tx = Some s -> short_sdu s) ->
  exists tx1 b1 segs whole,
    (match tx_sdu tx with
     | Some sdu =>
         '(to_move, pdu', rest) ← move_segment (byte_buffer_new mem) sdu (u32 (S - hdr_len tx []));
         Some (mk_um_tx (tx_cfg tx) (tx_sdu_queue tx) rest (vt_us tx),
               RLC_FI_FIELD_NOT_START_ALIGNED,
               mk_build [] to_move (hdr_len tx [])
                 (i32 (S - Z.min to_move (get_tailroom pdu'))) pdu')
     | None => Some (tx, RLC_FI_FIELD_START_AND_END_ALIGNED,
                     mk_build [] 0 (hdr_len tx []) S (byte_buffer_new mem))
     end) = Some (tx1, match tx_sdu tx with Some _ => 2 | None => 0 end, b1) /\
    build_inv tx1 b1 S segs /\ joined segs (tx_sdu tx1) whole /\
    whole = match tx_sdu tx with Some s => [s] | None => [] end /\
    (tx_sdu tx1 = None \/ bs_pdu_space b1 = bs_head_len b1) /\
    tx_cfg tx1 = tx_cfg tx /\ vt_us tx1 = vt_us tx /\ tx_sdu_queue tx1 = tx_sdu_queue tx /\
    (segs <> [] \/ (tx_sdu tx = None /\ bs_head_len b1 + 1 < bs_pdu_space b1)).
Proof.
  intros Hmem HS HSmax Hsdu. pose proof (proj1 (hdr_len_bounds tx [])) as Hh0.
  assert (Hwf : bb_wf (byte_buffer_new mem)) by (constructor; cbn; bb_consts; lia).
  assert (Hd : contents (byte_buffer_new mem) = Some []).
  { unfold contents. cbn. rewrite load_bytes_Some by (bb_consts; lia). by rewrite ztake_0. }
  destruct (tx_sdu tx) as [s|] eqn:Es.
  - specialize (Hsdu s eq_refl).
    rewrite u32_id by (unfold is_u32; bb_consts; lia).
    assert (Ht : S - hdr_len tx [] <= get_tailroom (byte_buffer_new mem)).
    { rewrite get_tailroom_wf by done. cbn. bb_consts. lia. }
    destruct (move_segment_spec (byte_buffer_new mem) s (S - hdr_len tx []) [] Hwf Hd)
      as (pdu & seg & rest & -> & Hwf' & Hd' & Hm & Hn & Hseg & Hj & Hfull);
      [lia|done|unfold short_sdu in Hsdu; lia|]. cbn [mbind option_bind app] in *.
    pose proof (joined_single seg rest s Hj Hsdu ltac:(lia)) as Hsh. unfold short_sdu in Hsh.
    assert (Ht' : get_tailroom pdu = SRSRAN_MAX_BUFFER_SIZE_BYTES - SRSRAN_BUFFER_HEADER_OFFSET - zlen seg).
    { rewrite get_tailroom_wf by done. rewrite Hm, Hn. cbn. lia. }
    rewrite Ht', Z.min_l by (bb_consts; lia).
    rewrite i32_id by (bb_consts; lia).
    eexists _, _, [seg], [s]. split; [done|]. split.
    { constructor; cbn [bs_pdu bs_li bs_last_li bs_head_len bs_pdu_space mjoin list_join tx_sdu];
        rewrite ?app_nil_r; try done; try lia; [by exists [], seg|by apply Forall_singleton]. }
    split_and!; try done; [|by left]. cbn [tx_sdu bs_pdu_space bs_head_len].
    destruct rest; [right|by left]. rewrite Hfull by done. lia.
  - eexists _, _, [], []. split; [done|]. split.
    { constructor; cbn [bs_pdu bs_li bs_last_li bs_head_len bs_pdu_space mjoin list_join tx_sdu]; try done; try lia. }
    rewrite Es. split_and!; try done; [by left|]. right. split; [done|]. cbn. lia.
Qed.

(** The SDUs left in the queue are among those that were in it. *)
Lemma pending_queue tx l whole l' (P : bytes -> Prop) :
  whole ++ l' = pending tx l -> whole <> [] -> Forall P l -> Forall P l'.
Proof.
  unfold pending. intros E Hw Hl. destruct whole as [|w whole]; [done|]. destruct (tx_sdu tx); cbn [app] in E.
  - injection E as _ <-. by apply Forall_app in Hl as [_ ?].
  - subst l. apply (Forall_app P (w :: whole)) in Hl. by destruct Hl.
Qed.

Lemma pdu_header_ok tx tx' segs l l' :
  um_tx_ok tx l l' -> Forall short_sdu segs ->
  zlen segs <= RLC_AM_WINDOW_SIZE + 1 -> umd_header_ok (pdu_header tx tx' segs).
Proof.
  intros [] Hs Hn. destruct (seg_li_ok segs Hs Hn) as [H1 H2].
  constructor; cbn [fi sn sn_size li pdu_header]; try done.
  - unfold pdu_fi. destruct (tx_sdu tx), (tx_sdu tx'); lia.
  - by rewrite <- uto_mod0.
Qed.
Lemma pdu_fi_lor tx tx' :
  (match tx_sdu tx' with
   | Some _ => Z.lor (match tx_sdu tx with Some _ => 2 | None => 0 end) RLC_FI_FIELD_NOT_END_ALIGNED
   | None => match tx_sdu tx with Some _ => 2 | None => 0 end
   end) = pdu_fi tx tx'.
Proof. unfold pdu_fi. by destruct (tx_sdu tx), (tx_sdu tx'). Qed.

Lemma um_has_data_spec tx cap l :
  sq_rep (tx_sdu_queue tx) cap l -> um_has_data tx = true <-> pending tx l <> [].
Proof.
  intros Hr. unfold um_has_data, pending. pose proof (sq_is_empty_law _ _ _ Hr) as He.
  destruct (tx_sdu tx); cbn; [done|]. destruct (sq_is_empty _); cbn.
  - split; [done|]. intros Hl. by destruct Hl; apply He.
  - split; [|done]. intros _ ->. by destruct He as [_ He]; specialize (He eq_refl).
Qed.

Lemma build_data_pdu_spec tx cap l mem nof_bytes :
  um_tx_ok tx cap l -> zlen mem = SRSRAN_MAX_BUFFER_SIZE_BYTES -> pending tx l <> [] ->
  hdr_len tx [] + 1 < nof_bytes ->
  exists out tx' l' segs whole, build_data_pdu tx mem nof_bytes = Some (out, tx') /\
    pdu_built tx l tx' l' out segs whole /\ um_tx_ok tx' cap l' /\
    zlen out <= Z.min nof_bytes (SRSRAN_MAX_BUFFER_SIZE_BYTES - SRSRAN_BUFFER_HEADER_OFFSET) /\
    pdu_fills (tx_sdu tx') l' (zlen out) (Z.min nof_bytes (SRSRAN_MAX_BUFFER_SIZE_BYTES - SRSRAN_BUFFER_HEADER_OFFSET)).
Proof.
  intros Hok Hmem Hpend Hnof. pose proof Hok as [Hrep Hshort Hcnt Hli Hmod Hsn].
  pose proof (proj1 (hdr_len_bounds tx [])) as Hh0. change ((3 * zlen (@nil Z) + 1) / 2) with 0 in Hh0.
  unfold build_data_pdu. rewrite (proj2 (um_has_data_spec tx cap l Hrep) Hpend). cbn [negb].
  rewrite packed_length_fi.
  assert (Hwf : bb_wf (byte_buffer_new mem)) by (constructor; cbn; bb_consts; lia).
  rewrite get_tailroom_wf by done. cbn [byte_buffer_new msg N_bytes].
  set (S := Z.min nof_bytes (SRSRAN_MAX_BUFFER_SIZE_BYTES - SRSRAN_BUFFER_HEADER_OFFSET - 0)).
  assert (HS : hdr_len tx [] + 1 < S /\ S <= nof_bytes /\
    S <= SRSRAN_MAX_BUFFER_SIZE_BYTES - SRSRAN_BUFFER_HEADER_OFFSET).
  { unfold S. bb_consts. lia. }
  destruct (Z.leb_spec S (hdr_len tx [] + 1)); [lia|].
  destruct (first_segment_spec tx mem S Hmem) as
    (tx1 & b1 & segs1 & whole1 & -> & Hinv & Hj & Hw1 & Hor & Hc1 & Hv1 & Hq1 & Hne1); [lia..| |].
  { intros s Es. unfold pending in Hshort. rewrite Es in Hshort. by apply Forall_cons_1 in Hshort as [? _]. }
  cbn [mbind option_bind]. rewrite Hq1 in *.
  assert (Hp1 : whole1 ++ l = pending tx l) by (unfold pending; by rewrite Hw1).
  pose proof (joined_length _ _ _ Hj) as Hjl.
  assert (Hl : Forall short_sdu l) by (unfold pending in Hshort; by apply Forall_app in Hshort as [_ ?]).
  rewrite (sq_size_law _ _ _ Hrep).
  destruct (pull_sdus_spec (Z.to_nat (zlen l)) tx1 b1 cap l S segs1) as
    (tx2 & b2 & l2 & segs2 & -> & Hrep2 & Hdone & Hw & Hne2 & Hcnt2 & Hfl); try done.
  { by rewrite Hq1. }
  { unfold zlen. lia. }
  { destruct Hli as [Hli|Hli]; [left; rewrite <- Hp1, zlen_app in Hli; unfold zlen in *; lia|right].
    split; [done|]. assert (zlen segs1 <= 1) by (rewrite Hw1 in Hjl; unfold zlen; rewrite Hjl; destruct (tx_sdu tx); cbn; lia).
    pose proof (zlen_nonneg (mjoin segs1)). unfold LI_SAFE_SDU. destruct (tx_sdu tx1); lia. }
  destruct (Hw whole1 Hj) as (whole2 & Hj2 & Hp2). rewrite Hp1 in Hp2. cbn [mbind option_bind].
  destruct Hdone as [Hbwf Hbmsg Hbd Hbli Hbsz Hbsh Hbcfg Hbsn].
  assert (Hn2 : segs2 <> []).
  { apply Hne2. destruct Hne1 as [?|[E ?]]; [by left|right]. split; [|lia].
    unfold pending in Hpend. by rewrite E in Hpend. }
  pose proof (pdu_header_ok tx tx2 segs2 cap l Hok Hbsh Hcnt2) as Hhok.
  rewrite pdu_fi_lor, Hbli.
  change (build_header tx (pdu_fi tx tx2) (seg_li segs2)) with (pdu_header tx tx2 segs2).
  assert (Hlen : rlc_um_packed_length (pdu_header tx tx2 segs2) = hdr_len tx1 (bs_li b2)).
  { unfold hdr_len, pdu_header, rlc_um_packed_length, build_header, N_li. cbn. by rewrite Hc1, Hbli. }
  pose proof (proj1 (hdr_len_bounds tx1 (bs_li b2))) as Hhb.
  assert (Hroom : hdr_len tx1 (bs_li b2) <= SRSRAN_BUFFER_HEADER_OFFSET).
  { destruct (seg_li_ok segs2 Hbsh Hcnt2) as [_ Hz].
    rewrite Hbli in *. unfold RLC_AM_WINDOW_SIZE in Hz. bb_consts.
    assert ((3 * zlen (seg_li segs2) + 1) / 2 <= 769) by (apply Z.div_le_upper_bound; lia). lia. }
  destruct (rlc_um_write_spec (pdu_header tx tx2 segs2) (bs_pdu b2) (mjoin segs2) Hbwf Hbd) as
    (pdu & -> & _ & Hpd); [lia|]. cbn [mbind option_bind]. rewrite Hpd. cbn [mbind option_bind].
  set (tx3 := mk_um_tx _ _ _ _).
  exists (umd_header_bytes (pdu_header tx tx2 segs2) ++ mjoin segs2), tx3, l2, segs2, whole2.
  assert (Hmod0 : 0 < tx_mod (tx_cfg tx) <= 1024).
  { rewrite Hmod. unfold sn_mod. destruct (decide _); lia. }
  split; [done|]. split; [|split; [|split]].
  - constructor; try done; unfold tx3; cbn [vt_us tx_cfg]; [|by rewrite Hbcfg].
    f_equal. apply u32_id. unfold is_u32. lia.
  - destruct (joined_pending segs2 (tx_sdu tx2) whole2 l2 Hj2 Hn2) as [Hs3 Hc3]; [by rewrite Hp2|].
    rewrite Hp2 in Hc3. constructor; unfold tx3; cbn [tx_sdu_queue tx_cfg vt_us]; try done.
    + unfold pending in *; cbn [tx_sdu]. lia.
    + destruct Hli as [Hli|Hli]; [left; unfold pending in *; cbn [tx_sdu]; lia|right].
      eapply pending_queue; [exact Hp2| |exact Hli]. apply joined_length in Hj2. intros ->. by destruct segs2.
    + by rewrite Hbcfg, Hc1.
    + rewrite Hbcfg, Hc1. apply Z.mod_pos_bound. lia.
  - rewrite zlen_app, zlen_umd_header_bytes, Hlen. lia.
  - rewrite zlen_app, zlen_umd_header_bytes, Hlen. unfold S in Hfl. rewrite Z.sub_0_r in Hfl. exact Hfl.
Qed.

(** Without data, or when the grant has no room for the header and one more byte
    than it, nothing is built and the state does not change. *)
Lemma build_data_pdu_nothing tx cap l mem nof_bytes :
  sq_rep (tx_sdu_queue tx) cap l -> zlen mem = SRSRAN_MAX_BUFFER_SIZE_BYTES ->
  pending tx l = [] \/ nof_bytes <= hdr_len tx [] + 1 ->
  build_data_pdu tx mem nof_bytes = Some ([], tx).
Proof.
  intros Hrep Hmem Hno. unfold build_data_pdu.
  pose proof (um_has_data_spec tx cap l Hrep) as Hd.
  destruct (um_has_data tx); cbn [negb]; [|done].
  destruct Hno as [E|E]; [by destruct Hd as [Hd _]; specialize (Hd eq_refl)|].
  rewrite packed_length_fi. destruct (Z.leb_spec (Z.min nof_bytes (get_tailroom (byte_buffer_new mem))) (hdr_len tx [] + 1)); [done|].
  lia.
Qed.
(** ** The buffer state *)

(** The bytes of the length indicators of [n] segments. *)
Definition li_bytes (n : Z) : Z := (3 * (n - 1) + 1) / 2.

Lemma li_bytes_spec n : 3 * (n - 1) <= 2 * li_bytes n <= 3 * (n - 1) + 1.
Proof.
  unfold li_bytes. pose proof (Z.div_mod (3 * (n - 1) + 1) 2 ltac:(lia)). pose proof (Z.mod_pos_bound (3 * (n - 1) + 1) 2 ltac:(lia)). lia.
Qed.

Lemma short_total l : Forall short_sdu l -> zlen l <= total_bytes l <= 2047 * zlen l.
Proof. induction 1 as [|s l Hs _ IH]; [done|]. cbn [total_bytes]. rewrite zlen_cons. unfold short_sdu in Hs. lia. Qed.

Lemma mjoin_total segs : zlen (mjoin segs) = total_bytes segs.
Proof. induction segs as [|s segs IH]; [done|]. change (mjoin (s :: segs)) with (s ++ mjoin segs). rewrite zlen_app, IH. done. Qed.

(** The room for the fixed part of the header in the buffer state. *)
Definition state_header tx : Z := if is_mrb (tx_cfg tx) then 2 else 3.

(** What the SDUs [P] need: their bytes, the length indicators and [k] bytes. *)
Definition state_of (k : Z) (P : list bytes) : Z :=
  match P with [] => 0 | _ :: _ => total_bytes P + li_bytes (zlen P) + k end.

Lemma buffer_state_eq tx cap l : um_tx_ok tx cap l ->
  um_get_buffer_state tx = state_of (state_header tx) (pending tx l).
Proof.
  intros [Hrep Hsh Hcnt _ _ _]. unfold um_get_buffer_state in *. change (tx_queue_length mch_config + 1) with 2049 in Hcnt.
  rewrite (sq_size_law _ _ _ Hrep), (sq_size_bytes_law _ _ _ Hrep).
  pose proof (short_total _ Hsh) as Ht. fold (state_header tx).
  assert (Hk : 2 <= state_header tx <= 3) by (unfold state_header; destruct (is_mrb _); lia).
  assert (Hfin : forall n b, 1 <= n <= 2049 -> n <= b <= 2047 * n ->
    (let b2 := if 1 <? n then u32 (b + (3 * (n - 1) + 1) / 2) else b in
     if 0 <? b2 then u32 (b2 + state_header tx) else b2) = b + li_bytes n + state_header tx).
  { intros n b Hn Hb. cbv zeta. pose proof (li_bytes_spec n) as Hl. fold (li_bytes n).
    assert (E : (if 1 <? n then u32 (b + li_bytes n) else b) = b + li_bytes n).
    { destruct (Z.ltb_spec 1 n); [apply u32_id; unfold is_u32; lia|]. lia. }
    rewrite E. destruct (Z.ltb_spec 0 (b + li_bytes n)); [|lia]. apply u32_id. unfold is_u32. lia. }
  unfold pending in *. destruct (tx_sdu tx) as [s|]; cbn [app total_bytes state_of] in *.
  - rewrite zlen_cons in *. pose proof (zlen_nonneg l).
    rewrite (u32_id (zlen l + 1)), (u32_id (total_bytes l + zlen s)) by (unfold is_u32; lia).
    rewrite Hfin by lia. f_equal. f_equal; [lia|f_equal; lia].
  - destruct l as [|x l]; [done|]. cbn [total_bytes state_of] in *. apply Hfin; rewrite ?zlen_cons in *; pose proof (zlen_nonneg l); lia.
Qed.

Lemma buffer_state_bound tx cap l : um_tx_ok tx cap l -> 0 <= um_get_buffer_state tx < 2 ^ 23.
Proof.
  intros Hok. rewrite (buffer_state_eq tx cap l Hok). destruct Hok as [_ Hsh Hcnt _ _ _].
  destruct (pending tx l) as [|s P]; [done|]. change (tx_queue_length mch_config + 1) with 2049 in Hcnt. pose proof (short_total _ Hsh).
  pose proof (li_bytes_spec (zlen (s :: P))). cbn [total_bytes state_of] in *. rewrite zlen_cons in *. pose proof (zlen_nonneg P).
  unfold state_header. destruct (is_mrb _); lia.
Qed.

Lemma zlen_pdu_built tx l tx' l' out segs whole : pdu_built tx l tx' l' out segs whole ->
  zlen out = hdr_len tx [] + li_bytes (zlen segs) + total_bytes segs.
Proof.
  intros [Hne -> _ _ _ _ _ _]. rewrite zlen_app, zlen_umd_header_bytes, mjoin_total.
  destruct segs as [|x segs _] using rev_ind; [done|]. unfold pdu_header. rewrite seg_li_snoc.
  unfold hdr_len, rlc_um_packed_length, build_header, li_bytes, N_li. cbn [sn_size li].
  replace (zlen (map zlen segs)) with (zlen segs) by (unfold zlen; by rewrite length_map).
  rewrite zlen_app. change (zlen [x]) with 1. replace (zlen segs + 1 - 1) with (zlen segs) by lia.
  change ((3 * zlen (@nil Z) + 1) / 2) with 0. destruct (decide _); lia.
Qed.

(** A PDU that does not take everything lowers the buffer state by nearly its size,
    and then the grant was below the buffer state. *)
Lemma buffer_state_progress tx cap l tx' l' out segs whole S :
  um_tx_ok tx cap l -> pdu_built tx l tx' l' out segs whole -> um_tx_ok tx' cap l' ->
  pdu_fills (tx_sdu tx') l' (zlen out) S -> hdr_len tx [] < state_header tx ->
  pending tx' l' = [] \/
  (um_get_buffer_state tx' + (S - hdr_len tx [] - 1) <= um_get_buffer_state tx /\ S < um_get_buffer_state tx).
Proof.
  intros Hok Hb Hok' Hfl Hhd. rewrite (buffer_state_eq tx cap l Hok), (buffer_state_eq tx' cap l' Hok').
  rewrite (zlen_pdu_built _ _ _ _ _ _ _ Hb) in Hfl. pose proof Hb as [Hne _ _ Hsh Hj Hp _ Hcfg].
  assert (Ek : state_header tx' = state_header tx) by (unfold state_header; by rewrite Hcfg).
  assert (Hs1 : 1 <= zlen segs) by (destruct segs; [done|rewrite zlen_cons; pose proof (zlen_nonneg segs); lia]).
  rewrite <- Hp. unfold pending. pose proof (zlen_nonneg l').
  assert (Hw : match tx_sdu tx' with Some r => 0 < zlen r | None => True end /\ zlen whole = zlen segs /\
    total_bytes whole = total_bytes segs + match tx_sdu tx' with Some r => zlen r | None => 0 end).
  { destruct (tx_sdu tx') as [r|]; cbn in Hj; [|subst; lia].
    destruct Hj as (full & q & -> & -> & _ & Hr). rewrite !total_bytes_app, !zlen_app. cbn [total_bytes]. rewrite zlen_app.
    split_and!; [|done|lia]. destruct r; [done|]. rewrite zlen_cons. pose proof (zlen_nonneg r). lia. }
  destruct Hw as (Hr & Hzw & Htw).
  assert (Hwl : state_of (state_header tx) (whole ++ l') =
    total_bytes whole + total_bytes l' + li_bytes (zlen segs + zlen l') + state_header tx).
  { rewrite <- Hzw, <- zlen_app, <- total_bytes_app. destruct (whole ++ l') eqn:E; [|done].
    apply app_eq_nil in E as [-> _]. rewrite zlen_nil in Hzw. lia. }
  rewrite Hwl. pose proof (total_bytes_nonneg l') as Hl0. pose proof (li_bytes_spec (zlen segs)). pose proof (li_bytes_spec (zlen segs + zlen l')).
  destruct Hfl as [[E1 E2]|[[E1 E2]|(E1 & E2 & E3)]].
  - left. by rewrite E1, E2.
  - right. destruct (tx_sdu tx') as [r|]; [|done]. cbn [app state_of total_bytes]. rewrite zlen_cons, Ek.
    pose proof (li_bytes_spec (1 + zlen l')). lia.
  - right. rewrite E1 in *. cbn [app]. destruct l' as [|x l']; [done|]. cbn [state_of]. rewrite Ek.
    pose proof (li_bytes_spec (zlen (x :: l'))). pose proof (uto_short _ _ _ Hok') as Hx. unfold pending in Hx. rewrite E1 in Hx. cbn [app] in Hx.
    pose proof (short_total _ Hx). rewrite zlen_cons in *. pose proof (zlen_nonneg l'). lia.
Qed.
Lemma mch_header_room tx : tx_cfg tx = mch_config -> hdr_len tx [] = 1 /\ state_header tx = 2.
Proof. intros E. unfold hdr_len, state_header, build_header. by rewrite E. Qed.

(** What a grant of [n] bytes that left [tx'] achieved. *)
Definition grant_progress tx tx' (l' : list bytes) (n : Z) : Prop :=
  let S := Z.min n (SRSRAN_MAX_BUFFER_SIZE_BYTES - SRSRAN_BUFFER_HEADER_OFFSET) in
  pending tx' l' = [] \/
  (um_get_buffer_state tx' + (S - hdr_len tx [] - 1) <= um_get_buffer_state tx /\ S < um_get_buffer_state tx).

(** Also when no PDU is built. *)
Lemma no_grant_progress tx cap l n : um_tx_ok tx cap l -> hdr_len tx [] < state_header tx ->
  pending tx l = [] \/ n <= hdr_len tx [] + 1 -> grant_progress tx tx l n.
Proof.
  intros Hok Hhd [E|Hn]; [by left|]. unfold grant_progress. rewrite (buffer_state_eq tx cap l Hok).
  pose proof (uto_short _ _ _ Hok) as Hsh. destruct (pending tx l) as [|x P]; [by left|]. right.
  pose proof (short_total _ Hsh). pose proof (li_bytes_spec (zlen (x :: P))). cbn [state_of]. rewrite zlen_cons in *.
  pose proof (zlen_nonneg P). lia.
Qed.
End TxProofs.

(** C24: segmentation loses nothing.  From a well-formed transmitter whose pending
    SDUs have 1 to 2047 bytes (at most 513 of them; or up to the 2049 of the MCH
    bearer, when those in the queue have at least 24 bytes, as every UDP/IP datagram
    has), [build_data_pdu] never leaves its buffers.  Without data or with a grant of no more than the fixed header and
    one byte it builds nothing and changes nothing.  Otherwise it builds a PDU of at
    most [nof_bytes] bytes whose header and segments account for the pending SDUs
    exactly: the segments, with what remains of the last one, are the first pending
    SDUs in order, the length indicators are their lengths, the framing info says
    whether the first and the last one are cut, the sequence number advances, and
    the transmitter is well-formed again.  The PDU takes everything or wastes at most
    two bytes of the grant (none when an SDU was cut). *)
Theorem um_build_data_pdu_correct {Q : Type} `{SduQueueLaws Q} (tx : um_tx Q) cap l mem nof_bytes :
  um_tx_ok tx cap l -> zlen mem = SRSRAN_MAX_BUFFER_SIZE_BYTES ->
  (build_data_pdu tx mem nof_bytes = Some ([], tx) /\
   (pending tx l = [] \/ nof_bytes <= hdr_len tx [] + 1)) \/
  (exists out tx' l' segs whole, build_data_pdu tx mem nof_bytes = Some (out, tx') /\
     pdu_built tx l tx' l' out segs whole /\ um_tx_ok tx' cap l' /\ zlen (pending tx' l') <= zlen (pending tx l) /\
     zlen out <= nof_bytes /\
     pdu_fills (tx_sdu tx') l' (zlen out) (Z.min nof_bytes (SRSRAN_MAX_BUFFER_SIZE_BYTES - SRSRAN_BUFFER_HEADER_OFFSET))).
Proof.
  intros Hok Hmem. destruct (decide (pending tx l = [])) as [E|E].
  - left. split; [|by left]. apply (build_data_pdu_nothing tx cap l); [apply Hok|done|by left].
  - destruct (Z.le_gt_cases nof_bytes (hdr_len tx [] + 1)).
    + left. split; [|by right]. apply (build_data_pdu_nothing tx cap l); [apply Hok|done|by right].
    + right. destruct (build_data_pdu_spec tx cap l mem nof_bytes) as (?&?&?&?&?&?&?&?&?&?);
        [done..|lia|]. do 5 eexists. split_and!; [done..|eapply pdu_built_pending; [done|apply Hok]|lia|done].
Qed.

(** C25: the buffer state is enough and tight.  For a well-formed transmitter (with
    pending SDUs of 1 to 2047 bytes, at most 513, or up to 2049 when those in the
    queue have at least 24 bytes) whose fixed header is within the room that the
    buffer state has for it (the MCH configuration, and every bearer that is not
    multicast), a grant of [n] bytes, at most the size of a buffer, leaves nothing to
    send when [n] is at least the reported buffer state; otherwise the buffer state
    falls by at least [n] less the fixed header and one byte, or everything was sent
    all the same. *)
Theorem um_buffer_state_exact {Q : Type} `{SduQueueLaws Q} (tx : um_tx Q) cap l mem n :
  um_tx_ok tx cap l -> zlen mem = SRSRAN_MAX_BUFFER_SIZE_BYTES -> hdr_len tx [] < state_header tx ->
  n <= SRSRAN_MAX_BUFFER_SIZE_BYTES - SRSRAN_BUFFER_HEADER_OFFSET ->
  exists out tx' l', build_data_pdu tx mem n = Some (out, tx') /\ um_tx_ok tx' cap l' /\
    zlen (pending tx' l') <= zlen (pending tx l) /\
    (um_get_buffer_state tx <= n -> pending tx' l' = []) /\
    (pending tx' l' <> [] -> um_get_buffer_state tx' + (n - hdr_len tx [] - 1) <= um_get_buffer_state tx).
Proof.
  intros Hok Hmem Hhd Hn.
  assert (Hgo : forall tx' l', grant_progress tx tx' l' n ->
    (um_get_buffer_state tx <= n -> pending tx' l' = []) /\
    (pending tx' l' <> [] -> um_get_buffer_state tx' + (n - hdr_len tx [] - 1) <= um_get_buffer_state tx)).
  { unfold grant_progress. rewrite Z.min_l by lia. intros tx' l' [E|[H1 H2]]; [done|]. split; [lia|done]. }
  destruct (decide (pending tx l = [] \/ n <= hdr_len tx [] + 1)) as [E|E].
  - exists [], tx, l. rewrite (build_data_pdu_nothing tx cap l) by (done || apply Hok).
    split_and!; [done|done|done|apply Hgo; by eapply no_grant_progress..].
  - destruct (build_data_pdu_spec tx cap l mem n) as (out & tx' & l' & segs & whole & Hb & Hpb & Hok' & _ & Hfl); [done|done|tauto|lia|].
    exists out, tx', l'. split_and!; [done|done|eapply pdu_built_pending; [done|apply Hok]|apply Hgo; by eapply buffer_state_progress..].
Qed.

(** A zeroed block. *)
Definition zero_block : bytes := repeat 0 (Z.to_nat SRSRAN_MAX_BUFFER_SIZE_BYTES).

(** A transmitter of the MCH configuration with [l] queued: evaluated examples. *)
Definition example_tx (cap : nat) (l : list bytes) (rest : option bytes) : um_tx byte_buffer_queue :=
  mk_um_tx mch_config (bbq_fill cap l) rest 0.

Lemma example_tx_ok :
  um_tx_ok (example_tx 4 [[1; 2; 3]; [4; 5; 6; 7]] None) 4 [[1; 2; 3]; [4; 5; 6; 7]].
Proof.
  constructor; try (vm_compute; done).
  - apply bbq_fill_rep; [apply small_capacity; lia|cbn; lia|].
    repeat constructor; vm_compute; discriminate.
  - repeat constructor; vm_compute; done.
  - left. vm_compute. discriminate.
Qed.

Lemma um_buffer_state_exact_witness :
  let tx := example_tx 4 [[1; 2; 3]; [4; 5; 6; 7]] None in
  exists out tx' l', build_data_pdu tx zero_block 11 = Some (out, tx') /\ um_tx_ok tx' 4 l' /\
    zlen (pending tx' l') <= zlen (pending tx [[1; 2; 3]; [4; 5; 6; 7]]) /\
    (um_get_buffer_state tx <= 11 -> pending tx' l' = []) /\
    (pending tx' l' <> [] -> um_get_buffer_state tx' + (11 - hdr_len tx [] - 1) <= um_get_buffer_state tx).
Proof.
  apply (um_buffer_state_exact _ 4 [[1; 2; 3]; [4; 5; 6; 7]]);
    [apply example_tx_ok|vm_compute; reflexivity|vm_compute; reflexivity|vm_compute; discriminate].
Defined.

(** The buffer state of this example is 11, and a grant of 11 bytes empties the queue
    with one byte to spare. *)
Example example_buffer_state :
  let tx := example_tx 4 [[1; 2; 3]; [4; 5; 6; 7]] None in
  um_get_buffer_state tx = 11 /\
  exists out tx', build_data_pdu tx zero_block 11 = Some (out, tx') /\ zlen out = 10 /\ um_has_data tx' = false.
Proof. split; [vm_compute; reflexivity|]. do 2 eexists. split_and!; vm_compute; reflexivity. Qed.

Lemma um_build_data_pdu_correct_witness :
  let tx := example_tx 4 [[1; 2; 3]; [4; 5; 6; 7]] None in
  let l := [[1; 2; 3]; [4; 5; 6; 7]] in
  (build_data_pdu tx zero_block 8 = Some ([], tx) /\ (pending tx l = [] \/ 8 <= hdr_len tx [] + 1)) \/
  (exists out tx' l' segs whole, build_data_pdu tx zero_block 8 = Some (out, tx') /\
     pdu_built tx l tx' l' out segs whole /\ um_tx_ok tx' 4 l' /\ zlen (pending tx' l') <= zlen (pending tx l) /\ zlen out <= 8 /\
     pdu_fills (tx_sdu tx') l' (zlen out) (Z.min 8 (SRSRAN_MAX_BUFFER_SIZE_BYTES - SRSRAN_BUFFER_HEADER_OFFSET))).
Proof.
  apply um_build_data_pdu_correct; [apply example_tx_ok|]. vm_compute. reflexivity.
Defined.

(** The 8-byte PDU of this example: one indicator (3), then 1 byte of the second
    SDU, framing "not end aligned". *)
Example example_tx_pdu :
  exists tx', build_data_pdu (example_tx 4 [[1; 2; 3]; [4; 5; 6; 7]] None) zero_block 8 =
    Some ([0x60; 0; 0x30; 1; 2; 3; 4; 5], tx') /\ tx_sdu tx' = Some [6; 7].
Proof. eexists; split; vm_compute; reflexivity. Qed.

(** The array of length indicators has 512 entries and nothing bounds the
    number of SDUs put in one PDU: 514 SDUs of one byte in the queue of an MCH bearer,
    which holds 2048, and a grant of 2000 bytes make [build_data_pdu] write past its
    end. *)
Theorem um_li_array_overflows :
  build_data_pdu (example_tx (Z.to_nat (tx_queue_length mch_config)) (repeat [7] 514) None) zero_block 2000 = None.
Proof. vm_compute. reflexivity. Qed.

(** The space left after the first segment is reduced by the smaller of the
    bytes moved and the tailroom left.  When the remainder of an SDU is longer than
    half of the buffer the space is overestimated and the next SDU is copied past
    the end of the PDU buffer. *)
Theorem um_first_segment_space_overflows :
  build_data_pdu (example_tx 4 [repeat 1 (Z.to_nat 8000)] (Some (repeat 2 (Z.to_nat 8000)))) zero_block 12237 = None.
Proof. vm_compute. reflexivity. Qed.

(** A segment longer than 2047 bytes that is followed by another one gets a
    length indicator reduced modulo 2048: the receiver reads 952 for 3000. *)
Theorem um_long_segment_li_truncated :
  exists out tx' h,
    build_data_pdu (example_tx 4 [repeat 1 (Z.to_nat 3000); repeat 2 10] None) zero_block 5000 = Some (out, tx') /\
    rlc_um_read_data_pdu_header out size5bits = Some h /\ li h = [952] /\
    tx_sdu tx' = None /\ zlen out = 3013.
Proof. eexists _, _, _. split; [vm_compute; reflexivity|]. split_and!; vm_compute; reflexivity. Qed.
