(* ===== verification/RlcUmRx.v ===== *)
(** * RLC UM receiver

    [rlc_um_lte_rx] of [lib/src/rlc/rlc_um_lte.cc]: the reception window, duplicate
    and out-of-window discard, reassembly of SDUs and the reordering timer.

    Buffers are represented by their contents.  Where the code would copy past the
    end of the SDU buffer, or take from a received PDU more bytes than it has, the
    model returns [None].  The buffer pool is taken to succeed. *)

From stdpp Require Import base list gmap numbers.
From S2P Require Import Prelude ByteBuffer CircularBuffer RlcUmHeader RlcUmTx.

Local Open Scope Z_scope.

(** ** State *)

(** [delivered] collects the SDUs handed to PDCP, oldest first; [timer_running] is
    the state of [reordering_timer]. *)
Record um_rx := mk_um_rx {
  rx_cfg : rlc_um_config_t;
  rx_window : gmap Z (rlc_umd_pdu_header_t * bytes);
  rx_sdu : option bytes;
  vr_ur_in_rx_sdu : Z;
  vr_ur : Z;
  vr_ux : Z;
  vr_uh : Z;
  pdu_lost : bool;
  timer_running : bool;
  num_rx_sdus : Z;
  num_rx_sdu_bytes : Z;
  num_lost_pdus : Z;
  delivered : list bytes
}.

Definition um_rx_init (cfg : rlc_um_config_t) : um_rx :=
  mk_um_rx cfg ∅ None 0 0 0 0 false false 0 0 0 [].

(** Field updates. *)
Definition set_window (st : um_rx) w := mk_um_rx (rx_cfg st) w (rx_sdu st) (vr_ur_in_rx_sdu st)
  (vr_ur st) (vr_ux st) (vr_uh st) (pdu_lost st) (timer_running st) (num_rx_sdus st)
  (num_rx_sdu_bytes st) (num_lost_pdus st) (delivered st).
Definition set_sdu (st : um_rx) (s : bytes) := mk_um_rx (rx_cfg st) (rx_window st) (Some s)
  (vr_ur_in_rx_sdu st) (vr_ur st) (vr_ux st) (vr_uh st) (pdu_lost st) (timer_running st)
  (num_rx_sdus st) (num_rx_sdu_bytes st) (num_lost_pdus st) (delivered st).
Definition set_in_sdu (st : um_rx) (x : Z) := mk_um_rx (rx_cfg st) (rx_window st) (rx_sdu st) x
  (vr_ur st) (vr_ux st) (vr_uh st) (pdu_lost st) (timer_running st) (num_rx_sdus st)
  (num_rx_sdu_bytes st) (num_lost_pdus st) (delivered st).
Definition set_ur (st : um_rx) (x : Z) := mk_um_rx (rx_cfg st) (rx_window st) (rx_sdu st)
  (vr_ur_in_rx_sdu st) x (vr_ux st) (vr_uh st) (pdu_lost st) (timer_running st) (num_rx_sdus st)
  (num_rx_sdu_bytes st) (num_lost_pdus st) (delivered st).
Definition set_ux (st : um_rx) (x : Z) := mk_um_rx (rx_cfg st) (rx_window st) (rx_sdu st)
  (vr_ur_in_rx_sdu st) (vr_ur st) x (vr_uh st) (pdu_lost st) (timer_running st) (num_rx_sdus st)
  (num_rx_sdu_bytes st) (num_lost_pdus st) (delivered st).
Definition set_uh (st : um_rx) (x : Z) := mk_um_rx (rx_cfg st) (rx_window st) (rx_sdu st)
  (vr_ur_in_rx_sdu st) (vr_ur st) (vr_ux st) x (pdu_lost st) (timer_running st) (num_rx_sdus st)
  (num_rx_sdu_bytes st) (num_lost_pdus st) (delivered st).
Definition set_lost (st : um_rx) (b : bool) := mk_um_rx (rx_cfg st) (rx_window st) (rx_sdu st)
  (vr_ur_in_rx_sdu st) (vr_ur st) (vr_ux st) (vr_uh st) b (timer_running st) (num_rx_sdus st)
  (num_rx_sdu_bytes st) (num_lost_pdus st) (delivered st).
Definition set_timer (st : um_rx) (b : bool) := mk_um_rx (rx_cfg st) (rx_window st) (rx_sdu st)
  (vr_ur_in_rx_sdu st) (vr_ur st) (vr_ux st) (vr_uh st) (pdu_lost st) b (num_rx_sdus st)
  (num_rx_sdu_bytes st) (num_lost_pdus st) (delivered st).
Definition count_lost (st : um_rx) := mk_um_rx (rx_cfg st) (rx_window st) (rx_sdu st)
  (vr_ur_in_rx_sdu st) (vr_ur st) (vr_ux st) (vr_uh st) (pdu_lost st) (timer_running st)
  (num_rx_sdus st) (num_rx_sdu_bytes st) (u32 (num_lost_pdus st + 1)) (delivered st).

(** The bytes of [rx_sdu]. *)
Definition sdu_bytes (st : um_rx) : bytes := default [] (rx_sdu st).

(** The SDU goes to [pdcp->write_pdu] (or [write_pdu_mch]) and a new buffer is
    taken. *)
Definition deliver (st : um_rx) : um_rx :=
  mk_um_rx (rx_cfg st) (rx_window st) (Some []) (vr_ur_in_rx_sdu st) (vr_ur st) (vr_ux st)
    (vr_uh st) (pdu_lost st) (timer_running st) (u32 (num_rx_sdus st + 1))
    (u64 (num_rx_sdu_bytes st + zlen (sdu_bytes st))) (num_lost_pdus st)
    (delivered st ++ [sdu_bytes st]).

(** [rx_sdu->clear()] with the loss counted. *)
Definition drop_sdu (st : um_rx) : um_rx := count_lost (set_sdu st []).

(** ** Sequence numbers *)

(** [RX_MOD_BASE(x)] in 32-bit unsigned arithmetic. *)
Definition RX_MOD_BASE (st : um_rx) (x : Z) : Z :=
  u32 (x - vr_uh st - rx_window_size (rx_cfg st)) mod rx_mod (rx_cfg st).

Definition inside_reordering_window (st : um_rx) (sn_ : Z) : bool :=
  let s := u16 sn_ in
  if (rx_window_size (rx_cfg st) =? 0) || bool_decide (rx_window st = ∅) then true
  else (RX_MOD_BASE st (vr_uh st - rx_window_size (rx_cfg st)) <=? RX_MOD_BASE st s) &&
       (RX_MOD_BASE st s <? RX_MOD_BASE st (vr_uh st)).

Definition pdu_belongs_to_rx_sdu (st : um_rx) : bool :=
  (u32 (vr_ur_in_rx_sdu st + 1) mod rx_mod (rx_cfg st) =? vr_ur st) ||
  (vr_ur st =? vr_ur_in_rx_sdu st).

Definition next_sn (st : um_rx) (x : Z) : Z := u32 (x + 1) mod rx_mod (rx_cfg st).

(** ** Moving bytes *)

(** Room of an SDU buffer. *)
Definition SDU_ROOM : Z := SRSRAN_MAX_BUFFER_SIZE_BYTES - SRSRAN_BUFFER_HEADER_OFFSET.

(** [memcpy(&rx_sdu->msg[rx_sdu->N_bytes], ...)]. *)
Definition sdu_append (st : um_rx) (d : bytes) : option um_rx :=
  if SDU_ROOM <? zlen (sdu_bytes st) + zlen d then None
  else Some (set_sdu st (sdu_bytes st ++ d)).

(** The first [len] bytes of what is left of a PDU, and the rest. *)
Definition split_pdu (buf : bytes) (len : Z) : option (bytes * bytes) :=
  if zlen buf <? len then None else Some (ztake len buf, zdrop len buf).

(** ** [reassemble_rx_sdus], lower edge *)

(** The loop over the length indicators of the PDU [vr_ur] ([fi_], [lis], [buf]);
    the result is what is left of the PDU, which nobody reads after the [break]. *)
Fixpoint lower_segments (fi_ : Z) (i : nat) (lis : list Z) (buf : bytes) (st : um_rx)
  : option (bytes * um_rx) :=
  match lis with
  | [] => Some (buf, st)
  | len :: rest =>
      if (zlen (sdu_bytes st) =? 0) && Nat.eqb i 0 && negb (rlc_um_start_aligned fi_) then
        Some (zdrop len buf, drop_sdu st)
      else
        '(seg, buf') ← split_pdu buf len;
        st1 ← sdu_append st seg;
        let st2 :=
          if (pdu_lost st1 && negb (rlc_um_start_aligned fi_)) ||
             negb (vr_ur st1 =? next_sn st1 (vr_ur_in_rx_sdu st1))
          then drop_sdu st1 else deliver st1 in
        lower_segments fi_ (S i) rest buf' (set_lost st2 false)
  end.

Definition lower_last (fi_ : Z) (buf : bytes) (st : um_rx) : option um_rx :=
  if (0 <? zlen (sdu_bytes st)) || rlc_um_start_aligned fi_ then
    st1 ← sdu_append st buf;
    let st2 := set_in_sdu st1 (vr_ur st1) in
    if rlc_um_end_aligned fi_ then
      let st3 := if pdu_lost st2 && negb (rlc_um_start_aligned fi_) then drop_sdu st2 else deliver st2 in
      Some (set_lost st3 false)
    else Some st2
  else Some st.

(** One turn of the first loop. *)
Definition lower_pdu (st : um_rx) : option um_rx :=
  st1 ← match rx_window st !! vr_ur st with
        | None => Some (set_sdu st [])
        | Some (h, buf) =>
            '(buf', s1) ← lower_segments (fi h) 0 (li h) buf st;
            s2 ← lower_last (fi h) buf' s1;
            Some (set_window s2 (delete (vr_ur s2) (rx_window s2)))
        end;
  Some (set_ur st1 (next_sn st1 (vr_ur st1))).

(** The loop: at most [rx_mod] turns bring [vr_ur] into the window. *)
Fixpoint lower_edge (fuel : nat) (st : um_rx) : option um_rx :=
  if inside_reordering_window st (vr_ur st) then Some st
  else match fuel with
  | O => None
  | S fuel' => st1 ← lower_pdu st; lower_edge fuel' st1
  end.

(** ** [reassemble_rx_sdus], update of [vr_ur] *)

(** The loop over the length indicators; the flag is the jump to
    [clean_up_rx_window]. *)
Fixpoint update_segments (fi_ : Z) (i : nat) (lis : list Z) (buf : bytes) (st : um_rx)
  : option (bool * bytes * um_rx) :=
  match lis with
  | [] => Some (false, buf, st)
  | len :: rest =>
      if (zlen (sdu_bytes st) =? 0) && Nat.eqb i 0 && negb (rlc_um_start_aligned fi_) then
        if zlen buf <? len then Some (true, buf, st)
        else update_segments fi_ (S i) rest (zdrop len buf) (set_lost (drop_sdu st) false)
      else if SDU_ROOM - zlen (sdu_bytes st) <? len then Some (true, buf, drop_sdu st)
      else
        '(seg, buf') ← split_pdu buf len;
        st1 ← sdu_append st seg;
        let st2 := set_in_sdu st1 (vr_ur st1) in
        if pdu_belongs_to_rx_sdu st2 then
          update_segments fi_ (S i) rest buf' (set_lost (deliver st2) false)
        else
          '(_, buf'') ← split_pdu buf' len;
          update_segments fi_ (S i) rest buf'' (set_lost (count_lost st2) false)
  end.

(** The last segment; [n_li] is the number of indicators. *)
Definition update_last (fi_ : Z) (n_li : Z) (buf : bytes) (st : um_rx) : option um_rx :=
  if (zlen (sdu_bytes st) =? 0) && (n_li =? 0) && negb (rlc_um_start_aligned fi_) then
    Some (drop_sdu st)
  else
    st1 ← (if (zlen (sdu_bytes st) <? SRSRAN_MAX_BUFFER_SIZE_BYTES) &&
              (zlen buf <? SRSRAN_MAX_BUFFER_SIZE_BYTES) &&
              (zlen buf + zlen (sdu_bytes st) <? SRSRAN_MAX_BUFFER_SIZE_BYTES)
           then sdu_append st buf else Some st);
    let st2 := set_in_sdu st1 (vr_ur st1) in
    if rlc_um_end_aligned fi_ then
      let st3 := if pdu_lost st2 && negb (rlc_um_start_aligned fi_) then drop_sdu st2 else deliver st2 in
      Some (set_lost st3 false)
    else Some st2.

(** One turn of the second loop on the PDU [(h, buf)] found at [vr_ur]. *)
Definition update_pdu (st : um_rx) (h : rlc_umd_pdu_header_t) (buf : bytes) : option um_rx :=
  let st0 := if pdu_belongs_to_rx_sdu st then st else set_sdu (set_lost st false) [] in
  '(jump, buf', st1) ← update_segments (fi h) 0 (li h) buf st0;
  st2 ← (if (jump : bool) then Some st1 else update_last (fi h) (N_li h) buf' st1);
  let st3 := set_window st2 (delete (vr_ur st2) (rx_window st2)) in
  Some (set_ur st3 (next_sn st3 (vr_ur st3))).

(** The loop: each turn removes one PDU of the window. *)
Fixpoint update_loop (fuel : nat) (st : um_rx) : option um_rx :=
  match rx_window st !! vr_ur st with
  | None => Some st
  | Some (h, buf) =>
      match fuel with
      | O => None
      | S fuel' => st1 ← update_pdu st h buf; update_loop fuel' st1
      end
  end.

(** A buffer for the SDU is taken when there is none. *)
Definition with_buffer (st : um_rx) : um_rx :=
  match rx_sdu st with Some _ => st | None => set_sdu st [] end.

Definition reassemble_rx_sdus (st : um_rx) : option um_rx :=
  let st0 := with_buffer st in
  st1 ← lower_edge (Z.to_nat (rx_mod (rx_cfg st))) st0;
  update_loop (size (rx_window st1)) st1.

(** ** Entry points *)

(** The end of [handle_data_pdu]: the reordering timer is stopped when [vr_ur] has
    passed [vr_ux], or [vr_ux] has left the window, and started when there is a
    gap. *)
Definition stop_timer (st : um_rx) : um_rx :=
  if timer_running st &&
     ((RX_MOD_BASE st (vr_ux st) <=? RX_MOD_BASE st (vr_ur st)) ||
      (negb (inside_reordering_window st (vr_ux st)) && negb (vr_ux st =? vr_uh st)))
  then set_timer st false else st.

Definition start_timer (st : um_rx) : um_rx :=
  if negb (timer_running st) && (RX_MOD_BASE st (vr_ur st) <? RX_MOD_BASE st (vr_uh st))
  then set_ux (set_timer st true) (vr_uh st) else st.

(** [handle_data_pdu]. *)
Definition handle_data_pdu (st : um_rx) (payload : bytes) : option um_rx :=
  header ← rlc_um_read_data_pdu_header payload (rx_sn_field_length (rx_cfg st));
  if (RX_MOD_BASE st (vr_uh st - rx_window_size (rx_cfg st)) <=? RX_MOD_BASE st (sn header)) &&
     (RX_MOD_BASE st (sn header) <? RX_MOD_BASE st (vr_ur st))
  then Some st
  else match rx_window st !! sn header with
  | Some _ => Some st
  | None =>
      if SDU_ROOM <? zlen payload then None
      else
        let header_len := rlc_um_packed_length header in
        '(_, buf) ← split_pdu payload header_len;
        let st1 := set_window st (<[sn header := (header, buf)]> (rx_window st)) in
        let st2 := if inside_reordering_window st1 (sn header) then st1
                   else set_uh st1 (next_sn st1 (sn header)) in
        st3 ← reassemble_rx_sdus st2;
        Some (start_timer (stop_timer st3))
  end.

(** The loop of [timer_expired]. *)
Fixpoint expire_loop (fuel : nat) (st : um_rx) : option um_rx :=
  if RX_MOD_BASE st (vr_ur st) <? RX_MOD_BASE st (vr_ux st) then
    match fuel with
    | O => None
    | S fuel' =>
        st1 ← reassemble_rx_sdus (set_ur st (next_sn st (vr_ur st)));
        expire_loop fuel' st1
    end
  else Some st.

(** [timer_expired] for the reordering timer, which is no longer running when its
    callback is called. *)
Definition timer_expired (st : um_rx) : option um_rx :=
  let st0 := set_lost (set_timer st false) true in
  let st1 := match rx_sdu st0 with Some _ => set_sdu st0 [] | None => st0 end in
  st2 ← expire_loop (Z.to_nat (rx_mod (rx_cfg st))) st1;
  Some (if RX_MOD_BASE st2 (vr_ur st2) <? RX_MOD_BASE st2 (vr_uh st2)
        then set_ux (set_timer st2 true) (vr_uh st2) else st2).

Definition um_rx_reset (st : um_rx) : um_rx :=
  mk_um_rx (rx_cfg st) ∅ None 0 0 0 0 false (timer_running st) (num_rx_sdus st)
    (num_rx_sdu_bytes st) (num_lost_pdus st) (delivered st).

(** [reestablish]: a running timer is stopped and handled as expired. *)
Definition um_rx_reestablish (st : um_rx) : option um_rx :=
  st1 ← (if timer_running st then timer_expired (set_timer st false) else Some st);
  Some (um_rx_reset st1).

(** [stop]: as [reestablish], and the timer is stopped. *)
Definition um_rx_stop (st : um_rx) : option um_rx :=
  st1 ← (if timer_running st then timer_expired (set_timer st false) else Some st);
  Some (set_timer (um_rx_reset st1) false).

(** ** Sequence number arithmetic *)

(** The configurations of the code: the modulus is twice the window and is that of
    the sequence number field. *)
Definition rx_cfg_ok (cfg : rlc_um_config_t) : Prop :=
  rx_mod cfg = 2 * rx_window_size cfg /\ rx_mod cfg = sn_mod (rx_sn_field_length cfg).

Lemma rx_cfg_cases cfg : rx_cfg_ok cfg ->
  (rx_mod cfg = 32 /\ rx_window_size cfg = 16) \/ (rx_mod cfg = 1024 /\ rx_window_size cfg = 512).
Proof. intros [H1 H2]. unfold sn_mod in H2. destruct (decide _); lia. Qed.

(** Brings every modulus of the goal and the hypotheses to a linear form; the
    modulus must be a numeral. *)
Ltac mod_lia := Z.div_mod_to_equations; lia.

Ltac cfg_cases H :=
  let E1 := fresh "Em" in let E2 := fresh "Ew" in
  destruct (rx_cfg_cases _ H) as [[E1 E2]|[E1 E2]]; rewrite ?E1, ?E2 in *.

Lemma u32_mod_pow2 x m : m = 32 \/ m = 1024 -> u32 x mod m = x mod m.
Proof.
  unfold u32. intros [->| ->].
  - apply Z.mod_mod_divide. by exists (2 ^ 27).
  - apply Z.mod_mod_divide. by exists (2 ^ 22).
Qed.

Lemma RX_MOD_BASE_eq st x : rx_cfg_ok (rx_cfg st) ->
  RX_MOD_BASE st x = (x - vr_uh st - rx_window_size (rx_cfg st)) mod rx_mod (rx_cfg st).
Proof. intros Hc. unfold RX_MOD_BASE. apply u32_mod_pow2. cfg_cases Hc; auto. Qed.

Lemma next_sn_eq st x : rx_cfg_ok (rx_cfg st) -> next_sn st x = (x + 1) mod rx_mod (rx_cfg st).
Proof. intros Hc. unfold next_sn. apply u32_mod_pow2. cfg_cases Hc; auto. Qed.

Definition sn_ok (cfg : rlc_um_config_t) (x : Z) : Prop := 0 <= x < rx_mod cfg.

(** How far [x] is behind [vr_uh]. *)
Definition behind (st : um_rx) (x : Z) : Z := (vr_uh st - x) mod rx_mod (rx_cfg st).

Lemma inside_spec st x : rx_cfg_ok (rx_cfg st) -> sn_ok (rx_cfg st) (vr_uh st) -> sn_ok (rx_cfg st) x ->
  inside_reordering_window st x = true <->
  rx_window st = ∅ \/ 0 < behind st x <= rx_window_size (rx_cfg st).
Proof.
  intros Hc Hu Hx. unfold inside_reordering_window, behind, sn_ok in *.
  rewrite u16_id by (unfold is_u16; cfg_cases Hc; lia).
  rewrite !RX_MOD_BASE_eq by done.
  destruct (bool_decide_reflect (rx_window st = ∅)) as [E|E].
  - rewrite orb_true_r. tauto.
  - rewrite orb_false_r. destruct (Z.eqb_spec (rx_window_size (rx_cfg st)) 0) as [E0|_].
    { cfg_cases Hc; lia. }
    rewrite andb_true_iff, Z.leb_le, Z.ltb_lt.
    enough ((vr_uh st - rx_window_size (rx_cfg st) - vr_uh st - rx_window_size (rx_cfg st))
       mod rx_mod (rx_cfg st) <= (x - vr_uh st - rx_window_size (rx_cfg st)) mod rx_mod (rx_cfg st) /\
     (x - vr_uh st - rx_window_size (rx_cfg st)) mod rx_mod (rx_cfg st) <
     (vr_uh st - vr_uh st - rx_window_size (rx_cfg st)) mod rx_mod (rx_cfg st) <->
     0 < (vr_uh st - x) mod rx_mod (rx_cfg st) <= rx_window_size (rx_cfg st)) by tauto.
    cfg_cases Hc; mod_lia.
Qed.

(** ** Frame of the segment loops *)

(** Handling segments changes neither the window nor the state variables. *)
Record same_window (st st' : um_rx) : Prop := {
  sw_cfg : rx_cfg st' = rx_cfg st;
  sw_win : rx_window st' = rx_window st;
  sw_ur : vr_ur st' = vr_ur st;
  sw_ux : vr_ux st' = vr_ux st;
  sw_uh : vr_uh st' = vr_uh st;
  sw_tmr : timer_running st' = timer_running st
}.

#[export] Instance same_window_preorder : PreOrder same_window.
Proof. split; [done|]. intros a b c [] []. split; congruence. Qed.

Lemma same_window_set_sdu st s : same_window st (set_sdu st s). Proof. done. Qed.
Lemma same_window_set_lost st b : same_window st (set_lost st b). Proof. done. Qed.
Lemma same_window_set_in_sdu st x : same_window st (set_in_sdu st x). Proof. done. Qed.
Lemma same_window_count_lost st : same_window st (count_lost st). Proof. done. Qed.
Lemma same_window_deliver st : same_window st (deliver st). Proof. done. Qed.

Lemma same_window_append st d st' : sdu_append st d = Some st' -> same_window st st'.
Proof. unfold sdu_append. case_if; [done|]. by intros [= <-]. Qed.

Create HintDb um_rx.
#[export] Hint Resolve same_window_set_sdu same_window_set_lost same_window_set_in_sdu
  same_window_count_lost same_window_deliver same_window_append : um_rx.

(** Closes a goal [same_window st st'] where [st'] is built from [st] by the
    updates above. *)
Ltac same_window :=
  repeat match goal with
  | H : sdu_append _ _ = Some _ |- _ => apply same_window_append in H as []
  | |- context [if ?b then _ else _] => destruct b
  end; split; cbn; congruence.

Lemma lower_segments_frame fi_ lis : forall i buf st buf' st',
  lower_segments fi_ i lis buf st = Some (buf', st') -> same_window st st'.
Proof.
  induction lis as [|len lis IH]; intros i buf st buf' st' Hs; cbn in Hs.
  - by injection Hs as <- <-.
  - destruct (_ && _ && _); [injection Hs as <- <-; same_window|].
    destruct (split_pdu buf len) as [[seg rest]|]; cbn in Hs; [|done].
    destruct (sdu_append st seg) as [st1|] eqn:Ha; cbn in Hs; [|done].
    apply IH in Hs. etransitivity; [|exact Hs]. same_window.
Qed.

Lemma lower_last_frame fi_ buf st st' : lower_last fi_ buf st = Some st' -> same_window st st'.
Proof.
  unfold lower_last. intros Hs. destruct (_ || _); [|by injection Hs as <-].
  destruct (sdu_append st buf) as [st1|] eqn:Ha; cbn in Hs; [|done].
  destruct (rlc_um_end_aligned fi_); injection Hs as <-; same_window.
Qed.

Lemma update_segments_frame fi_ lis : forall i buf st r,
  update_segments fi_ i lis buf st = Some r -> same_window st (snd r).
Proof.
  induction lis as [|len lis IH]; intros i buf st r Hs; cbn in Hs.
  - by injection Hs as <-.
  - destruct (_ && _ && _).
    { destruct (zlen buf <? len); [by injection Hs as <-|]. apply IH in Hs.
      etransitivity; [|exact Hs]. same_window. }
    destruct (_ <? len); [injection Hs as <-; same_window|].
    destruct (split_pdu buf len) as [[seg rest]|]; cbn in Hs; [|done].
    destruct (sdu_append st seg) as [st1|] eqn:Ha; cbn in Hs; [|done].
    destruct (pdu_belongs_to_rx_sdu _).
    + apply IH in Hs. etransitivity; [|exact Hs]. same_window.
    + destruct (split_pdu rest len) as [[? ?]|]; cbn in Hs; [|done].
      apply IH in Hs. etransitivity; [|exact Hs]. same_window.
Qed.

Lemma update_last_frame fi_ n buf st st' : update_last fi_ n buf st = Some st' -> same_window st st'.
Proof.
  unfold update_last. intros Hs. destruct (_ && _ && _); [injection Hs as <-; same_window|].
  match type of Hs with (?x ≫= _) = _ => destruct x as [st1|] eqn:Ha; cbn in Hs; [|done] end.
  assert (same_window st st1) as [].
  { destruct (_ && _ && _); [eauto with um_rx|by injection Ha as <-]. }
  destruct (rlc_um_end_aligned fi_); injection Hs as <-; same_window.
Qed.

(** What one turn of either loop does to the window. *)
Record turn (st st' : um_rx) : Prop := {
  tn_cfg : rx_cfg st' = rx_cfg st;
  tn_win : rx_window st' = delete (vr_ur st) (rx_window st);
  tn_ur : vr_ur st' = next_sn st (vr_ur st);
  tn_ux : vr_ux st' = vr_ux st;
  tn_uh : vr_uh st' = vr_uh st;
  tn_tmr : timer_running st' = timer_running st
}.

Lemma lower_pdu_turn st st' : lower_pdu st = Some st' -> turn st st'.
Proof.
  unfold lower_pdu. intros Hs. destruct (rx_window st !! vr_ur st) as [[h buf]|] eqn:E; cbn in Hs.
  - destruct (lower_segments _ _ _ _ _) as [[buf1 s1]|] eqn:E1; cbn in Hs; [|done].
    destruct (lower_last _ _ _) as [s2|] eqn:E2; cbn in Hs; [|done]. injection Hs as <-.
    apply lower_segments_frame in E1 as []. apply lower_last_frame in E2 as [].
    split; cbn; unfold next_sn; cbn; congruence.
  - injection Hs as <-. split; cbn; try done. by rewrite delete_id.
Qed.

Lemma update_pdu_turn st h buf st' : update_pdu st h buf = Some st' -> turn st st'.
Proof.
  unfold update_pdu. intros Hs.
  assert (same_window st (if pdu_belongs_to_rx_sdu st then st else set_sdu (set_lost st false) []))
    as [] by same_window.
  destruct (update_segments _ _ _ _ _) as [[[j buf1] s1]|] eqn:E1; cbn in Hs; [|done].
  apply update_segments_frame in E1 as []. cbn in *.
  match type of Hs with (?x ≫= _) = _ => destruct x as [s2|] eqn:E2; cbn in Hs; [|done] end.
  assert (same_window s1 s2) as [].
  { destruct j; [by injection E2 as <-|by apply update_last_frame in E2]. }
  injection Hs as <-. split; cbn; unfold next_sn; cbn; congruence.
Qed.

(** ** The window *)

(** Distance of [x] below [vr_uh], counted from 1: [vr_uh] itself is a whole turn
    away.  [behind] counts from 0. *)
Definition dist (st : um_rx) (x : Z) : Z := (vr_uh st - 1 - x) mod rx_mod (rx_cfg st) + 1.

(** The ranges of the state variables that every operation keeps. *)
Record rx_ranges (st : um_rx) : Prop := {
  rr_cfg : rx_cfg_ok (rx_cfg st);
  rr_ur : sn_ok (rx_cfg st) (vr_ur st);
  rr_uh : sn_ok (rx_cfg st) (vr_uh st);
  rr_keys : forall k p, rx_window st !! k = Some p -> sn_ok (rx_cfg st) k
}.

Lemma dist_behind st x : rx_cfg_ok (rx_cfg st) -> sn_ok (rx_cfg st) (vr_uh st) -> sn_ok (rx_cfg st) x ->
  (behind st x = 0 /\ x = vr_uh st /\ dist st x = rx_mod (rx_cfg st)) \/
  (0 < behind st x < rx_mod (rx_cfg st) /\ x <> vr_uh st /\ dist st x = behind st x).
Proof. unfold dist, behind, sn_ok. intros Hc Hu Hx. cfg_cases Hc; mod_lia. Qed.

Lemma dist_inj st x y : rx_cfg_ok (rx_cfg st) -> sn_ok (rx_cfg st) x -> sn_ok (rx_cfg st) y ->
  dist st x = dist st y -> x = y.
Proof. unfold dist, sn_ok. intros Hc Hx Hy. cfg_cases Hc; mod_lia. Qed.

Lemma dist_next st x : rx_cfg_ok (rx_cfg st) -> sn_ok (rx_cfg st) x -> 1 < dist st x ->
  dist st ((x + 1) mod rx_mod (rx_cfg st)) = dist st x - 1.
Proof. unfold dist, sn_ok. intros Hc Hx. cfg_cases Hc; mod_lia. Qed.

Lemma behind_next st x : rx_cfg_ok (rx_cfg st) -> sn_ok (rx_cfg st) x -> 0 < behind st x ->
  behind st ((x + 1) mod rx_mod (rx_cfg st)) = behind st x - 1.
Proof. unfold behind, sn_ok. intros Hc Hx. cfg_cases Hc; mod_lia. Qed.

Lemma behind_inj st x y : rx_cfg_ok (rx_cfg st) -> sn_ok (rx_cfg st) x -> sn_ok (rx_cfg st) y ->
  behind st x = behind st y -> x = y.
Proof. unfold behind, sn_ok. intros Hc Hx Hy. cfg_cases Hc; mod_lia. Qed.

Lemma sn_ok_mod cfg x : rx_cfg_ok cfg -> sn_ok cfg (x mod rx_mod cfg).
Proof. unfold sn_ok. intros Hc. apply Z.mod_pos_bound. cfg_cases Hc; lia. Qed.

Lemma window_size_bounds cfg : rx_cfg_ok cfg -> 16 <= rx_window_size cfg /\ rx_mod cfg = 2 * rx_window_size cfg.
Proof. intros Hc. cfg_cases Hc; lia. Qed.

Lemma turn_ranges st st' : rx_ranges st -> turn st st' -> rx_ranges st'.
Proof.
  intros [Hc Hr Hh Hk] [E1 E2 E3 E4 E5 E6]. constructor; rewrite ?E1, ?E3, ?E5; try done.
  - rewrite next_sn_eq by done. by apply sn_ok_mod.
  - intros k p. rewrite E2. intros [_ Hp]%lookup_delete_Some. eauto.
Qed.

Lemma turn_dist st st' x : turn st st' -> dist st' x = dist st x.
Proof. intros [E1 E2 E3 E4 E5 E6]. unfold dist. by rewrite E1, E5. Qed.

Lemma turn_behind st st' x : turn st st' -> behind st' x = behind st x.
Proof. intros [E1 E2 E3 E4 E5 E6]. unfold behind. by rewrite E1, E5. Qed.

(** What a loop keeps and how it moves the window, where [m] measures the distance
    from [vr_uh]. *)
Record moves (m : um_rx -> Z -> Z) (st st' : um_rx) : Prop := {
  mv_ranges : rx_ranges st';
  mv_cfg : rx_cfg st' = rx_cfg st;
  mv_ux : vr_ux st' = vr_ux st;
  mv_uh : vr_uh st' = vr_uh st;
  mv_tmr : timer_running st' = timer_running st;
  mv_win : rx_window st' ⊆ rx_window st;
  mv_keys : forall k p, rx_window st' !! k = Some p -> m st' k <= m st' (vr_ur st');
  mv_down : m st' (vr_ur st') <= m st (vr_ur st)
}.

Lemma moves_trans m a b c : moves m a b -> moves m b c -> moves m a c.
Proof. intros [] []. constructor; try done; try congruence; [by etransitivity|lia]. Qed.

Lemma moves_measure (st st' : um_rx) : rx_cfg st' = rx_cfg st -> vr_uh st' = vr_uh st ->
  dist st' = dist st /\ behind st' = behind st.
Proof. intros E1 E2. unfold dist, behind. by rewrite E1, E2. Qed.

Lemma lower_turn_moves st st' : rx_ranges st -> lower_pdu st = Some st' -> 1 < dist st (vr_ur st) ->
  (forall k p, rx_window st !! k = Some p -> dist st k <= dist st (vr_ur st)) ->
  moves dist st st' /\ dist st' (vr_ur st') = dist st (vr_ur st) - 1 /\
  forall k, dist st k < dist st (vr_ur st) -> rx_window st' !! k = rx_window st !! k.
Proof.
  intros Hr Hl Hd Hk. pose proof (lower_pdu_turn _ _ Hl) as Ht.
  pose proof (turn_ranges _ _ Hr Ht) as Hr'. destruct Hr as [Hc Hur Huh Hko].
  assert (Hd' : dist st' (vr_ur st') = dist st (vr_ur st) - 1).
  { rewrite (turn_dist _ _ _ Ht), (tn_ur _ _ Ht), next_sn_eq by done. by apply dist_next. }
  destruct Ht as [E1 E2 E3 E4 E5 E6]. split; [|split; [done|]].
  - constructor; try done.
    + rewrite E2. apply delete_subseteq.
    + intros k p Hp. rewrite Hd', E2 in *. apply lookup_delete_Some in Hp as [Hne Hp].
      rewrite (proj1 (moves_measure st st' E1 E5)). pose proof (Hk k p Hp).
      assert (dist st k <> dist st (vr_ur st)); [|lia].
      intros E. apply dist_inj in E; eauto.
    + lia.
  - intros k Hlt. rewrite E2, lookup_delete_ne; [done|]. intros <-. lia.
Qed.

Lemma moves_refl m st : rx_ranges st ->
  (forall k p, rx_window st !! k = Some p -> m st k <= m st (vr_ur st)) -> moves m st st.
Proof. by constructor. Qed.

(** [inside_reordering_window] in terms of the distance. *)
Lemma inside_dist st : rx_ranges st ->
  if inside_reordering_window st (vr_ur st)
  then rx_window st = ∅ \/ dist st (vr_ur st) <= rx_window_size (rx_cfg st)
  else rx_window_size (rx_cfg st) < dist st (vr_ur st).
Proof.
  intros [Hc Hur Huh Hko]. pose proof (inside_spec st _ Hc Huh Hur) as Hin.
  pose proof (window_size_bounds _ Hc).
  destruct (dist_behind st _ Hc Huh Hur) as [Hd|Hd], (inside_reordering_window st (vr_ur st)).
  - apply proj1 in Hin. specialize (Hin eq_refl). intuition lia.
  - lia.
  - apply proj1 in Hin. specialize (Hin eq_refl). intuition lia.
  - destruct (Z.lt_ge_cases (rx_window_size (rx_cfg st)) (dist st (vr_ur st))); [done|].
    discriminate (proj2 Hin). right. lia.
Qed.

(** The first loop stops inside the window (or with an empty one), and leaves alone
    what is inside. *)
Lemma lower_edge_spec fuel : forall st st', rx_ranges st ->
  (forall k p, rx_window st !! k = Some p -> dist st k <= dist st (vr_ur st)) ->
  lower_edge fuel st = Some st' ->
  moves dist st st' /\ (rx_window st' = ∅ \/ dist st' (vr_ur st') <= rx_window_size (rx_cfg st)) /\
  Z.min (rx_window_size (rx_cfg st)) (dist st (vr_ur st)) <= dist st' (vr_ur st') /\
  (forall k, dist st k <= rx_window_size (rx_cfg st) -> rx_window st' !! k = rx_window st !! k).
Proof.
  induction fuel as [|fuel IH]; intros st st' Hr Hk Hs; cbn [lower_edge] in Hs;
    pose proof (inside_dist st Hr) as Hin;
    (destruct (inside_reordering_window st (vr_ur st));
     [injection Hs as <-; split_and!; [by apply moves_refl|done|lia|done]|]); [done|].
  destruct (lower_pdu st) as [st1|] eqn:E1; cbn in Hs; [|done].
  pose proof (window_size_bounds _ (rr_cfg _ Hr)).
  destruct (lower_turn_moves st st1 Hr E1 ltac:(lia) Hk) as (Hm & Hd1 & Hw1).
  destruct (IH st1 st') as (Hm' & Hex & Hmin & Hw); [by destruct Hm..|done|].
  rewrite (mv_cfg _ _ _ Hm) in *. split_and!; [by eapply moves_trans|done|lia|].
  intros k Hkd. rewrite Hw, Hw1; [done|lia|].
  rewrite (proj1 (moves_measure st st1 (mv_cfg _ _ _ Hm) (mv_uh _ _ _ Hm))). lia.
Qed.

(** The second loop stops at the first missing number. *)
Lemma update_loop_spec fuel : forall st st', rx_ranges st ->
  (forall k p, rx_window st !! k = Some p -> 0 < behind st k <= behind st (vr_ur st)) ->
  update_loop fuel st = Some st' ->
  moves behind st st' /\ rx_window st' !! vr_ur st' = None /\
  (forall k, sn_ok (rx_cfg st) k -> rx_window st !! k = None -> behind st k <= behind st (vr_ur st) ->
     behind st k <= behind st' (vr_ur st')) /\
  (forall k, behind st k < behind st' (vr_ur st') -> rx_window st' !! k = rx_window st !! k).
Proof.
  induction fuel as [|fuel IH]; intros st st' Hr Hk Hs; cbn [update_loop] in Hs;
    (destruct (rx_window st !! vr_ur st) as [[h buf]|] eqn:Ew;
     [|injection Hs as <-; split_and!; [apply moves_refl; [done|]; intros; by apply (Hk k p)|done..]]); [done|].
  destruct (update_pdu st h buf) as [st1|] eqn:E1; cbn in Hs; [|done].
  pose proof (update_pdu_turn _ _ _ _ E1) as Ht. pose proof (turn_ranges _ _ Hr Ht) as Hr1.
  destruct Hr as [Hc Hur Huh Hko]. pose proof (Hk _ _ Ew) as Hpos.
  assert (Hd' : behind st1 (vr_ur st1) = behind st (vr_ur st) - 1).
  { rewrite (turn_behind _ _ _ Ht), (tn_ur _ _ Ht), next_sn_eq by done. apply behind_next; [done..|lia]. }
  assert (Hb : forall k, behind st1 k = behind st k) by (intros; by apply turn_behind).
  destruct Ht as [T1 T2 T3 T4 T5 T6].
  assert (Hk1 : forall k p, rx_window st1 !! k = Some p -> 0 < behind st1 k <= behind st1 (vr_ur st1)).
  { intros k p. rewrite T2. intros [Hne Hp]%lookup_delete_Some. rewrite Hd', Hb.
    pose proof (Hk k p Hp). assert (behind st k <> behind st (vr_ur st)); [|lia].
    intros E. apply behind_inj in E; eauto. }
  destruct (IH st1 st' Hr1 Hk1 Hs) as (Hm & Hn & Hmiss & Hkeep). split_and!; [|done| |].
  - apply (moves_trans _ _ st1); [|done]. constructor; try done; [|intros; by eapply Hk1|lia].
    rewrite T2. apply delete_subseteq.
  - intros k Hok Hno Hle. rewrite <- Hb. apply Hmiss.
    + by rewrite T1.
    + rewrite T2. apply lookup_delete_None. by right.
    + rewrite Hd', Hb. assert (behind st k <> behind st (vr_ur st)); [|lia].
      intros E. apply behind_inj in E; [|done..]. by subst k; rewrite Ew in Hno.
  - intros k Hlt. rewrite Hkeep by (by rewrite Hb). rewrite T2, lookup_delete_ne; [done|].
    intros <-. pose proof (mv_down _ _ _ Hm). lia.
Qed.

(** What [reassemble_rx_sdus] does to the window. *)
Record reassembled (st st' : um_rx) : Prop := {
  ra_ranges : rx_ranges st';
  ra_cfg : rx_cfg st' = rx_cfg st;
  ra_ux : vr_ux st' = vr_ux st;
  ra_uh : vr_uh st' = vr_uh st;
  ra_tmr : timer_running st' = timer_running st;
  ra_keys : forall k p, rx_window st' !! k = Some p -> 0 < behind st k < behind st (vr_ur st');
  ra_lower : behind st (vr_ur st') <= rx_window_size (rx_cfg st);
  ra_down : behind st (vr_ur st') <= dist st (vr_ur st);
  ra_keep : forall k, dist st k < behind st (vr_ur st') -> rx_window st' !! k = rx_window st !! k;
  ra_missing : forall k, sn_ok (rx_cfg st) k -> rx_window st !! k = None ->
    dist st k <= rx_window_size (rx_cfg st) -> dist st k <= dist st (vr_ur st) ->
    dist st k <= behind st (vr_ur st')
}.

Lemma reassemble_spec st st' : rx_ranges st ->
  (forall k p, rx_window st !! k = Some p -> dist st k <= dist st (vr_ur st)) ->
  (exists k p, rx_window st !! k = Some p /\ dist st k <= rx_window_size (rx_cfg st)) \/
    dist st (vr_ur st) <= rx_window_size (rx_cfg st) ->
  reassemble_rx_sdus st = Some st' -> reassembled st st'.
Proof.
  intros Hr Hk Hor Hs. unfold reassemble_rx_sdus in Hs.
  set (st0 := with_buffer st) in Hs.
  assert (Hf : same_window st st0) by (unfold st0, with_buffer; destruct (rx_sdu st); same_window).
  clearbody st0. destruct Hf as [F1 F2 F3 F4 F5 F6].
  destruct (moves_measure st st0 F1 F5) as [D0 B0].
  destruct (lower_edge _ st0) as [st1|] eqn:El; cbn in Hs; [|done].
  destruct Hr as [Hc Hur Huh Hko]. pose proof (window_size_bounds _ Hc) as Hws.
  assert (Hr0 : rx_ranges st0) by (constructor; rewrite ?F1, ?F2, ?F3, ?F5; done).
  apply lower_edge_spec in El as (Hm & Hex & Hmin & Hkeep1); [|done|by rewrite F2, F3, D0].
  destruct Hm as [Hr1 M1 M2 M3 M4 M5 M6 M7]. destruct (moves_measure st0 st1 M1 M3) as [D1 B1].
  rewrite D1, D0, F1, ?F2, ?F3 in *.
  assert (Hd1 : dist st (vr_ur st1) <= rx_window_size (rx_cfg st)).
  { destruct Hex as [E|]; [|done]. destruct Hor as [(k & p & Hp & Hd)|]; [|lia].
    specialize (Hkeep1 k Hd). by rewrite E, Hp in Hkeep1. }
  pose proof Hr1 as [Hc1 Hur1 Huh1 Hko1]. rewrite M1, M3, ?F5 in *.
  assert (Hdb : forall x, sn_ok (rx_cfg st) x -> dist st x <= rx_window_size (rx_cfg st) ->
                  behind st x = dist st x).
  { intros x Hx Hd. destruct (dist_behind st x Hc Huh Hx); lia. }
  assert (Hk1 : forall k p, rx_window st1 !! k = Some p -> 0 < behind st k <= behind st (vr_ur st1)).
  { intros k p Hp. pose proof (M6 k p Hp) as Hle. pose proof (Hko1 k p Hp) as Hsk.
    rewrite (Hdb (vr_ur st1)), (Hdb k) by (done || lia).
    destruct (dist_behind st k Hc Huh Hsk); lia. }
  apply update_loop_spec in Hs as (Hm2 & Hn & Hmiss & Hkeep2); [|done|by rewrite B1, B0].
  destruct Hm2 as [Hr2 N1 N2 N3 N4 N5 N6 N7]. destruct (moves_measure st1 st' N1 N3) as [D2 B2].
  rewrite B2, B1, B0, ?M1, ?(Hdb (vr_ur st1)) in * by done.
  constructor; try done; try congruence; try lia.
  - intros k p Hp. pose proof (N6 k p Hp) as Hle.
    assert (Hp1 : rx_window st1 !! k = Some p) by (eapply lookup_weaken; [exact Hp|done]).
    pose proof (Hk1 k p Hp1). assert (behind st k <> behind st (vr_ur st')); [|lia].
    intros E. apply behind_inj in E; [by subst k; rewrite Hn in Hp|done|by eapply Hko1|].
    destruct Hr2. by rewrite N1 in *.
  - intros k Hlt. rewrite Hkeep2, Hkeep1; [done|lia|]. unfold dist, behind in *. cfg_cases Hc; mod_lia.
  - intros k Hok Hno Hdw Hdu. specialize (Hmiss k Hok). rewrite (Hdb k) in Hmiss by done.
    apply Hmiss; [by rewrite Hkeep1|lia].
Qed.

(** ** The invariant of the receiver *)

(** The state between two calls: every variable is a sequence number, [vr_ur] is at
    most a window behind [vr_uh], the PDUs that wait lie strictly between the two,
    and the reordering timer runs exactly when something is missing, for an SN
    [vr_ux] above [vr_ur]. *)
Record um_rx_inv (st : um_rx) : Prop := {
  ri_ranges : rx_ranges st;
  ri_ux : sn_ok (rx_cfg st) (vr_ux st);
  ri_lower : behind st (vr_ur st) <= rx_window_size (rx_cfg st);
  ri_keys : forall k p, rx_window st !! k = Some p -> 0 < behind st k < behind st (vr_ur st);
  ri_timer : timer_running st = true <-> vr_ur st <> vr_uh st;
  ri_timer_ux : timer_running st = true -> behind st (vr_ux st) < behind st (vr_ur st)
}.

Lemma um_rx_inv_init cfg : rx_cfg_ok cfg -> um_rx_inv (um_rx_init cfg).
Proof.
  intros Hc. assert (Hz : sn_ok cfg 0) by (unfold sn_ok; cfg_cases Hc; lia).
  constructor; cbn; try done.
  unfold behind. cbn. cfg_cases Hc; mod_lia.
Qed.

Lemma behind_0 st x : rx_cfg_ok (rx_cfg st) -> sn_ok (rx_cfg st) (vr_uh st) -> sn_ok (rx_cfg st) x ->
  behind st x = 0 <-> x = vr_uh st.
Proof. unfold behind, sn_ok. intros Hc Hu Hx. cfg_cases Hc; mod_lia. Qed.

Lemma behind_nonneg st x : rx_cfg_ok (rx_cfg st) -> 0 <= behind st x < rx_mod (rx_cfg st).
Proof. intros Hc. unfold behind. apply Z.mod_pos_bound. cfg_cases Hc; lia. Qed.

(** [RX_MOD_BASE] orders the numbers of the window; those beyond it come after. *)
Lemma RX_MOD_BASE_behind st x : rx_cfg_ok (rx_cfg st) ->
  RX_MOD_BASE st x =
    if behind st x <=? rx_window_size (rx_cfg st) then rx_window_size (rx_cfg st) - behind st x
    else 3 * rx_window_size (rx_cfg st) - behind st x.
Proof.
  intros Hc. rewrite RX_MOD_BASE_eq by done. unfold behind.
  destruct (Z.leb_spec ((vr_uh st - x) mod rx_mod (rx_cfg st)) (rx_window_size (rx_cfg st)));
    cfg_cases Hc; mod_lia.
Qed.

Lemma RX_MOD_BASE_lower st : rx_cfg_ok (rx_cfg st) ->
  RX_MOD_BASE st (vr_uh st - rx_window_size (rx_cfg st)) = 0.
Proof. intros Hc. rewrite RX_MOD_BASE_eq by done. cfg_cases Hc; mod_lia. Qed.

(** What holds before the timer is updated: the invariant but for the timer; and a
    running timer waits for a number not above [vr_uh], or something is stored. *)
Lemma timers_inv st : rx_ranges st -> sn_ok (rx_cfg st) (vr_ux st) ->
  behind st (vr_ur st) <= rx_window_size (rx_cfg st) ->
  (forall k p, rx_window st !! k = Some p -> 0 < behind st k < behind st (vr_ur st)) ->
  (timer_running st = true -> behind st (vr_ux st) <= rx_window_size (rx_cfg st) \/ rx_window st <> ∅) ->
  um_rx_inv (start_timer (stop_timer st)).
Proof.
  intros Hr Hux Hlow Hk Ht. pose proof Hr as [Hc Hur Huh Hko].
  pose proof (behind_0 st _ Hc Huh Hur) as Hz. pose proof (behind_nonneg st (vr_ur st) Hc) as Hb.
  pose proof (behind_nonneg st (vr_ux st) Hc) as Hbx.
  assert (Hmur : RX_MOD_BASE st (vr_ur st) = rx_window_size (rx_cfg st) - behind st (vr_ur st)).
  { rewrite RX_MOD_BASE_behind by done. destruct (Z.leb_spec (behind st (vr_ur st)) (rx_window_size (rx_cfg st))); lia. }
  assert (Hb0 : behind st (vr_uh st) = 0) by (by apply behind_0).
  assert (Hmuh : RX_MOD_BASE st (vr_uh st) = rx_window_size (rx_cfg st)).
  { rewrite RX_MOD_BASE_behind, Hb0 by done. destruct (Z.leb_spec 0 (rx_window_size (rx_cfg st))); lia. }
  assert (Hstart : forall s, s = set_timer st false \/ (s = st /\ timer_running st = false) -> um_rx_inv (start_timer s)).
  { intros s Hs. assert (E : start_timer s = if 0 <? behind st (vr_ur st)
       then set_ux (set_timer st true) (vr_uh st) else s).
    { unfold start_timer. destruct Hs as [->|[-> E]]; [cbn [timer_running set_timer]|rewrite E]; cbn [negb andb];
      [change (RX_MOD_BASE (set_timer st false)) with (RX_MOD_BASE st)|]; cbn [vr_ur vr_uh set_timer];
      rewrite Hmur, Hmuh;
      destruct (Z.ltb_spec (rx_window_size (rx_cfg st) - behind st (vr_ur st)) (rx_window_size (rx_cfg st))),
        (Z.ltb_spec 0 (behind st (vr_ur st))); try lia; done. }
    rewrite E. destruct (Z.ltb_spec 0 (behind st (vr_ur st))).
    - split; cbn; try done; [|intros _].
      + split; [intros _|done]. intros Eq. apply Hz in Eq. lia.
      + change (behind st (vr_uh st) < behind st (vr_ur st)). lia.
    - assert (vr_ur st = vr_uh st) by (apply Hz; lia).
      destruct Hs as [->|[-> Ef]]; split; cbn; rewrite ?Ef; try done. }
  unfold stop_timer. destruct (timer_running st) eqn:Et; cbn [andb]; [|apply Hstart; auto].
  case_if; [by apply Hstart; auto|].
  assert (Hlt : behind st (vr_ux st) < behind st (vr_ur st)).
  { apply orb_false_iff in Heqb as [H1 H2]. apply Z.leb_gt in H1. rewrite Hmur, RX_MOD_BASE_behind in H1 by done.
    destruct (Z.leb_spec (behind st (vr_ux st)) (rx_window_size (rx_cfg st))); [lia|].
    apply andb_false_iff in H2 as [H2|H2].
    - apply negb_false_iff, inside_spec in H2 as [H2|H2]; [|lia|done..]. destruct (Ht eq_refl); [lia|done].
    - apply negb_false_iff, Z.eqb_eq in H2. rewrite H2 in *. lia. }
  unfold start_timer. rewrite Et. cbn [negb andb]. constructor; try done.
  rewrite Et. split; [intros _|done]. intros Eq. apply Hz in Eq. lia.
Qed.

Lemma read_sn_ok payload cfg h : rx_cfg_ok cfg ->
  rlc_um_read_data_pdu_header payload (rx_sn_field_length cfg) = Some h -> sn_ok cfg (sn h).
Proof.
  intros [_ Hm] Hs. unfold sn_ok. rewrite Hm. unfold rlc_um_read_data_pdu_header, sn_mod in *.
  destruct (decide (rx_sn_field_length cfg = size5bits)).
  - destruct (load payload 0) as [b0|]; cbn [mbind option_bind] in Hs; [|done].
    destruct (read_li _ _ _ _ _); cbn [mbind option_bind] in Hs; [|done]. injection Hs as <-. cbn [sn].
    apply (land_ones_bound 5). lia.
  - destruct (load payload 0) as [b0|]; cbn [mbind option_bind] in Hs; [|done].
    destruct (load payload 1) as [b1|]; cbn [mbind option_bind] in Hs; [|done].
    destruct (read_li _ _ _ _ _); cbn [mbind option_bind] in Hs; [|done]. injection Hs as <-. cbn [sn].
    pose proof (land_ones_bound 8 b1 ltac:(lia)) as Hb1. pose proof (land_ones_bound 2 b0 ltac:(lia)) as Hb0.
    change (Z.ones 8) with 255 in Hb1. change (Z.ones 2) with 3 in Hb0.
    rewrite Z.shiftl_mul_pow2 by lia. apply (lor_bound 10); lia.
Qed.

(** A PDU is stored: below [vr_uh], or [vr_uh] moves above it. *)
Lemma store_pdu_pre st s pdu : um_rx_inv st -> sn_ok (rx_cfg st) s ->
  RX_MOD_BASE st (vr_ur st) <= RX_MOD_BASE st s -> rx_window st !! s = None ->
  let st1 := set_window st (<[s := pdu]> (rx_window st)) in
  let st2 := if inside_reordering_window st1 s then st1 else set_uh st1 (next_sn st1 s) in
  rx_ranges st2 /\
  (forall k p, rx_window st2 !! k = Some p -> dist st2 k <= dist st2 (vr_ur st2)) /\
  dist st2 s <= rx_window_size (rx_cfg st2) /\
  (vr_uh st2 = vr_uh st \/
   vr_uh st2 = (s + 1) mod rx_mod (rx_cfg st) /\
   1 <= dist st2 (vr_uh st) <= rx_window_size (rx_cfg st) /\
   dist st2 (vr_uh st) <= dist st2 (vr_ur st) /\
   forall x, behind st x < rx_window_size (rx_cfg st) ->
     (s = vr_uh st /\ behind st2 x <= rx_window_size (rx_cfg st)) \/ s <> vr_uh st).
Proof.
  intros [Hr Hux Hlow Hk Ht Htx] Hs Hge Hno st1 st2. pose proof Hr as [Hc Hur Huh Hko].
  assert (Hne : rx_window st1 <> ∅) by (unfold st1; cbn; apply insert_non_empty).
  pose proof (inside_spec st1 s Hc Huh Hs) as Hin. change (behind st1 s) with (behind st s) in Hin.
  change (rx_cfg st1) with (rx_cfg st) in *.
  assert (Hkeys : forall k p, rx_window st1 !! k = Some p -> sn_ok (rx_cfg st) k /\
            (k = s \/ 0 < behind st k < behind st (vr_ur st))).
  { unfold st1. cbn. intros k p [[-> _]|[_ Hp]]%lookup_insert_Some; [by auto|]. eauto. }
  rewrite !RX_MOD_BASE_behind in Hge by done.
  pose proof (behind_nonneg st s Hc). pose proof (window_size_bounds _ Hc) as Hws.
  rewrite (proj2 (Z.leb_le (behind st (vr_ur st)) _) Hlow) in Hge.
  unfold st2 in *. destruct (inside_reordering_window st1 s).
  - apply proj1 in Hin. specialize (Hin eq_refl). destruct Hin as [?|Hin]; [done|].
    rewrite (proj2 (Z.leb_le (behind st s) _)) in Hge by lia.
    assert (Hdb : forall x, sn_ok (rx_cfg st) x -> 0 < behind st x -> dist st1 x = behind st x).
    { intros x Hx Hpos. change (dist st1 x) with (dist st x). destruct (dist_behind st x Hc Huh Hx); lia. }
    change (rx_cfg st1) with (rx_cfg st). split_and!; [constructor; try done; by intros; eapply Hkeys| | |by left].
    + intros k p [Hsk Hkk]%Hkeys. change (vr_ur st1) with (vr_ur st).
      destruct Hkk as [->|Hkk]; rewrite !Hdb by (done || lia); lia.
    + rewrite Hdb by (done || lia). lia.
  - assert (Hout : behind st s = 0 \/ rx_window_size (rx_cfg st) < behind st s).
    { destruct (Z.eq_dec (behind st s) 0); [by left|right].
      destruct (Z.lt_ge_cases (rx_window_size (rx_cfg st)) (behind st s)); [done|].
      discriminate (proj2 Hin). right. lia. }
    rewrite next_sn_eq by done. set (stx := set_uh st1 _).
    assert (Hd : forall x, dist stx x = ((s + 1) mod rx_mod (rx_cfg st) - 1 - x) mod rx_mod (rx_cfg st) + 1) by done.
    split_and!.
    + constructor; [done..|by apply sn_ok_mod|]. intros; by eapply Hkeys.
    + intros k p [Hsk Hkk]%Hkeys. rewrite !Hd. change (vr_ur stx) with (vr_ur st).
      unfold behind, sn_ok in *. clear -Hkk Hout Hc Hws Hsk Hs Hur Huh Hlow. cfg_cases Hc; mod_lia.
    + rewrite Hd. unfold sn_ok in *. change (rx_cfg stx) with (rx_cfg st). clear -Hc Hs. cfg_cases Hc; mod_lia.
    + right. rewrite !Hd. change (behind stx) with (fun x => ((s + 1) mod rx_mod (rx_cfg st) - x) mod rx_mod (rx_cfg st)).
      unfold behind, sn_ok in *. clear -Hout Hc Hws Hs Hur Huh Hlow. split_and!; try done.
      * cfg_cases Hc; mod_lia.
      * cfg_cases Hc; mod_lia.
      * cfg_cases Hc; mod_lia.
      * intros x Hx. destruct (Z.eq_dec s (vr_uh st)); [left; split; [done|]|by right]. cfg_cases Hc; mod_lia.
Qed.

Lemma handle_data_pdu_inv st payload st' :
  um_rx_inv st -> handle_data_pdu st payload = Some st' -> um_rx_inv st'.
Proof.
  intros Hi Hs. pose proof Hi as [Hr Hux Hlow Hk Ht Htx]. pose proof Hr as [Hc Hur Huh Hko].
  unfold handle_data_pdu in Hs.
  destruct (rlc_um_read_data_pdu_header _ _) as [h|] eqn:Eh; cbn [mbind option_bind] in Hs; [|done].
  pose proof (read_sn_ok _ _ _ Hc Eh) as Hsn.
  rewrite RX_MOD_BASE_lower in Hs by done.
  destruct (Z.leb_spec 0 (RX_MOD_BASE st (sn h))) as [_|Hneg];
    [|rewrite RX_MOD_BASE_eq in Hneg by done; clear -Hneg Hc; cfg_cases Hc; mod_lia].
  cbn [andb] in Hs.
  destruct (Z.ltb_spec (RX_MOD_BASE st (sn h)) (RX_MOD_BASE st (vr_ur st))) as [|Hge]; [by injection Hs as <-|].
  destruct (rx_window st !! sn h) as [?|] eqn:Ew; [by injection Hs as <-|].
  destruct (SDU_ROOM <? zlen payload); [done|].
  destruct (split_pdu _ _) as [[? buf]|]; cbn [mbind option_bind] in Hs; [|done].
  destruct (store_pdu_pre st (sn h) (h, buf) Hi Hsn Hge Ew) as (Hr2 & Hk2 & Hd2 & Huh2).
  set (st1 := set_window st _) in *. set (st2 := if inside_reordering_window _ _ then _ else _) in *.
  assert (Hf : rx_cfg st2 = rx_cfg st /\ rx_window st2 = <[sn h := (h, buf)]> (rx_window st) /\
    vr_ur st2 = vr_ur st /\ vr_ux st2 = vr_ux st /\ timer_running st2 = timer_running st).
  { unfold st2. by destruct (inside_reordering_window _ _). }
  clearbody st2. destruct Hf as (F1 & F2 & F3 & F4 & F5).
  destruct (reassemble_rx_sdus st2) as [st3|] eqn:E3; cbn [mbind option_bind] in Hs; [|done].
  apply reassemble_spec in E3; [|done..|]; [|left; exists (sn h), (h, buf); by rewrite F2, lookup_insert_eq].
  destruct E3 as [R1 R2 R3 R4 R5 R6 R7 R8 R9 R10].
  destruct (moves_measure st2 st3 R2 R4) as [D B]. rewrite F1 in *.
  injection Hs as <-. apply timers_inv; rewrite ?B, ?R2, ?R3, ?F4, ?R5, ?F5; try done.
  intros Hrun. specialize (Htx Hrun). destruct Huh2 as [E|(E & Hd & Hdu & Hx)].
  - left. unfold behind in *. rewrite F1, E. lia.
  - destruct (Hx (vr_ux st) ltac:(lia)) as [[_ ?]|Hne]; [by left|right].
    assert (Hmiss : dist st2 (vr_uh st) <= behind st2 (vr_ur st3)).
    { apply R10; [done| |lia|by rewrite F3]. rewrite F2, lookup_insert_ne by done.
      destruct (rx_window st !! vr_uh st) as [p|] eqn:Ep; [|done].
      apply Hk in Ep. rewrite (proj2 (behind_0 st (vr_uh st) Hc Huh Huh) eq_refl) in Ep. lia. }
    assert (Hds : dist st2 (sn h) = 1 /\ 1 < dist st2 (vr_uh st)).
    { unfold dist, sn_ok in *. rewrite F1, E in *. clear -Hc Hsn Huh Hne. cfg_cases Hc; mod_lia. }
    intros He. specialize (R9 (sn h) ltac:(lia)). by rewrite He, F2, lookup_insert_eq in R9.
Qed.

(** With an empty window there is nothing to do. *)
Lemma reassemble_empty st st' : rx_window st = ∅ -> reassemble_rx_sdus st = Some st' -> same_window st st'.
Proof.
  intros Hw Hs. unfold reassemble_rx_sdus in Hs.
  set (st0 := with_buffer st) in Hs.
  assert (Hf : same_window st st0) by (unfold st0, with_buffer; destruct (rx_sdu _); same_window).
  clearbody st0. assert (Hw0 : rx_window st0 = ∅) by (by rewrite (sw_win _ _ Hf)).
  assert (Hin : forall x, inside_reordering_window st0 x = true).
  { intros x. unfold inside_reordering_window. by rewrite bool_decide_true, orb_true_r. }
  destruct (Z.to_nat _); cbn [lower_edge] in Hs; rewrite Hin in Hs; cbn [mbind option_bind] in Hs;
    destruct (size _); cbn [update_loop] in Hs; rewrite Hw0, lookup_empty in Hs; by injection Hs as <-.
Qed.

(** The number of turns the loop of [timer_expired] has left. *)
Lemma expire_step st : rx_ranges st -> sn_ok (rx_cfg st) (vr_ux st) ->
  behind st (vr_ur st) <= rx_window_size (rx_cfg st) ->
  (forall k p, rx_window st !! k = Some p -> 0 < behind st k < behind st (vr_ur st)) ->
  behind st (vr_ux st) < behind st (vr_ur st) ->
  forall st', reassemble_rx_sdus (set_ur st (next_sn st (vr_ur st))) = Some st' ->
  rx_ranges st' /\ rx_cfg st' = rx_cfg st /\ vr_ux st' = vr_ux st /\ vr_uh st' = vr_uh st /\
  timer_running st' = timer_running st /\ behind st (vr_ur st') < behind st (vr_ur st) /\
  (forall k p, rx_window st' !! k = Some p -> 0 < behind st k < behind st (vr_ur st')).
Proof.
  intros Hr Hux Hlow Hk Hlt st' Hs. pose proof Hr as [Hc Hur Huh Hko].
  rewrite next_sn_eq in Hs by done. set (ur' := (vr_ur st + 1) mod rx_mod (rx_cfg st)) in Hs.
  pose proof (behind_nonneg st (vr_ux st) Hc).
  assert (Hb : behind st ur' = behind st (vr_ur st) - 1) by (apply behind_next; [done..|lia]).
  assert (Hr1 : rx_ranges (set_ur st ur')) by (constructor; [done|by apply sn_ok_mod|done..]).
  assert (Hkn : forall k p, rx_window st !! k = Some p -> 0 < behind st k <= behind st ur').
  { intros k p Hp. pose proof (Hk k p Hp). lia. }
  destruct (decide (behind st ur' = 0)) as [E0|E0].
  - assert (Hem : rx_window st = ∅).
    { apply map_eq. intros k. rewrite lookup_empty. destruct (rx_window st !! k) eqn:Ep; [|done].
      apply Hkn in Ep. lia. }
    assert (same_window (set_ur st ur') st') as [S1 S2 S3 S4 S5 S6].
    { by apply reassemble_empty. }
    cbn in *. split_and!; try done.
    + destruct Hr1. constructor; rewrite ?S1, ?S2, ?S3, ?S5; done.
    + rewrite S3. lia.
    + intros k p. by rewrite S2, Hem, lookup_empty.
  - destruct (dist_behind st ur' Hc Huh (sn_ok_mod _ _ Hc)) as [|Hdb]; [lia|].
    apply reassemble_spec in Hs; [|done| |].
    + destruct Hs as [R1 R2 R3 R4 R5 R6 R7 R8 R9 R10].
      change (behind (set_ur st ur')) with (behind st) in *. change (dist (set_ur st ur')) with (dist st) in *.
      cbn in *. split_and!; try done. lia.
    + cbn. change (dist (set_ur st ur')) with (dist st). intros k p Hp. pose proof (Hkn k p Hp).
      destruct (dist_behind st k Hc Huh (Hko k p Hp)); lia.
    + right. cbn. change (dist (set_ur st ur')) with (dist st). lia.
Qed.

Lemma MOD_lt st : rx_cfg_ok (rx_cfg st) -> behind st (vr_ur st) <= rx_window_size (rx_cfg st) ->
  forall x, behind st x <= rx_window_size (rx_cfg st) ->
  RX_MOD_BASE st (vr_ur st) < RX_MOD_BASE st x <-> behind st x < behind st (vr_ur st).
Proof.
  intros Hc Hl x Hx. rewrite !RX_MOD_BASE_behind by done.
  rewrite !(proj2 (Z.leb_le _ _)) by done. lia.
Qed.

Lemma expire_loop_spec fuel : forall st st', rx_ranges st -> sn_ok (rx_cfg st) (vr_ux st) ->
  behind st (vr_ux st) <= rx_window_size (rx_cfg st) ->
  behind st (vr_ur st) <= rx_window_size (rx_cfg st) ->
  (forall k p, rx_window st !! k = Some p -> 0 < behind st k < behind st (vr_ur st)) ->
  expire_loop fuel st = Some st' ->
  rx_ranges st' /\ rx_cfg st' = rx_cfg st /\ vr_ux st' = vr_ux st /\ vr_uh st' = vr_uh st /\
  timer_running st' = timer_running st /\ behind st (vr_ur st') <= behind st (vr_ur st) /\
  (forall k p, rx_window st' !! k = Some p -> 0 < behind st k < behind st (vr_ur st')).
Proof.
  induction fuel as [|fuel IH]; intros st st' Hr Hux Hlux Hlow Hk Hs; pose proof (rr_cfg _ Hr) as Hc;
    cbn [expire_loop] in Hs;
    destruct (Z.ltb_spec (RX_MOD_BASE st (vr_ur st)) (RX_MOD_BASE st (vr_ux st))) as [Hlt|];
    try (injection Hs as <-; done); [done|].
  destruct (reassemble_rx_sdus _) as [st1|] eqn:E1; cbn [mbind option_bind] in Hs; [|done].
  apply expire_step in E1 as (R1 & R2 & R3 & R4 & R5 & R6 & R7); [|done..|by apply MOD_lt].
  destruct (moves_measure st st1 R2 R4) as [D B].
  destruct (IH st1 st') as (S1 & S2 & S3 & S4 & S5 & S6 & S7); rewrite ?B, ?R2, ?R3; try done; [lia|].
  rewrite B in *. split_and!; try done; [by rewrite S2|by rewrite S3|by rewrite S4|by rewrite S5|lia].
Qed.

Lemma timer_expired_inv st st' :
  um_rx_inv st -> timer_running st = true -> timer_expired st = Some st' -> um_rx_inv st'.
Proof.
  intros [Hr Hux Hlow Hk Ht Htx] Hrun Hs. unfold timer_expired in Hs. specialize (Htx Hrun).
  pose proof Hr as [Hc Hur Huh Hko].
  set (st1 := match rx_sdu _ with Some _ => _ | None => _ end) in Hs.
  assert (Hf : rx_cfg st1 = rx_cfg st /\ rx_window st1 = rx_window st /\ vr_ur st1 = vr_ur st /\
    vr_ux st1 = vr_ux st /\ vr_uh st1 = vr_uh st /\ timer_running st1 = false).
  { unfold st1. by destruct (rx_sdu _). }
  clearbody st1. destruct Hf as (F1 & F2 & F3 & F4 & F5 & F6).
  destruct (moves_measure st st1 F1 F5) as [D B].
  destruct (expire_loop _ st1) as [st2|] eqn:E2; cbn [mbind option_bind] in Hs; [|done].
  apply expire_loop_spec in E2 as (R1 & R2 & R3 & R4 & R5 & R6 & R7);
    rewrite ?B, ?F1, ?F2, ?F3, ?F4 in *; try done; [|constructor; rewrite ?F1, ?F2, ?F3, ?F5; done|lia].
  destruct (moves_measure st st2 ltac:(congruence) ltac:(congruence)) as [_ B2].
  injection Hs as <-.
  replace (if _ <? _ then _ else _) with (start_timer (stop_timer st2)).
  - apply timers_inv; rewrite ?B2, ?R2, ?R3, ?R5, ?F6; try done. lia.
  - unfold stop_timer. rewrite R5, F6. cbn [andb]. unfold start_timer. by rewrite R5, F6.
Qed.

(** ** The receiver as a state machine *)

(** What happens to a receiver: a PDU arrives, the reordering timer expires while
    it runs, the bearer is stopped. *)
Inductive um_rx_step : um_rx -> um_rx -> Prop :=
| step_pdu st payload st' : handle_data_pdu st payload = Some st' -> um_rx_step st st'
| step_timer st st' : timer_running st = true -> timer_expired st = Some st' -> um_rx_step st st'
| step_stop st st' : um_rx_stop st = Some st' -> um_rx_step st st'.

Lemma um_rx_inv_reset st : rx_cfg_ok (rx_cfg st) -> um_rx_inv (set_timer (um_rx_reset st) false).
Proof.
  intros Hc. assert (Hz : sn_ok (rx_cfg st) 0) by (unfold sn_ok; cfg_cases Hc; lia).
  constructor; cbn; try done. unfold behind. cbn. cfg_cases Hc; mod_lia.
Qed.

Lemma um_rx_step_inv st st' : um_rx_step st st' -> um_rx_inv st -> um_rx_inv st'.
Proof.
  intros Hs Hi. destruct Hs as [st payload st' Hs|st st' Hrun Hs|st st' Hs].
  - by eapply handle_data_pdu_inv.
  - by eapply timer_expired_inv.
  - unfold um_rx_stop in Hs. destruct (timer_running st) eqn:Et.
    + destruct (timer_expired _) as [st1|] eqn:E1; cbn [mbind option_bind] in Hs; [|done].
      injection Hs as <-. apply um_rx_inv_reset.
      assert (Ht : timer_expired (set_timer st false) = timer_expired st) by done.
      rewrite Ht in E1. eapply timer_expired_inv in E1; [|done..]. apply E1.
    + injection Hs as <-. apply um_rx_inv_reset, Hi.
Qed.

(** ** Termination of the loops *)

Lemma lower_edge_fuel f1 : forall f2 st, rx_ranges st ->
  dist st (vr_ur st) <= Z.of_nat f1 -> dist st (vr_ur st) <= Z.of_nat f2 ->
  lower_edge f1 st = lower_edge f2 st.
Proof.
  induction f1 as [|f1 IH]; intros [|f2] st Hr H1 H2;
    pose proof (inside_dist st Hr) as Hin; pose proof (window_size_bounds _ (rr_cfg _ Hr));
    cbn [lower_edge]; destruct (inside_reordering_window st (vr_ur st)); try done; try lia.
  destruct (lower_pdu st) as [st1|] eqn:E1; cbn [mbind option_bind]; [|done].
  pose proof (lower_pdu_turn _ _ E1) as Ht.
  assert (Hd : dist st1 (vr_ur st1) = dist st (vr_ur st) - 1).
  { rewrite (turn_dist _ _ _ Ht), (tn_ur _ _ Ht), next_sn_eq by apply Hr.
    apply dist_next; [apply Hr..|lia]. }
  apply IH; [by eapply turn_ranges|lia..].
Qed.

Lemma update_loop_fuel f1 : forall f2 st,
  (size (rx_window st) <= f1)%nat -> (size (rx_window st) <= f2)%nat ->
  update_loop f1 st = update_loop f2 st.
Proof.
  induction f1 as [|f1 IH]; intros [|f2] st H1 H2; cbn [update_loop]; try done;
    (destruct (rx_window st !! vr_ur st) as [[h buf]|] eqn:Ew; [|done]);
    (assert (Hpos : size (rx_window st) <> 0%nat);
     [intros E; apply map_size_empty_inv in E; by rewrite E, lookup_empty in Ew|]); try lia.
  destruct (update_pdu st h buf) as [st1|] eqn:E1; cbn [mbind option_bind]; [|done].
  apply update_pdu_turn in E1.
  assert (size (rx_window st1) < size (rx_window st))%nat; [|apply IH; lia].
  rewrite (tn_win _ _ E1). rewrite map_size_delete_Some by done. lia.
Qed.

Lemma expire_loop_fuel f1 : forall f2 st, rx_ranges st -> sn_ok (rx_cfg st) (vr_ux st) ->
  behind st (vr_ux st) <= rx_window_size (rx_cfg st) ->
  behind st (vr_ur st) <= rx_window_size (rx_cfg st) ->
  (forall k p, rx_window st !! k = Some p -> 0 < behind st k < behind st (vr_ur st)) ->
  behind st (vr_ur st) <= Z.of_nat f1 -> behind st (vr_ur st) <= Z.of_nat f2 ->
  expire_loop f1 st = expire_loop f2 st.
Proof.
  induction f1 as [|f1 IH]; intros [|f2] st Hr Hux Hlux Hlow Hk H1 H2; pose proof (rr_cfg _ Hr) as Hc;
    pose proof (behind_nonneg st (vr_ux st) Hc); cbn [expire_loop]; try done;
    (destruct (Z.ltb_spec (RX_MOD_BASE st (vr_ur st)) (RX_MOD_BASE st (vr_ux st))) as [Hlt|]; [|done]);
    apply MOD_lt in Hlt; try done; try lia.
  destruct (reassemble_rx_sdus _) as [st1|] eqn:E1; cbn [mbind option_bind]; [|done].
  apply expire_step in E1 as (R1 & R2 & R3 & R4 & R5 & R6 & R7); [|done..].
  destruct (moves_measure st st1 R2 R4) as [D B].
  apply IH; rewrite ?B, ?R2, ?R3; try done; lia.
Qed.

(** ** In-order reception *)

(** The receiver has handled every PDU below [n]; [p] is the part of an SDU that it
    has. *)
Record rx_sync (st : um_rx) (n : Z) (p : bytes) : Prop := {
  rs_cfg : rx_cfg_ok (rx_cfg st);
  rs_n : sn_ok (rx_cfg st) n;
  rs_win : rx_window st = ∅;
  rs_ur : vr_ur st = n;
  rs_uh : vr_uh st = n;
  rs_lost : pdu_lost st = false;
  rs_timer : timer_running st = false;
  rs_sdu : sdu_bytes st = p;
  rs_belongs : pdu_belongs_to_rx_sdu st = true
}.

Lemma rx_sync_init cfg : rx_cfg_ok cfg -> rx_sync (um_rx_init cfg) 0 [].
Proof.
  intros Hc. constructor; try done.
  - unfold sn_ok; cbn; cfg_cases Hc; lia.
  - unfold pdu_belongs_to_rx_sdu. cbn. by rewrite orb_true_r.
Qed.

(** The segments of a PDU with the pending part [p] in front of the first one. *)
Definition with_prefix (p : bytes) (segs : list bytes) : list bytes :=
  match segs with [] => [] | s :: rest => (p ++ s) :: rest end.

(** Effect of segments: [out] is delivered and [p'] is left. *)
Record absorbed (st st' : um_rx) (out : list bytes) (p' : bytes) : Prop := {
  ab_frame : same_window st st';
  ab_lost : pdu_lost st' = false;
  ab_out : delivered st' = delivered st ++ out;
  ab_left : sdu_bytes st' = p';
  ab_belongs : pdu_belongs_to_rx_sdu st' = true
}.

Lemma belongs_at st : vr_ur_in_rx_sdu st = vr_ur st -> pdu_belongs_to_rx_sdu st = true.
Proof. intros E. unfold pdu_belongs_to_rx_sdu. rewrite E, Z.eqb_refl. apply orb_true_r. Qed.

Lemma split_pdu_app a b : split_pdu (a ++ b) (zlen a) = Some (a, b).
Proof.
  unfold split_pdu. rewrite zlen_app. pose proof (zlen_nonneg b).
  destruct (Z.ltb_spec (zlen a + zlen b) (zlen a)); [lia|].
  by rewrite ztake_app_eq, zdrop_app_eq.
Qed.

Lemma sdu_append_ok st d : zlen (sdu_bytes st) + zlen d <= SDU_ROOM ->
  sdu_append st d = Some (set_sdu st (sdu_bytes st ++ d)).
Proof. intros. unfold sdu_append. destruct (Z.ltb_spec SDU_ROOM (zlen (sdu_bytes st) + zlen d)); [lia|done]. Qed.

Lemma update_segments_in_order fi_ full : forall i tail st p,
  sdu_bytes st = p -> pdu_lost st = false -> pdu_belongs_to_rx_sdu st = true ->
  (p = [] -> i = 0%nat -> rlc_um_start_aligned fi_ = true) ->
  Forall (fun s => zlen s <= SDU_ROOM) (with_prefix p full) ->
  exists st', update_segments fi_ i (map zlen full) (mjoin full ++ tail) st = Some (false, tail, st') /\
    absorbed st st' (with_prefix p full) (if decide (full = []) then p else []).
Proof.
  induction full as [|s full IH]; intros i tail st p Hp Hl Hb Hst Hsz; cbn [map mjoin list_join app].
  - exists st. split; [done|]. constructor; try done; cbn; by rewrite ?app_nil_r.
  - cbn [update_segments]. rewrite Hp. cbn [with_prefix] in Hsz. apply Forall_cons_1 in Hsz as [Hs Hrest].
    rewrite zlen_app in Hs.
    assert (Hno : (zlen p =? 0) && Nat.eqb i 0 && negb (rlc_um_start_aligned fi_) = false).
    { destruct (Z.eqb_spec (zlen p) 0) as [E|E]; [|done]. destruct (Nat.eqb_spec i 0); [|done].
      by rewrite Hst by (done || by apply zlen_0). }
    rewrite Hno. destruct (Z.ltb_spec (SDU_ROOM - zlen p) (zlen s)); [lia|].
    cbn [mjoin list_join]. rewrite <- app_assoc, split_pdu_app. cbn [mbind option_bind].
    rewrite sdu_append_ok by (rewrite Hp; lia). cbn [mbind option_bind].
    set (st2 := set_in_sdu _ _). assert (Hb2 : pdu_belongs_to_rx_sdu st2 = true) by (by apply belongs_at).
    rewrite Hb2. set (st3 := set_lost (deliver st2) false).
    destruct (IH (S i) tail st3 []) as (st' & Hu & [A1 A2 A3 A4 A5]); try done.
    { by destruct full. }
    exists st'. split; [exact Hu|]. constructor; try done.
    + etransitivity; [|exact A1]. split; done.
    + rewrite A3. unfold st3. cbn. rewrite <- app_assoc. cbn. f_equal. rewrite Hp. f_equal. by destruct full.
    + rewrite A4. by destruct (decide (full = [])).
Qed.

(** What a PDU with the segments [segs] delivers and leaves when [p] is pending. *)
Definition pdu_out (p : bytes) (segs : list bytes) (fi_ : Z) : list bytes :=
  if rlc_um_end_aligned fi_ then with_prefix p segs else removelast (with_prefix p segs).

Definition pdu_left (p : bytes) (segs : list bytes) (fi_ : Z) : bytes :=
  if rlc_um_end_aligned fi_ then [] else List.last (with_prefix p segs) [].

Lemma with_prefix_snoc p full x :
  with_prefix p (full ++ [x]) =
  with_prefix p full ++ [(if decide (full = []) then p else []) ++ x].
Proof. destruct full as [|s full]; [done|]. cbn. by destruct (decide _). Qed.

Lemma update_last_in_order fi_ n x st p :
  sdu_bytes st = p -> pdu_lost st = false ->
  (p = [] -> n = 0 -> rlc_um_start_aligned fi_ = true) ->
  zlen (p ++ x) <= SDU_ROOM ->
  exists st', update_last fi_ n x st = Some st' /\
    absorbed st st' (if rlc_um_end_aligned fi_ then [p ++ x] else [])
      (if rlc_um_end_aligned fi_ then [] else p ++ x) /\
    vr_ur_in_rx_sdu st' = vr_ur st.
Proof.
  intros Hp Hl Hst Hsz. unfold update_last. rewrite Hp.
  assert (Hno : (zlen p =? 0) && (n =? 0) && negb (rlc_um_start_aligned fi_) = false).
  { destruct (Z.eqb_spec (zlen p) 0) as [E|E]; [|done]. destruct (Z.eqb_spec n 0); [|done].
    by rewrite Hst by (done || by apply zlen_0). }
  rewrite Hno. rewrite zlen_app in Hsz. pose proof (zlen_nonneg p). pose proof (zlen_nonneg x).
  unfold SDU_ROOM in Hsz.
  rewrite !(proj2 (Z.ltb_lt _ SRSRAN_MAX_BUFFER_SIZE_BYTES)) by (bb_consts; lia). cbn [andb].
  rewrite sdu_append_ok by (rewrite Hp; unfold SDU_ROOM; lia). cbn [mbind option_bind].
  set (st2 := set_in_sdu _ _). assert (E2 : pdu_lost st2 = false) by done. rewrite E2. cbn [andb].
  destruct (rlc_um_end_aligned fi_); eexists; (split; [reflexivity|]); (split; [|done]); constructor; try done;
    try (by apply belongs_at); cbn; by rewrite ?Hp, ?app_nil_r.
Qed.

Lemma update_pdu_in_order st h p segs :
  sdu_bytes st = p -> pdu_lost st = false -> pdu_belongs_to_rx_sdu st = true ->
  segs <> [] -> li h = seg_li segs -> (p = [] -> rlc_um_start_aligned (fi h) = true) ->
  Forall (fun s => zlen s <= SDU_ROOM) (with_prefix p segs) -> rx_cfg_ok (rx_cfg st) ->
  exists st', update_pdu st h (mjoin segs) = Some st' /\ turn st st' /\
    pdu_lost st' = false /\ delivered st' = delivered st ++ pdu_out p segs (fi h) /\
    sdu_bytes st' = pdu_left p segs (fi h) /\ pdu_belongs_to_rx_sdu st' = true.
Proof.
  intros Hp Hl Hb Hne Hli Hst Hsz Hc. destruct segs as [|x full _] using rev_ind; [done|].
  rewrite with_prefix_snoc in Hsz. apply Forall_app in Hsz as [Hsf Hsx].
  apply Forall_cons_1 in Hsx as [Hsx _].
  unfold update_pdu. rewrite Hb, Hli, seg_li_snoc.
  replace (mjoin (full ++ [x])) with (mjoin full ++ x) by (rewrite join_app; cbn; by rewrite app_nil_r).
  destruct (update_segments_in_order (fi h) full 0 x st p) as (s1 & -> & [A1 A2 A3 A4 A5]); try done.
  { auto. }
  cbn [mbind option_bind].
  destruct (update_last_in_order (fi h) (N_li h) x s1 (if decide (full = []) then p else []))
    as (s2 & -> & [B1 B2 B3 B4 B5] & Hin); try done.
  { intros E HN. unfold N_li in HN. rewrite Hli, seg_li_snoc in HN. destruct full as [|s full].
    - by apply Hst.
    - cbn [map] in HN. rewrite zlen_cons in HN. pose proof (zlen_nonneg (map zlen full)). lia. }
  cbn [mbind option_bind]. eexists. split; [reflexivity|].
  destruct A1, B1. split_and!; try done.
  - split; cbn; unfold next_sn; cbn; congruence.
  - change (delivered s2 = delivered st ++ pdu_out p (full ++ [x]) (fi h)).
    rewrite B3, A3. unfold pdu_out. rewrite with_prefix_snoc, removelast_snoc.
    destruct (rlc_um_end_aligned (fi h)); [by rewrite app_assoc|by rewrite app_nil_r].
  - change (sdu_bytes s2 = pdu_left p (full ++ [x]) (fi h)). rewrite B4. unfold pdu_left.
    by rewrite with_prefix_snoc, List.last_last.
  - unfold pdu_belongs_to_rx_sdu, next_sn. cbn. rewrite Hin, sw_ur1, Z.eqb_refl. done.
Qed.

(** A single PDU, at [vr_ur], inside the window. *)
Lemma reassemble_single st h buf st' :
  rx_window st !! vr_ur st = Some (h, buf) -> inside_reordering_window st (vr_ur st) = true ->
  update_pdu (with_buffer st) h buf = Some st' -> rx_window st' = ∅ ->
  reassemble_rx_sdus st = Some st'.
Proof.
  intros Hw Hin Hu He. unfold reassemble_rx_sdus. set (st0 := with_buffer st) in *.
  assert (E : inside_reordering_window st0 (vr_ur st0) = true /\ rx_window st0 !! vr_ur st0 = Some (h, buf)).
  { unfold st0, with_buffer. by destruct (rx_sdu st). }
  destruct E as [E1 E2].
  assert (Hl : forall f, lower_edge f st0 = Some st0) by (intros [|f]; cbn [lower_edge]; by rewrite E1).
  rewrite Hl. cbn [mbind option_bind].
  destruct (size (rx_window st0)) as [|f] eqn:Es.
  { apply map_size_empty_inv in Es. by rewrite Es, lookup_empty in E2. }
  cbn [update_loop]. rewrite E2, Hu. cbn [mbind option_bind].
  destruct f; cbn [update_loop]; by rewrite He, lookup_empty.
Qed.

(** The next PDU in order is handled at once. *)
Lemma handle_in_order st n p segs h :
  rx_sync st n p -> umd_header_ok h -> sn h = n -> sn_size h = rx_sn_field_length (rx_cfg st) ->
  segs <> [] -> li h = seg_li segs -> (p = [] -> rlc_um_start_aligned (fi h) = true) ->
  Forall (fun s => zlen s <= SDU_ROOM) (with_prefix p segs) ->
  zlen (umd_header_bytes h ++ mjoin segs) <= SDU_ROOM ->
  exists st', handle_data_pdu st (umd_header_bytes h ++ mjoin segs) = Some st' /\
    rx_cfg st' = rx_cfg st /\
    rx_sync st' ((n + 1) mod rx_mod (rx_cfg st)) (pdu_left p segs (fi h)) /\
    delivered st' = delivered st ++ pdu_out p segs (fi h).
Proof.
  intros [Hc Hn Hw Hur Huh Hl Ht Hp Hb] Hok Hsn Hss Hne Hli Hst Hsz Hroom.
  unfold handle_data_pdu. rewrite <- Hss, read_umd_header_bytes by done. cbn [mbind option_bind].
  rewrite Hsn, Hur, Z.ltb_irrefl, andb_false_r, Hw, lookup_empty.
  destruct (Z.ltb_spec SDU_ROOM (zlen (umd_header_bytes h ++ mjoin segs))); [lia|].
  rewrite <- zlen_umd_header_bytes, split_pdu_app. cbn [mbind option_bind].
  set (st1 := set_window st _). pose proof (window_size_bounds _ Hc) as Hws.
  assert (Hout : inside_reordering_window st1 n = false).
  { apply not_true_is_false. intros E. apply inside_spec in E as [E|E]; try done.
    - unfold behind in E. cbn in E. rewrite Huh, Z.sub_diag, Z.mod_0_l in E; lia.
    - cbn. by rewrite Huh. }
  rewrite Hout, next_sn_eq by done. change (rx_cfg st1) with (rx_cfg st). set (n' := (n + 1) mod rx_mod (rx_cfg st)).
  set (st2 := set_uh st1 n'). assert (Hn' : sn_ok (rx_cfg st) n') by (by apply sn_ok_mod).
  remember (with_buffer st2) as st0 eqn:E0.
  assert (Hf : same_window st2 st0 /\ pdu_lost st0 = false /\ sdu_bytes st0 = p /\
    pdu_belongs_to_rx_sdu st0 = true /\ delivered st0 = delivered st).
  { rewrite E0. unfold with_buffer. destruct (rx_sdu st2) eqn:Es; cbn in Es; split_and!; try done.
    cbn. by rewrite <- Hp; unfold sdu_bytes; rewrite Es. }
  destruct Hf as (Hf & Hl0 & Hp0 & Hb0 & Hd0).
  destruct Hf as [F1 F2 F3 F4 F5 F6]. cbn in F1, F2, F3, F4, F5, F6.
  destruct (update_pdu_in_order st0 h p segs) as (st3 & Hu & [T1 T2 T3 T4 T5 T6] & Hl3 & Hd3 & Hp3 & Hb3);
    try done; [by rewrite F1|].
  assert (Hw3 : rx_window st3 = ∅).
  { rewrite T2, F2, F3, Hur. by rewrite delete_insert_eq, delete_empty. }
  assert (Hur3 : vr_ur st3 = n') by (rewrite T3, next_sn_eq by (by rewrite F1); by rewrite F1, F3, Hur).
  rewrite (reassemble_single st2 h (mjoin segs) st3); try done; [..|by rewrite <- E0].
  2: { change (vr_ur st2) with (vr_ur st). rewrite Hur. apply lookup_insert_eq. }
  2: { change (vr_ur st2) with (vr_ur st). rewrite Hur. apply inside_spec; try done.
       right. change (behind st2 n) with ((n' - n) mod rx_mod (rx_cfg st)).
       change (rx_cfg st2) with (rx_cfg st). unfold n', sn_ok in *. clear -Hc Hn. cfg_cases Hc; mod_lia. }
  cbn [mbind option_bind].
  assert (Huh3 : vr_uh st3 = n') by congruence. assert (Ht3 : timer_running st3 = false) by congruence.
  assert (Hstop : start_timer (stop_timer st3) = st3).
  { unfold stop_timer. rewrite Ht3. cbn [andb]. unfold start_timer. by rewrite Hur3, Huh3, Z.ltb_irrefl, andb_false_r. }
  rewrite Hstop. exists st3. split_and!; try done; [congruence| |by rewrite Hd3, Hd0].
  assert (Hc3 : rx_cfg st3 = rx_cfg st) by congruence. constructor; rewrite ?Hc3; done.
Qed.

(** ** Properties *)

(** C27: invariant of the receiver.  Whatever PDUs arrive, in whatever order, and
    whenever the reordering timer expires or the bearer is stopped, the state
    variables stay sequence numbers, [vr_ur] stays at most a window behind [vr_uh],
    the stored PDUs lie strictly between the two, and the reordering timer runs
    exactly when a PDU is missing, with [vr_ux] above [vr_ur]. *)
Theorem um_rx_invariant cfg st :
  rx_cfg_ok cfg -> rtc um_rx_step (um_rx_init cfg) st -> um_rx_inv st.
Proof.
  intros Hc Hs. remember (um_rx_init cfg) as st0 eqn:E0.
  assert (Hi : um_rx_inv st0) by (rewrite E0; by apply um_rx_inv_init). clear E0.
  induction Hs as [|a b c Hab _ IH]; [done|]. apply IH. by eapply um_rx_step_inv.
Qed.

(** PDU 5 arrives first. *)
Definition example_gap : option um_rx := handle_data_pdu (um_rx_init mch_config) [0x05; 1; 2].

Lemma um_rx_invariant_witness :
  match example_gap with
  | Some st => um_rx_inv st /\ timer_running st = true /\ vr_ur st = 0 /\ vr_uh st = 6
  | None => False
  end.
Proof.
  destruct example_gap as [st|] eqn:E; [|vm_compute in E; discriminate E].
  split.
  - unfold example_gap in E. apply (um_rx_invariant mch_config st); [split; reflexivity|].
    apply rtc_once. apply (step_pdu _ [0x05; 1; 2]). exact E.
  - vm_compute in E. injection E as <-. split_and!; reflexivity.
Defined.

(** C35: the loops of the receiver terminate.  More turns than the model allows
    them (the modulus for the lower edge and for the timer, the number of stored
    PDUs for the update of [vr_ur]) never change their result. *)
Theorem um_rx_loops_terminate st (f : nat) :
  um_rx_inv st ->
  (rx_mod (rx_cfg st) <= Z.of_nat f ->
     lower_edge f st = lower_edge (Z.to_nat (rx_mod (rx_cfg st))) st) /\
  ((size (rx_window st) <= f)%nat -> update_loop f st = update_loop (size (rx_window st)) st) /\
  (timer_running st = true -> rx_mod (rx_cfg st) <= Z.of_nat f ->
     expire_loop f st = expire_loop (Z.to_nat (rx_mod (rx_cfg st))) st).
Proof.
  intros [Hr Hux Hlow Hk Ht Htx]. pose proof (rr_cfg _ Hr) as Hc.
  pose proof (behind_nonneg st (vr_ur st) Hc).
  assert (dist st (vr_ur st) <= rx_mod (rx_cfg st)).
  { destruct (dist_behind st (vr_ur st) Hc (rr_uh _ Hr) (rr_ur _ Hr)); lia. }
  split_and!.
  - intros Hf. apply lower_edge_fuel; [done|lia..].
  - intros Hf. by apply update_loop_fuel.
  - intros Hrun Hf. apply expire_loop_fuel; try done; [specialize (Htx Hrun)| |]; lia.
Qed.

Lemma um_rx_loops_terminate_witness :
  match example_gap with
  | Some st => expire_loop 99 st = expire_loop (Z.to_nat (rx_mod (rx_cfg st))) st
  | None => False
  end.
Proof.
  destruct example_gap as [st|] eqn:E; [|vm_compute in E; discriminate E].
  assert (Hi : um_rx_inv st).
  { unfold example_gap in E. eapply handle_data_pdu_inv; [|exact E]. apply um_rx_inv_init. split; reflexivity. }
  destruct (um_rx_loops_terminate st 99 Hi) as (_ & _ & He). apply He.
  - vm_compute in E. injection E as <-. reflexivity.
  - vm_compute in E. injection E as <-. cbn. lia.
Defined.

(** The check before the last segment is copied compares with the size of the
    whole block and not with the room of the SDU buffer: two PDUs of 6500 bytes
    each, the second continuing the SDU of the first, are written past its end. *)
Theorem um_rx_last_segment_overflows :
  match handle_data_pdu (um_rx_init mch_config) (0x40 :: repeat 1 (Z.to_nat 6500)) with
  | Some st => zlen (sdu_bytes st) = 6500 /\ handle_data_pdu st (0xC1 :: repeat 2 (Z.to_nat 6500)) = None
  | None => False
  end.
Proof. vm_compute. split; reflexivity. Qed.

(** PDUs 1 and 3 arrive, 0 and 2 are missing, and the bearer is reestablished. *)
Definition example_reestablished : option um_rx :=
  st1 ← handle_data_pdu (um_rx_init mch_config) [0x01; 7];
  st2 ← handle_data_pdu st1 [0x03; 8];
  um_rx_reestablish st2.

(** [reestablish] can leave the reordering timer running on the reset state:
    [timer_expired] restarts it when a second gap is left, and only [stop] stops
    it.  When it expires before a PDU arrives, an SDU whose parts all arrive in order
    afterwards is lost. *)
Theorem um_reestablish_leaves_timer :
  match example_reestablished with
  | Some st => timer_running st = true /\ vr_ur st = 0 /\ vr_uh st = 0 /\
      (* the SDU [1; 2] in two PDUs *)
      delivered <$> (st1 ← timer_expired st; st2 ← handle_data_pdu st1 [0x40; 1];
                     handle_data_pdu st2 [0x81; 2]) = Some (delivered st)
  | None => False
  end.
Proof. vm_compute. split_and!; reflexivity. Qed.
