(* ===== verification/RlcUm.v ===== *)
(** * RLC UM entity

    [rlc_um_base] of [lib/src/rlc/rlc_um_base.cc] and [rlc_um_lte::configure] of
    [lib/src/rlc/rlc_um_lte.cc]: the transmitter and the receiver behind the
    interfaces of PDCP and MAC, with the enable flags and the metrics.  Two entities
    connected by a channel that delivers PDUs in order are shown to implement a
    first-in first-out transport of SDUs. *)

From stdpp Require Import base list gmap numbers.
From S2P Require Import Prelude ByteBuffer CircularBuffer RlcUmHeader RlcUmTx RlcUmRx.

Local Open Scope Z_scope.

(** The metrics written by the entity itself; those of the receiver are part of
    [um_rx]. *)
Record um_metrics := mk_um_metrics {
  num_tx_sdus : Z;
  num_tx_sdu_bytes : Z;
  num_lost_sdus : Z;
  num_tx_pdus : Z;
  num_tx_pdu_bytes : Z;
  num_rx_pdus : Z;
  num_rx_pdu_bytes : Z
}.

(** The pointers to the transmitter and the receiver are null until [configure]. *)
Record rlc_um (Q : Type) := mk_rlc_um {
  um_the_tx : option (um_tx Q);
  um_the_rx : option um_rx;
  tx_enabled : bool;
  rx_enabled : bool;
  um_the_metrics : um_metrics
}.
Arguments mk_rlc_um {Q}.
Arguments um_the_tx {Q}.
Arguments um_the_rx {Q}.
Arguments tx_enabled {Q}.
Arguments rx_enabled {Q}.
Arguments um_the_metrics {Q}.

Section Entity.
Context {Q : Type} `{SduQueue Q}.
Implicit Types e : rlc_um Q.

Definition rlc_um_new : rlc_um Q := mk_rlc_um None None false false (mk_um_metrics 0 0 0 0 0 0 0).

Definition set_tx e tx : rlc_um Q :=
  mk_rlc_um (Some tx) (um_the_rx e) (tx_enabled e) (rx_enabled e) (um_the_metrics e).
Definition set_rx e rx : rlc_um Q :=
  mk_rlc_um (um_the_tx e) (Some rx) (tx_enabled e) (rx_enabled e) (um_the_metrics e).
Definition set_metrics e m : rlc_um Q :=
  mk_rlc_um (um_the_tx e) (um_the_rx e) (tx_enabled e) (rx_enabled e) m.
Definition set_tx_enabled e b : rlc_um Q :=
  mk_rlc_um (um_the_tx e) (um_the_rx e) b (rx_enabled e) (um_the_metrics e).

(** [rlc_um_lte_rx::configure]: a zero modulus is refused; the timer is valid. *)
Definition um_rx_configure (cfg : rlc_um_config_t) (rx : um_rx) : bool * um_rx :=
  let rx1 := mk_um_rx cfg (rx_window rx) (rx_sdu rx) (vr_ur_in_rx_sdu rx) (vr_ur rx) (vr_ux rx)
               (vr_uh rx) (pdu_lost rx) (timer_running rx) (num_rx_sdus rx) (num_rx_sdu_bytes rx)
               (num_lost_pdus rx) (delivered rx) in
  if rx_mod cfg =? 0 then (false, rx1) else (true, rx1).

(** [rlc_um_lte::configure]: a new receiver, then a new transmitter, whose queue has
    128 places before its [configure]; both are enabled when both accept.  [resized n]
    is a new queue of [n] places. *)
Definition rlc_um_configure (cfg : rlc_config_t) (resized : Z -> Q) e : bool * rlc_um Q :=
  let '(ok_rx, rx) := um_rx_configure cfg (um_rx_init cfg) in
  let e1 := set_rx e rx in
  if negb ok_rx then (false, e1)
  else
    let '(ok_tx, tx) := um_tx_configure cfg resized (mk_um_tx cfg (resized 128) None 0) in
    let e2 := set_tx e1 tx in
    if negb ok_tx then (false, e2)
    else (true, mk_rlc_um (um_the_tx e2) (um_the_rx e2) true true (um_the_metrics e2)).

Definition rlc_um_stop e : option (rlc_um Q) :=
  e1 ← match um_the_tx e with
       | Some tx => tx' ← um_tx_stop tx; Some (set_tx e tx')
       | None => Some e
       end;
  match um_the_rx e1 with
  | Some rx => rx' ← um_rx_stop rx; Some (set_rx e1 rx')
  | None => Some e1
  end.

Definition rlc_um_reestablish e : option (rlc_um Q) :=
  let e0 := set_tx_enabled e false in
  e1 ← match um_the_tx e0 with
       | Some tx => tx' ← um_tx_stop tx; Some (set_tx e0 tx')
       | None => Some e0
       end;
  e2 ← match um_the_rx e1 with
       | Some rx => rx' ← um_rx_reestablish rx; Some (set_rx e1 rx')
       | None => Some e1
       end;
  Some (set_tx_enabled e2 true).

(** [empty_queue] of the entity. *)
Definition rlc_um_empty_queue e : option (rlc_um Q) :=
  match um_the_tx e with
  | Some tx => tx' ← um_empty_queue tx; Some (set_tx e tx')
  | None => Some e
  end.

Definition count_lost_sdu (m : um_metrics) : um_metrics :=
  mk_um_metrics (num_tx_sdus m) (num_tx_sdu_bytes m) (u32 (num_lost_sdus m + 1)) (num_tx_pdus m)
    (num_tx_pdu_bytes m) (num_rx_pdus m) (num_rx_pdu_bytes m).

Definition count_tx_sdu (m : um_metrics) (n : Z) : um_metrics :=
  mk_um_metrics (u32 (num_tx_sdus m + 1)) (u64 (num_tx_sdu_bytes m + n)) (num_lost_sdus m)
    (num_tx_pdus m) (num_tx_pdu_bytes m) (num_rx_pdus m) (num_rx_pdu_bytes m).

Definition count_tx_pdu (m : um_metrics) (n : Z) : um_metrics :=
  mk_um_metrics (num_tx_sdus m) (num_tx_sdu_bytes m) (num_lost_sdus m) (u32 (num_tx_pdus m + 1))
    (u64 (num_tx_pdu_bytes m + n)) (num_rx_pdus m) (num_rx_pdu_bytes m).

Definition count_rx_pdu (m : um_metrics) (n : Z) : um_metrics :=
  mk_um_metrics (num_tx_sdus m) (num_tx_sdu_bytes m) (num_lost_sdus m) (num_tx_pdus m)
    (num_tx_pdu_bytes m) (u32 (num_rx_pdus m + 1)) (u64 (num_rx_pdu_bytes m + n)).

(** [write_sdu]. *)
Definition rlc_um_write_sdu e (sdu : bytes) : option (rlc_um Q) :=
  match um_the_tx e with
  | Some tx =>
      if negb (tx_enabled e) then Some (set_metrics e (count_lost_sdu (um_the_metrics e)))
      else
        '(ok, tx') ← um_try_write_sdu tx (Some sdu);
        let e1 := set_tx e tx' in
        Some (set_metrics e1 (if (ok : bool) then count_tx_sdu (um_the_metrics e1) (zlen sdu)
                              else count_lost_sdu (um_the_metrics e1)))
  | None => Some (set_metrics e (count_lost_sdu (um_the_metrics e)))
  end.

(** [discard_sdu]: not implemented by the transmitter, only counted. *)
Definition rlc_um_discard_sdu e : rlc_um Q :=
  match um_the_tx e with
  | Some _ => if tx_enabled e then set_metrics e (count_lost_sdu (um_the_metrics e)) else e
  | None => e
  end.

Definition rlc_um_has_data e : bool :=
  match um_the_tx e with Some tx => um_has_data tx | None => false end.

Definition rlc_um_get_buffer_state e : Z :=
  match um_the_tx e with Some tx => um_get_buffer_state tx | None => 0 end.

(** [read_pdu]: the bytes written to [payload]. *)
Definition rlc_um_read_pdu e (mem : bytes) (nof_bytes : Z) : option (bytes * rlc_um Q) :=
  match um_the_tx e with
  | Some tx =>
      if tx_enabled e then
        '(out, tx') ← build_data_pdu tx mem nof_bytes;
        let e1 := set_tx e tx' in
        Some (out, if 0 <? zlen out then set_metrics e1 (count_tx_pdu (um_the_metrics e1) (zlen out)) else e1)
      else Some ([], e)
  | None => Some ([], e)
  end.

(** [write_pdu]. *)
Definition rlc_um_write_pdu e (payload : bytes) : option (rlc_um Q) :=
  match um_the_rx e with
  | Some rx =>
      if rx_enabled e then
        let e1 := set_metrics e (count_rx_pdu (um_the_metrics e) (zlen payload)) in
        rx' ← handle_data_pdu rx payload;
        Some (set_rx e1 rx')
      else Some e
  | None => Some e
  end.

(** ** Two entities and a channel *)

(** What happens at the sender: PDCP writes an SDU, or MAC grants [n] bytes (with
    the block [mem] of the buffer pool) and the PDU, if any, is received. *)
Inductive link_op := LWrite (s : bytes) | LGrant (mem : bytes) (n : Z).

Definition link_step (ab : rlc_um Q * rlc_um Q) (o : link_op) : option (rlc_um Q * rlc_um Q) :=
  let '(a, b) := ab in
  match o with
  | LWrite s => a' ← rlc_um_write_sdu a s; Some (a', b)
  | LGrant mem n =>
      '(out, a') ← rlc_um_read_pdu a mem n;
      if 0 <? zlen out then b' ← rlc_um_write_pdu b out; Some (a', b') else Some (a', b)
  end.

(** The SDUs of [os] that the sender's queue takes. *)
Definition link_accepts (a : rlc_um Q) (o : link_op) : list bytes :=
  match o with
  | LWrite s => match um_the_tx a with
                | Some tx => if sq_is_full (tx_sdu_queue tx) then [] else [s]
                | None => []
                end
  | LGrant _ _ => []
  end.

Fixpoint link_run (ab : rlc_um Q * rlc_um Q) (os : list link_op)
  : option (rlc_um Q * rlc_um Q * list bytes) :=
  match os with
  | [] => Some (ab, [])
  | o :: os' =>
      ab1 ← link_step ab o;
      '(ab2, acc) ← link_run ab1 os';
      Some (ab2, link_accepts (fst ab) o ++ acc)
  end.
End Entity.

(** ** Correctness of the link *)

Section LinkProofs.
Context {Q : Type} `{SduQueueLaws Q}.
Implicit Types a b : rlc_um Q.

(** An SDU for a queue of [cap] places: of at most 2047 bytes, and, unless 512 SDUs
    fill the queue, of at least [LI_SAFE_SDU] bytes. *)
Definition queue_sdu (cap : nat) (s : bytes) : Prop :=
  short_sdu s /\ ((cap <= 512)%nat \/ LI_SAFE_SDU <= zlen s).

(** Such an SDU is written, a block of the pool is used. *)
Definition link_op_ok (cap : nat) (o : link_op) : Prop :=
  match o with
  | LWrite s => queue_sdu cap s
  | LGrant mem _ => zlen mem = SRSRAN_MAX_BUFFER_SIZE_BYTES
  end.

(** The SDUs on their way: what the transmitter [tx] (with [l] queued) has to send,
    the first one completed with the part [p] that the receiver has. *)
Definition in_flight (tx : um_tx Q) (l : list bytes) (p : bytes) : list bytes :=
  with_prefix p (pending tx l).

Record link_inv (cfg : rlc_um_config_t) (cap : nat) a b (tx : um_tx Q) (rx : um_rx) (l : list bytes) (p : bytes)
  : Prop := {
  lk_tx : um_the_tx a = Some tx;
  lk_rx : um_the_rx b = Some rx;
  lk_txe : tx_enabled a = true;
  lk_rxe : rx_enabled b = true;
  lk_tx_cfg : tx_cfg tx = cfg;
  lk_rx_cfg : rx_cfg rx = cfg;
  lk_tx_ok : um_tx_ok tx cap l;
  lk_len : (length l <= cap)%nat;
  lk_queued : Forall (queue_sdu cap) l;
  lk_sync : rx_sync rx (vt_us tx) p;
  lk_part : p = [] <-> tx_sdu tx = None;
  lk_short : Forall short_sdu (in_flight tx l p)
}.

(** A configuration whose two directions agree, with a queue no longer than that of
    the MCH bearers. *)
Record link_cfg_ok (cfg : rlc_um_config_t) (cap : nat) : Prop := {
  lc_rx : rx_cfg_ok cfg;
  lc_tx : tx_mod cfg = rx_mod cfg;
  lc_sn : tx_sn_field_length cfg = rx_sn_field_length cfg;
  lc_cap : Z.of_nat cap <= tx_queue_length mch_config
}.

Lemma short_sdu_room s : short_sdu s -> zlen s <= SDU_ROOM.
Proof. unfold short_sdu, SDU_ROOM. bb_consts. lia. Qed.

Lemma pdu_fi_aligned (tx tx' : um_tx Q) :
  rlc_um_start_aligned (pdu_fi tx tx') = (match tx_sdu tx with Some _ => false | None => true end) /\
  rlc_um_end_aligned (pdu_fi tx tx') = (match tx_sdu tx' with Some _ => false | None => true end).
Proof. unfold pdu_fi. destruct (tx_sdu tx), (tx_sdu tx'); done. Qed.

Lemma with_prefix_app p l1 l2 : l1 <> [] -> with_prefix p (l1 ++ l2) = with_prefix p l1 ++ l2.
Proof. by destruct l1. Qed.

Lemma with_prefix_nil l : with_prefix [] l = l.
Proof. by destruct l. Qed.

(** What a PDU delivers and what stays in flight make up what was in flight. *)
Lemma pdu_in_flight (tx : um_tx Q) l tx' l' out segs whole p :
  pdu_built tx l tx' l' out segs whole ->
  let f := pdu_fi tx tx' in
  in_flight tx l p = pdu_out p segs f ++ in_flight tx' l' (pdu_left p segs f) /\
  (pdu_left p segs f = [] <-> tx_sdu tx' = None).
Proof.
  intros Hb f. destruct Hb as [Hne _ _ Hsh Hj Hp _ _].
  unfold in_flight, pdu_out, pdu_left, f. rewrite <- Hp, (proj2 (pdu_fi_aligned tx tx')).
  unfold pending. destruct (tx_sdu tx') as [r|]; cbn in Hj.
  - destruct Hj as (full & q & -> & -> & Hq & Hr).
    rewrite (with_prefix_snoc p full q), removelast_snoc, List.last_last. split.
    + rewrite with_prefix_app by (by destruct full). rewrite with_prefix_snoc.
      cbn [app with_prefix]. by rewrite <- !app_assoc.
    + split; [|done]. intros E. by apply app_eq_nil in E as [_ ?].
  - subst whole. split; [|done]. by rewrite with_prefix_app, with_prefix_nil.
Qed.

Lemma pdu_segs_room (tx : um_tx Q) l tx' l' out segs whole p :
  pdu_built tx l tx' l' out segs whole -> Forall short_sdu (in_flight tx l p) ->
  Forall (fun s => zlen s <= SDU_ROOM) (with_prefix p segs).
Proof.
  intros [Hne _ _ Hsh Hj Hp _ _]. unfold in_flight. rewrite <- Hp.
  destruct segs as [|s segs]; [done|]. apply Forall_cons_1 in Hsh as [_ Hsegs].
  assert (Hw : exists s' whole', whole = s' :: whole' /\ zlen s <= zlen s').
  { destruct (tx_sdu tx') as [r|]; cbn in Hj; [|subst; eauto with lia].
    destruct Hj as ([|f full] & q & E1 & -> & _); injection E1 as -> E1.
    - do 2 eexists. split; [done|]. rewrite zlen_app. pose proof (zlen_nonneg r). lia.
    - do 2 eexists. split; [done|]. lia. }
  destruct Hw as (s' & whole' & -> & Hle). cbn. intros [Hs _]%Forall_cons_1. constructor.
  - apply short_sdu_room in Hs. rewrite zlen_app in *. lia.
  - eapply Forall_impl; [|exact Hsegs]. apply short_sdu_room.
Qed.

(** What the SDUs in the queue leave of the room for length indicators. *)
Lemma queued_room cap (tx : um_tx Q) l : Z.of_nat cap <= tx_queue_length mch_config -> (length l <= cap)%nat -> Forall (queue_sdu cap) l ->
  zlen (pending tx l) <= tx_queue_length mch_config + 1 /\
  (zlen (pending tx l) <= RLC_AM_WINDOW_SIZE + 1 \/ Forall (fun s => LI_SAFE_SDU <= zlen s) l).
Proof.
  intros Hcap Hlen Hq.
  assert (Hp : zlen (pending tx l) <= 1 + Z.of_nat (length l)).
  { unfold pending. rewrite zlen_app. fold (zlen l). destruct (tx_sdu tx); cbn [zlen length]; unfold zlen; cbn [length]; lia. }
  split; [lia|]. unfold RLC_AM_WINDOW_SIZE. destruct (decide (cap <= 512)%nat) as [Hc|Hc]; [left; lia|right].
  eapply Forall_impl; [|exact Hq]. intros s [_ [?|?]]; [lia|done].
Qed.

(** An SDU is written. *)
Lemma link_write cfg cap a b tx rx l p s :
  link_cfg_ok cfg cap -> link_inv cfg cap a b tx rx l p -> queue_sdu cap s ->
  exists a' tx' l', link_step (a, b) (LWrite s) = Some (a', b) /\
    link_inv cfg cap a' b tx' rx l' p /\
    in_flight tx' l' p = in_flight tx l p ++ link_accepts a (LWrite s).
Proof.
  intros [Hrx Htm Hsn Hcap] [L1 L2 L3 L4 L5 L6 Htx Hlen Hque Hsync Hpart Hsh] [Hs Hcs].
  pose proof Htx as [Hrep Hps Hcnt Hli Hmod Hvt].
  cbn [link_step link_accepts]. unfold rlc_um_write_sdu, um_try_write_sdu. rewrite L1, L3. cbn [negb].
  assert (Hok : sdu_ok s) by (unfold sdu_ok; unfold short_sdu in Hs; bb_consts; lia).
  pose proof (sq_is_full_law _ _ _ Hrep) as Hfull.
  destruct (decide (length l = cap)) as [E|E].
  - rewrite (sq_write_full_law _ _ _ s Hrep E). cbn [mbind option_bind].
    rewrite (proj2 Hfull E). eexists _, tx, l. split; [done|]. rewrite app_nil_r. split; [|done].
    constructor; try done. by destruct tx.
  - destruct (sq_write_law _ _ _ s Hrep Hok ltac:(lia)) as (q & -> & Hq). cbn [mbind option_bind].
    destruct (sq_is_full (tx_sdu_queue tx)); [by destruct E; apply Hfull|].
    assert (Hp' : pending (set_queue tx q) (l ++ [s]) = pending tx l ++ [s]).
    { unfold pending. cbn. by rewrite app_assoc. }
    assert (Hfl : in_flight (set_queue tx q) (l ++ [s]) p = in_flight tx l p ++ [s]).
    { unfold in_flight. rewrite Hp'. destruct (pending tx l) eqn:Ep; [|by apply with_prefix_app].
      unfold pending in Ep. apply app_eq_nil in Ep as [Ep _]. cbn.
      rewrite (proj2 Hpart); [done|]. by destruct (tx_sdu tx). }
    eexists _, (set_queue tx q), (l ++ [s]). split; [done|]. split; [|done].
    assert (Hlen' : (length (l ++ [s]) <= cap)%nat) by (rewrite length_app; cbn; lia).
    assert (Hque' : Forall (queue_sdu cap) (l ++ [s])) by (apply Forall_app; split; [done|]; by apply Forall_singleton).
    constructor; try done.
    + constructor; cbn [set_queue tx_sdu_queue tx_cfg vt_us]; try done.
      * rewrite Hp'. apply Forall_app. split; [done|]. by constructor.
      * exact (proj1 (queued_room _ _ _ Hcap Hlen' Hque')).
      * exact (proj2 (queued_room _ _ _ Hcap Hlen' Hque')).
    + rewrite Hfl. apply Forall_app. split; [done|]. by constructor.
Qed.

(** A grant is used. *)
Lemma link_grant cfg cap a b tx rx l p mem n :
  link_cfg_ok cfg cap -> link_inv cfg cap a b tx rx l p -> zlen mem = SRSRAN_MAX_BUFFER_SIZE_BYTES ->
  exists a' b' tx' rx' l' p' out, link_step (a, b) (LGrant mem n) = Some (a', b') /\
    link_inv cfg cap a' b' tx' rx' l' p' /\
    delivered rx' = delivered rx ++ out /\ in_flight tx l p = out ++ in_flight tx' l' p' /\
    (hdr_len tx [] < state_header tx -> grant_progress tx tx' l' n).
Proof.
  intros [Hrx Htm Hsn Hcap] Hinv Hmem. pose proof Hinv as [L1 L2 L3 L4 L5 L6 Htx Hlen Hque Hsync Hpart Hsh].
  pose proof Htx as [Hrep Hps Hcnt Hli Hmod Hvt].
  cbn [link_step]. unfold rlc_um_read_pdu. rewrite L1, L3.
  destruct (decide (pending tx l = [] \/ n <= hdr_len tx [] + 1)) as [E|E].
  - rewrite (build_data_pdu_nothing tx cap l mem n Hrep Hmem E). cbn [mbind option_bind].
    eexists _, b, tx, rx, l, p, []. split; [reflexivity|]. rewrite app_nil_r. split; [by constructor|].
    split_and!; [done|done|]. intros Hhd. by eapply no_grant_progress.
  - destruct (build_data_pdu_spec tx cap l mem n Htx Hmem) as
      (out & tx' & l' & segs & whole & -> & Hb & Htx' & Hsz & Hfl0); [tauto|lia|]. cbn [mbind option_bind].
    pose proof Hb as [Hne Hout Hhok _ _ Hpend Hsn' Hcfg'].
    destruct (pdu_in_flight tx l tx' l' out segs whole p Hb) as [Hfl Hpart'].
    set (f := pdu_fi tx tx') in *.
    assert (Hpos : 0 < zlen out).
    { rewrite Hout, zlen_app, zlen_umd_header_bytes. pose proof (zlen_nonneg (mjoin segs)).
      pose proof (proj1 (hdr_len_bounds tx (seg_li segs))) as Hh. unfold hdr_len in Hh.
      unfold pdu_header, rlc_um_packed_length, N_li in *. cbn in *. lia. }
    rewrite (proj2 (Z.ltb_lt 0 (zlen out)) Hpos). unfold rlc_um_write_pdu. rewrite L2, L4.
    destruct (handle_in_order rx (vt_us tx) p segs (pdu_header tx tx' segs)) as
      (rx' & Hh & Hrc & Hsync' & Hdel); try done.
    + cbn. by rewrite L5, L6.
    + intros E'. cbn. rewrite (proj1 (pdu_fi_aligned tx tx')). by rewrite (proj1 Hpart E').
    + by eapply pdu_segs_room.
    + rewrite <- Hout. unfold SDU_ROOM. lia.
    + rewrite <- Hout in Hh. rewrite Hh. cbn [mbind option_bind].
      eexists _, _, tx', rx', l', (pdu_left p segs f), (pdu_out p segs f). split; [reflexivity|].
      split; [|split_and!; [done|done|intros Hhd; by eapply buffer_state_progress]]. constructor; try done.
      * by rewrite Hcfg'.
      * by rewrite Hrc.
      * apply (f_equal length) in Hpend. unfold pending in Hpend. rewrite !length_app in Hpend.
        pose proof (joined_length _ _ _ (pb_joined _ _ _ _ _ _ _ Hb)).
        destruct segs; [done|]. cbn [length] in *. destruct (tx_sdu tx); cbn [length] in *; lia.
      * apply (pending_queue tx l whole l'); [done| |done]. intros ->.
        pose proof (joined_length _ _ _ (pb_joined _ _ _ _ _ _ _ Hb)). by destruct segs.
      * rewrite Hsn', L5, Htm, <- L6. done.
      * rewrite Hfl in Hsh. by apply Forall_app in Hsh as [_ ?].
Qed.
End LinkProofs.

Section LinkRun.
Context {Q : Type} `{SduQueueLaws Q}.

Lemma link_step_inv cfg cap (a b : rlc_um Q) tx rx l p o :
  link_cfg_ok cfg cap -> link_inv cfg cap a b tx rx l p -> link_op_ok cap o ->
  exists a' b' tx' rx' l' p', link_step (a, b) o = Some (a', b') /\
    link_inv cfg cap a' b' tx' rx' l' p' /\
    delivered rx' ++ in_flight tx' l' p' = delivered rx ++ in_flight tx l p ++ link_accepts a o.
Proof.
  intros Hc Hi Ho. destruct o as [s|mem n].
  - destruct (link_write _ _ _ _ _ _ _ _ _ Hc Hi Ho) as (a' & tx' & l' & Hs & Hi' & Hf).
    eexists _, _, tx', rx, l', p. split; [exact Hs|]. split; [done|]. by rewrite Hf.
  - destruct (link_grant _ _ _ _ _ _ _ _ _ n Hc Hi Ho) as (a' & b' & tx' & rx' & l' & p' & out & Hs & Hi' & Hd & Hf & _).
    eexists _, _, tx', rx', l', p'. split; [exact Hs|]. split; [done|].
    cbn [link_accepts]. by rewrite Hd, Hf, app_nil_r, app_assoc.
Qed.

Lemma link_run_inv cfg cap os : forall (a b : rlc_um Q) tx rx l p,
  link_cfg_ok cfg cap -> link_inv cfg cap a b tx rx l p -> Forall (link_op_ok cap) os ->
  exists a' b' tx' rx' l' p' acc, link_run (a, b) os = Some (a', b', acc) /\
    link_inv cfg cap a' b' tx' rx' l' p' /\
    delivered rx' ++ in_flight tx' l' p' = delivered rx ++ in_flight tx l p ++ acc.
Proof.
  induction os as [|o os IH]; intros a b tx rx l p Hc Hi Ho; cbn [link_run].
  - eexists _, _, tx, rx, l, p, []. split; [done|]. split; [done|]. by rewrite app_nil_r.
  - apply Forall_cons_1 in Ho as [Ho Hos].
    destruct (link_step_inv _ _ _ _ _ _ _ _ _ Hc Hi Ho) as (a1 & b1 & tx1 & rx1 & l1 & p1 & -> & Hi1 & E1).
    cbn [mbind option_bind].
    destruct (IH _ _ _ _ _ _ Hc Hi1 Hos) as (a2 & b2 & tx2 & rx2 & l2 & p2 & acc & -> & Hi2 & E2).
    cbn [mbind option_bind fst]. eexists _, _, tx2, rx2, l2, p2, _. split; [done|]. split; [done|].
    by rewrite E2, app_assoc, E1, <- !app_assoc.
Qed.

(** Two freshly configured entities. *)
Definition link_new (cfg : rlc_config_t) (resized : Z -> Q) : rlc_um Q * rlc_um Q :=
  (snd (rlc_um_configure cfg resized rlc_um_new), snd (rlc_um_configure cfg resized rlc_um_new)).

Lemma link_new_inv (cfg : rlc_config_t) cap resized :
  link_cfg_ok cfg cap -> sq_rep (resized (tx_queue_length cfg)) cap [] ->
  link_inv cfg cap (fst (link_new cfg resized)) (snd (link_new cfg resized))
    (mk_um_tx cfg (resized (tx_queue_length cfg)) None 0) (um_rx_init cfg) [] [].
Proof.
  intros [Hrx Htm Hsn Hcap] Hq. pose proof (window_size_bounds _ Hrx) as Hws.
  assert (Hne : (rx_mod cfg =? 0) = false /\ (tx_mod cfg =? 0) = false).
  { split; apply Z.eqb_neq; lia. }
  unfold link_new, rlc_um_configure, um_rx_configure, um_tx_configure. rewrite (proj1 Hne), (proj2 Hne). cbn.
  constructor; try done; cbn; [|lia|by apply rx_sync_init].
  destruct Hrx as [_ Hrx]. constructor; cbn [tx_sdu_queue tx_cfg vt_us]; try done; try lia; [left|by rewrite Htm, Hrx, Hsn].
  done.
Qed.
End LinkRun.

(** C3: two UM entities connected by an in-order channel are a FIFO.  For every
    configuration whose queue has at most the 2048 places of the MCH bearers and every
    sequence of SDUs written (of 1 to 2047 bytes; when the queue has more than 512
    places, of at least 24 bytes) and of grants of any size, no call leaves its buffers, and the SDUs delivered so
    far followed by those still in flight are exactly the SDUs the sender's queue
    took, in order and unchanged; when the sender has nothing left to send, all of
    them have been delivered. *)
Theorem um_link_is_fifo {Q : Type} `{SduQueueLaws Q} (cfg : rlc_config_t) cap (resized : Z -> Q) os :
  link_cfg_ok cfg cap -> sq_rep (resized (tx_queue_length cfg)) cap [] -> Forall (link_op_ok cap) os ->
  exists a b acc tx rx l, link_run (link_new cfg resized) os = Some (a, b, acc) /\
    um_the_tx a = Some tx /\ um_the_rx b = Some rx /\ sq_rep (tx_sdu_queue tx) cap l /\
    acc = delivered rx ++ in_flight tx l (sdu_bytes rx) /\
    (rlc_um_has_data a = false -> delivered rx = acc).
Proof.
  intros Hc Hq Ho.
  destruct (link_run_inv cfg cap os _ _ _ _ _ _ Hc (link_new_inv _ _ _ Hc Hq) Ho) as
    (a & b & tx & rx & l & p & acc & Hr & [L1 L2 L3 L4 L5 L6 Htx Hlen Hque Hsync Hpart Hsh] & E).
  cbn in E. exists a, b, acc, tx, rx, l. rewrite (rs_sdu _ _ _ Hsync).
  split_and!; try done; [by apply Htx|].
  unfold rlc_um_has_data. rewrite L1. intros Hd.
  pose proof (um_has_data_spec tx cap l (uto_rep _ _ _ Htx)) as Hsp.
  assert (Hp : pending tx l = []).
  { destruct (decide (pending tx l = [])) as [|Hne]; [done|]. apply Hsp in Hne. congruence. }
  rewrite <- E. unfold in_flight. rewrite Hp. cbn. by rewrite app_nil_r.
Qed.

(** A bearer with the queue of the unicast default. *)
Definition example_config : rlc_config_t := default_rlc_um_config 5.

(** Three SDUs, cut into PDUs by grants of 6, 4, 0 and 100 bytes. *)
Definition example_link_ops : list link_op :=
  [LWrite [1; 2; 3; 4; 5; 6; 7]; LGrant zero_block 6; LWrite [8]; LGrant zero_block 4;
   LWrite [9; 10]; LGrant zero_block 0; LGrant zero_block 100].

Lemma um_link_is_fifo_witness :
  exists a b acc tx rx l, link_run (link_new example_config bbq_resized) example_link_ops = Some (a, b, acc) /\
    um_the_tx a = Some tx /\ um_the_rx b = Some rx /\ sq_rep (tx_sdu_queue tx) 256 l /\
    acc = delivered rx ++ in_flight tx l (sdu_bytes rx) /\
    (rlc_um_has_data a = false -> delivered rx = acc).
Proof.
  apply um_link_is_fifo.
  - constructor; [split; reflexivity|reflexivity|reflexivity|vm_compute; discriminate].
  - apply (bbq_resized_rep 256). lia.
  - repeat (constructor || (left; lia)); vm_compute; reflexivity.
Defined.

(** The same run, evaluated. *)
Example example_link_run :
  match link_run (link_new example_config bbq_resized) example_link_ops with
  | Some (a, b, acc) =>
      delivered <$> um_the_rx b = Some [[1; 2; 3; 4; 5; 6; 7]; [8]; [9; 10]] /\ rlc_um_has_data a = false
  | None => False
  end.
Proof. vm_compute. split; reflexivity. Qed.
