(* ===== verification/MacPdu.v ===== *)
(** * MAC PDUs

    [lib/src/mac/pdu.cc] and [lib/include/srsran/mac/pdu.h]: logical channel
    identifiers, the subheaders of DL-SCH, UL-SCH and MCH PDUs with their control
    elements, the space accounting of a PDU under construction, writing and
    parsing.

    A subheader's [payload] points to its own [w_payload_ce], to the transmit buffer
    or to the received packet; the last two are offsets.  [None] is an access
    outside of the buffers.  The packet of [parse_packet] is the list of the bytes
    in memory from the first byte of the PDU on. *)

From stdpp Require Import base list gmap numbers.
From coqutil Require Import Z.bitblast.
From S2P Require Import Prelude ByteBuffer.

Local Open Scope Z_scope.

(** ** Logical channels *)

Definition DL_RESERVED : Z := 0x11.
Definition SCELL_ACTIVATION_4_OCTET : Z := 0x18.
Definition SCELL_ACTIVATION : Z := 0x1B.
Definition CON_RES_ID : Z := 0x1C.
Definition TA_CMD : Z := 0x1D.
Definition DRX_CMD : Z := 0x1E.
Definition PADDING : Z := 0x1F.

Definition UL_RESERVED : Z := 0x11.
Definition PHR_REPORT : Z := 0x1A.
Definition CRNTI : Z := 0x1B.
Definition TRUNC_BSR : Z := 0x1C.
Definition SHORT_BSR : Z := 0x1D.
Definition LONG_BSR : Z := 0x1E.

Definition MTCH_MAX_LCID : Z := 0x1C.
Definition MCH_SCHED_INFO : Z := 0x1E.
Definition MTCH_STOP_EMPTY : Z := 0x7FF.

Definition dl_is_mac_ce (v : Z) : bool := DL_RESERVED <? v.
Definition ul_is_mac_ce (v : Z) : bool := UL_RESERVED <? v.
Definition mch_is_mac_ce (v : Z) : bool := MCH_SCHED_INFO <=? v.
Definition dl_is_sdu (v : Z) : bool := v <=? DL_RESERVED.
Definition ul_is_sdu (v : Z) : bool := v <=? UL_RESERVED.
Definition mch_is_sdu (v : Z) : bool := v <? MCH_SCHED_INFO.

Definition dl_ce_size (v : Z) : Z :=
  if v =? SCELL_ACTIVATION_4_OCTET then 4
  else if v =? SCELL_ACTIVATION then 1
  else if v =? CON_RES_ID then 6
  else if v =? TA_CMD then 1
  else if v =? DRX_CMD then 0 else 0.

Definition CE_SUBHEADER_LEN : Z := 1.
Definition ce_subheader_size (_ : Z) : Z := CE_SUBHEADER_LEN.
Definition ce_total_size (v : Z) : Z := ce_subheader_size v + dl_ce_size v.

Definition ul_ce_size (v : Z) : Z :=
  if v =? PHR_REPORT then 1
  else if v =? CRNTI then 2
  else if v =? TRUNC_BSR then 1
  else if v =? SHORT_BSR then 1
  else if v =? LONG_BSR then 3 else 0.

Inductive ch_type := dl_sch | ul_sch | mch.

Definition lcid_is_sdu (t : ch_type) (v : Z) : bool :=
  match t with dl_sch => dl_is_sdu v | ul_sch => ul_is_sdu v | mch => mch_is_sdu v end.

(** ** Subheaders *)

Inductive subh_type := SCH_SUBH_TYPE | MCH_SUBH_TYPE.

#[export] Instance subh_type_eq_dec : EqDecision subh_type.
Proof. solve_decision. Defined.

(** [payload]: [None] is the subheader's own [w_payload_ce]. *)
Record sch_subh := mk_subh {
  lcid : Z;
  nof_bytes : Z;
  payload : option Z;
  w_payload_ce : bytes;
  nof_mch_sched_ce : Z;
  cur_mch_sched_ce : Z;
  F_bit : bool;
  stype : subh_type
}.

Definition subh_new (t : subh_type) : sch_subh := mk_subh 0 0 None (repeat 0 64) 0 0 false t.

(** [init] keeps [F_bit] and the type. *)
Definition subh_init (s : sch_subh) : sch_subh := mk_subh 0 0 None (repeat 0 64) 0 0 (F_bit s) (stype s).

Definition subh_set_type (s : sch_subh) (t : subh_type) : sch_subh :=
  mk_subh (lcid s) (nof_bytes s) (payload s) (w_payload_ce s) (nof_mch_sched_ce s)
    (cur_mch_sched_ce s) (F_bit s) t.

Definition set_payload_size (s : sch_subh) (n : Z) : sch_subh :=
  mk_subh (lcid s) (i32 n) (payload s) (w_payload_ce s) (nof_mch_sched_ce s) (cur_mch_sched_ce s)
    (F_bit s) (stype s).

Definition set_padding (s : sch_subh) (n : Z) : sch_subh :=
  mk_subh PADDING (i32 n) (payload s) (w_payload_ce s) (nof_mch_sched_ce s) (cur_mch_sched_ce s)
    (F_bit s) (stype s).

Definition is_sdu (s : sch_subh) : bool :=
  lcid_is_sdu (match stype s with MCH_SUBH_TYPE => mch | SCH_SUBH_TYPE => ul_sch end) (lcid s).

(** [ul_sch_ce_type], [dl_sch_ce_type], [mch_ce_type]: [SDU] (0) for what is not a
    control element. *)
Definition ul_sch_ce_type (s : sch_subh) : Z := if ul_is_mac_ce (lcid s) then lcid s else 0.
Definition dl_sch_ce_type (s : sch_subh) : Z := if dl_is_mac_ce (lcid s) then lcid s else 0.
Definition mch_ce_type (s : sch_subh) : Z := if mch_is_mac_ce (lcid s) then lcid s else 0.

Definition is_var_len_ce (s : sch_subh) : bool :=
  (MCH_SCHED_INFO =? mch_ce_type s) && bool_decide (stype s = MCH_SUBH_TYPE).

Definition size_header_sdu (nbytes : Z) : Z :=
  if nbytes =? 0 then 0 else if nbytes <? 128 then 2 else 3.

Definition sizeof_ce (s : sch_subh) (lc : Z) (is_ul : bool) : Z :=
  match stype s with
  | SCH_SUBH_TYPE => if is_ul then ul_ce_size lc else dl_ce_size lc
  | MCH_SUBH_TYPE => if lc =? MCH_SCHED_INFO then nof_mch_sched_ce s * 2 else 0
  end.

Definition get_payload_size (s : sch_subh) : Z := u32 (nof_bytes s).

Definition size_plus_header (s : sch_subh) : Z :=
  if is_sdu s || is_var_len_ce s then u32 (size_header_sdu (u32 (nof_bytes s)) + nof_bytes s)
  else u32 (1 + nof_bytes s).

Definition get_header_size (s : sch_subh) (is_last : bool) : Z :=
  if negb is_last then
    if is_sdu s || ((lcid s =? MCH_SCHED_INFO) && bool_decide (stype s = MCH_SUBH_TYPE))
    then size_header_sdu (u32 (nof_bytes s)) else 1
  else 1.

(** ** Payload accessors *)

(** Byte [i] of the payload; [mem] is the packet or the transmit buffer. *)
Definition payload_at (s : sch_subh) (mem : bytes) (i : Z) : option Z :=
  match payload s with None => load (w_payload_ce s) i | Some off => load mem (off + i) end.

Definition get_c_rnti (s : sch_subh) (mem : bytes) : option Z :=
  p0 ← payload_at s mem 0; p1 ← payload_at s mem 1;
  Some (Z.lor (Z.shiftl p0 8) p1).

Definition get_con_res_id (s : sch_subh) (mem : bytes) : option Z :=
  p0 ← payload_at s mem 0; p1 ← payload_at s mem 1; p2 ← payload_at s mem 2;
  p3 ← payload_at s mem 3; p4 ← payload_at s mem 4; p5 ← payload_at s mem 5;
  Some (Z.lor (Z.lor (Z.lor (Z.lor (Z.lor p5 (Z.shiftl p4 8)) (Z.shiftl p3 16)) (Z.shiftl p2 24))
     (Z.shiftl p1 32)) (Z.shiftl p0 40)).

Definition get_ta_cmd (s : sch_subh) (mem : bytes) : option Z :=
  p0 ← payload_at s mem 0; Some (Z.land p0 0x3f).

Definition get_activation_deactivation_cmd (s : sch_subh) (mem : bytes) : option Z :=
  payload_at s mem 0.

(** The value is a whole number of dB. *)
Definition get_phr (s : sch_subh) (mem : bytes) : option Z :=
  p0 ← payload_at s mem 0; Some (Z.land p0 0x3f - 23).

(** ** Buffer status *)

Definition btable : list Z :=
  [0; 1; 10; 12; 14; 17; 19; 22; 26; 31; 36; 42; 49; 57; 67; 78;
   91; 107; 125; 146; 171; 200; 234; 274; 321; 376; 440; 515; 603; 706; 826; 967;
   1132; 1326; 1552; 1817; 2127; 2490; 2915; 3413; 3995; 4667; 5476; 6411; 7505; 8787; 10287; 12043;
   14099; 16507; 19325; 22624; 26487; 31009; 36304; 42502; 49759; 58255; 68201; 79846; 93479; 109439;
   128125; 150000].

Definition btable_at (i : Z) : Z := default 0 (btable !! Z.to_nat i).

(** The loop of [buff_size_table] from [i] on; [n] turns are left. *)
Fixpoint buff_size_search (n : nat) (i buffer_size : Z) : Z :=
  match n with
  | O => 62
  | S n' => if buffer_size <=? btable_at (i + 1) then i else buff_size_search n' (i + 1) buffer_size
  end.

Definition buff_size_table (buffer_size : Z) : Z :=
  if buffer_size =? 0 then 0
  else if 150000 <? buffer_size then 63
  else buff_size_search 61 1 buffer_size.

(** The size in bytes that [get_bsr] gives for an index. *)
Definition bsr_bytes (idx : Z) : Z := if idx <? 63 then btable_at (1 + idx) else btable_at 63.

(** [get_bsr]: the arrays [buff_size_idx] and [buff_size_bytes] of the caller are
    updated. *)
Definition get_bsr (s : sch_subh) (mem : bytes) (idx0 bytes0 : list Z) : option (Z * list Z * list Z) :=
  '(lcg, idx) ←
    (if ul_sch_ce_type s =? LONG_BSR then
       p0 ← payload_at s mem 0; p1 ← payload_at s mem 1; p2 ← payload_at s mem 2;
       Some (0, [Z.shiftr (Z.land p0 0xFC) 2;
                 Z.lor (Z.shiftl (Z.land p0 0x03) 4) (Z.shiftr (Z.land p1 0xF0) 4);
                 Z.lor (Z.shiftl (Z.land p1 0x0F) 2) (Z.shiftr (Z.land p2 0xC0) 6);
                 Z.land p2 0x3F])
     else
       p0 ← payload_at s mem 0;
       let g := Z.shiftr (Z.land p0 0xc0) 6 in
       Some (g, <[Z.to_nat (g mod 4) := Z.land p0 0x3f]> idx0));
  Some (lcg, idx, zip_with (fun i b => if 0 <? i then bsr_bytes i else b) idx bytes0).

(** [get_next_mch_sched_info]: the identifier, the stop value and the subheader with
    its counters advanced. *)
Definition get_next_mch_sched_info (s : sch_subh) (mem : bytes) : option (option (Z * Z) * sch_subh) :=
  let n := u8 (nof_bytes s / 2) in
  let s1 cur := mk_subh (lcid s) (nof_bytes s) (payload s) (w_payload_ce s) n cur (F_bit s) (stype s) in
  if cur_mch_sched_ce s <? n then
    p0 ← payload_at s mem (cur_mch_sched_ce s * 2);
    p1 ← payload_at s mem (cur_mch_sched_ce s * 2 + 1);
    let stop := u16 (Z.shiftl (Z.land p0 0x07) 8 + p1) in
    Some (Some (Z.shiftr (Z.land p0 0xF8) 3, if stop =? MTCH_STOP_EMPTY then 0 else stop),
          s1 (u8 (cur_mch_sched_ce s + 1)))
  else Some (None, s1 (cur_mch_sched_ce s)).

(** ** PDUs *)

Record sch_pdu := mk_pdu {
  subheaders : list sch_subh;
  pdu_len : Z;
  rem_len : Z;
  cur_idx : Z;
  nof_subheaders : Z;
  pdu_is_ul : bool;
  buffer_tx : byte_buffer_t;
  last_sdu_idx : Z
}.

Definition max_subheaders (p : sch_pdu) : Z := zlen (subheaders p).

Definition set_subheaders (p : sch_pdu) (l : list sch_subh) : sch_pdu :=
  mk_pdu l (pdu_len p) (rem_len p) (cur_idx p) (nof_subheaders p) (pdu_is_ul p) (buffer_tx p) (last_sdu_idx p).
Definition set_rem_len (p : sch_pdu) (r : Z) : sch_pdu :=
  mk_pdu (subheaders p) (pdu_len p) r (cur_idx p) (nof_subheaders p) (pdu_is_ul p) (buffer_tx p) (last_sdu_idx p).
Definition set_nof (p : sch_pdu) (n : Z) : sch_pdu :=
  mk_pdu (subheaders p) (pdu_len p) (rem_len p) (cur_idx p) n (pdu_is_ul p) (buffer_tx p) (last_sdu_idx p).
Definition set_cur (p : sch_pdu) (n : Z) : sch_pdu :=
  mk_pdu (subheaders p) (pdu_len p) (rem_len p) n (nof_subheaders p) (pdu_is_ul p) (buffer_tx p) (last_sdu_idx p).
Definition set_buffer (p : sch_pdu) (b : byte_buffer_t) : sch_pdu :=
  mk_pdu (subheaders p) (pdu_len p) (rem_len p) (cur_idx p) (nof_subheaders p) (pdu_is_ul p) b (last_sdu_idx p).

(** [init_] of [sch_pdu] and of [mch_pdu] (which sets the type of the subheaders). *)
Definition pdu_init (t : subh_type) (p : sch_pdu) (buf : byte_buffer_t) (len : Z) (is_ul : bool) : sch_pdu :=
  mk_pdu (map (fun s => subh_init (match t with
                                   | MCH_SUBH_TYPE => subh_set_type s MCH_SUBH_TYPE
                                   | SCH_SUBH_TYPE => s end)) (subheaders p))
    len len (-1) 0 is_ul buf (-1).

(** [reset]. *)
Definition pdu_reset (p : sch_pdu) : sch_pdu :=
  mk_pdu (subheaders p) (pdu_len p) (pdu_len p) (-1) (nof_subheaders p) (pdu_is_ul p) (buffer_tx p) (-1).

Definition next (p : sch_pdu) : bool * sch_pdu :=
  if cur_idx p <? nof_subheaders p - 1 then (true, set_cur p (cur_idx p + 1)) else (false, p).

Definition new_subh (p : sch_pdu) : bool * sch_pdu :=
  if (nof_subheaders p <? max_subheaders p - 1) && (2 <=? rem_len p) && (1 <? get_headroom (buffer_tx p))
  then next (set_nof p (nof_subheaders p + 1))
  else (false, p).

Definition del_subh (p : sch_pdu) : sch_pdu :=
  let p1 := if 0 <? nof_subheaders p then set_nof p (nof_subheaders p - 1) else p in
  if 0 <=? cur_idx p1 then
    set_cur (set_subheaders p1 (alter subh_init (Z.to_nat (cur_idx p1)) (subheaders p1))) (cur_idx p1 - 1)
  else p1.

(** [get]: the current subheader; [None] is the null pointer. *)
Definition get (p : sch_pdu) : option sch_subh :=
  if 0 <=? cur_idx p then subheaders p !! Z.to_nat (cur_idx p) else None.

Definition subh_at (p : sch_pdu) (i : Z) : option sch_subh :=
  if i <? 0 then None else subheaders p !! Z.to_nat i.

(** Writes the current subheader. *)
Definition put (p : sch_pdu) (s : sch_subh) : sch_pdu :=
  set_subheaders p (<[Z.to_nat (cur_idx p) := s]> (subheaders p)).

(** ** Space *)

Definition ce_head_len (nbytes : Z) (var_len : bool) : Z := if var_len then size_header_sdu nbytes else 1.

Definition has_space_ce (p : sch_pdu) (nbytes : Z) (var_len : bool) : bool :=
  u32 (nbytes + ce_head_len nbytes var_len) <=? rem_len p.

(** The check does not pass [var_len] on. *)
Definition update_space_ce (p : sch_pdu) (nbytes : Z) (var_len : bool) : bool * sch_pdu :=
  if has_space_ce p nbytes false
  then (true, set_rem_len p (u32 (rem_len p - (nbytes + ce_head_len nbytes var_len))))
  else (false, p).

(** What the last SDU's subheader grows by when another subheader follows. *)
Definition last_sdu_growth (p : sch_pdu) : Z :=
  match subh_at p (last_sdu_idx p) with
  | Some s => u32 (size_header_sdu (get_payload_size s) - 1)
  | None => 0
  end.

Definition get_sdu_space (p : sch_pdu) : Z :=
  let ret := if last_sdu_idx p <? 0 then i32 (rem_len p - 1)
             else i32 (rem_len p - last_sdu_growth p - 1) in
  i32 (Z.min (if 0 <=? ret then ret else 0) (get_tailroom (buffer_tx p))).

Definition has_space_sdu (p : sch_pdu) (nbytes : Z) : bool :=
  let s := get_sdu_space p in if s <? 0 then false else nbytes <=? s.

Definition update_space_sdu (p : sch_pdu) (nbytes : Z) : bool * sch_pdu :=
  if has_space_sdu p nbytes then
    let r := if last_sdu_idx p <? 0 then u32 (rem_len p - (nbytes + 1))
             else u32 (rem_len p - (nbytes + 1 + last_sdu_growth p)) in
    (true, mk_pdu (subheaders p) (pdu_len p) r (cur_idx p) (nof_subheaders p) (pdu_is_ul p)
             (buffer_tx p) (cur_idx p))
  else (false, p).

(** ** Filling the current subheader *)

(** A control element of [len] bytes with the identifier [lc]: [ce] is written at
    the start of [w_payload_ce]. *)
Definition set_ce (p : sch_pdu) (lc len : Z) (ce : bytes) : option (bool * sch_pdu) :=
  s ← get p;
  if has_space_ce p len false then
    w ← store (w_payload_ce s) 0 ce;
    let p1 := snd (update_space_ce p len false) in
    Some (true, put p1 (mk_subh lc len (payload s) w (nof_mch_sched_ce s) (cur_mch_sched_ce s)
                          (F_bit s) (stype s)))
  else Some (false, p).

Definition set_c_rnti (p : sch_pdu) (crnti : Z) : option (bool * sch_pdu) :=
  set_ce p CRNTI 2 [Z.shiftr (Z.land crnti 0xff00) 8; Z.land crnti 0x00ff].

Definition set_con_res_id (p : sch_pdu) (id : Z) : option (bool * sch_pdu) :=
  set_ce p CON_RES_ID 6
    [Z.shiftr (Z.land id 0xff0000000000) 40; Z.shiftr (Z.land id 0x00ff00000000) 32;
     Z.shiftr (Z.land id 0x0000ff000000) 24; Z.shiftr (Z.land id 0x000000ff0000) 16;
     Z.shiftr (Z.land id 0x00000000ff00) 8; Z.land id 0x0000000000ff].

Definition set_ta_cmd (p : sch_pdu) (ta : Z) : option (bool * sch_pdu) :=
  set_ce p TA_CMD 1 [Z.land ta 0x3f].

(** [phr_report_table] on a whole number of dB. *)
Definition phr_report_table (phr : Z) : Z := Z.max (-23) (Z.min phr 40) + 23.

Definition set_phr (p : sch_pdu) (phr : Z) : option (bool * sch_pdu) :=
  set_ce p PHR_REPORT 1 [Z.land (phr_report_table phr) 0x3f].

Definition SRSRAN_MAX_CARRIERS : nat := 5.

(** The octet of [set_scell_activation_cmd]. *)
Definition scell_octet (active : list bool) : Z :=
  foldl (fun acc i => Z.lor acc (Z.shiftl (b2z (default false (active !! i))) (Z.of_nat i))) 0
    (seq 1 (SRSRAN_MAX_CARRIERS - 1)).

Definition set_scell_activation_cmd (p : sch_pdu) (active : list bool) : option (bool * sch_pdu) :=
  set_ce p SCELL_ACTIVATION 1 [scell_octet active].

(** The last group with data. *)
Definition nonzero_lcg (b : Z * Z * Z * Z) : Z :=
  let '(b0, b1, b2, b3) := b in
  if negb (b3 =? 0) then 3 else if negb (b2 =? 0) then 2 else if negb (b1 =? 0) then 1 else 0.

Definition lcg_size (b : Z * Z * Z * Z) (g : Z) : Z :=
  let '(b0, b1, b2, b3) := b in
  if g =? 0 then b0 else if g =? 1 then b1 else if g =? 2 then b2 else b3.

(** [update_bsr]: the bytes of the control element. *)
Definition bsr_ce (b : Z * Z * Z * Z) (format : Z) : bytes :=
  let t g := buff_size_table (lcg_size b g) in
  if format =? LONG_BSR then
    [Z.lor (Z.shiftl (Z.land (t 0) 0x3f) 2) (Z.shiftr (Z.land (t 1) 0x30) 4);
     Z.lor (Z.shiftl (Z.land (t 1) 0xf) 4) (Z.shiftr (Z.land (t 2) 0x3c) 2);
     Z.lor (Z.shiftl (Z.land (t 2) 0x3) 6) (Z.land (t 3) 0x3f)]
  else
    let g := nonzero_lcg b in
    [Z.lor (Z.shiftl (Z.land g 0x3) 6) (Z.land (t g) 0x3f)].

Definition set_bsr (p : sch_pdu) (b : Z * Z * Z * Z) (format : Z) : option (bool * sch_pdu) :=
  set_ce p format (if format =? LONG_BSR then 3 else 1) (bsr_ce b format).

(** [set_next_mch_sched_info]: one more entry in the current subheader. *)
Definition set_next_mch_sched_info (p : sch_pdu) (lc mtch_stop : Z) : option (bool * sch_pdu) :=
  s ← get p;
  if has_space_ce p 2 true then
    let stop := if mtch_stop =? 0 then MTCH_STOP_EMPTY else mtch_stop in
    w ← store (w_payload_ce s) (nof_mch_sched_ce s * 2)
          [Z.lor (Z.shiftl (Z.land lc 0x1F) 3) (Z.shiftr (Z.land stop 0x0700) 8); Z.land stop 0xff];
    let p1 := snd (update_space_ce p 2 true) in
    Some (true, put p1 (mk_subh MCH_SCHED_INFO (i32 (nof_bytes s + 2)) (payload s) w
                          (u8 (nof_mch_sched_ce s + 1)) (cur_mch_sched_ce s) (F_bit s) (stype s)))
  else Some (false, p).

(** [set_sdu] with a payload: the value returned is the size, or -1. *)
Definition set_sdu (p : sch_pdu) (lc : Z) (data : bytes) : option (Z * sch_pdu) :=
  s ← get p;
  if has_space_sdu p (zlen data) then
    b ← append_bytes (buffer_tx p) data;
    let p1 := set_buffer p b in
    let p2 := snd (update_space_sdu p1 (zlen data)) in
    Some (zlen data, put p2 (mk_subh lc (zlen data) (payload s) (w_payload_ce s) (nof_mch_sched_ce s)
                               (cur_mch_sched_ce s) (F_bit s) (stype s)))
  else Some (-1, p).

(** [set_sdu] with a [read_pdu_interface]: [rd lc requested] is the size returned by
    [read_pdu] and the bytes it wrote at the current position. *)
Definition set_sdu_itf (p : sch_pdu) (lc requested : Z) (rd : Z -> Z -> Z * bytes) : option (Z * sch_pdu) :=
  s ← get p;
  if has_space_sdu p requested then
    let off := msg (buffer_tx p) + N_bytes (buffer_tx p) in
    let '(sz, data) := rd lc requested in
    m ← store (buffer (buffer_tx p)) off data;
    let b := mk_byte_buffer (N_bytes (buffer_tx p)) m (msg (buffer_tx p)) (md_pdcp_sn (buffer_tx p)) in
    let s1 n := mk_subh lc n (Some off) (w_payload_ce s) (nof_mch_sched_ce s) (cur_mch_sched_ce s)
                  (F_bit s) (stype s) in
    let p1 n := put (set_buffer p b) (s1 n) in
    if sz <? 0 then Some (-1, p1 (nof_bytes s))
    else if sz =? 0 then Some (0, p1 (nof_bytes s))
    else if requested <? sz then Some (-1, p1 sz)
    else
      let p2 := snd (update_space_sdu (p1 sz) sz) in
      let b2 := mk_byte_buffer (u32 (N_bytes b + sz)) m (msg b) (md_pdcp_sn b) in
      Some (sz, set_buffer p2 b2)
  else Some (-1, p).

(** ** Writing *)

(** [write_subheader]: the bytes written. *)
Definition write_subheader (s : sch_subh) (is_last : bool) : bytes :=
  Z.lor (if is_last then 0 else Z.shiftl 1 5) (Z.land (u8 (lcid s)) 0x1f) ::
  (if (is_sdu s || is_var_len_ce s) && negb is_last then
     if 128 <=? nof_bytes s then
       [Z.lor (Z.shiftl 1 7) (Z.shiftr (Z.land (nof_bytes s) 0x7f00) 8); Z.land (nof_bytes s) 0xff]
     else [Z.land (nof_bytes s) 0x7f]
   else []).

(** [write_payload] of a control element: its bytes, and the subheader with the size
    of the element. *)
Definition write_payload (s : sch_subh) (is_ul : bool) : option (bytes * sch_subh) :=
  if is_sdu s then Some ([], s)
  else
    let n := sizeof_ce s (lcid s) is_ul in
    bs ← load_bytes (w_payload_ce s) 0 n;
    Some (bs, mk_subh (lcid s) n (payload s) (w_payload_ce s) (nof_mch_sched_ce s) (cur_mch_sched_ce s)
                (F_bit s) (stype s)).

(** The subheaders in use with their index. *)
Definition used (p : sch_pdu) : list (Z * sch_subh) :=
  zip (seqZ 0 (nof_subheaders p)) (ztake (nof_subheaders p) (subheaders p)).

Fixpoint write_payloads (l : list sch_subh) (is_ul : bool) : option (bytes * list sch_subh) :=
  match l with
  | [] => Some ([], [])
  | s :: l' =>
      '(bs, s1) ← write_payload s is_ul;
      '(bs', l1) ← write_payloads l' is_ul;
      Some (bs ++ bs', s1 :: l1)
  end.

(** The padding of [write_packet]: whether a subheader with a length-less padding
    follows, how many padding bytes it has, how many one-byte padding subheaders are
    put in front. *)
Definition padding_of (p : sch_pdu) : bool * Z * Z :=
  let num_padding := rem_len p in
  let ce_only := last_sdu_idx p <? 0 in
  if 2 <? num_padding then
    let n1 := u32 (num_padding - 1) in
    let n2 := if ce_only then n1
              else match subh_at p (last_sdu_idx p) with
                   | Some s => u32 (n1 - u32 (get_header_size s false - 1))
                   | None => n1
                   end in
    (true, n2, 0)
  else if 0 <? num_padding then (false, 0, num_padding) else (false, 0, 0).

Definition header_size (p : sch_pdu) : Z :=
  let '(multi, _, onetwo) := padding_of p in
  foldl (fun acc '(i, s) => u32 (acc + get_header_size s (negb multi && (i =? last_sdu_idx p)))) 0 (used p)
    + (if multi then 1 else onetwo).

Definition ce_payload_size (p : sch_pdu) : Z :=
  foldl (fun acc '(i, s) => if is_sdu s then acc else u32 (acc + get_payload_size s)) 0 (used p).

(** The subheaders in the order in which they are written. *)
Definition header_bytes (p : sch_pdu) : bytes :=
  let '(multi, num_padding, onetwo) := padding_of p in
  let ce_only := last_sdu_idx p <? 0 in
  let pad := set_padding (subh_new SCH_SUBH_TYPE) in
  mjoin (repeat (write_subheader (pad 0) (negb (onetwo <? pdu_len p))) (Z.to_nat onetwo)) ++
  mjoin (map (fun '(i, s) => if is_sdu s then []
           else write_subheader s (ce_only && negb multi && (i =? nof_subheaders p - 1))) (used p)) ++
  (if ce_only then [] else
     mjoin (map (fun '(i, s) => if is_sdu s then write_subheader s (negb multi && (i =? last_sdu_idx p))
              else []) (used p))) ++
  (if multi then write_subheader (pad num_padding) true else []).

(** [write_packet]: the flag is whether the result is not null. *)
Definition write_packet (p : sch_pdu) : option (bool * sch_pdu) :=
  let '(multi, num_padding, onetwo) := padding_of p in
  let total_header_size := u32 (header_size p + ce_payload_size p) in
  let b := buffer_tx p in
  if get_headroom b <? total_header_size then Some (false, p)
  else
    let off := msg b - total_header_size in
    '(ces, subs) ← write_payloads (ztake (nof_subheaders p) (subheaders p)) (pdu_is_ul p);
    m ← store (buffer b) off (header_bytes p ++ ces);
    let b1 := mk_byte_buffer (u32 (N_bytes b + total_header_size)) m off (md_pdcp_sn b) in
    let p1 := set_buffer (set_subheaders p (subs ++ zdrop (nof_subheaders p) (subheaders p))) b1 in
    if get_tailroom b1 <? num_padding then Some (false, p1)
    else
      b2 ← (if 0 <? num_padding then append_bytes b1 (repeat 0 (Z.to_nat num_padding)) else Some b1);
      Some (N_bytes b2 =? pdu_len p, set_buffer p1 b2).

(** ** Parsing *)

(** [read_subheader] at position [ptr] of the packet: the extension bit, the
    subheader and the position after it. *)
Definition read_subheader (s : sch_subh) (is_ul : bool) (mem : bytes) (ptr : Z)
  : option (bool * sch_subh * Z) :=
  b0 ← load mem ptr;
  let e_bit := negb (Z.land b0 0x20 =? 0) in
  let s0 n f := mk_subh (Z.land b0 0x1f) n (payload s) (w_payload_ce s) (nof_mch_sched_ce s)
                  (cur_mch_sched_ce s) f (stype s) in
  let s1 := s0 (nof_bytes s) (F_bit s) in
  if is_sdu s1 || is_var_len_ce s1 then
    if e_bit then
      b1 ← load mem (ptr + 1);
      let f := negb (Z.land b1 0x80 =? 0) in
      let n := Z.land b1 0x7f in
      if f then
        b2 ← load mem (ptr + 2);
        Some (e_bit, s0 (Z.lor (Z.shiftl n 8) (Z.land b2 0xff)) f, ptr + 3)
      else Some (e_bit, s0 n f, ptr + 2)
    else Some (e_bit, s0 0 false, ptr + 1)
  else Some (e_bit, s0 (sizeof_ce s1 (lcid s1) is_ul) (F_bit s), ptr + 1).

Definition read_payload (s : sch_subh) (ptr : Z) : sch_subh * Z :=
  (mk_subh (lcid s) (nof_bytes s) (Some ptr) (w_payload_ce s) (nof_mch_sched_ce s) (cur_mch_sched_ce s)
     (F_bit s) (stype s), ptr + nof_bytes s).

(** The first loop of [parse_packet]: [done_] are the subheaders read, [todo] the
    others.  The result is [None] for a read outside of the memory and [inr] for a
    corrupted PDU. *)
Fixpoint parse_subheaders (len : Z) (is_ul : bool) (mem : bytes) (done_ todo : list sch_subh) (ptr : Z)
  : option (list sch_subh * list sch_subh * Z + list sch_subh) :=
  match todo with
  | [] => Some (inl (done_, [], ptr))
  | s :: todo' =>
      '(ret, s1, ptr1) ← read_subheader s is_ul mem ptr;
      let done1 := done_ ++ [s1] in
      if (ret : bool) && (len <=? ptr1) then Some (inr (done1 ++ todo'))
      else if ret && (zlen done1 + 1 <? zlen (done1 ++ todo')) && (ptr1 <? len)
      then parse_subheaders len is_ul mem done1 todo' ptr1
      else Some (inl (done1, todo', ptr1))
  end.

(** The second loop: [false] when a payload ends beyond the PDU. *)
Fixpoint parse_payloads (len : Z) (l : list sch_subh) (ptr : Z) : bool * list sch_subh :=
  match l with
  | [] => (true, [])
  | s :: l' =>
      let '(s1, ptr1) := read_payload s ptr in
      if len <? ptr1 then (false, s1 :: l')
      else let '(ok, l1) := parse_payloads len l' ptr1 in (ok, s1 :: l1)
  end.

(** [pdu::parse_packet]: the flag is [SRSRAN_SUCCESS]. *)
Definition pdu_parse_packet (p : sch_pdu) (mem : bytes) : option (bool * sch_pdu) :=
  r ← parse_subheaders (i32 (pdu_len p)) (pdu_is_ul p) mem [] (subheaders p) 0;
  match r with
  | inr l => Some (false, set_nof (set_subheaders p l) 0)
  | inl (l, rest, ptr) =>
      let '(ok, l1) := parse_payloads (i32 (pdu_len p)) l ptr in
      Some (ok, set_nof (set_subheaders p (l1 ++ rest)) (if (ok : bool) then zlen l else 0))
  end.

(** [sch_pdu::parse_packet]: the size of the last subheader's payload is what the
    others leave. *)
Definition parse_packet (t : subh_type) (p : sch_pdu) (mem : bytes) : option sch_pdu :=
  '(_, p1) ← pdu_parse_packet p mem;
  let n := nof_subheaders p1 in
  if 0 <? n then
    let read_len := foldl (fun acc s => u32 (acc + size_plus_header s)) 0 (ztake (n - 1) (subheaders p1)) in
    let n_sub := i32 (pdu_len p1 - read_len - 1) in
    if 0 <=? n_sub then
      Some (set_subheaders p1 (alter (fun s => set_payload_size s n_sub) (Z.to_nat (n - 1)) (subheaders p1)))
    else Some (pdu_init t p1 (buffer_tx p1) (pdu_len p1) (pdu_is_ul p1))
  else Some p1.

(** ** Random access response *)

Inductive rar_subh_type_t := BACKOFF | RAPID.

#[export] Instance rar_subh_type_eq_dec : EqDecision rar_subh_type_t.
Proof. solve_decision. Defined.

Definition RAR_GRANT_LEN : nat := 20.

(** [grant] holds one bit per byte. *)
Record rar_subh := mk_rar {
  rar_grant : list Z;
  rar_ta : Z;
  rar_temp_rnti : Z;
  rar_preamble : Z;
  rar_type : rar_subh_type_t
}.

Definition rar_init (r : rar_subh) : rar_subh :=
  mk_rar (repeat 0 RAR_GRANT_LEN) 0 0 (rar_preamble r) (rar_type r).

Definition rar_write_subheader (r : rar_subh) (is_last : bool) : bytes :=
  [Z.lor (Z.lor (Z.shiftl (b2z (negb is_last)) 7) (Z.shiftl 1 6)) (Z.land (rar_preamble r) 0x3f)].

(** [srsran_bit_pack] of 8 bits and [srsran_bit_unpack]. *)
Definition bit_pack8 (l : list Z) : Z :=
  foldl (fun acc '(i, b) => Z.lor acc (Z.shiftl b (8 - i - 1))) 0 (zip (seqZ 0 8) l).
Definition bit_unpack8 (v : Z) : list Z :=
  map (fun i => Z.land (Z.shiftr v i) 1) [7; 6; 5; 4; 3; 2; 1; 0].

Definition rar_write_payload (r : rar_subh) : bytes :=
  let g i := default 0 (rar_grant r !! i) in
  [Z.shiftr (Z.land (rar_ta r) 0x7f0) 4;
   u8 (Z.lor (Z.lor (Z.lor (Z.lor (u8 (Z.shiftl (Z.land (rar_ta r) 0xf) 4)) (Z.shiftl (g 0%nat) 3))
      (Z.shiftl (g 1%nat) 2)) (Z.shiftl (g 2%nat) 1)) (g 3%nat));
   u8 (bit_pack8 (drop 4 (rar_grant r)));
   u8 (bit_pack8 (drop 12 (rar_grant r)));
   Z.shiftr (Z.land (rar_temp_rnti r) 0xff00) 8;
   Z.land (rar_temp_rnti r) 0x00ff].

(** [rar_pdu::write_packet] on the subheaders in use: [None] for the failure. *)
Definition rar_write_packet (backoff : option Z) (rars : list rar_subh) (rem : Z) : option bytes :=
  let n := zlen rars in
  let bi := match backoff with
            | Some b => [Z.lor (Z.land b 0xf) (if 0 <? n then Z.shiftl 1 7 else 0)]
            | None => []
            end in
  let out := bi ++ mjoin (imap (fun i r => rar_write_subheader r (Z.of_nat i =? n - 1)) rars) ++
             mjoin (map rar_write_payload rars) in
  if i32 (rem - zlen out) <? 0 then None else Some (out ++ repeat 0 (Z.to_nat (rem - zlen out))).

(** [read_subheader]: the extension bit, the subheader and the backoff indicator of
    the parent. *)
Definition rar_read_subheader (r : rar_subh) (backoff : option Z) (mem : bytes) (ptr : Z)
  : option (bool * rar_subh * option Z * Z) :=
  b0 ← load mem ptr;
  let e_bit := negb (Z.land b0 0x80 =? 0) in
  if negb (Z.land b0 0x40 =? 0)
  then Some (e_bit, mk_rar (rar_grant r) (rar_ta r) (rar_temp_rnti r) (Z.land b0 0x3f) RAPID, backoff, ptr + 1)
  else Some (e_bit, mk_rar (rar_grant r) (rar_ta r) (rar_temp_rnti r) (rar_preamble r) BACKOFF,
             Some (Z.land b0 0xf), ptr + 1).

Definition rar_read_payload (r : rar_subh) (mem : bytes) (ptr : Z) : option (rar_subh * Z) :=
  if decide (rar_type r = RAPID) then
    p0 ← load mem ptr; p1 ← load mem (ptr + 1); p2 ← load mem (ptr + 2);
    p3 ← load mem (ptr + 3); p4 ← load mem (ptr + 4); p5 ← load mem (ptr + 5);
    let bit v := if negb (Z.land p1 v =? 0) then 1 else 0 in
    Some (mk_rar ([bit 0x8; bit 0x4; bit 0x2; bit 0x1] ++ bit_unpack8 p2 ++ bit_unpack8 p3)
            (Z.lor (Z.shiftl (Z.land p0 0x7f) 4) (Z.shiftr (Z.land p1 0xf0) 4))
            (Z.lor (Z.shiftl p4 8) p5) (rar_preamble r) (rar_type r), ptr + 6)
  else Some (r, ptr).

(** ** Subheader round trip *)

(** A subheader that says [n] bytes for the channel [lc]. *)
Definition plain_subh (t : subh_type) (lc n : Z) : sch_subh := mk_subh lc n None (repeat 0 64) 0 0 false t.

(** Whether the channel [lc] has a length field. *)
Definition has_length (t : subh_type) (lc : Z) : bool :=
  match t with MCH_SUBH_TYPE => lc <? 31 | SCH_SUBH_TYPE => lc <=? 17 end.

Lemma has_length_spec s : 0 <= lcid s < 32 -> is_sdu s || is_var_len_ce s = has_length (stype s) (lcid s).
Proof.
  unfold is_sdu, is_var_len_ce, mch_ce_type, has_length, lcid_is_sdu, mch_is_sdu, mch_is_mac_ce, ul_is_sdu,
    MCH_SCHED_INFO, UL_RESERVED. intros H. destruct (stype s).
  - rewrite bool_decide_false by done. by rewrite andb_false_r, orb_false_r.
  - rewrite bool_decide_true, andb_true_r by done.
    destruct (Z.ltb_spec (lcid s) 30), (Z.leb_spec 30 (lcid s)), (Z.ltb_spec (lcid s) 31),
      (Z.eqb_spec 30 (lcid s)); cbn; lia || done.
Qed.

Lemma subh_first_byte lc (e : bool) : 0 <= lc < 32 ->
  let b := Z.lor (if e then Z.shiftl 1 5 else 0) (Z.land (u8 lc) 0x1f) in
  Z.land b 0x1f = lc /\ negb (Z.land b 0x20 =? 0) = e.
Proof.
  intros H.
  pose proof (range_forallb_spec 32 (fun lc => let b e := Z.lor (if (e : bool) then Z.shiftl 1 5 else 0) (Z.land (u8 lc) 0x1f) in
    (Z.land (b true) 0x1f =? lc) && negb (Z.land (b true) 0x20 =? 0) &&
    (Z.land (b false) 0x1f =? lc) && (Z.land (b false) 0x20 =? 0)) ltac:(vm_compute; reflexivity) lc H) as Hb.
  cbv beta zeta in Hb. zify_bools. destruct e; cbv zeta; (split; [by apply Z.eqb_eq|]);
    rewrite ?negb_true_iff, ?negb_false_iff; assumption.
Qed.

Lemma length_short n : 0 <= n < 128 -> Z.land (Z.land n 0x7f) 0x7f = n /\ Z.land (Z.land n 0x7f) 0x80 = 0.
Proof.
  intros H. pose proof (range_forallb_spec 128 (fun n => (Z.land (Z.land n 0x7f) 0x7f =? n) &&
    (Z.land (Z.land n 0x7f) 0x80 =? 0)) ltac:(vm_compute; reflexivity) n H) as Hb.
  cbv beta in Hb. zify_bools. by split; apply Z.eqb_eq.
Qed.

Lemma length_long n : 0 <= n < 32768 ->
  let b1 := Z.lor (Z.shiftl 1 7) (Z.shiftr (Z.land n 0x7f00) 8) in
  Z.lor (Z.shiftl (Z.land b1 0x7f) 8) (Z.land (Z.land n 0xff) 0xff) = n /\ (Z.land b1 0x80 =? 0) = false.
Proof.
  intros H. cbv zeta. set (hi := Z.shiftr (Z.land n 0x7f00) 8).
  assert (Hhi : hi = Z.land (Z.shiftr n 8) 0x7f) by (unfold hi; by rewrite Z.shiftr_land).
  assert (Hb : 0 <= hi < 128) by (rewrite Hhi; apply (land_ones_bound 7); lia).
  pose proof (range_forallb_spec 128 (fun h => (Z.land (Z.lor (Z.shiftl 1 7) h) 0x7f =? h) &&
    negb (Z.land (Z.lor (Z.shiftl 1 7) h) 0x80 =? 0)) ltac:(vm_compute; reflexivity) hi Hb) as Hbits.
  cbv beta in Hbits. zify_bools. split; [|done].
  match goal with E : (_ =? hi) = true |- _ => apply Z.eqb_eq in E; rewrite E end.
  replace n with (Z.land n (Z.ones 15)) at 2 by (rewrite Z.land_ones, Z.mod_small by lia; done).
  rewrite Hhi. change 0x7f with (Z.ones 7). change 0xff with (Z.ones 8). Z.bitblast.
Qed.

(** The size that [read_subheader] gives to a control element without length. *)
Definition ce_len (t : subh_type) (lc : Z) (is_ul : bool) : Z :=
  match t with
  | SCH_SUBH_TYPE => if is_ul then ul_ce_size lc else dl_ce_size lc
  | MCH_SUBH_TYPE => 0
  end.

(** The subheader as written, and its length. *)
Definition wire_subh (t : subh_type) (lc n : Z) (is_last : bool) : bytes :=
  write_subheader (plain_subh t lc n) is_last.

Definition wire_subh_len (t : subh_type) (lc n : Z) (is_last : bool) : Z :=
  if has_length t lc && negb is_last then (if 128 <=? n then 3 else 2) else 1.

Lemma zlen_wire_subh t lc n is_last : 0 <= lc < 32 ->
  zlen (wire_subh t lc n is_last) = wire_subh_len t lc n is_last.
Proof.
  intros H. unfold wire_subh, wire_subh_len, write_subheader.
  rewrite has_length_spec by done. cbn [stype lcid plain_subh nof_bytes]. rewrite zlen_cons.
  destruct (has_length t lc && negb is_last); [|done]. by destruct (128 <=? n).
Qed.

Lemma read_subheader_wire t is_ul s0 lc n is_last pre post :
  stype s0 = t -> 0 <= lc < 32 -> 0 <= n < 32768 ->
  exists s1, read_subheader s0 is_ul (pre ++ wire_subh t lc n is_last ++ post) (zlen pre) =
      Some (negb is_last, s1, zlen pre + wire_subh_len t lc n is_last) /\
    lcid s1 = lc /\ stype s1 = t /\
    nof_bytes s1 = (if has_length t lc then (if is_last then 0 else n) else ce_len t lc is_ul).
Proof.
  intros Ht Hlc Hn. unfold read_subheader.
  replace (load (pre ++ _) (zlen pre)) with (load (wire_subh t lc n is_last ++ post) 0)
    by (rewrite <- (load_app_r pre _ 0), Z.add_0_r by lia; done).
  rewrite !load_app_r by lia.
  unfold wire_subh, wire_subh_len, write_subheader. rewrite has_length_spec by done.
  cbn [stype lcid plain_subh nof_bytes].
  destruct (subh_first_byte lc (negb is_last) Hlc) as [E1 E2].
  replace (if is_last then 0 else Z.shiftl 1 5) with (if negb is_last then Z.shiftl 1 5 else 0) by (by destruct is_last).
  set (b0 := Z.lor _ _) in *. cbn [app]. rewrite load_cons_0. cbn [mbind option_bind].
  rewrite E2. rewrite has_length_spec by (cbn [lcid]; rewrite E1; done). cbn [stype lcid]. rewrite E1, Ht.
  destruct (has_length t lc) eqn:Hl; cbn [andb].
  - destruct is_last; cbn [negb].
    + eexists. split; [reflexivity|]. done.
    + destruct (Z.leb_spec 128 n) as [Hbig|Hsmall].
      * destruct (length_long n Hn) as [E3 E4]. cbn [app].
        rewrite (load_cons_S _ _ 1), (load_cons_S _ _ 2) by lia. change (1 - 1) with 0.
        rewrite load_cons_S by lia. change (2 - 1 - 1) with 0. rewrite !load_cons_0.
        cbn [mbind option_bind]. rewrite E4. cbn [negb mbind option_bind]. rewrite E3. eexists. split; [reflexivity|]. done.
      * destruct (length_short n ltac:(lia)) as [E3 E4]. cbn [app].
        rewrite (load_cons_S _ _ 1) by lia. change (1 - 1) with 0. rewrite load_cons_0.
        cbn [mbind option_bind]. rewrite E4. cbn [Z.eqb negb]. rewrite E3. eexists. split; [reflexivity|]. done.
  - eexists. split; [reflexivity|]. cbn [lcid stype nof_bytes]. split_and!; [done..|].
    unfold sizeof_ce, ce_len. cbn [stype]. destruct t; [done|].
    destruct (Z.eqb_spec lc MCH_SCHED_INFO) as [->|]; [discriminate Hl|done].
Qed.
