(* ===== verification/MacPduWire.v ===== *)
(** * The MAC PDU on the wire

    A specification of the MAC PDU as a list of elements (SDUs and control elements)
    with its encoding, the proof that a PDU filled by the operations of [MacPdu]
    is written as this encoding and has exactly the length of the grant, and the
    proof that parsing the encoding gives the elements back. *)

From stdpp Require Import base list gmap numbers.
From S2P Require Import Prelude ByteBuffer MacPdu.

Local Open Scope Z_scope.

(** ** Elements *)

(** The logical channel and the payload. *)
Definition elem : Type := Z * bytes.

Section Wire.
Context (t : subh_type) (is_ul : bool).
Implicit Types e : elem.

Definition elem_sdu e : bool :=
  match t with MCH_SUBH_TYPE => mch_is_sdu (fst e) | SCH_SUBH_TYPE => ul_is_sdu (fst e) end.

Definition sdus (l : list elem) : list elem := filter (fun e => elem_sdu e = true) l.
Definition ces (l : list elem) : list elem := filter (fun e => elem_sdu e = false) l.

(** An SDU has 1 to 32767 bytes; a control element has the size of its type. *)
Definition elem_ok e : Prop :=
  0 <= fst e < 32 /\
  if elem_sdu e then 0 < zlen (snd e) < 32768
  else if has_length t (fst e) then 0 < zlen (snd e) < 128
       else zlen (snd e) = ce_len t (fst e) is_ul.

Lemma elem_sdu_has_length e : elem_sdu e = true -> has_length t (fst e) = true.
Proof.
  unfold elem_sdu, has_length, mch_is_sdu, ul_is_sdu, MCH_SCHED_INFO, UL_RESERVED.
  destruct t; [done|]. intros H. apply Z.ltb_lt in H. apply Z.ltb_lt. lia.
Qed.

Definition hdr e (is_last : bool) : bytes := wire_subh t (fst e) (zlen (snd e)) is_last.
Definition subh_len e (is_last : bool) : Z := wire_subh_len t (fst e) (zlen (snd e)) is_last.

Lemma zlen_hdr e is_last : elem_ok e -> zlen (hdr e is_last) = subh_len e is_last.
Proof. intros [H _]. by apply zlen_wire_subh. Qed.

Lemma subh_len_last e : subh_len e true = 1.
Proof. unfold subh_len, wire_subh_len. by rewrite andb_false_r. Qed.

Lemma subh_len_bounds e is_last : 1 <= subh_len e is_last <= 3.
Proof. unfold subh_len, wire_subh_len. repeat case_if; lia. Qed.

(** Size of an element with its subheader, when another subheader follows. *)
Definition full_size e : Z := subh_len e false + zlen (snd e).

Fixpoint sum_sizes (l : list elem) : Z :=
  match l with [] => 0 | e :: l' => full_size e + sum_sizes l' end.

(** The last SDU's subheader is shorter when it ends the header. *)
Definition growth (l : list elem) : Z :=
  match rev (sdus l) with e :: _ => subh_len e false - 1 | [] => 0 end.

(** The bytes that the elements need. *)
Definition needed (l : list elem) : Z := sum_sizes l - growth l.

(** ** Encoding *)

(** The subheaders before the last one, and the last one, when [rem] bytes are left
    to pad. *)
Definition pad_elem (n : Z) : elem := (PADDING, repeat 0 (Z.to_nat n)).

Definition front_elems (l : list elem) (rem : Z) : list elem :=
  if 2 <? rem then ces l ++ sdus l
  else repeat (pad_elem 0) (Z.to_nat rem) ++ ces l ++ removelast (sdus l).

Definition last_elem (l : list elem) (rem : Z) : elem :=
  if 2 <? rem then pad_elem (rem - 1 - growth l)
  else List.last (sdus l) (pad_elem 0).

Definition wire_headers (ws : list elem) (w : elem) : bytes :=
  mjoin (map (fun e => hdr e false) ws) ++ hdr w true.

Definition encode (l : list elem) (rem : Z) : bytes :=
  wire_headers (front_elems l rem) (last_elem l rem) ++
  mjoin (map snd (front_elems l rem)) ++ snd (last_elem l rem).

(** Bytes of the elements give bytes on the wire. *)
Lemma hdr_bytes_ok e b : bytes_ok (hdr e b).
Proof.
  unfold hdr, wire_subh, write_subheader. cbn [lcid nof_bytes plain_subh]. set (n := zlen (snd e)).
  assert (L : forall x k, 0 <= k -> 0 <= Z.land x (Z.ones k) < 2 ^ k) by (intros x k Hk; rewrite Z.land_ones by done; apply Z.mod_pos_bound; lia).
  pose proof (L (u8 (fst e)) 5 ltac:(lia)) as L5. change (Z.ones 5) with 0x1f in L5. pose proof (L n 8 ltac:(lia)) as L8. change (Z.ones 8) with 0xff in L8.
  pose proof (L n 7 ltac:(lia)) as L7. change (Z.ones 7) with 0x7f in L7.
  assert (L15 : 0 <= Z.shiftr (Z.land n 0x7f00) 8 < 2 ^ 7).
  { rewrite Z.shiftr_land. change (Z.shiftr 0x7f00 8) with (Z.ones 7). apply L. lia. }
  unfold bytes_ok. apply Forall_cons_2; [apply lor_bound; [lia|by destruct b|lia]|].
  destruct ((is_sdu _ || _) && _); [|apply Forall_nil_2]. destruct (128 <=? n); repeat (apply Forall_cons_2; [|]); try apply Forall_nil_2; unfold is_u8; try lia.
  apply lor_bound; [lia|done|lia].
Qed.

Lemma encode_bytes_ok l rem : Forall (fun e => bytes_ok (snd e)) l -> bytes_ok (encode l rem).
Proof.
  intros Hl. set (P := fun e : elem => bytes_ok (snd e)). rewrite List.Forall_forall in Hl.
  assert (Hs : Forall P (sdus l)) by (apply List.Forall_forall; intros x Hx; apply list_elem_of_In, list_elem_of_filter in Hx as [_ Hx]; by apply Hl, list_elem_of_In).
  assert (Hc : Forall P (ces l)) by (apply List.Forall_forall; intros x Hx; apply list_elem_of_In, list_elem_of_filter in Hx as [_ Hx]; by apply Hl, list_elem_of_In).
  assert (Hp : forall n, P (pad_elem n)) by (intros n; apply List.Forall_forall; intros x Hx%repeat_spec; subst x; unfold is_u8; lia).
  assert (Hf : Forall P (front_elems l rem)).
  { unfold front_elems. destruct (2 <? rem); rewrite ?Forall_app; [done|]. split_and!; [|done|].
    - apply List.Forall_forall. intros x Hx%repeat_spec. by subst x.
    - rewrite removelast_firstn_len. by apply Forall_take. }
  assert (Hw : P (last_elem l rem)).
  { unfold last_elem. destruct (2 <? rem); [done|]. destruct (sdus l) as [|x r] eqn:E; [apply Hp|].
    rewrite (app_removelast_last (pad_elem 0) (l := x :: r)) in Hs by done. apply Forall_app in Hs as [_ Hs]. by inversion Hs. }
  assert (Hj : forall (f : elem -> bytes) es, Forall (fun e => bytes_ok (f e)) es -> bytes_ok (mjoin (map f es))).
  { intros f es. induction 1 as [|x es Hx _ IH]; [apply Forall_nil_2|]. cbn. by apply bytes_ok_app. }
  unfold encode, wire_headers. rewrite !bytes_ok_app. split_and!; [|apply hdr_bytes_ok|by apply Hj|done]. apply Hj, List.Forall_forall. intros x _. apply hdr_bytes_ok.
Qed.

(** ** Parsing *)

(** What [read_subheader] leaves in the subheader of [e]. *)
Definition read_as (is_last : bool) e (s : sch_subh) : Prop :=
  lcid s = fst e /\ stype s = t /\
  nof_bytes s = (if has_length t (fst e) then (if is_last then 0 else zlen (snd e)) else ce_len t (fst e) is_ul).

(** Elements whose size is announced as it is. *)
Definition front_ok e : Prop :=
  0 <= fst e < 32 /\ 0 <= zlen (snd e) < 32768 /\
  if has_length t (fst e) then 0 < zlen (snd e) else zlen (snd e) = ce_len t (fst e) is_ul.

Lemma elem_front_ok e : elem_ok e -> front_ok e.
Proof.
  intros [H1 H2]. split; [done|]. pose proof (elem_sdu_has_length e) as Hs.
  assert (Hc : 0 <= ce_len t (fst e) is_ul < 32768).
  { unfold ce_len, ul_ce_size, dl_ce_size. destruct t, is_ul; repeat case_if; lia. }
  destruct (elem_sdu e); [rewrite Hs by done; lia|].
  destruct (has_length t (fst e)); lia.
Qed.

Lemma pad_front_ok : front_ok (pad_elem 0).
Proof. split; [done|]. split; [done|]. unfold ce_len. by destruct t, is_ul. Qed.

Lemma parse_subheaders_wire w (Hw : 0 <= fst w < 32) (Hwn : 0 <= zlen (snd w) < 32768) len post : forall ws pre done_ todo,
  Forall front_ok ws -> Forall (fun s => stype s = t) todo ->
  (length ws + 2 <= length todo)%nat -> zlen pre + zlen (wire_headers ws w) <= len ->
  exists l s rest, parse_subheaders len is_ul (pre ++ wire_headers ws w ++ post) done_ todo (zlen pre) =
      Some (inl (done_ ++ l ++ [s], rest, zlen pre + zlen (wire_headers ws w))) /\
    Forall2 (read_as false) ws l /\ read_as true w s /\ rest = drop (S (length ws)) todo.
Proof.
  induction ws as [|e ws IH]; intros pre done_ todo Hws Htodo Hlen Hsz.
  - destruct todo as [|s0 todo]; [cbn in Hlen; lia|]. apply Forall_cons_1 in Htodo as [Hs0 Htodo].
    cbn [parse_subheaders]. unfold wire_headers in *. cbn [map mjoin list_join app] in *.
    destruct (read_subheader_wire t is_ul s0 (fst w) (zlen (snd w)) true pre post Hs0 Hw Hwn) as (s1 & Hr & R1 & R2 & R3).
    unfold hdr. rewrite Hr. cbn [mbind option_bind negb andb].
    eexists [], s1, todo. split.
    + rewrite <- zlen_wire_subh by done. done.
    + split; [constructor|]. split; [|done]. split_and!; [done|done|]. by rewrite R3.
  - destruct todo as [|s0 todo]; [cbn in Hlen; lia|]. apply Forall_cons_1 in Htodo as [Hs0 Htodo].
    apply Forall_cons_1 in Hws as [(He1 & He2 & He3) Hws]. cbn [length] in Hlen.
    cbn [parse_subheaders].
    set (post' := wire_headers ws w ++ post).
    assert (E : wire_headers (e :: ws) w ++ post = hdr e false ++ post').
    { unfold post', wire_headers. cbn [map mjoin list_join]. by rewrite <- !app_assoc. }
    assert (Ez : zlen (wire_headers (e :: ws) w) = subh_len e false + zlen (wire_headers ws w)).
    { unfold wire_headers. cbn [map mjoin list_join]. rewrite !zlen_app. unfold subh_len.
      rewrite <- (zlen_wire_subh t _ (zlen (snd e))) by done. unfold hdr. rewrite <- Z.add_assoc. reflexivity. }
    assert (Hpos : 0 < zlen (wire_headers ws w)).
    { unfold wire_headers. rewrite zlen_app. pose proof (zlen_nonneg (mjoin (map (fun e => hdr e false) ws))).
      pose proof (subh_len_bounds w true) as Hb. unfold subh_len in Hb. rewrite <- zlen_wire_subh in Hb by done.
      unfold hdr in *. lia. }
    rewrite E. destruct (read_subheader_wire t is_ul s0 (fst e) (zlen (snd e)) false pre post' Hs0 He1 He2)
      as (s1 & Hr & R1 & R2 & R3).
    change (wire_subh t (fst e) (zlen (snd e)) false) with (hdr e false) in Hr. rewrite Hr. cbn [mbind option_bind negb andb].
    fold (subh_len e false). rewrite Ez in Hsz.
    destruct (Z.leb_spec len (zlen pre + subh_len e false)); [lia|].
    destruct (Z.ltb_spec (zlen pre + subh_len e false) len); [|lia].
    rewrite !zlen_app. change (zlen [s1]) with 1.
    destruct (Z.ltb_spec (zlen done_ + 1 + 1) (zlen done_ + 1 + zlen todo)); [|unfold zlen in *; lia].
    cbn [andb].
    assert (Ep : zlen pre + subh_len e false = zlen (pre ++ hdr e false)).
    { rewrite zlen_app. unfold hdr, subh_len. by rewrite zlen_wire_subh. }
    rewrite (app_assoc pre (hdr e false) post').
    rewrite Ep. unfold post'.
    destruct (IH (pre ++ hdr e false) (done_ ++ [s1]) todo) as (l & s & rest & Hp & F & Hl & Hrest); try done; [lia|lia|].
    rewrite Hp. exists (s1 :: l), s, rest. split; [|split; [|done]].
    + rewrite <- !app_assoc. cbn [app]. by rewrite <- Ep, Ez, Z.add_assoc.
    + constructor; [|done]. split_and!; [done|done|by rewrite R3].
Qed.

(** ** Payloads *)

(** The payload positions given by [read_payload] from [ptr] on. *)
Fixpoint place (ptr : Z) (l : list sch_subh) : list sch_subh :=
  match l with
  | [] => []
  | s :: l' => fst (read_payload s ptr) :: place (ptr + nof_bytes s) l'
  end.

Fixpoint sum_bytes (l : list sch_subh) : Z :=
  match l with [] => 0 | s :: l' => nof_bytes s + sum_bytes l' end.

Lemma parse_payloads_place len l : forall ptr,
  Forall (fun s => 0 <= nof_bytes s) l -> ptr + sum_bytes l <= len ->
  parse_payloads len l ptr = (true, place ptr l).
Proof.
  induction l as [|s l IH]; intros ptr Hn Hs; cbn [parse_payloads place sum_bytes] in *; [done|].
  apply Forall_cons_1 in Hn as [Hn Hl]. cbn [read_payload fst].
  assert (0 <= sum_bytes l).
  { clear -Hl. induction Hl; cbn [sum_bytes]; lia. }
  destruct (Z.ltb_spec len (ptr + nof_bytes s)); [lia|]. by rewrite IH by (done || lia).
Qed.

(** The elements of a parsed PDU in [mem]. *)
Definition decode_subh (mem : bytes) (s : sch_subh) : option elem :=
  off ← payload s; d ← load_bytes mem off (nof_bytes s); Some (lcid s, d).

Fixpoint decode_all (mem : bytes) (l : list sch_subh) : option (list elem) :=
  match l with
  | [] => Some []
  | s :: l' => e ← decode_subh mem s; es ← decode_all mem l'; Some (e :: es)
  end.

Definition decoded (p : sch_pdu) (mem : bytes) : option (list elem) :=
  decode_all mem (ztake (nof_subheaders p) (subheaders p)).

(** [s] announces exactly [e]. *)
Definition announces e (s : sch_subh) : Prop := lcid s = fst e /\ nof_bytes s = zlen (snd e).

Lemma load_bytes_at pre d post : load_bytes (pre ++ d ++ post) (zlen pre) (zlen d) = Some d.
Proof.
  pose proof (zlen_nonneg pre). pose proof (zlen_nonneg d). pose proof (zlen_nonneg post).
  rewrite load_bytes_Some by (rewrite ?zlen_app; lia).
  by rewrite zdrop_app_eq, ztake_app_eq.
Qed.

Lemma decode_place es : forall l pre post,
  Forall2 announces es l ->
  decode_all (pre ++ mjoin (map snd es) ++ post) (place (zlen pre) l) = Some es.
Proof.
  induction es as [|[lc d] es IH]; intros l pre post Hf.
  - apply Forall2_nil_inv_l in Hf as ->. done.
  - apply Forall2_cons_inv_l in Hf as (s & l' & [H1 H2] & Hf & ->). cbn [fst snd] in *.
    cbn [place map decode_all snd]. change (mjoin (d :: map snd es)) with (d ++ mjoin (map snd es)).
    unfold decode_subh. cbn [read_payload fst payload nof_bytes lcid mbind option_bind].
    rewrite H2, <- app_assoc, load_bytes_at. cbn [mbind option_bind].
    replace (zlen pre + zlen d) with (zlen (pre ++ d)) by (by rewrite zlen_app).
    rewrite (app_assoc pre d). rewrite (IH l' (pre ++ d) post Hf). cbn [mbind option_bind].
    by rewrite H1.
Qed.

(** ** The length of the encoding *)

Lemma sum_sizes_app l1 l2 : sum_sizes (l1 ++ l2) = sum_sizes l1 + sum_sizes l2.
Proof. induction l1; cbn [sum_sizes app]; lia. Qed.

Lemma full_size_pos e : 1 <= full_size e.
Proof. unfold full_size. pose proof (subh_len_bounds e false). pose proof (zlen_nonneg (snd e)). lia. Qed.

Lemma sum_sizes_nonneg l : 0 <= sum_sizes l.
Proof. induction l as [|e l IH]; cbn [sum_sizes]; [done|]. pose proof (full_size_pos e). lia. Qed.

Lemma sum_sizes_split l : sum_sizes l = sum_sizes (ces l) + sum_sizes (sdus l).
Proof.
  induction l as [|e l IH]; cbn [sum_sizes]; [done|]. unfold ces, sdus in *. rewrite !filter_cons.
  destruct (elem_sdu e) eqn:E; repeat (destruct (decide _); try congruence); cbn [sum_sizes]; lia.
Qed.

Lemma sum_sizes_pads n : sum_sizes (repeat (pad_elem 0) n) = Z.of_nat n.
Proof.
  assert (E : full_size (pad_elem 0) = 1) by (unfold full_size, subh_len, wire_subh_len, has_length; by destruct t).
  induction n; cbn [sum_sizes repeat]; [done|]. rewrite E. lia.
Qed.

Lemma mjoin_cons {A} (x : list A) l : mjoin (x :: l) = x ++ mjoin l.
Proof. reflexivity. Qed.

Lemma zlen_headers ws :
  Forall front_ok ws ->
  zlen (mjoin (map (fun e => hdr e false) ws)) + zlen (mjoin (map snd ws)) = sum_sizes ws.
Proof.
  induction 1 as [|e ws [He _] _ IH]; [done|]. cbn [map sum_sizes]. rewrite !mjoin_cons, !zlen_app.
  unfold full_size, subh_len. unfold hdr at 1. rewrite zlen_wire_subh by done. lia.
Qed.

(** The last SDU. *)
Lemma sdus_snoc l : sdus l <> [] -> exists front e, sdus l = front ++ [e] /\
  growth l = subh_len e false - 1 /\ elem_sdu e = true.
Proof.
  intros Hn. destruct (exists_last Hn) as (front & e & E). exists front, e. split; [done|]. split.
  - unfold growth. by rewrite E, rev_app_distr.
  - assert (Hin : e ∈ sdus l) by (rewrite E; set_solver).
    by apply list_elem_of_filter in Hin as [? _].
Qed.

Lemma elems_split_ok l : Forall elem_ok l -> Forall elem_ok (ces l) /\ Forall elem_ok (sdus l).
Proof.
  intros H. rewrite List.Forall_forall in H.
  split; apply List.Forall_forall; intros e He; apply H, list_elem_of_In;
    apply list_elem_of_In, list_elem_of_filter in He as [_ ?]; done.
Qed.

(** The encoding as subheaders before the last one, and the last one. *)
Lemma encode_parts l rem : Forall elem_ok l -> sdus l <> [] -> 0 <= rem < 32768 ->
  Forall front_ok (front_elems l rem) /\ 0 <= fst (last_elem l rem) < 32 /\
  0 <= zlen (snd (last_elem l rem)) < 32768 /\
  sum_sizes (front_elems l rem) + 1 + zlen (snd (last_elem l rem)) = needed l + rem.
Proof.
  intros Hok Hn Hrem. destruct (elems_split_ok l Hok) as [Hc Hs].
  destruct (sdus_snoc l Hn) as (front & e & E & Hg & He). pose proof (subh_len_bounds e false) as Hb.
  unfold needed. rewrite (sum_sizes_split l). unfold front_elems, last_elem.
  assert (Hfo : forall es, Forall elem_ok es -> Forall front_ok es).
  { intros es. apply Forall_impl. apply elem_front_ok. }
  destruct (Z.ltb_spec 2 rem).
  - assert (Hpad : zlen (snd (pad_elem (rem - 1 - growth l))) = rem - 1 - growth l).
    { cbn. unfold zlen. rewrite repeat_length. lia. }
    rewrite Hpad, sum_sizes_app. split_and!; try done; try lia. apply Forall_app. auto.
  - rewrite E, removelast_app, List.last_last by done. cbn [removelast]. rewrite app_nil_r.
    rewrite E in Hs. apply Forall_app in Hs as [Hsf Hse]. apply Forall_cons_1 in Hse as [Hse _].
    destruct (elem_front_ok e Hse) as (H1 & H2 & _).
    rewrite !sum_sizes_app, sum_sizes_pads, Hg. cbn [sum_sizes]. unfold full_size.
    split_and!; try done; try lia. apply Forall_app. split; [|apply Forall_app; auto].
    apply List.Forall_forall. intros x Hx%repeat_spec. subst x. apply pad_front_ok.
Qed.

Lemma zlen_wire_headers ws w : Forall front_ok ws -> 0 <= fst w < 32 ->
  zlen (wire_headers ws w) + zlen (mjoin (map snd ws)) = sum_sizes ws + 1.
Proof.
  intros Hws Hw. unfold wire_headers. rewrite zlen_app, <- zlen_headers by done.
  unfold hdr at 2. rewrite zlen_wire_subh by done.
  pose proof (subh_len_last w) as E. unfold subh_len in E. rewrite E. lia.
Qed.

Lemma encode_length l rem : Forall elem_ok l -> sdus l <> [] -> 0 <= rem < 32768 ->
  zlen (encode l rem) = needed l + rem.
Proof.
  intros Hok Hn Hrem. destruct (encode_parts l rem Hok Hn Hrem) as (Hf & H1 & H2 & H3).
  unfold encode. rewrite !zlen_app. pose proof (zlen_wire_headers _ (last_elem l rem) Hf H1). lia.
Qed.

(** ** Parsing the encoding *)

Lemma place_app l1 l2 : forall ptr, place ptr (l1 ++ l2) = place ptr l1 ++ place (ptr + sum_bytes l1) l2.
Proof.
  induction l1 as [|s l1 IH]; intros ptr; cbn [place sum_bytes app]; [by rewrite Z.add_0_r|].
  rewrite IH. do 3 f_equal. lia.
Qed.

Lemma length_place l : forall ptr, length (place ptr l) = length l.
Proof. induction l; intros; cbn; auto. Qed.

Lemma sum_bytes_app l1 l2 : sum_bytes (l1 ++ l2) = sum_bytes l1 + sum_bytes l2.
Proof. induction l1; cbn [sum_bytes app]; lia. Qed.

Lemma alter_middle {A} (f : A -> A) l1 x l2 : alter f (length l1) (l1 ++ x :: l2) = l1 ++ f x :: l2.
Proof. induction l1; cbn; [done|]. by f_equal. Qed.

(** The front subheaders announce their elements. *)
Lemma front_announces ws l : Forall front_ok ws -> Forall2 (read_as false) ws l ->
  Forall2 announces ws l /\ sum_bytes l = zlen (mjoin (map snd ws)) /\ Forall (fun s => 0 <= nof_bytes s) l.
Proof.
  intros Hok Hf. induction Hf as [|e s ws l (R1 & R2 & R3) _ IH]; [by repeat constructor|].
  apply Forall_cons_1 in Hok as [(H1 & H2 & H3) Hok]. destruct (IH Hok) as (I1 & I2 & I3).
  assert (En : nof_bytes s = zlen (snd e)) by (rewrite R3; by destruct (has_length t (fst e))).
  split_and!; [by constructor| |constructor; [lia|done]].
  cbn [map sum_bytes]. rewrite mjoin_cons, zlen_app. lia.
Qed.

Lemma size_plus_header_front e s : front_ok e -> read_as false e s -> size_plus_header s = full_size e.
Proof.
  intros (H1 & H2 & H3) (R1 & R2 & R3). unfold size_plus_header. rewrite has_length_spec by (by rewrite R1).
  rewrite R1, R2. unfold full_size, subh_len, wire_subh_len.
  destruct (has_length t (fst e)) eqn:E; cbn [andb negb]; rewrite R3.
  - rewrite (u32_id (zlen (snd e))) by (unfold is_u32; lia). unfold size_header_sdu.
    destruct (Z.eqb_spec (zlen (snd e)) 0); [lia|].
    destruct (Z.ltb_spec (zlen (snd e)) 128), (Z.leb_spec 128 (zlen (snd e))); try lia;
      apply u32_id; unfold is_u32; lia.
  - rewrite <- H3. apply u32_id. unfold is_u32. lia.
Qed.

Lemma read_len_front ws l : forall ptr acc, Forall front_ok ws -> Forall2 (read_as false) ws l ->
  0 <= acc -> acc + sum_sizes ws < 2 ^ 32 ->
  foldl (fun acc s => u32 (acc + size_plus_header s)) acc (place ptr l) = acc + sum_sizes ws.
Proof.
  intros ptr acc Hok Hf. revert ptr acc. induction Hf as [|e s ws l Hr _ IH]; intros ptr acc Ha Hb; cbn [place foldl sum_sizes] in *.
  - lia.
  - apply Forall_cons_1 in Hok as [He Hok]. pose proof (sum_sizes_nonneg ws). pose proof (full_size_pos e).
    assert (E : size_plus_header (fst (read_payload s ptr)) = full_size e).
    { rewrite <- (size_plus_header_front e s He Hr). reflexivity. }
    rewrite E, u32_id by (unfold is_u32; lia). rewrite IH by (done || lia). lia.
Qed.

Lemma parse_encode p0 l rem junk :
  Forall elem_ok l -> sdus l <> [] -> 0 <= rem < 32768 -> pdu_len p0 = needed l + rem ->
  needed l + rem < 2 ^ 31 -> pdu_is_ul p0 = is_ul -> Forall (fun s => stype s = t) (subheaders p0) ->
  (length (front_elems l rem) + 2 <= length (subheaders p0))%nat ->
  exists p1, parse_packet t p0 (encode l rem ++ junk) = Some p1 /\
    decoded p1 (encode l rem ++ junk) = Some (front_elems l rem ++ [last_elem l rem]).
Proof.
  intros Hok Hn Hrem Hlen Hmax Hul Hty Hcnt.
  destruct (encode_parts l rem Hok Hn Hrem) as (Hf & H1 & H2 & H3).
  set (ws := front_elems l rem) in *. set (w := last_elem l rem) in *.
  pose proof (zlen_wire_headers ws w Hf H1) as Hz.
  pose proof (zlen_nonneg (mjoin (map snd ws))). pose proof (sum_sizes_nonneg ws).
  assert (Hi : i32 (pdu_len p0) = pdu_len p0) by (apply i32_id; lia).
  assert (Emem : encode l rem ++ junk = [] ++ wire_headers ws w ++ (mjoin (map snd ws) ++ snd w) ++ junk).
  { unfold encode. fold ws w. cbn [app]. by rewrite <- !app_assoc. }
  destruct (parse_subheaders_wire w H1 H2 (pdu_len p0) ((mjoin (map snd ws) ++ snd w) ++ junk) ws [] [] (subheaders p0)
              Hf Hty Hcnt) as (fr & s & rest & Hp & F & (S1 & S2 & S3) & ->).
  { change (zlen []) with 0. lia. }
  change (zlen []) with 0 in Hp. cbn [app] in Hp.
  destruct (front_announces ws fr Hf F) as (An & Sb & Pos).
  assert (Hs0 : nof_bytes s = 0).
  { rewrite S3. destruct (has_length t (fst w)) eqn:E; [done|]. unfold w, last_elem in *.
    destruct (2 <? rem); [by unfold ce_len; destruct t, is_ul|].
    destruct (sdus_snoc l Hn) as (front & e & Es & _ & He). rewrite Es, List.last_last in E.
    apply elem_sdu_has_length in He. congruence. }
  unfold parse_packet, pdu_parse_packet. rewrite Emem, Hi, Hul. cbn [app]. rewrite Hp. cbn [mbind option_bind].
  rewrite parse_payloads_place;
    [|apply Forall_app; split; [done|constructor; [lia|constructor]]
     |rewrite sum_bytes_app; cbn [sum_bytes]; lia].
  cbn [mbind option_bind]. set (ptr := 0 + zlen (wire_headers ws w)).
  assert (Hfl : length fr = length ws) by (symmetry; by eapply Forall2_length).
  cbn [nof_subheaders set_nof subheaders set_subheaders pdu_len].
  rewrite zlen_app. change (zlen [s]) with 1. destruct (Z.ltb_spec 0 (zlen fr + 1)); [|unfold zlen in *; lia].
  replace (zlen fr + 1 - 1) with (zlen fr) by lia.
  rewrite place_app. cbn [place].
  assert (Ht : forall x y, ztake (zlen fr) ((place ptr fr ++ x) ++ y) = place ptr fr).
  { intros. rewrite <- app_assoc. apply ztake_app_eq. unfold zlen. by rewrite length_place. }
  rewrite Ht, (read_len_front ws fr) by (done || lia).
  assert (En : pdu_len p0 - (0 + sum_sizes ws) - 1 = zlen (snd w)) by lia.
  rewrite En, i32_id by lia. destruct (Z.leb_spec 0 (zlen (snd w))); [|lia].
  eexists. split; [reflexivity|]. unfold decoded. cbn [nof_subheaders set_subheaders set_nof subheaders].
  rewrite <- (app_assoc (place ptr fr)). cbn [app].
  replace (Z.to_nat (zlen fr)) with (length (place ptr fr)) by (rewrite length_place; unfold zlen; lia).
  rewrite alter_middle.
  assert (Efin : ztake (zlen fr + 1) (place ptr fr ++ set_payload_size (fst (read_payload s (ptr + sum_bytes fr))) (zlen (snd w))
       :: drop (S (length ws)) (subheaders p0)) = place ptr (fr ++ [set_payload_size s (zlen (snd w))])).
  { rewrite place_app. cbn [place]. change (?a ++ ?x :: ?y) with (a ++ [x] ++ y). rewrite app_assoc.
    apply ztake_app_eq. rewrite zlen_app. unfold zlen. rewrite length_place. done. }
  rewrite Efin. unfold ptr.
  replace (wire_headers ws w ++ (mjoin (map snd ws) ++ snd w) ++ junk)
    with (wire_headers ws w ++ mjoin (map snd (ws ++ [w])) ++ junk).
  - rewrite Z.add_0_l. apply decode_place. apply Forall2_app; [done|]. constructor; [|constructor].
    split; [done|]. cbn. apply i32_id. lia.
  - rewrite map_app, join_app. cbn. by rewrite app_nil_r.
Qed.

(** ** PDUs under construction *)

(** The subheader [s] holds the element [e]. *)
Record subh_rep e (s : sch_subh) : Prop := {
  sr_lcid : lcid s = fst e;
  sr_n : nof_bytes s = zlen (snd e);
  sr_type : stype s = t;
  sr_ce : elem_sdu e = false ->
    load_bytes (w_payload_ce s) 0 (zlen (snd e)) = Some (snd e) /\ sizeof_ce s (lcid s) is_ul = zlen (snd e)
}.

(** A subheader that was not used since [init]. *)
Definition fresh (s : sch_subh) : Prop :=
  stype s = t /\ nof_bytes s = 0 /\ nof_mch_sched_ce s = 0 /\ zlen (w_payload_ce s) = 64.

(** The index of the last SDU. *)
Definition last_idx (l : list elem) (idx : Z) : Prop :=
  (sdus l = [] /\ idx = -1) \/
  exists a e b, l = a ++ e :: b /\ elem_sdu e = true /\ sdus b = [] /\ idx = zlen a.

(** The PDU [p] holds the elements [l]. *)
Record pdu_rep (p : sch_pdu) (l : list elem) : Prop := {
  pr_nof : nof_subheaders p = zlen l;
  pr_cur : cur_idx p = zlen l - 1;
  pr_room : (length l <= length (subheaders p))%nat;
  pr_sub : Forall2 subh_rep l (ztake (zlen l) (subheaders p));
  pr_fresh : Forall fresh (zdrop (zlen l) (subheaders p));
  pr_ok : Forall elem_ok l;
  pr_last : last_idx l (last_sdu_idx p);
  pr_rem : rem_len p = pdu_len p - needed l;
  pr_rem0 : 0 <= rem_len p;
  pr_len : pdu_len p < 32768;
  pr_ul : pdu_is_ul p = is_ul;
  pr_wf : bb_wf (buffer_tx p);
  pr_msg : msg (buffer_tx p) = SRSRAN_BUFFER_HEADER_OFFSET;
  pr_data : contents (buffer_tx p) = Some (mjoin (map snd (sdus l)));
  pr_n : N_bytes (buffer_tx p) = zlen (mjoin (map snd (sdus l)))
}.

Lemma subh_rep_is_sdu e s : subh_rep e s -> is_sdu s = elem_sdu e.
Proof. intros [E1 _ E3 _]. unfold is_sdu, elem_sdu, lcid_is_sdu. rewrite E1, E3. by destruct t. Qed.

Lemma subh_rep_write e s is_last : subh_rep e s -> write_subheader s is_last = hdr e is_last.
Proof.
  intros [E1 E2 E3 _]. unfold hdr, wire_subh, write_subheader, is_sdu, is_var_len_ce, mch_ce_type.
  cbn [lcid nof_bytes stype plain_subh]. by rewrite E1, E2, E3.
Qed.

Lemma elem_len_bounds e : elem_ok e -> 0 <= zlen (snd e) < 32768 /\ (has_length t (fst e) = true -> 0 < zlen (snd e)).
Proof.
  intros He. destruct (elem_front_ok e He) as (_ & H2 & H3). split; [done|]. intros E. by rewrite E in H3.
Qed.

Lemma subh_rep_header_size e s is_last : elem_ok e -> subh_rep e s -> get_header_size s is_last = subh_len e is_last.
Proof.
  intros He Hr. pose proof (elem_len_bounds e He) as [Hb Hp]. destruct He as [Hlc _].
  unfold get_header_size, subh_len, wire_subh_len. destruct is_last; cbn [negb]; [by rewrite andb_false_r|].
  rewrite andb_true_r.
  replace (is_sdu s || _) with (has_length t (fst e)).
  - rewrite (sr_n _ _ Hr), u32_id by (unfold is_u32; lia). destruct (has_length t (fst e)); [|done].
    specialize (Hp eq_refl). unfold size_header_sdu.
    destruct (Z.eqb_spec (zlen (snd e)) 0); [lia|].
    destruct (Z.ltb_spec (zlen (snd e)) 128), (Z.leb_spec 128 (zlen (snd e))); lia.
  - pose proof (has_length_spec s) as E. rewrite (sr_lcid _ _ Hr), (sr_type _ _ Hr) in E.
    rewrite <- (E Hlc). f_equal. unfold is_var_len_ce, mch_ce_type.
    rewrite (sr_type _ _ Hr), (sr_lcid _ _ Hr). destruct (bool_decide (t = MCH_SUBH_TYPE)); [|by rewrite !andb_false_r].
    rewrite !andb_true_r. unfold mch_is_mac_ce, MCH_SCHED_INFO.
    destruct (Z.leb_spec 30 (fst e)), (Z.eqb_spec 30 (fst e)), (Z.eqb_spec (fst e) 30); try lia; done.
Qed.

(** Headers of the control elements and of the SDUs of a list of subheaders. *)
Lemma ce_headers l ss : Forall2 subh_rep l ss ->
  mjoin (map (fun s => if is_sdu s then [] else write_subheader s false) ss) =
  mjoin (map (fun e => hdr e false) (ces l)).
Proof.
  induction 1 as [|e s l ss Hr _ IH]; [done|]. cbn [map]. rewrite mjoin_cons, IH, (subh_rep_is_sdu e s Hr).
  unfold ces. rewrite filter_cons. destruct (elem_sdu e) eqn:E; destruct (decide _); try congruence; cbn [map]; [done|].
  by rewrite mjoin_cons, (subh_rep_write e s).
Qed.

Lemma sdu_headers l ss : Forall2 subh_rep l ss ->
  mjoin (map (fun s => if is_sdu s then write_subheader s false else []) ss) =
  mjoin (map (fun e => hdr e false) (sdus l)).
Proof.
  induction 1 as [|e s l ss Hr _ IH]; [done|]. cbn [map]. rewrite mjoin_cons, IH, (subh_rep_is_sdu e s Hr).
  unfold sdus. rewrite filter_cons. destruct (elem_sdu e) eqn:E; destruct (decide _); try congruence; cbn [map]; [|done].
  by rewrite mjoin_cons, (subh_rep_write e s).
Qed.

Lemma ce_payloads l ss : Forall elem_ok l -> Forall2 subh_rep l ss ->
  exists ss', write_payloads ss is_ul = Some (mjoin (map snd (ces l)), ss') /\ length ss' = length ss.
Proof.
  intros Hok Hf. induction Hf as [|e s l ss Hr _ IH]; [by exists []|].
  apply Forall_cons_1 in Hok as [He Hok]. destruct (IH Hok) as (ss' & Hw & Hl). cbn [write_payloads].
  unfold write_payload. rewrite (subh_rep_is_sdu e s Hr). unfold ces in *. rewrite filter_cons.
  destruct (elem_sdu e) eqn:E; destruct (decide _); try congruence; cbn [mbind option_bind].
  - rewrite Hw. cbn [mbind option_bind]. eexists; split; [done|]. cbn. lia.
  - destruct (sr_ce _ _ Hr E) as [H1 H2]. rewrite H2, H1. cbn [mbind option_bind]. rewrite Hw. cbn [mbind option_bind].
    eexists; split; [done|]. cbn. lia.
Qed.

(** ** The subheaders in use *)

(** A numbered list with a mark on the index [idx]. *)
Definition mark (idx : Z) (x : Z * sch_subh) : bool * sch_subh := (fst x =? idx, snd x).

Lemma mark_none idx ss : forall k, idx < k \/ k + zlen ss <= idx ->
  map (mark idx) (zip (seqZ k (zlen ss)) ss) = map (pair false) ss.
Proof.
  induction ss as [|s ss IH]; intros k Hk; [by destruct (seqZ k (zlen []))|].
  rewrite zlen_cons in *. pose proof (zlen_nonneg ss). rewrite seqZ_cons by lia. cbn [zip zip_with map].
  unfold mark at 1. cbn [fst snd]. destruct (Z.eqb_spec k idx); [lia|]. f_equal.
  replace (Z.pred (1 + zlen ss)) with (zlen ss) by lia. apply IH. lia.
Qed.

Lemma mark_split p sa s sb : ztake (nof_subheaders p) (subheaders p) = sa ++ s :: sb ->
  nof_subheaders p = zlen sa + 1 + zlen sb ->
  map (mark (zlen sa)) (used p) = map (pair false) sa ++ (true, s) :: map (pair false) sb.
Proof.
  intros E En. unfold used. rewrite E, En. pose proof (zlen_nonneg sa). pose proof (zlen_nonneg sb).
  replace (zlen sa + 1 + zlen sb) with (zlen sa + (1 + zlen sb)) by lia.
  rewrite seqZ_app by lia. rewrite zip_with_app by (rewrite length_seqZ; unfold zlen; lia).
  rewrite map_app, mark_none by lia. f_equal.
  rewrite seqZ_cons by lia. cbn [zip_with map]. unfold mark at 1. cbn [fst snd].
  rewrite !Z.add_0_l, Z.eqb_refl. f_equal.
  replace (Z.pred (1 + zlen sb)) with (zlen sb) by lia. apply mark_none. lia.
Qed.

(** Functions of the mark. *)
Lemma map_used {A} (f : bool -> sch_subh -> A) idx (u : list (Z * sch_subh)) :
  map (fun '(i, s) => f (i =? idx) s) u = map (fun x => f (fst x) (snd x)) (map (mark idx) u).
Proof. rewrite map_map. apply map_ext. by intros [i s]. Qed.

Lemma foldl_used (f : Z -> bool -> sch_subh -> Z) idx u : forall acc,
  foldl (fun acc '(i, s) => f acc (i =? idx) s) acc u =
  foldl (fun acc x => f acc (fst x) (snd x)) acc (map (mark idx) u).
Proof. induction u as [|[i s] u IH]; intros acc; cbn; [done|apply IH]. Qed.

(** Sums that do not overflow. *)
Fixpoint zsum (l : list Z) : Z := match l with [] => 0 | x :: l' => x + zsum l' end.

Lemma zsum_app l1 l2 : zsum (l1 ++ l2) = zsum l1 + zsum l2.
Proof. induction l1; cbn [zsum app]; lia. Qed.

Lemma zsum_nonneg l : Forall (fun x => 0 <= x) l -> 0 <= zsum l.
Proof. induction 1; cbn [zsum]; lia. Qed.

Lemma foldl_u32 {A} (f : A -> Z) l : forall acc, Forall (fun x => 0 <= f x) l -> 0 <= acc ->
  acc + zsum (map f l) < 2 ^ 32 ->
  foldl (fun acc x => u32 (acc + f x)) acc l = acc + zsum (map f l).
Proof.
  induction l as [|x l IH]; intros acc Hf Ha Hs; cbn [foldl map zsum] in *; [lia|].
  apply Forall_cons_1 in Hf as [Hx Hf].
  assert (0 <= zsum (map f l)) by (apply zsum_nonneg; by apply List.Forall_map).
  rewrite u32_id by (unfold is_u32; lia). rewrite IH by (done || lia). lia.
Qed.

(** The representation of a PDU with an SDU, taken apart at the last SDU. *)
Record split_rep (p : sch_pdu) (a : list elem) e (b : list elem) (sa : list sch_subh) (s : sch_subh) (sb : list sch_subh)
  : Prop := {
  sp_used : ztake (nof_subheaders p) (subheaders p) = sa ++ s :: sb;
  sp_a : Forall2 subh_rep a sa;
  sp_e : subh_rep e s;
  sp_b : Forall2 subh_rep b sb;
  sp_idx : last_sdu_idx p = zlen sa;
  sp_n : nof_subheaders p = zlen sa + 1 + zlen sb;
  sp_sdu : elem_sdu e = true;
  sp_tail : sdus b = []
}.

Lemma zlen_Forall2 {A B} (P : A -> B -> Prop) l1 l2 : Forall2 P l1 l2 -> zlen l1 = zlen l2.
Proof. intros H. apply Forall2_length in H. unfold zlen. lia. Qed.

Lemma pdu_rep_split p l : pdu_rep p l -> sdus l <> [] ->
  exists a e b sa s sb, l = a ++ e :: b /\ split_rep p a e b sa s sb.
Proof.
  intros Hr Hn. destruct (pr_last _ _ Hr) as [[? _]|(a & e & b & -> & He & Hb & Hidx)]; [done|].
  pose proof (pr_sub _ _ Hr) as Hf. apply Forall2_app_inv_l in Hf as (sa & ss & Ha & Hss & Ess).
  apply Forall2_cons_inv_l in Hss as (s & sb & He' & Hb' & ->).
  exists a, e, b, sa, s, sb. split; [done|]. pose proof (zlen_Forall2 _ _ _ Ha). pose proof (zlen_Forall2 _ _ _ Hb').
  constructor; try done.
  - by rewrite (pr_nof _ _ Hr).
  - by rewrite Hidx.
  - rewrite (pr_nof _ _ Hr), zlen_app, zlen_cons. lia.
Qed.

Lemma sdus_app l1 l2 : sdus (l1 ++ l2) = sdus l1 ++ sdus l2.
Proof. apply list.filter_app. Qed.

Lemma ces_app l1 l2 : ces (l1 ++ l2) = ces l1 ++ ces l2.
Proof. apply list.filter_app. Qed.

Lemma sdus_split a e b : elem_sdu e = true -> sdus b = [] ->
  sdus (a ++ e :: b) = sdus a ++ [e] /\ ces (a ++ e :: b) = ces a ++ ces b /\ growth (a ++ e :: b) = subh_len e false - 1.
Proof.
  intros He Hb. assert (E : sdus (a ++ e :: b) = sdus a ++ [e]).
  { rewrite sdus_app. f_equal. unfold sdus in *. rewrite filter_cons. destruct (decide _); [|done]. by rewrite Hb. }
  split_and!; [done| |].
  - rewrite ces_app. f_equal. unfold ces. rewrite filter_cons. destruct (decide _); [congruence|done].
  - unfold growth. by rewrite E, rev_app_distr.
Qed.

Lemma zlen_mjoin {A} (l : list (list A)) : zlen (mjoin l) = zsum (map zlen l).
Proof. induction l as [|x l IH]; [done|]. rewrite mjoin_cons, zlen_app, IH. done. Qed.

(** ** Writing *)

(** Sizes of the subheaders of a list. *)
Definition hsum (l : list elem) : Z := zsum (map (fun e => subh_len e false) l).

Lemma hsum_app l1 l2 : hsum (l1 ++ l2) = hsum l1 + hsum l2.
Proof. unfold hsum. by rewrite map_app, zsum_app. Qed.

Lemma hsum_split l : hsum l = hsum (ces l) + hsum (sdus l).
Proof.
  unfold hsum. induction l as [|e l IH]; [done|]. cbn [map zsum]. unfold ces, sdus in *. rewrite !filter_cons.
  destruct (elem_sdu e) eqn:E; repeat (destruct (decide _); try congruence); cbn [map zsum]; lia.
Qed.

Lemma hsum_nonneg l : 0 <= hsum l.
Proof.
  unfold hsum. induction l as [|e l IH]; cbn [map zsum]; [done|]. pose proof (subh_len_bounds e false). lia.
Qed.

Lemma hsum_le l : hsum l <= sum_sizes l.
Proof.
  unfold hsum. induction l as [|e l IH]; cbn [map zsum sum_sizes]; [done|]. unfold full_size.
  pose proof (zlen_nonneg (snd e)). lia.
Qed.

Lemma zlen_wire_headers_hsum ws w : Forall front_ok ws -> 0 <= fst w < 32 ->
  zlen (wire_headers ws w) = hsum ws + 1.
Proof.
  intros Hws Hw. unfold wire_headers. rewrite zlen_app. unfold hdr at 2. rewrite zlen_wire_subh by done.
  pose proof (subh_len_last w) as E. unfold subh_len in E. rewrite E. f_equal.
  rewrite zlen_mjoin, map_map. unfold hsum. f_equal. apply map_ext_Forall.
  eapply Forall_impl; [|exact Hws]. intros x (Hx & _). unfold hdr, subh_len. by rewrite zlen_wire_subh.
Qed.

Lemma header_sizes l ss : Forall elem_ok l -> Forall2 subh_rep l ss ->
  zsum (map (fun s => get_header_size s false) ss) = hsum l /\
  Forall (fun s => forall m, 0 <= get_header_size s m) ss.
Proof.
  intros Hok Hf. induction Hf as [|e s l ss Hr _ IH]; [by split|].
  apply Forall_cons_1 in Hok as [He Hok]. destruct (IH Hok) as [I1 I2]. unfold hsum in *. cbn [map zsum].
  rewrite I1, (subh_rep_header_size e) by done. split; [done|]. constructor; [|done].
  intros m. rewrite (subh_rep_header_size e) by done. pose proof (subh_len_bounds e m). lia.
Qed.

Lemma ce_sizes l ss : forall acc, Forall elem_ok l -> Forall2 subh_rep l ss -> 0 <= acc ->
  acc + zlen (mjoin (map snd (ces l))) < 2 ^ 32 ->
  foldl (fun acc s => if is_sdu s then acc else u32 (acc + get_payload_size s)) acc ss =
  acc + zlen (mjoin (map snd (ces l))).
Proof.
  intros acc Hok Hf. revert acc. induction Hf as [|e s l ss Hr _ IH]; intros acc Ha Hb; cbn [foldl].
  - change (zlen (mjoin (map snd (ces [])))) with 0. lia.
  - apply Forall_cons_1 in Hok as [He Hok]. rewrite (subh_rep_is_sdu e s Hr). pose proof (elem_len_bounds e He) as [Hl _].
    unfold ces in *. rewrite filter_cons in *.
    destruct (elem_sdu e) eqn:E; destruct (decide _); try congruence; [by apply IH|].
    cbn [map] in *. rewrite mjoin_cons, zlen_app in *.
    match goal with |- context [zlen (mjoin ?x)] => pose proof (zlen_nonneg (mjoin x)) end.
    unfold get_payload_size. rewrite (sr_n _ _ Hr), (u32_id (zlen (snd e))), u32_id by (unfold is_u32; lia).
    rewrite IH by (done || lia). lia.
Qed.

Lemma pad_header_last n : write_subheader (set_padding (subh_new SCH_SUBH_TYPE) n) true = hdr (pad_elem n) true.
Proof. unfold hdr, wire_subh, write_subheader. by rewrite !andb_false_r. Qed.

Lemma pad_header_first : write_subheader (set_padding (subh_new SCH_SUBH_TYPE) 0) false = hdr (pad_elem 0) false.
Proof. unfold hdr. destruct t; reflexivity. Qed.

Section Writing.
Context (p : sch_pdu) (a : list elem) (e : elem) (b : list elem).
Context (sa : list sch_subh) (s : sch_subh) (sb : list sch_subh).
Context (Hrep : pdu_rep p (a ++ e :: b)) (Hsp : split_rep p a e b sa s sb).
Let l := a ++ e :: b.
Let rem := rem_len p.

Lemma split_ok : Forall elem_ok a /\ elem_ok e /\ Forall elem_ok b.
Proof.
  pose proof (pr_ok _ _ Hrep) as H. apply Forall_app in H as [Ha H]. by apply Forall_cons_1 in H as [He Hb].
Qed.

Lemma padding_of_rep :
  padding_of p = if 2 <? rem then (true, rem - 1 - growth l, 0) else (false, 0, rem).
Proof.
  unfold padding_of, rem. pose proof (zlen_nonneg sa) as Hsa. destruct (sdus_split a e b (sp_sdu _ _ _ _ _ _ _ Hsp) (sp_tail _ _ _ _ _ _ _ Hsp)) as (_ & _ & Hg).
  destruct split_ok as (_ & He & _). pose proof (subh_len_bounds e false) as Hb. pose proof (pr_rem0 _ _ Hrep).
  rewrite (sp_idx _ _ _ _ _ _ _ Hsp). destruct (Z.ltb_spec (zlen sa) 0); [lia|].
  assert (Hat : subh_at p (zlen sa) = Some s).
  { unfold subh_at. destruct (Z.ltb_spec (zlen sa) 0); [lia|].
    pose proof (sp_used _ _ _ _ _ _ _ Hsp) as E. apply (f_equal (fun x => x !! Z.to_nat (zlen sa))) in E.
    unfold ztake in E. rewrite lookup_take_lt in E.
    - rewrite E. unfold zlen. rewrite Nat2Z.id. by apply list_lookup_middle.
    - rewrite (sp_n _ _ _ _ _ _ _ Hsp). pose proof (zlen_nonneg sb). lia. }
  rewrite Hat, (subh_rep_header_size e) by (done || apply Hsp). fold l in Hg. rewrite Hg.
  pose proof (pr_len _ _ Hrep). pose proof (pr_rem _ _ Hrep) as Hr.
  assert (0 <= needed l).
  { unfold needed. fold l. rewrite Hg. unfold l. rewrite sum_sizes_app. cbn [sum_sizes]. unfold full_size.
    pose proof (sum_sizes_nonneg a). pose proof (sum_sizes_nonneg b). pose proof (zlen_nonneg (snd e)). lia. }
  fold l in Hr.
  destruct (Z.ltb_spec 2 (rem_len p)).
  - rewrite !u32_id by (rewrite ?u32_id; unfold is_u32; lia). done.
  - destruct (Z.ltb_spec 0 (rem_len p)); done || by replace (rem_len p) with 0 by lia.
Qed.

Lemma marked : map (mark (last_sdu_idx p)) (used p) = map (pair false) sa ++ (true, s) :: map (pair false) sb.
Proof. rewrite (sp_idx _ _ _ _ _ _ _ Hsp). apply mark_split; apply Hsp. Qed.

Lemma map_marked {A} (f : bool -> sch_subh -> A) :
  map (fun '(i, s) => f (i =? last_sdu_idx p) s) (used p) = map (f false) sa ++ f true s :: map (f false) sb.
Proof. rewrite map_used, marked, map_app. cbn [map fst snd]. by rewrite !map_map. Qed.

Lemma foldl_marked (f : Z -> bool -> sch_subh -> Z) :
  foldl (fun acc '(i, s) => f acc (i =? last_sdu_idx p) s) 0 (used p) =
  foldl (fun acc x => f acc (fst x) (snd x)) 0 (map (pair false) sa ++ (true, s) :: map (pair false) sb).
Proof. by rewrite foldl_used, marked. Qed.

Lemma mjoin_middle {A} (l1 : list (list A)) x l2 : mjoin (l1 ++ x :: l2) = mjoin l1 ++ x ++ mjoin l2.
Proof. by rewrite join_app, mjoin_cons. Qed.

Lemma mjoin_one {A} (x : list A) : mjoin [x] = x.
Proof. by rewrite mjoin_cons, app_nil_r. Qed.

Lemma needed_pos : 2 <= needed l /\ needed l + rem = pdu_len p.
Proof.
  pose proof (pr_rem _ _ Hrep) as Hr. fold l rem in Hr. split; [|lia].
  destruct (sdus_split a e b (sp_sdu _ _ _ _ _ _ _ Hsp) (sp_tail _ _ _ _ _ _ _ Hsp)) as (_ & _ & Hg).
  fold l in Hg. unfold needed. rewrite Hg. unfold l. rewrite sum_sizes_app. cbn [sum_sizes]. unfold full_size.
  destruct split_ok as (_ & [_ He] & _). rewrite (sp_sdu _ _ _ _ _ _ _ Hsp) in He.
  pose proof (sum_sizes_nonneg a). pose proof (sum_sizes_nonneg b). lia.
Qed.

(** The header written is that of the encoding. *)
Lemma header_bytes_rep : header_bytes p = wire_headers (front_elems l rem) (last_elem l rem).
Proof.
  pose proof (sp_sdu _ _ _ _ _ _ _ Hsp) as He. pose proof (sp_tail _ _ _ _ _ _ _ Hsp) as Hb.
  destruct (sdus_split a e b He Hb) as (Es & Ec & Hg). fold l in Es, Ec, Hg.
  unfold header_bytes. rewrite padding_of_rep. pose proof (zlen_nonneg sa).
  destruct (Z.ltb_spec (last_sdu_idx p) 0) as [Hneg|_]; [rewrite (sp_idx _ _ _ _ _ _ _ Hsp) in Hneg; lia|].
  cbn [andb].
  pose proof (map_marked (fun _ s => if is_sdu s then [] else write_subheader s false)) as Ece. cbv beta in Ece.
  assert (Eces : mjoin (map (fun '(i, s0) => if is_sdu s0 then [] else write_subheader s0 false) (used p)) =
                 mjoin (map (fun e => hdr e false) (ces l))).
  { rewrite Ece, mjoin_middle, (ce_headers a), (ce_headers b) by apply Hsp.
    rewrite (subh_rep_is_sdu e) by apply Hsp. rewrite He, Ec, map_app, join_app. done. }
  assert (Esd : forall m : bool, mjoin (map (fun '(i, s0) => if is_sdu s0 then write_subheader s0 (m && (i =? last_sdu_idx p)) else []) (used p)) =
                 mjoin (map (fun e => hdr e false) (sdus a)) ++ hdr e m).
  { intros m. pose proof (map_marked (fun x s => if is_sdu s then write_subheader s (m && x) else [])) as E. cbv beta in E.
    rewrite E, mjoin_middle. rewrite andb_false_r, andb_true_r, (sdu_headers a), (sdu_headers b) by apply Hsp.
    rewrite (subh_rep_is_sdu e), He, (subh_rep_write e) by apply Hsp. rewrite Hb. cbn [map]. by rewrite app_nil_r. }
  unfold wire_headers, front_elems, last_elem. destruct (Z.ltb_spec 2 rem) as [Hbig|Hsmall].
  - change (Z.to_nat 0) with 0%nat. cbn [negb repeat]. change (mjoin []) with (@nil Z). cbn [app]. rewrite Eces.
    pose proof (Esd false) as Esd0. cbn [andb] in Esd0. cbn [andb]. rewrite Esd0, pad_header_last.
    rewrite map_app, join_app, Es, map_app, join_app, <- !app_assoc. cbn [map]. by rewrite mjoin_one.
  - cbn [negb andb]. rewrite Eces. pose proof (Esd true) as Esd1. cbn [andb] in Esd1. rewrite Esd1, app_nil_r.
    rewrite Es, removelast_app, List.last_last by done. cbn [removelast]. rewrite app_nil_r.
    rewrite !map_app, !join_app, <- !app_assoc, map_repeat, <- pad_header_first. do 3 f_equal.
    pose proof needed_pos. destruct (Z.ltb_spec rem (pdu_len p)); [done|lia].
Qed.

Lemma parts : Forall front_ok (front_elems l rem) /\ 0 <= fst (last_elem l rem) < 32 /\
  zlen (wire_headers (front_elems l rem) (last_elem l rem)) =
    (if 2 <? rem then hsum l + 1 else rem + hsum a + 1 + hsum b).
Proof.
  pose proof (sp_sdu _ _ _ _ _ _ _ Hsp) as He. pose proof (sp_tail _ _ _ _ _ _ _ Hsp) as Hb.
  destruct (sdus_split a e b He Hb) as (Es & Ec & Hg). fold l in Es, Ec, Hg.
  pose proof needed_pos. pose proof (pr_rem0 _ _ Hrep) as H0. fold rem in H0. pose proof (pr_len _ _ Hrep).
  destruct (encode_parts l rem (pr_ok _ _ Hrep)) as (P1 & P2 & _ & _); [by rewrite Es; destruct (sdus a)|lia|].
  split_and!; [done|lia..|]. rewrite zlen_wire_headers_hsum by done. unfold front_elems.
  destruct (Z.ltb_spec 2 rem); [by rewrite hsum_app, (hsum_split l)|].
  rewrite !hsum_app, Ec, hsum_app, Es, removelast_app by done. cbn [removelast]. rewrite app_nil_r.
  assert (Hpads : hsum (repeat (pad_elem 0) (Z.to_nat rem)) = rem).
  { assert (E1 : subh_len (pad_elem 0) false = 1) by (unfold subh_len, wire_subh_len, has_length; by destruct t).
    unfold hsum. rewrite map_repeat, E1. clear -H0. rewrite <- (Z2Nat.id rem) at 2 by done.
    induction (Z.to_nat rem) as [|n IH]; [done|]. cbn [repeat zsum]. lia. }
  rewrite Hpads, (hsum_split a), (hsum_split b), Hb. change (hsum []) with 0. lia.
Qed.

Lemma used_snd : map snd (used p) = sa ++ s :: sb.
Proof.
  transitivity (map snd (map (mark (last_sdu_idx p)) (used p))).
  - rewrite map_map. apply map_ext. by intros [i x].
  - rewrite marked, map_app. cbn [map snd]. rewrite !map_map. cbn. by rewrite !map_id.
Qed.

Lemma hsum_bound : hsum a + hsum b < 2 ^ 31 /\ zlen (mjoin (map snd (ces l))) < 2 ^ 31.
Proof.
  pose proof needed_pos as [_ Hl]. pose proof (pr_len _ _ Hrep). pose proof (pr_rem0 _ _ Hrep) as H0. fold rem in H0.
  destruct (sdus_split a e b (sp_sdu _ _ _ _ _ _ _ Hsp) (sp_tail _ _ _ _ _ _ _ Hsp)) as (_ & _ & Hg). fold l in Hg.
  pose proof (subh_len_bounds e false). unfold needed in Hl. rewrite Hg in Hl.
  destruct split_ok as (Ha & He & Hb). destruct (elems_split_ok l (pr_ok _ _ Hrep)) as [Hc _].
  split.
  - unfold l in Hl. rewrite sum_sizes_app in Hl. cbn [sum_sizes] in Hl. pose proof (full_size_pos e).
    pose proof (hsum_le a). pose proof (hsum_le b). lia.
  - assert (Hfc : Forall front_ok (ces l)) by (eapply Forall_impl; [|exact Hc]; apply elem_front_ok).
    pose proof (zlen_headers (ces l) Hfc) as Hz. rewrite sum_sizes_split in Hl.
    pose proof (sum_sizes_nonneg (sdus l)). pose proof (zlen_nonneg (mjoin (map (fun e => hdr e false) (ces l)))). lia.
Qed.

Lemma header_size_rep : header_size p = zlen (header_bytes p).
Proof.
  rewrite header_bytes_rep. destruct parts as (_ & _ & ->). unfold header_size. rewrite padding_of_rep.
  destruct split_ok as (Ha & He & Hb).
  destruct (header_sizes a sa Ha (sp_a _ _ _ _ _ _ _ Hsp)) as [Sa Pa].
  destruct (header_sizes b sb Hb (sp_b _ _ _ _ _ _ _ Hsp)) as [Sb Pb].
  pose proof (hsum_nonneg a). pose proof (hsum_nonneg b). pose proof hsum_bound.
  assert (Hsum : forall m : bool, foldl (fun acc '(i, s0) => u32 (acc + get_header_size s0 (m && (i =? last_sdu_idx p)))) 0 (used p) =
            hsum a + subh_len e m + hsum b).
  { intros m. pose proof (foldl_marked (fun acc x s => u32 (acc + get_header_size s (m && x)))) as E. cbv beta in E.
    rewrite E, (foldl_u32 (fun x : bool * sch_subh => get_header_size (snd x) (m && fst x))).
    - rewrite map_app. cbn [map fst snd]. rewrite zsum_app. cbn [zsum]. rewrite !map_map. cbn [fst snd].
      rewrite andb_false_r, andb_true_r, Sa, Sb, (subh_rep_header_size e) by (done || apply Hsp). lia.
    - apply Forall_app. split; [|constructor; [|]].
      + apply List.Forall_map. eapply Forall_impl; [|exact Pa]. cbn. auto.
      + cbn. rewrite (subh_rep_header_size e) by (done || apply Hsp). pose proof (subh_len_bounds e (m && true)). lia.
      + apply List.Forall_map. eapply Forall_impl; [|exact Pb]. cbn. auto.
    - done.
    - rewrite map_app. cbn [map fst snd]. rewrite zsum_app. cbn [zsum]. rewrite !map_map. cbn [fst snd].
      rewrite andb_false_r, andb_true_r, Sa, Sb, (subh_rep_header_size e) by (done || apply Hsp).
      pose proof (subh_len_bounds e m). lia. }
  destruct (Z.ltb_spec 2 rem).
  - cbn [negb andb]. pose proof (Hsum false) as E. cbn [andb] in E. rewrite E. unfold l. rewrite hsum_app.
    change (hsum (e :: b)) with (subh_len e false + hsum b). lia.
  - cbn [negb andb]. pose proof (Hsum true) as E. cbn [andb] in E. rewrite E, subh_len_last. lia.
Qed.

Lemma ce_payload_size_rep : ce_payload_size p = zlen (mjoin (map snd (ces l))).
Proof.
  unfold ce_payload_size. pose proof hsum_bound as [_ Hb].
  assert (E : foldl (fun acc '(i, s0) => if is_sdu s0 then acc else u32 (acc + get_payload_size s0)) 0 (used p) =
              foldl (fun acc s0 => if is_sdu s0 then acc else u32 (acc + get_payload_size s0)) 0 (map snd (used p))).
  { generalize 0. induction (used p) as [|[i x] u IH]; intros z; cbn; [done|apply IH]. }
  rewrite E, used_snd. rewrite (ce_sizes l); [lia|apply Hrep| |done|lia].
  apply Forall2_app; [apply Hsp|]. constructor; apply Hsp.
Qed.

(** The layout of the encoding: header, control elements, SDUs, padding. *)
Lemma encode_layout :
  let np := if 2 <? rem then rem - 1 - growth l else 0 in
  encode l rem = header_bytes p ++ mjoin (map snd (ces l)) ++ mjoin (map snd (sdus l)) ++ repeat 0 (Z.to_nat np) /\ 0 <= np.
Proof.
  pose proof (sp_sdu _ _ _ _ _ _ _ Hsp) as He. pose proof (sp_tail _ _ _ _ _ _ _ Hsp) as Hb.
  destruct (sdus_split a e b He Hb) as (Es & Ec & Hg). fold l in Es, Ec, Hg. pose proof (subh_len_bounds e false).
  cbv zeta. rewrite header_bytes_rep. unfold encode. unfold front_elems at 2. unfold last_elem at 2.
  destruct (Z.ltb_spec 2 rem) as [Hr|Hr].
  - split; [|lia]. rewrite map_app, join_app, <- !app_assoc. done.
  - split; [|done]. cbn [Z.to_nat repeat]. rewrite app_nil_r, Es, removelast_app, List.last_last by done.
    cbn [removelast]. rewrite app_nil_r, !map_app, !join_app, map_repeat.
    assert (Ep : forall n, mjoin (repeat (snd (pad_elem 0)) n) = []) by (by induction n).
    rewrite Ep. cbn [app map]. by rewrite mjoin_one, <- !app_assoc.
Qed.

(** The packet is written, and is the encoding. *)
Lemma write_packet_rep :
  zlen (header_bytes p) + zlen (mjoin (map snd (ces l))) <= SRSRAN_BUFFER_HEADER_OFFSET ->
  pdu_len p <= SRSRAN_MAX_BUFFER_SIZE_BYTES - SRSRAN_BUFFER_HEADER_OFFSET ->
  exists p', write_packet p = Some (true, p') /\ contents (buffer_tx p') = Some (encode l rem).
Proof.
  intros Hroom Hmax. pose proof needed_pos as [Hpos Hlen]. pose proof hsum_bound as [_ Hcb].
  pose proof (sp_sdu _ _ _ _ _ _ _ Hsp) as He. pose proof (sp_tail _ _ _ _ _ _ _ Hsp) as Hb.
  destruct (sdus_split a e b He Hb) as (Es & Ec & Hg). fold l in Es, Ec, Hg.
  assert (Hns : sdus l <> []) by (rewrite Es; by destruct (sdus a)).
  pose proof (pr_rem0 _ _ Hrep) as H0. pose proof (pr_len _ _ Hrep). fold rem in H0.
  pose proof (encode_length l rem (pr_ok _ _ Hrep) Hns ltac:(lia)) as Henc.
  unfold write_packet. rewrite header_size_rep, ce_payload_size_rep.
  pose proof (zlen_nonneg (header_bytes p)). pose proof (zlen_nonneg (mjoin (map snd (ces l)))).
  rewrite u32_id by (unfold is_u32; bb_consts; lia).
  rewrite padding_of_rep. set (Hd := header_bytes p) in *. set (Ce := mjoin (map snd (ces l))) in *.
  set (D := mjoin (map snd (sdus l))).
  set (np := if 2 <? rem then rem - 1 - growth l else 0).
  assert (Hz : zlen Hd + zlen Ce + zlen D + np = pdu_len p /\ encode l rem = Hd ++ Ce ++ D ++ repeat 0 (Z.to_nat np) /\ 0 <= np).
  { pose proof encode_layout as [El Hnp]. fold np in El, Hnp. unfold Hd, Ce, D. rewrite El in Henc.
    rewrite !zlen_app in Henc. split_and!; [|done|done].
    assert (Er : zlen (repeat 0 (Z.to_nat np)) = np) by (unfold zlen; rewrite repeat_length; lia). lia. }
  destruct Hz as (Hz & Eenc & Hnp).
  rewrite get_headroom_wf, (pr_msg _ _ Hrep) by apply Hrep.
  replace (if 2 <? rem then (true, rem - 1 - growth l, 0) else (false, 0, rem)) with
    (2 <? rem, np, if 2 <? rem then 0 else rem) by (unfold np; by destruct (2 <? rem)).
  destruct (Z.ltb_spec SRSRAN_BUFFER_HEADER_OFFSET (zlen Hd + zlen Ce)); [lia|].
  assert (Hsub : Forall2 subh_rep l (ztake (nof_subheaders p) (subheaders p))).
  { rewrite (pr_nof _ _ Hrep). apply Hrep. }
  destruct (ce_payloads l _ (pr_ok _ _ Hrep) Hsub) as (ss' & Hw & _).
  rewrite (pr_ul _ _ Hrep), Hw. cbn [mbind option_bind]. fold Ce.
  destruct (prepend_spec (buffer_tx p) (Hd ++ Ce) D (pr_wf _ _ Hrep) (pr_data _ _ Hrep)) as (m & Hst & Hwf' & Hd' & Hu).
  { rewrite zlen_app, (pr_msg _ _ Hrep). lia. }
  rewrite zlen_app, (pr_msg _ _ Hrep) in Hst, Hwf', Hd'. rewrite zlen_app in Hu. rewrite Hst. cbn [mbind option_bind].
  set (b1 := mk_byte_buffer _ _ _ _) in *.
  assert (Htr : np <= get_tailroom b1).
  { rewrite get_tailroom_wf by done. cbn [b1 msg N_bytes]. rewrite Hu, (pr_n _ _ Hrep). fold l D. bb_consts. lia. }
  destruct (Z.ltb_spec (get_tailroom b1) np); [lia|].
  assert (Happ : exists b2, (if 0 <? np then append_bytes b1 (repeat 0 (Z.to_nat np)) else Some b1) = Some b2 /\
    contents b2 = Some (encode l rem) /\ N_bytes b2 = pdu_len p).
  { pose proof (pr_n _ _ Hrep) as Hn. fold l D in Hn.
    assert (Er : zlen (repeat 0 (Z.to_nat np)) = np) by (unfold zlen; rewrite repeat_length; lia).
    assert (Hn1 : N_bytes b1 = N_bytes (buffer_tx p) + (zlen Hd + zlen Ce)) by done.
    destruct (Z.ltb_spec 0 np).
    - destruct (append_bytes_spec b1 (repeat 0 (Z.to_nat np)) _ Hwf' Hd') as (b2 & -> & _ & Hc & Hn2 & _); [lia|].
      exists b2. rewrite Hc, Eenc, <- !app_assoc. split_and!; [done..|]. lia.
    - assert (np = 0) as E0 by lia. exists b1. rewrite Hd', Eenc, E0. cbn [Z.to_nat repeat].
      rewrite app_nil_r, <- !app_assoc. split_and!; [done..|]. lia. }
  destruct Happ as (b2 & -> & Hc & Hn2). cbn [mbind option_bind]. rewrite Hn2, Z.eqb_refl.
  eexists. split; [reflexivity|]. done.
Qed.
End Writing.

(** ** Filling a PDU *)

(** [init_tx] on a cleared buffer. *)
Lemma pdu_init_rep p buf len :
  Forall (fun s => t = MCH_SUBH_TYPE \/ stype s = t) (subheaders p) ->
  0 <= len < 32768 -> bb_wf buf -> msg buf = SRSRAN_BUFFER_HEADER_OFFSET -> contents buf = Some [] -> N_bytes buf = 0 ->
  pdu_rep (pdu_init t p buf len is_ul) [].
Proof.
  intros Hty Hlen Hwf Hmsg Hc Hn. constructor; try done; cbn; try lia.
  - rewrite zdrop_0. apply List.Forall_map. eapply Forall_impl; [|exact Hty].
    intros s Hs. unfold fresh. destruct t; cbn; destruct Hs; try done; split_and!; done.
  - by left.
  - change (needed []) with 0. lia.
Qed.

(** The current subheader after a successful [new_subh]. *)
Lemma new_subh_rep p l :
  pdu_rep p l -> zlen l < max_subheaders p - 1 -> 2 <= rem_len p ->
  let p1 := set_cur (set_nof p (zlen l + 1)) (zlen l) in
  new_subh p = (true, p1) /\
  exists s, get p1 = Some s /\ fresh s /\ subheaders p !! length l = Some s.
Proof.
  intros Hr Hmax Hrem p1. unfold new_subh. rewrite (pr_nof _ _ Hr).
  destruct (Z.ltb_spec (zlen l) (max_subheaders p - 1)); [|lia]. destruct (Z.leb_spec 2 (rem_len p)); [|lia].
  rewrite get_headroom_wf, (pr_msg _ _ Hr) by apply Hr. cbn [andb Z.ltb Z.compare].
  change (1 <? SRSRAN_BUFFER_HEADER_OFFSET) with true. cbn [andb].
  unfold next. cbn [cur_idx set_nof nof_subheaders]. rewrite (pr_cur _ _ Hr).
  destruct (Z.ltb_spec (zlen l - 1) (zlen l + 1 - 1)); [|lia].
  replace (zlen l - 1 + 1) with (zlen l) by lia. split; [done|].
  destruct (lookup_lt_is_Some_2 (subheaders p) (length l)) as [s Hs].
  { unfold max_subheaders, zlen in *. lia. }
  exists s. split_and!; [| |done].
  - unfold get, p1. cbn [cur_idx set_cur subheaders set_nof]. pose proof (zlen_nonneg l).
    destruct (Z.leb_spec 0 (zlen l)); [|lia]. unfold zlen. by rewrite Nat2Z.id.
  - pose proof (pr_fresh _ _ Hr) as Hf. unfold zdrop, zlen in Hf. rewrite Nat2Z.id in Hf.
    rewrite Forall_lookup in Hf. apply (Hf 0%nat). by rewrite lookup_drop, Nat.add_0_r.
Qed.

(** Writing the subheader at [length l]. *)
Lemma insert_next {A} (l : list A) n x y : l !! n = Some y ->
  take (S n) (<[n := x]> l) = take n l ++ [x] /\ drop (S n) (<[n := x]> l) = drop (S n) l.
Proof.
  intros H. split.
  - rewrite (take_S_r _ _ x); [by rewrite take_insert_ge|]. apply list_lookup_insert_eq. by eapply lookup_lt_Some.
  - apply drop_insert_lt. lia.
Qed.

Lemma last_idx_snoc l e idx :
  last_idx l idx -> last_idx (l ++ [e]) (if elem_sdu e then zlen l else idx).
Proof.
  intros H. destruct (elem_sdu e) eqn:E.
  - right. exists l, e, []. done.
  - assert (Es : sdus [e] = []) by (unfold sdus; rewrite filter_cons; destruct (decide _); [congruence|done]).
    destruct H as [[H1 H2]|(a & x & b & -> & H2 & H3 & H4)].
    + left. by rewrite sdus_app, H1, Es.
    + right. exists a, x, (b ++ [e]). rewrite <- app_assoc. split_and!; [done..| |done]. by rewrite sdus_app, H3, Es.
Qed.

Lemma needed_snoc l e :
  needed (l ++ [e]) = if elem_sdu e then needed l + growth l + zlen (snd e) + 1 else needed l + full_size e.
Proof.
  unfold needed. rewrite sum_sizes_app. cbn [sum_sizes]. unfold growth. rewrite sdus_app.
  unfold sdus at 2. rewrite filter_cons. destruct (elem_sdu e) eqn:E; destruct (decide _); try congruence.
  - rewrite rev_app_distr. cbn [rev app]. unfold full_size.
    change (filter _ []) with (@nil elem). cbn [rev app]. lia.
  - change (filter _ []) with (@nil elem). rewrite app_nil_r. lia.
Qed.

Lemma put_rep p l e s' buf rem' last' y :
  pdu_rep p l -> subheaders p !! length l = Some y -> elem_ok e -> subh_rep e s' ->
  rem' = pdu_len p - needed (l ++ [e]) -> 0 <= rem' ->
  last' = (if elem_sdu e then zlen l else last_sdu_idx p) ->
  bb_wf buf -> msg buf = SRSRAN_BUFFER_HEADER_OFFSET ->
  contents buf = Some (mjoin (map snd (sdus (l ++ [e])))) -> N_bytes buf = zlen (mjoin (map snd (sdus (l ++ [e])))) ->
  pdu_rep (mk_pdu (<[length l := s']> (subheaders p)) (pdu_len p) rem' (zlen l) (zlen l + 1) (pdu_is_ul p) buf last')
    (l ++ [e]).
Proof.
  intros Hr Hy He Hs Hrem H0 Hlast Hwf Hmsg Hc Hn. pose proof (lookup_lt_Some _ _ _ Hy) as Hlt.
  destruct (insert_next (subheaders p) (length l) s' y Hy) as [Et Ed].
  assert (Ez : Z.to_nat (zlen (l ++ [e])) = S (length l)) by (rewrite zlen_app; change (zlen [e]) with 1; unfold zlen; lia).
  assert (El : Z.to_nat (zlen l) = length l) by (unfold zlen; lia).
  constructor; cbn [nof_subheaders cur_idx subheaders last_sdu_idx rem_len pdu_len pdu_is_ul buffer_tx]; try done.
  - rewrite zlen_app. done.
  - rewrite zlen_app. change (zlen [e]) with 1. lia.
  - rewrite length_app, length_insert. cbn. lia.
  - unfold ztake. rewrite Ez, Et. apply Forall2_app; [|by constructor].
    pose proof (pr_sub _ _ Hr) as Hf. unfold ztake in Hf. by rewrite El in Hf.
  - unfold zdrop. rewrite Ez, Ed. pose proof (pr_fresh _ _ Hr) as Hf. unfold zdrop in Hf. rewrite El in Hf.
    replace (S (length l)) with (length l + 1)%nat by lia. rewrite <- drop_drop. by apply Forall_drop.
  - apply Forall_app. split; [apply Hr|]. by constructor.
  - rewrite Hlast. apply last_idx_snoc, Hr.
  - apply Hr.
  - apply Hr.
Qed.

(** The growth of the last SDU as the code computes it. *)
Lemma last_sdu_growth_rep p l p1 :
  pdu_rep p l -> subheaders p1 = subheaders p -> last_sdu_idx p1 = last_sdu_idx p ->
  growth l = (if last_sdu_idx p1 <? 0 then 0 else last_sdu_growth p1).
Proof.
  intros Hr E1 E2. rewrite E2. destruct (pr_last _ _ Hr) as [[Hn Hi]|(a & e & b & El & He & Hb & Hi)].
  - rewrite Hi. unfold growth. by rewrite Hn.
  - rewrite Hi. pose proof (zlen_nonneg a). destruct (Z.ltb_spec (zlen a) 0); [lia|].
    rewrite El. destruct (sdus_split a e b He Hb) as (_ & _ & ->).
    unfold last_sdu_growth, subh_at. rewrite E1, E2, Hi. destruct (Z.ltb_spec (zlen a) 0); [lia|].
    pose proof (pr_sub _ _ Hr) as Hf. rewrite El in Hf.
    apply Forall2_app_inv_l in Hf as (sa & ss & Ha & Hss & Es). apply Forall2_cons_inv_l in Hss as (s & sb & Hes & _ & ->).
    assert (Hlk : subheaders p !! Z.to_nat (zlen a) = Some s).
    { apply (f_equal (fun x => x !! Z.to_nat (zlen a))) in Es. unfold ztake in Es. rewrite lookup_take_lt in Es.
      - rewrite Es. apply Forall2_length in Ha. unfold zlen. rewrite Nat2Z.id, Ha. by apply list_lookup_middle.
      - rewrite zlen_app, zlen_cons. pose proof (zlen_nonneg b). lia. }
    rewrite Hlk. assert (Hok : elem_ok e) by (pose proof (pr_ok _ _ Hr) as H'; rewrite El in H'; apply Forall_app in H' as [_ H'];
      by apply Forall_cons_1 in H' as [? _]).
    destruct (elem_len_bounds e Hok) as [Hlb Hlp]. specialize (Hlp (elem_sdu_has_length e He)).
    unfold get_payload_size. rewrite (sr_n _ _ Hes), (u32_id (zlen (snd e))) by (unfold is_u32; lia).
    unfold subh_len, wire_subh_len. rewrite (elem_sdu_has_length e He). cbn [andb negb]. unfold size_header_sdu.
    destruct (Z.eqb_spec (zlen (snd e)) 0); [lia|].
    destruct (Z.ltb_spec (zlen (snd e)) 128), (Z.leb_spec 128 (zlen (snd e))); try lia; done.
Qed.

Lemma growth_bounds l : 0 <= growth l <= 2.
Proof.
  unfold growth. destruct (rev (sdus l)) as [|e ?]; [lia|]. pose proof (subh_len_bounds e false). lia.
Qed.

(** [set_sdu] after [new_subh]: the SDU must fit twice in the buffer. *)
Lemma add_sdu_rep p l lc d :
  pdu_rep p l -> zlen l < max_subheaders p - 1 -> 0 < zlen d ->
  zlen d + 1 + growth l <= rem_len p -> elem_sdu (lc, d) = true -> 0 <= lc < 32 ->
  N_bytes (buffer_tx p) + 2 * zlen d <= SRSRAN_MAX_BUFFER_SIZE_BYTES - SRSRAN_BUFFER_HEADER_OFFSET ->
  exists p1 p2, new_subh p = (true, p1) /\ set_sdu p1 lc d = Some (zlen d, p2) /\
    pdu_rep p2 (l ++ [(lc, d)]) /\ pdu_len p2 = pdu_len p /\ max_subheaders p2 = max_subheaders p.
Proof.
  intros Hr Hmax Hd Hsp Hsdu Hlc Hroom. pose proof (growth_bounds l) as Hg.
  destruct (new_subh_rep p l Hr Hmax ltac:(lia)) as (Hnew & s & Hget & (F1 & F2 & F3 & F4) & Hlk).
  set (p1 := set_cur _ _) in *. pose proof (pr_len _ _ Hr). pose proof (pr_rem0 _ _ Hr). pose proof (pr_rem _ _ Hr) as Hrem.
  assert (Hnn : 0 <= needed l).
  { unfold needed. destruct (rev (sdus l)) as [|x r] eqn:Er; [unfold growth; rewrite Er; pose proof (sum_sizes_nonneg l); lia|].
    rewrite (sum_sizes_split l). assert (Es : sdus l = rev r ++ [x]) by (rewrite <- (rev_involutive (sdus l)), Er; done).
    unfold growth. rewrite Er, Es, sum_sizes_app. cbn [sum_sizes]. unfold full_size.
    pose proof (sum_sizes_nonneg (ces l)). pose proof (sum_sizes_nonneg (rev r)). pose proof (zlen_nonneg (snd x)). lia. }
  exists p1. unfold set_sdu. rewrite Hget. cbn [mbind option_bind].
  assert (Hspace : forall q, subheaders q = subheaders p -> last_sdu_idx q = last_sdu_idx p -> rem_len q = rem_len p ->
     bb_wf (buffer_tx q) -> msg (buffer_tx q) = SRSRAN_BUFFER_HEADER_OFFSET ->
     N_bytes (buffer_tx q) + zlen d <= SRSRAN_MAX_BUFFER_SIZE_BYTES - SRSRAN_BUFFER_HEADER_OFFSET ->
     has_space_sdu q (zlen d) = true).
  { intros q Q1 Q2 Q3 Q4 Q5 Q6. unfold has_space_sdu, get_sdu_space. rewrite Q3.
    pose proof (last_sdu_growth_rep p l q Hr Q1 Q2) as Eg.
    rewrite get_tailroom_wf, Q5 by done. pose proof (bb_nbytes _ Q4).
    assert (Er : (if last_sdu_idx q <? 0 then i32 (rem_len p - 1) else i32 (rem_len p - last_sdu_growth q - 1)) =
                 rem_len p - growth l - 1).
    { destruct (last_sdu_idx q <? 0); rewrite i32_id; lia. }
    rewrite Er. destruct (Z.leb_spec 0 (rem_len p - growth l - 1)); [|lia].
    rewrite i32_id by (bb_consts; lia).
    destruct (Z.ltb_spec (Z.min (rem_len p - growth l - 1) (SRSRAN_MAX_BUFFER_SIZE_BYTES - SRSRAN_BUFFER_HEADER_OFFSET - N_bytes (buffer_tx q))) 0); [lia|].
    apply Z.leb_le. lia. }
  rewrite (Hspace p1 eq_refl eq_refl eq_refl (pr_wf _ _ Hr) (pr_msg _ _ Hr))
    by (change (buffer_tx p1) with (buffer_tx p); lia).
  destruct (append_bytes_spec (buffer_tx p1) d (mjoin (map snd (sdus l)))) as (b & Hb & Hbwf & Hbd & Hbn & Hbm).
  { apply Hr. } { apply Hr. }
  { cbn. rewrite get_tailroom_wf, (pr_msg _ _ Hr) by apply Hr. lia. }
  rewrite Hb. cbn [mbind option_bind]. unfold update_space_sdu.
  cbn in Hbn, Hbm. rewrite (pr_msg _ _ Hr) in Hbm.
  rewrite (Hspace (set_buffer p1 b) eq_refl eq_refl eq_refl Hbwf Hbm) by (cbn [buffer_tx set_buffer]; lia).
  cbn [snd]. eexists. split; [done|]. split; [reflexivity|].
  assert (Es : sdus (l ++ [(lc, d)]) = sdus l ++ [(lc, d)]).
  { rewrite sdus_app. f_equal. unfold sdus. rewrite filter_cons. destruct (decide _); done. }
  assert (Ej : mjoin (map snd (sdus (l ++ [(lc, d)]))) = mjoin (map snd (sdus l)) ++ d).
  { rewrite Es, map_app, join_app. cbn [map]. by rewrite mjoin_one. }
  split_and!.
  - unfold put. cbn [cur_idx subheaders set_subheaders set_buffer p1 set_cur set_nof].
    replace (Z.to_nat (zlen l)) with (length l) by (unfold zlen; lia).
    apply (put_rep p l (lc, d)) with s; try done.
    + split; [done|]. rewrite Hsdu. cbn. lia.
    + constructor; try done; [congruence].
    + pose proof (last_sdu_growth_rep p l (set_buffer p1 b) Hr eq_refl eq_refl) as Eg.
      rewrite needed_snoc, Hsdu. cbn [snd rem_len p1 set_cur set_nof set_buffer] in *.
      destruct (last_sdu_idx (set_buffer p1 b) <? 0); rewrite u32_id; unfold is_u32; lia.
    + pose proof (last_sdu_growth_rep p l (set_buffer p1 b) Hr eq_refl eq_refl) as Eg.
      cbn [rem_len p1 set_cur set_nof set_buffer] in *.
      destruct (last_sdu_idx (set_buffer p1 b) <? 0); rewrite u32_id; unfold is_u32; lia.
    + by rewrite Hsdu.
    + etransitivity; [exact Hbd|]. f_equal. by symmetry.
    + etransitivity; [exact Hbn|]. etransitivity; [|apply (f_equal zlen); symmetry; exact Ej].
      by rewrite zlen_app, (pr_n _ _ Hr).
  - done.
  - unfold max_subheaders, put. cbn. unfold zlen. by rewrite length_insert.
Qed.

Lemma sdus_snoc_ce l e : elem_sdu e = false -> sdus (l ++ [e]) = sdus l.
Proof.
  intros E. rewrite sdus_app. unfold sdus at 2. rewrite filter_cons.
  destruct (decide _); [congruence|]. by rewrite app_nil_r.
Qed.

Lemma store_front w ce : zlen ce <= zlen w ->
  exists w', store w 0 ce = Some w' /\ load_bytes w' 0 (zlen ce) = Some ce.
Proof.
  intros H. destruct (store w 0 ce) as [w'|] eqn:E.
  - exists w'. split; [done|]. by apply (load_bytes_store_same _ _ _ _ _ E).
  - rewrite store_Some in E by lia. discriminate E.
Qed.

(** A control element of a fixed size after [new_subh]. *)
Lemma add_ce_rep p l lc ce :
  t = SCH_SUBH_TYPE ->
  pdu_rep p l -> zlen l < max_subheaders p - 1 -> 17 < lc < 32 -> ce_len t lc is_ul = zlen ce ->
  1 <= zlen ce <= 64 -> zlen ce + 1 <= rem_len p ->
  exists p1 p2, new_subh p = (true, p1) /\ set_ce p1 lc (zlen ce) ce = Some (true, p2) /\
    pdu_rep p2 (l ++ [(lc, ce)]) /\ pdu_len p2 = pdu_len p /\ max_subheaders p2 = max_subheaders p.
Proof.
  intros Ht Hr Hmax Hlc Hce Hl Hsp.
  destruct (new_subh_rep p l Hr Hmax ltac:(lia)) as (Hnew & s & Hget & (F1 & F2 & F3 & F4) & Hlk).
  set (p1 := set_cur _ _) in *. exists p1. unfold set_ce. rewrite Hget. cbn [mbind option_bind].
  pose proof (pr_len _ _ Hr). pose proof (pr_rem _ _ Hr). pose proof (pr_rem0 _ _ Hr). pose proof (growth_bounds l).
  assert (Hrl : rem_len p <= pdu_len p + 2) by (pose proof (sum_sizes_nonneg l); unfold needed in *; lia).
  assert (Hhas : has_space_ce p1 (zlen ce) false = true).
  { unfold has_space_ce, ce_head_len. apply Z.leb_le. cbn [rem_len p1 set_cur set_nof].
    rewrite u32_id by (unfold is_u32; lia). lia. }
  rewrite Hhas. destruct (store_front (w_payload_ce s) ce ltac:(lia)) as (w & Hw & Hld). rewrite Hw. cbn [mbind option_bind].
  unfold update_space_ce. rewrite Hhas. cbn [snd ce_head_len].
  assert (Hsdu : elem_sdu (lc, ce) = false).
  { unfold elem_sdu. rewrite Ht. unfold ul_is_sdu, UL_RESERVED. cbn [fst]. apply Z.leb_gt. lia. }
  assert (Hnl : has_length t lc = false) by (unfold has_length; rewrite Ht; apply Z.leb_gt; lia).
  eexists. split; [done|]. split; [reflexivity|]. split_and!.
  - unfold put. cbn [cur_idx subheaders set_subheaders set_rem_len p1 set_cur set_nof].
    replace (Z.to_nat (zlen l)) with (length l) by (unfold zlen; lia).
    apply (put_rep p l (lc, ce)) with s; try done; try apply Hr.
    + split; [cbn; lia|]. rewrite Hsdu. cbn [fst snd]. by rewrite Hnl.
    + constructor; cbn [lcid nof_bytes stype w_payload_ce fst snd]; try done.
      intros _. split; [done|]. unfold sizeof_ce. cbn [stype]. rewrite F1. rewrite <- Hce. unfold ce_len. by rewrite Ht.
    + rewrite needed_snoc, Hsdu. unfold full_size, subh_len, wire_subh_len. cbn [fst snd]. rewrite Hnl. cbn [andb rem_len set_rem_len].
      change (rem_len p1) with (rem_len p). rewrite u32_id; unfold is_u32; lia.
    + cbn [rem_len set_rem_len]. change (rem_len p1) with (rem_len p). rewrite u32_id; unfold is_u32; lia.
    + by rewrite Hsdu.
    + rewrite sdus_snoc_ce by done. apply Hr.
    + rewrite sdus_snoc_ce by done. apply Hr.
  - done.
  - unfold max_subheaders, put. cbn. unfold zlen. by rewrite length_insert.
Qed.

(** An entry of scheduling information after [new_subh]. *)
Definition sched_bytes (lc mtch_stop : Z) : bytes :=
  let stop := if mtch_stop =? 0 then MTCH_STOP_EMPTY else mtch_stop in
  [Z.lor (Z.shiftl (Z.land lc 0x1F) 3) (Z.shiftr (Z.land stop 0x0700) 8); Z.land stop 0xff].

Lemma add_sched_rep p l lc stop :
  t = MCH_SUBH_TYPE -> pdu_rep p l -> zlen l < max_subheaders p - 1 -> 4 <= rem_len p ->
  exists p1 p2, new_subh p = (true, p1) /\ set_next_mch_sched_info p1 lc stop = Some (true, p2) /\
    pdu_rep p2 (l ++ [(MCH_SCHED_INFO, sched_bytes lc stop)]) /\ pdu_len p2 = pdu_len p /\
    max_subheaders p2 = max_subheaders p.
Proof.
  intros Ht Hr Hmax Hsp.
  destruct (new_subh_rep p l Hr Hmax ltac:(lia)) as (Hnew & s & Hget & (F1 & F2 & F3 & F4) & Hlk).
  set (p1 := set_cur _ _) in *. exists p1. unfold set_next_mch_sched_info. rewrite Hget. cbn [mbind option_bind].
  pose proof (pr_len _ _ Hr). pose proof (pr_rem _ _ Hr). pose proof (pr_rem0 _ _ Hr). pose proof (growth_bounds l).
  assert (Hrl : rem_len p <= pdu_len p + 2) by (pose proof (sum_sizes_nonneg l); unfold needed in *; lia).
  assert (Hhas : has_space_ce p1 2 true = true /\ has_space_ce p1 2 false = true).
  { unfold has_space_ce, ce_head_len, size_header_sdu. cbn [rem_len p1 set_cur set_nof Z.eqb Z.ltb Z.compare Pos.compare Pos.compare_cont].
    change (u32 (2 + 2)) with 4. change (u32 (2 + 1)) with 3. split; apply Z.leb_le; lia. }
  destruct Hhas as [Hh1 Hh2]. rewrite Hh1. rewrite F3. change (0 * 2) with 0. fold (sched_bytes lc stop).
  destruct (store_front (w_payload_ce s) (sched_bytes lc stop)) as (w & Hw & Hld); [rewrite F4; done|].
  rewrite Hw. cbn [mbind option_bind]. unfold update_space_ce. rewrite Hh2. cbn [snd ce_head_len].
  assert (Hsdu : elem_sdu (MCH_SCHED_INFO, sched_bytes lc stop) = false) by (unfold elem_sdu; by rewrite Ht).
  assert (Hnl : has_length t MCH_SCHED_INFO = true) by (unfold has_length; by rewrite Ht).
  assert (Hz : zlen (sched_bytes lc stop) = 2) by done.
  eexists. split; [done|]. split; [reflexivity|]. split_and!.
  - unfold put. cbn [cur_idx subheaders set_subheaders set_rem_len p1 set_cur set_nof].
    replace (Z.to_nat (zlen l)) with (length l) by (unfold zlen; lia).
    apply (put_rep p l (MCH_SCHED_INFO, sched_bytes lc stop)) with s; try done; try apply Hr.
    + split; [done|]. rewrite Hsdu. cbn [fst snd]. rewrite Hnl, Hz. lia.
    + constructor; cbn [lcid nof_bytes stype w_payload_ce fst snd]; try done; [rewrite F2; done|].
      intros _. split; [done|]. unfold sizeof_ce. cbn [stype nof_mch_sched_ce]. rewrite F1, Ht. done.
    + rewrite needed_snoc, Hsdu. unfold full_size, subh_len, wire_subh_len. cbn [fst snd]. rewrite Hnl, Hz. cbn [andb negb rem_len].
      change (128 <=? 2) with false. change (size_header_sdu 2) with 2. cbn [rem_len set_rem_len]. change (rem_len p1) with (rem_len p). rewrite u32_id; unfold is_u32; lia.
    + change (size_header_sdu 2) with 2. cbn [rem_len set_rem_len]. change (rem_len p1) with (rem_len p). rewrite u32_id; unfold is_u32; lia.
    + by rewrite Hsdu.
    + rewrite sdus_snoc_ce by done. apply Hr.
    + rewrite sdus_snoc_ce by done. apply Hr.
  - done.
  - unfold max_subheaders, put. cbn. unfold zlen. by rewrite length_insert.
Qed.
End Wire.
