(* ===== verification/MacPduCorrect.v ===== *)
(** * MAC PDUs: from the items put in to the items read out

    The operations of [MacPdu] used the way their callers do: a subheader is opened
    with [new_subh] and filled with one of the setters, the packet is written, and the
    receiver parses it.  The theorems say that every item that fits is accepted, that
    the packet has exactly the length of the grant, and that the receiver's getters
    return the values that were set. *)

From stdpp Require Import base list gmap numbers.
From coqutil Require Import Z.bitblast.
From S2P Require Import Prelude ByteBuffer MacPdu MacPduWire.

Local Open Scope Z_scope.

(** ** Items *)

Inductive item :=
| item_sdu (lc : Z) (d : bytes)
| item_c_rnti (crnti : Z)
| item_con_res_id (id : Z)
| item_ta_cmd (ta : Z)
| item_phr (phr : Z)
| item_scell (active : list bool)
| item_bsr (b : Z * Z * Z * Z) (format : Z)
| item_sched (lc stop : Z).

(** [new_subh] followed by the setter. *)
Definition add_item (p : sch_pdu) (it : item) : option (bool * sch_pdu) :=
  let '(ok, p1) := new_subh p in
  if (ok : bool) then
    match it with
    | item_sdu lc d => '(n, p2) ← set_sdu p1 lc d; Some (0 <=? n, p2)
    | item_c_rnti v => set_c_rnti p1 v
    | item_con_res_id v => set_con_res_id p1 v
    | item_ta_cmd v => set_ta_cmd p1 v
    | item_phr v => set_phr p1 v
    | item_scell l => set_scell_activation_cmd p1 l
    | item_bsr b f => set_bsr p1 b f
    | item_sched lc stop => set_next_mch_sched_info p1 lc stop
    end
  else Some (false, p).

(** All items; the flag is whether all of them were accepted. *)
Fixpoint add_items (p : sch_pdu) (its : list item) : option (bool * sch_pdu) :=
  match its with
  | [] => Some (true, p)
  | it :: its' => '(ok, p1) ← add_item p it; if (ok : bool) then add_items p1 its' else Some (false, p1)
  end.

(** The element on the wire. *)
Definition item_elem (it : item) : elem :=
  match it with
  | item_sdu lc d => (lc, d)
  | item_c_rnti v => (CRNTI, [Z.shiftr (Z.land v 0xff00) 8; Z.land v 0x00ff])
  | item_con_res_id id =>
      (CON_RES_ID, [Z.shiftr (Z.land id 0xff0000000000) 40; Z.shiftr (Z.land id 0x00ff00000000) 32;
        Z.shiftr (Z.land id 0x0000ff000000) 24; Z.shiftr (Z.land id 0x000000ff0000) 16;
        Z.shiftr (Z.land id 0x00000000ff00) 8; Z.land id 0x0000000000ff])
  | item_ta_cmd ta => (TA_CMD, [Z.land ta 0x3f])
  | item_phr v => (PHR_REPORT, [Z.land (phr_report_table v) 0x3f])
  | item_scell l => (SCELL_ACTIVATION, [scell_octet l])
  | item_bsr b f => (f, bsr_ce b f)
  | item_sched lc stop => (MCH_SCHED_INFO, sched_bytes lc stop)
  end.

(** The items that a PDU of each kind carries: SDUs with at least one byte, control
    elements of the link, scheduling information on the MCH. *)
Definition item_ok (t : subh_type) (is_ul : bool) (it : item) : bool :=
  match it with
  | item_sdu lc d => (0 <=? lc) && elem_sdu t (lc, d) && (0 <? zlen d)
  | item_c_rnti _ | item_phr _ => bool_decide (t = SCH_SUBH_TYPE) && is_ul
  | item_bsr _ f => bool_decide (t = SCH_SUBH_TYPE) && is_ul &&
      ((f =? TRUNC_BSR) || (f =? SHORT_BSR) || (f =? LONG_BSR))
  | item_con_res_id _ | item_ta_cmd _ | item_scell _ => bool_decide (t = SCH_SUBH_TYPE) && negb is_ul
  | item_sched _ _ => bool_decide (t = MCH_SUBH_TYPE)
  end.

(** Bytes of the SDUs. *)
Definition item_sdu_bytes (t : subh_type) (its : list item) : Z :=
  zlen (mjoin (map snd (sdus t (map item_elem its)))).

(** ** Filling *)

Section Fill.
Context (t : subh_type) (is_ul : bool).

Lemma needed_mono l e : needed t l <= needed t (l ++ [e]).
Proof.
  rewrite needed_snoc. pose proof (growth_bounds t l). pose proof (full_size_pos t e).
  pose proof (zlen_nonneg (snd e)). destruct (elem_sdu t e); lia.
Qed.

Lemma needed_app_mono l2 : forall l1, needed t l1 <= needed t (l1 ++ l2).
Proof.
  induction l2 as [|e l2 IH]; intros l1; [rewrite app_nil_r; lia|].
  replace (l1 ++ e :: l2) with ((l1 ++ [e]) ++ l2) by (by rewrite <- app_assoc).
  etrans; [apply (needed_mono l1 e)|apply IH].
Qed.

Lemma zlen_mjoin_app {A} (l1 l2 : list (list A)) : zlen (mjoin (l1 ++ l2)) = zlen (mjoin l1) + zlen (mjoin l2).
Proof. by rewrite !zlen_mjoin, map_app, zsum_app. Qed.

(** One item that fits is accepted. *)
Lemma add_item_rep p l it :
  pdu_rep t is_ul p l -> item_ok t is_ul it = true -> zlen l < max_subheaders p - 1 ->
  needed t (l ++ [item_elem it]) <= pdu_len p ->
  (elem_sdu t (item_elem it) = true -> N_bytes (buffer_tx p) + 2 * zlen (snd (item_elem it)) <=
     SRSRAN_MAX_BUFFER_SIZE_BYTES - SRSRAN_BUFFER_HEADER_OFFSET) ->
  exists p2, add_item p it = Some (true, p2) /\ pdu_rep t is_ul p2 (l ++ [item_elem it]) /\
    pdu_len p2 = pdu_len p /\ max_subheaders p2 = max_subheaders p.
Proof.
  intros Hrep Hok Hroom Hneed Htail. rewrite needed_snoc in Hneed.
  pose proof (pr_rem _ _ _ _ Hrep) as Hrem. unfold add_item.
  assert (Hce : forall lc ce, item_elem it = (lc, ce) -> t = SCH_SUBH_TYPE -> 17 < lc < 32 ->
    ce_len t lc is_ul = zlen ce -> 1 <= zlen ce <= 64 ->
    exists p1 p2, new_subh p = (true, p1) /\ set_ce p1 lc (zlen ce) ce = Some (true, p2) /\
      pdu_rep t is_ul p2 (l ++ [item_elem it]) /\ pdu_len p2 = pdu_len p /\ max_subheaders p2 = max_subheaders p).
  { intros lc ce E Ht Hlc Hlen Hb. rewrite E in *.
    assert (Hs : elem_sdu t (lc, ce) = false).
    { subst t. unfold elem_sdu, ul_is_sdu, UL_RESERVED. cbn [fst]. apply Z.leb_gt. lia. }
    assert (Hl : has_length t lc = false) by (subst t; unfold has_length; apply Z.leb_gt; lia).
    rewrite Hs in Hneed. unfold full_size, subh_len, wire_subh_len in Hneed. cbn [fst snd] in Hneed.
    rewrite Hl in Hneed. cbn [andb] in Hneed. apply add_ce_rep; try done; lia. }
  destruct it; cbn [item_ok] in Hok; zify_bools;
    try (match goal with H : bool_decide (t = _) = true |- _ => apply bool_decide_eq_true in H; rename H into Ht end).
  - cbn [item_elem snd] in *. rewrite H1 in *.
    destruct (add_sdu_rep t is_ul p l lc d) as (p1 & p2 & -> & -> & R); try done; try lia.
    { split; [lia|]. revert H1. unfold elem_sdu, mch_is_sdu, ul_is_sdu, MCH_SCHED_INFO, UL_RESERVED. cbn [fst].
      destruct t; rewrite ?Z.leb_le, ?Z.ltb_lt; lia. }
    exists p2. cbn [mbind option_bind]. rewrite (proj2 (Z.leb_le 0 (zlen d))) by apply zlen_nonneg. done.
  - subst is_ul. edestruct (Hce CRNTI) as (p1 & p2 & -> & E & R); [reflexivity|done|unfold CRNTI; lia|by rewrite Ht|done|].
    exists p2. split; [exact E|done].
  - destruct is_ul; [done|].
    edestruct (Hce CON_RES_ID) as (p1 & p2 & -> & E & R); [reflexivity|done|unfold CON_RES_ID; lia|by rewrite Ht|done|].
    exists p2. split; [exact E|done].
  - destruct is_ul; [done|].
    edestruct (Hce TA_CMD) as (p1 & p2 & -> & E & R); [reflexivity|done|unfold TA_CMD; lia|by rewrite Ht|done|].
    exists p2. split; [exact E|done].
  - subst is_ul. edestruct (Hce PHR_REPORT) as (p1 & p2 & -> & E & R); [reflexivity|done|unfold PHR_REPORT; lia|by rewrite Ht|done|].
    exists p2. split; [exact E|done].
  - destruct is_ul; [done|].
    edestruct (Hce SCELL_ACTIVATION) as (p1 & p2 & -> & E & R); [reflexivity|done|unfold SCELL_ACTIVATION; lia|by rewrite Ht|done|].
    exists p2. split; [exact E|done].
  - subst is_ul. match goal with H : (_ || _) = true |- _ => rename H into Hfmt end.
    rewrite !orb_true_iff, !Z.eqb_eq in Hfmt.
    assert (Hf : 17 < format < 32 /\ ce_len t format true = zlen (bsr_ce b format) /\ 1 <= zlen (bsr_ce b format) <= 64 /\
      (if format =? LONG_BSR then 3 else 1) = zlen (bsr_ce b format)).
    { rewrite Ht. unfold bsr_ce. destruct b as [[[b0 b1] b2] b3].
      destruct Hfmt as [[-> | ->] | ->]; (split; [unfold TRUNC_BSR, SHORT_BSR, LONG_BSR; lia|]); cbn -[buff_size_table]; done. }
    destruct Hf as (Hf1 & Hf2 & Hf3 & Hf4).
    edestruct (Hce format) as (p1 & p2 & -> & E & R); [reflexivity|done|done|done|done|].
    exists p2. unfold set_bsr. rewrite Hf4. split; [exact E|done].
  - destruct (add_sched_rep t is_ul p l lc stop Ht Hrep Hroom) as (p1 & p2 & -> & E & R).
    { subst t. cbn [item_elem] in Hneed.
      change (elem_sdu MCH_SUBH_TYPE (MCH_SCHED_INFO, sched_bytes lc stop)) with false in Hneed.
      change (full_size MCH_SUBH_TYPE (MCH_SCHED_INFO, sched_bytes lc stop)) with 4 in Hneed. cbv iota in Hneed. lia. }
    exists p2. done.
Qed.

Lemma add_items_rep its : forall p l,
  pdu_rep t is_ul p l -> Forall (fun it => item_ok t is_ul it = true) its ->
  zlen l + zlen its <= max_subheaders p - 1 ->
  needed t (l ++ map item_elem its) <= pdu_len p ->
  2 * zlen (mjoin (map snd (sdus t (l ++ map item_elem its)))) <=
    SRSRAN_MAX_BUFFER_SIZE_BYTES - SRSRAN_BUFFER_HEADER_OFFSET ->
  exists p', add_items p its = Some (true, p') /\ pdu_rep t is_ul p' (l ++ map item_elem its) /\
    pdu_len p' = pdu_len p /\ max_subheaders p' = max_subheaders p.
Proof.
  induction its as [|it its IH]; intros p l Hrep Hok Hroom Hneed Htail; cbn [add_items map].
  { exists p. by rewrite app_nil_r. }
  apply Forall_cons_1 in Hok as [Hit Hok]. rewrite zlen_cons in Hroom. pose proof (zlen_nonneg its).
  cbn [map] in Hneed, Htail.
  assert (Eapp : l ++ item_elem it :: map item_elem its = (l ++ [item_elem it]) ++ map item_elem its)
    by (by rewrite <- app_assoc).
  rewrite Eapp in *.
  destruct (add_item_rep p l it Hrep Hit) as (p1 & -> & Hrep1 & Hlen & Hmax); [lia| | |].
  { etrans; [apply (needed_app_mono (map item_elem its))|exact Hneed]. }
  { intros Hs. rewrite (pr_n _ _ _ _ Hrep). rewrite !sdus_app in Htail.
    assert (E1 : sdus t [item_elem it] = [item_elem it]) by (unfold sdus; rewrite filter_cons_True; done).
    rewrite E1, !map_app, !zlen_mjoin_app in Htail. cbn [map] in Htail. rewrite mjoin_one in Htail.
    pose proof (zlen_nonneg (mjoin (map snd (sdus t l)))).
    pose proof (zlen_nonneg (mjoin (map snd (sdus t (map item_elem its))))). unfold elem in *. lia. }
  cbn [mbind option_bind].
  destruct (IH p1 (l ++ [item_elem it]) Hrep1 Hok) as (p' & -> & Hrep' & Hlen' & Hmax').
  - rewrite zlen_app. change (zlen [item_elem it]) with 1. lia.
  - by rewrite Hlen.
  - done.
  - exists p'. split_and!; try done; congruence.
Qed.
End Fill.

(** ** Writing and parsing *)

(** The bytes of a buffer. *)
Definition MAC_BUFFER : Z := SRSRAN_MAX_BUFFER_SIZE_BYTES - SRSRAN_BUFFER_HEADER_OFFSET.

(** The items fit in a grant of [len] bytes: at least one SDU, fewer subheaders than
    the PDU object has, enough bytes.  [set_sdu] asks for the room of an SDU twice. *)
Definition fits (t : subh_type) (is_ul : bool) (its : list item) (len max : Z) : bool :=
  forallb (item_ok t is_ul) its && existsb (elem_sdu t) (map item_elem its) &&
  (zlen its <=? max - 1) && (zlen its <=? 100) &&
  (needed t (map item_elem its) <=? len) && (len <=? MAC_BUFFER) && (2 * item_sdu_bytes t its <=? MAC_BUFFER).

(** The elements that are not padding. *)
Definition useful (l : list elem) : list elem := filter (fun e => fst e <> PADDING) l.

(** Subheader objects of the right type. *)
Definition typed (t : subh_type) (p : sch_pdu) : Prop := Forall (fun s => stype s = t) (subheaders p).

Lemma existsb_sdus t l : existsb (elem_sdu t) l = true -> sdus t l <> [].
Proof.
  rewrite List.existsb_exists. intros (e & Hin & He) E.
  assert (Hf : e ∈ sdus t l) by (apply list_elem_of_filter; split; [done|by apply list_elem_of_In]).
  rewrite E in Hf. by apply not_elem_of_nil in Hf.
Qed.

Lemma item_elem_not_padding t is_ul it : item_ok t is_ul it = true -> fst (item_elem it) <> PADDING.
Proof.
  destruct it; cbn [item_ok item_elem fst]; unfold PADDING; intros H; try discriminate.
  - rewrite !andb_true_iff in H. destruct H as [[_ H] _]. revert H. unfold elem_sdu, mch_is_sdu, ul_is_sdu, MCH_SCHED_INFO, UL_RESERVED. cbn [fst].
    destruct t; rewrite ?Z.leb_le, ?Z.ltb_lt; lia.
  - rewrite !andb_true_iff, !orb_true_iff, !Z.eqb_eq in H. unfold TRUNC_BSR, SHORT_BSR, LONG_BSR in H. lia.
Qed.

Lemma useful_all l : Forall (fun e => fst e <> PADDING) l -> useful l = l.
Proof. induction 1; [done|]. unfold useful in *. rewrite filter_cons_True by done. by f_equal. Qed.

Lemma useful_pads n : useful (repeat (pad_elem 0) n) = [].
Proof. induction n; [done|]. cbn [repeat]. unfold useful in *. rewrite filter_cons_False; [done|]. cbn. tauto. Qed.

Lemma useful_app l1 l2 : useful (l1 ++ l2) = useful l1 ++ useful l2.
Proof. apply list.filter_app. Qed.

Lemma useful_pad n : useful [pad_elem n] = [].
Proof. unfold useful. rewrite filter_cons_False; [done|]. cbn. tauto. Qed.

Lemma Forall_sublist_filter {A} (P : A -> Prop) (Q : A -> Prop) `{!forall x, Decision (Q x)} l :
  Forall P l -> Forall P (filter Q l).
Proof. induction 1; [constructor|]. rewrite filter_cons. case_decide; [by constructor|done]. Qed.

(** What is read besides padding: the control elements, then the SDUs. *)
Lemma useful_encoded t l rem :
  Forall (fun e => fst e <> PADDING) l -> sdus t l <> [] ->
  useful (front_elems t l rem ++ [last_elem t l rem]) = ces t l ++ sdus t l.
Proof.
  intros Hl Hne. unfold front_elems, last_elem.
  assert (Hc : useful (ces t l) = ces t l) by (apply useful_all, Forall_sublist_filter; done).
  assert (Hs : useful (sdus t l) = sdus t l) by (apply useful_all, Forall_sublist_filter; done).
  destruct (2 <? rem).
  - by rewrite !useful_app, Hc, Hs, useful_pad, app_nil_r.
  - rewrite <- !app_assoc, !useful_app, useful_pads, Hc. cbn [app]. f_equal.
    rewrite <- useful_app, <- app_removelast_last by done. done.
Qed.

(** Sizes of the header and of the control elements. *)
Lemma header_bound t is_ul its :
  Forall (fun it => item_ok t is_ul it = true) its ->
  hsum t (map item_elem its) + zlen (mjoin (map snd (ces t (map item_elem its)))) <= 9 * zlen its.
Proof.
  induction 1 as [|it its Hit _ IH]; [done|]. cbn [map]. rewrite zlen_cons.
  change (hsum t (item_elem it :: map item_elem its)) with (subh_len t (item_elem it) false + hsum t (map item_elem its)).
  pose proof (subh_len_bounds t (item_elem it) false) as Hh.
  unfold ces. rewrite filter_cons. destruct (decide _) as [Hs|Hs].
  - cbn [map]. rewrite mjoin_cons, zlen_app. fold (ces t (map item_elem its)).
    assert (zlen (snd (item_elem it)) <= 6); [|lia].
    clear -Hs Hit. destruct it as [lc d|v|id|ta|v|act|b f|lc stop]; cbn [item_elem snd] in *; try (unfold zlen; cbn [length sched_bytes]; lia).
    + cbn [item_ok] in Hit. zify_bools. congruence.
    + unfold bsr_ce. destruct (f =? LONG_BSR); unfold zlen; cbn [length]; lia.
  - fold (ces t (map item_elem its)). lia.
Qed.

(** A filled PDU is written with exactly its length and parses to its elements. *)
Lemma write_parse_rep t is_ul p its rx junk :
  let l := map item_elem its in
  pdu_rep t is_ul p l -> Forall (fun it => item_ok t is_ul it = true) its -> sdus t l <> [] ->
  zlen its <= 100 -> pdu_len p <= MAC_BUFFER ->
  pdu_len rx = pdu_len p -> pdu_is_ul rx = is_ul -> typed t rx -> zlen its + 4 <= max_subheaders rx ->
  exists p2 wire rx1 es, write_packet p = Some (true, p2) /\ contents (buffer_tx p2) = Some wire /\
    zlen wire = pdu_len p /\ parse_packet t rx (wire ++ junk) = Some rx1 /\
    decoded rx1 (wire ++ junk) = Some es /\ useful es = ces t l ++ sdus t l /\ (Forall (fun e => bytes_ok (snd e)) l -> bytes_ok wire).
Proof.
  intros l Hrep Hok Hne Hn Hlen Hrx Hul Hty Hroom.
  destruct (pdu_rep_split t is_ul p l Hrep Hne) as (a & e & b & sa & s & sb & El & Hsp).
  assert (Hrep' := Hrep). rewrite El in Hrep'.
  pose proof (header_bound t is_ul its Hok) as Hhb. fold l in Hhb.
  pose proof (pr_rem0 _ _ _ _ Hrep) as Hr0.
  destruct (write_packet_rep t is_ul p a e b sa s sb Hrep' Hsp) as (p2 & Hw & Hc).
  { rewrite (header_bytes_rep t is_ul p a e b sa s sb Hrep' Hsp).
    destruct (parts t is_ul p a e b sa s sb Hrep' Hsp) as (_ & _ & ->). rewrite <- El.
    assert (Hh : hsum t l = hsum t a + (subh_len t e false + hsum t b)) by (rewrite El, hsum_app; done).
    pose proof (subh_len_bounds t e false). unfold SRSRAN_BUFFER_HEADER_OFFSET.
    destruct (Z.ltb_spec 2 (rem_len p)); lia. }
  { exact Hlen. }
  rewrite <- El in Hc.
  pose proof (pr_rem _ _ _ _ Hrep) as Hrem. pose proof (pr_len _ _ _ _ Hrep) as Hpl.
  assert (Hpos : 2 <= needed t l) by (rewrite El; apply (needed_pos t is_ul p a e b sa s sb Hrep' Hsp)).
  pose proof (pr_ok _ _ _ _ Hrep) as Hel.
  assert (Hlenw : zlen (encode t l (rem_len p)) = pdu_len p) by (rewrite (encode_length t is_ul); try done; lia).
  destruct (parse_encode t is_ul rx l (rem_len p) junk) as (rx1 & Hp & Hd); try done; try lia.
  { assert (Hll : length l = length its) by (unfold l; by rewrite length_map).
    assert (Hcs : (length (ces t l) + length (sdus t l) <= length l)%nat).
    { unfold ces, sdus. clear. induction l as [|x l IH]; [done|]. rewrite !filter_cons.
      destruct (elem_sdu t x); repeat case_decide; try congruence; cbn [length]; lia. }
    unfold front_elems, zlen, max_subheaders, zlen in *.
    destruct (Z.ltb_spec 2 (rem_len p)); rewrite !length_app, ?repeat_length; [lia|].
    assert (length (removelast (sdus t l)) <= length (sdus t l))%nat.
    { rewrite removelast_firstn_len. rewrite length_take. lia. }
    lia. }
  exists p2, (encode t l (rem_len p)), rx1, (front_elems t l (rem_len p) ++ [last_elem t l (rem_len p)]).
  split_and!; try done; [|intros Hby; by apply encode_bytes_ok]. apply useful_encoded; [|done].
  unfold l. rewrite Forall_map. eapply Forall_impl; [|exact Hok]. intros it Hit. exact (item_elem_not_padding t is_ul it Hit).
Qed.

(** ** Values of the control elements *)

(** The bytes of a decoded element are what the getters read. *)
Lemma payload_at_decoded s mem lc d i x :
  decode_subh mem s = Some (lc, d) -> d !! Z.to_nat i = Some x -> 0 <= i ->
  payload_at s mem i = Some x /\ lcid s = lc /\ nof_bytes s = zlen d.
Proof.
  unfold decode_subh, payload_at. intros H Hx Hi. destruct (payload s) as [off|]; [|done]. cbn [mbind option_bind] in H.
  destruct (load_bytes mem off (nof_bytes s)) as [d'|] eqn:E; [|done]. cbn [mbind option_bind] in H.
  injection H as <- <-. pose proof (load_bytes_inv _ _ _ _ E) as (_ & _ & _ & _ & Hz).
  split_and!; [|done|done]. rewrite <- Hx. eapply load_of_load_bytes; [exact E|].
  apply lookup_lt_Some in Hx. unfold zlen in Hz. lia.
Qed.

(** Splitting a value in bytes and putting it together again. *)
Lemma byte_of v n : 0 <= n -> Z.shiftr (Z.land v (Z.shiftl (Z.ones 8) n)) n = Z.land (Z.shiftr v n) (Z.ones 8).
Proof. intros H. by rewrite Z.shiftr_land, Z.shiftr_shiftl_l, Z.sub_diag by lia. Qed.

Lemma c_rnti_bytes v : is_u16 v -> Z.lor (Z.shiftl (Z.shiftr (Z.land v 0xff00) 8) 8) (Z.land v 0x00ff) = v.
Proof.
  intros H. change 0xff00 with (Z.shiftl (Z.ones 8) 8). rewrite byte_of by lia. change 0x00ff with (Z.ones 8).
  replace v with (Z.land v (Z.ones 16)) at 3 by (rewrite Z.land_ones, Z.mod_small by (unfold is_u16 in H; lia); done).
  Z.bitblast.
Qed.

Lemma con_res_bytes v : 0 <= v < 2 ^ 48 ->
  Z.lor (Z.lor (Z.lor (Z.lor (Z.lor (Z.land v 0x0000000000ff) (Z.shiftl (Z.shiftr (Z.land v 0x00000000ff00) 8) 8))
    (Z.shiftl (Z.shiftr (Z.land v 0x000000ff0000) 16) 16)) (Z.shiftl (Z.shiftr (Z.land v 0x0000ff000000) 24) 24))
    (Z.shiftl (Z.shiftr (Z.land v 0x00ff00000000) 32) 32)) (Z.shiftl (Z.shiftr (Z.land v 0xff0000000000) 40) 40) = v.
Proof.
  intros H.
  change 0x00000000ff00 with (Z.shiftl (Z.ones 8) 8). change 0x000000ff0000 with (Z.shiftl (Z.ones 8) 16).
  change 0x0000ff000000 with (Z.shiftl (Z.ones 8) 24). change 0x00ff00000000 with (Z.shiftl (Z.ones 8) 32).
  change 0xff0000000000 with (Z.shiftl (Z.ones 8) 40). change 0x0000000000ff with (Z.ones 8).
  rewrite !byte_of by lia.
  replace v with (Z.land v (Z.ones 48)) at 7 by (rewrite Z.land_ones, Z.mod_small by lia; done).
  Z.bitblast.
Qed.

Lemma six_bits v : 0 <= v < 64 -> Z.land (Z.land v 0x3f) 0x3f = v.
Proof. intros H. rewrite <- Z.land_assoc. change (Z.land 0x3f 0x3f) with (Z.ones 6). rewrite Z.land_ones by lia. apply Z.mod_small. lia. Qed.

Lemma sched_info_bytes lc stop : 0 <= lc < 32 -> 0 <= stop < 2047 ->
  exists b0 b1, sched_bytes lc stop = [b0; b1] /\ Z.shiftr (Z.land b0 0xF8) 3 = lc /\
    (let v := u16 (Z.shiftl (Z.land b0 0x07) 8 + b1) in if v =? MTCH_STOP_EMPTY then 0 else v) = stop.
Proof.
  intros Hlc Hs. unfold sched_bytes. eexists _, _. split; [reflexivity|].
  set (st := if stop =? 0 then MTCH_STOP_EMPTY else stop).
  assert (Hst : 0 < st < 2048) by (unfold st, MTCH_STOP_EMPTY; destruct (Z.eqb_spec stop 0); lia).
  set (hi := Z.shiftr (Z.land st 0x0700) 8).
  assert (Hhi : 0 <= hi < 8 /\ Z.shiftl hi 8 + Z.land st 0xff = st).
  { assert (E : hi = st / 256).
    { unfold hi. rewrite Z.shiftr_land. change (Z.shiftr 0x0700 8) with (Z.ones 3).
      rewrite Z.land_ones, Z.shiftr_div_pow2 by lia. apply Z.mod_small. split; [apply Z.div_pos; lia|].
      apply Z.div_lt_upper_bound; lia. }
    rewrite E, Z.shiftl_mul_pow2 by lia. change 0xff with (Z.ones 8). rewrite Z.land_ones by lia.
    pose proof (Z.div_mod st 256 ltac:(lia)). change (2 ^ 8) with 256. split; [|lia].
    split; [apply Z.div_pos; lia|apply Z.div_lt_upper_bound; lia]. }
  pose proof (range_forallb_spec 256 (fun x => let l := x / 8 in let h := x mod 8 in
    (Z.shiftr (Z.land (Z.lor (Z.shiftl (Z.land l 0x1F) 3) h) 0xF8) 3 =? l) &&
    (Z.land (Z.lor (Z.shiftl (Z.land l 0x1F) 3) h) 0x07 =? h)) ltac:(vm_compute; reflexivity) (lc * 8 + hi) ltac:(lia)) as Hb.
  cbv beta zeta in Hb.
  replace ((lc * 8 + hi) / 8) with lc in Hb by (rewrite Z.div_add_l, Z.div_small by lia; lia).
  replace ((lc * 8 + hi) mod 8) with hi in Hb by (rewrite Z.add_comm, Z.mod_add, Z.mod_small by lia; lia).
  apply andb_true_iff in Hb as [H1%Z.eqb_eq H2%Z.eqb_eq]. split; [exact H1|]. cbv zeta. rewrite H2.
  rewrite (proj2 Hhi), u16_id by (unfold is_u16; lia).
  unfold st, MTCH_STOP_EMPTY. destruct (Z.eqb_spec stop 0) as [->|]; [done|]. destruct (Z.eqb_spec stop 0x7FF); lia.
Qed.

(** ** Buffer status reports *)

(** The search finds the first level that is not below the size. *)
Lemma buff_size_search_spec b n : forall i, i + Z.of_nat n = 62 -> 1 <= i ->
  let r := buff_size_search n i b in
  i <= r <= 62 /\ (forall j, i <= j < r -> btable_at (j + 1) < b) /\ (r < 62 -> b <= btable_at (r + 1)).
Proof.
  induction n as [|n IH]; intros i Hi H1; cbn [buff_size_search]; cbv zeta; [split_and!; intros; lia|].
  destruct (Z.leb_spec b (btable_at (i + 1))) as [Hb|Hb]; [split_and!; intros; lia|].
  destruct (IH (i + 1) ltac:(lia) ltac:(lia)) as (Hr & Hlo & Hup). split_and!; [lia|lia| |done].
  intros j Hj. destruct (decide (j = i)) as [->|]; [lia|]. apply Hlo. lia.
Qed.

Lemma buff_size_table_bound b : 0 <= buff_size_table b < 64.
Proof.
  unfold buff_size_table. repeat case_if; try lia.
  destruct (buff_size_search_spec b 61 1 ltac:(lia) ltac:(lia)) as (H & _). lia.
Qed.

Lemma btable_mono i j : 0 <= i <= j -> j < 64 -> btable_at i <= btable_at j.
Proof.
  intros Hi Hj.
  pose proof (range_forallb_spec (64 * 64) (fun x => implb (x / 64 <=? x mod 64) (btable_at (x / 64) <=? btable_at (x mod 64)))
    ltac:(vm_compute; reflexivity) (i * 64 + j) ltac:(lia)) as H. cbv beta in H.
  replace ((i * 64 + j) / 64) with i in H by (rewrite Z.div_add_l, Z.div_small by lia; lia).
  replace ((i * 64 + j) mod 64) with j in H by (rewrite Z.add_comm, Z.mod_add, Z.mod_small by lia; lia).
  rewrite (proj2 (Z.leb_le i j)) in H by lia. by apply Z.leb_le in H.
Qed.

(** The size that the receiver of a report takes. *)
Definition bsr_report (b : Z) : Z :=
  let idx := buff_size_table b in if 0 <? idx then bsr_bytes idx else 0.

(** Three bytes hold four indices. *)
Lemma pairs_64 (f : Z -> Z -> bool) :
  range_forallb (64 * 64) (fun x => f (x / 64) (x mod 64)) = true -> forall a b, 0 <= a < 64 -> 0 <= b < 64 -> f a b = true.
Proof.
  intros H a b Ha Hb. pose proof (range_forallb_spec _ _ H (a * 64 + b) ltac:(lia)) as E. cbv beta in E.
  replace ((a * 64 + b) / 64) with a in E by (rewrite Z.div_add_l, Z.div_small by lia; lia).
  replace ((a * 64 + b) mod 64) with b in E by (rewrite Z.add_comm, Z.mod_add, Z.mod_small by lia; lia). done.
Qed.

Lemma long_bsr_bytes t0 t1 t2 t3 :
  0 <= t0 < 64 -> 0 <= t1 < 64 -> 0 <= t2 < 64 -> 0 <= t3 < 64 ->
  let p0 := Z.lor (Z.shiftl (Z.land t0 0x3f) 2) (Z.shiftr (Z.land t1 0x30) 4) in
  let p1 := Z.lor (Z.shiftl (Z.land t1 0xf) 4) (Z.shiftr (Z.land t2 0x3c) 2) in
  let p2 := Z.lor (Z.shiftl (Z.land t2 0x3) 6) (Z.land t3 0x3f) in
  [Z.shiftr (Z.land p0 0xFC) 2; Z.lor (Z.shiftl (Z.land p0 0x03) 4) (Z.shiftr (Z.land p1 0xF0) 4);
   Z.lor (Z.shiftl (Z.land p1 0x0F) 2) (Z.shiftr (Z.land p2 0xC0) 6); Z.land p2 0x3F] = [t0; t1; t2; t3].
Proof.
  intros H0 H1 H2 H3. cbv zeta.
  pose proof (pairs_64 (fun a b => let p := Z.lor (Z.shiftl (Z.land a 0x3f) 2) (Z.shiftr (Z.land b 0x30) 4) in
    (Z.shiftr (Z.land p 0xFC) 2 =? a) && (Z.land p 0x03 =? b / 16)) ltac:(vm_compute; reflexivity) t0 t1 H0 H1) as A.
  pose proof (pairs_64 (fun a b => let p := Z.lor (Z.shiftl (Z.land a 0xf) 4) (Z.shiftr (Z.land b 0x3c) 2) in
    (Z.shiftr (Z.land p 0xF0) 4 =? a mod 16) && (Z.land p 0x0F =? b / 4)) ltac:(vm_compute; reflexivity) t1 t2 H1 H2) as B.
  pose proof (pairs_64 (fun a b => let p := Z.lor (Z.shiftl (Z.land a 0x3) 6) (Z.land b 0x3f) in
    (Z.shiftr (Z.land p 0xC0) 6 =? a mod 4) && (Z.land p 0x3F =? b)) ltac:(vm_compute; reflexivity) t2 t3 H2 H3) as C.
  cbv beta zeta in A, B, C.
  apply andb_true_iff in A as [->%Z.eqb_eq ->%Z.eqb_eq]. apply andb_true_iff in B as [->%Z.eqb_eq ->%Z.eqb_eq].
  apply andb_true_iff in C as [->%Z.eqb_eq ->%Z.eqb_eq].
  pose proof (pairs_64 (fun a b => (Z.lor (Z.shiftl (a / 16) 4) (a mod 16) =? a) && (Z.lor (Z.shiftl (b / 4) 2) (b mod 4) =? b))
    ltac:(vm_compute; reflexivity) t1 t2 H1 H2) as D. cbv beta in D.
  by apply andb_true_iff in D as [->%Z.eqb_eq ->%Z.eqb_eq].
Qed.

Lemma short_bsr_byte g x : 0 <= g < 4 -> 0 <= x < 64 ->
  let p := Z.lor (Z.shiftl (Z.land g 0x3) 6) (Z.land x 0x3f) in
  Z.shiftr (Z.land p 0xc0) 6 = g /\ Z.land p 0x3f = x.
Proof.
  intros Hg Hx. cbv zeta.
  pose proof (pairs_64 (fun g x => implb (g <? 4) (let p := Z.lor (Z.shiftl (Z.land g 0x3) 6) (Z.land x 0x3f) in
    (Z.shiftr (Z.land p 0xc0) 6 =? g) && (Z.land p 0x3f =? x))) ltac:(vm_compute; reflexivity) g x ltac:(lia) Hx) as A.
  cbv beta zeta in A. rewrite (proj2 (Z.ltb_lt g 4)) in A by lia. cbn [implb] in A.
  by apply andb_true_iff in A as [->%Z.eqb_eq ->%Z.eqb_eq].
Qed.

(** ** What the receiver reads *)

(** The values that the getters return for an item. *)
Definition reads_back (it : item) (s : sch_subh) (mem : bytes) : Prop :=
  match it with
  | item_sdu lc d => lcid s = lc /\ nof_bytes s = zlen d
  | item_c_rnti v => ul_sch_ce_type s = CRNTI /\ get_c_rnti s mem = Some v
  | item_con_res_id v => dl_sch_ce_type s = CON_RES_ID /\ get_con_res_id s mem = Some v
  | item_ta_cmd v => dl_sch_ce_type s = TA_CMD /\ get_ta_cmd s mem = Some v
  | item_phr v => ul_sch_ce_type s = PHR_REPORT /\ get_phr s mem = Some (Z.max (-23) (Z.min v 40))
  | item_scell act => dl_sch_ce_type s = SCELL_ACTIVATION /\
      exists o, get_activation_deactivation_cmd s mem = Some o /\
        forall i, (1 <= i <= 4)%nat -> Z.testbit o (Z.of_nat i) = default false (act !! i)
  | item_bsr b f => ul_sch_ce_type s = f /\
      exists idx, get_bsr s mem (repeat 0 4) (repeat 0 4) =
        Some (if f =? LONG_BSR then 0 else nonzero_lcg b, idx,
              map (fun g => if (f =? LONG_BSR) || (g =? nonzero_lcg b) then bsr_report (lcg_size b g) else 0) [0; 1; 2; 3])
  | item_sched lc stop => mch_ce_type s = MCH_SCHED_INFO /\
      exists s', get_next_mch_sched_info s mem = Some (Some (lc, stop), s')
  end.

(** The values that fit in the fields of the control elements. *)
Definition item_in_range (it : item) : bool :=
  match it with
  | item_sdu _ _ | item_phr _ | item_scell _ => true
  | item_c_rnti v => (0 <=? v) && (v <? 2 ^ 16)
  | item_con_res_id v => (0 <=? v) && (v <? 2 ^ 48)
  | item_ta_cmd v => (0 <=? v) && (v <? 64)
  | item_bsr _ f => (f =? TRUNC_BSR) || (f =? SHORT_BSR) || (f =? LONG_BSR)
  | item_sched lc stop => (0 <=? lc) && (lc <? 32) && (0 <=? stop) && (stop <? 2047)
  end.

Lemma scell_octet_bits act i : (1 <= i <= 4)%nat ->
  Z.testbit (scell_octet act) (Z.of_nat i) = default false (act !! i).
Proof.
  intros Hi. unfold scell_octet, SRSRAN_MAX_CARRIERS. cbn [Nat.sub seq foldl].
  assert (Hc : i = 1%nat \/ i = 2%nat \/ i = 3%nat \/ i = 4%nat) by lia.
  destruct Hc as [-> | [-> | [-> | ->]]]; generalize (default false (act !! 1%nat)), (default false (act !! 2%nat)),
    (default false (act !! 3%nat)), (default false (act !! 4%nat)); intros [] [] [] []; reflexivity.
Qed.

Lemma nonzero_lcg_bound b : 0 <= nonzero_lcg b < 4.
Proof. destruct b as [[[b0 b1] b2] b3]. unfold nonzero_lcg. repeat case_if; lia. Qed.

Lemma reads_back_bsr b f s mem :
  decode_subh mem s = Some (f, bsr_ce b f) -> (f =? TRUNC_BSR) || (f =? SHORT_BSR) || (f =? LONG_BSR) = true ->
  reads_back (item_bsr b f) s mem.
Proof.
  intros Hd Hf. pose proof (fun i x Hx Hi => payload_at_decoded s mem f (bsr_ce b f) i x Hd Hx Hi) as Hat.
  cbn [reads_back]. unfold get_bsr.
  assert (Hce : lcid s = f -> ul_sch_ce_type s = f).
  { intros <-. unfold ul_sch_ce_type, ul_is_mac_ce, UL_RESERVED. revert Hf. unfold TRUNC_BSR, SHORT_BSR, LONG_BSR.
    rewrite !orb_true_iff, !Z.eqb_eq. intros Hf. rewrite (proj2 (Z.ltb_lt _ _)) by lia. done. }
  pose proof (buff_size_table_bound (lcg_size b 0)) as T0. pose proof (buff_size_table_bound (lcg_size b 1)) as T1.
  pose proof (buff_size_table_bound (lcg_size b 2)) as T2. pose proof (buff_size_table_bound (lcg_size b 3)) as T3.
  unfold bsr_ce in Hat. cbv zeta in Hat. destruct (f =? LONG_BSR) eqn:El.
  - destruct (Hat 0 _ eq_refl ltac:(lia)) as (P0 & Hl & _). destruct (Hat 1 _ eq_refl ltac:(lia)) as (P1 & _).
    destruct (Hat 2 _ eq_refl ltac:(lia)) as (P2 & _). split; [by apply Hce|]. rewrite (Hce Hl), El, P0, P1, P2.
    cbn [mbind option_bind]. rewrite (long_bsr_bytes _ _ _ _ T0 T1 T2 T3). eexists. reflexivity.
  - pose proof (nonzero_lcg_bound b) as Hg.
    destruct (Hat 0 _ eq_refl ltac:(lia)) as (P0 & Hl & _). split; [by apply Hce|]. rewrite (Hce Hl), El, P0.
    cbn [mbind option_bind].
    destruct (short_bsr_byte (nonzero_lcg b) (buff_size_table (lcg_size b (nonzero_lcg b))) Hg (buff_size_table_bound _))
      as [-> ->].
    exists (<[Z.to_nat (nonzero_lcg b mod 4) := buff_size_table (lcg_size b (nonzero_lcg b))]> (repeat 0 4)).
    assert (Hc : nonzero_lcg b = 0 \/ nonzero_lcg b = 1 \/ nonzero_lcg b = 2 \/ nonzero_lcg b = 3) by lia.
    unfold bsr_report. generalize bsr_bytes buff_size_table (lcg_size b). intros x y z.
    destruct Hc as [-> | [-> | [-> | ->]]]; reflexivity.
Qed.

Lemma reads_back_decoded it s mem :
  decode_subh mem s = Some (item_elem it) -> item_in_range it = true ->
  cur_mch_sched_ce s = 0 -> reads_back it s mem.
Proof.
  intros Hd Hr Hcur. destruct (item_elem it) as [lc d] eqn:E.
  pose proof (fun i x Hx Hi => payload_at_decoded s mem lc d i x Hd Hx Hi) as Hat.
  destruct it as [lc0 d0|v|id|ta|v|act|b f|lc0 stop]; cbn [item_elem] in E; injection E as <- <-;
    cbn [item_in_range] in Hr; zify_bools; cbn [reads_back].
  - revert Hd. unfold decode_subh. destruct (payload s) as [off|]; [|done]. cbn [mbind option_bind].
    destruct (load_bytes mem off (nof_bytes s)) eqn:El; [|done]. cbn [mbind option_bind]. intros [= <- <-].
    by apply load_bytes_inv in El as (_ & _ & _ & _ & <-).
  - destruct (Hat 0 _ eq_refl ltac:(lia)) as (P0 & Hl & _). destruct (Hat 1 _ eq_refl ltac:(lia)) as (P1 & _).
    split; [unfold ul_sch_ce_type; by rewrite Hl|]. unfold get_c_rnti. rewrite P0, P1. cbn [mbind option_bind].
    rewrite c_rnti_bytes; [done|unfold is_u16; lia].
  - destruct (Hat 0 _ eq_refl ltac:(lia)) as (P0 & Hl & _). destruct (Hat 1 _ eq_refl ltac:(lia)) as (P1 & _).
    destruct (Hat 2 _ eq_refl ltac:(lia)) as (P2 & _). destruct (Hat 3 _ eq_refl ltac:(lia)) as (P3 & _).
    destruct (Hat 4 _ eq_refl ltac:(lia)) as (P4 & _). destruct (Hat 5 _ eq_refl ltac:(lia)) as (P5 & _).
    split; [unfold dl_sch_ce_type; by rewrite Hl|]. unfold get_con_res_id. rewrite P0, P1, P2, P3, P4, P5.
    cbn [mbind option_bind]. rewrite con_res_bytes; [done|lia].
  - destruct (Hat 0 _ eq_refl ltac:(lia)) as (P0 & Hl & _).
    split; [unfold dl_sch_ce_type; by rewrite Hl|]. unfold get_ta_cmd. rewrite P0. cbn [mbind option_bind].
    rewrite six_bits; [done|lia].
  - destruct (Hat 0 _ eq_refl ltac:(lia)) as (P0 & Hl & _).
    split; [unfold ul_sch_ce_type; by rewrite Hl|]. unfold get_phr. rewrite P0. cbn [mbind option_bind].
    rewrite six_bits by (unfold phr_report_table; lia). f_equal. unfold phr_report_table. lia.
  - destruct (Hat 0 _ eq_refl ltac:(lia)) as (P0 & Hl & _).
    split; [unfold dl_sch_ce_type; by rewrite Hl|]. eexists. split; [exact P0|]. apply scell_octet_bits.
  - exact (reads_back_bsr b f s mem Hd Hr).
  - destruct (sched_info_bytes lc0 stop ltac:(lia) ltac:(lia)) as (b0 & b1 & Eb & Hv1 & Hv2).
    rewrite Eb in *. destruct (Hat 0 _ eq_refl ltac:(lia)) as (P0 & Hl & Hn).
    destruct (Hat 1 _ eq_refl ltac:(lia)) as (P1 & _).
    split; [unfold mch_ce_type; by rewrite Hl|]. unfold get_next_mch_sched_info. rewrite Hcur, Hn.
    change (u8 (zlen [b0; b1] / 2)) with 1. change (0 * 2) with 0. change (0 + 1) with 1. cbn [Z.ltb Z.compare]. rewrite P0, P1. cbn [mbind option_bind].
    cbv zeta in Hv2. rewrite Hv1, Hv2. eexists. reflexivity.
Qed.

(** ** Every item is found *)

Lemma decode_all_lookup mem l : forall es e, decode_all mem l = Some es -> e ∈ es ->
  exists s, s ∈ l /\ decode_subh mem s = Some e.
Proof.
  induction l as [|s l IH]; intros es e; cbn [decode_all]; [intros [= <-] H; by apply not_elem_of_nil in H|].
  destruct (decode_subh mem s) as [e0|] eqn:E0; [|done]. cbn [mbind option_bind].
  destruct (decode_all mem l) as [es0|] eqn:E1; [|done]. cbn [mbind option_bind]. intros [= <-] [-> | H]%elem_of_cons.
  - exists s. split; [left|done].
  - destruct (IH es0 e eq_refl H) as (s' & ? & ?). exists s'. split; [by right|done].
Qed.

Definition unread (s : sch_subh) : Prop := cur_mch_sched_ce s = 0.

(** Parsing keeps what depends on the type and on the position in the scheduling
    information only, and the number of subheaders. *)
Section ParseFrame.
Context (P : sch_subh -> Prop) (t : subh_type).
Hypothesis P_frame : forall s s', cur_mch_sched_ce s' = cur_mch_sched_ce s -> stype s' = stype s -> P s -> P s'.
Hypothesis P_init : forall s, P s ->
  P (subh_init (match t with MCH_SUBH_TYPE => subh_set_type s MCH_SUBH_TYPE | SCH_SUBH_TYPE => s end)).

Lemma read_subheader_frame s is_ul mem ptr ret s1 ptr1 :
  read_subheader s is_ul mem ptr = Some (ret, s1, ptr1) -> cur_mch_sched_ce s1 = cur_mch_sched_ce s /\ stype s1 = stype s.
Proof.
  unfold read_subheader. destruct (load mem ptr); [|done]. cbn [mbind option_bind].
  repeat case_if; try (intros [= <- <- <-]; done);
  destruct (load mem (ptr + 1)); try done; cbn [mbind option_bind]; repeat case_if; try (intros [= <- <- <-]; done);
  destruct (load mem (ptr + 2)); try done; intros [= <- <- <-]; done.
Qed.

Lemma parse_subheaders_frame len is_ul mem todo : forall done_ ptr r,
  parse_subheaders len is_ul mem done_ todo ptr = Some r -> Forall P done_ -> Forall P todo ->
  match r with
  | inl (l, rest, _) => Forall P l /\ Forall P rest /\ length (l ++ rest) = length (done_ ++ todo)
  | inr l => Forall P l /\ length l = length (done_ ++ todo)
  end.
Proof.
  induction todo as [|s todo IH]; intros done_ ptr r; cbn [parse_subheaders]; [intros [= <-]; done|].
  destruct (read_subheader s is_ul mem ptr) as [[[ret s1] ptr1]|] eqn:E; [|done]. cbn [mbind option_bind].
  intros H Hd [Hs Ht]%Forall_cons_1. apply read_subheader_frame in E as [E1 E2].
  assert (Hs1 : P s1) by (by apply (P_frame s)).
  assert (Hd1 : Forall P (done_ ++ [s1])) by (apply Forall_app; split; [done|by constructor]).
  assert (Hl : length (done_ ++ s :: todo) = length ((done_ ++ [s1]) ++ todo)) by (rewrite !length_app; cbn [length]; lia).
  rewrite Hl. destruct (ret && (len <=? ptr1)); [injection H as <-; split; [apply Forall_app; done|done]|].
  destruct (_ && _ && _); [by eapply IH|]. by injection H as <-.
Qed.

Lemma parse_payloads_frame len l : forall ptr, Forall P l ->
  Forall P (snd (parse_payloads len l ptr)) /\ length (snd (parse_payloads len l ptr)) = length l.
Proof.
  induction l as [|s l IH]; intros ptr; [done|]. intros [Hs Hl]%Forall_cons_1. cbn [parse_payloads read_payload].
  assert (Hs' : forall o, P (mk_subh (lcid s) (nof_bytes s) o (w_payload_ce s) (nof_mch_sched_ce s) (cur_mch_sched_ce s) (F_bit s) (stype s)))
    by (intros o; by apply (P_frame s)).
  case_if; [split; [by constructor|done]|]. specialize (IH (ptr + nof_bytes s) Hl). destruct (parse_payloads len l _) as [ok l1].
  destruct IH as [IH1 IH2]. split; [by constructor|]. cbn [snd length] in *. lia.
Qed.

Lemma parse_packet_frame p mem p1 :
  parse_packet t p mem = Some p1 -> Forall P (subheaders p) -> Forall P (subheaders p1) /\ max_subheaders p1 = max_subheaders p.
Proof.
  unfold parse_packet, pdu_parse_packet, max_subheaders, zlen. intros H Hp.
  destruct (parse_subheaders _ _ mem [] (subheaders p) 0) as [r|] eqn:E; [|done]. cbn [mbind option_bind] in H.
  pose proof (parse_subheaders_frame _ _ _ _ _ _ _ E (Forall_nil_2 _) Hp) as Hr.
  assert (Hq : forall q, Forall P (subheaders q) -> length (subheaders q) = length (subheaders p) ->
    (if 0 <? nof_subheaders q then
       let read_len := foldl (fun acc s => u32 (acc + size_plus_header s)) 0 (ztake (nof_subheaders q - 1) (subheaders q)) in
       let n_sub := i32 (pdu_len q - read_len - 1) in
       if 0 <=? n_sub then
         Some (set_subheaders q (alter (fun s => set_payload_size s n_sub) (Z.to_nat (nof_subheaders q - 1)) (subheaders q)))
       else Some (pdu_init t q (buffer_tx q) (pdu_len q) (pdu_is_ul q))
     else Some q) = Some p1 -> Forall P (subheaders p1) /\ Z.of_nat (length (subheaders p1)) = Z.of_nat (length (subheaders p))).
  { intros q Hu <-. cbv zeta. repeat case_if; intros [= <-]; [| |done].
    - cbn [subheaders set_subheaders]. split; [|by rewrite length_alter].
      apply Forall_alter; [done|]. intros x _ Hx. by apply (P_frame x).
    - cbn [subheaders pdu_init]. split; [|by rewrite length_map]. rewrite Forall_map. eapply Forall_impl; [|exact Hu]. exact P_init. }
  destruct r as [[[l rest] ptr]|l].
  - destruct Hr as (Hr1 & Hr2 & Hr3). pose proof (parse_payloads_frame (i32 (pdu_len p)) l ptr Hr1) as [Hpl Hll].
    destruct (parse_payloads (i32 (pdu_len p)) l ptr) as [ok l1]. cbn [mbind option_bind] in H. cbn [snd] in *.
    eapply Hq; [| |exact H]; cbn [subheaders set_nof set_subheaders]; [by apply Forall_app|]. rewrite length_app in *. cbn [app] in *. lia.
  - exact (Hq (set_nof (set_subheaders p l) 0) (proj1 Hr) (proj2 Hr) H).
Qed.
End ParseFrame.

Lemma parse_packet_unread t p mem p1 :
  parse_packet t p mem = Some p1 -> Forall unread (subheaders p) -> Forall unread (subheaders p1).
Proof.
  intros H Hp. eapply (parse_packet_frame unread t); [| |exact H|exact Hp]; unfold unread; [congruence|done].
Qed.

Lemma parse_packet_typed t p mem p1 :
  parse_packet t p mem = Some p1 -> typed t p -> typed t p1 /\ max_subheaders p1 = max_subheaders p.
Proof.
  intros H Hp. eapply (parse_packet_frame (fun s => stype s = t) t); [| |exact H|exact Hp]; [congruence|]. by destruct t.
Qed.

(** The common part of the two theorems below. *)
Lemma roundtrip t is_ul p buf its len rx junk :
  Forall (fun s => t = MCH_SUBH_TYPE \/ stype s = t) (subheaders p) -> bb_wf buf ->
  fits t is_ul its len (max_subheaders p) = true ->
  pdu_len rx = len -> pdu_is_ul rx = is_ul -> typed t rx -> zlen its + 4 <= max_subheaders rx ->
  exists p1 p2 wire rx1 es,
    add_items (pdu_init t p (byte_buffer_clear buf) len is_ul) its = Some (true, p1) /\
    write_packet p1 = Some (true, p2) /\ contents (buffer_tx p2) = Some wire /\ zlen wire = len /\
    parse_packet t rx (wire ++ junk) = Some rx1 /\ decoded rx1 (wire ++ junk) = Some es /\
    useful es = ces t (map item_elem its) ++ sdus t (map item_elem its) /\
    (Forall (fun e => bytes_ok (snd e)) (map item_elem its) -> bytes_ok wire).
Proof.
  unfold fits. intros Hp Hb Hf Hrx Hul Hty Hroom. zify_bools.
  repeat match goal with H : (_ <=? _) = true |- _ => apply Z.leb_le in H end.
  match goal with H : forallb _ _ = true |- _ => rename H into Hok end.
  match goal with H : existsb _ _ = true |- _ => apply existsb_sdus in H; rename H into Hne end.
  rewrite List.forallb_forall in Hok.
  assert (Hok' : Forall (fun it => item_ok t is_ul it = true) its) by (apply List.Forall_forall; exact Hok).
  assert (Hmax : MAC_BUFFER = 12237) by reflexivity.
  assert (Hl0 : 0 <= len).
  { pose proof (needed_app_mono t (map item_elem its) []) as Hm. cbn [app] in Hm. change (needed t []) with 0 in Hm. lia. }
  destruct (add_items_rep t is_ul its (pdu_init t p (byte_buffer_clear buf) len is_ul) []) as (p1 & Ha & Hrep & Hlen & _).
  - apply pdu_init_rep; try done; [lia|by apply byte_buffer_clear_wf|].
    unfold contents, byte_buffer_clear. cbn [buffer msg N_bytes]. destruct Hb.
    rewrite load_bytes_Some; [by rewrite ztake_0|..]; bb_consts; lia.
  - done.
  - unfold max_subheaders, zlen in *. cbn [subheaders pdu_init] in *. rewrite length_map. cbn [length]. lia.
  - done.
  - done.
  - cbn [app] in Hrep. cbn [pdu_len pdu_init] in Hlen.
    destruct (write_parse_rep t is_ul p1 its rx junk Hrep Hok' Hne) as (p2 & wire & rx1 & es & Hw & Hc & Hz & Hpp & Hd & Hu & Hby);
      try done; try lia.
    exists p1, p2, wire, rx1, es. split_and!; try done. lia.
Qed.

(** The items are among the elements read. *)
Lemma item_read t its it es :
  useful es = ces t (map item_elem its) ++ sdus t (map item_elem its) -> it ∈ its -> item_elem it ∈ es.
Proof.
  intros Hu Hin. assert (H : item_elem it ∈ useful es).
  { rewrite Hu. apply elem_of_app. assert (item_elem it ∈ map item_elem its) by (by apply list_elem_of_fmap_2).
    destruct (elem_sdu t (item_elem it)) eqn:E; [right|left]; by apply list_elem_of_filter. }
  by apply list_elem_of_filter in H as [_ H].
Qed.

(** ** Theorems *)

(** C26: a MAC PDU carries its items.  A PDU object of DL-SCH, UL-SCH or MCH is
    initialised on a cleared buffer for a grant of [len] bytes, and items that fit are
    added.  All of them are accepted, [write_packet] succeeds and the packet has exactly
    [len] bytes, and the receiver's [parse_packet] of it, whatever bytes follow in
    memory, finds besides padding the control elements and then the SDUs, in order and
    unchanged. *)
Theorem mac_pdu_roundtrip t is_ul p buf its len rx junk :
  Forall (fun s => t = MCH_SUBH_TYPE \/ stype s = t) (subheaders p) -> bb_wf buf ->
  fits t is_ul its len (max_subheaders p) = true ->
  pdu_len rx = len -> pdu_is_ul rx = is_ul -> typed t rx -> zlen its + 4 <= max_subheaders rx ->
  exists p1 p2 wire rx1 es,
    add_items (pdu_init t p (byte_buffer_clear buf) len is_ul) its = Some (true, p1) /\
    write_packet p1 = Some (true, p2) /\ contents (buffer_tx p2) = Some wire /\ zlen wire = len /\
    parse_packet t rx (wire ++ junk) = Some rx1 /\ decoded rx1 (wire ++ junk) = Some es /\
    useful es = ces t (map item_elem its) ++ sdus t (map item_elem its).
Proof.
  intros Hp Hb Hf Hlen Hul Hty Hroom. destruct (roundtrip t is_ul p buf its len rx junk Hp Hb Hf Hlen Hul Hty Hroom)
    as (p1 & p2 & wire & rx1 & es & Ha & Hw & Hc & Hz & Hpp & Hd & Hu & _). by exists p1, p2, wire, rx1, es.
Qed.

(** Witness objects: 20 subheaders, a cleared buffer. *)
Definition test_buf : byte_buffer_t := byte_buffer_new (repeat 0 (Z.to_nat SRSRAN_MAX_BUFFER_SIZE_BYTES)).
Definition test_pdu (t : subh_type) (len : Z) (is_ul : bool) : sch_pdu :=
  pdu_init t (mk_pdu (repeat (subh_new t) 20) 0 0 (-1) 0 false test_buf (-1)) test_buf len is_ul.
Definition test_items : list item := [item_sdu 3 (repeat 7 200); item_bsr (0, 900, 0, 0) SHORT_BSR; item_phr 12; item_sdu 1 [1; 2; 3]].

Lemma mac_pdu_roundtrip_witness :
  exists p1 p2 wire rx1 es,
    add_items (pdu_init SCH_SUBH_TYPE (test_pdu SCH_SUBH_TYPE 0 true) (byte_buffer_clear test_buf) 300 true) test_items = Some (true, p1) /\
    write_packet p1 = Some (true, p2) /\ contents (buffer_tx p2) = Some wire /\ zlen wire = 300 /\
    parse_packet SCH_SUBH_TYPE (test_pdu SCH_SUBH_TYPE 300 true) (wire ++ []) = Some rx1 /\ decoded rx1 (wire ++ []) = Some es /\
    useful es = ces SCH_SUBH_TYPE (map item_elem test_items) ++ sdus SCH_SUBH_TYPE (map item_elem test_items).
Proof.
  apply (mac_pdu_roundtrip SCH_SUBH_TYPE true (test_pdu SCH_SUBH_TYPE 0 true) test_buf test_items 300
    (test_pdu SCH_SUBH_TYPE 300 true) []); try reflexivity.
  - apply List.Forall_forall. intros s (s' & <- & Hs)%in_map_iff. right. by apply repeat_spec in Hs as ->.
  - constructor; vm_compute; congruence.
  - apply List.Forall_forall. intros s (s' & <- & Hs)%in_map_iff. by apply repeat_spec in Hs as ->.
  - discriminate.
Defined.

(** The receiver reads the values that were set.  Under the conditions of the
    round trip, with a receiver object that was initialised and items whose values
    fit in the fields of their control elements, every item has a subheader of the
    parsed PDU whose getters return its value: the C-RNTI, the contention resolution
    identity, the timing advance, the power headroom clipped to -23..40 dB, the
    activated cells, the buffer sizes as the level that the report stands for, the
    channel and stop of a scheduling information element, the channel and size of an
    SDU. *)
Theorem mac_pdu_values t is_ul p buf its len rx junk :
  Forall (fun s => t = MCH_SUBH_TYPE \/ stype s = t) (subheaders p) -> bb_wf buf ->
  fits t is_ul its len (max_subheaders p) = true -> forallb item_in_range its = true ->
  pdu_len rx = len -> pdu_is_ul rx = is_ul -> typed t rx -> Forall unread (subheaders rx) ->
  zlen its + 4 <= max_subheaders rx ->
  exists p1 p2 wire rx1,
    add_items (pdu_init t p (byte_buffer_clear buf) len is_ul) its = Some (true, p1) /\
    write_packet p1 = Some (true, p2) /\ contents (buffer_tx p2) = Some wire /\
    parse_packet t rx (wire ++ junk) = Some rx1 /\
    forall it, it ∈ its -> exists s, s ∈ ztake (nof_subheaders rx1) (subheaders rx1) /\ reads_back it s (wire ++ junk).
Proof.
  intros Hp Hb Hf Hr Hlen Hul Hty Hun Hroom.
  destruct (roundtrip t is_ul p buf its len rx junk Hp Hb Hf Hlen Hul Hty Hroom)
    as (p1 & p2 & wire & rx1 & es & Ha & Hw & Hc & _ & Hpp & Hd & Hu & _).
  exists p1, p2, wire, rx1. split_and!; try done. intros it Hit.
  destruct (decode_all_lookup _ _ _ _ Hd (item_read t its it es Hu Hit)) as (s & Hs & Hds).
  exists s. split; [done|]. apply reads_back_decoded; [done| |].
  - rewrite List.forallb_forall in Hr. apply Hr. by apply list_elem_of_In.
  - pose proof (parse_packet_unread _ _ _ _ Hpp Hun) as Hall. rewrite List.Forall_forall in Hall.
    apply Hall. unfold ztake in Hs. apply list_elem_of_In. by eapply elem_of_take in Hs as (i & Hi & _); eapply list_elem_of_lookup_2.
Qed.

Lemma mac_pdu_values_witness :
  exists p1 p2 wire rx1,
    add_items (pdu_init SCH_SUBH_TYPE (test_pdu SCH_SUBH_TYPE 0 true) (byte_buffer_clear test_buf) 300 true) test_items = Some (true, p1) /\
    write_packet p1 = Some (true, p2) /\ contents (buffer_tx p2) = Some wire /\
    parse_packet SCH_SUBH_TYPE (test_pdu SCH_SUBH_TYPE 300 true) (wire ++ []) = Some rx1 /\
    forall it, it ∈ test_items -> exists s, s ∈ ztake (nof_subheaders rx1) (subheaders rx1) /\ reads_back it s (wire ++ []).
Proof.
  apply (mac_pdu_values SCH_SUBH_TYPE true (test_pdu SCH_SUBH_TYPE 0 true) test_buf test_items 300
    (test_pdu SCH_SUBH_TYPE 300 true) []); try reflexivity.
  - apply List.Forall_forall. intros s (s' & <- & Hs)%in_map_iff. right. by apply repeat_spec in Hs as ->.
  - constructor; vm_compute; congruence.
  - apply List.Forall_forall. intros s (s' & <- & Hs)%in_map_iff. by apply repeat_spec in Hs as ->.
  - apply List.Forall_forall. intros s (s' & <- & Hs)%in_map_iff. by apply repeat_spec in Hs as ->.
  - discriminate.
Defined.

(** C38: what a buffer status report says, for every size.  The index fits in its six bits.
    An empty buffer has index 0 and is read as 0.  A size of 1 to 150000 bytes has an index of
    1 to 62 that is read as a size not smaller, and it is the least such index: every index of
    1 to 62 whose size covers the buffer is at least it, and its size is too.  Against the
    entries of the table, too, none that covers the buffer is below the size read, except that
    one byte is read as 10: the entry 1 is the size of no index.  Above 150000 bytes the index
    is 63, which is read as 150000 and so understates the buffer. *)
Theorem bsr_report_tight b : 0 <= b ->
  let idx := buff_size_table b in
  0 <= idx < 64 /\ (b = 0 -> idx = 0 /\ bsr_report b = 0) /\
  (0 < b <= 150000 -> 1 <= idx <= 62 /\ b <= bsr_report b /\
    (forall i, 1 <= i <= 62 -> b <= bsr_bytes i -> idx <= i /\ bsr_report b <= bsr_bytes i) /\
    (forall i, 0 <= i < 64 -> b <= btable_at i -> if b =? 1 then bsr_report b = 10 else bsr_report b <= btable_at i)) /\
  (150000 < b -> idx = 63 /\ bsr_report b = 150000).
Proof.
  intros Hb. unfold bsr_report, buff_size_table. destruct (Z.eqb_spec b 0) as [->|H0].
  { cbv zeta. split_and!; try lia; done. }
  destruct (Z.ltb_spec 150000 b) as [Hlt|Hle].
  { cbv zeta. split_and!; try lia; done. }
  cbv zeta. destruct (buff_size_search_spec b 61 1 ltac:(lia) ltac:(lia)) as (Hr & Hlo & Hup).
  set (r := buff_size_search 61 1 b) in *. rewrite (proj2 (Z.ltb_lt 0 r)) by lia.
  assert (Hbytes : forall i, 1 <= i <= 62 -> bsr_bytes i = btable_at (i + 1)).
  { intros i Hi. unfold bsr_bytes. by rewrite (proj2 (Z.ltb_lt i 63)), (Z.add_comm 1 i) by lia. }
  rewrite (Hbytes r Hr).
  assert (Hbr : b <= btable_at (r + 1)).
  { destruct (Z.eq_dec r 62) as [->|]; [change (btable_at (62 + 1)) with 150000; lia|apply Hup; lia]. }
  assert (Hleast : forall i, 1 <= i <= 62 -> b <= btable_at (i + 1) -> r <= i /\ btable_at (r + 1) <= btable_at (i + 1)).
  { intros i Hi Hbi. destruct (Z.le_gt_cases r i) as [Hri|Hgt]; [|specialize (Hlo i ltac:(lia)); lia].
    split; [done|]. apply btable_mono; lia. }
  split_and!; try lia. intros _. split_and!; try lia.
  - intros i Hi. rewrite (Hbytes i Hi). by apply Hleast.
  - intros i Hi Hbi. destruct (Z.eqb_spec b 1) as [->|Hb1].
    + assert (E : r = 1); [|by rewrite E]. apply Z.le_antisymm; [|lia]. apply (Hleast 1); [lia|by vm_compute].
    + destruct (Z.eq_dec i 0) as [->|]; [change (btable_at 0) with 0 in Hbi; lia|]. destruct (Z.eq_dec i 1) as [->|]; [change (btable_at 1) with 1 in Hbi; lia|].
      replace i with (i - 1 + 1) by lia. apply Hleast; [lia|]. by replace (i - 1 + 1) with i by lia.
Qed.

Lemma bsr_report_tight_witness :
  900 <= bsr_report 900 /\ (forall i, 1 <= i <= 62 -> 900 <= bsr_bytes i -> bsr_report 900 <= bsr_bytes i) /\ bsr_report 150001 = 150000.
Proof.
  destruct (bsr_report_tight 900 ltac:(lia)) as (_ & _ & H & _). destruct (H ltac:(lia)) as (_ & H1 & H2 & _).
  destruct (bsr_report_tight 150001 ltac:(lia)) as (_ & _ & _ & H3).
  split; [exact H1|]. split; [intros i Hi Hc; exact (proj2 (H2 i Hi Hc))|exact (proj2 (H3 ltac:(lia)))].
Defined.
