(* ===== verification/Float32.v ===== *)
(** * Single-precision arithmetic of the MCH scheduler

    [build_mch_sched] of [srsenb/src/stack/mac/mac.cc] computes how many subframes a
    session needs as [ceil(((float)size) / ((float)bytes_per_sf))].  This file models
    the IEEE 754 binary32 operations that occur there on non-negative values:
    rounding of an integer, rounded division, [ceil].  A non-negative value is a pair
    [(m, k)] for [m * 2 ^ (-k)]; results are rounded to 24 significant bits, ties to
    even.  Subnormal numbers and overflow do not occur: the operands are integers
    below [2 ^ 32]. *)

From stdpp Require Import base numbers.
From S2P Require Import Prelude.

Local Open Scope Z_scope.

(** The integer nearest to [a / b], ties to even. *)
Definition rne (a b : Z) : Z :=
  let q := a / b in let r := a mod b in
  if 2 * r <? b then q else if b <? 2 * r then q + 1 else if Z.even q then q else q + 1.

(** [a / b * 2 ^ k] as a fraction. *)
Definition scaled (a b k : Z) : Z * Z := if 0 <=? k then (a * 2 ^ k, b) else (a, b * 2 ^ (- k)).

(** The exponent for which [a / b * 2 ^ k] has 24 bits before the point. *)
Definition fl_exp (a b : Z) : Z :=
  let k := 23 - (Z.log2 a - Z.log2 b) in
  let '(n, d) := scaled a b k in
  if n <? 2 ^ 23 * d then k + 1 else k.

(** The binary32 number nearest to [a / b]. *)
Definition fl_div (a b : Z) : Z * Z :=
  if a =? 0 then (0, 0)
  else let k := fl_exp a b in let '(n, d) := scaled a b k in (rne n d, k).

Definition fl_ceil (x : Z * Z) : Z :=
  let '(m, k) := x in if 0 <=? k then - ((- m) / 2 ^ k) else m * 2 ^ (- k).

Definition fl_floor (x : Z * Z) : Z :=
  let '(m, k) := x in if 0 <=? k then m / 2 ^ k else m * 2 ^ (- k).

(** [(float) a] of an integer, which is again an integer. *)
Definition fl_of_int (a : Z) : Z := fl_ceil (fl_div a 1).

(** The least number of blocks of [b] bytes for [a] bytes. *)
Definition ceil_div (a b : Z) : Z := - ((- a) / b).

Lemma ceil_div_spec a b : 0 < b -> (ceil_div a b - 1) * b < a <= ceil_div a b * b.
Proof.
  intros H. unfold ceil_div. pose proof (Z.div_mod (- a) b ltac:(lia)).
  pose proof (Z.mod_pos_bound (- a) b H). nia.
Qed.

Lemma ceil_div_unique a b n : 0 < b -> (n - 1) * b < a <= n * b -> ceil_div a b = n.
Proof. intros H Hn. pose proof (ceil_div_spec a b H). nia. Qed.

(** [rne] stays between integer bounds. *)
Lemma rne_le a b n : 0 < b -> a <= n * b -> rne a b <= n.
Proof.
  intros Hb Ha. unfold rne. pose proof (Z.div_mod a b ltac:(lia)). pose proof (Z.mod_pos_bound a b Hb).
  assert (a / b <= n) by (apply Z.div_le_upper_bound; lia).
  destruct (Z.ltb_spec (2 * (a mod b)) b); [done|].
  assert (a / b < n) by nia.
  destruct (b <? 2 * (a mod b)), (Z.even (a / b)); lia.
Qed.

Lemma rne_gt a b n : 0 < b -> (2 * n + 1) * b < 2 * a -> n < rne a b.
Proof.
  intros Hb Ha. unfold rne. pose proof (Z.div_mod a b ltac:(lia)). pose proof (Z.mod_pos_bound a b Hb).
  destruct (Z.ltb_spec (2 * (a mod b)) b); [nia|].
  assert (n <= a / b) by nia.
  destruct (Z.ltb_spec b (2 * (a mod b))); [lia|].
  assert (n <> a / b) by nia. destruct (Z.even (a / b)); lia.
Qed.

(** The exponent of a quotient of numbers below [2 ^ 24]: not negative, and large
    enough for the step to the next integer to be seen. *)
Lemma fl_exp_bounds a b :
  0 < a < 2 ^ 24 -> 0 < b < 2 ^ 24 -> 0 <= fl_exp a b /\ b < 2 * 2 ^ fl_exp a b.
Proof.
  intros Ha Hb. unfold fl_exp. set (k := 23 - (Z.log2 a - Z.log2 b)).
  pose proof (Z.log2_spec a ltac:(lia)) as La. pose proof (Z.log2_spec b ltac:(lia)) as Lb.
  assert (Hla : Z.log2 a < 24) by (apply Z.log2_lt_pow2; lia).
  pose proof (Z.log2_nonneg a). pose proof (Z.log2_nonneg b).
  assert (Hk : 0 <= k) by (unfold k; lia). unfold scaled. rewrite (proj2 (Z.leb_le 0 k) Hk).
  assert (E : 2 ^ k * 2 ^ Z.log2 a = 2 ^ 23 * 2 ^ Z.log2 b).
  { rewrite <- !Z.pow_add_r by lia. f_equal. unfold k. lia. }
  rewrite !Z.pow_succ_r in * by lia.
  destruct (Z.ltb_spec (a * 2 ^ k) (2 ^ 23 * b)) as [Hlt|Hge].
  - split; [lia|]. rewrite Z.pow_add_r by lia. change (2 ^ 1) with 2.
    assert (2 ^ Z.log2 a <= 2 ^ 23) by (apply Z.pow_le_mono_r; lia).
    assert (2 ^ Z.log2 b <= 2 ^ k) by (apply Z.pow_le_mono_r; unfold k; lia). lia.
  - split; [lia|]. assert (2 ^ 23 * b < 2 ^ 24 * 2 ^ k) by nia. lia.
Qed.

(** The rounded division does not disturb [ceil] below [2 ^ 24]. *)
Lemma fl_ceil_div_exact a b : 0 <= a < 2 ^ 24 -> 0 < b < 2 ^ 24 -> fl_ceil (fl_div a b) = ceil_div a b.
Proof.
  intros Ha Hb. unfold fl_div. destruct (Z.eqb_spec a 0) as [->|Hne].
  { unfold ceil_div. cbn [fl_ceil Z.leb Z.compare Z.opp]. rewrite Z.div_0_l by lia. done. }
  destruct (fl_exp_bounds a b ltac:(lia) Hb) as [Hk Hbk]. set (k := fl_exp a b) in *.
  unfold scaled. rewrite (proj2 (Z.leb_le 0 k) Hk). cbn [fl_ceil]. rewrite (proj2 (Z.leb_le 0 k) Hk).
  fold (ceil_div (rne (a * 2 ^ k) b) (2 ^ k)). symmetry.
  pose proof (Z.pow_pos_nonneg 2 k ltac:(lia) Hk) as Hp. pose proof (ceil_div_spec a b ltac:(lia)) as Hs.
  set (n := ceil_div a b) in *. symmetry. apply ceil_div_unique; [done|]. split.
  - apply rne_gt; [lia|]. nia.
  - apply rne_le; [lia|]. nia.
Qed.

Lemma fl_of_int_exact a : 0 <= a < 2 ^ 24 -> fl_of_int a = a.
Proof.
  intros Ha. unfold fl_of_int. rewrite fl_ceil_div_exact by lia. unfold ceil_div. rewrite Z.div_1_r. lia.
Qed.
