(* ===== verification/MacMch.v ===== *)
(** * The MCH scheduler of the eNodeB

    The broadcast part of [srsenb/src/stack/mac/mac.cc] ([write_mcch],
    [rlc_buffer_state] for the MBMS RNTI, [build_mch_sched], [get_mch_sched]) and
    [ue::generate_mch_pdu] of [srsenb/src/stack/mac/ue.cc].  In the subframe of the
    MCCH the scheduler divides the subframes of the period among the sessions and
    sends the division with the MCCH message; in the other subframes it sends data of
    the session whose turn it is.

    [None] is an access outside of an array or buffer, a null pointer or a conversion
    that is undefined in C++.  The transport block sizes ([srsran_dl_fill_ra_mcs] of
    the PHY library) are arguments.  RLC is reached through the class [MchRlc]. *)

From stdpp Require Import base list numbers.
From S2P Require Import Prelude ByteBuffer Float32 MacPdu MacPduWire MacPduCorrect.

Local Open Scope Z_scope.

(** ** Data *)

Record dl_sched_pdu_t := mk_sched_pdu { spdu_lcid : Z; spdu_nbytes : Z }.

(** [mtch_payload]: whether the pointer is set (to [mtch_payload_buffer]). *)
Record dl_mtch_sched_t := mk_mtch_sched {
  mtch_lcid : Z;
  lcid_buffer_size : Z;
  mtch_stop : Z;
  mtch_payload : bool
}.

Record dl_pdu_mch_t := mk_mch {
  mch_pdus : list dl_sched_pdu_t;
  mtch_sched : list dl_mtch_sched_t;
  num_mtch_sched : Z;
  mcch_payload : bool;
  current_sf_allocation_num : Z
}.

(** The part of the MBMS user's object that is used: the PDU object and the transmit
    buffer of each HARQ process. *)
Record mch_ue := mk_mch_ue { mch_mac_msg_dl : sch_pdu; tx_payload_buffer : list byte_buffer_t }.

Record mac := mk_mac {
  the_mch : dl_pdu_mch_t;
  sf_alloc_end : Z;
  mcch_payload_buffer : bytes;
  current_mcch_length : Z;
  mtch_payload_buffer : bytes;
  mrnti_ue : option mch_ue
}.

Definition SRSRAN_FDD_NOF_HARQ : Z := 8.
Definition mcch_payload_len : Z := 3000.
Definition mtch_payload_len : Z := 10000.

(** The object before [write_mcch]. *)
Definition mac_new : mac :=
  mk_mac (mk_mch (repeat (mk_sched_pdu 0 0) 20) (repeat (mk_mtch_sched 0 0 0 false) 8) 0 false 0) 0
    (repeat 0 (Z.to_nat mcch_payload_len)) 0 (repeat 0 (Z.to_nat mtch_payload_len)) None.

(** A new user with one block of the pool per HARQ process. *)
Definition mch_ue_new (blocks : list bytes) : mch_ue :=
  mk_mch_ue (mk_pdu (repeat (subh_new SCH_SUBH_TYPE) 10) 0 0 (-1) 0 false
               (byte_buffer_new (default [] (head blocks))) (-1))
    (map byte_buffer_new blocks).

Definition set_mch (m : mac) (c : dl_pdu_mch_t) : mac :=
  mk_mac c (sf_alloc_end m) (mcch_payload_buffer m) (current_mcch_length m) (mtch_payload_buffer m) (mrnti_ue m).
Definition set_mtch_sched (c : dl_pdu_mch_t) (l : list dl_mtch_sched_t) : dl_pdu_mch_t :=
  mk_mch (mch_pdus c) l (num_mtch_sched c) (mcch_payload c) (current_sf_allocation_num c).
Definition set_pdus (c : dl_pdu_mch_t) (l : list dl_sched_pdu_t) : dl_pdu_mch_t :=
  mk_mch l (mtch_sched c) (num_mtch_sched c) (mcch_payload c) (current_sf_allocation_num c).

(** Array accesses. *)
Definition at_ {A} (l : list A) (i : Z) : option A := if i <? 0 then None else l !! Z.to_nat i.
Definition upd {A} (l : list A) (i : Z) (x : A) : option (list A) :=
  if (i <? 0) || (zlen l <=? i) then None else Some (<[Z.to_nat i := x]> l).

(** The sessions in use: entries [0 .. num_mtch_sched - 1]. *)
Definition sessions (c : dl_pdu_mch_t) : option (list dl_mtch_sched_t) :=
  if zlen (mtch_sched c) <? num_mtch_sched c then None else Some (ztake (num_mtch_sched c) (mtch_sched c)).
Definition put_sessions (c : dl_pdu_mch_t) (l : list dl_mtch_sched_t) : dl_pdu_mch_t :=
  set_mtch_sched c (l ++ zdrop (zlen l) (mtch_sched c)).

(** ** Configuration *)

(** [write_mcch]: [lcs] are the logical channels of the first PMCH's sessions,
    [sf_end] is its last subframe, [blocks] are the buffers of the new user, which is
    only kept when there was none. *)
Definition write_mcch (m : mac) (sf_end : Z) (lcs : list Z) (payload : bytes) (blocks : list bytes) : option mac :=
  let c := the_mch m in
  if zlen (mtch_sched c) <? zlen lcs then None
  else
    let l := zip_with (fun lc s => mk_mtch_sched lc (lcid_buffer_size s) (mtch_stop s) (mtch_payload s)) lcs (mtch_sched c) in
    buf ← store (mcch_payload_buffer m) 0 payload;
    Some (mk_mac (mk_mch (mch_pdus c) (l ++ zdrop (zlen lcs) (mtch_sched c)) (zlen lcs) (mcch_payload c)
                    (current_sf_allocation_num c))
            sf_end buf (zlen payload) (mtch_payload_buffer m)
            (match mrnti_ue m with Some u => Some u | None => Some (mch_ue_new blocks) end)).

(** [rlc_buffer_state] for the MBMS RNTI: the value returned and the new state. *)
Definition rlc_buffer_state (m : mac) (lc_id tx_queue : Z) : option (Z * mac) :=
  match mrnti_ue m with
  | None => Some (-1, m)
  | Some _ =>
      l ← sessions (the_mch m);
      Some (0, set_mch m (put_sessions (the_mch m)
        (map (fun s => if lc_id =? mtch_lcid s
                       then mk_mtch_sched (mtch_lcid s) tx_queue (mtch_stop s) (mtch_payload s) else s) l)))
  end.

(** ** Dividing the period *)

Definition set_stop (s : dl_mtch_sched_t) (stop : Z) : dl_mtch_sched_t :=
  mk_mtch_sched (mtch_lcid s) (lcid_buffer_size s) stop (mtch_payload s).

(** [(uint32_t)x] of a [float] that holds an integer. *)
Definition float_to_u32 (x : Z) : option Z := if (x <? 0) || (2 ^ 32 <=? x) then None else Some x.

(** The subframes of one session when there is more data than room. *)
Definition overload_sfs (sfs total : Z) (s : dl_mtch_sched_t) : option Z :=
  let ratio := lcid_buffer_size s / total in
  float_to_u32 (fl_of_int (sfs * ratio)).

(** The subframes of one session otherwise.  A negative [bytes_per_sf] gives a
    negative quotient, which [ceil] takes to zero when it is above -1. *)
Definition needed_sfs (bytes_per_sf : Z) (s : dl_mtch_sched_t) : option Z :=
  let a := fl_of_int (lcid_buffer_size s) in
  if bytes_per_sf =? 0 then None
  else if bytes_per_sf <? 0
  then if fl_floor (fl_div a (fl_of_int (- bytes_per_sf))) =? 0 then Some 0 else None
  else float_to_u32 (fl_ceil (fl_div a (fl_of_int bytes_per_sf))).

(** The loop that gives each session its stop. *)
Fixpoint assign_stops (f : dl_mtch_sched_t -> option Z) (last : Z) (l : list dl_mtch_sched_t)
  : option (list dl_mtch_sched_t) :=
  match l with
  | [] => Some []
  | s :: l' =>
      n ← f s;
      let stop := u32 (last + n) in
      r ← assign_stops f (i32 stop) l';
      Some (set_stop s stop :: r)
  end.

Definition total_bytes_to_tx (l : list dl_mtch_sched_t) : Z :=
  foldl (fun acc s => i32 (acc + lcid_buffer_size s)) 0 l.

Definition build_mch_sched (m : mac) (tbs : Z) : option mac :=
  let sfs := sf_alloc_end m in
  let bytes_per_sf := i32 (tbs / 8 - 6) in
  let space := sfs * bytes_per_sf in
  l ← sessions (the_mch m);
  let total := total_bytes_to_tx l in
  l1 ← assign_stops (if (0 <? total) && (space <=? total) then overload_sfs sfs total
                     else needed_sfs bytes_per_sf) 0 l;
  Some (set_mch m (put_sessions (the_mch m) l1)).

(** ** The PDU *)

(** [set_sdu] from memory that is only read when the SDU fits; [mem] is [None] for a
    null pointer. *)
Definition set_sdu_ptr (p : sch_pdu) (lc n : Z) (mem : option bytes) : option (Z * sch_pdu) :=
  if has_space_sdu p n then
    src ← mem; d ← load_bytes src 0 n; set_sdu p lc d
  else s ← get p; Some (-1, p).

(** One turn of the loop of [generate_mch_pdu].  The result of [new_subh] is not
    looked at. *)
Definition mch_add (c : dl_pdu_mch_t) (mcch mtch : bytes) (p : sch_pdu) (i : Z) : option sch_pdu :=
  e ← at_ (mch_pdus c) i;
  if spdu_lcid e =? MCH_SCHED_INFO then
    s ← at_ (mtch_sched c) i;
    '(_, p2) ← set_next_mch_sched_info (snd (new_subh p)) (u8 (mtch_lcid s)) (u16 (mtch_stop s));
    Some p2
  else if spdu_lcid e =? 0 then
    '(_, p2) ← set_sdu_ptr (snd (new_subh p)) 0 (spdu_nbytes e) (if mcch_payload c then Some mcch else None);
    Some p2
  else if spdu_lcid e <=? MTCH_MAX_LCID then
    s ← at_ (mtch_sched c) i;
    '(_, p2) ← set_sdu_ptr (snd (new_subh p)) (spdu_lcid e) (spdu_nbytes e) (if mtch_payload s then Some mtch else None);
    Some p2
  else Some p.

Fixpoint mch_add_all (c : dl_pdu_mch_t) (mcch mtch : bytes) (p : sch_pdu) (i : Z) (n : nat) : option sch_pdu :=
  match n with
  | O => Some p
  | S n' => p1 ← mch_add c mcch mtch p i; mch_add_all c mcch mtch p1 (i + 1) n'
  end.

(** [generate_mch_pdu]: the flag is whether the pointer returned is not null. *)
Definition generate_mch_pdu (u : mch_ue) (c : dl_pdu_mch_t) (mcch mtch : bytes) (harq_pid nof_pdu_elems grant_size : Z)
  : option (bool * mch_ue) :=
  buf ← at_ (tx_payload_buffer u) harq_pid;
  let p0 := pdu_init MCH_SUBH_TYPE (mch_mac_msg_dl u) (byte_buffer_clear buf) grant_size false in
  p1 ← mch_add_all c mcch mtch p0 0 (Z.to_nat nof_pdu_elems);
  '(ok, p2) ← write_packet p1;
  bufs ← upd (tx_payload_buffer u) harq_pid (buffer_tx p2);
  Some (ok, mk_mch_ue p2 bufs).

(** ** One subframe *)

(** What RLC promises: a read for a logical channel returns a value, the bytes it
    wrote, and the buffer states it reported to MAC during the call. *)
Class MchRlc (R : Type) := {
  mch_read_pdu : R -> Z -> Z -> option (Z * bytes * list (Z * Z) * R)
}.

(** In a good state a read returns the size of what it wrote, which is within the
    request, and leaves a good state. *)
Class MchRlcLaws (R : Type) `{MchRlc R} := {
  mch_rlc_ok : R -> Prop;
  mch_read_total : forall r lc n, mch_rlc_ok r -> 0 <= n -> exists z d reps r', mch_read_pdu r lc n = Some (z, d, reps, r');
  mch_read_size : forall r lc n z d reps r', mch_rlc_ok r -> 0 <= n -> mch_read_pdu r lc n = Some (z, d, reps, r') ->
    z = zlen d /\ z <= n /\ mch_rlc_ok r'
}.

(** What [get_mch_sched] leaves for the PHY: the RNTI and the data pointer, where
    [data_unset] means that the field was not written. *)
Inductive sched_data := data_unset | data_null | data_ptr (b : byte_buffer_t).

Record mch_sched_res := mk_res { res_rnti : Z; res_data : sched_data; res_period_stop : option Z }.

Section Sched.
Context {R : Type} `{MchRlc R}.

(** The session whose turn it is: the first one whose stop was not passed, otherwise
    channel 1 and entry 0. *)
Fixpoint turn_of (cur : Z) (l : list dl_mtch_sched_t) (i : Z) : Z * Z :=
  match l with
  | [] => (1, 0)
  | s :: l' => if cur <=? mtch_stop s then (mtch_lcid s, i) else turn_of cur l' (i + 1)
  end.

(** The calls of [rlc_buffer_state] made by RLC during a read. *)
Fixpoint apply_reports (m : mac) (reps : list (Z * Z)) : option mac :=
  match reps with
  | [] => Some m
  | (lc, n) :: reps' => '(_, m1) ← rlc_buffer_state m lc n; apply_reports m1 reps'
  end.

Definition set_ue (m : mac) (u : mch_ue) : mac :=
  mk_mac (the_mch m) (sf_alloc_end m) (mcch_payload_buffer m) (current_mcch_length m) (mtch_payload_buffer m) (Some u).
Definition set_mtch_buffer (m : mac) (b : bytes) : mac :=
  mk_mac (the_mch m) (sf_alloc_end m) (mcch_payload_buffer m) (current_mcch_length m) b (mrnti_ue m).

(** The data pointer that the user object's call gives. *)
Definition pdu_data (ok : bool) (u : mch_ue) (harq_pid : Z) : option sched_data :=
  if ok then b ← at_ (tx_payload_buffer u) harq_pid; Some (data_ptr b) else Some data_null.

(** [get_mch_sched] in the subframe of the MCCH: [mcch_tbs] and [data_tbs] are the
    block sizes in bits of the signalling and of the data MCS. *)
Definition mcch_subframe (m : mac) (tti mcch_tbs data_tbs : Z) : option (mch_sched_res * mac) :=
  m1 ← build_mch_sched m data_tbs;
  let c1 := the_mch m1 in
  let n := num_mtch_sched c1 in
  last ← at_ (mtch_sched c1) (u32 (n - 1));
  if zlen (mch_pdus c1) <=? n then None
  else
    let pdus := repeat MCH_SCHED_INFO (Z.to_nat n) in
    let l := zip_with (fun lc e => mk_sched_pdu lc (spdu_nbytes e)) pdus (mch_pdus c1) ++
             [mk_sched_pdu 0 (current_mcch_length m1)] ++ zdrop (n + 1) (mch_pdus c1) in
    let c2 := mk_mch l (mtch_sched c1) n true 1 in
    let m2 := set_mch m1 c2 in
    u ← mrnti_ue m2;
    '(ok, u') ← generate_mch_pdu u c2 (mcch_payload_buffer m2) (mtch_payload_buffer m2)
                  (tti mod SRSRAN_FDD_NOF_HARQ) (n + 1) (mcch_tbs / 8);
    d ← pdu_data ok u' (tti mod SRSRAN_FDD_NOF_HARQ);
    Some (mk_res SRSRAN_MRNTI d (Some (mtch_stop last)), set_ue m2 u').

(** The number of bytes asked from RLC. *)
Definition requested_bytes (data_tbs size : Z) : Z :=
  if i32 size <? data_tbs / 8 then i32 size else data_tbs / 8 - 2.

(** [mch.current_sf_allocation_num++]. *)
Definition bump (m : mac) : mac :=
  let c := the_mch m in
  set_mch m (mk_mch (mch_pdus c) (mtch_sched c) (num_mtch_sched c) (mcch_payload c)
               (u32 (current_sf_allocation_num c + 1))).

(** [get_mch_sched] in the other subframes. *)
Definition mtch_subframe (m : mac) (r : R) (tti data_tbs : Z) : option (mch_sched_res * mac * R) :=
  let c := the_mch m in
  last ← at_ (mtch_sched c) (u32 (num_mtch_sched c - 1));
  l ← sessions c;
  let '(current_lcid, mtch_index) := turn_of (current_sf_allocation_num c) l 0 in
  if current_sf_allocation_num c <=? mtch_stop last then
    s ← at_ (mtch_sched c) mtch_index;
    u ← mrnti_ue m;
    '(received, d, reps, r') ← mch_read_pdu r current_lcid (u32 (requested_bytes data_tbs (lcid_buffer_size s)));
    buf ← store (mtch_payload_buffer m) 0 d;
    m1 ← apply_reports (set_mtch_buffer m buf) reps;
    let c1 := the_mch m1 in
    pdus ← upd (mch_pdus c1) 0 (mk_sched_pdu current_lcid (u32 received));
    s0 ← at_ (mtch_sched c1) 0;
    scheds ← upd (mtch_sched c1) 0 (mk_mtch_sched (mtch_lcid s0) (lcid_buffer_size s0) (mtch_stop s0) true);
    let c2 := mk_mch pdus scheds (num_mtch_sched c1) (mcch_payload c1) (current_sf_allocation_num c1) in
    let m2 := set_mch m1 c2 in
    if received =? 0 then Some (mk_res SRSRAN_MRNTI data_unset None, bump m2, r')
    else
      '(ok, u') ← generate_mch_pdu u c2 (mcch_payload_buffer m2) (mtch_payload_buffer m2)
                    (tti mod SRSRAN_FDD_NOF_HARQ) 1 (data_tbs / 8);
      d ← pdu_data ok u' (tti mod SRSRAN_FDD_NOF_HARQ);
      Some (mk_res SRSRAN_MRNTI d None, bump (set_ue m2 u'), r')
  else Some (mk_res 0 data_null None, bump m, r).

(** [get_mch_sched]. *)
Definition get_mch_sched (m : mac) (r : R) (tti : Z) (is_mcch : bool) (mcch_tbs data_tbs : Z)
  : option (mch_sched_res * mac * R) :=
  if is_mcch then '(res, m') ← mcch_subframe m tti mcch_tbs data_tbs; Some (res, m', r)
  else mtch_subframe m r tti data_tbs.
End Sched.

(** ** Sessions *)

Lemma sessions_inv c l : sessions c = Some l -> 0 <= num_mtch_sched c ->
  l = ztake (num_mtch_sched c) (mtch_sched c) /\ zlen l = num_mtch_sched c /\ num_mtch_sched c <= zlen (mtch_sched c).
Proof.
  unfold sessions. destruct (Z.ltb_spec (zlen (mtch_sched c)) (num_mtch_sched c)); [done|]. intros [= <-] H0.
  split_and!; [done| |lia]. apply zlen_ztake. lia.
Qed.

Lemma put_sessions_length c l : zlen l <= zlen (mtch_sched c) -> zlen (mtch_sched (put_sessions c l)) = zlen (mtch_sched c).
Proof.
  intros H. unfold put_sessions. cbn [mtch_sched set_mtch_sched]. pose proof (zlen_nonneg l).
  rewrite zlen_app, zlen_zdrop by lia. lia.
Qed.

Lemma sessions_put c l : zlen l = num_mtch_sched c -> zlen l <= zlen (mtch_sched c) ->
  sessions (put_sessions c l) = Some l.
Proof.
  intros H1 H2. unfold sessions. rewrite put_sessions_length by done.
  change (num_mtch_sched (put_sessions c l)) with (num_mtch_sched c).
  destruct (Z.ltb_spec (zlen (mtch_sched c)) (num_mtch_sched c)); [lia|].
  f_equal. unfold put_sessions. cbn [mtch_sched set_mtch_sched]. by apply ztake_app_eq.
Qed.

(** ** The division of the period *)

(** Stops that follow each other with the shares [gs]. *)
Fixpoint stops_from (last : Z) (l : list dl_mtch_sched_t) (gs : list Z) : list dl_mtch_sched_t :=
  match l, gs with
  | s :: l', g :: gs' => set_stop s (last + g) :: stops_from (last + g) l' gs'
  | _, _ => []
  end.

Lemma assign_stops_spec f g l : forall last,
  Forall (fun s => f s = Some (g s) /\ 0 <= g s) l -> 0 <= last -> last + zsum (map g l) < 2 ^ 31 ->
  assign_stops f last l = Some (stops_from last l (map g l)).
Proof.
  induction l as [|s l IH]; intros last Hl H0 Hb; [done|]. apply Forall_cons_1 in Hl as [[Hf Hg] Hl].
  cbn [map zsum] in Hb. cbn [assign_stops map stops_from]. rewrite Hf. cbn [mbind option_bind].
  assert (0 <= zsum (map g l)).
  { apply zsum_nonneg. rewrite Forall_map. eapply Forall_impl; [|exact Hl]. intros x [_ Hx]. exact Hx. }
  rewrite u32_id by (unfold is_u32; lia). rewrite i32_id by lia.
  rewrite IH by (done || lia). done.
Qed.

Lemma zlen_stops_from l : forall last gs, length gs = length l -> zlen (stops_from last l gs) = zlen l.
Proof.
  induction l as [|s l IH]; intros last [|g gs] H; cbn in H; try done. cbn [stops_from].
  by rewrite !zlen_cons, IH by lia.
Qed.

(** The entry [i]: its stop is the sum of the shares up to it, and it is its turn from
    the stop of the entry before on. *)
Lemma stops_from_lookup l : forall last gs i s g, Forall (fun x => 0 <= x) gs ->
  l !! i = Some s -> gs !! i = Some g ->
  let first := last + zsum (take i gs) in
  stops_from last l gs !! i = Some (set_stop s (first + g)) /\
  forall j cur, first < cur <= first + g -> turn_of cur (stops_from last l gs) j = (mtch_lcid s, j + Z.of_nat i).
Proof.
  induction l as [|s0 l IH]; intros last gs i s g Hg Hs Hgi; [done|].
  destruct gs as [|g0 gs]; [done|]. apply Forall_cons_1 in Hg as [Hg0 Hg].
  destruct i as [|i].
  - injection Hs as <-. injection Hgi as <-. cbn [take zsum stops_from lookup list_lookup]. rewrite Z.add_0_r.
    split; [done|]. intros j cur Hc. cbn [turn_of]. cbn [mtch_stop mtch_lcid set_stop].
    rewrite (proj2 (Z.leb_le cur (last + g0))) by lia. f_equal. lia.
  - cbn [lookup list_lookup] in Hs, Hgi. cbn [take zsum stops_from lookup list_lookup].
    destruct (IH (last + g0) gs i s g Hg Hs Hgi) as [Hl Ht]. cbv zeta in Hl, Ht. cbv zeta.
    replace (last + (g0 + zsum (take i gs))) with (last + g0 + zsum (take i gs)) by lia.
    split; [exact Hl|]. intros j cur Hc. cbn [turn_of mtch_stop set_stop].
    assert (0 <= zsum (take i gs)) by (apply zsum_nonneg, Forall_take; done).
    destruct (Z.leb_spec cur (last + g0)); [lia|]. rewrite Ht by lia. f_equal. lia.
Qed.

(** Sizes that single precision holds. *)
Definition sizes_ok (l : list dl_mtch_sched_t) : Prop := Forall (fun s => 0 <= lcid_buffer_size s < 2 ^ 24) l.

Definition sum_of_sizes (l : list dl_mtch_sched_t) : Z := zsum (map lcid_buffer_size l).

Lemma sum_of_sizes_bound l : sizes_ok l -> 0 <= sum_of_sizes l <= zlen l * 2 ^ 24.
Proof.
  induction 1 as [|s l Hs _ IH]; [done|]. unfold sum_of_sizes in *. cbn [map zsum]. rewrite zlen_cons. lia.
Qed.

Lemma total_bytes_to_tx_sum l : sizes_ok l -> zlen l <= 8 -> total_bytes_to_tx l = sum_of_sizes l.
Proof.
  intros Hl Hn. unfold total_bytes_to_tx.
  assert (G : forall k acc, sizes_ok k -> 0 <= acc -> acc + zlen k * 2 ^ 24 < 2 ^ 31 ->
    foldl (fun acc s => i32 (acc + lcid_buffer_size s)) acc k = acc + sum_of_sizes k).
  { induction k as [|s k IH]; intros acc Hk Ha Hb; [unfold sum_of_sizes; cbn; lia|].
    apply Forall_cons_1 in Hk as [Hs Hk]. rewrite zlen_cons in Hb. pose proof (zlen_nonneg k).
    cbn [foldl]. rewrite i32_id by lia. rewrite IH by (done || lia). unfold sum_of_sizes. cbn [map zsum]. lia. }
  rewrite G by (done || lia). lia.
Qed.

Lemma ceil_div_bounds a b : 0 <= a -> 0 < b -> 0 <= ceil_div a b <= a.
Proof. intros Ha Hb. pose proof (ceil_div_spec a b Hb). nia. Qed.

Lemma needed_sfs_spec bps s : 0 < bps < 2 ^ 24 -> 0 <= lcid_buffer_size s < 2 ^ 24 ->
  needed_sfs bps s = Some (ceil_div (lcid_buffer_size s) bps).
Proof.
  intros Hb Hs. unfold needed_sfs. rewrite (proj2 (Z.eqb_neq bps 0)), (proj2 (Z.ltb_ge bps 0)) by lia.
  rewrite !fl_of_int_exact, fl_ceil_div_exact by lia. unfold float_to_u32.
  pose proof (ceil_div_bounds (lcid_buffer_size s) bps ltac:(lia) ltac:(lia)).
  destruct (Z.ltb_spec (ceil_div (lcid_buffer_size s) bps) 0); [lia|].
  destruct (Z.leb_spec (2 ^ 32) (ceil_div (lcid_buffer_size s) bps)); [lia|done].
Qed.

(** With an exact total the ratio is 1 for a session that has all the data, otherwise
    0. *)
Lemma overload_sfs_spec sfs total s : 0 <= sfs < 2 ^ 24 -> 0 < total -> 0 <= lcid_buffer_size s <= total ->
  overload_sfs sfs total s = Some (if lcid_buffer_size s =? total then sfs else 0).
Proof.
  intros Hf Ht Hs. unfold overload_sfs.
  assert (E : lcid_buffer_size s / total = if lcid_buffer_size s =? total then 1 else 0).
  { destruct (Z.eqb_spec (lcid_buffer_size s) total) as [->|]; [apply Z.div_same; lia|apply Z.div_small; lia]. }
  rewrite E. destruct (_ =? _).
  - rewrite Z.mul_1_r, fl_of_int_exact by lia. unfold float_to_u32.
    destruct (Z.ltb_spec sfs 0); [lia|]. destruct (Z.leb_spec (2 ^ 32) sfs); [lia|done].
  - rewrite Z.mul_0_r. done.
Qed.

(** Two forms of [build_mch_sched]. *)
Lemma build_mch_sched_spec m tbs l g :
  sessions (the_mch m) = Some l -> 0 <= num_mtch_sched (the_mch m) -> sizes_ok l -> zlen l <= 8 ->
  (forall s, s ∈ l -> (if (0 <? sum_of_sizes l) && (sf_alloc_end m * i32 (tbs / 8 - 6) <=? sum_of_sizes l)
               then overload_sfs (sf_alloc_end m) (sum_of_sizes l) else needed_sfs (i32 (tbs / 8 - 6))) s = Some (g s) /\ 0 <= g s) ->
  zsum (map g l) < 2 ^ 31 ->
  build_mch_sched m tbs = Some (set_mch m (put_sessions (the_mch m) (stops_from 0 l (map g l)))) /\
  sessions (put_sessions (the_mch m) (stops_from 0 l (map g l))) = Some (stops_from 0 l (map g l)).
Proof.
  intros Hl Hn Hs H8 Hg Hb. destruct (sessions_inv _ _ Hl Hn) as (_ & Hz & Hle).
  unfold build_mch_sched. rewrite Hl. cbn [mbind option_bind]. rewrite total_bytes_to_tx_sum by done.
  rewrite (assign_stops_spec _ g).
  - split; [done|]. apply sessions_put; rewrite zlen_stops_from by (by rewrite length_map); lia.
  - apply List.Forall_forall. intros s Hin. apply Hg. by apply list_elem_of_In.
  - lia.
  - lia.
Qed.

(** The stop of the entry before entry [i]. *)
Definition first_of (l : list dl_mtch_sched_t) (i : nat) : Z :=
  match i with O => 0 | S j => match l !! j with Some s => mtch_stop s | None => 0 end end.

Lemma first_of_stops l gs i s g : Forall (fun x => 0 <= x) gs -> l !! i = Some s -> gs !! i = Some g ->
  length gs = length l -> first_of (stops_from 0 l gs) i = zsum (take i gs).
Proof.
  intros Hg Hs Hgi Hlen. destruct i as [|j]; [done|]. cbn [first_of].
  assert (Hj : (j < length l)%nat) by (apply lookup_lt_Some in Hs; lia).
  destruct (lookup_lt_is_Some_2 l j Hj) as [sj Hsj].
  destruct (lookup_lt_is_Some_2 gs j ltac:(lia)) as [gj Hgj].
  destruct (stops_from_lookup l 0 gs j sj gj Hg Hsj Hgj) as [-> _]. cbn [mtch_stop set_stop].
  rewrite (take_S_r gs j gj Hgj), zsum_app. cbn [zsum]. lia.
Qed.

(** The sessions in a state of the scheduler: at most eight, with sizes below 16
    megabytes. *)
Record sched_ready (m : mac) (l : list dl_mtch_sched_t) : Prop := {
  sd_sessions : sessions (the_mch m) = Some l;
  sd_num : 0 <= num_mtch_sched (the_mch m);
  sd_eight : zlen l <= 8;
  sd_sizes : sizes_ok l
}.

Lemma shares_sum bps l : sizes_ok l -> 0 < bps ->
  zsum (map (fun s => ceil_div (lcid_buffer_size s) bps) l) <= sum_of_sizes l.
Proof.
  intros Hl Hb. unfold sum_of_sizes. induction Hl as [|s l Hs _ IH]; [done|]. cbn [map zsum].
  pose proof (ceil_div_bounds (lcid_buffer_size s) bps ltac:(lia) Hb). lia.
Qed.

(** C28: without overload every session gets the subframes it needs.  When the
    announced data of all sessions is less than the room of the period,
    [build_mch_sched] gives session [i] the subframes after the stop of the session
    before it up to its own stop; their number is exactly the least number of
    subframes that hold its data, the single-precision division notwithstanding; and
    in each of them [get_mch_sched] takes this session's logical channel. *)
Theorem mch_sched_serves m tbs l :
  sched_ready m l -> 0 < tbs / 8 - 6 < 2 ^ 24 -> sum_of_sizes l < sf_alloc_end m * (tbs / 8 - 6) ->
  exists m' l', build_mch_sched m tbs = Some m' /\ sessions (the_mch m') = Some l' /\
    forall i s, l !! i = Some s ->
      exists s', l' !! i = Some s' /\ mtch_lcid s' = mtch_lcid s /\ lcid_buffer_size s' = lcid_buffer_size s /\
        let n := mtch_stop s' - first_of l' i in
        (n - 1) * (tbs / 8 - 6) < lcid_buffer_size s <= n * (tbs / 8 - 6) /\
        forall cur, first_of l' i < cur <= mtch_stop s' -> turn_of cur l' 0 = (mtch_lcid s, Z.of_nat i).
Proof.
  intros [Hl Hn H8 Hs] Hb Hroom. set (bps := tbs / 8 - 6) in *. set (g := fun s => ceil_div (lcid_buffer_size s) bps).
  pose proof (sum_of_sizes_bound l Hs) as Hsum. pose proof (shares_sum bps l Hs ltac:(lia)) as Hsh. fold g in Hsh.
  assert (Hgn : Forall (fun x => 0 <= x) (map g l)).
  { rewrite Forall_map. eapply Forall_impl; [|exact Hs]. intros s Hb'. cbv beta in Hb'. unfold compose, g.
    pose proof (ceil_div_bounds (lcid_buffer_size s) bps ltac:(lia) ltac:(lia)). lia. }
  destruct (build_mch_sched_spec m tbs l g Hl Hn Hs H8) as [Hbuild Hses].
  - intros s Hin. fold bps. rewrite i32_id by lia.
    rewrite (proj2 (Z.leb_gt (sf_alloc_end m * bps) (sum_of_sizes l))), andb_false_r by lia.
    unfold sizes_ok in Hs. rewrite List.Forall_forall in Hs. specialize (Hs s (proj1 (list_elem_of_In _ _) Hin)).
    cbv beta in Hs. rewrite needed_sfs_spec by lia. split; [done|]. unfold g.
    pose proof (ceil_div_bounds (lcid_buffer_size s) bps ltac:(lia) ltac:(lia)). lia.
  - lia.
  - eexists _, _. split; [exact Hbuild|]. split; [exact Hses|]. intros i s Hi.
    assert (Hgi : map g l !! i = Some (g s)) by (by rewrite list_lookup_fmap, Hi).
    destruct (stops_from_lookup l 0 (map g l) i s (g s) Hgn Hi Hgi) as [Hlk Hturn].
    exists (set_stop s (0 + zsum (take i (map g l)) + g s)).
    rewrite (first_of_stops l (map g l) i s (g s)) by (done || by rewrite length_map).
    cbn [mtch_stop mtch_lcid lcid_buffer_size set_stop]. do 3 (split; [done|]).
    cbv zeta. replace (_ + g s - _) with (g s) by lia. split; [apply ceil_div_spec; lia|].
    intros cur Hc. rewrite Hturn by lia. f_equal.
Qed.

(** Two sessions with 3000 and 500 bytes, 20 subframes of 200 bytes. *)
Definition test_sched : mac :=
  mk_mac (mk_mch (repeat (mk_sched_pdu 0 0) 20)
            ([mk_mtch_sched 1 3000 0 false; mk_mtch_sched 2 500 0 false] ++ repeat (mk_mtch_sched 0 0 0 false) 6) 2 false 0)
    20 [] 0 [] None.
Definition test_sessions : list dl_mtch_sched_t := [mk_mtch_sched 1 3000 0 false; mk_mtch_sched 2 500 0 false].

Lemma mch_sched_serves_witness :
  exists m' l', build_mch_sched test_sched 1648 = Some m' /\ sessions (the_mch m') = Some l' /\
    forall i s, test_sessions !! i = Some s ->
      exists s', l' !! i = Some s' /\ mtch_lcid s' = mtch_lcid s /\ lcid_buffer_size s' = lcid_buffer_size s /\
        let n := mtch_stop s' - first_of l' i in
        (n - 1) * (1648 / 8 - 6) < lcid_buffer_size s <= n * (1648 / 8 - 6) /\
        forall cur, first_of l' i < cur <= mtch_stop s' -> turn_of cur l' 0 = (mtch_lcid s, Z.of_nat i).
Proof.
  apply (mch_sched_serves test_sched 1648 test_sessions).
  - constructor; [reflexivity|done|done|]. repeat constructor; done.
  - vm_compute. split; reflexivity.
  - reflexivity.
Defined.

(** The sizes of two sessions are below the total. *)
Lemma two_sessions_small l i j si sj s :
  sizes_ok l -> i <> j -> l !! i = Some si -> l !! j = Some sj -> 0 < lcid_buffer_size si -> 0 < lcid_buffer_size sj ->
  s ∈ l -> lcid_buffer_size s < sum_of_sizes l.
Proof.
  assert (Hle : forall k x, sizes_ok k -> x ∈ k -> lcid_buffer_size x <= sum_of_sizes k).
  { induction k as [|y k IH]; intros x Hk Hx; [by apply not_elem_of_nil in Hx|].
    apply Forall_cons_1 in Hk as [Hy Hk]. unfold sum_of_sizes in *. cbn [map zsum].
    pose proof (proj1 (sum_of_sizes_bound k Hk)) as H0. unfold sum_of_sizes in H0.
    apply elem_of_cons in Hx as [-> | Hx]; [lia|]. specialize (IH x Hk Hx). lia. }
  revert i j. induction l as [|y l IH]; intros i j Hs Hij Hi Hj Pi Pj Hx; [done|].
  apply Forall_cons_1 in Hs as [Hy Hs]. unfold sum_of_sizes in *. cbn [map zsum].
  pose proof (proj1 (sum_of_sizes_bound l Hs)) as H0. unfold sum_of_sizes in H0.
  assert (Hin : forall k sk, l !! k = Some sk -> lcid_buffer_size sk <= zsum (map lcid_buffer_size l)).
  { intros k sk Hk. apply Hle; [done|]. by eapply list_elem_of_lookup_2. }
  destruct i as [|i], j as [|j]; cbn [lookup list_lookup] in Hi, Hj; try done.
  - injection Hi as ->. specialize (Hin j sj Hj). apply elem_of_cons in Hx as [-> | Hx]; [lia|]. specialize (Hle l s Hs Hx). lia.
  - injection Hj as ->. specialize (Hin i si Hi). apply elem_of_cons in Hx as [-> | Hx]; [lia|]. specialize (Hle l s Hs Hx). lia.
  - specialize (Hin i si Hi). apply elem_of_cons in Hx as [-> | Hx]; [lia|].
    specialize (IH i j Hs ltac:(congruence) Hi Hj Pi Pj Hx). lia.
Qed.

Lemma stops_from_zero l gs : Forall (fun x => x = 0) gs -> length gs = length l ->
  Forall (fun s => mtch_stop s = 0) (stops_from 0 l gs).
Proof.
  revert gs. induction l as [|s l IH]; intros [|g gs] Hg Hlen; cbn in Hlen; try done.
  apply Forall_cons_1 in Hg as [-> Hg]. cbn [stops_from]. constructor; [done|]. apply IH; [done|lia].
Qed.

(** C39: in overload two sessions starve.  The share of a session is computed with an
    integer division, which is 0 unless the session has all the data: as soon as the
    announced data fills the period and two sessions have some, every session is given
    the stop 0, and in none of the following subframes of the period is anything sent,
    although there is data. *)
Theorem mch_overload_starves {R} `{MchRlc R} m tbs l i j si sj (r : R) tti data_tbs :
  sched_ready m l -> 0 <= sf_alloc_end m < 2 ^ 16 -> 0 < tbs / 8 - 6 < 2 ^ 24 ->
  sf_alloc_end m * (tbs / 8 - 6) <= sum_of_sizes l ->
  i <> j -> l !! i = Some si -> l !! j = Some sj -> 0 < lcid_buffer_size si -> 0 < lcid_buffer_size sj ->
  exists m' l', build_mch_sched m tbs = Some m' /\ sessions (the_mch m') = Some l' /\
    Forall (fun s => mtch_stop s = 0) l' /\
    (0 < current_sf_allocation_num (the_mch m') ->
     exists m'', mtch_subframe m' r tti data_tbs = Some (mk_res 0 data_null None, m'', r)).
Proof.
  intros [Hl Hn H8 Hs] Hsf Hb Hover Hij Hi Hj Pi Pj. set (bps := tbs / 8 - 6) in *.
  assert (Hsmall : forall s, s ∈ l -> lcid_buffer_size s < sum_of_sizes l).
  { intros s Hin. exact (two_sessions_small l i j si sj s Hs Hij Hi Hj Pi Pj Hin). }
  assert (Hpos : 0 < sum_of_sizes l) by (specialize (Hsmall si (list_elem_of_lookup_2 _ _ _ Hi)); lia).
  assert (Hz0 : zsum (map (fun _ => 0) l) = 0) by (clear; induction l; [done|]; cbn; lia).
  destruct (build_mch_sched_spec m tbs l (fun _ => 0) Hl Hn Hs H8) as [Hbuild Hses].
  - intros s Hin. fold bps. rewrite i32_id by lia.
    rewrite (proj2 (Z.ltb_lt 0 (sum_of_sizes l)) Hpos), (proj2 (Z.leb_le _ _) Hover). cbn [andb].
    unfold sizes_ok in Hs. rewrite List.Forall_forall in Hs. specialize (Hs s (proj1 (list_elem_of_In _ _) Hin)).
    specialize (Hsmall s Hin). rewrite overload_sfs_spec by lia.
    rewrite (proj2 (Z.eqb_neq (lcid_buffer_size s) (sum_of_sizes l))) by lia. done.
  - lia.
  - destruct (sessions_inv _ _ Hl Hn) as (_ & Hzl & Hle).
    set (l' := stops_from 0 l (map (fun _ => 0) l)) in *.
    assert (Hzero : Forall (fun s => mtch_stop s = 0) l').
    { apply stops_from_zero; [|by rewrite length_map]. rewrite Forall_map. by apply List.Forall_forall. }
    assert (Hzl' : zlen l' = zlen l) by (apply zlen_stops_from; by rewrite length_map).
    exists (set_mch m (put_sessions (the_mch m) l')), l'. split_and!; try done.
    intros Hcur. unfold mtch_subframe.
    change (the_mch (set_mch m (put_sessions (the_mch m) l'))) with (put_sessions (the_mch m) l') in *.
    change (num_mtch_sched (put_sessions (the_mch m) l')) with (num_mtch_sched (the_mch m)).
    assert (Hlen : 0 < zlen l) by (apply lookup_lt_Some in Hi; unfold zlen; lia).
    rewrite <- Hzl, <- Hzl'. rewrite (u32_id (zlen l' - 1)) by (unfold is_u32; lia).
    assert (Hlast : exists s, at_ (mtch_sched (put_sessions (the_mch m) l')) (zlen l' - 1) = Some s /\ mtch_stop s = 0).
    { unfold at_. destruct (Z.ltb_spec (zlen l' - 1) 0); [lia|]. unfold put_sessions. cbn [mtch_sched set_mtch_sched].
      rewrite lookup_app_l by (unfold zlen in *; lia).
      destruct (lookup_lt_is_Some_2 l' (Z.to_nat (zlen l' - 1))) as [s Hls]; [unfold zlen in *; lia|].
      exists s. split; [done|]. rewrite List.Forall_forall in Hzero. apply Hzero, list_elem_of_In. by eapply list_elem_of_lookup_2. }
    destruct Hlast as (s & -> & Hstop). cbn [mbind option_bind]. rewrite Hses. cbn [mbind option_bind].
    destruct (turn_of _ l' 0) as [lc idx]. rewrite Hstop.
    destruct (Z.leb_spec (current_sf_allocation_num (put_sessions (the_mch m) l')) 0); [lia|]. eexists. reflexivity.
Qed.

(** ** A read interface to try the scheduler on *)

(** The PDUs of every channel in order; one is returned when it fits. *)
#[export] Instance list_rlc : MchRlc (list bytes) := {
  mch_read_pdu r lc n :=
    match r with
    | d :: r' => if zlen d <=? n then Some (zlen d, d, [(lc, zlen (mjoin r'))], r') else Some (0, [], [], r)
    | [] => Some (0, [], [(lc, 0)], r)
    end
}.

#[export] Instance list_rlc_laws : MchRlcLaws (list bytes).
Proof.
  refine {| mch_rlc_ok := fun _ => True |}.
  - intros [|x r] lc n _ Hn; cbn [mch_read_pdu list_rlc]; [by do 4 eexists|]. destruct (zlen x <=? n); by do 4 eexists.
  - intros [|x r] lc n z d reps r' _ Hn; cbn [mch_read_pdu list_rlc].
    + intros [= <- <- <- <-]. repeat split. lia.
    + destruct (Z.leb_spec (zlen x) n); intros [= <- <- <- <-]; repeat split; (done || lia).
Defined.

Lemma mch_overload_starves_witness :
  exists m' l', build_mch_sched test_sched 1200 = Some m' /\ sessions (the_mch m') = Some l' /\
    Forall (fun s => mtch_stop s = 0) l' /\
    (0 < current_sf_allocation_num (the_mch m') ->
     exists m'', mtch_subframe m' ([] : list bytes) 17 1200 = Some (mk_res 0 data_null None, m'', [])).
Proof.
  apply (mch_overload_starves test_sched 1200 test_sessions 0 1 (mk_mtch_sched 1 3000 0 false) (mk_mtch_sched 2 500 0 false)).
  - constructor; [reflexivity|done|done|]. repeat constructor; done.
  - vm_compute. split; congruence.
  - vm_compute. split; congruence.
  - vm_compute. congruence.
  - done.
  - reflexivity.
  - reflexivity.
  - reflexivity.
  - reflexivity.
Defined.

(** ** Well-formed scheduler states *)

Record ue_wf (u : mch_ue) : Prop := {
  uw_bufs : zlen (tx_payload_buffer u) = SRSRAN_FDD_NOF_HARQ;
  uw_blocks : Forall (fun b => zlen (buffer b) = SRSRAN_MAX_BUFFER_SIZE_BYTES) (tx_payload_buffer u);
  uw_subh : max_subheaders (mch_mac_msg_dl u) = 10
}.

Record mac_wf (m : mac) : Prop := {
  mw_pdus : zlen (mch_pdus (the_mch m)) = 20;
  mw_sched : zlen (mtch_sched (the_mch m)) = 8;
  mw_num : 0 <= num_mtch_sched (the_mch m) <= 8;
  mw_mcch : zlen (mcch_payload_buffer m) = mcch_payload_len;
  mw_mtch : zlen (mtch_payload_buffer m) = mtch_payload_len;
  mw_len : 0 <= current_mcch_length m < 256;
  mw_ue : exists u, mrnti_ue m = Some u /\ ue_wf u
}.

Lemma sessions_wf m : mac_wf m -> exists l, sessions (the_mch m) = Some l /\ zlen l = num_mtch_sched (the_mch m).
Proof.
  intros []. unfold sessions. destruct (Z.ltb_spec (zlen (mtch_sched (the_mch m))) (num_mtch_sched (the_mch m))); [lia|].
  eexists. split; [done|]. apply zlen_ztake. lia.
Qed.

Lemma put_sessions_wf m l : mac_wf m -> zlen l <= 8 -> mac_wf (set_mch m (put_sessions (the_mch m) l)).
Proof.
  intros [] H. constructor; try done. change (the_mch (set_mch m ?c)) with c. rewrite put_sessions_length; lia.
Qed.

Lemma rlc_buffer_state_wf m lc n : mac_wf m ->
  exists m', rlc_buffer_state m lc n = Some (0, m') /\ mac_wf m' /\ mrnti_ue m' = mrnti_ue m /\
    mtch_payload_buffer m' = mtch_payload_buffer m /\ mcch_payload_buffer m' = mcch_payload_buffer m /\
    num_mtch_sched (the_mch m') = num_mtch_sched (the_mch m).
Proof.
  intros Hwf. destruct (sessions_wf m Hwf) as (l & Hl & Hz). unfold rlc_buffer_state.
  destruct (mw_ue _ Hwf) as (u & Hu & _). rewrite Hu, Hl. cbn [mbind option_bind].
  eexists. split; [done|]. split; [|done]. apply put_sessions_wf; [done|].
  unfold zlen in *. rewrite length_map. pose proof (mw_num _ Hwf). lia.
Qed.

Lemma apply_reports_wf reps : forall m, mac_wf m ->
  exists m', apply_reports m reps = Some m' /\ mac_wf m' /\ mrnti_ue m' = mrnti_ue m /\
    mtch_payload_buffer m' = mtch_payload_buffer m /\ mcch_payload_buffer m' = mcch_payload_buffer m /\
    num_mtch_sched (the_mch m') = num_mtch_sched (the_mch m).
Proof.
  induction reps as [|[lc n] reps IH]; intros m Hwf; [by exists m|]. cbn [apply_reports].
  destruct (rlc_buffer_state_wf m lc n Hwf) as (m1 & -> & Hwf1 & E1 & E2 & E3 & E4). cbn [mbind option_bind].
  destruct (IH m1 Hwf1) as (m' & -> & Hwf' & F1 & F2 & F3 & F4). exists m'. split_and!; try done; congruence.
Qed.

(** Writing a MCCH message of at most 255 bytes for at most 8 sessions gives a
    well-formed state. *)
Lemma write_mcch_wf sf_end lcs payload blocks :
  zlen lcs <= 8 -> zlen payload < 256 -> zlen blocks = 8 ->
  Forall (fun b => zlen b = SRSRAN_MAX_BUFFER_SIZE_BYTES) blocks ->
  exists m, write_mcch mac_new sf_end lcs payload blocks = Some m /\ mac_wf m /\ num_mtch_sched (the_mch m) = zlen lcs.
Proof.
  intros H1 H2 H3 H4. unfold write_mcch. pose proof (zlen_nonneg lcs). pose proof (zlen_nonneg payload).
  assert (E8 : zlen (mtch_sched (the_mch mac_new)) = 8) by reflexivity. rewrite E8.
  destruct (Z.ltb_spec 8 (zlen lcs)); [lia|].
  assert (E3 : zlen (mcch_payload_buffer mac_new) = 3000) by reflexivity.
  pose proof (store_Some (mcch_payload_buffer mac_new) 0 payload ltac:(lia) ltac:(rewrite E3; lia)) as Hst.
  rewrite Hst. cbn [mbind option_bind]. eexists. split; [reflexivity|].
  split; [|reflexivity]. constructor; cbn [the_mch mch_pdus mtch_sched num_mtch_sched mcch_payload_buffer mtch_payload_buffer current_mcch_length mrnti_ue].
  - reflexivity.
  - rewrite zlen_app, zlen_zdrop by (rewrite E8; lia). rewrite E8.
    assert (Hz : zlen (zip_with (fun lc s => mk_mtch_sched lc (lcid_buffer_size s) (mtch_stop s) (mtch_payload s)) lcs
      (mtch_sched (the_mch mac_new))) = zlen lcs).
    { apply (f_equal Z.of_nat), length_zip_with_l. unfold zlen in *. lia. }
    rewrite Hz. lia.
  - lia.
  - rewrite (store_zlen _ _ _ _ Hst). exact E3.
  - reflexivity.
  - lia.
  - eexists. split; [reflexivity|]. constructor.
    + unfold mch_ue_new. cbn [tx_payload_buffer]. unfold zlen in *. by rewrite length_map.
    + unfold mch_ue_new. cbn [tx_payload_buffer]. rewrite Forall_map. eapply Forall_impl; [|exact H4].
      intros b Hb. exact Hb.
    + reflexivity.
Qed.

(** ** The PDU of a subframe *)

(** The item that entry [i] of the schedule stands for. *)
Definition sched_item (c : dl_pdu_mch_t) (mcch mtch : bytes) (i : Z) : option item :=
  e ← at_ (mch_pdus c) i;
  if spdu_lcid e =? MCH_SCHED_INFO then
    s ← at_ (mtch_sched c) i; Some (item_sched (u8 (mtch_lcid s)) (u16 (mtch_stop s)))
  else if spdu_lcid e =? 0 then
    if mcch_payload c then d ← load_bytes mcch 0 (spdu_nbytes e); Some (item_sdu 0 d) else None
  else if spdu_lcid e <=? MTCH_MAX_LCID then
    s ← at_ (mtch_sched c) i;
    if mtch_payload s then d ← load_bytes mtch 0 (spdu_nbytes e); Some (item_sdu (spdu_lcid e) d) else None
  else None.

(** An accepted SDU had the room. *)
Lemma add_item_sdu p lc d p' : add_item p (item_sdu lc d) = Some (true, p') ->
  set_sdu_ptr (snd (new_subh p)) lc (zlen d) (Some d) = Some (zlen d, p').
Proof.
  unfold add_item. destruct (new_subh p) as [[] p1]; [|done]. cbn [snd]. unfold set_sdu_ptr, set_sdu.
  destruct (get p1) as [s|] eqn:Eg; [|done]. cbn [mbind option_bind].
  destruct (has_space_sdu p1 (zlen d)) eqn:Ehs.
  - rewrite load_bytes_Some by (pose proof (zlen_nonneg d); lia). rewrite zdrop_0, ztake_all by lia.
    cbn [mbind option_bind].
    destruct (append_bytes (buffer_tx p1) d); [|done]. cbn [mbind option_bind].
    rewrite Ehs. intros H. injection H as _ <-. done.
  - cbn [mbind option_bind]. done.
Qed.

Lemma set_sdu_ptr_load p lc n mem d x : load_bytes mem 0 n = Some d ->
  set_sdu_ptr p lc (zlen d) (Some d) = Some x -> set_sdu_ptr p lc n (Some mem) = Some x.
Proof.
  intros Hd. pose proof (load_bytes_inv _ _ _ _ Hd) as (_ & _ & _ & _ & Hz). rewrite Hz. unfold set_sdu_ptr.
  destruct (has_space_sdu p n); [|done]. cbn [mbind option_bind]. rewrite Hd. cbn [mbind option_bind].
  rewrite load_bytes_Some by (pose proof (zlen_nonneg d); lia). rewrite zdrop_0, ztake_all by lia. done.
Qed.

Lemma mch_add_item c mcch mtch p i it p' :
  sched_item c mcch mtch i = Some it -> add_item p it = Some (true, p') -> mch_add c mcch mtch p i = Some p'.
Proof.
  unfold sched_item, mch_add. intros Hit Ha. destruct (at_ (mch_pdus c) i) as [e|]; [|done]. cbn [mbind option_bind] in *.
  destruct (spdu_lcid e =? MCH_SCHED_INFO).
  - destruct (at_ (mtch_sched c) i) as [s|]; [|done]. cbn [mbind option_bind] in *. injection Hit as <-.
    unfold add_item in Ha. destruct (new_subh p) as [[] p1]; [|done]. cbn [snd]. by rewrite Ha.
  - destruct (spdu_lcid e =? 0).
    + destruct (mcch_payload c); [|done]. destruct (load_bytes mcch 0 (spdu_nbytes e)) as [d|] eqn:Ed; [|done].
      injection Hit as <-. apply add_item_sdu in Ha. by rewrite (set_sdu_ptr_load _ _ _ _ _ _ Ed Ha).
    + destruct (spdu_lcid e <=? MTCH_MAX_LCID); [|done].
      destruct (at_ (mtch_sched c) i) as [s|]; [|done]. cbn [mbind option_bind] in *.
      destruct (mtch_payload s); [|done]. destruct (load_bytes mtch 0 (spdu_nbytes e)) as [d|] eqn:Ed; [|done].
      injection Hit as <-. apply add_item_sdu in Ha. by rewrite (set_sdu_ptr_load _ _ _ _ _ _ Ed Ha).
Qed.

Lemma mch_add_all_items c mcch mtch its : forall p i p',
  (forall k it, its !! k = Some it -> sched_item c mcch mtch (i + Z.of_nat k) = Some it) ->
  add_items p its = Some (true, p') -> mch_add_all c mcch mtch p i (length its) = Some p'.
Proof.
  induction its as [|it its IH]; intros p i p' Hk Ha; cbn [add_items mch_add_all length] in *; [by injection Ha as <-|].
  destruct (add_item p it) as [[ok p1]|] eqn:E; [|done]. cbn [mbind option_bind] in Ha. destruct ok; [|done].
  pose proof (Hk O it eq_refl) as H0. rewrite Z.add_0_r in H0.
  rewrite (mch_add_item _ _ _ _ _ _ _ H0 E). cbn [mbind option_bind]. apply IH; [|done].
  intros k it' Hit. specialize (Hk (S k) it' Hit). replace (i + 1 + Z.of_nat k) with (i + Z.of_nat (S k)) by lia. done.
Qed.

(** Blocks keep their size and the PDU object its subheaders. *)
Lemma write_packet_frame p p' b : write_packet p = Some (b, p') ->
  zlen (buffer (buffer_tx p')) = zlen (buffer (buffer_tx p)) /\ max_subheaders p' = max_subheaders p.
Proof.
  unfold write_packet. destruct (padding_of p) as [[multi np] onetwo].
  destruct (get_headroom _ <? _); [intros [= <- <-]; done|].
  destruct (write_payloads (ztake (nof_subheaders p) (subheaders p)) (pdu_is_ul p)) as [[ces subs]|] eqn:Ew; [|done]. cbn [mbind option_bind].
  destruct (store (buffer (buffer_tx p)) _ _) as [m|] eqn:Es; [|done]. cbn [mbind option_bind].
  apply store_zlen in Es.
  assert (Hlen : forall l b x y, write_payloads l b = Some (x, y) -> length y = length l).
  { induction l as [|s l IH]; intros bb x y; cbn [write_payloads]; [by intros [= <- <-]|].
    destruct (write_payload s bb) as [[bs s1]|]; [|done]. cbn [mbind option_bind].
    destruct (write_payloads l bb) as [[bs' l1]|] eqn:E; [|done]. cbn [mbind option_bind]. intros [= <- <-].
    cbn [length]. f_equal. by eapply IH. }
  apply Hlen in Ew.
  assert (Hmax : zlen (subs ++ zdrop (nof_subheaders p) (subheaders p)) = zlen (subheaders p)).
  { rewrite zlen_app. replace (zlen subs) with (zlen (ztake (nof_subheaders p) (subheaders p))) by (unfold zlen; lia).
    by rewrite <- zlen_app, ztake_zdrop. }
  destruct (get_tailroom _ <? np); [intros [= <- <-]; split; done|].
  destruct (0 <? np).
  - destruct (append_bytes _ _) as [b2|] eqn:Ea; [|done]. cbn [mbind option_bind]. intros [= <- <-].
    split; [|done]. cbn [buffer_tx set_buffer]. unfold append_bytes in Ea. cbn [buffer] in Ea.
    destruct (store m _ _) as [m2|] eqn:E2; [|done]. cbn [mbind option_bind] in Ea. injection Ea as <-.
    cbn [buffer]. apply store_zlen in E2. lia.
  - cbn [mbind option_bind]. intros [= <- <-]. done.
Qed.

Lemma at_Some {A} (l : list A) i : 0 <= i < zlen l -> exists x, at_ l i = Some x /\ x ∈ l.
Proof.
  intros H. unfold at_. destruct (Z.ltb_spec i 0); [lia|].
  destruct (lookup_lt_is_Some_2 l (Z.to_nat i)) as [x Hx]; [unfold zlen in H; lia|].
  exists x. split; [done|]. by eapply list_elem_of_lookup_2.
Qed.

Lemma upd_Some {A} (l : list A) i x : 0 <= i < zlen l ->
  upd l i x = Some (<[Z.to_nat i := x]> l) /\ at_ (<[Z.to_nat i := x]> l) i = Some x /\
  zlen (<[Z.to_nat i := x]> l) = zlen l.
Proof.
  intros H. unfold upd, at_. destruct (Z.ltb_spec i 0), (Z.leb_spec (zlen l) i); try lia. cbn [orb].
  split; [done|]. split; [apply list_lookup_insert_eq; unfold zlen in H; lia|]. unfold zlen. by rewrite length_insert.
Qed.

Definition same_frame (p p' : sch_pdu) : Prop :=
  zlen (buffer (buffer_tx p')) = zlen (buffer (buffer_tx p)) /\ max_subheaders p' = max_subheaders p.

Lemma put_frame p s : same_frame p (put p s).
Proof. split; [done|]. unfold max_subheaders, put, zlen. cbn [subheaders set_subheaders]. by rewrite length_insert. Qed.

Lemma new_subh_frame p : same_frame p (snd (new_subh p)).
Proof. unfold new_subh, next. repeat case_if; done. Qed.

Lemma same_frame_trans p1 p2 p3 : same_frame p1 p2 -> same_frame p2 p3 -> same_frame p1 p3.
Proof. unfold same_frame. intuition congruence. Qed.

Lemma set_ce_frame p lc n ce b p' : set_ce p lc n ce = Some (b, p') -> same_frame p p'.
Proof.
  unfold set_ce. destruct (get p) as [s|]; [|done]. cbn [mbind option_bind].
  case_if; [|intros [= <- <-]; done]. destruct (store (w_payload_ce s) 0 ce); [|done]. cbn [mbind option_bind].
  intros [= <- <-]. eapply same_frame_trans; [|apply put_frame]. unfold update_space_ce. case_if; done.
Qed.

Lemma set_sched_frame p lc stop b p' : set_next_mch_sched_info p lc stop = Some (b, p') -> same_frame p p'.
Proof.
  unfold set_next_mch_sched_info. destruct (get p) as [s|]; [|done]. cbn [mbind option_bind].
  case_if; [|intros [= <- <-]; done]. destruct (store (w_payload_ce s) _ _); [|done]. cbn [mbind option_bind].
  intros [= <- <-]. eapply same_frame_trans; [|apply put_frame]. unfold update_space_ce. case_if; done.
Qed.

Lemma set_sdu_frame p lc d n p' : set_sdu p lc d = Some (n, p') -> same_frame p p'.
Proof.
  unfold set_sdu. destruct (get p) as [s|]; [|done]. cbn [mbind option_bind].
  case_if; [|intros [= <- <-]; done]. destruct (append_bytes (buffer_tx p) d) as [b|] eqn:Ea; [|done]. cbn [mbind option_bind].
  intros [= <- <-]. eapply same_frame_trans; [|apply put_frame].
  assert (Hb : zlen (buffer b) = zlen (buffer (buffer_tx p))).
  { unfold append_bytes in Ea. destruct (store _ _ _) as [m2|] eqn:E2; [|done]. cbn [mbind option_bind] in Ea.
    injection Ea as <-. by apply store_zlen in E2. }
  unfold update_space_sdu. case_if; split; done.
Qed.

Lemma add_item_frame p it b p' : add_item p it = Some (b, p') -> same_frame p p'.
Proof.
  unfold add_item. pose proof (new_subh_frame p) as Hn. destruct (new_subh p) as [[] p1]; [|intros [= <- <-]; done].
  cbn [snd] in Hn. intros H. eapply same_frame_trans; [exact Hn|].
  destruct it; try (eapply set_ce_frame, H); [|eapply set_sched_frame, H].
  destruct (set_sdu p1 lc d) as [[n p2]|] eqn:E; [|done]. cbn [mbind option_bind] in H. injection H as <- <-.
  eapply set_sdu_frame, E.
Qed.

Lemma add_items_frame its : forall p b p', add_items p its = Some (b, p') -> same_frame p p'.
Proof.
  induction its as [|it its IH]; intros p b p'; cbn [add_items]; [intros [= <- <-]; done|].
  destruct (add_item p it) as [[ok p1]|] eqn:E; [|done]. cbn [mbind option_bind]. apply add_item_frame in E.
  destruct ok; intros H; [|by injection H as <- <-]. eapply same_frame_trans; [exact E|]. eapply IH, H.
Qed.

(** [generate_mch_pdu] for a schedule that stands for items that fit. *)
Lemma generate_mch_pdu_items u c mcch mtch harq its len rx junk :
  ue_wf u -> 0 <= harq < SRSRAN_FDD_NOF_HARQ ->
  (forall k it, its !! k = Some it -> sched_item c mcch mtch (Z.of_nat k) = Some it) ->
  fits MCH_SUBH_TYPE false its len 10 = true ->
  pdu_len rx = len -> pdu_is_ul rx = false -> typed MCH_SUBH_TYPE rx -> zlen its + 4 <= max_subheaders rx ->
  exists u' b wire rx1 es, generate_mch_pdu u c mcch mtch harq (zlen its) len = Some (true, u') /\ ue_wf u' /\
    at_ (tx_payload_buffer u') harq = Some b /\ contents b = Some wire /\ zlen wire = len /\
    parse_packet MCH_SUBH_TYPE rx (wire ++ junk) = Some rx1 /\ decoded rx1 (wire ++ junk) = Some es /\
    useful es = ces MCH_SUBH_TYPE (map item_elem its) ++ sdus MCH_SUBH_TYPE (map item_elem its) /\
    (Forall (fun e => bytes_ok (snd e)) (map item_elem its) -> bytes_ok wire).
Proof.
  intros [Hb Hblk Hsub] Hh Hit Hf Hrx Hul Hty Hroom. unfold generate_mch_pdu.
  destruct (at_Some (tx_payload_buffer u) harq ltac:(lia)) as (buf & Ebuf & Hin). rewrite Ebuf. cbn [mbind option_bind].
  assert (Hblock : zlen (buffer buf) = SRSRAN_MAX_BUFFER_SIZE_BYTES).
  { rewrite List.Forall_forall in Hblk. apply Hblk. by apply list_elem_of_In. }
  (* only the block of the cleared buffer matters *)
  assert (Hwf : bb_wf (byte_buffer_clear buf)) by (constructor; cbn; bb_consts; lia).
  change (byte_buffer_clear buf) with (byte_buffer_clear (byte_buffer_clear buf)).
  assert (Hf' := Hf). rewrite <- Hsub in Hf'.
  destruct (roundtrip MCH_SUBH_TYPE false (mch_mac_msg_dl u) (byte_buffer_clear buf) its len rx junk)
    as (p1 & p2 & wire & rx1 & es & Ha & Hw & Hc & Hz & Hp & Hd & Hu & Hby); try done.
  { apply List.Forall_forall. auto. }
  unfold zlen at 1. rewrite Nat2Z.id.
  rewrite (mch_add_all_items c mcch mtch its _ 0 p1) by done. cbn [mbind option_bind]. rewrite Hw. cbn [mbind option_bind].
  destruct (upd_Some (tx_payload_buffer u) harq (buffer_tx p2) ltac:(lia)) as (-> & Hat & Hlen). cbn [mbind option_bind].
  destruct (write_packet_frame _ _ _ Hw) as [Hfb Hfm].
  assert (Hp1 : zlen (buffer (buffer_tx p1)) = SRSRAN_MAX_BUFFER_SIZE_BYTES /\ max_subheaders p1 = 10).
  { destruct (add_items_frame _ _ _ _ Ha) as [-> ->]. split; [exact Hblock|].
    unfold max_subheaders, zlen in *. cbn [subheaders pdu_init]. by rewrite length_map. }
  exists (mk_mch_ue p2 (<[Z.to_nat harq := buffer_tx p2]> (tx_payload_buffer u))), (buffer_tx p2), wire, rx1, es.
  split_and!; try done. constructor; cbn [tx_payload_buffer mch_mac_msg_dl].
  - lia.
  - apply Forall_insert; [done|]. lia.
  - lia.
Qed.

(** [generate_mch_pdu] keeps the shape of the user's buffers, whatever it is given. *)
Lemma mch_add_frame c mcch mtch p i p' : mch_add c mcch mtch p i = Some p' -> same_frame p p'.
Proof.
  assert (Hsdu : forall lc n mem q, ('(_, p2) ← set_sdu_ptr (snd (new_subh p)) lc n mem; Some p2) = Some q -> same_frame p q).
  { intros lc n mem q. unfold set_sdu_ptr. intros Hq. eapply same_frame_trans; [apply new_subh_frame|]. revert Hq.
    case_if.
    - destruct mem as [src|]; [|done]. cbn [mbind option_bind]. destruct (load_bytes src 0 n) as [d|]; [|done]. cbn [mbind option_bind].
      destruct (set_sdu _ lc d) as [[k q1]|] eqn:E; [|done]. cbn [mbind option_bind]. intros [= <-]. eapply set_sdu_frame, E.
    - destruct (get _); [|done]. cbn [mbind option_bind]. by intros [= <-]. }
  unfold mch_add. destruct (at_ (mch_pdus c) i) as [e|]; [|done]. cbn [mbind option_bind].
  case_if; [|case_if; [apply Hsdu|case_if; [|by intros [= <-]]]].
  - destruct (at_ (mtch_sched c) i) as [s|]; [|done]. cbn [mbind option_bind].
    destruct (set_next_mch_sched_info _ _ _) as [[b q]|] eqn:E; [|done]. cbn [mbind option_bind]. intros [= <-].
    eapply same_frame_trans; [apply new_subh_frame|]. eapply set_sched_frame, E.
  - destruct (at_ (mtch_sched c) i) as [s|]; [|done]. cbn [mbind option_bind]. apply Hsdu.
Qed.

Lemma mch_add_all_frame c mcch mtch n : forall p i p', mch_add_all c mcch mtch p i n = Some p' -> same_frame p p'.
Proof.
  induction n as [|n IH]; intros p i p'; cbn [mch_add_all]; [by intros [= <-]|].
  destruct (mch_add c mcch mtch p i) as [p1|] eqn:E; [|done]. cbn [mbind option_bind]. intros H.
  eapply same_frame_trans; [eapply mch_add_frame, E|eapply IH, H].
Qed.

Lemma generate_mch_pdu_wf u c mcch mtch harq n len ok u' : ue_wf u ->
  generate_mch_pdu u c mcch mtch harq n len = Some (ok, u') -> ue_wf u'.
Proof.
  intros [Hb Hblk Hsub]. unfold generate_mch_pdu. destruct (at_ (tx_payload_buffer u) harq) as [buf|] eqn:Ebuf; [|done].
  cbn [mbind option_bind]. destruct (mch_add_all c mcch mtch _ 0 (Z.to_nat n)) as [p1|] eqn:Ea; [|done]. cbn [mbind option_bind].
  destruct (write_packet p1) as [[ok1 p2]|] eqn:Ew; [|done]. cbn [mbind option_bind].
  destruct (upd (tx_payload_buffer u) harq (buffer_tx p2)) as [bufs|] eqn:Eu; [|done]. cbn [mbind option_bind]. intros [= <- <-].
  assert (Hblock : zlen (buffer buf) = SRSRAN_MAX_BUFFER_SIZE_BYTES).
  { unfold at_ in Ebuf. destruct (harq <? 0); [done|]. rewrite Forall_lookup in Hblk. by eapply Hblk. }
  destruct (mch_add_all_frame _ _ _ _ _ _ _ Ea) as [F1 F2]. destruct (write_packet_frame _ _ _ Ew) as [G1 G2].
  change (buffer (buffer_tx (pdu_init _ _ (byte_buffer_clear buf) _ _))) with (buffer buf) in F1.
  assert (Hm : max_subheaders (pdu_init MCH_SUBH_TYPE (mch_mac_msg_dl u) (byte_buffer_clear buf) len false) = 10).
  { rewrite <- Hsub. unfold max_subheaders, zlen. cbn [subheaders pdu_init]. by rewrite length_map. }
  unfold upd in Eu. destruct (_ || _) in Eu; [done|]. injection Eu as <-. constructor; cbn [tx_payload_buffer mch_mac_msg_dl].
  - unfold zlen in *. by rewrite length_insert.
  - apply Forall_insert; [done|]. lia.
  - lia.
Qed.

(** ** The subframe of the MCCH *)

Lemma assign_stops_length f l : forall last r, assign_stops f last l = Some r -> length r = length l.
Proof.
  induction l as [|s l IH]; intros last r; cbn [assign_stops]; [by intros [= <-]|].
  destruct (f s); [|done]. cbn [mbind option_bind]. destruct (assign_stops f _ l) as [r'|] eqn:E; [|done].
  cbn [mbind option_bind]. intros [= <-]. cbn [length]. f_equal. by eapply IH.
Qed.

Lemma build_mch_sched_wf m tbs m1 : mac_wf m -> build_mch_sched m tbs = Some m1 ->
  mac_wf m1 /\ num_mtch_sched (the_mch m1) = num_mtch_sched (the_mch m) /\
  mcch_payload_buffer m1 = mcch_payload_buffer m /\ current_mcch_length m1 = current_mcch_length m.
Proof.
  intros Hwf. destruct (sessions_wf m Hwf) as (l & Hl & Hz). unfold build_mch_sched. rewrite Hl. cbn [mbind option_bind].
  destruct (assign_stops _ 0 l) as [l1|] eqn:E; [|done]. cbn [mbind option_bind]. intros [= <-].
  apply assign_stops_length in E. split; [|done]. apply put_sessions_wf; [done|].
  pose proof (mw_num _ Hwf). unfold zlen in *. lia.
Qed.

(** The items of the MCCH subframe for the sessions [l1] and the message [msg]. *)
Definition mcch_items (l1 : list dl_mtch_sched_t) (msg : bytes) : list item :=
  map (fun s => item_sched (u8 (mtch_lcid s)) (u16 (mtch_stop s))) l1 ++ [item_sdu 0 msg].

Lemma mcch_items_size l1 msg :
  needed MCH_SUBH_TYPE (map item_elem (mcch_items l1 msg)) = 4 * zlen l1 + zlen msg + 1 /\
  sdus MCH_SUBH_TYPE (map item_elem (mcch_items l1 msg)) = [(0, msg)].
Proof.
  unfold mcch_items. rewrite map_app. set (ll := map item_elem (map _ l1)).
  assert (Hs : sdus MCH_SUBH_TYPE ll = [] /\ sum_sizes MCH_SUBH_TYPE ll = 4 * zlen l1).
  { unfold ll. clear. induction l1 as [|s l IH]; [done|]. destruct IH as [IH1 IH2]. cbn [map]. split.
    - unfold sdus in *. rewrite filter_cons_False; [exact IH1|]. done.
    - cbn [sum_sizes]. rewrite IH2, zlen_cons.
      change (full_size MCH_SUBH_TYPE (item_elem (item_sched (u8 (mtch_lcid s)) (u16 (mtch_stop s))))) with 4. lia. }
  destruct Hs as [Hs1 Hs2]. split.
  - cbn [map item_elem]. rewrite needed_snoc.
    change (elem_sdu MCH_SUBH_TYPE (0, msg)) with true. cbv iota. cbn [snd].
    unfold needed, growth. rewrite Hs1, Hs2. cbn [rev]. lia.
  - rewrite sdus_app, Hs1. done.
Qed.

Lemma mcch_items_fit l1 msg len : zlen l1 <= 8 -> 0 < zlen msg < 256 -> 4 * zlen l1 + zlen msg + 1 <= len <= MAC_BUFFER ->
  fits MCH_SUBH_TYPE false (mcch_items l1 msg) len 10 = true.
Proof.
  intros H8 Hm Hl. destruct (mcch_items_size l1 msg) as [Hn Hs]. unfold fits. rewrite Hn.
  assert (Hz : zlen (mcch_items l1 msg) = zlen l1 + 1).
  { unfold mcch_items. rewrite zlen_app. unfold zlen. by rewrite length_map. }
  assert (Hb : item_sdu_bytes MCH_SUBH_TYPE (mcch_items l1 msg) = zlen msg).
  { unfold item_sdu_bytes. rewrite Hs. cbn [map snd]. by rewrite mjoin_one. }
  rewrite Hz, Hb. assert (MAC_BUFFER = 12237) by reflexivity.
  rewrite !andb_true_iff, !Z.leb_le. repeat split; try lia.
  - unfold mcch_items. rewrite forallb_app. apply andb_true_iff. split.
    + rewrite forallb_forall. intros it (s & <- & _)%in_map_iff. done.
    + cbn [forallb item_ok]. rewrite (proj2 (Z.ltb_lt 0 (zlen msg))) by lia. done.
  - unfold mcch_items. rewrite map_app, existsb_app. apply orb_true_iff. by right.
Qed.

Lemma lookup_repeat {A} (x : A) n : forall k, (k < n)%nat -> repeat x n !! k = Some x.
Proof. induction n as [|n IH]; intros [|k] H; try lia; [done|]. apply IH. lia. Qed.

(** The schedule that [mcch_subframe] fills in. *)
Lemma mcch_sched_items c1 L l1 mcch mtch :
  zlen (mch_pdus c1) = 20 -> 0 <= num_mtch_sched c1 <= 8 -> sessions c1 = Some l1 -> 0 <= L <= zlen mcch ->
  let n := num_mtch_sched c1 in
  let l := zip_with (fun lc e => mk_sched_pdu lc (spdu_nbytes e)) (repeat MCH_SCHED_INFO (Z.to_nat n)) (mch_pdus c1) ++
             [mk_sched_pdu 0 L] ++ zdrop (n + 1) (mch_pdus c1) in
  zlen l = 20 /\
  forall k it, mcch_items l1 (ztake L mcch) !! k = Some it ->
    sched_item (mk_mch l (mtch_sched c1) n true 1) mcch mtch (Z.of_nat k) = Some it.
Proof.
  intros H20 Hn Hl HL n l. destruct (sessions_inv _ _ Hl (proj1 Hn)) as (El & Hz & Hle). fold n in Hz, Hle, El.
  set (front := zip_with (fun lc e => mk_sched_pdu lc (spdu_nbytes e)) (repeat MCH_SCHED_INFO (Z.to_nat n)) (mch_pdus c1)) in *.
  assert (Hf : length front = Z.to_nat n).
  { unfold front. rewrite length_zip_with_l; rewrite ?repeat_length; [done|]. unfold zlen in *. lia. }
  split.
  { unfold l. rewrite !zlen_app, zlen_zdrop by lia. change (zlen [mk_sched_pdu 0 L]) with 1. unfold zlen at 1. lia. }
  intros k it Hk. unfold sched_item, at_. destruct (Z.ltb_spec (Z.of_nat k) 0); [lia|]. rewrite Nat2Z.id.
  cbn [mch_pdus mtch_sched mcch_payload]. unfold mcch_items in Hk. apply lookup_app_Some in Hk as [Hk | [Hge Hk]].
  - rewrite list_lookup_fmap in Hk. destruct (l1 !! k) as [s|] eqn:Es; [|done]. cbn in Hk. injection Hk as <-.
    assert (Hkn : (k < Z.to_nat n)%nat) by (apply lookup_lt_Some in Es; unfold zlen in *; lia).
    unfold l. rewrite lookup_app_l by lia.
    assert (He : exists e, front !! k = Some e /\ spdu_lcid e = MCH_SCHED_INFO).
    { unfold front. destruct (lookup_lt_is_Some_2 (mch_pdus c1) k) as [e He]; [unfold zlen in *; lia|].
      eexists. rewrite lookup_zip_with, He, lookup_repeat by lia. done. }
    destruct He as (e & -> & He). cbn [mbind option_bind]. rewrite He. cbn [Z.eqb MCH_SCHED_INFO Pos.eqb].
    assert (Hs : mtch_sched c1 !! k = Some s).
    { rewrite El in Es. unfold ztake in Es. by apply lookup_take_Some in Es as [? _]. }
    by rewrite Hs.
  - rewrite length_map in Hge, Hk. assert (Hlk : length l1 = Z.to_nat n) by (unfold zlen in *; lia).
    assert (Hkn : (k - length l1)%nat = O) by (apply lookup_lt_Some in Hk; cbn in Hk; lia).
    rewrite Hkn in Hk. injection Hk as <-. assert (k = Z.to_nat n) as -> by lia.
    unfold l. rewrite lookup_app_r by lia. rewrite Hf, Nat.sub_diag. cbn [app lookup list_lookup mbind option_bind].
    cbn [spdu_lcid spdu_nbytes Z.eqb MCH_SCHED_INFO]. rewrite load_bytes_Some by lia. rewrite zdrop_0. done.
Qed.

(** The MCCH message that [write_mcch] stored. *)
Definition mcch_message (m : mac) : bytes := ztake (current_mcch_length m) (mcch_payload_buffer m).

(** A receiver's MCH PDU object, initialised for [len] bytes. *)
Record mch_receiver (rx : sch_pdu) (len : Z) : Prop := {
  mr_len : pdu_len rx = len;
  mr_ul : pdu_is_ul rx = false;
  mr_typed : typed MCH_SUBH_TYPE rx;
  mr_unread : Forall unread (subheaders rx);
  mr_max : 13 <= max_subheaders rx
}.

Lemma tti_mod tti : 0 <= tti mod SRSRAN_FDD_NOF_HARQ < SRSRAN_FDD_NOF_HARQ.
Proof. apply Z.mod_pos_bound. done. Qed.

Lemma at_last c l : sessions c = Some l -> 0 < num_mtch_sched c <= 8 ->
  exists s, at_ (mtch_sched c) (u32 (num_mtch_sched c - 1)) = Some s /\ List.last l s = s /\ s ∈ l.
Proof.
  intros Hl Hn. destruct (sessions_inv _ _ Hl ltac:(lia)) as (El & Hz & Hle).
  rewrite u32_id by (unfold is_u32; lia). destruct l as [|x l0 _] using rev_ind; [rewrite zlen_nil in Hz; lia|].
  exists x. split; [|split; [apply List.last_last|apply elem_of_app; right; by left]].
  unfold at_. destruct (Z.ltb_spec (num_mtch_sched c - 1) 0); [lia|].
  assert (Hx : ztake (num_mtch_sched c) (mtch_sched c) !! Z.to_nat (num_mtch_sched c - 1) = Some x).
  { rewrite <- El. rewrite zlen_app in Hz. change (zlen [x]) with 1 in Hz.
    replace (Z.to_nat (num_mtch_sched c - 1)) with (length l0) by (unfold zlen in Hz; lia). apply list_lookup_middle. done. }
  unfold ztake in Hx. by apply lookup_take_Some in Hx as [? _].
Qed.

(** The claim below, which the example runs use too. *)
Lemma mcch_announces m tti mcch_tbs data_tbs m1 l1 rx junk :
  mac_wf m -> build_mch_sched m data_tbs = Some m1 -> sessions (the_mch m1) = Some l1 -> 0 < zlen l1 ->
  Forall (fun s => 0 <= mtch_lcid s < 32 /\ 0 <= mtch_stop s < 2047) l1 ->
  0 < current_mcch_length m -> 4 * zlen l1 + current_mcch_length m + 1 <= mcch_tbs / 8 <= MAC_BUFFER ->
  mch_receiver rx (mcch_tbs / 8) ->
  exists b m' wire rx1 s, mcch_subframe m tti mcch_tbs data_tbs =
      Some (mk_res SRSRAN_MRNTI (data_ptr b) (Some (mtch_stop s)), m') /\ List.last l1 s = s /\
    contents b = Some wire /\ zlen wire = mcch_tbs / 8 /\
    parse_packet MCH_SUBH_TYPE rx (wire ++ junk) = Some rx1 /\
    (forall x, x ∈ l1 -> exists sub sub', sub ∈ ztake (nof_subheaders rx1) (subheaders rx1) /\
       get_next_mch_sched_info sub (wire ++ junk) = Some (Some (mtch_lcid x, mtch_stop x), sub')) /\
    (exists sub, sub ∈ ztake (nof_subheaders rx1) (subheaders rx1) /\
       decode_subh (wire ++ junk) sub = Some (0, mcch_message m)) /\
    mac_wf m' /\ current_sf_allocation_num (the_mch m') = 1 /\ mtch_sched (the_mch m') = mtch_sched (the_mch m1).
Proof.
  intros Hwf Hb Hl Hpos Hst HL Hlen [Hrl Hru Hrt Hrn Hrm].
  destruct (build_mch_sched_wf m data_tbs m1 Hwf Hb) as (Hwf1 & Hnum & Emcch & Elen).
  pose proof Hwf1 as [W1 W2 W3 W4 W5 W6 (u & Hu & Hue)].
  destruct (sessions_inv _ _ Hl (proj1 W3)) as (_ & Hz & _).
  unfold mcch_subframe. rewrite Hb. cbn [mbind option_bind].
  destruct (at_last (the_mch m1) l1 Hl ltac:(lia)) as (s & -> & Hlast & _). cbn [mbind option_bind].
  destruct (Z.leb_spec (zlen (mch_pdus (the_mch m1))) (num_mtch_sched (the_mch m1))); [lia|].
  cbn [mrnti_ue set_mch]. rewrite Hu. cbn [mbind option_bind].
  change (mcch_payload_buffer (set_mch m1 ?c)) with (mcch_payload_buffer m1).
  change (mtch_payload_buffer (set_mch m1 ?c)) with (mtch_payload_buffer m1).
  set (msg := mcch_message m).
  assert (Emsg : ztake (current_mcch_length m1) (mcch_payload_buffer m1) = msg) by (by rewrite Emcch, Elen).
  assert (Hmsg : zlen msg = current_mcch_length m).
  { rewrite <- Emsg, Elen. apply zlen_ztake. unfold mcch_payload_len in W4. lia. }
  destruct (mcch_sched_items (the_mch m1) (current_mcch_length m1) l1 (mcch_payload_buffer m1) (mtch_payload_buffer m1))
    as [H20 Hits]; [done|done|done|unfold mcch_payload_len in W4; lia|]. rewrite Emsg in Hits.
  set (c2 := mk_mch _ _ _ true 1) in Hits |- *.
  assert (Hzi : zlen (mcch_items l1 msg) = num_mtch_sched (the_mch m1) + 1).
  { unfold mcch_items. rewrite zlen_app. unfold zlen at 1. rewrite length_map. fold (zlen l1). rewrite Hz. done. }
  destruct (generate_mch_pdu_items u c2 (mcch_payload_buffer m1) (mtch_payload_buffer m1) (tti mod SRSRAN_FDD_NOF_HARQ)
    (mcch_items l1 msg) (mcch_tbs / 8) rx junk Hue (tti_mod tti) Hits) as (u' & b & wire & rx1 & es & Hg & Hue' & Hat & Hc & Hzw & Hp & Hd & Hu' & Hby); try done.
  { apply mcch_items_fit; lia. }
  { lia. }
  rewrite Hzi in Hg. rewrite Hg. cbn [mbind option_bind pdu_data]. unfold pdu_data. rewrite Hat. cbn [mbind option_bind].
  exists b, (set_ue (set_mch m1 c2) u'), wire, rx1, s. split; [reflexivity|]. do 4 (split; [done|]).
  assert (Hread : forall it, it ∈ mcch_items l1 msg -> exists sub, sub ∈ ztake (nof_subheaders rx1) (subheaders rx1) /\
    decode_subh (wire ++ junk) sub = Some (item_elem it)).
  { intros it Hit. exact (decode_all_lookup _ _ _ _ Hd (item_read MCH_SUBH_TYPE _ it es Hu' Hit)). }
  split; [|split; [|split; [|split]]].
  - intros x Hx. rewrite List.Forall_forall in Hst. destruct (Hst x (proj1 (list_elem_of_In _ _) Hx)) as [Hx1 Hx2].
    destruct (Hread (item_sched (u8 (mtch_lcid x)) (u16 (mtch_stop x)))) as (sub & Hin & Hds).
    { unfold mcch_items. apply elem_of_app. left. apply list_elem_of_fmap_2 with (f := fun s => item_sched (u8 (mtch_lcid s)) (u16 (mtch_stop s))). done. }
    rewrite u8_id, u16_id in Hds by (unfold is_u8, is_u16; lia).
    assert (Hcur : cur_mch_sched_ce sub = 0).
    { pose proof (parse_packet_unread _ _ _ _ Hp Hrn) as Hall. rewrite List.Forall_forall in Hall. apply Hall.
      apply list_elem_of_In. unfold ztake in Hin. by eapply elem_of_take in Hin as (i & Hi & _); eapply list_elem_of_lookup_2. }
    destruct (reads_back_decoded (item_sched (mtch_lcid x) (mtch_stop x)) sub (wire ++ junk) Hds) as [_ (sub' & Hs')]; [|done|].
    { cbn [item_in_range]. rewrite !andb_true_iff, !Z.leb_le, !Z.ltb_lt. lia. }
    exists sub, sub'. done.
  - destruct (Hread (item_sdu 0 msg)) as (sub & Hin & Hds); [|by exists sub].
    unfold mcch_items. apply elem_of_app. right. by left.
  - constructor; try done. exists u'. done.
  - done.
  - done.
Qed.

(** C29: the MCCH subframe announces the schedule.  In the subframe of the MCCH the
    scheduler produces a PDU of exactly the size of the signalling block; a receiver
    that parses it finds, for every session, a scheduling information element with the
    session's logical channel and the stop that [build_mch_sched] computed, and the
    MCCH message unchanged; the PHY is told the last stop and the counter of the
    period's subframes starts at 1. *)
Theorem mcch_subframe_announces m tti mcch_tbs data_tbs m1 l1 rx junk :
  mac_wf m -> build_mch_sched m data_tbs = Some m1 -> sessions (the_mch m1) = Some l1 -> 0 < zlen l1 ->
  Forall (fun s => 0 <= mtch_lcid s < 32 /\ 0 <= mtch_stop s < 2047) l1 ->
  0 < current_mcch_length m -> 4 * zlen l1 + current_mcch_length m + 1 <= mcch_tbs / 8 <= MAC_BUFFER ->
  mch_receiver rx (mcch_tbs / 8) ->
  exists b m' wire rx1 s, mcch_subframe m tti mcch_tbs data_tbs =
      Some (mk_res SRSRAN_MRNTI (data_ptr b) (Some (mtch_stop s)), m') /\ List.last l1 s = s /\
    contents b = Some wire /\ zlen wire = mcch_tbs / 8 /\
    parse_packet MCH_SUBH_TYPE rx (wire ++ junk) = Some rx1 /\
    (forall x, x ∈ l1 -> exists sub sub', sub ∈ ztake (nof_subheaders rx1) (subheaders rx1) /\
       get_next_mch_sched_info sub (wire ++ junk) = Some (Some (mtch_lcid x, mtch_stop x), sub')) /\
    (exists sub, sub ∈ ztake (nof_subheaders rx1) (subheaders rx1) /\
       decode_subh (wire ++ junk) sub = Some (0, mcch_message m)) /\
    mac_wf m' /\ current_sf_allocation_num (the_mch m') = 1 /\ mtch_sched (the_mch m') = mtch_sched (the_mch m1).
Proof. apply mcch_announces. Qed.

(** A scheduler with two sessions, 20 subframes per period and 3000 bytes waiting for
    the first session. *)
Definition test_blocks : list bytes := repeat (repeat 0 (Z.to_nat SRSRAN_MAX_BUFFER_SIZE_BYTES)) 8.
Definition test_mac0 : mac := default mac_new (write_mcch mac_new 20 [1; 2] [10; 11; 12; 13] test_blocks).
Definition test_mac : mac := snd (default (0, mac_new) (rlc_buffer_state test_mac0 1 3000)).
Definition test_mac1 : mac := default mac_new (build_mch_sched test_mac 1648).

Lemma test_mac_wf : mac_wf test_mac.
Proof.
  assert (H0 : mac_wf test_mac0).
  { destruct (write_mcch_wf 20 [1; 2] [10; 11; 12; 13] test_blocks) as (m & E & Hwf & _); [done|done|reflexivity| |].
    - unfold test_blocks. apply List.Forall_forall. intros b Hb%repeat_spec. subst b. unfold zlen. rewrite repeat_length. reflexivity.
    - unfold test_mac0. rewrite E. exact Hwf. }
  destruct (rlc_buffer_state_wf test_mac0 1 3000 H0) as (m' & E & Hwf & _). unfold test_mac. rewrite E. exact Hwf.
Qed.

Lemma test_receiver len : mch_receiver (test_pdu MCH_SUBH_TYPE len false) len.
Proof.
  constructor; try reflexivity; try (apply List.Forall_forall; intros s (s' & <- & Hs)%in_map_iff; by apply repeat_spec in Hs as ->).
  done.
Qed.

Lemma mcch_subframe_announces_witness :
  exists b m' wire rx1 s, mcch_subframe test_mac 170 500 1648 =
      Some (mk_res SRSRAN_MRNTI (data_ptr b) (Some (mtch_stop s)), m') /\
    List.last [mk_mtch_sched 1 3000 15 false; mk_mtch_sched 2 0 15 false] s = s /\
    contents b = Some wire /\ zlen wire = 500 / 8 /\
    parse_packet MCH_SUBH_TYPE (test_pdu MCH_SUBH_TYPE (500 / 8) false) (wire ++ []) = Some rx1 /\
    (forall x, x ∈ [mk_mtch_sched 1 3000 15 false; mk_mtch_sched 2 0 15 false] ->
       exists sub sub', sub ∈ ztake (nof_subheaders rx1) (subheaders rx1) /\
       get_next_mch_sched_info sub (wire ++ []) = Some (Some (mtch_lcid x, mtch_stop x), sub')) /\
    (exists sub, sub ∈ ztake (nof_subheaders rx1) (subheaders rx1) /\
       decode_subh (wire ++ []) sub = Some (0, mcch_message test_mac)) /\
    mac_wf m' /\ current_sf_allocation_num (the_mch m') = 1 /\ mtch_sched (the_mch m') = mtch_sched (the_mch test_mac1).
Proof.
  apply mcch_subframe_announces.
  - exact test_mac_wf.
  - vm_compute. reflexivity.
  - vm_compute. reflexivity.
  - reflexivity.
  - repeat constructor; done.
  - reflexivity.
  - vm_compute. split; congruence.
  - apply test_receiver.
Defined.

(** ** The other subframes *)

Lemma turn_of_found cur l : forall j, (exists s, s ∈ l /\ cur <= mtch_stop s) ->
  exists i s, l !! i = Some s /\ cur <= mtch_stop s /\ turn_of cur l j = (mtch_lcid s, j + Z.of_nat i).
Proof.
  induction l as [|x l IH]; intros j (s & Hin & Hs); [by apply not_elem_of_nil in Hin|]. cbn [turn_of].
  destruct (Z.leb_spec cur (mtch_stop x)) as [Hx|Hx].
  - exists O, x. split_and!; [done|done|]. f_equal. lia.
  - apply elem_of_cons in Hin as [-> | Hin]; [lia|].
    destruct (IH (j + 1) ltac:(by exists s)) as (i & s' & Hi & Hc & ->). exists (S i), s'. split_and!; [done|done|]. f_equal. lia.
Qed.

Section Mtch.
Context {R : Type} `{MchRlcLaws R}.

(** The part of [mtch_subframe] up to the PDU: what is read is an item of the
    schedule that [generate_mch_pdu] is given. *)
Lemma mtch_subframe_step m (r : R) tti tbs l lc idx s z d reps r' :
  mac_wf m -> sessions (the_mch m) = Some l -> 0 < zlen l ->
  (exists x, List.last l x = x /\ x ∈ l /\ current_sf_allocation_num (the_mch m) <= mtch_stop x) ->
  turn_of (current_sf_allocation_num (the_mch m)) l 0 = (lc, idx) -> at_ (mtch_sched (the_mch m)) idx = Some s ->
  1 <= lc <= MTCH_MAX_LCID ->
  mch_read_pdu r lc (u32 (requested_bytes tbs (lcid_buffer_size s))) = Some (z, d, reps, r') ->
  z = zlen d -> 0 <= z <= mtch_payload_len ->
  exists u m1 m2 buf s0, ue_wf u /\ mac_wf m2 /\ mrnti_ue m2 = Some u /\
    apply_reports (set_mtch_buffer m buf) reps = Some m1 /\ mac_wf (set_mtch_buffer m buf) /\
    at_ (mtch_sched (the_mch m1)) 0 = Some s0 /\
    mtch_sched (the_mch m2) = <[O := mk_mtch_sched (mtch_lcid s0) (lcid_buffer_size s0) (mtch_stop s0) true]> (mtch_sched (the_mch m1)) /\
    (num_mtch_sched (the_mch m2) = num_mtch_sched (the_mch m) /\
     current_sf_allocation_num (the_mch m2) = current_sf_allocation_num (the_mch m1)) /\
    sched_item (the_mch m2) (mcch_payload_buffer m2) (mtch_payload_buffer m2) 0 = Some (item_sdu lc d) /\
    mtch_subframe m r tti tbs =
      if z =? 0 then Some (mk_res SRSRAN_MRNTI data_unset None, bump m2, r')
      else
      ('(ok, u') ← generate_mch_pdu u (the_mch m2) (mcch_payload_buffer m2) (mtch_payload_buffer m2)
                    (tti mod SRSRAN_FDD_NOF_HARQ) 1 (tbs / 8);
       dd ← pdu_data ok u' (tti mod SRSRAN_FDD_NOF_HARQ);
       Some (mk_res SRSRAN_MRNTI dd None, bump (set_ue m2 u'), r')).
Proof.
  intros Hwf Hl Hpos (x & Hlast & Hin & Hstop) Hturn Hs Hlc Hread Hz Hzb.
  pose proof Hwf as [W1 W2 W3 W4 W5 W6 (u & Hu & Hue)].
  destruct (sessions_inv _ _ Hl (proj1 W3)) as (_ & Hzl & _).
  unfold mtch_subframe. destruct (at_last (the_mch m) l Hl ltac:(lia)) as (y & -> & Hy & Hyin). cbn [mbind option_bind].
  assert (y = x) as ->.
  { destruct l as [|a l' _] using rev_ind; [by apply not_elem_of_nil in Hin|]. rewrite List.last_last in Hy, Hlast. congruence. }
  rewrite Hl. cbn [mbind option_bind]. rewrite Hturn, (proj2 (Z.leb_le _ _) Hstop), Hs, Hu. cbn [mbind option_bind].
  rewrite Hread. cbn [mbind option_bind].
  destruct (store (mtch_payload_buffer m) 0 d) as [buf|] eqn:Est; cbn [mbind option_bind].
  2: { rewrite store_Some in Est; [done|lia|]. lia. }
  assert (Hwfb : mac_wf (set_mtch_buffer m buf)).
  { apply store_zlen in Est. constructor; try done; [cbn; lia|by exists u]. }
  destruct (apply_reports_wf reps (set_mtch_buffer m buf) Hwfb) as (m1 & Hrep & Hwf1 & E1 & E2 & E3 & E4). rewrite Hrep. cbn [mbind option_bind].
  pose proof Hwf1 as [V1 V2 V3 V4 V5 V6 V7].
  destruct (upd_Some (mch_pdus (the_mch m1)) 0 (mk_sched_pdu lc (u32 z)) ltac:(lia)) as (-> & Hat1 & Hl1). cbn [mbind option_bind].
  destruct (at_Some (mtch_sched (the_mch m1)) 0 ltac:(lia)) as (s0 & Hs0 & _). rewrite Hs0. cbn [mbind option_bind].
  destruct (upd_Some (mtch_sched (the_mch m1)) 0 (mk_mtch_sched (mtch_lcid s0) (lcid_buffer_size s0) (mtch_stop s0) true) ltac:(lia))
    as (-> & Hat2 & Hl2). cbn [mbind option_bind].
  set (c2 := mk_mch _ _ (num_mtch_sched (the_mch m1)) _ _).
  exists u, m1, (set_mch m1 c2), buf, s0. change (the_mch (set_mch m1 c2)) with c2.
  split; [done|]. split; [constructor; (done || (cbn; lia))|]. split; [exact (eq_trans E1 Hu)|].
  split; [exact Hrep|]. split; [exact Hwfb|]. split; [exact Hs0|]. split; [done|]. split; [split; [exact E4|done]|]. split; [|reflexivity].
  unfold sched_item. change (mch_pdus c2) with (<[Z.to_nat 0 := mk_sched_pdu lc (u32 z)]> (mch_pdus (the_mch m1))).
  rewrite Hat1. cbn [mbind option_bind spdu_lcid spdu_nbytes].
  unfold MTCH_MAX_LCID, MCH_SCHED_INFO in *.
  rewrite (proj2 (Z.eqb_neq lc 30)), (proj2 (Z.eqb_neq lc 0)), (proj2 (Z.leb_le lc 28)) by lia.
  change (mtch_sched c2) with (<[Z.to_nat 0 := mk_mtch_sched (mtch_lcid s0) (lcid_buffer_size s0) (mtch_stop s0) true]> (mtch_sched (the_mch m1))).
  rewrite Hat2. cbn [mbind option_bind mtch_payload].
  change (mtch_payload_buffer (set_mch m1 c2)) with (mtch_payload_buffer m1). rewrite E2.
  change (mtch_payload_buffer (set_mtch_buffer m buf)) with buf.
  rewrite u32_id by (unfold is_u32, mtch_payload_len in *; lia). rewrite Hz.
  by rewrite (load_bytes_store_same _ _ _ _ _ Est eq_refl).
Qed.
End Mtch.

(** It is the turn of the session [s] of channel [lc], whose data fits the types of
    the code. *)
Record mtch_turn (m : mac) (lc : Z) (s : dl_mtch_sched_t) : Prop := {
  mt_sessions : exists l x idx, sessions (the_mch m) = Some l /\ List.last l x = x /\ x ∈ l /\
    current_sf_allocation_num (the_mch m) <= mtch_stop x /\
    turn_of (current_sf_allocation_num (the_mch m)) l 0 = (lc, idx) /\ at_ (mtch_sched (the_mch m)) idx = Some s;
  mt_lc : 1 <= lc <= MTCH_MAX_LCID;
  mt_size : 0 <= lcid_buffer_size s < 2 ^ 31
}.

Lemma requested_bounds tbs size : 3 <= tbs / 8 < 2 ^ 31 -> 0 <= size < 2 ^ 31 ->
  0 <= requested_bytes tbs size < tbs / 8 /\ u32 (requested_bytes tbs size) = requested_bytes tbs size.
Proof.
  intros Ht Hs. unfold requested_bytes. rewrite i32_id by lia.
  assert (Hb : 0 <= (if size <? tbs / 8 then size else tbs / 8 - 2) < tbs / 8) by (destruct (Z.ltb_spec size (tbs / 8)); lia).
  split; [exact Hb|]. apply u32_id. unfold is_u32. lia.
Qed.

Lemma sdu_item_fits lc d len : 1 <= lc <= MTCH_MAX_LCID -> 0 < zlen d -> zlen d + 1 <= len <= MAC_BUFFER -> 2 * zlen d <= MAC_BUFFER ->
  fits MCH_SUBH_TYPE false [item_sdu lc d] len 10 = true.
Proof.
  intros Hlc Hd Hl H2. unfold MTCH_MAX_LCID in Hlc.
  assert (He : elem_sdu MCH_SUBH_TYPE (lc, d) = true) by (unfold elem_sdu, mch_is_sdu, MCH_SCHED_INFO; cbn [fst]; apply Z.ltb_lt; lia).
  unfold fits, item_sdu_bytes. change (map item_elem [item_sdu lc d]) with ([(lc, d)] : list elem).
  cbn [forallb item_ok existsb]. rewrite He.
  assert (Hs : sdus MCH_SUBH_TYPE ([(lc, d)] : list elem) = [(lc, d)]) by (unfold sdus; rewrite filter_cons_True by done; done).
  assert (Hn : needed MCH_SUBH_TYPE ([(lc, d)] : list elem) = zlen d + 1).
  { change ([(lc, d)] : list elem) with (([] : list elem) ++ [(lc, d)]). rewrite needed_snoc, He. cbn [snd]. change (needed MCH_SUBH_TYPE []) with 0.
    change (growth MCH_SUBH_TYPE []) with 0. lia. }
  rewrite Hs, Hn. cbn [map snd]. rewrite mjoin_one.
  assert (MAC_BUFFER = 12237) by reflexivity.
  rewrite !andb_true_iff, !orb_true_iff, !Z.leb_le, !Z.ltb_lt. change (zlen [item_sdu lc d]) with 1. intuition (done || lia).
Qed.

Lemma mtch_subframe_spec {R} `{MchRlcLaws R} m (r : R) tti tbs lc s z d reps r' rx junk :
  mac_wf m -> mch_rlc_ok r -> mtch_turn m lc s -> 3 <= tbs / 8 <= mtch_payload_len ->
  mch_read_pdu r lc (requested_bytes tbs (lcid_buffer_size s)) = Some (z, d, reps, r') ->
  0 < z <= 6118 -> mch_receiver rx (tbs / 8) ->
  requested_bytes tbs (lcid_buffer_size s) < tbs / 8 /\
  exists b m' wire rx1 sub, mtch_subframe m r tti tbs = Some (mk_res SRSRAN_MRNTI (data_ptr b) None, m', r') /\
    contents b = Some wire /\ zlen wire = tbs / 8 /\
    parse_packet MCH_SUBH_TYPE rx (wire ++ junk) = Some rx1 /\
    sub ∈ ztake (nof_subheaders rx1) (subheaders rx1) /\ decode_subh (wire ++ junk) sub = Some (lc, d) /\ mac_wf m' /\
    (bytes_ok d -> bytes_ok wire).
Proof.
  intros Hwf Hrok [(l & x & idx & Hl & Hx & Hxin & Hstop & Hturn & Hs) Hlc Hsize] Htbs Hread Hz [Hrl Hru Hrt Hrn Hrm].
  unfold mtch_payload_len in Htbs.
  destruct (requested_bounds tbs (lcid_buffer_size s) ltac:(lia) Hsize) as [Hrq Hu32]. split; [lia|].
  destruct (mch_read_size _ _ _ _ _ _ _ Hrok (proj1 Hrq) Hread) as (Ez & Hzn & _).
  assert (Hpos : 0 < zlen l) by (destruct l; [by apply not_elem_of_nil in Hxin|rewrite zlen_cons; pose proof (zlen_nonneg l); lia]).
  destruct (mtch_subframe_step m r tti tbs l lc idx s z d reps r' Hwf Hl Hpos) as
    (u & m1 & m2 & buf & s0 & Hue & Hwf2 & Eu & _ & _ & _ & _ & En & Hit & ->); try done; [by exists x|by rewrite Hu32|unfold mtch_payload_len; lia|].
  destruct (Z.eqb_spec z 0); [lia|].
  destruct (generate_mch_pdu_items u (the_mch m2) (mcch_payload_buffer m2) (mtch_payload_buffer m2) (tti mod SRSRAN_FDD_NOF_HARQ)
    [item_sdu lc d] (tbs / 8) rx junk Hue (tti_mod tti)) as (u' & b & wire & rx1 & es & Hg & Hue' & Hat & Hc & Hzw & Hp & Hd & Hu' & Hby); try done.
  { intros [|k] it Hk; [|done]. injection Hk as <-. exact Hit. }
  { apply sdu_item_fits; [done|lia| |]; unfold MAC_BUFFER; bb_consts; lia. }
  { change (zlen [item_sdu lc d]) with 1. lia. }
  change (zlen [item_sdu lc d]) with 1 in Hg. rewrite Hg. cbn [mbind option_bind]. unfold pdu_data. rewrite Hat. cbn [mbind option_bind].
  destruct (decode_all_lookup _ _ _ _ Hd (item_read MCH_SUBH_TYPE _ (item_sdu lc d) es Hu' ltac:(by left))) as (sub & Hin & Hds).
  eexists b, _, wire, rx1, sub. split; [reflexivity|]. split_and!; try done; [|intros Hd'; apply Hby; by repeat constructor].
  pose proof Hwf2 as [V1 V2 V3 V4 V5 V6 V7]. constructor; try done. by exists u'.
Qed.

(** C4: a data subframe carries exactly what RLC gave.  In a data subframe of the
    period the scheduler asks RLC for less than the block's size, whatever the
    announced buffer size is, and when RLC returns a PDU of at most 6118 bytes, the MAC
    PDU has exactly the size of the data block and a receiver that parses it finds the
    RLC PDU, unchanged, on the logical channel of the session whose turn it was. *)
Theorem mtch_subframe_delivers {R} `{MchRlcLaws R} m (r : R) tti tbs lc s z d reps r' rx junk :
  mac_wf m -> mch_rlc_ok r -> mtch_turn m lc s -> 3 <= tbs / 8 <= mtch_payload_len ->
  mch_read_pdu r lc (requested_bytes tbs (lcid_buffer_size s)) = Some (z, d, reps, r') ->
  0 < z <= 6118 -> mch_receiver rx (tbs / 8) ->
  requested_bytes tbs (lcid_buffer_size s) < tbs / 8 /\
  exists b m' wire rx1 sub, mtch_subframe m r tti tbs = Some (mk_res SRSRAN_MRNTI (data_ptr b) None, m', r') /\
    contents b = Some wire /\ zlen wire = tbs / 8 /\
    parse_packet MCH_SUBH_TYPE rx (wire ++ junk) = Some rx1 /\
    sub ∈ ztake (nof_subheaders rx1) (subheaders rx1) /\ decode_subh (wire ++ junk) sub = Some (lc, d) /\ mac_wf m'.
Proof.
  intros Hwf Hrok Hturn Htbs Hread Hz Hrx. destruct (mtch_subframe_spec m r tti tbs lc s z d reps r' rx junk Hwf Hrok Hturn Htbs Hread Hz Hrx)
    as (H1 & b & m' & wire & rx1 & sub & H2). split; [exact H1|]. exists b, m', wire, rx1, sub. tauto.
Qed.

(** The scheduler after the MCCH subframe, with RLC PDUs of 100 bytes. *)
Definition test_mac2 : mac :=
  match mcch_subframe test_mac 170 500 1648 with Some (_, m) => m | None => mac_new end.

Lemma test_mac2_wf : mac_wf test_mac2.
Proof.
  destruct (mcch_announces test_mac 170 500 1648 test_mac1 [mk_mtch_sched 1 3000 15 false; mk_mtch_sched 2 0 15 false]
    (test_pdu MCH_SUBH_TYPE (500 / 8) false) []) as (b & m' & wire & rx1 & s & E & _ & _ & _ & _ & _ & _ & Hwf & _).
  - exact test_mac_wf.
  - vm_compute. reflexivity.
  - vm_compute. reflexivity.
  - reflexivity.
  - repeat constructor; done.
  - reflexivity.
  - vm_compute. split; congruence.
  - apply test_receiver.
  - unfold test_mac2. rewrite E. exact Hwf.
Qed.

Lemma test_mac2_turn : mtch_turn test_mac2 1 (mk_mtch_sched 1 3000 15 false).
Proof.
  constructor; [|done|done].
  exists [mk_mtch_sched 1 3000 15 false; mk_mtch_sched 2 0 15 false], (mk_mtch_sched 2 0 15 false), 0.
  split; [vm_compute; reflexivity|]. split; [done|]. split; [right; by left|].
  split; [vm_compute; congruence|]. split; vm_compute; reflexivity.
Qed.

Lemma mtch_subframe_delivers_witness :
  requested_bytes 1648 3000 < 1648 / 8 /\
  exists b m' wire rx1 sub, mtch_subframe test_mac2 [repeat 5 100] 171 1648 = Some (mk_res SRSRAN_MRNTI (data_ptr b) None, m', []) /\
    contents b = Some wire /\ zlen wire = 1648 / 8 /\
    parse_packet MCH_SUBH_TYPE (test_pdu MCH_SUBH_TYPE (1648 / 8) false) (wire ++ []) = Some rx1 /\
    sub ∈ ztake (nof_subheaders rx1) (subheaders rx1) /\ decode_subh (wire ++ []) sub = Some (1, repeat 5 100) /\ mac_wf m'.
Proof.
  apply (mtch_subframe_delivers test_mac2 [repeat 5 100] 171 1648 1 (mk_mtch_sched 1 3000 15 false) 100 (repeat 5 100) [(1, 0)] []).
  - exact test_mac2_wf.
  - exact I.
  - exact test_mac2_turn.
  - vm_compute. split; congruence.
  - reflexivity.
  - lia.
  - apply test_receiver.
Defined.

(** ** Large blocks *)

(** A PDU object with one SDU whose size was not taken from the space left. *)
Lemma write_packet_too_long p sd rest n :
  subheaders p = sd :: rest -> nof_subheaders p = 1 -> last_sdu_idx p = -1 -> rem_len p = pdu_len p -> pdu_is_ul p = false ->
  zlen (buffer (buffer_tx p)) = SRSRAN_MAX_BUFFER_SIZE_BYTES -> msg (buffer_tx p) = 1020 -> N_bytes (buffer_tx p) = 0 + n ->
  is_sdu sd = true -> nof_bytes sd = n -> 6119 <= n /\ n + 1 <= pdu_len p <= 10000 ->
  exists p', write_packet p = Some (false, p').
Proof.
  intros Hs Hn Hl Hr Hul Hblk Hm Hnb Hsdu Hsz Hlen.
  assert (Hused : used p = [(0, sd)]) by (unfold used; rewrite Hn, Hs; done).
  assert (Hpad : padding_of p = (true, pdu_len p - 1, 0)).
  { unfold padding_of. rewrite Hl, Hr, (proj2 (Z.ltb_lt 2 (pdu_len p))) by lia. cbn [Z.ltb Z.compare].
    rewrite u32_id by (unfold is_u32; lia). done. }
  assert (Hhs : header_size p = 4).
  { unfold header_size. rewrite Hpad, Hused. cbn [foldl negb andb]. unfold get_header_size. cbn [negb].
    rewrite Hsdu. cbn [orb]. rewrite Hsz, (u32_id n) by (unfold is_u32; lia). unfold size_header_sdu.
    rewrite (proj2 (Z.eqb_neq n 0)), (proj2 (Z.ltb_ge n 128)) by lia. done. }
  assert (Hcs : ce_payload_size p = 0) by (unfold ce_payload_size; rewrite Hused; cbn [foldl]; by rewrite Hsdu).
  unfold write_packet. rewrite Hpad, Hhs, Hcs. change (u32 (4 + 0)) with 4. unfold get_headroom. rewrite Hm.
  change (u32 1020 <? 4) with false. cbv iota. rewrite Hn, Hs, Hul.
  change (ztake 1 (sd :: rest)) with [sd]. cbn [write_payloads]. unfold write_payload. rewrite Hsdu. cbn [mbind option_bind app].
  assert (Hhb : zlen (header_bytes p ++ []) = 1).
  { rewrite app_nil_r. unfold header_bytes. rewrite Hpad, Hl, Hused. cbn [map]. rewrite Hsdu. done. }
  rewrite store_Some; [|lia|bb_consts; lia]. cbn [mbind option_bind]. unfold get_tailroom. cbn [msg N_bytes]. rewrite Hnb.
  rewrite (u32_id (0 + n + 4)) by (unfold is_u32; lia). change SRSRAN_MAX_BUFFER_SIZE_BYTES with 13257.
  rewrite u32_id by (unfold is_u32; lia).
  rewrite (proj2 (Z.ltb_lt (13257 - (1020 - 4) - (0 + n + 4)) (pdu_len p - 1))) by lia. eexists. reflexivity.
Qed.

(** One SDU of more than half of the buffer: [set_sdu] accepts it, but the space is
    checked again after it was added and is not updated, so that the packet would be
    too long. *)
Lemma large_sdu_lost u c mcch mtch harq lc d len :
  ue_wf u -> 0 <= harq < SRSRAN_FDD_NOF_HARQ -> sched_item c mcch mtch 0 = Some (item_sdu lc d) ->
  1 <= lc <= MTCH_MAX_LCID -> 6119 <= zlen d -> zlen d + 1 <= len <= mtch_payload_len ->
  exists u', generate_mch_pdu u c mcch mtch harq 1 len = Some (false, u').
Proof.
  intros [Hb Hblk Hsub] Hh Hit Hlc Hd Hlen. unfold MTCH_MAX_LCID, mtch_payload_len in *. unfold generate_mch_pdu.
  destruct (at_Some (tx_payload_buffer u) harq ltac:(lia)) as (buf & -> & Hin). cbn [mbind option_bind].
  assert (Hblock : zlen (buffer buf) = 13257).
  { rewrite List.Forall_forall in Hblk. apply Hblk. by apply list_elem_of_In. }
  set (p0 := pdu_init _ _ _ _ _). set (b0 := byte_buffer_clear buf).
  assert (Hwf : bb_wf b0) by (constructor; cbn; bb_consts; lia).
  destruct (append_bytes_spec b0 d [] Hwf) as (b1 & Eb1 & Hwf1 & _ & Hn1 & Hm1).
  { unfold contents, b0. cbn [buffer msg N_bytes byte_buffer_clear]. rewrite load_bytes_Some; [by rewrite ztake_0|..]; bb_consts; lia. }
  { rewrite get_tailroom_wf by done. cbn. bb_consts. lia. }
  change (N_bytes b0) with 0 in Hn1. change (msg b0) with 1020 in Hm1.
  destruct (subheaders (mch_mac_msg_dl u)) as [|x rest] eqn:Esub; [unfold max_subheaders in Hsub; rewrite Esub in Hsub; done|].
  set (s0 := subh_init (subh_set_type x MCH_SUBH_TYPE)).
  assert (Es0 : subheaders p0 = s0 :: map (fun s => subh_init (subh_set_type s MCH_SUBH_TYPE)) rest).
  { unfold p0, pdu_init. cbn [subheaders]. by rewrite Esub. }
  set (p1 := set_cur (set_nof p0 1) 0).
  assert (Enew : new_subh p0 = (true, p1)).
  { unfold new_subh, max_subheaders. assert (Hz : zlen (subheaders p0) = 10).
    { unfold p0, pdu_init, max_subheaders, zlen in *. cbn [subheaders]. by rewrite length_map. }
    rewrite Hz. cbn [nof_subheaders rem_len p0 pdu_init buffer_tx]. rewrite (proj2 (Z.leb_le 2 len)) by lia. reflexivity. }
  assert (Htail1 : get_tailroom b1 = 12237 - zlen d) by (rewrite get_tailroom_wf, Hm1, Hn1 by done; bb_consts; lia).
  set (sd := mk_subh lc (zlen d) None (w_payload_ce s0) 0 0 (F_bit s0) MCH_SUBH_TYPE).
  set (p2 := put (set_buffer p1 b1) sd).
  assert (Eset : set_sdu p1 lc d = Some (zlen d, p2)).
  { unfold set_sdu. assert (Eg : get p1 = Some s0) by (unfold get, p1; cbn [cur_idx set_cur subheaders set_nof]; rewrite Es0; done).
    rewrite Eg. cbn [mbind option_bind].
    assert (Hsp : has_space_sdu p1 (zlen d) = true).
    { unfold has_space_sdu, get_sdu_space. cbn [last_sdu_idx p1 set_cur set_nof p0 pdu_init rem_len buffer_tx].
      change (get_tailroom (byte_buffer_clear buf)) with 12237. change (-1 <? 0) with true. cbv iota.
      rewrite (i32_id (len - 1)) by lia. rewrite (proj2 (Z.leb_le 0 (len - 1))) by lia.
      rewrite i32_id by lia. destruct (Z.ltb_spec (Z.min (len - 1) 12237) 0); [lia|]. apply Z.leb_le. lia. }
    rewrite Hsp. change (buffer_tx p1) with b0. rewrite Eb1. cbn [mbind option_bind].
    assert (Hno : has_space_sdu (set_buffer p1 b1) (zlen d) = false).
    { unfold has_space_sdu, get_sdu_space. cbn [last_sdu_idx set_buffer p1 set_cur set_nof p0 pdu_init rem_len buffer_tx].
      change (-1 <? 0) with true. cbv iota. rewrite Htail1.
      rewrite (i32_id (len - 1)) by lia. rewrite (proj2 (Z.leb_le 0 (len - 1))) by lia.
      rewrite i32_id by lia. destruct (Z.ltb_spec (Z.min (len - 1) (12237 - zlen d)) 0); [done|]. apply Z.leb_gt. lia. }
    unfold update_space_sdu. rewrite Hno. reflexivity. }
  assert (Ead : add_item p0 (item_sdu lc d) = Some (true, p2)).
  { unfold add_item. rewrite Enew, Eset. cbn [mbind option_bind]. by rewrite (proj2 (Z.leb_le 0 (zlen d))) by lia. }
  change (Z.to_nat 1) with 1%nat. cbn [mch_add_all]. rewrite (mch_add_item _ _ _ _ _ _ _ Hit Ead). cbn [mbind option_bind].
  assert (Hw : exists p3, write_packet p2 = Some (false, p3)).
  { apply (write_packet_too_long p2 sd (map (fun s => subh_init (subh_set_type s MCH_SUBH_TYPE)) rest) (zlen d)).
    - unfold p2, put. cbn [subheaders set_subheaders set_buffer p1 set_cur set_nof cur_idx]. by rewrite Es0.
    - done.
    - done.
    - done.
    - done.
    - apply Hwf1.
    - exact Hm1.
    - exact Hn1.
    - unfold is_sdu. cbn [stype sd lcid]. unfold lcid_is_sdu, mch_is_sdu, MCH_SCHED_INFO. apply Z.ltb_lt. lia.
    - done.
    - cbn [pdu_len p2 put set_subheaders set_buffer p1 set_cur set_nof p0 pdu_init]. lia. }
  destruct Hw as (p3 & ->). cbn [mbind option_bind].
  destruct (upd_Some (tx_payload_buffer u) harq (buffer_tx p3) ltac:(lia)) as (-> & _). cbn [mbind option_bind]. eexists. reflexivity.
Qed.

(** Large data blocks are lost.  When RLC returns more than 6118 bytes for a data
    subframe (which needs a block of more than 48944 bits), nothing is sent: the SDU is
    counted in the buffer before its room is checked a second time, the second check
    fails, and [write_packet] returns a null pointer.  The PDU has left RLC. *)
Theorem mtch_large_block_lost {R} `{MchRlcLaws R} m (r : R) tti tbs lc s z d reps r' :
  mac_wf m -> mch_rlc_ok r -> mtch_turn m lc s -> 3 <= tbs / 8 <= mtch_payload_len ->
  mch_read_pdu r lc (requested_bytes tbs (lcid_buffer_size s)) = Some (z, d, reps, r') -> 6119 <= z ->
  exists m', mtch_subframe m r tti tbs = Some (mk_res SRSRAN_MRNTI data_null None, m', r').
Proof.
  intros Hwf Hrok [(l & x & idx & Hl & Hx & Hxin & Hstop & Hturn & Hs) Hlc Hsize] Htbs Hread Hz.
  unfold mtch_payload_len in Htbs.
  destruct (requested_bounds tbs (lcid_buffer_size s) ltac:(lia) Hsize) as [Hrq Hu32].
  destruct (mch_read_size _ _ _ _ _ _ _ Hrok (proj1 Hrq) Hread) as (Ez & Hzn & _).
  assert (Hpos : 0 < zlen l) by (destruct l; [by apply not_elem_of_nil in Hxin|rewrite zlen_cons; pose proof (zlen_nonneg l); lia]).
  destruct (mtch_subframe_step m r tti tbs l lc idx s z d reps r' Hwf Hl Hpos) as
    (u & m1 & m2 & buf & s0 & Hue & Hwf2 & Eu & _ & _ & _ & _ & En & Hit & ->); try done; [by exists x|by rewrite Hu32|unfold mtch_payload_len; lia|].
  destruct (Z.eqb_spec z 0); [lia|].
  destruct (large_sdu_lost u (the_mch m2) (mcch_payload_buffer m2) (mtch_payload_buffer m2) (tti mod SRSRAN_FDD_NOF_HARQ) lc d (tbs / 8)
    Hue (tti_mod tti) Hit Hlc) as (u' & ->); [lia|unfold mtch_payload_len; lia|].
  cbn [mbind option_bind pdu_data]. eexists. reflexivity.
Qed.

(** 7000 bytes wait; the period's first subframe has a block of 60000 bits. *)
Definition test_mac3 : mac := snd (default (0, mac_new) (rlc_buffer_state test_mac2 1 7000)).

Lemma mtch_large_block_lost_witness :
  exists m', mtch_subframe test_mac3 [repeat 5 (Z.to_nat 7000)] 171 60000 = Some (mk_res SRSRAN_MRNTI data_null None, m', []).
Proof.
  apply (mtch_large_block_lost test_mac3 [repeat 5 (Z.to_nat 7000)] 171 60000 1 (mk_mtch_sched 1 7000 15 false) 7000
    (repeat 5 (Z.to_nat 7000)) [(1, 0)] []).
  - destruct (rlc_buffer_state_wf test_mac2 1 7000 test_mac2_wf) as (m' & E & Hwf & _). unfold test_mac3. rewrite E. exact Hwf.
  - exact I.
  - constructor; [|done|done].
    exists [mk_mtch_sched 1 7000 15 false; mk_mtch_sched 2 0 15 false], (mk_mtch_sched 2 0 15 false), 0.
    split; [vm_compute; reflexivity|]. split; [done|]. split; [right; by left|].
    split; [vm_compute; congruence|]. split; vm_compute; reflexivity.
  - vm_compute. split; congruence.
  - vm_compute. reflexivity.
  - done.
Defined.
