(* ===== verification/Mbsfn.v ===== *)
(** * MBSFN subframes of the PHY

    [lib/src/common/gen_mch_tables.c] (the tables of MBSFN subframes), the enumerations
    of [lib/include/srsran/interfaces/rrc_interface_types.h] and the MBSFN part of
    [srsenb/src/phy/phy_common.cc]: which subframe carries the MCCH, which one belongs
    to which PMCH, and with which modulation and coding scheme.

    [None] is an access outside of an array or a division by zero. *)

From stdpp Require Import base list numbers.
From S2P Require Import Prelude.

Local Open Scope Z_scope.

(** ** Tables of subframes *)

Definition bit_of (v i : Z) : Z := Z.land (Z.shiftr v i) 0x01.

(** Writing one entry. *)
Definition put_at (t : list Z) (i v : Z) : option (list Z) :=
  if (i <? 0) || (zlen t <=? i) then None else Some (<[Z.to_nat i := v]> t).

(** [generate_frame_table] at offset [off] of the table. *)
Definition generate_frame_table (t : list Z) (off alloc : Z) : option (list Z) :=
  t ← put_at t (off + 1) (bit_of alloc 5);
  t ← put_at t (off + 2) (bit_of alloc 4);
  t ← put_at t (off + 3) (bit_of alloc 3);
  t ← put_at t (off + 6) (bit_of alloc 2);
  t ← put_at t (off + 7) (bit_of alloc 1);
  put_at t (off + 8) (bit_of alloc 0).

Definition generate_mch_table (t : list Z) (sf_alloc num_frames : Z) : option (list Z) :=
  if num_frames =? 1 then generate_frame_table t 0 (Z.land sf_alloc 0x3F)
  else if num_frames =? 4 then
    let alloc j := Z.land (Z.shiftr sf_alloc (6 * (3 - j))) 0x3F in
    t ← generate_frame_table t (0 * 10) (alloc 0);
    t ← generate_frame_table t (1 * 10) (alloc 1);
    t ← generate_frame_table t (2 * 10) (alloc 2);
    generate_frame_table t (3 * 10) (alloc 3)
  else Some t.

Definition generate_mcch_table (t : list Z) (sf_alloc : Z) : option (list Z) :=
  generate_frame_table t 0 (Z.land sf_alloc 0x3F).

(** [generate_mcch_table_r16]: the loop writes the entries 10, 9, .. 2. *)
Definition generate_mcch_table_r16 (t : list Z) (alloc : Z) : option (list Z) :=
  foldl (fun acc j => t ← acc; put_at t (10 - j) (bit_of alloc j)) (Some t) (seqZ 0 9).

(** ** Enumerations *)

Inductive alloc_period_t := ap_n1 | ap_n2 | ap_n4 | ap_n8 | ap_n16 | ap_n32 | ap_nulltype.
Inductive sf_alloc_type_t := one_frame | four_frames | sf_nulltype.
Inductive region_len_t := s1 | s2 | region_nulltype.
Inductive subcarrier_spacing_t := khz_7dot5 | khz_2dot5 | khz_1dot25 | khz_0dot25 | scs_nulltype.
Inductive repeat_period_t :=
| rp_rf1 | rp_rf2 | rp_rf4 | rp_rf8 | rp_rf16 | rp_rf32 | rp_rf64 | rp_rf128 | rp_rf256
| rp_spare7 | rp_spare6 | rp_spare5 | rp_spare4 | rp_spare3 | rp_spare2 | rp_spare1 | rp_nulltype.
Inductive sig_mcs_t := mcs_n2 | mcs_n7 | mcs_n13 | mcs_n19 | mcs_nulltype.
Inductive mch_sched_period_t :=
| sp_rf8 | sp_rf16 | sp_rf32 | sp_rf64 | sp_rf128 | sp_rf256 | sp_rf512 | sp_rf1024 | sp_nulltype.

(** [enum_to_number]: the null type gives -1 as a 16-bit number; the spare values of
    the repetition period are beyond the table of options. *)
Definition alloc_period_number (p : alloc_period_t) : Z :=
  match p with ap_n1 => 1 | ap_n2 => 2 | ap_n4 => 4 | ap_n8 => 8 | ap_n16 => 16 | ap_n32 => 32 | ap_nulltype => 65535 end.

Definition region_len_number (r : region_len_t) : Z := match r with s1 => 1 | s2 => 2 | region_nulltype => 65535 end.

Definition repeat_period_number (p : repeat_period_t) : option Z :=
  match p with
  | rp_rf1 => Some 1 | rp_rf2 => Some 2 | rp_rf4 => Some 4 | rp_rf8 => Some 8 | rp_rf16 => Some 16
  | rp_rf32 => Some 32 | rp_rf64 => Some 64 | rp_rf128 => Some 128 | rp_rf256 => Some 256
  | rp_nulltype => Some 65535 | _ => None
  end.

Definition sig_mcs_number (s : sig_mcs_t) : Z :=
  match s with mcs_n2 => 2 | mcs_n7 => 7 | mcs_n13 => 13 | mcs_n19 => 19 | mcs_nulltype => 65535 end.

Definition mch_sched_period_number (p : mch_sched_period_t) : Z :=
  match p with
  | sp_rf8 => 8 | sp_rf16 => 16 | sp_rf32 => 32 | sp_rf64 => 64 | sp_rf128 => 128 | sp_rf256 => 256
  | sp_rf512 => 512 | sp_rf1024 => 1024 | sp_nulltype => 65535
  end.

(** ** Configuration and state *)

Record mbsfn_sf_cfg_t := mk_sf_cfg {
  radioframe_alloc_period : alloc_period_t;
  radioframe_alloc_offset : Z;
  nof_alloc_subfrs : sf_alloc_type_t;
  sf_alloc : Z
}.

Record mcch_cfg_t := mk_mcch_cfg {
  mcch_repeat_period : repeat_period_t;
  mcch_offset : Z;
  sf_alloc_info : Z;
  sig_mcs : sig_mcs_t
}.

Record mbsfn_area_info_t := mk_area_info {
  area_id : Z;
  non_mbsfn_region_len : region_len_t;
  area_scs : subcarrier_spacing_t;
  mcch_cfg : mcch_cfg_t
}.

Record pmch_info_t := mk_pmch { pmch_sf_alloc_end : Z; pmch_data_mcs : Z; pmch_sched_period : mch_sched_period_t }.

(** [pmch_info_list] holds the [nof_pmch_info] entries in use. *)
Record phy_cfg_mbsfn_t := mk_phy_cfg {
  mbsfn_subfr_cnfg : mbsfn_sf_cfg_t;
  mbsfn_area_info : mbsfn_area_info_t;
  pmch_info_list : list pmch_info_t
}.

Record phy_common := mk_phy {
  mbsfn : phy_cfg_mbsfn_t;
  sib13_configured : bool;
  mcch_configured : bool;
  mch_table : list Z;
  mcch_table : list Z;
  have_mtch_stop : bool;
  mch_period_stop : Z
}.

Inductive srsran_scs_t := SRSRAN_SCS_15KHZ | SRSRAN_SCS_7KHZ5 | SRSRAN_SCS_1KHZ25 | scs_unset.

Record srsran_mbsfn_cfg_t := mk_mbsfn_cfg {
  cfg_area_id : Z;
  cfg_region_length : Z;
  cfg_mcs : Z;
  cfg_enable : bool;
  cfg_is_mcch : bool;
  cfg_scs : srsran_scs_t
}.

(** ** Operations *)

Definition set_mch_period_stop (p : phy_common) (stop : Z) : phy_common :=
  mk_phy (mbsfn p) (sib13_configured p) (mcch_configured p) (mch_table p) (mcch_table p) true stop.

Definition configure_mbsfn (p : phy_common) (cfg : phy_cfg_mbsfn_t) : phy_common :=
  mk_phy cfg true true (mch_table p) (mcch_table p) (have_mtch_stop p) (mch_period_stop p).

(** [build_mch_table] resets [mcch_table] and writes [mch_table]; the second result is
    the mask given to the scheduler. *)
Definition build_mch_table (p : phy_common) : option (phy_common * (list Z * Z)) :=
  let zeros := repeat 0 10 in
  '(t, n) ← match nof_alloc_subfrs (mbsfn_subfr_cnfg (mbsfn p)) with
            | one_frame => t ← generate_mch_table (mch_table p) (sf_alloc (mbsfn_subfr_cnfg (mbsfn p))) 1; Some (t, 10)
            | four_frames => t ← generate_mch_table (mch_table p) (sf_alloc (mbsfn_subfr_cnfg (mbsfn p))) 4; Some (t, 40)
            | sf_nulltype => Some (mch_table p, 0)
            end;
  Some (mk_phy (mbsfn p) (sib13_configured p) (mcch_configured p) t zeros (have_mtch_stop p) (mch_period_stop p),
        (ztake n t, n)).

Definition build_mcch_table (p : phy_common) : option phy_common :=
  t ← generate_mcch_table (repeat 0 10) (sf_alloc_info (mcch_cfg (mbsfn_area_info (mbsfn p))));
  Some (mk_phy (mbsfn p) (sib13_configured p) (mcch_configured p) (mch_table p) t (have_mtch_stop p) (mch_period_stop p)).

(** [is_mcch_subframe]: the period is an 8-bit variable. *)
Definition is_mcch_subframe (p : phy_common) (cfg : srsran_mbsfn_cfg_t) (phy_tti : Z)
  : option (bool * srsran_mbsfn_cfg_t * phy_common) :=
  let sfn := phy_tti / 10 in
  let sf := phy_tti mod 10 in
  if sib13_configured p then
    let area := mbsfn_area_info (mbsfn p) in
    num ← repeat_period_number (mcch_repeat_period (mcch_cfg area));
    let period := u8 num in
    if period =? 0 then None
    else
      entry ← (if sfn mod period =? mcch_offset (mcch_cfg area) then mcch_table p !! Z.to_nat sf else Some 0);
      if 0 <? entry then
        Some (true,
              mk_mbsfn_cfg (area_id area) (u8 (region_len_number (non_mbsfn_region_len area)))
                (u8 (sig_mcs_number (sig_mcs (mcch_cfg area)))) true true (cfg_scs cfg),
              mk_phy (mbsfn p) (sib13_configured p) (mcch_configured p) (mch_table p) (mcch_table p) false (mch_period_stop p))
      else Some (false, cfg, p)
  else Some (false, cfg, p).

(** The index of a subframe in the scheduling period of a PMCH. *)
Definition fn_in_scheduling_period (sfn : Z) (pm : pmch_info_t) : Z := sfn mod mch_sched_period_number (pmch_sched_period pm).
Definition sf_idx (fn sf : Z) : Z := i32 (fn * 10 + sf - fn / 4 - 1).

(** The loop over the PMCHs: [prev] is the entry before; the result is the scheme when
    the subframe belongs to an entry. *)
Fixpoint find_pmch (sig : Z) (sfn sf : Z) (prev : option pmch_info_t) (l : list pmch_info_t) : option Z :=
  match l with
  | [] => None
  | pm :: l' =>
      let fn := fn_in_scheduling_period sfn pm in
      let idx := sf_idx fn sf in
      if idx <=? pmch_sf_alloc_end pm then
        let first := match prev with
                     | None => (fn =? 0) && (sf =? 1)
                     | Some q => pmch_sf_alloc_end q + 1 =? idx
                     end in
        Some (if first then sig else pmch_data_mcs pm)
      else find_pmch sig sfn sf (Some pm) l'
  end.

(** The subframe that carries the acquisition signals. *)
Definition is_cas (phy_tti : Z) : bool := ((phy_tti / 10) mod 4 =? 0) && (phy_tti mod 10 =? 0).

Definition is_mch_subframe (p : phy_common) (cfg : srsran_mbsfn_cfg_t) (phy_tti : Z)
  : option (bool * srsran_mbsfn_cfg_t * phy_common) :=
  let sfn := phy_tti / 10 in
  let sf := phy_tti mod 10 in
  let cfg0 := mk_mbsfn_cfg 0 1 2 false false (cfg_scs cfg) in
  if is_cas phy_tti then Some (false, cfg0, p)
  else
    let area := mbsfn_area_info (mbsfn p) in
    let scs := match area_scs area with
               | khz_1dot25 => SRSRAN_SCS_1KHZ25
               | khz_7dot5 => SRSRAN_SCS_7KHZ5
               | _ => SRSRAN_SCS_15KHZ
               end in
    let cfg1 := mk_mbsfn_cfg 0 1 2 false false scs in
    '(mcch, cfg2, p2) ← is_mcch_subframe p cfg1 phy_tti;
    if (mcch : bool) then Some (true, cfg2, p2)
    else if negb (mcch_configured p2) then Some (false, cfg2, p2)
    else if sib13_configured p2 then
      let sig := u8 (sig_mcs_number (sig_mcs (mcch_cfg area))) in
      match find_pmch sig sfn sf None (pmch_info_list (mbsfn p2)) with
      | Some mcs => Some (true, mk_mbsfn_cfg (area_id area) 0 mcs true false scs, p2)
      | None => Some (true, mk_mbsfn_cfg (area_id area) (u8 (region_len_number (non_mbsfn_region_len area))) 2 false false scs, p2)
      end
    else Some (true, cfg2, p2).

(** ** The index of a subframe *)

(** The subframes from [start] on, before [tti], that are not acquisition subframes. *)
Definition mbsfn_subframes (start tti : Z) : list Z := filter (fun t => is_cas t = false) (seqZ start (tti - start)).

Lemma is_cas_iff t : is_cas t = true <-> t mod 40 = 0.
Proof.
  unfold is_cas. rewrite andb_true_iff, !Z.eqb_eq. split; [intros [H1 H2]|intros H].
  - rewrite (Z.div_mod t 10), (Z.div_mod (t / 10) 4), H1, H2 by lia.
    replace (10 * (4 * (t / 10 / 4) + 0) + 0) with (t / 10 / 4 * 40) by lia. apply Z.mod_mul. lia.
  - pose proof (Z.div_mod t 40 ltac:(lia)) as E. rewrite H, Z.add_0_r in E.
    assert (E10 : t / 10 = t / 40 * 4) by (symmetry; apply Z.div_unique with 0; lia).
    split; [rewrite E10; apply Z.mod_mul; lia|]. symmetry. apply Z.mod_unique with (t / 40 * 4); lia.
Qed.

Lemma is_cas_shift k t : is_cas (k * 40 + t) = is_cas t.
Proof.
  apply Bool.eq_iff_eq_true. rewrite !is_cas_iff. rewrite Z.add_comm, Z.mod_add by lia. done.
Qed.

(** Counting from a multiple of 40. *)
Lemma mbsfn_count k n : (0 <= n)%Z ->
  Z.of_nat (length (mbsfn_subframes (k * 40) (k * 40 + n))) = n - (n + 39) / 40.
Proof.
  intros Hn. unfold mbsfn_subframes. replace (k * 40 + n - k * 40) with n by lia.
  rewrite <- (Z2Nat.id n Hn). generalize (Z.to_nat n). clear n Hn. intros n. induction n as [|n IH]; [done|].
  rewrite Nat2Z.inj_succ. unfold Z.succ. rewrite seqZ_app by lia. rewrite list.filter_app, length_app, Nat2Z.inj_add, IH.
  change (seqZ (k * 40 + Z.of_nat n) 1) with [k * 40 + Z.of_nat n]. rewrite filter_cons.
  set (m := Z.of_nat n). pose proof (Z.div_mod (m + 39) 40 ltac:(lia)) as E1. pose proof (Z.mod_pos_bound (m + 39) 40 ltac:(lia)).
  case_decide as Hc; rewrite is_cas_shift in Hc; cbn [filter length list_filter].
  - assert (Hm : m mod 40 <> 0) by (intros E; apply is_cas_iff in E; congruence).
    assert ((m + 1 + 39) / 40 = (m + 39) / 40); [|lia].
    pose proof (Z.div_mod m 40 ltac:(lia)). pose proof (Z.mod_pos_bound m 40 ltac:(lia)).
    transitivity (m / 40 + 1); [symmetry; apply Z.div_unique with (m mod 40); lia|].
    apply Z.div_unique with (m mod 40 - 1); lia.
  - assert (Hm : m mod 40 = 0) by (apply is_cas_iff; destruct (is_cas m); done).
    pose proof (Z.div_mod m 40 ltac:(lia)).
    assert (E2 : (m + 39) / 40 = m / 40) by (symmetry; apply Z.div_unique with 39; lia).
    assert (E3 : (m + 1 + 39) / 40 = m / 40 + 1) by (symmetry; apply Z.div_unique with 0; lia). lia.
Qed.

Lemma sf_idx_small fn sf : 0 <= fn < 65536 -> 0 <= sf < 10 -> sf_idx fn sf = fn * 10 + sf - fn / 4 - 1.
Proof.
  intros Hf Hs. unfold sf_idx. apply i32_id. pose proof (Z.div_pos fn 4 ltac:(lia) ltac:(lia)).
  pose proof (Z.div_le_upper_bound fn 4 fn ltac:(lia) ltac:(lia)). lia.
Qed.

Lemma sched_period_mult pm : pmch_sched_period pm <> sp_nulltype ->
  exists k, mch_sched_period_number (pmch_sched_period pm) = 4 * k /\ 2 <= k <= 256.
Proof.
  intros H. exists (mch_sched_period_number (pmch_sched_period pm) / 4).
  destruct (pmch_sched_period pm); try done; vm_compute; repeat split; congruence.
Qed.

(** C36: the index of a subframe in the scheduling period counts its MBSFN subframes.
    For every subframe that is not an acquisition subframe, the index that the PHY
    compares with the end of a PMCH's allocation is the number of MBSFN subframes of
    the scheduling period before it. *)
Theorem sf_idx_counts pm tti : pmch_sched_period pm <> sp_nulltype -> 0 <= tti -> is_cas tti = false ->
  let fn := fn_in_scheduling_period (tti / 10) pm in
  sf_idx fn (tti mod 10) = Z.of_nat (length (mbsfn_subframes (tti - (fn * 10 + tti mod 10)) tti)).
Proof.
  intros Hp Ht Hc. cbv zeta. destruct (sched_period_mult pm Hp) as (k & Ek & Hk). unfold fn_in_scheduling_period. rewrite Ek.
  set (fn := (tti / 10) mod (4 * k)). set (sf := tti mod 10).
  pose proof (Z.mod_pos_bound (tti / 10) (4 * k) ltac:(lia)) as Hfn. fold fn in Hfn.
  pose proof (Z.mod_pos_bound tti 10 ltac:(lia)) as Hsf. fold sf in Hsf.
  pose proof (Z.div_mod tti 10 ltac:(lia)) as E1. fold sf in E1.
  pose proof (Z.div_mod (tti / 10) (4 * k) ltac:(lia)) as E2. fold fn in E2.
  set (q := tti / 10 / (4 * k)) in *.
  assert (Estart : tti - (fn * 10 + sf) = k * q * 40) by lia.
  rewrite Estart. replace (mbsfn_subframes (k * q * 40) tti) with (mbsfn_subframes (k * q * 40) (k * q * 40 + (fn * 10 + sf)))
    by (f_equal; lia).
  rewrite mbsfn_count by lia.
  rewrite sf_idx_small by lia.
  assert (Hn : (fn * 10 + sf) mod 40 <> 0).
  { intros E. assert (Hcas : is_cas tti = true); [|congruence].
    replace tti with (k * q * 40 + (fn * 10 + sf)) by lia. rewrite is_cas_shift. by apply is_cas_iff. }
  pose proof (Z.div_mod (fn * 10 + sf) 40 ltac:(lia)). pose proof (Z.mod_pos_bound (fn * 10 + sf) 40 ltac:(lia)).
  set (n := fn * 10 + sf) in *.
  assert (E4 : fn / 4 = n / 40).
  { replace fn with (n / 10) by (unfold n; rewrite Z.div_add_l, (Z.div_small sf 10) by lia; lia).
    rewrite Z.div_div by lia. done. }
  assert (E5 : (n + 39) / 40 = n / 40 + 1) by (symmetry; apply Z.div_unique with (n mod 40 - 1); lia). lia.
Qed.

Lemma sf_idx_counts_witness :
  let pm := mk_pmch 100 5 sp_rf8 in
  let fn := fn_in_scheduling_period (1234 / 10) pm in
  sf_idx fn (1234 mod 10) = Z.of_nat (length (mbsfn_subframes (1234 - (fn * 10 + 1234 mod 10)) 1234)).
Proof. apply (sf_idx_counts (mk_pmch 100 5 sp_rf8) 1234); [discriminate|lia|reflexivity]. Defined.

(** ** The PMCH of a subframe *)

(** The first index of entry [i]. *)
Definition pmch_first (l : list pmch_info_t) (i : nat) : Z :=
  match i with O => 0 | S j => match l !! j with Some q => pmch_sf_alloc_end q + 1 | None => 0 end end.

(** Entries with one scheduling period and growing ends. *)
Inductive pmch_sorted (per : mch_sched_period_t) : Z -> list pmch_info_t -> Prop :=
| pmch_sorted_nil lo : pmch_sorted per lo []
| pmch_sorted_cons lo pm l :
    pmch_sched_period pm = per -> lo <= pmch_sf_alloc_end pm -> pmch_sorted per (pmch_sf_alloc_end pm) l ->
    pmch_sorted per lo (pm :: l).

Lemma pmch_sorted_end per l : forall lo j q, pmch_sorted per lo l -> l !! j = Some q -> lo <= pmch_sf_alloc_end q.
Proof.
  induction l as [|pm l IH]; intros lo j q Hs Hj; [done|].
  inversion Hs as [|? ? ? Hper Hlo Hrest]; subst. destruct j as [|j]; [by injection Hj as <-|].
  specialize (IH _ j q Hrest Hj). lia.
Qed.

Lemma find_pmch_spec sig sfn sf per l : forall lo prev i pm,
  pmch_sorted per lo l -> l !! i = Some pm ->
  let fn := sfn mod mch_sched_period_number per in
  let idx := sf_idx fn sf in
  (forall j q, (j < i)%nat -> l !! j = Some q -> pmch_sf_alloc_end q < idx) -> idx <= pmch_sf_alloc_end pm ->
  find_pmch sig sfn sf prev l =
    Some (if match i with
             | O => match prev with None => (fn =? 0) && (sf =? 1) | Some q => pmch_sf_alloc_end q + 1 =? idx end
             | S j => match l !! j with Some q => pmch_sf_alloc_end q + 1 =? idx | None => false end
             end then sig else pmch_data_mcs pm).
Proof.
  induction l as [|x l IH]; intros lo prev i pm Hs Hi fn idx Hlt Hle; [done|].
  inversion Hs as [|? ? ? Hper Hlo Hrest]; subst. cbn [find_pmch]. unfold fn_in_scheduling_period. fold fn idx.
  destruct i as [|i].
  - injection Hi as <-. rewrite (proj2 (Z.leb_le _ _) Hle). by destruct prev.
  - pose proof (Hlt O x ltac:(lia) eq_refl) as Hx. rewrite (proj2 (Z.leb_gt idx (pmch_sf_alloc_end x))) by lia.
    rewrite (IH _ (Some x) i pm Hrest Hi); [|intros j q Hj Hq; apply (Hlt (S j) q); [lia|done]|done].
    destruct i; done.
Qed.

(** C37: each PMCH gets its own subframes.  With growing ends of allocation and one
    scheduling period, a subframe whose index lies between the end of the PMCH before
    and the end of PMCH [i] is sent with the signalling scheme when it is the first one
    of that PMCH and with the data scheme of that PMCH otherwise. *)
Theorem pmch_partition sig tti per l i pm :
  pmch_sorted per 0 l -> per <> sp_nulltype -> l !! i = Some pm -> 0 <= tti -> is_cas tti = false ->
  let idx := sf_idx ((tti / 10) mod mch_sched_period_number per) (tti mod 10) in
  pmch_first l i <= idx <= pmch_sf_alloc_end pm ->
  find_pmch sig (tti / 10) (tti mod 10) None l = Some (if idx =? pmch_first l i then sig else pmch_data_mcs pm).
Proof.
  intros Hs Hp Hi Ht Hc idx Hidx.
  rewrite (find_pmch_spec sig (tti / 10) (tti mod 10) per l 0 None i pm Hs Hi); [|intros j q Hj Hq|fold idx; lia]; fold idx.
  - destruct i as [|j]; cbn [pmch_first].
    + set (fn := (tti / 10) mod mch_sched_period_number per) in *.
      assert (Hper : 0 < mch_sched_period_number per < 65536) by (clear; destruct per; cbn; lia).
      pose proof (Z.mod_pos_bound (tti / 10) _ (proj1 Hper)) as Hfn. fold fn in Hfn.
      pose proof (Z.mod_pos_bound tti 10 ltac:(lia)) as Hsf.
      assert (E : ((fn =? 0) && (tti mod 10 =? 1)) = (idx =? 0)); [|by rewrite E].
      apply Bool.eq_iff_eq_true. rewrite andb_true_iff, !Z.eqb_eq. unfold idx. rewrite sf_idx_small by lia.
      pose proof (Z.div_mod fn 4 ltac:(lia)). pose proof (Z.mod_pos_bound fn 4 ltac:(lia)). nia.
    + cbn [pmch_first] in Hidx. destruct (l !! j) as [q|] eqn:Ej; [by rewrite (Z.eqb_sym idx)|].
      apply lookup_ge_None in Ej. apply lookup_lt_Some in Hi. lia.
  - (* the entries before end earlier *)
    destruct i as [|i']; [lia|]. cbn [pmch_first] in Hidx.
    destruct (l !! i') as [q'|] eqn:Ei'; [|apply lookup_ge_None in Ei'; apply lookup_lt_Some in Hi; lia].
    assert (Hmono : forall k lo a b x y, pmch_sorted per lo k -> (a <= b)%nat -> k !! a = Some x -> k !! b = Some y ->
      pmch_sf_alloc_end x <= pmch_sf_alloc_end y).
    { clear. induction k as [|z k IH]; intros lo a b x y Hs Hab Hx Hy; [done|]. inversion Hs as [|? ? ? ? ? Hr]; subst.
      destruct a as [|a], b as [|b]; try lia.
      - injection Hx as <-. injection Hy as <-. lia.
      - injection Hx as <-. exact (pmch_sorted_end _ k _ b y Hr Hy).
      - eapply IH; [exact Hr| |exact Hx|exact Hy]. lia. }
    pose proof (Hmono l 0 j i' q q' Hs ltac:(lia) Hq Ei'). lia.
Qed.

Definition test_pmchs : list pmch_info_t := [mk_pmch 20 5 sp_rf8; mk_pmch 60 9 sp_rf8].

Lemma pmch_partition_witness :
  find_pmch 2 (333 / 10) (333 mod 10) None test_pmchs =
    Some (if sf_idx ((333 / 10) mod 8) (333 mod 10) =? pmch_first test_pmchs 0 then 2 else 5).
Proof.
  apply (pmch_partition 2 333 sp_rf8 test_pmchs 0 (mk_pmch 20 5 sp_rf8)).
  - repeat (constructor; [reflexivity|done|]). constructor.
  - discriminate.
  - reflexivity.
  - lia.
  - reflexivity.
  - vm_compute. split; congruence.
Defined.

(** ** The allocation bitmap *)

(** The six MBSFN subframes of a frame. *)
Definition mbsfn_positions : list nat := [1; 2; 3; 6; 7; 8]%nat.

Lemma bit_of_alloc a n i : 0 <= n -> 0 <= i < 6 ->
  bit_of (Z.land (Z.shiftr a n) 0x3F) i = b2z (Z.testbit a (n + i)).
Proof.
  intros Hn Hi. unfold bit_of. rewrite Z.shiftr_land, Z.shiftr_shiftr by lia. rewrite <- Z.land_assoc.
  assert (E : Z.land (Z.shiftr 0x3F i) 0x01 = 1).
  { assert (Hc : i = 0 \/ i = 1 \/ i = 2 \/ i = 3 \/ i = 4 \/ i = 5) by lia.
    destruct Hc as [-> | [-> | [-> | [-> | [-> | ->]]]]]; reflexivity. }
  rewrite E. change 1 with (Z.ones 1) at 1. rewrite Z.land_ones by lia. change (2 ^ 1) with 2.
  rewrite <- Z.bit0_mod, Z.shiftr_spec, Z.add_0_l by lia. replace (n + i) with (i + n) by lia.
  by destruct (Z.testbit a (i + n)).
Qed.

(** A table written at [off]: the entry of the [k]-th position of the frame. *)
Lemma frame_table_spec t off alloc : 0 <= off -> off + 10 <= zlen t ->
  exists t', generate_frame_table t off alloc = Some t' /\ zlen t' = zlen t /\
    (forall k p, mbsfn_positions !! k = Some p -> t' !! (Z.to_nat off + p)%nat = Some (bit_of alloc (5 - Z.of_nat k))) /\
    (forall q, (forall p, p ∈ mbsfn_positions -> q <> (Z.to_nat off + p)%nat) -> t' !! q = t !! q).
Proof.
  intros Ho Hl. unfold generate_frame_table, put_at.
  assert (Hput : forall (u : list Z) i, zlen u = zlen t -> 1 <= i <= 8 -> ((off + i <? 0) || (zlen u <=? off + i)) = false).
  { intros u i Hu Hi. apply orb_false_iff. split; [apply Z.ltb_ge|apply Z.leb_gt]; lia. }
  assert (Hlen : forall (u : list Z) i v, zlen (<[i := v]> u) = zlen u) by (intros; unfold zlen; by rewrite length_insert).
  repeat (rewrite Hput by (rewrite ?Hlen; lia); cbn [mbind option_bind]).
  eexists. split; [reflexivity|]. split; [by rewrite !Hlen|].
  assert (En : forall i, 0 <= i -> Z.to_nat (off + i) = (Z.to_nat off + Z.to_nat i)%nat) by (intros; lia).
  rewrite !En by lia.
  assert (Hlt : forall p, (p < 10)%nat -> (Z.to_nat off + p < length t)%nat) by (intros; unfold zlen in Hl; lia).
  split.
  - intros k p Hk. do 6 (destruct k as [|k];
      [injection Hk as <-; repeat (rewrite list_lookup_insert_ne by lia); apply list_lookup_insert_eq;
       rewrite ?length_insert; apply Hlt; lia|]). done.
  - intros q Hq. assert (Hn : forall p, p ∈ mbsfn_positions -> (Z.to_nat off + p)%nat <> q) by (intros p Hp E; by apply (Hq p)).
    repeat (rewrite list_lookup_insert_ne by (apply Hn, list_elem_of_In; vm_compute; tauto)).
    done.
Qed.

(** The table of MBSFN subframes is the allocation bitmap.  For the four-frame
    pattern the entries of the six MBSFN subframes of the four frames are the 24 bits
    of [sf_alloc], first subframe first, and no other entry changes. *)
Theorem mch_table_is_bitmap t sf_alloc : zlen t = 40 ->
  exists t', generate_mch_table t sf_alloc 4 = Some t' /\ zlen t' = 40 /\
    (forall f k p, (f < 4)%nat -> mbsfn_positions !! k = Some p ->
       t' !! (10 * f + p)%nat = Some (b2z (Z.testbit sf_alloc (23 - (6 * Z.of_nat f + Z.of_nat k))))) /\
    (forall q, (q mod 10)%nat ∉ mbsfn_positions -> t' !! q = t !! q).
Proof.
  intros Hl. unfold generate_mch_table. cbn [Z.eqb Pos.eqb].
  destruct (frame_table_spec t (0 * 10) (Z.land (Z.shiftr sf_alloc (6 * (3 - 0))) 0x3F)) as (t1 & -> & L1 & S1 & U1); [lia|lia|].
  cbn [mbind option_bind].
  destruct (frame_table_spec t1 (1 * 10) (Z.land (Z.shiftr sf_alloc (6 * (3 - 1))) 0x3F)) as (t2 & -> & L2 & S2 & U2); [lia|lia|].
  cbn [mbind option_bind].
  destruct (frame_table_spec t2 (2 * 10) (Z.land (Z.shiftr sf_alloc (6 * (3 - 2))) 0x3F)) as (t3 & -> & L3 & S3 & U3); [lia|lia|].
  cbn [mbind option_bind].
  destruct (frame_table_spec t3 (3 * 10) (Z.land (Z.shiftr sf_alloc (6 * (3 - 3))) 0x3F)) as (t4 & -> & L4 & S4 & U4); [lia|lia|].
  exists t4. split; [done|]. split; [lia|].
  assert (Hp : forall k p, mbsfn_positions !! k = Some p -> (p < 10)%nat /\ (k < 6)%nat).
  { intros k p Hk. do 6 (destruct k as [|k]; [injection Hk as <-; lia|]). done. }
  assert (Hpl : forall p, p ∈ mbsfn_positions -> (p < 10)%nat).
  { intros p Hin. apply list_elem_of_lookup in Hin as (k & Hk). by apply Hp in Hk as [? _]. }
  split.
  - intros f k p Hf Hk. destruct (Hp k p Hk) as [Hp10 Hk6].
    assert (Hc : f = 0%nat \/ f = 1%nat \/ f = 2%nat \/ f = 3%nat) by lia.
    destruct Hc as [-> | [-> | [-> | ->]]].
    + rewrite U4, U3, U2 by (intros p' Hp'%Hpl; lia). specialize (S1 k p Hk). rewrite bit_of_alloc in S1 by lia.
      etrans; [|etrans; [exact S1|]]; [f_equal|do 3 f_equal; lia].
    + rewrite U4, U3 by (intros p' Hp'%Hpl; lia). specialize (S2 k p Hk). rewrite bit_of_alloc in S2 by lia.
      etrans; [|etrans; [exact S2|]]; [f_equal|do 3 f_equal; lia].
    + rewrite U4 by (intros p' Hp'%Hpl; lia). specialize (S3 k p Hk). rewrite bit_of_alloc in S3 by lia.
      etrans; [|etrans; [exact S3|]]; [f_equal|do 3 f_equal; lia].
    + specialize (S4 k p Hk). rewrite bit_of_alloc in S4 by lia.
      etrans; [|etrans; [exact S4|]]; [f_equal|do 3 f_equal; lia].
  - intros q Hq.
    assert (Hno : forall off, forall p, p ∈ mbsfn_positions -> q <> (10 * off + p)%nat).
    { intros off p Hin ->. apply Hq. replace ((10 * off + p) mod 10)%nat with p; [done|].
      pose proof (Hpl p Hin). rewrite Nat.add_comm, Nat.mul_comm, Nat.Div0.mod_add. symmetry. apply Nat.mod_small. lia. }
    rewrite U4, U3, U2, U1; [done|..]; intros p Hin.
    + exact (Hno 0%nat p Hin).
    + exact (Hno 1%nat p Hin).
    + exact (Hno 2%nat p Hin).
    + exact (Hno 3%nat p Hin).
Qed.

Lemma mch_table_is_bitmap_witness :
  exists t', generate_mch_table (repeat 0 40) 0xF0F0F0 4 = Some t' /\ zlen t' = 40 /\
    (forall f k p, (f < 4)%nat -> mbsfn_positions !! k = Some p ->
       t' !! (10 * f + p)%nat = Some (b2z (Z.testbit 0xF0F0F0 (23 - (6 * Z.of_nat f + Z.of_nat k))))) /\
    (forall q, (q mod 10)%nat ∉ mbsfn_positions -> t' !! q = repeat 0 40 !! q).
Proof. apply (mch_table_is_bitmap (repeat 0 40) 0xF0F0F0). reflexivity. Defined.

(** ** Configurations that the code does not handle *)

Definition test_phy (rep : repeat_period_t) : phy_common :=
  mk_phy (mk_phy_cfg (mk_sf_cfg ap_n1 0 one_frame 0x3F) (mk_area_info 1 s2 khz_1dot25 (mk_mcch_cfg rep 0 0x20 mcs_n2))
            [mk_pmch 60 20 sp_rf8])
    true true (repeat 0 40) [0; 1; 0; 0; 0; 0; 0; 0; 0; 0] false 0.

(** The longest MCCH repetition period divides by zero.  The period of 256 frames
    is stored in an 8-bit variable and becomes 0, so that the remainder by it is
    undefined in every subframe that is not an acquisition subframe. *)
Theorem mcch_period_256_fails p cfg tti :
  sib13_configured p = true -> mcch_repeat_period (mcch_cfg (mbsfn_area_info (mbsfn p))) = rp_rf256 ->
  is_cas tti = false -> is_mch_subframe p cfg tti = None.
Proof. intros H1 H2 H3. unfold is_mch_subframe, is_mcch_subframe. rewrite H1, H2, H3. done. Qed.

Lemma mcch_period_256_fails_witness : is_mch_subframe (test_phy rp_rf256) (mk_mbsfn_cfg 0 0 0 false false scs_unset) 3 = None.
Proof. apply mcch_period_256_fails; reflexivity. Defined.

(** The PHY and the MAC can disagree about the scheme of a subframe.  With an
    MCCH every 32 frames and a scheduling period of 8 frames, the first subframe of the
    second period (TTI 81) is not an MCCH subframe, for which MAC builds a PDU of the
    data scheme's size, but the PHY sends it with the signalling scheme (2 instead of
    20). *)
Theorem phy_mac_scheme_mismatch :
  match is_mch_subframe (test_phy rp_rf32) (mk_mbsfn_cfg 0 0 0 false false scs_unset) 81 with
  | Some (r, cfg, _) => r = true /\ cfg_enable cfg = true /\ cfg_is_mcch cfg = false /\ cfg_mcs cfg = 2
  | None => False
  end /\ map pmch_data_mcs (pmch_info_list (mbsfn (test_phy rp_rf32))) = [20].
Proof. vm_compute. repeat split. Qed.

(** The extended MCCH table has an entry 10, which a table of ten entries has not. *)
Lemma mcch_table_r16_overflows t alloc : zlen t = 10 -> generate_mcch_table_r16 t alloc = None.
Proof.
  intros H. unfold generate_mcch_table_r16. change (seqZ 0 9) with (0 :: seqZ 1 8). cbn [foldl mbind option_bind].
  unfold put_at at 2. change (10 - 0) with 10. rewrite H. cbn [Z.ltb Z.leb Z.compare orb Pos.compare Pos.compare_cont].
  generalize (seqZ 1 8). intros l. induction l as [|x l IH]; [done|exact IH].
Qed.
