(* ===== verification/Rlc.v ===== *)
(** * The RLC layer: multicast bearers

    The multicast part of [lib/src/rlc/rlc.cc]: the map from a multicast channel and a
    logical channel to its UM entity, the operations of PDCP and MAC on it, and the
    buffer state reports that the operations cause.  Multicast bearers are kept in
    [rlc_array_mrb]; the unicast bearers ([rlc_array]) are not part of this file.

    An operation returns the reports [(lcid, tx_queue)] it made through the BSR
    callback.  [None] is an access outside of a buffer inside an entity. *)

From stdpp Require Import base list gmap numbers.
From S2P Require Import Prelude ByteBuffer CircularBuffer RlcUmHeader RlcUmTx RlcUmRx RlcUm MacMch.

Local Open Scope Z_scope.

Definition SRSRAN_N_MCH_LCIDS : Z := 32.

(** [pool_block] is a block that the buffer pool hands out; its contents are left over
    from earlier use. *)
Record rlc (Q : Type) := mk_rlc {
  rlc_array_mrb : gmap Z (gmap Z (rlc_um Q));
  has_bsr_callback : bool;
  pool_block : bytes
}.
Arguments mk_rlc {Q}.
Arguments rlc_array_mrb {Q}.
Arguments has_bsr_callback {Q}.
Arguments pool_block {Q}.

Section Rlc.
Context {Q : Type} `{SduQueue Q}.
Implicit Types r : rlc Q.

Definition rlc_new (cb : bool) (block : bytes) : rlc Q := mk_rlc ∅ cb block.

(** The entity of a bearer; the keys of the maps are 16-bit numbers. *)
Definition mrb r (mch_idx lcid : Z) : option (rlc_um Q) :=
  m ← rlc_array_mrb r !! u16 mch_idx; m !! u16 lcid.

Definition set_mrb r (mch_idx lcid : Z) (e : rlc_um Q) : rlc Q :=
  mk_rlc (alter (fun m => <[u16 lcid := e]> m) (u16 mch_idx) (rlc_array_mrb r)) (has_bsr_callback r) (pool_block r).

Definition valid_lcid_mrb r (mch_idx lcid : Z) : bool :=
  if SRSRAN_N_MCH_LCIDS <=? lcid then false
  else match rlc_array_mrb r !! u16 mch_idx with
       | None => false
       | Some m => match m !! u16 lcid with None => false | Some _ => true end
       end.

Definition has_bearer_mrb r (mch_idx lcid : Z) : bool := valid_lcid_mrb r mch_idx lcid.

(** [get_total_mch_buffer_state]: the value and the report made by the entity's
    transmitter, which every entity of this object has been given the callback of. *)
Definition get_total_mch_buffer_state r (lcid mch_idx : Z) : Z * list (Z * Z) :=
  if valid_lcid_mrb r mch_idx lcid then
    match mrb r mch_idx lcid with
    | Some e => (rlc_um_get_buffer_state e,
                 match um_the_tx e with
                 | Some _ => if has_bsr_callback r then [(lcid, rlc_um_get_buffer_state e)] else []
                 | None => []
                 end)
    | None => (0, [])
    end
  else (0, []).

Definition update_bsr_mch r (lcid : Z) : list (Z * Z) :=
  if has_bsr_callback r then snd (get_total_mch_buffer_state r lcid 0) else [].

(** [add_bearer_mrb]: 0 is success, -1 is an error; [resized n] is a new queue of [n]
    places. *)
Definition add_bearer_mrb r (mch_idx lcid : Z) (resized : Z -> Q) : Z * rlc Q :=
  let a := match rlc_array_mrb r !! u16 mch_idx with
           | None => <[u16 mch_idx := ∅]> (rlc_array_mrb r)
           | Some _ => rlc_array_mrb r
           end in
  let r1 := mk_rlc a (has_bsr_callback r) (pool_block r) in
  if negb (valid_lcid_mrb r1 mch_idx lcid) then
    let '(ok, e) := rlc_um_configure mch_config resized rlc_um_new in
    if negb ok then (-1, r1)
    else match mrb r1 mch_idx lcid with
         | Some _ => (-1, r1)
         | None => (0, set_mrb r1 mch_idx lcid e)
         end
  else (0, r1).

Definition del_bearer_mrb r (mch_idx lcid : Z) : option (rlc Q) :=
  if valid_lcid_mrb r mch_idx lcid then
    e ← mrb r mch_idx lcid;
    _ ← rlc_um_stop e;
    Some (mk_rlc (alter (fun m => delete (u16 lcid) m) (u16 mch_idx) (rlc_array_mrb r)) (has_bsr_callback r) (pool_block r))
  else Some r.

Definition stop_mch r (mch_idx lcid : Z) : option (rlc Q) :=
  if valid_lcid_mrb r mch_idx lcid then
    e ← mrb r mch_idx lcid; e' ← rlc_um_stop e; Some (set_mrb r mch_idx lcid e')
  else Some r.

(** [write_sdu_mch]: unlike [write_sdu] it has no limit on the size of the SDU. *)
Definition write_sdu_mch r (lcid : Z) (sdu : bytes) : option (list (Z * Z) * rlc Q) :=
  if valid_lcid_mrb r 0 lcid then
    e ← mrb r 0 lcid;
    e' ← rlc_um_write_sdu e sdu;
    let r' := set_mrb r 0 lcid e' in
    Some (update_bsr_mch r' lcid, r')
  else Some ([], r).

(** [read_pdu_mch]: the value, the bytes written, the reports. *)
Definition read_pdu_mch r (lcid nof_bytes : Z) : option (Z * bytes * list (Z * Z) * rlc Q) :=
  if valid_lcid_mrb r 0 lcid then
    e ← mrb r 0 lcid;
    '(out, e') ← rlc_um_read_pdu e (pool_block r) nof_bytes;
    let r' := set_mrb r 0 lcid e' in
    Some (zlen out, out, update_bsr_mch r' lcid, r')
  else Some (0, [], [], r).

Definition write_pdu_mch r (mch_idx lcid : Z) (payload : bytes) : option (rlc Q) :=
  if valid_lcid_mrb r mch_idx lcid then
    e ← mrb r mch_idx lcid;
    e' ← rlc_um_write_pdu e payload;
    Some (set_mrb r mch_idx lcid e')
  else Some r.

(** The interface that the MCH scheduler uses. *)
#[export] Instance rlc_mch_rlc : MchRlc (rlc Q) := { mch_read_pdu := read_pdu_mch }.
End Rlc.

(** ** The maps *)

Section RlcProofs.
Context {Q : Type} `{SduQueueLaws Q}.
Implicit Types r : rlc Q.

Lemma valid_mrb r i lc : valid_lcid_mrb r i lc = true <-> lc < SRSRAN_N_MCH_LCIDS /\ exists e, mrb r i lc = Some e.
Proof.
  unfold valid_lcid_mrb, mrb, SRSRAN_N_MCH_LCIDS. destruct (Z.leb_spec 32 lc).
  - split; [done|lia].
  - destruct (rlc_array_mrb r !! u16 i) as [m|]; cbn [mbind option_bind].
    + destruct (m !! u16 lc) as [e|]; split; try done; [intros _; split; [lia|by exists e]|intros [_ [e He]]; done].
    + split; [done|]. intros [_ [e He]]. done.
Qed.

Lemma mrb_set r i lc e e0 : mrb r i lc = Some e0 -> mrb (set_mrb r i lc e) i lc = Some e.
Proof.
  unfold mrb, set_mrb. cbn [rlc_array_mrb]. rewrite lookup_alter_eq.
  destruct (rlc_array_mrb r !! u16 i) as [m|]; [|done]. intros _. cbn. apply lookup_insert_eq.
Qed.

Lemma mrb_set_ne r i lc e j lc' : u16 i <> u16 j \/ u16 lc <> u16 lc' -> mrb (set_mrb r i lc e) j lc' = mrb r j lc'.
Proof.
  unfold mrb, set_mrb. cbn [rlc_array_mrb]. intros Hne. destruct (decide (u16 i = u16 j)) as [E|E].
  - rewrite <- E, lookup_alter_eq. destruct (rlc_array_mrb r !! u16 i) as [m|]; [|done]. cbn.
    rewrite lookup_insert_ne; [done|]. destruct Hne; [done|congruence].
  - by rewrite lookup_alter_ne.
Qed.

Lemma set_mrb_frame r i lc e : has_bsr_callback (set_mrb r i lc e) = has_bsr_callback r /\ pool_block (set_mrb r i lc e) = pool_block r.
Proof. done. Qed.

(** A report has the channel of its bearer and the entity's buffer state. *)
Lemma update_bsr_mch_spec r lc e tx : lc < SRSRAN_N_MCH_LCIDS -> mrb r 0 lc = Some e -> um_the_tx e = Some tx ->
  update_bsr_mch r lc = if has_bsr_callback r then [(lc, rlc_um_get_buffer_state e)] else [].
Proof.
  intros Hlc He Ht. unfold update_bsr_mch, get_total_mch_buffer_state.
  assert (Hv : valid_lcid_mrb r 0 lc = true) by (apply valid_mrb; split; [done|by exists e]).
  rewrite Hv, He, Ht. by destruct (has_bsr_callback r).
Qed.

(** The size that a read returns is the size of what it wrote and is within the
    request, for entities in use. *)
Definition mrb_ok (e : rlc_um Q) : Prop :=
  forall tx, um_the_tx e = Some tx -> exists cap l, um_tx_ok tx cap l.

Lemma read_pdu_ok e mem n : mrb_ok e -> zlen mem = SRSRAN_MAX_BUFFER_SIZE_BYTES -> 0 <= n ->
  exists out e', rlc_um_read_pdu e mem n = Some (out, e') /\ zlen out <= n /\ mrb_ok e'.
Proof.
  intros Hok Hm Hn. unfold rlc_um_read_pdu. destruct (um_the_tx e) as [tx|] eqn:Et; [|by exists [], e].
  destruct (Hok tx Et) as (cap & l & Htx). destruct (tx_enabled e); [|by exists [], e].
  assert (Hset : forall tx' cap' l' m, um_tx_ok tx' cap' l' -> mrb_ok (set_metrics (set_tx e tx') m)).
  { intros tx' cap' l' m Hx tx0 [= <-]. by exists cap', l'. }
  assert (Hset' : forall tx' cap' l', um_tx_ok tx' cap' l' -> mrb_ok (set_tx e tx')).
  { intros tx' cap' l' Hx tx0 [= <-]. by exists cap', l'. }
  destruct (decide (pending tx l = [] \/ n <= hdr_len tx [] + 1)) as [E|E].
  - rewrite (build_data_pdu_nothing tx cap l mem n (uto_rep _ _ _ Htx) Hm E). cbn [mbind option_bind].
    eexists [], _. split; [reflexivity|]. split; [done|]. cbn [Z.ltb zlen length Z.compare]. by eapply Hset'.
  - destruct (build_data_pdu_spec tx cap l mem n Htx Hm) as (out & tx' & l' & segs & whole & -> & Hb & Htx' & Hsz & _); [tauto|lia|].
    cbn [mbind option_bind]. eexists out, _. split; [reflexivity|]. split; [lia|].
    destruct (0 <? zlen out); [by eapply Hset|by eapply Hset'].
Qed.

(** All bearers are in a good state. *)
Record rlc_ok r : Prop := {
  ro_block : zlen (pool_block r) = SRSRAN_MAX_BUFFER_SIZE_BYTES;
  ro_mrbs : forall i lc e, mrb r i lc = Some e -> mrb_ok e
}.

Lemma set_mrb_ok r i lc e : rlc_ok r -> mrb_ok e -> rlc_ok (set_mrb r i lc e).
Proof.
  intros [Hb Hm] He. constructor; [done|]. intros j lc' e' Hl.
  destruct (decide (u16 i = u16 j)) as [E1|E1]; [destruct (decide (u16 lc = u16 lc')) as [E2|E2]|].
  - assert (Hl' : mrb (set_mrb r i lc e) i lc = Some e') by (unfold mrb in *; by rewrite E1, E2).
    destruct (mrb r i lc) as [e0|] eqn:E0.
    + rewrite (mrb_set r i lc e e0 E0) in Hl'. by injection Hl' as <-.
    + revert Hl'. unfold mrb, set_mrb in *. cbn [rlc_array_mrb]. rewrite lookup_alter_eq.
      destruct (rlc_array_mrb r !! u16 i) as [m|]; [|done]. cbn. rewrite lookup_insert_eq. by intros [= <-].
  - rewrite mrb_set_ne in Hl by tauto. by eapply Hm.
  - rewrite mrb_set_ne in Hl by tauto. by eapply Hm.
Qed.

(** The MCH scheduler's requirements hold for RLC. *)
#[export] Instance rlc_mch_laws : MchRlcLaws (rlc Q).
Proof.
  refine {| mch_rlc_ok := rlc_ok |}.
  - intros r lc n [Hb Hm] Hn. cbn [mch_read_pdu rlc_mch_rlc]. unfold read_pdu_mch.
    destruct (valid_lcid_mrb r 0 lc) eqn:Ev; [|by do 4 eexists]. apply valid_mrb in Ev as [_ [e He]]. rewrite He. cbn [mbind option_bind].
    destruct (read_pdu_ok e (pool_block r) n (Hm _ _ _ He) Hb Hn) as (out & e' & -> & _). cbn [mbind option_bind]. by do 4 eexists.
  - intros r lc n z d reps r' Hok Hn. cbn [mch_read_pdu rlc_mch_rlc]. unfold read_pdu_mch.
    destruct (valid_lcid_mrb r 0 lc) eqn:Ev; [|by intros [= <- <- <- <-]]. apply valid_mrb in Ev as [_ [e He]].
    rewrite He. cbn [mbind option_bind].
    destruct (read_pdu_ok e (pool_block r) n (ro_mrbs _ Hok _ _ _ He) (ro_block _ Hok) Hn) as (out & e' & -> & Hsz & Hok').
    cbn [mbind option_bind]. intros [= <- <- <- <-]. split_and!; [done|done|]. by apply set_mrb_ok.
Defined.
End RlcProofs.
