(* ===== verification/Broadcast.v ===== *)
(** * The broadcast path from RLC to RLC

    The eNodeB's RLC ([Rlc]) and MCH scheduler ([MacMch]) connected to a receiver:
    [demux::process_pdu] and [demux::process_mch_pdu] of
    [srsue/src/stack/mac/demux.cc] with its own RLC.  The step relation [bstep] lets
    PDCP write SDUs, the PHY ask for data subframes and for MCCH subframes in any
    order; the main theorem says that the SDUs delivered to the receiver are those the
    sender's queue took, in order and unchanged.

    The receiver frees the buffer of an MCH PDU before it reads the SDUs out of it; the
    model reads what the buffer held, as if nobody reused it in between. *)

From stdpp Require Import base list gmap numbers relations.
From S2P Require Import Prelude ByteBuffer CircularBuffer RlcUmHeader RlcUmTx RlcUmRx RlcUm.
From S2P Require Import MacPdu MacPduWire MacPduCorrect Float32 MacMch Rlc.

Local Open Scope Z_scope.

(** ** The receiver's demultiplexer *)

Record demux := mk_demux { mch_lcids : list Z; mch_mac_msg : sch_pdu }.

Definition demux_new : demux :=
  mk_demux (repeat 0 32) (mk_pdu (repeat (subh_new SCH_SUBH_TYPE) 20) 0 0 (-1) 0 false (byte_buffer_new []) (-1)).

Definition mch_start_rx (d : demux) (lcid : Z) : demux :=
  if lcid <? 32 then mk_demux (<[Z.to_nat lcid := 1]> (mch_lcids d)) (mch_mac_msg d) else d.

Section Demux.
Context {Q : Type} `{SduQueue Q}.

(** One turn of the loop of [process_mch_pdu] on the subheader [s]; the flag says
    whether the loop goes on.  [mem] is the memory from the PDU on. *)
Definition process_mch_subh (d : demux) (mem : bytes) (x : rlc Q) (s : sch_subh) : option (bool * rlc Q) :=
  _ ← (if MCH_SCHED_INFO =? mch_ce_type s then get_next_mch_sched_info s mem else Some (None, s));
  if is_sdu s then
    if SRSRAN_N_MCH_LCIDS <=? lcid s then Some (false, x)
    else
      v ← mch_lcids d !! Z.to_nat (lcid s);
      if v =? 1 then
        off ← payload s;
        pay ← load_bytes mem off (get_payload_size s);
        x' ← write_pdu_mch x 0 (lcid s) pay;
        Some (true, x')
      else Some (true, x)
  else Some (true, x).

Fixpoint process_mch_subhs (d : demux) (mem : bytes) (x : rlc Q) (l : list sch_subh) : option (rlc Q) :=
  match l with
  | [] => Some x
  | s :: l' =>
      '(go, x') ← process_mch_subh d mem x s;
      if (go : bool) then process_mch_subhs d mem x' l' else Some x'
  end.

(** [process_pdu] of an MCH PDU of [nof_bytes] bytes. *)
Definition process_mch_pdu (d : demux) (mem : bytes) (nof_bytes : Z) (x : rlc Q) : option (demux * rlc Q) :=
  let p0 := pdu_init MCH_SUBH_TYPE (mch_mac_msg d) (buffer_tx (mch_mac_msg d)) nof_bytes false in
  p1 ← parse_packet MCH_SUBH_TYPE p0 mem;
  x' ← process_mch_subhs d mem x (ztake (nof_subheaders p1) (subheaders p1));
  Some (mk_demux (mch_lcids d) p1, x').

(** ** The system *)

(** [b_accepted] records the SDUs that the sender's queue took. *)
Record bsys := mk_bsys {
  b_mac : mac;
  b_tx : rlc Q;
  b_demux : demux;
  b_rx : rlc Q;
  b_accepted : list bytes
}.

(** The SDU is taken unless the bearer's queue is full. *)
Definition takes (r : rlc Q) (lc : Z) (s : bytes) : list bytes :=
  match mrb r 0 lc with Some a => link_accepts a (LWrite s) | None => [] end.

(** PDCP writes an SDU. *)
Definition write_op (st : bsys) (lc : Z) (s : bytes) : option bsys :=
  '(reps, r') ← write_sdu_mch (b_tx st) lc s;
  m' ← apply_reports (b_mac st) reps;
  Some (mk_bsys m' r' (b_demux st) (b_rx st) (b_accepted st ++ takes (b_tx st) lc s)).

(** A data subframe; [junk] is what follows the PDU in the receiver's memory. *)
Definition data_op (st : bsys) (tti tbs : Z) (junk : bytes) : option bsys :=
  '(res, m', r') ← mtch_subframe (b_mac st) (b_tx st) tti tbs;
  match res_data res with
  | data_ptr b =>
      wire ← contents b;
      '(d', x') ← process_mch_pdu (b_demux st) (wire ++ junk) (zlen wire) (b_rx st);
      Some (mk_bsys m' r' d' x' (b_accepted st))
  | _ => Some (mk_bsys m' r' (b_demux st) (b_rx st) (b_accepted st))
  end.

(** A data block of 24 to 48959 bits (3 to 6119 bytes). *)
Definition block_ok (tbs : Z) : Prop := 24 <= tbs < 48960.

(** What happens: PDCP writes an SDU for the session's channel [lc], whose queue has
    [cap] places, a data subframe, an MCCH subframe, in which the schedule is made
    anew. *)
Inductive bstep (lc : Z) (cap : nat) : bsys -> bsys -> Prop :=
| bstep_write st s st' : queue_sdu cap s -> write_op st lc s = Some st' -> bstep lc cap st st'
| bstep_data st tti tbs junk st' : block_ok tbs -> data_op st tti tbs junk = Some st' -> bstep lc cap st st'
| bstep_mcch st tti mcch_tbs data_tbs res m' :
    mcch_subframe (b_mac st) tti mcch_tbs data_tbs = Some (res, m') ->
    bstep lc cap st (mk_bsys m' (b_tx st) (b_demux st) (b_rx st) (b_accepted st)).
End Demux.

Arguments bsys Q : clear implicits.

(** ** The receiver reads what was sent *)

(** Padding and one SDU: exactly the SDU reaches RLC. *)
Lemma process_padding {Q} `{SduQueue Q} d mem (x : rlc Q) l : forall es,
  decode_all mem l = Some es -> useful es = [] -> Forall (fun s => stype s = MCH_SUBH_TYPE) l ->
  process_mch_subhs d mem x l = Some x.
Proof.
  induction l as [|s l IH]; intros es; [done|]. cbn [decode_all process_mch_subhs].
  destruct (decode_subh mem s) as [e|] eqn:E; [|done]. cbn [mbind option_bind].
  destruct (decode_all mem l) as [es'|]; [|done]. cbn [mbind option_bind]. intros [= <-] Hu [Ht Hts]%Forall_cons_1.
  unfold useful in Hu. rewrite filter_cons in Hu. case_decide as Hp; [done|].
  assert (Hlc : lcid s = PADDING).
  { unfold decode_subh in E. destruct (payload s); [|done]. cbn [mbind option_bind] in E.
    destruct (load_bytes _ _ _); [|done]. injection E as <-. cbn [fst] in Hp. lia. }
  unfold process_mch_subh, is_sdu, mch_ce_type. rewrite Hlc, Ht. cbn [mbind option_bind].
  by apply (IH es').
Qed.

Lemma process_one {Q} `{SduQueue Q} d mem (x : rlc Q) lc pay l : forall es,
  decode_all mem l = Some es -> useful es = [(lc, pay)] -> Forall (fun s => stype s = MCH_SUBH_TYPE) l ->
  1 <= lc <= MTCH_MAX_LCID -> mch_lcids d !! Z.to_nat lc = Some 1 -> zlen pay < 2 ^ 31 ->
  process_mch_subhs d mem x l = write_pdu_mch x 0 lc pay.
Proof.
  induction l as [|s l IH]; intros es; cbn [decode_all process_mch_subhs]; [by intros [= <-]|].
  destruct (decode_subh mem s) as [e|] eqn:E; [|done]. cbn [mbind option_bind].
  destruct (decode_all mem l) as [es'|] eqn:E'; [|done]. cbn [mbind option_bind].
  intros [= <-] Hu [Ht Hts]%Forall_cons_1 Hlc Hd Hz.
  unfold decode_subh in E. destruct (payload s) as [off|] eqn:Eo; [|done]. cbn [mbind option_bind] in E.
  destruct (load_bytes mem off (nof_bytes s)) as [pd|] eqn:El; [|done]. cbn [mbind option_bind] in E. injection E as <-.
  unfold process_mch_subh, is_sdu, mch_ce_type. rewrite Ht. cbn [lcid_is_sdu].
  unfold useful in Hu. rewrite filter_cons in Hu. case_decide as Hp; cbn [fst] in Hp.
  - injection Hu as E1 E2 Hu. unfold MTCH_MAX_LCID, mch_is_mac_ce, mch_is_sdu, MCH_SCHED_INFO, SRSRAN_N_MCH_LCIDS in *.
    rewrite E1 in *. destruct (Z.leb_spec 30 lc); [lia|]. destruct (Z.ltb_spec lc 30); [|lia]. destruct (Z.leb_spec 32 lc); [lia|].
    cbn [Z.eqb mbind option_bind]. rewrite Hd. cbn [mbind option_bind Z.eqb Pos.eqb]. rewrite Eo. cbn [mbind option_bind].
    apply load_bytes_inv in El as Hi. unfold get_payload_size. subst pd.
    assert (Hn : u32 (nof_bytes s) = nof_bytes s) by (apply u32_id; unfold is_u32; lia).
    rewrite Hn, El. cbn [mbind option_bind]. destruct (write_pdu_mch x 0 lc pay) as [x'|]; [|done]. cbn [mbind option_bind].
    eapply process_padding; [exact E'|exact Hu|exact Hts].
  - assert (Hpad : lcid s = PADDING) by lia. rewrite Hpad. cbn [mbind option_bind]. by apply (IH es').
Qed.

(** ** One session *)

(** The scheduler serves the session of channel [lc], for which RLC announced [size]
    bytes; its last subframe is [stop] and the next one is [cur]. *)
Record session_inv (lc size stop cur : Z) (m : mac) : Prop := {
  si_wf : mac_wf m;
  si_num : num_mtch_sched (the_mch m) = 1;
  si_first : exists ptr rest, mtch_sched (the_mch m) = mk_mtch_sched lc size stop ptr :: rest;
  si_cur : current_sf_allocation_num (the_mch m) = cur;
  si_size : 0 <= size < 2 ^ 23
}.

Lemma session_of lc size stop cur m : session_inv lc size stop cur m -> exists ptr rest,
  mtch_sched (the_mch m) = mk_mtch_sched lc size stop ptr :: rest /\
  sessions (the_mch m) = Some [mk_mtch_sched lc size stop ptr].
Proof.
  intros [Hwf Hn (ptr & rest & E) _ _]. exists ptr, rest. split; [done|].
  unfold sessions. rewrite Hn, (mw_sched _ Hwf), E. done.
Qed.

Lemma session_report lc size stop cur m n : session_inv lc size stop cur m -> 0 <= n < 2 ^ 23 ->
  exists m', apply_reports m [(lc, n)] = Some m' /\ session_inv lc n stop cur m'.
Proof.
  intros Hs Hn. destruct (session_of _ _ _ _ m Hs) as (ptr & rest & E & Hl).
  destruct (rlc_buffer_state_wf m lc n (si_wf _ _ _ _ _ Hs)) as (m' & Hb & Hwf' & _ & _ & _ & Hnum). exists m'.
  cbn [apply_reports]. rewrite Hb. split; [done|].
  unfold rlc_buffer_state in Hb. destruct (mw_ue _ (si_wf _ _ _ _ _ Hs)) as (u & Hu & _). rewrite Hu, Hl in Hb. cbn [mbind option_bind] in Hb.
  destruct Hs. injection Hb as <-. constructor; try done.
  cbn [the_mch set_mch put_sessions set_mtch_sched mtch_sched map app mtch_lcid]. rewrite Z.eqb_refl. by do 2 eexists.
Qed.

(** The MCCH subframe keeps the announced size and starts the period; without overload
    the stop is the least number of subframes that hold the data. *)
Lemma session_mcch lc size stop cur m tti mcch_tbs data_tbs res m' : session_inv lc size stop cur m ->
  mcch_subframe m tti mcch_tbs data_tbs = Some (res, m') ->
  exists stop', session_inv lc size stop' 1 m' /\ res_period_stop res = Some stop' /\
    (0 < data_tbs / 8 - 6 < 2 ^ 24 -> size < sf_alloc_end m * (data_tbs / 8 - 6) -> stop' = ceil_div size (data_tbs / 8 - 6)).
Proof.
  intros Hs. destruct (session_of _ _ _ _ m Hs) as (ptr & rest & E & Hl). unfold mcch_subframe.
  destruct (build_mch_sched m data_tbs) as [m1|] eqn:Eb; [|done]. cbn [mbind option_bind].
  destruct (build_mch_sched_wf m data_tbs m1 (si_wf _ _ _ _ _ Hs) Eb) as (Hwf1 & Hnum & _).
  rewrite (si_num _ _ _ _ _ Hs) in Hnum. pose proof (si_size _ _ _ _ _ Hs) as Hsz.
  assert (H1 : exists stop', mtch_sched (the_mch m1) = mk_mtch_sched lc size stop' ptr :: rest /\
    (0 < data_tbs / 8 - 6 < 2 ^ 24 -> size < sf_alloc_end m * (data_tbs / 8 - 6) -> stop' = ceil_div size (data_tbs / 8 - 6))).
  { unfold build_mch_sched in Eb. rewrite Hl in Eb. cbn [mbind option_bind assign_stops] in Eb.
    change (total_bytes_to_tx [mk_mtch_sched lc size stop ptr]) with (i32 size) in Eb. rewrite (i32_id size) in Eb by lia.
    destruct (_ (mk_mtch_sched lc size stop ptr)) as [k|] eqn:Ek in Eb; [|done]. cbn [mbind option_bind] in Eb. injection Eb as <-.
    cbn [the_mch set_mch put_sessions set_mtch_sched mtch_sched app]. rewrite E. exists (u32 (0 + k)). split; [reflexivity|]. intros Hb Hroom.
    rewrite (i32_id (data_tbs / 8 - 6)) in Ek by lia.
    destruct (Z.leb_spec (sf_alloc_end m * (data_tbs / 8 - 6)) size); [lia|]. rewrite andb_false_r in Ek.
    rewrite needed_sfs_spec in Ek by (cbn [lcid_buffer_size]; lia). injection Ek as <-. cbn [lcid_buffer_size].
    pose proof (ceil_div_bounds size (data_tbs / 8 - 6) ltac:(lia) ltac:(lia)). apply u32_id. unfold is_u32. lia. }
  destruct H1 as (stop' & E1 & Hstop). rewrite Hnum, E1. change (at_ (_ :: rest) (u32 (1 - 1))) with (Some (mk_mtch_sched lc size stop' ptr)).
  cbn [mbind option_bind]. pose proof Hwf1 as [W1 W2 W3 W4 W5 W6 (u & Hu & Hue)].
  rewrite W1. cbn [Z.leb Z.compare Pos.compare Pos.compare_cont mrnti_ue set_mch]. rewrite Hu. cbn [mbind option_bind].
  destruct (generate_mch_pdu u _ _ _ _ _ _) as [[ok u']|] eqn:Eg; [|done]. cbn [mbind option_bind].
  destruct (pdu_data ok u' _) as [d|]; [|done]. cbn [mbind option_bind]. intros [= <- <-].
  exists stop'. split; [|done]. constructor; [|done|by do 2 eexists|done|lia]. constructor; try done.
  - destruct (mch_pdus (the_mch m1)) as [|x l] eqn:Ep; [done|]. cbn [the_mch set_ue set_mch mch_pdus].
    change (repeat MCH_SCHED_INFO (Z.to_nat 1)) with [MCH_SCHED_INFO]. cbn [zip_with app].
    rewrite !zlen_cons in *. rewrite zlen_zdrop; rewrite ?zlen_cons; pose proof (zlen_nonneg l); lia.
  - cbn [the_mch set_ue set_mch mtch_sched]. by rewrite <- E1.
  - exists u'. split; [done|]. by eapply generate_mch_pdu_wf.
Qed.

Lemma bump_session lc size stop cur m : session_inv lc size stop cur m -> session_inv lc size stop (u32 (cur + 1)) (bump m).
Proof. intros [[] Hn Hf Hc Hz]. constructor; [by constructor|done|done| |done]. cbn. by rewrite Hc. Qed.

Lemma set_ue_session lc size stop cur m u : session_inv lc size stop cur m -> ue_wf u -> session_inv lc size stop cur (set_ue m u).
Proof. intros [[] Hn Hf Hc Hz] Hu. constructor; [|done..]. constructor; try done. by exists u. Qed.

(** ** The whole path *)

Section Path.
Context {Q : Type} `{SduQueueLaws Q} (lc : Z) (cap : nat).
Hypothesis Hlc : 1 <= lc <= MTCH_MAX_LCID.
Hypothesis Hcap : Z.of_nat cap <= tx_queue_length mch_config.

Lemma mch_cfg_ok : link_cfg_ok mch_config cap.
Proof. constructor; [split; reflexivity|reflexivity|reflexivity|exact Hcap]. Qed.

(** The state of the two bearers: entities [a] and [b] of a link, the transmitter
    with [l] queued, the receiver with the part [p] of an SDU; the scheduler knows the
    transmitter's buffer state. *)
Record binv (st : bsys Q) (a b : rlc_um Q) (tx : um_tx Q) (rx : um_rx) (l : list bytes) (p : bytes) (stop cur : Z) : Prop := {
  bi_session : session_inv lc (um_get_buffer_state tx) stop cur (b_mac st);
  bi_rlc : rlc_ok (b_tx st);
  bi_callback : has_bsr_callback (b_tx st) = true;
  bi_a : mrb (b_tx st) 0 lc = Some a;
  bi_b : mrb (b_rx st) 0 lc = Some b;
  bi_link : link_inv mch_config cap a b tx rx l p;
  bi_open : mch_lcids (b_demux st) !! Z.to_nat lc = Some 1;
  bi_subh : max_subheaders (mch_mac_msg (b_demux st)) = 20;
  bi_accepted : b_accepted st = delivered rx ++ in_flight tx l p
}.

Lemma link_mrb_ok a b tx rx l p : link_inv mch_config cap a b tx rx l p -> mrb_ok a.
Proof. intros [L1 _ _ _ _ _ Htx _ _ _ _ _] tx0 E. rewrite L1 in E. injection E as <-. by exists cap, l. Qed.

Lemma valid_session (r : rlc Q) e : mrb r 0 lc = Some e -> valid_lcid_mrb r 0 lc = true.
Proof. intros He. apply valid_mrb. split; [unfold SRSRAN_N_MCH_LCIDS, MTCH_MAX_LCID in *; lia|by exists e]. Qed.

(** The bearer reports its buffer state, a size that the scheduler can keep. *)
Lemma session_reported (r : rlc Q) a b tx rx l p size stop cur m :
  mrb r 0 lc = Some a -> has_bsr_callback r = true -> link_inv mch_config cap a b tx rx l p -> session_inv lc size stop cur m ->
  exists m', apply_reports m (update_bsr_mch r lc) = Some m' /\ session_inv lc (um_get_buffer_state tx) stop cur m'.
Proof.
  intros Ha Hcb [L1 _ _ _ _ _ Htx _ _ _ _ _] Hs.
  rewrite (update_bsr_mch_spec r lc a tx), Hcb by (done || (unfold SRSRAN_N_MCH_LCIDS, MTCH_MAX_LCID in *; lia)).
  unfold rlc_um_get_buffer_state. rewrite L1. eapply session_report; [exact Hs|]. by eapply buffer_state_bound.
Qed.

Lemma write_op_inv st a b tx rx l p stop cur s : binv st a b tx rx l p stop cur -> queue_sdu cap s ->
  exists st' a' tx' l', write_op st lc s = Some st' /\ binv st' a' b tx' rx l' p stop cur.
Proof.
  intros [Hs Hr Hcb Ha Hb Hl Ho Hm Hacc] Hshort.
  destruct (link_write _ _ _ _ _ _ _ _ s mch_cfg_ok Hl Hshort) as (a' & tx' & l' & Hst & Hl' & Hf).
  unfold write_op, write_sdu_mch. rewrite (valid_session _ _ Ha), Ha. cbn [mbind option_bind].
  cbn [link_step] in Hst. destruct (rlc_um_write_sdu a s) as [a1|]; [|done]. cbn [mbind option_bind] in Hst. injection Hst as ->.
  cbn [mbind option_bind]. pose proof (mrb_set (b_tx st) 0 lc a' a Ha) as Ha'.
  destruct (session_reported _ _ _ _ _ _ _ _ _ _ (b_mac st) Ha' Hcb Hl' Hs) as (m' & -> & Hs'). cbn [mbind option_bind].
  eexists _, a', tx', l'. split; [reflexivity|]. constructor; try done.
  - apply set_mrb_ok; [done|]. by eapply link_mrb_ok.
  - cbn [b_accepted]. unfold takes. rewrite Ha, Hacc, Hf. by rewrite app_assoc.
Qed.

(** A grant for the bearer, seen at both ends. *)
Lemma bearer_grant (r x : rlc Q) a b tx rx l p n :
  rlc_ok r -> mrb r 0 lc = Some a -> mrb x 0 lc = Some b -> link_inv mch_config cap a b tx rx l p -> 0 <= n ->
  exists d r' x' a' b' tx' rx' l' p' out,
    read_pdu_mch r lc n = Some (zlen d, d, update_bsr_mch r' lc, r') /\ zlen d <= n /\ rlc_ok r' /\ mrb r' 0 lc = Some a' /\
    has_bsr_callback r' = has_bsr_callback r /\
    (if 0 <? zlen d then write_pdu_mch x 0 lc d else Some x) = Some x' /\ mrb x' 0 lc = Some b' /\
    link_inv mch_config cap a' b' tx' rx' l' p' /\
    delivered rx' = delivered rx ++ out /\ in_flight tx l p = out ++ in_flight tx' l' p' /\ grant_progress tx tx' l' n.
Proof.
  intros Hr Ha Hb Hl Hn.
  destruct (link_grant _ _ _ _ _ _ _ _ (pool_block r) n mch_cfg_ok Hl (ro_block _ Hr)) as
    (a' & b' & tx' & rx' & l' & p' & out & Hst & Hl' & Hd & Hf & Hprog).
  destruct (read_pdu_ok a (pool_block r) n (link_mrb_ok _ _ _ _ _ _ Hl) (ro_block _ Hr) Hn) as (d & a1 & Hrd & Hz & _).
  cbn [link_step] in Hst. rewrite Hrd in Hst. cbn [mbind option_bind] in Hst.
  unfold read_pdu_mch. rewrite (valid_session _ _ Ha), Ha. cbn [mbind option_bind]. rewrite Hrd. cbn [mbind option_bind].
  assert (a1 = a') as ->.
  { destruct (0 <? zlen d); [destruct (rlc_um_write_pdu b d); [|done]; cbn [mbind option_bind] in Hst|]; by injection Hst as -> _. }
  pose proof (mrb_set r 0 lc a' a Ha) as Ha'.
  assert (Hx : exists x', (if 0 <? zlen d then write_pdu_mch x 0 lc d else Some x) = Some x' /\ mrb x' 0 lc = Some b').
  { destruct (0 <? zlen d).
    - destruct (rlc_um_write_pdu b d) as [b1|] eqn:Ew; [|done]. cbn [mbind option_bind] in Hst. injection Hst as ->.
      exists (set_mrb x 0 lc b'). split; [|by eapply mrb_set]. unfold write_pdu_mch. rewrite (valid_session _ _ Hb), Hb. cbn [mbind option_bind].
      by rewrite Ew.
    - injection Hst as ->. by exists x. }
  destruct Hx as (x' & Hx & Hb').
  exists d, (set_mrb r 0 lc a'), x', a', b', tx', rx', l', p', out.
  split_and!; try done; [apply set_mrb_ok; [done|]; by eapply link_mrb_ok|]. apply Hprog.
  destruct (mch_header_room tx (lk_tx_cfg _ _ _ _ _ _ _ _ Hl)). lia.
Qed.

(** What the receiver's PDU object is initialised to. *)
Lemma demux_init_typed d len : typed MCH_SUBH_TYPE (pdu_init MCH_SUBH_TYPE (mch_mac_msg d) (buffer_tx (mch_mac_msg d)) len false).
Proof. unfold typed. cbn [subheaders pdu_init]. rewrite Forall_map. by apply List.Forall_forall. Qed.

(** The receiver handles a PDU with one SDU. *)
Lemma process_sdu_pdu d len mem rx1 es pay (x : rlc Q) :
  let p0 := pdu_init MCH_SUBH_TYPE (mch_mac_msg d) (buffer_tx (mch_mac_msg d)) len false in
  parse_packet MCH_SUBH_TYPE p0 mem = Some rx1 -> decoded rx1 mem = Some es -> useful es = [(lc, pay)] ->
  mch_lcids d !! Z.to_nat lc = Some 1 -> zlen pay < 2 ^ 31 ->
  process_mch_pdu d mem len x = (x' ← write_pdu_mch x 0 lc pay; Some (mk_demux (mch_lcids d) rx1, x')) /\
  max_subheaders rx1 = max_subheaders (mch_mac_msg d).
Proof.
  intros p0 Hp Hd Hu Ho Hz. destruct (parse_packet_typed _ _ _ _ Hp (demux_init_typed d len)) as [Hty Hmax]. split.
  - unfold process_mch_pdu. fold p0. rewrite Hp. cbn [mbind option_bind].
    erewrite process_one; [reflexivity|exact Hd|exact Hu| |done|done|done]. by apply Forall_take.
  - rewrite Hmax. unfold p0, max_subheaders, zlen. cbn [subheaders pdu_init]. by rewrite length_map.
Qed.

(** After the session's last subframe nothing is sent. *)
Lemma mtch_subframe_over m (r : rlc Q) tti tbs size stop cur :
  session_inv lc size stop cur m -> stop < cur -> mtch_subframe m r tti tbs = Some (mk_res 0 data_null None, bump m, r).
Proof.
  intros Hs Hcur. destruct (session_of _ _ _ _ m Hs) as (ptr & rest & E & Hses).
  unfold mtch_subframe. rewrite (si_num _ _ _ _ _ Hs), Hses, E, (si_cur _ _ _ _ _ Hs).
  change (at_ (?s :: rest) (u32 (1 - 1))) with (Some s). cbn [mbind option_bind turn_of mtch_stop].
  by rewrite (proj2 (Z.leb_gt _ _) Hcur).
Qed.

(** The scheduler's state when the PDU is made. *)
Lemma mtch_step_session m m1 m2 s0 size stop cur : session_inv lc size stop cur m1 -> mac_wf m2 ->
  at_ (mtch_sched (the_mch m1)) 0 = Some s0 ->
  mtch_sched (the_mch m2) = <[O := mk_mtch_sched (mtch_lcid s0) (lcid_buffer_size s0) (mtch_stop s0) true]> (mtch_sched (the_mch m1)) ->
  num_mtch_sched (the_mch m2) = num_mtch_sched (the_mch m) -> num_mtch_sched (the_mch m) = 1 ->
  current_sf_allocation_num (the_mch m2) = current_sf_allocation_num (the_mch m1) -> session_inv lc size stop cur m2.
Proof.
  intros [Hwf Hn (ptr & rest & E) Hc Hz] Hwf2 Hs0 Esch En En1 Ec. rewrite E in Esch, Hs0. injection Hs0 as <-.
  constructor; [done|congruence| |congruence|done]. exists true, rest. exact Esch.
Qed.

(** The PDU of one SDU, made and received. *)
Lemma send_sdu_pdu u (c : dl_pdu_mch_t) mcch mtch tti len d junk (dm : demux) (x : rlc Q) :
  ue_wf u -> sched_item c mcch mtch 0 = Some (item_sdu lc d) -> 0 < zlen d -> zlen d + 1 <= len <= 6119 ->
  max_subheaders (mch_mac_msg dm) = 20 -> mch_lcids dm !! Z.to_nat lc = Some 1 ->
  exists u' bb wire rx1, generate_mch_pdu u c mcch mtch (tti mod SRSRAN_FDD_NOF_HARQ) 1 len = Some (true, u') /\ ue_wf u' /\
    at_ (tx_payload_buffer u') (tti mod SRSRAN_FDD_NOF_HARQ) = Some bb /\ contents bb = Some wire /\ zlen wire = len /\
    process_mch_pdu dm (wire ++ junk) len x = (x' ← write_pdu_mch x 0 lc d; Some (mk_demux (mch_lcids dm) rx1, x')) /\
    max_subheaders rx1 = 20.
Proof.
  intros Hue Hit Hd0 Hlen Hm Ho.
  set (p0 := pdu_init MCH_SUBH_TYPE (mch_mac_msg dm) (buffer_tx (mch_mac_msg dm)) len false).
  destruct (generate_mch_pdu_items u c mcch mtch (tti mod SRSRAN_FDD_NOF_HARQ) [item_sdu lc d] len p0 junk Hue (tti_mod tti)) as
    (u' & bb & wire & rx1 & es & Hg & Hue' & Hat & Hc & Hzw & Hp & Hd & Hu' & _); try done.
  { intros [|k] it Hk; [|done]. injection Hk as <-. exact Hit. }
  { apply sdu_item_fits; [done|lia| |]; unfold MAC_BUFFER; bb_consts; lia. }
  { apply demux_init_typed. }
  { change (zlen [item_sdu lc d]) with 1. unfold p0, max_subheaders, zlen in *. cbn [subheaders pdu_init]. rewrite length_map. lia. }
  assert (Huse : useful es = [(lc, d)]).
  { rewrite Hu'. unfold MTCH_MAX_LCID, ces, sdus in *. cbn [map item_elem].
    assert (Hes : elem_sdu MCH_SUBH_TYPE (lc, d) = true) by (unfold elem_sdu, mch_is_sdu, MCH_SCHED_INFO; cbn [fst]; apply Z.ltb_lt; lia).
    rewrite filter_cons_False, filter_cons_True by (rewrite Hes; done). done. }
  destruct (process_sdu_pdu dm len (wire ++ junk) rx1 es d x Hp Hd Huse Ho ltac:(lia)) as [Hpr Hmax].
  exists u', bb, wire, rx1. split_and!; try done. congruence.
Qed.

Lemma data_op_inv st a b tx rx l p stop cur tti tbs junk : binv st a b tx rx l p stop cur -> block_ok tbs ->
  exists st' a' b' tx' rx' l' p', data_op st tti tbs junk = Some st' /\ binv st' a' b' tx' rx' l' p' stop (u32 (cur + 1)) /\
    b_accepted st' = b_accepted st /\ (cur <= stop -> grant_progress tx tx' l' (requested_bytes tbs (um_get_buffer_state tx))).
Proof.
  intros [Hs Hr Hcb Ha Hb Hl Ho Hm Hacc] Htbs. unfold block_ok in Htbs.
  assert (Ht8 : 3 <= tbs / 8 <= 6119) by (split; [apply Z.div_le_lower_bound; lia|]; apply Z.lt_succ_r, Z.div_lt_upper_bound; lia).
  unfold data_op. destruct (Z.leb_spec cur stop) as [Hcur|Hcur].
  2: { rewrite (mtch_subframe_over _ _ _ _ _ _ _ Hs Hcur). cbn [mbind option_bind res_data].
    eexists _, a, b, tx, rx, l, p. split; [reflexivity|]. split_and!; [|done|lia]. constructor; try done. by apply bump_session. }
  set (size := um_get_buffer_state tx) in *. destruct (session_of _ _ _ _ _ Hs) as (ptr & rest & E & Hses).
  pose proof (si_size _ _ _ _ _ Hs) as Hsz. destruct (requested_bounds tbs size ltac:(lia) ltac:(lia)) as [Hrq Hu32].
  destruct (bearer_grant (b_tx st) (b_rx st) a b tx rx l p _ Hr Ha Hb Hl (proj1 Hrq)) as
    (d & r' & x' & a' & b' & tx' & rx' & l' & p' & out & Hread & Hzd & Hr' & Ha' & Hcb' & Hx & Hb' & Hl' & Hdel & Hfl & Hprog).
  pose proof (zlen_nonneg d) as Hd0. rewrite Hcb in Hcb'.
  destruct (mtch_subframe_step (b_mac st) (b_tx st) tti tbs [mk_mtch_sched lc size stop ptr] lc 0 (mk_mtch_sched lc size stop ptr)
    (zlen d) d (update_bsr_mch r' lc) r' (si_wf _ _ _ _ _ Hs) Hses) as
    (u & m1 & m2 & buf & s0 & Hue & Hwf2 & Eu & Hrep & Hwfb & Hs0 & Esch & [En Ec] & Hit & ->); try done.
  { eexists. rewrite (si_cur _ _ _ _ _ Hs). split_and!; [done|by left|done]. }
  { cbn [turn_of mtch_stop mtch_lcid]. by rewrite (si_cur _ _ _ _ _ Hs), (proj2 (Z.leb_le _ _) Hcur). }
  { by rewrite E. }
  { cbn [lcid_buffer_size]. by rewrite Hu32. }
  { unfold mtch_payload_len. lia. }
  assert (Hsb : session_inv lc size stop cur (set_mtch_buffer (b_mac st) buf)) by (destruct Hs; by constructor).
  destruct (session_reported _ _ _ _ _ _ _ _ _ _ _ Ha' Hcb' Hl' Hsb) as (m1' & Hrep' & Hs1).
  rewrite Hrep in Hrep'. injection Hrep' as <-.
  pose proof (mtch_step_session _ _ _ _ _ _ _ Hs1 Hwf2 Hs0 Esch En (si_num _ _ _ _ _ Hs) Ec) as Hs2.
  assert (Haccept : b_accepted st = delivered rx' ++ in_flight tx' l' p') by (by rewrite Hacc, Hdel, Hfl, app_assoc).
  destruct (Z.eqb_spec (zlen d) 0) as [Hz0|Hz0]; [|rewrite (proj2 (Z.ltb_lt 0 (zlen d))) in Hx by lia].
  { cbn [mbind option_bind res_data]. rewrite Hz0 in Hx. injection Hx as <-.
    eexists _, a', b', tx', rx', l', p'. split; [reflexivity|]. split_and!; [|done|done].
    constructor; try done. by apply bump_session. }
  destruct (send_sdu_pdu u (the_mch m2) (mcch_payload_buffer m2) (mtch_payload_buffer m2) tti (tbs / 8) d junk (b_demux st) (b_rx st))
    as (u' & bb & wire & rx1 & Hg & Hue' & Hat & Hc & Hzw & Hpr & Hmax); try done; try lia.
  rewrite Hg. cbn [mbind option_bind]. unfold pdu_data. rewrite Hat. cbn [mbind option_bind res_data].
  rewrite Hc. cbn [mbind option_bind]. rewrite Hzw, Hpr, Hx. cbn [mbind option_bind].
  eexists _, a', b', tx', rx', l', p'. split; [reflexivity|]. split_and!; [|done|done].
  constructor; try done. by apply bump_session, set_ue_session.
Qed.
End Path.

(** ** The system from its start *)

(** RRC configures the session of channel [lc] at the sender: MAC is given the MCCH
    message and RLC a bearer; the receiver adds the bearer and opens the channel.
    [blocks] and [block] are memory of the buffer pools, [resized n] is a new queue of [n]
    places. *)
Definition bsys_new {Q : Type} `{SduQueue Q} (lc sf_end : Z) (msg : bytes) (blocks : list bytes) (block : bytes) (resized : Z -> Q)
  : option (bsys Q) :=
  m ← write_mcch mac_new sf_end [lc] msg blocks;
  Some (mk_bsys m (snd (add_bearer_mrb (rlc_new true block) 0 lc resized)) (mch_start_rx demux_new lc)
          (snd (add_bearer_mrb (rlc_new false block) 0 lc resized)) []).

Lemma add_bearer_new {Q : Type} `{SduQueue Q} cb block lc (resized : Z -> Q) : 0 <= lc < SRSRAN_N_MCH_LCIDS ->
  add_bearer_mrb (rlc_new cb block) 0 lc resized =
  (0, mk_rlc {[0 := {[lc := snd (rlc_um_configure mch_config resized rlc_um_new)]}]} cb block).
Proof.
  unfold SRSRAN_N_MCH_LCIDS. intros Hl. unfold add_bearer_mrb, rlc_new. cbn [rlc_array_mrb]. rewrite lookup_empty.
  unfold valid_lcid_mrb, mrb, set_mrb. cbn [rlc_array_mrb has_bsr_callback pool_block]. change (u16 0) with 0.
  rewrite lookup_insert_eq, (u16_id lc) by (unfold is_u16; lia). rewrite lookup_empty.
  assert (Hn : (if SRSRAN_N_MCH_LCIDS <=? lc then false else false) = false) by (by destruct (_ <=? _)). rewrite Hn. cbn [negb].
  unfold rlc_um_configure, um_rx_configure, um_tx_configure. cbn [rx_mod tx_mod um mch_config Z.eqb negb snd mbind option_bind].
  by rewrite alter_insert_eq.
Qed.

Section Start.
Context {Q : Type} `{SduQueueLaws Q}.

Lemma bsys_new_inv lc cap sf_end msg blocks block (resized : Z -> Q) :
  1 <= lc <= MTCH_MAX_LCID -> Z.of_nat cap <= tx_queue_length mch_config -> sq_rep (resized (tx_queue_length mch_config)) cap [] -> zlen msg < 256 -> zlen blocks = 8 ->
  Forall (fun b => zlen b = SRSRAN_MAX_BUFFER_SIZE_BYTES) (block :: blocks) ->
  exists st, bsys_new lc sf_end msg blocks block resized = Some st /\
    binv lc cap st (fst (link_new mch_config resized)) (snd (link_new mch_config resized)) (mk_um_tx mch_config (resized (tx_queue_length mch_config)) None 0) (um_rx_init mch_config) [] [] 0 0.
Proof.
  intros Hlc Hcap Hq Hmsg Hbl [Hblock Hblocks]%Forall_cons_1. unfold MTCH_MAX_LCID in Hlc.
  destruct (write_mcch_wf sf_end [lc] msg blocks) as (m & Hm & Hwf & Hnum); [done|done|done|done|].
  unfold bsys_new. rewrite Hm. cbn [mbind option_bind].
  rewrite !add_bearer_new by (unfold SRSRAN_N_MCH_LCIDS; lia). cbn [snd].
  assert (Hl : link_inv mch_config cap (fst (link_new mch_config resized)) (snd (link_new mch_config resized)) (mk_um_tx mch_config (resized (tx_queue_length mch_config)) None 0) (um_rx_init mch_config) [] [])
    by (apply link_new_inv; [by apply mch_cfg_ok|done]).
  assert (Hmrb : forall cb, mrb (mk_rlc {[0 := {[lc := fst (link_new mch_config resized)]}]} cb block) 0 lc = Some (fst (link_new mch_config resized))).
  { intros cb. unfold mrb. cbn [rlc_array_mrb]. change (u16 0) with 0. rewrite lookup_singleton_eq, u16_id by (unfold is_u16; lia).
    cbn [mbind option_bind]. apply lookup_singleton_eq. }
  eexists. split; [reflexivity|]. constructor; cbn [b_mac b_tx b_demux b_rx b_accepted]; try done; try apply Hmrb.
  - assert (E0 : um_get_buffer_state (mk_um_tx mch_config (resized (tx_queue_length mch_config)) None 0) = 0)
      by exact (buffer_state_eq _ cap [] (lk_tx_ok _ _ _ _ _ _ _ _ Hl)).
    rewrite E0. unfold write_mcch in Hm. cbn [the_mch mac_new mtch_sched] in Hm.
    destruct (_ <? _); [done|]. destruct (store _ _ _); [|done]. cbn [mbind option_bind] in Hm. injection Hm as <-.
    constructor; try done. cbn. by do 2 eexists.
  - constructor; [done|]. intros i c e He. unfold mrb in He. cbn [rlc_array_mrb] in He.
    apply bind_Some in He as (mm & H1 & H2). apply lookup_singleton_Some in H1 as [_ <-]. apply lookup_singleton_Some in H2 as [_ <-].
    exact (link_mrb_ok cap _ _ _ _ _ _ Hl).
  - unfold mch_start_rx. destruct (Z.ltb_spec lc 32); [|lia]. cbn [mch_lcids demux_new]. apply list_lookup_insert_eq.
    rewrite repeat_length. lia.
  - unfold mch_start_rx. by destruct (lc <? 32).
Qed.

Lemma bstep_inv lc cap st st' a b tx rx l p stop cur :
  1 <= lc <= MTCH_MAX_LCID -> Z.of_nat cap <= tx_queue_length mch_config -> binv lc cap st a b tx rx l p stop cur -> bstep lc cap st st' ->
  exists a' b' tx' rx' l' p' stop' cur', binv lc cap st' a' b' tx' rx' l' p' stop' cur'.
Proof.
  intros Hlc Hcap Hi Hstep. destruct Hstep as [st s st' Hs Hw|st tti tbs junk st' Ht Hd|st tti mt dt res m' Hm].
  - destruct (write_op_inv lc cap Hlc Hcap st a b tx rx l p stop cur s Hi Hs) as (st1 & a' & tx' & l' & Hw' & Hi').
    rewrite Hw in Hw'. injection Hw' as <-. by do 8 eexists.
  - destruct (data_op_inv lc cap Hlc Hcap st a b tx rx l p stop cur tti tbs junk Hi Ht) as (st1 & a' & b' & tx' & rx' & l' & p' & Hd' & Hi' & _).
    rewrite Hd in Hd'. injection Hd' as <-. by do 8 eexists.
  - destruct Hi. destruct (session_mcch _ _ _ _ _ _ _ _ _ _ bi_session0 Hm) as (stop' & Hs' & _).
    exists a, b, tx, rx, l, p, stop', 1. by constructor.
Qed.

Lemma reachable_inv lc cap st st' a b tx rx l p stop cur :
  1 <= lc <= MTCH_MAX_LCID -> Z.of_nat cap <= tx_queue_length mch_config -> rtc (bstep lc cap) st st' -> binv lc cap st a b tx rx l p stop cur ->
  exists a' b' tx' rx' l' p' stop' cur', binv lc cap st' a' b' tx' rx' l' p' stop' cur'.
Proof.
  intros Hlc Hcap Hr. revert a b tx rx l p stop cur.
  induction Hr as [st|st st1 st2 Hs _ IH]; intros a b tx rx l p stop cur Hi; [by do 8 eexists|].
  destruct (bstep_inv _ _ _ _ _ _ _ _ _ _ _ _ Hlc Hcap Hi Hs) as (a1 & b1 & tx1 & rx1 & l1 & p1 & stop1 & cur1 & Hi1). by eapply IH.
Qed.

(** ** A scheduling period *)

(** Data subframes one after the other, each with its TTI and what follows in memory. *)
Fixpoint data_run (st : bsys Q) (tbs : Z) (sfs : list (Z * bytes)) : option (bsys Q) :=
  match sfs with
  | [] => Some st
  | (tti, junk) :: sfs' => st' ← data_op st tti tbs junk; data_run st' tbs sfs'
  end.

Lemma state_pending (tx : um_tx Q) cap l : um_tx_ok tx cap l -> um_get_buffer_state tx <= 0 -> pending tx l = [].
Proof.
  intros Hok. rewrite (buffer_state_eq tx cap l Hok). pose proof (uto_short _ _ _ Hok) as Hsh.
  destruct (pending tx l) as [|x P]; [done|]. pose proof (short_total _ Hsh). pose proof (li_bytes_spec (zlen (x :: P))).
  cbn [state_of]. rewrite zlen_cons in *. pose proof (zlen_nonneg P). unfold state_header. destruct (is_mrb _); lia.
Qed.

(** Each subframe of the session takes at least [tbs / 8 - 6] bytes off the buffer
    state, or all of it. *)
Lemma subframe_progress lc cap st a b tx rx l p stop cur tx' l' tbs :
  binv lc cap st a b tx rx l p stop cur -> block_ok tbs -> 0 < tbs / 8 - 6 ->
  grant_progress tx tx' l' (requested_bytes tbs (um_get_buffer_state tx)) ->
  pending tx' l' = [] \/ um_get_buffer_state tx' + (tbs / 8 - 6) <= um_get_buffer_state tx.
Proof.
  intros Hi Hb Hpos [E|[H1 H2]]; [by left|right].
  assert (Ht8 : tbs / 8 <= 6119) by (unfold block_ok in Hb; apply Z.lt_succ_r, Z.div_lt_upper_bound; lia).
  pose proof (si_size _ _ _ _ _ (bi_session _ _ _ _ _ _ _ _ _ _ _ Hi)) as Hsz.
  rewrite (proj1 (mch_header_room tx (lk_tx_cfg _ _ _ _ _ _ _ _ (bi_link _ _ _ _ _ _ _ _ _ _ _ Hi)))) in H1.
  unfold requested_bytes in *. rewrite i32_id in * by lia. bb_consts.
  destruct (Z.ltb_spec (um_get_buffer_state tx) (tbs / 8)); lia.
Qed.

Lemma data_run_drains lc cap tbs sfs : 1 <= lc <= MTCH_MAX_LCID -> Z.of_nat cap <= tx_queue_length mch_config -> block_ok tbs -> 0 < tbs / 8 - 6 ->
  forall st a b tx rx l p stop cur, binv lc cap st a b tx rx l p stop cur ->
  1 <= cur -> cur + zlen sfs <= stop + 1 -> stop < 2 ^ 31 -> um_get_buffer_state tx <= zlen sfs * (tbs / 8 - 6) ->
  exists st' a' b' tx' rx' l' p' cur', data_run st tbs sfs = Some st' /\ binv lc cap st' a' b' tx' rx' l' p' stop cur' /\
    pending tx' l' = [] /\ b_accepted st' = b_accepted st.
Proof.
  intros Hlc Hcap Hb Hpos. induction sfs as [|[tti junk] sfs IH]; intros st a b tx rx l p stop cur Hi Hc Hstop Hmax Hsz.
  - exists st, a, b, tx, rx, l, p, cur. split_and!; try done.
    apply (state_pending tx cap); [exact (lk_tx_ok _ _ _ _ _ _ _ _ (bi_link _ _ _ _ _ _ _ _ _ _ _ Hi))|]. exact Hsz.
  - rewrite zlen_cons in *. pose proof (zlen_nonneg sfs). cbn [data_run].
    destruct (data_op_inv lc cap Hlc Hcap st a b tx rx l p stop cur tti tbs junk Hi Hb) as
      (st1 & a1 & b1 & tx1 & rx1 & l1 & p1 & -> & Hi1 & Hacc & Hprog). cbn [mbind option_bind].
    specialize (Hprog ltac:(lia)). rewrite u32_id in Hi1 by (unfold is_u32; lia).
    pose proof (lk_tx_ok _ _ _ _ _ _ _ _ (bi_link _ _ _ _ _ _ _ _ _ _ _ Hi1)) as Hok1.
    destruct (IH st1 a1 b1 tx1 rx1 l1 p1 stop (cur + 1) Hi1) as (st' & a' & b' & tx' & rx' & l' & p' & cur' & Hr & Hi' & Hp & Hacc'); try lia.
    { destruct (subframe_progress _ _ _ _ _ _ _ _ _ _ _ _ _ _ Hi Hb Hpos Hprog) as [E|E]; [|nia].
      rewrite (buffer_state_eq tx1 cap l1 Hok1), E. cbn [state_of]. nia. }
    exists st', a', b', tx', rx', l', p', cur'. split_and!; try done. congruence.
Qed.

(** Without anything pending everything accepted is delivered. *)
Lemma nothing_in_flight (tx : um_tx Q) l p : pending tx l = [] -> in_flight tx l p = [].
Proof. intros E. unfold in_flight. by rewrite E. Qed.
End Start.

(** C1: the broadcast path is a FIFO from the sender's RLC to the receiver's.  The
    system starts with one session on a channel for traffic, an MCCH message of fewer
    than 256 bytes (the buffer of the MAC) and buffers of the pool's size; its bearer has
    the MCH configuration: a queue of [tx_queue_length mch_config], that is 2048, SDUs
    ([resized 2048] has [cap] places, at most that many).  Then SDUs of 24 to 2047 bytes are written (every UDP/IP
    datagram has at least 28 bytes; when [cap] is at most 512 they may be of any size
    from 1 byte on), MCCH subframes make the schedule anew, and data subframes of 3 to
    6119 bytes are sent through MAC and received, in any order and number.  In every
    state reached, the SDUs that the receiver delivered followed by those in flight are
    exactly the SDUs that the sender's queue took, in order and unchanged; when the
    sender has no data left all of them are delivered; and writing an SDU and running a
    data subframe, whatever follows the PDU in the receiver's memory, never leave a
    buffer.  (514 SDUs of one byte do overflow the length indicators of a PDU:
    [RlcUmTx.um_li_array_overflows].) *)
Theorem broadcast_is_fifo {Q : Type} `{SduQueueLaws Q} lc cap sf_end msg blocks block (resized : Z -> Q) :
  1 <= lc <= MTCH_MAX_LCID -> Z.of_nat cap <= tx_queue_length mch_config -> sq_rep (resized (tx_queue_length mch_config)) cap [] -> zlen msg < 256 -> zlen blocks = 8 ->
  Forall (fun b => zlen b = SRSRAN_MAX_BUFFER_SIZE_BYTES) (block :: blocks) ->
  exists st0, bsys_new lc sf_end msg blocks block resized = Some st0 /\
  forall st, rtc (bstep lc cap) st0 st ->
    (exists a b tx rx l, mrb (b_tx st) 0 lc = Some a /\ um_the_tx a = Some tx /\
       mrb (b_rx st) 0 lc = Some b /\ um_the_rx b = Some rx /\ sq_rep (tx_sdu_queue tx) cap l /\
       b_accepted st = delivered rx ++ in_flight tx l (sdu_bytes rx) /\
       (rlc_um_has_data a = false -> delivered rx = b_accepted st)) /\
    (forall s, queue_sdu cap s -> exists st', write_op st lc s = Some st') /\
    (forall tti tbs junk, block_ok tbs -> exists st', data_op st tti tbs junk = Some st').
Proof.
  intros Hlc Hcap Hq Hmsg Hbl Hblk. destruct (bsys_new_inv lc cap sf_end msg blocks block resized Hlc Hcap Hq Hmsg Hbl Hblk) as (st0 & Hn & Hi0).
  exists st0. split; [done|]. intros st Hr.
  destruct (reachable_inv lc cap _ _ _ _ _ _ _ _ _ _ Hlc Hcap Hr Hi0) as (a & b & tx & rx & l & p & stop & cur & Hi). split_and!.
  - pose proof Hi as [_ _ _ Ha Hb [L1 L2 L3 L4 L5 L6 Htx Hlen Hque Hsync Hpart Hsh] _ _ Hacc].
    exists a, b, tx, rx, l. rewrite (rs_sdu _ _ _ Hsync). split_and!; try done; [by apply Htx|].
    unfold rlc_um_has_data. rewrite L1. intros Hd.
    assert (Hp : pending tx l = []).
    { destruct (decide (pending tx l = [])) as [|Hne]; [done|]. apply (um_has_data_spec tx cap l (uto_rep _ _ _ Htx)) in Hne. congruence. }
    by rewrite Hacc, (nothing_in_flight _ _ _ Hp), app_nil_r.
  - intros s Hs. destruct (write_op_inv lc cap Hlc Hcap st a b tx rx l p stop cur s Hi Hs) as (st' & _ & _ & _ & Hw & _). by exists st'.
  - intros tti tbs junk Ht.
    destruct (data_op_inv lc cap Hlc Hcap st a b tx rx l p stop cur tti tbs junk Hi Ht) as (st' & _ & _ & _ & _ & _ & _ & Hd & _). by exists st'.
Qed.

(** C2: a scheduling period delivers what was announced.  In any state that the system
    of the theorem before reaches (with the MCH queue of 2048 SDUs of 24 to 2047 bytes, or
    at most 512 SDUs of 1 to 2047 bytes; data blocks of 7 to 6119 bytes) and whose pending
    data is less than the room of the period (the number of subframes of the PMCH times the
    data block less the six bytes that [build_mch_sched] leaves for headers), the MCCH subframe announces a stop, and exactly that many data subframes
    later, whatever their TTIs, the receiver has delivered every SDU that the sender's
    queue had taken. *)
Theorem broadcast_period_drains {Q : Type} `{SduQueueLaws Q} lc cap sf_end msg blocks block (resized : Z -> Q) st0 st tti mcch_tbs tbs res m' :
  1 <= lc <= MTCH_MAX_LCID -> Z.of_nat cap <= tx_queue_length mch_config -> sq_rep (resized (tx_queue_length mch_config)) cap [] -> zlen msg < 256 -> zlen blocks = 8 ->
  Forall (fun b => zlen b = SRSRAN_MAX_BUFFER_SIZE_BYTES) (block :: blocks) ->
  bsys_new lc sf_end msg blocks block resized = Some st0 -> rtc (bstep lc cap) st0 st ->
  block_ok tbs -> 0 < tbs / 8 - 6 ->
  (forall e, mrb (b_tx st) 0 lc = Some e -> rlc_um_get_buffer_state e < sf_alloc_end (b_mac st) * (tbs / 8 - 6)) ->
  mcch_subframe (b_mac st) tti mcch_tbs tbs = Some (res, m') ->
  exists stop, res_period_stop res = Some stop /\
    forall sfs, zlen sfs = stop ->
      exists st' e rx, data_run (mk_bsys m' (b_tx st) (b_demux st) (b_rx st) (b_accepted st)) tbs sfs = Some st' /\
        b_accepted st' = b_accepted st /\ mrb (b_rx st') 0 lc = Some e /\ um_the_rx e = Some rx /\ delivered rx = b_accepted st.
Proof.
  intros Hlc Hcap Hq Hmsg Hbl Hblk Hn Hr Hb Hpos Hroom Hm.
  destruct (bsys_new_inv lc cap sf_end msg blocks block resized Hlc Hcap Hq Hmsg Hbl Hblk) as (st0' & Hn' & Hi0).
  rewrite Hn in Hn'. injection Hn' as <-.
  destruct (reachable_inv lc cap _ _ _ _ _ _ _ _ _ _ Hlc Hcap Hr Hi0) as (a & b & tx & rx & l & p & stop & cur & Hi).
  destruct (session_mcch _ _ _ _ _ _ _ _ _ _ (bi_session _ _ _ _ _ _ _ _ _ _ _ Hi) Hm) as (k & Hs' & Hk & Hceil).
  exists k. split; [done|]. intros sfs Hsfs. pose proof (si_size _ _ _ _ _ Hs') as Hsz.
  assert (Ht8 : tbs / 8 <= 6119) by (unfold block_ok in Hb; apply Z.lt_succ_r, Z.div_lt_upper_bound; lia).
  assert (Hk' : k = ceil_div (um_get_buffer_state tx) (tbs / 8 - 6)).
  { apply Hceil; [lia|]. specialize (Hroom a (bi_a _ _ _ _ _ _ _ _ _ _ _ Hi)). unfold rlc_um_get_buffer_state in Hroom.
    by rewrite (lk_tx _ _ _ _ _ _ _ _ (bi_link _ _ _ _ _ _ _ _ _ _ _ Hi)) in Hroom. }
  pose proof (ceil_div_bounds _ _ (proj1 Hsz) Hpos) as Hkb. pose proof (ceil_div_spec (um_get_buffer_state tx) _ Hpos) as Hks. rewrite <- Hk' in *.
  assert (Hi1 : binv lc cap (mk_bsys m' (b_tx st) (b_demux st) (b_rx st) (b_accepted st)) a b tx rx l p k 1) by (destruct Hi; by constructor).
  destruct (data_run_drains lc cap tbs sfs Hlc Hcap Hb Hpos _ a b tx rx l p k 1 Hi1) as
    (st' & a' & b' & tx' & rx' & l' & p' & cur' & Hrun & Hi' & Hp & Hacc); try lia.
  cbn [b_accepted] in Hacc. exists st', b', rx'. destruct Hi' as [_ _ _ _ Hb' [_ L2 _ _ _ _ _ _ _ _ _ _] _ _ Hacc'].
  split_and!; try done. by rewrite <- Hacc, Hacc', (nothing_in_flight _ _ _ Hp), app_nil_r.
Qed.

Lemma test_blocks_ok : Forall (fun b => zlen b = SRSRAN_MAX_BUFFER_SIZE_BYTES) (zero_block :: test_blocks).
Proof.
  apply List.Forall_forall. intros b [<-|Hb]; [reflexivity|]. unfold test_blocks in Hb. apply repeat_spec in Hb. subst b. reflexivity.
Qed.

Lemma broadcast_is_fifo_witness :
  exists st0, bsys_new 3 20 [10; 11; 12; 13] test_blocks zero_block bbq_resized = Some st0 /\
  forall st, rtc (bstep 3 2048) st0 st ->
    (exists a b tx rx l, mrb (b_tx st) 0 3 = Some a /\ um_the_tx a = Some tx /\
       mrb (b_rx st) 0 3 = Some b /\ um_the_rx b = Some rx /\ sq_rep (tx_sdu_queue tx) 2048 l /\
       b_accepted st = delivered rx ++ in_flight tx l (sdu_bytes rx) /\
       (rlc_um_has_data a = false -> delivered rx = b_accepted st)) /\
    (forall s, queue_sdu 2048 s -> exists st', write_op st 3 s = Some st') /\
    (forall tti tbs junk, block_ok tbs -> exists st', data_op st tti tbs junk = Some st').
Proof.
  apply broadcast_is_fifo.
  - unfold MTCH_MAX_LCID. lia.
  - vm_compute. discriminate.
  - apply (bbq_resized_rep 2048). lia.
  - reflexivity.
  - reflexivity.
  - exact test_blocks_ok.
Defined.

(** A session of channel 3 with an SDU of 30 bytes waiting, before and after the MCCH
    subframe. *)
Definition example_new : option (bsys byte_buffer_queue) := bsys_new 3 20 [10; 11; 12; 13] test_blocks zero_block bbq_resized.
Definition no_system : bsys byte_buffer_queue := mk_bsys mac_new (rlc_new false []) demux_new (rlc_new false []) [].
Definition example_start : bsys byte_buffer_queue := default no_system example_new.
Definition example_loaded : bsys byte_buffer_queue := default no_system (write_op example_start 3 (seqZ 1 30)).
Definition example_mcch : mch_sched_res * mac := default (mk_res 0 data_null None, mac_new) (mcch_subframe (b_mac example_loaded) 1 500 160).

Lemma default_of {A} (d : A) (x : option A) : (match x with Some _ => true | None => false end) = true -> x = Some (default d x).
Proof. by destruct x. Qed.

Lemma broadcast_period_drains_witness :
  exists stop, res_period_stop (fst example_mcch) = Some stop /\
    forall sfs, zlen sfs = stop ->
      exists st' e rx,
        data_run (mk_bsys (snd example_mcch) (b_tx example_loaded) (b_demux example_loaded) (b_rx example_loaded) (b_accepted example_loaded))
          160 sfs = Some st' /\
        b_accepted st' = b_accepted example_loaded /\ mrb (b_rx st') 0 3 = Some e /\ um_the_rx e = Some rx /\
        delivered rx = b_accepted example_loaded.
Proof.
  apply (broadcast_period_drains 3 2048 20 [10; 11; 12; 13] test_blocks zero_block bbq_resized example_start example_loaded 1 500 160).
  - unfold MTCH_MAX_LCID. lia.
  - vm_compute. discriminate.
  - apply (bbq_resized_rep 2048). lia.
  - reflexivity.
  - reflexivity.
  - exact test_blocks_ok.
  - apply (default_of no_system example_new). vm_compute. reflexivity.
  - apply rtc_once, bstep_write with (s := seqZ 1 30); [split; [split; vm_compute; reflexivity|right; vm_compute; discriminate]|]. apply (default_of no_system). vm_compute. reflexivity.
  - split; vm_compute; [discriminate|reflexivity].
  - reflexivity.
  - assert (Hc : match mrb (b_tx example_loaded) 0 3 with
                 | Some e => rlc_um_get_buffer_state e <? sf_alloc_end (b_mac example_loaded) * (160 / 8 - 6)
                 | None => true
                 end = true) by (vm_compute; reflexivity).
    intros e He. rewrite He in Hc. by apply Z.ltb_lt in Hc.
  - rewrite <- surjective_pairing. apply default_of. vm_compute. reflexivity.
Defined.

(** A run: two SDUs are written, the MCCH subframe schedules them, and data subframes
    of 20 bytes carry them in pieces. *)
Definition example_broadcast : option (bsys byte_buffer_queue) :=
  st ← bsys_new 3 20 [10; 11; 12; 13] test_blocks zero_block bbq_resized;
  st ← write_op st 3 (seqZ 1 30);
  st ← write_op st 3 [7; 7; 7];
  '(_, m) ← mcch_subframe (b_mac st) 1 500 160;
  let st := mk_bsys m (b_tx st) (b_demux st) (b_rx st) (b_accepted st) in
  st ← data_op st 2 160 [];
  st ← data_op st 3 160 [];
  data_op st 4 160 [].

Example example_broadcast_delivers :
  match example_broadcast with
  | Some st => (e ← mrb (b_rx st) 0 3; delivered <$> um_the_rx e) = Some [seqZ 1 30; [7; 7; 7]] /\ b_accepted st = [seqZ 1 30; [7; 7; 7]]
  | None => False
  end.
Proof. vm_compute. split; reflexivity. Qed.
