(* ===== verification/BitRef.v ===== *)
(** * Bit streams of the ASN.1 packed encoding rules

    [bit_ref] and [cbit_ref] of [lib/include/srsran/asn1/asn1_utils.h] and
    [lib/src/asn1/asn1_utils.cc]: a position in a buffer, counted in bytes and bits,
    at which bits are written or read, most significant bit first.  The functions are
    shown to refine a list of bits: a packer appends bits, an unpacker reads them.

    An operation returns [None] for what is undefined in C++ (an access outside of the
    buffer, a shift by the width of the type or more), otherwise a status or a value
    and the new position.  An unpacker returns a value or the status of a failure; where the
    code reads an output variable after a failure, [unpack_bits] gives what it holds. *)

From stdpp Require Import base list numbers.
From S2P Require Import Prelude.

Local Open Scope Z_scope.
Ltac Zify.zify_post_hook ::= Z.to_euclidean_division_equations.

Inductive SRSASN_CODE := SRSASN_SUCCESS | SRSASN_ERROR_ENCODE_FAIL | SRSASN_ERROR_DECODE_FAIL.

(** The pointers are offsets into the buffer [br_mem]; [start_ptr] is 0. *)
Record bit_ref := mk_bref {
  br_mem : bytes;
  br_ptr : Z;
  br_offset : Z;
  br_max : Z
}.

(** [set] and the constructor. *)
Definition bit_ref_set (mem : bytes) (max_size : Z) : bit_ref := mk_bref mem 0 0 max_size.

Definition with_mem (b : bit_ref) (m : bytes) : bit_ref := mk_bref m (br_ptr b) (br_offset b) (br_max b).
Definition move_to (b : bit_ref) (ptr off : Z) : bit_ref := mk_bref (br_mem b) ptr off (br_max b).

(** A packer returns a status, an unpacker a value or the status of a failure. *)
Definition packer := bit_ref -> option (SRSASN_CODE * bit_ref).
Definition unpacker (A : Type) := bit_ref -> option ((SRSASN_CODE + A) * bit_ref).

(** [HANDLE_CODE]: goes on when the call succeeds, returns its status otherwise. *)
Definition handle (f g : packer) : packer := fun b =>
  '(c, b1) ← f b; match c with SRSASN_SUCCESS => g b1 | _ => Some (c, b1) end.
Definition handle_val {A B} (f : unpacker A) (g : A -> unpacker B) : unpacker B := fun b =>
  '(r, b1) ← f b; match r with inl c => Some (inl c, b1) | inr x => g x b1 end.

(** A call whose status is not looked at.  [d] is what a failed call leaves in its output
    variable. *)
Definition ignore (f g : packer) : packer := fun b => '(_, b1) ← f b; g b1.
Definition ignore_val {A B} (d : A) (f : unpacker A) (g : A -> unpacker B) : unpacker B := fun b =>
  '(r, b1) ← f b; g (match r with inl _ => d | inr x => x end) b1.

Definition success : packer := fun b => Some (SRSASN_SUCCESS, b).
Definition encode_fail : packer := fun b => Some (SRSASN_ERROR_ENCODE_FAIL, b).
Definition returns {A} (x : A) : unpacker A := fun b => Some (inr x, b).
Definition decode_fail {A} : unpacker A := fun b => Some (inl SRSASN_ERROR_DECODE_FAIL, b).

(** ** Operations *)

Definition distance (b : bit_ref) : Z := br_offset b + 8 * br_ptr b.
Definition distance_bytes (b : bit_ref) : Z := br_ptr b + (if br_offset b =? 0 then 0 else 1).
Definition distance_bytes_end (b : bit_ref) : Z := br_max b - br_ptr b - (if br_offset b =? 0 then 0 else 1).

(** The loop of [bit_ref::pack]; a turn handles at least one bit, so that [fuel] is the
    number of bits. *)
Fixpoint pack_loop (fuel : nat) (b : bit_ref) (val n_bits : Z) : option (SRSASN_CODE * bit_ref) :=
  if n_bits =? 0 then Some (SRSASN_SUCCESS, b)
  else match fuel with
  | O => None
  | S fuel' =>
      if br_max b <=? br_ptr b then Some (SRSASN_ERROR_ENCODE_FAIL, b)
      else
        cur ← load (br_mem b) (br_ptr b);
        let off := br_offset b in
        let val1 := Z.land val (2 ^ n_bits - 1) in
        let keepmask := u8 (255 - u8 (2 ^ (8 - off) - 1)) in
        if n_bits <? 8 - off then
          let bit := u8 (Z.shiftl val1 (8 - off - n_bits)) in
          m ← store (br_mem b) (br_ptr b) [u8 (Z.land cur keepmask + bit)];
          pack_loop fuel' (move_to (with_mem b m) (br_ptr b) (u8 (off + n_bits))) val1 0
        else
          let bit := u8 (Z.shiftr val1 (n_bits - 8 + off)) in
          m ← store (br_mem b) (br_ptr b) [u8 (Z.land cur keepmask + bit)];
          pack_loop fuel' (move_to (with_mem b m) (br_ptr b + 1) 0) val1 (n_bits - (8 - off))
  end.

Definition pack (val n_bits : Z) : packer := fun b =>
  if 64 <=? n_bits then Some (SRSASN_ERROR_ENCODE_FAIL, b)
  else pack_loop (Z.to_nat n_bits) b val n_bits.

(** The loop of [unpack_bits] for a type of [w] bits: the status, and the value it leaves in
    its output, the bits read so far when it fails.  The byte is shifted as a 32-bit number. *)
Fixpoint unpack_loop (fuel : nat) (w : Z) (b : bit_ref) (val n_bits : Z) : option (SRSASN_CODE * Z * bit_ref) :=
  if n_bits =? 0 then Some (SRSASN_SUCCESS, val, b)
  else match fuel with
  | O => None
  | S fuel' =>
      if br_max b <=? br_ptr b then Some (SRSASN_ERROR_DECODE_FAIL, val, b)
      else
        cur ← load (br_mem b) (br_ptr b);
        let off := br_offset b in
        if n_bits <? 8 - off then
          let mask := u8 (u8 (2 ^ (8 - off)) - u8 (2 ^ (8 - off - n_bits))) in
          let val1 := (val + Z.shiftr (Z.land cur mask) (8 - off - n_bits)) mod 2 ^ w in
          unpack_loop fuel' w (move_to b (br_ptr b) (u8 (off + n_bits))) val1 0
        else
          let mask := u8 (2 ^ (8 - off) - 1) in
          if 32 <=? n_bits - 8 + off then None
          else
            let val1 := (val + u32 (Z.shiftl (Z.land cur mask) (n_bits - 8 + off))) mod 2 ^ w in
            unpack_loop fuel' w (move_to b (br_ptr b + 1) 0) val1 (n_bits - (8 - off))
  end.

(** [unpack_bits]; [val0] is the value of the output before the call. *)
Definition unpack_bits (w val0 n_bits : Z) (b : bit_ref) : option (SRSASN_CODE * Z * bit_ref) :=
  if w <? n_bits then Some (SRSASN_ERROR_DECODE_FAIL, val0, b)
  else unpack_loop (Z.to_nat n_bits) w b 0 n_bits.

(** The result of a call whose output is only read after a success. *)
Definition as_result (r : SRSASN_CODE * Z * bit_ref) : (SRSASN_CODE + Z) * bit_ref :=
  let '(c, v, b) := r in (match c with SRSASN_SUCCESS => inr v | _ => inl c end, b).

Definition unpack (w n_bits : Z) : unpacker Z := fun b => as_result <$> unpack_bits w 0 n_bits b.

(** [unpack] into a [bool], which is only used for one bit. *)
Definition unpack_bool : unpacker bool := handle_val (unpack 8 1) (fun v => returns (negb (v =? 0))).

Definition align_bytes_ (fail : SRSASN_CODE) : packer := fun b =>
  if br_offset b =? 0 then Some (SRSASN_SUCCESS, b)
  else if br_max b <=? br_ptr b then Some (fail, b)
  else Some (SRSASN_SUCCESS, move_to b (br_ptr b + 1) 0).

(** [align_bytes] as a step of an encoder and of a decoder. *)
Definition align_bytes : packer := align_bytes_ SRSASN_ERROR_DECODE_FAIL.
Definition skip_align : unpacker unit := fun b =>
  '(c, b1) ← align_bytes b; Some (match c with SRSASN_SUCCESS => inr tt | _ => inl c end, b1).

Definition align_bytes_zero : packer := fun b =>
  if br_offset b =? 0 then Some (SRSASN_SUCCESS, b)
  else if br_max b <=? br_ptr b then Some (SRSASN_ERROR_ENCODE_FAIL, b)
  else
    cur ← load (br_mem b) (br_ptr b);
    m ← store (br_mem b) (br_ptr b) [Z.land cur (u8 (256 - 2 ^ (8 - br_offset b)))];
    Some (SRSASN_SUCCESS, move_to (with_mem b m) (br_ptr b + 1) 0).

(** [advance_bits]: the divisions by 8 are exact in single precision for positions
    below 2 to the 24. *)
Definition advance_bits (n_bits : Z) : unpacker unit := fun b =>
  let t := br_offset b + n_bits in
  if br_max b <? br_ptr b + (t + 7) / 8 then Some (inl SRSASN_ERROR_DECODE_FAIL, b)
  else Some (inr tt, move_to b (br_ptr b + t / 8) (t mod 8)).

(** Packing or unpacking bytes one after the other. *)
Fixpoint pack_each (l : bytes) : packer :=
  match l with [] => success | x :: l' => handle (pack x 8) (pack_each l') end.

Fixpoint unpack_each (n : nat) : unpacker bytes :=
  match n with
  | O => returns []
  | S n' => handle_val (unpack 8 8) (fun x => handle_val (unpack_each n') (fun l => returns (x :: l)))
  end.

(** [bit_ref::pack_bytes]: in the aligned case, too, the last byte of the buffer cannot
    be used.  The statuses of the single bytes are not looked at; within the room
    checked before, they succeed. *)
Fixpoint pack_each_ignored (l : bytes) (b : bit_ref) : option (SRSASN_CODE * bit_ref) :=
  match l with
  | [] => Some (SRSASN_SUCCESS, b)
  | x :: l' => '(_, b1) ← pack x 8 b; pack_each_ignored l' b1
  end.

Definition pack_bytes (buf : bytes) : packer := fun b =>
  if zlen buf =? 0 then Some (SRSASN_SUCCESS, b)
  else if br_max b <=? br_ptr b + zlen buf then Some (SRSASN_ERROR_ENCODE_FAIL, b)
  else if br_offset b =? 0 then
    m ← store (br_mem b) (br_ptr b) buf;
    Some (SRSASN_SUCCESS, move_to (with_mem b m) (br_ptr b + zlen buf) 0)
  else pack_each_ignored buf b.

Definition unpack_bytes (n_bytes : Z) : unpacker bytes := fun b =>
  if n_bytes =? 0 then Some (inr [], b)
  else if br_offset b =? 0 then
    if br_max b <? br_ptr b + n_bytes then Some (inl SRSASN_ERROR_DECODE_FAIL, b)
    else l ← load_bytes (br_mem b) (br_ptr b) n_bytes; Some (inr l, move_to b (br_ptr b + n_bytes) 0)
  else if br_max b <=? br_ptr b + n_bytes then Some (inl SRSASN_ERROR_DECODE_FAIL, b)
  else unpack_each (Z.to_nat n_bytes) b.

(** ** Bits *)

(** Bit [i] of a buffer, the most significant bit of a byte first. *)
Definition bit_at (m : bytes) (i : Z) : option bool :=
  x ← load m (i / 8); Some (Z.testbit x (7 - i mod 8)).

(** The [n] low bits of [v], the most significant one first. *)
Definition wbits (n v : Z) : list bool := map (fun i => Z.testbit v (n - 1 - i)) (seqZ 0 n).

(** The buffer has the bits [l] from position [pos] on. *)
Definition bits_at (m : bytes) (pos : Z) (l : list bool) : Prop :=
  forall i x, l !! i = Some x -> bit_at m (pos + Z.of_nat i) = Some x.

Record br_wf (b : bit_ref) : Prop := {
  bw_ptr : 0 <= br_ptr b;
  bw_off : 0 <= br_offset b < 8;
  bw_mem : zlen (br_mem b) = br_max b;
  bw_pos : distance b <= 8 * br_max b;
  bw_bytes : bytes_ok (br_mem b)
}.

(** [b'] is [b] after [l] was appended. *)
Record appended (b b' : bit_ref) (l : list bool) : Prop := {
  ap_wf : br_wf b';
  ap_max : br_max b' = br_max b;
  ap_pos : distance b' = distance b + zlen l;
  ap_before : forall i, 0 <= i < distance b -> bit_at (br_mem b') i = bit_at (br_mem b) i;
  ap_bits : bits_at (br_mem b') (distance b) l
}.

Lemma zlen_wbits n v : 0 <= n -> zlen (wbits n v) = n.
Proof. intros. unfold wbits, zlen. rewrite length_map, length_seqZ. lia. Qed.

Lemma wbits_lookup n v i : 0 <= n -> (Z.of_nat i < n) -> wbits n v !! i = Some (Z.testbit v (n - 1 - Z.of_nat i)).
Proof.
  intros Hn Hi. unfold wbits. rewrite list_lookup_fmap, lookup_seqZ_lt by lia. cbn [fmap option_fmap option_map].
  by rewrite Z.add_0_l.
Qed.

Lemma wbits_lookup_inv n v i x : wbits n v !! i = Some x -> Z.of_nat i < n /\ x = Z.testbit v (n - 1 - Z.of_nat i).
Proof.
  intros H. assert (Hi : Z.of_nat i < n).
  { apply lookup_lt_Some in H. unfold wbits in H. rewrite length_map, length_seqZ in H. lia. }
  rewrite wbits_lookup in H by lia. split; [done|congruence].
Qed.

(** The first [k] bits and the others. *)
Lemma wbits_split n k v : 0 <= k <= n -> wbits n v = wbits k (Z.shiftr v (n - k)) ++ wbits (n - k) v.
Proof.
  intros Hk. apply list_eq. intros i. destruct (Z.lt_ge_cases (Z.of_nat i) n) as [Hi|Hi].
  - rewrite wbits_lookup by lia. destruct (Z.lt_ge_cases (Z.of_nat i) k) as [Hik|Hik].
    + rewrite lookup_app_l by (apply Nat2Z.inj_lt; fold (zlen (wbits k (Z.shiftr v (n - k)))); rewrite zlen_wbits; lia).
      rewrite wbits_lookup, Z.shiftr_spec by lia. do 2 f_equal. lia.
    + assert (Hl : length (wbits k (Z.shiftr v (n - k))) = Z.to_nat k).
      { apply Nat2Z.inj. fold (zlen (wbits k (Z.shiftr v (n - k)))). rewrite zlen_wbits; lia. }
      rewrite lookup_app_r, wbits_lookup by lia. do 2 f_equal. lia.
  - rewrite !lookup_ge_None_2; [done| |].
    + apply Nat2Z.inj_le. fold (zlen (wbits k (Z.shiftr v (n - k)) ++ wbits (n - k) v)). rewrite zlen_app, !zlen_wbits by lia. lia.
    + apply Nat2Z.inj_le. fold (zlen (wbits n v)). rewrite zlen_wbits by lia. lia.
Qed.

Lemma wbits_mod n v : 0 <= n -> wbits n (v mod 2 ^ n) = wbits n v.
Proof.
  intros Hn. apply map_ext_in. intros i Hi%list_elem_of_In%elem_of_seqZ. apply Z.mod_pow2_bits_low. lia.
Qed.

Lemma bits_at_app m pos l1 l2 : bits_at m pos (l1 ++ l2) <-> bits_at m pos l1 /\ bits_at m (pos + zlen l1) l2.
Proof.
  split.
  - intros H. split; intros i x Hi.
    + apply H. by apply lookup_app_l_Some.
    + specialize (H (length l1 + i)%nat x). rewrite lookup_app_r in H by lia. replace (length l1 + i - length l1)%nat with i in H by lia.
      specialize (H Hi). unfold zlen. replace (pos + Z.of_nat (length l1) + Z.of_nat i) with (pos + Z.of_nat (length l1 + i)) by lia. done.
  - intros [H1 H2] i x Hi. apply lookup_app_Some in Hi as [Hi|[Hge Hi]]; [by apply H1|].
    specialize (H2 _ _ Hi). unfold zlen in H2. replace (pos + Z.of_nat (length l1) + Z.of_nat (i - length l1)) with (pos + Z.of_nat i) in H2 by lia.
    done.
Qed.

Lemma bits_at_nil m pos : bits_at m pos [].
Proof. by intros i x. Qed.

(** A buffer that agrees with [m] up to the end of [l] has the bits [l] too. *)
Lemma bits_at_agree m m' pos l : 0 <= pos -> bits_at m pos l -> (forall i, 0 <= i < pos + zlen l -> bit_at m' i = bit_at m i) -> bits_at m' pos l.
Proof.
  intros Hp H Hag i x Hi. rewrite Hag; [by apply H|]. apply lookup_lt_Some in Hi. unfold zlen. lia.
Qed.

Lemma br_wf_pos b : br_wf b -> 0 <= distance b.
Proof. intros [H1 H2 _ _ _]. unfold distance. lia. Qed.

Lemma appended_refl b : br_wf b -> appended b b [].
Proof. intros Hw. constructor; try done. rewrite zlen_nil. lia. Qed.

Lemma appended_trans b1 b2 b3 l1 l2 : br_wf b1 -> appended b1 b2 l1 -> appended b2 b3 l2 -> appended b1 b3 (l1 ++ l2).
Proof.
  intros Hw [W2 M2 P2 B2 L2] [W3 M3 P3 B3 L3]. pose proof (br_wf_pos _ Hw). pose proof (zlen_nonneg l1).
  constructor; [done|congruence|rewrite zlen_app; lia| |].
  - intros i Hi. rewrite B3 by lia. by apply B2.
  - apply bits_at_app. split; [|by rewrite <- P2].
    eapply bits_at_agree; [lia|exact L2|]. intros i Hi. apply B3. lia.
Qed.

(** ** One byte *)

Lemma keepmask_bits off i : 0 <= off < 8 -> 0 <= i < 8 ->
  Z.testbit (u8 (255 - u8 (2 ^ (8 - off) - 1))) i = (8 - off <=? i).
Proof.
  intros Ho Hi.
  pose proof (range_forallb_spec 8 (fun off => range_forallb 8 (fun i =>
    Bool.eqb (Z.testbit (u8 (255 - u8 (2 ^ (8 - off) - 1))) i) (8 - off <=? i)))) as H.
  pose proof (range_forallb_spec 8 _ (H ltac:(vm_compute; reflexivity) off Ho) i Hi) as H1. by apply eqb_prop.
Qed.

Lemma keepmask_range off : 0 <= off < 8 -> 0 <= u8 (255 - u8 (2 ^ (8 - off) - 1)) < 2 ^ 8.
Proof. intros _. apply is_u8_mod. Qed.

(** The byte with [k] bits of [v] put after the first [off] bits. *)
Lemma put_bits cur off k v : is_u8 cur -> 0 <= off < 8 -> 0 < k <= 8 - off -> 0 <= v < 2 ^ k ->
  let x := u8 (Z.land cur (u8 (255 - u8 (2 ^ (8 - off) - 1))) + u8 (Z.shiftl v (8 - off - k))) in
  is_u8 x /\ forall j, 0 <= j < 8 ->
    Z.testbit x (7 - j) = if j <? off then Z.testbit cur (7 - j) else if j <? off + k then Z.testbit v (k - 1 - (j - off)) else false.
Proof.
  intros Hc Ho Hk Hv x. split; [apply is_u8_mod|]. intros j Hj.
  set (a := Z.land cur (u8 (255 - u8 (2 ^ (8 - off) - 1)))) in *.
  assert (Hs : 0 <= Z.shiftl v (8 - off - k) < 2 ^ (8 - off)).
  { rewrite Z.shiftl_mul_pow2 by lia. split; [nia|]. replace (2 ^ (8 - off)) with (2 ^ k * 2 ^ (8 - off - k)) by (rewrite <- Z.pow_add_r by lia; f_equal; lia).
    apply Z.mul_lt_mono_pos_r; [apply Z.pow_pos_nonneg|]; lia. }
  assert (Hp : 2 ^ (8 - off) <= 2 ^ 8) by (apply Z.pow_le_mono_r; lia).
  assert (Eb : u8 (Z.shiftl v (8 - off - k)) = Z.shiftl v (8 - off - k)) by (apply u8_id; unfold is_u8; lia).
  unfold x. rewrite Eb. set (s := Z.shiftl v (8 - off - k)) in *.
  assert (Ha : forall i, 0 <= i < 8 -> Z.testbit a i = Z.testbit cur i && (8 - off <=? i)).
  { intros i Hi. unfold a. by rewrite Z.land_spec, keepmask_bits by lia. }
  assert (Hsi : forall i, 8 - off <= i -> Z.testbit s i = false).
  { intros i Hi. rewrite <- (Z.mod_small s (2 ^ (8 - off))) by lia. apply Z.mod_pow2_bits_high. lia. }
  assert (Hd : Z.land a s = 0).
  { apply Z.bits_inj'. intros i Hi. rewrite Z.land_spec, Z.bits_0. destruct (Z.lt_ge_cases i (8 - off)) as [Hi'|Hi'].
    - rewrite Ha by lia. destruct (Z.leb_spec (8 - off) i); [lia|]. by rewrite andb_false_r.
    - rewrite Hsi by lia. by rewrite andb_false_r. }
  rewrite Z.add_nocarry_lxor by done. unfold u8. rewrite Z.mod_pow2_bits_low, Z.lxor_spec, Ha by lia.
  destruct (Z.ltb_spec j off) as [Hj1|Hj1].
  - rewrite Hsi by lia. destruct (Z.leb_spec (8 - off) (7 - j)); [|lia]. by rewrite andb_true_r, xorb_false_r.
  - destruct (Z.leb_spec (8 - off) (7 - j)); [lia|]. rewrite andb_false_r, xorb_false_l. unfold s.
    rewrite Z.shiftl_spec by lia. destruct (Z.ltb_spec j (off + k)); [f_equal; lia|]. apply Z.testbit_neg_r. lia.
Qed.

Lemma load_store_byte m p x m' i : store m p [x] = Some m' -> load m' i = if i =? p then Some x else load m i.
Proof.
  intros H. destruct (Z.eqb_spec i p) as [->|Hne].
  { rewrite (load_store_in _ _ _ _ _ H) by (rewrite zlen_cons, zlen_nil; lia). by rewrite Z.sub_diag. }
  apply store_inv in H as (H1 & H2 & ->). change (zlen [x]) with 1 in *. unfold load.
  destruct (Z.ltb_spec i 0) as [Hi|Hi]; [done|].
  assert (Hl : length (ztake p m) = Z.to_nat p) by (unfold ztake, zlen in *; rewrite length_take; lia).
  destruct (Z.lt_ge_cases i p) as [Hip|Hip].
  - rewrite lookup_app_l by lia. unfold ztake. by rewrite lookup_take_lt by lia.
  - rewrite lookup_app_r, lookup_app_r by (simpl; lia). rewrite Hl. unfold zdrop. rewrite lookup_drop. f_equal. simpl. lia.
Qed.

Lemma bit_at_byte m p x j : load m p = Some x -> 0 <= j < 8 -> bit_at m (8 * p + j) = Some (Z.testbit x (7 - j)).
Proof.
  intros Hl Hj. unfold bit_at. replace ((8 * p + j) / 8) with p by lia. rewrite Hl. cbn [mbind option_bind].
  do 2 f_equal. lia.
Qed.

Lemma bit_at_store m p x m' i : store m p [x] = Some m' -> i / 8 <> p -> bit_at m' i = bit_at m i.
Proof.
  intros Hs Hi. unfold bit_at. rewrite (load_store_byte _ _ _ _ _ Hs). by destruct (Z.eqb_spec (i / 8) p).
Qed.

(** The current byte of a position that is not at the end. *)
Lemma br_cur b : br_wf b -> br_ptr b < br_max b -> exists cur, load (br_mem b) (br_ptr b) = Some cur /\ is_u8 cur.
Proof.
  intros [Hp _ Hm _ Hb] Hlt. unfold load. destruct (Z.ltb_spec (br_ptr b) 0); [lia|].
  destruct (lookup_lt_is_Some_2 (br_mem b) (Z.to_nat (br_ptr b))) as [x Hx]; [unfold zlen in Hm; lia|].
  exists x. split; [done|]. by apply (Forall_lookup_1 _ _ _ _ Hb Hx).
Qed.

Lemma bytes_ok_store m p l m' : store m p l = Some m' -> bytes_ok m -> bytes_ok l -> bytes_ok m'.
Proof.
  intros (_ & _ & ->)%store_inv Hm Hl. rewrite !bytes_ok_app. auto with mbms.
Qed.

(** Writing [k] bits into the current byte. *)
Lemma put_appended b x cur k v m' ptr' off' : br_wf b -> br_ptr b < br_max b -> load (br_mem b) (br_ptr b) = Some cur ->
  0 < k <= 8 - br_offset b -> is_u8 x ->
  (forall j, 0 <= j < br_offset b + k -> Z.testbit x (7 - j) = if j <? br_offset b then Z.testbit cur (7 - j) else Z.testbit v (k - 1 - (j - br_offset b))) ->
  store (br_mem b) (br_ptr b) [x] = Some m' -> 8 * ptr' + off' = distance b + k -> 0 <= off' < 8 ->
  appended b (move_to (with_mem b m') ptr' off') (wbits k v).
Proof.
  intros Hw Hlt Hc Hk Hx Hbits Hs Hpos Ho. pose proof Hw as [Wp Wo Wm Wd Wb]. unfold distance in *.
  assert (Hl : load m' (br_ptr b) = Some x) by (rewrite (load_store_byte _ _ _ _ _ Hs); by rewrite Z.eqb_refl).
  constructor; unfold distance; cbn.
  - constructor; unfold distance; cbn; try lia; [by rewrite (store_zlen _ _ _ _ Hs)|].
    apply (bytes_ok_store _ _ _ _ Hs Wb), Forall_cons_2; [done|apply Forall_nil_2].
  - done.
  - rewrite zlen_wbits by lia. lia.
  - intros i Hi. destruct (Z.eq_dec (i / 8) (br_ptr b)) as [E|E]; [|by apply (bit_at_store _ _ _ _ _ Hs)].
    replace i with (8 * br_ptr b + i mod 8) by lia.
    rewrite (bit_at_byte _ _ _ _ Hl), (bit_at_byte _ _ _ _ Hc), Hbits by lia.
    by destruct (Z.ltb_spec (i mod 8) (br_offset b)); [|lia].
  - intros i y [Hi ->]%wbits_lookup_inv.
    replace (br_offset b + 8 * br_ptr b + Z.of_nat i) with (8 * br_ptr b + (br_offset b + Z.of_nat i)) by lia.
    rewrite (bit_at_byte _ _ _ _ Hl), Hbits by lia. destruct (Z.ltb_spec (br_offset b + Z.of_nat i) (br_offset b)); [lia|].
    do 2 f_equal. lia.
Qed.

(** ** Packing *)

(** What a call that packs the bits [l] does: it appends them, or it fails because they
    do not fit, and what was packed before stays. *)
Definition packs (r : option (SRSASN_CODE * bit_ref)) (fits : bool) (b : bit_ref) (l : list bool) : Prop :=
  if fits then exists b', r = Some (SRSASN_SUCCESS, b') /\ appended b b' l
  else exists b' l', r = Some (SRSASN_ERROR_ENCODE_FAIL, b') /\ appended b b' l'.

Lemma store_byte m p x y : load m p = Some y -> exists m', store m p [x] = Some m'.
Proof.
  unfold load. intros H. destruct (Z.ltb_spec p 0); [done|]. apply lookup_lt_Some in H.
  eexists. apply store_Some; [lia|]. change (zlen [x]) with 1. unfold zlen. lia.
Qed.

(** One turn of the loop puts as many bits as the current byte takes. *)
Lemma pack_turn b val n cur k : br_wf b -> br_ptr b < br_max b -> load (br_mem b) (br_ptr b) = Some cur -> is_u8 cur ->
  0 < k <= 8 - br_offset b -> k <= n ->
  let x := u8 (Z.land cur (u8 (255 - u8 (2 ^ (8 - br_offset b) - 1))) + u8 (Z.shiftl (Z.shiftr (Z.land val (2 ^ n - 1)) (n - k)) (8 - br_offset b - k))) in
  forall ptr' off', 8 * ptr' + off' = distance b + k -> 0 <= off' < 8 ->
  exists m', store (br_mem b) (br_ptr b) [x] = Some m' /\ appended b (move_to (with_mem b m') ptr' off') (wbits k (Z.shiftr val (n - k))).
Proof.
  intros Hw Hlt Hc Hu Hk Hn x ptr' off' Hp Ho. pose proof Hw as [Wp Wo Wm Wd Wb].
  set (v := Z.shiftr (Z.land val (2 ^ n - 1)) (n - k)) in *.
  assert (Ev : v = Z.shiftr val (n - k) mod 2 ^ k).
  { unfold v. replace (2 ^ n - 1) with (Z.ones n) by (rewrite Z.ones_equiv; lia). apply Z.bits_inj'. intros i Hi.
    rewrite Z.shiftr_spec, Z.land_spec by lia. destruct (Z.lt_ge_cases i k) as [Hik|Hik].
    - rewrite Z.ones_spec_low, andb_true_r, Z.mod_pow2_bits_low, Z.shiftr_spec by lia. done.
    - rewrite Z.ones_spec_high, andb_false_r, Z.mod_pow2_bits_high by lia. done. }
  destruct (put_bits cur (br_offset b) k v Hu Wo Hk) as [Hx Hb]; [rewrite Ev; apply Z.mod_pos_bound; apply Z.pow_pos_nonneg; lia|].
  fold x in Hx, Hb. destruct (store_byte _ _ x _ Hc) as [m' Hs]. exists m'. split; [done|].
  rewrite <- wbits_mod, <- Ev by lia.
  apply (put_appended b x cur k v m' ptr' off'); try done.
  intros j Hj. rewrite Hb by lia. destruct (Z.ltb_spec j (br_offset b)); [done|]. by destruct (Z.ltb_spec j (br_offset b + k)); [|lia].
Qed.

Lemma pack_loop_spec fuel : forall b val n, br_wf b -> 0 <= n -> n <= Z.of_nat fuel ->
  packs (pack_loop fuel b val n) (distance b + n <=? 8 * br_max b) b (wbits n val).
Proof.
  induction fuel as [|fuel IH]; intros b val n Hw Hn Hf; pose proof Hw as [Wp Wo Wm Wd Wb].
  all: destruct (Z.eq_dec n 0) as [->|Hn0].
  1, 3: simpl; destruct (Z.leb_spec (distance b + 0) (8 * br_max b)); [|lia]; exists b; split; [done|by apply appended_refl].
  { lia. }
  cbn [pack_loop]. destruct (Z.eqb_spec n 0); [lia|]. destruct (Z.leb_spec (br_max b) (br_ptr b)) as [Hm|Hm].
  { unfold distance in *. destruct (Z.leb_spec (br_offset b + 8 * br_ptr b + n) (8 * br_max b)); [lia|].
    exists b, []. split; [done|by apply appended_refl]. }
  destruct (br_cur b Hw Hm) as (cur & Hc & Hu). rewrite Hc. cbn [mbind option_bind].
  destruct (Z.ltb_spec n (8 - br_offset b)) as [Hlt|Hge].
  - destruct (pack_turn b val n cur n Hw Hm Hc Hu) with (ptr' := br_ptr b) (off' := br_offset b + n) as (m' & Hs & Ha);
      [lia|lia|unfold distance; lia|lia|]. rewrite Z.sub_diag, !Z.shiftr_0_r in Hs. rewrite Hs. cbn [mbind option_bind].
    rewrite Z.sub_diag, Z.shiftr_0_r in Ha. rewrite (u8_id (br_offset b + n)) by (unfold is_u8; lia).
    unfold distance in *. destruct (Z.leb_spec (br_offset b + 8 * br_ptr b + n) (8 * br_max b)); [|lia].
    eexists. split; [by destruct fuel|exact Ha].
  - destruct (pack_turn b val n cur (8 - br_offset b) Hw Hm Hc Hu) with (ptr' := br_ptr b + 1) (off' := 0) as (m' & Hs & Ha);
      [lia|lia|unfold distance; lia|lia|]. rewrite Z.sub_diag, Z.shiftl_0_r in Hs. replace (n - (8 - br_offset b)) with (n - 8 + br_offset b) in Hs by lia.
    rewrite Hs. cbn [mbind option_bind]. set (b1 := move_to (with_mem b m') (br_ptr b + 1) 0) in *.
    specialize (IH b1 (Z.land val (2 ^ n - 1)) (n - (8 - br_offset b)) (ap_wf _ _ _ Ha) ltac:(lia) ltac:(lia)).
    assert (E : wbits (n - (8 - br_offset b)) (Z.land val (2 ^ n - 1)) = wbits (n - (8 - br_offset b)) val).
    { rewrite <- wbits_mod by lia. rewrite <- (wbits_mod _ val) by lia. f_equal.
      replace (2 ^ n - 1) with (Z.ones n) by (rewrite Z.ones_equiv; lia). rewrite <- !Z.land_ones by lia. apply Z.bits_inj'.
      intros i Hi. rewrite !Z.land_spec. destruct (Z.lt_ge_cases i (n - (8 - br_offset b))) as [Hi'|Hi'].
      - rewrite !Z.ones_spec_low by lia. by rewrite !andb_true_r.
      - rewrite (Z.ones_spec_high (n - (8 - br_offset b))) by lia. by rewrite !andb_false_r. }
    rewrite E in IH. assert (Ed : distance b1 = distance b + (8 - br_offset b)) by (unfold distance; cbn; lia).
    change (br_max b1) with (br_max b) in IH. rewrite Ed in IH. replace (distance b + (8 - br_offset b) + (n - (8 - br_offset b))) with (distance b + n) in IH by lia.
    unfold packs in *. destruct (distance b + n <=? 8 * br_max b).
    + destruct IH as (b' & Hr & Ha'). exists b'. split; [exact Hr|]. rewrite (wbits_split n (8 - br_offset b)) by lia.
      by eapply appended_trans.
    + destruct IH as (b' & l' & Hr & Ha'). eexists b', _. split; [exact Hr|]. by eapply appended_trans.
Qed.

Lemma pack_spec val n b : br_wf b -> 0 <= n < 64 -> packs (pack val n b) (distance b + n <=? 8 * br_max b) b (wbits n val).
Proof. intros Hw Hn. unfold pack. destruct (Z.leb_spec 64 n); [lia|]. apply pack_loop_spec; [done|lia|lia]. Qed.

(** ** Unpacking *)

Definition seek (b : bit_ref) (pos : Z) : bit_ref := move_to b (pos / 8) (pos mod 8).

(** [b'] is a later position in the buffer of [b]. *)
Record moved (b b' : bit_ref) : Prop := {
  mv_wf : br_wf b';
  mv_mem : br_mem b' = br_mem b;
  mv_max : br_max b' = br_max b;
  mv_pos : distance b <= distance b'
}.

Lemma moved_refl b : br_wf b -> moved b b.
Proof. intros. by constructor. Qed.

Lemma moved_trans b1 b2 b3 : moved b1 b2 -> moved b2 b3 -> moved b1 b3.
Proof. intros [] []. constructor; try congruence. lia. Qed.

Lemma distance_seek b pos : distance (seek b pos) = pos.
Proof. unfold distance, seek. cbn. lia. Qed.

Lemma seek_distance b : br_wf b -> seek b (distance b) = b.
Proof.
  intros [_ Ho _ _ _]. destruct b as [m p o x]. unfold seek, distance, move_to. cbn in *. f_equal; lia.
Qed.

Lemma seek_seek b p q : seek (seek b p) q = seek b q.
Proof. done. Qed.

Lemma seek_moved b pos : br_wf b -> distance b <= pos <= 8 * br_max b -> moved b (seek b pos).
Proof.
  intros Hw Hp. pose proof (br_wf_pos _ Hw). pose proof Hw as [Wp Wo Wm Wd Wb]. constructor; try done.
  - constructor; try done; unfold seek, distance; cbn; lia.
  - rewrite distance_seek. lia.
Qed.

Lemma wbits_inj n v1 v2 : 0 <= n -> 0 <= v1 < 2 ^ n -> 0 <= v2 < 2 ^ n -> wbits n v1 = wbits n v2 -> v1 = v2.
Proof.
  intros Hn H1 H2 E. rewrite <- (Z.mod_small v1 (2 ^ n)), <- (Z.mod_small v2 (2 ^ n)) by done.
  apply Z.bits_inj'. intros i Hi. destruct (Z.lt_ge_cases i n) as [Hin|Hin].
  - rewrite !Z.mod_pow2_bits_low by done. pose proof (f_equal (fun l => l !! Z.to_nat (n - 1 - i)) E) as El. cbn beta in El.
    rewrite !wbits_lookup in El by lia. injection El as El. by replace (n - 1 - Z.of_nat (Z.to_nat (n - 1 - i))) with i in El by lia.
  - by rewrite !Z.mod_pow2_bits_high by lia.
Qed.

(** A buffer has one list of bits of a length at a position. *)
Lemma bits_at_unique m pos l1 l2 : length l1 = length l2 -> bits_at m pos l1 -> bits_at m pos l2 -> l1 = l2.
Proof.
  intros Hl H1 H2. apply list_eq_same_length with (n := length l1); [done..|]. intros i x y _ Hx Hy.
  specialize (H1 _ _ Hx). specialize (H2 _ _ Hy). congruence.
Qed.

(** Bits [off .. off + k - 1] of a byte, the most significant first, as a number. *)
Lemma byte_bits m p cur off k : load m p = Some cur -> 0 <= off -> 0 <= k -> off + k <= 8 ->
  bits_at m (8 * p + off) (wbits k (Z.shiftr cur (8 - off - k))).
Proof.
  intros Hl Ho Hk Hs i x [Hi ->]%wbits_lookup_inv.
  rewrite <- Z.add_assoc, (bit_at_byte _ _ _ _ Hl) by lia. rewrite Z.shiftr_spec by lia. do 2 f_equal. lia.
Qed.

(** What is taken from the current byte: the last [k] bits in a full turn, [n] bits in
    the middle otherwise. *)
Lemma take_low cur off : is_u8 cur -> 0 <= off < 8 -> Z.land cur (u8 (2 ^ (8 - off) - 1)) = cur mod 2 ^ (8 - off).
Proof.
  intros Hc Ho. assert (0 < 2 ^ (8 - off) <= 2 ^ 8) by (split; [apply Z.pow_pos_nonneg|apply Z.pow_le_mono_r]; lia).
  rewrite u8_id by (unfold is_u8; lia). rewrite <- Z.land_ones, Z.ones_equiv by lia. f_equal.
Qed.

Lemma take_middle cur off n : is_u8 cur -> 0 <= off < 8 -> 0 < n < 8 - off ->
  Z.shiftr (Z.land cur (u8 (u8 (2 ^ (8 - off)) - u8 (2 ^ (8 - off - n))))) (8 - off - n) = Z.shiftr cur (8 - off - n) mod 2 ^ n.
Proof.
  intros Hc Ho Hn.
  pose proof (range_forallb_spec 256 (fun cur => range_forallb 8 (fun off => range_forallb 8 (fun n =>
    negb (0 <? n) || negb (n <? 8 - off) ||
    (Z.shiftr (Z.land cur (u8 (u8 (2 ^ (8 - off)) - u8 (2 ^ (8 - off - n))))) (8 - off - n) =? Z.shiftr cur (8 - off - n) mod 2 ^ n))))) as H.
  pose proof (range_forallb_spec 8 _ (H ltac:(vm_compute; reflexivity) cur Hc) off Ho) as H1.
  pose proof (range_forallb_spec 8 _ H1 n ltac:(lia)) as H2. cbn beta in H2.
  rewrite (proj2 (Z.ltb_lt 0 n)), (proj2 (Z.ltb_lt n (8 - off))) in H2 by lia. by apply Z.eqb_eq.
Qed.

(** A call that reads [n] bits. *)
Definition unpacks {A} (r : option ((SRSASN_CODE + A) * bit_ref)) (b : bit_ref) (n : Z) (f : Z -> A) : Prop :=
  if distance b + n <=? 8 * br_max b then
    exists v, 0 <= v < 2 ^ n /\ bits_at (br_mem b) (distance b) (wbits n v) /\ r = Some (inr (f v), seek b (distance b + n))
  else exists b', r = Some (inl SRSASN_ERROR_DECODE_FAIL, b') /\ moved b b'.

Lemma unpack_loop_spec fuel w : forall b val n, br_wf b -> 0 <= n <= 32 -> n <= Z.of_nat fuel -> 0 <= val < 2 ^ w ->
  unpacks (as_result <$> unpack_loop fuel w b val n) b n (fun v => (val + v) mod 2 ^ w).
Proof.
  induction fuel as [|fuel IH]; intros b val n Hw Hn Hf Hv; pose proof Hw as [Wp Wo Wm Wd Wb].
  all: destruct (Z.eq_dec n 0) as [->|Hn0].
  1, 3: simpl; unfold unpacks; destruct (Z.leb_spec (distance b + 0) (8 * br_max b)); [|lia];
    exists 0; rewrite Z.add_0_r, Z.mod_small, Z.add_0_r, seek_distance by done; repeat split; try lia; apply bits_at_nil.
  { lia. }
  cbn [unpack_loop]. destruct (Z.eqb_spec n 0); [lia|]. unfold unpacks. destruct (Z.leb_spec (br_max b) (br_ptr b)) as [Hm|Hm].
  { unfold distance in *. destruct (Z.leb_spec (br_offset b + 8 * br_ptr b + n) (8 * br_max b)); [lia|].
    exists b. split; [done|by apply moved_refl]. }
  destruct (br_cur b Hw Hm) as (cur & Hc & Hu). rewrite Hc. cbn [mbind option_bind]. set (off := br_offset b) in *.
  destruct (Z.ltb_spec n (8 - off)) as [Hlt|Hge].
  - unfold distance in *. fold off in Wd |- *. destruct (Z.leb_spec (off + 8 * br_ptr b + n) (8 * br_max b)); [|lia].
    exists (Z.shiftr cur (8 - off - n) mod 2 ^ n). split; [apply Z.mod_pos_bound, Z.pow_pos_nonneg; lia|]. split.
    { rewrite wbits_mod, Z.add_comm by lia. apply byte_bits; [done|lia..]. }
    rewrite take_middle by (done || lia). rewrite (u8_id (off + n)) by (unfold is_u8; lia).
    replace (seek b (off + 8 * br_ptr b + n)) with (move_to b (br_ptr b) (off + n)) by (unfold seek, move_to; f_equal; lia).
    by destruct fuel.
  - destruct (Z.leb_spec 32 (n - 8 + off)); [lia|]. rewrite take_low by (done || lia).
    set (hi := cur mod 2 ^ (8 - off)) in *. assert (Hhi : 0 <= hi < 2 ^ (8 - off)) by (apply Z.mod_pos_bound, Z.pow_pos_nonneg; lia).
    set (k := 8 - off) in *. replace (n - 8 + off) with (n - k) by lia.
    assert (Hpow : 2 ^ n = 2 ^ k * 2 ^ (n - k)) by (rewrite <- Z.pow_add_r by lia; f_equal; lia).
    assert (0 < 2 ^ (n - k)) by (apply Z.pow_pos_nonneg; lia).
    assert (2 ^ n <= 2 ^ 32) by (apply Z.pow_le_mono_r; lia).
    rewrite Z.shiftl_mul_pow2, u32_id by (unfold is_u32; nia || lia).
    set (val1 := (val + hi * 2 ^ (n - k)) mod 2 ^ w).
    assert (Hw1 : 0 <= val1 < 2 ^ w) by (apply Z.mod_pos_bound; lia).
    set (b1 := move_to b (br_ptr b + 1) 0). assert (Ed : distance b1 = distance b + k) by (unfold distance; cbn; fold off; lia).
    assert (Hmv : moved b b1).
    { replace b1 with (seek b (distance b + k)).
      - apply seek_moved; [done|]. unfold distance; fold off; lia.
      - unfold seek, b1, distance, move_to. fold off. f_equal; lia. }
    specialize (IH b1 val1 (n - k) (mv_wf _ _ Hmv) ltac:(lia) ltac:(lia) Hw1). unfold unpacks in IH.
    rewrite Ed in IH. change (br_max b1) with (br_max b) in IH. change (br_mem b1) with (br_mem b) in IH. replace (distance b + k + (n - k)) with (distance b + n) in IH by lia.
    destruct (distance b + n <=? 8 * br_max b).
    + destruct IH as (v & Hv1 & Hb & Hr). exists (hi * 2 ^ (n - k) + v). split; [nia|]. split.
      * rewrite (wbits_split n k) by lia.
        assert (E1 : Z.shiftr (hi * 2 ^ (n - k) + v) (n - k) = hi).
        { rewrite Z.shiftr_div_pow2 by lia. rewrite Z.div_add_l by lia. rewrite Z.div_small by lia. lia. }
        assert (E2 : wbits (n - k) (hi * 2 ^ (n - k) + v) = wbits (n - k) v).
        { rewrite <- wbits_mod by lia. rewrite Z.add_comm, Z.mod_add, Z.mod_small by lia. done. }
        rewrite E1, E2. apply bits_at_app. rewrite zlen_wbits by lia. split; [|done].
        unfold hi, distance. rewrite wbits_mod by lia. rewrite Z.add_comm, <- (Z.shiftr_0_r cur). fold off. replace 0 with (8 - off - k) by lia.
        apply byte_bits; [done|lia..].
      * rewrite Hr. change (seek b1 (distance b + n)) with (seek b (distance b + n)). unfold val1. rewrite Zplus_mod_idemp_l.
        rewrite Z.add_assoc. done.
    + destruct IH as (b' & Hr & Hmv'). exists b'. split; [done|by eapply moved_trans].
Qed.

Lemma unpack_spec w n b : br_wf b -> 0 <= n <= 32 -> n <= w -> unpacks (unpack w n b) b n (fun v => v).
Proof.
  intros Hw Hn Hnw. unfold unpack, unpack_bits. destruct (Z.ltb_spec w n) as [?|_]; [lia|].
  pose proof (unpack_loop_spec (Z.to_nat n) w b 0 n Hw Hn ltac:(lia)) as H. unfold unpacks in *.
  destruct (distance b + n <=? 8 * br_max b).
  - destruct H as (v & Hv & Hb & ->); [split; [lia|apply Z.pow_pos_nonneg; lia]|]. exists v. do 2 (split; [done|]).
    assert (2 ^ n <= 2 ^ w) by (apply Z.pow_le_mono_r; lia). by rewrite Z.add_0_l, Z.mod_small by lia.
  - apply H. split; [lia|apply Z.pow_pos_nonneg; lia].
Qed.

(** ** Encodings *)

(** An encoding is a list of bits that may depend on the position it starts at, because
    of the padding to a byte boundary. *)
Definition encoding := Z -> list bool.

Definition enc_nil : encoding := fun _ => [].
Definition enc_bits (n v : Z) : encoding := fun _ => wbits n v.
Definition enc_app (e1 e2 : encoding) : encoding := fun p => e1 p ++ e2 (p + zlen (e1 p)).
Definition enc_pad : encoding := fun p => wbits (- p mod 8) 0.

Fixpoint enc_concat (l : list encoding) : encoding :=
  match l with [] => enc_nil | e :: l' => enc_app e (enc_concat l') end.

(** A packer with the encoding [e]: it appends the bits when a byte of the buffer is left
    after them; whatever happens, it stays within the buffer and what was packed before it
    stays as it is. *)
Record encodes (f : packer) (e : encoding) : Prop := {
  en_ok : forall b, br_wf b -> distance b + zlen (e (distance b)) + 8 <= 8 * br_max b ->
    exists b', f b = Some (SRSASN_SUCCESS, b') /\ appended b b' (e (distance b));
  en_safe : forall b, br_wf b -> exists c b' l, f b = Some (c, b') /\ appended b b' l
}.

(** An unpacker that reads the value [v] from the encoding [e]. *)
Definition decodes {A} (g : unpacker A) (e : encoding) (v : A) : Prop :=
  forall b, br_wf b -> distance b + zlen (e (distance b)) <= 8 * br_max b -> bits_at (br_mem b) (distance b) (e (distance b)) ->
  g b = Some (inr v, seek b (distance b + zlen (e (distance b)))).

(** An unpacker that, on every input, returns and only reads the buffer. *)
Definition reads_safely {A} (g : unpacker A) : Prop :=
  forall b, br_wf b -> exists r b', g b = Some (r, b') /\ moved b b'.

(** What is packed can be unpacked. *)
Lemma unpack_packed {A} (f : packer) (g : unpacker A) e v b : encodes f e -> decodes g e v -> br_wf b ->
  distance b + zlen (e (distance b)) + 8 <= 8 * br_max b ->
  exists b', f b = Some (SRSASN_SUCCESS, b') /\ appended b b' (e (distance b)) /\ g (seek b' (distance b)) = Some (inr v, b').
Proof.
  intros Hf Hg Hw Hr. destruct (en_ok _ _ Hf b Hw Hr) as (b' & E & Ha). exists b'. do 2 (split; [done|]).
  pose proof Ha as [Hw' Hm Hp _ Hb]. pose proof (br_wf_pos _ Hw). pose proof (zlen_nonneg (e (distance b))).
  assert (Hw1 : br_wf (seek b' (distance b))).
  { destruct Hw' as [W1 W2 W3 W4 W5]. constructor; try done; unfold seek, distance in *; cbn; try lia. }
  pose proof (Hg _ Hw1) as Hd. rewrite distance_seek in Hd. cbn [seek move_to br_max br_mem] in Hd. rewrite Hm in Hd.
  rewrite Hd by (done || lia). rewrite seek_seek, <- Hp. by rewrite seek_distance.
Qed.

Section Combinators.
Context {A B : Type}.
Implicit Types (f g : packer) (u : unpacker A) (k : A -> unpacker B) (e : encoding).

Lemma encodes_handle f g e1 e2 : encodes f e1 -> encodes g e2 -> encodes (handle f g) (enc_app e1 e2).
Proof.
  intros [Hf Sf] [Hg Sg]. split.
  - intros b Hw Hr. unfold enc_app in *. rewrite zlen_app in Hr. pose proof (zlen_nonneg (e2 (distance b + zlen (e1 (distance b))))).
    destruct (Hf b Hw ltac:(lia)) as (b1 & E1 & H1). unfold handle. rewrite E1. cbn [mbind option_bind].
    destruct (Hg b1 (ap_wf _ _ _ H1)) as (b2 & E2 & H2).
    { rewrite (ap_pos _ _ _ H1), (ap_max _ _ _ H1). lia. }
    exists b2. split; [done|]. rewrite (ap_pos _ _ _ H1) in H2. by eapply appended_trans.
  - intros b Hw. destruct (Sf b Hw) as (c & b1 & l1 & E1 & H1). unfold handle. rewrite E1. cbn [mbind option_bind].
    destruct c; [|by eexists _, _, _..]. destruct (Sg b1 (ap_wf _ _ _ H1)) as (c & b2 & l2 & E2 & H2).
    eexists c, b2, _. split; [done|by eapply appended_trans].
Qed.

Lemma encodes_ignore f g e1 e2 : encodes f e1 -> encodes g e2 -> encodes (ignore f g) (enc_app e1 e2).
Proof.
  intros Hf Hg. split.
  - intros b Hw Hr. destruct (en_ok _ _ (encodes_handle _ _ _ _ Hf Hg) b Hw Hr) as (b' & E & H). exists b'. split; [|done].
    unfold handle, ignore in *. destruct (f b) as [[c b1]|]; [|done]. cbn in *. by destruct c.
  - intros b Hw. destruct (en_safe _ _ Hf b Hw) as (c & b1 & l1 & E1 & H1). unfold ignore. rewrite E1. cbn [mbind option_bind].
    destruct (en_safe _ _ Hg b1 (ap_wf _ _ _ H1)) as (c' & b2 & l2 & E2 & H2).
    eexists c', b2, _. split; [done|by eapply appended_trans].
Qed.

Lemma decodes_bind u k e1 e2 x y : decodes u e1 x -> decodes (k x) e2 y -> decodes (handle_val u k) (enc_app e1 e2) y.
Proof.
  intros Hu Hk b Hw Hr Hb. unfold enc_app in *. rewrite zlen_app in *. apply bits_at_app in Hb as [Hb1 Hb2].
  pose proof (zlen_nonneg (e2 (distance b + zlen (e1 (distance b))))). pose proof (zlen_nonneg (e1 (distance b))).
  unfold handle_val. rewrite (Hu b Hw ltac:(lia) Hb1). cbn [mbind option_bind].
  assert (Hm : moved b (seek b (distance b + zlen (e1 (distance b))))) by (apply seek_moved; [done|lia]).
  rewrite (Hk _ (mv_wf _ _ Hm)); rewrite ?distance_seek; cbn [seek move_to br_max br_mem]; try done; try lia.
  rewrite seek_seek. do 3 f_equal. lia.
Qed.

Lemma decodes_ignore d u k e1 e2 x y : decodes u e1 x -> decodes (k x) e2 y -> decodes (ignore_val d u k) (enc_app e1 e2) y.
Proof.
  intros Hu Hk b Hw Hr Hb. rewrite <- (decodes_bind u k e1 e2 x y Hu Hk b Hw Hr Hb).
  unfold enc_app in *. rewrite zlen_app in *. apply bits_at_app in Hb as [Hb1 _].
  pose proof (zlen_nonneg (e2 (distance b + zlen (e1 (distance b))))).
  unfold ignore_val, handle_val. by rewrite (Hu b Hw ltac:(lia) Hb1).
Qed.

Lemma reads_bind u k : reads_safely u -> (forall x, reads_safely (k x)) -> reads_safely (handle_val u k).
Proof.
  intros Hu Hk b Hw. destruct (Hu b Hw) as (r & b1 & E & Hm). unfold handle_val. rewrite E. cbn [mbind option_bind].
  destruct r as [c|x]; [by eexists _, _|]. destruct (Hk x b1 (mv_wf _ _ Hm)) as (r & b2 & E2 & Hm2).
  eexists _, _. split; [done|by eapply moved_trans].
Qed.

Lemma reads_ignore d u k : reads_safely u -> (forall x, reads_safely (k x)) -> reads_safely (ignore_val d u k).
Proof.
  intros Hu Hk b Hw. destruct (Hu b Hw) as (r & b1 & E & Hm). unfold ignore_val. rewrite E. cbn [mbind option_bind].
  destruct (Hk (match r with inl _ => d | inr x => x end) b1 (mv_wf _ _ Hm)) as (r' & b2 & E2 & Hm2).
  eexists _, _. split; [done|by eapply moved_trans].
Qed.

Lemma decodes_returns (x : A) : decodes (returns x) enc_nil x.
Proof. intros b Hw _ _. unfold returns, enc_nil. by rewrite zlen_nil, Z.add_0_r, seek_distance. Qed.

Lemma reads_returns (x : A) : reads_safely (returns x).
Proof. intros b Hw. eexists _, _. split; [done|by apply moved_refl]. Qed.

Lemma reads_fail : reads_safely (@decode_fail A).
Proof. intros b Hw. eexists _, _. split; [done|by apply moved_refl]. Qed.

(** Encodings that are the same lists of bits. *)
Lemma encodes_ext f e1 e2 : (forall p, 0 <= p -> e1 p = e2 p) -> encodes f e1 -> encodes f e2.
Proof.
  intros He [Ho Hs]. split; [|done]. intros b Hw. rewrite <- He by (by apply br_wf_pos). by apply Ho.
Qed.

Lemma decodes_ext u e1 e2 x : (forall p, 0 <= p -> e1 p = e2 p) -> decodes u e1 x -> decodes u e2 x.
Proof. intros He Hd b Hw. rewrite <- He by (by apply br_wf_pos). by apply Hd. Qed.
End Combinators.

Lemma encodes_success : encodes success enc_nil.
Proof.
  split; intros b Hw; [intros _; exists b|exists SRSASN_SUCCESS, b, []]; (split; [done|by apply appended_refl]).
Qed.

Lemma encodes_pack v n : 0 <= n < 64 -> encodes (pack v n) (enc_bits n v).
Proof.
  intros Hn. split; intros b Hw.
  - unfold enc_bits. rewrite zlen_wbits by lia. intros Hr. pose proof (pack_spec v n b Hw Hn) as H.
    rewrite (proj2 (Z.leb_le _ _)) in H by lia. exact H.
  - pose proof (pack_spec v n b Hw Hn) as H. unfold packs in H. destruct (distance b + n <=? 8 * br_max b).
    + destruct H as (b' & E & H). by eexists _, _, _.
    + destruct H as (b' & l & E & H). by eexists _, _, _.
Qed.

Lemma decodes_unpack w n v : 0 <= n <= 32 -> n <= w -> 0 <= v < 2 ^ n -> decodes (unpack w n) (enc_bits n v) v.
Proof.
  intros Hn Hnw Hv b Hw. unfold enc_bits. rewrite zlen_wbits by lia. intros Hr Hb.
  pose proof (unpack_spec w n b Hw Hn Hnw) as H. unfold unpacks in H. rewrite (proj2 (Z.leb_le _ _)) in H by lia.
  destruct H as (v' & Hv' & Hb' & ->). do 3 f_equal. apply (wbits_inj n); [lia..|].
  eapply bits_at_unique; [|exact Hb'|exact Hb]. apply Nat2Z.inj. fold (zlen (wbits n v')) (zlen (wbits n v)). rewrite !zlen_wbits; lia.
Qed.

Lemma reads_unpack w n : 0 <= n <= 32 -> reads_safely (unpack w n).
Proof.
  intros Hn b Hw. destruct (Z.lt_ge_cases w n) as [Hnw|Hnw].
  { unfold unpack, unpack_bits. rewrite (proj2 (Z.ltb_lt _ _)) by done. eexists _, _. split; [done|by apply moved_refl]. }
  pose proof (unpack_spec w n b Hw Hn Hnw) as H. unfold unpacks in H. destruct (Z.leb_spec (distance b + n) (8 * br_max b)).
  - destruct H as (v & _ & _ & E). eexists _, _. split; [done|apply seek_moved; [done|lia]].
  - destruct H as (b' & E & Hm). by eexists _, _.
Qed.

Lemma decodes_unpack_bool (x : bool) : decodes unpack_bool (enc_bits 1 (b2z x)) x.
Proof.
  eapply decodes_ext; [|apply (decodes_bind _ _ (enc_bits 1 (b2z x)) enc_nil (b2z x) x)].
  - intros p _. apply app_nil_r.
  - apply decodes_unpack; [lia|lia|by destruct x].
  - replace x with (negb (b2z x =? 0)) at 2 by (by destruct x). apply decodes_returns.
Qed.

Lemma reads_unpack_bool : reads_safely unpack_bool.
Proof. apply reads_bind; [apply reads_unpack; lia|intros; apply reads_returns]. Qed.

(** ** Alignment *)

Lemma pad_bits b : br_wf b -> br_offset b <> 0 -> - distance b mod 8 = 8 - br_offset b.
Proof. intros [_ Ho _ _ _] Hn. unfold distance. lia. Qed.

Lemma zeros_mask off i : 0 < off < 8 -> 0 <= i < 8 -> Z.testbit (u8 (256 - 2 ^ (8 - off))) i = (8 - off <=? i).
Proof.
  intros Ho Hi. rewrite <- (keepmask_bits off i) by lia. f_equal. f_equal.
  pose proof (range_forallb_spec 8 (fun off => (off =? 0) || (256 - 2 ^ (8 - off) =? 255 - u8 (2 ^ (8 - off) - 1)))) as H.
  specialize (H ltac:(vm_compute; reflexivity) off ltac:(lia)). cbn beta in H. destruct (Z.eqb_spec off 0); [lia|]. by apply Z.eqb_eq.
Qed.

Lemma land_u8 x y : is_u8 x -> is_u8 (Z.land x y).
Proof.
  intros Hx. unfold is_u8. replace (Z.land x y) with (Z.land x y mod 2 ^ 8); [apply Z.mod_pos_bound; lia|].
  rewrite <- (Z.mod_small x (2 ^ 8)) at 2 by exact Hx. rewrite <- !Z.land_ones by lia.
  by rewrite <- !Z.land_assoc, (Z.land_comm y).
Qed.

Lemma encodes_align_zero : encodes align_bytes_zero enc_pad.
Proof.
  assert (H : forall b, br_wf b -> exists b', align_bytes_zero b = Some (SRSASN_SUCCESS, b') /\ appended b b' (enc_pad (distance b))).
  { intros b Hw. pose proof Hw as [Wp Wo Wm Wd Wb]. unfold align_bytes_zero, enc_pad. destruct (Z.eqb_spec (br_offset b) 0) as [E|E].
    - exists b. split; [done|]. replace (- distance b mod 8) with 0 by (unfold distance; lia). by apply appended_refl.
    - destruct (Z.leb_spec (br_max b) (br_ptr b)); [unfold distance in Wd; lia|].
      destruct (br_cur b Hw ltac:(lia)) as (cur & Hc & Hu). rewrite Hc. cbn [mbind option_bind].
      set (x := Z.land cur _). destruct (store_byte _ _ x _ Hc) as [m' Hs]. rewrite Hs. cbn [mbind option_bind].
      eexists. split; [done|]. rewrite pad_bits by done.
      apply (put_appended b x cur (8 - br_offset b) 0 m'); try done; unfold distance; try lia.
      + by apply land_u8.
      + intros j Hj. unfold x. rewrite Z.land_spec, zeros_mask, Z.bits_0 by lia.
        destruct (Z.ltb_spec j (br_offset b)), (Z.leb_spec (8 - br_offset b) (7 - j)); try lia; by rewrite ?andb_true_r, ?andb_false_r. }
  split; intros b Hw; [intros _|]; destruct (H b Hw) as (b' & E & Ha); eauto.
Qed.

Lemma skip_align_spec b : br_wf b -> skip_align b = Some (inr tt, seek b (distance b + - distance b mod 8)) /\ moved b (seek b (distance b + - distance b mod 8)).
Proof.
  intros Hw. pose proof Hw as [Wp Wo Wm Wd Wb].
  assert (Hle : distance b + - distance b mod 8 <= 8 * br_max b) by lia. split.
  - unfold skip_align, align_bytes, align_bytes_. destruct (Z.eqb_spec (br_offset b) 0) as [E|E].
    + cbn [mbind option_bind]. replace (- distance b mod 8) with 0 by (unfold distance; lia). by rewrite Z.add_0_r, seek_distance.
    + destruct (Z.leb_spec (br_max b) (br_ptr b)); [unfold distance in Wd; lia|]. cbn [mbind option_bind].
      do 2 f_equal. rewrite pad_bits by done. unfold seek, move_to, distance. f_equal; lia.
  - apply seek_moved; [done|]. split; [|done]. pose proof (Z.mod_pos_bound (- distance b) 8). lia.
Qed.

Lemma decodes_skip_align : decodes skip_align enc_pad tt.
Proof.
  intros b Hw _ _. unfold enc_pad. rewrite zlen_wbits by (apply Z.mod_pos_bound; lia). by apply skip_align_spec.
Qed.

Lemma reads_skip_align : reads_safely skip_align.
Proof. intros b Hw. eexists _, _. by apply skip_align_spec. Qed.

(** ** Bytes *)

Definition enc_bytes (l : bytes) : encoding := enc_concat (map (enc_bits 8) l).

Lemma encodes_pack_each l : encodes (pack_each l) (enc_bytes l).
Proof. induction l as [|x l IH]; [apply encodes_success|]. apply encodes_handle; [apply encodes_pack; lia|done]. Qed.

Lemma decodes_unpack_each l : bytes_ok l -> decodes (unpack_each (length l)) (enc_bytes l) l.
Proof.
  induction l as [|x l IH]; intros Hl; [apply decodes_returns|]. apply Forall_cons_1 in Hl as [Hx Hl].
  apply (decodes_bind _ _ _ _ x); [apply decodes_unpack; [lia|lia|exact Hx]|].
  eapply decodes_ext; [|apply (decodes_bind _ _ (enc_bytes l) enc_nil l); [by apply IH|apply decodes_returns]].
  intros p _. apply app_nil_r.
Qed.

Lemma reads_unpack_each n : reads_safely (unpack_each n).
Proof.
  induction n as [|n IH]; [apply reads_returns|]. apply reads_bind; [apply reads_unpack; lia|]. intros x.
  apply reads_bind; [done|]. intros. apply reads_returns.
Qed.

(** At a byte boundary, packing a byte stores it. *)
Lemma pack_byte b x : is_u8 x -> br_offset b = 0 -> br_ptr b < br_max b ->
  pack x 8 b = (m ← store (br_mem b) (br_ptr b) [x]; Some (SRSASN_SUCCESS, move_to (with_mem b m) (br_ptr b + 1) 0)).
Proof.
  intros Hx Ho Hp. change (pack x 8 b) with (pack_loop (S 7) b x 8). generalize 7%nat as k. intros k. cbn [pack_loop].
  change (8 =? 0) with false. cbn iota. rewrite Ho. destruct (Z.leb_spec (br_max b) (br_ptr b)); [lia|].
  change (8 <? 8 - 0) with false. cbn iota. change (8 - 8 + 0) with 0. change (8 - (8 - 0)) with 0.
  change (u8 (255 - u8 (2 ^ (8 - 0) - 1))) with 0. change (2 ^ 8 - 1) with (Z.ones 8). rewrite Z.shiftr_0_r, Z.land_ones by lia.
  assert (E : u8 (x mod 2 ^ 8) = x) by (unfold is_u8 in Hx; unfold u8; rewrite !Z.mod_small; lia). rewrite E.
  destruct (load (br_mem b) (br_ptr b)) as [cur|] eqn:Hc; cbn [mbind option_bind].
  - rewrite Z.land_0_r, Z.add_0_l, u8_id by done. destruct (store _ _ _); [by destruct k|done].
  - unfold store, load in *. destruct (Z.ltb_spec (br_ptr b) 0); [done|]. cbn [orb].
    apply lookup_ge_None_1 in Hc. change (zlen [x]) with 1. rewrite (proj2 (Z.ltb_lt _ _)); [done|unfold zlen; lia].
Qed.

Lemma store_cons m p x l : 0 <= p -> p + zlen (x :: l) <= zlen m -> store m p (x :: l) = (m1 ← store m p [x]; store m1 (p + 1) l).
Proof.
  intros Hp Hl. rewrite zlen_cons in Hl. pose proof (zlen_nonneg l). rewrite (store_Some m p [x]) by (change (zlen [x]) with 1; lia).
  cbn [mbind option_bind]. change (zlen [x]) with 1.
  assert (Hz : zlen (ztake p m ++ [x]) = p + 1) by (rewrite zlen_app, zlen_ztake by lia; done).
  rewrite app_assoc, (store_Some (_ ++ _)), store_Some; rewrite ?zlen_app, ?zlen_cons, ?zlen_zdrop, ?zlen_ztake, ?zlen_nil; try lia.
  rewrite ztake_app_eq by done. f_equal. rewrite <- (app_assoc (ztake p m) [x]). cbn [app]. do 3 f_equal.
  replace (p + 1 + zlen l) with (zlen l + (p + 1)) by lia.
  rewrite <- (zdrop_zdrop (zlen l) (p + 1) (_ ++ _)), zdrop_app_eq, zdrop_zdrop by (done || lia). f_equal. lia.
Qed.

Lemma pack_each_aligned l : forall b, br_wf b -> bytes_ok l -> br_offset b = 0 -> br_ptr b + zlen l <= br_max b ->
  pack_each l b = (m ← store (br_mem b) (br_ptr b) l; Some (SRSASN_SUCCESS, move_to (with_mem b m) (br_ptr b + zlen l) 0)).
Proof.
  induction l as [|x l IH]; intros b Hw Hl Ho Hr; pose proof Hw as [Wp Wo Wm Wd Wb].
  - rewrite store_Some by (cbn; lia). cbn [mbind option_bind app]. rewrite zlen_nil, Z.add_0_r, ztake_zdrop. cbn [pack_each]. unfold success.
    destruct b as [m p o mx]. cbn in *. by subst.
  - apply Forall_cons_1 in Hl as [Hx Hl]. rewrite zlen_cons in Hr. pose proof (zlen_nonneg l).
    rewrite store_cons by (rewrite ?zlen_cons; lia). cbn [pack_each]. unfold handle. rewrite pack_byte by (done || lia).
    destruct (store (br_mem b) (br_ptr b) [x]) as [m|] eqn:Hs; [|done]. cbn [mbind option_bind].
    rewrite IH; cbn; try done; try lia.
    + replace (br_ptr b + 1 + zlen l) with (br_ptr b + zlen (x :: l)) by (rewrite zlen_cons; lia). done.
    + constructor; unfold distance; cbn; try lia; [by rewrite (store_zlen _ _ _ _ Hs)|].
      apply (bytes_ok_store _ _ _ _ Hs Wb), Forall_cons_2; [done|apply Forall_nil_2].
Qed.

Lemma pack_each_fits l : forall b, br_wf b -> distance b + 8 * zlen l <= 8 * br_max b -> pack_each_ignored l b = pack_each l b.
Proof.
  induction l as [|x l IH]; intros b Hw Hr; [done|]. rewrite zlen_cons in Hr. pose proof (zlen_nonneg l).
  pose proof (pack_spec x 8 b Hw ltac:(lia)) as Hp. rewrite (proj2 (Z.leb_le _ _)) in Hp by lia. destruct Hp as (b1 & E & Ha).
  cbn [pack_each pack_each_ignored]. unfold handle. rewrite E. cbn [mbind option_bind]. apply IH; [by apply Ha|].
  rewrite (ap_pos _ _ _ Ha), (ap_max _ _ _ Ha), zlen_wbits; lia.
Qed.

Lemma unpack_byte b x : load (br_mem b) (br_ptr b) = Some x -> is_u8 x -> br_offset b = 0 -> br_ptr b < br_max b ->
  unpack 8 8 b = Some (inr x, move_to b (br_ptr b + 1) 0).
Proof.
  intros Hl Hx Ho Hp. change (unpack 8 8 b) with (as_result <$> unpack_loop (S 7) 8 b 0 8). generalize 7%nat as k. intros k. cbn [unpack_loop].
  change (8 =? 0) with false. cbn iota. rewrite Ho, Hl. destruct (Z.leb_spec (br_max b) (br_ptr b)); [lia|]. cbn [mbind option_bind].
  change (8 <? 8 - 0) with false. change (32 <=? 8 - 8 + 0) with false. cbn iota. change (8 - 8 + 0) with 0. change (8 - (8 - 0)) with 0.
  rewrite take_low by (done || lia). rewrite Z.shiftl_0_r. unfold is_u8 in Hx.
  assert (E : (0 + u32 (x mod 2 ^ (8 - 0))) mod 2 ^ 8 = x) by (unfold u32; rewrite !Z.mod_small; lia). rewrite E. by destruct k.
Qed.

Lemma unpack_each_aligned n : forall b, br_wf b -> br_offset b = 0 -> br_ptr b + Z.of_nat n <= br_max b ->
  unpack_each n b = (l ← load_bytes (br_mem b) (br_ptr b) (Z.of_nat n); Some (inr l, move_to b (br_ptr b + Z.of_nat n) 0)).
Proof.
  induction n as [|n IH]; intros b Hw Ho Hr; pose proof Hw as [Wp Wo Wm Wd Wb].
  - rewrite load_bytes_Some by lia. cbn. unfold returns. rewrite Z.add_0_r. destruct b as [m p o mx]. cbn in *. by subst.
  - destruct (br_cur b Hw ltac:(lia)) as (x & Hx & Hu). cbn [unpack_each]. unfold handle_val. rewrite (unpack_byte b x) by (done || lia).
    cbn [mbind option_bind]. rewrite IH; cbn; try done; try lia.
    + rewrite !load_bytes_Some by lia. cbn [mbind option_bind]. unfold returns. cbn [br_ptr move_to].
      replace (br_ptr b + 1 + Z.of_nat n) with (br_ptr b + Z.of_nat (S n)) by lia. do 3 f_equal. unfold load in Hx. destruct (Z.ltb_spec (br_ptr b) 0); [done|]. unfold ztake, zdrop.
      replace (Z.to_nat (Z.of_nat (S n))) with (S (Z.to_nat (Z.of_nat n))) by lia. replace (Z.to_nat (br_ptr b + 1)) with (S (Z.to_nat (br_ptr b))) by lia.
      by rewrite (drop_S _ _ _ Hx).
    + constructor; try done; unfold distance; cbn; lia.
Qed.

(** The block operations [pack_bytes] and [unpack_bytes], which copy the bytes when the
    position is at a byte boundary, are equivalent to packing and unpacking the bytes one by one,
    at every bit offset, when a byte is left after the block. *)
Theorem pack_bytes_equivalent b l : br_wf b -> bytes_ok l -> br_ptr b + zlen l < br_max b ->
  pack_bytes l b = pack_each l b /\ unpack_bytes (zlen l) b = unpack_each (length l) b.
Proof.
  intros Hw Hl Hr. pose proof Hw as [Wp Wo Wm Wd Wb]. pose proof (zlen_nonneg l).
  assert (En : Z.to_nat (zlen l) = length l) by (unfold zlen; lia).
  unfold pack_bytes, unpack_bytes. destruct (Z.eqb_spec (zlen l) 0) as [E|E].
  { by rewrite (zlen_0 _ E). }
  destruct (Z.leb_spec (br_max b) (br_ptr b + zlen l)); [lia|].
  destruct (Z.eqb_spec (br_offset b) 0) as [Eo|Eo]; split.
  - by rewrite pack_each_aligned by (done || lia).
  - destruct (Z.ltb_spec (br_max b) (br_ptr b + zlen l)); [lia|]. unfold zlen in *. by rewrite unpack_each_aligned by (done || lia).
  - apply pack_each_fits; [done|]. unfold distance. lia.
  - by rewrite En.
Qed.

Lemma pack_bytes_equivalent_witness : let b := mk_bref [0xA5; 0; 0; 0] 0 3 4 in
  pack_bytes [1; 0xFF] b = Some (SRSASN_SUCCESS, mk_bref [0xA0; 0x3F; 0xE0; 0] 2 3 4) /\ unpack_bytes 2 b = unpack_each 2 b.
Proof.
  intros b. destruct (pack_bytes_equivalent b [1; 0xFF]) as [H1 H2].
  - constructor; try (vm_compute; done). by repeat constructor.
  - by repeat constructor.
  - done.
  - split; [rewrite H1; vm_compute; reflexivity|exact H2].
Defined.
