(* ===== verification/Per.v ===== *)
(** * ASN.1 packed encoding rules

    The primitives of [lib/src/asn1/asn1_utils.cc] and [lib/include/srsran/asn1/asn1_utils.h]
    that the generated RRC codecs are built of: enumerations, constrained and
    unconstrained integers, length determinants, octet strings, bit strings and lists of
    items, in the unaligned variant (RRC) and the aligned one (S1AP).

    Each packer is shown to have an encoding in the sense of [BitRef], and the unpacker to
    read the value back from it. *)

From stdpp Require Import base list numbers.
From S2P Require Import Prelude BitRef.

Local Open Scope Z_scope.

(** The logarithms of [<cmath>] in single precision, as the code uses them: [ceil_log2 x] is
    [(uint32_t)ceilf(log2f(x))] and [bit_width x] is [(uint32_t)floorf(log2f(x) + 1)].
    [log2f] is exact on powers of two and not required to be correctly rounded elsewhere; up
    to 2 to the 20 an error of one unit in the last place does not change the first, and the
    second may be one too large.  The greatest 32-bit number is converted to 2 to the 32. *)
Class Libm := {
  ceil_log2 : Z -> Z;
  bit_width : Z -> Z;
  ceil_log2_ok x : 1 <= x <= 2 ^ 20 -> ceil_log2 x = Z.log2_up x;
  ceil_log2_pow k : 0 <= k <= 32 -> ceil_log2 (2 ^ k) = k;
  bit_width_ok x : 1 <= x < 2 ^ 32 -> Z.log2 x + 1 <= bit_width x <= Z.log2 x + 2;
  bit_width_max : bit_width (2 ^ 32 - 1) = 33
}.

(** Logarithms of numbers rounded to 24 significant bits. *)
Definition round_log2 (x : Z) : Z :=
  let l := Z.log2 x in if 2 ^ (l + 1) - 2 ^ (l - 24) <=? x then l + 1 else l.

Lemma round_log2_bound x : 1 <= x -> Z.log2 x <= round_log2 x <= Z.log2 x + 1.
Proof. intros _. unfold round_log2. destruct (_ <=? _); lia. Qed.

#[export] Instance exact_libm : Libm.
Proof.
  refine {| ceil_log2 := Z.log2_up; bit_width := fun x => round_log2 x + 1 |}.
  - done.
  - intros k Hk. apply Z.log2_up_pow2. lia.
  - intros x Hx. pose proof (round_log2_bound x ltac:(lia)). split; lia.
  - by vm_compute.
Defined.

(** ** Integer types *)

Record int_type := { it_bits : Z; it_signed : bool }.

Definition uint8_t := {| it_bits := 8; it_signed := false |}.
Definition uint16_t := {| it_bits := 16; it_signed := false |}.
Definition uint32_t := {| it_bits := 32; it_signed := false |}.
Definition uint64_t := {| it_bits := 64; it_signed := false |}.
Definition int8_t := {| it_bits := 8; it_signed := true |}.
Definition int16_t := {| it_bits := 16; it_signed := true |}.
Definition int32_t := {| it_bits := 32; it_signed := true |}.
Definition int64_t := {| it_bits := 64; it_signed := true |}.

Definition it_min (t : int_type) : Z := if it_signed t then - 2 ^ (it_bits t - 1) else 0.
Definition it_max (t : int_type) : Z := if it_signed t then 2 ^ (it_bits t - 1) - 1 else 2 ^ it_bits t - 1.

(** Conversion to the type. *)
Definition it_wrap (t : int_type) (x : Z) : Z := (x - it_min t) mod 2 ^ it_bits t + it_min t.

(** [a - b] for [b <= a]: narrow types are computed as [int]; a result that does not fit in a
    signed type of 32 bits or more is undefined. *)
Definition it_sub (t : int_type) (a b : Z) : option Z :=
  if it_signed t && (32 <=? it_bits t) && (it_max t <? a - b) then None else Some (a - b).

Definition ceil_frac (n d : Z) : Z := (n + (d - 1)) / d.

Definition ASN_16K : Z := 16384.
Definition ASN_64K : Z := 65536.

(** A value that an expression of the code leaves undefined. *)
Definition defined {A} (x : option A) (f : A -> packer) : packer := fun b => v ← x; f v b.
Definition defined_val {A B} (x : option A) (f : A -> unpacker B) : unpacker B := fun b => v ← x; f v b.

Section Per.
Context `{Libm}.

(** ** Extension flags *)

Definition pack_unsupported_ext_flag (ext : bool) : packer :=
  handle (pack (b2z ext) 1) (if ext then encode_fail else success).

(** [unpack_unsupported_ext_flag]: a failed [unpack] leaves the flag 0. *)
Definition unpack_unsupported_ext_flag : unpacker bool :=
  handle_val unpack_bool (fun ext => if ext then decode_fail else returns ext).

(** ** Whole numbers *)

Definition pack_constrained_whole_number (t : int_type) (n lb ub : Z) (aligned : bool) : packer :=
  if (ub <? lb) || (n <? lb) || (ub <? n) then encode_fail
  else defined (it_sub t ub lb) (fun d =>
    let ra := u64 (u64 d + 1) in
    if ra =? 1 then success
    else
      let n_bits := ceil_log2 ra in
      defined (it_sub t n lb) (fun d' =>
      let toencode := it_wrap t d' in
      if negb aligned then ignore (pack (u64 toencode) n_bits) success
      else if ra <? 256 then pack (u64 toencode) n_bits
      else if ra <=? ASN_64K then
        let n_octets := ceil_frac n_bits 8 in
        handle align_bytes_zero (handle (pack 0 (n_octets * 8 - n_bits)) (handle (pack (u64 toencode) n_bits) align_bytes_zero))
      else
        let n_bits_len := ceil_log2 (ceil_frac n_bits 8) in
        let n_octets := ceil_frac (bit_width (Z.max toencode 1)) 8 in
        handle (pack (n_octets - 1) n_bits_len) (handle align_bytes_zero (pack (u64 toencode) (n_octets * 8))))).

Definition unpack_constrained_whole_number (t : int_type) (lb ub : Z) (aligned : bool) : unpacker Z :=
  if ub <? lb then decode_fail
  else defined_val (it_sub t ub lb) (fun d =>
    let ra := u64 (u64 d + 1) in
    if ra =? 1 then returns lb
    else
      let n_bits := ceil_log2 ra in
      if negb aligned then
        handle_val (unpack (it_bits t) n_bits) (fun n =>
          let n1 := it_wrap t (it_wrap t n + lb) in
          if ub <? n1 then decode_fail else returns n1)
      else if ra <? 256 then
        handle_val (unpack (it_bits t) n_bits) (fun n => returns (it_wrap t (it_wrap t n + lb)))
      else if ra <=? ASN_64K then
        let n_octets := ceil_frac n_bits 8 in
        handle_val skip_align (fun _ => handle_val (unpack (it_bits t) (n_octets * 8)) (fun n => handle_val skip_align (fun _ =>
          returns (it_wrap t (it_wrap t n + lb)))))
      else
        let n_bits_len := ceil_log2 (ceil_frac n_bits 8) in
        handle_val (unpack 32 n_bits_len) (fun n_octets0 =>
          let n_octets := u32 (n_octets0 + 1) in
          handle_val skip_align (fun _ => handle_val (unpack (it_bits t) (u32 (n_octets * 8))) (fun n =>
            returns (it_wrap t (it_wrap t n + lb)))))).

Definition pack_norm_small_non_neg_whole_number (n : Z) : packer :=
  if n <=? 63 then handle (pack n 7) success else handle (pack 1 1) encode_fail.

Definition unpack_norm_small_non_neg_whole_number (t : int_type) : unpacker Z :=
  handle_val unpack_bool (fun ext => if negb ext then unpack (it_bits t) 6 else decode_fail).

(** [unconstrained_whole_number_length], [ceilf((log2f(n) + 1) / 8)]: of a number below 1 the
    logarithm is not finite and the conversion to an integer undefined. *)
Definition unconstrained_whole_number_length (t : int_type) (n : Z) : option Z :=
  if n <? 1 then None else Some (it_wrap t (ceil_frac (ceil_log2 n + 1) 8)).

Definition pack_unconstrained_whole_number (t : int_type) (n : Z) (aligned : bool) : packer :=
  defined (unconstrained_whole_number_length t n) (fun len =>
  let body := handle (pack (u64 n) (u32 (u32 len * 8))) success in
  if aligned then handle align_bytes_zero body else body).

Definition unpack_unconstrained_whole_number (t : int_type) (len : Z) (aligned : bool) : unpacker Z :=
  let body := handle_val (unpack (it_bits t) (u32 (len * 8))) (fun n => returns (it_wrap t n)) in
  if aligned then handle_val skip_align (fun _ => body) else body.

(** ** Length determinants *)

(** [pack_length] of one value. *)
Definition pack_length_determinant (val : Z) (aligned : bool) : packer :=
  if negb aligned then
    if val <? 128 then handle (pack val 8) success
    else if val <? ASN_16K then handle (pack 2 2) (handle (pack val 14) success)
    else encode_fail
  else if ASN_64K <? val then encode_fail
  else handle align_bytes
    (if val <? 128 then pack val 8
     else if val <? ASN_16K then handle (pack 2 2) (pack val 14)
     else handle (pack 3 2) (handle (pack (val / ASN_16K) 6) (pack (val - val / ASN_16K * ASN_16K) 16))).

Definition unpack_length_determinant (aligned : bool) : unpacker Z :=
  if negb aligned then
    handle_val unpack_bool (fun ext =>
      if negb ext then unpack 32 7
      else handle_val unpack_bool (fun ext => if negb ext then unpack 32 14 else decode_fail))
  else handle_val skip_align (fun _ => handle_val (unpack 32 8) (fun val =>
    if val <? 128 then returns val
    else
      let val1 := val - 128 in
      if val1 <? 64 then handle_val (unpack 32 8) (fun val_octet_2 => returns (u32 (Z.shiftl val1 8 + val_octet_2)))
      else decode_fail)).

(** [pack_length] of a value with bounds. *)
Definition pack_length (t : int_type) (n lb ub : Z) (aligned : bool) : packer :=
  if ASN_64K <=? ub then pack_length_determinant (u32 n) aligned
  else pack_constrained_whole_number t n lb ub aligned.

Definition unpack_length (t : int_type) (lb ub : Z) (aligned : bool) : unpacker Z :=
  if ASN_64K <=? ub then handle_val (unpack_length_determinant aligned) (fun len => returns (it_wrap t len))
  else unpack_constrained_whole_number t lb ub aligned.

(** ** Integers *)

Definition lower_bounded (t : int_type) (lb : Z) : bool := negb (lb =? it_min t) || negb (it_signed t).
Definition upper_bounded (t : int_type) (ub : Z) : bool := negb (ub =? it_max t).

Definition pack_integer (t : int_type) (n lb ub : Z) (has_ext aligned : bool) : packer :=
  let within_bounds := (lb <=? n) && (n <=? ub) in
  let body :=
    if within_bounds && lower_bounded t lb && upper_bounded t ub then
      if lb =? ub then success else handle (pack_constrained_whole_number t n lb ub aligned) success
    else if negb within_bounds || (negb (lower_bounded t lb) && negb (upper_bounded t ub)) then
      defined (unconstrained_whole_number_length t n) (fun len =>
        handle (pack_length_determinant (u32 len) aligned) (handle (pack_unconstrained_whole_number t n aligned) success))
    else success in
  if has_ext then handle (pack (b2z (negb within_bounds)) 1) body
  else if negb within_bounds then encode_fail
  else body.

(** [unpack_integer]: [n0] is the value of the output variable before the call, which is not
    written when the bounds are equal or the integer is semi-constrained. *)
Definition unpack_integer (t : int_type) (n0 lb ub : Z) (has_ext aligned : bool) : unpacker Z :=
  let body within_bounds :=
    if within_bounds && lower_bounded t lb && upper_bounded t ub then
      if lb =? ub then returns n0 else unpack_constrained_whole_number t lb ub aligned
    else if negb within_bounds || (negb (lower_bounded t lb) && negb (upper_bounded t ub)) then
      handle_val (unpack_length_determinant aligned) (fun len => unpack_unconstrained_whole_number t len aligned)
    else returns n0 in
  if has_ext then handle_val unpack_bool (fun ext => body (negb ext)) else body true.

(** ** Enumerations *)

(** [pack_enum] with the number of types, of extensions and whether the type is
    extensible. *)
Definition pack_enum (e nof_types nof_exts : Z) (has_ext : bool) : packer :=
  if nof_types <=? e then encode_fail
  else if has_ext then
    let nof_noext := nof_types - nof_exts in
    let nof_bits := ceil_log2 nof_noext in
    let ext := nof_noext <=? e in
    handle (pack (b2z ext) 1) (if negb ext then pack e nof_bits else pack_norm_small_non_neg_whole_number (e - nof_noext))
  else pack e (ceil_log2 nof_types).

Definition unpack_enum (nof_types nof_exts : Z) (has_ext : bool) : unpacker Z :=
  let check v := if nof_types <=? v then decode_fail else returns v in
  if has_ext then
    handle_val unpack_bool (fun ext =>
      if negb ext then handle_val (unpack 32 (ceil_log2 (nof_types - nof_exts))) check
      else handle_val (unpack_norm_small_non_neg_whole_number uint32_t) (fun v => check (u32 (v + (nof_types - nof_exts)))))
  else handle_val (unpack 32 (ceil_log2 nof_types)) check.

(** ** Octet strings *)

(** [fixed_octstring<N, aligned>]. *)
Definition fixed_octstring_pack (aligned : bool) (octets : bytes) : packer :=
  if aligned && (2 <? zlen octets) then ignore align_bytes_zero (pack_each octets) else pack_each octets.

Definition fixed_octstring_unpack (N : Z) (aligned : bool) : unpacker bytes :=
  if aligned && (2 <? N) then ignore_val tt skip_align (fun _ => unpack_each (Z.to_nat N)) else unpack_each (Z.to_nat N).

(** [bounded_octstring<LB, UB, aligned>]. *)
Definition bounded_octstring_pack (LB UB : Z) (aligned : bool) (octets : bytes) : packer :=
  handle (pack_length uint32_t (zlen octets) LB UB aligned)
    (if aligned then ignore align_bytes_zero (pack_each octets) else pack_each octets).

Definition bounded_octstring_unpack (LB UB : Z) (aligned : bool) : unpacker bytes :=
  handle_val (unpack_length uint32_t LB UB aligned) (fun len =>
    if aligned then ignore_val tt skip_align (fun _ => unpack_each (Z.to_nat len)) else unpack_each (Z.to_nat len)).

(** [unbounded_octstring<Al>], [dyn_octstring]. *)
Definition unbounded_octstring_pack (aligned : bool) (octets : bytes) : packer :=
  handle (pack_length_determinant (zlen octets) aligned) (pack_each octets).

Definition unbounded_octstring_unpack (aligned : bool) : unpacker bytes :=
  handle_val (unpack_length_determinant aligned) (fun len => unpack_each (Z.to_nat len)).

(** [octstring_to_number] and [number_to_octstring]. *)
Definition octstring_to_number (octets : bytes) : Z :=
  if 8 <? zlen octets then 0
  else u64 (fold_left (fun val '(i, x) => val + Z.shiftl x (i * 8)) (zip (seqZ 0 (zlen octets)) (rev octets)) 0).

Definition number_to_octstring (octets : bytes) (number : Z) : bytes :=
  if 8 <? zlen octets then octets
  else rev (map (fun i => Z.land (Z.shiftr number (i * 8)) 0xFF) (seqZ 0 (zlen octets))).

(** ** Bit strings *)

(** [bitstring<LB, UB, ext, aligned>]: the bytes, the least significant first, and the number
    of bits. *)
Record bitstring := mk_bitstring { bs_octets : bytes; bs_nbits : Z }.

Definition UINT32_MAX : Z := 2 ^ 32 - 1.

Definition pack_length_prefix (len lb ub : Z) (has_ext is_aligned : bool) : packer :=
  if has_ext && (ub =? UINT32_MAX) then encode_fail
  else
    let within_bounds := (lb <=? len) && (len <=? ub) in
    if negb within_bounds && negb has_ext then encode_fail
    else
      let body :=
        if (lb =? ub) && within_bounds then success
        else if (ub =? UINT32_MAX) || negb within_bounds then pack_length_determinant len false
        else handle (pack (len - lb) (ceil_log2 (ub - lb))) (if is_aligned then handle align_bytes_zero success else success) in
      if has_ext then handle (pack (b2z (negb within_bounds)) 1) body else body.

Definition pack_bitfield (buf : bytes) (nbits lb ub : Z) (is_aligned : bool) : packer :=
  if nbits =? 0 then encode_fail
  else
    let n_octs := ceil_frac nbits 8 in
    let offset := (nbits - 1) mod 8 + 1 in
    let body := defined (load buf (n_octs - 1)) (fun x => handle (pack x offset) (pack_each (rev (ztake (n_octs - 1) buf)))) in
    if is_aligned && (negb (lb =? ub) || (16 <? ub)) then ignore align_bytes body else body.

Definition bitstring_pack (lb ub : Z) (has_ext is_aligned : bool) (s : bitstring) : packer :=
  handle (pack_length_prefix (bs_nbits s) lb ub has_ext is_aligned) (pack_bitfield (bs_octets s) (bs_nbits s) lb ub is_aligned).

Definition unpack_length_prefix (lb ub : Z) (has_ext is_aligned : bool) : unpacker Z :=
  let body ext :=
    if (ub =? UINT32_MAX) || ext then unpack_length_determinant is_aligned
    else if lb =? ub then returns lb
    else unpack_length uint32_t lb ub is_aligned in
  if has_ext then handle_val unpack_bool body else body false.

Definition unpack_bitfield (n lb ub : Z) (is_aligned : bool) : unpacker bytes :=
  if ASN_64K <? n then decode_fail
  else if n =? 0 then returns []
  else
    let n_octs := ceil_frac n 8 in
    let offset := (n - 1) mod 8 + 1 in
    let body := handle_val (unpack 8 offset) (fun x => handle_val (unpack_each (Z.to_nat (n_octs - 1))) (fun l => returns (rev l ++ [x]))) in
    if is_aligned && (negb (lb =? ub) || (16 <? ub)) then ignore_val tt skip_align (fun _ => body) else body.

Definition bitstring_unpack (lb ub : Z) (has_ext is_aligned : bool) : unpacker bitstring :=
  handle_val (unpack_length_prefix lb ub has_ext is_aligned) (fun nbits =>
    handle_val (unpack_bitfield nbits lb ub is_aligned) (fun l => returns (mk_bitstring l nbits))).

(** [bitstring_utils::from_number] on a cleared string, and [to_number].  [to_number] shifts a byte as an [int],
    which is undefined for the fifth byte on, and for a fourth byte that reaches the sign. *)
Definition bits_from_number (number nbits : Z) : bytes :=
  let l := map (fun i => Z.land (Z.shiftr number (i * 8)) 0xFF) (seqZ 0 (ceil_frac nbits 8)) in
  let offset := nbits mod 8 in
  if 64 <? nbits then map (fun _ => 0) l
  else if 0 <? offset then
    ztake (ceil_frac nbits 8 - 1) l ++ map (fun x => Z.land x (2 ^ offset - 1)) (zdrop (ceil_frac nbits 8 - 1) l)
  else l.

Definition bits_to_number (octets : bytes) (nbits : Z) : option Z :=
  if 64 <? nbits then Some 0
  else
    fold_left (fun acc i => val ← acc; x ← load octets i;
      if (32 <=? i * 8) || (2 ^ 31 <=? Z.shiftl x (i * 8)) then None else Some (u64 (val + Z.shiftl x (i * 8))))
      (seqZ 0 (ceil_frac nbits 8)) (Some 0).

(** [bitstring::from_number]; [None] when the bounds are not met and the string stays as it
    is. *)
Definition bitstring_from_number (LB UB val : Z) : option bitstring :=
  let nof_bits := Z.max (ceil_log2 (Z.max val 1)) LB in
  if UB <? nof_bits then None else Some (mk_bitstring (bits_from_number val nof_bits) nof_bits).

(** ** Lists *)

Section SeqOf.
Context {A : Type} (item_pack : A -> packer) (item_unpack : unpacker A).

Fixpoint pack_items (l : list A) : packer :=
  match l with [] => success | x :: l' => handle (item_pack x) (pack_items l') end.

Fixpoint unpack_items (n : nat) : unpacker (list A) :=
  match n with
  | O => returns []
  | S n' => handle_val item_unpack (fun x => handle_val (unpack_items n') (fun l => returns (x :: l)))
  end.

(** [pack_fixed_seq_of], [unpack_fixed_seq_of]. *)
Definition pack_fixed_seq_of (l : list A) : packer := pack_items l.
Definition unpack_fixed_seq_of (nof_items : Z) : unpacker (list A) := unpack_items (Z.to_nat nof_items).

Definition pack_dyn_seq_of (l : list A) (lb ub : Z) (aligned : bool) : packer :=
  handle (pack_length uint32_t (zlen l) lb ub aligned) (pack_items l).

Definition unpack_dyn_seq_of (lb ub : Z) (aligned : bool) : unpacker (list A) :=
  handle_val (unpack_length uint32_t lb ub aligned) (fun nof_items => unpack_items (Z.to_nat nof_items)).
End SeqOf.
End Per.
