(* ===== verification/PerLaws.v ===== *)
(** * Laws of the packed encoding rules

    The encodings of the primitives of [Per]: every packer appends its encoding, every
    unpacker reads it back, and every unpacker stays within the buffer on every input.  The
    interface [codec] states this for a pair of a packer and an unpacker; the generated
    codecs are proved against it. *)

From stdpp Require Import base list numbers.
From S2P Require Import Prelude BitRef Per.

Local Open Scope Z_scope.
Ltac Zify.zify_post_hook ::= Z.to_euclidean_division_equations.

(** What a pair of a packer and an unpacker promises for the values that satisfy [ok]. *)
Record codec {A} (ok : A -> Prop) (enc : A -> encoding) (pk : A -> packer) (upk : unpacker A) : Prop := {
  co_enc : forall x, ok x -> encodes (pk x) (enc x);
  co_dec : forall x, ok x -> decodes upk (enc x) x
}.

(** Packing with a codec and unpacking gives the value back. *)
Lemma codec_roundtrip {A} ok enc pk (upk : unpacker A) x b : codec ok enc pk upk -> ok x -> br_wf b ->
  distance b + zlen (enc x (distance b)) + 8 <= 8 * br_max b ->
  exists b', pk x b = Some (SRSASN_SUCCESS, b') /\ appended b b' (enc x (distance b)) /\ upk (seek b' (distance b)) = Some (inr x, b').
Proof. intros [He Hd] Hx Hw Hr. apply (unpack_packed (pk x) upk (enc x) x); auto. Qed.

(** ** Empty encodings at the end *)

Lemma encodes_last f e : encodes f e -> encodes (handle f success) e.
Proof.
  intros Hf. eapply encodes_ext; [|apply (encodes_handle _ _ _ enc_nil Hf encodes_success)]. intros p _. apply app_nil_r.
Qed.

Lemma encodes_last_ignored f e : encodes f e -> encodes (ignore f success) e.
Proof.
  intros Hf. eapply encodes_ext; [|apply (encodes_ignore _ _ _ enc_nil Hf encodes_success)]. intros p _. apply app_nil_r.
Qed.

Lemma decodes_last {A B} (u : unpacker A) (k : A -> unpacker B) e x y : decodes u e x -> decodes (k x) enc_nil y -> decodes (handle_val u k) e y.
Proof.
  intros Hu Hk. eapply decodes_ext; [|apply (decodes_bind _ _ _ _ _ _ Hu Hk)]. intros p _. apply app_nil_r.
Qed.

Lemma decodes_map {A B} (u : unpacker A) (f : A -> B) e x : decodes u e x -> decodes (handle_val u (fun x => returns (f x))) e (f x).
Proof. intros Hu. apply (decodes_last _ _ _ x); [done|apply decodes_returns]. Qed.

Lemma reads_map {A B} (u : unpacker A) (f : A -> B) : reads_safely u -> reads_safely (handle_val u (fun x => returns (f x))).
Proof. intros Hu. apply reads_bind; [done|]. intros. apply reads_returns. Qed.

Create HintDb per.
#[export] Hint Resolve encodes_success encodes_pack encodes_align_zero encodes_pack_each encodes_handle encodes_ignore encodes_last encodes_last_ignored : per.
#[export] Hint Resolve reads_bind reads_ignore reads_returns reads_fail reads_unpack reads_unpack_bool reads_skip_align reads_unpack_each reads_map : per.
#[export] Hint Resolve decodes_returns decodes_unpack_bool decodes_skip_align decodes_map : per.
#[export] Hint Extern 1 (0 <= _ < _) => lia : per.
#[export] Hint Extern 1 (0 <= _ <= _) => lia : per.

(** ** Numbers of bits *)

Lemma log2_up_bounds x k : 1 < x -> 0 <= k -> x <= 2 ^ k -> 0 < Z.log2_up x <= k /\ x <= 2 ^ Z.log2_up x.
Proof.
  intros Hx Hk Hle. pose proof (Z.log2_up_spec x Hx). split; [|lia]. split; [apply Z.log2_up_pos; lia|].
  rewrite <- (Z.log2_up_pow2 k) by done. apply Z.log2_up_le_mono. lia.
Qed.

(** A number needs no more bits than it has. *)
Lemma wbits_zero_ext n k v : 0 <= k <= n -> 0 <= v < 2 ^ k -> wbits n v = wbits (n - k) 0 ++ wbits k v.
Proof.
  intros Hk Hv. rewrite (wbits_split n (n - k)) by lia. replace (n - (n - k)) with k by lia.
  by rewrite Z.shiftr_div_pow2, Z.div_small by lia.
Qed.

Lemma wbits_eq_mod n v1 v2 : 0 <= n -> v1 mod 2 ^ n = v2 mod 2 ^ n -> wbits n v1 = wbits n v2.
Proof. intros Hn E. rewrite <- wbits_mod by done. rewrite E. by apply wbits_mod. Qed.

(** ** Integer types *)

Definition it_valid (t : int_type) : Prop := it_bits t = 8 \/ it_bits t = 16 \/ it_bits t = 32 \/ it_bits t = 64.

Lemma it_range t : it_valid t -> it_max t - it_min t = 2 ^ it_bits t - 1.
Proof.
  intros Hv. unfold it_max, it_min. destruct (it_signed t); [|lia].
  assert (2 ^ it_bits t = 2 * 2 ^ (it_bits t - 1)); [|lia].
  rewrite <- Z.pow_succ_r by (destruct Hv as [E|[E|[E|E]]]; lia). f_equal. lia.
Qed.

Lemma it_wrap_id t x : it_valid t -> it_min t <= x <= it_max t -> it_wrap t x = x.
Proof. intros Hv Hx. pose proof (it_range t Hv). unfold it_wrap. rewrite Z.mod_small by lia. lia. Qed.

Lemma it_wrap_add t x y : it_valid t -> it_wrap t (it_wrap t x + y) = it_wrap t (x + y).
Proof.
  intros Hv. unfold it_wrap. f_equal.
  replace ((x - it_min t) mod 2 ^ it_bits t + it_min t + y - it_min t) with ((x - it_min t) mod 2 ^ it_bits t + y) by lia.
  rewrite Zplus_mod_idemp_l. f_equal. lia.
Qed.

(** A value of the type, converted to 64 bits, has the low bits of the number. *)
Lemma wbits_wrap t n x : it_valid t -> 0 <= n <= it_bits t -> wbits n (u64 (it_wrap t x)) = wbits n x.
Proof.
  intros Hv Hn. assert (it_bits t <= 64) by (destruct Hv as [E|[E|[E|E]]]; lia).
  assert (Hp : forall w y, n <= w -> (y mod 2 ^ w) mod 2 ^ n = y mod 2 ^ n).
  { intros w y Hw. replace (2 ^ w) with (2 ^ n * 2 ^ (w - n)) by (rewrite <- Z.pow_add_r by lia; f_equal; lia).
    rewrite Z.rem_mul_r; [|apply Z.pow_nonzero; lia|apply Z.pow_pos_nonneg; lia]. rewrite Z.mul_comm, Z_mod_plus_full.
    apply Z.mod_mod. apply Z.pow_nonzero; lia. }
  apply wbits_eq_mod; [lia|]. unfold u64. rewrite Hp by lia. unfold it_wrap.
  rewrite <- Zplus_mod_idemp_l, Hp, Zplus_mod_idemp_l by lia. f_equal. lia.
Qed.

Section Laws.
Context `{Libm}.

(** ** Constrained whole numbers *)

(** The bounds of a constrained type: within the integer type, at most 2 to the 20 values. *)
Record bounds_ok (t : int_type) (lb ub : Z) : Prop := {
  bo_type : it_valid t;
  bo_min : it_min t <= lb;
  bo_max : ub <= it_max t;
  bo_range : 0 <= ub - lb < 2 ^ 20
}.

Lemma it_sub_ok t lb ub x y : bounds_ok t lb ub -> lb <= y -> y <= x -> x <= ub -> it_sub t x y = Some (x - y).
Proof.
  intros [Hv Hm HM Hr] Hy Hxy Hx. unfold it_sub. destruct (it_signed t) eqn:Es; [|done]. cbn [andb].
  destruct (Z.leb_spec 32 (it_bits t)) as [Hb|Hb]; [|done]. cbn [andb].
  assert (2 ^ 31 <= 2 ^ (it_bits t - 1)) by (apply Z.pow_le_mono_r; lia).
  unfold it_max. rewrite Es. destruct (Z.ltb_spec (2 ^ (it_bits t - 1) - 1) (x - y)); [lia|done].
Qed.

Lemma range_bits t lb ub : bounds_ok t lb ub -> lb < ub ->
  ceil_log2 (ub - lb + 1) = Z.log2_up (ub - lb + 1) /\ 0 < Z.log2_up (ub - lb + 1) <= 20 /\
  Z.log2_up (ub - lb + 1) <= it_bits t /\ ub - lb < 2 ^ Z.log2_up (ub - lb + 1).
Proof.
  intros [Hv Hm HM Hr] Hlt. split; [apply ceil_log2_ok; lia|].
  destruct (log2_up_bounds (ub - lb + 1) 20) as [H1 H2]; [lia..|].
  destruct (log2_up_bounds (ub - lb + 1) (it_bits t)) as [H3 _]; [lia|destruct Hv as [E|[E|[E|E]]]; lia|pose proof (it_range t Hv); lia|].
  repeat split; lia.
Qed.

Definition enc_constrained (lb ub : Z) (aligned : bool) (n : Z) : encoding :=
  let ra := ub - lb + 1 in
  let n_bits := Z.log2_up ra in
  if ra =? 1 then enc_nil
  else if negb aligned || (ra <? 256) then enc_bits n_bits (n - lb)
  else if ra <=? ASN_64K then enc_app enc_pad (enc_bits (ceil_frac n_bits 8 * 8) (n - lb))
  else
    let n_octets := ceil_frac (bit_width (Z.max (n - lb) 1)) 8 in
    enc_app (enc_bits (Z.log2_up (ceil_frac n_bits 8)) (n_octets - 1)) (enc_app enc_pad (enc_bits (n_octets * 8) (n - lb))).

(** In the one and two octet cases the number is padded to whole octets. *)
Lemma encodes_octets t n lb k v : it_valid t -> 0 < k <= 16 -> k <= it_bits t -> v = n - lb -> 0 <= v < 2 ^ k ->
  encodes (handle align_bytes_zero (handle (pack 0 (ceil_frac k 8 * 8 - k)) (handle (pack (u64 (it_wrap t v)) k) align_bytes_zero)))
          (enc_app enc_pad (enc_bits (ceil_frac k 8 * 8) v)).
Proof.
  intros Hv Hk Hkt -> Hn. assert (Hc : k <= ceil_frac k 8 * 8 < k + 8) by (unfold ceil_frac; lia).
  eapply encodes_ext; [|apply encodes_handle; [apply encodes_align_zero|apply encodes_handle; [apply encodes_pack; lia|apply encodes_handle; [apply encodes_pack; lia|apply encodes_align_zero]]]].
  intros p Hp. unfold enc_app, enc_bits, enc_pad. f_equal. rewrite app_assoc, wbits_wrap by (done || lia).
  rewrite <- wbits_zero_ext by lia. rewrite !zlen_wbits by lia.
  replace (- (p + - p mod 8 + (ceil_frac k 8 * 8 - k) + k) mod 8) with 0 by lia. by rewrite app_nil_r.
Qed.

(** The number of octets of a number, as it is written in the long form. *)
Lemma octets_bounds ra v : 2 ^ 16 < ra <= 2 ^ 20 -> 0 <= v < ra ->
  let o := ceil_frac (bit_width (Z.max v 1)) 8 in
  ceil_log2 (ceil_frac (ceil_log2 ra) 8) = 2 /\ ceil_frac (Z.log2_up ra) 8 = 3 /\ 1 <= o <= 3 /\ v < 2 ^ (o * 8).
Proof.
  intros Hra Hv o. destruct (log2_up_bounds ra 20) as [H1 H2]; [lia..|].
  assert (H3 : 16 < Z.log2_up ra) by (apply Z.log2_up_lt_pow2; lia).
  assert (H4 : ceil_frac (Z.log2_up ra) 8 = 3) by (unfold ceil_frac; lia).
  rewrite (ceil_log2_ok ra), H4, ceil_log2_ok by lia.
  pose proof (bit_width_ok (Z.max v 1) ltac:(lia)) as Hb. pose proof (Z.log2_nonneg (Z.max v 1)).
  assert (Hl : Z.log2 (Z.max v 1) < 20) by (apply Z.log2_lt_pow2; lia).
  assert (Hs : Z.max v 1 < 2 ^ Z.succ (Z.log2 (Z.max v 1))) by (apply Z.log2_spec; lia).
  assert (2 ^ Z.succ (Z.log2 (Z.max v 1)) <= 2 ^ (o * 8)) by (apply Z.pow_le_mono_r; unfold o, ceil_frac; lia).
  repeat split; try done; try lia; unfold o, ceil_frac; lia.
Qed.

(** More than 64K values are of a type of 32 bits or more, and the differences fit in it. *)
Lemma it_wrap_wide t lb ub v : bounds_ok t lb ub -> 2 ^ 16 < ub - lb + 1 -> 0 <= v <= ub - lb -> it_wrap t v = v.
Proof.
  intros [Hv Hm HM Hr] Hw Hvr. apply it_wrap_id; [done|]. pose proof (it_range t Hv). unfold it_min, it_max in *.
  assert (32 <= it_bits t) by (destruct Hv as [E|[E|[E|E]]]; rewrite E in *; lia).
  assert (2 ^ 31 <= 2 ^ (it_bits t - 1)) by (apply Z.pow_le_mono_r; lia).
  assert (2 ^ 32 <= 2 ^ it_bits t) by (apply Z.pow_le_mono_r; lia). destruct (it_signed t); lia.
Qed.

Lemma u64_id x : 0 <= x < 2 ^ 20 -> u64 x = x.
Proof. intros. unfold u64. apply Z.mod_small. lia. Qed.

Lemma encodes_constrained t lb ub al n : bounds_ok t lb ub -> lb <= n <= ub ->
  encodes (pack_constrained_whole_number t n lb ub al) (enc_constrained lb ub al n).
Proof.
  intros Hb Hn. pose proof Hb as [Hv Hm HM Hr]. unfold pack_constrained_whole_number, enc_constrained.
  rewrite (proj2 (Z.ltb_ge ub lb)), (proj2 (Z.ltb_ge n lb)), (proj2 (Z.ltb_ge ub n)) by lia. cbn [orb].
  rewrite (it_sub_ok t lb ub ub lb), (it_sub_ok t lb ub n lb) by (done || lia). unfold defined. cbn [mbind option_bind].
  replace (u64 (u64 (ub - lb) + 1)) with (ub - lb + 1) by (unfold u64; lia).
  destruct (Z.eqb_spec (ub - lb + 1) 1) as [E|E]; [apply encodes_success|].
  destruct (range_bits t lb ub Hb ltac:(lia)) as (El & Hk & Hkt & Hlt). rewrite El. set (k := Z.log2_up (ub - lb + 1)) in *.
  assert (Ew : enc_bits k (u64 (it_wrap t (n - lb))) = enc_bits k (n - lb)) by (unfold enc_bits; by rewrite wbits_wrap by (done || lia)).
  destruct al; cbn [negb orb].
  - destruct (Z.ltb_spec (ub - lb + 1) 256).
    + rewrite <- Ew. apply encodes_pack. lia.
    + destruct (Z.leb_spec (ub - lb + 1) ASN_64K) as [H64|H64]; unfold ASN_64K in H64.
      * destruct (log2_up_bounds (ub - lb + 1) 16) as [H16 _]; [lia..|]. fold k in H16. eapply encodes_octets; (done || lia).
      * destruct (octets_bounds (ub - lb + 1) (n - lb) ltac:(lia) ltac:(lia)) as (H1 & H2 & H3 & H4).
        rewrite El in H1. fold k in H1, H2 |- *. rewrite H1, H2, (it_wrap_wide t lb ub) by (done || lia).
        rewrite u64_id by lia. change (Z.log2_up 3) with 2. apply encodes_handle; [apply encodes_pack; lia|].
        apply encodes_handle; [apply encodes_align_zero|apply encodes_pack; lia].
  - rewrite <- Ew. apply encodes_last_ignored, encodes_pack. lia.
Qed.

Lemma wrap_lb t lb ub n : bounds_ok t lb ub -> lb <= n <= ub -> it_wrap t (it_wrap t (n - lb) + lb) = n.
Proof.
  intros [Hv Hm HM Hr] Hn. rewrite it_wrap_add by done. replace (n - lb + lb) with n by lia. apply it_wrap_id; [done|lia].
Qed.

Lemma decodes_constrained t lb ub al n : bounds_ok t lb ub -> lb <= n <= ub ->
  decodes (unpack_constrained_whole_number t lb ub al) (enc_constrained lb ub al n) n.
Proof.
  intros Hb Hn. pose proof Hb as [Hv Hm HM Hr]. unfold unpack_constrained_whole_number, enc_constrained.
  rewrite (proj2 (Z.ltb_ge ub lb)) by lia.
  rewrite (it_sub_ok t lb ub ub lb) by (done || lia). unfold defined_val. cbn [mbind option_bind].
  replace (u64 (u64 (ub - lb) + 1)) with (ub - lb + 1) by (unfold u64; lia).
  destruct (Z.eqb_spec (ub - lb + 1) 1) as [E|E]; [replace n with lb by lia; apply decodes_returns|].
  destruct (range_bits t lb ub Hb ltac:(lia)) as (El & Hk & Hkt & Hlt). rewrite El. set (k := Z.log2_up (ub - lb + 1)) in *.
  destruct al; cbn [negb orb].
  - destruct (Z.ltb_spec (ub - lb + 1) 256).
    + rewrite <- (wrap_lb t lb ub n) at 2 by (done || lia). apply (decodes_map _ (fun n => it_wrap t (it_wrap t n + lb))), decodes_unpack; lia.
    + destruct (Z.leb_spec (ub - lb + 1) ASN_64K) as [H64|H64]; unfold ASN_64K in H64.
      * destruct (log2_up_bounds (ub - lb + 1) 16) as [H16 _]; [lia..|]. fold k in H16.
        assert (Hc : k <= ceil_frac k 8 * 8 <= it_bits t /\ ceil_frac k 8 * 8 <= 16) by (unfold ceil_frac; destruct Hv as [Ev|[Ev|[Ev|Ev]]]; lia).
        assert (2 ^ k <= 2 ^ (ceil_frac k 8 * 8)) by (apply Z.pow_le_mono_r; lia).
        eapply decodes_ext; [|eapply (decodes_bind _ _ _ _ tt); [apply decodes_skip_align|];
          eapply (decodes_bind _ _ _ _ (n - lb)); [apply (decodes_unpack _ (ceil_frac k 8 * 8)); lia|];
          eapply (decodes_last _ _ _ tt); [apply decodes_skip_align|]; rewrite (wrap_lb t lb ub) by (done || lia); apply decodes_returns].
        intros p Hp. unfold enc_app, enc_bits, enc_pad. f_equal. rewrite !zlen_wbits by lia.
        replace (- (p + - p mod 8 + ceil_frac k 8 * 8) mod 8) with 0 by lia. apply app_nil_r.
      * destruct (octets_bounds (ub - lb + 1) (n - lb) ltac:(lia) ltac:(lia)) as (H1 & H2 & H3 & H4).
        rewrite El in H1. fold k in H2 |- *. rewrite H1, H2. change (Z.log2_up 3) with 2. set (o := ceil_frac (bit_width _) 8) in *.
        assert (Hw : 32 <= it_bits t) by (pose proof (it_range t Hv); destruct Hv as [Ev|[Ev|[Ev|Ev]]]; rewrite Ev in *; lia).
        eapply (decodes_bind _ _ _ _ (o - 1)); [apply decodes_unpack; lia|]. replace (u32 (o - 1 + 1)) with o by (unfold u32; lia).
        replace (u32 (o * 8)) with (o * 8) by (unfold u32; lia).
        eapply (decodes_bind _ _ _ _ tt); [apply decodes_skip_align|]. rewrite <- (wrap_lb t lb ub n) at 2 by (done || lia).
        apply (decodes_map _ (fun n => it_wrap t (it_wrap t n + lb))), decodes_unpack; lia.
  - apply (decodes_last _ _ _ (n - lb)); [apply decodes_unpack; lia|]. cbn beta. rewrite (wrap_lb t lb ub) by (done || lia).
    rewrite (proj2 (Z.ltb_ge _ _)) by lia. apply decodes_returns.
Qed.

Lemma reads_constrained t lb ub al : bounds_ok t lb ub -> it_bits t <= 32 \/ al = false -> reads_safely (unpack_constrained_whole_number t lb ub al).
Proof.
  intros Hb Ht. pose proof Hb as [Hv Hm HM Hr]. unfold unpack_constrained_whole_number. rewrite (proj2 (Z.ltb_ge ub lb)) by lia.
  rewrite (it_sub_ok t lb ub ub lb) by (done || lia). unfold defined_val. cbn [mbind option_bind].
  replace (u64 (u64 (ub - lb) + 1)) with (ub - lb + 1) by (unfold u64; lia).
  destruct (Z.eqb_spec (ub - lb + 1) 1) as [E|E]; [apply reads_returns|].
  destruct (range_bits t lb ub Hb ltac:(lia)) as (El & Hk & Hkt & Hlt). rewrite El. set (k := Z.log2_up (ub - lb + 1)) in *.
  destruct al; cbn [negb].
  - destruct (_ <? 256); [auto with per|]. destruct (Z.leb_spec (ub - lb + 1) ASN_64K) as [H64|H64]; unfold ASN_64K in H64.
    + destruct (log2_up_bounds (ub - lb + 1) 16) as [H16 _]; [lia..|]. fold k in H16.
      assert (Hc : 0 <= ceil_frac k 8 * 8 <= 16) by (unfold ceil_frac; lia). repeat (apply reads_bind; auto with per).
    + destruct (octets_bounds (ub - lb + 1) 0 ltac:(lia) ltac:(lia)) as (H1 & _). rewrite El in H1. rewrite H1.
      apply reads_bind; [auto with per|]. intros o. apply reads_bind; [auto with per|]. intros _. apply reads_map.
      intros b Hw. destruct (Z.le_gt_cases (u32 (u32 (o + 1) * 8)) 32).
      * apply reads_unpack; [|done]. split; [|done]. apply is_u32_mod.
      * eexists _, b. split; [|by apply moved_refl]. unfold unpack, unpack_bits. rewrite (proj2 (Z.ltb_lt _ _)) by lia. done.
  - apply reads_bind; [auto with per|]. intros v. destruct (_ <? _); auto with per.
Qed.

Lemma codec_constrained t lb ub al : bounds_ok t lb ub ->
  codec (fun n => lb <= n <= ub) (enc_constrained lb ub al) (fun n => pack_constrained_whole_number t n lb ub al)
        (unpack_constrained_whole_number t lb ub al).
Proof. intros Hb. split; [intros; by apply encodes_constrained|intros; by apply decodes_constrained]. Qed.

(** ** Small whole numbers and enumerations *)

Lemma encodes_norm_small n : 0 <= n <= 63 -> encodes (pack_norm_small_non_neg_whole_number n) (enc_app (enc_bits 1 0) (enc_bits 6 n)).
Proof.
  intros Hn. unfold pack_norm_small_non_neg_whole_number. rewrite (proj2 (Z.leb_le _ _)) by lia.
  eapply encodes_ext; [|apply encodes_last, encodes_pack; lia]. intros p _. unfold enc_app, enc_bits. apply (wbits_zero_ext 7 6); lia.
Qed.

Lemma decodes_norm_small t n : it_valid t -> 0 <= n <= 63 ->
  decodes (unpack_norm_small_non_neg_whole_number t) (enc_app (enc_bits 1 0) (enc_bits 6 n)) n.
Proof.
  intros Hv Hn. apply (decodes_bind _ _ _ _ false); [apply (decodes_unpack_bool false)|].
  apply decodes_unpack; [lia|destruct Hv as [E|[E|[E|E]]]; lia|lia].
Qed.

Lemma reads_norm_small t : reads_safely (unpack_norm_small_non_neg_whole_number t).
Proof. apply reads_bind; [auto with per|]. intros []; cbn [negb]; auto with per. Qed.

(** The types of an enumeration: at least one that is not an extension, at most 64
    extensions. *)
Record enum_ok (nof_types nof_exts : Z) (has_ext : bool) : Prop := {
  eo_types : 1 <= nof_types <= 2 ^ 20;
  eo_exts : 0 <= nof_exts < nof_types;
  eo_small : nof_exts <= 64
}.

Definition enc_enum (nof_types nof_exts : Z) (has_ext : bool) (e : Z) : encoding :=
  let nof_noext := nof_types - nof_exts in
  if has_ext then
    if nof_noext <=? e then enc_app (enc_bits 1 1) (enc_app (enc_bits 1 0) (enc_bits 6 (e - nof_noext)))
    else enc_app (enc_bits 1 0) (enc_bits (Z.log2_up nof_noext) e)
  else enc_bits (Z.log2_up nof_types) e.

Lemma enum_bits n : 1 <= n <= 2 ^ 20 -> ceil_log2 n = Z.log2_up n /\ 0 <= Z.log2_up n <= 20 /\ n <= 2 ^ Z.log2_up n.
Proof.
  intros Hn. split; [by apply ceil_log2_ok|]. destruct (Z.eq_dec n 1) as [->|]; [by repeat split|].
  destruct (log2_up_bounds n 20); lia.
Qed.

Lemma codec_enum nt ne he : enum_ok nt ne he ->
  codec (fun e => 0 <= e < nt) (enc_enum nt ne he) (fun e => pack_enum e nt ne he) (unpack_enum nt ne he).
Proof.
  intros [Ht Hx Hs]. destruct (enum_bits nt Ht) as (E1 & B1 & P1). destruct (enum_bits (nt - ne) ltac:(lia)) as (E2 & B2 & P2).
  assert (Hk : forall v, 0 <= v < nt -> decodes (if nt <=? v then decode_fail else returns v) enc_nil v).
  { intros v Hv. rewrite (proj2 (Z.leb_gt _ _)) by lia. apply decodes_returns. }
  split.
  - intros e He. unfold pack_enum, enc_enum. rewrite (proj2 (Z.leb_gt nt e)) by lia. rewrite E1, E2.
    destruct he; [|apply encodes_pack; lia]. destruct (Z.leb_spec (nt - ne) e); (apply encodes_handle; [apply encodes_pack; lia|]).
    + apply encodes_norm_small. lia.
    + apply encodes_pack. lia.
  - intros e He. unfold unpack_enum, enc_enum. rewrite E1, E2. destruct he.
    + destruct (Z.leb_spec (nt - ne) e) as [Hle|Hle].
      * apply (decodes_bind _ _ _ _ true); [apply (decodes_unpack_bool true)|].
        apply (decodes_last _ _ _ (e - (nt - ne))); [apply decodes_norm_small; [by right; right; left|lia]|].
        replace (u32 (e - (nt - ne) + (nt - ne))) with e by (unfold u32; lia). by apply Hk.
      * apply (decodes_bind _ _ _ _ false); [apply (decodes_unpack_bool false)|].
        apply (decodes_last _ _ _ e); [apply decodes_unpack; lia|by apply Hk].
    + apply (decodes_last _ _ _ e); [apply decodes_unpack; lia|by apply Hk].
Qed.

Lemma reads_enum nt ne he : enum_ok nt ne he -> reads_safely (unpack_enum nt ne he).
Proof.
  intros [Ht Hx Hs]. destruct (enum_bits nt Ht) as (E1 & B1 & _). destruct (enum_bits (nt - ne) ltac:(lia)) as (E2 & B2 & _).
  assert (Hr : forall v, reads_safely (if nt <=? v then decode_fail else returns v)) by (intros v; destruct (_ <=? _); auto with per).
  unfold unpack_enum. rewrite E1, E2. destruct he; [|auto with per]. apply reads_bind; [auto with per|]. intros []; cbn [negb].
  - apply reads_bind; [apply reads_norm_small|]. intros. apply Hr.
  - auto with per.
Qed.

(** ** Length determinants *)

Definition enc_length (n : Z) : encoding :=
  if n <? 128 then enc_app (enc_bits 1 0) (enc_bits 7 n)
  else enc_app (enc_bits 1 1) (enc_app (enc_bits 1 0) (enc_bits 14 n)).

Lemma encodes_length n : 0 <= n < ASN_16K -> encodes (pack_length_determinant n false) (enc_length n).
Proof.
  intros Hn. unfold pack_length_determinant, enc_length. cbn [negb]. destruct (Z.ltb_spec n 128).
  - eapply encodes_ext; [|apply encodes_last, encodes_pack; lia]. intros p _. apply (wbits_zero_ext 8 7); lia.
  - rewrite (proj2 (Z.ltb_lt _ _)) by lia.
    eapply encodes_ext; [|apply encodes_handle; [apply encodes_pack; lia|apply encodes_last, encodes_pack; lia]]. by intros p _.
Qed.

Lemma decodes_length n : 0 <= n < ASN_16K -> decodes (unpack_length_determinant false) (enc_length n) n.
Proof.
  intros Hn. unfold unpack_length_determinant, enc_length. cbn [negb]. unfold ASN_16K in Hn. destruct (Z.ltb_spec n 128).
  - apply (decodes_bind _ _ _ _ false); [apply (decodes_unpack_bool false)|]. apply decodes_unpack; lia.
  - apply (decodes_bind _ _ _ _ true); [apply (decodes_unpack_bool true)|].
    apply (decodes_bind _ _ _ _ false); [apply (decodes_unpack_bool false)|]. apply decodes_unpack; lia.
Qed.

Lemma reads_length al : reads_safely (unpack_length_determinant al).
Proof.
  destruct al; unfold unpack_length_determinant; cbn [negb].
  - apply reads_bind; [auto with per|]. intros _. apply reads_bind; [auto with per|]. intros v.
    destruct (_ <? _); [auto with per|]. destruct (_ <? _); auto with per.
  - apply reads_bind; [auto with per|]. intros []; cbn [negb]; [|auto with per]. apply reads_bind; [auto with per|]. intros []; cbn [negb]; auto with per.
Qed.

(** A length with bounds below 64K. *)
Lemma length_bounds lb ub : 0 <= lb -> lb <= ub < ASN_64K -> bounds_ok uint32_t lb ub.
Proof. intros Hl Hu. unfold ASN_64K in Hu. constructor; cbn; try lia. by right; right; left. Qed.

Lemma codec_bounded_length lb ub al : 0 <= lb -> lb <= ub < ASN_64K ->
  codec (fun n => lb <= n <= ub) (enc_constrained lb ub al) (fun n => pack_length uint32_t n lb ub al) (unpack_length uint32_t lb ub al).
Proof.
  intros Hl Hu. unfold pack_length, unpack_length. rewrite (proj2 (Z.leb_gt _ _)) by lia. by apply codec_constrained, length_bounds.
Qed.

Lemma reads_bounded_length lb ub al : 0 <= lb -> lb <= ub < ASN_64K -> reads_safely (unpack_length uint32_t lb ub al).
Proof.
  intros Hl Hu. unfold unpack_length. rewrite (proj2 (Z.leb_gt _ _)) by lia. apply reads_constrained; [by apply length_bounds|by left].
Qed.

(** ** Integers *)

(** The bounds of an integer that the code takes as constrained. *)
Record integer_ok (t : int_type) (lb ub : Z) : Prop := {
  io_bounds : bounds_ok t lb ub;
  io_lt : lb < ub;
  io_lower : lower_bounded t lb = true;
  io_upper : upper_bounded t ub = true
}.

Lemma codec_integer t n0 lb ub al : integer_ok t lb ub ->
  codec (fun n => lb <= n <= ub) (enc_constrained lb ub al) (fun n => pack_integer t n lb ub false al) (unpack_integer t n0 lb ub false al).
Proof.
  intros [Hb Hlt Hlo Hup]. destruct (codec_constrained t lb ub al Hb) as [He Hd]. unfold pack_integer, unpack_integer. cbn [andb].
  rewrite Hlo, Hup, (proj2 (Z.eqb_neq lb ub)) by lia. split; [|intros; by apply Hd].
  intros n Hn. rewrite (proj2 (Z.leb_le lb n)), (proj2 (Z.leb_le n ub)) by lia. cbn [andb negb]. by apply encodes_last, He.
Qed.

Lemma reads_integer t n0 lb ub al : integer_ok t lb ub -> it_bits t <= 32 \/ al = false -> reads_safely (unpack_integer t n0 lb ub false al).
Proof.
  intros [Hb Hlt Hlo Hup] Ht. unfold unpack_integer. cbn [andb].
  rewrite Hlo, Hup, (proj2 (Z.eqb_neq lb ub)) by lia. by apply reads_constrained.
Qed.

(** ** Octet strings *)

Definition enc_octets (aligned : bool) (l : bytes) : encoding := if aligned then enc_app enc_pad (enc_bytes l) else enc_bytes l.

Lemma codec_fixed_octstring N al : 0 <= N ->
  codec (fun l => bytes_ok l /\ zlen l = N) (enc_octets (al && (2 <? N))) (fixed_octstring_pack al) (fixed_octstring_unpack N al).
Proof.
  intros HN. unfold enc_octets, fixed_octstring_pack, fixed_octstring_unpack. split.
  - intros l [Hl <-]. destruct (al && (2 <? zlen l)); auto with per.
  - intros l [Hl <-]. replace (Z.to_nat (zlen l)) with (length l) by (unfold zlen; lia).
    destruct (al && (2 <? zlen l)); [|by apply decodes_unpack_each]. apply (decodes_ignore _ _ _ _ _ tt); [auto with per|by apply decodes_unpack_each].
Qed.

Lemma reads_fixed_octstring N al : reads_safely (fixed_octstring_unpack N al).
Proof. unfold fixed_octstring_unpack. destruct (al && (2 <? N)); auto with per. Qed.

Lemma codec_bounded_octstring LB UB al : 0 <= LB -> LB <= UB < ASN_64K ->
  codec (fun l => bytes_ok l /\ LB <= zlen l <= UB) (fun l => enc_app (enc_constrained LB UB al (zlen l)) (enc_octets al l))
        (bounded_octstring_pack LB UB al) (bounded_octstring_unpack LB UB al).
Proof.
  intros Hl Hu. destruct (codec_bounded_length LB UB al Hl Hu) as [He Hd].
  unfold enc_octets, bounded_octstring_pack, bounded_octstring_unpack. split.
  - intros l [Hl' Hz]. apply encodes_handle; [by apply He|]. destruct al; auto with per.
  - intros l [Hl' Hz]. apply (decodes_bind _ _ _ _ (zlen l)); [by apply Hd|].
    replace (Z.to_nat (zlen l)) with (length l) by (unfold zlen; lia).
    destruct al; [|by apply decodes_unpack_each]. apply (decodes_ignore _ _ _ _ _ tt); [auto with per|by apply decodes_unpack_each].
Qed.

Lemma reads_bounded_octstring LB UB al : 0 <= LB -> LB <= UB < ASN_64K -> reads_safely (bounded_octstring_unpack LB UB al).
Proof. intros Hl Hu. apply reads_bind; [by apply reads_bounded_length|]. intros n. destruct al; auto with per. Qed.

Lemma codec_unbounded_octstring :
  codec (fun l => bytes_ok l /\ zlen l < ASN_16K) (fun l => enc_app (enc_length (zlen l)) (enc_bytes l))
        (unbounded_octstring_pack false) (unbounded_octstring_unpack false).
Proof.
  split.
  - intros l [Hl Hz]. pose proof (zlen_nonneg l). apply encodes_handle; [by apply encodes_length|auto with per].
  - intros l [Hl Hz]. pose proof (zlen_nonneg l). apply (decodes_bind _ _ _ _ (zlen l)); [by apply decodes_length|].
    replace (Z.to_nat (zlen l)) with (length l) by (unfold zlen; lia). by apply decodes_unpack_each.
Qed.

Lemma reads_unbounded_octstring al : reads_safely (unbounded_octstring_unpack al).
Proof. apply reads_bind; [apply reads_length|auto with per]. Qed.

(** ** Bit strings *)

(** The bytes of a bit string of [n] bits, the bits above [n] of the last one clear. *)
Definition bits_ok (n : Z) (octets : bytes) : Prop :=
  exists rest x, octets = rest ++ [x] /\ bytes_ok rest /\ zlen rest = ceil_frac n 8 - 1 /\ 0 <= x < 2 ^ ((n - 1) mod 8 + 1).

Definition enc_bitfield (n : Z) (octets : bytes) : encoding :=
  match rev octets with
  | [] => enc_nil
  | x :: l => enc_app (enc_bits ((n - 1) mod 8 + 1) x) (enc_bytes l)
  end.

Lemma reads_bitfield n lb ub al : reads_safely (unpack_bitfield n lb ub al).
Proof.
  unfold unpack_bitfield. destruct (_ <? n); [auto with per|]. destruct (n =? 0); [auto with per|].
  assert (Ho : 0 <= (n - 1) mod 8 + 1 <= 32) by lia.
  assert (Hb : reads_safely (handle_val (unpack 8 ((n - 1) mod 8 + 1)) (fun x => handle_val (unpack_each (Z.to_nat (ceil_frac n 8 - 1))) (fun l => returns (rev l ++ [x])))))
    by (apply reads_bind; auto with per).
  destruct (al && _); auto with per.
Qed.

Lemma codec_bitfield n lb ub : 0 < n <= ASN_64K ->
  codec (bits_ok n) (enc_bitfield n) (fun l => pack_bitfield l n lb ub false) (unpack_bitfield n lb ub false).
Proof.
  intros Hn. unfold pack_bitfield, unpack_bitfield, enc_bitfield. rewrite (proj2 (Z.eqb_neq n 0)), (proj2 (Z.ltb_ge _ n)) by lia. cbn [andb].
  assert (Ho : 0 <= (n - 1) mod 8 + 1 <= 8) by lia. split.
  - intros octets (rest & x & -> & Hr & Hz & Hx). rewrite rev_app_distr. cbn [rev app].
    rewrite <- Hz. rewrite <- (Z.add_0_r (zlen rest)) at 1. rewrite load_app_r by lia. rewrite load_cons_0. unfold defined. cbn [mbind option_bind].
    rewrite ztake_app_eq by done. apply encodes_handle; [apply encodes_pack; lia|auto with per].
  - intros octets (rest & x & -> & Hr & Hz & Hx). rewrite rev_app_distr. cbn [rev app].
    apply (decodes_bind _ _ _ _ x); [apply decodes_unpack; lia|].
    replace (Z.to_nat (ceil_frac n 8 - 1)) with (length (rev rest)) by (rewrite length_rev; unfold zlen in Hz; lia).
    rewrite <- (rev_involutive rest) at 3. apply (decodes_map _ (fun l => rev l ++ [x])), decodes_unpack_each. by apply Forall_rev.
Qed.

(** [fixed_bitstring<N>]. *)
Lemma codec_fixed_bitstring N : 0 < N <= ASN_64K ->
  codec (fun s => bs_nbits s = N /\ bits_ok N (bs_octets s)) (fun s => enc_bitfield N (bs_octets s))
        (bitstring_pack N N false false) (bitstring_unpack N N false false).
Proof.
  intros HN. destruct (codec_bitfield N N N HN) as [He Hd]. unfold bitstring_pack, bitstring_unpack, pack_length_prefix, unpack_length_prefix.
  assert (EU : (N =? UINT32_MAX) = false) by (unfold ASN_64K in HN; unfold UINT32_MAX; apply Z.eqb_neq; lia). rewrite EU, Z.eqb_refl. cbn [andb orb].
  split.
  - intros [l n] [E Hb]. cbn in *. subst n. rewrite !Z.leb_refl. cbn [andb negb]. intros. apply He, Hb.
  - intros [l n] [E Hb]. cbn in *. subst n. intros b Hw Hs Hbits. cbn. apply (decodes_map _ (fun l => mk_bitstring l N) _ l (Hd l Hb) b Hw Hs Hbits).
Qed.

Lemma reads_fixed_bitstring N : reads_safely (bitstring_unpack N N false false).
Proof.
  unfold bitstring_unpack, unpack_length_prefix. rewrite Z.eqb_refl. apply reads_bind.
  - destruct ((N =? UINT32_MAX) || false); [apply reads_length|auto with per].
  - intros n. apply reads_map, reads_bitfield.
Qed.

(** ** Lists *)

Section SeqOf.
Context {A : Type} (ok : A -> Prop) (enc : A -> encoding) (pk : A -> packer) (upk : unpacker A) (Hc : codec ok enc pk upk).

Definition enc_items (l : list A) : encoding := enc_concat (map enc l).

Lemma encodes_items l : Forall ok l -> encodes (pack_items pk l) (enc_items l).
Proof.
  intros Hl. induction Hl as [|x l Hx _ IH]; [apply encodes_success|]. apply encodes_handle; [by apply Hc|done].
Qed.

Lemma decodes_items l : Forall ok l -> decodes (unpack_items upk (length l)) (enc_items l) l.
Proof.
  intros Hl. induction Hl as [|x l Hx _ IH]; [apply decodes_returns|].
  apply (decodes_bind _ _ _ _ x); [by apply Hc|]. by apply (decodes_map _ (fun l => x :: l)).
Qed.

Lemma reads_items n : reads_safely upk -> reads_safely (unpack_items upk n).
Proof.
  intros Hu. induction n as [|n IH]; [apply reads_returns|]. apply reads_bind; [done|]. intros x. by apply reads_map.
Qed.

Lemma codec_fixed_seq_of n : 0 <= n ->
  codec (fun l => zlen l = n /\ Forall ok l) enc_items (pack_fixed_seq_of pk) (unpack_fixed_seq_of upk n).
Proof.
  intros Hn. split; [intros l [_ Hl]; by apply encodes_items|].
  intros l [<- Hl]. unfold unpack_fixed_seq_of. replace (Z.to_nat (zlen l)) with (length l) by (unfold zlen; lia). by apply decodes_items.
Qed.

Lemma codec_dyn_seq_of lb ub al : 0 <= lb -> lb <= ub < ASN_64K ->
  codec (fun l => lb <= zlen l <= ub /\ Forall ok l) (fun l => enc_app (enc_constrained lb ub al (zlen l)) (enc_items l))
        (fun l => pack_dyn_seq_of pk l lb ub al) (unpack_dyn_seq_of upk lb ub al).
Proof.
  intros Hl Hu. destruct (codec_bounded_length lb ub al Hl Hu) as [He Hd]. split.
  - intros l [Hz Hok]. apply encodes_handle; [by apply He|by apply encodes_items].
  - intros l [Hz Hok]. apply (decodes_bind _ _ _ _ (zlen l)); [by apply Hd|].
    replace (Z.to_nat (zlen l)) with (length l) by (unfold zlen; lia). by apply decodes_items.
Qed.

Lemma reads_dyn_seq_of lb ub al : 0 <= lb -> lb <= ub < ASN_64K -> reads_safely upk -> reads_safely (unpack_dyn_seq_of upk lb ub al).
Proof. intros Hl Hu Hr. apply reads_bind; [by apply reads_bounded_length|]. intros. by apply reads_items. Qed.
End SeqOf.
End Laws.

(** ** Correctness and limits of constrained integers *)

(** A constrained integer of any of the integer types, in the aligned or the unaligned
    variant, is packed successfully when a byte is left after it, and unpacking from where it
    was packed gives the integer back and ends where the packer ended. *)
Theorem per_constrained_roundtrip `{Libm} t lb ub al n b : bounds_ok t lb ub -> lb <= n <= ub ->
  br_wf b -> distance b + zlen (enc_constrained lb ub al n (distance b)) + 8 <= 8 * br_max b ->
  exists b', pack_constrained_whole_number t n lb ub al b = Some (SRSASN_SUCCESS, b') /\
    appended b b' (enc_constrained lb ub al n (distance b)) /\
    unpack_constrained_whole_number t lb ub al (seek b' (distance b)) = Some (inr n, b').
Proof. intros Hb Hn Hw Hr. exact (codec_roundtrip _ _ _ _ n b (codec_constrained t lb ub al Hb) Hn Hw Hr). Qed.

Lemma bounds_uint16 lb ub : 0 <= lb -> lb <= ub < 2 ^ 16 -> bounds_ok uint16_t lb ub.
Proof. intros Hl Hu. constructor; [by right; left|cbn; lia..]. Qed.

Lemma bref_new_wf mem : bytes_ok mem -> br_wf (bit_ref_set mem (zlen mem)).
Proof. intros Hm. pose proof (zlen_nonneg mem). constructor; unfold distance; cbn; try done; lia. Qed.

Lemma per_constrained_roundtrip_witness : exists b',
  pack_constrained_whole_number uint16_t 624 0 1535 true (mk_bref (repeat 0 8) 0 5 8) = Some (SRSASN_SUCCESS, b') /\
  br_mem b' = [0; 2; 112; 0; 0; 0; 0; 0] /\
  unpack_constrained_whole_number uint16_t 0 1535 true (seek b' 5) = Some (inr 624, b').
Proof.
  destruct (per_constrained_roundtrip uint16_t 0 1535 true 624 (mk_bref (repeat 0 8) 0 5 8)) as (b' & E & _ & U).
  - apply bounds_uint16; lia.
  - lia.
  - constructor; try (vm_compute; done). by repeat constructor.
  - by vm_compute.
  - exists b'. split; [exact E|]. split; [|exact U]. vm_compute in E. by injection E as <-.
Defined.

(** What the unaligned unpacker makes of a field with the value [v]. *)
Definition constrained_value (t : int_type) (lb ub v : Z) : SRSASN_CODE + Z :=
  if v <=? ub - lb then inr (lb + v)
  else if lb + v <=? it_max t then inl SRSASN_ERROR_DECODE_FAIL
  else inr (lb + v - 2 ^ it_bits t).

(** The sum with the lower bound wraps around at most once, to less than the lower bound. *)
Lemma constrained_sum t lb ub v : bounds_ok t lb ub -> 0 <= v < 2 ^ it_bits t ->
  (if ub <? it_wrap t (v + lb) then inl SRSASN_ERROR_DECODE_FAIL else inr (it_wrap t (v + lb))) = constrained_value t lb ub v.
Proof.
  intros [Hv Hm HM Hr] Hvr. pose proof (it_range t Hv). unfold constrained_value. destruct (Z.leb_spec v (ub - lb)).
  - rewrite it_wrap_id by (done || lia). rewrite (proj2 (Z.ltb_ge _ _)) by lia. f_equal. lia.
  - destruct (Z.leb_spec (lb + v) (it_max t)).
    + rewrite it_wrap_id by (done || lia). by rewrite (proj2 (Z.ltb_lt _ _)) by lia.
    + assert (E : it_wrap t (v + lb) = lb + v - 2 ^ it_bits t).
      { rewrite <- (it_wrap_id t (lb + v - 2 ^ it_bits t)) by (done || lia). unfold it_wrap. f_equal.
        replace (v + lb - it_min t) with (lb + v - 2 ^ it_bits t - it_min t + 1 * 2 ^ it_bits t) by lia. apply Z_mod_plus_full. }
      rewrite E. by rewrite (proj2 (Z.ltb_ge _ _)) by lia.
Qed.

(** Unpacking from a buffer. *)
Lemma constrained_unpack `{Libm} t lb ub b : bounds_ok t lb ub -> lb < ub -> br_wf b ->
  let k := Z.log2_up (ub - lb + 1) in
  let r := unpack_constrained_whole_number t lb ub false b in
  if distance b + k <=? 8 * br_max b then
    exists v, 0 <= v < 2 ^ k /\ bits_at (br_mem b) (distance b) (wbits k v) /\ r = Some (constrained_value t lb ub v, seek b (distance b + k))
  else exists b', r = Some (inl SRSASN_ERROR_DECODE_FAIL, b') /\ moved b b'.
Proof.
  intros Hb Hlt Hw k r. pose proof Hb as [Hv Hm HM Hr]. unfold r, unpack_constrained_whole_number. rewrite (proj2 (Z.ltb_ge ub lb)) by lia.
  rewrite (it_sub_ok t lb ub ub lb) by (done || lia). unfold defined_val. cbn [mbind option_bind negb].
  replace (u64 (u64 (ub - lb) + 1)) with (ub - lb + 1) by (unfold u64; lia). rewrite (proj2 (Z.eqb_neq (ub - lb + 1) 1)) by lia.
  destruct (range_bits t lb ub Hb Hlt) as (El & Hk & Hkt & Hlt'). rewrite El. unfold handle_val. fold k in Hk, Hkt, Hlt' |- *.
  pose proof (unpack_spec (it_bits t) k b Hw ltac:(lia) Hkt) as Hu. unfold unpacks in Hu. destruct (_ <=? 8 * br_max b).
  - destruct Hu as (v & Hvr & Hbits & ->). exists v. do 2 (split; [done|]). cbn [mbind option_bind]. rewrite it_wrap_add by done.
    assert (2 ^ k <= 2 ^ it_bits t) by (apply Z.pow_le_mono_r; lia).
    rewrite <- (constrained_sum t lb ub v) by (done || lia). unfold decode_fail, returns. by destruct (ub <? _).
  - destruct Hu as (b1 & -> & Hmv). by exists b1.
Qed.

(** A buffer of ones gives the greatest value. *)
Lemma ones_bits k : 0 <= k < 32 -> bits_at (repeat 255 8) 0 (wbits k (2 ^ k - 1)).
Proof.
  intros Hk i x Hx. pose proof (lookup_lt_Some _ _ _ Hx) as Hi. assert (Hi' : Z.of_nat i < k) by (pose proof (zlen_wbits k (2 ^ k - 1) ltac:(lia)); unfold zlen in *; lia).
  unfold wbits in Hx. rewrite list_lookup_fmap in Hx. apply fmap_Some in Hx as (j & Hj%lookup_seqZ & ->). destruct Hj as [-> _].
  replace (Z.testbit (2 ^ k - 1) _) with true.
  2: { rewrite Z.sub_1_r, <- Z.ones_equiv. symmetry. apply Z.ones_spec_low. lia. }
  assert (T : range_forallb 32 (fun p => bool_decide (bit_at (repeat 255 8) p = Some true)) = true) by (vm_compute; reflexivity).
  pose proof (range_forallb_spec _ _ T (0 + Z.of_nat i) ltac:(lia)) as T1. cbv beta in T1. by apply bool_decide_eq_true in T1.
Qed.



(** A value below the lower bound is accepted; and the aligned variant does not check the upper
    bound. *)
Lemma per_constrained_wraps : unpack_constrained_whole_number uint8_t 200 255 false (bit_ref_set [0xFC] 1) = Some (inr 7, mk_bref [0xFC] 0 6 1).
Proof. by vm_compute. Qed.

Lemma per_aligned_exceeds : unpack_constrained_whole_number uint8_t 0 199 true (bit_ref_set [0xFF] 1) = Some (inr 255, mk_bref [0xFF] 1 0 1).
Proof. by vm_compute. Qed.

(** In the unaligned variant the status of the bit packer is not looked at: a constrained
    integer that does not fit in the buffer is cut off, and success is reported. *)
Theorem per_constrained_truncates `{Libm} t lb ub n b : bounds_ok t lb ub -> lb < ub -> lb <= n <= ub -> br_wf b ->
  8 * br_max b < distance b + Z.log2_up (ub - lb + 1) ->
  exists b' l, pack_constrained_whole_number t n lb ub false b = Some (SRSASN_SUCCESS, b') /\ appended b b' l /\ zlen l < Z.log2_up (ub - lb + 1).
Proof.
  intros Hb Hlt Hn Hw Hr. pose proof Hb as [Hv Hm HM Hrange]. unfold pack_constrained_whole_number.
  rewrite (proj2 (Z.ltb_ge ub lb)), (proj2 (Z.ltb_ge n lb)), (proj2 (Z.ltb_ge ub n)) by lia. cbn [orb].
  rewrite (it_sub_ok t lb ub ub lb), (it_sub_ok t lb ub n lb) by (done || lia). unfold defined. cbn [mbind option_bind].
  replace (u64 (u64 (ub - lb) + 1)) with (ub - lb + 1) by (unfold u64; lia). rewrite (proj2 (Z.eqb_neq _ 1)) by lia.
  destruct (range_bits t lb ub Hb ltac:(lia)) as (El & Hk & Hkt & _). rewrite El. cbn [negb]. unfold ignore, success.
  pose proof (pack_spec (u64 (it_wrap t (n - lb))) (Z.log2_up (ub - lb + 1)) b Hw ltac:(lia)) as Hp.
  rewrite (proj2 (Z.leb_gt _ _)) in Hp by lia. destruct Hp as (b' & l & -> & Ha). exists b', l. cbn [mbind option_bind]. do 2 (split; [done|]).
  pose proof (bw_pos _ (ap_wf _ _ _ Ha)). rewrite (ap_pos _ _ _ Ha), (ap_max _ _ _ Ha) in *. lia.
Qed.

Lemma per_constrained_truncates_witness : exists b' l,
  pack_constrained_whole_number uint8_t 21 0 28 false (mk_bref [0xF8] 0 5 1) = Some (SRSASN_SUCCESS, b') /\ appended (mk_bref [0xF8] 0 5 1) b' l /\ zlen l < 5.
Proof.
  apply (per_constrained_truncates uint8_t 0 28 21 (mk_bref [0xF8] 0 5 1)); try (by vm_compute).
  - constructor; [by left|by vm_compute..].
  - constructor; try (vm_compute; done). by repeat constructor.
Defined.

(** The greatest 32-bit number, packed in the aligned variant as an S1AP identity of the
    MME is, becomes five octets with a length field of two bits; packing succeeds, and the
    number is unpacked as 0. *)
Theorem per_mme_id_lost `{Libm} : exists b',
  pack_constrained_whole_number uint64_t (2 ^ 32 - 1) 0 (2 ^ 32 - 1) true (bit_ref_set (repeat 0 8) 8) = Some (SRSASN_SUCCESS, b') /\ unpack_constrained_whole_number uint64_t 0 (2 ^ 32 - 1) true (seek b' 0) = Some (inr 0, seek b' 16).
Proof.
  assert (E1 : ceil_log2 (2 ^ 32) = 32) by (apply ceil_log2_pow; lia). assert (E2 : ceil_log2 4 = 2) by (apply (ceil_log2_pow 2); lia).
  exists (mk_bref [0; 0; 0xFF; 0xFF; 0xFF; 0xFF; 0; 0] 6 0 8). split.
  - unfold pack_constrained_whole_number. change (u64 (u64 (2 ^ 32 - 1 - 0) + 1)) with (2 ^ 32).
    unfold defined. cbn [it_sub uint64_t it_signed andb mbind option_bind negb]. change (u64 (u64 (2 ^ 32 - 1 - 0) + 1)) with (2 ^ 32).
    rewrite E1. change (ceil_frac 32 8) with 4. rewrite E2. change (Z.max (it_wrap uint64_t (2 ^ 32 - 1 - 0)) 1) with (2 ^ 32 - 1).
    rewrite bit_width_max. by vm_compute.
  - unfold unpack_constrained_whole_number, defined_val. cbn [it_sub uint64_t it_signed andb mbind option_bind negb].
    change (u64 (u64 (2 ^ 32 - 1 - 0) + 1)) with (2 ^ 32). rewrite E1. change (ceil_frac 32 8) with 4. rewrite E2. by vm_compute.
Qed.

Lemma per_mme_id_lost_witness : exists b',
  pack_constrained_whole_number uint64_t (2 ^ 32 - 1) 0 (2 ^ 32 - 1) true (bit_ref_set (repeat 0 8) 8) = Some (SRSASN_SUCCESS, b') /\ unpack_constrained_whole_number uint64_t 0 (2 ^ 32 - 1) true (seek b' 0) = Some (inr 0, seek b' 16).
Proof. exact (@per_mme_id_lost exact_libm). Defined.
