(* ===== verification/PerExt.v ===== *)
(** * Extensions of the packed encoding rules

    The open fields and the extension groups of [lib/src/asn1/asn1_utils.cc]
    ([varlength_field_pack_guard], [varlength_field_unpack_guard], [ext_groups_packer_guard],
    [ext_groups_unpacker_guard]).  A guard of the source runs its last step in its destructor,
    also when the code between returns early; here it takes that code as an argument. *)

From stdpp Require Import base list numbers.
From S2P Require Import Prelude BitRef Per PerLaws.

Local Open Scope Z_scope.
Ltac Zify.zify_post_hook ::= Z.to_euclidean_division_equations.

(** ** Open fields *)

(** [varlength_field_pack_guard], unaligned: the code between packs into a buffer of its own,
    whose bytes are then packed after their number.  Every byte that is packed was written
    before, so that the initial contents of the buffer do not matter. *)
Definition open_field_pack (f : packer) : packer := fun b =>
  '(c, t) ← f (bit_ref_set (repeat 0 4096) 4096);
  let leftover := 7 - u32 (distance t - 1) mod 8 in
  '(_, t1) ← pack 0 leftover t;
  let nof_bytes := u32 (distance t1) / 8 in
  '(_, b1) ← pack_length_determinant nof_bytes false b;
  '(_, b2) ← pack_each_ignored (ztake nof_bytes (br_mem t1)) b1;
  Some (c, b2).

(** [varlength_field_unpack_guard], unaligned: the rest of the field is skipped by reading it
    into a 32-bit number.  After a failure to read the length nothing can be read any more, or
    the length is 0. *)
Definition open_field_unpack {A} (g : unpacker A) : unpacker A := fun b =>
  '(rl, b0) ← unpack_length_determinant false b;
  let len := match rl with inl _ => 0 | inr v => v end in
  '(r, b1) ← g b0;
  '(_, b2) ← unpack 32 (u32 (len * 8 - (distance b1 - distance b0))) b1;
  Some (r, b2).

(** ** Extension groups *)

(** The number of groups up to the last one that is present. *)
Fixpoint nof_groups (groups : list bool) : Z :=
  match groups with
  | [] => 0
  | g :: groups' => let n := nof_groups groups' in if 0 <? n then n + 1 else if g then 1 else 0
  end.

Definition ext_groups_pack (groups : list bool) : packer :=
  handle (pack_norm_small_non_neg_whole_number (u32 (nof_groups groups - 1)))
    (pack_items (fun g => pack (b2z g) 1) (ztake (nof_groups groups) groups)).

(** The loop over the presence flags; [rest] are the flags that are still to be read. *)
Fixpoint unpack_flags (n : nat) (done rest : list bool) (b : bit_ref) : option (SRSASN_CODE * list bool * bit_ref) :=
  match n, rest with
  | S n', _ :: rest' =>
      '(r, b1) ← unpack_bool b;
      match r with
      | inl c => Some (c, done ++ false :: rest', b1)
      | inr x => unpack_flags n' (done ++ [x]) rest' b1
      end
  | _, _ => Some (SRSASN_SUCCESS, done ++ rest, b)
  end.

(** [ext_groups_unpacker_guard::unpack]: the status, the member [nof_unpacked_groups] and the
    groups. *)
Definition ext_groups_unpack (nof_supported : Z) (b : bit_ref) : option (SRSASN_CODE * Z * list bool * bit_ref) :=
  let groups := repeat false (Z.to_nat nof_supported) in
  '(r, b1) ← unpack_bool b;
  match r with
  | inl c => Some (c, 0, groups, b1)
  | inr true => Some (SRSASN_ERROR_DECODE_FAIL, 0, groups, b1)
  | inr false =>
      '(c, n, b2) ← unpack_bits 32 0 6 b1;
      match c with
      | SRSASN_SUCCESS =>
          let n1 := n + 1 in
          let groups1 := groups ++ repeat false (Z.to_nat (n1 - nof_supported)) in
          '(c1, groups2, b3) ← unpack_flags (Z.to_nat n1) [] groups1 b2;
          Some (c1, n1, groups2, b3)
      | _ => Some (c, n, groups, b2)
      end
  end.

(** The destructor: the groups from [i] on that are present are skipped. *)
Fixpoint skip_unknown (n : nat) (i : Z) (groups : list bool) (b : bit_ref) : option bit_ref :=
  match n with
  | O => Some b
  | S n' =>
      g ← groups !! Z.to_nat i;
      if (g : bool) then '(_, b1) ← open_field_unpack (returns tt) b; skip_unknown n' (i + 1) groups b1
      else skip_unknown n' (i + 1) groups b
  end.

(** The use of the guard: its [unpack], whose status is not looked at, the code that reads the
    supported groups, and the destructor. *)
Definition with_ext_groups {A} (nof_supported : Z) (g : list bool -> unpacker A) : unpacker A := fun b =>
  '(_, n, groups, b1) ← ext_groups_unpack nof_supported b;
  '(r, b2) ← g groups b1;
  b3 ← skip_unknown (Z.to_nat (n - nof_supported)) nof_supported groups b2;
  Some (r, b3).

(** ** The encoding of an open field *)

(** The bits as whole bytes, zeros at the end. *)
Definition enc_open (e : encoding) : encoding :=
  let l := e 0 in
  let l' := l ++ wbits (- zlen l mod 8) 0 in
  enc_app (enc_length (zlen l' / 8)) (fun _ => l').

(** An encoding that does not depend on where it starts. *)
Definition unaligned (e : encoding) : Prop := forall p, e p = e 0.

Lemma enc_bytes_fixed l p : enc_bytes l p = flat_map (wbits 8) l.
Proof. revert p. induction l as [|x l IH]; intros p; [done|]. unfold enc_bytes. cbn. unfold enc_app, enc_bits. f_equal. apply IH. Qed.

Lemma zlen_flat_bytes l : zlen (flat_map (wbits 8) l) = 8 * zlen l.
Proof. induction l as [|x l IH]; [done|]. cbn [flat_map]. rewrite zlen_app, IH, zlen_wbits, zlen_cons by lia. lia. Qed.

Lemma bits_at_bytes l : forall pre suf, bits_at (pre ++ l ++ suf) (8 * zlen pre) (flat_map (wbits 8) l).
Proof.
  induction l as [|x l IH]; intros pre suf; [apply bits_at_nil|]. cbn [flat_map]. apply bits_at_app. rewrite zlen_wbits by lia. split.
  - rewrite <- (Z.shiftr_0_r x), <- (Z.add_0_r (8 * zlen pre)). apply (byte_bits _ _ x 0 8); [|lia..].
    rewrite <- (Z.add_0_r (zlen pre)). rewrite load_app_r by lia. apply load_cons_0.
  - replace (8 * zlen pre + 8) with (8 * zlen (pre ++ [x])) by (rewrite zlen_app; change (zlen [x]) with 1; lia).
    replace (pre ++ (x :: l) ++ suf) with ((pre ++ [x]) ++ l ++ suf) by (by rewrite <- app_assoc). apply IH.
Qed.

(** The bits of the first [k] bytes of a buffer. *)
Lemma bits_of_bytes m k l : bits_at m 0 l -> zlen l = 8 * k -> 0 <= k <= zlen m -> flat_map (wbits 8) (ztake k m) = l.
Proof.
  intros Hb Hl Hk. apply (bits_at_unique m 0); [|rewrite <- (ztake_zdrop k m) at 1; apply (bits_at_bytes _ [])|done].
  apply Nat2Z.inj. fold (zlen (flat_map (wbits 8) (ztake k m))) (zlen l). rewrite zlen_flat_bytes, zlen_ztake; lia.
Qed.

Lemma bytes_ok_zeros n : bytes_ok (repeat 0 n).
Proof. induction n as [|n IH]; [constructor|]. by constructor. Qed.

(** Packing into the buffer of the guard. *)
Lemma open_buffer f e : encodes f e -> zlen (e 0) <= 8 * 4095 ->
  exists t t1 l', f (bit_ref_set (repeat 0 4096) 4096) = Some (SRSASN_SUCCESS, t) /\
    pack 0 (7 - u32 (distance t - 1) mod 8) t = Some (SRSASN_SUCCESS, t1) /\
    l' = e 0 ++ wbits (- zlen (e 0) mod 8) 0 /\ u32 (distance t1) / 8 = zlen l' / 8 /\
    flat_map (wbits 8) (ztake (zlen l' / 8) (br_mem t1)) = l' /\ zlen l' <= 8 * 4095.
Proof.
  intros Hf Hz. pose proof (zlen_nonneg (e 0)). set (b0 := bit_ref_set (repeat 0 4096) 4096).
  assert (Hw : br_wf b0) by (apply (bref_new_wf (repeat 0 4096)), bytes_ok_zeros).
  destruct (en_ok _ _ Hf b0 Hw) as (t & E & Ha). { change (distance b0) with 0. change (br_max b0) with 4096. lia. }
  change (distance b0) with 0 in Ha. pose proof (ap_pos _ _ _ Ha) as Hp. change (distance b0) with 0 in Hp. pose proof (ap_max _ _ _ Ha) as Hm. change (br_max b0) with 4096 in Hm.
  assert (En : 7 - u32 (distance t - 1) mod 8 = - zlen (e 0) mod 8) by (unfold u32; rewrite Hp; lia).
  pose proof (Z.mod_pos_bound (- zlen (e 0)) 8 ltac:(lia)) as Hmod.
  pose proof (pack_spec 0 (- zlen (e 0) mod 8) t (ap_wf _ _ _ Ha) ltac:(lia)) as Hk. rewrite (proj2 (Z.leb_le _ _)) in Hk by lia.
  destruct Hk as (t1 & E1 & Ha1). exists t, t1, (e 0 ++ wbits (- zlen (e 0) mod 8) 0). rewrite En. do 3 (split; [done|]).
  assert (Hl : zlen (e 0 ++ wbits (- zlen (e 0) mod 8) 0) = distance t1) by (rewrite zlen_app, (ap_pos _ _ _ Ha1), Hp; lia).
  assert (Hd : distance t1 = zlen (e 0) + - zlen (e 0) mod 8) by (rewrite (ap_pos _ _ _ Ha1), Hp, zlen_wbits; lia).
  rewrite Hl. assert (H8 : distance t1 mod 8 = 0) by lia. repeat split.
  - f_equal. unfold u32. apply Z.mod_small. lia.
  - pose proof (appended_trans _ _ _ _ _ Hw Ha Ha1) as Ha2. apply bits_of_bytes.
    + apply (ap_bits _ _ _ Ha2).
    + rewrite Hl. lia.
    + rewrite (bw_mem _ (ap_wf _ _ _ Ha1)), (ap_max _ _ _ Ha1), Hm. lia.
  - lia.
Qed.

Lemma encodes_open f e : encodes f e -> zlen (e 0) <= 8 * 4095 -> encodes (open_field_pack f) (enc_open e).
Proof.
  intros Hf Hz. destruct (open_buffer f e Hf Hz) as (t & t1 & l' & E & E1 & El & En & Eb & Hl). pose proof (zlen_nonneg l').
  assert (Hlen : encodes (pack_length_determinant (zlen l' / 8) false) (enc_length (zlen l' / 8))) by (apply encodes_length; unfold ASN_16K; lia).
  set (l := ztake (zlen l' / 8) (br_mem t1)) in *.
  assert (Hb : encodes (pack_each l) (fun _ => l')) by (eapply encodes_ext; [|apply encodes_pack_each]; intros p _; by rewrite enc_bytes_fixed).
  assert (Hx : encodes (handle (pack_length_determinant (zlen l' / 8) false) (pack_each l)) (enc_open e)).
  { unfold enc_open. rewrite <- El. by apply encodes_handle. }
  assert (Hi : forall b, br_wf b -> exists b2 l2, pack_each_ignored l b = Some (SRSASN_SUCCESS, b2) /\ appended b b2 l2).
  { clear. induction l as [|x l IH]; intros b Hw; [exists b, []; split; [done|by apply appended_refl]|].
    destruct (en_safe _ _ (encodes_pack x 8 ltac:(lia)) b Hw) as (c & b1 & l1 & E1 & H1). cbn [pack_each_ignored]. rewrite E1. cbn [mbind option_bind].
    destruct (IH b1 (ap_wf _ _ _ H1)) as (b2 & l2 & E2 & H2). eexists b2, _. split; [done|by eapply appended_trans]. }
  split.
  - intros b Hw Hr. destruct (en_ok _ _ Hx b Hw Hr) as (b' & Eb' & Ha). exists b'. split; [|done].
    unfold open_field_pack. rewrite E. cbn [mbind option_bind]. rewrite E1. cbn [mbind option_bind]. rewrite En. fold l.
    unfold handle in Eb'. destruct (pack_length_determinant (zlen l' / 8) false b) as [[c b1]|] eqn:EL; [|done]. cbn [mbind option_bind] in *.
    destruct (en_ok _ _ Hlen b Hw) as (b1' & EL' & HaL).
    { revert Hr. unfold enc_open. rewrite <- El. unfold enc_app. rewrite zlen_app. lia. }
    rewrite EL in EL'. injection EL' as -> ->. rewrite pack_each_fits; [by rewrite Eb'|by apply HaL|].
    rewrite (ap_pos _ _ _ HaL), (ap_max _ _ _ HaL). revert Hr. unfold enc_open. rewrite <- El. unfold enc_app. rewrite zlen_app.
    rewrite <- Eb at 2. rewrite zlen_flat_bytes. lia.
  - intros b Hw. unfold open_field_pack. rewrite E. cbn [mbind option_bind]. rewrite E1. cbn [mbind option_bind]. rewrite En. fold l.
    destruct (en_safe _ _ Hlen b Hw) as (c & b1 & l1 & EL & H1). rewrite EL. cbn [mbind option_bind].
    destruct (Hi b1 (ap_wf _ _ _ H1)) as (b2 & l2 & E2 & H2). rewrite E2. cbn [mbind option_bind].
    eexists _, b2, _. split; [done|by eapply appended_trans].
Qed.

Lemma decodes_open {A} (g : unpacker A) e v : decodes g e v -> unaligned e -> zlen (e 0) <= 8 * 4095 -> decodes (open_field_unpack g) (enc_open e) v.
Proof.
  intros Hg Hu Hz b Hw Hr Hb. unfold enc_open in *. set (l' := e 0 ++ wbits (- zlen (e 0) mod 8) 0) in *.
  pose proof (Z.mod_pos_bound (- zlen (e 0)) 8 ltac:(lia)) as Hmod. pose proof (zlen_nonneg (e 0)).
  assert (Hl : zlen l' = zlen (e 0) + - zlen (e 0) mod 8) by (unfold l'; rewrite zlen_app, zlen_wbits; lia).
  unfold enc_app in *. rewrite zlen_app in *. apply bits_at_app in Hb as [Hb1 Hb2]. set (p0 := distance b + zlen (enc_length (zlen l' / 8) (distance b))) in *.
  pose proof (zlen_nonneg (enc_length (zlen l' / 8) (distance b))).
  unfold open_field_unpack. rewrite (decodes_length (zlen l' / 8) ltac:(unfold ASN_16K; lia) b Hw ltac:(lia) Hb1). cbn [mbind option_bind]. fold p0.
  assert (Hm : moved b (seek b p0)) by (apply seek_moved; [done|unfold p0; lia]).
  pose proof (Hg _ (mv_wf _ _ Hm)) as Hd. rewrite distance_seek, Hu in Hd. rewrite seek_seek in Hd. change (br_max (seek b p0)) with (br_max b) in Hd.
  change (br_mem (seek b p0)) with (br_mem b) in Hd. unfold l' in Hb2. apply bits_at_app in Hb2 as [Hb2 Hb3].
  rewrite Hd; [|unfold p0; lia|done]. cbn [mbind option_bind]. rewrite !distance_seek.
  replace (u32 (zlen l' / 8 * 8 - (p0 + zlen (e 0) - p0))) with (- zlen (e 0) mod 8) by (unfold u32; lia).
  assert (Hm2 : moved b (seek b (p0 + zlen (e 0)))) by (apply seek_moved; [done|unfold p0; lia]).
  pose proof (decodes_unpack 32 (- zlen (e 0) mod 8) 0 ltac:(lia) ltac:(lia) ltac:(split; [lia|apply Z.pow_pos_nonneg; lia]) _ (mv_wf _ _ Hm2)) as Hd2.
  rewrite distance_seek, seek_seek in Hd2. unfold enc_bits in Hd2. rewrite zlen_wbits in Hd2 by lia. rewrite Hd2; [|cbn; unfold p0; lia|done].
  cbn [mbind option_bind]. do 3 f_equal. unfold p0. lia.
Qed.

Lemma reads_open {A} (g : unpacker A) : reads_safely g -> reads_safely (open_field_unpack g).
Proof.
  intros Hg b Hw. destruct (reads_length false b Hw) as (rl & b0 & E0 & H0). unfold open_field_unpack. rewrite E0. cbn [mbind option_bind].
  destruct (Hg b0 (mv_wf _ _ H0)) as (r & b1 & E1 & H1). rewrite E1. cbn [mbind option_bind]. set (n := u32 _).
  assert (Hu : exists r' b2, unpack 32 n b1 = Some (r', b2) /\ moved b1 b2).
  { destruct (Z.le_gt_cases n 32) as [Hn|Hn].
    - apply reads_unpack; [|by apply H1]. split; [apply is_u32_mod|done].
    - eexists _, b1. split; [|by apply moved_refl, (mv_wf _ _ H1)]. unfold unpack, unpack_bits. rewrite (proj2 (Z.ltb_lt _ _)) by lia. done. }
  destruct Hu as (r' & b2 & E2 & H2). rewrite E2. eexists _, b2. split; [done|]. eapply moved_trans; [done|by eapply moved_trans].
Qed.

(** ** The encoding of the extension groups *)

Lemma nof_groups_spec l : 0 <= nof_groups l <= zlen l /\ l = ztake (nof_groups l) l ++ repeat false (Z.to_nat (zlen l - nof_groups l)).
Proof.
  induction l as [|g l [Hb Hl]]; [done|]. cbn [nof_groups]. rewrite zlen_cons. destruct (Z.ltb_spec 0 (nof_groups l)) as [Hn|Hn].
  - split; [lia|]. unfold ztake. replace (Z.to_nat (nof_groups l + 1)) with (S (Z.to_nat (nof_groups l))) by lia. cbn [take app]. f_equal.
    rewrite Hl at 1. unfold ztake. do 2 f_equal. lia.
  - assert (E : nof_groups l = 0) by lia. rewrite E in Hl. cbn in Hl. rewrite Z.sub_0_r in Hl.
    destruct g; (split; [lia|]); unfold ztake; cbn [take app].
    + change (Z.to_nat 1) with 1%nat. cbn [take app]. f_equal. replace (1 + zlen l - 1) with (zlen l) by lia. exact Hl.
    + change (Z.to_nat 0) with 0%nat. cbn [take app]. replace (Z.to_nat (1 + zlen l - 0)) with (S (Z.to_nat (zlen l))) by lia.
      cbn [repeat]. f_equal. exact Hl.
Qed.

Definition enc_groups (groups : list bool) : encoding :=
  let n := nof_groups groups in
  enc_app (enc_app (enc_bits 1 0) (enc_bits 6 (n - 1))) (enc_items (fun g => enc_bits 1 (b2z g)) (ztake n groups)).

Lemma codec_flag : codec (fun _ => True) (fun g => enc_bits 1 (b2z g)) (fun g => pack (b2z g) 1) unpack_bool.
Proof. split; intros; [apply encodes_pack; lia|apply decodes_unpack_bool]. Qed.

Lemma encodes_groups groups : 0 < nof_groups groups <= 64 -> encodes (ext_groups_pack groups) (enc_groups groups).
Proof.
  intros Hn. unfold ext_groups_pack. replace (u32 (nof_groups groups - 1)) with (nof_groups groups - 1) by (unfold u32; lia).
  apply encodes_handle; [apply encodes_norm_small; lia|]. apply (encodes_items _ _ _ _ codec_flag). by apply Forall_true.
Qed.

(** Flags are encoded as themselves. *)
Lemma enc_flags l p : enc_items (fun g => enc_bits 1 (b2z g)) l p = l.
Proof.
  revert p. induction l as [|g l IH]; intros p; [done|]. unfold enc_items in *. cbn [map enc_concat]. unfold enc_app. rewrite IH. by destruct g.
Qed.

Lemma unpack_flag b g : br_wf b -> bits_at (br_mem b) (distance b) [g] -> distance b + 1 <= 8 * br_max b ->
  unpack_bool b = Some (inr g, seek b (distance b + 1)) /\ moved b (seek b (distance b + 1)).
Proof.
  intros Hw Hb Hr. split; [|apply seek_moved; [done|lia]]. assert (E : enc_bits 1 (b2z g) (distance b) = [g]) by (by destruct g).
  pose proof (decodes_unpack_bool g b Hw) as Hd. rewrite E in Hd. change (zlen [g]) with 1 in Hd. by apply Hd.
Qed.

Lemma decodes_flags l : forall rest done b, (length l <= length rest)%nat -> br_wf b ->
  distance b + zlen l <= 8 * br_max b -> bits_at (br_mem b) (distance b) l ->
  unpack_flags (length l) done rest b = Some (SRSASN_SUCCESS, done ++ l ++ drop (length l) rest, seek b (distance b + zlen l)).
Proof.
  induction l as [|g l IH]; intros rest done b Hlen Hw Hr Hb.
  - cbn in *. rewrite Z.add_0_r, seek_distance by done. done.
  - destruct rest as [|y rest]; [cbn in Hlen; lia|]. cbn in Hlen. cbn [length unpack_flags]. rewrite zlen_cons in *. pose proof (zlen_nonneg l).
    apply (bits_at_app _ _ [g] l) in Hb as [Hb1 Hb2]. change (zlen [g]) with 1 in Hb2.
    destruct (unpack_flag b g Hw Hb1 ltac:(lia)) as [-> Hm]. cbn [mbind option_bind].
    rewrite IH; rewrite ?distance_seek; try done; try lia; [|by apply Hm|cbn; lia].
    rewrite seek_seek, <- app_assoc. cbn [app drop]. do 3 f_equal. lia.
Qed.

Lemma unpack_bits_of w n b v b' : unpack w n b = Some (inr v, b') -> unpack_bits w 0 n b = Some (SRSASN_SUCCESS, v, b').
Proof. unfold unpack. destruct (unpack_bits w 0 n b) as [[[c v'] b1]|]; [|done]. by destruct c; intros [= -> ->]. Qed.

Lemma drop_repeat_false (k n : nat) : drop n (repeat false k) = repeat false (k - n).
Proof. revert n. induction k as [|k IH]; intros [|n]; try done. apply IH. Qed.

(** The groups as they are read: at least as many as the decoder supports. *)
Definition groups_read (nof_supported : Z) (flags : list bool) : list bool :=
  flags ++ repeat false (Z.to_nat (nof_supported - zlen flags)).

Lemma ext_groups_unpack_spec nof_supported flags b : 0 <= nof_supported -> 0 < zlen flags <= 64 -> br_wf b ->
  distance b + (7 + zlen flags) <= 8 * br_max b -> bits_at (br_mem b) (distance b) (wbits 1 0 ++ wbits 6 (zlen flags - 1) ++ flags) ->
  ext_groups_unpack nof_supported b =
    Some (SRSASN_SUCCESS, zlen flags, groups_read nof_supported flags, seek b (distance b + (7 + zlen flags))).
Proof.
  intros Hs Hn Hw Hr Hb. apply bits_at_app in Hb as [Hb1 Hb]. apply bits_at_app in Hb as [Hb6 Hf]. rewrite !zlen_wbits in * by lia.
  destruct (unpack_flag b false Hw Hb1 ltac:(lia)) as [E1 Hm1]. unfold ext_groups_unpack. rewrite E1. cbn [mbind option_bind].
  pose proof (decodes_unpack 32 6 (zlen flags - 1) ltac:(lia) ltac:(lia) ltac:(lia) _ (mv_wf _ _ Hm1)) as H6. rewrite distance_seek in H6. unfold enc_bits in H6.
  rewrite zlen_wbits in H6 by lia. specialize (H6 ltac:(cbn; lia) Hb6). rewrite seek_seek in H6. rewrite (unpack_bits_of _ _ _ _ _ H6). cbn [mbind option_bind].
  replace (zlen flags - 1 + 1) with (zlen flags) by lia. assert (Hm7 : moved b (seek b (distance b + 1 + 6))) by (apply seek_moved; [done|lia]).
  replace (Z.to_nat (zlen flags)) with (length flags) by (unfold zlen; lia).
  rewrite decodes_flags; rewrite ?distance_seek by lia; [|rewrite length_app, !repeat_length; unfold zlen; lia|apply Hm7|cbn; lia|done].
  cbn [mbind option_bind app]. rewrite seek_seek. replace (distance b + 1 + 6 + zlen flags) with (distance b + (7 + zlen flags)) by lia.
  do 3 f_equal. unfold groups_read. rewrite <- repeat_app, drop_repeat_false. do 3 f_equal. unfold zlen. lia.
Qed.

Lemma enc_groups_bits groups p : enc_groups groups p = wbits 1 0 ++ wbits 6 (nof_groups groups - 1) ++ ztake (nof_groups groups) groups.
Proof. unfold enc_groups, enc_app, enc_bits. by rewrite enc_flags, <- app_assoc. Qed.

Lemma zlen_enc_groups groups p : zlen (enc_groups groups p) = 7 + nof_groups groups.
Proof. destruct (nof_groups_spec groups) as [Hn _]. rewrite enc_groups_bits, !zlen_app, !zlen_wbits, zlen_ztake by lia. lia. Qed.

(** Reading the groups that a packer with the same number of groups has written. *)
Lemma decodes_ext_groups groups b : 0 < nof_groups groups <= 64 -> br_wf b ->
  distance b + zlen (enc_groups groups (distance b)) <= 8 * br_max b -> bits_at (br_mem b) (distance b) (enc_groups groups (distance b)) ->
  ext_groups_unpack (zlen groups) b = Some (SRSASN_SUCCESS, nof_groups groups, groups, seek b (distance b + zlen (enc_groups groups (distance b)))).
Proof.
  intros Hn Hw. destruct (nof_groups_spec groups) as [Hng Hgr]. rewrite zlen_enc_groups, enc_groups_bits. intros Hr Hb.
  assert (Hl : zlen (ztake (nof_groups groups) groups) = nof_groups groups) by (by apply zlen_ztake).
  rewrite <- Hl in Hb at 1. rewrite (ext_groups_unpack_spec _ _ _ (zlen_nonneg groups) ltac:(by rewrite Hl) Hw ltac:(by rewrite Hl) Hb).
  rewrite Hl. unfold groups_read. rewrite Hl. by rewrite <- Hgr.
Qed.

Lemma decodes_groups {A} (g : list bool -> unpacker A) groups e v : 0 < nof_groups groups <= 64 ->
  decodes (g groups) e v -> decodes (with_ext_groups (zlen groups) g) (enc_app (enc_groups groups) e) v.
Proof.
  intros Hn Hg b Hw Hr Hb. unfold enc_app in *. rewrite zlen_app in *. apply bits_at_app in Hb as [Hb He]. destruct (nof_groups_spec groups) as [Hng _].
  pose proof (zlen_nonneg (e (distance b + zlen (enc_groups groups (distance b))))). pose proof (zlen_nonneg (enc_groups groups (distance b))).
  unfold with_ext_groups. rewrite (decodes_ext_groups groups b Hn Hw ltac:(lia) Hb). cbn [mbind option_bind].
  replace (Z.to_nat (nof_groups groups - zlen groups)) with 0%nat by lia. set (p := distance b + zlen (enc_groups groups (distance b))) in *.
  assert (Hm : moved b (seek b p)) by (apply seek_moved; [done|lia]).
  pose proof (Hg _ (mv_wf _ _ Hm)) as Hd. rewrite distance_seek, seek_seek in Hd. rewrite Hd; [|change (br_max (seek b p)) with (br_max b); lia|done].
  cbn [mbind option_bind skip_unknown]. do 3 f_equal. lia.
Qed.

(** Reading a field of unknown contents. *)
Lemma skip_open_field b len : br_wf b -> 0 <= len < ASN_16K ->
  distance b + zlen (enc_length len (distance b)) + 8 * len <= 8 * br_max b -> bits_at (br_mem b) (distance b) (enc_length len (distance b)) ->
  open_field_unpack (returns tt) b =
    Some (inr tt, seek b (distance b + zlen (enc_length len (distance b)) + (if len <=? 4 then 8 * len else 0))).
Proof.
  intros Hw Hlen Hr Hb. pose proof (zlen_nonneg (enc_length len (distance b))). set (p := distance b + zlen (enc_length len (distance b))) in *.
  unfold open_field_unpack. rewrite (decodes_length len Hlen b Hw ltac:(fold p; lia) Hb). fold p. unfold returns. cbn [mbind option_bind].
  rewrite Z.sub_diag, Z.sub_0_r. unfold ASN_16K in Hlen. replace (u32 (len * 8)) with (len * 8) by (unfold u32; lia).
  assert (Hm : moved b (seek b p)) by (apply seek_moved; [done|unfold p; lia]). destruct (Z.leb_spec len 4) as [H4|H4].
  - pose proof (unpack_spec 32 (len * 8) (seek b p) (mv_wf _ _ Hm) ltac:(lia) ltac:(lia)) as Hu. unfold unpacks in Hu.
    rewrite distance_seek, (proj2 (Z.leb_le _ _)) in Hu by (cbn; lia). destruct Hu as (v & _ & _ & ->). cbn [mbind option_bind].
    rewrite seek_seek. do 3 f_equal. lia.
  - unfold unpack, unpack_bits. rewrite (proj2 (Z.ltb_lt _ _)) by lia. cbn. by rewrite Z.add_0_r.
Qed.

(** C40: Skipping an unknown extension: a field of up to four octets is skipped; after a longer
    one, whose rest does not fit in the 32-bit number it is read into, the position is at the
    first octet of the field instead of after it, and no error is reported. *)
Theorem open_field_skip b len : br_wf b -> 0 <= len < ASN_16K ->
  distance b + zlen (enc_length len (distance b)) + 8 * len <= 8 * br_max b -> bits_at (br_mem b) (distance b) (enc_length len (distance b)) ->
  open_field_unpack (returns tt) b =
    Some (inr tt, seek b (distance b + zlen (enc_length len (distance b)) + (if len <=? 4 then 8 * len else 0))).
Proof. apply skip_open_field. Qed.

Lemma open_field_skip_witness : open_field_unpack (returns tt) (bit_ref_set [5; 1; 2; 3; 4; 5; 6] 7) = Some (inr tt, mk_bref [5; 1; 2; 3; 4; 5; 6] 1 0 7).
Proof.
  refine (open_field_skip (bit_ref_set [5; 1; 2; 3; 4; 5; 6] 7) 5 _ _ _ _).
  - apply (bref_new_wf [5; 1; 2; 3; 4; 5; 6]). by repeat constructor.
  - done.
  - by vm_compute.
  - intros i x Hi. do 8 (destruct i as [|i]; [by injection Hi as <-|]). by destruct i.
Defined.

(** A number of groups that the buffer cuts off: the destructor looks at groups that do not
    exist. *)
Lemma ext_groups_overread : with_ext_groups 1 (fun _ => returns tt) (mk_bref [0x0F] 0 3 1) = None.
Proof. by vm_compute. Qed.

(** The extension flag without a group: one bit is packed and the failure is reported. *)
Lemma ext_groups_none : ext_groups_pack [false] (bit_ref_set [0; 0] 2) = Some (SRSASN_ERROR_ENCODE_FAIL, mk_bref [0x80; 0] 0 1 2).
Proof. by vm_compute. Qed.
