(* ===== verification/RrcMcch.v ===== *)
(** * The MCCH message

    The message that announces the multicast sessions of an MBSFN area: the generated codec of
    [MCCH-Message] ([lib/src/asn1/rrc.cc], [lib/src/asn1/rrc/common.cc],
    [lib/src/asn1/rrc/ul_dcch_msg.cc]) with all the structures it contains.

    A field with its presence flag is an [option]; an enumeration is the index of its value, the
    number of values standing for [nulltype]; a choice is an inductive type with a constructor
    per alternative and one for [nulltype].  Unpacking starts from a default-constructed message,
    in which every field that is read later is written first. *)

From stdpp Require Import base list numbers.
From S2P Require Import Prelude BitRef Per PerLaws PerExt.

Local Open Scope Z_scope.

(** ** Data *)

(** [radioframe_alloc_period_e_], [common_sf_alloc_period_r9_e_] and [mch_sched_period_r9_e_]:
    the numbers the values stand for. *)
Definition radioframe_alloc_period_numbers : list Z := [1; 2; 4; 8; 16; 32].
Definition common_sf_alloc_period_r9_numbers : list Z := [4; 8; 16; 32; 64; 128; 256].
Definition mch_sched_period_r9_numbers : list Z := [8; 16; 32; 64; 128; 256; 512; 1024].
Definition mch_sched_period_r12_numbers : list Z := [4; 8; 16; 32; 64; 128; 256; 512; 1024].
Definition mch_sched_period_v1430_numbers : list Z := [1; 2].

(** [map_enum_number]. *)
Definition map_enum_number (options : list Z) (value : Z) : Z :=
  match options !! Z.to_nat value with Some x => x | None => 0 end.

Record plmn_id_s := { mcc : option (list Z); mnc : list Z }.

Inductive plmn_id_r9_c_ := plmn_idx_r9 (x : Z) | explicit_value_r9 (p : plmn_id_s) | plmn_id_nulltype.

Record tmgi_r9_s := { plmn_id_r9 : plmn_id_r9_c_; service_id_r9 : bytes }.

Inductive sf_alloc_c_ := one_frame (s : bitstring) | four_frames (s : bitstring) | sf_alloc_nulltype.

Record mbsfn_sf_cfg_s := {
  radioframe_alloc_period : Z;
  radioframe_alloc_offset : Z;
  sf_alloc : sf_alloc_c_
}.

(** [mbsfn_sf_cfg_v1430_s] has one field, the choice. *)
Inductive sf_alloc_v1430_c_ := one_frame_v1430 (s : bitstring) | four_frames_v1430 (s : bitstring) | sf_alloc_v1430_nulltype.

Record mbms_session_info_r9_s := {
  mbms_session_ext : bool;
  tmgi_r9 : tmgi_r9_s;
  session_id_r9 : option bytes;
  lc_ch_id_r9 : Z
}.

Record pmch_cfg_r9_s := {
  pmch_cfg_ext : bool;
  sf_alloc_end_r9 : Z;
  data_mcs_r9 : Z;
  mch_sched_period_r9 : Z
}.

Record pmch_info_r9_s := {
  pmch_info_ext : bool;
  pmch_cfg_r9 : pmch_cfg_r9_s;
  mbms_session_info_list_r9 : list mbms_session_info_r9_s
}.

Inductive data_mcs_r12_c_ := normal_r12 (x : Z) | higer_order_r12 (x : Z) | data_mcs_nulltype.

Record pmch_cfg_r12_s := {
  pmch_cfg_r12_ext : bool;
  sf_alloc_end_r12 : Z;
  data_mcs_r12 : data_mcs_r12_c_;
  mch_sched_period_r12 : Z;
  mch_sched_period_v1430 : option Z
}.

Record pmch_info_ext_r12_s := {
  pmch_info_ext_ext : bool;
  pmch_cfg_r12 : pmch_cfg_r12_s;
  mbms_session_info_list_r12 : list mbms_session_info_r9_s
}.

Record mbsfn_area_cfg_v1430_ies_s := {
  v1430_non_crit_ext_present : bool;
  common_sf_alloc_r14 : list sf_alloc_v1430_c_
}.

Record mbsfn_area_cfg_v1250_ies_s := {
  pmch_info_list_ext_r12 : option (list pmch_info_ext_r12_s);
  v1250_non_crit_ext : option mbsfn_area_cfg_v1430_ies_s
}.

Record mbsfn_area_cfg_v930_ies_s := {
  v930_late_non_crit_ext : option bytes;
  v930_non_crit_ext : option mbsfn_area_cfg_v1250_ies_s
}.

Record mbsfn_area_cfg_r9_s := {
  common_sf_alloc_r9 : list mbsfn_sf_cfg_s;
  common_sf_alloc_period_r9 : Z;
  pmch_info_list_r9 : list pmch_info_r9_s;
  area_non_crit_ext : option mbsfn_area_cfg_v930_ies_s
}.

Record count_request_info_r10_s := { count_request_ext : bool; tmgi_r10 : tmgi_r9_s }.

Record mbms_count_request_r10_s := {
  count_non_crit_ext_present : bool;
  count_request_list_r10 : list count_request_info_r10_s;
  count_late_non_crit_ext : option bytes
}.

Inductive later_c_ := c2 (r : mbms_count_request_r10_s) | msg_class_ext | later_nulltype.
Inductive mcch_msg_type_c := c1 (a : mbsfn_area_cfg_r9_s) | later (l : later_c_) | mcch_nulltype.

(** [mcch_msg_s] has one field, [msg]. *)

Section Codec.
Context `{Libm}.

(** ** Packing and unpacking *)

(** A presence flag, and a field that is packed when it is present. *)
Definition pack_flag (x : bool) : packer := pack (b2z x) 1.
Definition present {A} (o : option A) : bool := match o with Some _ => true | None => false end.
Definition pack_opt {A} (pk : A -> packer) (o : option A) : packer :=
  match o with Some x => handle (pk x) success | None => success end.
Definition unpack_opt {A} (p : bool) (upk : unpacker A) : unpacker (option A) :=
  if p then handle_val upk (fun x => returns (Some x)) else returns None.

(** The type of a choice, whose status the generated code does not look at; an unpacker of one
    bit that fails leaves 0. *)
Definition pack_choice (idx : Z) (body : packer) : packer := ignore (pack_enum idx 2 0 false) body.
Definition unpack_choice {A} (k : Z -> unpacker A) : unpacker A := ignore_val 0 (unpack_enum 2 0 false) k.

(** [integer_packer<uint8_t>(0, 9)]. *)
Definition digit_pack (d : Z) : packer := pack_integer uint8_t d 0 9 false false.
Definition digit_unpack : unpacker Z := unpack_integer uint8_t 0 0 9 false false.

Definition plmn_id_s_pack (x : plmn_id_s) : packer :=
  handle (pack_flag (present (mcc x)))
    (handle (pack_opt (pack_fixed_seq_of digit_pack) (mcc x))
      (handle (pack_dyn_seq_of digit_pack (mnc x) 2 3 false) success)).

Definition plmn_id_s_unpack : unpacker plmn_id_s :=
  handle_val unpack_bool (fun mcc_present =>
    handle_val (unpack_opt mcc_present (unpack_fixed_seq_of digit_unpack 3)) (fun mcc =>
      handle_val (unpack_dyn_seq_of digit_unpack 2 3 false) (fun mnc => returns {| mcc := mcc; mnc := mnc |}))).

Definition plmn_id_r9_c_pack (x : plmn_id_r9_c_) : packer :=
  match x with
  | plmn_idx_r9 i => pack_choice 0 (handle (pack_integer uint8_t i 1 6 false false) success)
  | explicit_value_r9 p => pack_choice 1 (handle (plmn_id_s_pack p) success)
  | plmn_id_nulltype => pack_choice 2 encode_fail
  end.

Definition plmn_id_r9_c_unpack : unpacker plmn_id_r9_c_ :=
  unpack_choice (fun e =>
    if e =? 0 then handle_val (unpack_integer uint8_t 0 1 6 false false) (fun i => returns (plmn_idx_r9 i))
    else if e =? 1 then handle_val plmn_id_s_unpack (fun p => returns (explicit_value_r9 p))
    else decode_fail).

Definition tmgi_r9_s_pack (x : tmgi_r9_s) : packer :=
  handle (plmn_id_r9_c_pack (plmn_id_r9 x)) (handle (fixed_octstring_pack false (service_id_r9 x)) success).

Definition tmgi_r9_s_unpack : unpacker tmgi_r9_s :=
  handle_val plmn_id_r9_c_unpack (fun p => handle_val (fixed_octstring_unpack 3 false) (fun s =>
    returns {| plmn_id_r9 := p; service_id_r9 := s |})).

Definition sf_alloc_c_pack (x : sf_alloc_c_) : packer :=
  match x with
  | one_frame s => pack_choice 0 (handle (bitstring_pack 6 6 false false s) success)
  | four_frames s => pack_choice 1 (handle (bitstring_pack 24 24 false false s) success)
  | sf_alloc_nulltype => pack_choice 2 encode_fail
  end.

Definition sf_alloc_c_unpack : unpacker sf_alloc_c_ :=
  unpack_choice (fun e =>
    if e =? 0 then handle_val (bitstring_unpack 6 6 false false) (fun s => returns (one_frame s))
    else if e =? 1 then handle_val (bitstring_unpack 24 24 false false) (fun s => returns (four_frames s))
    else decode_fail).

Definition mbsfn_sf_cfg_s_pack (x : mbsfn_sf_cfg_s) : packer :=
  handle (pack_enum (radioframe_alloc_period x) 6 0 false)
    (handle (pack_integer uint8_t (radioframe_alloc_offset x) 0 7 false false)
      (handle (sf_alloc_c_pack (sf_alloc x)) success)).

Definition mbsfn_sf_cfg_s_unpack : unpacker mbsfn_sf_cfg_s :=
  handle_val (unpack_enum 6 0 false) (fun p =>
    handle_val (unpack_integer uint8_t 0 0 7 false false) (fun o =>
      handle_val sf_alloc_c_unpack (fun a =>
        returns {| radioframe_alloc_period := p; radioframe_alloc_offset := o; sf_alloc := a |}))).

Definition sf_alloc_v1430_c_pack (x : sf_alloc_v1430_c_) : packer :=
  match x with
  | one_frame_v1430 s => pack_choice 0 (handle (bitstring_pack 2 2 false false s) success)
  | four_frames_v1430 s => pack_choice 1 (handle (bitstring_pack 8 8 false false s) success)
  | sf_alloc_v1430_nulltype => pack_choice 2 encode_fail
  end.

Definition sf_alloc_v1430_c_unpack : unpacker sf_alloc_v1430_c_ :=
  unpack_choice (fun e =>
    if e =? 0 then handle_val (bitstring_unpack 2 2 false false) (fun s => returns (one_frame_v1430 s))
    else if e =? 1 then handle_val (bitstring_unpack 8 8 false false) (fun s => returns (four_frames_v1430 s))
    else decode_fail).

Definition mbsfn_sf_cfg_v1430_s_pack (x : sf_alloc_v1430_c_) : packer := handle (sf_alloc_v1430_c_pack x) success.
Definition mbsfn_sf_cfg_v1430_s_unpack : unpacker sf_alloc_v1430_c_ := handle_val sf_alloc_v1430_c_unpack returns.

Definition mbms_session_info_r9_s_pack (x : mbms_session_info_r9_s) : packer :=
  ignore (pack_flag (mbms_session_ext x))
    (handle (pack_flag (present (session_id_r9 x)))
      (handle (tmgi_r9_s_pack (tmgi_r9 x))
        (handle (pack_opt (fixed_octstring_pack false) (session_id_r9 x))
          (handle (pack_integer uint8_t (lc_ch_id_r9 x) 0 28 false false) success)))).

Definition mbms_session_info_r9_s_unpack : unpacker mbms_session_info_r9_s :=
  ignore_val false unpack_bool (fun ext =>
    handle_val unpack_bool (fun session_id_r9_present =>
      handle_val tmgi_r9_s_unpack (fun t =>
        handle_val (unpack_opt session_id_r9_present (fixed_octstring_unpack 1 false)) (fun s =>
          handle_val (unpack_integer uint8_t 0 0 28 false false) (fun lc =>
            returns {| mbms_session_ext := ext; tmgi_r9 := t; session_id_r9 := s; lc_ch_id_r9 := lc |}))))).

Definition pmch_cfg_r9_s_pack (x : pmch_cfg_r9_s) : packer :=
  ignore (pack_flag (pmch_cfg_ext x))
    (handle (pack_integer uint16_t (sf_alloc_end_r9 x) 0 1535 false false)
      (handle (pack_integer uint8_t (data_mcs_r9 x) 0 28 false false)
        (handle (pack_enum (mch_sched_period_r9 x) 8 0 false) success))).

Definition pmch_cfg_r9_s_unpack : unpacker pmch_cfg_r9_s :=
  ignore_val false unpack_bool (fun ext =>
    handle_val (unpack_integer uint16_t 0 0 1535 false false) (fun e =>
      handle_val (unpack_integer uint8_t 0 0 28 false false) (fun m =>
        handle_val (unpack_enum 8 0 false) (fun p =>
          returns {| pmch_cfg_ext := ext; sf_alloc_end_r9 := e; data_mcs_r9 := m; mch_sched_period_r9 := p |})))).

Definition pmch_info_r9_s_pack (x : pmch_info_r9_s) : packer :=
  ignore (pack_flag (pmch_info_ext x))
    (handle (pmch_cfg_r9_s_pack (pmch_cfg_r9 x))
      (handle (pack_dyn_seq_of mbms_session_info_r9_s_pack (mbms_session_info_list_r9 x) 0 29 false) success)).

Definition pmch_info_r9_s_unpack : unpacker pmch_info_r9_s :=
  ignore_val false unpack_bool (fun ext =>
    handle_val pmch_cfg_r9_s_unpack (fun c =>
      handle_val (unpack_dyn_seq_of mbms_session_info_r9_s_unpack 0 29 false) (fun l =>
        returns {| pmch_info_ext := ext; pmch_cfg_r9 := c; mbms_session_info_list_r9 := l |}))).

Definition data_mcs_r12_c_pack (x : data_mcs_r12_c_) : packer :=
  match x with
  | normal_r12 m => pack_choice 0 (handle (pack_integer uint8_t m 0 28 false false) success)
  | higer_order_r12 m => pack_choice 1 (handle (pack_integer uint8_t m 0 27 false false) success)
  | data_mcs_nulltype => pack_choice 2 encode_fail
  end.

Definition data_mcs_r12_c_unpack : unpacker data_mcs_r12_c_ :=
  unpack_choice (fun e =>
    if e =? 0 then handle_val (unpack_integer uint8_t 0 0 28 false false) (fun m => returns (normal_r12 m))
    else if e =? 1 then handle_val (unpack_integer uint8_t 0 0 27 false false) (fun m => returns (higer_order_r12 m))
    else decode_fail).

(** The extension group of [pmch_cfg_r12_s]. *)
Definition pmch_cfg_r12_group_pack (o : option Z) : packer :=
  ignore (ext_groups_pack [present o])
    (if present o then
       handle (open_field_pack (handle (pack_flag (present o)) (pack_opt (fun p => pack_enum p 2 0 false) o))) success
     else success).

Definition pmch_cfg_r12_group_unpack : unpacker (option Z) :=
  with_ext_groups 1 (fun group_flags =>
    if default false (group_flags !! 0%nat) then
      open_field_unpack (handle_val unpack_bool (fun p => unpack_opt p (unpack_enum 2 0 false)))
    else returns None).

Definition pmch_cfg_r12_s_pack (x : pmch_cfg_r12_s) : packer :=
  ignore (pack_flag (pmch_cfg_r12_ext x))
    (handle (pack_integer uint16_t (sf_alloc_end_r12 x) 0 1535 false false)
      (handle (data_mcs_r12_c_pack (data_mcs_r12 x))
        (handle (pack_enum (mch_sched_period_r12 x) 9 0 false)
          (if pmch_cfg_r12_ext x then pmch_cfg_r12_group_pack (mch_sched_period_v1430 x) else success)))).

Definition pmch_cfg_r12_s_unpack : unpacker pmch_cfg_r12_s :=
  ignore_val false unpack_bool (fun ext =>
    handle_val (unpack_integer uint16_t 0 0 1535 false false) (fun e =>
      handle_val data_mcs_r12_c_unpack (fun m =>
        handle_val (unpack_enum 9 0 false) (fun p =>
          handle_val (if ext then pmch_cfg_r12_group_unpack else returns None) (fun v =>
            returns {| pmch_cfg_r12_ext := ext; sf_alloc_end_r12 := e; data_mcs_r12 := m; mch_sched_period_r12 := p;
                       mch_sched_period_v1430 := v |}))))).

Definition pmch_info_ext_r12_s_pack (x : pmch_info_ext_r12_s) : packer :=
  ignore (pack_flag (pmch_info_ext_ext x))
    (handle (pmch_cfg_r12_s_pack (pmch_cfg_r12 x))
      (handle (pack_dyn_seq_of mbms_session_info_r9_s_pack (mbms_session_info_list_r12 x) 0 29 false) success)).

Definition pmch_info_ext_r12_s_unpack : unpacker pmch_info_ext_r12_s :=
  ignore_val false unpack_bool (fun ext =>
    handle_val pmch_cfg_r12_s_unpack (fun c =>
      handle_val (unpack_dyn_seq_of mbms_session_info_r9_s_unpack 0 29 false) (fun l =>
        returns {| pmch_info_ext_ext := ext; pmch_cfg_r12 := c; mbms_session_info_list_r12 := l |}))).

Definition mbsfn_area_cfg_v1430_ies_s_pack (x : mbsfn_area_cfg_v1430_ies_s) : packer :=
  handle (pack_flag (v1430_non_crit_ext_present x))
    (handle (pack_dyn_seq_of mbsfn_sf_cfg_v1430_s_pack (common_sf_alloc_r14 x) 1 8 false) success).

Definition mbsfn_area_cfg_v1430_ies_s_unpack : unpacker mbsfn_area_cfg_v1430_ies_s :=
  handle_val unpack_bool (fun e =>
    handle_val (unpack_dyn_seq_of mbsfn_sf_cfg_v1430_s_unpack 1 8 false) (fun l =>
      returns {| v1430_non_crit_ext_present := e; common_sf_alloc_r14 := l |})).

Definition mbsfn_area_cfg_v1250_ies_s_pack (x : mbsfn_area_cfg_v1250_ies_s) : packer :=
  handle (pack_flag (present (pmch_info_list_ext_r12 x)))
    (handle (pack_flag (present (v1250_non_crit_ext x)))
      (handle (pack_opt (fun l => pack_dyn_seq_of pmch_info_ext_r12_s_pack l 0 15 false) (pmch_info_list_ext_r12 x))
        (handle (pack_opt mbsfn_area_cfg_v1430_ies_s_pack (v1250_non_crit_ext x)) success))).

Definition mbsfn_area_cfg_v1250_ies_s_unpack : unpacker mbsfn_area_cfg_v1250_ies_s :=
  handle_val unpack_bool (fun lp => handle_val unpack_bool (fun ep =>
    handle_val (unpack_opt lp (unpack_dyn_seq_of pmch_info_ext_r12_s_unpack 0 15 false)) (fun l =>
      handle_val (unpack_opt ep mbsfn_area_cfg_v1430_ies_s_unpack) (fun e =>
        returns {| pmch_info_list_ext_r12 := l; v1250_non_crit_ext := e |})))).

Definition mbsfn_area_cfg_v930_ies_s_pack (x : mbsfn_area_cfg_v930_ies_s) : packer :=
  handle (pack_flag (present (v930_late_non_crit_ext x)))
    (handle (pack_flag (present (v930_non_crit_ext x)))
      (handle (pack_opt (unbounded_octstring_pack false) (v930_late_non_crit_ext x))
        (handle (pack_opt mbsfn_area_cfg_v1250_ies_s_pack (v930_non_crit_ext x)) success))).

Definition mbsfn_area_cfg_v930_ies_s_unpack : unpacker mbsfn_area_cfg_v930_ies_s :=
  handle_val unpack_bool (fun lp => handle_val unpack_bool (fun ep =>
    handle_val (unpack_opt lp (unbounded_octstring_unpack false)) (fun l =>
      handle_val (unpack_opt ep mbsfn_area_cfg_v1250_ies_s_unpack) (fun e =>
        returns {| v930_late_non_crit_ext := l; v930_non_crit_ext := e |})))).

Definition mbsfn_area_cfg_r9_s_pack (x : mbsfn_area_cfg_r9_s) : packer :=
  handle (pack_flag (present (area_non_crit_ext x)))
    (handle (pack_dyn_seq_of mbsfn_sf_cfg_s_pack (common_sf_alloc_r9 x) 1 8 false)
      (handle (pack_enum (common_sf_alloc_period_r9 x) 7 0 false)
        (handle (pack_dyn_seq_of pmch_info_r9_s_pack (pmch_info_list_r9 x) 0 15 false)
          (handle (pack_opt mbsfn_area_cfg_v930_ies_s_pack (area_non_crit_ext x)) success)))).

Definition mbsfn_area_cfg_r9_s_unpack : unpacker mbsfn_area_cfg_r9_s :=
  handle_val unpack_bool (fun ep =>
    handle_val (unpack_dyn_seq_of mbsfn_sf_cfg_s_unpack 1 8 false) (fun a =>
      handle_val (unpack_enum 7 0 false) (fun p =>
        handle_val (unpack_dyn_seq_of pmch_info_r9_s_unpack 0 15 false) (fun l =>
          handle_val (unpack_opt ep mbsfn_area_cfg_v930_ies_s_unpack) (fun e =>
            returns {| common_sf_alloc_r9 := a; common_sf_alloc_period_r9 := p; pmch_info_list_r9 := l; area_non_crit_ext := e |}))))).

Definition count_request_info_r10_s_pack (x : count_request_info_r10_s) : packer :=
  ignore (pack_flag (count_request_ext x)) (handle (tmgi_r9_s_pack (tmgi_r10 x)) success).

Definition count_request_info_r10_s_unpack : unpacker count_request_info_r10_s :=
  ignore_val false unpack_bool (fun e => handle_val tmgi_r9_s_unpack (fun t => returns {| count_request_ext := e; tmgi_r10 := t |})).

Definition mbms_count_request_r10_s_pack (x : mbms_count_request_r10_s) : packer :=
  handle (pack_flag (present (count_late_non_crit_ext x)))
    (handle (pack_flag (count_non_crit_ext_present x))
      (handle (pack_dyn_seq_of count_request_info_r10_s_pack (count_request_list_r10 x) 1 16 false)
        (handle (pack_opt (unbounded_octstring_pack false) (count_late_non_crit_ext x)) success))).

Definition mbms_count_request_r10_s_unpack : unpacker mbms_count_request_r10_s :=
  handle_val unpack_bool (fun lp => handle_val unpack_bool (fun np =>
    handle_val (unpack_dyn_seq_of count_request_info_r10_s_unpack 1 16 false) (fun l =>
      handle_val (unpack_opt lp (unbounded_octstring_unpack false)) (fun e =>
        returns {| count_non_crit_ext_present := np; count_request_list_r10 := l; count_late_non_crit_ext := e |})))).

Definition later_c_pack (x : later_c_) : packer :=
  match x with
  | c2 r => pack_choice 0 (handle (handle (mbms_count_request_r10_s_pack r) success) success)
  | msg_class_ext => pack_choice 1 success
  | later_nulltype => pack_choice 2 encode_fail
  end.

Definition later_c_unpack : unpacker later_c_ :=
  unpack_choice (fun e =>
    if e =? 0 then handle_val mbms_count_request_r10_s_unpack (fun r => returns (c2 r))
    else if e =? 1 then returns msg_class_ext
    else decode_fail).

Definition mcch_msg_type_c_pack (x : mcch_msg_type_c) : packer :=
  match x with
  | c1 a => pack_choice 0 (handle (handle (mbsfn_area_cfg_r9_s_pack a) success) success)
  | later l => pack_choice 1 (handle (later_c_pack l) success)
  | mcch_nulltype => pack_choice 2 encode_fail
  end.

Definition mcch_msg_type_c_unpack : unpacker mcch_msg_type_c :=
  unpack_choice (fun e =>
    if e =? 0 then handle_val mbsfn_area_cfg_r9_s_unpack (fun a => returns (c1 a))
    else if e =? 1 then handle_val later_c_unpack (fun l => returns (later l))
    else decode_fail).

Definition mcch_msg_s_pack (msg : mcch_msg_type_c) : packer :=
  handle (mcch_msg_type_c_pack msg) (ignore align_bytes_zero success).

Definition mcch_msg_s_unpack : unpacker mcch_msg_type_c :=
  handle_val mcch_msg_type_c_unpack (fun m => ignore_val tt skip_align (fun _ => returns m)).
End Codec.
