(* ===== verification/RrcMcchCorrect.v ===== *)
(** * Correctness of the MCCH codec

    The encoding of every structure of the MCCH message, written down as the specification has
    it; packing appends it and unpacking reads it back.  The message as a whole is unpacked as it
    was packed. *)

From stdpp Require Import base list numbers.
From S2P Require Import Prelude BitRef Per PerLaws PerExt RrcMcch.

Local Open Scope Z_scope.

Declare Scope encoding_scope.
Delimit Scope encoding_scope with enc.
Notation "e1 +++ e2" := (enc_app e1 e2) (at level 60, right associativity) : encoding_scope.
Local Open Scope encoding_scope.

(** One step of a packer or of an unpacker, with the codec of its field. *)
Ltac pack_with C := eapply encodes_handle; [apply (co_enc _ _ _ _ C); auto|].
Ltac last_with C := eapply encodes_last; apply (co_enc _ _ _ _ C); auto.
Ltac unpack_with C x := apply (decodes_bind _ _ _ _ x); [apply (co_dec _ _ _ _ C); auto|].
Ltac final_with C x := apply (decodes_last _ _ _ x); [apply (co_dec _ _ _ _ C); auto|].

Section Laws.
Context `{Libm}.

(** ** Flags, options and choices *)

Definition enc_flag (x : bool) : encoding := enc_bits 1 (b2z x).
Definition enc_opt {A} (enc : A -> encoding) (o : option A) : encoding := match o with Some x => enc x | None => enc_nil end.
Definition opt_ok {A} (ok : A -> Prop) (o : option A) : Prop := match o with Some x => ok x | None => True end.

Lemma encodes_flag x : encodes (pack_flag x) (enc_flag x).
Proof. apply encodes_pack. lia. Qed.

Lemma decodes_flag x : decodes unpack_bool (enc_flag x) x.
Proof. apply decodes_unpack_bool. Qed.

Section Option.
Context {A : Type} (ok : A -> Prop) (enc : A -> encoding) (pk : A -> packer) (upk : unpacker A) (Hc : codec ok enc pk upk).

Lemma encodes_opt o : opt_ok ok o -> encodes (pack_opt pk o) (enc_opt enc o).
Proof. destruct o as [x|]; intros Ho; [by apply encodes_last, Hc|apply encodes_success]. Qed.

Lemma decodes_opt o : opt_ok ok o -> decodes (unpack_opt (present o) upk) (enc_opt enc o) o.
Proof. destruct o as [x|]; intros Ho; [by apply decodes_map, Hc|apply decodes_returns]. Qed.
End Option.

Lemma reads_opt {A} p (upk : unpacker A) : reads_safely upk -> reads_safely (unpack_opt p upk).
Proof. intros Hu. destruct p; [by apply reads_map|apply reads_returns]. Qed.

Lemma choice_ok : enum_ok 2 0 false.
Proof. by constructor. Qed.

Lemma encodes_choice idx body e : 0 <= idx < 2 -> encodes body e -> encodes (pack_choice idx body) (enc_bits 1 idx +++ e).
Proof. intros Hi Hb. apply encodes_ignore; [|done]. by apply (co_enc _ _ _ _ (codec_enum 2 0 false choice_ok)). Qed.

Lemma decodes_choice {A} (k : Z -> unpacker A) idx e v : 0 <= idx < 2 -> decodes (k idx) e v -> decodes (unpack_choice k) (enc_bits 1 idx +++ e) v.
Proof.
  intros Hi Hk. apply (decodes_ignore _ _ _ _ _ idx); [|done]. by apply (co_dec _ _ _ _ (codec_enum 2 0 false choice_ok)).
Qed.

Lemma reads_choice {A} (k : Z -> unpacker A) : (forall e, reads_safely (k e)) -> reads_safely (unpack_choice k).
Proof. intros Hk. apply reads_ignore; [apply reads_enum, choice_ok|done]. Qed.

(** The integers of the messages. *)
Lemma uint8_ok lb ub : 0 <= lb -> lb < ub < 255 -> integer_ok uint8_t lb ub.
Proof.
  intros Hl Hu. constructor; [constructor; [by left|cbn; lia..]|lia| |].
  - unfold lower_bounded. cbn. by rewrite orb_true_r.
  - unfold upper_bounded. cbn. apply negb_true_iff, Z.eqb_neq. lia.
Qed.

Lemma uint16_ok lb ub : 0 <= lb -> lb < ub < 65535 -> integer_ok uint16_t lb ub.
Proof.
  intros Hl Hu. constructor; [constructor; [by right; left|cbn; lia..]|lia| |].
  - unfold lower_bounded. cbn. by rewrite orb_true_r.
  - unfold upper_bounded. cbn. apply negb_true_iff, Z.eqb_neq. lia.
Qed.

Definition enc_int (lb ub n : Z) : encoding := enc_constrained lb ub false n.

Lemma codec_uint8 lb ub : 0 <= lb -> lb < ub < 255 ->
  codec (fun n => lb <= n <= ub) (enc_int lb ub) (fun n => pack_integer uint8_t n lb ub false false) (unpack_integer uint8_t 0 lb ub false false).
Proof. intros Hl Hu. by apply codec_integer, uint8_ok. Qed.

Lemma codec_uint16 lb ub : 0 <= lb -> lb < ub < 65535 ->
  codec (fun n => lb <= n <= ub) (enc_int lb ub) (fun n => pack_integer uint16_t n lb ub false false) (unpack_integer uint16_t 0 lb ub false false).
Proof. intros Hl Hu. by apply codec_integer, uint16_ok. Qed.

Definition enc_seq {A} (enc : A -> encoding) (lb ub : Z) (l : list A) : encoding := enc_int lb ub (zlen l) +++ enc_items enc l.
Definition seq_ok {A} (ok : A -> Prop) (lb ub : Z) (l : list A) : Prop := lb <= zlen l <= ub /\ Forall ok l.

Lemma codec_seq {A} ok enc pk (upk : unpacker A) lb ub : codec ok enc pk upk -> 0 <= lb -> lb <= ub < ASN_64K ->
  codec (seq_ok ok lb ub) (enc_seq enc lb ub) (fun l => pack_dyn_seq_of pk l lb ub false) (unpack_dyn_seq_of upk lb ub false).
Proof. intros Hc Hl Hu. by apply codec_dyn_seq_of. Qed.

Lemma codec_index n : 1 <= n <= 2 ^ 20 -> codec (fun e => 0 <= e < n) (enc_bits (Z.log2_up n)) (fun e => pack_enum e n 0 false) (unpack_enum n 0 false).
Proof. intros Hn. apply (codec_enum n 0 false). constructor; lia. Qed.

(** ** PLMN and TMGI *)

Definition plmn_id_ok (x : plmn_id_s) : Prop :=
  opt_ok (fun l => zlen l = 3 /\ Forall (fun d => 0 <= d <= 9) l) (mcc x) /\ seq_ok (fun d => 0 <= d <= 9) 2 3 (mnc x).

Definition enc_plmn_id (x : plmn_id_s) : encoding :=
  enc_flag (present (mcc x)) +++ enc_opt (enc_items (enc_int 0 9)) (mcc x) +++ enc_seq (enc_int 0 9) 2 3 (mnc x).

Lemma codec_digit : codec (fun d => 0 <= d <= 9) (enc_int 0 9) digit_pack digit_unpack.
Proof. by apply codec_uint8. Qed.

Lemma codec_plmn_id : codec plmn_id_ok enc_plmn_id plmn_id_s_pack plmn_id_s_unpack.
Proof.
  pose proof (codec_fixed_seq_of _ _ _ _ codec_digit 3 ltac:(lia)) as C3.
  pose proof (codec_seq _ _ _ _ 2 3 codec_digit ltac:(lia) ltac:(unfold ASN_64K; lia)) as Cn.
  split; intros x [Hm Hn].
  - apply encodes_handle; [apply encodes_flag|]. apply encodes_handle; [by apply (encodes_opt _ _ _ _ C3)|]. last_with Cn.
  - apply (decodes_bind _ _ _ _ (present (mcc x))); [apply decodes_flag|].
    apply (decodes_bind _ _ _ _ (mcc x)); [by apply (decodes_opt _ _ _ _ C3)|]. final_with Cn (mnc x). destruct x. apply decodes_returns.
Qed.

Definition plmn_id_r9_ok (x : plmn_id_r9_c_) : Prop :=
  match x with plmn_idx_r9 i => 1 <= i <= 6 | explicit_value_r9 p => plmn_id_ok p | plmn_id_nulltype => False end.

Definition enc_plmn_id_r9 (x : plmn_id_r9_c_) : encoding :=
  match x with
  | plmn_idx_r9 i => enc_bits 1 0 +++ enc_int 1 6 i
  | explicit_value_r9 p => enc_bits 1 1 +++ enc_plmn_id p
  | plmn_id_nulltype => enc_nil
  end.

Lemma codec_plmn_id_r9 : codec plmn_id_r9_ok enc_plmn_id_r9 plmn_id_r9_c_pack plmn_id_r9_c_unpack.
Proof.
  pose proof (codec_uint8 1 6 ltac:(lia) ltac:(lia)) as Ci.
  split; intros [i|p|] Hx; try done; first [apply encodes_choice|apply decodes_choice]; try lia.
  - last_with Ci.
  - last_with codec_plmn_id.
  - apply (decodes_map _ plmn_idx_r9), Ci, Hx.
  - apply (decodes_map _ explicit_value_r9), codec_plmn_id, Hx.
Qed.

Definition octets_ok (n : Z) (l : bytes) : Prop := bytes_ok l /\ zlen l = n.

Lemma codec_octets n : 0 <= n -> codec (octets_ok n) enc_bytes (fixed_octstring_pack false) (fixed_octstring_unpack n false).
Proof. intros Hn. apply (codec_fixed_octstring n false Hn). Qed.

Definition tmgi_ok (x : tmgi_r9_s) : Prop := plmn_id_r9_ok (plmn_id_r9 x) /\ octets_ok 3 (service_id_r9 x).
Definition enc_tmgi (x : tmgi_r9_s) : encoding := enc_plmn_id_r9 (plmn_id_r9 x) +++ enc_bytes (service_id_r9 x).

Lemma codec_tmgi : codec tmgi_ok enc_tmgi tmgi_r9_s_pack tmgi_r9_s_unpack.
Proof.
  pose proof (codec_octets 3 ltac:(lia)) as Co. split; intros x [Hp Ho].
  - pack_with codec_plmn_id_r9. last_with Co.
  - unpack_with codec_plmn_id_r9 (plmn_id_r9 x). final_with Co (service_id_r9 x). destruct x. apply decodes_returns.
Qed.

(** ** Subframe allocations *)

Definition bitstring_ok (n : Z) (s : bitstring) : Prop := bs_nbits s = n /\ bits_ok n (bs_octets s).
Definition enc_bitstring (n : Z) (s : bitstring) : encoding := enc_bitfield n (bs_octets s).

Lemma codec_bitstring n : 0 < n <= ASN_64K -> codec (bitstring_ok n) (enc_bitstring n) (bitstring_pack n n false false) (bitstring_unpack n n false false).
Proof. apply codec_fixed_bitstring. Qed.

Definition sf_alloc_ok (x : sf_alloc_c_) : Prop :=
  match x with one_frame s => bitstring_ok 6 s | four_frames s => bitstring_ok 24 s | sf_alloc_nulltype => False end.

Definition enc_sf_alloc (x : sf_alloc_c_) : encoding :=
  match x with
  | one_frame s => enc_bits 1 0 +++ enc_bitstring 6 s
  | four_frames s => enc_bits 1 1 +++ enc_bitstring 24 s
  | sf_alloc_nulltype => enc_nil
  end.

Lemma codec_sf_alloc : codec sf_alloc_ok enc_sf_alloc sf_alloc_c_pack sf_alloc_c_unpack.
Proof.
  pose proof (codec_bitstring 6 ltac:(done)) as C6. pose proof (codec_bitstring 24 ltac:(done)) as C24.
  split; intros [s|s|] Hx; try done; first [apply encodes_choice|apply decodes_choice]; try lia.
  - last_with C6.
  - last_with C24.
  - apply (decodes_map _ one_frame), C6, Hx.
  - apply (decodes_map _ four_frames), C24, Hx.
Qed.

Definition mbsfn_sf_cfg_ok (x : mbsfn_sf_cfg_s) : Prop :=
  0 <= radioframe_alloc_period x < 6 /\ 0 <= radioframe_alloc_offset x <= 7 /\ sf_alloc_ok (sf_alloc x).

Definition enc_mbsfn_sf_cfg (x : mbsfn_sf_cfg_s) : encoding :=
  enc_bits 3 (radioframe_alloc_period x) +++ enc_int 0 7 (radioframe_alloc_offset x) +++ enc_sf_alloc (sf_alloc x).

Lemma codec_mbsfn_sf_cfg : codec mbsfn_sf_cfg_ok enc_mbsfn_sf_cfg mbsfn_sf_cfg_s_pack mbsfn_sf_cfg_s_unpack.
Proof.
  pose proof (codec_index 6 ltac:(lia)) as Ce. pose proof (codec_uint8 0 7 ltac:(lia) ltac:(lia)) as Ci.
  split; intros x (Hp & Ho & Ha).
  - pack_with Ce. pack_with Ci. last_with codec_sf_alloc.
  - unpack_with Ce (radioframe_alloc_period x). unpack_with Ci (radioframe_alloc_offset x). final_with codec_sf_alloc (sf_alloc x).
    destruct x. apply decodes_returns.
Qed.

Definition sf_alloc_v1430_ok (x : sf_alloc_v1430_c_) : Prop :=
  match x with one_frame_v1430 s => bitstring_ok 2 s | four_frames_v1430 s => bitstring_ok 8 s | sf_alloc_v1430_nulltype => False end.

Definition enc_sf_alloc_v1430 (x : sf_alloc_v1430_c_) : encoding :=
  match x with
  | one_frame_v1430 s => enc_bits 1 0 +++ enc_bitstring 2 s
  | four_frames_v1430 s => enc_bits 1 1 +++ enc_bitstring 8 s
  | sf_alloc_v1430_nulltype => enc_nil
  end.

Lemma codec_sf_alloc_v1430 : codec sf_alloc_v1430_ok enc_sf_alloc_v1430 mbsfn_sf_cfg_v1430_s_pack mbsfn_sf_cfg_v1430_s_unpack.
Proof.
  pose proof (codec_bitstring 2 ltac:(done)) as C2. pose proof (codec_bitstring 8 ltac:(done)) as C8.
  split; intros [s|s|] Hx; try done; first [apply encodes_last, encodes_choice|eapply decodes_last; [apply decodes_choice|apply decodes_returns]]; try lia.
  - last_with C2.
  - last_with C8.
  - apply (decodes_map _ one_frame_v1430), C2, Hx.
  - apply (decodes_map _ four_frames_v1430), C8, Hx.
Qed.

(** ** Sessions and PMCHs *)

Definition mbms_session_info_ok (x : mbms_session_info_r9_s) : Prop :=
  tmgi_ok (tmgi_r9 x) /\ opt_ok (octets_ok 1) (session_id_r9 x) /\ 0 <= lc_ch_id_r9 x <= 28.

Definition enc_mbms_session_info (x : mbms_session_info_r9_s) : encoding :=
  enc_flag (mbms_session_ext x) +++ enc_flag (present (session_id_r9 x)) +++ enc_tmgi (tmgi_r9 x) +++
  enc_opt enc_bytes (session_id_r9 x) +++ enc_int 0 28 (lc_ch_id_r9 x).

Lemma codec_mbms_session_info : codec mbms_session_info_ok enc_mbms_session_info mbms_session_info_r9_s_pack mbms_session_info_r9_s_unpack.
Proof.
  pose proof (codec_octets 1 ltac:(lia)) as Co. pose proof (codec_uint8 0 28 ltac:(lia) ltac:(lia)) as Ci.
  split; intros x (Ht & Hs & Hl).
  - apply encodes_ignore; [apply encodes_flag|]. apply encodes_handle; [apply encodes_flag|]. pack_with codec_tmgi.
    apply encodes_handle; [by apply (encodes_opt _ _ _ _ Co)|]. last_with Ci.
  - apply (decodes_ignore _ _ _ _ _ (mbms_session_ext x)); [apply decodes_flag|].
    apply (decodes_bind _ _ _ _ (present (session_id_r9 x))); [apply decodes_flag|]. unpack_with codec_tmgi (tmgi_r9 x).
    apply (decodes_bind _ _ _ _ (session_id_r9 x)); [by apply (decodes_opt _ _ _ _ Co)|]. final_with Ci (lc_ch_id_r9 x).
    destruct x. apply decodes_returns.
Qed.

Definition pmch_cfg_ok (x : pmch_cfg_r9_s) : Prop :=
  0 <= sf_alloc_end_r9 x <= 1535 /\ 0 <= data_mcs_r9 x <= 28 /\ 0 <= mch_sched_period_r9 x < 8.

Definition enc_pmch_cfg (x : pmch_cfg_r9_s) : encoding :=
  enc_flag (pmch_cfg_ext x) +++ enc_int 0 1535 (sf_alloc_end_r9 x) +++ enc_int 0 28 (data_mcs_r9 x) +++ enc_bits 3 (mch_sched_period_r9 x).

Lemma codec_pmch_cfg : codec pmch_cfg_ok enc_pmch_cfg pmch_cfg_r9_s_pack pmch_cfg_r9_s_unpack.
Proof.
  pose proof (codec_uint16 0 1535 ltac:(lia) ltac:(lia)) as Ce. pose proof (codec_uint8 0 28 ltac:(lia) ltac:(lia)) as Cm.
  pose proof (codec_index 8 ltac:(lia)) as Cp. split; intros x (He & Hm & Hp).
  - apply encodes_ignore; [apply encodes_flag|]. pack_with Ce. pack_with Cm. last_with Cp.
  - apply (decodes_ignore _ _ _ _ _ (pmch_cfg_ext x)); [apply decodes_flag|]. unpack_with Ce (sf_alloc_end_r9 x).
    unpack_with Cm (data_mcs_r9 x). final_with Cp (mch_sched_period_r9 x). destruct x. apply decodes_returns.
Qed.

Definition pmch_info_ok (x : pmch_info_r9_s) : Prop :=
  pmch_cfg_ok (pmch_cfg_r9 x) /\ seq_ok mbms_session_info_ok 0 29 (mbms_session_info_list_r9 x).

Definition enc_pmch_info (x : pmch_info_r9_s) : encoding :=
  enc_flag (pmch_info_ext x) +++ enc_pmch_cfg (pmch_cfg_r9 x) +++ enc_seq enc_mbms_session_info 0 29 (mbms_session_info_list_r9 x).

Lemma codec_sessions : codec (seq_ok mbms_session_info_ok 0 29) (enc_seq enc_mbms_session_info 0 29)
  (fun l => pack_dyn_seq_of mbms_session_info_r9_s_pack l 0 29 false) (unpack_dyn_seq_of mbms_session_info_r9_s_unpack 0 29 false).
Proof. apply codec_seq; [apply codec_mbms_session_info|done|done]. Qed.

Lemma codec_pmch_info : codec pmch_info_ok enc_pmch_info pmch_info_r9_s_pack pmch_info_r9_s_unpack.
Proof.
  split; intros x (Hc & Hl).
  - apply encodes_ignore; [apply encodes_flag|]. pack_with codec_pmch_cfg. last_with codec_sessions.
  - apply (decodes_ignore _ _ _ _ _ (pmch_info_ext x)); [apply decodes_flag|]. unpack_with codec_pmch_cfg (pmch_cfg_r9 x).
    final_with codec_sessions (mbms_session_info_list_r9 x). destruct x. apply decodes_returns.
Qed.

(** ** Release 12 *)

Definition data_mcs_ok (x : data_mcs_r12_c_) : Prop :=
  match x with normal_r12 m => 0 <= m <= 28 | higer_order_r12 m => 0 <= m <= 27 | data_mcs_nulltype => False end.

Definition enc_data_mcs (x : data_mcs_r12_c_) : encoding :=
  match x with
  | normal_r12 m => enc_bits 1 0 +++ enc_int 0 28 m
  | higer_order_r12 m => enc_bits 1 1 +++ enc_int 0 27 m
  | data_mcs_nulltype => enc_nil
  end.

Lemma codec_data_mcs : codec data_mcs_ok enc_data_mcs data_mcs_r12_c_pack data_mcs_r12_c_unpack.
Proof.
  pose proof (codec_uint8 0 28 ltac:(lia) ltac:(lia)) as C28. pose proof (codec_uint8 0 27 ltac:(lia) ltac:(lia)) as C27.
  split; intros [m|m|] Hx; try done; first [apply encodes_choice|apply decodes_choice]; try lia.
  - last_with C28.
  - last_with C27.
  - apply (decodes_map _ normal_r12), C28, Hx.
  - apply (decodes_map _ higer_order_r12), C27, Hx.
Qed.

(** The extension group: the flag of the group, and an octet with the flag of the field and the
    field. *)
Definition enc_r12_field (v : Z) : encoding := enc_flag true +++ enc_bits 1 v.
Definition enc_r12_group (v : Z) : encoding := enc_groups [true] +++ enc_open (enc_r12_field v).

Lemma encodes_r12_group v : 0 <= v < 2 -> encodes (pmch_cfg_r12_group_pack (Some v)) (enc_r12_group v).
Proof.
  pose proof (codec_index 2 ltac:(lia)) as Cv. intros Hv. apply encodes_ignore; [by apply encodes_groups|].
  apply encodes_last, encodes_open; [|by vm_compute]. apply encodes_handle; [apply encodes_flag|]. last_with Cv.
Qed.

Lemma decodes_r12_group v : 0 <= v < 2 -> decodes pmch_cfg_r12_group_unpack (enc_r12_group v) (Some v).
Proof.
  pose proof (codec_index 2 ltac:(lia)) as Cv. intros Hv. apply (decodes_groups _ [true]); [done|]. cbn [lookup list_lookup default].
  apply decodes_open; [|done|by vm_compute]. apply (decodes_bind _ _ _ _ true); [apply decodes_flag|].
  apply (decodes_map _ Some), Cv, Hv.
Qed.

(** The extension flag is set just when the extension is present. *)
Definition pmch_cfg_r12_ok (x : pmch_cfg_r12_s) : Prop :=
  0 <= sf_alloc_end_r12 x <= 1535 /\ data_mcs_ok (data_mcs_r12 x) /\ 0 <= mch_sched_period_r12 x < 9 /\
  pmch_cfg_r12_ext x = present (mch_sched_period_v1430 x) /\ opt_ok (fun v => 0 <= v < 2) (mch_sched_period_v1430 x).

Definition enc_pmch_cfg_r12 (x : pmch_cfg_r12_s) : encoding :=
  enc_flag (pmch_cfg_r12_ext x) +++ enc_int 0 1535 (sf_alloc_end_r12 x) +++ enc_data_mcs (data_mcs_r12 x) +++
  enc_bits 4 (mch_sched_period_r12 x) +++ enc_opt enc_r12_group (mch_sched_period_v1430 x).

Lemma codec_pmch_cfg_r12 : codec pmch_cfg_r12_ok enc_pmch_cfg_r12 pmch_cfg_r12_s_pack pmch_cfg_r12_s_unpack.
Proof.
  pose proof (codec_uint16 0 1535 ltac:(lia) ltac:(lia)) as Ce. pose proof (codec_index 9 ltac:(lia)) as Cp.
  split; intros x (He & Hm & Hp & Hx & Hv); unfold enc_pmch_cfg_r12, pmch_cfg_r12_s_pack, pmch_cfg_r12_s_unpack; rewrite Hx.
  - apply encodes_ignore; [apply encodes_flag|]. pack_with Ce. pack_with codec_data_mcs. pack_with Cp.
    destruct (mch_sched_period_v1430 x) as [v|]; [by apply encodes_r12_group|apply encodes_success].
  - apply (decodes_ignore _ _ _ _ _ (pmch_cfg_r12_ext x)); [rewrite Hx; apply decodes_flag|]. unpack_with Ce (sf_alloc_end_r12 x).
    unpack_with codec_data_mcs (data_mcs_r12 x). unpack_with Cp (mch_sched_period_r12 x).
    apply (decodes_last _ _ _ (mch_sched_period_v1430 x)); [|destruct x; apply decodes_returns].
    rewrite Hx. destruct (mch_sched_period_v1430 x) as [v|]; [by apply decodes_r12_group|apply decodes_returns].
Qed.

Definition pmch_info_ext_ok (x : pmch_info_ext_r12_s) : Prop :=
  pmch_cfg_r12_ok (pmch_cfg_r12 x) /\ seq_ok mbms_session_info_ok 0 29 (mbms_session_info_list_r12 x).

Definition enc_pmch_info_ext (x : pmch_info_ext_r12_s) : encoding :=
  enc_flag (pmch_info_ext_ext x) +++ enc_pmch_cfg_r12 (pmch_cfg_r12 x) +++ enc_seq enc_mbms_session_info 0 29 (mbms_session_info_list_r12 x).

Lemma codec_pmch_info_ext : codec pmch_info_ext_ok enc_pmch_info_ext pmch_info_ext_r12_s_pack pmch_info_ext_r12_s_unpack.
Proof.
  split; intros x (Hc & Hl).
  - apply encodes_ignore; [apply encodes_flag|]. pack_with codec_pmch_cfg_r12. last_with codec_sessions.
  - apply (decodes_ignore _ _ _ _ _ (pmch_info_ext_ext x)); [apply decodes_flag|]. unpack_with codec_pmch_cfg_r12 (pmch_cfg_r12 x).
    final_with codec_sessions (mbms_session_info_list_r12 x). destruct x. apply decodes_returns.
Qed.

(** ** Area configuration *)

Definition v1430_ok (x : mbsfn_area_cfg_v1430_ies_s) : Prop := seq_ok sf_alloc_v1430_ok 1 8 (common_sf_alloc_r14 x).
Definition enc_v1430 (x : mbsfn_area_cfg_v1430_ies_s) : encoding :=
  enc_flag (v1430_non_crit_ext_present x) +++ enc_seq enc_sf_alloc_v1430 1 8 (common_sf_alloc_r14 x).

Lemma codec_v1430 : codec v1430_ok enc_v1430 mbsfn_area_cfg_v1430_ies_s_pack mbsfn_area_cfg_v1430_ies_s_unpack.
Proof.
  pose proof (codec_seq _ _ _ _ 1 8 codec_sf_alloc_v1430 ltac:(lia) ltac:(done)) as Cs. split; intros x Hx.
  - apply encodes_handle; [apply encodes_flag|]. last_with Cs.
  - apply (decodes_bind _ _ _ _ (v1430_non_crit_ext_present x)); [apply decodes_flag|]. final_with Cs (common_sf_alloc_r14 x).
    destruct x. apply decodes_returns.
Qed.

Definition v1250_ok (x : mbsfn_area_cfg_v1250_ies_s) : Prop :=
  opt_ok (seq_ok pmch_info_ext_ok 0 15) (pmch_info_list_ext_r12 x) /\ opt_ok v1430_ok (v1250_non_crit_ext x).
Definition enc_v1250 (x : mbsfn_area_cfg_v1250_ies_s) : encoding :=
  enc_flag (present (pmch_info_list_ext_r12 x)) +++ enc_flag (present (v1250_non_crit_ext x)) +++
  enc_opt (enc_seq enc_pmch_info_ext 0 15) (pmch_info_list_ext_r12 x) +++ enc_opt enc_v1430 (v1250_non_crit_ext x).

(** Two presence flags, then the two fields. *)
Lemma encodes_two_opts {A B} (okA : A -> Prop) encA pkA (upkA : unpacker A) (okB : B -> Prop) encB pkB (upkB : unpacker B) a b :
  codec okA encA pkA upkA -> codec okB encB pkB upkB -> opt_ok okA a -> opt_ok okB b ->
  encodes (handle (pack_flag (present a)) (handle (pack_flag (present b)) (handle (pack_opt pkA a) (handle (pack_opt pkB b) success))))
          (enc_flag (present a) +++ enc_flag (present b) +++ enc_opt encA a +++ enc_opt encB b).
Proof.
  intros CA CB Ha Hb. do 2 (apply encodes_handle; [apply encodes_flag|]).
  apply encodes_handle; [by apply (encodes_opt _ _ _ _ CA)|]. by apply encodes_last, (encodes_opt _ _ _ _ CB).
Qed.

Lemma decodes_two_opts {A B C} (okA : A -> Prop) encA pkA (upkA : unpacker A) (okB : B -> Prop) encB pkB (upkB : unpacker B) a b (f : option A -> option B -> C) :
  codec okA encA pkA upkA -> codec okB encB pkB upkB -> opt_ok okA a -> opt_ok okB b ->
  decodes (handle_val unpack_bool (fun pa => handle_val unpack_bool (fun pb => handle_val (unpack_opt pa upkA) (fun a =>
             handle_val (unpack_opt pb upkB) (fun b => returns (f a b))))))
          (enc_flag (present a) +++ enc_flag (present b) +++ enc_opt encA a +++ enc_opt encB b) (f a b).
Proof.
  intros CA CB Ha Hb. apply (decodes_bind _ _ _ _ (present a)); [apply decodes_flag|]. apply (decodes_bind _ _ _ _ (present b)); [apply decodes_flag|].
  apply (decodes_bind _ _ _ _ a); [by apply (decodes_opt _ _ _ _ CA)|]. by apply (decodes_map _ (f a)), (decodes_opt _ _ _ _ CB).
Qed.

Lemma codec_v1250 : codec v1250_ok enc_v1250 mbsfn_area_cfg_v1250_ies_s_pack mbsfn_area_cfg_v1250_ies_s_unpack.
Proof.
  pose proof (codec_seq _ _ _ _ 0 15 codec_pmch_info_ext ltac:(lia) ltac:(done)) as Cs. split; intros [l e] [Hl He].
  - by apply (encodes_two_opts _ _ _ _ _ _ _ _ _ _ Cs codec_v1430).
  - by apply (decodes_two_opts _ _ _ _ _ _ _ _ _ _ Build_mbsfn_area_cfg_v1250_ies_s Cs codec_v1430).
Qed.

Definition late_ext_ok (l : bytes) : Prop := bytes_ok l /\ zlen l < ASN_16K.
Definition enc_late_ext (l : bytes) : encoding := enc_length (zlen l) +++ enc_bytes l.

Lemma codec_late_ext : codec late_ext_ok enc_late_ext (unbounded_octstring_pack false) (unbounded_octstring_unpack false).
Proof. apply codec_unbounded_octstring. Qed.

Definition v930_ok (x : mbsfn_area_cfg_v930_ies_s) : Prop := opt_ok late_ext_ok (v930_late_non_crit_ext x) /\ opt_ok v1250_ok (v930_non_crit_ext x).
Definition enc_v930 (x : mbsfn_area_cfg_v930_ies_s) : encoding :=
  enc_flag (present (v930_late_non_crit_ext x)) +++ enc_flag (present (v930_non_crit_ext x)) +++
  enc_opt enc_late_ext (v930_late_non_crit_ext x) +++ enc_opt enc_v1250 (v930_non_crit_ext x).

Lemma codec_v930 : codec v930_ok enc_v930 mbsfn_area_cfg_v930_ies_s_pack mbsfn_area_cfg_v930_ies_s_unpack.
Proof.
  split; intros [l e] [Hl He].
  - by apply (encodes_two_opts _ _ _ _ _ _ _ _ _ _ codec_late_ext codec_v1250).
  - by apply (decodes_two_opts _ _ _ _ _ _ _ _ _ _ Build_mbsfn_area_cfg_v930_ies_s codec_late_ext codec_v1250).
Qed.

Definition mbsfn_area_cfg_ok (x : mbsfn_area_cfg_r9_s) : Prop :=
  seq_ok mbsfn_sf_cfg_ok 1 8 (common_sf_alloc_r9 x) /\ 0 <= common_sf_alloc_period_r9 x < 7 /\
  seq_ok pmch_info_ok 0 15 (pmch_info_list_r9 x) /\ opt_ok v930_ok (area_non_crit_ext x).

Definition enc_mbsfn_area_cfg (x : mbsfn_area_cfg_r9_s) : encoding :=
  enc_flag (present (area_non_crit_ext x)) +++ enc_seq enc_mbsfn_sf_cfg 1 8 (common_sf_alloc_r9 x) +++
  enc_bits 3 (common_sf_alloc_period_r9 x) +++ enc_seq enc_pmch_info 0 15 (pmch_info_list_r9 x) +++ enc_opt enc_v930 (area_non_crit_ext x).

Lemma codec_mbsfn_area_cfg : codec mbsfn_area_cfg_ok enc_mbsfn_area_cfg mbsfn_area_cfg_r9_s_pack mbsfn_area_cfg_r9_s_unpack.
Proof.
  pose proof (codec_seq _ _ _ _ 1 8 codec_mbsfn_sf_cfg ltac:(lia) ltac:(done)) as Ca. pose proof (codec_index 7 ltac:(lia)) as Cp.
  pose proof (codec_seq _ _ _ _ 0 15 codec_pmch_info ltac:(lia) ltac:(done)) as Cl. split; intros x (Ha & Hp & Hl & He).
  - apply encodes_handle; [apply encodes_flag|]. pack_with Ca. pack_with Cp. pack_with Cl. by apply encodes_last, (encodes_opt _ _ _ _ codec_v930).
  - apply (decodes_bind _ _ _ _ (present (area_non_crit_ext x))); [apply decodes_flag|]. unpack_with Ca (common_sf_alloc_r9 x).
    unpack_with Cp (common_sf_alloc_period_r9 x). unpack_with Cl (pmch_info_list_r9 x).
    apply (decodes_last _ _ _ (area_non_crit_ext x)); [by apply (decodes_opt _ _ _ _ codec_v930)|]. destruct x. apply decodes_returns.
Qed.

(** ** Counting request *)

Definition count_info_ok (x : count_request_info_r10_s) : Prop := tmgi_ok (tmgi_r10 x).
Definition enc_count_info (x : count_request_info_r10_s) : encoding := enc_flag (count_request_ext x) +++ enc_tmgi (tmgi_r10 x).

Lemma codec_count_info : codec count_info_ok enc_count_info count_request_info_r10_s_pack count_request_info_r10_s_unpack.
Proof.
  split; intros x Hx.
  - apply encodes_ignore; [apply encodes_flag|]. last_with codec_tmgi.
  - apply (decodes_ignore _ _ _ _ _ (count_request_ext x)); [apply decodes_flag|]. final_with codec_tmgi (tmgi_r10 x). destruct x. apply decodes_returns.
Qed.

Definition count_request_ok (x : mbms_count_request_r10_s) : Prop :=
  seq_ok count_info_ok 1 16 (count_request_list_r10 x) /\ opt_ok late_ext_ok (count_late_non_crit_ext x).
Definition enc_count_request (x : mbms_count_request_r10_s) : encoding :=
  enc_flag (present (count_late_non_crit_ext x)) +++ enc_flag (count_non_crit_ext_present x) +++
  enc_seq enc_count_info 1 16 (count_request_list_r10 x) +++ enc_opt enc_late_ext (count_late_non_crit_ext x).

Lemma codec_count_request : codec count_request_ok enc_count_request mbms_count_request_r10_s_pack mbms_count_request_r10_s_unpack.
Proof.
  pose proof (codec_seq _ _ _ _ 1 16 codec_count_info ltac:(lia) ltac:(done)) as Cl. split; intros x [Hl He].
  - do 2 (apply encodes_handle; [apply encodes_flag|]). pack_with Cl. by apply encodes_last, (encodes_opt _ _ _ _ codec_late_ext).
  - apply (decodes_bind _ _ _ _ (present (count_late_non_crit_ext x))); [apply decodes_flag|].
    apply (decodes_bind _ _ _ _ (count_non_crit_ext_present x)); [apply decodes_flag|]. unpack_with Cl (count_request_list_r10 x).
    apply (decodes_last _ _ _ (count_late_non_crit_ext x)); [by apply (decodes_opt _ _ _ _ codec_late_ext)|]. destruct x. apply decodes_returns.
Qed.

(** ** The message *)

Definition later_ok (x : later_c_) : Prop := match x with c2 r => count_request_ok r | msg_class_ext => True | later_nulltype => False end.
Definition enc_later (x : later_c_) : encoding :=
  match x with c2 r => enc_bits 1 0 +++ enc_count_request r | msg_class_ext => enc_bits 1 1 +++ enc_nil | later_nulltype => enc_nil end.

Lemma codec_later : codec later_ok enc_later later_c_pack later_c_unpack.
Proof.
  split; intros [r| |] Hx; try done; first [apply encodes_choice|apply decodes_choice]; try lia.
  - apply encodes_last, encodes_last. by apply codec_count_request.
  - apply encodes_success.
  - apply (decodes_map _ c2), codec_count_request, Hx.
  - apply decodes_returns.
Qed.

Definition mcch_ok (x : mcch_msg_type_c) : Prop := match x with c1 a => mbsfn_area_cfg_ok a | later l => later_ok l | mcch_nulltype => False end.
Definition enc_mcch_type (x : mcch_msg_type_c) : encoding :=
  match x with c1 a => enc_bits 1 0 +++ enc_mbsfn_area_cfg a | later l => enc_bits 1 1 +++ enc_later l | mcch_nulltype => enc_nil end.

Lemma codec_mcch_type : codec mcch_ok enc_mcch_type mcch_msg_type_c_pack mcch_msg_type_c_unpack.
Proof.
  split; intros [a|l|] Hx; try done; first [apply encodes_choice|apply decodes_choice]; try lia.
  - apply encodes_last, encodes_last. by apply codec_mbsfn_area_cfg.
  - last_with codec_later.
  - apply (decodes_map _ c1), codec_mbsfn_area_cfg, Hx.
  - apply (decodes_map _ later), codec_later, Hx.
Qed.

(** The message ends at a byte boundary. *)
Definition enc_mcch (x : mcch_msg_type_c) : encoding := enc_mcch_type x +++ enc_pad.

Lemma codec_mcch : codec mcch_ok enc_mcch mcch_msg_s_pack mcch_msg_s_unpack.
Proof.
  split; intros x Hx.
  - pack_with codec_mcch_type. apply encodes_last_ignored, encodes_align_zero.
  - unpack_with codec_mcch_type x. eapply decodes_ext; [|apply (decodes_ignore _ _ _ _ _ tt _ decodes_skip_align (decodes_returns x))].
    intros p _. apply app_nil_r.
Qed.

(** ** Safety of unpacking *)

Lemma reads_uint8 lb ub : 0 <= lb -> lb < ub < 255 -> reads_safely (unpack_integer uint8_t 0 lb ub false false).
Proof. intros Hl Hu. apply reads_integer; [by apply uint8_ok|by left]. Qed.

Lemma reads_uint16 lb ub : 0 <= lb -> lb < ub < 65535 -> reads_safely (unpack_integer uint16_t 0 lb ub false false).
Proof. intros Hl Hu. apply reads_integer; [by apply uint16_ok|by left]. Qed.

Lemma reads_index n : 1 <= n <= 2 ^ 20 -> reads_safely (unpack_enum n 0 false).
Proof. intros Hn. apply reads_enum. constructor; lia. Qed.

Lemma reads_seq {A} (upk : unpacker A) lb ub : 0 <= lb -> lb <= ub < ASN_64K -> reads_safely upk -> reads_safely (unpack_dyn_seq_of upk lb ub false).
Proof. intros Hl Hu Hr. by apply reads_dyn_seq_of. Qed.

Hint Resolve reads_uint8 reads_uint16 reads_index reads_seq reads_opt reads_choice reads_fixed_octstring reads_fixed_bitstring reads_unbounded_octstring reads_items : per.
Hint Extern 1 (_ <= _ < ASN_64K) => (unfold ASN_64K; lia) : per.
Hint Extern 1 (_ < _ < _) => lia : per.
Hint Extern 1 (1 <= _ <= _) => lia : per.
Hint Extern 1 (0 <= _) => lia : per.
Hint Extern 2 (reads_safely (if _ then _ else _)) => case_if : per.

Lemma reads_plmn_id : reads_safely plmn_id_s_unpack.
Proof.
  assert (Hd : reads_safely digit_unpack) by (unfold digit_unpack; auto with per).
  apply reads_bind; [auto with per|]. intros p. apply reads_bind; [apply reads_opt, reads_items, Hd|]. intros m. apply reads_map. auto with per.
Qed.

Lemma reads_tmgi : reads_safely tmgi_r9_s_unpack.
Proof.
  apply reads_bind; [|intros; auto with per]. apply reads_choice. intros e. case_if; [apply reads_map; auto with per|].
  case_if; [apply reads_map, reads_plmn_id|auto with per].
Qed.

Lemma reads_sf_cfg : reads_safely mbsfn_sf_cfg_s_unpack.
Proof.
  apply reads_bind; [auto with per|]. intros. apply reads_bind; [auto with per|]. intros. apply reads_map. apply reads_choice. intros e.
  repeat (case_if; [auto with per|]). auto with per.
Qed.

Lemma reads_session_info : reads_safely mbms_session_info_r9_s_unpack.
Proof.
  apply reads_ignore; [auto with per|]. intros. apply reads_bind; [auto with per|]. intros. apply reads_bind; [apply reads_tmgi|]. intros.
  apply reads_bind; [auto with per|]. intros. auto with per.
Qed.

Lemma reads_pmch_info : reads_safely pmch_info_r9_s_unpack.
Proof.
  apply reads_ignore; [auto with per|]. intros. apply reads_bind.
  - apply reads_ignore; [auto with per|]. intros. repeat (apply reads_bind; [auto with per|]; intros). auto with per.
  - intros. apply reads_map, reads_seq; [lia|done|apply reads_session_info].
Qed.

Lemma reads_count_request : reads_safely mbms_count_request_r10_s_unpack.
Proof.
  do 2 (apply reads_bind; [auto with per|]; intros). apply reads_bind; [|intros; auto with per]. apply reads_seq; [lia|done|].
  apply reads_ignore; [auto with per|]. intros. apply reads_map, reads_tmgi.
Qed.
End Laws.

(** C5: An MCCH message whose fields are in their ranges, the multicast area configuration with
    all its extensions or the counting request, is packed into exactly its encoding when a byte
    is left after it, and unpacking gives the same message and ends where the packer ended. *)
Theorem mcch_roundtrip `{Libm} msg b : mcch_ok msg -> br_wf b -> distance b + zlen (enc_mcch msg (distance b)) + 8 <= 8 * br_max b ->
  exists b', mcch_msg_s_pack msg b = Some (SRSASN_SUCCESS, b') /\ appended b b' (enc_mcch msg (distance b)) /\
    mcch_msg_s_unpack (seek b' (distance b)) = Some (inr msg, b').
Proof. intros Hm Hw Hr. exact (codec_roundtrip _ _ _ _ msg b codec_mcch Hm Hw Hr). Qed.

(** A message with every extension. *)
Definition test_session : mbms_session_info_r9_s :=
  {| mbms_session_ext := false; tmgi_r9 := {| plmn_id_r9 := explicit_value_r9 {| mcc := Some [0; 0; 1]; mnc := [0; 3] |}; service_id_r9 := [0; 0; 7] |};
     session_id_r9 := Some [5]; lc_ch_id_r9 := 1 |}.
Definition test_area : mbsfn_area_cfg_r9_s :=
  {| common_sf_alloc_r9 := [{| radioframe_alloc_period := 0; radioframe_alloc_offset := 0; sf_alloc := one_frame (mk_bitstring [63] 6) |}];
     common_sf_alloc_period_r9 := 4;
     pmch_info_list_r9 := [{| pmch_info_ext := false;
       pmch_cfg_r9 := {| pmch_cfg_ext := false; sf_alloc_end_r9 := 624; data_mcs_r9 := 16; mch_sched_period_r9 := 3 |};
       mbms_session_info_list_r9 := [test_session] |}];
     area_non_crit_ext := Some {| v930_late_non_crit_ext := Some [1; 2]; v930_non_crit_ext := Some {|
       pmch_info_list_ext_r12 := Some [{| pmch_info_ext_ext := false;
         pmch_cfg_r12 := {| pmch_cfg_r12_ext := true; sf_alloc_end_r12 := 1535; data_mcs_r12 := higer_order_r12 27;
                            mch_sched_period_r12 := 8; mch_sched_period_v1430 := Some 1 |};
         mbms_session_info_list_r12 := [] |}];
       v1250_non_crit_ext := Some {| v1430_non_crit_ext_present := false; common_sf_alloc_r14 := [four_frames_v1430 (mk_bitstring [165] 8)] |} |} |} |}.

Lemma test_area_ok : mcch_ok (c1 test_area).
Proof.
  assert (Hs : mbms_session_info_ok test_session) by (repeat split; try (by vm_compute); by repeat constructor).
  unfold mcch_ok, mbsfn_area_cfg_ok, seq_ok. repeat split; try (by vm_compute); repeat constructor; try (by vm_compute); try done.
  - exists [], 63. repeat split; try (by vm_compute); constructor.
  - exists [], 165. repeat split; try (by vm_compute); constructor.
Qed.

Lemma mcch_roundtrip_witness : exists b', mcch_msg_s_pack (c1 test_area) (bit_ref_set (repeat 0 40) 40) = Some (SRSASN_SUCCESS, b') /\
  mcch_msg_s_unpack (seek b' 0) = Some (inr (c1 test_area), b').
Proof.
  destruct (mcch_roundtrip (c1 test_area) (bit_ref_set (repeat 0 40) 40)) as (b' & E & _ & U).
  - apply test_area_ok.
  - apply (bref_new_wf (repeat 0 40)), bytes_ok_zeros.
  - by vm_compute.
  - exists b'. by split.
Defined.

(** C33: Whatever bytes are received, unpacking a subframe configuration, the list of sessions of
    a PMCH and a counting request returns a value or an error, never reads outside of the buffer
    and does not change it. *)
Theorem mcch_parts_read_safely `{Libm} :
  reads_safely mbsfn_sf_cfg_s_unpack /\ reads_safely pmch_info_r9_s_unpack /\ reads_safely mbms_count_request_r10_s_unpack.
Proof. split; [apply reads_sf_cfg|split; [apply reads_pmch_info|apply reads_count_request]]. Qed.

Lemma mcch_parts_read_safely_witness : exists r b', pmch_info_r9_s_unpack (bit_ref_set [0x12; 0xFF; 0xFF] 3) = Some (r, b') /\ moved (bit_ref_set [0x12; 0xFF; 0xFF] 3) b'.
Proof.
  destruct (@mcch_parts_read_safely exact_libm) as (_ & Hr & _).
  apply (Hr (bit_ref_set [0x12; 0xFF; 0xFF] 3)), (bref_new_wf [0x12; 0xFF; 0xFF]). by repeat constructor.
Defined.

(** A message of nine bytes that ends within the number of extension groups of a
    [PMCH-Config-r12] makes the decoder look at groups it has not read, outside of their array. *)
Theorem mcch_truncated_overreads : @mcch_msg_s_unpack exact_libm (bit_ref_set [0x48; 0x0F; 0xC0; 0x7F; 0x01; 0x85; 0x00; 0x00; 0x03] 9) = None.
Proof. by vm_compute. Qed.

(** A buffer that is one byte too short for the message of a session: packing reports success,
    and the result cannot be unpacked. *)
Definition test_small : mcch_msg_type_c :=
  c1 {| common_sf_alloc_r9 := common_sf_alloc_r9 test_area; common_sf_alloc_period_r9 := 4; pmch_info_list_r9 := pmch_info_list_r9 test_area;
        area_non_crit_ext := None |}.

Lemma mcch_pack_truncates :
  match mcch_msg_s_pack test_small (bit_ref_set (repeat 0 14) 14) with
  | Some (SRSASN_SUCCESS, b') => match mcch_msg_s_unpack (seek b' 0) with Some (inl SRSASN_ERROR_DECODE_FAIL, _) => true | _ => false end
  | _ => false
  end = true.
Proof. by vm_compute. Qed.
