(* ===== verification/RrcSib13.v ===== *)
(** * System information block 13

    The block that points a receiver to the MCCH: [sib_type13_r9_s] with the area information of
    release 9, its extensions of release 14 and the list of release 16, and the notification
    configuration ([lib/src/asn1/rrc/bcch_msg.cc], [lib/include/srsran/asn1/rrc/bcch_msg.h]).
    The source has no packer for the list of release 16.  Enumerations are the index of their
    value.

    Packing and unpacking are inverse to each other for a block without the list of release 16;
    with that list, the extension group is skipped a second time after it has been read. *)

From stdpp Require Import base list numbers.
From S2P Require Import Prelude BitRef Per PerLaws PerExt RrcMcch RrcMcchCorrect.

Local Open Scope Z_scope.
Local Open Scope encoding_scope.

(** ** Data *)

Record mcch_cfg_r9_s_ := {
  mcch_repeat_period_r9 : Z;
  mcch_offset_r9 : Z;
  mcch_mod_period_r9 : Z;
  sf_alloc_info_r9 : bitstring;
  sig_mcs_r9 : Z
}.

Record mcch_cfg_r14_s_ := { mcch_repeat_period_v1430 : option Z; mcch_mod_period_v1430 : option Z }.

Record mbsfn_area_info_r9_s := {
  area_info_r9_ext : bool;
  mbsfn_area_id_r9 : Z;
  non_mbsfn_region_len_r9 : Z;
  notif_ind_r9 : Z;
  mcch_cfg_r9 : mcch_cfg_r9_s_;
  mcch_cfg_r14 : option mcch_cfg_r14_s_;
  subcarrier_spacing_mbms_r14 : option Z
}.

Record mcch_cfg_r16_s_ := {
  mcch_repeat_period_r16 : Z;
  mcch_mod_period_r16 : Z;
  mcch_offset_r16 : Z;
  sf_alloc_info_r16 : bitstring;
  sig_mcs_r16 : Z
}.

Record mbsfn_area_info_r16_s := {
  area_info_r16_ext : bool;
  mbsfn_area_id_r16 : Z;
  notif_ind_r16 : Z;
  mcch_cfg_r16 : mcch_cfg_r16_s_;
  subcarrier_spacing_mbms_r16 : Z;
  time_separation_r16 : option Z;
  pmch_bandwidth_v16xy : option Z
}.

Record mbms_notif_cfg_r9_s := { notif_repeat_coeff_r9 : Z; notif_offset_r9 : Z; notif_sf_idx_r9 : Z }.

(** [notif_cfg_v1430] is the index of the notification subframe. *)
Record sib_type13_r9_s := {
  sib13_ext : bool;
  mbsfn_area_info_list_r9 : list mbsfn_area_info_r9_s;
  notif_cfg_r9 : mbms_notif_cfg_r9_s;
  sib13_late_non_crit_ext : option bytes;
  notif_cfg_v1430 : option Z;
  mbsfn_area_info_list_r16 : option (list mbsfn_area_info_r16_s)
}.

Section Codec.
Context `{Libm}.

(** ** Packing and unpacking *)

Definition mcch_cfg_r14_s_pack (x : mcch_cfg_r14_s_) : packer :=
  handle (pack_flag (present (mcch_repeat_period_v1430 x)))
    (handle (pack_flag (present (mcch_mod_period_v1430 x)))
      (handle (pack_opt (fun e => pack_enum e 5 0 false) (mcch_repeat_period_v1430 x))
        (handle (pack_opt (fun e => pack_enum e 10 0 false) (mcch_mod_period_v1430 x)) success))).

Definition mcch_cfg_r14_s_unpack : unpacker mcch_cfg_r14_s_ :=
  handle_val unpack_bool (fun rp => handle_val unpack_bool (fun mp =>
    handle_val (unpack_opt rp (unpack_enum 5 0 false)) (fun r =>
      handle_val (unpack_opt mp (unpack_enum 10 0 false)) (fun m =>
        returns {| mcch_repeat_period_v1430 := r; mcch_mod_period_v1430 := m |})))).

(** The extension group of [mbsfn_area_info_r9_s]. *)
Definition area_info_r9_group_pack (r14 : option mcch_cfg_r14_s_) (scs : option Z) : packer :=
  ignore (ext_groups_pack [present r14 || present scs])
    (if present r14 || present scs then
       handle (open_field_pack
         (handle (pack_flag (present r14))
           (handle (pack_flag (present scs))
             (handle (pack_opt mcch_cfg_r14_s_pack r14) (handle (pack_opt (fun e => pack_enum e 2 0 false) scs) success))))) success
     else success).

Definition area_info_r9_group_unpack : unpacker (option mcch_cfg_r14_s_ * option Z) :=
  with_ext_groups 1 (fun group_flags =>
    if default false (group_flags !! 0%nat) then
      open_field_unpack (handle_val unpack_bool (fun rp => handle_val unpack_bool (fun sp =>
        handle_val (unpack_opt rp mcch_cfg_r14_s_unpack) (fun r =>
          handle_val (unpack_opt sp (unpack_enum 2 0 false)) (fun s => returns (r, s))))))
    else returns (None, None)).

Definition mcch_cfg_r9_s_pack (c : mcch_cfg_r9_s_) : packer :=
  handle (pack_enum (mcch_repeat_period_r9 c) 4 0 false)
    (handle (pack_integer uint8_t (mcch_offset_r9 c) 0 10 false false)
      (handle (pack_enum (mcch_mod_period_r9 c) 2 0 false)
        (handle (bitstring_pack 6 6 false false (sf_alloc_info_r9 c))
          (handle (pack_enum (sig_mcs_r9 c) 4 0 false) success)))).

Definition mcch_cfg_r9_s_unpack : unpacker mcch_cfg_r9_s_ :=
  handle_val (unpack_enum 4 0 false) (fun r =>
    handle_val (unpack_integer uint8_t 0 0 10 false false) (fun o =>
      handle_val (unpack_enum 2 0 false) (fun m =>
        handle_val (bitstring_unpack 6 6 false false) (fun s =>
          handle_val (unpack_enum 4 0 false) (fun g =>
            returns {| mcch_repeat_period_r9 := r; mcch_offset_r9 := o; mcch_mod_period_r9 := m; sf_alloc_info_r9 := s; sig_mcs_r9 := g |}))))).

Definition mbsfn_area_info_r9_s_pack (x : mbsfn_area_info_r9_s) : packer :=
  ignore (pack_flag (area_info_r9_ext x))
    (handle (pack_integer uint16_t (mbsfn_area_id_r9 x) 0 255 false false)
      (handle (pack_enum (non_mbsfn_region_len_r9 x) 2 0 false)
        (handle (pack_integer uint8_t (notif_ind_r9 x) 0 7 false false)
          (handle (mcch_cfg_r9_s_pack (mcch_cfg_r9 x))
            (if area_info_r9_ext x then area_info_r9_group_pack (mcch_cfg_r14 x) (subcarrier_spacing_mbms_r14 x) else success))))).

Definition mbsfn_area_info_r9_s_unpack : unpacker mbsfn_area_info_r9_s :=
  ignore_val false unpack_bool (fun ext =>
    handle_val (unpack_integer uint16_t 0 0 255 false false) (fun i =>
      handle_val (unpack_enum 2 0 false) (fun l =>
        handle_val (unpack_integer uint8_t 0 0 7 false false) (fun n =>
          handle_val mcch_cfg_r9_s_unpack (fun c =>
            handle_val (if ext then area_info_r9_group_unpack else returns (None, None)) (fun g =>
              returns {| area_info_r9_ext := ext; mbsfn_area_id_r9 := i; non_mbsfn_region_len_r9 := l; notif_ind_r9 := n;
                         mcch_cfg_r9 := c; mcch_cfg_r14 := g.1; subcarrier_spacing_mbms_r14 := g.2 |})))))).

(** The extension group of [mbsfn_area_info_r16_s]. *)
Definition area_info_r16_group_unpack : unpacker (option Z) :=
  with_ext_groups 1 (fun group_flags =>
    if default false (group_flags !! 0%nat) then
      open_field_unpack (handle_val unpack_bool (fun p => unpack_opt p (unpack_enum 4 0 false)))
    else returns None).

Definition mcch_cfg_r16_s_unpack : unpacker mcch_cfg_r16_s_ :=
  handle_val (unpack_enum 16 0 false) (fun r =>
    handle_val (unpack_enum 16 0 false) (fun m =>
      handle_val (unpack_integer uint8_t 0 0 10 false false) (fun o =>
        handle_val (bitstring_unpack 10 10 false false) (fun s =>
          handle_val (unpack_enum 4 0 false) (fun g =>
            returns {| mcch_repeat_period_r16 := r; mcch_mod_period_r16 := m; mcch_offset_r16 := o; sf_alloc_info_r16 := s; sig_mcs_r16 := g |}))))).

Definition mbsfn_area_info_r16_s_unpack : unpacker mbsfn_area_info_r16_s :=
  ignore_val false unpack_bool (fun ext => handle_val unpack_bool (fun tp =>
    handle_val (unpack_integer uint16_t 0 0 255 false false) (fun i =>
      handle_val (unpack_integer uint8_t 0 0 7 false false) (fun n =>
        handle_val mcch_cfg_r16_s_unpack (fun c =>
          handle_val (unpack_enum 8 0 false) (fun s =>
            handle_val (unpack_opt tp (unpack_enum 2 0 false)) (fun t =>
              handle_val (if ext then area_info_r16_group_unpack else returns None) (fun w =>
                returns {| area_info_r16_ext := ext; mbsfn_area_id_r16 := i; notif_ind_r16 := n; mcch_cfg_r16 := c;
                           subcarrier_spacing_mbms_r16 := s; time_separation_r16 := t; pmch_bandwidth_v16xy := w |})))))))).

Definition mbms_notif_cfg_r9_s_pack (x : mbms_notif_cfg_r9_s) : packer :=
  handle (pack_enum (notif_repeat_coeff_r9 x) 2 0 false)
    (handle (pack_integer uint8_t (notif_offset_r9 x) 0 10 false false)
      (handle (pack_integer uint8_t (notif_sf_idx_r9 x) 1 6 false false) success)).

Definition mbms_notif_cfg_r9_s_unpack : unpacker mbms_notif_cfg_r9_s :=
  handle_val (unpack_enum 2 0 false) (fun c =>
    handle_val (unpack_integer uint8_t 0 0 10 false false) (fun o =>
      handle_val (unpack_integer uint8_t 0 1 6 false false) (fun i =>
        returns {| notif_repeat_coeff_r9 := c; notif_offset_r9 := o; notif_sf_idx_r9 := i |}))).

Definition mbms_notif_cfg_v1430_s_pack (x : Z) : packer := handle (pack_integer uint8_t x 7 10 false false) success.
Definition mbms_notif_cfg_v1430_s_unpack : unpacker Z := handle_val (unpack_integer uint8_t 0 7 10 false false) returns.

(** The extension groups of [sib_type13_r9_s]. *)
Definition sib13_groups_pack (o : option Z) : packer :=
  ignore (ext_groups_pack [present o])
    (if present o then
       handle (open_field_pack (handle (pack_flag (present o)) (pack_opt mbms_notif_cfg_v1430_s_pack o))) success
     else success).

(** The access to the second group lets the array grow, whose first group is the only supported
    one; an error in the first group returns before that.  Both ways end in the destructor. *)
Definition sib13_groups_unpack : unpacker (option Z * option (list mbsfn_area_info_r16_s)) := fun b =>
  '(_, n, groups, b1) ← ext_groups_unpack 1 b;
  '(r, b2) ← (if default false (groups !! 0%nat) then
                open_field_unpack (handle_val unpack_bool (fun p => unpack_opt p mbms_notif_cfg_v1430_s_unpack))
              else returns None) b1;
  match r with
  | inl c => b3 ← skip_unknown (Z.to_nat (n - 1)) 1 groups b2; Some (inl c, b3)
  | inr v =>
      let groups1 := groups ++ repeat false (2 - length groups) in
      '(r1, b3) ← (if default false (groups1 !! 1%nat) then
                     open_field_unpack (handle_val unpack_bool (fun p => unpack_opt p (unpack_dyn_seq_of mbsfn_area_info_r16_s_unpack 1 8 false)))
                   else returns None) b2;
      b4 ← skip_unknown (Z.to_nat (n - 1)) 1 groups1 b3;
      Some (match r1 with inl c => inl c | inr l => inr (v, l) end, b4)
  end.

Definition sib_type13_r9_s_pack (x : sib_type13_r9_s) : packer :=
  ignore (pack_flag (sib13_ext x))
    (handle (pack_flag (present (sib13_late_non_crit_ext x)))
      (handle (pack_dyn_seq_of mbsfn_area_info_r9_s_pack (mbsfn_area_info_list_r9 x) 1 8 false)
        (handle (mbms_notif_cfg_r9_s_pack (notif_cfg_r9 x))
          (handle (pack_opt (unbounded_octstring_pack false) (sib13_late_non_crit_ext x))
            (if sib13_ext x then sib13_groups_pack (notif_cfg_v1430 x) else success))))).

Definition sib_type13_r9_s_unpack : unpacker sib_type13_r9_s :=
  ignore_val false unpack_bool (fun ext => handle_val unpack_bool (fun lp =>
    handle_val (unpack_dyn_seq_of mbsfn_area_info_r9_s_unpack 1 8 false) (fun a =>
      handle_val mbms_notif_cfg_r9_s_unpack (fun n =>
        handle_val (unpack_opt lp (unbounded_octstring_unpack false)) (fun l =>
          handle_val (if ext then sib13_groups_unpack else returns (None, None)) (fun g =>
            returns {| sib13_ext := ext; mbsfn_area_info_list_r9 := a; notif_cfg_r9 := n; sib13_late_non_crit_ext := l;
                       notif_cfg_v1430 := g.1; mbsfn_area_info_list_r16 := g.2 |})))))).
End Codec.

(** ** The encoding *)

Section Laws.
Context `{Libm}.

Lemma unaligned_app e1 e2 : unaligned e1 -> unaligned e2 -> unaligned (e1 +++ e2).
Proof. intros H1 H2 p. unfold enc_app. by rewrite H1, H2, (H2 (0 + zlen (e1 0))). Qed.

Lemma unaligned_items {A} (enc : A -> encoding) l : (forall x, unaligned (enc x)) -> unaligned (enc_items enc l).
Proof. intros He. induction l as [|x l IH]; [done|]. by apply unaligned_app. Qed.

Lemma unaligned_opt {A} (enc : A -> encoding) o : (forall x, unaligned (enc x)) -> unaligned (enc_opt enc o).
Proof. intros He. destruct o as [x|]; [apply He|done]. Qed.

Definition mcch_cfg_r14_ok (x : mcch_cfg_r14_s_) : Prop :=
  opt_ok (fun e => 0 <= e < 5) (mcch_repeat_period_v1430 x) /\ opt_ok (fun e => 0 <= e < 10) (mcch_mod_period_v1430 x).
Definition enc_mcch_cfg_r14 (x : mcch_cfg_r14_s_) : encoding :=
  enc_flag (present (mcch_repeat_period_v1430 x)) +++ enc_flag (present (mcch_mod_period_v1430 x)) +++
  enc_opt (enc_bits 3) (mcch_repeat_period_v1430 x) +++ enc_opt (enc_bits 4) (mcch_mod_period_v1430 x).

Lemma codec_mcch_cfg_r14 : codec mcch_cfg_r14_ok enc_mcch_cfg_r14 mcch_cfg_r14_s_pack mcch_cfg_r14_s_unpack.
Proof.
  pose proof (codec_index 5 ltac:(lia)) as C5. pose proof (codec_index 10 ltac:(lia)) as C10. split; intros [r m] [Hr Hm].
  - by apply (encodes_two_opts _ _ _ _ _ _ _ _ _ _ C5 C10).
  - by apply (decodes_two_opts _ _ _ _ _ _ _ _ _ _ Build_mcch_cfg_r14_s_ C5 C10).
Qed.

Definition enc_area_group_field (r14 : option mcch_cfg_r14_s_) (scs : option Z) : encoding :=
  enc_flag (present r14) +++ enc_flag (present scs) +++ enc_opt enc_mcch_cfg_r14 r14 +++ enc_opt (enc_bits 1) scs.
Definition enc_area_group (r14 : option mcch_cfg_r14_s_) (scs : option Z) : encoding :=
  enc_groups [true] +++ enc_open (enc_area_group_field r14 scs).

Lemma area_group_short r14 scs : unaligned (enc_area_group_field r14 scs) /\ zlen (enc_area_group_field r14 scs 0) <= 8 * 4095.
Proof. destruct r14 as [[[r|] [m|]]|], scs as [s|]; (split; [done|by vm_compute]). Qed.

Lemma encodes_area_group r14 scs : present r14 || present scs = true -> opt_ok mcch_cfg_r14_ok r14 -> opt_ok (fun e => 0 <= e < 2) scs ->
  encodes (area_info_r9_group_pack r14 scs) (enc_area_group r14 scs).
Proof.
  pose proof (codec_index 2 ltac:(lia)) as C2. intros Hp Hr Hs. unfold area_info_r9_group_pack. rewrite Hp. apply encodes_ignore; [by apply encodes_groups|].
  apply encodes_last, encodes_open; [|apply area_group_short]. by apply (encodes_two_opts _ _ _ _ _ _ _ _ _ _ codec_mcch_cfg_r14 C2).
Qed.

Lemma decodes_area_group r14 scs : opt_ok mcch_cfg_r14_ok r14 -> opt_ok (fun e => 0 <= e < 2) scs ->
  decodes area_info_r9_group_unpack (enc_area_group r14 scs) (r14, scs).
Proof.
  pose proof (codec_index 2 ltac:(lia)) as C2. intros Hr Hs. apply (decodes_groups _ [true]); [done|]. cbn [lookup list_lookup default].
  apply decodes_open; [|apply area_group_short..]. by apply (decodes_two_opts _ _ _ _ _ _ _ _ _ _ pair codec_mcch_cfg_r14 C2).
Qed.

Definition mcch_cfg_r9_ok (x : mcch_cfg_r9_s_) : Prop :=
  0 <= mcch_repeat_period_r9 x < 4 /\ 0 <= mcch_offset_r9 x <= 10 /\ 0 <= mcch_mod_period_r9 x < 2 /\
  bitstring_ok 6 (sf_alloc_info_r9 x) /\ 0 <= sig_mcs_r9 x < 4.
Definition enc_mcch_cfg_r9 (x : mcch_cfg_r9_s_) : encoding :=
  enc_bits 2 (mcch_repeat_period_r9 x) +++ enc_int 0 10 (mcch_offset_r9 x) +++ enc_bits 1 (mcch_mod_period_r9 x) +++
  enc_bitstring 6 (sf_alloc_info_r9 x) +++ enc_bits 2 (sig_mcs_r9 x).

Lemma codec_mcch_cfg_r9 : codec mcch_cfg_r9_ok enc_mcch_cfg_r9 mcch_cfg_r9_s_pack mcch_cfg_r9_s_unpack.
Proof.
  pose proof (codec_index 4 ltac:(lia)) as C4. pose proof (codec_index 2 ltac:(lia)) as C2. pose proof (codec_uint8 0 10 ltac:(lia) ltac:(lia)) as Co.
  pose proof (codec_bitstring 6 ltac:(done)) as Cb. split; intros x (Hr & Ho & Hm & Hb & Hs).
  - pack_with C4. pack_with Co. pack_with C2. pack_with Cb. last_with C4.
  - unpack_with C4 (mcch_repeat_period_r9 x). unpack_with Co (mcch_offset_r9 x). unpack_with C2 (mcch_mod_period_r9 x).
    unpack_with Cb (sf_alloc_info_r9 x). final_with C4 (sig_mcs_r9 x). destruct x. apply decodes_returns.
Qed.

(** The extension flag is set just when a field of the extension is present. *)
Definition area_info_r9_ok (x : mbsfn_area_info_r9_s) : Prop :=
  0 <= mbsfn_area_id_r9 x <= 255 /\ 0 <= non_mbsfn_region_len_r9 x < 2 /\ 0 <= notif_ind_r9 x <= 7 /\ mcch_cfg_r9_ok (mcch_cfg_r9 x) /\
  area_info_r9_ext x = present (mcch_cfg_r14 x) || present (subcarrier_spacing_mbms_r14 x) /\
  opt_ok mcch_cfg_r14_ok (mcch_cfg_r14 x) /\ opt_ok (fun e => 0 <= e < 2) (subcarrier_spacing_mbms_r14 x).

Definition enc_area_info_r9 (x : mbsfn_area_info_r9_s) : encoding :=
  enc_flag (area_info_r9_ext x) +++ enc_int 0 255 (mbsfn_area_id_r9 x) +++ enc_bits 1 (non_mbsfn_region_len_r9 x) +++ enc_int 0 7 (notif_ind_r9 x) +++
  enc_mcch_cfg_r9 (mcch_cfg_r9 x) +++
  (if area_info_r9_ext x then enc_area_group (mcch_cfg_r14 x) (subcarrier_spacing_mbms_r14 x) else enc_nil).

Lemma codec_area_info_r9 : codec area_info_r9_ok enc_area_info_r9 mbsfn_area_info_r9_s_pack mbsfn_area_info_r9_s_unpack.
Proof.
  pose proof (codec_uint16 0 255 ltac:(lia) ltac:(lia)) as Ci. pose proof (codec_index 2 ltac:(lia)) as C2. pose proof (codec_uint8 0 7 ltac:(lia) ltac:(lia)) as Cn.
  split; intros x (Hi & Hl & Hn & Hc & Hx & H14 & Hs); unfold enc_area_info_r9.
  - apply encodes_ignore; [apply encodes_flag|]. pack_with Ci. pack_with C2. pack_with Cn. pack_with codec_mcch_cfg_r9.
    destruct (area_info_r9_ext x); [by apply encodes_area_group|apply encodes_success].
  - apply (decodes_ignore _ _ _ _ _ (area_info_r9_ext x)); [apply decodes_flag|]. unpack_with Ci (mbsfn_area_id_r9 x).
    unpack_with C2 (non_mbsfn_region_len_r9 x). unpack_with Cn (notif_ind_r9 x). unpack_with codec_mcch_cfg_r9 (mcch_cfg_r9 x).
    apply (decodes_last _ _ _ (mcch_cfg_r14 x, subcarrier_spacing_mbms_r14 x)); [|destruct x; apply decodes_returns].
    destruct (area_info_r9_ext x); [by apply decodes_area_group|]. destruct (mcch_cfg_r14 x), (subcarrier_spacing_mbms_r14 x); try done. apply decodes_returns.
Qed.

Definition notif_cfg_ok (x : mbms_notif_cfg_r9_s) : Prop :=
  0 <= notif_repeat_coeff_r9 x < 2 /\ 0 <= notif_offset_r9 x <= 10 /\ 1 <= notif_sf_idx_r9 x <= 6.
Definition enc_notif_cfg (x : mbms_notif_cfg_r9_s) : encoding :=
  enc_bits 1 (notif_repeat_coeff_r9 x) +++ enc_int 0 10 (notif_offset_r9 x) +++ enc_int 1 6 (notif_sf_idx_r9 x).

Lemma codec_notif_cfg : codec notif_cfg_ok enc_notif_cfg mbms_notif_cfg_r9_s_pack mbms_notif_cfg_r9_s_unpack.
Proof.
  pose proof (codec_index 2 ltac:(lia)) as C2. pose proof (codec_uint8 0 10 ltac:(lia) ltac:(lia)) as Co. pose proof (codec_uint8 1 6 ltac:(lia) ltac:(lia)) as Ci.
  split; intros x (Hc & Ho & Hi).
  - pack_with C2. pack_with Co. last_with Ci.
  - unpack_with C2 (notif_repeat_coeff_r9 x). unpack_with Co (notif_offset_r9 x). final_with Ci (notif_sf_idx_r9 x). destruct x. apply decodes_returns.
Qed.

Lemma codec_notif_v1430 : codec (fun n => 7 <= n <= 10) (enc_int 7 10) mbms_notif_cfg_v1430_s_pack mbms_notif_cfg_v1430_s_unpack.
Proof.
  pose proof (codec_uint8 7 10 ltac:(lia) ltac:(lia)) as C. split; intros n Hn; [last_with C|]. final_with C n. apply decodes_returns.
Qed.

(** Encodings of at most [n] bits that do not depend on where they start. *)
Definition short (n : Z) (e : encoding) : Prop := unaligned e /\ zlen (e 0) <= n.

Lemma short_app n m e1 e2 : short n e1 -> short m e2 -> short (n + m) (e1 +++ e2).
Proof. intros [U1 Z1] [U2 Z2]. split; [by apply unaligned_app|]. unfold enc_app. rewrite zlen_app, U2. lia. Qed.

Lemma short_items {A} (enc : A -> encoding) n l : 0 <= n -> Forall (fun x => short n (enc x)) l -> short (n * zlen l) (enc_items enc l).
Proof.
  intros Hn Hl. induction Hl as [|x l Hx _ IH]; [split; [done|change (0 <= n * 0); lia]|]. rewrite zlen_cons, Z.mul_add_distr_l, Z.mul_1_r. by apply short_app.
Qed.

(** *** Release 16 *)

Definition mcch_cfg_r16_ok (x : mcch_cfg_r16_s_) : Prop :=
  0 <= mcch_repeat_period_r16 x < 16 /\ 0 <= mcch_mod_period_r16 x < 16 /\ 0 <= mcch_offset_r16 x <= 10 /\
  bitstring_ok 10 (sf_alloc_info_r16 x) /\ 0 <= sig_mcs_r16 x < 4.
Definition enc_mcch_cfg_r16 (x : mcch_cfg_r16_s_) : encoding :=
  enc_bits 4 (mcch_repeat_period_r16 x) +++ enc_bits 4 (mcch_mod_period_r16 x) +++ enc_int 0 10 (mcch_offset_r16 x) +++
  enc_bitstring 10 (sf_alloc_info_r16 x) +++ enc_bits 2 (sig_mcs_r16 x).

Lemma decodes_mcch_cfg_r16 x : mcch_cfg_r16_ok x -> decodes mcch_cfg_r16_s_unpack (enc_mcch_cfg_r16 x) x.
Proof.
  pose proof (codec_index 16 ltac:(lia)) as C16. pose proof (codec_index 4 ltac:(lia)) as C4. pose proof (codec_uint8 0 10 ltac:(lia) ltac:(lia)) as Co.
  pose proof (codec_bitstring 10 ltac:(done)) as Cb. intros (Hr & Hm & Ho & Hb & Hs).
  unpack_with C16 (mcch_repeat_period_r16 x). unpack_with C16 (mcch_mod_period_r16 x). unpack_with Co (mcch_offset_r16 x).
  unpack_with Cb (sf_alloc_info_r16 x). final_with C4 (sig_mcs_r16 x). destruct x. apply decodes_returns.
Qed.

Lemma short_mcch_cfg_r16 x : mcch_cfg_r16_ok x -> short 24 (enc_mcch_cfg_r16 x).
Proof.
  intros (_ & _ & _ & [_ (rest & y & E & _ & Hz & _)] & _). unfold enc_mcch_cfg_r16, enc_bitstring. rewrite E.
  change (ceil_frac 10 8 - 1) with 1 in Hz. destruct rest as [|z [|z' rest]]; [done| |rewrite !zlen_cons in Hz; pose proof (zlen_nonneg rest); lia].
  split; [done|by vm_compute].
Qed.

Definition enc_r16_field (w : Z) : encoding := enc_flag true +++ enc_bits 2 w.
Definition enc_r16_group (w : Z) : encoding := enc_groups [true] +++ enc_open (enc_r16_field w).

Lemma decodes_r16_group w : 0 <= w < 4 -> decodes area_info_r16_group_unpack (enc_r16_group w) (Some w).
Proof.
  pose proof (codec_index 4 ltac:(lia)) as Cv. intros Hv. apply (decodes_groups _ [true]); [done|]. cbn [lookup list_lookup default].
  apply decodes_open; [|done|by vm_compute]. apply (decodes_bind _ _ _ _ true); [apply decodes_flag|]. apply (decodes_map _ Some), Cv, Hv.
Qed.

Definition area_info_r16_ok (x : mbsfn_area_info_r16_s) : Prop :=
  0 <= mbsfn_area_id_r16 x <= 255 /\ 0 <= notif_ind_r16 x <= 7 /\ mcch_cfg_r16_ok (mcch_cfg_r16 x) /\ 0 <= subcarrier_spacing_mbms_r16 x < 8 /\
  opt_ok (fun e => 0 <= e < 2) (time_separation_r16 x) /\
  area_info_r16_ext x = present (pmch_bandwidth_v16xy x) /\ opt_ok (fun w => 0 <= w < 4) (pmch_bandwidth_v16xy x).

Definition enc_area_info_r16 (x : mbsfn_area_info_r16_s) : encoding :=
  enc_flag (area_info_r16_ext x) +++ enc_flag (present (time_separation_r16 x)) +++ enc_int 0 255 (mbsfn_area_id_r16 x) +++ enc_int 0 7 (notif_ind_r16 x) +++
  enc_mcch_cfg_r16 (mcch_cfg_r16 x) +++ enc_bits 3 (subcarrier_spacing_mbms_r16 x) +++ enc_opt (enc_bits 1) (time_separation_r16 x) +++
  enc_opt enc_r16_group (pmch_bandwidth_v16xy x).

Lemma decodes_area_info_r16 x : area_info_r16_ok x -> decodes mbsfn_area_info_r16_s_unpack (enc_area_info_r16 x) x.
Proof.
  pose proof (codec_uint16 0 255 ltac:(lia) ltac:(lia)) as Ci. pose proof (codec_index 8 ltac:(lia)) as C8. pose proof (codec_uint8 0 7 ltac:(lia) ltac:(lia)) as Cn.
  pose proof (codec_index 2 ltac:(lia)) as C2. intros (Hi & Hn & Hc & Hs & Ht & Hx & Hw). unfold enc_area_info_r16.
  apply (decodes_ignore _ _ _ _ _ (area_info_r16_ext x)); [apply decodes_flag|].
  apply (decodes_bind _ _ _ _ (present (time_separation_r16 x))); [apply decodes_flag|]. unpack_with Ci (mbsfn_area_id_r16 x). unpack_with Cn (notif_ind_r16 x).
  apply (decodes_bind _ _ _ _ (mcch_cfg_r16 x)); [by apply decodes_mcch_cfg_r16|]. unpack_with C8 (subcarrier_spacing_mbms_r16 x).
  apply (decodes_bind _ _ _ _ (time_separation_r16 x)); [by apply (decodes_opt _ _ _ _ C2)|].
  apply (decodes_last _ _ _ (pmch_bandwidth_v16xy x)); [|destruct x; apply decodes_returns].
  rewrite Hx. destruct (pmch_bandwidth_v16xy x) as [w|]; [by apply decodes_r16_group|apply decodes_returns].
Qed.

Lemma short_area_info_r16 x : area_info_r16_ok x -> short 80 (enc_area_info_r16 x).
Proof.
  intros (_ & _ & Hc & _). apply short_mcch_cfg_r16 in Hc. unfold enc_area_info_r16.
  assert (Hr : short 43 (enc_bits 3 (subcarrier_spacing_mbms_r16 x) +++ enc_opt (enc_bits 1) (time_separation_r16 x) +++ enc_opt enc_r16_group (pmch_bandwidth_v16xy x))).
  { destruct (time_separation_r16 x), (pmch_bandwidth_v16xy x); (split; [done|by vm_compute]). }
  change 80 with (1 + (1 + (8 + (3 + (24 + 43))))). repeat (apply short_app; [by split|]). by apply short_app.
Qed.

(** *** The block *)

Definition enc_notif_field (v : Z) : encoding := enc_open (enc_flag true +++ enc_int 7 10 v).
Definition enc_r16_list (l : list mbsfn_area_info_r16_s) : encoding := enc_open (enc_flag true +++ enc_seq enc_area_info_r16 1 8 l).
Definition enc_sib13_groups (o : option Z) (lr : option (list mbsfn_area_info_r16_s)) : encoding :=
  enc_groups [present o; present lr] +++ enc_opt enc_notif_field o +++ enc_opt enc_r16_list lr.

Lemma encodes_sib13_groups v : 7 <= v <= 10 -> encodes (sib13_groups_pack (Some v)) (enc_sib13_groups (Some v) None).
Proof.
  intros Hv. apply encodes_ignore; [by apply (encodes_groups [true])|]. eapply encodes_ext; [intros p _; symmetry; apply app_nil_r|].
  apply encodes_last, encodes_open; [|by vm_compute]. apply encodes_handle; [apply encodes_flag|]. last_with codec_notif_v1430.
Qed.

Lemma decodes_notif_field o : opt_ok (fun v => 7 <= v <= 10) o ->
  decodes (if present o then open_field_unpack (handle_val unpack_bool (fun p => unpack_opt p mbms_notif_cfg_v1430_s_unpack)) else returns None)
          (enc_opt enc_notif_field o) o.
Proof.
  intros Ho. destruct o as [v|]; [|apply decodes_returns]. apply decodes_open; [|done|by vm_compute].
  apply (decodes_bind _ _ _ _ true); [apply decodes_flag|]. by apply (decodes_opt _ _ _ _ codec_notif_v1430 (Some v)).
Qed.

(** The packer of the list does not exist: its codec is only used to read it. *)
Lemma decodes_r16_seq l : seq_ok area_info_r16_ok 1 8 l ->
  decodes (unpack_dyn_seq_of mbsfn_area_info_r16_s_unpack 1 8 false) (enc_seq enc_area_info_r16 1 8 l) l.
Proof.
  intros [Hl Ho]. pose proof (codec_bounded_length 1 8 false ltac:(lia) ltac:(done)) as Cl. unpack_with Cl (zlen l).
  replace (Z.to_nat (zlen l)) with (length l) by (unfold zlen; lia). clear Hl.
  induction Ho as [|x l Hx _ IH]; [apply decodes_returns|]. apply (decodes_bind _ _ _ _ x); [by apply decodes_area_info_r16|].
  by apply (decodes_map _ (fun l => x :: l)).
Qed.

Lemma decodes_r16_list lr : opt_ok (seq_ok area_info_r16_ok 1 8) lr ->
  decodes (if present lr then open_field_unpack (handle_val unpack_bool (fun p => unpack_opt p (unpack_dyn_seq_of mbsfn_area_info_r16_s_unpack 1 8 false))) else returns None)
          (enc_opt enc_r16_list lr) lr.
Proof.
  intros Hl. destruct lr as [l|]; [|apply decodes_returns]. pose proof Hl as [Hn Ho].
  assert (Hs : short (1 + (3 + 80 * zlen l)) (enc_flag true +++ enc_seq enc_area_info_r16 1 8 l)).
  { apply short_app; [by split|]. apply short_app; [by split|]. apply short_items; [lia|]. revert Ho. apply Forall_impl. apply short_area_info_r16. }
  apply decodes_open; [|apply Hs|destruct Hs as [_ Hs]; lia].
  apply (decodes_bind _ _ _ _ true); [apply decodes_flag|]. apply (decodes_map _ Some). by apply decodes_r16_seq.
Qed.

Lemma sib13_group_flags (o : option Z) (lr : option (list mbsfn_area_info_r16_s)) b : present o || present lr = true -> br_wf b ->
  let e := enc_groups [present o; present lr] (distance b) in
  distance b + zlen e <= 8 * br_max b -> bits_at (br_mem b) (distance b) e ->
  exists groups, ext_groups_unpack 1 b = Some (SRSASN_SUCCESS, if present lr then 2 else 1, groups, seek b (distance b + zlen e)) /\
    groups !! 0%nat = Some (present o) /\ groups ++ repeat false (2 - length groups) = [present o; present lr].
Proof.
  intros Hp Hw e Hr Hb. unfold e in *. rewrite zlen_enc_groups, enc_groups_bits in *. set (flags := if present lr then [present o; present lr] else [present o]).
  exists (groups_read 1 flags). assert (Hf : ztake (nof_groups [present o; present lr]) [present o; present lr] = flags) by (by destruct o, lr).
  assert (Hz : nof_groups [present o; present lr] = zlen flags) by (by destruct o, lr). rewrite Hf, Hz in *.
  rewrite (ext_groups_unpack_spec 1 flags b); [|lia|by destruct o, lr|done|done|done]. by destruct o, lr.
Qed.

(** The groups are read; with the list of release 16, an open field that follows is skipped as
    well. *)
Lemma sib13_groups_decoded o lr b : present o || present lr = true -> opt_ok (fun v => 7 <= v <= 10) o -> opt_ok (seq_ok area_info_r16_ok 1 8) lr ->
  br_wf b -> let e := enc_sib13_groups o lr (distance b) in let p := distance b + zlen e in
  p <= 8 * br_max b -> bits_at (br_mem b) (distance b) e ->
  sib13_groups_unpack b = (if present lr then '(_, b4) ← open_field_unpack (returns tt) (seek b p); Some (inr (o, lr), b4) else Some (inr (o, lr), seek b p)).
Proof.
  intros Hp Ho Hl Hw e p Hr Hb. unfold p, e, enc_sib13_groups, enc_app in *. rewrite !zlen_app in *. apply bits_at_app in Hb as [Hb0 Hb]. apply bits_at_app in Hb as [Hb1 Hb2].
  set (p1 := distance b + zlen (enc_groups [present o; present lr] (distance b))) in *. set (p2 := p1 + zlen (enc_opt enc_notif_field o p1)) in *.
  pose proof (zlen_nonneg (enc_opt enc_notif_field o p1)). pose proof (zlen_nonneg (enc_opt enc_r16_list lr p2)).
  pose proof (zlen_nonneg (enc_groups [present o; present lr] (distance b))).
  destruct (sib13_group_flags o lr b Hp Hw ltac:(fold p1; lia) Hb0) as (groups & E & E0 & E1). fold p1 in E. unfold sib13_groups_unpack. rewrite E. cbn [mbind option_bind].
  rewrite E0. change (default false (Some (present o))) with (present o). assert (M1 : moved b (seek b p1)) by (apply seek_moved; [done|lia]). assert (M2 : moved b (seek b p2)) by (apply seek_moved; [done|lia]).
  pose proof (decodes_notif_field o Ho _ (mv_wf _ _ M1)) as D0. rewrite distance_seek, seek_seek in D0.
  rewrite D0; [|cbn; lia|done]. cbn [mbind option_bind]. fold p2. rewrite E1. change (default false ([present o; present lr] !! 1%nat)) with (present lr).
  pose proof (decodes_r16_list lr Hl _ (mv_wf _ _ M2)) as D1. rewrite distance_seek, seek_seek in D1. rewrite D1; [|cbn; lia|done]. cbn [mbind option_bind].
  replace (distance b + _) with (p2 + zlen (enc_opt enc_r16_list lr p2)) by lia.
  destruct lr as [l|]; [|done]. cbn [present]. change (Z.to_nat (2 - 1)) with 1%nat. cbn [skip_unknown lookup list_lookup mbind option_bind present]. change (Z.to_nat 1) with 1%nat. cbn [lookup list_lookup].
  by destruct (open_field_unpack _ _) as [[? ?]|].
Qed.

Definition sib13_ok (x : sib_type13_r9_s) : Prop :=
  seq_ok area_info_r9_ok 1 8 (mbsfn_area_info_list_r9 x) /\ notif_cfg_ok (notif_cfg_r9 x) /\ opt_ok late_ext_ok (sib13_late_non_crit_ext x) /\
  sib13_ext x = present (notif_cfg_v1430 x) || present (mbsfn_area_info_list_r16 x) /\
  opt_ok (fun v => 7 <= v <= 10) (notif_cfg_v1430 x) /\ opt_ok (seq_ok area_info_r16_ok 1 8) (mbsfn_area_info_list_r16 x).

Definition enc_sib13 (x : sib_type13_r9_s) : encoding :=
  enc_flag (sib13_ext x) +++ enc_flag (present (sib13_late_non_crit_ext x)) +++ enc_seq enc_area_info_r9 1 8 (mbsfn_area_info_list_r9 x) +++
  enc_notif_cfg (notif_cfg_r9 x) +++ enc_opt enc_late_ext (sib13_late_non_crit_ext x) +++
  (if sib13_ext x then enc_sib13_groups (notif_cfg_v1430 x) (mbsfn_area_info_list_r16 x) else enc_nil).

Lemma codec_areas : codec (seq_ok area_info_r9_ok 1 8) (enc_seq enc_area_info_r9 1 8)
  (fun l => pack_dyn_seq_of mbsfn_area_info_r9_s_pack l 1 8 false) (unpack_dyn_seq_of mbsfn_area_info_r9_s_unpack 1 8 false).
Proof. apply (codec_seq _ _ _ _ 1 8 codec_area_info_r9); [lia|done]. Qed.

(** The fields before the extension groups, and the groups with what follows them. *)
Lemma decodes_sib13 x e : sib13_ok x ->
  decodes (if sib13_ext x then sib13_groups_unpack else returns (None, None)) e (notif_cfg_v1430 x, mbsfn_area_info_list_r16 x) ->
  decodes sib_type13_r9_s_unpack
    (enc_flag (sib13_ext x) +++ enc_flag (present (sib13_late_non_crit_ext x)) +++ enc_seq enc_area_info_r9 1 8 (mbsfn_area_info_list_r9 x) +++
     enc_notif_cfg (notif_cfg_r9 x) +++ enc_opt enc_late_ext (sib13_late_non_crit_ext x) +++ e) x.
Proof.
  intros (Ha & Hn & Hl & _) He. apply (decodes_ignore _ _ _ _ _ (sib13_ext x)); [apply decodes_flag|].
  apply (decodes_bind _ _ _ _ (present (sib13_late_non_crit_ext x))); [apply decodes_flag|]. unpack_with codec_areas (mbsfn_area_info_list_r9 x).
  unpack_with codec_notif_cfg (notif_cfg_r9 x). apply (decodes_bind _ _ _ _ (sib13_late_non_crit_ext x)); [by apply (decodes_opt _ _ _ _ codec_late_ext)|].
  apply (decodes_last _ _ _ _ _ He). destruct x. apply decodes_returns.
Qed.

Lemma codec_sib13 : codec (fun x => sib13_ok x /\ mbsfn_area_info_list_r16 x = None) enc_sib13 sib_type13_r9_s_pack sib_type13_r9_s_unpack.
Proof.
  split; intros x [Hok H16]; pose proof Hok as (Ha & Hn & Hl & Hx & Hv & _); unfold enc_sib13; rewrite H16, orb_false_r in *.
  - apply encodes_ignore; [apply encodes_flag|]. apply encodes_handle; [apply encodes_flag|]. pack_with codec_areas. pack_with codec_notif_cfg.
    apply encodes_handle; [by apply (encodes_opt _ _ _ _ codec_late_ext)|]. unfold sib_type13_r9_s_pack. rewrite Hx.
    destruct (notif_cfg_v1430 x) as [v|]; [by apply encodes_sib13_groups|apply encodes_success].
  - apply (decodes_sib13 x _ Hok). rewrite Hx, H16. destruct (notif_cfg_v1430 x) as [v|]; cbn [present]; [|apply decodes_returns].
    intros b Hw Hr Hb. apply (sib13_groups_decoded (Some v) None b); done.
Qed.

(** A block with the list of release 16 is followed by an open field of up to four octets: the
    decoder reads the block and swallows the field. *)
Lemma decodes_sib13_r16 x l : sib13_ok x -> present (mbsfn_area_info_list_r16 x) = true -> bytes_ok l -> zlen l <= 4 ->
  decodes sib_type13_r9_s_unpack
    (enc_flag (sib13_ext x) +++ enc_flag (present (sib13_late_non_crit_ext x)) +++ enc_seq enc_area_info_r9 1 8 (mbsfn_area_info_list_r9 x) +++
     enc_notif_cfg (notif_cfg_r9 x) +++ enc_opt enc_late_ext (sib13_late_non_crit_ext x) +++
     enc_sib13_groups (notif_cfg_v1430 x) (mbsfn_area_info_list_r16 x) +++ enc_length (zlen l) +++ enc_bytes l) x.
Proof.
  intros Hok Hp Hl Hz. pose proof Hok as (_ & _ & _ & Hx & Hv & H16). apply (decodes_sib13 x _ Hok). rewrite Hx, Hp, orb_true_r.
  intros b Hw Hr Hb. set (E := enc_sib13_groups _ _) in *. unfold enc_app in *. rewrite !zlen_app in *. apply bits_at_app in Hb as [Hb Hb1]. apply bits_at_app in Hb1 as [Hb1 _].
  set (p := distance b + zlen (E (distance b))) in *. pose proof (zlen_nonneg (E (distance b))). pose proof (zlen_nonneg (enc_length (zlen l) p)).
  pose proof (zlen_nonneg l) as Hl0. rewrite enc_bytes_fixed, zlen_flat_bytes in *.
  rewrite (sib13_groups_decoded (notif_cfg_v1430 x) (mbsfn_area_info_list_r16 x) b); [|by rewrite Hp, orb_true_r|done..|fold E p; lia|done]. rewrite Hp. fold E p.
  assert (M : moved b (seek b p)) by (apply seek_moved; [done|lia]).
  rewrite (skip_open_field (seek b p) (zlen l)); rewrite ?distance_seek; [|apply M|unfold ASN_16K; lia|cbn; lia|done].
  cbn [mbind option_bind]. rewrite seek_seek, (proj2 (Z.leb_le _ _)) by lia. do 3 f_equal. lia.
Qed.
End Laws.
