(* ===== verification/Plmn.v ===== *)
(** * PLMN identities

    [lib/include/srsran/common/bcd_helpers.h] and [plmn_id_t] of
    [lib/include/srsran/interfaces/rrc_interface_types.h]: the mobile country and network codes
    as strings, as arrays of digits, as BCD numbers of 16 bits and as the PLMN number of S1AP, and
    the conversions between them.  A string is the list of the codes of its characters. *)

From stdpp Require Import base list numbers.
From S2P Require Import Prelude.

Local Open Scope Z_scope.

Definition char_0 : Z := 48.
Definition isdigit (c : Z) : bool := (48 <=? c) && (c <=? 57).

(** ** MCC *)

Definition string_to_mcc (str : list Z) : option Z :=
  match str with
  | [a; b; c] =>
      if negb (isdigit a) || negb (isdigit b) || negb (isdigit c) then None
      else Some (Z.lor (Z.lor (Z.lor 0xF000 (u16 (Z.shiftl (u8 (a - char_0)) 8))) (Z.shiftl (u8 (b - char_0)) 4)) (u8 (c - char_0)))
  | _ => None
  end.

Definition mcc_to_string (mcc : Z) : option (list Z) :=
  if negb (Z.land mcc 0xF000 =? 0xF000) then None
  else Some [Z.shiftr (Z.land mcc 0x0F00) 8 + char_0; Z.shiftr (Z.land mcc 0x00F0) 4 + char_0; Z.land mcc 0x000F + char_0].

Definition bytes_to_mcc (bs : bytes) : option Z :=
  b0 ← load bs 0; b1 ← load bs 1; b2 ← load bs 2;
  Some (Z.lor (Z.lor (Z.lor 0xF000 (u16 (Z.shiftl b0 8))) (u16 (Z.shiftl b1 4))) b2).

Definition mcc_to_bytes (mcc : Z) : option bytes :=
  if negb (Z.land mcc 0xF000 =? 0xF000) then None
  else Some [u8 (Z.shiftr (Z.land mcc 0xF00) 8); u8 (Z.shiftr (Z.land mcc 0x0F0) 4); u8 (Z.land mcc 0x00F)].

(** ** MNC *)

Definition string_to_mnc (str : list Z) : option Z :=
  match str with
  | [a; b; c] =>
      if negb (isdigit a) || negb (isdigit b) || negb (isdigit c) then None
      else Some (Z.lor (Z.lor (Z.lor 0xF000 (u16 (Z.shiftl (u8 (a - char_0)) 8))) (Z.shiftl (u8 (b - char_0)) 4)) (u8 (c - char_0)))
  | [a; b] =>
      if negb (isdigit a) || negb (isdigit b) then None
      else Some (Z.lor (Z.lor 0xFF00 (Z.shiftl (u8 (a - char_0)) 4)) (u8 (b - char_0)))
  | _ => None
  end.

Definition mnc_to_string (mnc : Z) : option (list Z) :=
  if negb (Z.land mnc 0xF000 =? 0xF000) then None
  else Some ((if Z.land mnc 0xFF00 =? 0xFF00 then [] else [Z.shiftr (Z.land mnc 0x0F00) 8 + char_0]) ++
             [Z.shiftr (Z.land mnc 0x00F0) 4 + char_0; Z.land mnc 0x000F + char_0]).

(** [bytes_to_mnc]: the number and the result. *)
Definition bytes_to_mnc (bs : bytes) (len : Z) : option (Z * bool) :=
  if len =? 3 then
    b0 ← load bs 0; b1 ← load bs 1; b2 ← load bs 2;
    Some (Z.lor (Z.lor (Z.lor 0xF000 (u16 (Z.shiftl b0 8))) (u16 (Z.shiftl b1 4))) b2, true)
  else if len =? 2 then
    b0 ← load bs 0; b1 ← load bs 1; Some (Z.lor (Z.lor 0xFF00 (u16 (Z.shiftl b0 4))) b1, true)
  else Some (0, false).

(** [mnc_to_bytes]: the digits, two or three. *)
Definition mnc_to_bytes (mnc : Z) : option bytes :=
  if negb (Z.land mnc 0xF000 =? 0xF000) then None
  else Some ((if Z.land mnc 0xFF00 =? 0xFF00 then [] else [Z.shiftr (Z.land mnc 0xF00) 8]) ++
             [Z.shiftr (Z.land mnc 0x00F0) 4; Z.land mnc 0x000F]).

(** ** PLMN number of S1AP *)

Definition s1ap_plmn_to_mccmnc (plmn : Z) : Z * Z :=
  let n0 := Z.shiftr (Z.land plmn 0xF00000) 20 in
  let n1 := Z.shiftr (Z.land plmn 0x0F0000) 16 in
  let n2 := Z.shiftr (Z.land plmn 0x00F000) 12 in
  let n3 := Z.shiftr (Z.land plmn 0x000F00) 8 in
  let n4 := Z.shiftr (Z.land plmn 0x0000F0) 4 in
  let n5 := Z.land plmn 0x00000F in
  let mcc := Z.lor (Z.lor (Z.lor 0xF000 (Z.shiftl n1 8)) (Z.shiftl n0 4)) n3 in
  let mnc := if n2 =? 0xF then Z.lor (Z.lor (Z.lor 0xF000 0x0F00) (Z.shiftl n5 4)) n4
             else Z.lor (Z.lor (Z.lor 0xF000 (Z.shiftl n2 8)) (Z.shiftl n5 4)) n4 in
  (mcc, mnc).

Definition s1ap_mccmnc_to_plmn (mcc mnc : Z) : Z :=
  let n1 := Z.shiftr (Z.land mcc 0x0F00) 8 in
  let n0 := Z.shiftr (Z.land mcc 0x00F0) 4 in
  let n3 := Z.land mcc 0x000F in
  let n2 := if Z.land mnc 0xFF00 =? 0xFF00 then 0x0F else Z.shiftr (Z.land mnc 0x0F00) 8 in
  let n5 := Z.shiftr (Z.land mnc 0x00F0) 4 in
  let n4 := Z.land mnc 0x000F in
  Z.lor (Z.lor (Z.lor (Z.lor (Z.lor (Z.shiftl n0 20) (Z.shiftl n1 16)) (Z.shiftl n2 12)) (Z.shiftl n3 8)) (Z.shiftl n4 4)) n5.

(** ** [plmn_id_t] *)

Record plmn_id_t := mk_plmn { pl_mcc : bytes; pl_mnc : bytes; nof_mnc_digits : Z }.

Definition plmn_reset : plmn_id_t := mk_plmn [0; 0; 0] [0; 0; 0] 0.

(** The first bytes of an array replaced by others. *)
Definition overwrite (a b : bytes) : bytes := b ++ drop (length b) a.

(** [from_number]: [mcc_to_bytes] leaves the array as it is when it fails, and its result is
    not looked at. *)
Definition plmn_from_number (p : plmn_id_t) (mcc mnc : Z) : bool * plmn_id_t :=
  let mcc' := match mcc_to_bytes mcc with Some l => overwrite (pl_mcc p) l | None => pl_mcc p end in
  match mnc_to_bytes mnc with
  | Some l => (true, mk_plmn mcc' (overwrite (pl_mnc p) l) (zlen l))
  | None => (false, plmn_reset)
  end.

Definition plmn_from_string (p : plmn_id_t) (s : list Z) : bool * plmn_id_t :=
  if (zlen s <? 5) || (6 <? zlen s) then (false, plmn_reset)
  else match string_to_mcc (take 3 s) with
  | None => (false, plmn_reset)
  | Some mcc => match string_to_mnc (drop 3 s) with
    | None => (false, plmn_reset)
    | Some mnc => plmn_from_number p mcc mnc
    end
  end.

Definition plmn_to_number (p : plmn_id_t) : option (Z * Z) :=
  mcc ← bytes_to_mcc (pl_mcc p); '(mnc, _) ← bytes_to_mnc (pl_mnc p) (nof_mnc_digits p); Some (mcc, mnc).

(** [to_string]: the strings of the two numbers; a number that has none gives the empty string. *)
Definition plmn_to_string (p : plmn_id_t) : option (list Z) :=
  '(mcc, mnc) ← plmn_to_number p; Some (default [] (mcc_to_string mcc) ++ default [] (mnc_to_string mnc)).

Definition plmn_to_s1ap (p : plmn_id_t) : option Z := '(mcc, mnc) ← plmn_to_number p; Some (s1ap_mccmnc_to_plmn mcc mnc).

(** ** Digits *)

Ltac Zify.zify_post_hook ::= Z.to_euclidean_division_equations.

Definition digit (d : Z) : Prop := 0 <= d <= 9.
Definition digits (l : list Z) : Prop := Forall digit l.

(** Or-ing a low field. *)
Lemma lor_low a b k : 0 <= k -> 0 <= b < 2 ^ k -> Z.lor (a * 2 ^ k) b = a * 2 ^ k + b.
Proof.
  intros Hk Hb. symmetry. apply Z.add_nocarry_lor. rewrite <- Z.shiftl_mul_pow2 by done. apply Z.bits_inj'. intros i Hi.
  rewrite Z.land_spec, Z.bits_0. destruct (Z.lt_ge_cases i k).
  - by rewrite Z.shiftl_spec_low.
  - rewrite <- (Z.mod_small b (2 ^ k)) by done. by rewrite Z.mod_pow2_bits_high, andb_false_r by lia.
Qed.

(** Reading a field of four bits. *)
Lemma nibble x k : 0 <= k -> Z.shiftr (Z.land x (15 * 2 ^ k)) k = (x / 2 ^ k) mod 16.
Proof.
  intros Hk. rewrite Z.shiftr_land. rewrite <- (Z.shiftl_mul_pow2 15) by done. rewrite Z.shiftr_shiftl_l, Z.sub_diag, Z.shiftl_0_r by done.
  change 15 with (Z.ones 4). by rewrite Z.land_ones, Z.shiftr_div_pow2 by lia.
Qed.

(** The BCD number of three nibbles. *)
Definition bcd (a b c : Z) : Z := 0xF000 + a * 256 + b * 16 + c.

Lemma bcd_lor a b c : 0 <= a < 16 -> 0 <= b < 16 -> 0 <= c < 16 ->
  Z.lor (Z.lor (Z.lor 0xF000 (Z.shiftl a 8)) (Z.shiftl b 4)) c = bcd a b c.
Proof.
  intros Ha Hb Hc. rewrite !Z.shiftl_mul_pow2 by lia. change 0xF000 with (15 * 2 ^ 12). rewrite (lor_low 15 (a * 2 ^ 8) 12) by lia.
  replace (15 * 2 ^ 12 + a * 2 ^ 8) with ((15 * 2 ^ 4 + a) * 2 ^ 8) by lia. rewrite (lor_low _ (b * 2 ^ 4) 8) by lia.
  replace ((15 * 2 ^ 4 + a) * 2 ^ 8 + b * 2 ^ 4) with (((15 * 2 ^ 4 + a) * 2 ^ 4 + b) * 2 ^ 4) by lia. rewrite (lor_low _ c 4) by lia.
  unfold bcd. lia.
Qed.

Definition bcd_check (a b c : Z) : bool :=
  let n := bcd a b c in
  (Z.shiftr (Z.land n 0x0F00) 8 =? a) && (Z.shiftr (Z.land n 0x00F0) 4 =? b) && (Z.land n 0x000F =? c) &&
  (Z.land n 0xF000 =? 0xF000) && Bool.eqb (Z.land n 0xFF00 =? 0xFF00) (a =? 15).

Lemma bcd_nibbles a b c : 0 <= a < 16 -> 0 <= b < 16 -> 0 <= c < 16 ->
  Z.shiftr (Z.land (bcd a b c) 0x0F00) 8 = a /\ Z.shiftr (Z.land (bcd a b c) 0x00F0) 4 = b /\ Z.land (bcd a b c) 0x000F = c /\
  (Z.land (bcd a b c) 0xF000 =? 0xF000) = true /\ (Z.land (bcd a b c) 0xFF00 =? 0xFF00) = (a =? 15).
Proof.
  intros Ha Hb Hc. pose proof (range_forallb_spec 16 (fun a => range_forallb 16 (fun b => range_forallb 16 (bcd_check a b)))) as H.
  pose proof (range_forallb_spec 16 _ (H ltac:(vm_compute; reflexivity) a Ha) b Hb) as H1. pose proof (range_forallb_spec 16 _ H1 c Hc) as H2.
  unfold bcd_check in H2. rewrite !andb_true_iff, !Z.eqb_eq, eqb_true_iff in H2. destruct H2 as [[[[? ?] ?] ?] ?]. repeat split; try done. by apply Z.eqb_eq.
Qed.

(** The PLMN number is the six nibbles in the order of TS 36.413. *)
Lemma plmn_lor n0 n1 n2 n3 n4 n5 : 0 <= n0 < 16 -> 0 <= n1 < 16 -> 0 <= n2 < 16 -> 0 <= n3 < 16 -> 0 <= n4 < 16 -> 0 <= n5 < 16 ->
  let p := Z.lor (Z.lor (Z.lor (Z.lor (Z.lor (Z.shiftl n0 20) (Z.shiftl n1 16)) (Z.shiftl n2 12)) (Z.shiftl n3 8)) (Z.shiftl n4 4)) n5 in
  p = ((((n0 * 16 + n1) * 16 + n2) * 16 + n3) * 16 + n4) * 16 + n5 /\
  Z.shiftr (Z.land p 0xF00000) 20 = n0 /\ Z.shiftr (Z.land p 0x0F0000) 16 = n1 /\ Z.shiftr (Z.land p 0x00F000) 12 = n2 /\
  Z.shiftr (Z.land p 0x000F00) 8 = n3 /\ Z.shiftr (Z.land p 0x0000F0) 4 = n4 /\ Z.land p 0x00000F = n5.
Proof.
  intros H0 H1 H2 H3 H4 H5 p.
  assert (Ep : p = ((((n0 * 16 + n1) * 16 + n2) * 16 + n3) * 16 + n4) * 16 + n5).
  { unfold p. rewrite !Z.shiftl_mul_pow2 by lia. replace (n0 * 2 ^ 20) with (n0 * 2 ^ 4 * 2 ^ 16) at 1 by lia.
    replace (n0 * 2 ^ 4 * 2 ^ 16) with ((n0 * 2 ^ 0) * 2 ^ 20) by lia. rewrite (lor_low _ (n1 * 2 ^ 16) 20) by lia.
    replace (n0 * 2 ^ 0 * 2 ^ 20 + n1 * 2 ^ 16) with ((n0 * 16 + n1) * 2 ^ 16) by lia. rewrite (lor_low _ (n2 * 2 ^ 12) 16) by lia.
    replace ((n0 * 16 + n1) * 2 ^ 16 + n2 * 2 ^ 12) with (((n0 * 16 + n1) * 16 + n2) * 2 ^ 12) by lia. rewrite (lor_low _ (n3 * 2 ^ 8) 12) by lia.
    replace (((n0 * 16 + n1) * 16 + n2) * 2 ^ 12 + n3 * 2 ^ 8) with ((((n0 * 16 + n1) * 16 + n2) * 16 + n3) * 2 ^ 8) by lia. rewrite (lor_low _ (n4 * 2 ^ 4) 8) by lia.
    replace ((((n0 * 16 + n1) * 16 + n2) * 16 + n3) * 2 ^ 8 + n4 * 2 ^ 4) with (((((n0 * 16 + n1) * 16 + n2) * 16 + n3) * 16 + n4) * 2 ^ 4) by lia.
    rewrite (lor_low _ n5 4) by lia. lia. }
  split; [done|]. change 0xF00000 with (15 * 2 ^ 20). change 0x0F0000 with (15 * 2 ^ 16). change 0x00F000 with (15 * 2 ^ 12).
  change 0x000F00 with (15 * 2 ^ 8). change 0x0000F0 with (15 * 2 ^ 4). change 0x00000F with (Z.ones 4).
  rewrite !nibble, Z.land_ones, Ep by lia. repeat split; lia.
Qed.

Lemma isdigit_char d : digit d -> isdigit (d + char_0) = true /\ u8 (d + char_0 - char_0) = d.
Proof. unfold digit, isdigit, char_0, u8. intros Hd. split; [lia|]. rewrite Z.mod_small; lia. Qed.

Lemma u16_shift x k : 0 <= x < 16 -> 0 <= k <= 8 -> u16 (Z.shiftl x k) = Z.shiftl x k.
Proof.
  intros Hx Hk. rewrite Z.shiftl_mul_pow2 by lia. assert (2 ^ k <= 2 ^ 8) by (apply Z.pow_le_mono_r; lia). assert (0 < 2 ^ k) by (apply Z.pow_pos_nonneg; lia).
  apply u16_id. unfold is_u16. nia.
Qed.

Lemma u8_nibble x : 0 <= x < 16 -> u8 x = x.
Proof. intros. apply u8_id. unfold is_u8. lia. Qed.

(** The BCD number of the digits of an MNC. *)
Definition mnc_number (l : list Z) : Z :=
  match l with [a; b; c] => bcd a b c | [a; b] => bcd 15 a b | _ => 0 end.

Definition mnc_digits (l : list Z) : Prop := digits l /\ (length l = 2%nat \/ length l = 3%nat).

Lemma mcc_of_string a b c : digit a -> digit b -> digit c -> string_to_mcc (map (fun d => d + char_0) [a; b; c]) = Some (bcd a b c).
Proof.
  intros Ha Hb Hc. cbn [map string_to_mcc]. destruct (isdigit_char a Ha) as [-> ->], (isdigit_char b Hb) as [-> ->], (isdigit_char c Hc) as [-> ->].
  unfold digit in *. cbn [negb orb]. rewrite u16_shift, bcd_lor by lia. done.
Qed.

Lemma mnc_of_string l : mnc_digits l -> string_to_mnc (map (fun d => d + char_0) l) = Some (mnc_number l).
Proof.
  intros [Hd Hl]. destruct l as [|a [|b [|c [|? ?]]]]; try (cbn in Hl; lia).
  - apply Forall_cons_1 in Hd as [Ha Hd]. apply Forall_cons_1 in Hd as [Hb _]. cbn [map string_to_mnc mnc_number].
    destruct (isdigit_char a Ha) as [-> ->], (isdigit_char b Hb) as [-> ->]. unfold digit in *. cbn [negb orb].
    rewrite <- (bcd_lor 15 a b) by lia. done.
  - apply Forall_cons_1 in Hd as [Ha Hd]. apply Forall_cons_1 in Hd as [Hb Hd]. apply Forall_cons_1 in Hd as [Hc _].
    apply (mcc_of_string a b c Ha Hb Hc).
Qed.

Lemma mnc_to_bytes_ok l : mnc_digits l -> mnc_to_bytes (mnc_number l) = Some l /\ mnc_to_string (mnc_number l) = Some (map (fun d => d + char_0) l).
Proof.
  intros [Hd Hl]. destruct l as [|a [|b [|c [|? ?]]]]; try (cbn in Hl; lia); repeat (apply Forall_cons_1 in Hd as [? Hd]); unfold digit in *; cbn [mnc_number];
    unfold mnc_to_bytes, mnc_to_string.
  - destruct (bcd_nibbles 15 a b) as (E1 & E2 & E3 & E4 & E5); [lia..|]. by rewrite E2, E3, E4, E5.
  - destruct (bcd_nibbles a b c) as (E1 & E2 & E3 & E4 & E5); [lia..|]. rewrite E2, E3, E4, E5.
    destruct (Z.eqb_spec a 15); [lia|]. change 0xF00 with 0x0F00. by rewrite E1.
Qed.

(** The digits in the arrays give the numbers back. *)
Lemma bytes_to_mnc_ok l rest : mnc_digits l -> bytes_to_mnc (l ++ rest) (zlen l) = Some (mnc_number l, true).
Proof.
  intros [Hd Hl]. destruct l as [|a [|b [|c [|? ?]]]]; try (cbn in Hl; lia); repeat (apply Forall_cons_1 in Hd as [? Hd]); unfold digit in *.
  - change (bytes_to_mnc ([a; b] ++ rest) (zlen [a; b])) with (Some (Z.lor (Z.lor 0xFF00 (u16 (Z.shiftl a 4))) b, true)).
    rewrite u16_shift by lia. cbn [mnc_number]. rewrite <- (bcd_lor 15 a b) by lia. done.
  - change (bytes_to_mnc ([a; b; c] ++ rest) (zlen [a; b; c])) with (Some (Z.lor (Z.lor (Z.lor 0xF000 (u16 (Z.shiftl a 8))) (u16 (Z.shiftl b 4))) c, true)).
    rewrite !u16_shift, bcd_lor by lia. done.
Qed.

Lemma s1ap_roundtrip a b c l : digit a -> digit b -> digit c -> mnc_digits l ->
  s1ap_plmn_to_mccmnc (s1ap_mccmnc_to_plmn (bcd a b c) (mnc_number l)) = (bcd a b c, mnc_number l).
Proof.
  unfold digit. intros Ha Hb Hc [Hd Hl]. destruct (bcd_nibbles a b c) as (E1 & E2 & E3 & _ & _); [lia..|].
  assert (Hm : exists x y z, 0 <= x < 16 /\ 0 <= y < 10 /\ 0 <= z < 10 /\ mnc_number l = bcd x y z /\ (x = 15 \/ x < 10)).
  { destruct l as [|x [|y [|z [|? ?]]]]; try (cbn in Hl; lia); repeat (apply Forall_cons_1 in Hd as [? Hd]); unfold digit in *.
    - exists 15, x, y. repeat split; lia.
    - exists x, y, z. repeat split; lia. }
  destruct Hm as (x & y & z & Hx & Hy & Hz & -> & Hxx). destruct (bcd_nibbles x y z) as (F1 & F2 & F3 & _ & F5); [lia..|].
  unfold s1ap_mccmnc_to_plmn. rewrite E1, E2, E3, F1, F2, F3, F5.
  replace (if x =? 15 then 0x0F else x) with x by (destruct (Z.eqb_spec x 15); lia).
  destruct (plmn_lor b a x c z y) as (_ & G0 & G1 & G2 & G3 & G4 & G5); [lia..|]. unfold s1ap_plmn_to_mccmnc. rewrite G0, G1, G2, G3, G4, G5.
  rewrite !bcd_lor by lia. f_equal. change (Z.lor 0xF000 0x0F00) with (Z.lor 0xF000 (Z.shiftl 15 8)). rewrite bcd_lor by lia.
  destruct (Z.eqb_spec x 15) as [->|]; done.
Qed.

(** A PLMN string of three digits of MCC and two or three of MNC is accepted, whatever the
    identity was before; the digits are those of the string; the identity is printed as the
    string; and its S1AP number is converted back to its MCC and MNC. *)
Theorem plmn_roundtrip p a b c l : digit a -> digit b -> digit c -> mnc_digits l -> length (pl_mcc p) = 3%nat ->
  let s := map (fun d => d + char_0) ([a; b; c] ++ l) in
  exists q n, plmn_from_string p s = (true, q) /\ pl_mcc q = [a; b; c] /\ ztake (nof_mnc_digits q) (pl_mnc q) = l /\
    plmn_to_string q = Some s /\ plmn_to_s1ap q = Some n /\ plmn_to_number q = Some (s1ap_plmn_to_mccmnc n).
Proof.
  intros Ha Hb Hc Hl Hp s. assert (Hlen : length l = 2%nat \/ length l = 3%nat) by apply Hl.
  assert (Hbcd : forall x, digit x -> 0 <= x < 16) by (unfold digit; lia).
  destruct (bcd_nibbles a b c) as (E1 & E2 & E3 & E4 & _); [by apply Hbcd..|]. destruct (mnc_to_bytes_ok l Hl) as [Eb Es].
  assert (Em : mcc_to_bytes (bcd a b c) = Some [a; b; c]).
  { unfold mcc_to_bytes. rewrite E4. change 0xF00 with 0x0F00. change 0x0F0 with 0x00F0. change 0x00F with 0x000F. rewrite E1, E2, E3, !u8_nibble; [done|by apply Hbcd..]. }
  set (q := mk_plmn [a; b; c] (overwrite (pl_mnc p) l) (zlen l)).
  assert (En : plmn_to_number q = Some (bcd a b c, mnc_number l)).
  { unfold plmn_to_number, q, overwrite. cbn [pl_mcc pl_mnc nof_mnc_digits].
    change (bytes_to_mcc [a; b; c]) with (Some (Z.lor (Z.lor (Z.lor 0xF000 (u16 (Z.shiftl a 8))) (u16 (Z.shiftl b 4))) c)).
    rewrite !u16_shift, bcd_lor by (try apply Hbcd; done). cbn [mbind option_bind]. by rewrite bytes_to_mnc_ok. }
  exists q, (s1ap_mccmnc_to_plmn (bcd a b c) (mnc_number l)). repeat split.
  - unfold plmn_from_string, s. rewrite map_app. change (take 3 (map _ [a; b; c] ++ ?x)) with (map (fun d => d + char_0) [a; b; c]).
    change (drop 3 (map (fun d => d + char_0) [a; b; c] ++ ?x)) with x. rewrite mcc_of_string, mnc_of_string by done.
    assert (Hz : zlen (map (fun d => d + char_0) [a; b; c] ++ map (fun d => d + char_0) l) = 3 + zlen l) by (unfold zlen; rewrite length_app, !length_map; cbn; lia).
    rewrite Hz. destruct (Z.ltb_spec (3 + zlen l) 5), (Z.ltb_spec 6 (3 + zlen l)); try (unfold zlen in *; lia). cbn [orb].
    unfold plmn_from_number. rewrite Em, Eb. unfold q. do 2 f_equal. unfold overwrite. cbn [length]. rewrite <- Hp, drop_all. done.
  - unfold q, overwrite. cbn. by apply ztake_app_eq.
  - unfold plmn_to_string. rewrite En. cbn [mbind option_bind]. rewrite Es. unfold mcc_to_string. rewrite E4, E1, E2, E3. cbn [negb default]. unfold s. by rewrite map_app.
  - unfold plmn_to_s1ap. by rewrite En.
  - by rewrite En, s1ap_roundtrip.
Qed.

Lemma plmn_roundtrip_witness : exists q n, plmn_from_string plmn_reset [48; 48; 49; 48; 51] = (true, q) /\ pl_mcc q = [0; 0; 1] /\
  ztake (nof_mnc_digits q) (pl_mnc q) = [0; 3] /\ plmn_to_string q = Some [48; 48; 49; 48; 51] /\ plmn_to_s1ap q = Some n /\
  plmn_to_number q = Some (s1ap_plmn_to_mccmnc n).
Proof.
  apply (plmn_roundtrip plmn_reset 0 0 1 [0; 3]); try (by vm_compute).
  split; [by repeat constructor|by left].
Defined.
