(* ===== verification/RrcEnb.v ===== *)
(** * MBMS configuration of the eNodeB RRC

    [rrc::pack_mcch] and [rrc::configure_mbsfn_sibs] ([srsenb/src/stack/rrc/rrc.cc]), which
    announce the multicast session and configure the PHY and the MAC, [phy::configure_mbsfn]
    ([srsenb/src/phy/phy.cc]), and the conversions of received messages to configurations
    ([make_mcch_msg], [make_pmch_info], [make_mbsfn_sf_cfg], [make_sib13], [make_mbsfn_area_info],
    [make_plmn_id_t] and [to_asn1] of [lib/src/asn1/rrc_utils.cc]).

    The configuration that the eNodeB gives to its own PHY and MAC is written out separately from
    the messages; a receiver of the MCCH message and of SIB13 is shown to derive the same
    configuration from them. *)

From stdpp Require Import base list numbers.
From S2P Require Import Prelude Mbsfn BitRef Per PerLaws PerExt Plmn RrcMcch RrcMcchCorrect RrcSib13.

Local Open Scope Z_scope.

(** ** Configurations *)

(** [tmgi_t] and [mbms_session_info_t]: [None] is a session identity that is not present. *)
Inductive tmgi_plmn_t := plmn_idx (i : Z) | explicit_value (p : plmn_id_t).

Record mbms_session_info_t := mk_session_info {
  si_session_id : option Z;
  si_plmn : tmgi_plmn_t;
  si_serviced_id : bytes;
  si_lc_ch_id : Z
}.

(** [pmch_info_t] with the entries of its list in use. *)
Record pmch_cfg_t := mk_pmch_cfg { pm_info : Mbsfn.pmch_info_t; pm_sessions : list mbms_session_info_t }.

(** [mcch_msg_t] with the entries of its lists in use; the period as its index. *)
Record mcch_msg_t := mk_mcch_msg {
  mm_common_sf_alloc : list Mbsfn.mbsfn_sf_cfg_t;
  mm_common_sf_alloc_period : Z;
  mm_pmch_info_list : list pmch_cfg_t
}.

(** ** Conversions *)

(** The casts from the index of an ASN.1 enumeration. *)
Definition alloc_period_of (i : Z) : option Mbsfn.alloc_period_t :=
  [ap_n1; ap_n2; ap_n4; ap_n8; ap_n16; ap_n32; ap_nulltype] !! Z.to_nat i.
Definition mch_sched_period_of (i : Z) : option Mbsfn.mch_sched_period_t :=
  [sp_rf8; sp_rf16; sp_rf32; sp_rf64; sp_rf128; sp_rf256; sp_rf512; sp_rf1024; sp_nulltype] !! Z.to_nat i.

Definition make_mbsfn_sf_cfg (c : mbsfn_sf_cfg_s) : option Mbsfn.mbsfn_sf_cfg_t :=
  p ← alloc_period_of (radioframe_alloc_period c);
  match sf_alloc c with
  | one_frame s => v ← bits_to_number (bs_octets s) (bs_nbits s); Some (Mbsfn.mk_sf_cfg p (radioframe_alloc_offset c) Mbsfn.one_frame (u32 v))
  | four_frames s => v ← bits_to_number (bs_octets s) (bs_nbits s); Some (Mbsfn.mk_sf_cfg p (radioframe_alloc_offset c) Mbsfn.four_frames (u32 v))
  | sf_alloc_nulltype => None
  end.

(** [make_plmn_id_t] of [plmn_id_s]; an identity that is not valid gives the default. *)
Definition plmn_is_valid (x : plmn_id_s) : bool := present (mcc x) && ((zlen (mnc x) =? 3) || (zlen (mnc x) =? 2)).
Definition make_plmn_id_t (x : plmn_id_s) : plmn_id_t :=
  if negb (plmn_is_valid x) then plmn_reset
  else mk_plmn (default [] (mcc x)) (overwrite [0; 0; 0] (mnc x)) (zlen (mnc x)).

(** [to_asn1] of [plmn_id_t]. *)
Definition plmn_to_asn1 (p : plmn_id_t) : plmn_id_s := {| mcc := Some (pl_mcc p); mnc := ztake (nof_mnc_digits p) (pl_mnc p) |}.

(** One session of [make_pmch_info].  The identity is read from the message also when it is not
    present; here it is not given then. *)
Definition make_session_info (x : mbms_session_info_r9_s) : option mbms_session_info_t :=
  p ← match plmn_id_r9 (tmgi_r9 x) with
      | plmn_idx_r9 i => Some (plmn_idx i)
      | explicit_value_r9 p => Some (explicit_value (make_plmn_id_t p))
      | plmn_id_nulltype => None
      end;
  sid ← match session_id_r9 x with Some l => v ← load l 0; Some (Some v) | None => Some None end;
  service ← load_bytes (service_id_r9 (tmgi_r9 x)) 0 3;
  Some (mk_session_info sid p service (lc_ch_id_r9 x)).

Definition make_pmch_info (x : pmch_info_r9_s) : option pmch_cfg_t :=
  p ← mch_sched_period_of (mch_sched_period_r9 (pmch_cfg_r9 x));
  l ← mapM make_session_info (mbms_session_info_list_r9 x);
  if 29 <? zlen l then None
  else Some (mk_pmch_cfg (Mbsfn.mk_pmch (sf_alloc_end_r9 (pmch_cfg_r9 x)) (data_mcs_r9 (pmch_cfg_r9 x)) p) l).

Definition make_mcch_msg (x : mcch_msg_type_c) : option mcch_msg_t :=
  match x with
  | c1 r9 =>
      a ← mapM make_mbsfn_sf_cfg (common_sf_alloc_r9 r9);
      l ← mapM make_pmch_info (pmch_info_list_r9 r9);
      if (8 <? zlen a) || (15 <? zlen l) then None
      else Some (mk_mcch_msg a (common_sf_alloc_period_r9 r9) l)
  | _ => None
  end.

(** ** Area information of SIB13 *)

Inductive mod_period_t :=
| mp_rf1 | mp_rf2 | mp_rf4 | mp_rf8 | mp_rf16 | mp_rf32 | mp_rf64 | mp_rf128 | mp_rf512 | mp_rf1024
| mp_spare5 | mp_spare4 | mp_spare3 | mp_spare2 | mp_spare1 | mp_nulltype.

(** [mbsfn_area_info_t]: the part that the PHY uses, and the other fields. *)
Record area_info_t := mk_area {
  ai_info : Mbsfn.mbsfn_area_info_t;
  ai_pmch_bandwidth : Z;
  ai_notif_ind : Z;
  ai_mod_period : mod_period_t;
  ai_is_r16 : bool
}.

(** [mbms_notif_cfg_t]; the coefficient is the index of its value. *)
Record mbms_notif_cfg_t := mk_notif { nc_repeat_coeff : Z; nc_offset : Z; nc_sf_idx : Z }.

(** [sib13_t] with the entries of its list in use, and [sib2_mbms_t]. *)
Record sib13_t := mk_sib13 { s13_area_info_list : list area_info_t; s13_notif_cfg : mbms_notif_cfg_t }.
Record sib2_mbms_t := mk_sib2 { s2_list_present : bool; s2_sf_cfg_list : list Mbsfn.mbsfn_sf_cfg_t }.

(** The casts; [None] is a value that the enumeration does not name. *)
Definition region_len_of (i : Z) : option Mbsfn.region_len_t := [s1; s2; region_nulltype] !! Z.to_nat i.
Definition sig_mcs_of (i : Z) : option Mbsfn.sig_mcs_t := [mcs_n2; mcs_n7; mcs_n13; mcs_n19; mcs_nulltype] !! Z.to_nat i.
Definition repeat_period_of (i : Z) : option Mbsfn.repeat_period_t :=
  [rp_rf1; rp_rf2; rp_rf4; rp_rf8; rp_rf16; rp_rf32; rp_rf64; rp_rf128; rp_rf256;
   rp_spare7; rp_spare6; rp_spare5; rp_spare4; rp_spare3; rp_spare2; rp_spare1; rp_nulltype] !! Z.to_nat i.
Definition mod_period_of (i : Z) : option mod_period_t :=
  [mp_rf1; mp_rf2; mp_rf4; mp_rf8; mp_rf16; mp_rf32; mp_rf64; mp_rf128; mp_rf512; mp_rf1024; mp_spare5; mp_spare4; mp_spare3; mp_spare2; mp_spare1; mp_nulltype] !! Z.to_nat i.
Definition scs_of (i : Z) : option Mbsfn.subcarrier_spacing_t :=
  [khz_7dot5; khz_2dot5; khz_1dot25; khz_0dot25; scs_nulltype] !! Z.to_nat i.

Definition from_mcch_repeat_period_r9 (v : Z) : Mbsfn.repeat_period_t :=
  match v with 0 => rp_rf32 | 1 => rp_rf64 | 2 => rp_rf128 | 3 => rp_rf256 | _ => rp_nulltype end.

Definition from_mcch_mod_period_r9 (v : Z) : mod_period_t :=
  match v with 0 => mp_rf512 | 1 => mp_rf1024 | _ => mp_nulltype end.

Definition from_subcarrier_spacing_mbms_r14_opts (v : Z) : Mbsfn.subcarrier_spacing_t :=
  match v with 0 => khz_7dot5 | 1 => khz_1dot25 | _ => scs_nulltype end.

(** [make_mbsfn_area_info] of release 9.  The identity is kept in 8 bits, the allocation in 16. *)
Definition make_mbsfn_area_info (x : mbsfn_area_info_r9_s) : option area_info_t :=
  let c := mcch_cfg_r9 x in
  region ← region_len_of (non_mbsfn_region_len_r9 x);
  v ← bits_to_number (bs_octets (sf_alloc_info_r9 c)) (bs_nbits (sf_alloc_info_r9 c));
  mcs ← sig_mcs_of (sig_mcs_r9 c);
  let scs := match subcarrier_spacing_mbms_r14 x with Some e => from_subcarrier_spacing_mbms_r14_opts e | None => scs_nulltype end in
  Some (mk_area (Mbsfn.mk_area_info (u8 (mbsfn_area_id_r9 x)) region scs
                   (Mbsfn.mk_mcch_cfg (from_mcch_repeat_period_r9 (mcch_repeat_period_r9 c)) (mcch_offset_r9 c) (u16 v) mcs))
          0 (notif_ind_r9 x) (from_mcch_mod_period_r9 (mcch_mod_period_r9 c)) false).

(** [make_mbsfn_area_info] of release 16: the enumerations are cast, the region length keeps its
    initial value. *)
Definition make_mbsfn_area_info_r16 (x : mbsfn_area_info_r16_s) : option area_info_t :=
  let c := mcch_cfg_r16 x in
  rep ← repeat_period_of (mcch_repeat_period_r16 c);
  md ← mod_period_of (mcch_mod_period_r16 c);
  v ← bits_to_number (bs_octets (sf_alloc_info_r16 c)) (bs_nbits (sf_alloc_info_r16 c));
  mcs ← sig_mcs_of (sig_mcs_r16 c);
  scs ← scs_of (subcarrier_spacing_mbms_r16 x);
  let bw := match pmch_bandwidth_v16xy x with Some e => u8 (map_enum_number [30; 35; 40] e) | None => 0 end in
  Some (mk_area (Mbsfn.mk_area_info (u8 (mbsfn_area_id_r16 x)) s1 scs (Mbsfn.mk_mcch_cfg rep (mcch_offset_r16 c) (u16 v) mcs))
          bw (notif_ind_r16 x) md true).

Definition make_mbms_notif_cfg (x : mbms_notif_cfg_r9_s) : mbms_notif_cfg_t :=
  mk_notif (notif_repeat_coeff_r9 x) (notif_offset_r9 x) (notif_sf_idx_r9 x).

Definition max_mbsfn_area : Z := 8.

Definition make_sib13 (x : sib_type13_r9_s) : option sib13_t :=
  l ← match mbsfn_area_info_list_r16 x with
      | Some l16 => mapM make_mbsfn_area_info_r16 l16
      | None => mapM make_mbsfn_area_info (mbsfn_area_info_list_r9 x)
      end;
  if max_mbsfn_area <? zlen l then None else Some (mk_sib13 l (make_mbms_notif_cfg (notif_cfg_r9 x))).

(** ** [rrc] *)

Definition mcch_payload_len : Z := 3000.

(** The members of [rrc] for MBMS, with the configuration of the system information. *)
Record rrc := mk_rrc {
  cfg_mbms_mcs : Z;
  cfg_mbsfn_sf_cfg_list_present : bool;
  cfg_mbsfn_sf_cfg_list : list mbsfn_sf_cfg_s;
  cfg_sib13 : sib_type13_r9_s;
  rrc_mcch : mcch_msg_type_c;
  rrc_mcch_payload_buffer : bytes;
  rrc_current_mcch_length : Z
}.

Definition set_mcch (r : rrc) (msg : mcch_msg_type_c) (buf : bytes) (len : Z) : rrc :=
  mk_rrc (cfg_mbms_mcs r) (cfg_mbsfn_sf_cfg_list_present r) (cfg_mbsfn_sf_cfg_list r) (cfg_sib13 r) msg buf len.

Definition clamp_mcs (mcs : Z) : Z := if 28 <? mcs then 28 else mcs.

Section Enb.
Context `{Libm}.

(** The message that [pack_mcch] fills in; the branches on a second session are not taken, the
    list has one entry. *)
Definition mcch_of_cfg (mcs : Z) : option mcch_msg_type_c :=
  s ← bitstring_from_number 6 6 (32 + 31);
  let plmn := (plmn_from_string plmn_reset [48; 48; 48; 48; 51]).2 in
  let session :=
    {| mbms_session_ext := false;
       tmgi_r9 := {| plmn_id_r9 := explicit_value_r9 (plmn_to_asn1 plmn); service_id_r9 := [0; 0; 0] |};
       session_id_r9 := Some [0];
       lc_ch_id_r9 := 1 |} in
  let pmch :=
    {| pmch_info_ext := false;
       pmch_cfg_r9 := {| pmch_cfg_ext := false; sf_alloc_end_r9 := 64 * 10 - 16; data_mcs_r9 := u8 (clamp_mcs mcs); mch_sched_period_r9 := 3 |};
       mbms_session_info_list_r9 := [session] |} in
  Some (c1 {| common_sf_alloc_r9 := [{| radioframe_alloc_period := 0; radioframe_alloc_offset := 0; sf_alloc := one_frame s |}];
              common_sf_alloc_period_r9 := 4; pmch_info_list_r9 := [pmch]; area_non_crit_ext := None |}).

(** [pack_mcch]: the message is packed after the byte of the RLC header.  A failure is logged. *)
Definition pack_mcch (r : rrc) : option rrc :=
  msg ← mcch_of_cfg (cfg_mbms_mcs r);
  let rlc_header_len := 1 in
  let buf := rrc_mcch_payload_buffer r in
  '(_, b) ← mcch_msg_s_pack msg (bit_ref_set (zdrop rlc_header_len buf) (mcch_payload_len - rlc_header_len));
  Some (set_mcch r msg (ztake rlc_header_len buf ++ br_mem b) (distance_bytes b + rlc_header_len)).

(** The MCCH configuration for the PHY and the MAC.  [item0] is what the entry for the common
    subframe allocation holds: the code changes a copy of it. *)
Definition mcch_t_of_cfg (item0 : Mbsfn.mbsfn_sf_cfg_t) (session0 : mbms_session_info_t) (mcs : Z) : mcch_msg_t :=
  mk_mcch_msg [item0] 4
    [mk_pmch_cfg (Mbsfn.mk_pmch (64 * 10 - 16) (u8 (clamp_mcs mcs)) sp_rf64)
       [mk_session_info (si_session_id session0) (si_plmn session0) (si_serviced_id session0) 1]].

(** The MCCH part of [configure_mbsfn_sibs]: the new state, the configuration for the PHY and the
    MAC, and the payload for the MAC, whose length is passed as 8 bits. *)
Definition configure_mcch (r : rrc) (item0 : Mbsfn.mbsfn_sf_cfg_t) (session0 : mbms_session_info_t)
  : option (rrc * mcch_msg_t * bytes) :=
  r1 ← pack_mcch r;
  Some (r1, mcch_t_of_cfg item0 session0 (cfg_mbms_mcs r), ztake (u8 (rrc_current_mcch_length r1)) (rrc_mcch_payload_buffer r1)).

(** The values of SIB2 and SIB13 for the PHY and the MAC.  Only allocations of one frame are
    read. *)
Definition sib2_sf_cfg (c : mbsfn_sf_cfg_s) : option Mbsfn.mbsfn_sf_cfg_t :=
  p ← alloc_period_of (radioframe_alloc_period c);
  match sf_alloc c with
  | one_frame s => v ← bits_to_number (bs_octets s) (bs_nbits s); Some (Mbsfn.mk_sf_cfg p (radioframe_alloc_offset c) Mbsfn.one_frame (u32 v))
  | _ => None
  end.

Definition max_nof_mbsfn_sf_cfg : Z := 8.

Definition sib2_of_cfg (r : rrc) : option sib2_mbms_t :=
  l ← mapM sib2_sf_cfg (cfg_mbsfn_sf_cfg_list r);
  if max_nof_mbsfn_sf_cfg <? zlen l then None else Some (mk_sib2 (cfg_mbsfn_sf_cfg_list_present r) l).

Definition sib13_of_cfg (r : rrc) : option sib13_t :=
  let n := notif_cfg_r9 (cfg_sib13 r) in
  l ← mapM make_mbsfn_area_info (mbsfn_area_info_list_r9 (cfg_sib13 r));
  if max_mbsfn_area <? zlen l then None
  else Some (mk_sib13 l (mk_notif (notif_repeat_coeff_r9 n) (notif_offset_r9 n) (notif_sf_idx_r9 n))).

(** [configure_mbsfn_sibs]: what the deferred task gives to the PHY and to the MAC. *)
Definition configure_mbsfn_sibs (r : rrc) (item0 : Mbsfn.mbsfn_sf_cfg_t) (session0 : mbms_session_info_t)
  : option (rrc * (sib2_mbms_t * sib13_t * mcch_msg_t) * bytes) :=
  sibs2 ← sib2_of_cfg r;
  sibs13 ← sib13_of_cfg r;
  '(r1, mcch_t, payload) ← configure_mcch r item0 session0;
  Some (r1, (sibs2, sibs13, mcch_t), payload).
End Enb.

(** [phy::configure_mbsfn]: [cfg] is the member [mbsfn_config], [p] the state of the workers. *)
Definition phy_configure_mbsfn (cfg : Mbsfn.phy_cfg_mbsfn_t) (p : Mbsfn.phy_common) (sib2 : sib2_mbms_t) (sib13 : sib13_t) (mcch : mcch_msg_t)
  : Mbsfn.phy_cfg_mbsfn_t * Mbsfn.phy_common :=
  if s2_list_present sib2 then
    let subfr := match s2_sf_cfg_list sib2 with [] => Mbsfn.mbsfn_subfr_cnfg cfg | c :: _ => c end in
    let area := match s13_area_info_list sib13 with [] => Mbsfn.mbsfn_area_info cfg | a :: _ => ai_info a end in
    let cfg1 := Mbsfn.mk_phy_cfg subfr area (map pm_info (mm_pmch_info_list mcch)) in
    (cfg1, Mbsfn.configure_mbsfn p cfg1)
  else (cfg, p).

(** ** The announcement *)

Section Announcement.
Context `{Libm}.

Definition announced (d : Z) : mcch_msg_type_c :=
  c1 {| common_sf_alloc_r9 := [{| radioframe_alloc_period := 0; radioframe_alloc_offset := 0; sf_alloc := one_frame (mk_bitstring [63] 6) |}];
        common_sf_alloc_period_r9 := 4;
        pmch_info_list_r9 := [{| pmch_info_ext := false;
          pmch_cfg_r9 := {| pmch_cfg_ext := false; sf_alloc_end_r9 := 624; data_mcs_r9 := d; mch_sched_period_r9 := 3 |};
          mbms_session_info_list_r9 := [{| mbms_session_ext := false;
            tmgi_r9 := {| plmn_id_r9 := explicit_value_r9 {| mcc := Some [0; 0; 0]; mnc := [0; 3] |}; service_id_r9 := [0; 0; 0] |};
            session_id_r9 := Some [0]; lc_ch_id_r9 := 1 |}] |}];
        area_non_crit_ext := None |}.

Lemma mcch_of_cfg_eq mcs : mcch_of_cfg mcs = Some (announced (u8 (clamp_mcs mcs))).
Proof. unfold mcch_of_cfg, bitstring_from_number. change (Z.max (32 + 31) 1) with 63. by rewrite ceil_log2_ok by lia. Qed.

Lemma clamp_range mcs : 0 <= mcs -> 0 <= u8 (clamp_mcs mcs) <= 28.
Proof. intros Hm. unfold clamp_mcs, u8. destruct (Z.ltb_spec 28 mcs); rewrite Z.mod_small; lia. Qed.

Lemma announced_ok d : 0 <= d <= 28 -> mcch_ok (announced d).
Proof.
  intros Hd. unfold mcch_ok, announced, mbsfn_area_cfg_ok, seq_ok. repeat split; try (by vm_compute); repeat constructor; try (by vm_compute); try done; try apply Hd.
  exists [], 63. repeat split; try (by vm_compute); constructor.
Qed.

Lemma announced_length d : zlen (enc_mcch (announced d) 0) = 8 * 15.
Proof. by vm_compute. Qed.

(** Reading a message from exactly its bytes. *)
Lemma decodes_prefix {A} (g : unpacker A) e v m l k : decodes g e v -> e 0 = l -> zlen l = 8 * k -> bytes_ok m -> 0 <= k <= zlen m -> bits_at m 0 l ->
  g (bit_ref_set (ztake k m) k) = Some (inr v, mk_bref (ztake k m) k 0 k).
Proof.
  intros Hg He Hl Hm Hk Hb. assert (Hz : zlen (ztake k m) = k) by (by apply zlen_ztake).
  rewrite (Hg (bit_ref_set (ztake k m) k)); change (distance (bit_ref_set (ztake k m) k)) with 0; rewrite ?He, ?Hl.
  - unfold seek, move_to. cbn. do 3 f_equal; lia.
  - rewrite <- Hz at 2. apply bref_new_wf. by apply bytes_ok_ztake.
  - cbn. lia.
  - cbn [bit_ref_set br_mem]. rewrite <- (bits_of_bytes m k l Hb Hl Hk). rewrite <- (app_nil_r (ztake k m)) at 1. apply (bits_at_bytes _ []).
Qed.

Lemma pack_mcch_spec r : 0 <= cfg_mbms_mcs r -> zlen (rrc_mcch_payload_buffer r) = mcch_payload_len -> bytes_ok (rrc_mcch_payload_buffer r) ->
  let d := u8 (clamp_mcs (cfg_mbms_mcs r)) in
  exists mem, pack_mcch r = Some (set_mcch r (announced d) (ztake 1 (rrc_mcch_payload_buffer r) ++ mem) 16) /\
    zlen mem = 2999 /\ bytes_ok mem /\ bits_at mem 0 (enc_mcch (announced d) 0).
Proof.
  intros Hm Hz Hb d. unfold pack_mcch. rewrite mcch_of_cfg_eq. cbn [mbind option_bind]. fold d. set (buf := rrc_mcch_payload_buffer r) in *. unfold mcch_payload_len in *.
  assert (Hzd : zlen (zdrop 1 buf) = 3000 - 1) by (rewrite zlen_zdrop; lia).
  assert (Hw : br_wf (bit_ref_set (zdrop 1 buf) (3000 - 1))) by (rewrite <- Hzd; apply bref_new_wf; by apply bytes_ok_zdrop).
  destruct (codec_roundtrip _ _ _ _ (announced d) _ codec_mcch (announced_ok d (clamp_range _ Hm)) Hw) as (b & E & Ha & _).
  { change (distance (bit_ref_set (zdrop 1 buf) (3000 - 1))) with 0. rewrite announced_length. done. }
  change (distance (bit_ref_set (zdrop 1 buf) (3000 - 1))) with 0 in Ha. rewrite E. cbn [mbind option_bind]. exists (br_mem b).
  pose proof (ap_pos _ _ _ Ha) as Hp. rewrite announced_length in Hp. change (distance (bit_ref_set (zdrop 1 buf) (3000 - 1))) with 0 in Hp.
  pose proof (ap_wf _ _ _ Ha) as [Wp Wo Wm Wd Wb]. split; [|split; [|split]].
  - do 2 f_equal. unfold distance_bytes, distance in *. destruct (Z.eqb_spec (br_offset b) 0); lia.
  - by rewrite Wm, (ap_max _ _ _ Ha).
  - done.
  - apply (ap_bits _ _ _ Ha).
Qed.
End Announcement.

(** The claim below, which the path of the message uses too. *)
Lemma mcch_announced `{Libm} r item0 session0 : 0 <= cfg_mbms_mcs r ->
  zlen (rrc_mcch_payload_buffer r) = mcch_payload_len -> bytes_ok (rrc_mcch_payload_buffer r) ->
  exists r1 own payload msg b received, configure_mcch r item0 session0 = Some (r1, own, payload) /\
    mcch_msg_s_unpack (bit_ref_set (zdrop 1 payload) (zlen payload - 1)) = Some (inr msg, b) /\ br_ptr b = zlen payload - 1 /\
    zlen payload = 16 /\ own = mcch_t_of_cfg item0 session0 (cfg_mbms_mcs r) /\ rrc_mcch r1 = msg /\ make_mcch_msg msg = Some received /\
    map pm_info (mm_pmch_info_list received) = map pm_info (mm_pmch_info_list own) /\
    map (fun p => map si_lc_ch_id (pm_sessions p)) (mm_pmch_info_list received) = map (fun p => map si_lc_ch_id (pm_sessions p)) (mm_pmch_info_list own).
Proof.
  intros Hm Hz Hb. destruct (pack_mcch_spec r Hm Hz Hb) as (mem & E & Hzm & Hbm & Hbits). set (d := u8 (clamp_mcs (cfg_mbms_mcs r))) in *.
  assert (Hp : ztake (u8 16) (ztake 1 (rrc_mcch_payload_buffer r) ++ mem) = ztake 1 (rrc_mcch_payload_buffer r) ++ ztake 15 mem).
  { change (u8 16) with 16. unfold ztake. rewrite take_app. f_equal; [apply take_ge; rewrite length_take; lia|]. f_equal.
    unfold mcch_payload_len, zlen in Hz. rewrite length_take. lia. }
  assert (Hd : zdrop 1 (ztake 1 (rrc_mcch_payload_buffer r) ++ ztake 15 mem) = ztake 15 mem) by (apply zdrop_app_eq, zlen_ztake; unfold mcch_payload_len in Hz; lia).
  assert (Hl : zlen (ztake 1 (rrc_mcch_payload_buffer r) ++ ztake 15 mem) = 16) by (rewrite zlen_app, !zlen_ztake; unfold mcch_payload_len in Hz; lia).
  eexists _, _, _, (announced d), (mk_bref (ztake 15 mem) 15 0 15), _. unfold configure_mcch. rewrite E. cbn [mbind option_bind rrc_current_mcch_length rrc_mcch_payload_buffer set_mcch].
  rewrite Hp. split; [done|]. rewrite Hd, Hl. split.
  { apply (decodes_prefix _ (enc_mcch (announced d)) _ mem (enc_mcch (announced d) 0) 15); [apply codec_mcch, announced_ok; by apply clamp_range|done|apply announced_length|done|lia|done]. }
  split; [done|]. split; [done|]. split; [done|]. split; [done|]. split; [by vm_compute|]. done.
Qed.

(** For every configured modulation and coding scheme, the eNodeB packs the MCCH message, and
    a receiver that unpacks the payload handed to the MAC, without the byte of the RLC header,
    reads it to its end and derives the PMCH configuration that the eNodeB's own PHY and MAC are
    given: last subframe, scheme, scheduling period and logical channels. *)
Theorem mcch_announces_configuration `{Libm} r item0 session0 : 0 <= cfg_mbms_mcs r ->
  zlen (rrc_mcch_payload_buffer r) = mcch_payload_len -> bytes_ok (rrc_mcch_payload_buffer r) ->
  exists r1 own payload msg b received, configure_mcch r item0 session0 = Some (r1, own, payload) /\
    mcch_msg_s_unpack (bit_ref_set (zdrop 1 payload) (zlen payload - 1)) = Some (inr msg, b) /\ br_ptr b = zlen payload - 1 /\
    rrc_mcch r1 = msg /\ make_mcch_msg msg = Some received /\
    map pm_info (mm_pmch_info_list received) = map pm_info (mm_pmch_info_list own) /\
    map (fun p => map si_lc_ch_id (pm_sessions p)) (mm_pmch_info_list received) = map (fun p => map si_lc_ch_id (pm_sessions p)) (mm_pmch_info_list own).
Proof.
  intros Hm Hz Hb. destruct (mcch_announced r item0 session0 Hm Hz Hb) as (r1 & own & payload & msg & b & rcv & E & Eu & Ep & _ & _ & Er).
  by exists r1, own, payload, msg, b, rcv.
Qed.

Definition test_session0 : mbms_session_info_t := mk_session_info None (plmn_idx 0) [0; 0; 0] 0.
Definition test_area_info : mbsfn_area_info_r9_s :=
  {| area_info_r9_ext := true; mbsfn_area_id_r9 := 1; non_mbsfn_region_len_r9 := 1; notif_ind_r9 := 0;
     mcch_cfg_r9 := {| mcch_repeat_period_r9 := 1; mcch_offset_r9 := 0; mcch_mod_period_r9 := 0; sf_alloc_info_r9 := mk_bitstring [32] 6; sig_mcs_r9 := 0 |};
     mcch_cfg_r14 := None; subcarrier_spacing_mbms_r14 := Some 1 |}.
Definition test_sib13 : sib_type13_r9_s :=
  {| sib13_ext := false; mbsfn_area_info_list_r9 := [test_area_info];
     notif_cfg_r9 := {| notif_repeat_coeff_r9 := 0; notif_offset_r9 := 0; notif_sf_idx_r9 := 1 |};
     sib13_late_non_crit_ext := None; notif_cfg_v1430 := None; mbsfn_area_info_list_r16 := None |}.
Definition test_sf_cfg : mbsfn_sf_cfg_s :=
  {| radioframe_alloc_period := 0; radioframe_alloc_offset := 0; sf_alloc := one_frame (mk_bitstring [63] 6) |}.
Definition test_rrc : rrc := mk_rrc 40 true [test_sf_cfg] test_sib13 mcch_nulltype (repeat 0 (Z.to_nat 3000)) 0.

Lemma mcch_announces_configuration_witness : exists r1 own payload msg b received,
  configure_mcch test_rrc (Mbsfn.mk_sf_cfg ap_n32 0 Mbsfn.four_frames 0) test_session0 = Some (r1, own, payload) /\
  mcch_msg_s_unpack (bit_ref_set (zdrop 1 payload) (zlen payload - 1)) = Some (inr msg, b) /\ br_ptr b = zlen payload - 1 /\
  rrc_mcch r1 = msg /\ make_mcch_msg msg = Some received /\
  map pm_info (mm_pmch_info_list received) = map pm_info (mm_pmch_info_list own) /\
  map (fun p => map si_lc_ch_id (pm_sessions p)) (mm_pmch_info_list received) = map (fun p => map si_lc_ch_id (pm_sessions p)) (mm_pmch_info_list own).
Proof.
  apply (@mcch_announces_configuration exact_libm test_rrc (Mbsfn.mk_sf_cfg ap_n32 0 Mbsfn.four_frames 0) test_session0).
  - done.
  - by vm_compute.
  - apply bytes_ok_zeros.
Defined.

(** The common subframe allocation that is announced is not the one the eNodeB configures: the
    entry keeps what it held before. *)
Lemma mcch_sf_alloc_differs : exists r1 own payload, configure_mcch test_rrc (Mbsfn.mk_sf_cfg ap_n32 0 Mbsfn.four_frames 0) test_session0 = Some (r1, own, payload) /\
  mm_common_sf_alloc own = [Mbsfn.mk_sf_cfg ap_n32 0 Mbsfn.four_frames 0] /\
  (mm_common_sf_alloc <$> make_mcch_msg (rrc_mcch r1)) = Some [Mbsfn.mk_sf_cfg ap_n1 0 Mbsfn.one_frame 63].
Proof. eexists _, _, _. split; [by vm_compute|by split]. Qed.

(** The PLMN identity of a message is the one that was put into it. *)
Lemma plmn_asn1_roundtrip p : length (pl_mcc p) = 3%nat -> (nof_mnc_digits p = 2 \/ nof_mnc_digits p = 3) -> zlen (pl_mnc p) = 3 ->
  let q := make_plmn_id_t (plmn_to_asn1 p) in
  pl_mcc q = pl_mcc p /\ nof_mnc_digits q = nof_mnc_digits p /\ ztake (nof_mnc_digits q) (pl_mnc q) = ztake (nof_mnc_digits p) (pl_mnc p).
Proof.
  intros Hm Hn Hz q. assert (Hl : zlen (ztake (nof_mnc_digits p) (pl_mnc p)) = nof_mnc_digits p) by (apply zlen_ztake; lia).
  unfold q, make_plmn_id_t, plmn_is_valid, plmn_to_asn1. cbn [mcc mnc present andb]. rewrite Hl.
  replace ((nof_mnc_digits p =? 3) || (nof_mnc_digits p =? 2)) with true by lia. cbn [negb pl_mcc pl_mnc nof_mnc_digits default].
  repeat split. unfold overwrite. by apply ztake_app_eq.
Qed.

(** ** System information *)

Lemma mapM_defined {A B} (f : A -> option B) l : Forall (fun x => is_Some (f x)) l -> exists k, mapM f l = Some k /\ zlen k = zlen l.
Proof.
  intros Hl. destruct (proj2 (mapM_is_Some f l) Hl) as [k Hk]. exists k. split; [done|]. apply length_mapM in Hk. by unfold zlen; rewrite Hk.
Qed.

Lemma six_bits_number s : bitstring_ok 6 s -> is_Some (bits_to_number (bs_octets s) (bs_nbits s)).
Proof.
  intros [Hn (rest & x & E & _ & Hz & Hx)]. change (ceil_frac 6 8 - 1) with 0 in Hz. rewrite (zlen_0 rest Hz) in E. rewrite Hn, E.
  unfold bits_to_number. change (seqZ 0 (ceil_frac 6 8)) with [0]. cbn [Z.ltb Z.compare Pos.compare Pos.compare_cont fold_left app]. rewrite load_cons_0.
  change ((6 - 1) mod 8 + 1) with 6 in Hx. cbn [mbind option_bind]. rewrite Z.mul_0_l, Z.shiftl_0_r, (proj2 (Z.leb_gt (2 ^ 31) x)) by lia. by eexists.
Qed.

Lemma area_info_defined x : area_info_r9_ok x -> is_Some (make_mbsfn_area_info x).
Proof.
  intros (_ & Hr & _ & (_ & _ & _ & Hb & Hs) & _). unfold make_mbsfn_area_info. destruct (six_bits_number _ Hb) as [v ->].
  assert (Er : is_Some (region_len_of (non_mbsfn_region_len_r9 x))) by (apply lookup_lt_is_Some; cbn; lia).
  assert (Es : is_Some (sig_mcs_of (sig_mcs_r9 (mcch_cfg_r9 x)))) by (apply lookup_lt_is_Some; cbn; lia).
  destruct Er as [r ->], Es as [m ->]. by eexists.
Qed.

Definition sib2_cfg_ok (c : mbsfn_sf_cfg_s) : Prop :=
  0 <= radioframe_alloc_period c < 6 /\ match sf_alloc c with one_frame s => bitstring_ok 6 s | _ => False end.

Lemma sib2_defined c : sib2_cfg_ok c -> is_Some (sib2_sf_cfg c).
Proof.
  intros [Hp Hs]. unfold sib2_sf_cfg. assert (Ep : is_Some (alloc_period_of (radioframe_alloc_period c))) by (apply lookup_lt_is_Some; cbn; lia).
  destruct Ep as [p ->], (sf_alloc c) as [s| |]; try done. destruct (six_bits_number _ Hs) as [v ->]. by eexists.
Qed.

(** A configuration that the eNodeB can announce: SIB2 with allocations of one frame, and SIB13
    without the list of release 16, which has no packer. *)
Record rrc_cfg_ok (r : rrc) : Prop := {
  rc_mcs : 0 <= cfg_mbms_mcs r;
  rc_buffer : zlen (rrc_mcch_payload_buffer r) = mcch_payload_len /\ bytes_ok (rrc_mcch_payload_buffer r);
  rc_sib2 : Forall sib2_cfg_ok (cfg_mbsfn_sf_cfg_list r) /\ zlen (cfg_mbsfn_sf_cfg_list r) <= max_nof_mbsfn_sf_cfg;
  rc_sib13 : sib13_ok (cfg_sib13 r);
  rc_r16 : mbsfn_area_info_list_r16 (cfg_sib13 r) = None
}.

Lemma sibs_defined r : rrc_cfg_ok r -> exists s2 s13, sib2_of_cfg r = Some s2 /\ sib13_of_cfg r = Some s13 /\ make_sib13 (cfg_sib13 r) = Some s13.
Proof.
  intros [_ _ [Hl Hn] ([Hz Ha] & _) H16].
  assert (D2 : Forall (fun c => is_Some (sib2_sf_cfg c)) (cfg_mbsfn_sf_cfg_list r)) by (revert Hl; apply Forall_impl, sib2_defined).
  assert (D13 : Forall (fun c => is_Some (make_mbsfn_area_info c)) (mbsfn_area_info_list_r9 (cfg_sib13 r))) by (revert Ha; apply Forall_impl, area_info_defined).
  destruct (mapM_defined _ _ D2) as (k2 & E2 & Z2), (mapM_defined _ _ D13) as (k13 & E13 & Z13). unfold max_nof_mbsfn_sf_cfg in Hn.
  unfold sib2_of_cfg, sib13_of_cfg, make_sib13. rewrite H16, E2, E13. cbn [mbind option_bind]. unfold max_nof_mbsfn_sf_cfg, max_mbsfn_area.
  rewrite (proj2 (Z.ltb_ge _ _)), (proj2 (Z.ltb_ge _ _)) by lia. by eexists _, _.
Qed.

(** C7: The eNodeB configures its PHY and its MAC, and broadcasts SIB13: for every configuration
    that can be announced, the block is packed, and a receiver that unpacks it and converts it
    derives exactly the area information, the MCCH configuration and the notification
    configuration that the eNodeB's own layers are given. *)
Theorem sib13_announces_configuration `{Libm} r item0 session0 b : rrc_cfg_ok r -> br_wf b ->
  distance b + zlen (enc_sib13 (cfg_sib13 r) (distance b)) + 8 <= 8 * br_max b ->
  exists r1 sibs2 sibs13 mcch_t payload b' received,
    configure_mbsfn_sibs r item0 session0 = Some (r1, (sibs2, sibs13, mcch_t), payload) /\
    sib_type13_r9_s_pack (cfg_sib13 r) b = Some (SRSASN_SUCCESS, b') /\
    sib_type13_r9_s_unpack (seek b' (distance b)) = Some (inr received, b') /\ make_sib13 received = Some sibs13.
Proof.
  intros Hc Hw Hr. pose proof Hc as [Hm [Hz Hb] _ H13 H16]. destruct (sibs_defined r Hc) as (s2 & s13 & E2 & E13 & Em).
  destruct (mcch_announced r item0 session0 Hm Hz Hb) as (r1 & own & payload & _ & _ & _ & E & _).
  destruct (codec_roundtrip _ _ _ _ (cfg_sib13 r) b codec_sib13 (conj H13 H16) Hw Hr) as (b' & Ep & _ & Eu).
  exists r1, s2, s13, own, payload, b', (cfg_sib13 r). split_and!; [|done..]. unfold configure_mbsfn_sibs. by rewrite E2, E13, E.
Qed.

Lemma test_bits_ok n x : 0 < n <= 8 -> 0 <= x < 2 ^ n -> bitstring_ok n (mk_bitstring [x] n).
Proof.
  intros Hn Hx. split; [done|]. exists [], x. assert (E : (n - 1) mod 8 + 1 = n) by (rewrite Z.mod_small; lia). cbn [bs_octets]. rewrite E.
  split; [done|]. split; [constructor|]. split; [|done]. unfold ceil_frac. change (zlen []) with 0. rewrite <- (Z.div_unique (n + (8 - 1)) 8 1 (n - 1)); lia.
Qed.

Lemma test_sib13_ok : sib13_ok test_sib13.
Proof.
  split_and!; try done. split; [done|]. constructor; [|constructor]. split_and!; try done. split_and!; try done. by apply test_bits_ok.
Qed.

Lemma test_rrc_ok : rrc_cfg_ok test_rrc.
Proof.
  constructor; [done|split; [by vm_compute|apply bytes_ok_zeros]| |apply test_sib13_ok|done].
  split; [|done]. constructor; [|constructor]. split; [done|]. by apply test_bits_ok.
Qed.

Lemma sib13_announces_configuration_witness : exists r1 sibs2 sibs13 mcch_t payload b' received,
  configure_mbsfn_sibs test_rrc (Mbsfn.mk_sf_cfg ap_n32 0 Mbsfn.four_frames 0) test_session0 = Some (r1, (sibs2, sibs13, mcch_t), payload) /\
  sib_type13_r9_s_pack test_sib13 (bit_ref_set (repeat 0 32) 32) = Some (SRSASN_SUCCESS, b') /\
  sib_type13_r9_s_unpack (seek b' 0) = Some (inr received, b') /\ make_sib13 received = Some sibs13.
Proof.
  apply (@sib13_announces_configuration exact_libm test_rrc (Mbsfn.mk_sf_cfg ap_n32 0 Mbsfn.four_frames 0) test_session0 (bit_ref_set (repeat 0 32) 32)).
  - exact test_rrc_ok.
  - apply (bref_new_wf (repeat 0 32)), bytes_ok_zeros.
  - by vm_compute.
Defined.

(** The values [rf256], [rf512] and [rf1024] of the modification period of release 16 have the
    indices 8, 9 and 10; the cast takes them for [rf512], [rf1024] and a spare value. *)
Lemma r16_mod_period_shifted : mod_period_of 8 = Some mp_rf512 /\ mod_period_of 9 = Some mp_rf1024 /\ mod_period_of 10 = Some mp_spare5.
Proof. done. Qed.
