(* ===== verification/Signalling.v ===== *)
(** * The MCCH from the RRC of the eNodeB to a receiver

    The components of the signalling together: the RRC builds and packs the MCCH message and
    configures the PHY ([phy::configure_mbsfn], [srsenb/src/phy/phy.cc]) and the MAC
    ([mac::write_mcch], [srsenb/src/stack/mac/mac.cc]) in its deferred task; the MAC sends the
    message in the MCCH subframe; a receiver takes it out of the MAC PDU, unpacks it and converts
    it ([make_mcch_msg], [lib/src/asn1/rrc_utils.cc]). *)

From stdpp Require Import base list numbers.
From S2P Require Import Prelude ByteBuffer MacPdu MacPduWire MacPduCorrect Float32 MacMch Rlc Broadcast.
From S2P Require Import Mbsfn BitRef Per PerLaws PerExt Plmn RrcMcch RrcMcchCorrect RrcSib13 RrcEnb.

Local Open Scope Z_scope.

(** ** The configuration *)

(** What [write_mcch] reads of the first PMCH. *)
Definition first_sf_alloc_end (m : mcch_msg_t) : Z :=
  match mm_pmch_info_list m with p :: _ => Mbsfn.pmch_sf_alloc_end (pm_info p) | [] => 0 end.
Definition first_lcs (m : mcch_msg_t) : list Z :=
  match mm_pmch_info_list m with p :: _ => map si_lc_ch_id (pm_sessions p) | [] => [] end.

Section Signalling.
Context `{Libm}.

(** [configure_mbsfn_sibs] with its deferred task; [blocks] are the buffers of the MBMS user. *)
Definition configure_enb (r : rrc) (item0 : Mbsfn.mbsfn_sf_cfg_t) (session0 : mbms_session_info_t)
  (pcfg : Mbsfn.phy_cfg_mbsfn_t) (p : Mbsfn.phy_common) (m : mac) (blocks : list bytes)
  : option (rrc * (Mbsfn.phy_cfg_mbsfn_t * Mbsfn.phy_common) * mac) :=
  '(r1, (sibs2, sibs13, mcch_t), payload) ← configure_mbsfn_sibs r item0 session0;
  m1 ← write_mcch m (first_sf_alloc_end mcch_t) (first_lcs mcch_t) payload blocks;
  Some (r1, phy_configure_mbsfn pcfg p sibs2 sibs13 mcch_t, m1).
End Signalling.

(** ** Lemmas *)

(** The scheduler with one session and no overload. *)
Lemma session_build lc size stop cur m tbs : session_inv lc size stop cur m -> 0 < tbs / 8 - 6 < 2 ^ 24 ->
  size < sf_alloc_end m * (tbs / 8 - 6) -> exists m1 ptr, build_mch_sched m tbs = Some m1 /\
    sessions (the_mch m1) = Some [mk_mtch_sched lc size (ceil_div size (tbs / 8 - 6)) ptr].
Proof.
  intros Hs Hb Hroom. destruct (session_of _ _ _ _ m Hs) as (ptr & rest & E & Hl). pose proof (si_size _ _ _ _ _ Hs) as Hsz.
  set (bps := tbs / 8 - 6) in *. pose proof (ceil_div_bounds size bps ltac:(lia) ltac:(lia)) as Hc.
  set (l := [mk_mtch_sched lc size stop ptr]) in *.
  destruct (build_mch_sched_spec m tbs l (fun s => ceil_div (lcid_buffer_size s) bps)) as [Hbuild Hses].
  - done.
  - by rewrite (si_num _ _ _ _ _ Hs).
  - constructor; [cbn; lia|constructor].
  - done.
  - intros s Hin%list_elem_of_singleton. subst s. change (sum_of_sizes l) with (size + 0). rewrite i32_id by (fold bps; lia). fold bps.
    rewrite (proj2 (Z.leb_gt (sf_alloc_end m * bps) (size + 0))), andb_false_r by lia. rewrite needed_sfs_spec by (cbn; lia). split; [done|]. cbn. lia.
  - change (ceil_div size bps + 0 < 2 ^ 31). lia.
  - eexists _, ptr. split; [exact Hbuild|]. etransitivity; [exact Hses|]. change (stops_from 0 l _) with [mk_mtch_sched lc size (0 + ceil_div size bps) ptr]. by rewrite Z.add_0_l.
Qed.

(** The state after [write_mcch] for one session. *)
Lemma write_mcch_session sf_end lc msg blocks : zlen msg < 256 -> zlen blocks = 8 -> Forall (fun b => zlen b = SRSRAN_MAX_BUFFER_SIZE_BYTES) blocks ->
  exists m, write_mcch mac_new sf_end [lc] msg blocks = Some m /\ session_inv lc 0 0 0 m /\
    sf_alloc_end m = sf_end /\ current_mcch_length m = zlen msg /\ mcch_message m = msg.
Proof.
  intros Hm Hb Hbl. destruct (write_mcch_wf sf_end [lc] msg blocks) as (m & E & Hwf & Hn); [done..|]. exists m. split; [done|].
  pose proof (zlen_nonneg msg) as Hz. assert (E3 : zlen (mcch_payload_buffer mac_new) = 3000) by done.
  unfold write_mcch in E. change (zlen (mtch_sched (the_mch mac_new)) <? zlen [lc]) with false in E.
  rewrite (store_Some (mcch_payload_buffer mac_new) 0 msg ltac:(lia) ltac:(rewrite E3; lia)) in E. cbn [mbind option_bind] in E. injection E as <-.
  split_and!; [|done|done|]. { constructor; try done. cbn. by do 2 eexists. }
  unfold mcch_message. cbn [current_mcch_length mcch_payload_buffer]. change (ztake 0 (mcch_payload_buffer mac_new)) with (@nil Z). cbn [app].
  by apply ztake_app_eq.
Qed.

Lemma report_frame m lc n m' : apply_reports m [(lc, n)] = Some m' -> exists c, m' = set_mch m c.
Proof.
  cbn [apply_reports]. unfold rlc_buffer_state. destruct (mrnti_ue m); cbn [mbind option_bind]; [|intros [= <-]; exists (the_mch m); by destruct m].
  destruct (sessions (the_mch m)); [|done]. cbn [mbind option_bind]. intros [= <-]. by eexists.
Qed.

(** C6: The MCCH message on the air.  The eNodeB configures itself for a valid configuration; when
    RLC has reported the data of the session, the MCCH subframe carries a MAC PDU in which a
    receiver finds the scheduling information with the stop the PHY is told, and the MCCH message,
    which it unpacks and converts to exactly the PMCH configuration in the eNodeB's PHY. *)
Theorem mcch_reaches_receiver `{Libm} r item0 session0 pcfg p blocks : rrc_cfg_ok r -> cfg_mbsfn_sf_cfg_list_present r = true ->
  zlen blocks = 8 -> Forall (fun b => zlen b = SRSRAN_MAX_BUFFER_SIZE_BYTES) blocks ->
  exists r1 pcfg1 p1 m0, configure_enb r item0 session0 pcfg p mac_new blocks = Some (r1, (pcfg1, p1), m0) /\
  forall n tti mcch_tbs data_tbs rx junk, 0 <= n < 2 ^ 23 -> 0 < data_tbs / 8 - 6 < 2 ^ 24 -> n < 624 * (data_tbs / 8 - 6) -> 21 <= mcch_tbs / 8 <= MAC_BUFFER -> mch_receiver rx (mcch_tbs / 8) ->
    exists m b m' wire rx1 s1 s1' s2 sdu msg bref received stop, apply_reports m0 [(1, n)] = Some m /\
      mcch_subframe m tti mcch_tbs data_tbs = Some (mk_res SRSRAN_MRNTI (data_ptr b) (Some stop), m') /\
      contents b = Some wire /\ parse_packet MCH_SUBH_TYPE rx (wire ++ junk) = Some rx1 /\
      s1 ∈ ztake (nof_subheaders rx1) (subheaders rx1) /\ get_next_mch_sched_info s1 (wire ++ junk) = Some (Some (1, stop), s1') /\
      s2 ∈ ztake (nof_subheaders rx1) (subheaders rx1) /\ decode_subh (wire ++ junk) s2 = Some (0, sdu) /\
      mcch_msg_s_unpack (bit_ref_set (zdrop 1 sdu) (zlen sdu - 1)) = Some (inr msg, bref) /\ make_mcch_msg msg = Some received /\
      map pm_info (mm_pmch_info_list received) = Mbsfn.pmch_info_list (Mbsfn.mbsfn p1).
Proof.
  intros Hc H2 Hbl Hblocks. pose proof Hc as [Hm [Hz Hb] _ _ _]. destruct (sibs_defined r Hc) as (sibs2 & sibs13 & E2 & E13 & _).
  destruct (mcch_announced r item0 session0 Hm Hz Hb) as (r1 & own & payload & msg & bref & received & E & Eu & _ & Hlen & Eown & _ & Er & Epm & _).
  destruct (write_mcch_session (first_sf_alloc_end own) 1 payload blocks) as (m0 & Em & Hs0 & Hend & Hcl & Hmsg); [by rewrite Hlen|done..|].
  assert (Ep : exists p1, phy_configure_mbsfn pcfg p sibs2 sibs13 own = p1 /\ Mbsfn.pmch_info_list (Mbsfn.mbsfn p1.2) = map pm_info (mm_pmch_info_list own)).
  { eexists. split; [done|]. unfold phy_configure_mbsfn. unfold sib2_of_cfg in E2. destruct (mapM _ _); [|done]. cbn [mbind option_bind] in E2. destruct (_ <? _); [done|].
    injection E2 as <-. cbn [s2_list_present]. by rewrite H2. }
  destruct Ep as ([pcfg1 p1] & Ep & Hp1). exists r1, pcfg1, p1, m0. split.
  { unfold configure_enb, configure_mbsfn_sibs. rewrite E2, E13, E. cbn [mbind option_bind].
    replace (first_lcs own) with [1] by (by rewrite Eown). by rewrite Em, Ep. }
  intros n tti mcch_tbs data_tbs rx junk Hn Hbps Hroom Htbs Hrx.
  destruct (session_report 1 0 0 0 m0 n Hs0 Hn) as (m & Hrep & Hs). destruct (report_frame _ _ _ _ Hrep) as [c Ec].
  assert (Hend' : sf_alloc_end m = 624) by (rewrite Ec; cbn [sf_alloc_end set_mch]; by rewrite Hend, Eown).
  assert (Hcl' : current_mcch_length m = 16) by (rewrite Ec; cbn [current_mcch_length set_mch]; by rewrite Hcl).
  assert (Hmsg' : mcch_message m = payload) by (rewrite Ec; exact Hmsg).
  destruct (session_build 1 n 0 0 m data_tbs Hs Hbps ltac:(by rewrite Hend')) as (m1 & ptr & Eb & El).
  pose proof (ceil_div_spec n (data_tbs / 8 - 6) ltac:(lia)) as Hstop. set (stop := ceil_div n (data_tbs / 8 - 6)) in *.
  destruct (mcch_announces m tti mcch_tbs data_tbs m1 _ rx junk (si_wf _ _ _ _ _ Hs) Eb El) as (b & m2 & wire & rx1 & s & Esub & Hlast & Hw & _ & Hparse & Hinfo & (s2 & Hs2 & Hsdu) & _);
    [done| |by rewrite Hcl'|rewrite Hcl'; change (zlen [_]) with 1; lia|done|].
  { constructor; [|constructor]. cbn [mtch_lcid mtch_stop]. split; [done|]. nia. }
  cbn [List.last] in Hlast. subst s. destruct (Hinfo _ (list_elem_of_here _ _)) as (s1 & s1' & Hs1 & Hget). rewrite Hmsg' in Hsdu.
  exists m, b, m2, wire, rx1, s1, s1', s2, payload, msg, bref, received, stop. split_and!; try done. by rewrite Epm.
Qed.

Definition test_phy_cfg : Mbsfn.phy_cfg_mbsfn_t :=
  Mbsfn.mk_phy_cfg (Mbsfn.mk_sf_cfg ap_n1 0 Mbsfn.one_frame 0)
    (Mbsfn.mk_area_info 0 Mbsfn.s1 scs_nulltype (Mbsfn.mk_mcch_cfg rp_rf32 0 0 mcs_n2)) [].
Definition test_workers : Mbsfn.phy_common := Mbsfn.mk_phy test_phy_cfg false false (repeat 0 40) (repeat 0 10) false 0.

Lemma mcch_reaches_receiver_witness : exists r1 pcfg1 p1 m0 m b m' wire rx1 s2 sdu msg bref received stop,
  configure_enb test_rrc (Mbsfn.mk_sf_cfg ap_n32 0 Mbsfn.four_frames 0) test_session0 test_phy_cfg test_workers mac_new test_blocks = Some (r1, (pcfg1, p1), m0) /\
  apply_reports m0 [(1, 3000)] = Some m /\ mcch_subframe m 170 500 1648 = Some (mk_res SRSRAN_MRNTI (data_ptr b) (Some stop), m') /\
  contents b = Some wire /\ parse_packet MCH_SUBH_TYPE (test_pdu MCH_SUBH_TYPE (500 / 8) false) (wire ++ []) = Some rx1 /\
  s2 ∈ ztake (nof_subheaders rx1) (subheaders rx1) /\ decode_subh (wire ++ []) s2 = Some (0, sdu) /\
  mcch_msg_s_unpack (bit_ref_set (zdrop 1 sdu) (zlen sdu - 1)) = Some (inr msg, bref) /\ make_mcch_msg msg = Some received /\
  map pm_info (mm_pmch_info_list received) = Mbsfn.pmch_info_list (Mbsfn.mbsfn p1).
Proof.
  destruct (@mcch_reaches_receiver exact_libm test_rrc (Mbsfn.mk_sf_cfg ap_n32 0 Mbsfn.four_frames 0) test_session0 test_phy_cfg test_workers test_blocks) as (r1 & pcfg1 & p1 & m0 & E & Hall).
  - exact test_rrc_ok.
  - done.
  - done.
  - pose proof test_blocks_ok as Hb. by inversion Hb.
  - destruct (Hall 3000 170 500 1648 (test_pdu MCH_SUBH_TYPE (500 / 8) false) []) as (m & b & m' & wire & rx1 & s1 & s1' & s2 & sdu & msg & bref & received & stop & Hr & Hm & Hw & Hp & _ & _ & Hs & Hd & Hu & Hk & Hi).
    + clear. by vm_compute.
    + clear. by vm_compute.
    + clear. by vm_compute.
    + clear. by vm_compute.
    + apply test_receiver.
    + exists r1, pcfg1, p1, m0, m, b, m', wire, rx1, s2, sdu, msg, bref, received, stop. exact (conj E (conj Hr (conj Hm (conj Hw (conj Hp (conj Hs (conj Hd (conj Hu (conj Hk Hi))))))))).
Defined.
