(* ===== verification/IntrusiveList.v ===== *)
(** * Intrusive lists

    [intrusive_forward_list] and [intrusive_double_linked_list] of
    [lib/include/srsran/adt/intrusive_list.h].  A node is named by its address, a
    [nat]; the link fields the nodes carry ([next_node], [prev_node], both
    [nullptr] in a new node) live in a store indexed by address, so two lists that
    share nodes or a pointer kept into the middle of a list behave as in the code.
    The representation predicates [fseg] and [dseg] relate the links to the
    sequence of nodes a list holds. *)

From S2P Require Import Prelude.
From stdpp Require Import base list gmap numbers list_basics list_relations.

(** A pointer to a node; [nullptr] is [None]. *)
Definition ptr : Type := option nat.

(** ** Forward lists *)

(** The [next_node] fields; an address that was never written holds [nullptr]. *)
Definition fstore := gmap nat (option nat).

Definition fnext (s : fstore) (x : nat) : ptr := default None (s !! x).

(** A list object is its [node] pointer; every operation also returns the store. *)
Definition fl_push_front (s : fstore) (node : ptr) (t : nat) : fstore * ptr :=
  (<[t := node]> s, Some t).

(** [pop_front]: reading through a null [node] is undefined behaviour, [None]. *)
Definition fl_pop_front (s : fstore) (node : ptr) : option (nat * ptr) :=
  match node with
  | Some ret => Some (ret, fnext s ret)
  | None => None
  end.

(** [clear] unlinks node after node; the fuel bounds the number of nodes. *)
Fixpoint fl_clear (fuel : nat) (s : fstore) (node : ptr) : option (fstore * ptr) :=
  match node with
  | None => Some (s, None)
  | Some torem =>
      match fuel with
      | O => None
      | S fuel => fl_clear fuel (<[torem := None]> s) (fnext s torem)
      end
  end.

Definition fl_empty (node : ptr) : bool := match node with None => true | Some _ => false end.

(** ** Double linked lists *)

Record dlinks := mk_dlinks { next_node : ptr; prev_node : ptr }.

Definition dstore := gmap nat dlinks.

Definition dget (s : dstore) (x : nat) : dlinks := default (mk_dlinks None None) (s !! x).
Definition dnext (s : dstore) (x : nat) : ptr := next_node (dget s x).
Definition dprev (s : dstore) (x : nat) : ptr := prev_node (dget s x).

Definition set_dnext (s : dstore) (x : nat) (p : ptr) : dstore := <[x := mk_dlinks p (dprev s x)]> s.
Definition set_dprev (s : dstore) (x : nat) (p : ptr) : dstore := <[x := mk_dlinks (dnext s x) p]> s.

Definition dl_push_front (s : dstore) (node : ptr) (t : nat) : dstore * ptr :=
  let s := set_dprev s t None in
  let s := set_dnext s t node in
  let s := match node with Some n => set_dprev s n (Some t) | None => s end in
  (s, Some t).

(** The statements of [pop] in their order; [node] is the list's head. *)
Definition dl_pop (s : dstore) (node : ptr) (to_rem : nat) : dstore * ptr :=
  let node := if decide (node = Some to_rem) then dnext s to_rem else node in
  let s := match dprev s to_rem with Some p => set_dnext s p (dnext s to_rem) | None => s end in
  let s := match dnext s to_rem with Some n => set_dprev s n (dprev s to_rem) | None => s end in
  let s := set_dnext s to_rem None in
  let s := set_dprev s to_rem None in
  (s, node).

Definition dl_pop_front (s : dstore) (node : ptr) : option (dstore * ptr) :=
  match node with Some t => Some (dl_pop s node t) | None => None end.

Fixpoint dl_clear (fuel : nat) (s : dstore) (node : ptr) : option (dstore * ptr) :=
  match node with
  | None => Some (s, None)
  | Some torem =>
      match fuel with
      | O => None
      | S fuel => dl_clear fuel (set_dprev (set_dnext s torem None) torem None) (dnext s torem)
      end
  end.

Definition dl_empty (node : ptr) : bool := match node with None => true | Some _ => false end.

(** ** Representation *)

(** The links from [h] run through the nodes of [l] and end in [e]. *)
Fixpoint fseg (s : fstore) (h : ptr) (l : list nat) (e : ptr) : Prop :=
  match l with
  | [] => h = e
  | x :: l => h = Some x /\ fseg s (fnext s x) l e
  end.

(** The same with the backward links: [p] precedes [h]. *)
Fixpoint dseg (s : dstore) (p h : ptr) (l : list nat) (e : ptr) : Prop :=
  match l with
  | [] => h = e
  | x :: l => h = Some x /\ dprev s x = p /\ dseg s (Some x) (dnext s x) l e
  end.

Definition is_flist (s : fstore) (node : ptr) (l : list nat) : Prop := fseg s node l None.
Definition is_dlist (s : dstore) (node : ptr) (l : list nat) : Prop := dseg s None node l None.

(** *** Store lemmas *)

Section stores.
  Implicit Types (s : dstore) (x y : nat) (p : ptr).

Lemma dget_insert s x n : dget (<[x := n]> s) x = n.
Proof. unfold dget, dstore in *. by rewrite lookup_insert_eq. Qed.

Lemma dget_insert_ne s x y n : x <> y -> dget (<[x := n]> s) y = dget s y.
Proof. intros. unfold dget, dstore in *. by rewrite lookup_insert_ne. Qed.

Lemma dnext_set_dnext s x y p :
  dnext (set_dnext s x p) y = if decide (x = y) then p else dnext s y.
Proof.
  unfold dnext, set_dnext. case_decide; subst.
  - by rewrite dget_insert.
  - by rewrite dget_insert_ne.
Qed.

Lemma dprev_set_dnext s x y p : dprev (set_dnext s x p) y = dprev s y.
Proof.
  unfold dprev, set_dnext. destruct (decide (x = y)); subst.
  - by rewrite dget_insert.
  - by rewrite dget_insert_ne.
Qed.

Lemma dprev_set_dprev s x y p :
  dprev (set_dprev s x p) y = if decide (x = y) then p else dprev s y.
Proof.
  unfold dprev, set_dprev. case_decide; subst.
  - by rewrite dget_insert.
  - by rewrite dget_insert_ne.
Qed.

Lemma dnext_set_dprev s x y p : dnext (set_dprev s x p) y = dnext s y.
Proof.
  unfold dnext, set_dprev. destruct (decide (x = y)); subst.
  - by rewrite dget_insert.
  - by rewrite dget_insert_ne.
Qed.

End stores.

Create Rewrite HintDb ilist.
#[export] Hint Rewrite dnext_set_dnext dprev_set_dnext dprev_set_dprev dnext_set_dprev : ilist.

(** Decides the link tests of a store built from updates. *)
Ltac links := autorewrite with ilist; repeat case_decide; simplify_eq; try done.

(** Two stores with the same links at [x]. *)
Definition same_links (s s' : dstore) (x : nat) : Prop :=
  dnext s' x = dnext s x /\ dprev s' x = dprev s x.

(** *** Segments *)

Section segments.
  Implicit Types (s : dstore) (l : list nat) (h p e : ptr).

(** The node before the end of a segment. *)
Fixpoint seg_last (p : ptr) (l : list nat) : ptr :=
  match l with
  | [] => p
  | x :: l => seg_last (Some x) l
  end.

Lemma seg_last_snoc p l y : seg_last p (l ++ [y]) = Some y.
Proof. revert p. induction l; intros p; simpl; auto. Qed.

Lemma seg_last_Some p l y : seg_last p l = Some y -> y ∈ l \/ p = Some y.
Proof.
  revert p. induction l as [|x l IH]; intros p; simpl; [auto|].
  intros [H|[= ->]]%IH; left; set_solver.
Qed.

Lemma dseg_app s p h l1 l2 e :
  dseg s p h (l1 ++ l2) e <-> exists m, dseg s p h l1 m /\ dseg s (seg_last p l1) m l2 e.
Proof.
  revert p h. induction l1 as [|x l1 IH]; intros p h; simpl.
  - split; [intros H; by exists h | intros (m & -> & H); done].
  - setoid_rewrite IH. split; [intros (? & ? & ? & ? & ?)|intros (? & (? & ? & ?) & ?)]; eauto 10.
Qed.

Lemma dseg_frame s s' p h l e :
  Forall (same_links s s') l -> dseg s p h l e -> dseg s' p h l e.
Proof.
  revert p h. induction l as [|x l IH]; intros p h Hs; [done|].
  inversion_clear Hs as [|? ? [Hn Hp] Hs']. simpl. rewrite Hn, Hp. intros (? & ? & ?). auto.
Qed.

(** Only the first node sees the node before the segment. *)
Lemma dseg_set_prev s p p' x l e h :
  x ∉ l -> dseg s p h (x :: l) e -> dseg (set_dprev s x p') p' h (x :: l) e.
Proof.
  intros Hx (-> & _ & Hl). simpl. split_and!; [done|links|].
  rewrite dnext_set_dprev. eapply dseg_frame; [|done].
  apply Forall_forall. intros y Hy. split; links.
Qed.

(** Only the last node sees the end of the segment. *)
Lemma dseg_set_end s p h l y e e' :
  y ∉ l -> dseg s p h (l ++ [y]) e -> dseg (set_dnext s y e') p h (l ++ [y]) e'.
Proof.
  intros Hy (m & Hl & -> & Hp & _)%dseg_app. apply dseg_app. exists (Some y). split.
  - eapply dseg_frame; [|done]. apply Forall_forall. intros z Hz. split; links.
  - simpl. split_and!; [done|by rewrite dprev_set_dnext|links].
Qed.

Lemma dseg_head_in s p h l x : dseg s p h l None -> h = Some x -> x ∈ l.
Proof. destruct l; simpl; [naive_solver|]. intros (-> & _) [= ->]. set_solver. Qed.

(** Following the links from a node of a list gives the node after it. *)
Lemma dseg_head s p h l : dseg s p h l None -> h = head l.
Proof. destruct l; simpl; [done|]. by intros (-> & _). Qed.

Lemma dseg_next s p h l1 x l2 : dseg s p h (l1 ++ x :: l2) None -> dnext s x = head l2.
Proof. intros (m & _ & _ & _ & H)%dseg_app. by eapply dseg_head. Qed.

End segments.


(** *** [push_front] and [pop] on the sequences they represent *)

Section operations.
  Implicit Types (s : dstore) (l : list nat) (t x : nat).

(** Pushing a node that is not on the list puts it in front. *)
Lemma dl_push_front_spec s node l t s' node' :
  t ∉ l -> NoDup l -> is_dlist s node l -> dl_push_front s node t = (s', node') ->
  is_dlist s' node' (t :: l).
Proof.
  intros Ht Hnd Hl [= <- <-]. unfold is_dlist, dl_push_front in Hl |- *.
  assert (Hf : dseg (set_dnext (set_dprev s t None) t node) None node l None).
  { eapply dseg_frame; [|done]. apply Forall_forall. intros y Hy. split; links. }
  destruct l as [|x l]; simpl in Hl.
  - subst node. simpl. split_and!; [done|links..].
  - destruct Hl as (-> & _). apply not_elem_of_cons in Ht as [Htx Ht].
    apply NoDup_cons in Hnd as [Hx _].
    apply (dseg_set_prev _ _ (Some t)) in Hf; [|done].
    assert (En : dnext (set_dprev (set_dnext (set_dprev s t None) t (Some x)) x (Some t)) t = Some x)
      by links.
    simpl. rewrite En. split; [done|]. split; [links|exact Hf].
Qed.

(** Popping a node of the list takes it out and leaves the order of the others. *)
Lemma dl_pop_spec s node l1 x l2 s' node' :
  NoDup (l1 ++ x :: l2) -> is_dlist s node (l1 ++ x :: l2) -> dl_pop s node x = (s', node') ->
  is_dlist s' node' (l1 ++ l2) /\ dnext s' x = None /\ dprev s' x = None.
Proof.
  intros (Hnd1 & Hd & Hnd2)%NoDup_app (m & H1 & -> & Hp & H2)%dseg_app E.
  apply NoDup_cons in Hnd2 as [Hx2 Hnd2].
  assert (Hx1 : x ∉ l1) by (intros Hx; apply (Hd _ Hx); left).
  unfold dl_pop in E.
  set (sp := match dprev s x with Some p => set_dnext s p (dnext s x) | None => s end) in E.
  assert (Hpn : dprev s x <> Some x).
  { rewrite Hp. intros [?|?]%seg_last_Some; done. }
  assert (Hspn : dnext sp x = dnext s x) by (subst sp; destruct (dprev s x); links).
  assert (Hspp : forall y, dprev sp y = dprev s y) by (intros y; subst sp; destruct (dprev s x); links).
  assert (Hnn : dnext s x <> Some x).
  { intros En. by apply (dseg_head_in _ _ _ _ x) in H2. }
  rewrite Hspn, Hspp in E.
  set (sn := match dnext s x with Some n => set_dprev sp n (dprev s x) | None => sp end) in E.
  injection E as <- <-.
  assert (A1 : dseg sp None (if decide (node = Some x) then dnext s x else node) l1 (dnext s x)).
  { subst sp. destruct l1 as [|y l1] using rev_ind.
    - simpl in H1. subst node. by rewrite decide_True.
    - rewrite Hp, seg_last_snoc.
      rewrite decide_False
        by (intros ->; apply Hx1; destruct l1; destruct H1 as ([= ->] & _); left).
      eapply dseg_set_end; [|done]. apply NoDup_app in Hnd1 as (_ & Hy & _).
      intros Hin. apply (Hy _ Hin). by left. }
  assert (A2 : dseg sn (seg_last None l1) (dnext s x) l2 None).
  { subst sn. assert (B : dseg sp (Some x) (dnext s x) l2 None).
    { eapply dseg_frame; [|done]. apply Forall_forall. intros y Hy. split; [|done].
      subst sp. destruct (dprev s x) as [q|] eqn:Eq; [|done].
      rewrite dnext_set_dnext, decide_False; [done|]. intros ->.
      apply (Hd y); [|by right]. by destruct (seg_last_Some None l1 y (eq_sym Hp)). }
    rewrite <- Hp. destruct l2 as [|z l2]; simpl in B.
    - by rewrite B.
    - destruct (B) as (Ez & _). rewrite Ez. apply NoDup_cons in Hnd2 as [Hz _].
      rewrite Ez in B. by eapply dseg_set_prev. }
  assert (F : forall y, y <> x -> same_links sn (set_dprev (set_dnext sn x None) x None) y).
  { intros y Hy. split; links. }
  split_and!; [|links..]. apply dseg_app. exists (dnext s x). split.
  - eapply dseg_frame; [|exact A1]. apply Forall_forall. intros y Hy.
    assert (Hyx : y <> x) by (by intros ->). destruct (F y Hyx) as [F1 F2].
    split; [rewrite F1|rewrite F2]; subst sn; destruct (dnext s x) as [n|] eqn:En; links.
    all: exfalso; apply (Hd _ Hy); right; by eapply dseg_head_in.
  - eapply dseg_frame; [|exact A2]. apply Forall_forall. intros y Hy. apply F. by intros ->.
Qed.

(** Neither operation touches a node of another list. *)
Lemma dl_push_front_frame s node l t s' node' y :
  is_dlist s node l -> dl_push_front s node t = (s', node') ->
  y <> t -> y ∉ l -> same_links s s' y.
Proof.
  intros Hl [= <- <-] Ht Hy.
  destruct node as [n|]; [|split; links].
  assert (n <> y) by (intros ->; by eapply Hy, dseg_head_in). split; links.
Qed.

Lemma dl_pop_frame s node l1 x l2 s' node' y :
  is_dlist s node (l1 ++ x :: l2) -> dl_pop s node x = (s', node') ->
  y ∉ l1 ++ x :: l2 -> same_links s s' y.
Proof.
  intros (m & H1 & -> & Hp & H2)%dseg_app [= <- _] Hy.
  rewrite elem_of_app, elem_of_cons in Hy.
  assert (Ep : dprev s x <> Some y).
  { rewrite Hp. intros [?|?]%seg_last_Some; [tauto|done]. }
  assert (En : dnext s x <> Some y).
  { intros E. apply (dseg_head_in _ _ _ _ y) in H2; tauto. }
  assert (x <> y) by (intros ->; tauto).
  destruct (dprev s x) as [p|] eqn:E1; [|destruct (dnext s x) as [n|] eqn:E2; split; links].
  set (s1 := set_dnext s p (dnext s x)).
  assert (S1 : same_links s s1 y) by (split; unfold s1; links).
  assert (S2 : forall r q, r <> Some y ->
    same_links s1 (match r with Some n => set_dprev s1 n q | None => s1 end) y).
  { intros [n|] q Hn; split; links. }
  assert (E : dnext s1 x = dnext s x) by (unfold s1; links). rewrite E.
  destruct (S2 (dnext s x) (dprev s1 x) En) as [A B]. destruct S1 as [C D].
  split; links; congruence.
Qed.

(** [clear] walks the whole list: as many steps as there are nodes suffice, the list
    ends empty and its nodes unlinked, and no other node is written. *)
Lemma dl_clear_spec s node l e :
  NoDup l -> dseg s e node l None ->
  exists s', dl_clear (length l) s node = Some (s', None) /\
    (forall y, y ∉ l -> same_links s s' y) /\
    (forall y, y ∈ l -> dnext s' y = None /\ dprev s' y = None).
Proof.
  revert s node e. induction l as [|x l IH]; intros s node e Hnd Hl.
  - simpl in Hl. subst. exists s. split_and!; [done|done|]. intros y Hy. by apply elem_of_nil in Hy.
  - destruct Hl as (-> & Hp & Hl). apply NoDup_cons in Hnd as [Hx Hnd].
    destruct (IH (set_dprev (set_dnext s x None) x None) (dnext s x) (Some x) Hnd) as (s' & E & F & G).
    { eapply dseg_frame; [|done]. apply Forall_forall. intros y Hy.
      assert (x <> y) by (by intros ->). split; links. }
    exists s'. simpl. split_and!; [done| |].
    + intros y Hy. apply not_elem_of_cons in Hy as [Hyx Hy]. destruct (F y Hy) as [A B].
      split; [rewrite A|rewrite B]; links.
    + intros y Hy. destruct (decide (y ∈ l)) as [Hin|Hin]; [by apply G|].
      apply elem_of_cons in Hy as [->|]; [|done]. destruct (F x Hx) as [A B].
      rewrite A, B. split; links.
Qed.

End operations.

(** *** Forward lists *)

Section forward.
  Implicit Types (s : fstore) (l : list nat).

Lemma fnext_insert s x y p : fnext (<[x := p]> s) y = if decide (x = y) then p else fnext s y.
Proof.
  unfold fnext, fstore in *. case_decide; subst.
  - by rewrite lookup_insert_eq.
  - by rewrite lookup_insert_ne.
Qed.

Lemma fseg_frame s s' h l e :
  (forall x, x ∈ l -> fnext s' x = fnext s x) -> fseg s h l e -> fseg s' h l e.
Proof.
  revert h. induction l as [|x l IH]; intros h F; [done|]. simpl.
  rewrite (F x) by left. intros [-> H]. split; [done|]. apply IH; [|done].
  intros y Hy. apply F. by right.
Qed.

Lemma fl_push_front_spec s node l t s' node' :
  t ∉ l -> is_flist s node l -> fl_push_front s node t = (s', node') -> is_flist s' node' (t :: l).
Proof.
  intros Ht Hl [= <- <-]. split; [done|]. rewrite fnext_insert, decide_True by done.
  eapply fseg_frame; [|exact Hl]. intros x Hx. rewrite fnext_insert, decide_False; [done|].
  by intros ->.
Qed.

Lemma fl_pop_front_spec s node x l :
  is_flist s node (x :: l) -> exists node', fl_pop_front s node = Some (x, node') /\ is_flist s node' l.
Proof. intros [-> H]. by exists (fnext s x). Qed.

(** Popping after pushing gives back the node and the list. *)
Lemma fl_push_pop s node l t s' node' :
  is_flist s node l -> fl_push_front s node t = (s', node') -> fl_pop_front s' node' = Some (t, node).
Proof. intros _ [= <- <-]. unfold fl_pop_front. by rewrite fnext_insert, decide_True. Qed.

Lemma fl_clear_spec s node l :
  NoDup l -> is_flist s node l ->
  exists s', fl_clear (length l) s node = Some (s', None) /\ (forall y, y ∈ l -> fnext s' y = None) /\
    (forall y, y ∉ l -> fnext s' y = fnext s y).
Proof.
  revert s node. induction l as [|x l IH]; intros s node Hnd Hl.
  - unfold is_flist in Hl. simpl in Hl. subst. exists s. split_and!; [done| |done].
    intros y Hy. by apply elem_of_nil in Hy.
  - destruct Hl as (-> & Hl). apply NoDup_cons in Hnd as [Hx Hnd].
    destruct (IH (<[x := None]> s) (fnext s x) Hnd) as (s' & E & F & G).
    { eapply fseg_frame; [|exact Hl]. intros y Hy. rewrite fnext_insert, decide_False; [done|].
      by intros ->. }
    exists s'. simpl. split_and!; [done| |].
    + intros y Hy. destruct (decide (y ∈ l)) as [Hin|Hin]; [by apply F|].
      apply elem_of_cons in Hy as [->|]; [|done]. rewrite (G x Hx), fnext_insert. by rewrite decide_True.
    + intros y Hy. apply not_elem_of_cons in Hy as [Hyx Hy].
      rewrite (G y Hy), fnext_insert, decide_False; [done|]. congruence.
Qed.

End forward.
