(* ===== verification/Timers.v ===== *)
(** * Timers

    [timer_handler] of [lib/include/srsran/common/timers.h]: the timer objects with
    their packed 64-bit state, the free list, the time wheel of [WHEEL_SIZE] double
    linked lists, and the operations on them.  The lists are the intrusive ones of
    [IntrusiveList], so the iterator [step_all] keeps across callbacks is a pointer
    into the wheel as in the code.

    A callback is user code that may call back into the handler.  It is described by
    the calls it makes: [behave f id w h] is the sequence of handler operations the
    callback [f] of timer [id] performs in the state [h] of the handler and [w] of
    the rest of the program, with the new [w].  The lambda of [defer_callback]
    also frees its timer. *)

From S2P Require Import Prelude IntrusiveList.
From stdpp Require Import base list gmap numbers list_basics list_relations.

Local Open Scope Z_scope.

(** ** Constants and the packed state *)

Definition WHEEL_SHIFT : Z := 16.
Definition WHEEL_SIZE : Z := Z.shiftl 1 WHEEL_SHIFT.
Definition WHEEL_MASK : Z := WHEEL_SIZE - 1.
Definition INVALID_ID : Z := 2 ^ 32 - 1.

Definition STOPPED_FLAG : Z := 0.
Definition RUNNING_FLAG : Z := Z.shiftl 1 63.
Definition EXPIRED_FLAG : Z := Z.shiftl 1 62.
Definition MAX_TIMER_DURATION : Z := 0x3FFFFFFF.

Definition decode_is_running (value : Z) : bool := negb (Z.land value RUNNING_FLAG =? 0).
Definition decode_is_expired (value : Z) : bool := negb (Z.land value EXPIRED_FLAG =? 0).
Definition decode_duration (value : Z) : Z := u32 (Z.land (Z.shiftr value 32) MAX_TIMER_DURATION).
Definition decode_timeout (value : Z) : Z := u32 (Z.land value 0xFFFFFFFF).
Definition encode_state (mode_flag duration timeout : Z) : Z :=
  u64 (mode_flag + u64 (Z.shiftl duration 32) + timeout).

(** ** State *)

Section handler.
  Context {F W : Type}.

(** [callback]: a user's function, or the lambda [defer_callback] builds around one. *)
Inductive timer_cb :=
  | cb_user (func : F)
  | cb_defer (func : F) (timer : nat).

(** [timer_impl] without its two list links; [None] is the empty callback. *)
Record timer_impl := mk_timer {
  allocated : bool;
  state : Z;
  callback : option timer_cb
}.

Definition new_timer : timer_impl := mk_timer false 0 None.

(** The [dl_store] and [fl_store] hold the links of the timers, at their ids; a wheel
    position without an entry has an empty list. *)
Record timer_handler := mk_handler {
  cur_time : Z;
  nof_timers_running_ : Z;
  nof_free_timers : Z;
  timer_list : list timer_impl;
  free_list : ptr;
  time_wheel : gmap Z nat;
  dl_store : dstore;
  fl_store : fstore
}.

(** [timer_list[id]]. *)
Definition timer (h : timer_handler) (id : nat) : timer_impl :=
  match timer_list h !! id with Some t => t | None => new_timer end.

Definition upd_timer (h : timer_handler) (id : nat) (t : timer_impl) : timer_handler :=
  mk_handler (cur_time h) (nof_timers_running_ h) (nof_free_timers h) (<[id := t]> (timer_list h))
    (free_list h) (time_wheel h) (dl_store h) (fl_store h).

Definition set_running (h : timer_handler) (n : Z) : timer_handler :=
  mk_handler (cur_time h) n (nof_free_timers h) (timer_list h) (free_list h) (time_wheel h)
    (dl_store h) (fl_store h).

Definition set_cur_time (h : timer_handler) (t : Z) : timer_handler :=
  mk_handler t (nof_timers_running_ h) (nof_free_timers h) (timer_list h) (free_list h) (time_wheel h)
    (dl_store h) (fl_store h).

Definition set_free (h : timer_handler) (n : Z) (node : ptr) (s : fstore) : timer_handler :=
  mk_handler (cur_time h) (nof_timers_running_ h) n (timer_list h) node (time_wheel h) (dl_store h) s.

(** [time_wheel[pos]] after an operation on that list. *)
Definition set_wheel (h : timer_handler) (pos : Z) (sl : dstore * ptr) : timer_handler :=
  mk_handler (cur_time h) (nof_timers_running_ h) (nof_free_timers h) (timer_list h) (free_list h)
    (partial_alter (fun _ => snd sl) pos (time_wheel h)) (fst sl) (fl_store h).

Definition wheel_pos (timeout : Z) : Z := Z.land timeout WHEEL_MASK.

Definition wheel_push_front (h : timer_handler) (pos : Z) (id : nat) : timer_handler :=
  set_wheel h pos (dl_push_front (dl_store h) (time_wheel h !! pos) id).

Definition wheel_pop (h : timer_handler) (pos : Z) (id : nat) : timer_handler :=
  set_wheel h pos (dl_pop (dl_store h) (time_wheel h !! pos) id).

Definition store_state (h : timer_handler) (id : nat) (v : Z) : timer_handler :=
  upd_timer h id (mk_timer (allocated (timer h id)) v (callback (timer h id))).

(** ** Construction *)

(** The reverse loop that fills the free list: the ids below [n], largest first. *)
Fixpoint init_free (n : nat) (s : fstore) (node : ptr) : fstore * ptr :=
  match n with
  | O => (s, node)
  | S n => let '(s, node) := fl_push_front s node n in init_free n s node
  end.

Definition timer_handler_init (capacity : nat) : timer_handler :=
  let '(s, node) := init_free capacity ∅ None in
  mk_handler 0 0 (Z.of_nat capacity) (replicate capacity new_timer) node ∅ ∅ s.

(** ** Timer operations *)

Definition start_run_ (h : timer_handler) (id : nat) (duration_ : Z) : timer_handler :=
  let timer_old_state := state (timer h id) in
  let duration_ := if duration_ =? 0 then decode_duration timer_old_state else duration_ in
  let new_timeout := u32 (cur_time h + duration_) in
  let new_wheel_pos := wheel_pos new_timeout in
  let old_timeout := decode_timeout timer_old_state in
  let was_running := decode_is_running timer_old_state in
  if was_running && (wheel_pos old_timeout =? new_wheel_pos) then
    store_state h id (encode_state RUNNING_FLAG duration_ new_timeout)
  else
    let h :=
      if was_running then
        let h := wheel_pop h (wheel_pos old_timeout) id in
        set_running h (u64 (nof_timers_running_ h - 1))
      else h in
    let h := wheel_push_front h new_wheel_pos id in
    let h := store_state h id (encode_state RUNNING_FLAG duration_ new_timeout) in
    set_running h (u64 (nof_timers_running_ h + 1)).

Definition stop_timer_ (h : timer_handler) (id : nat) (expiry : bool) : timer_handler :=
  let timer_old_state := state (timer h id) in
  if negb (decode_is_running timer_old_state) then h
  else
    let old_timeout := decode_timeout timer_old_state in
    let h := wheel_pop h (wheel_pos old_timeout) id in
    let new_state := encode_state (if expiry then EXPIRED_FLAG else STOPPED_FLAG)
                       (decode_duration timer_old_state) old_timeout in
    let h := store_state h id new_state in
    set_running h (u64 (nof_timers_running_ h - 1)).

Definition set_ (h : timer_handler) (id : nat) (duration_ : Z) : timer_handler :=
  let duration_ := Z.max duration_ 1 in
  let old_state := state (timer h id) in
  if decode_is_running old_state then start_run_ h id duration_
  else store_state h id (encode_state STOPPED_FLAG duration_ 0).

(** The assertion on the duration terminates the program: [None]. *)
Definition timer_set (h : timer_handler) (id : nat) (duration_ : Z) : option timer_handler :=
  if duration_ <=? MAX_TIMER_DURATION then Some (set_ h id duration_) else None.

Definition timer_set_cb (h : timer_handler) (id : nat) (duration_ : Z) (cb : option timer_cb) :
    option timer_handler :=
  if duration_ <=? MAX_TIMER_DURATION then
    let h := set_ h id duration_ in
    Some (upd_timer h id (mk_timer (allocated (timer h id)) (state (timer h id)) cb))
  else None.

Definition timer_run (h : timer_handler) (id : nat) : timer_handler := start_run_ h id 0.

Definition timer_stop (h : timer_handler) (id : nat) : timer_handler := stop_timer_ h id false.

Definition dealloc_timer_ (h : timer_handler) (id : nat) : timer_handler :=
  if negb (allocated (timer h id)) then h
  else
    let h := stop_timer_ h id false in
    let h := upd_timer h id (mk_timer false (encode_state STOPPED_FLAG 0 0) None) in
    let '(s, node) := fl_push_front (fl_store h) (free_list h) id in
    set_free h (u64 (nof_free_timers h + 1)) node s.

(** The handler after the allocation and the id of the timer. *)
Definition alloc_timer (h : timer_handler) : option (timer_handler * nat) :=
  let mark h t := upd_timer h t (mk_timer true (state (timer h t)) (callback (timer h t))) in
  match fl_pop_front (fl_store h) (free_list h) with
  | Some (t, node) =>
      if allocated (timer h t) then None
      else
        let h := set_free h (u64 (nof_free_timers h - 1)) node (fl_store h) in
        Some (mark h t, t)
  | None =>
      let t := length (timer_list h) in
      let h := mk_handler (cur_time h) (nof_timers_running_ h) (nof_free_timers h)
                 (timer_list h ++ [new_timer]) (free_list h) (time_wheel h) (dl_store h) (fl_store h) in
      Some (mark h t, t)
  end.

(** [stop_all]: the loop over the timer list. *)
Definition stop_all (h : timer_handler) : timer_handler :=
  fold_left (fun h id => stop_timer_ h id false) (seq 0 (length (timer_list h))) h.

Definition defer_callback (h : timer_handler) (duration : Z) (func : F) : option timer_handler :=
  '(h, t) ← alloc_timer h;
  h ← timer_set_cb h t duration (Some (cb_defer func t));
  Some (timer_run h t).

(** ** Getters *)

Definition is_running_ (h : timer_handler) (id : nat) : bool := decode_is_running (state (timer h id)).
Definition is_expired_ (h : timer_handler) (id : nat) : bool := decode_is_expired (state (timer h id)).
Definition duration_ (h : timer_handler) (id : nat) : Z := decode_duration (state (timer h id)).
Definition is_set_ (h : timer_handler) (id : nat) : bool := duration_ h id >? 0.

Definition time_elapsed_ (h : timer_handler) (id : nat) : Z :=
  let state_snapshot := state (timer h id) in
  let duration := decode_duration state_snapshot in
  let timeout := decode_timeout state_snapshot in
  if decode_is_running state_snapshot then u32 (duration - u32 (timeout - cur_time h))
  else if decode_is_expired state_snapshot then duration else 0.

Definition nof_timers (h : timer_handler) : Z :=
  u32 (u64 (zlen (timer_list h) - nof_free_timers h)).

Definition nof_running_timers (h : timer_handler) : Z := u32 (nof_timers_running_ h).

(** ** Handles *)

(** A [unique_timer] is its [handle] pointer.  [set] and [run] assert that it is not
    null; the move operations leave the source null. *)
Definition unique_timer : Type := option nat.

Definition ut_is_valid (u : unique_timer) : bool := match u with Some _ => true | None => false end.

Definition ut_set (h : timer_handler) (u : unique_timer) (d : Z) : option timer_handler :=
  match u with Some id => timer_set h id d | None => None end.

Definition ut_set_cb (h : timer_handler) (u : unique_timer) (d : Z) (cb : option timer_cb) :
    option timer_handler :=
  match u with Some id => timer_set_cb h id d cb | None => None end.

Definition ut_run (h : timer_handler) (u : unique_timer) : option timer_handler :=
  match u with Some id => Some (timer_run h id) | None => None end.

Definition ut_stop (h : timer_handler) (u : unique_timer) : timer_handler :=
  match u with Some id => timer_stop h id | None => h end.

Definition ut_release (h : timer_handler) (u : unique_timer) : timer_handler * unique_timer :=
  match u with Some id => (dealloc_timer_ h id, None) | None => (h, None) end.

(** [operator=(unique_timer&&)] on two different objects: the new target and source. *)
Definition ut_assign (u other : unique_timer) : unique_timer * unique_timer := (other, None).

Definition ut_id (u : unique_timer) : Z := match u with Some id => Z.of_nat id | None => INVALID_ID end.
Definition ut_is_set (h : timer_handler) (u : unique_timer) : bool :=
  match u with Some id => is_set_ h id | None => false end.
Definition ut_is_running (h : timer_handler) (u : unique_timer) : bool :=
  match u with Some id => is_running_ h id | None => false end.
Definition ut_is_expired (h : timer_handler) (u : unique_timer) : bool :=
  match u with Some id => is_expired_ h id | None => false end.
Definition ut_time_elapsed (h : timer_handler) (u : unique_timer) : Z :=
  match u with Some id => time_elapsed_ h id | None => 0 end.
Definition ut_duration (h : timer_handler) (u : unique_timer) : Z :=
  match u with Some id => duration_ h id | None => 0 end.

Definition get_unique_timer (h : timer_handler) : option (timer_handler * unique_timer) :=
  '(h, id) ← alloc_timer h; Some (h, Some id).

(** ** The calls user code can make *)

Inductive timer_op :=
  | op_get
  | op_set (id : nat) (duration : Z)
  | op_set_cb (id : nat) (duration : Z) (func : F)
  | op_run (id : nat)
  | op_stop (id : nat)
  | op_release (id : nat)
  | op_stop_all
  | op_defer (duration : Z) (func : F).

Definition exec_op (h : timer_handler) (o : timer_op) : option timer_handler :=
  match o with
  | op_get => fst <$> alloc_timer h
  | op_set id d => timer_set h id d
  | op_set_cb id d f => timer_set_cb h id d (Some (cb_user f))
  | op_run id => Some (timer_run h id)
  | op_stop id => Some (timer_stop h id)
  | op_release id => Some (dealloc_timer_ h id)
  | op_stop_all => Some (stop_all h)
  | op_defer d f => defer_callback h d f
  end.

Fixpoint exec_ops (h : timer_handler) (ops : list timer_op) : option timer_handler :=
  match ops with
  | [] => Some h
  | o :: ops => h ← exec_op h o; exec_ops h ops
  end.

(** ** The clock tick *)

  Context (behave : F -> nat -> W -> timer_handler -> list timer_op * W).

(** [timer.callback(timer.id)]. *)
Definition invoke (c : timer_cb) (id : nat) (h : timer_handler) (w : W) : option (timer_handler * W) :=
  match c with
  | cb_user f =>
      let '(ops, w) := behave f id w h in
      h ← exec_ops h ops; Some (h, w)
  | cb_defer f t =>
      let '(ops, w) := behave f id w h in
      h ← exec_ops h ops; Some (dealloc_timer_ h t, w)
  end.

(** The loop of [step_all] from the iterator [it]; it returns the ids of the timers
    whose callbacks it called, in order.  [None] is a failed assertion or an
    exhausted fuel. *)
Fixpoint step_loop (fuel : nat) (cur_time_local : Z) (h : timer_handler) (w : W) (it : ptr) :
    option (timer_handler * W * list nat) :=
  match it with
  | None => Some (h, w, [])
  | Some x =>
      match fuel with
      | O => None
      | S fuel =>
          let it := dnext (dl_store h) x in
          if decode_timeout (state (timer h x)) =? cur_time_local then
            let h := stop_timer_ h x true in
            match callback (timer h x) with
            | Some c =>
                '(h, w) ← invoke c x h w;
                '(h, w, calls) ← step_loop fuel cur_time_local h w it;
                Some (h, w, x :: calls)
            | None => step_loop fuel cur_time_local h w it
            end
          else step_loop fuel cur_time_local h w it
      end
  end.

Definition step_all (fuel : nat) (h : timer_handler) (w : W) : option (timer_handler * W * list nat) :=
  let cur_time_local := u32 (cur_time h + 1) in
  '(h, w, calls) ← step_loop fuel cur_time_local h w (time_wheel h !! wheel_pos cur_time_local);
  Some (set_cur_time h (u32 (cur_time h + 1)), w, calls).

End handler.

Arguments timer_cb : clear implicits.
Arguments timer_impl : clear implicits.
Arguments timer_handler : clear implicits.
Arguments timer_op : clear implicits.
