(* ===== verification/TimersCorrect.v ===== *)
(** * Correctness of the timer handler

    The invariant of [timer_handler]: every running timer is linked exactly once in
    the wheel position of its timeout, the free list holds exactly the timers that
    are not allocated, and both counters are exact.  Every operation, and the clock
    tick with any callbacks, keeps it; a tick calls the callbacks of exactly the due
    timers when the callbacks leave the other due timers alone; a timer that runs
    for [d] expires in the [d]-th tick. *)

From S2P Require Import Prelude IntrusiveList Timers.
From stdpp Require Import base list gmap numbers list_basics list_relations.

Local Open Scope Z_scope.

(** ** The packed state *)

(** A state word with its three fields in range. *)
Definition is_flag (f : Z) : Prop := f = STOPPED_FLAG \/ f = RUNNING_FLAG \/ f = EXPIRED_FLAG.

Definition wf_state (v : Z) : Prop :=
  exists f d t, v = encode_state f d t /\ is_flag f /\ 0 <= d <= MAX_TIMER_DURATION /\ is_u32 t.

Section packed.
  Variables (f d t : Z).
  Hypotheses (Hf : is_flag f) (Hd : 0 <= d <= MAX_TIMER_DURATION) (Ht : is_u32 t).

Lemma encode_state_value : encode_state f d t = f + d * 2 ^ 32 + t.
Proof.
  unfold encode_state, u64, is_flag, STOPPED_FLAG, RUNNING_FLAG, EXPIRED_FLAG, MAX_TIMER_DURATION, is_u32 in *.
  rewrite Z.shiftl_mul_pow2 by lia. change (Z.shiftl 1 63) with (2 ^ 63) in *.
  change (Z.shiftl 1 62) with (2 ^ 62) in *.
  rewrite (Z.mod_small (d * 2 ^ 32)) by lia. apply Z.mod_small. lia.
Qed.

Lemma decode_timeout_encode : decode_timeout (encode_state f d t) = t.
Proof.
  unfold decode_timeout. rewrite encode_state_value.
  change 0xFFFFFFFF with (Z.ones 32). rewrite Z.land_ones by lia.
  unfold u32, is_flag, STOPPED_FLAG, RUNNING_FLAG, EXPIRED_FLAG, is_u32 in *.
  change (Z.shiftl 1 63) with (2 ^ 31 * 2 ^ 32) in *. change (Z.shiftl 1 62) with (2 ^ 30 * 2 ^ 32) in *.
  rewrite Z.mod_mod by lia. destruct Hf as [-> | [-> | ->]].
  all: rewrite ?Z.add_0_l, <- ?Z.mul_add_distr_r, Z.add_comm, Z.mod_add by lia; by apply Z.mod_small.
Qed.

Lemma encode_state_high : Z.shiftr (encode_state f d t) 32 = f / 2 ^ 32 + d.
Proof.
  rewrite encode_state_value, Z.shiftr_div_pow2 by lia.
  unfold is_flag, STOPPED_FLAG, RUNNING_FLAG, EXPIRED_FLAG, is_u32 in *.
  destruct Hf as [-> | [-> | ->]]; [change 0 with (0 * 2 ^ 32) at 1
    |change (Z.shiftl 1 63) with (2 ^ 31 * 2 ^ 32)|change (Z.shiftl 1 62) with (2 ^ 30 * 2 ^ 32)].
  all: rewrite <- Z.mul_add_distr_r, Z.add_comm, Z.div_add, Z.div_small by lia.
  all: rewrite ?Z.div_mul, ?Z.div_0_l by lia; lia.
Qed.

Lemma decode_duration_encode : decode_duration (encode_state f d t) = d.
Proof.
  unfold decode_duration. rewrite encode_state_high.
  change MAX_TIMER_DURATION with (Z.ones 30) in *. rewrite Z.land_ones by lia.
  unfold is_flag, STOPPED_FLAG, RUNNING_FLAG, EXPIRED_FLAG in *. change (Z.ones 30) with (2 ^ 30 - 1) in *.
  unfold u32. destruct Hf as [-> | [-> | ->]].
  - change (0 / 2 ^ 32) with 0. rewrite Z.add_0_l, !(Z.mod_small d); lia.
  - change (Z.shiftl 1 63 / 2 ^ 32) with (2 * 2 ^ 30).
    rewrite Z.add_comm, Z.mod_add, !(Z.mod_small d); lia.
  - change (Z.shiftl 1 62 / 2 ^ 32) with (1 * 2 ^ 30).
    rewrite Z.add_comm, Z.mod_add, !(Z.mod_small d); lia.
Qed.

(** The two flag bits read as the division by their weight. *)
Lemma encode_state_bit n : 62 <= n -> Z.testbit (encode_state f d t) n = Z.testbit f n.
Proof.
  intros Hn. rewrite encode_state_value. replace n with ((n - 62) + 62) by lia.
  rewrite <- !Z.shiftr_spec by lia. f_equal. rewrite !Z.shiftr_div_pow2 by lia.
  unfold is_flag, STOPPED_FLAG, RUNNING_FLAG, EXPIRED_FLAG, MAX_TIMER_DURATION, is_u32 in *.
  destruct Hf as [-> | [-> | ->]].
  - rewrite !Z.div_small; lia.
  - change (Z.shiftl 1 63) with (2 * 2 ^ 62).
    rewrite <- Z.add_assoc, Z.div_add_l, Z.div_mul, Z.div_small by lia. lia.
  - change (Z.shiftl 1 62) with (1 * 2 ^ 62).
    rewrite <- Z.add_assoc, Z.div_add_l, Z.div_mul, Z.div_small by lia. lia.
Qed.

Lemma decode_flag_encode n :
  62 <= n -> negb (Z.land (encode_state f d t) (2 ^ n) =? 0) = Z.testbit f n.
Proof.
  intros Hn. rewrite land_pow2_testbit by lia. by rewrite encode_state_bit.
Qed.

Lemma decode_is_running_encode : decode_is_running (encode_state f d t) = (f =? RUNNING_FLAG).
Proof.
  unfold decode_is_running. change RUNNING_FLAG with (2 ^ 63) at 1. rewrite decode_flag_encode by lia.
  destruct Hf as [-> | [-> | ->]]; reflexivity.
Qed.

Lemma decode_is_expired_encode : decode_is_expired (encode_state f d t) = (f =? EXPIRED_FLAG).
Proof.
  unfold decode_is_expired. change EXPIRED_FLAG with (2 ^ 62) at 1. rewrite decode_flag_encode by lia.
  destruct Hf as [-> | [-> | ->]]; reflexivity.
Qed.

End packed.

(** ** The invariant *)

Section invariant.
  Context {F W : Type}.
  Implicit Types (h : timer_handler F) (x y : nat) (L : Z -> list nat) (fl : list nat).

Definition timeout_ (h : timer_handler F) (x : nat) : Z := decode_timeout (state (timer h x)).
Definition slot_ (h : timer_handler F) (x : nat) : Z := wheel_pos (timeout_ h x).

Definition count_running (l : list (timer_impl F)) : Z :=
  foldr (fun t n => b2z (decode_is_running (state t)) + n) 0 l.

(** The timer with the id [x]: its state word is well formed, a timer that is not
    allocated is clear, and a deferred callback frees its own timer. *)
Definition wf_timer (x : nat) (t : timer_impl F) : Prop :=
  wf_state (state t) /\
  (allocated t = false -> state t = 0 /\ callback t = None) /\
  (forall f y, callback t = Some (cb_defer f y) -> y = x).

(** [L p] is the list at the wheel position [p] and [fl] the free list. *)
Record handler_inv (h : timer_handler F) (L : Z -> list nat) (fl : list nat) : Prop := mk_inv {
  inv_wheel : forall p, is_dlist (dl_store h) (time_wheel h !! p) (L p);
  inv_nodup : forall p, NoDup (L p);
  inv_linked : forall p x, x ∈ L p <-> is_running_ h x = true /\ slot_ h x = p;
  inv_running : nof_timers_running_ h = u64 (count_running (timer_list h));
  inv_free : is_flist (fl_store h) (free_list h) fl;
  inv_free_nodup : NoDup fl;
  inv_freed : forall x, x ∈ fl <-> (x < length (timer_list h))%nat /\ allocated (timer h x) = false;
  inv_nof_free : nof_free_timers h = u64 (zlen fl);
  inv_timers : forall x, wf_timer x (timer h x);
  inv_time : is_u32 (cur_time h)
}.

Definition handler_ok h : Prop := exists L fl, handler_inv h L fl.

(** *** Reading back *)

Lemma wf_state_0 : wf_state 0.
Proof. exists STOPPED_FLAG, 0, 0. unfold is_flag, is_u32, MAX_TIMER_DURATION. split_and!; auto; lia. Qed.

Lemma wf_new_timer x : wf_timer x (new_timer : timer_impl F).
Proof. split_and!; [apply wf_state_0|done|done]. Qed.

Lemma timer_upd h x t y :
  timer (upd_timer h x t) y =
    if decide (x = y) then (if decide (x < length (timer_list h))%nat then t else new_timer)
    else timer h y.
Proof.
  unfold timer, upd_timer. simpl. destruct (decide (x = y)) as [->|Hne].
  - case_decide.
    + by rewrite list_lookup_insert_eq.
    + rewrite list_insert_ge by lia. by rewrite lookup_ge_None_2 by lia.
  - by rewrite list_lookup_insert_ne.
Qed.

Lemma allocated_lt h x : allocated (timer h x) = true -> (x < length (timer_list h))%nat.
Proof.
  unfold timer. destruct (timer_list h !! x) eqn:E; [|done]. intros _. by eapply lookup_lt_Some.
Qed.

Lemma running_allocated h L fl x :
  handler_inv h L fl -> is_running_ h x = true -> allocated (timer h x) = true.
Proof.
  intros I Hr. destruct (allocated (timer h x)) eqn:E; [done|].
  destruct (inv_timers _ _ _ I x) as (_ & Hc & _). unfold is_running_ in Hr.
  destruct (Hc E) as [E0 _]. by rewrite E0 in Hr.
Qed.

Lemma count_running_insert l x (t t' : timer_impl F) :
  l !! x = Some t ->
  count_running (<[x := t']> l) =
    count_running l - b2z (decode_is_running (state t)) + b2z (decode_is_running (state t')).
Proof.
  revert x. induction l as [|a l IH]; intros [|x] E; simplify_eq/=; [lia|].
  rewrite (IH x) by done. lia.
Qed.

Lemma timer_lookup h x : (x < length (timer_list h))%nat -> timer_list h !! x = Some (timer h x).
Proof.
  intros Hx. unfold timer. destruct (lookup_lt_is_Some_2 _ _ Hx) as [t E]. by rewrite E.
Qed.

(** *** Wheel operations *)

(** The wheel after an operation at one position, the others framed. *)
Lemma wheel_update h L p l' (sl : dstore * ptr) :
  (forall q, is_dlist (dl_store h) (time_wheel h !! q) (L q)) ->
  is_dlist (fst sl) (snd sl) l' ->
  (forall q y, q <> p -> y ∈ L q -> same_links (dl_store h) (fst sl) y) ->
  forall q, is_dlist (fst sl) (time_wheel (set_wheel h p sl) !! q) (if decide (q = p) then l' else L q).
Proof.
  intros HL Hl Hf q. unfold set_wheel. simpl. case_decide as Hq.
  - subst. by rewrite lookup_partial_alter_eq.
  - rewrite lookup_partial_alter_ne by done.
    eapply dseg_frame; [|apply HL]. apply Forall_forall. intros y Hy. by apply (Hf q).
Qed.

(** Each timer is on one list at most. *)
Lemma linked_once h L fl p q x : handler_inv h L fl -> x ∈ L p -> x ∈ L q -> p = q.
Proof. intros I Hp Hq. apply I in Hp as [_ <-]. by apply I in Hq as [_ <-]. Qed.

(** *** The three ways a state word changes *)

Definition unlink h x (v : Z) : timer_handler F :=
  set_running (store_state (wheel_pop h (slot_ h x) x) x v) (u64 (nof_timers_running_ h - 1)).

Definition link h x (p v : Z) : timer_handler F :=
  set_running (store_state (wheel_push_front h p x) x v) (u64 (nof_timers_running_ h + 1)).

(** Everything but the timer [x] and the wheel is kept by [g h]. *)
Lemma timer_store h x v y :
  (x < length (timer_list h))%nat ->
  timer (store_state h x v) y =
    if decide (x = y) then mk_timer (allocated (timer h x)) v (callback (timer h x)) else timer h y.
Proof.
  intros Hx. unfold store_state. rewrite timer_upd. by rewrite (decide_True (P := (x < _)%nat)) by done.
Qed.

Lemma timer_unlink h x v y :
  (x < length (timer_list h))%nat ->
  timer (unlink h x v) y =
    if decide (x = y) then mk_timer (allocated (timer h x)) v (callback (timer h x)) else timer h y.
Proof. intros Hx. exact (timer_store (wheel_pop h (slot_ h x) x) x v y Hx). Qed.

Lemma timer_link h x p v y :
  (x < length (timer_list h))%nat ->
  timer (link h x p v) y =
    if decide (x = y) then mk_timer (allocated (timer h x)) v (callback (timer h x)) else timer h y.
Proof. intros Hx. exact (timer_store (wheel_push_front h p x) x v y Hx). Qed.

Lemma wf_timer_state x (t : timer_impl F) v :
  wf_timer x t -> wf_state v -> allocated t = true -> wf_timer x (mk_timer (allocated t) v (callback t)).
Proof. intros (_ & _ & H) Hv Ha. split_and!; simpl; [done|congruence|done]. Qed.

(** A new timer list that keeps ids and allocation keeps the free list. *)
Lemma freed_keep h h' fl :
  length (timer_list h') = length (timer_list h) ->
  (forall x, allocated (timer h' x) = allocated (timer h x)) ->
  (forall x, x ∈ fl <-> (x < length (timer_list h))%nat /\ allocated (timer h x) = false) ->
  forall x, x ∈ fl <-> (x < length (timer_list h'))%nat /\ allocated (timer h' x) = false.
Proof. intros Hl Ha H x. by rewrite Hl, Ha. Qed.

Lemma filter_ne_notin x (l : list nat) : x ∉ l -> filter (fun y => y <> x) l = l.
Proof.
  induction l as [|a l IH]; intros H; [done|]. apply not_elem_of_cons in H as [Ha Hl].
  rewrite filter_cons_True by congruence. by rewrite IH.
Qed.

Lemma filter_ne_middle x (l1 l2 : list nat) :
  NoDup (l1 ++ x :: l2) -> filter (fun y => y <> x) (l1 ++ x :: l2) = l1 ++ l2.
Proof.
  intros (_ & H1 & [H2 _]%NoDup_cons)%NoDup_app. rewrite filter_app, filter_cons_False by (intros E; by apply E).
  rewrite !filter_ne_notin; [done|done|]. intros Hx. apply (H1 _ Hx). left.
Qed.

Lemma unlink_inv h L fl x v :
  handler_inv h L fl -> is_running_ h x = true -> wf_state v -> decode_is_running v = false ->
  handler_inv (unlink h x v) (fun p => filter (fun y => y <> x) (L p)) fl.
Proof.
  intros I Hr Hv Hs. pose proof (running_allocated _ _ _ _ I Hr) as Ha.
  pose proof (allocated_lt _ _ Ha) as Hx.
  assert (Hin : x ∈ L (slot_ h x)) by (by apply I).
  destruct (list_elem_of_split _ _ Hin) as (l1 & l2 & El).
  pose proof (inv_nodup _ _ _ I (slot_ h x)) as Hnd.
  pose proof (inv_wheel _ _ _ I (slot_ h x)) as Hd. rewrite El in Hnd, Hd.
  destruct (dl_pop (dl_store h) (time_wheel h !! slot_ h x) x) as [s' n'] eqn:Ep.
  destruct (dl_pop_spec _ _ _ _ _ _ _ Hnd Hd Ep) as (Hd' & _).
  assert (At : forall y, allocated (timer (unlink h x v) y) = allocated (timer h y)).
  { intros y. rewrite timer_unlink by done. by case_decide; subst. }
  split.
  - intros q. assert (Hw := wheel_update h L (slot_ h x) (l1 ++ l2) (s', n') (inv_wheel _ _ _ I) Hd').
    unfold unlink, wheel_pop. rewrite Ep. simpl.
    specialize (Hw ltac:(intros q' y Hq Hy; eapply (dl_pop_frame _ _ _ _ _ _ _ y Hd Ep); rewrite <- El;
      intros Hy'; by apply Hq, (linked_once h L fl _ _ y)) q).
    simpl in Hw. case_decide as Hq; subst.
    + rewrite El, filter_ne_middle by done. exact Hw.
    + rewrite filter_ne_notin; [exact Hw|]. intros Hy. by apply Hq, (linked_once h L fl _ _ x).
  - intros p. apply NoDup_filter, I.
  - intros p y. rewrite list_elem_of_filter, (inv_linked _ _ _ I).
    unfold is_running_, slot_, timeout_. rewrite timer_unlink by done.
    destruct (decide (x = y)) as [->|Hne]; simpl; [rewrite Hs|]; intuition congruence.
  - unfold unlink. simpl. rewrite (count_running_insert _ _ _ _ (timer_lookup _ _ Hx)). simpl.
    unfold is_running_ in Hr. rewrite Hr, Hs. rewrite (inv_running _ _ _ I). simpl. unfold u64.
    rewrite Zminus_mod_idemp_l. f_equal. lia.
  - apply I.
  - apply I.
  - apply (freed_keep h); [|done|apply I]. unfold unlink. simpl. by rewrite length_insert.
  - apply I.
  - intros y. rewrite timer_unlink by done. case_decide; subst; [|apply I].
    apply wf_timer_state; [apply I|done|done].
  - apply I.
Qed.

Lemma link_inv h L fl x p v :
  handler_inv h L fl -> is_running_ h x = false -> allocated (timer h x) = true ->
  wf_state v -> decode_is_running v = true -> wheel_pos (decode_timeout v) = p ->
  handler_inv (link h x p v) (fun q => if decide (q = p) then x :: L p else L q) fl.
Proof.
  intros I Hr Ha Hv Hs Hp. pose proof (allocated_lt _ _ Ha) as Hx.
  assert (Hnin : forall q, x ∉ L q) by (intros q [Hq _]%I; congruence).
  destruct (dl_push_front (dl_store h) (time_wheel h !! p) x) as [s' n'] eqn:Ep.
  pose proof (dl_push_front_spec _ _ _ _ _ _ (Hnin p) (inv_nodup _ _ _ I p) (inv_wheel _ _ _ I p) Ep) as Hd'.
  assert (At : forall y, allocated (timer (link h x p v) y) = allocated (timer h y)).
  { intros y. rewrite timer_link by done. by case_decide; subst. }
  split.
  - intros q. assert (Hw := wheel_update h L p (x :: L p) (s', n') (inv_wheel _ _ _ I) Hd').
    unfold link, wheel_push_front. rewrite Ep. simpl. apply Hw. intros q' y Hq Hy.
    apply (dl_push_front_frame _ _ _ _ _ _ y (inv_wheel _ _ _ I p) Ep).
    + intros ->. by apply (Hnin q').
    + intros Hy'. by apply Hq, (linked_once h L fl _ _ y).
  - intros q. case_decide; [apply NoDup_cons; split; [done|apply I]|apply I].
  - intros q y. unfold is_running_, slot_, timeout_. rewrite timer_link by done.
    destruct (decide (x = y)) as [<-|Hne]; simpl.
    + rewrite Hs, Hp. specialize (Hnin q). case_decide; subst; rewrite ?elem_of_cons; intuition congruence.
    + pose proof (inv_linked _ _ _ I q y) as Hl. unfold is_running_, slot_, timeout_ in Hl.
      rewrite <- Hl. case_decide; subst; [rewrite elem_of_cons|]; intuition congruence.
  - unfold link. simpl. rewrite (count_running_insert _ _ _ _ (timer_lookup _ _ Hx)). simpl.
    unfold is_running_ in Hr. rewrite Hr, Hs, (inv_running _ _ _ I). simpl. unfold u64.
    rewrite Zplus_mod_idemp_l. f_equal. lia.
  - apply I.
  - apply I.
  - apply (freed_keep h); [|done|apply I]. unfold link. simpl. by rewrite length_insert.
  - apply I.
  - intros y. rewrite timer_link by done. case_decide; subst; [|apply I].
    apply wf_timer_state; [apply I|done|done].
  - apply I.
Qed.

(** A change that neither starts, stops nor moves the timer leaves the lists alone. *)
Lemma upd_inv h L fl x t :
  handler_inv h L fl -> (x < length (timer_list h))%nat -> wf_timer x t ->
  allocated t = allocated (timer h x) -> decode_is_running (state t) = is_running_ h x ->
  (is_running_ h x = true -> wheel_pos (decode_timeout (state t)) = slot_ h x) ->
  handler_inv (upd_timer h x t) L fl.
Proof.
  intros I Hx Hw Ha Hr Hs.
  assert (Et : forall y, timer (upd_timer h x t) y = if decide (x = y) then t else timer h y).
  { intros y. rewrite timer_upd. by rewrite (decide_True (P := (x < _)%nat)). }
  split.
  - apply I.
  - apply I.
  - intros p y. pose proof (inv_linked _ _ _ I p y) as Hl. rewrite Hl.
    unfold is_running_, slot_, timeout_ in *. rewrite Et.
    destruct (decide (x = y)) as [<-|]; [|done]. rewrite Hr. split; intros [A B]; (split; [done|]).
    + by rewrite Hs.
    + by rewrite <- Hs.
  - unfold upd_timer. simpl. rewrite (count_running_insert _ _ _ _ (timer_lookup _ _ Hx)), Hr.
    rewrite (inv_running _ _ _ I). unfold is_running_. f_equal. lia.
  - apply I.
  - apply I.
  - apply (freed_keep h); [|intros y; rewrite Et; by case_decide; subst|apply I].
    unfold upd_timer. simpl. by rewrite length_insert.
  - apply I.
  - intros y. rewrite Et. case_decide; subst; [done|apply I].
  - apply I.
Qed.

(** ** Each operation on one timer *)

(** What an operation on the timers of [T] leaves alone: the other allocated timers,
    the tail of a wheel list that has none of them, and the clock. *)
Record framed (T : nat -> Prop) h L h' L' : Prop := mk_framed {
  fr_timer : forall y, ~ T y -> allocated (timer h y) = true -> timer h' y = timer h y;
  fr_list : forall p pre rest, L p = pre ++ rest -> (forall y, y ∈ rest -> ~ T y) ->
    exists pre', L' p = pre' ++ rest;
  fr_time : cur_time h' = cur_time h
}.

Lemma framed_refl T h L : framed T h L h L.
Proof. split; eauto. Qed.

Lemma framed_trans T h L h1 L1 h2 L2 :
  framed T h L h1 L1 -> framed T h1 L1 h2 L2 -> framed T h L h2 L2.
Proof.
  intros [A1 B1 C1] [A2 B2 C2]. split.
  - intros y Hy Ha. rewrite A2; [by apply A1|done|by rewrite A1].
  - intros p pre rest E Hr. destruct (B1 p pre rest E Hr) as [pre' E']. by apply (B2 p pre').
  - congruence.
Qed.

Lemma framed_mono (T T' : nat -> Prop) h L h' L' :
  (forall y, T y -> T' y) -> framed T h L h' L' -> framed T' h L h' L'.
Proof.
  intros HT [A B C]. split; [|intros p pre rest E Hr; apply (B p pre rest E)|done].
  - intros y Hy. apply A. auto.
  - intros y Hy Ht. by apply (Hr y), HT.
Qed.

(** The result of an operation: the invariant again, with its frame. *)
Definition op_result (T : nat -> Prop) h L h' : Prop :=
  exists L' fl', handler_inv h' L' fl' /\ framed T h L h' L'.

Lemma unlink_framed h L x v :
  (x < length (timer_list h))%nat ->
  framed (eq x) h L (unlink h x v) (fun p => filter (fun y => y <> x) (L p)).
Proof.
  intros Hx. split; [|intros p pre rest E Hr|done].
  - intros y Hy _. rewrite timer_unlink by done. by rewrite decide_False.
  - exists (filter (fun y => y <> x) pre). rewrite E, filter_app. f_equal.
    apply filter_ne_notin. intros Hx'. by apply (Hr x).
Qed.

Lemma link_framed h L x p v :
  (x < length (timer_list h))%nat ->
  framed (eq x) h L (link h x p v) (fun q => if decide (q = p) then x :: L p else L q).
Proof.
  intros Hx. split; [|intros q pre rest E Hr|done].
  - intros y Hy _. rewrite timer_link by done. by rewrite decide_False.
  - case_decide; subst; [exists (x :: pre); by rewrite E|by exists pre].
Qed.

Lemma upd_framed h L x t : framed (eq x) h L (upd_timer h x t) L.
Proof.
  split; [|eauto|done]. intros y Hy _. rewrite timer_upd. by rewrite decide_False.
Qed.

(** *** Stopping *)

Definition stopped_state h x (expiry : bool) : Z :=
  encode_state (if expiry then EXPIRED_FLAG else STOPPED_FLAG) (duration_ h x) (timeout_ h x).

Lemma stop_timer_eq h x e :
  stop_timer_ h x e = if is_running_ h x then unlink h x (stopped_state h x e) else h.
Proof. unfold stop_timer_, is_running_. by destruct (decode_is_running _). Qed.

Lemma timer_state h L fl x :
  handler_inv h L fl ->
  exists f, state (timer h x) = encode_state f (duration_ h x) (timeout_ h x) /\ is_flag f /\
    0 <= duration_ h x <= MAX_TIMER_DURATION /\ is_u32 (timeout_ h x).
Proof.
  intros I. destruct (inv_timers _ _ _ I x) as ((f & d & t & E & Hf & Hd & Ht) & _).
  unfold duration_, timeout_. rewrite E, decode_duration_encode, decode_timeout_encode by done.
  by exists f.
Qed.

Lemma stopped_wf h L fl x e : handler_inv h L fl -> wf_state (stopped_state h x e).
Proof.
  intros I. destruct (timer_state _ _ _ x I) as (_ & _ & _ & Hd & Ht).
  eexists _, _, _. split; [done|]. split; [|done]. destruct e; unfold is_flag; auto.
Qed.

Lemma stopped_not_running h L fl x e : handler_inv h L fl -> decode_is_running (stopped_state h x e) = false.
Proof.
  intros I. destruct (timer_state _ _ _ x I) as (_ & _ & _ & Hd & Ht). unfold stopped_state.
  rewrite decode_is_running_encode by (try done; destruct e; unfold is_flag; auto). by destruct e.
Qed.

Lemma stop_timer_result h L fl x e :
  handler_inv h L fl -> exists L', handler_inv (stop_timer_ h x e) L' fl /\
    framed (eq x) h L (stop_timer_ h x e) L'.
Proof.
  intros I. rewrite stop_timer_eq. destruct (is_running_ h x) eqn:Hr.
  - eexists. split.
    + by apply unlink_inv; [..|eapply stopped_wf|eapply stopped_not_running].
    + apply unlink_framed. by eapply allocated_lt, running_allocated.
  - exists L. split; [done|apply framed_refl].
Qed.

Lemma callback_stop h x e : callback (timer (stop_timer_ h x e) x) = callback (timer h x).
Proof.
  rewrite stop_timer_eq. destruct (is_running_ h x) eqn:Hr; [|done].
  destruct (decide (x < length (timer_list h))%nat) as [Hx|Hx].
  - rewrite timer_unlink by done. by rewrite decide_True.
  - unfold is_running_, timer in Hr. by rewrite lookup_ge_None_2 in Hr by lia.
Qed.

(** *** Starting *)

Definition run_duration h x (d : Z) : Z := if d =? 0 then duration_ h x else d.
Definition run_timeout h x (d : Z) : Z := u32 (cur_time h + run_duration h x d).
Definition running_state h x (d : Z) : Z :=
  encode_state RUNNING_FLAG (run_duration h x d) (run_timeout h x d).

(** The words and links a push sees are those the pop left. *)
Lemma timer_unlink_push h x p v :
  (x < length (timer_list h))%nat ->
  timer (wheel_push_front (unlink h x v) p x) x = mk_timer (allocated (timer h x)) v (callback (timer h x)).
Proof. intros Hx. pose proof (timer_unlink h x v x Hx) as E. by rewrite decide_True in E. Qed.

Lemma start_run_eq h x d :
  (x < length (timer_list h))%nat ->
  start_run_ h x d =
    if is_running_ h x && (slot_ h x =? wheel_pos (run_timeout h x d))
    then store_state h x (running_state h x d)
    else link (if is_running_ h x then unlink h x 0 else h) x (wheel_pos (run_timeout h x d))
           (running_state h x d).
Proof.
  intros Hx. unfold start_run_, is_running_, slot_, timeout_.
  destruct (decode_is_running _) eqn:Hr; simpl; [|done].
  destruct (_ =? _); [done|].
  unfold link. unfold store_state at 1 2. unfold upd_timer, set_running.
  rewrite !timer_unlink_push by done.
  simpl. f_equal. by rewrite list_insert_insert_eq.
Qed.

Definition valid_duration (d : Z) : Prop := 0 <= d <= MAX_TIMER_DURATION.

Lemma run_duration_valid h L fl x d :
  handler_inv h L fl -> valid_duration d -> valid_duration (run_duration h x d).
Proof.
  intros I Hd. unfold run_duration. case_if; [|done].
  by destruct (timer_state _ _ _ x I) as (_ & _ & _ & ? & _).
Qed.

Lemma running_state_fields h L fl x d :
  handler_inv h L fl -> valid_duration d ->
  wf_state (running_state h x d) /\ decode_is_running (running_state h x d) = true /\
  decode_is_expired (running_state h x d) = false /\
  decode_timeout (running_state h x d) = run_timeout h x d /\
  decode_duration (running_state h x d) = run_duration h x d.
Proof.
  intros I Hd. pose proof (run_duration_valid _ _ _ x _ I Hd) as Hr.
  assert (Ht : is_u32 (run_timeout h x d)) by apply is_u32_mod.
  assert (Hf : is_flag RUNNING_FLAG) by (unfold is_flag; auto). unfold running_state.
  rewrite decode_is_running_encode, decode_is_expired_encode, decode_timeout_encode, decode_duration_encode by done.
  split_and!; try done. by eexists _, _, _.
Qed.

Lemma start_run_result h L fl x d :
  handler_inv h L fl -> valid_duration d -> allocated (timer h x) = true ->
  exists L', handler_inv (start_run_ h x d) L' fl /\ framed (eq x) h L (start_run_ h x d) L'.
Proof.
  intros I Hd Ha. pose proof (allocated_lt _ _ Ha) as Hx.
  destruct (running_state_fields _ _ _ x _ I Hd) as (Hw & Hr & _ & Ht & _).
  rewrite start_run_eq by done. destruct (is_running_ h x) eqn:Er; simpl.
  - destruct (Z.eqb_spec (slot_ h x) (wheel_pos (run_timeout h x d))) as [Es|_].
    + exists L. split; [|apply upd_framed].
      apply upd_inv; simpl; try done; [apply wf_timer_state; [apply I|done|done]|congruence|].
      intros _. by rewrite Ht, Es.
    + eexists. split.
      * apply link_inv; [apply unlink_inv; [done|done|apply wf_state_0|done]|..]; try done.
        -- unfold is_running_. rewrite timer_unlink by done. by rewrite decide_True.
        -- rewrite timer_unlink by done. by rewrite decide_True.
        -- by rewrite Ht.
      * eapply framed_trans; [by apply unlink_framed|apply link_framed].
        unfold unlink. simpl. by rewrite length_insert.
  - eexists. split; [apply link_inv; try done; by rewrite Ht|by apply link_framed].
Qed.

(** The timer after a start. *)
Lemma timer_start_run h x d y :
  (x < length (timer_list h))%nat ->
  timer (start_run_ h x d) y =
    if decide (x = y) then mk_timer (allocated (timer h x)) (running_state h x d) (callback (timer h x))
    else timer h y.
Proof.
  intros Hx. rewrite start_run_eq by done. destruct (is_running_ h x) eqn:Er; simpl.
  - destruct (_ =? _); [by apply timer_store|].
    rewrite timer_link by (unfold unlink; simpl; by rewrite length_insert).
    rewrite !timer_unlink by done. destruct (decide (x = y)); [|done]. by rewrite decide_True.
  - by apply timer_link.
Qed.

Lemma set_result h L fl x d :
  handler_inv h L fl -> valid_duration d -> allocated (timer h x) = true ->
  exists L', handler_inv (set_ h x d) L' fl /\ framed (eq x) h L (set_ h x d) L'.
Proof.
  intros I Hd Ha. assert (Hm : valid_duration (Z.max d 1)) by (unfold valid_duration, MAX_TIMER_DURATION in *; lia).
  unfold set_. fold (is_running_ h x). destruct (is_running_ h x) eqn:Er.
  - by apply start_run_result with (fl := fl).
  - assert (Hf : is_flag STOPPED_FLAG) by (unfold is_flag; auto).
    assert (H0 : is_u32 0) by (unfold is_u32; lia).
    exists L. split; [|apply upd_framed]. apply upd_inv; simpl; try done.
    + by apply allocated_lt.
    + apply wf_timer_state; [apply I| |done]. by eexists _, _, _.
    + by rewrite decode_is_running_encode, Er.
    + congruence.
Qed.

(** *** Freeing and allocating *)

(** The wheel and the running count only depend on the state words. *)
Lemma same_states_inv h h' L fl fl' :
  handler_inv h L fl ->
  (forall y, state (timer h' y) = state (timer h y)) ->
  count_running (timer_list h') = count_running (timer_list h) ->
  time_wheel h' = time_wheel h -> dl_store h' = dl_store h ->
  nof_timers_running_ h' = nof_timers_running_ h -> cur_time h' = cur_time h ->
  is_flist (fl_store h') (free_list h') fl' -> NoDup fl' ->
  (forall x, x ∈ fl' <-> (x < length (timer_list h'))%nat /\ allocated (timer h' x) = false) ->
  nof_free_timers h' = u64 (zlen fl') -> (forall x, wf_timer x (timer h' x)) ->
  handler_inv h' L fl'.
Proof.
  intros I Hs Hc Hw Hd Hn Ht Hf Hfn Hfm Hff Hwf. split; try done.
  - intros p. rewrite Hw, Hd. apply I.
  - apply I.
  - intros p y. unfold is_running_, slot_, timeout_. rewrite Hs. apply I.
  - rewrite Hn, Hc. apply I.
  - rewrite Ht. apply I.
Qed.

Lemma free_inv h L fl x :
  handler_inv h L fl -> allocated (timer h x) = true -> is_running_ h x = false ->
  exists L' fl', handler_inv
    (set_free (upd_timer h x (mk_timer false 0 None)) (u64 (nof_free_timers h + 1)) (Some x)
       (<[x := free_list h]> (fl_store h))) L' fl' /\
    framed (eq x) h L (set_free (upd_timer h x (mk_timer false 0 None)) (u64 (nof_free_timers h + 1)) (Some x)
       (<[x := free_list h]> (fl_store h))) L'.
Proof.
  intros I Ha Hr. pose proof (allocated_lt _ _ Ha) as Hx.
  assert (I' : handler_inv (upd_timer h x (mk_timer true 0 None)) L fl).
  { apply upd_inv; simpl; try done; [|congruence]. split_and!; [apply wf_state_0|done|done]. }
  assert (E : forall b y, timer (upd_timer h x (mk_timer b 0 None)) y =
    if decide (x = y) then mk_timer b 0 None else timer h y).
  { intros b y. rewrite timer_upd. by rewrite (decide_True (P := (x < _)%nat)). }
  assert (Hxf : x ∉ fl) by (intros [_ Hfx]%I; congruence).
  eexists L, (x :: fl). split.
  2: { split; [|eauto|done]. intros y Hy _. unfold timer, set_free. simpl.
       by rewrite list_lookup_insert_ne. }
  apply (same_states_inv (upd_timer h x (mk_timer true 0 None)) _ L fl); try done; simpl.
  - intros y. change (timer (set_free ?a _ _ _) y) with (timer a y). rewrite !E. by case_decide.
  - by rewrite !(count_running_insert _ _ _ _ (timer_lookup _ _ Hx)).
  - by apply (fl_push_front_spec _ _ _ _ _ _ Hxf (inv_free _ _ _ I)).
  - apply NoDup_cons. split; [done|apply I].
  - intros y. change (timer (set_free ?a _ _ _) y) with (timer a y).
    rewrite length_insert, E, elem_of_cons, (inv_freed _ _ _ I).
    destruct (decide (x = y)) as [<-|]; simpl; intuition congruence.
  - rewrite (inv_nof_free _ _ _ I), zlen_cons. unfold u64. rewrite Zplus_mod_idemp_l. f_equal. lia.
  - intros y. change (timer (set_free ?a _ _ _) y) with (timer a y). rewrite E.
    case_decide; subst; [|apply I]. split_and!; [apply wf_state_0|done|done].
Qed.

Lemma dealloc_result h L fl x :
  handler_inv h L fl -> op_result (eq x) h L (dealloc_timer_ h x).
Proof.
  intros I. unfold dealloc_timer_. destruct (allocated (timer h x)) eqn:Ha; simpl.
  2: { exists L, fl. split; [done|apply framed_refl]. }
  destruct (stop_timer_result _ _ _ x false I) as (L1 & I1 & F1).
  assert (Ht : timer (stop_timer_ h x false) x =
    mk_timer true (state (timer (stop_timer_ h x false) x)) (callback (timer h x))).
  { rewrite stop_timer_eq. destruct (is_running_ h x) eqn:Hr.
    - rewrite timer_unlink by (by apply allocated_lt). rewrite decide_True by done. by rewrite Ha.
    - destruct (timer h x). simpl in *. by subst. }
  destruct (free_inv _ L1 fl x I1) as (L2 & fl2 & I2 & F2).
  { by rewrite Ht. }
  { rewrite stop_timer_eq. destruct (is_running_ h x) eqn:Hr; [|done].
    unfold is_running_. rewrite timer_unlink by (by apply allocated_lt). rewrite decide_True by done. simpl.
    by eapply stopped_not_running. }
  change (encode_state STOPPED_FLAG 0 0) with 0.
  exists L2, fl2. split; [exact I2|]. by eapply framed_trans.
Qed.

Lemma timer_grow h n r f node w d s y :
  timer (mk_handler n r f (timer_list h ++ [new_timer]) node w d s) y = timer h y.
Proof.
  unfold timer. simpl. destruct (decide (y < length (timer_list h))%nat) as [Hy|Hy].
  - by rewrite lookup_app_l.
  - rewrite (lookup_ge_None_2 (timer_list h)) by lia. rewrite lookup_app_r by lia.
    destruct (y - length (timer_list h))%nat as [|k]; [done|]. by destruct k.
Qed.

Lemma count_running_app (l1 l2 : list (timer_impl F)) :
  count_running (l1 ++ l2) = count_running l1 + count_running l2.
Proof. induction l1 as [|a l1 IH]; simpl; [done|]. rewrite IH. lia. Qed.

Definition alloc_post h L : Prop :=
  exists h' t fl', alloc_timer h = Some (h', t) /\ handler_inv h' L fl' /\
    framed (fun _ => False) h L h' L /\ allocated (timer h t) = false /\
    timer h' t = mk_timer true 0 None.

(** An empty free list: the timer list grows. *)
Lemma alloc_grow h L : handler_inv h L [] -> alloc_post h L.
Proof.
  intros I. unfold alloc_post, alloc_timer. pose proof (inv_free _ _ _ I) as Hf.
  unfold is_flist in Hf. simpl in Hf. rewrite Hf. simpl. set (t := length (timer_list h)).
  assert (Hn : timer h t = new_timer) by (unfold timer; by rewrite lookup_ge_None_2).
  set (h1 := mk_handler _ _ _ (timer_list h ++ [new_timer]) _ _ _ _).
  assert (E1 : forall y, timer h1 y = timer h y) by (intros y; apply timer_grow).
  assert (Ht : (t < length (timer_list h1))%nat) by (simpl; rewrite length_app; simpl; unfold t; lia).
  assert (E2 : forall y, timer (upd_timer h1 t (mk_timer true 0 None)) y =
    if decide (t = y) then mk_timer true 0 None else timer h y).
  { intros y. rewrite timer_upd, E1. by rewrite (decide_True (P := (t < _)%nat)). }
  rewrite E1, Hn. simpl. exists (upd_timer h1 t (mk_timer true 0 None)), t, []. split_and!; [done| | |by rewrite Hn|].
  + apply (same_states_inv h _ L []); try done; try apply I.
    * intros y. rewrite E2. case_decide; subst; [by rewrite Hn|done].
    * simpl. rewrite (count_running_insert _ _ _ _ (timer_lookup _ _ Ht)), E1, Hn.
      simpl. rewrite count_running_app. simpl. lia.
    * intros y. rewrite E2. simpl. rewrite length_insert, length_app. simpl.
      rewrite (inv_freed _ _ _ I). case_decide; subst; simpl; [intuition; try congruence; lia|].
      unfold t in *. intuition; lia.
    * intros y. rewrite E2. case_decide; subst; [|apply I]. split_and!; [apply wf_state_0|done|done].
  + split; [|eauto|done]. intros y _ Hy. rewrite E2. case_decide; subst; [|done]. by rewrite Hn in Hy.
  + rewrite E2. by rewrite decide_True.
Qed.

(** Otherwise the front of the free list is reused. *)
Lemma alloc_reuse h L t fl : handler_inv h L (t :: fl) -> alloc_post h L.
Proof.
  intros I. unfold alloc_post, alloc_timer. pose proof (inv_free _ _ _ I) as Hf.
  destruct (fl_pop_front_spec _ _ _ _ Hf) as (node' & Ep & Hf'). rewrite Ep.
  assert (Hin : t ∈ t :: fl) by left. apply I in Hin as [Ht Ha]. rewrite Ha.
  destruct (inv_timers _ _ _ I t) as (_ & Hc & _). destruct (Hc Ha) as [Hs Hcb].
  change (timer (set_free h ?a ?b ?c) t) with (timer h t). rewrite Hs, Hcb.
  set (h1 := set_free h _ _ _).
  assert (E2 : forall y, timer (upd_timer h1 t (mk_timer true 0 None)) y =
    if decide (t = y) then mk_timer true 0 None else timer h y).
  { intros y. rewrite timer_upd. by rewrite (decide_True (P := (t < _)%nat)). }
  pose proof (inv_free_nodup _ _ _ I) as [Hnt Hnd]%NoDup_cons.
  exists (upd_timer h1 t (mk_timer true 0 None)), t, fl. split_and!; [done| | |done|].
  + apply (same_states_inv h _ L (t :: fl)); try done.
    * intros y. rewrite E2. by case_decide; subst.
    * simpl. rewrite (count_running_insert _ _ _ _ (timer_lookup _ _ Ht)), Hs. simpl. lia.
    * intros y. rewrite E2. simpl. rewrite length_insert. pose proof (inv_freed _ _ _ I y) as Hy.
      rewrite elem_of_cons in Hy. destruct (decide (t = y)) as [<-|]; simpl; intuition congruence.
    * simpl. rewrite (inv_nof_free _ _ _ I), zlen_cons. unfold u64. rewrite Zminus_mod_idemp_l. f_equal. lia.
    * intros y. rewrite E2. case_decide; subst; [|apply I]. split_and!; [apply wf_state_0|done|done].
  + split; [|eauto|done]. intros y _ Hy. rewrite E2. case_decide; subst; [congruence|done].
  + rewrite E2. by rewrite decide_True.
Qed.

Lemma alloc_result h L fl : handler_inv h L fl -> alloc_post h L.
Proof. intros I. destruct fl; [by apply alloc_grow|by eapply alloc_reuse]. Qed.

(** ** Every call of user code *)

(** What the assertions and the handles of [unique_timer] give: durations in range,
    [set] and [run] through a live handle. *)
Definition op_ok h (o : timer_op F) : Prop :=
  match o with
  | op_set id d => allocated (timer h id) = true /\ valid_duration d
  | op_set_cb id d _ => allocated (timer h id) = true /\ valid_duration d
  | op_run id => allocated (timer h id) = true
  | op_defer d _ => valid_duration d
  | op_get | op_stop _ | op_release _ | op_stop_all => True
  end.

(** The timers an operation acts on; [op_get] and [op_defer] take a free one. *)
Definition op_touches (o : timer_op F) (y : nat) : Prop :=
  match o with
  | op_set id _ | op_set_cb id _ _ | op_run id | op_stop id | op_release id => id = y
  | op_stop_all => True
  | op_get | op_defer _ _ => False
  end.

Lemma stop_fold_result ids h L fl :
  handler_inv h L fl ->
  op_result (fun _ => True) h L (fold_left (fun h id => stop_timer_ h id false) ids h).
Proof.
  revert h L. induction ids as [|x ids IH]; intros h L I; simpl.
  - exists L, fl. split; [done|apply framed_refl].
  - destruct (stop_timer_result _ _ _ x false I) as (L1 & I1 & F1).
    destruct (IH _ _ I1) as (L2 & fl2 & I2 & F2). exists L2, fl2. split; [done|].
    eapply framed_trans; [|exact F2]. by eapply framed_mono; [|exact F1].
Qed.

Lemma set_cb_result h L fl x d c :
  handler_inv h L fl -> allocated (timer h x) = true -> valid_duration d ->
  (forall f y, c = Some (cb_defer f y) -> y = x) ->
  exists h' L', timer_set_cb h x d c = Some h' /\ handler_inv h' L' fl /\ framed (eq x) h L h' L' /\
    allocated (timer h' x) = true /\ callback (timer h' x) = c.
Proof.
  intros I Ha Hd Hc. unfold timer_set_cb. unfold valid_duration in Hd.
  rewrite (proj2 (Z.leb_le _ _)) by lia.
  destruct (set_result _ _ _ _ _ I Hd Ha) as (L1 & I1 & F1).
  assert (Ha1 : allocated (timer (set_ h x d) x) = true).
  { unfold set_. destruct (decode_is_running _).
    - rewrite timer_start_run by (by apply allocated_lt). by rewrite decide_True.
    - rewrite timer_store by (by apply allocated_lt). by rewrite decide_True. }
  pose proof (allocated_lt _ _ Ha1) as Hx. eexists _, L1. split; [done|].
  assert (Et : forall t, timer (upd_timer (set_ h x d) x t) x = t).
  { intros t. rewrite timer_upd. by rewrite !decide_True. }
  split_and!.
  - apply upd_inv; simpl; try done. split_and!; simpl; [apply I1|congruence|done].
  - eapply framed_trans; [exact F1|apply upd_framed].
  - by rewrite Et.
  - by rewrite Et.
Qed.

Lemma defer_result h L fl d f :
  handler_inv h L fl -> valid_duration d ->
  exists h', defer_callback h d f = Some h' /\ op_result (fun _ => False) h L h'.
Proof.
  intros I Hd. destruct (alloc_result _ _ _ I) as (h1 & t & fl1 & Ea & I1 & F1 & Hf & Et).
  unfold defer_callback. rewrite Ea. simpl.
  destruct (set_cb_result h1 L fl1 t d (Some (cb_defer f t)) I1) as (h2 & L2 & E2 & I2 & F2 & Ha2 & _);
    [by rewrite Et|done|congruence|]. rewrite E2. simpl. eexists. split; [done|].
  destruct (start_run_result _ _ _ t 0 I2) as (L3 & I3 & F3); [unfold valid_duration, MAX_TIMER_DURATION; lia|done|].
  exists L3, fl1. split; [done|].
  pose proof (framed_trans _ _ _ _ _ _ _ F2 F3) as [A B C]. destruct F1 as [A1 B1 C1]. split.
  - intros y _ Hy. assert (E1 : timer h1 y = timer h y) by (apply A1; [intros []|done]).
    rewrite A; [done|intros <-; congruence|by rewrite E1].
  - intros p pre rest E _. apply (B p pre rest E). intros y Hy <-.
    assert (Hin : t ∈ L p) by (rewrite E; apply elem_of_app; by right).
    apply I in Hin as [Hr _]. apply (running_allocated _ _ _ _ I) in Hr. congruence.
  - unfold timer_run. congruence.
Qed.

Lemma exec_op_result h L fl o :
  handler_inv h L fl -> op_ok h o -> exists h', exec_op h o = Some h' /\ op_result (op_touches o) h L h'.
Proof.
  intros I Ho. destruct o as [|x d|x d f|x|x|x| |d f]; simpl in Ho |- *.
  - destruct (alloc_result _ _ _ I) as (h1 & t & fl1 & Ea & I1 & F1 & _). rewrite Ea. simpl.
    eexists. split; [done|]. by exists L, fl1.
  - destruct Ho as [Ha Hd]. destruct (set_result _ _ _ _ _ I Hd Ha) as (L1 & I1 & F1).
    unfold timer_set. unfold valid_duration in Hd. rewrite (proj2 (Z.leb_le _ _)) by lia.
    eexists. split; [done|]. by exists L1, fl.
  - destruct Ho as [Ha Hd].
    destruct (set_cb_result h L fl x d (Some (cb_user f)) I Ha Hd) as (h1 & L1 & E1 & I1 & F1 & _); [done|].
    exists h1. split; [done|]. by exists L1, fl.
  - destruct (start_run_result _ _ _ x 0 I) as (L1 & I1 & F1); [unfold valid_duration, MAX_TIMER_DURATION; lia|done|].
    eexists. split; [done|]. by exists L1, fl.
  - destruct (stop_timer_result _ _ _ x false I) as (L1 & I1 & F1). eexists. split; [done|]. by exists L1, fl.
  - eexists. split; [done|]. by eapply dealloc_result.
  - eexists. split; [done|]. by eapply stop_fold_result.
  - by eapply defer_result.
Qed.

(** The same tests as booleans. *)
Definition valid_durationb (d : Z) : bool := (0 <=? d) && (d <=? MAX_TIMER_DURATION).

Definition op_okb h (o : timer_op F) : bool :=
  match o with
  | op_set id d => allocated (timer h id) && valid_durationb d
  | op_set_cb id d _ => allocated (timer h id) && valid_durationb d
  | op_run id => allocated (timer h id)
  | op_defer d _ => valid_durationb d
  | op_get | op_stop _ | op_release _ | op_stop_all => true
  end.

Lemma op_okb_spec h o : op_okb h o = true -> op_ok h o.
Proof.
  unfold op_okb, op_ok, valid_durationb, valid_duration.
  destruct o; rewrite ?andb_true_iff, ?Z.leb_le; tauto.
Qed.

(** *** Sequences of calls *)

Fixpoint ops_ok h (ops : list (timer_op F)) : Prop :=
  match ops with
  | [] => True
  | o :: ops => op_ok h o /\ forall h', exec_op h o = Some h' -> ops_ok h' ops
  end.

Fixpoint ops_okb h (ops : list (timer_op F)) : bool :=
  match ops with
  | [] => true
  | o :: ops => op_okb h o && match exec_op h o with Some h' => ops_okb h' ops | None => true end
  end.

Lemma ops_okb_spec h ops : ops_okb h ops = true -> ops_ok h ops.
Proof.
  revert h. induction ops as [|o ops IH]; intros h; simpl; [done|].
  intros [Ho Hr]%andb_true_iff. split; [by apply op_okb_spec|]. intros h' E. rewrite E in Hr. by apply IH.
Qed.

Definition ops_touch (ops : list (timer_op F)) (y : nat) : Prop := exists o, o ∈ ops /\ op_touches o y.

Lemma exec_ops_result ops h L fl :
  handler_inv h L fl -> ops_ok h ops ->
  exists h', exec_ops h ops = Some h' /\ op_result (ops_touch ops) h L h'.
Proof.
  revert h L fl. induction ops as [|o ops IH]; intros h L fl I Ho; simpl.
  - exists h. split; [done|]. exists L, fl. split; [done|apply framed_refl].
  - destruct Ho as [Ho Hops]. destruct (exec_op_result _ _ _ _ I Ho) as (h1 & E1 & L1 & fl1 & I1 & F1).
    rewrite E1. simpl. destruct (IH h1 L1 fl1 I1 (Hops _ E1)) as (h2 & E2 & L2 & fl2 & I2 & F2).
    exists h2. split; [done|]. exists L2, fl2. split; [done|]. eapply framed_trans.
    + eapply framed_mono; [|exact F1]. intros y Hy. exists o. split; [left|done].
    + eapply framed_mono; [|exact F2]. intros y (o' & Hin & Hy). exists o'. split; [by right|done].
Qed.

(** ** The clock tick *)

  Context (behave : F -> nat -> W -> timer_handler F -> list (timer_op F) * W).

(** The callback of [x] is [f], set by the user or by [defer_callback]. *)
Definition calls_back h x (f : F) : Prop :=
  callback (timer h x) = Some (cb_user f) \/ callback (timer h x) = Some (cb_defer f x).

(** User code keeps to live handles and valid durations. *)
Definition behave_ok : Prop :=
  forall f x w h, handler_ok h -> calls_back h x f -> ops_ok h (fst (behave f x w h)).

(** User code leaves the other timers of the wheel position being served alone. *)
Definition behave_quiet : Prop :=
  forall f x w h y, calls_back h x f -> ops_touch (fst (behave f x w h)) y ->
    y = x \/ is_running_ h y = false \/ slot_ h y <> wheel_pos (u32 (cur_time h + 1)).

(** No callback acts on the timer [y]. *)
Definition untouched (y : nat) : Prop :=
  forall f x w h, calls_back h x f -> ~ ops_touch (fst (behave f x w h)) y.

Lemma invoke_result h L fl x c w :
  behave_ok -> handler_inv h L fl -> callback (timer h x) = Some c ->
  exists f h' w', calls_back h x f /\ invoke behave c x h w = Some (h', w') /\
    op_result (fun y => ops_touch (fst (behave f x w h)) y \/ (c = cb_defer f x /\ y = x)) h L h'.
Proof.
  intros Hb I Hc. assert (Hok : handler_ok h) by (by exists L, fl).
  destruct c as [f|f t]; simpl; destruct (behave f x w h) as [ops w'] eqn:E.
  - destruct (exec_ops_result ops h L fl I) as (h' & Ex & L' & fl' & I' & F').
    { pose proof (Hb f x w h Hok (or_introl Hc)) as H. by rewrite E in H. }
    exists f, h', w'. split; [by left|]. rewrite Ex. split; [done|]. exists L', fl'. split; [done|].
    rewrite E. eapply framed_mono; [|exact F']. by left.
  - assert (t = x) as -> by (destruct (inv_timers _ _ _ I x) as (_ & _ & Hd); by eapply Hd).
    destruct (exec_ops_result ops h L fl I) as (h1 & Ex & L1 & fl1 & I1 & F1).
    { pose proof (Hb f x w h Hok (or_intror Hc)) as H. by rewrite E in H. }
    destruct (dealloc_result h1 L1 fl1 x I1) as (L2 & fl2 & I2 & F2).
    exists f, (dealloc_timer_ h1 x), w'. split; [by right|]. rewrite Ex. split; [done|].
    exists L2, fl2. split; [done|]. rewrite E. eapply framed_trans; (eapply framed_mono; [|done]).
    + by left.
    + intros y <-. by right.
Qed.

Lemma set_time_inv h L fl t : handler_inv h L fl -> is_u32 t -> handler_inv (set_cur_time h t) L fl.
Proof. intros [] Ht. by split. Qed.

(** Whatever the callbacks do, a tick that returns keeps the invariant. *)
Lemma step_loop_ok fuel cur h w it h' w' calls :
  behave_ok -> handler_ok h -> step_loop behave fuel cur h w it = Some (h', w', calls) ->
  handler_ok h' /\ cur_time h' = cur_time h.
Proof.
  intros Hb. revert h w it calls. induction fuel as [|fuel IH]; intros h w [x|] calls Hok E;
    simpl in E; simplify_eq/=; try done.
  destruct (_ =? cur).
  - destruct Hok as (L & fl & I). destruct (stop_timer_result _ _ _ x true I) as (L1 & I1 & F1).
    destruct (callback _) as [c|] eqn:Ec.
    + destruct (invoke_result _ _ _ _ _ w Hb I1 Ec) as (f & h2 & w2 & _ & Ei & L2 & fl2 & I2 & F2).
      rewrite Ei in E. simpl in E. destruct (step_loop _ _ _ _ _ _) as [[[h3 w3] cs]|] eqn:El; simplify_eq/=.
      destruct (IH _ _ _ _ (ex_intro _ L2 (ex_intro _ fl2 I2)) El) as [H3 T3]. split; [done|].
      rewrite T3, (fr_time _ _ _ _ _ F2). by apply F1.
    + destruct (IH _ _ _ _ (ex_intro _ L1 (ex_intro _ fl I1)) E) as [H3 T3]. split; [done|].
      rewrite T3. by apply F1.
  - by eapply IH.
Qed.

Lemma step_all_ok fuel h w h' w' calls :
  behave_ok -> handler_ok h -> step_all behave fuel h w = Some (h', w', calls) ->
  handler_ok h' /\ cur_time h' = u32 (cur_time h + 1).
Proof.
  intros Hb Hok. unfold step_all.
  destruct (step_loop _ _ _ _ _ _) as [[[h1 w1] cs]|] eqn:El; simpl; [|done]. intros [= <- <- <-].
  destruct (step_loop_ok _ _ _ _ _ _ _ _ Hb Hok El) as [(L & fl & I) T]. split; [|simpl; by rewrite T].
  exists L, fl. apply set_time_inv; [done|apply is_u32_mod].
Qed.

(** *** A tick with quiet callbacks *)

Definition has_callback h x : bool := match callback (timer h x) with Some _ => true | None => false end.

(** The timers of [l] whose timeout is [cur], those with a callback among them. *)
Definition due (cur : Z) h (l : list nat) : list nat := filter (fun x => timeout_ h x = cur) l.
Definition due_calls (cur : Z) h (l : list nat) : list nat :=
  filter (fun x => timeout_ h x = cur /\ has_callback h x = true) l.

(** A due timer after its tick, unless its callback frees it. *)
Definition expired_timer h y : timer_impl F :=
  mk_timer true (stopped_state h y true) (callback (timer h y)).

Definition deferred h y : Prop := exists f, callback (timer h y) = Some (cb_defer f y).

Lemma due_calls_ext cur h h' l :
  (forall y, y ∈ l -> timer h' y = timer h y) -> due_calls cur h' l = due_calls cur h l.
Proof.
  intros H. unfold due_calls, timeout_, has_callback. induction l as [|x l IH]; [done|].
  rewrite !filter_cons, (H x) by left. rewrite IH; [done|]. intros y Hy. apply H. by right.
Qed.

(** What one visited timer contributes: the state before the rest of the loop. *)
Lemma step_visit h L fl w pre x rest :
  behave_ok -> behave_quiet -> handler_inv h L fl ->
  L (wheel_pos (u32 (cur_time h + 1))) = pre ++ x :: rest -> timeout_ h x = u32 (cur_time h + 1) ->
  exists h1 w1 L1 fl1 pre1,
    (match callback (timer (stop_timer_ h x true) x) with
     | Some c => invoke behave c x (stop_timer_ h x true) w
     | None => Some (stop_timer_ h x true, w) end) = Some (h1, w1) /\
    handler_inv h1 L1 fl1 /\ cur_time h1 = cur_time h /\
    L1 (wheel_pos (u32 (cur_time h + 1))) = pre1 ++ rest /\
    (forall y, y ∈ rest -> timer h1 y = timer h y) /\
    (forall y, untouched y -> y <> x -> allocated (timer h y) = true -> timer h1 y = timer h y) /\
    (untouched x -> ~ deferred h x -> timer h1 x = expired_timer h x).
Proof.
  intros Hb Hq I El Et. set (cur := u32 (cur_time h + 1)) in *. set (p := wheel_pos cur) in *.
  assert (Hin : x ∈ L p) by (rewrite El; apply elem_of_app; right; left).
  pose proof Hin as [Hr _]%I. pose proof (running_allocated _ _ _ _ I Hr) as Ha.
  pose proof (inv_nodup _ _ _ I p) as Hnd. rewrite El in Hnd.
  apply NoDup_app in Hnd as (_ & _ & [Hx Hnd]%NoDup_cons).
  destruct (stop_timer_result _ _ _ x true I) as (L1 & I1 & F1).
  assert (Ex : timer (stop_timer_ h x true) x = expired_timer h x).
  { rewrite stop_timer_eq, Hr, timer_unlink by (by apply allocated_lt). rewrite decide_True by done.
    unfold expired_timer. by rewrite Ha. }
  assert (El' : L p = (pre ++ [x]) ++ rest) by (by rewrite El, <- app_assoc).
  destruct (fr_list _ _ _ _ _ F1 p _ _ El') as [pre1 E1]; [by intros y Hy <-|].
  assert (Hrest : forall y, y ∈ rest -> timer (stop_timer_ h x true) y = timer h y /\
    is_running_ h y = true /\ slot_ h y = p).
  { intros y Hy. assert (Hy' : y ∈ L p) by (rewrite El'; apply elem_of_app; by right).
    apply I in Hy' as [Hyr Hys]. split; [|done]. apply (fr_timer _ _ _ _ _ F1); [by intros <-|].
    by eapply running_allocated. }
  rewrite Ex. simpl. destruct (callback (timer h x)) as [c|] eqn:Ec.
  - destruct (invoke_result _ _ _ x c w Hb I1) as (f & h2 & w2 & Hcb & Ei & L2 & fl2 & I2 & F2).
    { by rewrite Ex. }
    assert (HT : forall y, y ∈ rest -> ~ (ops_touch (fst (behave f x w (stop_timer_ h x true))) y \/
      c = cb_defer f x /\ y = x)).
    { intros y Hy [Ht|[_ ->]]; [|done]. destruct (Hrest y Hy) as (Ey & Hyr & Hys).
      destruct (Hq _ _ _ _ _ Hcb Ht) as [->|[Hn|Hn]]; [done| |].
      - unfold is_running_ in Hn, Hyr. rewrite Ey in Hn. congruence.
      - apply Hn. unfold slot_, timeout_. rewrite Ey, (fr_time _ _ _ _ _ F1). exact Hys. }
    destruct (fr_list _ _ _ _ _ F2 p _ _ E1) as [pre2 E2]; [done|].
    exists h2, w2, L2, fl2, pre2. split_and!; try done.
    + rewrite (fr_time _ _ _ _ _ F2). apply F1.
    + intros y Hy. destruct (Hrest y Hy) as (Ey & Hyr & _).
      rewrite (fr_timer _ _ _ _ _ F2), Ey; [done|by apply HT|].
      rewrite Ey. by eapply running_allocated.
    + intros y Hu Hyx Hy. pose proof (fr_timer _ _ _ _ _ F1 y (not_eq_sym Hyx) Hy) as Ey.
      rewrite (fr_timer _ _ _ _ _ F2), Ey; [done| |by rewrite Ey].
      intros [Ht|[_ ->]]; [|done]. by apply (Hu _ _ _ _ Hcb Ht).
    + intros Hu Hd. rewrite (fr_timer _ _ _ _ _ F2), Ex; [done| |by rewrite Ex].
      intros [Ht|[-> _]]; [by apply (Hu _ _ _ _ Hcb Ht)|]. apply Hd. by exists f.
  - exists (stop_timer_ h x true), w, L1, fl, pre1. split_and!; try done; [apply F1| |].
    + intros y Hy. by apply Hrest.
    + intros y _ Hyx Hy. by apply (fr_timer _ _ _ _ _ F1).
Qed.

(** The loop over the rest of the list at the served position. *)
Lemma step_loop_quiet rest fuel h w L fl pre cur :
  behave_ok -> behave_quiet -> handler_inv h L fl -> cur = u32 (cur_time h + 1) ->
  L (wheel_pos cur) = pre ++ rest -> (length rest <= fuel)%nat ->
  exists h' w', step_loop behave fuel cur h w (head rest) = Some (h', w', due_calls cur h rest) /\
    handler_ok h' /\ cur_time h' = cur_time h /\
    (forall y, untouched y -> allocated (timer h y) = true -> y ∉ due cur h rest -> timer h' y = timer h y) /\
    (forall y, untouched y -> ~ deferred h y -> y ∈ due cur h rest -> timer h' y = expired_timer h y).
Proof.
  intros Hb Hq. revert fuel h w L fl pre. induction rest as [|x rest IH]; intros fuel h w L fl pre I Ec El Hf.
  { exists h, w. simpl. split_and!; [by destruct fuel|by exists L, fl|done|done|].
    intros y _ _ Hy. by apply elem_of_nil in Hy. }
  destruct fuel as [|fuel]; simpl in Hf; [lia|]. simpl.
  assert (Hn : dnext (dl_store h) x = head rest).
  { pose proof (inv_wheel _ _ _ I (wheel_pos cur)) as Hw. rewrite El in Hw. by apply dseg_next in Hw. }
  fold (timeout_ h x).
  destruct (Z.eqb_spec (timeout_ h x) cur) as [Ht|Ht].
  - rewrite Ec in El, Ht.
    destruct (step_visit h L fl w pre x rest Hb Hq I El Ht)
      as (h1 & w1 & L1 & fl1 & pre1 & E1 & I1 & T1 & El1 & Hr1 & Hu1 & Hx1).
    rewrite <- Ec in El1.
    destruct (IH fuel h1 w1 L1 fl1 pre1 I1) as (h2 & w2 & E2 & Hok2 & T2 & Hu2 & Hd2);
      [by rewrite T1|done|lia|].
    rewrite (due_calls_ext _ _ _ _ Hr1) in E2.
    assert (Hdue : forall y, y ∈ due cur h1 rest <-> y ∈ due cur h rest).
    { intros y. unfold due. rewrite !list_elem_of_filter. unfold timeout_.
      split; intros [A B]; (split; [|done]); [by rewrite <- (Hr1 y B)|by rewrite (Hr1 y B)]. }
    assert (Ed : due cur h (x :: rest) = x :: due cur h rest) by (apply filter_cons_True; by rewrite Ec).
    exists h2, w2. rewrite Ed. split_and!; [|done|congruence| |].
    + assert (Eh : has_callback h x = match callback (timer (stop_timer_ h x true) x) with
        Some _ => true | None => false end) by (by rewrite callback_stop).
      unfold due_calls. rewrite filter_cons, Eh, Hn.
      destruct (callback _) as [c|]; simpl in E1 |- *.
      * rewrite E1. simpl. rewrite E2. simpl. by rewrite decide_True by (by rewrite Ec).
      * injection E1 as -> ->. rewrite decide_False by (by intros [_ ?]). exact E2.
    + intros y Hu Hy Hyd. apply not_elem_of_cons in Hyd as [Hyx Hyd].
      rewrite Hu2; [by apply Hu1|done|by rewrite Hu1|]. by rewrite Hdue.
    + intros y Hu Hd Hy. assert (Hx : x ∉ rest).
      { pose proof (inv_nodup _ _ _ I (wheel_pos cur)) as Hnd. rewrite Ec, El in Hnd.
        by apply NoDup_app in Hnd as (_ & _ & [? _]%NoDup_cons). }
      apply elem_of_cons in Hy as [->|Hy].
      * rewrite Hu2; [by apply Hx1|done| |].
        -- by rewrite Hx1.
        -- rewrite Hdue. unfold due. rewrite list_elem_of_filter. by intros [_ ?].
      * assert (Hyr : y ∈ rest) by (by apply list_elem_of_filter in Hy as [_ ?]).
        rewrite Hd2; [|done| |by apply Hdue]; unfold expired_timer, deferred, stopped_state, duration_, timeout_;
          by rewrite Hr1.
  - unfold due, due_calls. rewrite !filter_cons_False by (try (intros [? _]); done). rewrite Hn.
    destruct (IH fuel h w L fl (pre ++ [x]) I Ec) as (h2 & w2 & E2 & R); [by rewrite <- app_assoc|lia|].
    by exists h2, w2.
Qed.

Lemma linked_bound h L fl p : handler_inv h L fl -> (length (L p) <= length (timer_list h))%nat.
Proof.
  intros I. rewrite <- (length_seq (length (timer_list h)) 0).
  apply NoDup_incl_length; [apply NoDup_ListNoDup, I|]. intros x Hx.
  apply list_elem_of_In in Hx. apply I in Hx as [Hr _]. apply list_elem_of_In, elem_of_seq.
  pose proof (allocated_lt _ _ (running_allocated _ _ _ _ I Hr)). lia.
Qed.

(** A tick serves exactly the due timers. *)
Definition is_due h x : Prop := is_running_ h x = true /\ timeout_ h x = u32 (cur_time h + 1).

Lemma step_all_quiet fuel h w :
  behave_ok -> behave_quiet -> handler_ok h -> (length (timer_list h) <= fuel)%nat ->
  exists h' w' calls, step_all behave fuel h w = Some (h', w', calls) /\
    handler_ok h' /\ cur_time h' = u32 (cur_time h + 1) /\
    NoDup calls /\ (forall x, x ∈ calls <-> is_due h x /\ has_callback h x = true) /\
    (forall y, untouched y -> allocated (timer h y) = true -> ~ is_due h y -> timer h' y = timer h y) /\
    (forall y, untouched y -> ~ deferred h y -> is_due h y -> timer h' y = expired_timer h y).
Proof.
  intros Hb Hq (L & fl & I) Hf. set (cur := u32 (cur_time h + 1)). pose proof (linked_bound _ _ _ (wheel_pos cur) I).
  destruct (step_loop_quiet (L (wheel_pos cur)) fuel h w L fl [] cur Hb Hq I eq_refl eq_refl ltac:(lia))
    as (h1 & w1 & E1 & (L1 & fl1 & I1) & T1 & Hu & Hd).
  assert (Hdue : forall x, x ∈ due cur h (L (wheel_pos cur)) <-> is_due h x).
  { intros x. unfold due, is_due. rewrite list_elem_of_filter, (inv_linked _ _ _ I). unfold slot_. fold cur.
    split; [tauto|]. intros [? Ht]. by rewrite Ht. }
  exists (set_cur_time h1 (u32 (cur_time h1 + 1))), w1, (due_calls cur h (L (wheel_pos cur))).
  unfold step_all. fold cur. rewrite (dseg_head _ _ _ _ (inv_wheel _ _ _ I (wheel_pos cur))), E1. simpl.
  rewrite T1. split_and!; [done| |done|apply NoDup_filter, I| | |].
  - exists L1, fl1. apply set_time_inv; [done|apply is_u32_mod].
  - intros x. rewrite <- Hdue. unfold due_calls, due. rewrite !list_elem_of_filter. tauto.
  - intros y Hy Ha Hn. apply Hu; [done|done|]. by rewrite Hdue.
  - intros y Hy Hn Hin. apply Hd; [done|done|]. by rewrite Hdue.
Qed.

(** *** Many ticks *)

Definition tick h (w : W) : option (timer_handler F * W * list nat) :=
  step_all behave (length (timer_list h)) h w.

Fixpoint ticks (n : nat) h (w : W) : option (timer_handler F * W * list (list nat)) :=
  match n with
  | O => Some (h, w, [])
  | S n => '(h, w, cs) ← ticks n h w; '(h, w, c) ← tick h w; Some (h, w, cs ++ [c])
  end.

(** The timer [y], started at the time [c] for [d], after [n] ticks. *)
Definition started_timer (c d : Z) (n : nat) (cb : option (timer_cb F)) : timer_impl F :=
  mk_timer true (encode_state (if Z.of_nat n <? d then RUNNING_FLAG else EXPIRED_FLAG) d (u32 (c + d))) cb.

Lemma started_fields c d n cb :
  valid_duration d ->
  decode_is_running (state (started_timer c d n cb)) = (Z.of_nat n <? d) /\
  decode_is_expired (state (started_timer c d n cb)) = negb (Z.of_nat n <? d) /\
  decode_timeout (state (started_timer c d n cb)) = u32 (c + d) /\
  decode_duration (state (started_timer c d n cb)) = d.
Proof.
  intros Hd. simpl. assert (Ht : is_u32 (u32 (c + d))) by apply is_u32_mod.
  rewrite decode_is_running_encode, decode_is_expired_encode, decode_timeout_encode, decode_duration_encode
    by (try done; destruct (_ <? _); unfold is_flag; auto).
  by destruct (_ <? _).
Qed.

Lemma u32_same_tick c d n :
  valid_duration d -> Z.of_nat n < d -> u32 (u32 (c + Z.of_nat n) + 1) = u32 (c + d) <-> Z.of_nat n + 1 = d.
Proof.
  unfold valid_duration, MAX_TIMER_DURATION, u32. intros Hd Hn. rewrite Zplus_mod_idemp_l.
  split; [|intros <-; f_equal; lia].
  pose proof (Z.div_mod (c + Z.of_nat n + 1) (2 ^ 32)). pose proof (Z.div_mod (c + d) (2 ^ 32)). lia.
Qed.

(** A timer started for [d] stays as [started_timer] says and is called in the [d]-th
    tick only. *)
Lemma ticks_started n h w y d cb :
  behave_ok -> behave_quiet -> handler_ok h -> untouched y ->
  valid_duration d -> 0 < d -> timer h y = started_timer (cur_time h) d 0 (Some (cb_user cb)) ->
  exists h' w' cs, ticks n h w = Some (h', w', cs) /\ handler_ok h' /\
    cur_time h' = u32 (cur_time h + Z.of_nat n) /\
    timer h' y = started_timer (cur_time h) d n (Some (cb_user cb)) /\ length cs = n /\
    (forall k c, cs !! k = Some c -> y ∈ c <-> Z.of_nat k + 1 = d).
Proof.
  intros Hb Hq Hok Hu Hd Hd0 Ht. induction n as [|n IH].
  - exists h, w, []. split_and!; try done. simpl. rewrite Z.add_0_r. symmetry. apply u32_id.
    by destruct Hok as (L & fl & I); apply I.
  - destruct IH as (h1 & w1 & cs & E1 & Hok1 & T1 & Ht1 & Hl & Hc).
    destruct (step_all_quiet (length (timer_list h1)) h1 w1 Hb Hq Hok1 ltac:(lia))
      as (h2 & w2 & c & E2 & Hok2 & T2 & _ & Hcalls & Hkeep & Hexp).
    exists h2, w2, (cs ++ [c]). simpl. rewrite E1. simpl. unfold tick. rewrite E2. simpl.
    destruct (started_fields (cur_time h) d n (Some (cb_user cb)) Hd) as (Fr & Fe & Ft & Fd).
    assert (Hdue : is_due h1 y <-> Z.of_nat n + 1 = d).
    { unfold is_due, is_running_, timeout_. rewrite Ht1, Fr, Ft, T1.
      destruct (Z.ltb_spec (Z.of_nat n) d); [|split; [by intros [? _]|lia]].
      rewrite <- (u32_same_tick (cur_time h)) by done. intuition congruence. }
    split_and!; [done|done| | | |].
    + rewrite T2, T1. unfold u32. rewrite Zplus_mod_idemp_l. f_equal. lia.
    + destruct (decide (Z.of_nat n + 1 = d)) as [Hn|Hn].
      * rewrite Hexp; [|done|unfold deferred; rewrite Ht1; by intros [? ?]|by apply Hdue].
        unfold expired_timer, stopped_state, duration_, timeout_. rewrite Ht1, Fd, Ft.
        unfold started_timer. simpl callback. rewrite (proj2 (Z.ltb_ge (Z.of_nat (S n)) d)) by lia. done.
      * rewrite Hkeep, Ht1; [|done|by rewrite Ht1|by rewrite Hdue].
        unfold started_timer. destruct (Z.ltb_spec (Z.of_nat n) d), (Z.ltb_spec (Z.of_nat (S n)) d); try done; lia.
    + rewrite length_app. simpl. lia.
    + intros k c' Hk. apply lookup_snoc_Some in Hk as [[Hlt Hk]|[-> <-]]; [by apply Hc|].
      rewrite Hcalls, Hdue, Hl. unfold has_callback. rewrite Ht1. simpl. tauto.
Qed.

(** ** Reachable states *)

Lemma init_free_spec n s node l s' node' :
  is_flist s node l -> (forall x, x ∈ l -> (n <= x)%nat) -> init_free n s node = (s', node') ->
  is_flist s' node' (seq 0 n ++ l).
Proof.
  revert s node l. induction n as [|n IH]; intros s node l Hl Hn E; simpl in E.
  - by injection E as <- <-.
  - replace (seq 0 (S n) ++ l) with (seq 0 n ++ n :: l).
    + eapply IH; [|intros x [->|Hx]%elem_of_cons; [done|specialize (Hn x Hx); lia]|exact E].
      eapply fl_push_front_spec; [|done|done]. intros Hx. specialize (Hn n Hx). lia.
    + rewrite seq_S, <- app_assoc. done.
Qed.

Lemma init_ok capacity : Z.of_nat capacity < 2 ^ 32 -> handler_ok (timer_handler_init capacity : timer_handler F).
Proof.
  intros Hc. unfold timer_handler_init. destruct (init_free capacity ∅ None) as [s node] eqn:E.
  pose proof (init_free_spec _ _ _ [] _ _ eq_refl ltac:(intros x Hx; by apply elem_of_nil in Hx) E) as Hl.
  rewrite app_nil_r in Hl. set (h := mk_handler _ _ _ _ _ _ _ _).
  assert (Et : forall x, timer h x = new_timer).
  { intros x. unfold timer. simpl. destruct (replicate capacity new_timer !! x) eqn:Ex; [|done].
    by apply lookup_replicate in Ex as [-> _]. }
  exists (fun _ => []), (seq 0 capacity). split; try done; simpl.
  - intros p. constructor.
  - intros p x. unfold is_running_. rewrite Et. split; [intros Hx; by apply elem_of_nil in Hx|by intros [? _]].
  - clear. induction capacity as [|n IH]; simpl; [done|]. unfold count_running in *. simpl. by rewrite Z.add_0_l.
  - apply NoDup_ListNoDup, seq_NoDup.
  - intros x. rewrite Et, length_replicate, elem_of_seq. simpl. lia.
  - unfold zlen. rewrite length_seq. symmetry. apply Z.mod_small. lia.
  - intros x. rewrite Et. apply wf_new_timer.
Qed.

(** Calls between ticks may change the rest of the program in any way. *)
Inductive reachable : timer_handler F -> W -> Prop :=
  | reachable_init capacity w : Z.of_nat capacity < 2 ^ 32 -> reachable (timer_handler_init capacity) w
  | reachable_op h w o h' w' : reachable h w -> op_ok h o -> exec_op h o = Some h' -> reachable h' w'
  | reachable_tick h w fuel h' w' calls :
      reachable h w -> step_all behave fuel h w = Some (h', w', calls) -> reachable h' w'.

Lemma reachable_ops h w ops h' :
  reachable h w -> ops_okb h ops = true -> exec_ops h ops = Some h' -> reachable h' w.
Proof.
  intros Hr Ho%ops_okb_spec. revert h Hr Ho. induction ops as [|o ops IH]; intros h Hr Ho E; simpl in E.
  - by simplify_eq.
  - destruct Ho as [Ho Hops]. destruct (exec_op h o) as [h1|] eqn:E1; [|done]. simpl in E.
    apply (IH h1); [by eapply reachable_op|by apply Hops|done].
Qed.

Lemma reachable_ok h w : behave_ok -> reachable h w -> handler_ok h.
Proof.
  intros Hb. induction 1 as [capacity w Hc|h w o h' w' _ (L & fl & I) Ho E|h w fuel h' w' calls _ IH E].
  - by apply init_ok.
  - destruct (exec_op_result _ _ _ _ I Ho) as (h1 & E1 & L1 & fl1 & I1 & _). simplify_eq. by exists L1, fl1.
  - by eapply step_all_ok.
Qed.

(** The timers in use, counted over the ids. *)
Definition allocated_ids h : list nat :=
  filter (fun x => allocated (timer h x) = true) (seq 0 (length (timer_list h))).

Lemma nof_timers_exact h : handler_ok h -> nof_timers h = u32 (zlen (allocated_ids h)).
Proof.
  intros (L & fl & I). set (all := seq 0 (length (timer_list h))).
  assert (P : Permutation fl (filter (fun x => ~ allocated (timer h x) = true) all)).
  { apply NoDup_Permutation; [apply I|apply NoDup_filter, NoDup_ListNoDup, seq_NoDup|].
    intros x. rewrite (inv_freed _ _ _ I), list_elem_of_filter. unfold all. rewrite elem_of_seq.
    destruct (allocated (timer h x)); intuition (try congruence; lia). }
  unfold nof_timers, allocated_ids. rewrite (inv_nof_free _ _ _ I). fold all.
  unfold zlen. rewrite (Permutation_length P).
  assert (E : length (timer_list h) = (length (filter (fun x => allocated (timer h x) = true) all) +
    length (filter (fun x => ~ allocated (timer h x) = true) all))%nat).
  { rewrite <- (length_seq (length (timer_list h)) 0) at 1. fold all. rewrite <- length_app.
    symmetry. apply Permutation_length, filter_app_complement. }
  unfold u32, u64. rewrite E. set (a := length _). set (b := length (filter _ _)).
  rewrite Zminus_mod_idemp_r. rewrite Z.mod_mod_divide by (by exists (2 ^ 32)).
  f_equal. lia.
Qed.

End invariant.

(** ** Properties *)

Section properties.
  Context {F W : Type}.
  Context (behave : F -> nat -> W -> timer_handler F -> list (timer_op F) * W).
  Implicit Types (h : timer_handler F) (w : W).

(** C16: in every state reachable by calls of the handler and by clock ticks, whatever the
    callbacks do with live handles, the wheel list of each position holds exactly the
    running timers whose timeout falls there, once each and properly linked both ways, the
    free list holds exactly the timers not in use, and both counters are exact. *)
Theorem timers_invariant h w :
  behave_ok behave -> reachable behave h w ->
  handler_ok h /\ nof_running_timers h = u32 (count_running (timer_list h)) /\
  nof_timers h = u32 (zlen (allocated_ids h)).
Proof.
  intros Hok Hr. pose proof (reachable_ok behave h w Hok Hr) as Ho. split; [done|].
  split; [|by apply nof_timers_exact]. destruct Ho as (L & fl & I).
  unfold nof_running_timers. rewrite (inv_running _ _ _ I). unfold u32, u64.
  by rewrite Z.mod_mod_divide by (by exists (2 ^ 32)).
Qed.

(** C17: when callbacks leave the other running timers of the wheel position being served
    alone ([behave_quiet]; [TimersDemo.stop_in_callback_ignored] shows what happens
    otherwise), a clock tick terminates within as many visits as there are timers, calls the callback of exactly the
    timers that are running and due, once each, expires those whose callback does not act
    on them, and changes no other timer the callbacks do not act on. *)
Theorem tick_serves_due h w :
  behave_ok behave -> behave_quiet behave -> reachable behave h w ->
  exists h' w' calls, tick behave h w = Some (h', w', calls) /\
    cur_time h' = u32 (cur_time h + 1) /\
    NoDup calls /\ (forall x, x ∈ calls <-> is_due h x /\ has_callback h x = true) /\
    (forall y, untouched behave y -> ~ deferred h y -> is_due h y ->
       is_running_ h' y = false /\ is_expired_ h' y = true /\ duration_ h' y = duration_ h y) /\
    (forall y, untouched behave y -> allocated (timer h y) = true -> ~ is_due h y -> timer h' y = timer h y).
Proof.
  intros Hok Hquiet Hr. pose proof (reachable_ok behave h w Hok Hr) as Ho.
  destruct (step_all_quiet behave (length (timer_list h)) h w Hok Hquiet Ho ltac:(lia))
    as (h' & w' & calls & E & Ho' & T & Hnd & Hc & Hk & He).
  exists h', w', calls. split_and!; try done. intros y Hu Hd Hy.
  destruct Ho as (L & fl & I). destruct (timer_state _ _ _ y I) as (_ & _ & _ & Hd' & Ht').
  assert (Hf : is_flag EXPIRED_FLAG) by (unfold is_flag; auto).
  unfold is_running_, is_expired_, duration_ at 1. rewrite (He y) by done. simpl.
  unfold stopped_state. by rewrite decode_is_running_encode, decode_is_expired_encode, decode_duration_encode.
Qed.

(** C18: when callbacks leave the other running timers of the wheel position being served
    alone ([behave_quiet]), a timer set to [d] with a callback of its user and started,
    which no callback acts on, is running for [d] ticks with the elapsed time counting
    them, is expired from the [d]-th tick on, and its callback is called in the [d]-th tick and in no other, across the wrap
    of the clock and of the wheel.  Without the condition this is false: a callback that
    stops another timer of the position makes the loop leave out the timers behind it, also
    those that nothing acts on ([TimersDemo.stop_in_callback_ignored]). *)
Theorem timer_expires_exactly h w y d f n :
  behave_ok behave -> behave_quiet behave -> reachable behave h w -> untouched behave y -> callback (timer h y) = Some (cb_user f) ->
  duration_ h y = d -> 0 < d ->
  exists h' w' cs, ticks behave n (timer_run h y) w = Some (h', w', cs) /\ length cs = n /\
    (forall k c, cs !! k = Some c -> y ∈ c <-> Z.of_nat k + 1 = d) /\
    is_running_ h' y = (Z.of_nat n <? d) /\ is_expired_ h' y = negb (Z.of_nat n <? d) /\
    time_elapsed_ h' y = Z.min (Z.of_nat n) d.
Proof.
  intros Hok Hquiet Hr Hu Hcb Ed Hd0. pose proof (reachable_ok behave h w Hok Hr) as (L & fl & I).
  assert (Ha : allocated (timer h y) = true).
  { destruct (allocated (timer h y)) eqn:E; [done|]. destruct (inv_timers _ _ _ I y) as (_ & Hc & _).
    destruct (Hc E). congruence. }
  assert (Hd : valid_duration d) by (subst d; by destruct (timer_state _ _ _ y I) as (_ & _ & _ & ? & _)).
  assert (H0 : valid_duration 0) by (unfold valid_duration, MAX_TIMER_DURATION; lia).
  destruct (start_run_result _ _ _ y 0 I H0 Ha) as (L1 & I1 & F1).
  assert (Ec : cur_time (timer_run h y) = cur_time h) by apply F1.
  destruct (ticks_started behave n (timer_run h y) w y d f Hok Hquiet) as
    (h' & w' & cs & E & Ho' & T & Ht & Hl & Hc); try done.
  { by exists L1, fl. }
  { rewrite Ec. unfold timer_run. rewrite timer_start_run by (by apply allocated_lt).
    rewrite decide_True by done. unfold running_state, run_timeout, run_duration, started_timer. simpl.
    rewrite Ed, Ha, Hcb. by rewrite (proj2 (Z.ltb_lt (Z.of_nat 0) d)). }
  exists h', w', cs. split_and!; try done;
    destruct (started_fields (cur_time (timer_run h y)) d n (Some (cb_user f)) Hd) as (Fr & Fe & Ft & Fd).
  - unfold is_running_. by rewrite Ht, Fr.
  - unfold is_expired_. by rewrite Ht, Fe.
  - unfold time_elapsed_. rewrite Ht, Fr, Fe, Ft, Fd, T.
    destruct (Z.ltb_spec (Z.of_nat n) d); simpl; [|lia].
    unfold valid_duration, MAX_TIMER_DURATION in Hd. unfold u32.
    rewrite <- Zminus_mod, Zminus_mod_idemp_r.
    replace (d - _) with (Z.of_nat n) by lia. rewrite Z.mod_small; lia.
Qed.

End properties.


(** ** Concrete runs *)

Module TimersDemo.

(** Every timer but the first restarts itself; the calls are logged. *)
Definition rearm (f x : nat) (w : list nat) (h : timer_handler nat) : list (timer_op nat) * list nat :=
  (match x with O => [] | S _ => [op_run x] end, w ++ [x]).

Lemma rearm_ok : behave_ok rearm.
Proof.
  intros f x w h (L & fl & I) Hc. destruct x as [|x]; simpl; [done|]. split; [|done].
  destruct (allocated (timer h (S x))) eqn:E; [done|].
  destruct (inv_timers _ _ _ I (S x)) as (_ & Hn & _). destruct (Hn E), Hc; congruence.
Qed.

Lemma rearm_quiet : behave_quiet rearm.
Proof.
  intros f x w h y _ (o & Ho & Hy). left. destruct x as [|x]; simpl in Ho.
  - by apply elem_of_nil in Ho.
  - apply list_elem_of_singleton in Ho. by subst.
Qed.

Lemma rearm_untouched : untouched rearm 0.
Proof.
  intros f x w h _ (o & Ho & Hy). destruct x as [|x]; simpl in Ho.
  - by apply elem_of_nil in Ho.
  - apply list_elem_of_singleton in Ho. by subst.
Qed.

(** Two timers: timer 0 set to 3 ticks, timer 1 running with 2 ticks. *)
Definition two_ops : list (timer_op nat) := [op_get; op_get; op_set_cb 0 3 7%nat; op_set_cb 1 2 8%nat; op_run 1].

Definition two_timers : timer_handler nat :=
  match exec_ops (timer_handler_init 4) two_ops with Some h => h | None => timer_handler_init 4 end.

Lemma two_reachable : reachable rearm two_timers [].
Proof.
  apply (reachable_ops rearm (timer_handler_init 4) [] two_ops).
  - apply reachable_init. lia.
  - vm_compute. reflexivity.
  - vm_compute. reflexivity.
Qed.

Lemma timers_invariant_witness : handler_ok two_timers /\ nof_running_timers two_timers = 1.
Proof.
  destruct (timers_invariant rearm two_timers [] rearm_ok two_reachable) as (A & B & _).
  split; [exact A|]. rewrite B. vm_compute. reflexivity.
Defined.

(** Two ticks: the running timer 1 is called in the second. *)
Definition two_later : timer_handler nat :=
  match tick rearm two_timers [] with Some (h, _, _) => h | None => two_timers end.

Lemma two_later_reachable : reachable rearm two_later [].
Proof.
  refine (reachable_tick rearm two_timers [] (length (timer_list two_timers)) _ _ [] two_reachable _).
  vm_compute. reflexivity.
Qed.

Lemma tick_serves_due_witness :
  exists h' w' calls, tick rearm two_later [] = Some (h', w', calls) /\ 1%nat ∈ calls.
Proof.
  destruct (tick_serves_due rearm two_later [] rearm_ok rearm_quiet two_later_reachable)
    as (h' & w' & calls & E & _ & _ & Hc & _).
  exists h', w', calls. split; [exact E|]. apply Hc. vm_compute. auto.
Defined.

Lemma timer_expires_exactly_witness :
  exists h' w' cs, ticks rearm 5 (timer_run two_timers 0) [] = Some (h', w', cs) /\
    is_expired_ h' 0 = true /\ time_elapsed_ h' 0 = 3.
Proof.
  destruct (timer_expires_exactly rearm two_timers [] 0 3 7%nat 5 rearm_ok rearm_quiet two_reachable rearm_untouched
    ltac:(vm_compute; reflexivity) ltac:(vm_compute; reflexivity) ltac:(lia))
    as (h' & w' & cs & E & _ & _ & _ & He & Ht).
  exists h', w', cs. split; [exact E|]. split; [exact He|exact Ht].
Defined.

(** *** What a callback must not do *)

(** The callback 1 restarts its own timer for one tick, 2 for three ticks, 3 stops the
    timer 1 and 4 does nothing. *)
Definition script (f x : nat) (w : list nat) (h : timer_handler nat) : list (timer_op nat) * list nat :=
  (match f with
   | 1%nat => [op_set x 1; op_run x]
   | 2%nat => [op_set x 3; op_run x]
   | 3%nat => [op_stop 1]
   | _ => []
   end, w).

Definition after (ops : list (timer_op nat)) : timer_handler nat :=
  match exec_ops (timer_handler_init 4) ops with Some h => h | None => timer_handler_init 4 end.

Definition calls_of (n : nat) (h : timer_handler nat) : option (list (list nat)) :=
  match ticks script n h [] with Some (_, _, cs) => Some cs | None => None end.

(** A callback runs before the clock advances: a timer it restarts for one tick gets the
    timeout of the tick being served, which the loop has passed, and is never called
    again (until the 32-bit clock wraps); one restarted for three ticks comes back
    after two. *)
Lemma restart_in_callback_short :
  calls_of 4 (after [op_get; op_set_cb 0 1 1%nat; op_run 0]) = Some [[0%nat]; []; []; []] /\
  calls_of 7 (after [op_get; op_set_cb 0 3 2%nat; op_run 0]) = Some [[]; []; [0%nat]; []; [0%nat]; []; [0%nat]].
Proof. by vm_compute. Qed.

(** Timers 0, 1 and 2 due in the same tick, and the callback of 0 stops 1: the loop
    already points at 1, calls its callback although it is stopped, and follows its
    cleared link, so 2 is not called and stays running with a timeout in the past. *)
Definition three : timer_handler nat :=
  after [op_get; op_get; op_get; op_set_cb 0 2 3%nat; op_set_cb 1 2 4%nat; op_set_cb 2 2 4%nat;
         op_run 2; op_run 1; op_run 0].

Lemma stop_in_callback_ignored :
  calls_of 5 three = Some [[]; [0%nat; 1%nat]; []; []; []] /\
  match ticks script 5 three [] with
  | Some (h, _, _) => is_running_ h 1 = false /\ is_running_ h 2 = true /\ timeout_ h 2 = 2
  | None => False
  end.
Proof. by vm_compute. Qed.

(** Assigning over a handle does not free the timer it held: the timer keeps running,
    its callback is still called, and no handle can stop it. *)
Lemma assign_leaks :
  match get_unique_timer (after [op_get; op_set_cb 0 1 4%nat; op_run 0]) with
  | Some (h, u2) =>
      let '(u1, u2) := ut_assign (Some 0%nat) u2 in
      let '(h, u1) := ut_release h u1 in
      ut_is_valid u1 = false /\ ut_is_valid u2 = false /\ nof_timers h = 1 /\ calls_of 1 h = Some [[0%nat]]
  | None => False
  end.
Proof. by vm_compute. Qed.

End TimersDemo.
