(* ===== verification/BitPack.v ===== *)
(** * Bit vectors

    [srsran_bit_pack], [srsran_bit_unpack] and their vector forms of
    [lib/src/phy/utils/bit.c]: bits, one per byte, packed into words with the most
    significant bit first.  The bits that follow a pointer are a list; the portable
    (not the SIMD) branch of [srsran_bit_pack_vector] is modelled. *)

From S2P Require Import Prelude.
From stdpp Require Import base list gmap numbers list_basics list_relations.

Local Open Scope Z_scope.

(** ** Operations *)

(** The loop of [srsran_bit_pack] from the index [i]. *)
Fixpoint bit_pack_loop (nof_bits i : Z) (bits : list Z) (value : Z) : Z :=
  match bits with
  | [] => value
  | b :: bits => bit_pack_loop nof_bits (i + 1) bits (Z.lor value (u32 (Z.shiftl b (nof_bits - i - 1))))
  end.

(** The value and the bits after the advanced pointer; [None] when it reads past the end. *)
Definition srsran_bit_pack (bits : list Z) (nof_bits : Z) : option (Z * list Z) :=
  if nof_bits <=? zlen bits then Some (bit_pack_loop nof_bits 0 (ztake nof_bits bits) 0, zdrop nof_bits bits)
  else None.

(** The [nof_bits] bits [srsran_bit_unpack] stores at its pointer. *)
Definition srsran_bit_unpack (value nof_bits : Z) : list Z :=
  map (fun i => Z.land (Z.shiftr value (nof_bits - i - 1)) 1) (seqZ 0 nof_bits).

(** The bytes [srsran_bit_pack_vector] stores: whole bytes, then the rest shifted up. *)
Fixpoint bit_pack_bytes (nbytes : nat) (unpacked : list Z) : option (list Z * list Z) :=
  match nbytes with
  | O => Some ([], unpacked)
  | S nbytes =>
      '(v, unpacked) ← srsran_bit_pack unpacked 8;
      '(packed, unpacked) ← bit_pack_bytes nbytes unpacked;
      Some (u8 v :: packed, unpacked)
  end.

Definition srsran_bit_pack_vector (unpacked : list Z) (nof_bits : Z) : option (list Z) :=
  '(packed, unpacked) ← bit_pack_bytes (Z.to_nat (nof_bits / 8)) unpacked;
  if negb (nof_bits mod 8 =? 0) then
    '(v, _) ← srsran_bit_pack unpacked (nof_bits mod 8);
    Some (packed ++ [u8 (Z.shiftl (u8 v) (8 - nof_bits mod 8))])
  else Some packed.

(** The bits [srsran_bit_unpack_vector] stores. *)
Fixpoint bit_unpack_bytes (nbytes : nat) (packed : list Z) : option (list Z * list Z) :=
  match nbytes with
  | O => Some ([], packed)
  | S nbytes =>
      match packed with
      | [] => None
      | b :: packed =>
          '(bits, packed) ← bit_unpack_bytes nbytes packed;
          Some (srsran_bit_unpack b 8 ++ bits, packed)
      end
  end.

Definition srsran_bit_unpack_vector (packed : list Z) (nof_bits : Z) : option (list Z) :=
  '(bits, packed) ← bit_unpack_bytes (Z.to_nat (nof_bits / 8)) packed;
  if negb (nof_bits mod 8 =? 0) then
    match packed with
    | [] => None
    | b :: _ => Some (bits ++ srsran_bit_unpack (Z.shiftr b (8 - nof_bits mod 8)) (nof_bits mod 8))
    end
  else Some bits.

(** ** Memory *)

Lemma load_bytes_prefix (l rest : list Z) n : zlen l = n -> load_bytes (l ++ rest) 0 n = Some l.
Proof.
  intros Hn. pose proof (zlen_nonneg l). pose proof (zlen_nonneg rest).
  rewrite load_bytes_Some by (rewrite ?zlen_app; lia). by rewrite zdrop_0, ztake_app_eq.
Qed.

(** ** Values of bit lists *)

Definition is_bit (b : Z) : Prop := b = 0 \/ b = 1.
Definition bits_ok (l : list Z) : Prop := Forall is_bit l.

(** The number the bits spell, first bit most significant. *)
Definition bits_val (l : list Z) : Z := fold_left (fun v b => 2 * v + b) l 0.

Section values.
  Implicit Types (l : list Z).

Lemma bits_ok_app l1 l2 : bits_ok (l1 ++ l2) <-> bits_ok l1 /\ bits_ok l2.
Proof. apply Forall_app. Qed.

Lemma bits_fold_acc l v : fold_left (fun v b => 2 * v + b) l v = v * 2 ^ zlen l + bits_val l.
Proof.
  unfold bits_val. revert v. induction l as [|b l IH]; intros v; cbn [fold_left].
  - change (zlen (@nil Z)) with 0. lia.
  - rewrite (IH (2 * v + b)), (IH (2 * 0 + b)), zlen_cons, Z.pow_add_r by (try lia; apply zlen_nonneg). lia.
Qed.

Lemma bits_val_cons b l : bits_val (b :: l) = b * 2 ^ zlen l + bits_val l.
Proof. unfold bits_val at 1. cbn [fold_left]. by rewrite bits_fold_acc. Qed.

Lemma bits_val_app l1 l2 : bits_val (l1 ++ l2) = bits_val l1 * 2 ^ zlen l2 + bits_val l2.
Proof. unfold bits_val at 1. rewrite fold_left_app. apply bits_fold_acc. Qed.

Lemma bits_val_snoc l b : bits_val (l ++ [b]) = 2 * bits_val l + b.
Proof. unfold bits_val. by rewrite fold_left_app. Qed.

Lemma bits_val_range l : bits_ok l -> 0 <= bits_val l < 2 ^ zlen l.
Proof.
  induction l as [|b l IH]; intros H.
  - change (zlen (@nil Z)) with 0. unfold bits_val. simpl. lia.
  - apply Forall_cons in H as [Hb Hl]. specialize (IH Hl).
    rewrite bits_val_cons, zlen_cons, Z.pow_add_r by (try lia; apply zlen_nonneg).
    unfold is_bit in Hb. lia.
Qed.

(** Two lists of the same length with the same value are equal. *)
Lemma bits_val_inj l1 l2 :
  bits_ok l1 -> bits_ok l2 -> length l1 = length l2 -> bits_val l1 = bits_val l2 -> l1 = l2.
Proof.
  revert l2. induction l1 as [|a l1 IH]; intros [|b l2] H1 H2 Hl Hv; simpl in Hl; try done.
  apply Forall_cons in H1 as [Ha H1]. apply Forall_cons in H2 as [Hb H2]. injection Hl as Hl.
  rewrite !bits_val_cons in Hv. assert (Ez : zlen l1 = zlen l2) by (unfold zlen; lia). rewrite Ez in Hv.
  pose proof (bits_val_range l1 H1). pose proof (bits_val_range l2 H2). rewrite Ez in *.
  assert (a = b) as -> by (unfold is_bit in *; nia). f_equal. apply IH; [done..|lia].
Qed.

(** The bits of bytes. *)
Definition bits_of_bytes (d : list Z) : list Z := concat (map (fun b => srsran_bit_unpack b 8) d).

(** *** Packing *)

Lemma lor_bit v b : 0 <= v -> is_bit b -> Z.lor (2 * v) b = 2 * v + b.
Proof. intros Hv [-> | ->]; destruct v as [|p|p]; try done; lia. Qed.

Lemma bit_pack_loop_val l n i v :
  bits_ok l -> 0 <= v -> 0 <= i -> i + zlen l = n -> n <= 32 ->
  bit_pack_loop n i l (v * 2 ^ zlen l) = v * 2 ^ zlen l + bits_val l.
Proof.
  revert i v. induction l as [|b l IH]; intros i v Hl Hv Hi Hn H32; cbn [bit_pack_loop].
  - change (zlen (@nil Z)) with 0. unfold bits_val. simpl. lia.
  - apply Forall_cons in Hl as [Hb Hl]. rewrite zlen_cons in Hn |- *. pose proof (zlen_nonneg l).
    rewrite bits_val_cons. replace (n - i - 1) with (zlen l) by lia.
    rewrite Z.shiftl_mul_pow2 by lia.
    assert (Hp : 0 < 2 ^ zlen l) by lia.
    assert (Hq : 2 ^ zlen l < 2 ^ 32) by (apply Z.pow_lt_mono_r; lia).
    assert (E : u32 (b * 2 ^ zlen l) = b * 2 ^ zlen l).
    { apply u32_id. unfold is_u32, is_bit in *. nia. }
    rewrite E. replace (Z.lor (v * 2 ^ (1 + zlen l)) (b * 2 ^ zlen l)) with ((2 * v + b) * 2 ^ zlen l).
    + rewrite IH, Z.pow_add_r by (try done; unfold is_bit in *; lia). lia.
    + rewrite <- lor_bit, <- !Z.shiftl_mul_pow2, Z.shiftl_lor by (try done; lia). f_equal.
      rewrite !Z.shiftl_mul_pow2, Z.pow_add_r by lia. lia.
Qed.

Lemma srsran_bit_pack_val l r n :
  bits_ok l -> zlen l = n -> n <= 32 -> srsran_bit_pack (l ++ r) n = Some (bits_val l, r).
Proof.
  intros Hl Hn H32. unfold srsran_bit_pack. rewrite zlen_app. pose proof (zlen_nonneg r).
  rewrite (proj2 (Z.leb_le _ _)) by lia. rewrite ztake_app_eq, zdrop_app_eq by done.
  assert (E := bit_pack_loop_val l n 0 0 Hl). rewrite !Z.mul_0_l, Z.add_0_l in E. by rewrite E by lia.
Qed.

(** *** Unpacking *)

Lemma land_1 x : Z.land x 1 = x mod 2.
Proof. exact (Z.land_ones x 1 ltac:(lia)). Qed.

Lemma unpack_bits_ok v n : bits_ok (srsran_bit_unpack v n).
Proof.
  apply Forall_forall. intros b (i & -> & _)%list_elem_of_fmap. rewrite land_1. unfold is_bit.
  pose proof (Z.mod_pos_bound (Z.shiftr v (n - i - 1)) 2). lia.
Qed.

Lemma zlen_unpack v n : 0 <= n -> zlen (srsran_bit_unpack v n) = n.
Proof. intros Hn. unfold srsran_bit_unpack, zlen. rewrite length_map, length_seqZ. lia. Qed.

(** The first bit and the others. *)
Lemma unpack_S v n :
  0 <= n -> srsran_bit_unpack v (n + 1) = Z.land (Z.shiftr v n) 1 :: srsran_bit_unpack v n.
Proof.
  intros Hn. unfold srsran_bit_unpack. rewrite seqZ_cons by lia. cbn [map].
  replace (n + 1 - 0 - 1) with n by lia. f_equal.
  replace (Z.succ 0) with (0 + 1) by lia. replace (Z.pred (n + 1)) with n by lia.
  rewrite <- (fmap_add_seqZ 1 0). rewrite map_map. apply map_ext. intros i. do 2 f_equal. lia.
Qed.

Lemma bits_val_unpack v n : 0 <= n -> bits_val (srsran_bit_unpack v n) = v mod 2 ^ n.
Proof.
  intros Hn. pattern n. apply natlike_ind; [| |done].
  - rewrite Z.mod_1_r. reflexivity.
  - clear n Hn. intros n Hn IH. change (Z.succ n) with (n + 1). rewrite unpack_S by lia.
    rewrite bits_val_cons, zlen_unpack, IH, land_1, Z.shiftr_div_pow2 by lia.
    rewrite Z.pow_add_r, Z.pow_1_r, Z.rem_mul_r by lia. lia.
Qed.

(** The high bits, then the low bits. *)
Lemma unpack_split v a b :
  0 <= a -> 0 <= b -> srsran_bit_unpack v (a + b) = srsran_bit_unpack (Z.shiftr v b) a ++ srsran_bit_unpack v b.
Proof.
  intros Ha Hb. pattern a. apply natlike_ind; [done| |done].
  clear a Ha. intros a Ha IH. replace (Z.succ a + b) with (a + b + 1) by lia. change (Z.succ a) with (a + 1).
  rewrite !unpack_S, IH by lia. rewrite Z.shiftr_shiftr by lia. by rewrite (Z.add_comm b a).
Qed.

Lemma unpack_mod v n : 0 <= n -> srsran_bit_unpack (v mod 2 ^ n) n = srsran_bit_unpack v n.
Proof.
  intros Hn. apply bits_val_inj; [apply unpack_bits_ok..| |].
  - pose proof (zlen_unpack v n Hn). pose proof (zlen_unpack (v mod 2 ^ n) n Hn). unfold zlen in *. lia.
  - rewrite !bits_val_unpack by done. by apply Z.mod_mod; lia.
Qed.

Lemma bits_of_bytes_ok d : bits_ok (bits_of_bytes d).
Proof.
  induction d as [|b d IH]; [constructor|]. apply bits_ok_app. split; [apply unpack_bits_ok|done].
Qed.

Lemma zlen_bits_of_bytes d : zlen (bits_of_bytes d) = 8 * zlen d.
Proof.
  induction d as [|b d IH]; [done|]. unfold bits_of_bytes in *. cbn [map concat].
  rewrite zlen_app, zlen_unpack, zlen_cons, IH by lia. lia.
Qed.

Lemma bits_of_bytes_app d1 d2 : bits_of_bytes (d1 ++ d2) = bits_of_bytes d1 ++ bits_of_bytes d2.
Proof. unfold bits_of_bytes. by rewrite map_app, concat_app. Qed.

(** Unpacking gives back the bits that were packed. *)
Lemma unpack_bits_val l : bits_ok l -> srsran_bit_unpack (bits_val l) (zlen l) = l.
Proof.
  intros Hl. apply bits_val_inj; [apply unpack_bits_ok|done| |].
  - pose proof (zlen_unpack (bits_val l) (zlen l) (zlen_nonneg l)). unfold zlen in *. lia.
  - rewrite bits_val_unpack by apply zlen_nonneg. apply Z.mod_small. by apply bits_val_range.
Qed.

End values.

(** ** Vectors *)

Section vectors.
  Implicit Types (l r p : list Z).

(** Whole bytes. *)
Lemma pack_unpack_bytes k l r :
  bits_ok l -> zlen l = 8 * Z.of_nat k ->
  exists p, bit_pack_bytes k (l ++ r) = Some (p, r) /\ length p = k /\ bytes_ok p /\
    forall q, bit_unpack_bytes k (p ++ q) = Some (l, q).
Proof.
  revert l. induction k as [|k IH]; intros l Hl Hz.
  - assert (l = []) as -> by (apply zlen_0; lia). exists []. split_and!; [done|done|constructor|done].
  - rewrite <- (take_drop 8 l) in Hl |- *. set (a := take 8 l) in *. set (b := drop 8 l) in *.
    apply bits_ok_app in Hl as [Ha Hb].
    assert (Hza : zlen a = 8) by (unfold a, zlen in *; rewrite length_take; lia).
    assert (Hzb : zlen b = 8 * Z.of_nat k) by (unfold b, zlen in *; rewrite length_drop; lia).
    destruct (IH b Hb Hzb) as (p & Ep & Hp & Hok & Eu).
    assert (Hv : is_u8 (bits_val a)).
    { pose proof (bits_val_range a Ha) as Hr. by rewrite Hza in Hr. }
    exists (bits_val a :: p). split_and!.
    + cbn [bit_pack_bytes]. rewrite <- app_assoc, srsran_bit_pack_val by (try done; lia). simpl.
      rewrite Ep. simpl. by rewrite u8_id.
    + simpl. lia.
    + by constructor.
    + intros q. cbn [app bit_unpack_bytes]. rewrite Eu. cbn [mbind option_bind].
      assert (E := unpack_bits_val a Ha). rewrite Hza in E. by rewrite E.
Qed.

(** Packing any number of bits and unpacking as many gives them back. *)
Lemma pack_vector_unpack l :
  bits_ok l ->
  exists p, srsran_bit_pack_vector l (zlen l) = Some p /\ zlen p = (zlen l + 7) / 8 /\ bytes_ok p /\
    srsran_bit_unpack_vector p (zlen l) = Some l.
Proof.
  intros Hl. set (n := zlen l). set (k := Z.to_nat (n / 8)). pose proof (zlen_nonneg l) as Hn0. fold n in Hn0.
  assert (Hdm := Z.div_mod n 8 ltac:(lia)). assert (Hm := Z.mod_pos_bound n 8 ltac:(lia)).
  assert (Hd := Z.div_pos n 8 ltac:(lia) ltac:(lia)).
  rewrite <- (take_drop (8 * k) l) in Hl |- *. set (a := take (8 * k) l) in *. set (r := drop (8 * k) l) in *.
  apply bits_ok_app in Hl as [Ha Hr].
  assert (Hzl : Z.of_nat (length l) = n) by done.
  assert (Hza : zlen a = 8 * Z.of_nat k) by (unfold a, zlen; rewrite length_take; lia).
  assert (Hzr : zlen r = n mod 8) by (unfold r, zlen; rewrite length_drop; lia).
  destruct (pack_unpack_bytes k a r Ha Hza) as (p & Ep & Hp & Hok & Eu).
  assert (Hzp : zlen p = n / 8) by (unfold zlen; lia).
  unfold srsran_bit_pack_vector, srsran_bit_unpack_vector. fold k. rewrite Ep. simpl.
  destruct (Z.eqb_spec (n mod 8) 0) as [E0|E0]; simpl.
  - exists p. specialize (Eu []). rewrite app_nil_r in Eu. rewrite Eu. simpl.
    assert (r = []) as -> by (apply zlen_0; lia). rewrite app_nil_r.
    split_and!; [done| |done|done]. rewrite Hzp. apply Z.div_unique with (n mod 8 + 7); lia.
  - assert (Epk := srsran_bit_pack_val r [] (n mod 8) Hr Hzr ltac:(lia)). rewrite app_nil_r in Epk.
    rewrite Epk. simpl. set (v := bits_val r).
    assert (Hv : 0 <= v < 2 ^ (n mod 8)) by (rewrite <- Hzr; by apply bits_val_range).
    assert (Hv8 : 2 ^ (n mod 8) * 2 ^ (8 - n mod 8) = 2 ^ 8) by (rewrite <- Z.pow_add_r by lia; f_equal; lia).
    assert (Hpos : 0 < 2 ^ (8 - n mod 8)) by lia.
    assert (Hu : u8 v = v) by (apply u8_id; unfold is_u8; nia).
    assert (Hs : u8 (Z.shiftl v (8 - n mod 8)) = Z.shiftl v (8 - n mod 8)).
    { apply u8_id. unfold is_u8. rewrite Z.shiftl_mul_pow2 by lia. nia. }
    rewrite Hu, Hs. eexists. split; [done|]. rewrite Eu. simpl. split_and!.
    + rewrite zlen_app, Hzp. change (zlen [_]) with 1. apply Z.div_unique with (n mod 8 - 1); lia.
    + apply bytes_ok_app. split; [done|]. constructor; [|constructor].
      unfold is_u8. rewrite Z.shiftl_mul_pow2 by lia. nia.
    + rewrite Z.shiftr_shiftl_l by lia. rewrite Z.sub_diag, Z.shiftl_0_r.
      assert (Er := unpack_bits_val r Hr). rewrite Hzr in Er. unfold v. by rewrite Er.
Qed.

(** *** Packed bits as bytes *)

Lemma bits_val_pad w k : bits_val (w ++ replicate k 0) = bits_val w * 2 ^ Z.of_nat k.
Proof.
  rewrite bits_val_app. unfold zlen. rewrite length_replicate.
  replace (bits_val (replicate k 0)) with 0; [lia|].
  induction k as [|k IH]; [done|]. cbn [replicate]. rewrite bits_val_cons. lia.
Qed.

Lemma unpack_bytes_bits p q : bit_unpack_bytes (length p) (p ++ q) = Some (bits_of_bytes p, q).
Proof.
  induction p as [|b p IH]; [done|]. cbn [length app bit_unpack_bytes]. rewrite IH. done.
Qed.

(** The packed bytes spell the bits, padded with zeros. *)
Lemma pack_vector_bits l r :
  bits_ok l ->
  exists p, srsran_bit_pack_vector (l ++ r) (zlen l) = Some p /\ bytes_ok p /\ zlen p = (zlen l + 7) / 8 /\
    bits_of_bytes p = l ++ replicate (Z.to_nat (- zlen l mod 8)) 0.
Proof.
  intros Hl. set (n := zlen l). set (k := Z.to_nat (n / 8)). pose proof (zlen_nonneg l) as Hn0. fold n in Hn0.
  assert (Hdm := Z.div_mod n 8 ltac:(lia)). assert (Hm := Z.mod_pos_bound n 8 ltac:(lia)).
  assert (Hd := Z.div_pos n 8 ltac:(lia) ltac:(lia)). assert (Hzl : Z.of_nat (length l) = n) by done.
  rewrite <- (take_drop (8 * k) l) in Hl |- *. set (a := take (8 * k) l) in *. set (w := drop (8 * k) l) in *.
  apply bits_ok_app in Hl as [Ha Hw].
  assert (Hza : zlen a = 8 * Z.of_nat k) by (unfold a, zlen; rewrite length_take; lia).
  assert (Hzw : zlen w = n mod 8) by (unfold w, zlen; rewrite length_drop; lia).
  destruct (pack_unpack_bytes k a (w ++ r) Ha Hza) as (p & Ep & Hp & Hok & Eu).
  assert (Hzp : zlen p = n / 8) by (unfold zlen; lia).
  specialize (Eu []). rewrite <- Hp, unpack_bytes_bits in Eu. injection Eu as Eb.
  unfold srsran_bit_pack_vector. fold k. rewrite <- app_assoc, Ep. cbn [mbind option_bind].
  destruct (Z.eqb_spec (n mod 8) 0) as [E0|E0]; cbn [negb].
  - exists p. assert (w = []) as -> by (apply zlen_0; lia).
    replace (- n mod 8) with 0 by (replace (- n) with (- (n / 8) * 8) by lia; symmetry; apply Z.mod_mul; lia).
    split_and!; [done|done| |by rewrite !app_nil_r]. rewrite Hzp. apply Z.div_unique with (n mod 8 + 7); lia.
  - rewrite (srsran_bit_pack_val w r (n mod 8)) by (try done; lia). cbn [mbind option_bind].
    assert (Hv : 0 <= bits_val w < 2 ^ (n mod 8)) by (rewrite <- Hzw; by apply bits_val_range).
    assert (Hv8 : 2 ^ (n mod 8) * 2 ^ (8 - n mod 8) = 2 ^ 8) by (rewrite <- Z.pow_add_r by lia; f_equal; lia).
    assert (Hpos : 0 < 2 ^ (8 - n mod 8)) by lia.
    rewrite (u8_id (bits_val w)), Z.shiftl_mul_pow2 by (try lia; unfold is_u8; nia).
    assert (Hs : is_u8 (bits_val w * 2 ^ (8 - n mod 8))) by (unfold is_u8; nia).
    rewrite u8_id by done. eexists. split; [done|]. split_and!.
    + apply bytes_ok_app. split; [done|]. by constructor.
    + rewrite zlen_app, Hzp. change (zlen [_]) with 1. apply Z.div_unique with (n mod 8 - 1); lia.
    + assert (En : - n mod 8 = 8 - n mod 8) by (symmetry; apply Z.mod_unique with (- (n / 8) - 1); lia). rewrite En.
      rewrite bits_of_bytes_app, Eb, <- app_assoc. f_equal. unfold bits_of_bytes. cbn [map concat]. rewrite app_nil_r.
      set (z := replicate (Z.to_nat (8 - n mod 8)) 0).
      assert (Hok' : bits_ok (w ++ z)).
      { apply bits_ok_app. split; [done|]. apply Forall_replicate. by left. }
      assert (Hz8 : zlen (w ++ z) = 8) by (rewrite zlen_app; unfold z, zlen at 2; rewrite length_replicate; lia).
      pose proof (unpack_bits_val _ Hok') as E. rewrite Hz8 in E. rewrite <- E. f_equal.
      unfold z. rewrite bits_val_pad. by rewrite Z2Nat.id by lia.
Qed.

End vectors.
