(* ===== verification/Crc.v ===== *)
(** * Cyclic redundancy checks

    [srsran_crc_t] of [lib/include/srsran/phy/fec/crc.h] and [lib/src/phy/fec/crc.c]:
    the table driven checksum over bits and over bytes, attachment and check.  The
    checksum is shown to be the remainder of the division of the message by the
    generator over GF(2), whatever the length of the message in bits; a codeword with
    its checksum attached passes the check, and one changed within a window of at most
    [order] bits does not. *)

From S2P Require Import Prelude BitPack.
From stdpp Require Import base list gmap numbers list_basics list_relations.

Local Open Scope Z_scope.

(** ** State *)

Record srsran_crc_t := mk_crc {
  table : list Z;
  polynom : Z;
  order : Z;
  crcinit : Z;
  crcmask : Z;
  crchighbit : Z
}.

Definition SRSRAN_LTE_CRC24A : Z := 0x1864CFB.
Definition SRSRAN_LTE_CRC24B : Z := 0x1800063.
Definition SRSRAN_LTE_CRC16 : Z := 0x11021.
Definition SRSRAN_LTE_CRC11 : Z := 0xE21.
Definition SRSRAN_LTE_CRC8 : Z := 0x19B.
Definition SRSRAN_LTE_CRC6 : Z := 0x61.

Definition with_crcinit (h : srsran_crc_t) (v : Z) : srsran_crc_t :=
  mk_crc (table h) (polynom h) (order h) v (crcmask h) (crchighbit h).

(** ** Table *)

(** One of the eight rounds of [gen_crc_table], on a 64-bit register. *)
Definition crc_round (polynom crchighbit crc : Z) : Z :=
  let bit := negb (Z.land crc crchighbit =? 0) in
  let crc := u64 (Z.shiftl crc 1) in
  if bit then Z.lxor crc polynom else crc.

Definition table_entry (order polynom crcmask crchighbit i : Z) : Z :=
  let pad := if order <? 8 then 8 - order else 0 in
  let ord := order + pad - 8 in
  let polynom := u32 (Z.shiftl polynom pad) in
  let crchighbit := u32 (Z.shiftl crchighbit pad) in
  let crc := Nat.iter 8 (crc_round polynom crchighbit) (u64 (Z.shiftl i ord)) in
  Z.land (Z.shiftr crc pad) crcmask.

Definition gen_crc_table (h : srsran_crc_t) : srsran_crc_t :=
  mk_crc (map (table_entry (order h) (polynom h) (crcmask h) (crchighbit h)) (seqZ 0 256))
    (polynom h) (order h) (crcinit h) (crcmask h) (crchighbit h).

(** The status and the new state; a value outside of the mask is kept all the same. *)
Definition srsran_crc_set_init (h : srsran_crc_t) (crc_init_value : Z) : Z * srsran_crc_t :=
  let h := with_crcinit h crc_init_value in
  (if negb (crcinit h =? Z.land (crcinit h) (crcmask h)) then -1 else 0, h).

Definition srsran_crc_init (crc_poly crc_order : Z) : option srsran_crc_t :=
  let mask := Z.lor (u64 (Z.shiftl (u64 (Z.shiftl 1 (crc_order - 1)) - 1) 1)) 1 in
  let high := u64 (Z.shiftl 1 (crc_order - 1)) in
  let h := mk_crc [] crc_poly crc_order 0 mask high in
  let '(r, h) := srsran_crc_set_init h (crcinit h) in
  if negb (r =? 0) then None else Some (gen_crc_table h).

(** ** Checksums *)

Definition srsran_crc_checksum_put_byte (h : srsran_crc_t) (byte : Z) : srsran_crc_t :=
  let crc := crcinit h in
  let idx :=
    if order h >? 8 then Z.lxor (Z.land (Z.shiftr crc (order h - 8)) 0xff) byte
    else Z.lxor (Z.land (u64 (Z.shiftl crc (8 - order h))) 0xff) byte in
  let crc := Z.lxor (u64 (Z.shiftl crc 8)) (default 0 (table h !! Z.to_nat idx)) in
  with_crcinit h crc.

Definition srsran_crc_checksum_get (h : srsran_crc_t) : Z := Z.land (crcinit h) (crcmask h).

(** One round of [reversecrcbit]. *)
Definition reverse_round (polynom crc : Z) : Z :=
  if Z.land 1 crc =? 1 then Z.shiftr (Z.lxor crc (u32 polynom)) 1 else Z.shiftr crc 1.

Definition reversecrcbit (crc nbits : Z) (h : srsran_crc_t) : Z :=
  Z.land (Nat.iter (Z.to_nat nbits) (reverse_round (polynom h)) crc) (crcmask h).

(** The loop over the whole bytes of the bit vector and the padded rest. *)
Fixpoint crc_bit_loop (len8 : nat) (h : srsran_crc_t) (data : list Z) : option (srsran_crc_t * list Z) :=
  match len8 with
  | O => Some (h, data)
  | S len8 =>
      '(byte, data) ← srsran_bit_pack data 8;
      crc_bit_loop len8 (srsran_crc_checksum_put_byte h (u8 (Z.land byte 0xFF))) data
  end.

(** [byte |= *(pter + k) << (7 - k)] over the [res8] bits left. *)
Fixpoint last_byte (k : Z) (bits : list Z) (byte : Z) : Z :=
  match bits with
  | [] => byte
  | b :: bits => last_byte (k + 1) bits (u8 (Z.lor byte (Z.shiftl b (7 - k))))
  end.

(** The checksum of the first [len] bits of [data] and the new state; [None] when the
    data is shorter. *)
Definition srsran_crc_checksum (h : srsran_crc_t) (data : list Z) (len : Z) : option (Z * srsran_crc_t) :=
  let '(_, h) := srsran_crc_set_init h 0 in
  let len8 := Z.shiftr len 3 in
  let res8 := len - Z.shiftl len8 3 in
  '(h, data) ← crc_bit_loop (Z.to_nat len8) h data;
  if res8 >? 0 then
    if res8 <=? zlen data then
      let h := srsran_crc_checksum_put_byte h (last_byte 0 (ztake res8 data) 0) in
      let crc := u32 (srsran_crc_checksum_get h) in
      Some (u32 (reversecrcbit crc (8 - res8) h), h)
    else None
  else Some (u32 (srsran_crc_checksum_get h), h).

Definition srsran_crc_checksum_byte (h : srsran_crc_t) (data : list Z) (len : Z) : option (Z * srsran_crc_t) :=
  let '(_, h) := srsran_crc_set_init h 0 in
  if len / 8 <=? zlen data then
    let h := fold_left srsran_crc_checksum_put_byte (ztake (len / 8) data) h in
    Some (u32 (srsran_crc_checksum_get h), h)
  else None.

(** The checksum, the data with the checksum stored after the message, the state. *)
Definition srsran_crc_attach (h : srsran_crc_t) (data : list Z) (len : Z) :
    option (Z * list Z * srsran_crc_t) :=
  '(checksum, h) ← srsran_crc_checksum h data len;
  data ← store data len (srsran_bit_unpack checksum (order h));
  Some (checksum, data, h).

(** The bytes [attach_byte] writes: the most significant first. *)
Definition checksum_bytes (order checksum : Z) : list Z :=
  map (fun j => let i := order / 8 - j - 1 in
    u8 (Z.shiftr (Z.land checksum (Z.shiftl 0xff (8 * i))) (8 * i))) (seqZ 0 (order / 8)).

Definition srsran_crc_attach_byte (h : srsran_crc_t) (data : list Z) (len : Z) :
    option (Z * list Z * srsran_crc_t) :=
  '(checksum, h) ← srsran_crc_checksum_byte h data len;
  data ← store data (len / 8) (checksum_bytes (order h) checksum);
  Some (checksum, data, h).

Definition srsran_crc_match (h : srsran_crc_t) (data : list Z) (len : Z) : option (bool * srsran_crc_t) :=
  '(c, h) ← srsran_crc_checksum h data (len + order h); Some (c =? 0, h).

Definition srsran_crc_match_byte (h : srsran_crc_t) (data : list Z) (len : Z) : option (bool * srsran_crc_t) :=
  '(c, h) ← srsran_crc_checksum_byte h data (len + order h); Some (c =? 0, h).

(** ** Division over GF(2) *)

(** Disjoint bits add as they xor. *)
Lemma add_low_lxor x y m : 0 <= m -> 0 <= y < 2 ^ m -> x * 2 ^ m + y = Z.lxor (x * 2 ^ m) y.
Proof.
  intros Hm Hy. apply Z.add_nocarry_lxor. apply Z.bits_inj'. intros i Hi.
  rewrite Z.land_spec, Z.bits_0. destruct (Z.lt_ge_cases i m).
  - by rewrite Z.mul_pow2_bits_low.
  - rewrite <- (Z.mod_small y (2 ^ m)) by lia. by rewrite Z.mod_pow2_bits_high, andb_false_r by lia.
Qed.

(** A number is below [2 ^ n] when its bits from [n] on are zero. *)
Lemma bits_below x n : 0 <= n -> 0 <= x -> (forall i, n <= i -> Z.testbit x i = false) -> x < 2 ^ n.
Proof.
  intros Hn Hx H.
  assert (E : x mod 2 ^ n = x).
  { apply Z.bits_inj'. intros i Hi. destruct (Z.lt_ge_cases i n).
    - by rewrite Z.mod_pow2_bits_low.
    - by rewrite Z.mod_pow2_bits_high, H by lia. }
  pose proof (Z.mod_pos_bound x (2 ^ n)). lia.
Qed.

Lemma testbit_high x n i : 0 <= x < 2 ^ n -> n <= i -> Z.testbit x i = false.
Proof.
  intros Hx Hi. destruct (Z.lt_ge_cases n 0).
  { rewrite Z.pow_neg_r in Hx by done. lia. }
  rewrite <- (Z.mod_small x (2 ^ n)) by done. by apply Z.mod_pow2_bits_high; lia.
Qed.

(** The top bit of an [n]-bit number. *)
Lemma testbit_top x n : 0 < n -> 0 <= x < 2 ^ n -> Z.testbit x (n - 1) = (2 ^ (n - 1) <=? x).
Proof.
  intros Hn Hx. assert (Ep : 2 ^ n = 2 * 2 ^ (n - 1)) by (rewrite <- Z.pow_succ_r by lia; f_equal; lia).
  destruct (Z.leb_spec (2 ^ (n - 1)) x).
  - replace x with (1 * 2 ^ (n - 1) + (x - 2 ^ (n - 1))) by lia.
    rewrite add_low_lxor, Z.lxor_spec, (testbit_high (_ - _) (n - 1)) by lia.
    rewrite Z.mul_1_l, Z.pow2_bits_true by lia. done.
  - apply (testbit_high _ (n - 1)); lia.
Qed.

Lemma double_lxor a b : 2 * Z.lxor a b = Z.lxor (2 * a) (2 * b).
Proof.
  rewrite <- !(Z.mul_comm _ 2). change 2 with (2 ^ 1).
  rewrite <- !Z.shiftl_mul_pow2 by lia. apply Z.shiftl_lxor.
Qed.

Lemma lxor_cancel a b p : Z.lxor (Z.lxor a p) (Z.lxor b p) = Z.lxor a b.
Proof.
  apply Z.bits_inj'. intros i _. rewrite !Z.lxor_spec.
  by destruct (Z.testbit a i), (Z.testbit b i), (Z.testbit p i).
Qed.

Section division.
  Variables (n P : Z).
  Hypotheses (Hn : 1 <= n) (HP : 2 ^ n <= P < 2 ^ (n + 1)).

(** Multiplication by [x] modulo the generator. *)
Definition shift1 (c : Z) : Z := if Z.testbit c (n - 1) then Z.lxor (2 * c) P else 2 * c.

(** One message bit. *)
Definition feed (c b : Z) : Z := shift1 (Z.lxor c (b * 2 ^ (n - 1))).

Definition crc_of (bits : list Z) : Z := fold_left feed bits 0.

Definition in_range (c : Z) : Prop := 0 <= c < 2 ^ n.

Lemma pow_n : 2 ^ n = 2 * 2 ^ (n - 1) /\ 2 ^ (n + 1) = 2 * 2 ^ n /\ 0 < 2 ^ (n - 1).
Proof. rewrite <- !Z.pow_succ_r by lia. split_and!; [f_equal; lia|f_equal; lia|lia]. Qed.

Lemma shift1_range c : in_range c -> in_range (shift1 c).
Proof.
  unfold in_range, shift1. intros Hc. pose proof pow_n as (E1 & E2 & E3).
  rewrite testbit_top by lia. destruct (Z.leb_spec (2 ^ (n - 1)) c); [|lia].
  assert (H0 : 0 <= Z.lxor (2 * c) P) by (apply Z.lxor_nonneg; lia). split; [done|].
  apply bits_below; [lia|done|]. intros i Hi. rewrite Z.lxor_spec.
  destruct (Z.eq_dec i n) as [->|Hne].
  - replace n with (n + 1 - 1) by lia. rewrite !testbit_top by lia. replace (n + 1 - 1) with n by lia.
    rewrite !(proj2 (Z.leb_le _ _)) by lia. done.
  - rewrite !(testbit_high _ (n + 1)) by lia. done.
Qed.

Lemma shift1_lxor a b : shift1 (Z.lxor a b) = Z.lxor (shift1 a) (shift1 b).
Proof.
  unfold shift1. rewrite Z.lxor_spec.
  rewrite double_lxor. destruct (Z.testbit a (n - 1)), (Z.testbit b (n - 1)); simpl; try done.
  - by rewrite lxor_cancel.
  - rewrite !Z.lxor_assoc. f_equal. apply Z.lxor_comm.
  - by rewrite Z.lxor_assoc.
Qed.

Lemma shift1_0 : shift1 0 = 0.
Proof. unfold shift1. by rewrite Z.bits_0. Qed.

Lemma iter_shift1_lxor k a b :
  Nat.iter k shift1 (Z.lxor a b) = Z.lxor (Nat.iter k shift1 a) (Nat.iter k shift1 b).
Proof. induction k as [|k IH]; simpl; [done|]. by rewrite IH, shift1_lxor. Qed.

Lemma iter_shift1_range k c : in_range c -> in_range (Nat.iter k shift1 c).
Proof. intros Hc. induction k; simpl; [done|]. by apply shift1_range. Qed.

(** While the number fits, [shift1] is the plain shift. *)
Lemma iter_shift1_small k c :
  Z.of_nat k <= n -> 0 <= c < 2 ^ (n - Z.of_nat k) -> Nat.iter k shift1 c = c * 2 ^ Z.of_nat k.
Proof.
  induction k as [|k IH]; intros Hk Hc; [simpl; lia|].
  assert (E : 2 ^ (n - Z.of_nat k) = 2 * 2 ^ (n - Z.of_nat (S k))).
  { rewrite <- Z.pow_succ_r by lia. f_equal. lia. }
  simpl Nat.iter. rewrite IH by lia. unfold shift1.
  assert (E2 : 2 ^ (n - 1) = 2 ^ (n - Z.of_nat (S k)) * 2 ^ Z.of_nat k).
  { rewrite <- Z.pow_add_r by lia. f_equal. lia. }
  rewrite (testbit_high _ (n - 1)) by nia.
  replace (Z.of_nat (S k)) with (Z.succ (Z.of_nat k)) by lia. rewrite Z.pow_succ_r by lia. lia.
Qed.

Lemma iter_shift_r {A} (f : A -> A) k x : Nat.iter (S k) f x = Nat.iter k f (f x).
Proof. induction k as [|k IH]; simpl; [done|]. by rewrite <- IH. Qed.

(** Up to [n] bits are fed at once by xoring them below the top of the register. *)
Lemma feed_word w c :
  bits_ok w -> zlen w <= n ->
  fold_left feed w c = Nat.iter (length w) shift1 (Z.lxor c (bits_val w * 2 ^ (n - zlen w))).
Proof.
  revert c. induction w as [|b w IH]; intros c Hw Hz.
  - simpl. unfold bits_val. simpl. by rewrite Z.lxor_0_r.
  - rewrite zlen_cons in Hz. pose proof (zlen_nonneg w) as Hz0.
    apply Forall_cons in Hw as [Hb Hw]. pose proof (bits_val_range w Hw) as Hr.
    cbn [fold_left length]. rewrite IH by (try done; lia). rewrite iter_shift_r. f_equal.
    rewrite bits_val_cons, zlen_cons. set (v := bits_val w) in *. set (k := zlen w) in *.
    assert (Ek : 2 ^ (n - 1) = 2 ^ k * 2 ^ (n - (1 + k))) by (rewrite <- Z.pow_add_r by lia; f_equal; lia).
    assert (Ek' : 2 ^ (n - k) = 2 ^ 1 * 2 ^ (n - (1 + k))) by (rewrite <- Z.pow_add_r by lia; f_equal; lia).
    assert (Hp : 0 < 2 ^ (n - (1 + k))) by lia.
    replace ((b * 2 ^ k + v) * 2 ^ (n - (1 + k))) with (b * 2 ^ (n - 1) + v * 2 ^ (n - (1 + k))) by lia.
    rewrite add_low_lxor by nia. rewrite <- Z.lxor_assoc, shift1_lxor. unfold feed. f_equal.
    unfold shift1. rewrite (testbit_high _ (n - 1)) by nia. rewrite Ek'. lia.
Qed.

Lemma feed_range c b : is_bit b -> in_range c -> in_range (feed c b).
Proof.
  intros Hb Hc. apply shift1_range. pose proof pow_n as (E1 & _ & E3). unfold in_range in *.
  assert (H0 : 0 <= Z.lxor c (b * 2 ^ (n - 1))) by (apply Z.lxor_nonneg; unfold is_bit in *; nia).
  split; [done|]. apply bits_below; [lia|done|]. intros i Hi. rewrite Z.lxor_spec.
  rewrite !(testbit_high _ n) by (unfold is_bit in *; nia). done.
Qed.

Lemma feeds_range w c : bits_ok w -> in_range c -> in_range (fold_left feed w c).
Proof.
  revert c. induction w as [|b w IH]; intros c Hw Hc; simpl; [done|].
  apply Forall_cons in Hw as [Hb Hw]. apply IH; [done|]. by apply feed_range.
Qed.

Lemma zero_range : in_range 0.
Proof. unfold in_range. lia. Qed.

Lemma crc_of_range w : bits_ok w -> in_range (crc_of w).
Proof. intros Hw. apply feeds_range; [done|apply zero_range]. Qed.

(** *** The remainder *)

(** The product of the quotient bits and the generator, without carries. *)
Definition clmul (q : list bool) : Z := fold_left (fun acc (b : bool) => Z.lxor (2 * acc) (if b then P else 0)) q 0.

(** The checksum is what is left of the message shifted by [n] after subtracting a
    multiple of the generator. *)
Lemma crc_of_remainder w :
  bits_ok w -> exists q, length q = length w /\ Z.lxor (clmul q) (crc_of w) = bits_val w * 2 ^ n.
Proof.
  intros Hw. induction w as [|b w IH] using rev_ind.
  - exists []. split; [done|]. unfold clmul, crc_of, bits_val. simpl. done.
  - apply bits_ok_app in Hw as [Hw Hb]. inversion_clear Hb as [|? ? Hb' _].
    destruct (IH Hw) as (q & Hl & Eq). pose proof pow_n as (E1 & _ & E3).
    set (c := crc_of w) in *. set (c' := Z.lxor c (b * 2 ^ (n - 1))).
    exists (q ++ [Z.testbit c' (n - 1)]). split; [rewrite !length_app; simpl; lia|].
    unfold clmul, crc_of. rewrite !fold_left_app. cbn [fold_left]. fold (clmul q) (crc_of w). fold c.
    unfold feed. fold c'. rewrite bits_val_snoc.
    assert (E2 : 2 * c' = Z.lxor (2 * c) (b * 2 ^ n)).
    { unfold c'. rewrite double_lxor. f_equal. rewrite E1. lia. }
    assert (E4 : Z.lxor (2 * clmul q) (2 * c) = 2 * (bits_val w * 2 ^ n)).
    { by rewrite <- Eq, double_lxor. }
    assert (E5 : (2 * bits_val w + b) * 2 ^ n = Z.lxor (2 * (bits_val w * 2 ^ n)) (b * 2 ^ n)).
    { replace ((2 * bits_val w + b) * 2 ^ n) with (bits_val w * 2 ^ (n + 1) + b * 2 ^ n)
        by (rewrite Z.pow_add_r by lia; lia).
      rewrite add_low_lxor by (rewrite ?Z.pow_add_r by lia; unfold is_bit in *; nia).
      f_equal. rewrite Z.pow_add_r by lia. lia. }
    rewrite E5, <- E4. unfold shift1. rewrite E2. destruct (Z.testbit c' (n - 1)).
    + by rewrite lxor_cancel, Z.lxor_assoc.
    + by rewrite Z.lxor_0_r, Z.lxor_assoc.
Qed.

(** A codeword leaves no remainder. *)
Lemma crc_of_codeword w : bits_ok w -> crc_of (w ++ srsran_bit_unpack (crc_of w) n) = 0.
Proof.
  intros Hw. unfold crc_of at 1. rewrite fold_left_app. fold (crc_of w).
  rewrite feed_word by (try apply unpack_bits_ok; rewrite zlen_unpack; lia).
  rewrite bits_val_unpack, zlen_unpack, Z.mod_small, Z.sub_diag, Z.mul_1_r by (try apply crc_of_range; lia || done).
  rewrite Z.lxor_nilpotent. clear. generalize (length (srsran_bit_unpack (crc_of w) n)) as k.
  induction k as [|k IH]; simpl; [done|]. by rewrite IH, shift1_0.
Qed.

End division.

(** ** The code computes the remainder *)

Lemma lxor_mod_pow2 a b n : 0 <= n -> Z.lxor a b mod 2 ^ n = Z.lxor (a mod 2 ^ n) (b mod 2 ^ n).
Proof.
  intros Hn. apply Z.bits_inj'. intros i Hi. rewrite Z.lxor_spec. destruct (Z.lt_ge_cases i n).
  - by rewrite !Z.mod_pow2_bits_low, Z.lxor_spec.
  - by rewrite !Z.mod_pow2_bits_high by lia.
Qed.

Lemma lxor_mul_pow2 a b k : 0 <= k -> Z.lxor (a * 2 ^ k) (b * 2 ^ k) = Z.lxor a b * 2 ^ k.
Proof. intros Hk. rewrite <- !Z.shiftl_mul_pow2 by done. symmetry. apply Z.shiftl_lxor. Qed.

Lemma lxor_range a b n : 0 <= n -> 0 <= a < 2 ^ n -> 0 <= b < 2 ^ n -> 0 <= Z.lxor a b < 2 ^ n.
Proof.
  intros Hn Ha Hb. assert (H0 : 0 <= Z.lxor a b) by (apply Z.lxor_nonneg; lia). split; [done|].
  apply bits_below; [done|done|]. intros i Hi. by rewrite Z.lxor_spec, !(testbit_high _ n).
Qed.

(** A register padded with zeros below works the same. *)
Lemma shift1_pad n P k c :
  1 <= n -> 0 <= k -> shift1 (n + k) (P * 2 ^ k) (c * 2 ^ k) = shift1 n P c * 2 ^ k.
Proof.
  intros Hn Hk. unfold shift1.
  rewrite Z.mul_pow2_bits by lia. replace (n + k - 1 - k) with (n - 1) by lia. destruct (Z.testbit c (n - 1)); [|lia].
  rewrite Z.mul_assoc. by apply lxor_mul_pow2.
Qed.

Lemma feeds_pad n P k w c :
  1 <= n -> 0 <= k ->
  fold_left (feed (n + k) (P * 2 ^ k)) w (c * 2 ^ k) = fold_left (feed n P) w c * 2 ^ k.
Proof.
  intros Hn Hk. revert c. induction w as [|b w IH]; intros c; simpl; [done|].
  rewrite <- IH. f_equal. unfold feed. rewrite <- shift1_pad by done. f_equal.
  rewrite <- lxor_mul_pow2 by done. f_equal. rewrite <- Z.mul_assoc, <- Z.pow_add_r by lia. do 2 f_equal. lia.
Qed.

Section code.
  Variables (n P : Z).
  Hypotheses (Hn : 1 <= n <= 30) (HP : 2 ^ n <= P < 2 ^ (n + 1)).

(** The object [srsran_crc_init] builds, with the register [c]. *)
Definition crc_obj (c : Z) : srsran_crc_t :=
  mk_crc (map (table_entry n P (Z.ones n) (2 ^ (n - 1))) (seqZ 0 256)) P n c (Z.ones n) (2 ^ (n - 1)).

Lemma srsran_crc_init_obj : srsran_crc_init P n = Some (crc_obj 0).
Proof.
  unfold srsran_crc_init. cbn [crcinit].
  assert (Hp : 2 ^ (n - 1) < 2 ^ 30) by (apply Z.pow_lt_mono_r; lia).
  assert (E1 : u64 (Z.shiftl 1 (n - 1)) = 2 ^ (n - 1)).
  { rewrite Z.shiftl_mul_pow2, Z.mul_1_l by lia. apply Z.mod_small. lia. }
  assert (E2 : Z.lor (u64 (Z.shiftl (2 ^ (n - 1) - 1) 1)) 1 = Z.ones n).
  { rewrite Z.shiftl_mul_pow2 by lia. unfold u64. rewrite Z.mod_small by lia.
    replace ((2 ^ (n - 1) - 1) * 2 ^ 1) with (2 * (2 ^ (n - 1) - 1)) by lia.
    rewrite lor_bit by (unfold is_bit; lia). rewrite Z.ones_equiv.
    replace n with (Z.succ (n - 1)) at 2 by lia. rewrite Z.pow_succ_r by lia. lia. }
  rewrite E1, E2. unfold srsran_crc_set_init, with_crcinit. cbn. done.
Qed.

Lemma pow_n_bound : 0 < 2 ^ n <= 2 ^ 30 /\ 2 ^ (n + 1) = 2 * 2 ^ n.
Proof.
  split; [split; [lia|apply Z.pow_le_mono_r; lia]|]. rewrite Z.pow_add_r by lia. lia.
Qed.

(** The rounds of the table on a register of [N] bits. *)
Lemma crc_round_shift1 N Q c :
  1 <= N <= 30 -> 0 <= c < 2 ^ N -> crc_round Q (2 ^ (N - 1)) c = shift1 N Q c.
Proof.
  intros HN Hc. unfold crc_round, shift1. rewrite land_pow2_testbit by lia.
  assert (2 ^ N <= 2 ^ 30) by (apply Z.pow_le_mono_r; lia).
  assert (E : u64 (Z.shiftl c 1) = 2 * c).
  { rewrite Z.shiftl_mul_pow2 by lia. unfold u64. rewrite Z.mod_small; lia. }
  by rewrite E.
Qed.

Lemma crc_rounds_shift1 N Q k c :
  1 <= N <= 30 -> 2 ^ N <= Q < 2 ^ (N + 1) -> 0 <= c < 2 ^ N ->
  Nat.iter k (crc_round Q (2 ^ (N - 1))) c = Nat.iter k (shift1 N Q) c.
Proof.
  intros HN HQ Hc. induction k as [|k IH]; simpl; [done|]. rewrite IH. apply crc_round_shift1; [done|].
  apply iter_shift1_range; [lia|done|done].
Qed.

Lemma table_lookup c i :
  0 <= i < 256 -> default 0 (table (crc_obj c) !! Z.to_nat i) = table_entry n P (Z.ones n) (2 ^ (n - 1)) i.
Proof.
  intros Hi. unfold crc_obj. cbn [table].
  assert (E : seqZ 0 256 !! Z.to_nat i = Some i) by (apply lookup_seqZ; lia).
  apply (list_lookup_fmap_Some_2 (table_entry n P (Z.ones n) (2 ^ (n - 1)))) in E.
  change (map ?f ?l) with (f <$> l). by rewrite E.
Qed.

Lemma table_entry_long i :
  8 <= n -> 0 <= i < 256 ->
  table_entry n P (Z.ones n) (2 ^ (n - 1)) i = Nat.iter 8 (shift1 n P) (i * 2 ^ (n - 8)).
Proof.
  intros H8 Hi. pose proof pow_n_bound as [Hb Hb']. unfold table_entry.
  rewrite (proj2 (Z.ltb_ge _ _)) by lia. rewrite !Z.shiftl_0_r, Z.shiftr_0_r, Z.add_0_r.
  assert (Hlt : 2 ^ (n - 1) < 2 ^ n) by (apply Z.pow_lt_mono_r; lia).
  assert (Er : 2 ^ n = 2 ^ 8 * 2 ^ (n - 8)) by (rewrite <- Z.pow_add_r by lia; f_equal; lia).
  assert (Hr : 0 <= i * 2 ^ (n - 8) < 2 ^ n) by nia.
  unfold u64, u32. rewrite Z.shiftl_mul_pow2, (Z.mod_small (i * _)), (Z.mod_small P), (Z.mod_small (2 ^ (n - 1))) by lia.
  rewrite crc_rounds_shift1 by lia. rewrite Z.land_ones by lia. apply Z.mod_small.
  apply iter_shift1_range; [lia|done|done].
Qed.

Lemma table_entry_short i :
  n <= 8 -> 0 <= i < 256 ->
  table_entry n P (Z.ones n) (2 ^ (n - 1)) i = Nat.iter 8 (shift1 8 (P * 2 ^ (8 - n))) i / 2 ^ (8 - n) mod 2 ^ n.
Proof.
  intros H8 Hi. unfold table_entry.
  set (pad := if n <? 8 then 8 - n else 0).
  assert (Epad : pad = 8 - n) by (unfold pad; destruct (Z.ltb_spec n 8); lia). clearbody pad. subst pad.
  replace (n + (8 - n) - 8) with 0 by lia. rewrite Z.shiftl_0_r, !Z.shiftl_mul_pow2 by lia.
  rewrite <- Z.pow_add_r by lia. replace (n - 1 + (8 - n)) with 7 by lia.
  assert (EP : 2 ^ 8 <= P * 2 ^ (8 - n) < 2 ^ (8 + 1)).
  { assert (2 ^ n * 2 ^ (8 - n) = 2 ^ 8) by (rewrite <- Z.pow_add_r by lia; f_equal; lia).
    rewrite Z.pow_add_r in HP by lia. assert (0 < 2 ^ (8 - n)) by lia. change (2 ^ (8 + 1)) with (2 * 2 ^ 8). nia. }
  unfold u32, u64. rewrite !Z.mod_small by lia. change (2 ^ 7) with (2 ^ (8 - 1)).
  rewrite crc_rounds_shift1 by lia. by rewrite Z.land_ones, Z.shiftr_div_pow2 by lia.
Qed.

(** *** One byte *)

Lemma put_byte_long c B :
  8 < n -> is_u8 B ->
  crcinit (srsran_crc_checksum_put_byte (crc_obj c) B) mod 2 ^ n =
    Nat.iter 8 (shift1 n P) (Z.lxor (c mod 2 ^ n) (B * 2 ^ (n - 8))).
Proof.
  intros H8 HB. unfold srsran_crc_checksum_put_byte, with_crcinit. cbn [crcinit].
  change (order (crc_obj c)) with n. change (crcinit (crc_obj c)) with c.
  destruct (Z.gtb_spec n 8); [|lia]. set (m := 2 ^ (n - 8)).
  assert (Em : 2 ^ n = m * 2 ^ 8) by (unfold m; rewrite <- Z.pow_add_r by lia; f_equal; lia).
  assert (Hm : 0 < m) by (unfold m; lia).
  set (s := c mod 2 ^ n). assert (Hs : 0 <= s < 2 ^ n) by (apply Z.mod_pos_bound; lia).
  assert (Ehi : Z.land (Z.shiftr c (n - 8)) 255 = s / m).
  { change 255 with (Z.ones 8). rewrite Z.land_ones, Z.shiftr_div_pow2 by lia. fold m. unfold s. rewrite Em.
    rewrite Z.rem_mul_r, (Z.mul_comm m ((c / m) mod _)), Z.div_add by lia.
    rewrite (Z.div_small (c mod m)) by (apply Z.mod_pos_bound; lia). done. }
  assert (Hhi : 0 <= s / m < 2 ^ 8) by (split; [apply Z.div_pos; lia|apply Z.div_lt_upper_bound; lia]).
  assert (Hidx : 0 <= Z.lxor (s / m) B < 2 ^ 8) by (apply lxor_range; [lia|done|done]).
  rewrite Ehi, table_lookup, table_entry_long by lia.
  rewrite lxor_mod_pow2 by lia.
  assert (Hlo : u64 (Z.shiftl c 8) mod 2 ^ n = s mod m * 2 ^ 8).
  { unfold u64. rewrite Z.mod_mod_divide by (exists (2 ^ (64 - n)); rewrite <- Z.pow_add_r by lia; f_equal; lia).
    rewrite Z.shiftl_mul_pow2, Em by lia. rewrite Z.mul_mod_distr_r by lia. unfold s.
    rewrite Em, Z.mod_mod_divide by (exists (2 ^ 8); lia). done. }
  assert (Hl8 : 0 <= s mod m < 2 ^ (n - Z.of_nat 8)) by (apply Z.mod_pos_bound; lia).
  assert (Hrange : in_range n (Z.lxor (s / m) B * m)) by (unfold in_range; nia).
  rewrite Hlo, (Z.mod_small (Nat.iter _ _ _)) by (apply iter_shift1_range; [lia|done|done]).
  pose proof (iter_shift1_small n P ltac:(lia) 8 (s mod m) ltac:(lia) Hl8) as Esm.
  change (2 ^ 8) with (2 ^ Z.of_nat 8). rewrite <- Esm, <- iter_shift1_lxor. f_equal.
  rewrite (Z.div_mod s m) at 3 by lia. rewrite (Z.mul_comm m). unfold m in *.
  rewrite add_low_lxor by (try lia; apply Z.mod_pos_bound; lia).
  rewrite Z.lxor_assoc, (Z.lxor_comm (s mod _) (B * _)), <- Z.lxor_assoc, lxor_mul_pow2 by lia.
  apply Z.lxor_comm.
Qed.

Lemma put_byte_short c B :
  n <= 8 -> is_u8 B ->
  crcinit (srsran_crc_checksum_put_byte (crc_obj c) B) mod 2 ^ n =
    Nat.iter 8 (shift1 8 (P * 2 ^ (8 - n))) (Z.lxor (c mod 2 ^ n * 2 ^ (8 - n)) B) / 2 ^ (8 - n) mod 2 ^ n.
Proof.
  intros H8 HB. unfold srsran_crc_checksum_put_byte, with_crcinit. cbn [crcinit].
  change (order (crc_obj c)) with n. change (crcinit (crc_obj c)) with c.
  destruct (Z.gtb_spec n 8); [lia|].
  assert (Ep : 2 ^ n * 2 ^ (8 - n) = 2 ^ 8) by (rewrite <- Z.pow_add_r by lia; f_equal; lia).
  assert (Eidx : Z.land (u64 (Z.shiftl c (8 - n))) 255 = c mod 2 ^ n * 2 ^ (8 - n)).
  { change 255 with (Z.ones 8). rewrite Z.land_ones by lia. unfold u64.
    rewrite Z.mod_mod_divide by (by exists (2 ^ 56)). rewrite Z.shiftl_mul_pow2, <- Ep by lia.
    by rewrite Z.mul_mod_distr_r by lia. }
  assert (Hs : 0 <= c mod 2 ^ n < 2 ^ n) by (apply Z.mod_pos_bound; lia).
  assert (Hidx : 0 <= Z.lxor (c mod 2 ^ n * 2 ^ (8 - n)) B < 2 ^ 8) by (apply lxor_range; [lia|nia|done]).
  rewrite Eidx, table_lookup, table_entry_short by lia. rewrite lxor_mod_pow2, Z.mod_mod by lia.
  replace (u64 (Z.shiftl c 8) mod 2 ^ n) with 0; [apply Z.lxor_0_l|].
  unfold u64. rewrite Z.mod_mod_divide by (exists (2 ^ (64 - n)); rewrite <- Z.pow_add_r by lia; f_equal; lia).
  rewrite Z.shiftl_mul_pow2, <- Ep, (Z.mul_comm (2 ^ n)), Z.mul_assoc by lia. symmetry. apply Z.mod_mul. lia.
Qed.

(** Putting a byte feeds its eight bits. *)
Lemma put_byte_feeds c B :
  is_u8 B ->
  crcinit (srsran_crc_checksum_put_byte (crc_obj c) B) mod 2 ^ n =
    fold_left (feed n P) (srsran_bit_unpack B 8) (c mod 2 ^ n).
Proof.
  intros HB. set (w := srsran_bit_unpack B 8).
  assert (Hw : bits_ok w) by apply unpack_bits_ok.
  assert (Hz : zlen w = 8) by (apply zlen_unpack; lia).
  assert (Hl : length w = 8%nat) by (unfold zlen in Hz; lia).
  assert (Hv : bits_val w = B) by (unfold w; rewrite bits_val_unpack by lia; by apply Z.mod_small).
  destruct (Z.lt_ge_cases 8 n).
  - rewrite put_byte_long by done. rewrite feed_word by (try done; lia). by rewrite Hl, Hz, Hv.
  - rewrite put_byte_short by (try done; lia).
    assert (Hs : 0 <= c mod 2 ^ n < 2 ^ n) by (apply Z.mod_pos_bound; lia).
    pose proof (feeds_pad n P (8 - n) w (c mod 2 ^ n) ltac:(lia) ltac:(lia)) as Hp.
    replace (n + (8 - n)) with 8 in Hp by lia. rewrite feed_word in Hp by (try done; lia).
    rewrite Hl, Hz, Hv, Z.sub_diag, Z.mul_1_r in Hp. rewrite Hp, Z.div_mul by lia.
    apply Z.mod_small. apply feeds_range; [lia|done|done|done].
Qed.

Lemma put_byte_obj c B :
  srsran_crc_checksum_put_byte (crc_obj c) B = crc_obj (crcinit (srsran_crc_checksum_put_byte (crc_obj c) B)).
Proof. done. Qed.

(** *** Whole bytes *)

Lemma crc_bit_loop_feeds k a r c :
  bits_ok a -> zlen a = 8 * Z.of_nat k ->
  exists c', crc_bit_loop k (crc_obj c) (a ++ r) = Some (crc_obj c', r) /\
    c' mod 2 ^ n = fold_left (feed n P) a (c mod 2 ^ n).
Proof.
  revert a c. induction k as [|k IH]; intros a c Ha Hz.
  - assert (a = []) as -> by (apply zlen_0; lia). by exists c.
  - rewrite <- (take_drop 8 a) in Ha |- *. set (w := take 8 a) in *. set (b := drop 8 a) in *.
    apply bits_ok_app in Ha as [Hw Hb].
    assert (Hzw : zlen w = 8) by (unfold w, zlen in *; rewrite length_take; lia).
    assert (Hzb : zlen b = 8 * Z.of_nat k) by (unfold b, zlen in *; rewrite length_drop; lia).
    pose proof (bits_val_range w Hw) as Hv. rewrite Hzw in Hv.
    assert (Eu : srsran_bit_unpack (bits_val w) 8 = w) by (rewrite <- Hzw; by apply unpack_bits_val).
    assert (E8 : u8 (Z.land (bits_val w) 255) = bits_val w).
    { change 255 with (Z.ones 8). rewrite Z.land_ones by lia. unfold u8. rewrite Z.mod_mod by lia. by apply Z.mod_small. }
    cbn [crc_bit_loop]. rewrite <- app_assoc, srsran_bit_pack_val by (try done; lia). cbn [mbind option_bind].
    rewrite E8, put_byte_obj.
    destruct (IH b (crcinit (srsran_crc_checksum_put_byte (crc_obj c) (bits_val w))) Hb Hzb) as (c' & E & Ec).
    exists c'. split; [exact E|]. rewrite Ec, put_byte_feeds by done. by rewrite Eu, fold_left_app.
Qed.

Lemma crc_bytes_feeds d c :
  bytes_ok d ->
  exists c', fold_left srsran_crc_checksum_put_byte d (crc_obj c) = crc_obj c' /\
    c' mod 2 ^ n = fold_left (feed n P) (bits_of_bytes d) (c mod 2 ^ n).
Proof.
  revert c. induction d as [|B d IH]; intros c Hd; [by exists c|].
  apply Forall_cons in Hd as [HB Hd]. unfold bits_of_bytes. cbn [fold_left map concat].
  fold (bits_of_bytes d). rewrite put_byte_obj.
  destruct (IH (crcinit (srsran_crc_checksum_put_byte (crc_obj c) B)) Hd) as (c' & E & Ec).
  exists c'. split; [exact E|]. rewrite Ec, put_byte_feeds by done. by rewrite fold_left_app.
Qed.

Lemma get_obj c : u32 (srsran_crc_checksum_get (crc_obj c)) = c mod 2 ^ n.
Proof.
  unfold srsran_crc_checksum_get. cbn [crcinit crcmask crc_obj]. rewrite Z.land_ones by lia.
  apply u32_id. pose proof pow_n_bound as [Hb _]. pose proof (Z.mod_pos_bound c (2 ^ n)). unfold is_u32. lia.
Qed.

(** *** The rest of the bits *)

  Hypothesis Hodd : Z.odd P = true.

Lemma reverse_shift1 c : in_range n c -> reverse_round P (shift1 n P c) = c.
Proof.
  intros Hc. pose proof pow_n_bound as [Hb Hb']. unfold reverse_round.
  rewrite (Z.land_comm 1), land_1, Zmod_odd, u32_id by (unfold is_u32; lia). unfold shift1, in_range in *.
  destruct (Z.testbit c (n - 1)).
  - rewrite <- Z.bit0_odd, Z.lxor_spec, !Z.bit0_odd, Z.odd_mul, Hodd. simpl.
    rewrite Z.lxor_assoc, Z.lxor_nilpotent, Z.lxor_0_r, Z.shiftr_div_pow2 by lia.
    change (2 ^ 1) with 2. rewrite Z.mul_comm. apply Z.div_mul. lia.
  - rewrite Z.odd_mul. simpl. rewrite Z.shiftr_div_pow2 by lia. change (2 ^ 1) with 2.
    rewrite Z.mul_comm. apply Z.div_mul. lia.
Qed.

Lemma shift1_inj a b : in_range n a -> in_range n b -> shift1 n P a = shift1 n P b -> a = b.
Proof. intros Ha Hb E. rewrite <- (reverse_shift1 a), <- (reverse_shift1 b) by done. by rewrite E. Qed.

Lemma reverse_iter k c :
  in_range n c -> Nat.iter k (reverse_round P) (Nat.iter k (shift1 n P) c) = c.
Proof.
  intros Hc. induction k as [|k IH]; [done|]. rewrite (iter_shift_r (reverse_round P)). simpl.
  rewrite reverse_shift1; [done|]. apply iter_shift1_range; [lia|done|done].
Qed.

Lemma last_byte_val w k v :
  bits_ok w -> 0 <= v -> 0 <= k -> k + zlen w <= 8 -> v < 2 ^ k ->
  last_byte k w (v * 2 ^ (8 - k)) = (v * 2 ^ zlen w + bits_val w) * 2 ^ (8 - k - zlen w).
Proof.
  revert k v. induction w as [|b w IH]; intros k v Hw Hv Hk Hz Hr; cbn [last_byte].
  - change (zlen (@nil Z)) with 0. unfold bits_val. simpl. rewrite Z.sub_0_r. lia.
  - apply Forall_cons in Hw as [Hb Hw]. rewrite zlen_cons in Hz |- *. pose proof (zlen_nonneg w).
    replace (8 - k) with (Z.succ (7 - k)) by lia. rewrite Z.pow_succ_r by lia.
    rewrite Z.mul_assoc, (Z.mul_comm v 2), <- (Z.shiftl_mul_pow2 (2 * v)), <- Z.shiftl_lor, lor_bit by (done || lia).
    rewrite Z.shiftl_mul_pow2 by lia.
    assert (E : 2 ^ k * 2 ^ (8 - k) = 2 ^ 8) by (rewrite <- Z.pow_add_r by lia; f_equal; lia).
    assert (E' : 2 ^ (8 - k) = 2 * 2 ^ (7 - k)) by (rewrite <- Z.pow_succ_r by lia; f_equal; lia).
    rewrite u8_id by (unfold is_u8, is_bit in *; nia).
    replace (7 - k) with (8 - (k + 1)) by lia.
    rewrite IH by (try done; try lia; rewrite ?Z.pow_add_r by lia; unfold is_bit in *; lia).
    rewrite bits_val_cons, Z.pow_add_r by lia. replace (Z.succ (8 - (k + 1)) - (1 + zlen w)) with (8 - (k + 1) - zlen w) by lia.
    lia.
Qed.

(** The padding adds zero bits. *)
Lemma last_byte_bits w :
  bits_ok w -> zlen w <= 8 ->
  is_u8 (last_byte 0 w 0) /\ srsran_bit_unpack (last_byte 0 w 0) 8 = w ++ replicate (8 - length w) 0.
Proof.
  intros Hw Hz. pose proof (zlen_nonneg w) as H0.
  pose proof (last_byte_val w 0 0 Hw ltac:(lia) ltac:(lia) ltac:(lia) ltac:(lia)) as E.
  rewrite !Z.mul_0_l, Z.add_0_l, Z.sub_0_r in E. rewrite E. pose proof (bits_val_range w Hw) as Hr.
  assert (Ep : 2 ^ zlen w * 2 ^ (8 - zlen w) = 2 ^ 8) by (rewrite <- Z.pow_add_r by lia; f_equal; lia).
  assert (Hok : bits_ok (w ++ replicate (8 - length w) 0)).
  { apply bits_ok_app. split; [done|]. apply Forall_replicate. by left. }
  assert (Hzz : zlen (replicate (8 - length w) 0) = 8 - zlen w) by (unfold zlen in *; rewrite length_replicate; lia).
  assert (Hv : bits_val (w ++ replicate (8 - length w) 0) = bits_val w * 2 ^ (8 - zlen w)).
  { rewrite bits_val_app, Hzz. replace (bits_val (replicate _ 0)) with 0; [lia|]. clear.
    induction (8 - length w)%nat as [|k IH]; [done|]. cbn [replicate]. rewrite bits_val_cons. lia. }
  split; [unfold is_u8; nia|]. rewrite <- Hv.
  pose proof (unpack_bits_val _ Hok) as Eu. rewrite zlen_app, Hzz in Eu.
  by replace (zlen w + (8 - zlen w)) with 8 in Eu by lia.
Qed.

Lemma feed_zeros k c : fold_left (feed n P) (replicate k 0) c = Nat.iter k (shift1 n P) c.
Proof.
  revert c. induction k as [|k IH]; intros c; [done|]. rewrite iter_shift_r. cbn [replicate fold_left].
  rewrite IH. unfold feed. by rewrite Z.mul_0_l, Z.lxor_0_r.
Qed.

(** *** The functions *)

(** The checksum of bits, of any number. *)
Lemma checksum_bits c0 l r :
  bits_ok l -> exists c, srsran_crc_checksum (crc_obj c0) (l ++ r) (zlen l) = Some (crc_of n P l, crc_obj c).
Proof.
  intros Hl. pose proof (zlen_nonneg l) as Hz0. unfold srsran_crc_checksum, srsran_crc_set_init.
  change (with_crcinit (crc_obj c0) 0) with (crc_obj 0).
  rewrite Z.shiftr_div_pow2, Z.shiftl_mul_pow2 by lia. change (2 ^ 3) with 8.
  assert (Hdm := Z.div_mod (zlen l) 8 ltac:(lia)). assert (Hm := Z.mod_pos_bound (zlen l) 8 ltac:(lia)).
  assert (Hd := Z.div_pos (zlen l) 8 ltac:(lia) ltac:(lia)).
  set (k := Z.to_nat (zlen l / 8)). replace (zlen l - zlen l / 8 * 8) with (zlen l mod 8) by lia.
  set (m := zlen l mod 8) in *. set (a := take (8 * k) l). set (w := drop (8 * k) l).
  assert (El : l = a ++ w) by (symmetry; apply take_drop). pose proof Hl as Hl'. rewrite El in Hl'.
  apply bits_ok_app in Hl' as [Ha Hw].
  assert (Hza : zlen a = 8 * Z.of_nat k) by (unfold a, zlen in *; rewrite length_take; lia).
  assert (Hzw : zlen w = m) by (unfold w, zlen in *; rewrite length_drop; lia).
  destruct (crc_bit_loop_feeds k a (w ++ r) 0 Ha Hza) as (c & E & Ec).
  rewrite Z.mod_0_l in Ec by lia. replace (l ++ r) with (a ++ w ++ r) by (by rewrite app_assoc, <- El).
  rewrite E. cbn [mbind option_bind].
  assert (Ecrc : crc_of n P l = fold_left (feed n P) w (c mod 2 ^ n)).
  { unfold crc_of. by rewrite El, fold_left_app, Ec. }
  assert (Hrange : in_range n (crc_of n P l)) by (apply crc_of_range; [lia|done|done]).
  destruct (Z.gtb_spec m 0).
  - rewrite zlen_app, (proj2 (Z.leb_le _ _)) by (pose proof (zlen_nonneg r); lia).
    rewrite ztake_app_eq by done. destruct (last_byte_bits w Hw ltac:(lia)) as [Hb8 Hbits].
    rewrite put_byte_obj, get_obj, put_byte_feeds, Hbits, fold_left_app, <- Ecrc, feed_zeros by done.
    unfold reversecrcbit. change (crcmask (crc_obj _)) with (Z.ones n). change (polynom (crc_obj _)) with P.
    replace (Z.to_nat (8 - m)) with (8 - length w)%nat by (unfold zlen in Hzw; lia).
    rewrite reverse_iter, Z.land_ones, Z.mod_small by (done || lia). eexists. do 2 f_equal.
    rewrite u32_id; [done|]. pose proof pow_n_bound as [Hb _]. unfold in_range, is_u32 in *. lia.
  - assert (w = []) as E0 by (apply zlen_0; lia). rewrite E0 in Ecrc. simpl in Ecrc.
    rewrite get_obj, Ecrc. by eexists.
Qed.

(** Attaching stores the checksum after the message. *)
Lemma attach_bits c0 l old r :
  bits_ok l -> zlen old = n ->
  exists c, srsran_crc_attach (crc_obj c0) (l ++ old ++ r) (zlen l) =
    Some (crc_of n P l, l ++ srsran_bit_unpack (crc_of n P l) n ++ r, crc_obj c).
Proof.
  intros Hl Ho. destruct (checksum_bits c0 l (old ++ r) Hl) as (c & E).
  exists c. unfold srsran_crc_attach. rewrite E. cbn [mbind option_bind]. change (order (crc_obj c)) with n.
  assert (Hz : zlen (srsran_bit_unpack (crc_of n P l) n) = n) by (apply zlen_unpack; lia).
  rewrite store_Some by (rewrite ?zlen_app, ?Hz; pose proof (zlen_nonneg l); pose proof (zlen_nonneg r); lia).
  cbn [mbind option_bind]. do 3 f_equal. rewrite ztake_app_eq by done. f_equal. f_equal.
  rewrite Hz, app_assoc. apply zdrop_app_eq. rewrite zlen_app. lia.
Qed.

Lemma match_bits c0 x r :
  bits_ok x -> n <= zlen x ->
  exists c, srsran_crc_match (crc_obj c0) (x ++ r) (zlen x - n) = Some (crc_of n P x =? 0, crc_obj c).
Proof.
  intros Hx Hz. unfold srsran_crc_match. change (order (crc_obj c0)) with n.
  replace (zlen x - n + n) with (zlen x) by lia. destruct (checksum_bits c0 x r Hx) as (c & E).
  exists c. by rewrite E.
Qed.

(** *** Error detection *)

Lemma feed_inj b s1 s2 :
  is_bit b -> in_range n s1 -> in_range n s2 -> feed n P s1 b = feed n P s2 b -> s1 = s2.
Proof.
  intros Hb H1 H2 E. pose proof (pow_n n ltac:(lia)) as (E1 & _ & E3). unfold in_range in *.
  assert (Hbr : 0 <= b * 2 ^ (n - 1) < 2 ^ n) by (unfold is_bit in *; nia).
  apply shift1_inj in E; [|apply lxor_range; (done || lia)..].
  rewrite <- (Z.lxor_0_r s1), <- (Z.lxor_0_r s2), <- (Z.lxor_nilpotent (b * 2 ^ (n - 1))), <- !Z.lxor_assoc.
  by rewrite E.
Qed.

Lemma feeds_inj w s1 s2 :
  bits_ok w -> in_range n s1 -> in_range n s2 ->
  fold_left (feed n P) w s1 = fold_left (feed n P) w s2 -> s1 = s2.
Proof.
  revert s1 s2. induction w as [|b w IH]; intros s1 s2 Hw H1 H2 E; [done|].
  apply Forall_cons in Hw as [Hb Hw]. simpl in E.
  apply IH in E; [|done|apply feed_range; (done || lia)..]. by eapply feed_inj.
Qed.

Lemma iter_shift1_inj k a b :
  in_range n a -> in_range n b -> Nat.iter k (shift1 n P) a = Nat.iter k (shift1 n P) b -> a = b.
Proof.
  intros Ha Hb E. rewrite <- (reverse_iter k a), <- (reverse_iter k b) by done. by rewrite E.
Qed.

(** Words of at most [n] bits that differ take a register to different values. *)
Lemma feed_word_inj w1 w2 s :
  bits_ok w1 -> bits_ok w2 -> length w1 = length w2 -> zlen w1 <= n -> in_range n s ->
  fold_left (feed n P) w1 s = fold_left (feed n P) w2 s -> w1 = w2.
Proof.
  intros H1 H2 Hl Hz Hs E. assert (Ez : zlen w2 = zlen w1) by (unfold zlen; lia).
  pose proof (zlen_nonneg w1) as H0.
  rewrite !feed_word in E by (try done; lia). rewrite Hl, Ez in E.
  assert (Hr : forall w, bits_ok w -> zlen w = zlen w1 -> 0 <= bits_val w * 2 ^ (n - zlen w1) < 2 ^ n).
  { intros w Hw Ew. pose proof (bits_val_range w Hw) as Hb. rewrite Ew in Hb.
    assert (2 ^ zlen w1 * 2 ^ (n - zlen w1) = 2 ^ n) by (rewrite <- Z.pow_add_r by lia; f_equal; lia).
    assert (0 < 2 ^ (n - zlen w1)) by lia. nia. }
  apply iter_shift1_inj in E; [|apply lxor_range; [lia|exact Hs|by apply Hr]..].
  assert (E' : bits_val w1 * 2 ^ (n - zlen w1) = bits_val w2 * 2 ^ (n - zlen w1)).
  { rewrite <- (Z.lxor_0_l (bits_val w1 * _)), <- (Z.lxor_0_l (bits_val w2 * _)), <- (Z.lxor_nilpotent s), !Z.lxor_assoc.
    by rewrite E. }
  apply Z.mul_reg_r in E'; [|lia]. by apply bits_val_inj.
Qed.

(** A change within [n] consecutive bits changes the remainder. *)
Lemma crc_of_window a w1 w2 b :
  bits_ok a -> bits_ok w1 -> bits_ok w2 -> bits_ok b -> length w1 = length w2 -> zlen w1 <= n -> w1 <> w2 ->
  crc_of n P (a ++ w1 ++ b) <> crc_of n P (a ++ w2 ++ b).
Proof.
  intros Ha H1 H2 Hb Hl Hz Hne E. apply Hne. unfold crc_of in E. rewrite !fold_left_app in E.
  assert (Hs : in_range n (fold_left (feed n P) a 0)) by (apply feeds_range; [lia|done|done|apply zero_range; lia]).
  apply feeds_inj in E; [|done|apply feeds_range; (done || lia)..].
  by apply feed_word_inj in E.
Qed.

(** *** Bytes *)

Lemma checksum_bytes_S k c :
  0 <= k -> checksum_bytes (8 * (k + 1)) c = u8 (Z.shiftr c (8 * k)) :: checksum_bytes (8 * k) c.
Proof.
  intros Hk. unfold checksum_bytes. rewrite !(Z.mul_comm 8), !Z.div_mul by lia.
  rewrite seqZ_cons by lia. cbn [map]. f_equal.
  - replace (8 * (k + 1 - 0 - 1)) with (8 * k) by lia. rewrite (Z.mul_comm k 8).
    rewrite Z.shiftr_land, Z.shiftr_shiftl_l, Z.sub_diag, Z.shiftl_0_r by lia.
    change 255 with (Z.ones 8). rewrite Z.land_ones by lia. unfold u8. by rewrite Z.mod_mod by lia.
  - replace (Z.succ 0) with (0 + 1) by lia. replace (Z.pred (k + 1)) with k by lia.
    rewrite <- (fmap_add_seqZ 1 0), map_map. apply map_ext. intros j.
    by replace (k + 1 - (1 + j) - 1) with (k - j - 1) by lia.
Qed.

Lemma checksum_bytes_bits k c :
  0 <= k -> bits_of_bytes (checksum_bytes (8 * k) c) = srsran_bit_unpack c (8 * k) /\
    zlen (checksum_bytes (8 * k) c) = k /\ bytes_ok (checksum_bytes (8 * k) c).
Proof.
  intros Hk. pattern k. apply natlike_ind; [| |done].
  - split_and!; [done|done|constructor].
  - clear k Hk. intros k Hk (E & Ez & Hok). change (Z.succ k) with (k + 1). rewrite checksum_bytes_S by done.
    split_and!.
    + unfold bits_of_bytes in *. cbn [map concat]. rewrite E.
      replace (8 * (k + 1)) with (8 + 8 * k) by lia. rewrite unpack_split by lia. f_equal.
      unfold u8. apply unpack_mod. lia.
    + rewrite zlen_cons. lia.
    + constructor; [apply is_u8_mod|done].
Qed.

Lemma checksum_byte_bits c0 d r :
  bytes_ok d ->
  exists c, srsran_crc_checksum_byte (crc_obj c0) (d ++ r) (8 * zlen d) =
    Some (crc_of n P (bits_of_bytes d), crc_obj c).
Proof.
  intros Hd. unfold srsran_crc_checksum_byte, srsran_crc_set_init.
  change (with_crcinit (crc_obj c0) 0) with (crc_obj 0).
  rewrite (Z.mul_comm 8), Z.div_mul by lia. rewrite zlen_app, (proj2 (Z.leb_le _ _)) by (pose proof (zlen_nonneg r); lia).
  rewrite ztake_app_eq by done. destruct (crc_bytes_feeds d 0 Hd) as (c & E & Ec).
  rewrite E, get_obj, Ec, Z.mod_0_l by lia. by eexists.
Qed.

(** Attaching the checksum to bytes makes a codeword. *)
Lemma attach_byte_bits c0 d old r k :
  bytes_ok d -> n = 8 * k -> zlen old = k ->
  exists c cs, srsran_crc_attach_byte (crc_obj c0) (d ++ old ++ r) (8 * zlen d) =
    Some (crc_of n P (bits_of_bytes d), d ++ cs ++ r, crc_obj c) /\
    bytes_ok cs /\ zlen cs = k /\ bits_of_bytes cs = srsran_bit_unpack (crc_of n P (bits_of_bytes d)) n.
Proof.
  intros Hd Hk Ho. destruct (checksum_byte_bits c0 d (old ++ r) Hd) as (c & E).
  unfold srsran_crc_attach_byte. rewrite E. cbn [mbind option_bind]. change (order (crc_obj c)) with n.
  destruct (checksum_bytes_bits k (crc_of n P (bits_of_bytes d)) ltac:(lia)) as (Eb & Ez & Hok). rewrite <- Hk in *.
  rewrite (Z.mul_comm 8), Z.div_mul by lia.
  exists c, (checksum_bytes n (crc_of n P (bits_of_bytes d))). split; [|done].
  rewrite store_Some by (rewrite ?zlen_app, ?Ez; pose proof (zlen_nonneg d); pose proof (zlen_nonneg r); lia).
  cbn [mbind option_bind]. do 3 f_equal. rewrite ztake_app_eq by done. f_equal. f_equal.
  rewrite Ez, app_assoc. apply zdrop_app_eq. rewrite zlen_app. lia.
Qed.

End code.

(** ** Properties *)

(** The generators the program uses: degree [n], an odd polynomial. *)
Definition generator (n P : Z) : Prop := 1 <= n <= 30 /\ 2 ^ n <= P < 2 ^ (n + 1) /\ Z.odd P = true.

Definition generatorb (n P : Z) : bool :=
  (1 <=? n) && (n <=? 30) && (2 ^ n <=? P) && (P <? 2 ^ (n + 1)) && Z.odd P.

Lemma generatorb_spec n P : generatorb n P = true -> generator n P.
Proof.
  unfold generatorb, generator. rewrite !andb_true_iff, !Z.leb_le, Z.ltb_lt. tauto.
Qed.

(** The generators of the LTE channels qualify. *)
Lemma lte_generators :
  Forall (fun '(n, P) => generator n P)
    [(24, SRSRAN_LTE_CRC24A); (24, SRSRAN_LTE_CRC24B); (16, SRSRAN_LTE_CRC16);
     (11, SRSRAN_LTE_CRC11); (8, SRSRAN_LTE_CRC8); (6, SRSRAN_LTE_CRC6)].
Proof. repeat (apply Forall_cons_2; [by apply generatorb_spec|]). apply Forall_nil_2. Qed.

(** C19: the table driven checksum of a message of any number of bits, whole bytes or not, is
    the remainder of the message shifted by the order on division by the generator over
    GF(2): subtracting it leaves a multiple of the generator, and it has fewer bits. *)
Theorem crc_checksum_is_remainder n P h l r :
  generator n P -> srsran_crc_init P n = Some h -> bits_ok l ->
  exists c h' q, srsran_crc_checksum h (l ++ r) (zlen l) = Some (c, h') /\
    0 <= c < 2 ^ n /\ Z.lxor (clmul P q) c = bits_val l * 2 ^ n.
Proof.
  intros (Hn & HP & Ho) Hi Hl. rewrite srsran_crc_init_obj in Hi by done. injection Hi as <-.
  destruct (checksum_bits n P Hn HP Ho 0 l r Hl) as (c' & E).
  destruct (crc_of_remainder n P ltac:(lia) l Hl) as (q & _ & Eq).
  exists (crc_of n P l), (crc_obj n P c'), q. split_and!; [done| | |done].
  all: apply (crc_of_range n P ltac:(lia) HP l Hl).
Qed.

(** C22: a message with its checksum attached passes the check, and the attachment changes
    nothing but the [order] bits after the message; any change of the codeword confined
    to [order] consecutive bits, checksum included, fails the check. *)
Theorem crc_attach_detects n P h l old r :
  generator n P -> srsran_crc_init P n = Some h -> bits_ok l -> zlen old = n ->
  exists c x h', srsran_crc_attach h (l ++ old ++ r) (zlen l) = Some (c, x ++ r, h') /\
    x = l ++ srsran_bit_unpack c n /\
    (exists h'', srsran_crc_match h' (x ++ r) (zlen l) = Some (true, h'')) /\
    (forall a w w' b, x = a ++ w ++ b -> length w' = length w -> zlen w <= n -> bits_ok w' -> w' <> w ->
      exists h'', srsran_crc_match h' ((a ++ w' ++ b) ++ r) (zlen l) = Some (false, h'')).
Proof.
  intros (Hn & HP & Ho) Hi Hl Hold. rewrite srsran_crc_init_obj in Hi by done. injection Hi as <-.
  destruct (attach_bits n P Hn HP Ho 0 l old r Hl Hold) as (c' & E).
  set (x := l ++ srsran_bit_unpack (crc_of n P l) n) in *.
  assert (Hx : bits_ok x) by (apply bits_ok_app; split; [done|apply unpack_bits_ok]).
  assert (Hz : zlen x = zlen l + n) by (unfold x; rewrite zlen_app, zlen_unpack; lia).
  assert (H0 : crc_of n P x = 0) by (apply crc_of_codeword; [lia|done|done]).
  pose proof (zlen_nonneg l). exists (crc_of n P l), x, (crc_obj n P c'). split_and!.
  - rewrite E. unfold x. by rewrite <- app_assoc.
  - done.
  - destruct (match_bits n P Hn HP Ho c' x r Hx ltac:(lia)) as (c2 & E2). exists (crc_obj n P c2).
    rewrite H0 in E2. by replace (zlen x - n) with (zlen l) in E2 by lia.
  - intros a w w' b Ex Hlw Hzw Hw' Hne. rewrite Ex in Hx. apply bits_ok_app in Hx as [Ha [Hw Hb]%bits_ok_app].
    assert (Hz' : zlen (a ++ w' ++ b) = zlen l + n).
    { rewrite <- Hz, Ex, !zlen_app. assert (zlen w' = zlen w) by (unfold zlen; lia). lia. }
    destruct (match_bits n P Hn HP Ho c' (a ++ w' ++ b) r) as (c2 & E2); [|lia|].
    { apply bits_ok_app. split; [done|]. by apply bits_ok_app. }
    exists (crc_obj n P c2). replace (zlen (a ++ w' ++ b) - n) with (zlen l) in E2 by lia. rewrite E2.
    assert (Hc : crc_of n P (a ++ w ++ b) <> crc_of n P (a ++ w' ++ b)) by (apply crc_of_window; try done; lia).
    rewrite <- Ex, H0 in Hc. do 3 f_equal. apply Z.eqb_neq. congruence.
Qed.

(** The byte oriented functions agree with the bit oriented ones: the checksum of bytes is
    the checksum of their bits, and bytes with the checksum attached pass the check. *)
Theorem crc_bytes_agree n P k h d old r :
  generator n P -> n = 8 * k -> srsran_crc_init P n = Some h -> bytes_ok d -> zlen old = k ->
  exists c d' h' h'', srsran_crc_attach_byte h (d ++ old ++ r) (8 * zlen d) = Some (c, d' ++ r, h') /\
    fst <$> srsran_crc_checksum h (bits_of_bytes d) (8 * zlen d) = Some c /\
    bits_of_bytes d' = bits_of_bytes d ++ srsran_bit_unpack c n /\
    srsran_crc_match_byte h' (d' ++ r) (8 * zlen d) = Some (true, h'').
Proof.
  intros (Hn & HP & Ho) Hk Hi Hd Hold. rewrite srsran_crc_init_obj in Hi by done. injection Hi as <-.
  destruct (attach_byte_bits n P Hn HP 0 d old r k Hd Hk Hold) as (c' & cs & E & Hcs & Hz & Eb).
  set (c := crc_of n P (bits_of_bytes d)) in *.
  assert (Hx : bytes_ok (d ++ cs)) by (by apply bytes_ok_app).
  destruct (checksum_byte_bits n P Hn HP c' (d ++ cs) r Hx) as (c2 & E2).
  rewrite bits_of_bytes_app, Eb in E2. unfold c in E2 at 1.
  rewrite crc_of_codeword in E2 by (try apply bits_of_bytes_ok; done || lia).
  exists c, (d ++ cs), (crc_obj n P c'), (crc_obj n P c2). split_and!.
  - by rewrite E, <- app_assoc.
  - destruct (checksum_bits n P Hn HP Ho 0 (bits_of_bytes d) [] (bits_of_bytes_ok d)) as (c3 & E3).
    rewrite app_nil_r, zlen_bits_of_bytes in E3. by rewrite E3.
  - by rewrite bits_of_bytes_app, Eb.
  - unfold srsran_crc_match_byte. change (order (crc_obj n P c')) with n.
    rewrite zlen_app, Hz in E2. replace (8 * zlen d + n) with (8 * (zlen d + k)) by lia. by rewrite E2.
Qed.

(** *** Concrete inputs *)

Definition crc24a : srsran_crc_t := crc_obj 24 SRSRAN_LTE_CRC24A 0.

Lemma crc24a_generator : generator 24 SRSRAN_LTE_CRC24A.
Proof. by apply generatorb_spec. Qed.

Lemma crc24a_init : srsran_crc_init SRSRAN_LTE_CRC24A 24 = Some crc24a.
Proof. apply srsran_crc_init_obj. lia. Qed.

Lemma eleven_bits_ok : bits_ok [1; 0; 1; 1; 0; 1; 1; 1; 0; 1; 1].
Proof. repeat constructor; unfold is_bit; lia. Qed.

Lemma crc_checksum_is_remainder_witness :
  exists c h' q, srsran_crc_checksum crc24a [1; 0; 1; 1; 0; 1; 1; 1; 0; 1; 1] 11 = Some (c, h') /\
    0 <= c < 2 ^ 24 /\ Z.lxor (clmul SRSRAN_LTE_CRC24A q) c = 1467 * 2 ^ 24.
Proof.
  exact (crc_checksum_is_remainder 24 SRSRAN_LTE_CRC24A crc24a [1; 0; 1; 1; 0; 1; 1; 1; 0; 1; 1] []
    crc24a_generator crc24a_init eleven_bits_ok).
Defined.

Lemma crc_attach_detects_witness :
  exists c x h', srsran_crc_attach crc24a ([1; 0; 1; 1; 0; 1; 1; 1; 0; 1; 1] ++ replicate 24 0) 11 = Some (c, x, h') /\
    exists h'', srsran_crc_match h' x 11 = Some (true, h'').
Proof.
  destruct (crc_attach_detects 24 SRSRAN_LTE_CRC24A crc24a [1; 0; 1; 1; 0; 1; 1; 1; 0; 1; 1] (replicate 24 0) []
    crc24a_generator crc24a_init eleven_bits_ok ltac:(reflexivity)) as (c & x & h' & E & _ & H & _).
  rewrite !app_nil_r in *. exists c, x, h'. exact (conj E H).
Defined.

Lemma crc_bytes_agree_witness :
  exists c d' h' h'', srsran_crc_attach_byte crc24a [0xAB; 0x12; 0; 0; 0] 16 = Some (c, d', h') /\
    srsran_crc_match_byte h' d' 16 = Some (true, h'').
Proof.
  destruct (crc_bytes_agree 24 SRSRAN_LTE_CRC24A 3 crc24a [0xAB; 0x12] [0; 0; 0] []
    crc24a_generator eq_refl crc24a_init ltac:(repeat constructor; unfold is_u8; lia) ltac:(reflexivity))
    as (c & d' & h' & h'' & E & _ & _ & H).
  rewrite !app_nil_r in *. exists c, d', h', h''. exact (conj E H).
Defined.
