(* ===== verification/CbSegm.v ===== *)
(** * Code block segmentation and the turbo code interleaver

    [srsran_cbsegm] of [lib/src/phy/fec/cbsegm.c] (the LTE part) and
    [srsran_tc_interl_LTE_gen_interl] of [lib/src/phy/fec/turbo/tc_interl_lte.c]: the
    sizes of the code blocks a transport block is cut into, and the quadratic
    permutation of each size.  The segmentation is shown to cover the transport block
    with its checksums exactly, up to a bounded number of filler bits, and the
    interleaver to be a permutation with its inverse for all 188 block sizes. *)

From S2P Require Import Prelude.
From stdpp Require Import base list gmap numbers list_basics list_relations.

Local Open Scope Z_scope.

(** ** Tables *)

Definition SRSRAN_NOF_TC_CB_SIZES : Z := 188.
Definition SRSRAN_TCOD_MAX_LEN_CB : Z := 6144.
Definition SRSRAN_ERROR : Z := -1.

(** TS 36.212 table 5.1.3-3. *)
Definition tc_cb_sizes : list Z :=
  [40; 48; 56; 64; 72; 80; 88; 96; 104; 112; 120; 128; 136; 144; 152; 160; 168; 176; 184; 192; 200;
   208; 216; 224; 232; 240; 248; 256; 264; 272; 280; 288; 296; 304; 312; 320; 328; 336; 344; 352; 360;
   368; 376; 384; 392; 400; 408; 416; 424; 432; 440; 448; 456; 464; 472; 480; 488; 496; 504; 512; 528;
   544; 560; 576; 592; 608; 624; 640; 656; 672; 688; 704; 720; 736; 752; 768; 784; 800; 816; 832; 848;
   864; 880; 896; 912; 928; 944; 960; 976; 992; 1008; 1024; 1056; 1088; 1120; 1152; 1184; 1216; 1248;
   1280; 1312; 1344; 1376; 1408; 1440; 1472; 1504; 1536; 1568; 1600; 1632; 1664; 1696; 1728; 1760;
   1792; 1824; 1856; 1888; 1920; 1952; 1984; 2016; 2048; 2112; 2176; 2240; 2304; 2368; 2432; 2496;
   2560; 2624; 2688; 2752; 2816; 2880; 2944; 3008; 3072; 3136; 3200; 3264; 3328; 3392; 3456; 3520;
   3584; 3648; 3712; 3776; 3840; 3904; 3968; 4032; 4096; 4160; 4224; 4288; 4352; 4416; 4480; 4544;
   4608; 4672; 4736; 4800; 4864; 4928; 4992; 5056; 5120; 5184; 5248; 5312; 5376; 5440; 5504; 5568;
   5632; 5696; 5760; 5824; 5888; 5952; 6016; 6080; 6144].

(** ** Segmentation *)

Record srsran_cbsegm_t := mk_cbsegm {
  s_F : Z; s_C : Z; s_K1 : Z; s_K2 : Z; s_K1_idx : Z; s_K2_idx : Z; s_C1 : Z; s_C2 : Z;
  s_tbs : Z; s_L_tb : Z; s_L_cb : Z; s_Z : Z
}.

Definition cbsegm_zero : srsran_cbsegm_t := mk_cbsegm 0 0 0 0 0 0 0 0 0 0 0 0.

(** [SRSRAN_CEIL] on unsigned 32-bit numbers. *)
Definition SRSRAN_CEIL (num den : Z) : Z := u32 (num + u32 (den - 1)) / den.

(** The number of code blocks and the total size. *)
Definition cbsegm_cb_size (B Zmax : Z) : Z * Z :=
  if B <=? Zmax then (1, B)
  else
    let C := SRSRAN_CEIL B (u32 (Zmax - 24)) in
    (C, u32 (B + u32 (24 * C))).

(** The loop of [srsran_cbsegm_cbindex] over the rest of the table. *)
Fixpoint cbindex_loop (sizes : list Z) (j long_cb : Z) : Z :=
  match sizes with
  | [] => SRSRAN_ERROR
  | K :: sizes => if K <? long_cb then cbindex_loop sizes (j + 1) long_cb else j
  end.

Definition srsran_cbsegm_cbindex (long_cb : Z) : Z := cbindex_loop tc_cb_sizes 0 long_cb.

Definition srsran_cbsegm_cbsize (index : Z) : Z :=
  if index <? SRSRAN_NOF_TC_CB_SIZES then default 0 (tc_cb_sizes !! Z.to_nat index) else SRSRAN_ERROR.

Definition srsran_cbsegm_cbsize_isvalid (size : Z) : bool := existsb (fun K => K =? size) tc_cb_sizes.

(** The status and the new contents of [*s]; on an error the fields set so far stay. *)
Definition srsran_cbsegm (s : srsran_cbsegm_t) (tbs : Z) : Z * srsran_cbsegm_t :=
  if tbs =? 0 then (0, cbsegm_zero)
  else
    let B := u32 (tbs + 24) in
    let '(c, Bp) := cbsegm_cb_size B SRSRAN_TCOD_MAX_LEN_CB in
    let s := mk_cbsegm (s_F s) c (s_K1 s) (s_K2 s) (s_K1_idx s) (s_K2_idx s) (s_C1 s) (s_C2 s) tbs (s_L_tb s) (s_L_cb s) (s_Z s) in
    let idx1 := srsran_cbsegm_cbindex (u32 (u32 (Bp - 1) / c + 1)) in
    if idx1 =? SRSRAN_ERROR then (idx1, s)
    else
      let k1 := srsran_cbsegm_cbsize idx1 in
      if k1 =? SRSRAN_ERROR then (k1, s)
      else
        let s := mk_cbsegm (s_F s) c k1 (s_K2 s) idx1 (s_K2_idx s) (s_C1 s) (s_C2 s) tbs (s_L_tb s) (s_L_cb s) (s_Z s) in
        let ret := if idx1 >? 0 then srsran_cbsegm_cbsize (idx1 - 1) else k1 in
        if ret =? SRSRAN_ERROR then (ret, s)
        else
          let '(k2, k2_idx, c2, c1) :=
            if c =? 1 then (0, 0, 0, 1)
            else
              let c2 := u32 (u32 (c * k1) - Bp) / u32 (k1 - ret) in
              (ret, u32 (idx1 - 1), c2, u32 (c - c2)) in
          (0, mk_cbsegm (u32 (u32 (u32 (c1 * k1) + u32 (c2 * k2)) - Bp)) c k1 k2 idx1 k2_idx c1 c2 tbs 24 24 (s_Z s)).

(** ** Interleaver *)

Definition f1_list : list Z :=
  [3; 7; 19; 7; 7; 11; 5; 11; 7; 41; 103; 15; 9; 17; 9; 21; 101; 21; 57; 23; 13; 27; 11; 27; 85; 29;
   33; 15; 17; 33; 103; 19; 19; 37; 19; 21; 21; 115; 193; 21; 133; 81; 45; 23; 243; 151; 155; 25; 51;
   47; 91; 29; 29; 247; 29; 89; 91; 157; 55; 31; 17; 35; 227; 65; 19; 37; 41; 39; 185; 43; 21; 155;
   79; 139; 23; 217; 25; 17; 127; 25; 239; 17; 137; 215; 29; 15; 147; 29; 59; 65; 55; 31; 17; 171; 67;
   35; 19; 39; 19; 199; 21; 211; 21; 43; 149; 45; 49; 71; 13; 17; 25; 183; 55; 127; 27; 29; 29; 57;
   45; 31; 59; 185; 113; 31; 17; 171; 209; 253; 367; 265; 181; 39; 27; 127; 143; 43; 29; 45; 157; 47;
   13; 111; 443; 51; 51; 451; 257; 57; 313; 271; 179; 331; 363; 375; 127; 31; 33; 43; 33; 477; 35;
   233; 357; 337; 37; 71; 71; 37; 39; 127; 39; 39; 31; 113; 41; 251; 43; 21; 43; 45; 45; 161; 89; 323;
   47; 23; 47; 263].

Definition f2_list : list Z :=
  [10; 12; 42; 16; 18; 20; 22; 24; 26; 84; 90; 32; 34; 108; 38; 120; 84; 44; 46; 48; 50; 52; 36; 56;
   58; 60; 62; 32; 198; 68; 210; 36; 74; 76; 78; 120; 82; 84; 86; 44; 90; 46; 94; 48; 98; 40; 102; 52;
   106; 72; 110; 168; 114; 58; 118; 180; 122; 62; 84; 64; 66; 68; 420; 96; 74; 76; 234; 80; 82; 252;
   86; 44; 120; 92; 94; 48; 98; 80; 102; 52; 106; 48; 110; 112; 114; 58; 118; 60; 122; 124; 84; 64;
   66; 204; 140; 72; 74; 76; 78; 240; 82; 252; 86; 88; 60; 92; 846; 48; 28; 80; 102; 104; 954; 96;
   110; 112; 114; 116; 354; 120; 610; 124; 420; 64; 66; 136; 420; 216; 444; 456; 468; 80; 164; 504;
   172; 88; 300; 92; 188; 96; 28; 240; 204; 104; 212; 192; 220; 336; 228; 232; 236; 120; 244; 248;
   168; 64; 130; 264; 134; 408; 138; 280; 142; 480; 146; 444; 120; 152; 462; 234; 158; 80; 96; 902;
   166; 336; 170; 86; 174; 176; 178; 120; 182; 184; 186; 94; 190; 480].

(** [srsran_tc_interl_t]; the two arrays hold [max_long_cb] numbers of 16 bits. *)
Record srsran_tc_interl_t := mk_interl {
  forward : list Z;
  reverse : list Z;
  max_long_cb : Z
}.

(** The quadratic permutation, on 64-bit numbers. *)
Definition qpp (f1 f2 long_cb i : Z) : Z := u64 (u64 (f1 * i) + u64 (u64 (f2 * i) * i)) mod long_cb.

(** The loop that fills both arrays, from [i] on. *)
Fixpoint interl_loop (n : nat) (f1 f2 long_cb i : Z) (h : srsran_tc_interl_t) : srsran_tc_interl_t :=
  match n with
  | O => h
  | S n =>
      let j := qpp f1 f2 long_cb i in
      interl_loop n f1 f2 long_cb (i + 1)
        (mk_interl (<[Z.to_nat i := u16 (u32 j)]> (forward h)) (<[Z.to_nat j := u16 (u32 i)]> (reverse h)) (max_long_cb h))
  end.

(** The macros [deinter] and [inter]. *)
Definition deinter (long_cb x win : Z) : Z := (x mod (long_cb / win)) * win + x / (long_cb / win).
Definition inter (long_cb x win : Z) : Z := (x mod win) * (long_cb / win) + x / win.

Fixpoint window_loop (n : nat) (f r : list Z) (long_cb win i : Z) (h : srsran_tc_interl_t) : srsran_tc_interl_t :=
  match n with
  | O => h
  | S n =>
      let at_ l := default 0 (l !! Z.to_nat (inter long_cb i win)) in
      window_loop n f r long_cb win (i + 1)
        (mk_interl (<[Z.to_nat i := u16 (deinter long_cb (at_ f) win)]> (forward h))
                   (<[Z.to_nat i := u16 (deinter long_cb (at_ r) win)]> (reverse h)) (max_long_cb h))
  end.

Definition srsran_tc_interl_LTE_gen_interl (h : srsran_tc_interl_t) (long_cb interl_win : Z) : Z * srsran_tc_interl_t :=
  if long_cb >? max_long_cb h then (-1, h)
  else
    let cb_table_idx := srsran_cbsegm_cbindex long_cb in
    if cb_table_idx =? -1 then (-1, h)
    else
      let f1 := default 0 (f1_list !! Z.to_nat cb_table_idx) in
      let f2 := default 0 (f2_list !! Z.to_nat cb_table_idx) in
      let h := mk_interl (<[O := 0]> (forward h)) (<[O := 0]> (reverse h)) (max_long_cb h) in
      let h := interl_loop (Z.to_nat (long_cb - 1)) f1 f2 long_cb 1 h in
      if negb (interl_win =? 1) then
        (0, window_loop (Z.to_nat long_cb) (ztake long_cb (forward h)) (ztake long_cb (reverse h)) long_cb interl_win 0 h)
      else (0, h).

Definition srsran_tc_interl_LTE_gen (h : srsran_tc_interl_t) (long_cb : Z) : Z * srsran_tc_interl_t :=
  srsran_tc_interl_LTE_gen_interl h long_cb 1.

(** ** The table *)

Definition size_at (j : Z) : Z := default 0 (tc_cb_sizes !! Z.to_nat j).

(** Increasing, in steps of at most 64 bits. *)
Fixpoint steps_ok (l : list Z) : bool :=
  match l with
  | a :: (b :: _) as l => (a <? b) && (b <=? a + 64) && steps_ok l
  | _ => true
  end.

Lemma steps_ok_lookup l j a b :
  steps_ok l = true -> l !! j = Some a -> l !! S j = Some b -> a < b <= a + 64.
Proof.
  revert j. induction l as [|x l IH]; intros j Hs Ha Hb; [done|]. destruct l as [|y l].
  - destruct j; done.
  - simpl in Hs. apply andb_true_iff in Hs as [Hxy Hs]. destruct j as [|j].
    + simpl in Ha, Hb. simplify_eq. apply andb_true_iff in Hxy as [?%Z.ltb_lt ?%Z.leb_le]. lia.
    + by apply (IH j).
Qed.

Lemma size_step j : 0 < j < 188 -> size_at (j - 1) < size_at j <= size_at (j - 1) + 64.
Proof.
  intros Hj. assert (Hl : length tc_cb_sizes = 188%nat) by reflexivity.
  destruct (lookup_lt_is_Some_2 tc_cb_sizes (Z.to_nat (j - 1))) as [a Ha]; [lia|].
  destruct (lookup_lt_is_Some_2 tc_cb_sizes (Z.to_nat j)) as [b Hb]; [lia|].
  assert (Hb' : tc_cb_sizes !! S (Z.to_nat (j - 1)) = Some b) by (by replace (S (Z.to_nat (j - 1))) with (Z.to_nat j) by lia).
  pose proof (steps_ok_lookup tc_cb_sizes _ _ _ eq_refl Ha Hb').
  unfold size_at. rewrite Ha, Hb. simpl. lia.
Qed.

Lemma size_range j : 0 <= j < 188 -> 40 <= size_at j <= 6144.
Proof.
  intros Hj. unfold size_at. destruct (lookup_lt_is_Some_2 tc_cb_sizes (Z.to_nat j)) as [a Ha].
  { change (length tc_cb_sizes) with 188%nat. lia. }
  rewrite Ha. simpl. assert (HF : Forall (fun K => 40 <= K <= 6144) tc_cb_sizes).
  { repeat (apply Forall_cons_2; [lia|]). apply Forall_nil_2. }
  rewrite Forall_lookup in HF. by eapply HF.
Qed.

Lemma size_valid j : 0 <= j < 188 -> srsran_cbsegm_cbsize_isvalid (size_at j) = true.
Proof.
  intros Hj. unfold srsran_cbsegm_cbsize_isvalid, size_at.
  destruct (lookup_lt_is_Some_2 tc_cb_sizes (Z.to_nat j)) as [a Ha].
  { change (length tc_cb_sizes) with 188%nat. lia. }
  rewrite Ha. change (default 0 (Some a)) with a. apply existsb_exists. exists a. split; [|by apply Z.eqb_eq].
  apply list_elem_of_In. by eapply list_elem_of_lookup_2.
Qed.

(** The search returns the first size that is large enough. *)
Lemma cbindex_loop_spec l j long_cb :
  Exists (fun K => long_cb <= K) l ->
  exists k K, cbindex_loop l j long_cb = j + Z.of_nat k /\ l !! k = Some K /\ long_cb <= K /\
    (forall k', (k' < k)%nat -> exists K', l !! k' = Some K' /\ K' < long_cb).
Proof.
  revert j. induction l as [|x l IH]; intros j He; [by apply Exists_nil in He|]. simpl.
  destruct (Z.ltb_spec x long_cb).
  - apply Exists_cons in He as [He|He]; [lia|].
    destruct (IH (j + 1) He) as (k & K & E & Hk & HK & Hlt). exists (S k), K. split_and!; [lia|done|done|].
    intros [|k'] Hk'; [by exists x|]. apply Hlt. lia.
  - exists O, x. split_and!; [lia|done|lia|]. intros k' Hk'. lia.
Qed.

Lemma cbindex_spec long_cb :
  long_cb <= 6144 ->
  exists j, srsran_cbsegm_cbindex long_cb = j /\ 0 <= j < 188 /\ long_cb <= size_at j /\
    (0 < j -> size_at (j - 1) < long_cb).
Proof.
  intros Hl. destruct (cbindex_loop_spec tc_cb_sizes 0 long_cb) as (k & K & E & Hk & HK & Hlt).
  { apply Exists_exists. exists 6144. split; [|lia]. apply (list_elem_of_lookup_2 _ 187). reflexivity. }
  pose proof (lookup_lt_Some _ _ _ Hk) as Hlen. change (length tc_cb_sizes) with 188%nat in Hlen.
  exists (Z.of_nat k). split_and!; [exact E|lia|lia| |].
  - unfold size_at. by rewrite Nat2Z.id, Hk.
  - intros Hpos. destruct (Hlt (k - 1)%nat ltac:(lia)) as (K' & Hk' & HK').
    unfold size_at. replace (Z.to_nat (Z.of_nat k - 1)) with (k - 1)%nat by lia. by rewrite Hk'.
Qed.

Lemma cbsize_at j : 0 <= j < 188 -> srsran_cbsegm_cbsize j = size_at j.
Proof. intros Hj. unfold srsran_cbsegm_cbsize, SRSRAN_NOF_TC_CB_SIZES. by rewrite (proj2 (Z.ltb_lt _ _)) by lia. Qed.

(** ** Segmentation covers the transport block *)

Definition cb_crc_bits (C : Z) : Z := if C =? 1 then 0 else 24 * C.

(** What the standard asks of a segmentation of [tbs] bits. *)
Record segments (tbs : Z) (s : srsran_cbsegm_t) : Prop := mk_segments {
  seg_tbs : s_tbs s = tbs;
  seg_count : s_C1 s + s_C2 s = s_C s /\ 1 <= s_C1 s /\ 0 <= s_C2 s;
  seg_bits : s_C1 s * s_K1 s + s_C2 s * s_K2 s = tbs + 24 + cb_crc_bits (s_C s) + s_F s;
  seg_filler : 0 <= s_F s < 64;
  seg_K1 : srsran_cbsegm_cbsize_isvalid (s_K1 s) = true /\ s_K1 s = size_at (s_K1_idx s) /\ 0 <= s_K1_idx s < 188;
  seg_K2 : 1 < s_C s -> srsran_cbsegm_cbsize_isvalid (s_K2 s) = true /\ s_K2 s = size_at (s_K2_idx s) /\
    s_K2_idx s = s_K1_idx s - 1 /\ s_K2 s < s_K1 s
}.

(** The number of code blocks and the total size of a block of [B] bits. *)
Lemma cb_size_spec B :
  25 <= B < 2 ^ 31 + 24 ->
  exists C Bp, cbsegm_cb_size B SRSRAN_TCOD_MAX_LEN_CB = (C, Bp) /\ Bp = B + cb_crc_bits C /\
    1 <= C < 2 ^ 19 /\ Bp <= 6144 * C /\ (1 < C -> 3072 * C <= Bp).
Proof.
  intros HB. unfold cbsegm_cb_size, SRSRAN_CEIL, SRSRAN_TCOD_MAX_LEN_CB, cb_crc_bits, u32.
  change ((6144 - 24) mod 2 ^ 32) with 6120. change ((6120 - 1) mod 2 ^ 32) with 6119.
  destruct (Z.leb_spec B 6144).
  - exists 1, B. split; [done|]. split; [simpl; lia|lia].
  - rewrite (Z.mod_small (B + 6119)) by lia. set (C := (B + 6119) / 6120).
    assert (HC : 6120 * C <= B + 6119 < 6120 * C + 6120).
    { pose proof (Z.div_mod (B + 6119) 6120). pose proof (Z.mod_pos_bound (B + 6119) 6120). unfold C. lia. }
    rewrite (Z.mod_small (24 * C)), (Z.mod_small (B + 24 * C)) by lia.
    exists C, (B + 24 * C). destruct (Z.eqb_spec C 1); [lia|]. split; [done|]. lia.
Qed.

(** Using the smaller size as often as possible leaves less than a step of filler. *)
Lemma split_sizes c K Kp Bp :
  0 < c -> Kp < K -> Bp <= c * K -> c * Kp < Bp ->
  let c2 := (c * K - Bp) / (K - Kp) in
  0 <= c2 < c /\ 0 <= (c - c2) * K + c2 * Kp - Bp < K - Kp.
Proof.
  intros Hc HK H1 H2 c2. pose proof (Z.div_mod (c * K - Bp) (K - Kp) ltac:(lia)) as E.
  pose proof (Z.mod_pos_bound (c * K - Bp) (K - Kp) ltac:(lia)). fold c2 in E. split; nia.
Qed.

Lemma u32_small x : 0 <= x < 2 ^ 32 -> u32 x = x.
Proof. apply u32_id. Qed.

Ltac fields := cbn [s_F s_C s_K1 s_K2 s_K1_idx s_K2_idx s_C1 s_C2 s_tbs s_L_tb s_L_cb s_Z].

Lemma cbsegm_segments s tbs :
  1 <= tbs < 2 ^ 31 -> exists s', srsran_cbsegm s tbs = (0, s') /\ segments tbs s' /\ s_L_tb s' = 24 /\ s_L_cb s' = 24.
Proof.
  intros Ht. unfold srsran_cbsegm. destruct (Z.eqb_spec tbs 0); [lia|].
  rewrite (u32_small (tbs + 24)) by lia.
  destruct (cb_size_spec (tbs + 24) ltac:(lia)) as (c & Bp & E & EBp & Hc & Hmax & Hmin). rewrite E. fields.
  assert (Hcrc : 0 <= cb_crc_bits c <= 24 * c) by (unfold cb_crc_bits; destruct (Z.eqb_spec c 1); lia).
  set (q := (Bp - 1) / c).
  assert (Hq : c * q <= Bp - 1 < c * q + c).
  { pose proof (Z.div_mod (Bp - 1) c). pose proof (Z.mod_pos_bound (Bp - 1) c). unfold q. lia. }
  assert (Hq1 : 0 <= q + 1 <= 6144) by nia.
  assert (Eq : u32 (u32 (Bp - 1) / c + 1) = q + 1) by (rewrite (u32_small (Bp - 1)) by lia; fold q; apply u32_small; lia).
  destruct (cbindex_spec (q + 1) ltac:(lia)) as (j & Ej & Hj & HK & Hprev). rewrite Eq, Ej. unfold SRSRAN_ERROR.
  destruct (Z.eqb_spec j (-1)); [lia|]. rewrite cbsize_at by lia.
  pose proof (size_range j Hj) as HKr. destruct (Z.eqb_spec (size_at j) (-1)); [lia|].
  assert (Hv : srsran_cbsegm_cbsize_isvalid (size_at j) = true) by (by apply size_valid).
  set (K := size_at j) in *.
  set (r := if j >? 0 then srsran_cbsegm_cbsize (j - 1) else K).
  assert (Hr : (0 < j /\ r = size_at (j - 1) /\ K <= r + 64 /\ r < q + 1 /\ 40 <= r < K) \/ (j = 0 /\ r = K /\ K = 40)).
  { unfold r. destruct (Z.gtb_spec j 0) as [Hj0|Hj0].
    - left. rewrite cbsize_at by lia. pose proof (size_step j ltac:(lia)). pose proof (size_range (j - 1) ltac:(lia)).
      specialize (Hprev ltac:(lia)). unfold K. lia.
    - right. assert (j = 0) as -> by lia. done. }
  clearbody r. destruct (Z.eqb_spec r (-1)); [lia|].
  destruct (Z.eqb_spec c 1) as [->|Hc1].
  - eexists. split; [reflexivity|]. change (cb_crc_bits 1) with 0 in *.
    rewrite (u32_small (1 * K)), (u32_small (0 * 0)), (u32_small (1 * K + 0 * 0)), (u32_small (_ - Bp)) by lia.
    split; [|done].
    split; fields; change (cb_crc_bits 1) with 0; try done; try lia.
  - destruct Hr as [(Hj0 & Er & Hst & Hrq & Hr40)|(-> & -> & HK40)]; [|exfalso; specialize (Hmin ltac:(lia)); nia].
    assert (HcK : Bp <= c * K) by nia. assert (Hck : c * r < Bp) by nia. assert (HcKb : c * K < 2 ^ 32) by nia.
    rewrite (u32_small (c * K)), (u32_small (c * K - Bp)), (u32_small (K - r)) by lia.
    destruct (split_sizes c K r Bp ltac:(lia) ltac:(lia) HcK Hck) as [Hc2 HF]. set (c2 := (c * K - Bp) / (K - r)) in *.
    eexists. split; [reflexivity|]. split; [|done].
    assert (H1 : 0 <= (c - c2) * K) by (apply Z.mul_nonneg_nonneg; lia).
    assert (H2 : 0 <= c2 * r) by (apply Z.mul_nonneg_nonneg; lia).
    rewrite (u32_small (c - c2)), (u32_small ((c - c2) * K)), (u32_small (c2 * r)) by lia.
    rewrite (u32_small ((c - c2) * K + c2 * r)), (u32_small (_ - Bp)), (u32_small (j - 1)) by lia.
    split; fields; try done; try lia.
    intros _. rewrite Er at 1. split_and!; [apply size_valid; lia|done|lia|lia].
Qed.

(** ** Quadratic permutations *)

(** A divisor of a power that is prime to the base is a unit. *)
Lemma divide_pow_coprime d a n : Z.gcd d a = 1 -> (d | a ^ Z.of_nat n) -> (d | 1).
Proof.
  intros Hg. induction n as [|n IH]; intros Hd; [done|]. apply IH.
  replace (Z.of_nat (S n)) with (Z.succ (Z.of_nat n)) in Hd by lia. rewrite Z.pow_succ_r in Hd by lia.
  by eapply Z.gauss.
Qed.

Section qpp.
  Variables (K f1 f2 : Z).
  Hypotheses (HK : 0 < K) (Hf1 : Z.gcd f1 K = 1) (Hf2 : (K | f2 ^ 13)).

Definition perm (i : Z) : Z := (f1 * i + f2 * i * i) mod K.

(** The factor of the difference of two values is prime to the length. *)
Lemma factor_coprime t : Z.gcd K (f1 + f2 * t) = 1.
Proof.
  set (d := Z.gcd K (f1 + f2 * t)). assert (HdK : (d | K)) by apply Z.gcd_divide_l.
  assert (Hdf : (d | f1 + f2 * t)) by apply Z.gcd_divide_r.
  assert (Hcop : Z.gcd d f2 = 1).
  { set (e := Z.gcd d f2). assert (Hed : (e | d)) by apply Z.gcd_divide_l. assert (Hef : (e | f2)) by apply Z.gcd_divide_r.
    apply Z.divide_1_r_nonneg; [apply Z.gcd_nonneg|]. rewrite <- Hf1. apply Z.gcd_greatest.
    - replace f1 with (f1 + f2 * t - f2 * t) by lia.
      apply Z.divide_sub_r; [exact (Z.divide_trans _ _ _ Hed Hdf)|by apply Z.divide_mul_l].
    - exact (Z.divide_trans _ _ _ Hed HdK). }
  apply Z.divide_1_r_nonneg; [apply Z.gcd_nonneg|].
  apply (divide_pow_coprime d f2 13 Hcop). exact (Z.divide_trans _ _ _ HdK Hf2).
Qed.

Lemma perm_range i : 0 <= perm i < K.
Proof. by apply Z.mod_pos_bound. Qed.

Lemma perm_0 : perm 0 = 0.
Proof. unfold perm. rewrite !Z.mul_0_r. by apply Z.mod_0_l; lia. Qed.

Lemma perm_inj i j : 0 <= i < K -> 0 <= j < K -> perm i = perm j -> i = j.
Proof.
  intros Hi Hj E. unfold perm in E.
  assert (Hd : (K | (f1 + f2 * (i + j)) * (i - j))).
  { replace ((f1 + f2 * (i + j)) * (i - j)) with ((f1 * i + f2 * i * i) - (f1 * j + f2 * j * j)) by ring.
    apply Z.mod_divide; [lia|]. rewrite Zminus_mod, E, Z.sub_diag. apply Z.mod_0_l. lia. }
  apply Z.gauss in Hd; [|apply factor_coprime].
  destruct Hd as [q Hq]. assert (q = 0) by nia. lia.
Qed.

End qpp.

(** *** The arrays *)

(** Both arrays hold the permutation and its inverse on the first [n] places. *)
Definition holds (h : srsran_tc_interl_t) (p : Z -> Z) (n : Z) : Prop :=
  forall i, 0 <= i < n -> forward h !! Z.to_nat i = Some (p i) /\ reverse h !! Z.to_nat (p i) = Some i.

Definition sized (h : srsran_tc_interl_t) : Prop :=
  zlen (forward h) = max_long_cb h /\ zlen (reverse h) = max_long_cb h.

Lemma u16_u32_small x : 0 <= x < 2 ^ 16 -> u16 (u32 x) = x.
Proof. intros Hx. rewrite u32_id by (unfold is_u32; lia). by apply u16_id. Qed.

Lemma interl_loop_holds p f1 f2 K n i h :
  (forall i, 0 <= i < K -> qpp f1 f2 K i = p i /\ 0 <= p i < K) ->
  (forall i j, 0 <= i < K -> 0 <= j < K -> p i = p j -> i = j) ->
  K <= 2 ^ 16 -> sized h -> K <= max_long_cb h -> 0 <= i -> i + Z.of_nat n <= K -> holds h p i ->
  holds (interl_loop n f1 f2 K i h) p (i + Z.of_nat n) /\ sized (interl_loop n f1 f2 K i h) /\
  max_long_cb (interl_loop n f1 f2 K i h) = max_long_cb h.
Proof.
  intros Hp Hinj HK. revert i h. induction n as [|n IH]; intros i h Hs Hm Hi Hn Hh.
  - simpl. rewrite Z.add_0_r. auto.
  - destruct (Hp i ltac:(lia)) as [Eq Hr]. cbn [interl_loop]. rewrite Eq, !u16_u32_small by lia.
    replace (i + Z.of_nat (S n)) with (i + 1 + Z.of_nat n) by lia.
    set (h' := mk_interl _ _ _). change (max_long_cb h) with (max_long_cb h').
    apply IH; try done; try lia.
    + destruct Hs as [Hs1 Hs2]. unfold sized, zlen. simpl. rewrite !length_insert. exact (conj Hs1 Hs2).
    + intros k Hk. simpl. unfold sized, zlen in Hs. destruct (Z.eq_dec k i) as [->|Hne].
      * rewrite !list_lookup_insert_eq by lia. done.
      * destruct (Hh k ltac:(lia)) as [E1 E2]. destruct (Hp k ltac:(lia)) as [_ Hrk].
        rewrite !list_lookup_insert_ne; [done| |lia]. intros E. apply Hne.
        apply (Hinj k i); lia.
Qed.

(** The 64-bit arithmetic does not wrap. *)
Lemma qpp_perm K f1 f2 i :
  40 <= K <= 6144 -> 0 <= f1 < 2 ^ 10 -> 0 <= f2 < 2 ^ 10 -> 0 <= i < K -> qpp f1 f2 K i = perm K f1 f2 i.
Proof.
  intros HK H1 H2 Hi. unfold qpp, perm, u64.
  assert (0 <= f1 * i < 2 ^ 40) by nia. assert (0 <= f2 * i < 2 ^ 30) by nia.
  assert (0 <= f2 * i * i < 2 ^ 50) by nia.
  rewrite (Z.mod_small (f1 * i)), (Z.mod_small (f2 * i)), (Z.mod_small (f2 * i * i)), (Z.mod_small (_ + _)) by lia.
  done.
Qed.

(** The parameters of a block size. *)
Definition f1_of (K : Z) : Z := default 0 (f1_list !! Z.to_nat (srsran_cbsegm_cbindex K)).
Definition f2_of (K : Z) : Z := default 0 (f2_list !! Z.to_nat (srsran_cbsegm_cbindex K)).

(** The conditions on the parameters, checked on every row of the tables. *)
Definition row_ok (K : Z) : bool :=
  (0 <=? srsran_cbsegm_cbindex K) && (40 <=? K) && (K <=? 6144) && (0 <=? f1_of K) && (f1_of K <? 2 ^ 10) &&
  (0 <=? f2_of K) && (f2_of K <? 2 ^ 10) && (Z.gcd (f1_of K) K =? 1) && (f2_of K ^ 13 mod K =? 0).

Lemma rows_ok : forallb row_ok tc_cb_sizes = true.
Proof. by vm_compute. Qed.

Lemma valid_row K : srsran_cbsegm_cbsize_isvalid K = true -> row_ok K = true.
Proof.
  unfold srsran_cbsegm_cbsize_isvalid. intros (k & Hin & E%Z.eqb_eq)%existsb_exists. subst k.
  pose proof rows_ok as H. rewrite forallb_forall in H. by apply H.
Qed.

Definition qpp_of (K i : Z) : Z := perm K (f1_of K) (f2_of K) i.

Lemma valid_size K :
  srsran_cbsegm_cbsize_isvalid K = true ->
  0 <= srsran_cbsegm_cbindex K /\ 40 <= K <= 6144 /\
  (forall i, 0 <= i < K -> qpp (f1_of K) (f2_of K) K i = qpp_of K i /\ 0 <= qpp_of K i < K) /\
  (forall i j, 0 <= i < K -> 0 <= j < K -> qpp_of K i = qpp_of K j -> i = j) /\ qpp_of K 0 = 0.
Proof.
  intros Hv%valid_row. unfold row_ok in Hv.
  rewrite !andb_true_iff, !Z.leb_le, !Z.ltb_lt, !Z.eqb_eq in Hv.
  destruct Hv as ((((((((Hidx & H40) & Hmax) & H10) & H11) & H20) & H21) & Hg) & Hd).
  assert (Hdv : (K | f2_of K ^ 13)) by (apply Z.mod_divide; [lia|done]).
  split; [done|]. split; [lia|]. split_and!.
  - intros i Hi. split; [|apply perm_range; lia]. unfold qpp_of.
    apply qpp_perm; lia.
  - intros i j Hi Hj. apply perm_inj; try done; lia.
  - apply perm_0. lia.
Qed.

(** An injection of [0, n) into itself reaches every number. *)
Lemma inj_surj p n j :
  (forall i, 0 <= i < n -> 0 <= p i < n) ->
  (forall i k, 0 <= i < n -> 0 <= k < n -> p i = p k -> i = k) ->
  0 <= j < n -> exists i, 0 <= i < n /\ p i = j.
Proof.
  intros Hr Hinj Hj. assert (Hin : In j (map p (seqZ 0 n))).
  { apply (NoDup_length_incl (l := map p (seqZ 0 n)) (l' := seqZ 0 n)).
    - apply NoDup_ListNoDup, NoDup_fmap_2_strong; [|apply NoDup_seqZ].
      intros i k Hi%elem_of_seqZ Hk%elem_of_seqZ. apply Hinj; lia.
    - by rewrite length_map.
    - intros k (i & <- & Hi)%in_map_iff. apply list_elem_of_In, elem_of_seqZ in Hi.
      apply list_elem_of_In, elem_of_seqZ. specialize (Hr i). lia.
    - apply list_elem_of_In, elem_of_seqZ. lia. }
  apply in_map_iff in Hin as (i & E & Hi). apply list_elem_of_In, elem_of_seqZ in Hi. exists i. split; [lia|done].
Qed.

(** *** Windows *)

Section window.
  Variables (K win : Z).
  Hypotheses (Hw : 0 < win) (HK : 0 < K) (Hd : (win | K)).

Lemma window_width : 0 < K / win /\ K = win * (K / win).
Proof.
  destruct Hd as [q Hq]. rewrite Hq, Z.div_mul by lia. split; [nia|lia].
Qed.

Lemma inter_range x : 0 <= x < K -> 0 <= inter K x win < K.
Proof.
  intros Hx. pose proof window_width as [H1 H2]. unfold inter. pose proof (Z.mod_pos_bound x win Hw).
  assert (0 <= x / win < K / win) by (split; [apply Z.div_pos; lia|apply Z.div_lt_upper_bound; lia]). nia.
Qed.

Lemma deinter_range x : 0 <= x < K -> 0 <= deinter K x win < K.
Proof.
  intros Hx. pose proof window_width as [H1 H2]. unfold deinter. pose proof (Z.mod_pos_bound x (K / win) H1).
  assert (0 <= x / (K / win) < win) by (split; [apply Z.div_pos; lia|apply Z.div_lt_upper_bound; lia]). nia.
Qed.

Lemma deinter_inter x : 0 <= x < K -> deinter K (inter K x win) win = x.
Proof.
  intros Hx. pose proof window_width as [H1 H2]. unfold deinter, inter.
  assert (Hq : 0 <= x / win < K / win) by (split; [apply Z.div_pos; lia|apply Z.div_lt_upper_bound; lia]).
  rewrite (Z.add_comm (x mod win * _)), Z.mod_add, Z.div_add by lia.
  rewrite (Z.mod_small (x / win)), (Z.div_small (x / win)) by lia. pose proof (Z.div_mod x win). lia.
Qed.

Lemma inter_deinter x : 0 <= x < K -> inter K (deinter K x win) win = x.
Proof.
  intros Hx. pose proof window_width as [H1 H2]. unfold deinter, inter.
  assert (Hq : 0 <= x / (K / win) < win) by (split; [apply Z.div_pos; lia|apply Z.div_lt_upper_bound; lia]).
  rewrite (Z.add_comm (x mod (K / win) * win)), Z.mod_add, Z.div_add by lia.
  rewrite (Z.mod_small (x / (K / win))), (Z.div_small (x / (K / win))) by lia.
  pose proof (Z.div_mod x (K / win)). lia.
Qed.

End window.

Lemma window_loop_spec n f r K win i h :
  K <= 2 ^ 16 -> 0 < win -> (win | K) -> 0 < K ->
  (forall k, 0 <= k < K -> exists a b, f !! Z.to_nat k = Some a /\ r !! Z.to_nat k = Some b /\ 0 <= a < K /\ 0 <= b < K) ->
  sized h -> K <= max_long_cb h -> 0 <= i -> i + Z.of_nat n <= K ->
  let at_ l k := deinter K (default 0 (l !! Z.to_nat (inter K k win))) win in
  (forall k, 0 <= k < i -> forward h !! Z.to_nat k = Some (at_ f k) /\ reverse h !! Z.to_nat k = Some (at_ r k)) ->
  forall k, 0 <= k < i + Z.of_nat n ->
    forward (window_loop n f r K win i h) !! Z.to_nat k = Some (at_ f k) /\
    reverse (window_loop n f r K win i h) !! Z.to_nat k = Some (at_ r k).
Proof.
  intros HK Hw Hd HK0 Hfr. revert i h. induction n as [|n IH]; intros i h Hs Hm Hi Hn at_ Hh k Hk.
  - apply Hh. lia.
  - cbn [window_loop]. apply IH; try lia.
    + destruct Hs as [Hs1 Hs2]. unfold sized, zlen. simpl. rewrite !length_insert. exact (conj Hs1 Hs2).
    + done.
    + destruct (Hfr (inter K i win)) as (a & b & Ea & Eb & Ha & Hb); [apply inter_range; lia || done|].
      intros k' Hk'. simpl. unfold sized, zlen in Hs. destruct (Z.eq_dec k' i) as [->|Hne].
      * rewrite !list_lookup_insert_eq by lia. fold (at_ f i) (at_ r i). unfold at_. rewrite Ea, Eb. simpl.
        rewrite !u16_id; [done|..]; unfold is_u16.
        all: (pose proof (deinter_range K win Hw HK0 Hd a Ha); pose proof (deinter_range K win Hw HK0 Hd b Hb); lia).
      * rewrite !list_lookup_insert_ne by lia. apply Hh. lia.
Qed.

(** *** The generator *)

Lemma gen_holds h K :
  srsran_cbsegm_cbsize_isvalid K = true -> sized h -> K <= max_long_cb h ->
  exists h', srsran_tc_interl_LTE_gen_interl h K 1 = (0, h') /\ holds h' (qpp_of K) K /\ sized h' /\
    max_long_cb h' = max_long_cb h.
Proof.
  intros Hv Hs Hm. destruct (valid_size K Hv) as (Hidx & HK & Hp & Hinj & H0).
  unfold srsran_tc_interl_LTE_gen_interl. destruct (Z.gtb_spec K (max_long_cb h)); [lia|].
  destruct (Z.eqb_spec (srsran_cbsegm_cbindex K) (-1)); [lia|]. change (negb (1 =? 1)) with false. cbv iota.
  fold (f1_of K) (f2_of K). set (h1 := mk_interl _ _ _).
  destruct (interl_loop_holds (qpp_of K) (f1_of K) (f2_of K) K (Z.to_nat (K - 1)) 1 h1) as (A & B & D).
  - exact Hp.
  - exact Hinj.
  - lia.
  - destruct Hs as [Hs1 Hs2]. unfold sized, zlen. simpl. rewrite !length_insert. exact (conj Hs1 Hs2).
  - exact Hm.
  - lia.
  - lia.
  - intros i Hi. assert (i = 0) as -> by lia. rewrite H0. unfold sized, zlen in Hs. unfold h1. simpl.
    rewrite !list_lookup_insert_eq by lia. done.
  - eexists. split; [reflexivity|]. replace (1 + Z.of_nat (Z.to_nat (K - 1))) with K in A by lia. done.
Qed.

(** With a window, both arrays are conjugated by the window's permutation. *)
Lemma gen_window_holds h K win :
  srsran_cbsegm_cbsize_isvalid K = true -> sized h -> K <= max_long_cb h -> 0 < win -> (win | K) ->
  exists h' p, srsran_tc_interl_LTE_gen_interl h K win = (0, h') /\ holds h' p K /\
    (forall i, 0 <= i < K -> 0 <= p i < K) /\ (win = 1 -> p = qpp_of K).
Proof.
  intros Hv Hs Hm Hw Hd. destruct (valid_size K Hv) as (Hidx & HK & Hp & Hinj & H0).
  destruct (gen_holds h K Hv Hs Hm) as (h1 & E1 & A & B & D).
  destruct (Z.eq_dec win 1) as [->|Hw1].
  { exists h1, (qpp_of K). split_and!; try done. intros i Hi. by apply Hp. }
  unfold srsran_tc_interl_LTE_gen_interl in *. destruct (Z.gtb_spec K (max_long_cb h)); [lia|].
  destruct (Z.eqb_spec (srsran_cbsegm_cbindex K) (-1)); [lia|].
  change (negb (1 =? 1)) with false in E1. cbv iota in E1.
  set (h2 := interl_loop _ _ _ _ _ _) in *. injection E1 as E1. rewrite E1. clear h2 E1.
  destruct (Z.eqb_spec win 1); [lia|]. cbn [negb].
  set (p := fun i => deinter K (qpp_of K (inter K i win)) win).
  assert (HfK : forall k, 0 <= k < K -> ztake K (forward h1) !! Z.to_nat k = Some (qpp_of K k)).
  { intros k Hk. unfold ztake. rewrite lookup_take_lt by lia. by apply A. }
  assert (HrK : forall k, 0 <= k < K -> exists i, 0 <= i < K /\ qpp_of K i = k /\
    ztake K (reverse h1) !! Z.to_nat k = Some i).
  { intros k Hk. destruct (inj_surj (qpp_of K) K k) as (i & Hi & E); try done; [intros i Hi; by apply Hp|].
    exists i. split_and!; try done; try lia. unfold ztake. rewrite lookup_take_lt by lia. rewrite <- E. by apply A. }
  assert (W := window_loop_spec (Z.to_nat K) (ztake K (forward h1)) (ztake K (reverse h1)) K win 0 h1
    ltac:(lia) Hw Hd ltac:(lia)).
  assert (Hwin : forall i, 0 <= i < K -> 0 <= inter K i win < K) by (intros; apply inter_range; lia || done).
  assert (Hde : forall i, 0 <= i < K -> 0 <= deinter K i win < K) by (intros; apply deinter_range; lia || done).
  specialize (W ltac:(intros k Hk; destruct (HrK k Hk) as (i & Hi & _ & Ei); exists (qpp_of K k), i;
    split_and!; [by apply HfK|done|apply Hp; lia|apply Hp; lia|lia|lia]) B ltac:(lia) ltac:(lia) ltac:(lia)
    ltac:(intros; lia)).
  eexists _, p. split; [reflexivity|]. split_and!; [|intros i Hi; apply Hde, Hp, Hwin; lia|done].
  intros i Hi. assert (Hpi : 0 <= p i < K) by (apply Hde, Hp, Hwin; lia).
  destruct (W i ltac:(lia)) as [W1 _]. destruct (W (p i) ltac:(lia)) as [_ W2].
  rewrite W1, W2, HfK by (apply Hwin; lia). split; [done|].
  unfold p. rewrite inter_deinter by (try done; try lia; apply Hp, Hwin; lia).
  destruct (HrK (qpp_of K (inter K i win)) ltac:(apply Hp, Hwin; lia)) as (i' & Hi' & Ei & Er). rewrite Er. simpl.
  apply Hinj in Ei; [|lia|apply Hwin; lia]. subst i'. by rewrite deinter_inter by (done || lia).
Qed.

(** ** Properties *)

(** C23: the segmentation of every transport block of fewer than 2^31 bits succeeds and covers it:
    [C1] blocks of the size [K1] and [C2] of the next smaller size [K2], both sizes of the
    table, hold the transport block, its 24-bit checksum, a 24-bit checksum per block when
    there are several, and fewer than 64 filler bits. *)
Theorem segmentation_covers s tbs :
  1 <= tbs < 2 ^ 31 -> exists s', srsran_cbsegm s tbs = (0, s') /\ segments tbs s'.
Proof. intros Ht. destruct (cbsegm_segments s tbs Ht) as (s' & E & H & _). by exists s'. Qed.

Lemma segmentation_covers_witness :
  exists s', srsran_cbsegm cbsegm_zero 20000 = (0, s') /\ segments 20000 s' /\ s_F s' = 40.
Proof.
  destruct (segmentation_covers cbsegm_zero 20000 ltac:(lia)) as (s' & E & H).
  exists s'. split; [exact E|]. split; [exact H|].
  assert (E' : snd (srsran_cbsegm cbsegm_zero 20000) = s') by (by rewrite E). rewrite <- E'. vm_compute. reflexivity.
Defined.

(** For each of the 188 block sizes and any window that divides it, the generator fills the
    forward table with a permutation of the bit positions and the reverse table with its
    inverse; without a window the permutation is the quadratic one of the standard. *)
Theorem interleaver_is_permutation h K win :
  srsran_cbsegm_cbsize_isvalid K = true -> sized h -> K <= max_long_cb h -> 0 < win -> (win | K) ->
  exists h', srsran_tc_interl_LTE_gen_interl h K win = (0, h') /\
    (forall i, 0 <= i < K -> exists j, 0 <= j < K /\ forward h' !! Z.to_nat i = Some j /\
       reverse h' !! Z.to_nat j = Some i /\ (win = 1 -> j = (f1_of K * i + f2_of K * i * i) mod K)) /\
    (forall j, 0 <= j < K -> exists i, 0 <= i < K /\ forward h' !! Z.to_nat i = Some j).
Proof.
  intros Hv Hs Hm Hw Hd. destruct (gen_window_holds h K win Hv Hs Hm Hw Hd) as (h' & p & E & Hh & Hr & H1).
  exists h'. split; [done|]. split.
  - intros i Hi. destruct (Hh i Hi) as [A B]. exists (p i). split; [by apply Hr|]. split_and!; try done.
    intros Hw1. by rewrite (H1 Hw1).
  - intros j Hj. destruct (inj_surj p K j Hr) as (i & Hi & Ei); [|done|].
    + intros i k Hi Hk E'. destruct (Hh i Hi) as [_ A], (Hh k Hk) as [_ B]. rewrite E' in A. congruence.
    + exists i. split; [done|]. rewrite <- Ei. by apply Hh.
Qed.

Definition interl48 : srsran_tc_interl_t := mk_interl (replicate 48 0) (replicate 48 0) 48.

Lemma interleaver_is_permutation_witness :
  exists h', srsran_tc_interl_LTE_gen_interl interl48 40 4 = (0, h') /\
    exists i, 0 <= i < 40 /\ forward h' !! Z.to_nat i = Some 7.
Proof.
  destruct (interleaver_is_permutation interl48 40 4 eq_refl (conj eq_refl eq_refl) ltac:(simpl; lia) ltac:(lia)
    (ex_intro _ 10 eq_refl)) as (h' & E & _ & H).
  exists h'. split; [exact E|]. exact (H 7 ltac:(lia)).
Defined.

(** A length that is not in the table is not refused: the parameters of the next larger
    size are used, and two positions get the same image. *)
Lemma interleaver_accepts_other_sizes :
  srsran_cbsegm_cbsize_isvalid 41 = false /\
  match srsran_tc_interl_LTE_gen interl48 41 with
  | (0, h') => forward h' !! 18%nat = forward h' !! 19%nat
  | _ => False
  end.
Proof. by vm_compute. Qed.
