(* ===== verification/TurboCoder.v ===== *)
(** * Turbo coder

    [lib/src/phy/fec/turbo/turbocoder.c]: the bit oriented encoder [srsran_tcod_encode]
    and the byte oriented one with look-up tables, [srsran_tcod_encode_lut], which also
    computes and inserts the checksums and is what the transmitter calls; the bit
    interleaver of [lib/src/phy/utils/bit.c] it uses (its portable loops).  The second
    is shown to produce the output of the first, packed into bytes, stream by stream.

    Arrays are lists; a read or a write outside of one is undefined, [None].  The
    static tables are a value of their own, since one encoder can free them under
    another. *)

From stdpp Require Import base list gmap numbers list_basics list_relations.
From S2P Require Import Prelude BitPack Crc CbSegm.

Local Open Scope Z_scope.

Definition SRSRAN_TX_NULL : Z := 100.
Definition NOF_REGS : nat := 3.
Definition TOTALTAIL : Z := 12.

(** ** Bit interleaver *)

Record srsran_bit_interleaver_t := mk_bil {
  nof_bits : Z;
  interleaver : list Z;
  byte_idx : list Z;
  bit_mask : list Z
}.

Definition bil_zero : srsran_bit_interleaver_t := mk_bil 0 [] [] [].

(** The static array [mask]. *)
Definition bil_mask (i : Z) : Z := default 0 ([0x80; 0x40; 0x20; 0x10; 0x8; 0x4; 0x2; 0x1] !! Z.to_nat i).

Definition srsran_bit_interleaver_init (interleaver : list Z) (nof_bits : Z) : srsran_bit_interleaver_t :=
  let l := ztake nof_bits interleaver in
  mk_bil nof_bits l (map (fun i => u16 (i / 8)) l) (map (fun i => bil_mask (i mod 8)) l).

Definition srsran_bit_interleaver_free (q : srsran_bit_interleaver_t) : srsran_bit_interleaver_t := bil_zero.

(** [out |= m] or [out &= ~m]. *)
Definition put_mask (bit : bool) (out m : Z) : Z :=
  if bit then u8 (Z.lor out m) else u8 (Z.land out (Z.lnot m)).

(** The bit of [input] at the position [interleaver[k]] written to [output[o]] under the
    mask [mask[m]]: the body of the loops over single bits. *)
Definition bil_bit (q : srsran_bit_interleaver_t) (input : list Z) (k o m : Z) (output : list Z) : option (list Z) :=
  i_p ← load (interleaver q) k;
  b ← load input (i_p / 8);
  cur ← load output o;
  store output o [put_mask (negb (Z.land b (bil_mask (i_p mod 8)) =? 0)) cur (bil_mask m)].

Fixpoint bil_bits (n : nat) (q : srsran_bit_interleaver_t) (input : list Z) (k o m : Z) (output : list Z) : option (list Z) :=
  match n with
  | O => Some output
  | S n => output ← bil_bit q input k o m output; bil_bits n q input (k + 1) o (m + 1) output
  end.

(** One [outi]: the bit at the next entry of [byte_idx] and [bit_mask], as [mask[i]]. *)
Definition bil_out (q : srsran_bit_interleaver_t) (input : list Z) (k i : Z) : option Z :=
  idx ← load (byte_idx q) k;
  b ← load input idx;
  m ← load (bit_mask q) k;
  Some (if negb (Z.land b m =? 0) then bil_mask i else 0).

Definition bil_byte (q : srsran_bit_interleaver_t) (input : list Z) (k : Z) : option Z :=
  out0 ← bil_out q input (k + 0) 0; out1 ← bil_out q input (k + 1) 1;
  out2 ← bil_out q input (k + 2) 2; out3 ← bil_out q input (k + 3) 3;
  out4 ← bil_out q input (k + 4) 4; out5 ← bil_out q input (k + 5) 5;
  out6 ← bil_out q input (k + 6) 6; out7 ← bil_out q input (k + 7) 7;
  Some (Z.lor (Z.lor (Z.lor (Z.lor (Z.lor (Z.lor (Z.lor out0 out1) out2) out3) out4) out5) out6) out7).

(** The loop over whole bytes; [k] is how far [byte_idx] and [bit_mask] have moved. *)
Fixpoint bil_bytes (n : nat) (q : srsran_bit_interleaver_t) (input : list Z) (k o : Z) (output : list Z) : option (list Z) :=
  match n with
  | O => Some output
  | S n =>
      v ← bil_byte q input k;
      output ← store output o [v];
      bil_bytes n q input (k + 8) (o + 1) output
  end.

Definition srsran_bit_interleaver_run (q : srsran_bit_interleaver_t) (input output : list Z) (w_offset : Z) :
    option (list Z) :=
  let part := (w_offset <? 8) && (w_offset >? 0) in
  let st := if part then 1 else 0 in
  let w_offset_p := if part then 8 - w_offset else 0 in
  output ← (if part then bil_bits (Z.to_nat (8 - w_offset)) q input 0 0 w_offset output else Some output);
  output ← bil_bytes (Z.to_nat (nof_bits q / 8 - st)) q input (st * 8 - w_offset_p) st output;
  let last := nof_bits q / 8 in
  output ← bil_bits (Z.to_nat (nof_bits q mod 8)) q input (last * 8 - w_offset) last 0 output;
  bil_bits (Z.to_nat w_offset) q input (last * 8 - w_offset) last 0 output.

(** ** Constituent encoder *)

(** The three registers, [reg_0] the newest. *)
Record regs := mk_regs { reg_0 : Z; reg_1 : Z; reg_2 : Z }.

Definition regs0 : regs := mk_regs 0 0 0.

(** [in], [out] and the shift; the parity bit and the new registers. *)
Definition rsc_step (r : regs) (bit : Z) : Z * regs :=
  let in_ := Z.lxor bit (Z.lxor (reg_2 r) (reg_1 r)) in
  let out := Z.lxor (reg_2 r) (Z.lxor (reg_0 r) in_) in
  (out, mk_regs in_ (reg_0 r) (reg_1 r)).

(** The tail: the feedback is cancelled; two output bits per step. *)
Fixpoint rsc_tail (n : nat) (r : regs) : list Z :=
  match n with
  | O => []
  | S n =>
      let bit := Z.lxor (reg_2 r) (reg_1 r) in
      let '(out, r) := rsc_step r bit in
      bit :: out :: rsc_tail n r
  end.

(** ** Tables *)

Record tcod_lut_t := mk_lut { next_state : Z; output : Z }.

Definition state_regs (state : Z) : regs :=
  mk_regs (Z.shiftr (Z.land state 4) 2) (Z.shiftr (Z.land state 2) 1) (Z.land state 1).

(** The loop over the bits of [data] from the bit [i] on. *)
Fixpoint lut_loop (n : nat) (i data : Z) (r : regs) (out : Z) : regs * Z :=
  match n with
  | O => (r, out)
  | S n =>
      let bit := if negb (Z.land data (Z.shiftl 1 (7 - i)) =? 0) then 1 else 0 in
      let '(o, r) := rsc_step r bit in
      lut_loop n (i + 1) data r (u8 (Z.lor out (Z.shiftl o (7 - i))))
  end.

Definition tcod_lut (state data : Z) : tcod_lut_t :=
  let '(r, out) := lut_loop 8 0 data (state_regs state) 0 in
  mk_lut (u8 (Z.lor (Z.lor (Z.shiftl (reg_0 r) 2) (Z.shiftl (reg_1 r) 1)) (reg_2 r) mod 8)) out.

(** The static tables that are allocated: the permutations and the interleavers. *)
Record tcod_tables := mk_tables {
  table_initiated : bool;
  tcod_per_fw : Z -> list Z;
  tcod_interleavers : Z -> srsran_bit_interleaver_t
}.

Definition interl_6144 : srsran_tc_interl_t := mk_interl (replicate (Z.to_nat 6144) 0) (replicate (Z.to_nat 6144) 0) 6144.

(** The row [len] of [tcod_per_fw]: the first entries of the generated table, which do not
    depend on what the arrays held before, then zeros. *)
Definition per_fw (len : Z) : list Z :=
  let long_cb := srsran_cbsegm_cbsize len in
  ztake long_cb (forward (snd (srsran_tc_interl_LTE_gen interl_6144 long_cb))) ++ replicate (Z.to_nat (6144 - long_cb)) 0.

Definition srsran_tcod_gentable : tcod_tables :=
  mk_tables true per_fw (fun len => srsran_bit_interleaver_init (per_fw len) (srsran_cbsegm_cbsize len)).

Record srsran_tcod_t := mk_tcod { tc_max_long_cb : Z; temp : list Z }.

Definition srsran_tcod_init (t : tcod_tables) (max_long_cb : Z) : srsran_tcod_t * tcod_tables :=
  (mk_tcod max_long_cb (replicate (Z.to_nat (max_long_cb / 8)) 0), if table_initiated t then t else srsran_tcod_gentable).

(** Frees the buffer of the encoder and the interleavers of all encoders. *)
Definition srsran_tcod_free (t : tcod_tables) (h : srsran_tcod_t) : srsran_tcod_t * tcod_tables :=
  (mk_tcod 0 [],
   if table_initiated t
   then mk_tables false (tcod_per_fw t) (fun len => srsran_bit_interleaver_free (tcod_interleavers t len)) else t).

(** ** Bit oriented encoder *)

(** One turn of the loop over [long_cb] bits: three output bits. *)
Definition encode_bit (input per : list Z) (i : Z) (r1 r2 : regs) : option (list Z * regs * regs) :=
  b ← load input i;
  let bit := if b =? SRSRAN_TX_NULL then 0 else b in
  let '(out1, r1) := rsc_step r1 bit in
  p ← load per i;
  b2 ← load input p;
  let bit2 := if b2 =? SRSRAN_TX_NULL then 0 else b2 in
  let '(out2, r2) := rsc_step r2 bit2 in
  Some ([b; if b =? SRSRAN_TX_NULL then SRSRAN_TX_NULL else out1; out2], r1, r2).

Fixpoint encode_loop (n : nat) (input per : list Z) (i : Z) (r1 r2 : regs) : option (list Z * regs * regs) :=
  match n with
  | O => Some ([], r1, r2)
  | S n =>
      '(o, r1, r2) ← encode_bit input per i r1 r2;
      '(os, r1, r2) ← encode_loop n input per (i + 1) r1 r2;
      Some (o ++ os, r1, r2)
  end.

(** The output bits, or the status -1. *)
Definition srsran_tcod_encode (t : tcod_tables) (h : srsran_tcod_t) (input : list Z) (long_cb : Z) : option (Z + list Z) :=
  if long_cb >? tc_max_long_cb h then Some (inl (-1))
  else
    let longcb_idx := srsran_cbsegm_cbindex long_cb in
    if longcb_idx <? 0 then Some (inl (-1))
    else
      '(os, r1, r2) ← encode_loop (Z.to_nat long_cb) input (tcod_per_fw t longcb_idx) 0 regs0 regs0;
      Some (inr (os ++ rsc_tail NOF_REGS r1 ++ rsc_tail NOF_REGS r2)).

(** ** Byte oriented encoder *)

(** The look-ups for a run of bytes: the parity bytes and the last state. *)
Fixpoint lut_run (state : Z) (ins : list Z) : list Z * Z :=
  match ins with
  | [] => ([], state)
  | in_ :: ins =>
      let l := tcod_lut state in_ in
      let '(outs, state) := lut_run (next_state l) ins in
      (output l :: outs, state)
  end.

(** The bytes of a checksum, most significant first. *)
Definition crc_out_bytes (order checksum : Z) : list Z :=
  map (fun i => u8 (Z.land (Z.shiftr checksum (8 * (order / 8 - i - 1))) 0xff)) (seqZ 0 (order / 8)).

Definition put_bytes (h : srsran_crc_t) (l : list Z) : srsran_crc_t := fold_left srsran_crc_checksum_put_byte l h.

(** The first constituent encoder with the insertion of the checksums: [input], [parity],
    the two checksum objects and the state. *)
Definition encode_first (crc_tb : srsran_crc_t) (crc_cb : option srsran_crc_t) (input parity : list Z) (long_cb : Z)
    (last_cb : bool) : option (list Z * list Z * srsran_crc_t * option srsran_crc_t * Z) :=
  match crc_cb with
  | Some cb =>
      let cb := snd (srsran_crc_set_init cb 0) in
      let block_size_nocrc := u32 (u32 (long_cb - order cb) - (if last_cb then order crc_tb else 0)) / 8 in
      data ← load_bytes input 0 block_size_nocrc;
      let tb := put_bytes crc_tb data in
      let cb := put_bytes cb data in
      let '(outs, state0) := lut_run 0 data in
      parity ← store parity 0 outs;
      '(input, parity, cb, state0) ← (
        if last_cb then
          let ins := crc_out_bytes (order tb) (u32 (srsran_crc_checksum_get tb)) in
          let cb := put_bytes cb ins in
          let '(outs, state0) := lut_run state0 ins in
          input ← store input block_size_nocrc ins;
          parity ← store parity block_size_nocrc outs;
          Some (input, parity, cb, state0)
        else Some (input, parity, cb, state0));
      let ins := crc_out_bytes (order cb) (u32 (srsran_crc_checksum_get cb)) in
      let '(outs, state0) := lut_run state0 ins in
      input ← store input (u32 (long_cb - order cb) / 8) ins;
      parity ← store parity (u32 (long_cb - order cb) / 8) outs;
      Some (input, parity, tb, Some cb, state0)
  | None =>
      let block_size_nocrc := u32 (long_cb - (if last_cb then order crc_tb else 0)) / 8 in
      data ← load_bytes input 0 block_size_nocrc;
      let tb := put_bytes crc_tb data in
      let '(outs, state0) := lut_run 0 data in
      parity ← store parity 0 outs;
      if last_cb then
        let ins := crc_out_bytes (order tb) (u32 (srsran_crc_checksum_get tb)) in
        let '(outs, state0) := lut_run state0 ins in
        input ← store input block_size_nocrc ins;
        parity ← store parity block_size_nocrc outs;
        Some (input, parity, tb, None, state0)
      else Some (input, parity, tb, None, state0)
  end.

(** The second constituent encoder: its parity bits follow half a byte later. *)
Fixpoint encode_second (ins : list Z) (o : Z) (parity : list Z) (state1 : Z) : option (list Z * Z) :=
  match ins with
  | [] => Some (parity, state1)
  | in_ :: ins =>
      let l := tcod_lut state1 in_ in
      cur ← load parity o;
      parity ← store parity o [u8 (Z.lor cur (Z.shiftr (Z.land (output l) 0xf0) 4))];
      parity ← store parity (o + 1) [u8 (Z.shiftl (Z.land (output l) 0xf) 4)];
      encode_second ins (o + 1) parity (next_state l)
  end.

(** [tailv[j]]. *)
Definition tail_stream (tail : list Z) (j : Z) : list Z := map (fun i => default 0 (tail !! Z.to_nat (3 * i + j))) (seqZ 0 4).

Definition pack4 (l : list Z) : Z := bit_pack_loop 4 0 l 0.

(** The result: the number of bits, [input], [parity], [temp] and the checksum objects. *)
Definition srsran_tcod_encode_lut (t : tcod_tables) (h : srsran_tcod_t) (crc_tb : srsran_crc_t)
    (crc_cb : option srsran_crc_t) (input parity : list Z) (cblen_idx : Z) (last_cb : bool) :
    option (Z * list Z * list Z * srsran_tcod_t * srsran_crc_t * option srsran_crc_t) :=
  if cblen_idx <? 188 then
    let long_cb := srsran_cbsegm_cbsize cblen_idx in
    if negb (long_cb mod 8 =? 0) then Some (-1, input, parity, h, crc_tb, crc_cb)
    else
      '(input, parity, tb, cb, state0) ← encode_first crc_tb crc_cb input parity long_cb last_cb;
      parity ← store parity (long_cb / 8) [0];
      tmp ← srsran_bit_interleaver_run (tcod_interleavers t cblen_idx) input (temp h) 0;
      ins ← load_bytes tmp 0 (long_cb / 8);
      '(parity, state1) ← encode_second ins (long_cb / 8) parity 0;
      let tail := rsc_tail NOF_REGS (state_regs state0) ++ rsc_tail NOF_REGS (state_regs state1) in
      input ← store input (long_cb / 8) [u8 (Z.shiftl (pack4 (tail_stream tail 0)) 4)];
      cur ← load parity (long_cb / 8);
      parity ← store parity (long_cb / 8) [u8 (Z.lor cur (Z.shiftl (pack4 (tail_stream tail 1)) 4))];
      cur ← load parity (2 * long_cb / 8);
      parity ← store parity (2 * long_cb / 8) [u8 (Z.lor cur (Z.land (pack4 (tail_stream tail 2)) 0xf))];
      Some (3 * long_cb + TOTALTAIL, input, parity, mk_tcod (tc_max_long_cb h) tmp, tb, cb)
  else Some (-1, input, parity, h, crc_tb, crc_cb).
