(* ===== verification/TurboCorrect.v ===== *)
(** * The two turbo encoders agree

    The byte oriented encoder computes the three streams of the bit oriented one, the
    systematic stream in [input] and the two parity streams one after the other in
    [parity], with the checksums inserted. *)

From stdpp Require Import base list gmap numbers list_basics list_relations.
From S2P Require Import Prelude BitPack Crc CbSegm TurboCoder.

Local Open Scope Z_scope.

(** ** Memory *)

(** Writing next to what was just written. *)
Lemma store_app (pre old l rest : list Z) off :
  zlen pre = off -> zlen old = zlen l -> store (pre ++ old ++ rest) off l = Some (pre ++ l ++ rest).
Proof.
  intros Hp Ho. pose proof (zlen_nonneg pre). pose proof (zlen_nonneg rest).
  rewrite store_Some by (rewrite ?zlen_app; lia).
  rewrite ztake_app_eq by done. do 3 f_equal. rewrite app_assoc. apply zdrop_app_eq. rewrite zlen_app. lia.
Qed.

Lemma store_start (old l rest : list Z) : zlen old = zlen l -> store (old ++ rest) 0 l = Some (l ++ rest).
Proof. exact (store_app [] old l rest 0 eq_refl). Qed.

Lemma load_app (pre rest : list Z) x off : zlen pre = off -> load (pre ++ x :: rest) off = Some x.
Proof.
  intros <-. rewrite <- (Z.add_0_r (zlen pre)). by rewrite load_app_r, load_cons_0 by lia.
Qed.

(** A list of a known length splits. *)
Lemma split_at (m : list Z) n : 0 <= n <= zlen m -> exists a b, m = a ++ b /\ zlen a = n.
Proof.
  intros Hn. exists (ztake n m), (zdrop n m). split; [symmetry; apply ztake_zdrop|by apply zlen_ztake].
Qed.

Lemma map_lookup {A B} (f : A -> B) l i x : l !! i = Some x -> map f l !! i = Some (f x).
Proof. intros E. exact (list_lookup_fmap_Some_2 f l i x E). Qed.

(** ** Constituent encoder *)

Fixpoint rsc_run (r : regs) (bits : list Z) : list Z * regs :=
  match bits with
  | [] => ([], r)
  | b :: bits => let '(o, r) := rsc_step r b in let '(os, r) := rsc_run r bits in (o :: os, r)
  end.

Lemma rsc_run_app r l1 l2 :
  rsc_run r (l1 ++ l2) =
    let '(o1, r1) := rsc_run r l1 in let '(o2, r2) := rsc_run r1 l2 in (o1 ++ o2, r2).
Proof.
  revert r. induction l1 as [|b l1 IH]; intros r; simpl.
  - by destruct (rsc_run r l2).
  - rewrite IH. destruct (rsc_run _ l1) as [o1 r1]. by destruct (rsc_run r1 l2).
Qed.

Lemma rsc_run_length r l : length (fst (rsc_run r l)) = length l.
Proof.
  revert r. induction l as [|b l IH]; intros r; simpl; [done|].
  specialize (IH (snd (rsc_step r b))). simpl in IH. destruct (rsc_run _ l). simpl in *. lia.
Qed.

Definition regs_ok (r : regs) : Prop := is_bit (reg_0 r) /\ is_bit (reg_1 r) /\ is_bit (reg_2 r).

Lemma lxor_is_bit a b : is_bit a -> is_bit b -> is_bit (Z.lxor a b).
Proof. intros [-> | ->] [-> | ->]; unfold is_bit; auto. Qed.

Lemma rsc_step_ok r b : regs_ok r -> is_bit b -> is_bit (fst (rsc_step r b)) /\ regs_ok (snd (rsc_step r b)).
Proof.
  intros (H0 & H1 & H2) Hb. simpl. split; [|split_and!; try done]; repeat apply lxor_is_bit; done.
Qed.

Lemma rsc_run_ok r l : regs_ok r -> bits_ok l -> bits_ok (fst (rsc_run r l)) /\ regs_ok (snd (rsc_run r l)).
Proof.
  revert r. induction l as [|b l IH]; intros r Hr Hl; simpl; [split; [constructor|done]|].
  apply Forall_cons in Hl as [Hb Hl]. destruct (rsc_step_ok r b Hr Hb) as [Ho Hr'].
  destruct (rsc_step r b) as [o r'] eqn:E. simpl in E. injection E as <- <-. simpl in Ho, Hr'.
  destruct (IH _ Hr' Hl) as [Hos Hrs]. destruct (rsc_run _ l). simpl in *. split; [by constructor|done].
Qed.

(** *** The look-up table, all 2048 entries *)

Lemma regs_eq a b : reg_0 a = reg_0 b -> reg_1 a = reg_1 b -> reg_2 a = reg_2 b -> a = b.
Proof. destruct a, b. simpl. congruence. Qed.

(** The entry [l] against the run [p] of the encoder. *)
Definition lut_check (l : tcod_lut_t) (p : list Z * regs) : bool :=
  bool_decide (srsran_bit_unpack (output l) 8 = fst p) &&
  ((reg_0 (state_regs (next_state l)) =? reg_0 (snd p)) && (reg_1 (state_regs (next_state l)) =? reg_1 (snd p)) &&
   (reg_2 (state_regs (next_state l)) =? reg_2 (snd p))) &&
  (0 <=? next_state l) && (next_state l <? 8) && (0 <=? output l) && (output l <? 2 ^ 8).

Lemma lut_check_spec l p :
  lut_check l p = true ->
  p = (srsran_bit_unpack (output l) 8, state_regs (next_state l)) /\ 0 <= next_state l < 8 /\ is_u8 (output l).
Proof.
  unfold lut_check. rewrite !andb_true_iff, !Z.eqb_eq, !Z.leb_le, !Z.ltb_lt.
  intros (((((Ho & (H0 & H1) & H2) & H3) & H4) & H5) & H6). apply bool_decide_eq_true in Ho.
  split; [|unfold is_u8; lia]. destruct p as [o r]. cbn [fst snd] in *. rewrite Ho. f_equal.
  apply regs_eq; congruence.
Qed.

Lemma lut_table_ok :
  range_forallb 8 (fun s => range_forallb 256 (fun d =>
    lut_check (tcod_lut s d) (rsc_run (state_regs s) (srsran_bit_unpack d 8)))) = true.
Proof. by vm_compute. Qed.

Lemma tcod_lut_spec s d :
  0 <= s < 8 -> is_u8 d ->
  rsc_run (state_regs s) (srsran_bit_unpack d 8) =
    (srsran_bit_unpack (output (tcod_lut s d)) 8, state_regs (next_state (tcod_lut s d))) /\
  0 <= next_state (tcod_lut s d) < 8 /\ is_u8 (output (tcod_lut s d)).
Proof.
  intros Hs Hd. assert (Hd' : 0 <= d < 256) by (unfold is_u8 in Hd; lia).
  pose proof (range_forallb_spec _ _ lut_table_ok s Hs) as H1. cbv beta in H1.
  pose proof (range_forallb_spec _ _ H1 d Hd') as H2. cbv beta in H2.
  exact (lut_check_spec _ _ H2).
Qed.

Opaque tcod_lut.

Lemma lut_run_spec ins s outs s' :
  0 <= s < 8 -> bytes_ok ins -> lut_run s ins = (outs, s') ->
  rsc_run (state_regs s) (bits_of_bytes ins) = (bits_of_bytes outs, state_regs s') /\ 0 <= s' < 8 /\
  bytes_ok outs /\ length outs = length ins.
Proof.
  revert s outs. induction ins as [|d ins IH]; intros s outs Hs Hi E; simpl in E.
  - injection E as <- <-. done.
  - apply Forall_cons in Hi as [Hd Hi]. destruct (tcod_lut_spec s d Hs Hd) as (Hr & Hn & Ho).
    destruct (lut_run _ ins) as [outs1 s1] eqn:E1. injection E as <- <-.
    destruct (IH _ _ Hn Hi E1) as (Hr1 & Hs1 & Hb1 & Hl1).
    unfold bits_of_bytes in *. cbn [map concat]. rewrite rsc_run_app, Hr, Hr1.
    split; [done|]. split; [done|]. split; [by apply Forall_cons_2|cbn [length]; lia].
Qed.

Lemma lut_run_app s l1 l2 :
  lut_run s (l1 ++ l2) = let '(o1, s1) := lut_run s l1 in let '(o2, s2) := lut_run s1 l2 in (o1 ++ o2, s2).
Proof.
  revert s. induction l1 as [|b l1 IH]; intros s; cbn [lut_run app].
  - by destruct (lut_run s l2).
  - rewrite IH. destruct (lut_run _ l1) as [o1 s1]. by destruct (lut_run s1 l2).
Qed.

(** ** Bit interleaver *)

(** The bit at the position [k] of a byte string. *)
Lemma bits_of_bytes_lookup d k b :
  0 <= k -> d !! Z.to_nat (k / 8) = Some b ->
  bits_of_bytes d !! Z.to_nat k = Some (Z.land (Z.shiftr b (7 - k mod 8)) 1).
Proof.
  revert k. induction d as [|x d IH]; intros k Hk E; [done|].
  unfold bits_of_bytes. cbn [map concat]. fold (bits_of_bytes d).
  assert (Hl : length (srsran_bit_unpack x 8) = 8%nat) by reflexivity.
  destruct (Z.lt_ge_cases k 8).
  - rewrite Z.div_small in E by lia. simpl in E. injection E as ->.
    rewrite lookup_app_l by (rewrite Hl; lia). unfold srsran_bit_unpack.
    assert (Es : seqZ 0 8 !! Z.to_nat k = Some k) by (apply lookup_seqZ; lia).
    rewrite (map_lookup _ _ _ _ Es). do 3 f_equal. rewrite Z.mod_small; lia.
  - rewrite lookup_app_r by (rewrite Hl; lia). rewrite Hl.
    replace (Z.to_nat k - 8)%nat with (Z.to_nat (k - 8)) by lia.
    assert (Ed : k / 8 = (k - 8) / 8 + 1) by (replace k with (k - 8 + 1 * 8) at 1 by lia; apply Z.div_add; lia).
    assert (Em : k mod 8 = (k - 8) mod 8) by (replace k with (k - 8 + 1 * 8) at 1 by lia; apply Z.mod_add; lia).
    rewrite Em. apply IH; [lia|]. assert (0 <= (k - 8) / 8) by (apply Z.div_pos; lia).
    rewrite Ed in E. by replace (Z.to_nat ((k - 8) / 8 + 1)) with (S (Z.to_nat ((k - 8) / 8))) in E by lia.
Qed.

Lemma bil_mask_pow i : 0 <= i < 8 -> bil_mask i = 2 ^ (7 - i).
Proof.
  intros Hi. assert (H : i = 0 \/ i = 1 \/ i = 2 \/ i = 3 \/ i = 4 \/ i = 5 \/ i = 6 \/ i = 7) by lia.
  by destruct H as [->|[->|[->|[->|[->|[->|[->| ->]]]]]]].
Qed.

(** The masked test is the bit. *)
Lemma masked_bit b m : 0 <= m < 8 -> b2z (negb (Z.land b (bil_mask m) =? 0)) = Z.land (Z.shiftr b (7 - m)) 1.
Proof.
  intros Hm. rewrite bil_mask_pow, land_pow2_testbit by lia. rewrite land_1, <- Z.bit0_mod, Z.shiftr_spec by lia.
  rewrite Z.add_0_l. by destruct (Z.testbit b (7 - m)).
Qed.

(** Eight bits or-ed at their places are the byte they spell. *)
Lemma or_masks (b0 b1 b2 b3 b4 b5 b6 b7 : bool) :
  let m (b : bool) i := if b then bil_mask i else 0 in
  let v := Z.lor (Z.lor (Z.lor (Z.lor (Z.lor (Z.lor (Z.lor (m b0 0) (m b1 1)) (m b2 2)) (m b3 3)) (m b4 4)) (m b5 5)) (m b6 6)) (m b7 7) in
  srsran_bit_unpack v 8 = map b2z [b0; b1; b2; b3; b4; b5; b6; b7] /\ is_u8 v.
Proof.
  destruct b0, b1, b2, b3, b4, b5, b6, b7; (split; [reflexivity|unfold is_u8; vm_compute; split; congruence]).
Qed.

(** The interleaved bits of [input]. *)
Definition bit_at_pos (input : list Z) (i : Z) : Z := default 0 (bits_of_bytes input !! Z.to_nat i).

Section interleave.
  Variables (per input : list Z) (K : Z).
  Hypotheses (Hin : K <= 8 * zlen input) (HK16 : K <= 2 ^ 16)
    (Hper : forall i, 0 <= i < K -> exists p, per !! Z.to_nat i = Some p /\ 0 <= p < K).
Let q := srsran_bit_interleaver_init per K.

Definition permuted (i : Z) : Z := bit_at_pos input (default 0 (per !! Z.to_nat i)).

Lemma load_Some (m : list Z) i x : 0 <= i -> m !! Z.to_nat i = Some x -> load m i = Some x.
Proof. intros Hi E. unfold load. destruct (Z.ltb_spec i 0); [lia|done]. Qed.

Lemma bil_out_bit k i :
  0 <= k < K -> exists b : bool, bil_out q input k i = Some (if b then bil_mask i else 0) /\ b2z b = permuted k.
Proof.
  intros Hk. destruct (Hper k Hk) as (p & Ep & Hp). unfold bil_out, q, srsran_bit_interleaver_init. cbn [byte_idx bit_mask].
  assert (Et : ztake K per !! Z.to_nat k = Some p) by (unfold ztake; rewrite lookup_take_lt by lia; done).
  assert (Hd : 0 <= p / 8) by (apply Z.div_pos; lia).
  assert (Hd8 : p / 8 < 2 ^ 16) by (apply Z.div_lt_upper_bound; lia).
  assert (Hm : 0 <= p mod 8 < 8) by (apply Z.mod_pos_bound; lia).
  pose proof (load_Some _ k _ ltac:(lia) (map_lookup (fun i => u16 (i / 8)) _ _ _ Et)) as L1.
  pose proof (load_Some _ k _ ltac:(lia) (map_lookup (fun i => bil_mask (i mod 8)) _ _ _ Et)) as L2.
  destruct (lookup_lt_is_Some_2 input (Z.to_nat (p / 8))) as [b Eb].
  { assert (p / 8 < zlen input) by (apply Z.div_lt_upper_bound; lia). unfold zlen in *. lia. }
  rewrite L1. cbn [mbind option_bind]. rewrite u16_id by (unfold is_u16; lia).
  rewrite (load_Some input (p / 8) b) by done. cbn [mbind option_bind]. rewrite L2. cbn [mbind option_bind].
  exists (negb (Z.land b (bil_mask (p mod 8)) =? 0)). split; [done|].
  rewrite masked_bit by done. unfold permuted, bit_at_pos. rewrite Ep. simpl.
  by rewrite (bits_of_bytes_lookup input p b) by (done || lia).
Qed.

Lemma bil_byte_bits k :
  0 <= k -> k + 8 <= K ->
  exists v, bil_byte q input k = Some v /\ is_u8 v /\ srsran_bit_unpack v 8 = map permuted (seqZ k 8).
Proof.
  intros Hk HkK. unfold bil_byte.
  destruct (bil_out_bit (k + 0) 0 ltac:(lia)) as (b0 & -> & E0). destruct (bil_out_bit (k + 1) 1 ltac:(lia)) as (b1 & -> & E1).
  destruct (bil_out_bit (k + 2) 2 ltac:(lia)) as (b2 & -> & E2). destruct (bil_out_bit (k + 3) 3 ltac:(lia)) as (b3 & -> & E3).
  destruct (bil_out_bit (k + 4) 4 ltac:(lia)) as (b4 & -> & E4). destruct (bil_out_bit (k + 5) 5 ltac:(lia)) as (b5 & -> & E5).
  destruct (bil_out_bit (k + 6) 6 ltac:(lia)) as (b6 & -> & E6). destruct (bil_out_bit (k + 7) 7 ltac:(lia)) as (b7 & -> & E7).
  cbn [mbind option_bind]. eexists. split; [reflexivity|].
  destruct (or_masks b0 b1 b2 b3 b4 b5 b6 b7) as [Hv Hu]. split; [exact Hu|]. rewrite Hv. cbn [map].
  rewrite E0, E1, E2, E3, E4, E5, E6, E7.
  assert (Es : seqZ k 8 = Z.add k <$> seqZ 0 8) by (rewrite fmap_add_seqZ; f_equal; lia). by rewrite Es.
Qed.

Lemma bil_bytes_bits n k o pre old rest :
  0 <= k -> k + 8 * Z.of_nat n <= K -> zlen pre = o -> zlen old = Z.of_nat n ->
  exists vs, bil_bytes n q input k o (pre ++ old ++ rest) = Some (pre ++ vs ++ rest) /\ zlen vs = Z.of_nat n /\
    bytes_ok vs /\ bits_of_bytes vs = map permuted (seqZ k (8 * Z.of_nat n)).
Proof.
  revert k o pre old. induction n as [|n IH]; intros k o pre old Hk HkK Hpre Hold.
  - assert (old = []) as -> by (apply zlen_0; lia). exists []. split_and!; [done|done|constructor|done].
  - destruct old as [|x old]; [change (zlen []) with 0 in Hold; lia|]. rewrite zlen_cons in Hold.
    destruct (bil_byte_bits k Hk ltac:(lia)) as (v & Ev & Hv & Eb).
    cbn [bil_bytes]. rewrite Ev. cbn [mbind option_bind].
    change (pre ++ (x :: old) ++ rest) with (pre ++ [x] ++ (old ++ rest)).
    rewrite (store_app pre [x] [v] (old ++ rest) o) by done. cbn [mbind option_bind].
    destruct (IH (k + 8) (o + 1) (pre ++ [v]) old) as (vs & E & Hz & Hok & Hbits).
    { lia. } { lia. } { rewrite zlen_app. change (zlen [v]) with 1. lia. } { lia. }
    exists (v :: vs). split_and!.
    + rewrite <- app_assoc in E. simpl in E |- *. rewrite E. by rewrite <- app_assoc.
    + rewrite zlen_cons. lia.
    + by constructor.
    + unfold bits_of_bytes in *. cbn [map concat]. rewrite Eb, Hbits.
      replace (8 * Z.of_nat (S n)) with (8 + 8 * Z.of_nat n) by lia.
      rewrite seqZ_app by lia. by rewrite map_app.
Qed.

End interleave.

(** The run of the interleaver without an offset, on a whole number of bytes. *)
Lemma interleaver_run_bits per input K old rest :
  0 <= K -> K mod 8 = 0 -> K <= 8 * zlen input -> K <= 2 ^ 16 ->
  (forall i, 0 <= i < K -> exists p, per !! Z.to_nat i = Some p /\ 0 <= p < K) -> zlen old = K / 8 ->
  exists vs, srsran_bit_interleaver_run (srsran_bit_interleaver_init per K) input (old ++ rest) 0 = Some (vs ++ rest) /\
    zlen vs = K / 8 /\ bytes_ok vs /\ bits_of_bytes vs = map (permuted per input) (seqZ 0 K).
Proof.
  intros HK Hm Hin H16 Hper Hold. assert (EK : K = 8 * (K / 8)) by (pose proof (Z.div_mod K 8); lia).
  assert (Hd : 0 <= K / 8) by (apply Z.div_pos; lia).
  destruct (bil_bytes_bits per input K Hin H16 Hper (Z.to_nat (K / 8)) 0 0 [] old rest) as (vs & E & Hz & Hok & Hb);
    [lia|lia|done|lia|].
  rewrite Z2Nat.id in Hz, Hb by lia. rewrite <- EK in Hb.
  exists vs. split; [|done]. unfold srsran_bit_interleaver_run. cbn [nof_bits srsran_bit_interleaver_init].
  change ((0 <? 8) && (0 >? 0)) with false. cbv iota. cbn [mbind option_bind].
  change (0 * 8 - 0) with 0. rewrite !Z.sub_0_r, Hm. cbn [app] in E. rewrite E. cbn [mbind option_bind]. done.
Qed.

(** ** Second constituent encoder *)

(** Half bytes, by evaluation of all values. *)
Definition nibbles_ok (x a : Z) : bool :=
  (u8 (Z.lor (16 * x) a) =? 16 * x + a) && (u8 (Z.lor a (Z.shiftl x 4)) =? 16 * x + a) &&
  (u8 (Z.lor (16 * x) (Z.land a 0xf)) =? 16 * x + a) && (u8 (Z.shiftl x 4) =? 16 * x) &&
  bool_decide (srsran_bit_unpack (16 * x + a) 8 = srsran_bit_unpack x 4 ++ srsran_bit_unpack a 4).

Lemma nibbles_table : range_forallb 16 (fun x => range_forallb 16 (nibbles_ok x)) = true.
Proof. by vm_compute. Qed.

Lemma nibbles x a :
  0 <= x < 16 -> 0 <= a < 16 ->
  u8 (Z.lor (16 * x) a) = 16 * x + a /\ u8 (Z.lor a (Z.shiftl x 4)) = 16 * x + a /\
  u8 (Z.lor (16 * x) (Z.land a 0xf)) = 16 * x + a /\ u8 (Z.shiftl x 4) = 16 * x /\
  srsran_bit_unpack (16 * x + a) 8 = srsran_bit_unpack x 4 ++ srsran_bit_unpack a 4.
Proof.
  intros Hx Ha. pose proof (range_forallb_spec _ _ nibbles_table x Hx) as H. cbv beta in H.
  pose proof (range_forallb_spec _ _ H a Ha) as H2. unfold nibbles_ok in H2.
  rewrite !andb_true_iff, !Z.eqb_eq in H2. destruct H2 as ((((H3 & H4) & H5) & H6) & H7).
  apply bool_decide_eq_true in H7. auto.
Qed.

Lemma byte_nibbles out :
  is_u8 out -> exists a b, 0 <= a < 16 /\ 0 <= b < 16 /\ out = 16 * a + b /\
    Z.shiftr (Z.land out 0xf0) 4 = a /\ Z.shiftl (Z.land out 0xf) 4 = 16 * b.
Proof.
  intros Ho. unfold is_u8 in Ho. exists (out / 16), (out mod 16).
  assert (Hd := Z.div_mod out 16 ltac:(lia)). assert (Hm := Z.mod_pos_bound out 16 ltac:(lia)).
  assert (Hq : 0 <= out / 16 < 16) by (split; [apply Z.div_pos; lia|apply Z.div_lt_upper_bound; lia]).
  split_and!; try lia.
  - rewrite Z.shiftr_land. change (Z.shiftr 0xf0 4) with (Z.ones 4). rewrite Z.land_ones, Z.shiftr_div_pow2 by lia.
    change (2 ^ 4) with 16. apply Z.mod_small. lia.
  - change 0xf with (Z.ones 4). rewrite Z.land_ones, Z.shiftl_mul_pow2 by lia. change (2 ^ 4) with 16. lia.
Qed.

Lemma encode_second_bits ins o pre x old rest s outs s' :
  bytes_ok ins -> 0 <= s < 8 -> zlen pre = o -> 0 <= x < 16 -> zlen old = zlen ins -> lut_run s ins = (outs, s') ->
  exists body, encode_second ins o (pre ++ (16 * x) :: old ++ rest) s = Some (pre ++ body ++ rest, s') /\
    zlen body = zlen ins + 1 /\ bytes_ok body /\
    bits_of_bytes body = srsran_bit_unpack x 4 ++ bits_of_bytes outs ++ [0; 0; 0; 0].
Proof.
  revert o pre x old s outs. induction ins as [|d ins IH]; intros o pre x old s outs Hi Hs Hp Hx Ho E.
  - cbn [lut_run] in E. injection E as <- <-. assert (old = []) as -> by (apply zlen_0; exact Ho).
    exists [16 * x]. split_and!; [done|done| |].
    + apply Forall_cons_2; [unfold is_u8; lia|apply Forall_nil_2].
    + destruct (nibbles x 0 Hx ltac:(lia)) as (_ & _ & _ & _ & Hb). unfold bits_of_bytes. cbn [map concat app].
      rewrite app_nil_r. rewrite Z.add_0_r in Hb. exact Hb.
  - destruct old as [|y old]; [rewrite zlen_cons in Ho; pose proof (zlen_nonneg ins); change (zlen []) with 0 in Ho; lia|].
    rewrite !zlen_cons in Ho. apply Forall_cons in Hi as [Hd Hi].
    destruct (tcod_lut_spec s d Hs Hd) as (_ & Hn & Hout). cbn [lut_run] in E.
    destruct (lut_run _ ins) as [outs1 s1] eqn:E1. injection E as <- <-.
    destruct (byte_nibbles _ Hout) as (a & b & Ha & Hb & Eo & Ea & Eb).
    destruct (nibbles x a Hx Ha) as (N1 & _ & _ & _ & N2).
    destruct (nibbles a b Ha Hb) as (_ & _ & _ & _ & N3).
    cbn [encode_second]. rewrite (load_app pre _ (16 * x) o) by done. cbn [mbind option_bind].
    rewrite Ea, Eb, N1, (u8_id (16 * b)) by (unfold is_u8; lia).
    change (pre ++ 16 * x :: (y :: old) ++ rest) with (pre ++ [16 * x] ++ ([y] ++ old ++ rest)).
    rewrite (store_app pre [16 * x] [16 * x + a]) by done. cbn [mbind option_bind].
    rewrite app_assoc.
    rewrite (store_app (pre ++ [16 * x + a]) [y] [16 * b]) by (rewrite ?zlen_app; try done; change (zlen [_]) with 1; lia).
    cbn [mbind option_bind].
    destruct (IH (o + 1) (pre ++ [16 * x + a]) b old _ outs1 Hi Hn) as (body & E2 & Hz & Hok & Hbits);
      [rewrite zlen_app; change (zlen [_]) with 1; lia|done|lia|exact E1|].
    exists ((16 * x + a) :: body). split_and!.
    + change ([16 * b] ++ old ++ rest) with (16 * b :: old ++ rest). rewrite E2. by rewrite <- app_assoc.
    + rewrite !zlen_cons. lia.
    + apply Forall_cons_2; [unfold is_u8; lia|done].
    + unfold bits_of_bytes in *. cbn [map concat]. rewrite Hbits, N2, Eo, N3. by rewrite <- !app_assoc.
Qed.

(** ** First constituent encoder and checksums *)

Lemma crc_out_bytes_eq order c : crc_out_bytes order c = checksum_bytes order c.
Proof.
  unfold crc_out_bytes, checksum_bytes. apply map_ext_in. intros j [_ Hj]%list_elem_of_In%elem_of_seqZ.
  cbv zeta. f_equal. rewrite Z.shiftr_land, Z.shiftr_shiftl_l, Z.sub_diag, Z.shiftl_0_r by lia. done.
Qed.

(** A register is cleared by its own value. *)
Lemma feed_own n P c :
  1 <= n -> in_range n c -> fold_left (feed n P) (srsran_bit_unpack c n) c = 0.
Proof.
  intros Hn Hc. rewrite feed_word by (try apply unpack_bits_ok; rewrite ?zlen_unpack; lia).
  rewrite bits_val_unpack, zlen_unpack, Z.mod_small, Z.sub_diag, Z.mul_1_r by (try exact Hc; lia).
  rewrite Z.lxor_nilpotent. generalize (length (srsran_bit_unpack c n)) as k.
  induction k as [|k IH]; simpl; [done|]. by rewrite IH, shift1_0.
Qed.

(** A checksum object of whole bytes. *)
Record byte_crc (n P k : Z) : Prop := mk_byte_crc {
  bc_generator : generator n P;
  bc_order : n = 8 * k
}.

Lemma put_bytes_feeds n P k c d :
  byte_crc n P k -> bytes_ok d ->
  exists c', put_bytes (crc_obj n P c) d = crc_obj n P c' /\ c' mod 2 ^ n = fold_left (feed n P) (bits_of_bytes d) (c mod 2 ^ n).
Proof. intros [(Hn & HP & _) _] Hd. by apply crc_bytes_feeds. Qed.

(** The bytes a checksum object inserts clear it. *)
Lemma inserted_bytes n P k c :
  byte_crc n P k ->
  let ins := crc_out_bytes n (u32 (srsran_crc_checksum_get (crc_obj n P c))) in
  ins = checksum_bytes n (c mod 2 ^ n) /\ zlen ins = k /\ bytes_ok ins /\
  fold_left (feed n P) (bits_of_bytes ins) (c mod 2 ^ n) = 0.
Proof.
  intros [(Hn & HP & _) Hk]. cbv zeta. rewrite get_obj by done. rewrite crc_out_bytes_eq.
  destruct (checksum_bytes_bits n Hn k (c mod 2 ^ n) ltac:(lia)) as (Eb & Ez & Hok). rewrite <- Hk in *.
  split_and!; [done|done|done|]. rewrite Eb. apply feed_own; [lia|]. apply Z.mod_pos_bound. lia.
Qed.

Section first.
  Variables (nt Pt kt nc Pc kc : Z).
  Hypotheses (Ht : byte_crc nt Pt kt) (Hc : byte_crc nc Pc kc).

(** The checksum bytes of the transport block whose register was [ct] before [data]. *)
Definition tb_bytes (last_cb : bool) (ct : Z) (data : list Z) : list Z :=
  if last_cb then checksum_bytes nt (fold_left (feed nt Pt) (bits_of_bytes data) (ct mod 2 ^ nt)) else [].

Definition cb_bytes (with_cb : bool) (l : list Z) : list Z :=
  if with_cb then checksum_bytes nc (crc_of nc Pc (bits_of_bytes l)) else [].

Definition tb_len (last_cb : bool) : Z := if last_cb then kt else 0.
Definition cb_len (with_cb : bool) : Z := if with_cb then kc else 0.

(** The code block of [data]. *)
Definition coded_block (with_cb last_cb : bool) (ct : Z) (data : list Z) : list Z :=
  let l := data ++ tb_bytes last_cb ct data in l ++ cb_bytes with_cb l.

Definition cb_obj (with_cb : bool) (c : Z) : option srsran_crc_t := if with_cb then Some (crc_obj nc Pc c) else None.

Lemma cb_order : 1 <= nc.
Proof. destruct Hc as [(Hnc & _) _]. lia. Qed.

Lemma block_size_cb K m last_cb :
  0 <= m -> K = 8 * (m + tb_len last_cb + kc) -> K < 2 ^ 32 ->
  u32 (u32 (K - nc) - (if last_cb then nt else 0)) / 8 = m /\ u32 (K - nc) / 8 = m + tb_len last_cb.
Proof.
  destruct Ht as [(Hnt & _) Et], Hc as [(Hnc & _) Ec]. unfold tb_len. intros Hm EK HK.
  rewrite (u32_small (K - nc)) by (destruct last_cb; lia).
  rewrite u32_small by (destruct last_cb; lia).
  replace (K - nc - (if last_cb then nt else 0)) with (m * 8) by (destruct last_cb; lia).
  replace (K - nc) with ((m + (if last_cb then kt else 0)) * 8) by (destruct last_cb; lia).
  by rewrite !Z.div_mul by lia.
Qed.

Lemma block_size_tb K m last_cb :
  0 <= m -> K = 8 * (m + tb_len last_cb) -> K < 2 ^ 32 -> u32 (K - (if last_cb then nt else 0)) / 8 = m.
Proof.
  destruct Ht as [(Hnt & _) Et]. unfold tb_len. intros Hm EK HK.
  rewrite u32_small by (destruct last_cb; lia).
  replace (K - (if last_cb then nt else 0)) with (m * 8) by (destruct last_cb; lia).
  by rewrite !Z.div_mul by lia.
Qed.

(** The transport block checksum of the last block. *)
Lemma tb_bytes_spec ct data tb :
  tb mod 2 ^ nt = fold_left (feed nt Pt) (bits_of_bytes data) (ct mod 2 ^ nt) ->
  crc_out_bytes nt (u32 (srsran_crc_checksum_get (crc_obj nt Pt tb))) = tb_bytes true ct data /\
  zlen (tb_bytes true ct data) = kt /\ bytes_ok (tb_bytes true ct data).
Proof.
  intros E. destruct (inserted_bytes nt Pt kt tb Ht) as (E1 & Ez & Hok & _). rewrite E1 in *.
  unfold tb_bytes. rewrite <- E. done.
Qed.

Lemma cb_bytes_spec l c :
  c mod 2 ^ nc = crc_of nc Pc (bits_of_bytes l) ->
  crc_out_bytes nc (u32 (srsran_crc_checksum_get (crc_obj nc Pc c))) = cb_bytes true l /\
  zlen (cb_bytes true l) = kc /\ bytes_ok (cb_bytes true l).
Proof.
  intros E. destruct (inserted_bytes nc Pc kc c Hc) as (E1 & Ez & Hok & _). rewrite E1 in *.
  unfold cb_bytes. rewrite <- E. done.
Qed.

(** The first stage leaves the code block in [input] and its parity bytes in [parity]. *)
Lemma encode_first_cb last_cb ct c0 data told cold rest p1 p2 p3 prest K :
  bytes_ok data -> K = 8 * (zlen data + tb_len last_cb + kc) -> K < 2 ^ 32 ->
  zlen told = tb_len last_cb -> zlen cold = kc -> zlen p1 = zlen data -> zlen p2 = tb_len last_cb -> zlen p3 = kc ->
  exists tb c outs s, let blk := coded_block true last_cb ct data in
    lut_run 0 blk = (outs, s) /\
    encode_first (crc_obj nt Pt ct) (cb_obj true c0) (data ++ told ++ cold ++ rest) (p1 ++ p2 ++ p3 ++ prest) K last_cb =
      Some (blk ++ rest, outs ++ prest, crc_obj nt Pt tb, cb_obj true c, s) /\
    tb mod 2 ^ nt = fold_left (feed nt Pt) (bits_of_bytes data) (ct mod 2 ^ nt).
Proof.
  intros Hd EK HK Hto Hco H1 H2 H3. pose proof (zlen_nonneg data) as Hz.
  destruct (block_size_cb K (zlen data) last_cb Hz EK HK) as [B1 B2].
  destruct (put_bytes_feeds nt Pt kt ct data Ht Hd) as (tb & Etb & Ftb).
  destruct (put_bytes_feeds nc Pc kc 0 data Hc Hd) as (c1 & Ec1 & Fc1). pose proof cb_order.
  rewrite Z.mod_0_l in Fc1 by lia.
  destruct (lut_run 0 data) as [o1 s1] eqn:R1.
  destruct (lut_run_spec data 0 o1 s1 ltac:(lia) Hd R1) as (_ & Hs1 & _ & L1).
  assert (Zo1 : zlen o1 = zlen data) by (unfold zlen; lia).
  unfold encode_first, cb_obj. change (snd (srsran_crc_set_init (crc_obj nc Pc c0) 0)) with (crc_obj nc Pc 0).
  cbv zeta. change (order (crc_obj nc Pc 0)) with nc. change (order (crc_obj nt Pt ct)) with nt.
  rewrite B1, load_bytes_prefix by done. cbn [mbind option_bind]. rewrite Etb, Ec1, R1.
  rewrite store_start by lia. cbn [mbind option_bind].
  destruct last_cb.
  - destruct (tb_bytes_spec ct data tb Ftb) as (Et & Zt & Okt).
    change (order (crc_obj nt Pt tb)) with nt. rewrite Et.
    set (t := tb_bytes true ct data) in *.
    destruct (put_bytes_feeds nc Pc kc c1 t Hc Okt) as (c2 & Ec2 & Fc2). rewrite Ec2.
    destruct (lut_run s1 t) as [o2 s2] eqn:R2.
    destruct (lut_run_spec t s1 o2 s2 Hs1 Okt R2) as (_ & Hs2 & _ & L2).
    assert (Zo2 : zlen o2 = zlen t) by (unfold zlen; lia). unfold tb_len in *.
    rewrite (store_app data told t (cold ++ rest)) by lia. cbn [mbind option_bind].
    rewrite (store_app o1 p2 o2 (p3 ++ prest)) by lia. cbn [mbind option_bind].
    change (order (crc_obj nc Pc c2)) with nc. rewrite B2.
    destruct (cb_bytes_spec (data ++ t) c2) as (Eb & Zb & Okb).
    { rewrite Fc2, Fc1. unfold crc_of. by rewrite bits_of_bytes_app, fold_left_app. }
    rewrite Eb. set (b := cb_bytes true (data ++ t)) in *. destruct (lut_run s2 b) as [o3 s3] eqn:R3.
    destruct (lut_run_spec b s2 o3 s3 Hs2 Okb R3) as (_ & _ & _ & L3).
    assert (Zo3 : zlen o3 = zlen b) by (unfold zlen; lia).
    rewrite (app_assoc data), (store_app (data ++ t) cold b rest) by (rewrite ?zlen_app; lia). cbn [mbind option_bind].
    rewrite (app_assoc o1), (store_app (o1 ++ o2) p3 o3 prest) by (rewrite ?zlen_app; lia). cbn [mbind option_bind].
    exists tb, c2, ((o1 ++ o2) ++ o3), s3. unfold coded_block. fold t. fold b.
    rewrite !lut_run_app, R1, R2, R3, <- !app_assoc. done.
  - assert (told = []) as -> by (apply zlen_0; done). assert (p2 = []) as -> by (apply zlen_0; done).
    cbn [mbind option_bind app]. change (order (crc_obj nc Pc c1)) with nc. rewrite B2. unfold tb_len in *.
    destruct (cb_bytes_spec data c1 Fc1) as (Eb & Zb & Okb).
    rewrite Eb. set (b := cb_bytes true data) in *. destruct (lut_run s1 b) as [o3 s3] eqn:R3.
    destruct (lut_run_spec b s1 o3 s3 Hs1 Okb R3) as (_ & _ & _ & L3).
    assert (Zo3 : zlen o3 = zlen b) by (unfold zlen; lia).
    rewrite (store_app data cold b rest) by lia. cbn [mbind option_bind].
    rewrite (store_app o1 p3 o3 prest) by lia. cbn [mbind option_bind].
    exists tb, c1, (o1 ++ o3), s3. unfold coded_block, tb_bytes. rewrite !app_nil_r. fold b.
    rewrite !lut_run_app, R1, R3, <- !app_assoc. done.
Qed.

Lemma encode_first_tb last_cb ct data told rest p1 p2 prest K :
  bytes_ok data -> K = 8 * (zlen data + tb_len last_cb) -> K < 2 ^ 32 ->
  zlen told = tb_len last_cb -> zlen p1 = zlen data -> zlen p2 = tb_len last_cb ->
  exists tb outs s, let blk := coded_block false last_cb ct data in
    lut_run 0 blk = (outs, s) /\
    encode_first (crc_obj nt Pt ct) None (data ++ told ++ rest) (p1 ++ p2 ++ prest) K last_cb =
      Some (blk ++ rest, outs ++ prest, crc_obj nt Pt tb, None, s) /\
    tb mod 2 ^ nt = fold_left (feed nt Pt) (bits_of_bytes data) (ct mod 2 ^ nt).
Proof.
  intros Hd EK HK Hto H1 H2. pose proof (zlen_nonneg data) as Hz.
  pose proof (block_size_tb K (zlen data) last_cb Hz EK HK) as B1.
  destruct (put_bytes_feeds nt Pt kt ct data Ht Hd) as (tb & Etb & Ftb).
  destruct (lut_run 0 data) as [o1 s1] eqn:R1.
  destruct (lut_run_spec data 0 o1 s1 ltac:(lia) Hd R1) as (_ & Hs1 & _ & L1).
  assert (Zo1 : zlen o1 = zlen data) by (unfold zlen; lia).
  unfold encode_first. cbv zeta. change (order (crc_obj nt Pt ct)) with nt.
  rewrite B1, load_bytes_prefix by done. cbn [mbind option_bind]. rewrite Etb, R1.
  rewrite store_start by lia. cbn [mbind option_bind].
  destruct last_cb.
  - destruct (tb_bytes_spec ct data tb Ftb) as (Et & Zt & Okt).
    change (order (crc_obj nt Pt tb)) with nt. rewrite Et. set (t := tb_bytes true ct data) in *.
    destruct (lut_run s1 t) as [o2 s2] eqn:R2.
    destruct (lut_run_spec t s1 o2 s2 Hs1 Okt R2) as (_ & Hs2 & _ & L2).
    assert (Zo2 : zlen o2 = zlen t) by (unfold zlen; lia). unfold tb_len in *.
    rewrite (store_app data told t rest) by lia. cbn [mbind option_bind].
    rewrite (store_app o1 p2 o2 prest) by lia. cbn [mbind option_bind].
    exists tb, (o1 ++ o2), s2. unfold coded_block, cb_bytes. fold t.
    rewrite !app_nil_r, !lut_run_app, R1, R2, <- !app_assoc. done.
  - assert (told = []) as -> by (apply zlen_0; done). assert (p2 = []) as -> by (apply zlen_0; done).
    exists tb, o1, s1. unfold coded_block, tb_bytes, cb_bytes. rewrite !app_nil_r. done.
Qed.

(** Lengths and codewords. *)
Lemma coded_block_ok with_cb last_cb ct data :
  bytes_ok data ->
  bytes_ok (coded_block with_cb last_cb ct data) /\
  zlen (coded_block with_cb last_cb ct data) = zlen data + tb_len last_cb + cb_len with_cb /\
  (with_cb = true -> crc_of nc Pc (bits_of_bytes (coded_block with_cb last_cb ct data)) = 0) /\
  (last_cb = true ->
    fold_left (feed nt Pt) (bits_of_bytes (data ++ tb_bytes last_cb ct data)) (ct mod 2 ^ nt) = 0).
Proof.
  intros Hd. destruct (put_bytes_feeds nt Pt kt ct data Ht Hd) as (tb & _ & Ftb).
  destruct (inserted_bytes nt Pt kt tb Ht) as (Et & Zt & Okt & Ft). rewrite Et, Ftb in *.
  assert (Ht' : bytes_ok (tb_bytes last_cb ct data) /\ zlen (tb_bytes last_cb ct data) = tb_len last_cb).
  { unfold tb_bytes, tb_len. destruct last_cb; [done|]. split; [constructor|done]. }
  destruct Ht' as [Okt' Zt']. set (l := data ++ tb_bytes last_cb ct data).
  assert (Hl : bytes_ok l) by (apply bytes_ok_app; done).
  destruct (put_bytes_feeds nc Pc kc 0 l Hc Hl) as (c & _ & Fc). pose proof cb_order.
  rewrite Z.mod_0_l in Fc by lia.
  destruct (inserted_bytes nc Pc kc c Hc) as (Ec & Zc & Okc & Fcc). rewrite Ec, Fc in *.
  unfold coded_block. fold l. split_and!.
  - apply bytes_ok_app. split; [done|]. unfold cb_bytes. destruct with_cb; [done|constructor].
  - rewrite zlen_app. unfold l. rewrite zlen_app, Zt'. unfold cb_bytes, cb_len. destruct with_cb; [|done].
    unfold crc_of. fold l. rewrite Zc. done.
  - intros ->. unfold cb_bytes, crc_of at 1. rewrite bits_of_bytes_app, fold_left_app. exact Fcc.
  - intros ->. unfold l. rewrite bits_of_bytes_app, fold_left_app. exact Ft.
Qed.

End first.

(** ** Bit oriented encoder *)

(** The three streams of the output, every third bit. *)
Fixpoint streams (l : list Z) : list Z * list Z * list Z :=
  match l with
  | a :: b :: c :: l => let '(x, y, z) := streams l in (a :: x, b :: y, c :: z)
  | _ => ([], [], [])
  end.

Definition bit_of (bits : list Z) (i : Z) : Z := default 0 (bits !! Z.to_nat i).

Lemma bits_lookup bits i : bits_ok bits -> 0 <= i < zlen bits -> exists b, load bits i = Some b /\ is_bit b /\ bit_of bits i = b.
Proof.
  intros Hb Hi. destruct (lookup_lt_is_Some_2 bits (Z.to_nat i)) as [b E]; [unfold zlen in Hi; lia|].
  exists b. split; [by apply load_Some; [lia|]|]. split; [|unfold bit_of; by rewrite E].
  unfold bits_ok in Hb. rewrite Forall_lookup in Hb. exact (Hb _ _ E).
Qed.

Lemma is_bit_not_null b : is_bit b -> (b =? SRSRAN_TX_NULL) = false.
Proof. by intros [-> | ->]. Qed.

Section encode.
  Variables (bits per : list Z) (K : Z).
  Hypotheses (Hbits : bits_ok bits) (HK : zlen bits = K)
    (Hper : forall i, 0 <= i < K -> exists p, per !! Z.to_nat i = Some p /\ 0 <= p < K).

Definition permuted_bit (i : Z) : Z := bit_of bits (default 0 (per !! Z.to_nat i)).

Lemma encode_loop_spec n i r1 r2 :
  0 <= i -> i + Z.of_nat n <= K ->
  exists os, encode_loop n bits per i r1 r2 =
      Some (os, snd (rsc_run r1 (map (bit_of bits) (seqZ i (Z.of_nat n)))),
                snd (rsc_run r2 (map permuted_bit (seqZ i (Z.of_nat n))))) /\
    zlen os = 3 * Z.of_nat n /\
    forall l, streams (os ++ l) =
      let '(x, y, z) := streams l in
      (map (bit_of bits) (seqZ i (Z.of_nat n)) ++ x,
       fst (rsc_run r1 (map (bit_of bits) (seqZ i (Z.of_nat n)))) ++ y,
       fst (rsc_run r2 (map permuted_bit (seqZ i (Z.of_nat n)))) ++ z).
Proof.
  revert i r1 r2. induction n as [|n IH]; intros i r1 r2 Hi Hn.
  - exists []. split_and!; [done|done|]. intros l. simpl. by destruct (streams l) as [[x y] z].
  - destruct (bits_lookup bits i Hbits ltac:(lia)) as (b & Lb & Hb & Eb).
    destruct (Hper i ltac:(lia)) as (p & Ep & Hp).
    destruct (bits_lookup bits p Hbits ltac:(lia)) as (b2 & Lb2 & Hb2 & Eb2).
    assert (Epb : permuted_bit i = b2) by (unfold permuted_bit; rewrite Ep; exact Eb2).
    cbn [encode_loop]. unfold encode_bit. rewrite Lb. cbn [mbind option_bind].
    rewrite (is_bit_not_null b Hb). destruct (rsc_step r1 b) as [o1 r1'] eqn:S1.
    rewrite (load_Some per i p) by (done || lia). cbn [mbind option_bind]. rewrite Lb2. cbn [mbind option_bind].
    rewrite (is_bit_not_null b2 Hb2). destruct (rsc_step r2 b2) as [o2 r2'] eqn:S2. cbn [mbind option_bind].
    destruct (IH (i + 1) r1' r2' ltac:(lia) ltac:(lia)) as (os & E & Hz & Hst).
    rewrite E. cbn [mbind option_bind]. exists ([b; o1; o2] ++ os).
    rewrite (seqZ_cons i) by lia. replace (Z.succ i) with (i + 1) by lia.
    replace (Z.pred (Z.of_nat (S n))) with (Z.of_nat n) by lia. cbn [map]. rewrite Eb, Epb. cbn [rsc_run].
    rewrite S1, S2. destruct (rsc_run r1' _) as [y1 q1]. destruct (rsc_run r2' _) as [y2 q2]. cbn [fst snd] in *.
    split_and!; [done|rewrite zlen_app; change (zlen [b; o1; o2]) with 3; lia|].
    intros l. cbn [app streams]. rewrite Hst. by destruct (streams l) as [[x y] z].
Qed.

End encode.

(** *** The tail *)

Lemma rsc_tail_bits n r : regs_ok r -> bits_ok (rsc_tail n r).
Proof.
  revert r. induction n as [|n IH]; intros r Hr; cbn [rsc_tail]; [apply Forall_nil_2|].
  set (b := Z.lxor (reg_2 r) (reg_1 r)). assert (Hb : is_bit b) by (apply lxor_is_bit; apply Hr).
  pose proof (rsc_step_ok r b Hr Hb) as [Ho Hr']. destruct (rsc_step r b) as [o r'].
  apply Forall_cons_2; [done|]. apply Forall_cons_2; [done|]. by apply IH.
Qed.

Lemma pack4_unpack l : bits_ok l -> zlen l = 4 -> srsran_bit_unpack (pack4 l) 4 = l /\ 0 <= pack4 l < 16.
Proof.
  intros Hl Hz. destruct l as [|a [|b [|c [|d [|e l]]]]]; try done.
  2: { rewrite !zlen_cons in Hz. pose proof (zlen_nonneg l). lia. }
  repeat (apply Forall_cons in Hl as [? Hl]). unfold is_bit in *.
  destruct_or!; subst; (split; [reflexivity|vm_compute; split; congruence]).
Qed.

Lemma tail_streams t :
  zlen t = 12 -> streams t = (tail_stream t 0, tail_stream t 1, tail_stream t 2).
Proof.
  intros Ht. do 12 (destruct t as [|? t]; [done|]). destruct t as [|? t]; [done|].
  rewrite !zlen_cons in Ht. pose proof (zlen_nonneg t). lia.
Qed.

(** The tail bits go into the free half bytes at the ends of the second parity stream. *)
Lemma frame_bits f mid g B a c :
  is_u8 f -> is_u8 g -> 0 <= a < 16 -> 0 <= c < 16 ->
  bits_of_bytes (f :: mid ++ [g]) = srsran_bit_unpack 0 4 ++ B ++ [0; 0; 0; 0] ->
  bits_of_bytes (u8 (Z.lor f (Z.shiftl a 4)) :: mid ++ [u8 (Z.lor g (Z.land c 0xf))]) =
    srsran_bit_unpack a 4 ++ B ++ srsran_bit_unpack c 4.
Proof.
  intros Hf Hg Ha Hc. destruct (byte_nibbles f Hf) as (f1 & f2 & Hf1 & Hf2 & -> & _).
  destruct (byte_nibbles g Hg) as (g1 & g2 & Hg1 & Hg2 & -> & _).
  destruct (nibbles f1 f2 Hf1 Hf2) as (_ & _ & _ & _ & Nf). destruct (nibbles g1 g2 Hg1 Hg2) as (_ & _ & _ & _ & Ng).
  destruct (nibbles a f2 Ha Hf2) as (_ & Na & _ & _ & Na'). destruct (nibbles g1 c Hg1 Hc) as (_ & _ & Nc & _ & Nc').
  unfold bits_of_bytes. cbn [map concat]. rewrite !map_app, !concat_app. fold (bits_of_bytes mid). cbn [map concat].
  rewrite !app_nil_r, Nf, Ng, <- !app_assoc. intros E.
  apply app_inj_1 in E as [E1 E]; [|done].
  assert (f1 = 0) as ->.
  { apply (f_equal bits_val) in E1. rewrite !bits_val_unpack in E1 by lia. rewrite !Z.mod_small in E1; lia. }
  rewrite !app_assoc in E. apply app_inj_2 in E as [E E2]; [|done].
  assert (g2 = 0) as ->.
  { apply (f_equal bits_val) in E2. rewrite bits_val_unpack, Z.mod_small in E2 by lia. exact E2. }
  rewrite Z.mul_0_r, Z.add_0_l, Z.add_0_r, Na, Nc, Na', Nc', <- E, <- !app_assoc. done.
Qed.

(** *** The tables *)

Lemma sizes_table :
  range_forallb 188 (fun j => (srsran_cbsegm_cbindex (size_at j) =? j) && (size_at j mod 8 =? 0)) = true.
Proof. by vm_compute. Qed.

Lemma size_index j : 0 <= j < 188 -> srsran_cbsegm_cbindex (size_at j) = j /\ size_at j mod 8 = 0.
Proof.
  intros Hj. pose proof (range_forallb_spec _ _ sizes_table j Hj) as H. cbv beta in H.
  by apply andb_true_iff in H as [?%Z.eqb_eq ?%Z.eqb_eq].
Qed.

Lemma zlen_replicate n : 0 <= n -> zlen (replicate (Z.to_nat n) 0) = n.
Proof. intros Hn. unfold zlen. rewrite length_replicate. lia. Qed.

Lemma per_fw_valid j i :
  0 <= j < 188 -> 0 <= i < size_at j -> exists p, per_fw j !! Z.to_nat i = Some p /\ 0 <= p < size_at j.
Proof.
  intros Hj Hi. pose proof (size_range j Hj) as HK. pose proof (size_valid j Hj) as Hv.
  assert (Hs : sized interl_6144) by (unfold sized, interl_6144; cbn [forward reverse max_long_cb]; by rewrite zlen_replicate).
  destruct (gen_holds interl_6144 (size_at j) Hv Hs) as (h' & E & Hh & [Hs' _] & Em); [exact (proj2 HK)|].
  destruct (valid_size _ Hv) as (_ & _ & Hp & _). exists (qpp_of (size_at j) i). split; [|by apply Hp].
  unfold per_fw, srsran_tc_interl_LTE_gen. rewrite cbsize_at by done. rewrite E. cbn [snd].
  change (max_long_cb interl_6144) with 6144 in Em.
  rewrite lookup_app_l.
  - unfold ztake. rewrite lookup_take_lt by lia. by apply Hh.
  - assert (zlen (ztake (size_at j) (forward h')) = size_at j) by (apply zlen_ztake; lia). unfold zlen in *. lia.
Qed.

(** *** The two encoders see the same bits *)

Lemma bits_of_bytes_at d i : bit_at_pos d i = bit_of (bits_of_bytes d) i.
Proof. done. Qed.

Lemma bit_of_prefix a b i : 0 <= i < zlen a -> bit_of (a ++ b) i = bit_of a i.
Proof. intros Hi. unfold bit_of. rewrite lookup_app_l; [done|]. unfold zlen in Hi. lia. Qed.

Lemma map_bit_of bits K : zlen bits = K -> map (bit_of bits) (seqZ 0 K) = bits.
Proof.
  intros <-. apply list_eq. intros i. destruct (bits !! i) as [b|] eqn:E.
  - pose proof (lookup_lt_Some _ _ _ E) as Hl.
    assert (Es : seqZ 0 (zlen bits) !! i = Some (Z.of_nat i)) by (apply lookup_seqZ; unfold zlen; lia).
    rewrite (map_lookup _ _ _ _ Es). unfold bit_of. by rewrite Nat2Z.id, E.
  - apply lookup_ge_None in E. apply lookup_ge_None. rewrite length_map, length_seqZ. unfold zlen. lia.
Qed.

Lemma permuted_same per blk rest K :
  8 * zlen blk = K -> (forall i, 0 <= i < K -> exists p, per !! Z.to_nat i = Some p /\ 0 <= p < K) ->
  map (permuted per (blk ++ rest)) (seqZ 0 K) = map (permuted_bit (bits_of_bytes blk) per) (seqZ 0 K).
Proof.
  intros HK Hper. apply map_ext_in. intros i Hi%list_elem_of_In%elem_of_seqZ.
  destruct (Hper i ltac:(lia)) as (p & Ep & Hp). unfold permuted, permuted_bit. rewrite Ep. cbn [default from_option id].
  rewrite bits_of_bytes_at, bits_of_bytes_app. apply bit_of_prefix. rewrite zlen_bits_of_bytes. lia.
Qed.

(** The two constituent encoders on a block and its permutation, and the tail they leave. *)
Definition parity_run (l : list Z) : list Z := fst (rsc_run regs0 l).
Definition tail_bits (l1 l2 : list Z) : list Z :=
  rsc_tail NOF_REGS (snd (rsc_run regs0 l1)) ++ rsc_tail NOF_REGS (snd (rsc_run regs0 l2)).
Definition permuted_block (j : Z) (bits : list Z) : list Z := map (permuted_bit bits (per_fw j)) (seqZ 0 (size_at j)).

Lemma regs0_ok : regs_ok regs0.
Proof. unfold regs_ok, is_bit. cbn. lia. Qed.

Lemma tail_bits_ok l1 l2 : bits_ok l1 -> bits_ok l2 -> bits_ok (tail_bits l1 l2) /\ zlen (tail_bits l1 l2) = 12.
Proof.
  intros H1 H2. split; [|done]. apply bits_ok_app.
  split; apply rsc_tail_bits; apply rsc_run_ok; (done || apply regs0_ok).
Qed.

Lemma tail_stream_ok t k : bits_ok t -> bits_ok (tail_stream t k) /\ zlen (tail_stream t k) = 4.
Proof.
  intros Ht. split; [|done]. unfold tail_stream. apply Forall_forall. intros b Hb.
  apply list_elem_of_In, in_map_iff in Hb as (i & <- & _). destruct (t !! _) as [v|] eqn:E; [|by left].
  unfold bits_ok in Ht. rewrite Forall_lookup in Ht. exact (Ht _ _ E).
Qed.

Lemma encode_streams j h bits :
  0 <= j < 188 -> bits_ok bits -> zlen bits = size_at j -> size_at j <= tc_max_long_cb h ->
  exists O, srsran_tcod_encode srsran_tcod_gentable h bits (size_at j) = Some (inr O) /\
    zlen O = 3 * size_at j + TOTALTAIL /\
    let t := tail_bits bits (permuted_block j bits) in
    streams O = (bits ++ tail_stream t 0, parity_run bits ++ tail_stream t 1,
                 parity_run (permuted_block j bits) ++ tail_stream t 2).
Proof.
  intros Hj Hb Hz Hm. pose proof (size_range j Hj) as HK. destruct (size_index j Hj) as [Ei _].
  destruct (encode_loop_spec bits (per_fw j) (size_at j) Hb Hz (fun i => per_fw_valid j i Hj) (Z.to_nat (size_at j)) 0 regs0 regs0)
    as (os & E & Hos & Hst); [lia|lia|]. rewrite Z2Nat.id in E, Hos, Hst by lia.
  unfold srsran_tcod_encode. destruct (Z.gtb_spec (size_at j) (tc_max_long_cb h)); [lia|].
  rewrite Ei. destruct (Z.ltb_spec j 0); [lia|]. cbn [tcod_per_fw srsran_tcod_gentable]. rewrite E. cbn [mbind option_bind].
  rewrite map_bit_of by done. fold (permuted_block j bits). fold (tail_bits bits (permuted_block j bits)).
  eexists. split; [reflexivity|]. rewrite zlen_app. split; [change (zlen (tail_bits _ _)) with 12; unfold TOTALTAIL; lia|].
  rewrite Hst, tail_streams by done. by rewrite map_bit_of.
Qed.

(** The last writes to [parity], before the continuation [k]. *)
Lemma put_tail {A} (k : list Z -> option A) outs body prest m a c B :
  zlen outs = m -> zlen body = m + 1 -> 1 <= m -> bytes_ok body -> 0 <= a < 16 -> 0 <= c < 16 ->
  bits_of_bytes body = srsran_bit_unpack 0 4 ++ B ++ [0; 0; 0; 0] ->
  exists par, zlen par = m + 1 /\ bits_of_bytes par = srsran_bit_unpack a 4 ++ B ++ srsran_bit_unpack c 4 /\
    (cur ← load (outs ++ body ++ prest) m;
     parity ← store (outs ++ body ++ prest) m [u8 (Z.lor cur (Z.shiftl a 4))];
     cur ← load parity (2 * m);
     parity ← store parity (2 * m) [u8 (Z.lor cur (Z.land c 0xf))];
     k parity) = k (outs ++ par ++ prest).
Proof.
  intros Zo Zb Hm Okb Ha Hc Bb.
  destruct body as [|f body]; [change (zlen []) with 0 in Zb; lia|]. rewrite zlen_cons in Zb.
  destruct (exists_last (l := body)) as (mid & g & ->); [intros ->; change (zlen []) with 0 in Zb; lia|].
  rewrite zlen_app in Zb. change (zlen [g]) with 1 in Zb.
  apply Forall_cons in Okb as [Hf [_ Hg]%Forall_app]. apply Forall_cons in Hg as [Hg _].
  exists (u8 (Z.lor f (Z.shiftl a 4)) :: mid ++ [u8 (Z.lor g (Z.land c 0xf))]).
  split; [rewrite zlen_cons, zlen_app; change (zlen [_]) with 1; lia|]. split; [by apply frame_bits|].
  cbn [app]. rewrite (load_app outs _ f) by done. cbn [mbind option_bind].
  change (f :: (mid ++ [g]) ++ prest) with ([f] ++ (mid ++ [g]) ++ prest).
  rewrite (store_app outs [f]) by done. cbn [mbind option_bind]. set (f' := u8 (Z.lor f _)).
  replace (outs ++ [f'] ++ (mid ++ [g]) ++ prest) with ((outs ++ f' :: mid) ++ [g] ++ prest) by (by rewrite <- !app_assoc).
  assert (Zp : zlen (outs ++ f' :: mid) = 2 * m) by (rewrite zlen_app, zlen_cons; lia).
  cbn [app]. rewrite (load_app (outs ++ f' :: mid) _ g) by done. cbn [mbind option_bind].
  change (g :: prest) with ([g] ++ prest). rewrite (store_app (outs ++ f' :: mid) [g]) by done. cbn [mbind option_bind].
  f_equal. by rewrite <- !app_assoc.
Qed.

Section lut.
  Variables (j : Z) (h : srsran_tcod_t) (blk outs : list Z) (s0 : Z).
  Hypotheses (Hj : 0 <= j < 188) (Hblk : bytes_ok blk) (Hlen : 8 * zlen blk = size_at j)
    (Hrun : lut_run 0 blk = (outs, s0)) (Htemp : size_at j / 8 <= zlen (temp h)).

Let bits := bits_of_bytes blk.
Let t := tail_bits bits (permuted_block j bits).

Lemma first_run :
  bits_of_bytes outs = parity_run bits /\ state_regs s0 = snd (rsc_run regs0 bits) /\ zlen outs = zlen blk.
Proof.
  destruct (lut_run_spec blk 0 outs s0 ltac:(lia) Hblk Hrun) as (E & _ & _ & Hl).
  change (state_regs 0) with regs0 in E. unfold parity_run, bits. rewrite E. unfold zlen. rewrite Hl. done.
Qed.

(** The interleaved block as the second encoder reads it. *)
Lemma interleaved rest :
  exists tmp ins, srsran_bit_interleaver_run (tcod_interleavers srsran_tcod_gentable j) (blk ++ rest) (temp h) 0 = Some tmp /\
    load_bytes tmp 0 (zlen blk) = Some ins /\ bytes_ok ins /\ zlen ins = zlen blk /\
    bits_of_bytes ins = permuted_block j bits /\ zlen tmp = zlen (temp h).
Proof.
  pose proof (size_range j Hj) as HK. pose proof (zlen_nonneg rest).
  assert (E8 : size_at j / 8 = zlen blk) by (rewrite <- Hlen, Z.mul_comm; apply Z.div_mul; lia).
  rewrite E8 in Htemp. destruct (split_at (temp h) (zlen blk)) as (old & trest & Et & Ho); [pose proof (zlen_nonneg blk); lia|].
  cbn [tcod_interleavers srsran_tcod_gentable]. rewrite cbsize_at, Et by done.
  destruct (interleaver_run_bits (per_fw j) (blk ++ rest) (size_at j) old trest) as (vs & E & Hz & Hok & Hb).
  - lia.
  - apply size_index. done.
  - rewrite zlen_app. lia.
  - lia.
  - intros i Hi. by apply per_fw_valid.
  - lia.
  - exists (vs ++ trest), vs. rewrite E8 in Hz. split_and!; [done|by apply load_bytes_prefix|done|done| |].
    + rewrite Hb. apply permuted_same; [done|]. intros i Hi. by apply per_fw_valid.
    + rewrite !zlen_app. lia.
Qed.

(** The second half of the byte oriented encoder. *)
Lemma encode_lut_after crc_tb crc_cb input0 parity0 last_cb x rest y pold prest tb cb :
  encode_first crc_tb crc_cb input0 parity0 (size_at j) last_cb =
    Some (blk ++ x :: rest, outs ++ y :: pold ++ prest, tb, cb, s0) -> zlen pold = zlen blk ->
  exists tmp sys par,
    srsran_tcod_encode_lut srsran_tcod_gentable h crc_tb crc_cb input0 parity0 j last_cb =
      Some (3 * size_at j + TOTALTAIL, blk ++ [sys] ++ rest, par ++ prest, mk_tcod (tc_max_long_cb h) tmp, tb, cb) /\
    zlen par = 2 * zlen blk + 1 /\ zlen tmp = zlen (temp h) /\
    bits_of_bytes [sys] = tail_stream t 0 ++ [0; 0; 0; 0] /\
    bits_of_bytes par = (parity_run bits ++ tail_stream t 1) ++ parity_run (permuted_block j bits) ++ tail_stream t 2.
Proof.
  intros Ef Hpold. pose proof (size_range j Hj) as HK. destruct (size_index j Hj) as [_ E0].
  destruct first_run as (Ep & Es & Zo). destruct (interleaved (x :: rest)) as (tmp & ins & Ei & El & Hins & Zins & Bins & Ztmp).
  assert (E8 : size_at j / 8 = zlen blk) by (rewrite <- Hlen, Z.mul_comm; apply Z.div_mul; lia).
  assert (E28 : 2 * size_at j / 8 = 2 * zlen blk).
  { rewrite <- Hlen. replace (2 * (8 * zlen blk)) with (2 * zlen blk * 8) by lia. apply Z.div_mul. lia. }
  destruct (lut_run 0 ins) as [outs2 s1] eqn:R2.
  destruct (lut_run_spec ins 0 outs2 s1 ltac:(lia) Hins R2) as (Er2 & _ & _ & _).
  change (state_regs 0) with regs0 in Er2. rewrite Bins in Er2.
  destruct (encode_second_bits ins (zlen blk) outs 0 pold prest 0 outs2 s1 Hins) as (body & E2 & Zb & Okb & Bb);
    [lia|lia|lia|lia|done|].
  assert (Et : t = rsc_tail NOF_REGS (state_regs s0) ++ rsc_tail NOF_REGS (state_regs s1)).
  { unfold t, tail_bits. by rewrite Es, Er2. }
  assert (Ht : bits_ok t).
  { apply tail_bits_ok; [apply bits_of_bytes_ok|]. rewrite <- Bins. apply bits_of_bytes_ok. }
  destruct (pack4_unpack _ (proj1 (tail_stream_ok t 0 Ht)) eq_refl) as [U0 R0].
  destruct (pack4_unpack _ (proj1 (tail_stream_ok t 1 Ht)) eq_refl) as [U1 R1].
  destruct (pack4_unpack _ (proj1 (tail_stream_ok t 2 Ht)) eq_refl) as [U2 R2'].
  unfold srsran_tcod_encode_lut. destruct (Z.ltb_spec j 188); [|lia]. rewrite cbsize_at by done.
  rewrite E0. cbn [negb Z.eqb]. rewrite Ef. cbn [mbind option_bind]. rewrite E8, E28.
  change (y :: pold ++ prest) with ([y] ++ pold ++ prest).
  rewrite (store_app outs [y] [0]) by (done || lia). cbn [mbind option_bind]. rewrite Ei. cbn [mbind option_bind].
  rewrite El. cbn [mbind option_bind]. change ([0] ++ pold ++ prest) with (16 * 0 :: pold ++ prest). rewrite E2.
  cbn [mbind option_bind]. rewrite <- Et.
  change (x :: rest) with ([x] ++ rest). rewrite (store_app blk [x]) by done. cbn [mbind option_bind].
  set (sys := u8 (Z.shiftl (pack4 (tail_stream t 0)) 4)).
  destruct (put_tail (fun parity => Some (3 * size_at j + TOTALTAIL, blk ++ [sys] ++ rest, parity, mk_tcod (tc_max_long_cb h) tmp, tb, cb))
    outs body prest (zlen blk) _ _ _ Zo ltac:(lia) ltac:(lia) Okb R1 R2' Bb) as (par & Zp & Bp & Ek).
  rewrite Ek. exists tmp, sys, (outs ++ par).
  split_and!; [by rewrite <- app_assoc|rewrite zlen_app; lia|done| |].
  - destruct (nibbles _ 0 R0 ltac:(lia)) as (_ & _ & _ & N1 & N2). unfold sys. rewrite N1.
    unfold bits_of_bytes. cbn [map concat]. rewrite app_nil_r. rewrite Z.add_0_r in N2. by rewrite N2, U0.
  - rewrite bits_of_bytes_app, Ep, Bp, U1, U2. unfold parity_run at 3. rewrite Er2. cbn [fst]. by rewrite <- !app_assoc.
Qed.

End lut.

(** ** Properties *)

Lemma match_byte_codeword n P k c d r :
  byte_crc n P k -> bytes_ok d -> crc_of n P (bits_of_bytes d) = 0 ->
  exists h', srsran_crc_match_byte (crc_obj n P c) (d ++ r) (8 * zlen d - n) = Some (true, h').
Proof.
  intros [(Hn & HP & Ho) _] Hd E. unfold srsran_crc_match_byte. change (order (crc_obj n P c)) with n.
  replace (8 * zlen d - n + n) with (8 * zlen d) by lia.
  destruct (checksum_byte_bits n P Hn HP c d r Hd) as (c' & Ec). rewrite Ec, E. by eexists.
Qed.

(** The first stage for both kinds of block, on any buffers that are large enough. *)
Lemma encode_first_spec nt Pt kt nc Pc kc with_cb last_cb ct c0 data old parity K :
  byte_crc nt Pt kt -> byte_crc nc Pc kc -> bytes_ok data ->
  K = 8 * (zlen data + tb_len kt last_cb + cb_len kc with_cb) -> K < 2 ^ 32 ->
  tb_len kt last_cb + cb_len kc with_cb < zlen old -> 2 * (K / 8) < zlen parity ->
  let blk := coded_block nt Pt nc Pc with_cb last_cb ct data in
  exists outs s x rest y pold prest tb cb,
    lut_run 0 blk = (outs, s) /\ zlen pold = zlen blk /\
    encode_first (crc_obj nt Pt ct) (cb_obj nc Pc with_cb c0) (data ++ old) parity K last_cb =
      Some (blk ++ x :: rest, outs ++ y :: pold ++ prest, crc_obj nt Pt tb, cb_obj nc Pc with_cb cb, s) /\
    tb mod 2 ^ nt = fold_left (feed nt Pt) (bits_of_bytes data) (ct mod 2 ^ nt) /\
    zlen (blk ++ x :: rest) = zlen (data ++ old) /\ zlen (y :: pold ++ prest) = zlen parity - zlen blk.
Proof.
  intros Ht Hc Hd EK HK Hold Hpar blk. pose proof (zlen_nonneg data).
  assert (E8 : K / 8 = zlen data + tb_len kt last_cb + cb_len kc with_cb).
  { rewrite EK, Z.mul_comm. apply Z.div_mul. lia. }
  destruct (coded_block_ok nt Pt kt nc Pc kc Ht Hc with_cb last_cb ct data Hd) as (_ & Zblk & _). fold blk in Zblk.
  assert (Hkt : 0 <= tb_len kt last_cb) by (destruct Ht as [(? & _) ?]; unfold tb_len; destruct last_cb; lia).
  assert (Hkc : 0 <= cb_len kc with_cb) by (destruct Hc as [(? & _) ?]; unfold cb_len; destruct with_cb; lia).
  destruct (split_at old (tb_len kt last_cb)) as (told & old1 & -> & Zt); [lia|]. rewrite zlen_app in Hold.
  destruct (split_at old1 (cb_len kc with_cb)) as (cold & old2 & -> & Zc); [lia|]. rewrite zlen_app in Hold.
  destruct old2 as [|x rest]; [change (zlen []) with 0 in Hold; lia|].
  destruct (split_at parity (zlen data)) as (p1 & par1 & -> & Z1); [lia|]. rewrite zlen_app in Hpar.
  destruct (split_at par1 (tb_len kt last_cb)) as (p2 & par2 & -> & Z2); [lia|]. rewrite zlen_app in Hpar.
  destruct (split_at par2 (cb_len kc with_cb)) as (p3 & par3 & -> & Z3); [lia|]. rewrite zlen_app in Hpar.
  destruct par3 as [|y par4]; [change (zlen []) with 0 in Hpar; lia|]. rewrite zlen_cons in Hpar.
  destruct (split_at par4 (zlen blk)) as (pold & prest & -> & Z4); [lia|].
  destruct with_cb.
  - destruct (encode_first_cb nt Pt kt nc Pc kc Ht Hc last_cb ct c0 data told cold (x :: rest) p1 p2 p3 (y :: pold ++ prest) K)
      as (tb & c & outs & s & R & E & F); try done. exists outs, s, x, rest, y, pold, prest, tb, c. split_and!; try done;
      rewrite ?zlen_app, ?zlen_cons, ?zlen_app; lia.
  - assert (cold = []) as -> by (by apply zlen_0). assert (p3 = []) as -> by (by apply zlen_0).
    destruct (encode_first_tb nt Pt kt nc Pc Ht last_cb ct data told (x :: rest) p1 p2 (y :: pold ++ prest) K)
      as (tb & outs & s & R & E & F); try done; [unfold cb_len in EK; lia|].
    exists outs, s, x, rest, y, pold, prest, tb, 0. split_and!; try done; unfold cb_len in *; rewrite ?zlen_app, ?zlen_cons, ?zlen_app, ?zlen_nil; lia.
Qed.

Lemma size_len_streams j bits :
  0 <= j < 188 -> zlen bits = size_at j ->
  let t := tail_bits bits (permuted_block j bits) in
  zlen (bits ++ tail_stream t 0) = size_at j + 4 /\ zlen (parity_run bits ++ tail_stream t 1) = size_at j + 4 /\
  zlen (parity_run (permuted_block j bits) ++ tail_stream t 2) = size_at j + 4.
Proof.
  intros Hj Hz t. pose proof (size_range j Hj). rewrite !zlen_app.
  assert (T : forall k, zlen (tail_stream t k) = 4) by reflexivity. rewrite !T.
  unfold parity_run, zlen in *. rewrite !rsc_run_length. unfold permuted_block. rewrite length_map, length_seqZ. lia.
Qed.

(** One call of the byte oriented encoder: the code block and its three streams. *)
Lemma encode_lut_spec nt Pt kt nc Pc kc j h with_cb last_cb ct c0 data old parity :
  byte_crc nt Pt kt -> byte_crc nc Pc kc -> 0 <= j < 188 -> bytes_ok data ->
  size_at j = 8 * (zlen data + tb_len kt last_cb + cb_len kc with_cb) ->
  tb_len kt last_cb + cb_len kc with_cb < zlen old -> 2 * (size_at j / 8) < zlen parity ->
  size_at j <= tc_max_long_cb h -> size_at j / 8 <= zlen (temp h) ->
  let blk := coded_block nt Pt nc Pc with_cb last_cb ct data in
  exists input' parity' tmp tb cb O x p1 p2 rest0 rest1,
    srsran_tcod_encode_lut srsran_tcod_gentable h (crc_obj nt Pt ct) (cb_obj nc Pc with_cb c0) (data ++ old) parity j last_cb =
      Some (3 * size_at j + TOTALTAIL, input', parity', mk_tcod (tc_max_long_cb h) tmp, crc_obj nt Pt tb, cb_obj nc Pc with_cb cb) /\
    tb mod 2 ^ nt = fold_left (feed nt Pt) (bits_of_bytes data) (ct mod 2 ^ nt) /\
    zlen input' = zlen (data ++ old) /\ zlen parity' = zlen parity /\ zlen tmp = zlen (temp h) /\
    srsran_tcod_encode srsran_tcod_gentable h (bits_of_bytes blk) (size_at j) = Some (inr O) /\ streams O = (x, p1, p2) /\
    bits_of_bytes input' = x ++ rest0 /\ bits_of_bytes parity' = (p1 ++ p2) ++ rest1 /\
    zlen x = size_at j + 4 /\ zlen p1 = size_at j + 4 /\ zlen p2 = size_at j + 4.
Proof.
  intros Ht Hc Hj Hd EK Hold Hpar Hmax Htemp blk. pose proof (size_range j Hj) as HK.
  destruct (encode_first_spec nt Pt kt nc Pc kc with_cb last_cb ct c0 data old parity (size_at j) Ht Hc Hd EK ltac:(lia) Hold Hpar)
    as (outs & s & x & rest & y & pold & prest & tb & cb & Hrun & Zp & Ef & Ftb & Zi & Zpp).
  destruct (coded_block_ok nt Pt kt nc Pc kc Ht Hc with_cb last_cb ct data Hd) as (Okb & Zb & _ & _). fold blk in Okb, Zb, Hrun, Zp, Ef, Zi, Zpp.
  assert (Hlen : 8 * zlen blk = size_at j) by lia.
  destruct (encode_lut_after j h blk outs s Hj Okb Hlen Hrun Htemp _ _ _ _ _ x rest y pold prest _ _ Ef Zp)
    as (tmp & sys & par & E & Zpar & Ztmp & Bs & Bp).
  destruct (encode_streams j h (bits_of_bytes blk) Hj (bits_of_bytes_ok _)) as (O & EO & ZO & SO);
    [rewrite zlen_bits_of_bytes; done|done|].
  rewrite !zlen_app, ?zlen_cons in Zi. rewrite zlen_cons, zlen_app in Zpp.
  exists (blk ++ [sys] ++ rest), (par ++ prest), tmp, tb, cb, O. do 3 eexists. exists ([0; 0; 0; 0] ++ bits_of_bytes rest), (bits_of_bytes prest).
  pose proof (size_len_streams j (bits_of_bytes blk) Hj ltac:(rewrite zlen_bits_of_bytes; done)) as (L1 & L2 & L3).
  split; [exact E|]. split_and!; [done|rewrite !zlen_app; change (zlen [sys]) with 1; lia|rewrite zlen_app; lia|done|exact EO|exact SO| | |exact L1|exact L2|exact L3].
  - rewrite !bits_of_bytes_app, Bs. by rewrite <- !app_assoc.
  - by rewrite bits_of_bytes_app, Bp.
Qed.

(** C12: the byte oriented turbo encoder with look-up tables, checksums and byte interleaver
    produces exactly the output of the bit by bit encoder on the same code block: for all
    188 block sizes and any data, with or without the checksums, [input] holds the
    systematic stream and [parity] the two parity streams, the tail bits included; the
    code block in [input] carries checksums that pass the checks. *)
Theorem turbo_lut_agrees nt Pt kt nc Pc kc j h with_cb last_cb ct c0 data old parity :
  byte_crc nt Pt kt -> byte_crc nc Pc kc -> 0 <= j < 188 -> bytes_ok data ->
  srsran_cbsegm_cbsize j = 8 * (zlen data + tb_len kt last_cb + cb_len kc with_cb) ->
  tb_len kt last_cb + cb_len kc with_cb < zlen old -> 2 * (srsran_cbsegm_cbsize j / 8) < zlen parity ->
  srsran_cbsegm_cbsize j <= tc_max_long_cb h -> srsran_cbsegm_cbsize j / 8 <= zlen (temp h) ->
  let K := srsran_cbsegm_cbsize j in
  exists input' parity' h' tb cb blk O x p1 p2,
    srsran_tcod_encode_lut srsran_tcod_gentable h (crc_obj nt Pt ct) (cb_obj nc Pc with_cb c0) (data ++ old) parity j last_cb =
      Some (3 * K + TOTALTAIL, input', parity', h', tb, cb) /\
    blk = ztake (K / 8) input' /\ ztake (zlen data) blk = data /\
    srsran_tcod_encode srsran_tcod_gentable h (bits_of_bytes blk) K = Some (inr O) /\
    zlen O = 3 * K + TOTALTAIL /\ streams O = (x, p1, p2) /\
    bits_of_bytes (ztake (K / 8 + 1) input') = x ++ [0; 0; 0; 0] /\
    bits_of_bytes (ztake (2 * (K / 8) + 1) parity') = p1 ++ p2 /\
    (with_cb = true -> exists c, srsran_crc_match_byte (crc_obj nc Pc 0) blk (K - nc) = Some (true, c)) /\
    (last_cb = true -> ct = 0 -> exists c, srsran_crc_match_byte (crc_obj nt Pt 0) blk (8 * zlen data) = Some (true, c)).
Proof.
  intros Ht Hc Hj Hd. rewrite cbsize_at by done. intros EK Hold Hpar Hmax Htemp K. fold K in EK, Hpar, Hmax, Htemp.
  pose proof (size_range j Hj) as HK. fold K in HK.
  destruct (encode_first_spec nt Pt kt nc Pc kc with_cb last_cb ct c0 data old parity K Ht Hc Hd EK ltac:(lia) Hold Hpar)
    as (outs & s & x & rest & y & pold & prest & tb & cb & Hrun & Zp & Ef & _).
  destruct (coded_block_ok nt Pt kt nc Pc kc Ht Hc with_cb last_cb ct data Hd) as (Okb & Zb & Hcb & Htb).
  set (blk := coded_block nt Pt nc Pc with_cb last_cb ct data) in *.
  assert (Hlen : 8 * zlen blk = K) by lia.
  assert (E8 : K / 8 = zlen blk) by (rewrite <- Hlen, Z.mul_comm; apply Z.div_mul; lia).
  destruct (encode_lut_after j h blk outs s Hj Okb Hlen Hrun Htemp _ _ _ _ _ x rest y pold prest _ _ Ef Zp)
    as (tmp & sys & par & E & Zpar & _ & Bs & Bp). fold K in E.
  destruct (encode_streams j h (bits_of_bytes blk) Hj (bits_of_bytes_ok _)) as (O & EO & ZO & SO);
    [rewrite zlen_bits_of_bytes; done|done|]. fold K in EO, ZO.
  exists (blk ++ [sys] ++ rest), (par ++ prest), (mk_tcod (tc_max_long_cb h) tmp), (crc_obj nt Pt tb), (cb_obj nc Pc with_cb cb), blk, O.
  do 3 eexists. split; [exact E|]. rewrite E8.
  split; [symmetry; by apply ztake_app_eq|]. split.
  { unfold blk, coded_block. rewrite <- app_assoc. by apply ztake_app_eq. }
  split; [exact EO|]. split; [exact ZO|]. split; [exact SO|]. split; [|split; [|split]].
  - rewrite app_assoc, ztake_app_eq by (rewrite zlen_app; change (zlen [sys]) with 1; lia).
    by rewrite bits_of_bytes_app, Bs, <- app_assoc.
  - by rewrite ztake_app_eq by lia.
  - intros ->. destruct (match_byte_codeword nc Pc kc 0 blk [] Hc Okb (Hcb eq_refl)) as (c & Em).
    rewrite app_nil_r in Em. exists c. by rewrite <- Hlen.
  - intros -> ->. specialize (Htb eq_refl). destruct Ht as [Hg Hk]. rewrite Z.mod_0_l in Htb by (destruct Hg; lia).
    assert (Okt : bytes_ok (data ++ tb_bytes nt Pt true 0 data)).
    { unfold blk, coded_block in Okb. by apply bytes_ok_app in Okb as [? _]. }
    destruct (match_byte_codeword nt Pt kt 0 _ (cb_bytes nc Pc with_cb (data ++ tb_bytes nt Pt true 0 data)) (mk_byte_crc _ _ _ Hg Hk) Okt Htb)
      as (c & Em). exists c. rewrite <- Em. f_equal. rewrite zlen_app.
    destruct (coded_block_ok nt Pt kt nc Pc kc (mk_byte_crc _ _ _ Hg Hk) Hc false true 0 data Hd) as (_ & Zt & _).
    unfold coded_block, cb_bytes in Zt. rewrite app_nil_r, zlen_app in Zt. unfold tb_len, cb_len in Zt. lia.
Qed.

Lemma crc24_bytes : byte_crc 24 SRSRAN_LTE_CRC24A 3 /\ byte_crc 24 SRSRAN_LTE_CRC24B 3.
Proof. split; (split; [by apply generatorb_spec|done]). Qed.

(** Two bytes in a block of 64 bits with both checksums. *)
Lemma turbo_lut_agrees_witness :
  exists input' parity' h' tb cb O x p1 p2,
    srsran_tcod_encode_lut srsran_tcod_gentable (mk_tcod 64 (replicate 8 0)) (crc_obj 24 SRSRAN_LTE_CRC24A 0)
      (Some (crc_obj 24 SRSRAN_LTE_CRC24B 0)) ([0xAB; 0xCD] ++ replicate 7 0) (replicate 17 0) 3 true =
      Some (204, input', parity', h', tb, cb) /\
    srsran_tcod_encode srsran_tcod_gentable (mk_tcod 64 (replicate 8 0)) (bits_of_bytes (ztake 8 input')) 64 = Some (inr O) /\
    streams O = (x, p1, p2) /\ bits_of_bytes (ztake 9 input') = x ++ [0; 0; 0; 0] /\
    bits_of_bytes (ztake 17 parity') = p1 ++ p2.
Proof.
  destruct (turbo_lut_agrees 24 SRSRAN_LTE_CRC24A 3 24 SRSRAN_LTE_CRC24B 3 3 (mk_tcod 64 (replicate 8 0)) true true 0 0
    [0xAB; 0xCD] (replicate 7 0) (replicate 17 0) (proj1 crc24_bytes) (proj2 crc24_bytes))
    as (input' & parity' & h' & tb & cb & blk & O & x & p1 & p2 & E1 & -> & _ & E2 & _ & E3 & E4 & E5 & _).
  - lia.
  - repeat (apply Forall_cons_2; [unfold is_u8; lia|]). apply Forall_nil_2.
  - reflexivity.
  - reflexivity.
  - reflexivity.
  - vm_compute. discriminate.
  - vm_compute. discriminate.
  - exists input', parity', h', tb, cb, O, x, p1, p2. split_and!; [exact E1|exact E2|exact E3|exact E4|exact E5].
Defined.

(** Freeing one encoder frees the interleavers of all: another one then computes its second
    parity stream from whatever its buffer held. *)
Lemma free_breaks_other_encoders :
  let h := mk_tcod 64 (replicate 8 0) in
  let run t := srsran_tcod_encode_lut t h (crc_obj 24 SRSRAN_LTE_CRC24A 0) None
    ([0xAB; 0xCD; 0xEF; 0x12; 0x34] ++ replicate 4 0) (replicate 17 0) 3 true in
  let t := snd (srsran_tcod_free srsran_tcod_gentable (mk_tcod 64 [])) in
  exists n i p h1 c1 i' p' h2 c2, run srsran_tcod_gentable = Some (n, i, p, h1, c1, None) /\
    run t = Some (n, i', p', h2, c2, None) /\ ztake 8 i = ztake 8 i' /\ ztake 8 p = ztake 8 p' /\ p <> p'.
Proof.
  do 9 eexists. split; [vm_compute; reflexivity|]. split; [vm_compute; reflexivity|].
  split; [reflexivity|]. split; [reflexivity|discriminate].
Qed.
