(* ===== verification/Sequence.v ===== *)
(** * Pseudo-random sequences and scrambling

    [lib/src/phy/common/sequence.c] (portable loops): the two shift registers of 3GPP TS
    36.211 section 7.2 with steps of one and of 24 bits, the states after the first 1600
    steps that are computed in advance, generation and application of the sequence to
    bits, packed bytes, 8- and 16-bit soft bits and floats; [srsran_sequence_t] with its
    arrays; [lib/src/phy/scrambling/scrambling.c] on bits, bytes and soft bits; and the seed
    of the PMCH from [lib/src/phy/phch/sequences.c].

    A float is the 32-bit word that [memcpy] moves.  A function that reads beyond its
    input is undefined, [None]; arrays from [malloc] are zeroed here. *)

From stdpp Require Import base list gmap numbers list_basics list_relations.
From S2P Require Import Prelude BitPack.

Local Open Scope Z_scope.

Definition SEQUENCE_SEED_LEN : Z := 31.
Definition SEQUENCE_NC : nat := 1600.
Definition SEQUENCE_PAR_BITS : Z := 24.
Definition SEQUENCE_MASK : Z := Z.shiftl 1 24 - 1.

Definition i16 (x : Z) : Z := (x + 2 ^ 15) mod 2 ^ 16 - 2 ^ 15.
Definition i8 (x : Z) : Z := (x + 2 ^ 7) mod 2 ^ 8 - 2 ^ 7.

(** ** Shift registers *)

Definition sequence_gen_LTE_pr_memless_step_par_x1 (state : Z) : Z :=
  let f := Z.lxor state (Z.shiftr state 3) in
  let f := u32 (Z.shiftl (Z.land f SEQUENCE_MASK) (SEQUENCE_SEED_LEN - SEQUENCE_PAR_BITS)) in
  Z.lxor (Z.shiftr state SEQUENCE_PAR_BITS) f.

Definition sequence_gen_LTE_pr_memless_step_x1 (state : Z) : Z :=
  let f := Z.lxor state (Z.shiftr state 3) in
  let f := u32 (Z.shiftl (Z.land f 1) (SEQUENCE_SEED_LEN - 1)) in
  Z.lxor (Z.shiftr state 1) f.

Definition sequence_gen_LTE_pr_memless_step_par_x2 (state : Z) : Z :=
  let f := Z.lxor (Z.lxor (Z.lxor state (Z.shiftr state 1)) (Z.shiftr state 2)) (Z.shiftr state 3) in
  let f := u32 (Z.shiftl (Z.land f SEQUENCE_MASK) (SEQUENCE_SEED_LEN - SEQUENCE_PAR_BITS)) in
  Z.lxor (Z.shiftr state SEQUENCE_PAR_BITS) f.

Definition sequence_gen_LTE_pr_memless_step_x2 (state : Z) : Z :=
  let f := Z.lxor (Z.lxor (Z.lxor state (Z.shiftr state 1)) (Z.shiftr state 2)) (Z.shiftr state 3) in
  let f := u32 (Z.shiftl (Z.land f 1) (SEQUENCE_SEED_LEN - 1)) in
  Z.lxor (Z.shiftr state 1) f.

(** The states [srsran_lte_pr_pregen] computes when the program starts. *)
Definition sequence_x1_init : Z := Nat.iter SEQUENCE_NC sequence_gen_LTE_pr_memless_step_x1 1.

Definition sequence_x2_init (i : Z) : Z := Nat.iter SEQUENCE_NC sequence_gen_LTE_pr_memless_step_x2 (u32 (Z.shiftl 1 i)).

Definition sequence_get_x2_init (seed : Z) : Z :=
  fold_left (fun x2 i => if negb (Z.land (Z.shiftr seed i) 1 =? 0) then Z.lxor x2 (sequence_x2_init i) else x2)
    (seqZ 0 SEQUENCE_SEED_LEN) 0.

Record srsran_sequence_state_t := mk_seq { x1 : Z; x2 : Z }.

Definition srsran_sequence_state_init (seed : Z) : srsran_sequence_state_t :=
  mk_seq sequence_x1_init (sequence_get_x2_init seed).

Definition step_par (s : srsran_sequence_state_t) : srsran_sequence_state_t :=
  mk_seq (sequence_gen_LTE_pr_memless_step_par_x1 (x1 s)) (sequence_gen_LTE_pr_memless_step_par_x2 (x2 s)).

Definition step_one (s : srsran_sequence_state_t) : srsran_sequence_state_t :=
  mk_seq (sequence_gen_LTE_pr_memless_step_x1 (x1 s)) (sequence_gen_LTE_pr_memless_step_x2 (x2 s)).

(** ** The loops *)

Section loops.
  Context {A : Type}.
  (** The bodies: of the inner loop, with the word [c] and the bit [j], and of the loop of
      single steps, with the word [x1 ^ x2]. *)
  Variables (par : Z -> Z -> Z -> A) (one : Z -> Z -> A).

Fixpoint par_loop (n : nat) (i : Z) (s : srsran_sequence_state_t) : list A * srsran_sequence_state_t :=
  match n with
  | O => ([], s)
  | S n =>
      let c := Z.lxor (x1 s) (x2 s) in
      let '(out, s) := par_loop n (i + SEQUENCE_PAR_BITS) (step_par s) in
      (map (par i c) (seqZ 0 SEQUENCE_PAR_BITS) ++ out, s)
  end.

Fixpoint one_loop (n : nat) (i : Z) (s : srsran_sequence_state_t) : list A * srsran_sequence_state_t :=
  match n with
  | O => ([], s)
  | S n =>
      let v := one i (Z.lxor (x1 s) (x2 s)) in
      let '(out, s) := one_loop n (i + 1) (step_one s) in
      (v :: out, s)
  end.

(** [for (; i < length - 23; i += 24)], entered when [length >= 24], then [for (; i < length; i++)]. *)
Definition seq_loops (length : Z) (s : srsran_sequence_state_t) : list A * srsran_sequence_state_t :=
  let n := length / SEQUENCE_PAR_BITS in
  let '(out, s) := par_loop (Z.to_nat n) 0 s in
  let i := n * SEQUENCE_PAR_BITS in
  let '(out', s) := one_loop (Z.to_nat (length - i)) i s in
  (out ++ out', s).

End loops.

(** [in[i]], when the first [length] entries exist. *)
Definition at_ (l : list Z) (i : Z) : Z := default 0 (l !! Z.to_nat i).

Definition sequence_gen_LTE_pr (len seed : Z) : list Z :=
  fst (seq_loops (fun _ c j => u8 (Z.land (Z.shiftr c j) 1)) (fun _ x => u8 (Z.land x 1)) len (srsran_sequence_state_init seed)).

Definition FLOAT_U32_XOR (src mask : Z) : Z := Z.lxor src mask.

Definition srsran_sequence_state_gen_f (s : srsran_sequence_state_t) (value length : Z) : list Z * srsran_sequence_state_t :=
  seq_loops (fun _ c j => FLOAT_U32_XOR value (Z.land (u32 (Z.shiftl c (31 - j))) 0x80000000))
    (fun _ x => FLOAT_U32_XOR value (u32 (Z.shiftl x 31))) length s.

Definition srsran_sequence_state_apply_f (s : srsran_sequence_state_t) (in_ : list Z) (length : Z) :
    option (list Z * srsran_sequence_state_t) :=
  if length <=? zlen in_ then
    Some (seq_loops (fun i c j => FLOAT_U32_XOR (at_ in_ (i + j)) (Z.land (u32 (Z.shiftl c (31 - j))) 0x80000000))
      (fun i x => FLOAT_U32_XOR (at_ in_ i) (u32 (Z.shiftl x 31))) length s)
  else None.

Definition srsran_sequence_state_advance (s : srsran_sequence_state_t) (length : Z) : srsran_sequence_state_t :=
  snd (seq_loops (fun _ _ _ => tt) (fun _ _ => tt) length s).

Definition srsran_sequence_apply_f (in_ : list Z) (length seed : Z) : option (list Z) :=
  fst <$> srsran_sequence_state_apply_f (srsran_sequence_state_init seed) in_ length.

(** [s[2]]. *)
Definition sign_of (bit : Z) : Z := if bit =? 0 then 1 else -1.

Definition srsran_sequence_apply_s (in_ : list Z) (length seed : Z) : option (list Z) :=
  if length <=? zlen in_ then
    Some (fst (seq_loops (fun i c j => i16 (at_ in_ (i + j) * sign_of (Z.land (Z.shiftr c j) 1)))
      (fun i x => i16 (at_ in_ i * sign_of (Z.land x 1))) length (srsran_sequence_state_init seed)))
  else None.

Definition srsran_sequence_state_apply_c (s : srsran_sequence_state_t) (in_ : list Z) (length : Z) :
    option (list Z * srsran_sequence_state_t) :=
  if length <=? zlen in_ then
    Some (seq_loops (fun i c j => i8 (at_ in_ (i + j) * sign_of (Z.land (Z.shiftr c j) 1)))
      (fun i x => i8 (at_ in_ i * sign_of (Z.land x 1))) length s)
  else None.

Definition srsran_sequence_apply_c (in_ : list Z) (length seed : Z) : option (list Z) :=
  fst <$> srsran_sequence_state_apply_c (srsran_sequence_state_init seed) in_ length.

Definition srsran_sequence_state_apply_bit (s : srsran_sequence_state_t) (in_ : list Z) (length : Z) :
    option (list Z * srsran_sequence_state_t) :=
  if length <=? zlen in_ then
    Some (seq_loops (fun i c j => u8 (Z.lxor (at_ in_ (i + j)) (Z.land (Z.shiftr c j) 1)))
      (fun i x => u8 (Z.lxor (at_ in_ i) (Z.land x 1))) length s)
  else None.

Definition srsran_sequence_apply_bit (in_ : list Z) (length seed : Z) : option (list Z) :=
  fst <$> srsran_sequence_state_apply_bit (srsran_sequence_state_init seed) in_ length.

(** ** Packed bytes *)

Definition reverse_lut : list Z :=
  [
   0; 128; 64; 192; 32; 160; 96; 224; 16; 144; 80; 208; 48; 176; 112; 240; 8; 136; 72; 200; 40; 168;
   104; 232; 24; 152; 88; 216; 56; 184; 120; 248; 4; 132; 68; 196; 36; 164; 100; 228; 20; 148; 84; 212;
   52; 180; 116; 244; 12; 140; 76; 204; 44; 172; 108; 236; 28; 156; 92; 220; 60; 188; 124; 252; 2; 130;
   66; 194; 34; 162; 98; 226; 18; 146; 82; 210; 50; 178; 114; 242; 10; 138; 74; 202; 42; 170; 106; 234;
   26; 154; 90; 218; 58; 186; 122; 250; 6; 134; 70; 198; 38; 166; 102; 230; 22; 150; 86; 214; 54; 182;
   118; 246; 14; 142; 78; 206; 46; 174; 110; 238; 30; 158; 94; 222; 62; 190; 126; 254; 1; 129; 65; 193;
   33; 161; 97; 225; 17; 145; 81; 209; 49; 177; 113; 241; 9; 137; 73; 201; 41; 169; 105; 233; 25; 153;
   89; 217; 57; 185; 121; 249; 5; 133; 69; 197; 37; 165; 101; 229; 21; 149; 85; 213; 53; 181; 117; 245;
   13; 141; 77; 205; 45; 173; 109; 237; 29; 157; 93; 221; 61; 189; 125; 253; 3; 131; 67; 195; 35; 163;
   99; 227; 19; 147; 83; 211; 51; 179; 115; 243; 11; 139; 75; 203; 43; 171; 107; 235; 27; 155; 91; 219;
   59; 187; 123; 251; 7; 135; 71; 199; 39; 167; 103; 231; 23; 151; 87; 215; 55; 183; 119; 247; 15; 143;
   79; 207; 47; 175; 111; 239; 31; 159; 95; 223; 63; 191; 127; 255].

(** [out[i] = in[i] ^ reverse_lut[idx]]. *)
Definition packed_byte (in_ : list Z) (i idx : Z) : option Z :=
  b ← load in_ i; r ← load reverse_lut idx; Some (Z.lxor b r).

(** The loop over three bytes at a time while [i < bound]; every turn reads [in], so as many
    turns as it has bytes are enough. *)
Fixpoint packed_loop (fuel : nat) (in_ : list Z) (bound i : Z) (s : srsran_sequence_state_t) :
    option (list Z * Z * srsran_sequence_state_t) :=
  if i <? bound then
    match fuel with
    | O => None
    | S fuel =>
        let c := Z.lxor (x1 s) (x2 s) in
        o0 ← packed_byte in_ i (Z.land c 255);
        let c := Z.shiftr c 8 in
        o1 ← packed_byte in_ (i + 1) (Z.land c 255);
        let c := Z.shiftr c 8 in
        o2 ← packed_byte in_ (i + 2) (Z.land c 255);
        '(out, i, s) ← packed_loop fuel in_ bound (i + 3) (step_par s);
        Some ([o0; o1; o2] ++ out, i, s)
    end
  else Some ([], i, s).

(** The spare bytes: [n] of them. *)
Fixpoint spare_loop (n : nat) (in_ : list Z) (i c : Z) : option (list Z * Z * Z) :=
  match n with
  | O => Some ([], i, c)
  | S n =>
      o ← packed_byte in_ i (Z.land c 255);
      '(out, i, c) ← spare_loop n in_ (i + 1) (Z.shiftr c 8);
      Some (o :: out, i, c)
  end.

(** The bytes written to [out]; the bound of the loop wraps for fewer than two bytes. *)
Definition srsran_sequence_apply_packed (in_ : list Z) (length seed : Z) : option (list Z) :=
  let bound := u32 (length / 8 - (SEQUENCE_PAR_BITS - 1) / 8) in
  '(out, i, s) ← packed_loop (S (List.length in_)) in_ bound 0 (srsran_sequence_state_init seed);
  let c := Z.lxor (x1 s) (x2 s) in
  '(out', i, c) ← spare_loop (Z.to_nat (length / 8 - i)) in_ i c;
  let rem8 := length mod 8 in
  if negb (rem8 =? 0) then
    o ← packed_byte in_ i (Z.land (Z.land c (Z.shiftl 1 rem8 - 1)) 255);
    Some (out ++ out' ++ [o])
  else Some (out ++ out').

(** ** Stored sequences *)

Record srsran_sequence_t := mk_sequence {
  c : option (list Z);
  c_bytes : option (list Z);
  c_float : option (list Z);
  c_short : option (list Z);
  c_char : option (list Z);
  cur_len : Z;
  max_len : Z
}.

Definition sequence_zero : srsran_sequence_t := mk_sequence None None None None None 0 0.

Definition srsran_sequence_free (q : srsran_sequence_t) : srsran_sequence_t := sequence_zero.

(** [srsran_vec_*_malloc]. *)
Definition vec_malloc (n : Z) : option (list Z) := Some (replicate (Z.to_nat n) 0).

Definition srsran_sequence_init (q : srsran_sequence_t) (len : Z) : srsran_sequence_t :=
  let q := if negb (bool_decide (c q = None)) && (len >? max_len q) then srsran_sequence_free q else q in
  match c q with
  | Some _ => q
  | None =>
      mk_sequence (vec_malloc len) (vec_malloc (len / 8 + 8)) (vec_malloc len) (vec_malloc len) (vec_malloc len) (cur_len q) len
  end.

Definition srsran_sequence_set_LTE_pr (q : srsran_sequence_t) (len seed : Z) : option (Z * srsran_sequence_t) :=
  if len >? max_len q then Some (-1, q)
  else
    m ← c q;
    m ← store m 0 (sequence_gen_LTE_pr len seed);
    Some (0, mk_sequence (Some m) (c_bytes q) (c_float q) (c_short q) (c_char q) (cur_len q) (max_len q)).

(** [tt] and its conversion to float. *)
Definition signed_of (b : Z) : Z := if b =? 0 then 1 else -1.
Definition float_of_sign (v : Z) : Z := if v <? 0 then 0xBF800000 else 0x3F800000.

(** The arrays [sequence_generate_signed] fills: bytes, shorts and floats. *)
Definition sequence_generate_signed (c_unpacked : list Z) (len : Z) (ch sh fl : list Z) : option (list Z * list Z * list Z) :=
  bits ← load_bytes c_unpacked 0 len;
  let tt := map signed_of bits in
  ch ← store ch 0 tt;
  sh ← store sh 0 tt;
  fl ← store fl 0 (map float_of_sign tt);
  Some (ch, sh, fl).

Definition srsran_sequence_LTE_pr (q : srsran_sequence_t) (len seed : Z) : option (Z * srsran_sequence_t) :=
  let q := srsran_sequence_init q len in
  let q := mk_sequence (c q) (c_bytes q) (c_float q) (c_short q) (c_char q) len (max_len q) in
  '(_, q) ← srsran_sequence_set_LTE_pr q len seed;
  m ← c q;
  packed ← srsran_bit_pack_vector m len;
  by_ ← c_bytes q;
  by_ ← store by_ 0 packed;
  ch ← c_char q; sh ← c_short q; fl ← c_float q;
  '(ch, sh, fl) ← sequence_generate_signed m len ch sh fl;
  Some (0, mk_sequence (Some m) (Some by_) (Some fl) (Some sh) (Some ch) (cur_len q) (max_len q)).

(** ** Scrambling *)

(** [srsran_vec_xor_bbb] in place. *)
Definition scrambling_b (cs data : list Z) (len : Z) : option (list Z) :=
  x ← load_bytes cs 0 len;
  y ← load_bytes data 0 len;
  store data 0 (zip_with Z.lxor x y).

Definition srsran_scrambling_b_offset (s : srsran_sequence_t) (data : list Z) (offset len : Z) : option (list Z) :=
  m ← c s; scrambling_b (zdrop offset m) data len.

Definition srsran_scrambling_b (s : srsran_sequence_t) (data : list Z) : option (list Z) :=
  srsran_scrambling_b_offset s data 0 (cur_len s).

Definition srsran_scrambling_bytes (s : srsran_sequence_t) (data : list Z) (len : Z) : option (list Z) :=
  by_ ← c_bytes s;
  data ← scrambling_b by_ data (len / 8);
  if negb (len mod 8 =? 0) then
    tmp_bits ← srsran_bit_unpack_vector (zdrop (len / 8) data) (len mod 8);
    m ← c s;
    tmp_bits ← scrambling_b (zdrop (8 * (len / 8)) m) tmp_bits (len mod 8);
    packed ← srsran_bit_pack_vector tmp_bits (len mod 8);
    store data (len / 8) packed
  else Some data.

(** [srsran_vec_neg_sss] and [srsran_vec_neg_bbb]: [x] negated where [y] is negative. *)
Definition vec_neg (wrap : Z -> Z) (x y : list Z) : list Z := zip_with (fun a b => if b <? 0 then wrap (- a) else a) x y.

Definition srsran_scrambling_s_offset (s : srsran_sequence_t) (data : list Z) (offset len : Z) : option (list Z) :=
  if len + offset <=? cur_len s then
    sh ← c_short s;
    y ← load_bytes sh offset len;
    x ← load_bytes data 0 len;
    store data 0 (vec_neg i16 x y)
  else None.

Definition srsran_scrambling_s (s : srsran_sequence_t) (data : list Z) : option (list Z) :=
  srsran_scrambling_s_offset s data 0 (cur_len s).

Definition srsran_scrambling_sb_offset (s : srsran_sequence_t) (data : list Z) (offset len : Z) : option (list Z) :=
  if len + offset <=? cur_len s then
    ch ← c_char s;
    y ← load_bytes ch offset len;
    x ← load_bytes data 0 len;
    store data 0 (vec_neg i8 x y)
  else None.

(** ** Seeds *)

Definition sequence_pdsch_seed (rnti q nslot cell_id : Z) : Z :=
  u32 (u32 (u32 (Z.shiftl rnti 14 + Z.shiftl q 13) + u32 (Z.shiftl (nslot / 2) 9)) + cell_id).

Definition srsran_sequence_pdsch (seq : srsran_sequence_t) (rnti q nslot cell_id len : Z) : option (Z * srsran_sequence_t) :=
  srsran_sequence_LTE_pr seq len (sequence_pdsch_seed rnti q nslot cell_id).

Definition srsran_sequence_pmch (seq : srsran_sequence_t) (nslot mbsfn_id len : Z) : option (Z * srsran_sequence_t) :=
  srsran_sequence_LTE_pr sequence_zero len (u32 (u32 (Z.shiftl (nslot / 2) 9) + mbsfn_id)).
