(* ===== verification/SequenceCorrect.v ===== *)
(** * The sequences are those of the standard

    The steps of 24 bits and the states computed in advance give the two recurrences of
    3GPP TS 36.211 section 7.2 after 1600 steps, for every seed; the variants of the
    application on bits, packed bytes and soft bits agree; scrambling is undone by
    scrambling, and by negating the soft bits at the receiver. *)

From stdpp Require Import base list gmap numbers list_basics list_relations.
From S2P Require Import Prelude BitPack Crc Sequence.

Local Open Scope Z_scope.

(** ** Registers *)

(** The recurrences of the two sequences. *)
Definition x1_recurrence (f : Z -> bool) : Prop := forall n, 0 <= n -> f (n + 31) = xorb (f n) (f (n + 3)).
Definition x2_recurrence (f : Z -> bool) : Prop :=
  forall n, 0 <= n -> f (n + 31) = xorb (xorb (xorb (f n) (f (n + 1))) (f (n + 2))) (f (n + 3)).

(** The register holds the 31 elements from [n] on. *)
Definition register (s : Z) (f : Z -> bool) (n : Z) : Prop :=
  0 <= s < 2 ^ 31 /\ forall i, 0 <= i < 31 -> Z.testbit s i = f (n + i).

(** A step of [k] bits with the feedback word [F]. *)
Definition lfsr_step (k F s : Z) : Z := Z.lxor (Z.shiftr s k) (u32 (Z.shiftl (Z.land F (Z.ones k)) (31 - k))).

Lemma feedback_small k F : 1 <= k <= 28 -> 0 <= Z.shiftl (Z.land F (Z.ones k)) (31 - k) < 2 ^ 31.
Proof.
  intros Hk. rewrite Z.land_ones, Z.shiftl_mul_pow2 by lia.
  pose proof (Z.mod_pos_bound F (2 ^ k) ltac:(lia)).
  assert (2 ^ 31 = 2 ^ k * 2 ^ (31 - k)) by (rewrite <- Z.pow_add_r by lia; f_equal; lia).
  assert (0 < 2 ^ (31 - k)) by lia. nia.
Qed.

Lemma lfsr_step_register k F s f n :
  1 <= k <= 28 -> register s f n -> (forall i, 0 <= i < k -> Z.testbit F i = f (n + 31 + i)) ->
  register (lfsr_step k F s) f (n + k).
Proof.
  intros Hk [Hs Hb] HF. pose proof (feedback_small k F Hk) as Hf. unfold lfsr_step.
  rewrite u32_id by (unfold is_u32; lia). split.
  - apply lxor_range; [lia| |done]. rewrite Z.shiftr_div_pow2 by lia. assert (0 < 2 ^ k) by lia.
    split; [apply Z.div_pos; lia|]. apply Z.div_lt_upper_bound; nia.
  - intros i Hi. rewrite Z.lxor_spec, Z.shiftr_spec by lia. destruct (Z.lt_ge_cases i (31 - k)).
    + rewrite Z.shiftl_spec_low, Hb by lia. rewrite xorb_false_r. f_equal. lia.
    + rewrite (testbit_high s 31) by lia. rewrite Z.shiftl_spec, Z.land_spec, Z.ones_spec_low, andb_true_r by lia.
      rewrite HF by lia. simpl. f_equal. lia.
Qed.

Lemma step_x1_lfsr s : sequence_gen_LTE_pr_memless_step_x1 s = lfsr_step 1 (Z.lxor s (Z.shiftr s 3)) s.
Proof. done. Qed.
Lemma step_par_x1_lfsr s : sequence_gen_LTE_pr_memless_step_par_x1 s = lfsr_step 24 (Z.lxor s (Z.shiftr s 3)) s.
Proof. done. Qed.
Lemma step_x2_lfsr s :
  sequence_gen_LTE_pr_memless_step_x2 s =
    lfsr_step 1 (Z.lxor (Z.lxor (Z.lxor s (Z.shiftr s 1)) (Z.shiftr s 2)) (Z.shiftr s 3)) s.
Proof. done. Qed.
Lemma step_par_x2_lfsr s :
  sequence_gen_LTE_pr_memless_step_par_x2 s =
    lfsr_step 24 (Z.lxor (Z.lxor (Z.lxor s (Z.shiftr s 1)) (Z.shiftr s 2)) (Z.shiftr s 3)) s.
Proof. done. Qed.

Lemma feedback_x1 s f n i :
  0 <= n -> x1_recurrence f -> register s f n -> 0 <= i < 28 ->
  Z.testbit (Z.lxor s (Z.shiftr s 3)) i = f (n + 31 + i).
Proof.
  intros Hn Hr [_ Hb] Hi. rewrite Z.lxor_spec, Z.shiftr_spec, !Hb by lia.
  replace (n + 31 + i) with (n + i + 31) by lia. rewrite Hr by lia. f_equal. f_equal. lia.
Qed.

Lemma feedback_x2 s f n i :
  0 <= n -> x2_recurrence f -> register s f n -> 0 <= i < 28 ->
  Z.testbit (Z.lxor (Z.lxor (Z.lxor s (Z.shiftr s 1)) (Z.shiftr s 2)) (Z.shiftr s 3)) i = f (n + 31 + i).
Proof.
  intros Hn Hr [_ Hb] Hi. rewrite !Z.lxor_spec, !Z.shiftr_spec, !Hb by lia.
  replace (n + 31 + i) with (n + i + 31) by lia. rewrite Hr by lia. by rewrite !Z.add_assoc.
Qed.

(** One step and 24 steps at once. *)
Lemma step_x1_register s f n :
  0 <= n -> x1_recurrence f -> register s f n ->
  register (sequence_gen_LTE_pr_memless_step_x1 s) f (n + 1) /\
  register (sequence_gen_LTE_pr_memless_step_par_x1 s) f (n + 24).
Proof.
  intros Hn Hr Hs. rewrite step_x1_lfsr, step_par_x1_lfsr.
  split; (apply lfsr_step_register; [lia|done|]; intros i Hi; apply feedback_x1; (done || lia)).
Qed.

Lemma step_x2_register s f n :
  0 <= n -> x2_recurrence f -> register s f n ->
  register (sequence_gen_LTE_pr_memless_step_x2 s) f (n + 1) /\
  register (sequence_gen_LTE_pr_memless_step_par_x2 s) f (n + 24).
Proof.
  intros Hn Hr Hs. rewrite step_x2_lfsr, step_par_x2_lfsr.
  split; (apply lfsr_step_register; [lia|done|]; intros i Hi; apply feedback_x2; (done || lia)).
Qed.

(** *** Linearity *)

Lemma step_x2_bit s i :
  0 <= i -> Z.testbit (sequence_gen_LTE_pr_memless_step_x2 s) i =
    xorb (Z.testbit s (i + 1))
      ((i =? 30) && xorb (xorb (xorb (Z.testbit s 0) (Z.testbit s 1)) (Z.testbit s 2)) (Z.testbit s 3)).
Proof.
  intros Hi. rewrite step_x2_lfsr. 
  set (F := Z.lxor (Z.lxor (Z.lxor s (Z.shiftr s 1)) (Z.shiftr s 2)) (Z.shiftr s 3)). unfold lfsr_step.
  rewrite u32_id by (pose proof (feedback_small 1 F); unfold is_u32; lia).
  rewrite Z.lxor_spec, Z.shiftr_spec by lia. f_equal. change (31 - 1) with 30.
  destruct (Z.eqb_spec i 30) as [->|Hne]; simpl andb.
  - rewrite Z.shiftl_spec, Z.land_spec by lia. change (Z.testbit (Z.ones 1) (30 - 30)) with true.
    rewrite andb_true_r. unfold F. change (30 - 30) with 0. rewrite !Z.lxor_spec, !Z.shiftr_spec by lia. done.
  - rewrite Z.shiftl_spec, Z.land_spec by lia. destruct (Z.lt_ge_cases i 30).
    + by rewrite (Z.testbit_neg_r F) by lia.
    + by rewrite (Z.ones_spec_high 1), andb_false_r by lia.
Qed.

Lemma step_x2_lxor a b :
  sequence_gen_LTE_pr_memless_step_x2 (Z.lxor a b) =
    Z.lxor (sequence_gen_LTE_pr_memless_step_x2 a) (sequence_gen_LTE_pr_memless_step_x2 b).
Proof.
  apply Z.bits_inj'. intros i Hi. rewrite Z.lxor_spec, !step_x2_bit, !Z.lxor_spec by done.
  destruct (i =? 30); cbn [andb].
  - destruct (Z.testbit a 0), (Z.testbit a 1), (Z.testbit a 2), (Z.testbit a 3), (Z.testbit b 0), (Z.testbit b 1),
      (Z.testbit b 2), (Z.testbit b 3), (Z.testbit a (i + 1)), (Z.testbit b (i + 1)); reflexivity.
  - by rewrite !xorb_false_r.
Qed.

Lemma iter_x2_lxor n a b :
  Nat.iter n sequence_gen_LTE_pr_memless_step_x2 (Z.lxor a b) =
    Z.lxor (Nat.iter n sequence_gen_LTE_pr_memless_step_x2 a) (Nat.iter n sequence_gen_LTE_pr_memless_step_x2 b).
Proof. induction n as [|n IH]; simpl; [done|]. by rewrite IH, step_x2_lxor. Qed.

Lemma iter_x2_0 n : Nat.iter n sequence_gen_LTE_pr_memless_step_x2 0 = 0.
Proof. induction n as [|n IH]; simpl; [done|]. by rewrite IH. Qed.

(** The state of a seed is the sum of the states of its bits. *)
Lemma get_x2_init_prefix seed k :
  Z.of_nat k <= 31 ->
  fold_left (fun x2 i => if negb (Z.land (Z.shiftr seed i) 1 =? 0) then Z.lxor x2 (sequence_x2_init i) else x2)
    (seqZ 0 (Z.of_nat k)) 0 =
  Nat.iter SEQUENCE_NC sequence_gen_LTE_pr_memless_step_x2 (seed mod 2 ^ Z.of_nat k).
Proof.
  induction k as [|k IH]; intros Hk.
  - simpl. rewrite Z.mod_1_r. symmetry. apply (iter_x2_0 SEQUENCE_NC).
  - replace (Z.of_nat (S k)) with (Z.of_nat k + 1) by lia. rewrite seqZ_app, fold_left_app, IH by lia.
    rewrite Z.add_0_l. rewrite (seqZ_cons (Z.of_nat k) 1) by lia. change (seqZ _ (Z.pred 1)) with (@nil Z). cbn [fold_left].
    set (p := Z.of_nat k). rewrite land_1, <- Z.bit0_mod, Z.shiftr_spec, Z.add_0_l by lia.
    assert (E : seed mod 2 ^ (p + 1) = Z.lxor (seed mod 2 ^ p) (Z.b2z (Z.testbit seed p) * 2 ^ p)).
    { rewrite Z.lxor_comm, <- add_low_lxor by (try lia; apply Z.mod_pos_bound; lia).
      rewrite Z.pow_add_r, Z.rem_mul_r by lia. rewrite Z.testbit_spec' by lia. change (2 ^ 1) with 2. lia. }
    rewrite E, iter_x2_lxor. destruct (Z.testbit seed p); simpl Z.b2z.
    + simpl negb. cbv iota. f_equal. unfold sequence_x2_init. do 1 f_equal.
      rewrite Z.shiftl_mul_pow2 by lia. apply u32_id. unfold is_u32.
      assert (2 ^ p < 2 ^ 32) by (apply Z.pow_lt_mono_r; lia). lia.
    + rewrite Z.mul_0_l, (iter_x2_0 SEQUENCE_NC). by rewrite Z.lxor_0_r.
Qed.

Lemma get_x2_init_linear seed :
  sequence_get_x2_init seed = Nat.iter SEQUENCE_NC sequence_gen_LTE_pr_memless_step_x2 (seed mod 2 ^ 31).
Proof. exact (get_x2_init_prefix seed 31 ltac:(lia)). Qed.

(** ** The Gold sequence *)

(** The two sequences of the standard for a seed. *)
Record gold (seed : Z) (f1 f2 : Z -> bool) : Prop := mk_gold {
  gold_x1 : x1_recurrence f1;
  gold_x1_init : forall i, 0 <= i < 31 -> f1 i = (i =? 0);
  gold_x2 : x2_recurrence f2;
  gold_x2_init : forall i, 0 <= i < 31 -> f2 i = Z.testbit seed i
}.

(** The element [n] of the sequence [c(n)]: both run 1600 steps ahead. *)
Definition gold_bit (f1 f2 : Z -> bool) (n : Z) : bool := xorb (f1 (n + 1600)) (f2 (n + 1600)).

(** Both registers are at the element [n] of the sequence. *)
Definition at_element (f1 f2 : Z -> bool) (n : Z) (s : srsran_sequence_state_t) : Prop :=
  0 <= n /\ register (x1 s) f1 (n + 1600) /\ register (x2 s) f2 (n + 1600).

Lemma iter_register (P : (Z -> bool) -> Prop) step s f k :
  (forall s n, 0 <= n -> register s f n -> register (step s) f (n + 1)) ->
  register s f 0 -> register (Nat.iter k step s) f (Z.of_nat k).
Proof.
  intros Hstep Hs. induction k as [|k IH]; simpl Nat.iter; [done|].
  replace (Z.of_nat (S k)) with (Z.of_nat k + 1) by lia. apply Hstep; [lia|done].
Qed.

Lemma init_element seed f1 f2 : gold seed f1 f2 -> at_element f1 f2 0 (srsran_sequence_state_init seed).
Proof.
  intros [H1 I1 H2 I2]. split; [done|]. change (0 + 1600) with (Z.of_nat SEQUENCE_NC).
  unfold srsran_sequence_state_init. cbn [x1 x2]. rewrite get_x2_init_linear. unfold sequence_x1_init. split.
  - apply (iter_register x1_recurrence); [intros s n Hn Hs; by apply step_x1_register|].
    split; [lia|]. intros i Hi. rewrite Z.add_0_l, I1 by lia. destruct (Z.eqb_spec i 0) as [->|]; [done|].
    apply (testbit_high 1 1); lia.
  - apply (iter_register x2_recurrence); [intros s n Hn Hs; by apply step_x2_register|].
    split; [apply Z.mod_pos_bound; lia|]. intros i Hi. by rewrite Z.add_0_l, I2, Z.mod_pow2_bits_low by lia.
Qed.

Section run.
  Variables (f1 f2 : Z -> bool) (seed : Z).
  Hypothesis Hg : gold seed f1 f2.

Lemma element_bit n s j : at_element f1 f2 n s -> 0 <= j < 31 -> Z.testbit (Z.lxor (x1 s) (x2 s)) j = gold_bit f1 f2 (n + j).
Proof.
  intros (_ & [_ H1] & [_ H2]) Hj. rewrite Z.lxor_spec, H1, H2 by done. unfold gold_bit. do 2 f_equal; lia.
Qed.

Lemma step_one_element n s : at_element f1 f2 n s -> at_element f1 f2 (n + 1) (step_one s).
Proof.
  intros (Hn & H1 & H2). split; [lia|]. replace (n + 1 + 1600) with (n + 1600 + 1) by lia.
  split; [apply step_x1_register; [lia|apply Hg|done]|apply step_x2_register; [lia|apply Hg|done]].
Qed.

Lemma step_par_element n s : at_element f1 f2 n s -> at_element f1 f2 (n + 24) (step_par s).
Proof.
  intros (Hn & H1 & H2). split; [lia|]. replace (n + 24 + 1600) with (n + 1600 + 24) by lia.
  split; [apply step_x1_register; [lia|apply Hg|done]|apply step_x2_register; [lia|apply Hg|done]].
Qed.

(** A function whose bodies look at one bit of the sequence each. *)
Section emit.
  Context {A : Type}.
  Variables (par : Z -> Z -> Z -> A) (one : Z -> Z -> A) (emit : Z -> bool -> A).
  Hypotheses (Hpar : forall i c j, 0 <= j < 24 -> par i c j = emit (i + j) (Z.testbit c j))
    (Hone : forall i x, one i x = emit i (Z.testbit x 0)).

Definition emitted (n i len : Z) : list A := map (fun k => emit (i + k) (gold_bit f1 f2 (n + k))) (seqZ 0 len).

Lemma emitted_app n i a b : 0 <= a -> 0 <= b -> emitted n i a ++ emitted (n + a) (i + a) b = emitted n i (a + b).
Proof.
  intros Ha Hb. unfold emitted. rewrite (seqZ_app 0 a b) by lia. rewrite map_app. f_equal.
  rewrite (Z.add_comm 0 a), <- (fmap_add_seqZ a 0), map_map. apply map_ext. intros k. by rewrite !Z.add_assoc.
Qed.

Lemma par_loop_emits m i n s :
  at_element f1 f2 n s ->
  exists s', par_loop par m i s = (emitted n i (24 * Z.of_nat m), s') /\ at_element f1 f2 (n + 24 * Z.of_nat m) s'.
Proof.
  revert i n s. induction m as [|m IH]; intros i n s Hs.
  - exists s. split; [done|]. by rewrite Z.mul_0_r, Z.add_0_r.
  - cbn [par_loop]. destruct (IH (i + 24) (n + 24) (step_par s)) as (s' & E & Hs'); [by apply step_par_element|].
    change SEQUENCE_PAR_BITS with 24. rewrite E. exists s'. split; [|by replace (n + 24 * Z.of_nat (S m)) with (n + 24 + 24 * Z.of_nat m) by lia].
    f_equal. replace (24 * Z.of_nat (S m)) with (24 + 24 * Z.of_nat m) by lia. rewrite <- emitted_app by lia. f_equal.
    apply map_ext_in. intros j [Hj1 Hj2]%list_elem_of_In%elem_of_seqZ. rewrite Hpar by lia. by rewrite (element_bit n) by (done || lia).
Qed.

Lemma one_loop_emits m i n s :
  at_element f1 f2 n s ->
  exists s', one_loop one m i s = (emitted n i (Z.of_nat m), s') /\ at_element f1 f2 (n + Z.of_nat m) s'.
Proof.
  revert i n s. induction m as [|m IH]; intros i n s Hs.
  - exists s. split; [done|]. by rewrite Z.add_0_r.
  - cbn [one_loop]. destruct (IH (i + 1) (n + 1) (step_one s)) as (s' & E & Hs'); [by apply step_one_element|].
    rewrite E. exists s'. split; [|by replace (n + Z.of_nat (S m)) with (n + 1 + Z.of_nat m) by lia].
    f_equal. replace (Z.of_nat (S m)) with (1 + Z.of_nat m) by lia. rewrite <- emitted_app by lia.
    unfold emitted at 2. rewrite (seqZ_cons 0 1) by lia.
    change (seqZ (Z.succ 0) (Z.pred 1)) with (@nil Z). cbn [map app]. rewrite (Z.add_0_r i).
    rewrite Hone. by rewrite (element_bit n) by (done || lia).
Qed.

Lemma seq_loops_emits len n s :
  0 <= len -> at_element f1 f2 n s ->
  exists s', seq_loops par one len s = (emitted n 0 len, s') /\ at_element f1 f2 (n + len) s'.
Proof.
  intros Hl Hs. unfold seq_loops. change SEQUENCE_PAR_BITS with 24.
  pose proof (Z.div_mod len 24 ltac:(lia)) as Hd. pose proof (Z.mod_pos_bound len 24 ltac:(lia)) as Hm.
  pose proof (Z.div_pos len 24 ltac:(lia) ltac:(lia)) as Hp.
  destruct (par_loop_emits (Z.to_nat (len / 24)) 0 n s Hs) as (s1 & -> & H1). rewrite Z2Nat.id in * by lia.
  destruct (one_loop_emits (Z.to_nat (len - len / 24 * 24)) (len / 24 * 24) _ s1 H1) as (s2 & -> & H2). rewrite Z2Nat.id in * by lia.
  exists s2. split; [|by replace (n + len) with (n + 24 * (len / 24) + (len - len / 24 * 24)) by lia].
  f_equal. replace (emitted n 0 len) with (emitted n 0 (24 * (len / 24) + (len - len / 24 * 24))) by (f_equal; lia).
  rewrite <- emitted_app by lia. do 2 f_equal; lia.
Qed.

End emit.
End run.

(** ** Bits *)

Definition gold_bits (f1 f2 : Z -> bool) (n len : Z) : list Z :=
  map (fun k => Z.b2z (gold_bit f1 f2 (n + k))) (seqZ 0 len).

Definition xor_bits (a b : list Z) : list Z := zip_with Z.lxor a b.

Lemma gold_bits_app f1 f2 n a b :
  0 <= a -> 0 <= b -> gold_bits f1 f2 n (a + b) = gold_bits f1 f2 n a ++ gold_bits f1 f2 (n + a) b.
Proof. intros Ha Hb. symmetry. exact (emitted_app f1 f2 (fun _ => Z.b2z) n 0 a b Ha Hb). Qed.

Lemma zlen_gold_bits f1 f2 n len : 0 <= len -> zlen (gold_bits f1 f2 n len) = len.
Proof. intros Hl. unfold gold_bits, zlen. rewrite length_map, length_seqZ. lia. Qed.

Lemma b2z_is_bit b : is_bit (Z.b2z b).
Proof. destruct b; [by right|by left]. Qed.

Lemma gold_bits_ok f1 f2 n len : bits_ok (gold_bits f1 f2 n len).
Proof.
  unfold gold_bits. apply Forall_forall. intros b (k & <- & _)%list_elem_of_In%in_map_iff. apply b2z_is_bit.
Qed.

Lemma shifted_bit c j : 0 <= j -> Z.land (Z.shiftr c j) 1 = Z.b2z (Z.testbit c j).
Proof. intros Hj. by rewrite land_1, <- Z.bit0_mod, Z.shiftr_spec, Z.add_0_l by lia. Qed.

Lemma low_bit x : Z.land x 1 = Z.b2z (Z.testbit x 0).
Proof. by rewrite land_1, <- Z.bit0_mod. Qed.

Lemma u8_b2z b : u8 (Z.b2z b) = Z.b2z b.
Proof. by destruct b. Qed.

(** The elements of a list by index. *)
Lemma map_at l len : 0 <= len <= zlen l -> map (at_ l) (seqZ 0 len) = ztake len l.
Proof.
  intros Hl. apply list_eq. intros i. unfold ztake.
  destruct (Nat.lt_ge_cases i (Z.to_nat len)) as [Hi|Hi].
  - rewrite lookup_take_lt by lia.
    assert (Es : seqZ 0 len !! i = Some (Z.of_nat i)) by (apply lookup_seqZ; lia).
    change (map (at_ l) ?x) with (at_ l <$> x). rewrite list_lookup_fmap, Es. simpl. unfold at_. rewrite Nat2Z.id.
    destruct (lookup_lt_is_Some_2 l i) as [x ->]; [unfold zlen in Hl; lia|done].
  - rewrite (proj2 (lookup_ge_None (take _ _) _)) by (rewrite length_take; lia).
    apply lookup_ge_None. rewrite length_map, length_seqZ. lia.
Qed.

Lemma map_zip {A} (f : Z -> Z -> A) (g h : Z -> Z) l : map (fun k => f (g k) (h k)) l = zip_with f (map g l) (map h l).
Proof. induction l as [|k l IH]; simpl; [done|]. by rewrite IH. Qed.

Section functions.
  Variables (f1 f2 : Z -> bool) (seed : Z).
  Hypothesis Hg : gold seed f1 f2.

(** The generated sequence. *)
Lemma gen_spec len : 0 <= len -> sequence_gen_LTE_pr len seed = gold_bits f1 f2 0 len.
Proof.
  intros Hl. unfold sequence_gen_LTE_pr.
  edestruct (seq_loops_emits f1 f2 seed Hg (fun (_ c j : Z) => u8 (Z.land (Z.shiftr c j) 1)) (fun (_ x : Z) => u8 (Z.land x 1))
    (fun _ => Z.b2z)) as (s' & -> & _); [..|reflexivity].
  - intros i c j Hj. by rewrite shifted_bit, u8_b2z by lia.
  - intros i x. by rewrite low_bit, u8_b2z.
  - done.
  - by apply init_element.
Qed.

(** On bits, one per byte. *)
Lemma apply_bit_spec s n in_ len :
  at_element f1 f2 n s -> bytes_ok in_ -> 0 <= len <= zlen in_ ->
  exists s', srsran_sequence_state_apply_bit s in_ len = Some (xor_bits (ztake len in_) (gold_bits f1 f2 n len), s') /\
    at_element f1 f2 (n + len) s'.
Proof.
  intros Hs Hin Hl. unfold srsran_sequence_state_apply_bit. rewrite (proj2 (Z.leb_le _ _)) by lia.
  edestruct (seq_loops_emits f1 f2 seed Hg
    (fun i c j => u8 (Z.lxor (at_ in_ (i + j)) (Z.land (Z.shiftr c j) 1))) (fun i x => u8 (Z.lxor (at_ in_ i) (Z.land x 1)))
    (fun i b => Z.lxor (at_ in_ i) (Z.b2z b))) as (s' & -> & Hs'); [| |lia|exact Hs|].
  - intros i c j Hj. rewrite shifted_bit by lia. apply u8_id, lxor_range; [lia| |by destruct (Z.testbit c j); simpl; lia].
    unfold at_. destruct (in_ !! _) as [v|] eqn:E; [|simpl; lia]. unfold bytes_ok in Hin. rewrite Forall_lookup in Hin. exact (Hin _ _ E).
  - intros i x. rewrite low_bit. apply u8_id, lxor_range; [lia| |by destruct (Z.testbit x 0); simpl; lia].
    unfold at_. destruct (in_ !! _) as [v|] eqn:E; [|simpl; lia]. unfold bytes_ok in Hin. rewrite Forall_lookup in Hin. exact (Hin _ _ E).
  - exists s'. split; [|exact Hs']. do 2 f_equal. unfold emitted, xor_bits, gold_bits.
    rewrite <- map_at by lia. rewrite <- map_zip. apply map_ext. intros k. by rewrite Z.add_0_l.
Qed.

(** Skipping. *)
Lemma advance_element s n len : at_element f1 f2 n s -> 0 <= len -> at_element f1 f2 (n + len) (srsran_sequence_state_advance s len).
Proof.
  intros Hs Hl. unfold srsran_sequence_state_advance.
  edestruct (seq_loops_emits f1 f2 seed Hg (fun _ _ _ => tt) (fun _ _ => tt) (fun _ _ => tt)) as (s' & -> & Hs');
    [done|done|exact Hl|exact Hs|exact Hs'].
Qed.

(** On soft bits: the sign changes where the sequence is set. *)
Definition signed (wrap : Z -> Z) (n : Z) (vs : list Z) (len : Z) : list Z :=
  zip_with (fun v b => wrap (v * sign_of b)) (ztake len vs) (gold_bits f1 f2 n len).

Lemma apply_c_spec s n in_ len :
  at_element f1 f2 n s -> 0 <= len <= zlen in_ ->
  exists s', srsran_sequence_state_apply_c s in_ len = Some (signed i8 n in_ len, s') /\ at_element f1 f2 (n + len) s'.
Proof.
  intros Hs Hl. unfold srsran_sequence_state_apply_c. rewrite (proj2 (Z.leb_le _ _)) by lia.
  edestruct (seq_loops_emits f1 f2 seed Hg
    (fun i c j => i8 (at_ in_ (i + j) * sign_of (Z.land (Z.shiftr c j) 1))) (fun i x => i8 (at_ in_ i * sign_of (Z.land x 1)))
    (fun i b => i8 (at_ in_ i * sign_of (Z.b2z b)))) as (s' & -> & Hs'); [| |lia|exact Hs|].
  - intros i c j Hj. by rewrite shifted_bit by lia.
  - intros i x. by rewrite low_bit.
  - exists s'. split; [|exact Hs']. do 2 f_equal. unfold emitted, signed, gold_bits.
    rewrite <- map_at by lia. rewrite <- map_zip. apply map_ext. intros k. by rewrite Z.add_0_l.
Qed.

Lemma apply_s_spec in_ len :
  0 <= len <= zlen in_ -> srsran_sequence_apply_s in_ len seed = Some (signed i16 0 in_ len).
Proof.
  intros Hl. unfold srsran_sequence_apply_s. rewrite (proj2 (Z.leb_le _ _)) by lia.
  edestruct (seq_loops_emits f1 f2 seed Hg
    (fun i c j => i16 (at_ in_ (i + j) * sign_of (Z.land (Z.shiftr c j) 1))) (fun i x => i16 (at_ in_ i * sign_of (Z.land x 1)))
    (fun i b => i16 (at_ in_ i * sign_of (Z.b2z b)))) as (s' & -> & _); [| |lia|by apply init_element|].
  - intros i c j Hj. by rewrite shifted_bit by lia.
  - intros i x. by rewrite low_bit.
  - cbn [fst]. f_equal. unfold emitted, signed, gold_bits.
    rewrite <- map_at by lia. rewrite <- map_zip. apply map_ext. intros k. by rewrite Z.add_0_l.
Qed.

(** On floats: the sign bit of the word. *)
Lemma sign_bit_par c j : 0 <= j < 24 -> Z.land (u32 (Z.shiftl c (31 - j))) 0x80000000 = Z.b2z (Z.testbit c j) * 2 ^ 31.
Proof.
  intros Hj. change 0x80000000 with (2 ^ 31). apply Z.bits_inj'. intros k Hk. rewrite Z.land_spec, Z.pow2_bits_eqb by lia.
  unfold u32. destruct (Z.eqb_spec 31 k) as [<-|Hne].
  - rewrite andb_true_r, Z.mod_pow2_bits_low, Z.shiftl_spec by lia. replace (31 - (31 - j)) with j by lia.
    rewrite Z.mul_pow2_bits by lia. by destruct (Z.testbit c j).
  - rewrite andb_false_r, Z.mul_pow2_bits by lia. destruct (Z.testbit c j); simpl Z.b2z; [|by rewrite Z.bits_0].
    destruct (Z.lt_ge_cases k 31); [by rewrite Z.testbit_neg_r by lia|]. symmetry. apply (testbit_high 1 1); lia.
Qed.

Lemma sign_bit_one x : u32 (Z.shiftl x 31) = Z.b2z (Z.testbit x 0) * 2 ^ 31.
Proof.
  unfold u32. rewrite Z.shiftl_mul_pow2 by lia. change (2 ^ 32) with (2 * 2 ^ 31). rewrite Z.mul_mod_distr_r by lia.
  by rewrite Z.bit0_mod.
Qed.

Lemma apply_f_spec s n in_ len :
  at_element f1 f2 n s -> 0 <= len <= zlen in_ ->
  exists s', srsran_sequence_state_apply_f s in_ len =
      Some (zip_with (fun v b => FLOAT_U32_XOR v (b * 2 ^ 31)) (ztake len in_) (gold_bits f1 f2 n len), s') /\
    at_element f1 f2 (n + len) s'.
Proof.
  intros Hs Hl. unfold srsran_sequence_state_apply_f. rewrite (proj2 (Z.leb_le _ _)) by lia.
  edestruct (seq_loops_emits f1 f2 seed Hg
    (fun i c j => FLOAT_U32_XOR (at_ in_ (i + j)) (Z.land (u32 (Z.shiftl c (31 - j))) 0x80000000))
    (fun i x => FLOAT_U32_XOR (at_ in_ i) (u32 (Z.shiftl x 31)))
    (fun i b => FLOAT_U32_XOR (at_ in_ i) (Z.b2z b * 2 ^ 31))) as (s' & -> & Hs'); [| |lia|exact Hs|].
  - intros i c j Hj. by rewrite sign_bit_par by lia.
  - intros i x. by rewrite sign_bit_one.
  - exists s'. split; [|exact Hs']. do 2 f_equal. unfold emitted, gold_bits.
    rewrite <- map_at by lia. rewrite <- map_zip. apply map_ext. intros k. by rewrite Z.add_0_l.
Qed.

Lemma gen_f_spec s n value len :
  at_element f1 f2 n s -> 0 <= len ->
  exists s', srsran_sequence_state_gen_f s value len =
      (map (fun b => FLOAT_U32_XOR value (b * 2 ^ 31)) (gold_bits f1 f2 n len), s') /\ at_element f1 f2 (n + len) s'.
Proof.
  intros Hs Hl. unfold srsran_sequence_state_gen_f.
  edestruct (seq_loops_emits f1 f2 seed Hg
    (fun _ c j => FLOAT_U32_XOR value (Z.land (u32 (Z.shiftl c (31 - j))) 0x80000000))
    (fun _ x => FLOAT_U32_XOR value (u32 (Z.shiftl x 31)))
    (fun _ b => FLOAT_U32_XOR value (Z.b2z b * 2 ^ 31))) as (s' & -> & Hs'); [| |exact Hl|exact Hs|].
  - intros i c j Hj. by rewrite sign_bit_par by lia.
  - intros i x. by rewrite sign_bit_one.
  - exists s'. split; [|exact Hs']. f_equal. unfold emitted, gold_bits. by rewrite map_map.
Qed.

End functions.

(** ** Packed bytes *)

Lemma unpack_lxor a b n : srsran_bit_unpack (Z.lxor a b) n = xor_bits (srsran_bit_unpack a n) (srsran_bit_unpack b n).
Proof.
  unfold srsran_bit_unpack, xor_bits. rewrite <- map_zip. apply map_ext. intros i.
  apply Z.bits_inj'. intros k Hk. rewrite Z.lxor_spec, !Z.land_spec, !Z.shiftr_spec, Z.lxor_spec by lia.
  by destruct (Z.testbit a _), (Z.testbit b _), (Z.testbit 1 k).
Qed.

(** The bits of a byte, the least significant first. *)
Definition lsb_bits (v len : Z) : list Z := map (fun j => Z.b2z (Z.testbit v j)) (seqZ 0 len).

Lemma reverse_table :
  range_forallb 256 (fun v =>
    match load reverse_lut v with
    | Some r => bool_decide (srsran_bit_unpack r 8 = lsb_bits v 8) && (0 <=? r) && (r <? 2 ^ 8)
    | None => false
    end) = true.
Proof. by vm_compute. Qed.

Lemma reverse_spec v : 0 <= v < 256 -> exists r, load reverse_lut v = Some r /\ is_u8 r /\ srsran_bit_unpack r 8 = lsb_bits v 8.
Proof.
  intros Hv. pose proof (range_forallb_spec _ _ reverse_table v Hv) as H. cbv beta in H.
  destruct (load reverse_lut v) as [r|]; [|done]. exists r.
  rewrite !andb_true_iff, Z.leb_le, Z.ltb_lt in H. destruct H as ((H & H0) & H1). apply bool_decide_eq_true in H. done.
Qed.

Lemma packed_byte_bits in_ i v b :
  load in_ i = Some b -> is_u8 b -> 0 <= v < 256 ->
  exists o, packed_byte in_ i v = Some o /\ is_u8 o /\ srsran_bit_unpack o 8 = xor_bits (srsran_bit_unpack b 8) (lsb_bits v 8).
Proof.
  intros E Hb Hv. destruct (reverse_spec v Hv) as (r & Er & Hr & Eb). unfold packed_byte. rewrite E. cbn [mbind option_bind].
  rewrite Er. cbn [mbind option_bind]. exists (Z.lxor b r). split; [done|]. split; [by apply lxor_range|].
  by rewrite unpack_lxor, Eb.
Qed.

Lemma xor_bits_app a1 a2 b1 b2 : zlen a1 = zlen b1 -> xor_bits (a1 ++ a2) (b1 ++ b2) = xor_bits a1 b1 ++ xor_bits a2 b2.
Proof. intros Hl. apply zip_with_app. unfold zlen in Hl. lia. Qed.

Lemma load_zdrop m i b : 0 <= i -> load m i = Some b -> zdrop i m = b :: zdrop (i + 1) m.
Proof.
  intros Hi E. unfold load in E. destruct (Z.ltb_spec i 0); [lia|].
  unfold zdrop. replace (Z.to_nat (i + 1)) with (S (Z.to_nat i)) by lia. exact (drop_S _ _ _ E).
Qed.

Lemma load_in m i : 0 <= i < zlen m -> exists b, load m i = Some b /\ (bytes_ok m -> is_u8 b).
Proof.
  intros Hi. destruct (lookup_lt_is_Some_2 m (Z.to_nat i)) as [b E]; [unfold zlen in Hi; lia|].
  exists b. split; [unfold load; by destruct (Z.ltb_spec i 0); [lia|]|].
  intros Hm. unfold bytes_ok in Hm. rewrite Forall_lookup in Hm. exact (Hm _ _ E).
Qed.

(** The bytes of [in] from [i] on, xored with [g]. *)
Definition xored (in_ : list Z) (i : Z) (out g : list Z) : Prop :=
  bytes_ok out /\ zlen g = 8 * zlen out /\ bits_of_bytes out = xor_bits (bits_of_bytes (ztake (zlen out) (zdrop i in_))) g.

Lemma xored_cons in_ i o out b g1 g :
  0 <= i -> load in_ i = Some b -> is_u8 o -> zlen g1 = 8 -> srsran_bit_unpack o 8 = xor_bits (srsran_bit_unpack b 8) g1 ->
  xored in_ (i + 1) out g -> xored in_ i (o :: out) (g1 ++ g).
Proof.
  intros Hi E Ho Hg1 Eo (Hok & Hl & Hx). pose proof (zlen_nonneg out). split; [by apply Forall_cons_2|]. split.
  - rewrite zlen_app, zlen_cons. lia.
  - rewrite (load_zdrop _ _ _ Hi E), zlen_cons.
    assert (Et : ztake (1 + zlen out) (b :: zdrop (i + 1) in_) = b :: ztake (zlen out) (zdrop (i + 1) in_)).
    { unfold ztake. by replace (Z.to_nat (1 + zlen out)) with (S (Z.to_nat (zlen out))) by lia. }
    rewrite Et. unfold bits_of_bytes in *. cbn [map concat]. rewrite Eo, Hx, xor_bits_app; [done|].
    rewrite zlen_unpack by lia. done.
Qed.

Lemma xored_nil in_ i : xored in_ i [] [].
Proof. split; [constructor|]. by split. Qed.

Section packed.
  Variables (f1 f2 : Z -> bool) (seed : Z) (in_ : list Z).
  Hypotheses (Hg : gold seed f1 f2) (Hin : bytes_ok in_).

(** The eight bits of the word from the bit [k] on. *)
Lemma word_bits n s k :
  at_element f1 f2 n s -> 0 <= k -> k + 8 <= 31 ->
  let v := Z.land (Z.shiftr (Z.lxor (x1 s) (x2 s)) k) 255 in
  0 <= v < 256 /\ lsb_bits v 8 = gold_bits f1 f2 (n + k) 8.
Proof.
  intros Hs Hk Hk8. cbv zeta. change 255 with (Z.ones 8). rewrite Z.land_ones by lia. split; [apply Z.mod_pos_bound; lia|].
  unfold lsb_bits, gold_bits. apply map_ext_in. intros j [Hj1 Hj2]%list_elem_of_In%elem_of_seqZ.
  rewrite Z.mod_pow2_bits_low, Z.shiftr_spec by lia. rewrite (element_bit _ _ n) by (done || lia). do 2 f_equal. lia.
Qed.

(** One byte of [in] with the eight bits of the word from the bit [k] on. *)
Lemma word_byte n s k i :
  at_element f1 f2 n s -> 0 <= k -> k + 8 <= 31 -> 0 <= i < zlen in_ ->
  exists o, packed_byte in_ i (Z.land (Z.shiftr (Z.lxor (x1 s) (x2 s)) k) 255) = Some o /\
    forall out g, xored in_ (i + 1) out g -> xored in_ i (o :: out) (gold_bits f1 f2 (n + k) 8 ++ g).
Proof.
  intros Hs Hk Hk8 Hi. destruct (word_bits n s k Hs Hk Hk8) as [Hv Ev]. destruct (load_in in_ i Hi) as (b & Eb & Hb).
  destruct (packed_byte_bits in_ i _ b Eb (Hb Hin) Hv) as (o & Eo & Ho & Eu). exists o. split; [done|].
  intros out g Hx. eapply xored_cons; [lia|exact Eb|done|by apply zlen_gold_bits|by rewrite Eu, Ev|done].
Qed.

(** The loop stops at the first multiple of three bytes from which no three are left. *)
Lemma packed_loop_spec fuel bound i n s :
  at_element f1 f2 n s -> 0 <= i -> bound + 2 <= zlen in_ -> bound - i <= Z.of_nat fuel ->
  exists m out s', packed_loop fuel in_ bound i s = Some (out, i + 3 * Z.of_nat m, s') /\
    zlen out = 3 * Z.of_nat m /\ (forall out' g, xored in_ (i + 3 * Z.of_nat m) out' g ->
      xored in_ i (out ++ out') (gold_bits f1 f2 n (24 * Z.of_nat m) ++ g)) /\
    at_element f1 f2 (n + 24 * Z.of_nat m) s' /\ bound <= i + 3 * Z.of_nat m /\ (m <> O -> i + 3 * Z.of_nat m < bound + 3).
Proof.
  revert i n s. induction fuel as [|fuel IH]; intros i n s Hs Hi Hb Hf; cbn [packed_loop].
  - destruct (Z.ltb_spec i bound); [lia|]. exists O, [], s. rewrite !Z.mul_0_r, !Z.add_0_r.
    split_and!; try done; lia.
  - destruct (Z.ltb_spec i bound).
    2: { exists O, [], s. rewrite !Z.mul_0_r, !Z.add_0_r. split_and!; try done; lia. }
    rewrite !Z.shiftr_shiftr by lia. change (8 + 8) with 16.
    destruct (word_byte n s 0 i Hs) as (o0 & E0 & X0); [lia..|]. rewrite Z.shiftr_0_r in E0. rewrite E0. cbn [mbind option_bind].
    destruct (word_byte n s 8 (i + 1) Hs) as (o1 & E1 & X1); [lia..|]. rewrite E1. cbn [mbind option_bind].
    destruct (word_byte n s 16 (i + 2) Hs) as (o2 & E2 & X2); [lia..|]. rewrite E2. cbn [mbind option_bind].
    destruct (IH (i + 3) (n + 24) (step_par s)) as (m & out & s' & E & Hz & Hx & Hs' & Hb1 & Hb2);
      [by eapply step_par_element|lia|lia|lia|].
    rewrite E. cbn [mbind option_bind]. exists (S m), ([o0; o1; o2] ++ out), s'.
    replace (i + 3 * Z.of_nat (S m)) with (i + 3 + 3 * Z.of_nat m) by lia.
    replace (n + 24 * Z.of_nat (S m)) with (n + 24 + 24 * Z.of_nat m) by lia.
    split_and!; [done|rewrite zlen_app; change (zlen [o0; o1; o2]) with 3; lia| |done|lia|].
    + intros out' g Hx'. replace (24 * Z.of_nat (S m)) with (8 + (8 + (8 + 24 * Z.of_nat m))) by lia.
      rewrite !gold_bits_app, <- !app_assoc by lia. cbn [app].
      specialize (X0 (o1 :: o2 :: out ++ out')). rewrite Z.add_0_r in X0. apply X0.
      apply X1. replace (i + 1 + 1) with (i + 2) by lia. replace (n + 8 + 8) with (n + 16) by lia.
      apply X2. replace (i + 2 + 1) with (i + 3) by lia. replace (n + 16 + 8) with (n + 24) by lia. by apply Hx.
    + intros _. destruct m as [|m]; [lia|]. assert (S m <> O) by done. lia.
Qed.

(** At most two spare bytes. *)
Lemma spare_loop_spec m k i n s :
  at_element f1 f2 n s -> 0 <= k -> k + 8 * Z.of_nat m <= 23 -> 0 <= i -> i + Z.of_nat m <= zlen in_ ->
  exists out, spare_loop m in_ i (Z.shiftr (Z.lxor (x1 s) (x2 s)) k) =
      Some (out, i + Z.of_nat m, Z.shiftr (Z.lxor (x1 s) (x2 s)) (k + 8 * Z.of_nat m)) /\
    forall out' g, xored in_ (i + Z.of_nat m) out' g ->
      xored in_ i (out ++ out') (gold_bits f1 f2 (n + k) (8 * Z.of_nat m) ++ g).
Proof.
  revert k i. induction m as [|m IH]; intros k i Hs Hk Hk8 Hi Hz; cbn [spare_loop].
  - exists []. rewrite !Z.mul_0_r, !Z.add_0_r. split; [done|]. intros out' g Hx. exact Hx.
  - destruct (word_byte n s k i Hs) as (o & E & X); [lia..|]. rewrite E. cbn [mbind option_bind].
    rewrite Z.shiftr_shiftr by lia. destruct (IH (k + 8) (i + 1) Hs) as (out & E1 & X1); [lia..|].
    rewrite E1. cbn [mbind option_bind]. exists (o :: out).
    replace (i + Z.of_nat (S m)) with (i + 1 + Z.of_nat m) by lia.
    replace (k + 8 * Z.of_nat (S m)) with (k + 8 + 8 * Z.of_nat m) by lia. split; [done|].
    intros out' g Hx. replace (8 * Z.of_nat (S m)) with (8 + 8 * Z.of_nat m) by lia.
    rewrite gold_bits_app, <- app_assoc by lia. cbn [app]. apply X.
    replace (n + k + 8) with (n + (k + 8)) by lia. by apply X1.
Qed.

(** The last byte takes [r] bits of the sequence and keeps its other bits. *)
Lemma rest_byte n s k i r :
  at_element f1 f2 n s -> 0 <= k -> k + 8 <= 31 -> 0 < r < 8 -> 0 <= i < zlen in_ ->
  exists o, packed_byte in_ i (Z.land (Z.land (Z.shiftr (Z.lxor (x1 s) (x2 s)) k) (Z.shiftl 1 r - 1)) 255) = Some o /\
    xored in_ i [o] (gold_bits f1 f2 (n + k) r ++ replicate (Z.to_nat (8 - r)) 0).
Proof.
  intros Hs Hk Hk8 Hr Hi. rewrite Z.shiftl_mul_pow2, Z.mul_1_l by lia.
  replace (2 ^ r - 1) with (Z.ones r) by (rewrite Z.ones_equiv; lia). change 255 with (Z.ones 8).
  set (w := Z.shiftr _ k). rewrite !Z.land_ones by lia.
  assert (H28 : 2 ^ r < 2 ^ 8) by (apply Z.pow_lt_mono_r; lia).
  pose proof (Z.mod_pos_bound w (2 ^ r) ltac:(lia)) as Hw. rewrite (Z.mod_small (w mod 2 ^ r)) by lia.
  destruct (load_in in_ i Hi) as (b & Eb & Hb).
  destruct (packed_byte_bits in_ i (w mod 2 ^ r) b Eb (Hb Hin) ltac:(lia)) as (o & Eo & Ho & Eu).
  exists o. split; [done|].
  assert (El : lsb_bits (w mod 2 ^ r) 8 = gold_bits f1 f2 (n + k) r ++ replicate (Z.to_nat (8 - r)) 0).
  { unfold lsb_bits, gold_bits. replace 8 with (r + (8 - r)) at 1 by lia. rewrite seqZ_app, map_app by lia. f_equal.
    - apply map_ext_in. intros j [Hj1 Hj2]%list_elem_of_In%elem_of_seqZ. rewrite Z.mod_pow2_bits_low by lia.
      unfold w. rewrite Z.shiftr_spec, (element_bit _ _ n) by (done || lia). do 2 f_equal. lia.
    - rewrite <- (length_seqZ (0 + r) (8 - r)).
      rewrite (map_ext_in _ (fun _ => 0)); [generalize (seqZ (0 + r) (8 - r)) as q; intros q; by induction q; [done|simpl; f_equal]|].
      intros j [Hj1 Hj2]%list_elem_of_In%elem_of_seqZ. by rewrite Z.mod_pow2_bits_high by lia. }
  rewrite <- El, <- (app_nil_r (lsb_bits _ 8)).
  eapply xored_cons; [lia|exact Eb|done|done|exact Eu|apply xored_nil].
Qed.

Lemma apply_packed_spec len :
  16 <= len < 2 ^ 32 -> len <= 8 * zlen in_ ->
  exists out, srsran_sequence_apply_packed in_ len seed = Some out /\
    xored in_ 0 out (gold_bits f1 f2 0 len ++ replicate (Z.to_nat (- len mod 8)) 0).
Proof.
  intros Hl Hz. unfold srsran_sequence_apply_packed. change ((SEQUENCE_PAR_BITS - 1) / 8) with 2.
  pose proof (Z.div_mod len 8 ltac:(lia)) as Hd. pose proof (Z.mod_pos_bound len 8 ltac:(lia)) as Hm.
  set (L := len / 8) in *. set (r := len mod 8) in *. rewrite u32_id by (unfold is_u32; lia).
  pose proof (init_element seed f1 f2 Hg) as H0.
  destruct (packed_loop_spec (S (length in_)) (L - 2) 0 0 _ H0) as (m & out & s & E & Zo & X & Hs & B1 & B2);
    [lia|lia|unfold zlen in Hz; lia|].
  rewrite E. cbn [mbind option_bind]. rewrite !Z.add_0_l in *.
  assert (Hd3 : 0 <= L - 3 * Z.of_nat m <= 2).
  { destruct m as [|m]; [lia|]. assert (S m <> O) by done. lia. }
  set (d := L - 3 * Z.of_nat m) in *.
  destruct (spare_loop_spec (Z.to_nat d) 0 (3 * Z.of_nat m) _ s Hs) as (out' & E' & X'); [lia..|].
  rewrite Z.shiftr_0_r, Z2Nat.id in * by lia. rewrite E'. cbn [mbind option_bind].
  replace (3 * Z.of_nat m + d) with L in * by (unfold d; lia). rewrite Z.add_0_l, Z.add_0_r in *.
  assert (EL : gold_bits f1 f2 0 (8 * L) = gold_bits f1 f2 0 (24 * Z.of_nat m) ++ gold_bits f1 f2 (24 * Z.of_nat m) (8 * d)).
  { replace (8 * L) with (24 * Z.of_nat m + 8 * d) by (unfold d; lia). by rewrite gold_bits_app by lia. }
  destruct (Z.eqb_spec r 0) as [Er|Er]; cbn [negb].
  - exists (out ++ out'). split; [done|].
    replace (- len mod 8) with 0 by (replace (- len) with (- L * 8) by lia; symmetry; apply Z.mod_mul; lia).
    replace len with (8 * L) by lia. rewrite EL, <- app_assoc, <- (app_nil_r out'). apply X, X', xored_nil.
  - destruct (rest_byte (24 * Z.of_nat m) s (8 * d) L r Hs) as (o & Eo & Xo); [lia..|]. rewrite Eo. cbn [mbind option_bind].
    exists (out ++ out' ++ [o]). split; [done|].
    replace (- len mod 8) with (8 - r) by (replace (- len) with (8 - r + (- L - 1) * 8) by lia; rewrite Z.mod_add, Z.mod_small; lia).
    replace len with (8 * L + r) by lia. rewrite gold_bits_app, EL, <- !app_assoc by lia.
    replace (0 + 8 * L) with (24 * Z.of_nat m + 8 * d) by (unfold d; lia). by apply X, X'.
Qed.

End packed.

(** ** Stored sequences *)

(** Nothing allocated, or all arrays with their sizes. *)
Definition seq_ok (q : srsran_sequence_t) : Prop :=
  c q = None \/
  exists m by_ fl sh ch, c q = Some m /\ c_bytes q = Some by_ /\ c_float q = Some fl /\ c_short q = Some sh /\ c_char q = Some ch /\
    0 <= max_len q /\ zlen m = max_len q /\ zlen by_ = max_len q / 8 + 8 /\ zlen fl = max_len q /\ zlen sh = max_len q /\
    zlen ch = max_len q.

(** The arrays hold [len] elements of the sequence. *)
Definition holds_sequence (f1 f2 : Z -> bool) (q : srsran_sequence_t) (len : Z) : Prop :=
  exists r1 p r2 r3 r4 r5, c q = Some (gold_bits f1 f2 0 len ++ r1) /\ c_bytes q = Some (p ++ r2) /\
    bits_of_bytes p = gold_bits f1 f2 0 len ++ replicate (Z.to_nat (- len mod 8)) 0 /\ bytes_ok p /\
    c_short q = Some (map signed_of (gold_bits f1 f2 0 len) ++ r3) /\ c_char q = Some (map signed_of (gold_bits f1 f2 0 len) ++ r4) /\
    c_float q = Some (map float_of_sign (map signed_of (gold_bits f1 f2 0 len)) ++ r5) /\ cur_len q = len.

Lemma store_prefix (m l : list Z) : zlen l <= zlen m -> exists r, store m 0 l = Some (l ++ r) /\ zlen (l ++ r) = zlen m.
Proof.
  intros Hl. pose proof (zlen_nonneg l). exists (zdrop (zlen l) m). rewrite store_Some by lia. rewrite ztake_0. split; [done|].
  rewrite zlen_app, zlen_zdrop by lia. lia.
Qed.

Lemma zlen_map {A B} (f : A -> B) l : zlen (map f l) = zlen l.
Proof. unfold zlen. by rewrite length_map. Qed.

Lemma zlen_malloc n : 0 <= n -> zlen (replicate (Z.to_nat n) 0) = n.
Proof. intros Hn. unfold zlen. rewrite length_replicate. lia. Qed.

(** The initialisation leaves arrays that are large enough. *)
Lemma init_arrays q len :
  seq_ok q -> 0 <= len -> let q' := srsran_sequence_init q len in seq_ok q' /\ c q' <> None /\ len <= max_len q'.
Proof.
  intros Hq Hl. unfold srsran_sequence_init.
  assert (Hfresh : forall cur, let q' := mk_sequence (vec_malloc len) (vec_malloc (len / 8 + 8)) (vec_malloc len) (vec_malloc len) (vec_malloc len) cur len in
    seq_ok q' /\ c q' <> None /\ len <= max_len q').
  { intros cur. cbv zeta. split; [|split; [done|cbn [max_len]; lia]]. right. do 5 eexists. unfold vec_malloc.
    cbn [c c_bytes c_float c_short c_char max_len].
    assert (0 <= len / 8) by (apply Z.div_pos; lia). split_and!; try done; apply zlen_malloc; lia. }
  destruct Hq as [E|(m & by_ & fl & sh & ch & E & H)].
  - rewrite E. cbn [negb andb]. rewrite bool_decide_true by done. cbn [negb andb]. rewrite E. apply Hfresh.
  - rewrite E. rewrite bool_decide_false by done. cbn [negb andb]. destruct (Z.gtb_spec len (max_len q)); [apply Hfresh|].
    rewrite E. split; [right; exists m, by_, fl, sh, ch; done|]. split; [by rewrite E|lia].
Qed.

Lemma LTE_pr_stores f1 f2 seed q len :
  gold seed f1 f2 -> seq_ok q -> 0 <= len ->
  exists q', srsran_sequence_LTE_pr q len seed = Some (0, q') /\ holds_sequence f1 f2 q' len /\ seq_ok q'.
Proof.
  intros Hg Hq Hl. destruct (init_arrays q len Hq Hl) as ([E|(m & by_ & fl & sh & ch & E1 & E2 & E3 & E4 & E5 & Hm0 & Z1 & Z2 & Z3 & Z4 & Z5)] & Hc & Hm);
    [done|].
  unfold srsran_sequence_LTE_pr, srsran_sequence_set_LTE_pr. set (q1 := srsran_sequence_init q len) in *.
  cbn [c c_bytes c_float c_short c_char cur_len max_len]. destruct (Z.gtb_spec len (max_len q1)); [lia|].
  rewrite E1, E2, E3, E4, E5. cbn [mbind option_bind]. rewrite (gen_spec f1 f2 seed Hg len Hl).
  pose proof (zlen_gold_bits f1 f2 0 len Hl) as Zg. set (g := gold_bits f1 f2 0 len) in *.
  destruct (store_prefix m g ltac:(lia)) as (r1 & -> & Zr1). cbn [mbind option_bind c c_bytes c_float c_short c_char cur_len max_len].
  destruct (pack_vector_bits g r1 (gold_bits_ok _ _ _ _)) as (p & Ep & Okp & Zp & Bp). rewrite Zg in *. rewrite Ep. cbn [mbind option_bind].
  assert (Hp : zlen p <= zlen by_).
  { rewrite Zp, Z2. assert (len / 8 <= max_len q1 / 8) by (apply Z.div_le_mono; lia).
    replace (len + 7) with (len - 1 + 1 * 8) by lia. rewrite Z.div_add by lia.
    assert ((len - 1) / 8 <= len / 8) by (apply Z.div_le_mono; lia). lia. }
  destruct (store_prefix by_ p Hp) as (r2 & -> & Zr2). cbn [mbind option_bind].
  unfold sequence_generate_signed. rewrite load_bytes_prefix by done. cbn [mbind option_bind].
  destruct (store_prefix ch (map signed_of g)) as (r4 & -> & Zr4); [rewrite zlen_map; lia|]. cbn [mbind option_bind].
  destruct (store_prefix sh (map signed_of g)) as (r3 & -> & Zr3); [rewrite zlen_map; lia|]. cbn [mbind option_bind].
  destruct (store_prefix fl (map float_of_sign (map signed_of g))) as (r5 & -> & Zr5); [rewrite !zlen_map; lia|]. cbn [mbind option_bind].
  eexists. split; [reflexivity|]. split.
  - exists r1, p, r2, r3, r4, r5. cbn. done.
  - right. do 5 eexists. cbn [c c_bytes c_float c_short c_char cur_len max_len]. split_and!; try done; lia.
Qed.

(** ** The sequences exist *)

Lemma step_x1_bit s i :
  0 <= i -> Z.testbit (sequence_gen_LTE_pr_memless_step_x1 s) i =
    xorb (Z.testbit s (i + 1)) ((i =? 30) && xorb (Z.testbit s 0) (Z.testbit s 3)).
Proof.
  intros Hi. rewrite step_x1_lfsr. set (F := Z.lxor s (Z.shiftr s 3)). unfold lfsr_step.
  rewrite u32_id by (pose proof (feedback_small 1 F); unfold is_u32; lia).
  rewrite Z.lxor_spec, Z.shiftr_spec by lia. f_equal. change (31 - 1) with 30.
  destruct (Z.eqb_spec i 30) as [->|Hne]; cbn [andb].
  - rewrite Z.shiftl_spec, Z.land_spec by lia. change (Z.testbit (Z.ones 1) (30 - 30)) with true.
    rewrite andb_true_r. unfold F. change (30 - 30) with 0. rewrite !Z.lxor_spec, !Z.shiftr_spec by lia. done.
  - rewrite Z.shiftl_spec, Z.land_spec by lia. destruct (Z.lt_ge_cases i 30).
    + by rewrite (Z.testbit_neg_r F) by lia.
    + by rewrite (Z.ones_spec_high 1), andb_false_r by lia.
Qed.

Section exists_.
  Variables (step : Z -> Z) (fb : Z -> bool) (s0 : Z).
  Hypotheses (Hbit : forall s i, 0 <= i -> Z.testbit (step s) i = xorb (Z.testbit s (i + 1)) ((i =? 30) && fb s))
    (H0 : forall i, 31 <= i -> Z.testbit s0 i = false).

Definition run (n : Z) : Z := Nat.iter (Z.to_nat n) step s0.
Definition output_bit (n : Z) : bool := Z.testbit (run n) 0.

Lemma run_S n : 0 <= n -> run (n + 1) = step (run n).
Proof. intros Hn. unfold run. by replace (Z.to_nat (n + 1)) with (S (Z.to_nat n)) by lia. Qed.

Lemma run_high n i : 0 <= n -> 31 <= i -> Z.testbit (run n) i = false.
Proof.
  intros Hn. revert i. pattern n. apply natlike_ind; [done| |done]. clear n Hn. intros n Hn IH i Hi.
  change (Z.succ n) with (n + 1). rewrite run_S, Hbit, IH by lia. destruct (Z.eqb_spec i 30); [lia|done].
Qed.

Lemma run_shift i n : 0 <= i <= 30 -> 0 <= n -> Z.testbit (run n) i = output_bit (n + i).
Proof.
  intros [Hi Hi30]. revert n Hi30. pattern i. apply natlike_ind; [| |done].
  - intros n _ Hn. by rewrite Z.add_0_r.
  - clear i Hi. intros i Hi IH n Hi30 Hn. replace (n + Z.succ i) with (n + 1 + i) by lia.
    rewrite <- IH by lia. rewrite run_S, Hbit by lia. change (Z.succ i) with (i + 1).
    destruct (Z.eqb_spec i 30); [lia|]. simpl. by rewrite xorb_false_r.
Qed.

Lemma output_feedback n : 0 <= n -> output_bit (n + 31) = fb (run n).
Proof.
  intros Hn. replace (n + 31) with (n + 1 + 30) by lia. rewrite <- run_shift by lia. rewrite run_S, Hbit by lia.
  by rewrite (run_high n) by lia.
Qed.

End exists_.

(** For every seed there are such sequences, so the statements below say something. *)
Lemma gold_exists seed : exists f1 f2, gold seed f1 f2.
Proof.
  exists (output_bit sequence_gen_LTE_pr_memless_step_x1 1), (output_bit sequence_gen_LTE_pr_memless_step_x2 (seed mod 2 ^ 31)).
  assert (A1 : forall i, 31 <= i -> Z.testbit 1 i = false) by (intros i Hi; apply (testbit_high 1 1); lia).
  assert (A2 : forall i, 31 <= i -> Z.testbit (seed mod 2 ^ 31) i = false) by (intros i Hi; apply Z.mod_pow2_bits_high; lia).
  split.
  - intros n Hn. rewrite (output_feedback _ _ 1 step_x1_bit A1) by done.
    rewrite !(run_shift _ _ 1 step_x1_bit) by lia. by rewrite Z.add_0_r.
  - intros i Hi. rewrite <- (Z.add_0_l i) at 1. rewrite <- (run_shift _ _ 1 step_x1_bit) by lia. cbn.
    destruct (Z.eqb_spec i 0) as [->|]; [done|]. apply (testbit_high 1 1); lia.
  - intros n Hn. rewrite (output_feedback _ _ _ step_x2_bit A2) by done.
    rewrite !(run_shift _ _ _ step_x2_bit) by lia. by rewrite Z.add_0_r.
  - intros i Hi. rewrite <- (Z.add_0_l i) at 1. rewrite <- (run_shift _ _ _ step_x2_bit) by lia.
    change (run _ (seed mod 2 ^ 31) 0) with (seed mod 2 ^ 31). by rewrite Z.mod_pow2_bits_low by lia.
Qed.

(** ** Scrambling *)

Lemma bits_of_xored x y : length x = length y -> bits_of_bytes (zip_with Z.lxor x y) = xor_bits (bits_of_bytes x) (bits_of_bytes y).
Proof.
  revert y. induction x as [|a x IH]; intros [|b y] Hl; try done. unfold bits_of_bytes in *. cbn [zip_with map concat].
  rewrite unpack_lxor, IH by (simpl in Hl; lia). symmetry. by apply xor_bits_app.
Qed.

Lemma xored_bytes_ok x y : bytes_ok x -> bytes_ok y -> bytes_ok (zip_with Z.lxor x y).
Proof.
  intros Hx. revert y. induction Hx as [|a x Ha Hx IH]; intros y Hy; [constructor|].
  destruct Hy as [|b y Hb Hy]; [constructor|]. cbn [zip_with]. apply Forall_cons_2; [by apply lxor_range|by apply IH].
Qed.

Lemma zlen_zip x y : zlen x = zlen y -> zlen (zip_with Z.lxor x y) = zlen x.
Proof. unfold zlen. intros Hl. rewrite length_zip_with. lia. Qed.

(** [scrambling_b] on memory that starts with the data. *)
Lemma scrambling_b_spec cs1 cs2 d1 d2 len :
  zlen cs1 = len -> zlen d1 = len -> scrambling_b (cs1 ++ cs2) (d1 ++ d2) len = Some (zip_with Z.lxor cs1 d1 ++ d2).
Proof.
  intros Hc Hd. unfold scrambling_b. rewrite !load_bytes_prefix by done. cbn [mbind option_bind].
  pose proof (zlen_nonneg d1). pose proof (zlen_nonneg d2).
  rewrite store_Some by (rewrite ?zlen_app, ?zlen_zip; lia). rewrite ztake_0. f_equal.
  rewrite zlen_zip by lia. rewrite zdrop_app_eq by lia. done.
Qed.

Lemma split_list (m : list Z) n : 0 <= n <= zlen m -> exists a b, m = a ++ b /\ zlen a = n.
Proof.
  intros Hn. exists (ztake n m), (zdrop n m). split; [symmetry; apply ztake_zdrop|by apply zlen_ztake].
Qed.

(** The first whole bytes of the packed sequence. *)
Lemma bytes_prefix_bits f1 f2 p len L :
  bits_of_bytes p = gold_bits f1 f2 0 len ++ replicate (Z.to_nat (- len mod 8)) 0 -> 0 <= L -> 8 * L <= len ->
  exists p1 p2, p = p1 ++ p2 /\ zlen p1 = L /\ bits_of_bytes p1 = gold_bits f1 f2 0 (8 * L).
Proof.
  intros Hb HL Hl. assert (Hz : zlen (bits_of_bytes p) = 8 * zlen p) by apply zlen_bits_of_bytes.
  rewrite Hb, zlen_app, zlen_gold_bits in Hz by lia. pose proof (zlen_nonneg (replicate (Z.to_nat (- len mod 8)) 0)).
  destruct (split_list p L) as (p1 & p2 & -> & Z1); [lia|]. exists p1, p2. split_and!; [done|done|].
  rewrite bits_of_bytes_app in Hb. replace len with (8 * L + (len - 8 * L)) in Hb at 1 by lia.
  rewrite gold_bits_app, <- app_assoc in Hb by lia. apply app_inj_1 in Hb as [Hb _]; [done|].
  assert (Ez : zlen (bits_of_bytes p1) = zlen (gold_bits f1 f2 0 (8 * L))) by (rewrite zlen_bits_of_bytes, zlen_gold_bits; lia).
  unfold zlen in Ez. lia.
Qed.

Lemma xor_bits_comm a b : xor_bits a b = xor_bits b a.
Proof.
  unfold xor_bits. revert b. induction a as [|x a IH]; intros [|y b]; try done. cbn [zip_with]. by rewrite IH, Z.lxor_comm.
Qed.

Lemma xor_bits_ok a b : bits_ok a -> bits_ok b -> bits_ok (xor_bits a b).
Proof.
  intros Ha. revert b. induction Ha as [|x a Hx Ha IH]; intros b Hb; [constructor|].
  destruct Hb as [|y b Hy Hb]; [constructor|]. cbn [xor_bits zip_with]. apply Forall_cons_2; [|by apply IH].
  destruct Hx as [-> | ->], Hy as [-> | ->]; unfold is_bit; auto.
Qed.

Lemma xor_bits_twice a b : zlen a = zlen b -> xor_bits (xor_bits a b) b = a.
Proof.
  unfold xor_bits. revert b. induction a as [|x a IH]; intros [|y b] Hl; try done.
  rewrite !zlen_cons in Hl. cbn [zip_with]. rewrite IH by lia. by rewrite Z.lxor_assoc, Z.lxor_nilpotent, Z.lxor_0_r.
Qed.

(** The bits of a partial byte, scrambled and packed again. *)
Lemma partial_byte g b d3 r :
  0 < r < 8 -> bits_ok g -> zlen g = r -> is_u8 b ->
  exists bits x, srsran_bit_unpack_vector (b :: d3) r = Some bits /\ srsran_bit_unpack b 8 = bits ++ srsran_bit_unpack b (8 - r) /\
    zlen bits = r /\ srsran_bit_pack_vector (zip_with Z.lxor g bits) r = Some [x] /\ is_u8 x /\
    exists z, srsran_bit_unpack x 8 = xor_bits bits g ++ z.
Proof.
  intros Hr Hg Hz Hb. exists (srsran_bit_unpack (Z.shiftr b (8 - r)) r).
  set (bits := srsran_bit_unpack _ r). assert (Zb : zlen bits = r) by (apply zlen_unpack; lia).
  assert (Okx : bits_ok (xor_bits g bits)) by (apply xor_bits_ok; [done|apply unpack_bits_ok]).
  assert (Zx : zlen (xor_bits g bits) = r) by (unfold xor_bits; rewrite zlen_zip; lia).
  destruct (pack_vector_bits (xor_bits g bits) [] Okx) as (p & Ep & Okp & Zp & Bp). rewrite app_nil_r, Zx in *.
  assert (Z1 : zlen p = 1) by (rewrite Zp; replace (r + 7) with (r - 1 + 1 * 8) by lia; rewrite Z.div_add, Z.div_small; lia).
  destruct p as [|x [|y p]]; [done| |rewrite !zlen_cons in Z1; pose proof (zlen_nonneg p); lia].
  exists x. split_and!.
  - unfold srsran_bit_unpack_vector. rewrite Z.div_small, Z.mod_small by lia. cbn [bit_unpack_bytes Z.to_nat mbind option_bind].
    destruct (Z.eqb_spec r 0); [lia|done].
  - replace 8 with (r + (8 - r)) at 1 by lia. by rewrite unpack_split by lia.
  - done.
  - exact Ep.
  - by apply Forall_cons in Okp as [? _].
  - eexists. rewrite xor_bits_comm. rewrite <- Bp. unfold bits_of_bytes. cbn [map concat]. by rewrite app_nil_r.
Qed.

Lemma scrambling_bytes_spec f1 f2 q N data len :
  holds_sequence f1 f2 q N -> bytes_ok data -> 0 <= len <= N -> len <= 8 * zlen data ->
  exists data', srsran_scrambling_bytes q data len = Some data' /\ bytes_ok data' /\ zlen data' = zlen data /\
    ztake len (bits_of_bytes data') = xor_bits (ztake len (bits_of_bytes data)) (gold_bits f1 f2 0 len) /\
    zdrop ((len + 7) / 8) data' = zdrop ((len + 7) / 8) data.
Proof.
  intros (r1 & p & r2 & r3 & r4 & r5 & Ec & Eb & Bp & Okp & _) Hd Hl Hz.
  pose proof (Z.div_mod len 8 ltac:(lia)) as Hdm. pose proof (Z.mod_pos_bound len 8 ltac:(lia)) as Hm.
  pose proof (Z.div_pos len 8 ltac:(lia) ltac:(lia)) as HL0. set (L := len / 8) in *. set (r := len mod 8) in *.
  destruct (bytes_prefix_bits f1 f2 p N L Bp HL0 ltac:(lia)) as (p1 & p2 & -> & Zp & Bp1).
  destruct (split_list data L) as (d1 & d2 & -> & Zd); [lia|]. rewrite zlen_app in Hz. apply bytes_ok_app in Hd as [Hd1 Hd2].
  apply bytes_ok_app in Okp as [Okp1 _].
  unfold srsran_scrambling_bytes. rewrite Eb. cbn [mbind option_bind]. fold L. rewrite <- app_assoc, scrambling_b_spec by done.
  cbn [mbind option_bind]. fold r. set (z := zip_with Z.lxor p1 d1).
  assert (Zz : zlen z = L) by (unfold z; rewrite zlen_zip; lia). assert (Okz : bytes_ok z) by (by apply xored_bytes_ok).
  assert (Bz : bits_of_bytes z = xor_bits (bits_of_bytes d1) (gold_bits f1 f2 0 (8 * L))).
  { unfold z. rewrite bits_of_xored, Bp1 by (unfold zlen in *; lia). apply xor_bits_comm. }
  assert (Zbz : zlen (bits_of_bytes z) = 8 * L) by (rewrite zlen_bits_of_bytes; lia).
  assert (Zbd : zlen (bits_of_bytes d1) = 8 * L) by (rewrite zlen_bits_of_bytes; lia).
  destruct (Z.eqb_spec r 0) as [Er|Er]; cbn [negb].
  - exists (z ++ d2). assert (E8 : (len + 7) / 8 = L) by (symmetry; apply Z.div_unique with 7; lia).
    assert (El : len = 8 * L) by lia. rewrite !bits_of_bytes_app, E8, El.
    split_and!; [done|by apply bytes_ok_app|rewrite !zlen_app; lia| |by rewrite !zdrop_app_eq by lia].
    by rewrite !ztake_app_eq by lia.
  - destruct d2 as [|b d3]; [change (zlen []) with 0 in Hz; lia|]. apply Forall_cons in Hd2 as [Hb Hd3].
    assert (Eg : gold_bits f1 f2 0 N = gold_bits f1 f2 0 (8 * L) ++ gold_bits f1 f2 (8 * L) r ++ gold_bits f1 f2 len (N - len)).
    { assert (EN : N = 8 * L + (r + (N - len))) by lia. rewrite EN at 1. rewrite !gold_bits_app, Z.add_0_l by lia.
      do 3 f_equal. lia. }
    set (g := gold_bits f1 f2 (8 * L) r) in *. assert (Zg : zlen g = r) by (apply zlen_gold_bits; lia).
    destruct (partial_byte g b d3 r ltac:(lia) (gold_bits_ok _ _ _ _) Zg Hb) as (bits & x & E1 & E2 & Zb & E3 & Hx & y & E4).
    rewrite zdrop_app_eq by done. rewrite E1. cbn [mbind option_bind]. rewrite Ec, Eg, <- app_assoc. cbn [mbind option_bind].
    rewrite zdrop_app_eq by (apply zlen_gold_bits; lia). rewrite <- app_assoc.
    pose proof (scrambling_b_spec g (gold_bits f1 f2 len (N - len) ++ r1) bits [] r Zg Zb) as Es. rewrite !app_nil_r in Es.
    rewrite Es. cbn [mbind option_bind]. rewrite E3. cbn [mbind option_bind].
    exists (z ++ x :: d3). pose proof (zlen_nonneg d3).
    assert (E8 : (len + 7) / 8 = L + 1) by (symmetry; apply Z.div_unique with (r - 1); lia).
    split_and!.
    + rewrite store_Some by (change (zlen [x]) with 1; rewrite ?zlen_app, ?zlen_cons; lia). f_equal.
      rewrite ztake_app_eq by done. f_equal. cbn [app]. f_equal. change (zlen [x]) with 1.
      replace (b :: d3) with ([b] ++ d3) by done. rewrite app_assoc. apply zdrop_app_eq. rewrite zlen_app. change (zlen [b]) with 1. lia.
    + apply bytes_ok_app. split; [done|]. by apply Forall_cons_2.
    + rewrite !zlen_app, !zlen_cons. lia.
    + rewrite !bits_of_bytes_app. unfold bits_of_bytes at 2 4. cbn [map concat]. fold (bits_of_bytes d3). rewrite E2, E4.
      rewrite <- !app_assoc, !(app_assoc (bits_of_bytes z)), !(app_assoc (bits_of_bytes d1)).
      assert (Zxb : zlen (xor_bits bits g) = r) by (unfold xor_bits; rewrite zlen_zip; lia).
      rewrite !ztake_app_eq by (rewrite zlen_app; lia). replace len with (8 * L + r) by lia.
      rewrite gold_bits_app, Z.add_0_l by lia. fold g. rewrite xor_bits_app, Bz; [done|]. rewrite zlen_gold_bits by lia. done.
    + rewrite E8. change (x :: d3) with ([x] ++ d3). change (b :: d3) with ([b] ++ d3). rewrite !app_assoc.
      rewrite !zdrop_app_eq; [done|..]; rewrite zlen_app; change (zlen [_]) with 1; lia.
Qed.

(** Soft bits: the sign says which bit is more likely. *)
Definition soft_bits (vs bits : list Z) : list Z := zip_with (fun v b => if b =? 0 then v else - v) vs bits.

Lemma zlen_soft vs bits : zlen vs = zlen bits -> zlen (soft_bits vs bits) = zlen vs.
Proof. unfold soft_bits, zlen. intros Hl. rewrite length_zip_with. lia. Qed.

Lemma i16_id x : - 2 ^ 15 <= x < 2 ^ 15 -> i16 x = x.
Proof. intros Hx. unfold i16. rewrite Z.mod_small; lia. Qed.

(** Negation where the sequence is set undoes the xor under the sign. *)
Lemma vec_neg_soft vs bits g :
  Forall (fun v => Z.abs v < 2 ^ 15) vs -> bits_ok bits -> bits_ok g -> zlen vs = zlen bits -> zlen g = zlen bits ->
  vec_neg i16 (soft_bits vs (xor_bits bits g)) (map signed_of g) = soft_bits vs bits.
Proof.
  intros Hv. revert bits g. induction Hv as [|v vs Hv Hvs IH]; intros [|b bits] [|y g] Hb Hg H1 H2; try done.
  apply Forall_cons in Hb as [Hb Hbs]. apply Forall_cons in Hg as [Hy Hgs]. rewrite !zlen_cons in H1, H2.
  cbn [soft_bits xor_bits zip_with map vec_neg]. f_equal; [|apply IH; (done || lia)].
  assert (Hi : i16 (- v) = - v /\ i16 (- - v) = v) by (rewrite !i16_id by lia; lia). destruct Hi as [Hi1 Hi2].
  destruct Hb as [-> | ->], Hy as [-> | ->]; [reflexivity|exact Hi2|reflexivity|exact Hi1].
Qed.

Lemma scrambling_s_spec f1 f2 q N len vs bits rest :
  holds_sequence f1 f2 q N -> 0 <= len <= N -> zlen vs = len -> zlen bits = len -> bits_ok bits ->
  Forall (fun v => Z.abs v < 2 ^ 15) vs ->
  srsran_scrambling_s_offset q (soft_bits vs (xor_bits bits (gold_bits f1 f2 0 len)) ++ rest) 0 len = Some (soft_bits vs bits ++ rest).
Proof.
  intros (r1 & p & r2 & r3 & r4 & r5 & _ & _ & _ & _ & Es & _ & _ & Ecur) Hl Zv Zb Hb Hv.
  unfold srsran_scrambling_s_offset. rewrite Ecur, (proj2 (Z.leb_le _ _)) by lia. rewrite Es. cbn [mbind option_bind].
  assert (Eg : gold_bits f1 f2 0 N = gold_bits f1 f2 0 len ++ gold_bits f1 f2 len (N - len)).
  { replace N with (len + (N - len)) at 1 by lia. by rewrite gold_bits_app by lia. }
  rewrite Eg, map_app, <- app_assoc. pose proof (zlen_gold_bits f1 f2 0 len ltac:(lia)) as Zg. set (g := gold_bits f1 f2 0 len) in *.
  rewrite (load_bytes_prefix (map signed_of g)) by (by rewrite zlen_map). cbn [mbind option_bind].
  assert (Zx : zlen (xor_bits bits g) = len) by (unfold xor_bits; rewrite zlen_zip; lia).
  rewrite load_bytes_prefix by (rewrite zlen_soft; lia). cbn [mbind option_bind].
  rewrite vec_neg_soft by (try done; try lia; apply gold_bits_ok). pose proof (zlen_nonneg rest).
  rewrite store_Some by (rewrite ?zlen_app, ?zlen_soft; lia). rewrite ztake_0. cbn [app]. do 2 f_equal.
  apply zdrop_app_eq. rewrite !zlen_soft by lia. done.
Qed.

(** ** Properties *)

(** C21: for every seed and length, generating a sequence in fresh arrays or in ones of an earlier
    sequence, longer or shorter, succeeds and stores the sequence of 3GPP TS 36.211 section
    7.2, [c(n) = x1(n + 1600) + x2(n + 1600)] for the two recurrences with the initial
    states of the standard: as bits, packed into bytes and as signs. *)
Theorem sequence_is_gold seed f1 f2 q len :
  gold seed f1 f2 -> seq_ok q -> 0 <= len ->
  exists q', srsran_sequence_LTE_pr q len seed = Some (0, q') /\ seq_ok q' /\ cur_len q' = len /\
    exists m by_ sh, c q' = Some m /\ c_bytes q' = Some by_ /\ c_short q' = Some sh /\
    forall n, 0 <= n < len ->
      load m n = Some (Z.b2z (xorb (f1 (n + 1600)) (f2 (n + 1600)))) /\
      load (bits_of_bytes by_) n = Some (Z.b2z (xorb (f1 (n + 1600)) (f2 (n + 1600)))) /\
      load sh n = Some (if xorb (f1 (n + 1600)) (f2 (n + 1600)) then -1 else 1).
Proof.
  intros Hg Hq Hl. destruct (LTE_pr_stores f1 f2 seed q len Hg Hq Hl) as (q' & E & (r1 & p & r2 & r3 & r4 & r5 & E1 & E2 & Bp & _ & E3 & _ & _ & E4) & Hq').
  exists q'. split_and!; [done|done|done|]. do 3 eexists. split_and!; [exact E1|exact E2|exact E3|]. intros n Hn.
  assert (Eg : forall (f : bool -> Z) r, (map (fun k => f (gold_bit f1 f2 (0 + k))) (seqZ 0 len) ++ r) !! Z.to_nat n = Some (f (gold_bit f1 f2 n))).
  { intros f r. rewrite lookup_app_l by (rewrite length_map, length_seqZ; lia).
    change (map ?h (seqZ 0 len)) with (h <$> seqZ 0 len). rewrite list_lookup_fmap.
    assert (Es : seqZ 0 len !! Z.to_nat n = Some n) by (apply lookup_seqZ; lia). by rewrite Es. }
  assert (El : forall m : list Z, load m n = m !! Z.to_nat n) by (intros m; unfold load; destruct (Z.ltb_spec n 0); [lia|done]).
  rewrite !El, bits_of_bytes_app, Bp, <- app_assoc. unfold gold_bits.
  rewrite map_map, !(Eg Z.b2z), (Eg (fun b => signed_of (Z.b2z b))). fold (gold_bit f1 f2 n).
  split_and!; [done|done|]. by destruct (gold_bit f1 f2 n).
Qed.

Lemma zero_ok : seq_ok sequence_zero.
Proof. by left. Qed.

Lemma sequence_is_gold_witness :
  exists f1 f2 q' m, gold 1234 f1 f2 /\ srsran_sequence_LTE_pr sequence_zero 30 1234 = Some (0, q') /\ c q' = Some m /\
    load m 29 = Some (Z.b2z (xorb (f1 1629) (f2 1629))).
Proof.
  destruct (gold_exists 1234) as (f1 & f2 & Hg).
  destruct (sequence_is_gold 1234 f1 f2 sequence_zero 30 Hg zero_ok ltac:(lia)) as (q' & E & _ & _ & m & by_ & sh & E1 & _ & _ & H).
  exists f1, f2, q', m. split; [exact Hg|]. split; [exact E|]. split; [exact E1|]. exact (proj1 (H 29 ltac:(lia))).
Defined.

(** C20: for every subframe and MBSFN area the sequence of the PMCH is generated, the transmitter's
    scrambling xors the first [len] bits of the packed block with it and leaves the bytes
    after them alone, scrambling once more gives the bits back, and the receiver's
    descrambling of soft bits gives the soft bits of the unscrambled block. *)
Theorem pmch_scrambling_undone seq0 nslot mbsfn_id N data len :
  0 <= len <= N -> bytes_ok data -> len <= 8 * zlen data ->
  exists q data' data'', srsran_sequence_pmch seq0 nslot mbsfn_id N = Some (0, q) /\
    srsran_scrambling_bytes q data len = Some data' /\ srsran_scrambling_bytes q data' len = Some data'' /\
    zdrop ((len + 7) / 8) data' = zdrop ((len + 7) / 8) data /\
    ztake len (bits_of_bytes data'') = ztake len (bits_of_bytes data) /\
    forall vs rest, zlen vs = len -> Forall (fun v => Z.abs v < 2 ^ 15) vs ->
      srsran_scrambling_s_offset q (soft_bits vs (ztake len (bits_of_bytes data')) ++ rest) 0 len =
        Some (soft_bits vs (ztake len (bits_of_bytes data)) ++ rest).
Proof.
  intros Hl Hd Hz. unfold srsran_sequence_pmch. set (seed := u32 _).
  destruct (gold_exists seed) as (f1 & f2 & Hg).
  destruct (LTE_pr_stores f1 f2 seed sequence_zero N Hg zero_ok ltac:(lia)) as (q & E & Hs & _).
  destruct (scrambling_bytes_spec f1 f2 q N data len Hs Hd Hl Hz) as (data' & E1 & Hd' & Z1 & B1 & R1).
  destruct (scrambling_bytes_spec f1 f2 q N data' len Hs Hd' Hl ltac:(lia)) as (data'' & E2 & _ & _ & B2 & _).
  assert (Zt : zlen (ztake len (bits_of_bytes data)) = len) by (apply zlen_ztake; rewrite zlen_bits_of_bytes; lia).
  exists q, data', data''. split_and!; [done|done|done|done| |].
  - rewrite B2, B1, xor_bits_twice; [done|]. by rewrite Zt, zlen_gold_bits by lia.
  - intros vs rest Zv Hv. rewrite B1. apply (scrambling_s_spec f1 f2 q N); try done.
    unfold ztake. apply Forall_take, bits_of_bytes_ok.
Qed.

Lemma pmch_scrambling_undone_witness :
  exists q data' data'', srsran_sequence_pmch sequence_zero 6 1 40 = Some (0, q) /\
    srsran_scrambling_bytes q [0x12; 0x34; 0xF0] 20 = Some data' /\ srsran_scrambling_bytes q data' 20 = Some data'' /\
    ztake 20 (bits_of_bytes data'') = ztake 20 (bits_of_bytes [0x12; 0x34; 0xF0]).
Proof.
  destruct (pmch_scrambling_undone sequence_zero 6 1 40 [0x12; 0x34; 0xF0] 20) as (q & d1 & d2 & E1 & E2 & E3 & _ & E4 & _).
  - lia.
  - repeat (apply Forall_cons_2; [unfold is_u8; lia|]). apply Forall_nil_2.
  - vm_compute. discriminate.
  - exists q, d1, d2. split; [exact E1|]. split; [exact E2|]. split; [exact E3|exact E4].
Defined.

Lemma xor_bits_zeros w k : length w = k -> xor_bits w (replicate k 0) = w.
Proof.
  revert k. induction w as [|x w IH]; intros [|k] Hk; try done. cbn [xor_bits zip_with replicate].
  fold (xor_bits w (replicate k 0)). rewrite IH by (simpl in Hk; lia). by rewrite Z.lxor_0_r.
Qed.

(** What [xored] says of a number of bits that does not fill the last byte. *)
Lemma xored_prefix in_ out g k :
  xored in_ 0 out (g ++ replicate k 0) -> zlen out <= zlen in_ ->
  bits_of_bytes out = xor_bits (ztake (zlen g) (bits_of_bytes in_)) g ++ zdrop (zlen g) (bits_of_bytes (ztake (zlen out) in_)).
Proof.
  intros (_ & Zg & Bo) Hz. rewrite zdrop_0 in Bo. set (t := ztake (zlen out) in_) in *.
  pose proof (zlen_nonneg g) as Hg0. pose proof (zlen_nonneg out).
  assert (Zt : zlen (bits_of_bytes t) = 8 * zlen out) by (rewrite zlen_bits_of_bytes; unfold t; rewrite zlen_ztake; lia).
  assert (Zk : zlen (replicate k 0) = Z.of_nat k) by (unfold zlen; by rewrite length_replicate).
  rewrite zlen_app, Zk in Zg.
  assert (Et : ztake (zlen g) (bits_of_bytes in_) = ztake (zlen g) (bits_of_bytes t)).
  { rewrite <- (ztake_zdrop (zlen out) in_), bits_of_bytes_app. fold t. unfold ztake. apply take_app_le. unfold zlen in *. lia. }
  rewrite Bo, Et. rewrite <- (ztake_zdrop (zlen g) (bits_of_bytes t)) at 1.
  rewrite xor_bits_app by (rewrite zlen_ztake; lia). f_equal. apply xor_bits_zeros.
  assert (Hd : zlen (zdrop (zlen g) (bits_of_bytes t)) = Z.of_nat k) by (rewrite zlen_zdrop; lia). unfold zlen at 1 in Hd. lia.
Qed.

(** A sequence applied in two pieces. *)
Lemma xor_pieces f1 f2 l len1 len :
  0 <= len1 <= len -> len <= zlen l ->
  xor_bits (ztake len l) (gold_bits f1 f2 0 len) =
    xor_bits (ztake len1 l) (gold_bits f1 f2 0 len1) ++
    xor_bits (ztake (len - len1) (zdrop len1 l)) (gold_bits f1 f2 (0 + len1) (len - len1)).
Proof.
  intros H1 Hz. rewrite <- xor_bits_app by (rewrite zlen_ztake, zlen_gold_bits; lia). rewrite <- gold_bits_app by lia.
  f_equal; [|f_equal; lia]. unfold ztake, zdrop. rewrite take_take_drop. f_equal. lia.
Qed.

Lemma bits_are_bytes l : bits_ok l -> bytes_ok l.
Proof. unfold bits_ok, bytes_ok. intros Hl. eapply Forall_impl; [exact Hl|]. intros x [-> | ->]; unfold is_u8; lia. Qed.

(** Scrambling packed bytes, three bytes for every step of 24 bits and through the table of
    reversed bytes, does what scrambling their bits one per byte does, keeps the other bits
    of a last byte that is not full, and the bits may be scrambled in two pieces with the
    state that the first leaves. *)
Theorem apply_packed_agrees in_ len len1 seed :
  bytes_ok in_ -> 16 <= len < 2 ^ 32 -> len <= 8 * zlen in_ -> 0 <= len1 <= len ->
  exists out bits a b s, srsran_sequence_apply_packed in_ len seed = Some out /\
    srsran_sequence_apply_bit (bits_of_bytes in_) len seed = Some bits /\
    zlen out = (len + 7) / 8 /\ bits_of_bytes out = bits ++ zdrop len (bits_of_bytes (ztake (zlen out) in_)) /\
    srsran_sequence_state_apply_bit (srsran_sequence_state_init seed) (bits_of_bytes in_) len1 = Some (a, s) /\
    fst <$> srsran_sequence_state_apply_bit s (zdrop len1 (bits_of_bytes in_)) (len - len1) = Some b /\ bits = a ++ b.
Proof.
  intros Hin Hl Hz Hl1. destruct (gold_exists seed) as (f1 & f2 & Hg). pose proof (init_element seed f1 f2 Hg) as H0.
  assert (Zb : zlen (bits_of_bytes in_) = 8 * zlen in_) by apply zlen_bits_of_bytes.
  pose proof (bits_are_bytes _ (bits_of_bytes_ok in_)) as Okb.
  destruct (apply_packed_spec f1 f2 seed in_ Hg Hin len Hl Hz) as (out & E & X).
  destruct (apply_bit_spec f1 f2 seed Hg _ 0 (bits_of_bytes in_) len H0 Okb ltac:(lia)) as (s2 & E2 & _).
  destruct (apply_bit_spec f1 f2 seed Hg _ 0 (bits_of_bytes in_) len1 H0 Okb ltac:(lia)) as (s & E3 & Hs).
  destruct (apply_bit_spec f1 f2 seed Hg s (0 + len1) (zdrop len1 (bits_of_bytes in_)) (len - len1) Hs) as (s3 & E4 & _);
    [by apply bytes_ok_zdrop|rewrite zlen_zdrop; lia|].
  pose proof (Z.mod_pos_bound (- len) 8 ltac:(lia)) as Hm.
  assert (Zo : 8 * zlen out = len + - len mod 8).
  { destruct X as (_ & Zg & _). rewrite zlen_app, zlen_gold_bits, zlen_malloc in Zg by lia. lia. }
  assert (Zo' : zlen out = (len + 7) / 8) by (apply Z.div_unique with (7 - - len mod 8); lia).
  assert (Bo := xored_prefix in_ out (gold_bits f1 f2 0 len) _ X ltac:(lia)). rewrite zlen_gold_bits in Bo by lia.
  exists out, (xor_bits (ztake len (bits_of_bytes in_)) (gold_bits f1 f2 0 len)). do 3 eexists.
  split; [exact E|]. split; [unfold srsran_sequence_apply_bit; by rewrite E2|]. split; [exact Zo'|]. split; [exact Bo|].
  split; [exact E3|]. split; [by rewrite E4|]. apply xor_pieces; lia.
Qed.

Lemma apply_packed_agrees_witness :
  exists out bits, srsran_sequence_apply_packed [1; 2; 3; 4; 5] 35 77 = Some out /\
    srsran_sequence_apply_bit (bits_of_bytes [1; 2; 3; 4; 5]) 35 77 = Some bits /\ zlen out = 5 /\
    bits_of_bytes out = bits ++ zdrop 35 (bits_of_bytes [1; 2; 3; 4; 5]).
Proof.
  destruct (apply_packed_agrees [1; 2; 3; 4; 5] 35 10 77) as (out & bits & a & b & s & E1 & E2 & Z & B & _).
  - repeat (apply Forall_cons_2; [unfold is_u8; lia|]). apply Forall_nil_2.
  - lia.
  - vm_compute. discriminate.
  - lia.
  - exists out, bits. split; [exact E1|]. split; [exact E2|]. split; [exact Z|]. rewrite Z in B. exact B.
Defined.

(** With fewer than 16 bits the unsigned bound of the loop wraps and the loop runs past the
    end of the data. *)
Lemma apply_packed_short in_ len seed :
  0 <= len < 16 -> zlen in_ < 2 ^ 31 -> srsran_sequence_apply_packed in_ len seed = None.
Proof.
  intros Hl Hz. unfold srsran_sequence_apply_packed. change ((SEQUENCE_PAR_BITS - 1) / 8) with 2.
  assert (HL : 0 <= len / 8 < 2) by (split; [apply Z.div_pos; lia|apply Z.div_lt_upper_bound; lia]).
  assert (Hb : 2 ^ 31 <= u32 (len / 8 - 2)).
  { unfold u32. replace (len / 8 - 2) with (len / 8 - 2 + 2 ^ 32 + (-1) * 2 ^ 32) by lia. rewrite Z.mod_add, Z.mod_small by lia. lia. }
  set (bound := u32 _) in *. clearbody bound.
  assert (H : forall fuel i s, 0 <= i -> packed_loop fuel in_ bound i s = None \/ bound <= i).
  { induction fuel as [|fuel IH]; intros i s Hi; cbn [packed_loop]; (destruct (Z.ltb_spec i bound); [|by right]); [by left|left].
    destruct (packed_byte in_ i _) as [o0|]; [|done]. cbn [mbind option_bind].
    destruct (packed_byte in_ (i + 1) _) as [o1|] eqn:E1; [|done]. cbn [mbind option_bind].
    destruct (packed_byte in_ (i + 2) _) as [o2|] eqn:E2; [|done]. cbn [mbind option_bind].
    destruct (IH (i + 3) (step_par s) ltac:(lia)) as [->|Hb']; [done|].
    exfalso. unfold packed_byte, load in E2. destruct (Z.ltb_spec (i + 2) 0); [lia|].
    destruct (in_ !! Z.to_nat (i + 2)) as [v|] eqn:Ev; [|done]. apply lookup_lt_Some in Ev. unfold zlen in Hz. lia. }
  destruct (H (S (length in_)) 0 (srsran_sequence_state_init seed) ltac:(lia)) as [->|?]; [done|lia].
Qed.
