(* ===== verification/BitCopy.v ===== *)
(** * Copying bits

    [srsran_bit_copy] of [lib/src/phy/utils/bit.c] and [bitarray_copy] below it: bits
    copied from any bit offset of one byte array to any bit offset of another.  An access
    outside of an array is undefined, [None].

    The theorem describes the destination bit by bit, after any copy that has a byte of
    slack in the source. *)

From stdpp Require Import base list gmap numbers list_basics list_relations.
From S2P Require Import Prelude BitPack.

Local Open Scope Z_scope.

(** ** Operations *)

Definition reverse_mask (i : Z) : Z := default 0 ([0x00; 0x80; 0xc0; 0xe0; 0xf0; 0xf8; 0xfc; 0xfe; 0xff] !! Z.to_nat i).
Definition reverse_mask_xor (i : Z) : Z := default 0 ([0xff; 0x7f; 0x3f; 0x1f; 0x0f; 0x07; 0x03; 0x01; 0x00] !! Z.to_nat i).

Definition CHAR_BIT : Z := 8.

(** [PREPARE_FIRST_COPY]: the byte at [dst], [c] and the number of bits left. *)
Definition PREPARE_FIRST_COPY (cur dst_offset_modulo src_len c : Z) : Z * Z * Z :=
  if src_len >=? CHAR_BIT - dst_offset_modulo then
    (Z.land cur (reverse_mask dst_offset_modulo), c, src_len - (CHAR_BIT - dst_offset_modulo))
  else
    (Z.land cur (Z.lor (reverse_mask dst_offset_modulo) (reverse_mask_xor (dst_offset_modulo + src_len))),
     Z.land c (reverse_mask (dst_offset_modulo + src_len)), 0).

(** The first byte of the destination: prepared and completed with [c]. *)
Definition first_copy (dst_org : list Z) (dst dst_offset_modulo src_len c : Z) : option (list Z * Z) :=
  cur ← load dst_org dst;
  let '(cur, c, src_len) := PREPARE_FIRST_COPY cur dst_offset_modulo src_len c in
  dst_org ← store dst_org dst [Z.lor cur c];
  Some (dst_org, src_len).

(** [c = *src++ << bit_diff_ls; c |= *src >> bit_diff_rs]. *)
Definition shifted_byte (src_org : list Z) (src bit_diff_ls bit_diff_rs : Z) : option Z :=
  a ← load src_org src;
  b ← load src_org (src + 1);
  Some (Z.lor (u8 (Z.shiftl a bit_diff_ls)) (Z.shiftr b bit_diff_rs)).

(** The last bits: those of [c] above the rest of the byte at [dst]. *)
Definition last_copy (dst_org : list Z) (dst src_len_modulo c : Z) : option (list Z) :=
  cur ← load dst_org dst;
  store dst_org dst [Z.lor (Z.land cur (reverse_mask_xor src_len_modulo)) (Z.land c (reverse_mask src_len_modulo))].

Fixpoint middle_copy (byte_len : nat) (src_org : list Z) (src ls rs : Z) (dst_org : list Z) (dst : Z) : option (list Z * Z * Z) :=
  match byte_len with
  | O => Some (dst_org, src, dst)
  | S byte_len =>
      c ← shifted_byte src_org src ls rs;
      dst_org ← store dst_org dst [c];
      middle_copy byte_len src_org (src + 1) ls rs dst_org (dst + 1)
  end.

(** "Line things up on destination": [c], the source and the two shifts. *)
Definition line_up (src_org : list Z) (src sm dm : Z) : option (Z * Z * Z * Z) :=
  if sm >? dm then
    let ls := sm - dm in
    let rs := CHAR_BIT - ls in
    c ← shifted_byte src_org src ls rs;
    Some (Z.land c (reverse_mask_xor dm), src + 1, ls, rs)
  else
    let rs := dm - sm in
    let ls := CHAR_BIT - rs in
    b ← load src_org src;
    Some (Z.land (Z.shiftr b rs) (reverse_mask_xor dm), src, ls, rs).

Definition bitarray_copy (src_org : list Z) (src_offset src_len : Z) (dst_org : list Z) (dst_offset : Z) : option (list Z) :=
  if negb (src_len =? 0) then
    let src := src_offset / CHAR_BIT in
    let dst := dst_offset / CHAR_BIT in
    let sm := src_offset mod CHAR_BIT in
    let dm := dst_offset mod CHAR_BIT in
    if sm =? dm then
      '(dst_org, src_len, src, dst) ← (
        if negb (sm =? 0) then
          b ← load src_org src;
          '(dst_org, src_len) ← first_copy dst_org dst dm src_len (Z.land (reverse_mask_xor dm) b);
          Some (dst_org, src_len, src + 1, dst + 1)
        else Some (dst_org, src_len, src, dst));
      let byte_len := src_len / CHAR_BIT in
      let src_len_modulo := src_len mod CHAR_BIT in
      bytes ← load_bytes src_org src byte_len;
      dst_org ← store dst_org dst bytes;
      if negb (src_len_modulo =? 0) then
        b ← load src_org (src + byte_len);
        last_copy dst_org (dst + byte_len) src_len_modulo b
      else Some dst_org
    else
      '(c, src, ls, rs) ← line_up src_org src sm dm;
      '(dst_org, src_len) ← first_copy dst_org dst dm src_len c;
      '(dst_org, src, dst) ← middle_copy (Z.to_nat (src_len / CHAR_BIT)) src_org src ls rs dst_org (dst + 1);
      let src_len_modulo := src_len mod CHAR_BIT in
      if negb (src_len_modulo =? 0) then
        c ← shifted_byte src_org src ls rs;
        last_copy dst_org dst src_len_modulo c
      else Some dst_org
  else Some dst_org.

Definition srsran_bit_copy (dst : list Z) (dst_offset : Z) (src : list Z) (src_offset nof_bits : Z) : option (list Z) :=
  if (dst_offset mod 8 =? 0) && (src_offset mod 8 =? 0) then
    bytes ← load_bytes src (src_offset / 8) (nof_bits / 8);
    dst ← store dst (dst_offset / 8) bytes;
    if negb (nof_bits mod 8 =? 0) then
      b ← load src (src_offset / 8 + nof_bits / 8);
      store dst (dst_offset / 8 + nof_bits / 8) [Z.land b (reverse_mask (nof_bits mod 8))]
    else Some dst
  else bitarray_copy src src_offset nof_bits dst dst_offset.

(** ** Memory, bit by bit *)

(** The bit [i] of a byte array, most significant first. *)
Definition bitm (m : list Z) (i : Z) : bool :=
  match load m (i / 8) with Some b => Z.testbit b (7 - i mod 8) | None => false end.

Section bits.
  Implicit Types (m src dst : list Z).

Lemma load_lookup m o : 0 <= o -> load m o = m !! Z.to_nat o.
Proof. intros Ho. unfold load. destruct (Z.ltb_spec o 0); [lia|done]. Qed.

Lemma load_inside m o : 0 <= o < zlen m -> exists b, load m o = Some b.
Proof.
  intros Ho. rewrite load_lookup by lia. apply lookup_lt_is_Some_2. unfold zlen in Ho. lia.
Qed.

Lemma load_u8 m o b : bytes_ok m -> load m o = Some b -> is_u8 b.
Proof.
  intros Hm E. unfold load in E. destruct (Z.ltb_spec o 0); [done|].
  unfold bytes_ok in Hm. rewrite Forall_lookup in Hm. exact (Hm _ _ E).
Qed.

Lemma store_byte_at m o v :
  0 <= o < zlen m -> exists m', store m o [v] = Some m' /\ zlen m' = zlen m /\
    (bytes_ok m -> is_u8 v -> bytes_ok m') /\
    (forall i, 0 <= i -> load m' i = if i =? o then Some v else load m i).
Proof.
  intros Ho. rewrite store_Some by (rewrite ?zlen_cons, ?zlen_nil; lia). eexists. split; [done|].
  change (zlen [v]) with 1. split_and!.
  - rewrite !zlen_app, zlen_ztake, zlen_zdrop by lia. change (zlen [v]) with 1. lia.
  - intros Hm Hv. apply bytes_ok_app. split; [by apply bytes_ok_ztake|]. constructor; [done|by apply bytes_ok_zdrop].
  - intros i Hi. assert (Ht := zlen_ztake o m ltac:(lia)). unfold zlen in Ht.
    rewrite !load_lookup by lia. destruct (Z.eqb_spec i o) as [->|Hne].
    + rewrite lookup_app_r by lia. replace (Z.to_nat o - _)%nat with O by lia. done.
    + destruct (Z.lt_ge_cases i o).
      * rewrite lookup_app_l by lia. unfold ztake. apply lookup_take_lt. lia.
      * rewrite lookup_app_r by lia. destruct (Z.to_nat i - _)%nat as [|k] eqn:Ek; [lia|]. cbn [app lookup list_lookup].
        transitivity (drop (Z.to_nat (o + 1)) m !! k); [done|].
        rewrite lookup_drop. f_equal. lia.
Qed.

(** A written byte shows as its eight bits. *)
Lemma bitm_store m o v :
  0 <= o < zlen m -> exists m', store m o [v] = Some m' /\ zlen m' = zlen m /\
    (bytes_ok m -> is_u8 v -> bytes_ok m') /\
    (forall i, 0 <= i -> bitm m' i = if i / 8 =? o then Z.testbit v (7 - i mod 8) else bitm m i).
Proof.
  intros Ho. destruct (store_byte_at m o v Ho) as (m' & E & Hz & Hok & Hl). exists m'. split_and!; try done.
  intros i Hi. unfold bitm. rewrite Hl by (apply Z.div_pos; lia). by destruct (i / 8 =? o).
Qed.

Lemma bitm_byte m o b j : load m o = Some b -> 0 <= j < 8 -> bitm m (8 * o + j) = Z.testbit b (7 - j).
Proof.
  intros E Hj. unfold bitm.
  replace ((8 * o + j) / 8) with o by (apply Z.div_unique with j; lia).
  replace ((8 * o + j) mod 8) with j by (apply Z.mod_unique with o; lia). by rewrite E.
Qed.

(** The list of the bits. *)
Lemma bitm_bits m i : bytes_ok m -> 0 <= i < 8 * zlen m -> bits_of_bytes m !! Z.to_nat i = Some (b2z (bitm m i)).
Proof.
  intros Hm. revert i. induction m as [|b m IH]; intros i Hi; [change (zlen []) with 0 in Hi; lia|].
  apply Forall_cons in Hm as [Hb Hm]. rewrite zlen_cons in Hi.
  unfold bits_of_bytes. cbn [map concat]. fold (bits_of_bytes m).
  assert (Hl : length (srsran_bit_unpack b 8) = 8%nat) by reflexivity.
  assert (Hd := Z.div_mod i 8 ltac:(lia)). assert (Hmod := Z.mod_pos_bound i 8 ltac:(lia)).
  destruct (Z.lt_ge_cases i 8).
  - rewrite lookup_app_l by (rewrite Hl; lia).
    assert (Es : seqZ 0 8 !! Z.to_nat i = Some i) by (apply lookup_seqZ; lia).
    unfold srsran_bit_unpack. pose proof (list_lookup_fmap_Some_2 (fun i => Z.land (Z.shiftr b (8 - i - 1)) 1) _ _ _ Es) as Em.
    cbv beta in Em. etransitivity; [exact Em|]. f_equal. rewrite land_1, <- Z.bit0_mod, Z.shiftr_spec by lia.
    replace i with (8 * 0 + i) at 2 by lia. rewrite (bitm_byte _ 0 b) by (done || lia).
    replace (0 + (8 - i - 1)) with (7 - i) by lia. by destruct (Z.testbit b (7 - i)).
  - rewrite lookup_app_r by (rewrite Hl; lia). rewrite Hl.
    replace (Z.to_nat i - 8)%nat with (Z.to_nat (i - 8)) by lia. rewrite IH by (done || lia).
    unfold bitm. rewrite load_cons_S by lia.
    replace ((i - 8) / 8) with (i / 8 - 1) by (apply Z.div_unique with (i mod 8); lia).
    replace ((i - 8) mod 8) with (i mod 8) by (apply Z.mod_unique with (i / 8 - 1); lia). done.
Qed.

(** *** Masks and shifts *)

Lemma mask_bits i j :
  0 <= i <= 8 -> 0 <= j < 8 ->
  Z.testbit (reverse_mask i) (7 - j) = (j <? i) /\ Z.testbit (reverse_mask_xor i) (7 - j) = (i <=? j).
Proof.
  intros Hi Hj.
  assert (T : range_forallb 9 (fun i => range_forallb 8 (fun j =>
    eqb (Z.testbit (reverse_mask i) (7 - j)) (j <? i) && eqb (Z.testbit (reverse_mask_xor i) (7 - j)) (i <=? j))) = true)
    by by vm_compute.
  pose proof (range_forallb_spec _ _ T i ltac:(lia)) as T1. cbv beta in T1.
  pose proof (range_forallb_spec _ _ T1 j Hj) as T2. cbv beta in T2.
  apply andb_true_iff in T2 as [A B]. by apply eqb_prop in A, B.
Qed.

Lemma mask_u8 i : 0 <= i <= 8 -> is_u8 (reverse_mask i) /\ is_u8 (reverse_mask_xor i).
Proof.
  intros Hi.
  assert (T : range_forallb 9 (fun i => (0 <=? reverse_mask i) && (reverse_mask i <? 2 ^ 8) &&
    ((0 <=? reverse_mask_xor i) && (reverse_mask_xor i <? 2 ^ 8))) = true) by by vm_compute.
  pose proof (range_forallb_spec _ _ T i ltac:(lia)) as T1. cbv beta in T1.
  rewrite !andb_true_iff, !Z.leb_le, !Z.ltb_lt in T1. unfold is_u8. lia.
Qed.

Lemma land_byte_u8 a b : is_u8 a -> 0 <= b -> is_u8 (Z.land a b).
Proof.
  unfold is_u8. intros Ha Hb. split; [apply Z.land_nonneg; lia|].
  destruct (Z.eq_dec (Z.land a b) 0) as [->|Hn]; [lia|].
  apply Z.log2_lt_pow2; [pose proof (proj2 (Z.land_nonneg a b)); lia|].
  eapply Z.le_lt_trans; [apply Z.log2_land; lia|].
  destruct (Z.eq_dec a 0) as [->|Ha0]; [rewrite Z.land_0_l in Hn; lia|].
  pose proof (Z.log2_lt_pow2 a 8). lia.
Qed.

Lemma lor_u8 a b : is_u8 a -> is_u8 b -> is_u8 (Z.lor a b).
Proof. unfold is_u8. intros Ha Hb. by apply lor_bound. Qed.

Lemma shiftr_u8 a n : is_u8 a -> 0 <= n -> is_u8 (Z.shiftr a n).
Proof.
  unfold is_u8. intros Ha Hn. rewrite Z.shiftr_div_pow2 by lia. assert (0 < 2 ^ n) by lia.
  split; [apply Z.div_pos; lia|]. apply Z.div_lt_upper_bound; [lia|]. nia.
Qed.

Lemma testbit_u8_high b n : is_u8 b -> 8 <= n -> Z.testbit b n = false.
Proof.
  unfold is_u8. intros Hb Hn. destruct (Z.eq_dec b 0) as [->|]; [apply Z.bits_0|].
  apply Z.bits_above_log2; [lia|]. pose proof (Z.log2_lt_pow2 b 8). lia.
Qed.

(** Eight bits of the source from an offset that is not a whole number of bytes. *)
Lemma shifted_byte_bits src o ls :
  bytes_ok src -> 0 <= o -> o + 2 <= zlen src -> 0 < ls < 8 ->
  exists c, shifted_byte src o ls (8 - ls) = Some c /\ is_u8 c /\
    forall j, 0 <= j < 8 -> Z.testbit c (7 - j) = bitm src (8 * o + ls + j).
Proof.
  intros Hok Ho Hz Hls. unfold shifted_byte.
  destruct (load_inside src o ltac:(lia)) as (a & Ea). destruct (load_inside src (o + 1) ltac:(lia)) as (b & Eb).
  pose proof (load_u8 _ _ _ Hok Ea) as Ha. pose proof (load_u8 _ _ _ Hok Eb) as Hb.
  rewrite Ea. cbn [mbind option_bind]. rewrite Eb. cbn [mbind option_bind]. eexists. split; [done|]. split.
  - apply lor_u8; [apply is_u8_mod|apply shiftr_u8; [done|lia]].
  - intros j Hj. unfold u8. rewrite Z.lor_spec, Z.mod_pow2_bits_low, Z.shiftl_spec, Z.shiftr_spec by lia.
    destruct (Z.lt_ge_cases (ls + j) 8).
    + replace (8 * o + ls + j) with (8 * o + (ls + j)) by lia. rewrite (bitm_byte _ _ a) by (done || lia).
      rewrite (testbit_u8_high b) by (done || lia). rewrite orb_false_r. f_equal. lia.
    + replace (8 * o + ls + j) with (8 * (o + 1) + (ls + j - 8)) by lia. rewrite (bitm_byte _ _ b) by (done || lia).
      rewrite Z.testbit_neg_r by lia. rewrite orb_false_l. f_equal. lia.
Qed.

End bits.

(** ** Copies *)

(** [dst'] is [dst] with [len] bits from the bit [s] of [src] at the bit [d]. *)
Record copied (src : list Z) (s len : Z) (dst : list Z) (d : Z) (dst' : list Z) : Prop := mk_copied {
  cp_len : zlen dst' = zlen dst;
  cp_ok : bytes_ok dst';
  cp_bits : forall i, 0 <= i -> bitm dst' i = if (d <=? i) && (i <? d + len) then bitm src (s + (i - d)) else bitm dst i
}.

Ltac split_tests :=
  repeat match goal with
    | |- context [Z.leb ?a ?b] => destruct (Z.leb_spec a b)
    | |- context [Z.ltb ?a ?b] => destruct (Z.ltb_spec a b)
    | |- context [Z.eqb ?a ?b] => destruct (Z.eqb_spec a b)
    end; cbn [andb orb].

(** Names the quotient and the remainder of [i]. *)
Ltac byte_of i q r :=
  let Hd := fresh "Hd" in let Hm := fresh "Hm" in
  pose proof (Z.div_mod i 8 ltac:(lia)) as Hd; pose proof (Z.mod_pos_bound i 8 ltac:(lia)) as Hm;
  set (q := i / 8) in *; set (r := i mod 8) in *; clearbody q r.

Section copies.
  Variable src : list Z.
  Hypothesis Hsrc : bytes_ok src.
  Implicit Types (dst : list Z).

Lemma copied_none s dst d : bytes_ok dst -> copied src s 0 dst d dst.
Proof. intros Hd. split; [done|done|]. intros i Hi. split_tests; try done; lia. Qed.

Lemma copied_trans s n1 n2 dst d m1 m2 :
  0 <= n1 -> 0 <= n2 -> copied src s n1 dst d m1 -> copied src (s + n1) n2 m1 (d + n1) m2 -> copied src s (n1 + n2) dst d m2.
Proof.
  intros H1 H2 [Z1 O1 B1] [Z2 O2 B2]. split; [congruence|done|]. intros i Hi. rewrite B2, B1 by done.
  split_tests; try done; try lia. f_equal. lia.
Qed.

(** One byte, of which the bits from [a] to [b] come from the source. *)
Lemma copied_byte s dst o a b v :
  bytes_ok dst -> 0 <= o < zlen dst -> is_u8 v -> 0 <= a <= b -> b <= 8 ->
  (forall j, 0 <= j < 8 ->
    Z.testbit v (7 - j) = if (a <=? j) && (j <? b) then bitm src (s + (j - a)) else bitm dst (8 * o + j)) ->
  exists dst', store dst o [v] = Some dst' /\ copied src s (b - a) dst (8 * o + a) dst'.
Proof.
  intros Hok Ho Hv Ha Hb H. destruct (bitm_store dst o v Ho) as (dst' & E & Hz & Hok' & Hbits).
  exists dst'. split; [done|]. split; [done|by apply Hok'|]. intros i Hi. rewrite Hbits by done. byte_of i q r.
  destruct (Z.eqb_spec q o) as [->|Hne].
  - rewrite H by lia. rewrite <- Hd. split_tests; try done; try lia. f_equal. lia.
  - split_tests; try done; lia.
Qed.

Lemma first_copy_spec s dst o dm len c :
  bytes_ok dst -> 0 <= o < zlen dst -> 0 <= dm < 8 -> 0 < len -> is_u8 c ->
  (forall j, 0 <= j < 8 -> Z.testbit c (7 - j) = if dm <=? j then bitm src (s + (j - dm)) else false) ->
  exists dst', first_copy dst o dm len c = Some (dst', Z.max 0 (len - (8 - dm))) /\
    copied src s (Z.min len (8 - dm)) dst (8 * o + dm) dst'.
Proof.
  intros Hok Ho Hdm Hlen Hc Hbits. unfold first_copy, PREPARE_FIRST_COPY, CHAR_BIT.
  destruct (load_inside dst o Ho) as (cur & Ec). pose proof (load_u8 _ _ _ Hok Ec) as Hcur.
  rewrite Ec. cbn [mbind option_bind].
  rewrite Z.geb_leb. destruct (Z.leb_spec (8 - dm) len).
  - destruct (copied_byte s dst o dm 8 (Z.lor (Z.land cur (reverse_mask dm)) c)) as (dst' & E & Hcp); try done; try lia.
    + apply lor_u8; [|done]. apply land_byte_u8; [done|]. apply (mask_u8 dm). lia.
    + intros j Hj. rewrite Z.lor_spec, Z.land_spec, (proj1 (mask_bits dm j ltac:(lia) Hj)), Hbits, (bitm_byte _ _ cur) by done.
      split_tests; rewrite ?andb_true_r, ?andb_false_r, ?orb_false_r, ?orb_false_l; try done; lia.
    + rewrite E. cbn [mbind option_bind]. exists dst'. split; [do 2 f_equal; lia|]. by rewrite Z.min_r by lia.
  - destruct (copied_byte s dst o dm (dm + len)
      (Z.lor (Z.land cur (Z.lor (reverse_mask dm) (reverse_mask_xor (dm + len)))) (Z.land c (reverse_mask (dm + len)))))
      as (dst' & E & Hcp); try done; try lia.
    + destruct (mask_u8 dm ltac:(lia)) as [M1 _]. destruct (mask_u8 (dm + len) ltac:(lia)) as [M2 M3].
      apply lor_u8; apply land_byte_u8; try done; [apply (lor_u8 _ _ M1 M3)|apply M2].
    + intros j Hj. rewrite Z.lor_spec, !Z.land_spec, Z.lor_spec.
      rewrite (proj1 (mask_bits dm j ltac:(lia) Hj)), (proj1 (mask_bits (dm + len) j ltac:(lia) Hj)),
        (proj2 (mask_bits (dm + len) j ltac:(lia) Hj)), Hbits, (bitm_byte _ _ cur) by done.
      split_tests; rewrite ?andb_true_r, ?andb_false_r, ?orb_false_r, ?orb_false_l; try done; lia.
    + rewrite E. cbn [mbind option_bind]. exists dst'. split; [do 2 f_equal; lia|].
      rewrite Z.min_l by lia. by replace (dm + len - dm) with len in Hcp by lia.
Qed.

Lemma last_copy_spec s dst o m c :
  bytes_ok dst -> 0 <= o < zlen dst -> 0 < m < 8 -> is_u8 c ->
  (forall j, 0 <= j < m -> Z.testbit c (7 - j) = bitm src (s + j)) ->
  exists dst', last_copy dst o m c = Some dst' /\ copied src s m dst (8 * o) dst'.
Proof.
  intros Hok Ho Hm Hc Hbits. unfold last_copy.
  destruct (load_inside dst o Ho) as (cur & Ec). pose proof (load_u8 _ _ _ Hok Ec) as Hcur.
  rewrite Ec. cbn [mbind option_bind].
  destruct (copied_byte s dst o 0 m (Z.lor (Z.land cur (reverse_mask_xor m)) (Z.land c (reverse_mask m)))) as (dst' & E & Hcp);
    try done; try lia.
  - destruct (mask_u8 m ltac:(lia)) as [[M1 _] [M2 _]]. apply lor_u8; by apply land_byte_u8.
  - intros j Hj. rewrite Z.lor_spec, !Z.land_spec.
    rewrite (proj1 (mask_bits m j ltac:(lia) Hj)), (proj2 (mask_bits m j ltac:(lia) Hj)), (bitm_byte _ _ cur) by done.
    split_tests; rewrite ?andb_true_r, ?andb_false_r, ?orb_false_r, ?orb_false_l; try done; try lia.
    rewrite Hbits by lia. f_equal. lia.
  - exists dst'. split; [done|]. by rewrite Z.sub_0_r, Z.add_0_r in Hcp.
Qed.

Lemma middle_copy_spec n sp ls dst o :
  bytes_ok dst -> 0 <= sp -> sp + Z.of_nat n + 1 <= zlen src -> 0 < ls < 8 -> 0 <= o -> o + Z.of_nat n <= zlen dst ->
  exists dst', middle_copy n src sp ls (8 - ls) dst o = Some (dst', sp + Z.of_nat n, o + Z.of_nat n) /\
    copied src (8 * sp + ls) (8 * Z.of_nat n) dst (8 * o) dst'.
Proof.
  revert sp dst o. induction n as [|n IH]; intros sp dst o Hok Hsp Hz Hls Ho Hzd.
  - exists dst. split; [cbn [middle_copy]; do 2 f_equal; [f_equal|]; lia|by apply copied_none].
  - cbn [middle_copy]. destruct (shifted_byte_bits src sp ls Hsrc Hsp ltac:(lia) Hls) as (c & Ec & Hc & Hb).
    rewrite Ec. cbn [mbind option_bind].
    destruct (copied_byte (8 * sp + ls) dst o 0 8 c) as (m1 & E1 & C1); try done; try lia.
    { intros j Hj. rewrite Hb by done. split_tests; try lia. f_equal. lia. }
    rewrite E1. cbn [mbind option_bind].
    destruct (IH (sp + 1) m1 (o + 1)) as (m2 & E2 & C2); try lia; try (by destruct C1); try (destruct C1; lia).
    exists m2. split; [rewrite E2; do 2 f_equal; [f_equal|]; lia|].
    replace (8 * Z.of_nat (S n)) with (8 + 8 * Z.of_nat n) by lia. rewrite Z.sub_0_r, Z.add_0_r in C1.
    apply (copied_trans _ _ _ _ _ m1); try lia; [done|].
    replace (8 * sp + ls + 8) with (8 * (sp + 1) + ls) by lia. by replace (8 * o + 8) with (8 * (o + 1)) by lia.
Qed.

(** [memcpy]. *)
Lemma memcpy_spec so n dst o :
  bytes_ok dst -> 0 <= so -> 0 <= n -> so + n <= zlen src -> 0 <= o -> o + n <= zlen dst ->
  exists bs dst', load_bytes src so n = Some bs /\ store dst o bs = Some dst' /\ copied src (8 * so) (8 * n) dst (8 * o) dst'.
Proof.
  intros Hok Hso Hn Hzs Ho Hzd. rewrite load_bytes_Some by lia.
  assert (Hb : zlen (ztake n (zdrop so src)) = n) by (apply zlen_ztake; rewrite zlen_zdrop; lia).
  eexists _, _. split; [done|]. rewrite store_Some by lia. split; [done|]. rewrite Hb. split.
  - rewrite !zlen_app, Hb, zlen_ztake, zlen_zdrop by lia. lia.
  - rewrite !bytes_ok_app. split_and!; [by apply bytes_ok_ztake|by apply bytes_ok_ztake, bytes_ok_zdrop|by apply bytes_ok_zdrop].
  - intros i Hi. unfold bitm. rewrite !load_lookup by (apply Z.div_pos; lia).
    assert (Ht := zlen_ztake o dst ltac:(lia)). unfold zlen in Ht, Hb.
    byte_of i q r. split_tests.
    + replace ((8 * so + (i - 8 * o)) / 8) with (so + (q - o)) by (apply Z.div_unique with r; lia).
      replace ((8 * so + (i - 8 * o)) mod 8) with r by (apply Z.mod_unique with (so + (q - o)); lia).
      rewrite load_lookup, lookup_app_r, lookup_app_l by lia. unfold ztake, zdrop in *.
      rewrite lookup_take_lt, lookup_drop by lia.
      by replace (Z.to_nat so + _)%nat with (Z.to_nat (so + (q - o))) by lia.
    + rewrite load_lookup, !lookup_app_r by lia. unfold zdrop in *. rewrite lookup_drop.
      by replace (Z.to_nat (o + n) + _)%nat with (Z.to_nat q) by lia.
    + rewrite load_lookup, lookup_app_l by lia. unfold ztake. by rewrite lookup_take_lt by lia.
    + rewrite load_lookup, lookup_app_l by lia. unfold ztake. by rewrite lookup_take_lt by lia.
Qed.

End copies.

Section bit_copy.
  Variable src : list Z.
  Hypothesis Hsrc : bytes_ok src.
  Implicit Types (dst : list Z).

(** Where no bits are copied does not matter. *)
Lemma copied_0_any s d dst dst' s' d' : copied src s 0 dst d dst' -> copied src s' 0 dst d' dst'.
Proof. intros [Hz Hok Hb]. split; [done|done|]. intros i Hi. rewrite Hb by done. split_tests; try done; lia. Qed.

(** A first byte, then the rest from the next byte of the destination on. *)
Lemma copied_head s o dm len dst m1 m2 s2 :
  0 <= dm < 8 -> 0 < len -> copied src s (Z.min len (8 - dm)) dst (8 * o + dm) m1 ->
  copied src s2 (Z.max 0 (len - (8 - dm))) m1 (8 * (o + 1)) m2 -> s2 = s + (8 - dm) -> copied src s len dst (8 * o + dm) m2.
Proof.
  intros Hdm Hlen C1 C2 ->. replace len with (Z.min len (8 - dm) + Z.max 0 (len - (8 - dm))) by lia.
  apply (copied_trans _ _ _ _ _ _ m1); try lia; [done|].
  destruct (Z.le_ge_cases len (8 - dm)).
  - rewrite Z.max_l in C2 |- * by lia. by eapply copied_0_any.
  - rewrite Z.min_r by lia. by replace (8 * o + dm + (8 - dm)) with (8 * (o + 1)) by lia.
Qed.

(** Whole bytes, then the remaining bits. *)
Lemma same_offset_tail so o len dst :
  bytes_ok dst -> 0 <= so -> 0 <= o -> 0 <= len -> 8 * so + len <= 8 * zlen src -> 8 * o + len <= 8 * zlen dst ->
  exists dst',
    (bytes ← load_bytes src so (len / 8);
     dst_org ← store dst o bytes;
     if negb (len mod 8 =? 0) then
       b ← load src (so + len / 8); last_copy dst_org (o + len / 8) (len mod 8) b
     else Some dst_org) = Some dst' /\ copied src (8 * so) len dst (8 * o) dst'.
Proof.
  intros Hok Hso Ho Hlen Hs Hd. assert (Hq : 0 <= len / 8) by (apply Z.div_pos; lia). byte_of len n m.
  destruct (memcpy_spec src Hsrc so n dst o) as (bs & dst1 & L1 & S1 & C1); try done; try lia.
  rewrite L1. cbn [mbind option_bind]. rewrite S1. cbn [mbind option_bind].
  destruct (Z.eqb_spec m 0) as [E0|E0]; cbn [negb].
  { exists dst1. split; [done|]. by replace len with (8 * n) by lia. }
  destruct (load_inside src (so + n) ltac:(lia)) as (b & Eb). rewrite Eb. cbn [mbind option_bind].
  destruct C1 as [Z1 O1 B1].
  destruct (last_copy_spec src (8 * so + 8 * n) dst1 (o + n) m b) as (dst2 & E2 & C2); try done; try lia.
  { exact (load_u8 _ _ _ Hsrc Eb). }
  { intros j Hj. replace (8 * so + 8 * n + j) with (8 * (so + n) + j) by lia. by rewrite (bitm_byte _ _ b) by (done || lia). }
  exists dst2. split; [done|]. replace len with (8 * n + m) by lia.
  apply (copied_trans _ _ _ _ _ _ dst1); try lia; [done|]. by replace (8 * o + 8 * n) with (8 * (o + n)) by lia.
Qed.

(** Both offsets at the same place of a byte. *)
Lemma copy_same_offset s len dst d :
  bytes_ok dst -> 0 <= s -> 0 <= d -> 0 < len -> s + len <= 8 * zlen src -> d + len <= 8 * zlen dst -> s mod 8 = d mod 8 ->
  exists dst', bitarray_copy src s len dst d = Some dst' /\ copied src s len dst d dst'.
Proof.
  intros Hok Hs Hd Hlen Hzs Hzd Hsd. unfold bitarray_copy. rewrite (proj2 (Z.eqb_neq len 0)) by lia. cbn [negb].
  unfold CHAR_BIT. rewrite Hsd, Z.eqb_refl. byte_of s so sm. byte_of d o dm. subst sm.
  destruct (Z.eqb_spec dm 0) as [E0|E0]; cbn [negb mbind option_bind].
  { replace s with (8 * so) by lia. replace d with (8 * o) by lia. apply same_offset_tail; lia || done. }
  destruct (load_inside src so ltac:(lia)) as (b & Eb). pose proof (load_u8 _ _ _ Hsrc Eb) as Hb.
  destruct (first_copy_spec src s dst o dm len (Z.land (reverse_mask_xor dm) b)) as (dst1 & E1 & C1); try done; try lia.
  { rewrite Z.land_comm. apply land_byte_u8; [done|]. apply (mask_u8 dm). lia. }
  { intros j Hj. rewrite Z.land_spec, (proj2 (mask_bits dm j ltac:(lia) Hj)).
    destruct (Z.leb_spec dm j); [|done]. replace (s + (j - dm)) with (8 * so + j) by lia. by rewrite (bitm_byte _ _ b). }
  rewrite Eb. cbn [mbind option_bind]. rewrite E1. cbn [mbind option_bind].
  destruct (same_offset_tail (so + 1) (o + 1) (Z.max 0 (len - (8 - dm))) dst1) as (dst2 & E2 & C2);
    try (by destruct C1); try lia; [destruct C1; lia|].
  exists dst2. split; [exact E2|]. rewrite Hd1. by apply (copied_head _ _ _ _ _ dst1 _ (8 * (so + 1))); try lia.
Qed.

(** Shifted bytes, then the remaining bits. *)
Lemma shifted_tail so ls o len dst :
  bytes_ok dst -> 0 <= so -> 0 <= o -> 0 <= len -> 0 < ls < 8 -> 8 * so + ls + len + 8 <= 8 * zlen src -> 8 * o + len <= 8 * zlen dst ->
  exists dst',
    ('(dst_org, src', dst') ← middle_copy (Z.to_nat (len / 8)) src so ls (8 - ls) dst o;
     if negb (len mod 8 =? 0) then
       c ← shifted_byte src src' ls (8 - ls); last_copy dst_org dst' (len mod 8) c
     else Some dst_org) = Some dst' /\ copied src (8 * so + ls) len dst (8 * o) dst'.
Proof.
  intros Hok Hso Ho Hlen Hls Hs Hd. assert (Hq : 0 <= len / 8) by (apply Z.div_pos; lia). byte_of len n m.
  destruct (middle_copy_spec src Hsrc (Z.to_nat n) so ls dst o) as (dst1 & E1 & C1); try done; try lia.
  rewrite Z2Nat.id in E1, C1 by lia. rewrite E1. cbn [mbind option_bind].
  destruct (Z.eqb_spec m 0) as [E0|E0]; cbn [negb].
  { exists dst1. split; [done|]. by replace len with (8 * n) by lia. }
  destruct (shifted_byte_bits src (so + n) ls Hsrc ltac:(lia) ltac:(lia) Hls) as (c & Ec & Hc & Hb).
  rewrite Ec. cbn [mbind option_bind]. destruct C1 as [Z1 O1 B1].
  destruct (last_copy_spec src (8 * so + ls + 8 * n) dst1 (o + n) m c) as (dst2 & E2 & C2); try done; try lia.
  { intros j Hj. rewrite Hb by lia. f_equal. lia. }
  exists dst2. split; [done|]. replace len with (8 * n + m) by lia.
  apply (copied_trans _ _ _ _ _ _ dst1); try lia; [done|]. by replace (8 * o + 8 * n) with (8 * (o + n)) by lia.
Qed.

(** The first byte of the destination takes its bits from the shifted source. *)
Lemma first_shifted so sm dm :
  0 <= so -> 0 <= sm < 8 -> 0 <= dm < 8 -> sm <> dm -> so + 1 < zlen src ->
  exists c sp ls,
    line_up src so sm dm = Some (c, sp, ls, 8 - ls) /\
    is_u8 c /\ 0 < ls < 8 /\ 0 <= sp /\ 8 * sp + ls = 8 * so + sm + (8 - dm) /\
    (forall j, 0 <= j < 8 -> Z.testbit c (7 - j) = if dm <=? j then bitm src (8 * so + sm + (j - dm)) else false).
Proof.
  intros Hso Hsm Hdm Hne Hz. destruct (mask_u8 dm ltac:(lia)) as [_ [M _]]. unfold line_up, CHAR_BIT. rewrite Z.gtb_ltb. destruct (Z.ltb_spec dm sm).
  - destruct (shifted_byte_bits src so (sm - dm) Hsrc ltac:(lia) ltac:(lia) ltac:(lia)) as (c & Ec & Hc & Hb).
    rewrite Ec. eexists _, _, _. split; [done|]. split_and!; try lia; [by apply land_byte_u8|].
    intros j Hj. rewrite Z.land_spec, (proj2 (mask_bits dm j ltac:(lia) Hj)), Hb by done.
    destruct (Z.leb_spec dm j); [rewrite andb_true_r; f_equal; lia|by rewrite andb_false_r].
  - destruct (load_inside src so ltac:(lia)) as (b & Eb). pose proof (load_u8 _ _ _ Hsrc Eb) as Hb.
    rewrite Eb. exists (Z.land (Z.shiftr b (dm - sm)) (reverse_mask_xor dm)), so, (8 - (dm - sm)).
    split; [cbn [mbind option_bind]; do 2 f_equal; lia|]. split_and!; try lia; [apply land_byte_u8; [apply shiftr_u8; [done|lia]|done]|].
    intros j Hj. rewrite Z.land_spec, (proj2 (mask_bits dm j ltac:(lia) Hj)), Z.shiftr_spec by lia.
    destruct (Z.leb_spec dm j); [|by rewrite andb_false_r]. rewrite andb_true_r.
    replace (8 * so + sm + (j - dm)) with (8 * so + (sm + (j - dm))) by lia. rewrite (bitm_byte _ _ b) by (done || lia). f_equal. lia.
Qed.

(** Different places of a byte: the source is shifted. *)
Lemma copy_other_offset s len dst d :
  bytes_ok dst -> 0 <= s -> 0 <= d -> 0 < len -> s + len + 8 <= 8 * zlen src -> d + len <= 8 * zlen dst -> s mod 8 <> d mod 8 ->
  exists dst', bitarray_copy src s len dst d = Some dst' /\ copied src s len dst d dst'.
Proof.
  intros Hok Hs Hd Hlen Hzs Hzd Hsd. unfold bitarray_copy. rewrite (proj2 (Z.eqb_neq len 0)) by lia. cbn [negb].
  unfold CHAR_BIT. rewrite (proj2 (Z.eqb_neq _ _) Hsd). byte_of s so sm. byte_of d o dm.
  destruct (first_shifted so sm dm ltac:(lia) Hm Hm0 Hsd ltac:(lia)) as (c & sp & ls & E0 & Hc & Hls & Hsp & Hpos & Hbits).
  rewrite <- Hd0 in Hpos, Hbits.
  rewrite E0. cbn [mbind option_bind].
  destruct (first_copy_spec src s dst o dm len c) as (dst1 & E1 & C1); try done; try lia.
  rewrite E1. cbn [mbind option_bind].
  destruct (Z.le_ge_cases len (8 - dm)) as [Hle|Hge].
  - exists dst1. rewrite Z.max_l by lia. split; [done|]. rewrite Z.min_l in C1 by lia. by rewrite Hd1.
  - destruct (shifted_tail sp ls (o + 1) (Z.max 0 (len - (8 - dm))) dst1) as (dst2 & E2 & C2);
      try (by destruct C1); try lia; [destruct C1; lia|].
    exists dst2. split; [exact E2|]. rewrite Hd1. by apply (copied_head _ _ _ _ _ dst1 _ (8 * sp + ls)).
Qed.

End bit_copy.

(** ** The copy *)

(** Both offsets whole bytes: a partial last byte is cleared after its bits. *)
Lemma bit_copy_aligned src dst s len d :
  bytes_ok src -> bytes_ok dst -> 0 <= s -> 0 <= d -> 0 <= len -> s + len <= 8 * zlen src -> d + len <= 8 * zlen dst ->
  d mod 8 = 0 -> s mod 8 = 0 ->
  exists dst',
    (bytes ← load_bytes src (s / 8) (len / 8);
     dst ← store dst (d / 8) bytes;
     if negb (len mod 8 =? 0) then
       b ← load src (s / 8 + len / 8);
       store dst (d / 8 + len / 8) [Z.land b (reverse_mask (len mod 8))]
     else Some dst) = Some dst' /\ zlen dst' = zlen dst /\ bytes_ok dst' /\
    forall i, 0 <= i ->
      (d <= i < d + len -> bitm dst' i = bitm src (s + (i - d))) /\
      (i < d \/ 8 * ((d + len + 7) / 8) <= i -> bitm dst' i = bitm dst i).
Proof.
  intros Hsrc Hdst Hs Hd Hlen Hzs Hzd Ed Es. assert (Hq : 0 <= len / 8) by (apply Z.div_pos; lia).
  assert (Hup := Z.div_mod (d + len + 7) 8 ltac:(lia)). assert (Hup' := Z.mod_pos_bound (d + len + 7) 8 ltac:(lia)).
  set (up := (d + len + 7) / 8) in *. clearbody up.
  byte_of s so sm. byte_of d o dm. byte_of len n m.
  destruct (memcpy_spec src Hsrc so n dst o) as (bs & dst1 & L1 & S1 & [Z1 O1 B1]); try done; try lia.
  rewrite L1. cbn [mbind option_bind]. rewrite S1. cbn [mbind option_bind].
  destruct (Z.eqb_spec m 0) as [E0|E0]; cbn [negb].
  - exists dst1. split_and!; try done. intros i Hi. rewrite B1 by done. split; intros ?; split_tests; try done; try lia. f_equal. lia.
  - destruct (load_inside src (so + n) ltac:(lia)) as (b & Eb). pose proof (load_u8 _ _ _ Hsrc Eb) as Hb.
    destruct (mask_u8 m ltac:(lia)) as [[M _] _].
    destruct (bitm_store dst1 (o + n) (Z.land b (reverse_mask m)) ltac:(lia)) as (dst2 & E2 & Z2 & O2 & B2).
    rewrite Eb. cbn [mbind option_bind]. exists dst2. split_and!; [done|lia|by apply O2, land_byte_u8|].
    intros i Hi. rewrite B2, B1 by done. byte_of i q r. destruct (Z.eqb_spec q (o + n)) as [Eq|Eq].
    + split; [|lia]. intros ?. rewrite Z.land_spec, (proj1 (mask_bits m r ltac:(lia) ltac:(lia))).
      rewrite (proj2 (Z.ltb_lt r m)) by lia. rewrite andb_true_r.
      replace (s + (i - d)) with (8 * (so + n) + r) by lia. by rewrite (bitm_byte _ _ b) by (done || lia).
    + split; intros ?; split_tests; try done; try lia. f_equal. lia.
Qed.

(** [srsran_bit_copy] puts the bits in their place and keeps the others, except that it may clear
    the rest of the last byte it writes. *)
Lemma bit_copy_spec src dst s len d :
  bytes_ok src -> bytes_ok dst -> 0 <= s -> 0 <= d -> 0 <= len -> s + len + 8 <= 8 * zlen src -> d + len <= 8 * zlen dst ->
  exists dst', srsran_bit_copy dst d src s len = Some dst' /\ zlen dst' = zlen dst /\ bytes_ok dst' /\
    forall i, 0 <= i ->
      (d <= i < d + len -> bitm dst' i = bitm src (s + (i - d))) /\
      (i < d \/ 8 * ((d + len + 7) / 8) <= i -> bitm dst' i = bitm dst i).
Proof.
  intros Hsrc Hdst Hs Hd Hlen Hzs Hzd.
  assert (Hup : d + len <= 8 * ((d + len + 7) / 8)).
  { pose proof (Z.div_mod (d + len + 7) 8). pose proof (Z.mod_pos_bound (d + len + 7) 8). lia. }
  unfold srsran_bit_copy. destruct ((d mod 8 =? 0) && (s mod 8 =? 0)) eqn:E.
  - apply andb_true_iff in E as [Ed%Z.eqb_eq Es%Z.eqb_eq]. apply bit_copy_aligned; done || lia.
  - destruct (Z.eq_dec len 0) as [->|Hn].
    { exists dst. split_and!; try done. intros i Hi. split; [lia|done]. }
    assert (exists dst', bitarray_copy src s len dst d = Some dst' /\ copied src s len dst d dst') as (dst' & -> & [Z1 O1 B1]).
    { destruct (Z.eq_dec (s mod 8) (d mod 8)); [apply copy_same_offset|apply copy_other_offset]; done || lia. }
    exists dst'. split_and!; try done. intros i Hi. rewrite B1 by done. split; intros ?; split_tests; try done; lia.
Qed.
