(* ===== verification/RateMatch.v ===== *)
(** * Rate matching

    [lib/src/phy/fec/turbo/rm_turbo.c], transmitter side: the tables of the sub-block
    interleavers and of the first bit of each redundancy version, and
    [srsran_rm_turbo_tx_lut], which interleaves the output of the turbo coder into the
    circular buffer and copies the bits that are sent.

    Arrays are lists, a pointer is an index; an access outside of an array is undefined,
    [None].  The static tables are a value of their own. *)

From stdpp Require Import base list gmap numbers list_basics list_relations.
From S2P Require Import Prelude Float32 BitPack BitCopy CbSegm TurboCoder.

Local Open Scope Z_scope.

(** ** Tables *)

Definition NCOLS : Z := 32.

Definition RM_PERM_TC : list Z :=
  [0; 16; 8; 24; 4; 20; 12; 28; 2; 18; 10; 26; 6; 22; 14; 30; 1; 17; 9; 25; 5; 21; 13; 29; 3; 19; 11; 27; 7; 23; 15; 31].

Definition rm_perm (j : Z) : Z := default 0 (RM_PERM_TC !! Z.to_nat j).

(** The entries written so far ([k_b] is their number) and the pairs of [k0_vec_]. *)
Record gen_state := mk_gen { g_table : list Z; g_k0 : list (Z * Z) }.

(** The loop over the four redundancy versions after an entry: [pos] is the place in the circular
    buffer, [value] the index among the bits that are sent. *)
Definition k0_scan (modulus pos value : Z) (last_is_null : bool) (k0_vec_ : list (Z * Z)) : list (Z * Z) :=
  map (fun '(k0, k1) => if (k1 =? -1) && ((k0 mod modulus <=? pos) && negb last_is_null) then (k0, value) else (k0, k1)) k0_vec_.

(** One place of the buffer: an entry of the table or a dummy bit, then the scan. *)
Definition gen_place (modulus offset pos : Z) (entry : option Z) (st : gen_state) : gen_state :=
  let table := match entry with Some v => g_table st ++ [u16 v] | None => g_table st end in
  mk_gen table (k0_scan modulus pos (offset + zlen table - 1) (bool_decide (entry = None)) (g_k0 st)).

(** The entry of the place in row [i] and column [j] of the first two streams. *)
Definition place (i j ndummy : Z) : option Z :=
  let x := i * NCOLS + rm_perm j in if x >=? ndummy then Some (x - ndummy) else None.

(** The place [buff_idx1] of the third stream. *)
Definition place2 (buff_idx1 nrows ndummy : Z) : option Z :=
  let kidx := (rm_perm (buff_idx1 / nrows) + NCOLS * (buff_idx1 mod nrows) + 1) mod (nrows * NCOLS) in
  if kidx - ndummy >=? 0 then Some (kidx - ndummy) else None.

Definition srsran_rm_turbo_gentable_systematic (k0_vec_ : list (Z * Z)) (nrows ndummy : Z) : gen_state :=
  fst (fold_left (fun acc j => fold_left (fun acc i =>
      let '(st, buff_idx) := acc in
      (gen_place (3 * nrows * NCOLS) 0 buff_idx (place i j ndummy) st, buff_idx + 1)) (seqZ 0 nrows) acc)
    (seqZ 0 NCOLS) (mk_gen [] k0_vec_, 0)).

Definition srsran_rm_turbo_gentable_parity (k0_vec_ : list (Z * Z)) (offset nrows ndummy : Z) : gen_state :=
  let K_p := nrows * NCOLS in
  fst (fold_left (fun acc j => fold_left (fun acc i =>
      let '(st, (buff_idx0, buff_idx1)) := acc in
      let st := gen_place (3 * K_p) offset (2 * buff_idx0 + K_p) (place i j ndummy) st in
      let st := gen_place (3 * K_p) offset (2 * buff_idx1 + 1 + K_p) (Z.add offset <$> place2 buff_idx1 nrows ndummy) st in
      (st, (buff_idx0 + 1, buff_idx1 + 1))) (seqZ 0 nrows) acc)
    (seqZ 0 NCOLS) (mk_gen [] k0_vec_, (0, 0))).

Record rm_tables := mk_rm {
  rm_turbo_tables_generated : bool;
  bit_interleavers_systematic_bits : Z -> srsran_bit_interleaver_t;
  bit_interleavers_parity_bits : Z -> srsran_bit_interleaver_t;
  k0_vec : Z -> list (Z * Z)
}.

(** [nrows] and [ndummy] of a code block size. *)
Definition rm_nrows (in_len : Z) : Z := (in_len / 3 - 1) / NCOLS + 1.
Definition rm_ndummy (in_len : Z) : Z := Z.max 0 (rm_nrows in_len * NCOLS - in_len / 3).

(** The first places of the four redundancy versions, before the scan. *)
Definition k0_start (nrows : Z) : list (Z * Z) :=
  map (fun i => (nrows * (2 * u16 (fl_ceil (fl_div (fl_of_int (3 * (nrows * NCOLS))) (fl_of_int (8 * nrows)))) * i + 2), -1))
    (seqZ 0 4).

(** The tables of one code block size. *)
Definition rm_systematic (cb_idx : Z) : gen_state :=
  let in_len := 3 * srsran_cbsegm_cbsize cb_idx + 12 in
  srsran_rm_turbo_gentable_systematic (k0_start (rm_nrows in_len)) (rm_nrows in_len) (rm_ndummy in_len).

Definition rm_parity (cb_idx : Z) : gen_state :=
  let in_len := 3 * srsran_cbsegm_cbsize cb_idx + 12 in
  srsran_rm_turbo_gentable_parity (g_k0 (rm_systematic cb_idx)) (in_len / 3) (rm_nrows in_len) (rm_ndummy in_len).

Definition srsran_rm_turbo_gentables (t : rm_tables) : rm_tables :=
  if rm_turbo_tables_generated t then t
  else
    mk_rm true
      (fun cb_idx => srsran_bit_interleaver_init (g_table (rm_systematic cb_idx)) (srsran_cbsegm_cbsize cb_idx + 4))
      (fun cb_idx => srsran_bit_interleaver_init (g_table (rm_parity cb_idx)) ((srsran_cbsegm_cbsize cb_idx + 4) * 2))
      (fun cb_idx => g_k0 (rm_parity cb_idx)).

Definition srsran_rm_turbo_free_tables (t : rm_tables) : rm_tables :=
  if rm_turbo_tables_generated t then mk_rm false (fun _ => bil_zero) (fun _ => bil_zero) (k0_vec t)
  else mk_rm false (bit_interleavers_systematic_bits t) (bit_interleavers_parity_bits t) (k0_vec t).

(** ** Transmitter *)

(** The loop of the bit selection; every turn but the first and the last goes round the buffer. *)
Fixpoint select_loop (fuel : nat) (w_buff : list Z) (in_len out_len w_offset r_ptr w_len : Z) (output : list Z) : option (list Z) :=
  if w_len <? out_len then
    match fuel with
    | O => None
    | S fuel =>
        let cp_len := out_len - w_len in
        let cp_len := if cp_len + r_ptr >=? in_len then in_len - r_ptr else cp_len in
        output ← srsran_bit_copy output (w_len + w_offset) w_buff r_ptr cp_len;
        let r_ptr := r_ptr + cp_len in
        let r_ptr := if r_ptr >=? in_len then r_ptr - in_len else r_ptr in
        select_loop fuel w_buff in_len out_len w_offset r_ptr (w_len + cp_len) output
    end
  else Some output.

(** The interleaver run on the part of an array from a byte on. *)
Definition run_at (q : srsran_bit_interleaver_t) (input output : list Z) (off w_offset : Z) : option (list Z) :=
  part ← srsran_bit_interleaver_run q input (zdrop off output) w_offset;
  Some (ztake off output ++ part).

Definition SRSRAN_ERROR_INVALID_INPUTS : Z := -2.

(** The status, the circular buffer and the output. *)
Definition srsran_rm_turbo_tx_lut (t : rm_tables) (w_buff systematic parity output : list Z)
    (cb_idx out_len w_offset rv_idx : Z) : option (Z * list Z * list Z) :=
  if (rv_idx <? 4) && (cb_idx <? SRSRAN_NOF_TC_CB_SIZES) then
    let in_len := 3 * srsran_cbsegm_cbsize cb_idx + 12 in
    w_buff ← (
      if rv_idx =? 0 then
        w_buff ← srsran_bit_interleaver_run (bit_interleavers_systematic_bits t cb_idx) systematic w_buff 0;
        run_at (bit_interleavers_parity_bits t cb_idx) parity w_buff (in_len / 24) 4
      else Some w_buff);
    let r_ptr := snd (default (0, 0) (k0_vec t cb_idx !! Z.to_nat rv_idx)) in
    output ← select_loop (Z.to_nat (out_len / in_len) + 2) w_buff in_len out_len w_offset r_ptr 0 output;
    Some (0, w_buff, output)
  else Some (SRSRAN_ERROR_INVALID_INPUTS, w_buff, output).
