(* ===== verification/RateMatchTables.v ===== *)
(** * Tables of the rate matching

    The two interleaver tables of [rm_turbo.c] list the places of the circular buffer of
    the standard (36.212 5.1.4.1) that hold a bit, in order, and [k0_vec] holds, for every
    redundancy version, how many such places come before its first bit. *)

From stdpp Require Import base list gmap numbers list_basics list_relations.
From S2P Require Import Prelude Float32 BitPack CbSegm TurboCoder TurboCorrect RateMatch.

Local Open Scope Z_scope.

(** ** Loops *)

Section loops.
  Context {A : Type}.

Lemma seqZ_snoc a n : 0 <= n -> seqZ a (n + 1) = seqZ a n ++ [a + n].
Proof. intros Hn. rewrite seqZ_app by lia. f_equal. Qed.

(** A loop in a loop is a loop over the quotients and the remainders. *)
Lemma nested_fold (f : A -> Z -> Z -> A) R n a :
  0 < R -> 0 <= n ->
  fold_left (fun acc j => fold_left (fun acc i => f acc j i) (seqZ 0 R) acc) (seqZ 0 n) a =
  fold_left (fun acc k => f acc (k / R) (k mod R)) (seqZ 0 (n * R)) a.
Proof.
  intros HR Hn. pattern n. apply natlike_ind; [done| |done]. clear n Hn. intros n Hn IH.
  change (Z.succ n) with (n + 1). rewrite seqZ_snoc, fold_left_app, IH by lia. cbn [fold_left].
  rewrite Z.mul_add_distr_r, Z.mul_1_l, seqZ_app, fold_left_app by lia.
  set (acc := fold_left _ (seqZ 0 (n * R)) a). clearbody acc. rewrite !Z.add_0_l.
  rewrite <- (Z.add_0_r (n * R)) at 1. rewrite <- (fmap_add_seqZ (n * R) 0).
  assert (G : forall l acc, Forall (fun i => 0 <= i < R) l ->
    fold_left (fun acc i => f acc n i) l acc = fold_left (fun acc k => f acc (k / R) (k mod R)) (Z.add (n * R) <$> l) acc).
  { induction l as [|i l IHl]; intros acc' Hl; [done|]. apply Forall_cons in Hl as [Hi Hl].
    cbn [fold_left fmap list_fmap]. rewrite <- (Z.div_unique (n * R + i) R n i), <- (Z.mod_unique (n * R + i) R n i) by lia.
    by apply IHl. }
  apply G. apply Forall_forall. intros i Hi%elem_of_seqZ. lia.
Qed.

(** A counter that runs along is the index. *)
Lemma counted_fold (g : A -> Z -> Z -> A) b n a :
  0 <= n -> fold_left (fun acc k => let '(st, c) := acc in (g st c k, c + 1)) (seqZ b n) (a, b) =
    (fold_left (fun st k => g st k k) (seqZ b n) a, b + n).
Proof.
  intros Hn. pattern n. apply natlike_ind; [change (seqZ b 0) with (@nil Z); cbn [fold_left]; f_equal; lia| |done]. clear n Hn. intros n Hn IH.
  change (Z.succ n) with (n + 1). rewrite seqZ_snoc, !fold_left_app, IH by lia. cbn [fold_left]. f_equal. lia.
Qed.

End loops.

(** ** Places *)

Definition sys_place (R nd k : Z) : option Z := place (k mod R) (k / R) nd.

Definition sys_places (R nd : Z) : list (option Z) := map (sys_place R nd) (seqZ 0 (NCOLS * R)).

Definition par_places (D R nd : Z) : list (option Z) :=
  concat (map (fun k => [sys_place R nd k; Z.add D <$> place2 k R nd]) (seqZ 0 (NCOLS * R))).

(** The scan over consecutive places. *)
Fixpoint gen_places (modulus offset pos : Z) (es : list (option Z)) (st : gen_state) : gen_state :=
  match es with
  | [] => st
  | e :: es => gen_places modulus offset (pos + 1) es (gen_place modulus offset pos e st)
  end.

Lemma gen_places_app modulus offset pos es1 es2 st :
  gen_places modulus offset pos (es1 ++ es2) st =
    gen_places modulus offset (pos + zlen es1) es2 (gen_places modulus offset pos es1 st).
Proof.
  revert pos st. induction es1 as [|e es1 IH]; intros pos st; cbn [app gen_places].
  - by rewrite zlen_nil, Z.add_0_r.
  - rewrite IH, zlen_cons. by replace (pos + 1 + zlen es1) with (pos + (1 + zlen es1)) by lia.
Qed.

Lemma zlen_map_seqZ {B} (f : Z -> B) a n : 0 <= n -> zlen (map f (seqZ a n)) = n.
Proof. intros Hn. unfold zlen. rewrite length_map, length_seqZ. lia. Qed.

Lemma systematic_places k0 R nd :
  0 < R -> srsran_rm_turbo_gentable_systematic k0 R nd = gen_places (3 * R * NCOLS) 0 0 (sys_places R nd) (mk_gen [] k0).
Proof.
  intros HR. unfold srsran_rm_turbo_gentable_systematic.
  assert (E := nested_fold (fun acc j i => let '(st, buff_idx) := acc in
    (gen_place (3 * R * NCOLS) 0 buff_idx (place i j nd) st, buff_idx + 1)) R NCOLS (mk_gen [] k0, 0) HR ltac:(done)).
  etransitivity; [exact (f_equal fst E)|].
  assert (E2 := counted_fold (fun st c k => gen_place (3 * R * NCOLS) 0 c (sys_place R nd k) st) 0 (NCOLS * R) (mk_gen [] k0)
    ltac:(unfold NCOLS; lia)).
  etransitivity; [exact (f_equal fst E2)|]. clear E E2.
  cbn [fst]. unfold sys_places. assert (Hn : 0 <= NCOLS * R) by (unfold NCOLS; lia). generalize dependent (NCOLS * R).
  intros n Hn. pattern n. apply natlike_ind; [done| |done]. clear n Hn. intros n Hn IH.
  change (Z.succ n) with (n + 1). rewrite seqZ_snoc, fold_left_app, map_app, gen_places_app, IH by lia.
  by rewrite zlen_map_seqZ.
Qed.

Lemma zlen_par_prefix D R nd n :
  0 <= n -> zlen (concat (map (fun k => [sys_place R nd k; Z.add D <$> place2 k R nd]) (seqZ 0 n))) = 2 * n.
Proof.
  intros Hn. pattern n. apply natlike_ind; [done| |done]. clear n Hn. intros n Hn IH.
  change (Z.succ n) with (n + 1). rewrite seqZ_snoc, map_app, concat_app, zlen_app, IH by lia. cbn [map concat app].
  rewrite !zlen_cons, zlen_nil. lia.
Qed.

Lemma parity_places k0 D R nd :
  0 < R -> srsran_rm_turbo_gentable_parity k0 D R nd =
    gen_places (3 * (R * NCOLS)) D (R * NCOLS) (par_places D R nd) (mk_gen [] k0).
Proof.
  intros HR. unfold srsran_rm_turbo_gentable_parity. cbv zeta. set (M := 3 * (R * NCOLS)). set (b := R * NCOLS).
  assert (E := nested_fold (fun acc j i => let '(st, (c, c1)) := acc in
    (gen_place M D (2 * c1 + 1 + b) (Z.add D <$> place2 c1 R nd) (gen_place M D (2 * c + b) (place i j nd) st), (c + 1, c1 + 1)))
    R NCOLS (mk_gen [] k0, (0, 0)) HR ltac:(done)).
  etransitivity; [exact (f_equal fst E)|]. clear E.
  unfold par_places. assert (Hn : 0 <= NCOLS * R) by (unfold NCOLS; lia). generalize dependent (NCOLS * R). intros n Hn.
  assert (G : fold_left (fun acc k => let '(st, (c, c1)) := acc in (gen_place M D (2 * c1 + 1 + b) (Z.add D <$> place2 c1 R nd)
      (gen_place M D (2 * c + b) (place (k mod R) (k / R) nd) st), (c + 1, c1 + 1))) (seqZ 0 n) (mk_gen [] k0, (0, 0)) =
    (gen_places M D b (concat (map (fun k => [sys_place R nd k; Z.add D <$> place2 k R nd]) (seqZ 0 n))) (mk_gen [] k0), (n, n))).
  { pattern n. apply natlike_ind; [done| |done]. clear n Hn. intros n Hn IH.
    change (Z.succ n) with (n + 1). rewrite seqZ_snoc, fold_left_app, map_app, concat_app, gen_places_app, IH by lia.
    rewrite zlen_par_prefix by done. cbn [fold_left map concat app gen_places]. rewrite Z.add_0_l. unfold sys_place.
    replace (b + 2 * n) with (2 * n + b) by lia. by replace (2 * n + b + 1) with (2 * n + 1 + b) by lia. }
  exact (f_equal fst G).
Qed.

(** ** The scan *)

Definition bits_in (es : list (option Z)) : list Z := omap id es.

Lemma bits_in_app es1 es2 : bits_in (es1 ++ es2) = bits_in es1 ++ bits_in es2.
Proof. unfold bits_in. apply omap_app. Qed.

Lemma gen_places_table modulus offset pos es st :
  g_table (gen_places modulus offset pos es st) = g_table st ++ map u16 (bits_in es).
Proof.
  revert pos st. induction es as [|[e|] es IH]; intros pos st; cbn [gen_places].
  - by rewrite app_nil_r.
  - rewrite IH. cbn [gen_place g_table]. by rewrite <- app_assoc.
  - by rewrite IH.
Qed.

(** The index, among the places that hold a bit, of the first one from [k0] on. *)
Fixpoint scan (k0 pos cnt : Z) (es : list (option Z)) : Z :=
  match es with
  | [] => -1
  | Some _ :: es => if k0 <=? pos then cnt else scan k0 (pos + 1) (cnt + 1) es
  | None :: es => scan k0 (pos + 1) cnt es
  end.

Lemma gen_places_k0 modulus offset pos es st :
  0 <= offset ->
  g_k0 (gen_places modulus offset pos es st) =
    map (fun '(k0, k1) => (k0, if k1 =? -1 then scan (k0 mod modulus) pos (offset + zlen (g_table st)) es else k1)) (g_k0 st).
Proof.
  intros Hoff. revert pos st. induction es as [|e es IH]; intros pos st; cbn [gen_places].
  - rewrite <- (map_id (g_k0 st)) at 1. apply map_ext. intros [k0 k1]. cbn [scan]. by destruct (Z.eqb_spec k1 (-1)) as [->|].
  - rewrite IH. pose proof (zlen_nonneg (g_table st)). destruct e as [v|]; cbn [gen_place g_k0 g_table]; unfold k0_scan; rewrite map_map; apply map_ext; intros [k0 k1].
    + rewrite zlen_app, zlen_cons, zlen_nil. rewrite bool_decide_eq_false_2 by done. cbn [negb scan]. rewrite andb_true_r.
      destruct (Z.eqb_spec k1 (-1)) as [->|Hk]; cbn [andb]; [|by rewrite (proj2 (Z.eqb_neq _ _) Hk)].
      destruct (k0 mod modulus <=? pos); cbn [andb].
      * rewrite (proj2 (Z.eqb_neq _ _)) by lia. f_equal. lia.
      * rewrite Z.eqb_refl. do 2 f_equal. lia.
    + rewrite bool_decide_eq_true_2 by done. cbn [negb scan]. by rewrite !andb_false_r.
Qed.

Lemma scan_spec k0 pos cnt es :
  0 <= cnt -> Exists is_Some (zdrop (k0 - pos) es) -> scan k0 pos cnt es = cnt + zlen (bits_in (ztake (k0 - pos) es)).
Proof.
  revert pos cnt. induction es as [|e es IH]; intros pos cnt Hc Hex.
  - unfold zdrop in Hex. rewrite drop_nil in Hex. by apply Exists_nil in Hex.
  - destruct (Z.le_gt_cases k0 pos) as [Hle|Hgt].
    + unfold ztake, zdrop in *. replace (Z.to_nat (k0 - pos)) with O in * by lia. cbn [drop] in Hex.
      rewrite take_0. change (zlen (bits_in [])) with 0. destruct e as [v|]; cbn [scan].
      * rewrite (proj2 (Z.leb_le _ _)) by lia. lia.
      * apply Exists_cons in Hex as [[? ?]|Hex]; [done|]. rewrite IH; [|done|].
        -- unfold ztake. replace (Z.to_nat (k0 - (pos + 1))) with O by lia. rewrite take_0. change (zlen (bits_in [])) with 0. lia.
        -- by replace (Z.to_nat (k0 - (pos + 1))) with O by lia.
    + unfold ztake, zdrop in *. replace (Z.to_nat (k0 - pos)) with (S (Z.to_nat (k0 - (pos + 1)))) in * by lia.
      cbn [drop take] in Hex |- *. destruct e as [v|]; cbn [scan].
      * rewrite (proj2 (Z.leb_gt _ _)) by lia. rewrite IH by (done || lia). unfold ztake.
        change (bits_in (Some v :: ?l)) with (v :: bits_in l). rewrite zlen_cons. lia.
      * by rewrite IH by (done || lia).
Qed.

Lemma scan_app k0 pos cnt es1 es2 :
  0 <= cnt ->
  scan k0 pos cnt (es1 ++ es2) =
    let r := scan k0 pos cnt es1 in
    if r =? -1 then scan k0 (pos + zlen es1) (cnt + zlen (bits_in es1)) es2 else r.
Proof.
  revert pos cnt. induction es1 as [|e es1 IH]; intros pos cnt Hc; cbn [app scan].
  - cbv zeta. rewrite Z.eqb_refl. change (zlen (bits_in [])) with 0. by rewrite zlen_nil, !Z.add_0_r.
  - destruct e as [v|].
    + destruct (k0 <=? pos); [cbv zeta; by rewrite (proj2 (Z.eqb_neq _ _)) by lia|]. rewrite IH by lia. cbv zeta.
      change (bits_in (Some v :: es1)) with (v :: bits_in es1). rewrite !zlen_cons.
      replace (pos + 1 + zlen es1) with (pos + (1 + zlen es1)) by lia.
      by replace (cnt + 1 + zlen (bits_in es1)) with (cnt + (1 + zlen (bits_in es1))) by lia.
    + rewrite IH by lia. cbv zeta. change (bits_in (None :: es1)) with (bits_in es1). rewrite zlen_cons.
      by replace (pos + 1 + zlen es1) with (pos + (1 + zlen es1)) by lia.
Qed.

(** ** Sub-block interleavers *)

(** The bit of the padded stream at the position [x]. *)
Definition padded (nd x : Z) : option Z := if x >=? nd then Some (x - nd) else None.

(** The position read into the place [k] of the first two streams, and of the third. *)
Definition sub_block (R k : Z) : Z := rm_perm (k / R) + NCOLS * (k mod R).
Definition sub_block2 (R k : Z) : Z := (sub_block R k + 1) mod (NCOLS * R).

Lemma sys_place_padded R nd k : sys_place R nd k = padded nd (sub_block R k).
Proof. unfold sys_place, place, padded, sub_block. by replace (k mod R * NCOLS + rm_perm (k / R)) with (rm_perm (k / R) + NCOLS * (k mod R)) by lia. Qed.

Lemma place2_padded R nd k : place2 k R nd = padded nd (sub_block2 R k).
Proof.
  unfold place2, padded, sub_block2, sub_block. rewrite (Z.mul_comm R NCOLS), !Z.geb_leb.
  set (x := _ mod _). destruct (Z.leb_spec 0 (x - nd)), (Z.leb_spec nd x); done || lia.
Qed.

Lemma rm_perm_inj a b : 0 <= a < 32 -> 0 <= b < 32 -> rm_perm a = rm_perm b -> a = b.
Proof.
  intros Ha Hb E.
  assert (T : range_forallb 32 (fun a => rm_perm (rm_perm a) =? a) = true) by by vm_compute.
  pose proof (range_forallb_spec _ _ T a Ha) as Ta. pose proof (range_forallb_spec _ _ T b Hb) as Tb. cbv beta in Ta, Tb.
  apply Z.eqb_eq in Ta, Tb. congruence.
Qed.

Lemma rm_perm_range a : 0 <= a < 32 -> 0 <= rm_perm a < 32.
Proof.
  intros Ha. assert (T : range_forallb 32 (fun a => (0 <=? rm_perm a) && (rm_perm a <? 32)) = true) by by vm_compute.
  pose proof (range_forallb_spec _ _ T a Ha) as Ta. cbv beta in Ta. apply andb_true_iff in Ta as [?%Z.leb_le ?%Z.ltb_lt]. lia.
Qed.

(** A map of the positions onto themselves. *)
Record onto_itself (N : Z) (f : Z -> Z) : Prop := mk_onto {
  oi_range : forall k, 0 <= k < N -> 0 <= f k < N;
  oi_inj : forall a b, 0 <= a < N -> 0 <= b < N -> f a = f b -> a = b
}.

Lemma sub_block_onto R : 0 < R -> onto_itself (NCOLS * R) (sub_block R).
Proof.
  intros HR. unfold NCOLS, sub_block, NCOLS.
  assert (Hk : forall k, 0 <= k < 32 * R -> 0 <= k / R < 32 /\ 0 <= k mod R < R).
  { intros k Hk. split; [split; [apply Z.div_pos; lia|apply Z.div_lt_upper_bound; lia]|apply Z.mod_pos_bound; lia]. }
  split.
  - intros k H. destruct (Hk k H) as [H1 H2]. pose proof (rm_perm_range _ H1). lia.
  - intros a b Ha Hb E. destruct (Hk a Ha) as [A1 A2], (Hk b Hb) as [B1 B2].
    pose proof (rm_perm_range _ A1). pose proof (rm_perm_range _ B1).
    assert (a mod R = b mod R /\ rm_perm (a / R) = rm_perm (b / R)) as [Em Ep] by lia.
    apply rm_perm_inj in Ep; try done. rewrite (Z.div_mod a R), (Z.div_mod b R) by lia. congruence.
Qed.

Lemma sub_block2_onto R : 0 < R -> onto_itself (NCOLS * R) (sub_block2 R).
Proof.
  intros HR. destruct (sub_block_onto R HR) as [Hr Hi]. unfold sub_block2. assert (HN : 0 < NCOLS * R) by (unfold NCOLS; lia).
  set (N := NCOLS * R) in *. clearbody N. split; [intros k _; apply Z.mod_pos_bound; lia|].
  assert (Hs : forall x, 0 <= x < N -> (x + 1) mod N = if x =? N - 1 then 0 else x + 1).
  { intros x Hx. destruct (Z.eqb_spec x (N - 1)) as [->|]; [|apply Z.mod_small; lia].
    replace (N - 1 + 1) with N by lia. apply Z.mod_same. lia. }
  intros a b Ha Hb. pose proof (Hr a Ha). pose proof (Hr b Hb). rewrite !Hs by done. intros E. apply Hi; [done..|].
  destruct (Z.eqb_spec (sub_block R a) (N - 1)), (Z.eqb_spec (sub_block R b) (N - 1)); lia.
Qed.

Lemma onto_permutation N f : 0 <= N -> onto_itself N f -> map f (seqZ 0 N) ≡ₚ seqZ 0 N.
Proof.
  intros HN [Hr Hi]. apply submseteq_length_Permutation; [|by rewrite length_map].
  apply NoDup_submseteq.
  - apply NoDup_fmap_2_strong; [|apply NoDup_seqZ]. intros a b Ha%elem_of_seqZ Hb%elem_of_seqZ. apply Hi; lia.
  - intros x (k & -> & Hk%elem_of_seqZ)%list_elem_of_fmap. apply elem_of_seqZ. specialize (Hr k). lia.
Qed.

Lemma bits_in_padded N nd : 0 <= nd <= N -> bits_in (map (padded nd) (seqZ 0 N)) = seqZ 0 (N - nd).
Proof.
  intros Hnd. replace N with (nd + (N - nd)) at 1 by lia. rewrite seqZ_app, map_app, bits_in_app by lia.
  assert (E1 : bits_in (map (padded nd) (seqZ 0 nd)) = []).
  { assert (HF : Forall (fun x => x < nd) (seqZ 0 nd)) by (apply Forall_forall; intros x Hx%elem_of_seqZ; lia).
    induction HF as [|x l Hx _ IH]; [done|]. cbn [map]. unfold padded at 1. rewrite Z.geb_leb, (proj2 (Z.leb_gt _ _)) by lia. exact IH. }
  rewrite E1. cbn [app]. rewrite Z.add_0_l.
  assert (E2 : forall l, Forall (fun x => nd <= x) l -> bits_in (map (padded nd) l) = map (fun x => x - nd) l).
  { induction l as [|x l IH]; intros HF; [done|]. apply Forall_cons in HF as [Hx HF]. cbn [map]. unfold padded at 1.
    rewrite Z.geb_leb, (proj2 (Z.leb_le _ _)) by lia. change (bits_in (Some ?v :: ?l)) with (v :: bits_in l). by rewrite IH. }
  rewrite E2 by (apply Forall_forall; intros x Hx%elem_of_seqZ; lia).
  replace (seqZ nd (N - nd)) with (Z.add nd <$> seqZ 0 (N - nd)) by (rewrite fmap_add_seqZ; f_equal; lia).
  rewrite map_map.
  rewrite <- (map_id (seqZ 0 (N - nd))) at 2. apply map_ext. intros x. lia.
Qed.

Lemma bits_in_onto N nd f :
  0 <= nd <= N -> onto_itself N f -> bits_in (map (fun k => padded nd (f k)) (seqZ 0 N)) ≡ₚ seqZ 0 (N - nd).
Proof.
  intros Hnd Hf. rewrite <- (bits_in_padded N nd) by done. rewrite <- (map_map f (padded nd)).
  unfold bits_in. apply omap_Permutation. apply fmap_Permutation. apply onto_permutation; [lia|done].
Qed.

(** ** The tables of a code block size *)

Lemma interleave_permutation {B} (f g : Z -> B) l : concat (map (fun k => [f k; g k]) l) ≡ₚ map f l ++ map g l.
Proof.
  induction l as [|k l IH]; [done|]. cbn [map concat app]. rewrite IH. apply perm_skip. by rewrite Permutation_middle.
Qed.

Lemma bits_in_fmap (f : Z -> Z) es : bits_in (map (fmap f) es) = map f (bits_in es).
Proof. induction es as [|[e|] es IH]; [done| |done]. cbn [map]. change (f e :: bits_in (map (fmap f) es) = f e :: map f (bits_in es)). by rewrite IH. Qed.

Section size.
  Variable j : Z.
  Hypothesis Hj : 0 <= j < 188.

(** The length of a stream, the rows and the dummy bits of an interleaver. *)
Definition stream_len : Z := srsran_cbsegm_cbsize j + 4.
Definition rows : Z := rm_nrows (3 * srsran_cbsegm_cbsize j + 12).
Definition dummies : Z := NCOLS * rows - stream_len.

Lemma size_facts :
  (3 * srsran_cbsegm_cbsize j + 12) / 3 = stream_len /\ 44 <= stream_len <= 6148 /\ stream_len mod 8 = 4 /\
  0 < rows <= 193 /\ 0 <= dummies < 32 /\ rm_ndummy (3 * srsran_cbsegm_cbsize j + 12) = dummies.
Proof.
  destruct (size_index j Hj) as [_ H8]. pose proof (size_range j Hj) as Hr. rewrite <- cbsize_at in H8, Hr by done.
  assert (E3 : (3 * srsran_cbsegm_cbsize j + 12) / 3 = stream_len).
  { unfold stream_len. replace (3 * srsran_cbsegm_cbsize j + 12) with ((srsran_cbsegm_cbsize j + 4) * 3) by lia. apply Z.div_mul. lia. }
  unfold rm_ndummy, dummies, rows, rm_nrows. rewrite E3. unfold stream_len in *. set (K := srsran_cbsegm_cbsize j) in *.
  unfold NCOLS. pose proof (Z.div_mod (K + 4 - 1) 32 ltac:(lia)) as Hd. pose proof (Z.mod_pos_bound (K + 4 - 1) 32 ltac:(lia)) as Hm.
  set (q := (K + 4 - 1) / 32) in *. split_and!; try done; try lia.
  pose proof (Z.div_mod K 8 ltac:(lia)). symmetry. apply Z.mod_unique with (K / 8); lia.
Qed.

Definition sys_list : list (option Z) := sys_places rows dummies.
Definition par_list : list (option Z) := par_places stream_len rows dummies.

Lemma sys_list_bits : bits_in sys_list ≡ₚ seqZ 0 stream_len.
Proof.
  destruct size_facts as (_ & HD & _ & HR & Hnd & _). unfold sys_list, sys_places.
  rewrite (map_ext _ (fun k => padded dummies (sub_block rows k))) by apply sys_place_padded.
  assert (E : NCOLS * rows - dummies = stream_len) by (unfold dummies; lia). rewrite <- E.
  apply bits_in_onto; [|apply sub_block_onto]; unfold NCOLS in *; lia.
Qed.

Lemma par_list_bits : bits_in par_list ≡ₚ seqZ 0 (2 * stream_len).
Proof.
  destruct size_facts as (_ & HD & _ & HR & Hnd & _). unfold par_list, par_places.
  assert (E : NCOLS * rows - dummies = stream_len) by (unfold dummies; lia).
  assert (P : forall f, onto_itself (NCOLS * rows) f -> bits_in (map (fun k => padded dummies (f k)) (seqZ 0 (NCOLS * rows))) ≡ₚ seqZ 0 stream_len).
  { intros f Hf. rewrite <- E. apply bits_in_onto; [unfold NCOLS in *; lia|done]. }
  etransitivity; [apply omap_Permutation, interleave_permutation|]. fold (bits_in (map (sys_place rows dummies) (seqZ 0 (NCOLS * rows)) ++
    map (fun k => Z.add stream_len <$> place2 k rows dummies) (seqZ 0 (NCOLS * rows)))).
  rewrite bits_in_app, <- (map_map (fun k => place2 k rows dummies) (fmap (Z.add stream_len))), bits_in_fmap.
  rewrite (map_ext _ (fun k => padded dummies (sub_block rows k))) by apply sys_place_padded.
  rewrite (map_ext (fun k => place2 k rows dummies) (fun k => padded dummies (sub_block2 rows k))) by (intros; apply place2_padded).
  replace (2 * stream_len) with (stream_len + stream_len) by lia. rewrite seqZ_app by lia. rewrite Z.add_0_l.
  apply Permutation_app; [apply P, sub_block_onto; lia|].
  rewrite (P (sub_block2 rows)) by (apply sub_block2_onto; lia). change (map (Z.add stream_len)) with (fmap (M := list) (Z.add stream_len)).
  rewrite fmap_add_seqZ. by rewrite Z.add_0_r.
Qed.

(** A table of a permutation. *)
Lemma permuted_entries es n :
  0 <= n <= 2 ^ 16 -> bits_in es ≡ₚ seqZ 0 n ->
  map u16 (bits_in es) = bits_in es /\ zlen (bits_in es) = n /\ (forall x, x ∈ bits_in es -> 0 <= x < n).
Proof.
  intros Hn P. assert (HF : forall x, x ∈ bits_in es -> 0 <= x < n).
  { intros x Hx. rewrite P in Hx. apply elem_of_seqZ in Hx. lia. }
  split_and!; [|unfold zlen; rewrite (Permutation_length P), length_seqZ; lia|done].
  rewrite <- (map_id (bits_in es)) at 2. apply map_ext_in. intros x Hx%list_elem_of_In. apply u16_id. specialize (HF x Hx). unfold is_u16. lia.
Qed.

Lemma sys_table :
  g_table (rm_systematic j) = bits_in sys_list /\ zlen (bits_in sys_list) = stream_len /\
  (forall x, x ∈ bits_in sys_list -> 0 <= x < stream_len).
Proof.
  destruct size_facts as (E3 & HD & _ & HR & Hnd & End). destruct (permuted_entries sys_list stream_len) as (E & Hz & Hx); [lia|apply sys_list_bits|].
  split_and!; [|done|done]. unfold rm_systematic. rewrite End. fold rows. rewrite systematic_places by lia.
  rewrite gen_places_table. exact E.
Qed.

Lemma par_table :
  g_table (rm_parity j) = bits_in par_list /\ zlen (bits_in par_list) = 2 * stream_len /\
  (forall x, x ∈ bits_in par_list -> 0 <= x < 2 * stream_len).
Proof.
  destruct size_facts as (E3 & HD & _ & HR & Hnd & End).
  destruct (permuted_entries par_list (2 * stream_len)) as (E & Hz & Hx); [lia|apply par_list_bits|].
  split_and!; [|done|done]. unfold rm_parity. rewrite End, E3. fold rows. rewrite parity_places by lia.
  rewrite gen_places_table. exact E.
Qed.

(** *** First bits *)

Definition first_place (rv : Z) : Z := rows * (24 * rv + 2).

Definition buffer_places : list (option Z) := sys_list ++ par_list.

Lemma k0_start_places : k0_start rows = map (fun rv => (first_place rv, -1)) (seqZ 0 4).
Proof.
  destruct size_facts as (_ & _ & _ & HR & _). unfold k0_start. apply map_ext. intros i. f_equal. unfold first_place, NCOLS.
  rewrite !fl_of_int_exact, fl_ceil_div_exact by lia.
  rewrite (ceil_div_unique (3 * (rows * 32)) (8 * rows) 12) by lia. change (2 * u16 12) with 24. done.
Qed.

Lemma zlen_sys_list : zlen sys_list = NCOLS * rows.
Proof. destruct size_facts as (_ & _ & _ & HR & _). apply zlen_map_seqZ. unfold NCOLS. lia. Qed.

(** The last place but one of the buffer holds a bit. *)
Lemma last_bit : buffer_places !! Z.to_nat (3 * (NCOLS * rows) - 2) = Some (Some (NCOLS * rows - 1 - dummies)).
Proof.
  destruct size_facts as (_ & _ & _ & HR & Hnd & _). pose proof zlen_sys_list as Hz. unfold zlen in Hz. unfold buffer_places, NCOLS in *.
  rewrite lookup_app_r by lia. unfold par_list, par_places, NCOLS.
  replace (32 * rows) with (32 * rows - 1 + 1) at 2 by lia. rewrite seqZ_snoc, map_app, concat_app by lia.
  pose proof (zlen_par_prefix stream_len rows dummies (32 * rows - 1) ltac:(lia)) as Hp. unfold zlen in Hp.
  rewrite lookup_app_r by lia. replace (_ - _ - _)%nat with O by lia. cbn [map concat app lookup list_lookup].
  rewrite sys_place_padded. unfold padded, sub_block, NCOLS. rewrite Z.add_0_l.
  rewrite <- (Z.div_unique (32 * rows - 1) rows 31 (rows - 1)), <- (Z.mod_unique (32 * rows - 1) rows 31 (rows - 1)) by lia.
  change (rm_perm 31) with 31. rewrite Z.geb_leb, (proj2 (Z.leb_le _ _)) by lia. do 2 f_equal. lia.
Qed.

Lemma zlen_bits_in_drop es n : Exists is_Some (zdrop n es) -> zlen (bits_in (ztake n es)) < zlen (bits_in es).
Proof.
  intros Hex. rewrite <- (ztake_zdrop n es) at 2. rewrite bits_in_app, zlen_app.
  assert (0 < zlen (bits_in (zdrop n es))); [|lia].
  induction (zdrop n es) as [|[x|] l IH]; [by apply Exists_nil in Hex| |].
  - change (bits_in (Some x :: l)) with (x :: bits_in l). rewrite zlen_cons. pose proof (zlen_nonneg (bits_in l)). lia.
  - apply Exists_cons in Hex as [[? ?]|Hex]; [done|]. by apply IH.
Qed.

Lemma k0_entry rv :
  0 <= rv < 4 ->
  g_k0 (rm_parity j) !! Z.to_nat rv = Some (first_place rv, zlen (bits_in (ztake (first_place rv) buffer_places))) /\
  zlen (bits_in (ztake (first_place rv) buffer_places)) < 3 * stream_len.
Proof.
  intros Hrv. destruct size_facts as (E3 & HD & _ & HR & Hnd & End). destruct sys_table as (Et & Hz & _). destruct par_table as (_ & Hzp & _).
  assert (Hfp : 0 <= first_place rv < 3 * (rows * NCOLS) - 2) by (unfold first_place, NCOLS; nia).
  assert (Hex : Exists is_Some (zdrop (first_place rv - 0) buffer_places)).
  { rewrite Z.sub_0_r. apply Exists_exists. eexists. split; [|eexists; reflexivity].
    apply list_elem_of_lookup. exists (Z.to_nat (3 * (NCOLS * rows) - 2) - Z.to_nat (first_place rv))%nat. unfold zdrop. rewrite lookup_drop.
    rewrite <- last_bit. f_equal. unfold NCOLS in *. lia. }
  split.
  - unfold rm_parity, rm_systematic. rewrite End, E3. fold rows. rewrite parity_places, gen_places_k0 by lia. cbn [g_k0 g_table].
    rewrite systematic_places, gen_places_k0 by lia. cbn [g_k0 g_table]. rewrite k0_start_places, !map_map.
    assert (Es : seqZ 0 4 !! Z.to_nat rv = Some rv) by (apply lookup_seqZ; lia).
    rewrite (map_lookup _ _ _ _ Es). do 2 f_equal. change (-1 =? -1) with true. cbv iota. change (zlen (@nil Z)) with 0. rewrite (Z.add_0_r stream_len). change (0 + 0) with 0.
    replace (3 * rows * NCOLS) with (3 * (rows * NCOLS)) by lia. rewrite (Z.mod_small (first_place rv)) by lia.
    pose proof (scan_app (first_place rv) 0 0 sys_list par_list ltac:(lia)) as E. cbv zeta in E.
    rewrite Hz, zlen_sys_list, !Z.add_0_l, (Z.mul_comm NCOLS) in E. fold sys_list. fold par_list. rewrite <- E. fold buffer_places.
    rewrite (scan_spec (first_place rv) 0 0 buffer_places ltac:(lia) Hex). by rewrite Z.sub_0_r.
  - rewrite Z.sub_0_r in Hex. pose proof (zlen_bits_in_drop _ _ Hex) as H. unfold buffer_places in H at 2.
    rewrite bits_in_app, zlen_app in H. lia.
Qed.

End size.
