(* ===== verification/RateMatchCorrect.v ===== *)
(** * Rate matching sends the bits of the standard

    The sub-block interleavers leave the bits of the circular buffer of 36.212 5.1.4.1
    that are not dummies, one after the other, in [w_buff]; the selection then reads them
    round and round from the first bit of the redundancy version. *)

From stdpp Require Import base list gmap numbers list_basics list_relations.
From S2P Require Import Prelude Float32 BitPack BitCopy CbSegm TurboCoder TurboCorrect RateMatch RateMatchTables.

Local Open Scope Z_scope.

(** ** The interleaver, bit by bit *)

(** [dst'] is [dst] with the bits [f k], [f (k + 1)], ... at the bits from [d] on. *)
Record filled (f : Z -> bool) (k n : Z) (dst : list Z) (d : Z) (dst' : list Z) : Prop := mk_filled {
  fl_len : zlen dst' = zlen dst;
  fl_ok : bytes_ok dst';
  fl_bits : forall i, 0 <= i -> bitm dst' i = if (d <=? i) && (i <? d + n) then f (k + (i - d)) else bitm dst i
}.

Lemma filled_none f k dst d : bytes_ok dst -> filled f k 0 dst d dst.
Proof. intros Hok. split; [done|done|]. intros i Hi. split_tests; try done; lia. Qed.

Lemma filled_trans f k n1 n2 dst d m1 m2 :
  0 <= n1 -> 0 <= n2 -> filled f k n1 dst d m1 -> filled f (k + n1) n2 m1 (d + n1) m2 -> filled f k (n1 + n2) dst d m2.
Proof.
  intros H1 H2 [Z1 O1 B1] [Z2 O2 B2]. split; [congruence|done|]. intros i Hi. rewrite B2, B1 by done.
  split_tests; try done; try lia. f_equal. lia.
Qed.

Lemma bil_mask_bit m j : 0 <= m < 8 -> 0 <= j < 8 -> Z.testbit (bil_mask m) (7 - j) = (j =? m).
Proof.
  intros Hm Hj. rewrite bil_mask_pow, Z.pow2_bits_eqb by lia. destruct (Z.eqb_spec (7 - m) (7 - j)), (Z.eqb_spec j m); done || lia.
Qed.

Lemma put_mask_bit b cur m j :
  0 <= m < 8 -> 0 <= j < 8 -> Z.testbit (put_mask b cur (bil_mask m)) (7 - j) = if j =? m then b else Z.testbit cur (7 - j).
Proof.
  intros Hm Hj. unfold put_mask, u8. destruct b.
  - rewrite Z.mod_pow2_bits_low, Z.lor_spec, bil_mask_bit by lia. destruct (j =? m); [apply orb_true_r|apply orb_false_r].
  - rewrite Z.mod_pow2_bits_low, Z.land_spec, Z.lnot_spec, bil_mask_bit by lia.
    destruct (j =? m); [apply andb_false_r|apply andb_true_r].
Qed.

Section interleave.
  Variables (per input : list Z) (n : Z).
  Hypotheses (Hin : n <= 8 * zlen input) (Hn16 : n <= 2 ^ 16)
    (Hper : forall i, 0 <= i < n -> exists p, per !! Z.to_nat i = Some p /\ 0 <= p < n).
Let q := srsran_bit_interleaver_init per n.

(** The bit [k] of the interleaved input. *)
Definition interleaved_bit (k : Z) : bool := permuted per input k =? 1.

Lemma b2z_bit (b : bool) x : b2z b = x -> (x =? 1) = b.
Proof. by intros <-; destruct b. Qed.

Lemma bil_bit_filled k o m dst :
  bytes_ok dst -> 0 <= k < n -> 0 <= o < zlen dst -> 0 <= m < 8 ->
  exists dst', bil_bit q input k o m dst = Some dst' /\ filled interleaved_bit k 1 dst (8 * o + m) dst'.
Proof.
  intros Hok Hk Ho Hm. destruct (Hper k Hk) as (p & Ep & Hp). unfold bil_bit, q, srsran_bit_interleaver_init. cbn [interleaver].
  assert (Et : ztake n per !! Z.to_nat k = Some p) by (unfold ztake; rewrite lookup_take_lt by lia; done).
  rewrite (load_Some _ k p) by (done || lia). cbn [mbind option_bind].
  assert (Hd : 0 <= p / 8 < zlen input) by (split; [apply Z.div_pos; lia|apply Z.div_lt_upper_bound; lia]).
  destruct (load_inside input (p / 8) Hd) as (b & Eb). rewrite Eb. cbn [mbind option_bind].
  destruct (load_inside dst o Ho) as (cur & Ec). rewrite Ec. cbn [mbind option_bind].
  set (v := put_mask _ cur _).
  destruct (bitm_store dst o v Ho) as (dst' & E & Hz & Hok' & Hb). exists dst'. split; [done|].
  split; [done|apply Hok'; [done|unfold v, put_mask; destruct (negb _); apply is_u8_mod]|].
  intros i Hi. rewrite Hb by done. byte_of i qq r. destruct (Z.eqb_spec qq o) as [->|Hne].
  - unfold v. rewrite put_mask_bit by done. rewrite Hd0. rewrite (bitm_byte dst o cur) by done.
    destruct (Z.eqb_spec r m) as [->|]; [|split_tests; try done; lia].
    rewrite Z.leb_refl, (proj2 (Z.ltb_lt _ _)) by lia. cbn [andb]. rewrite Z.sub_diag, Z.add_0_r. symmetry.
    apply b2z_bit. rewrite masked_bit by (apply Z.mod_pos_bound; lia). unfold permuted, bit_at_pos. rewrite Ep. cbn [default from_option]. unfold id.
    rewrite load_lookup in Eb by lia. by rewrite (bits_of_bytes_lookup input p b) by (done || lia).
  - split_tests; try done; lia.
Qed.

Lemma bil_bits_filled c k o m dst :
  bytes_ok dst -> 0 <= k -> k + Z.of_nat c <= n -> 0 <= o < zlen dst -> 0 <= m -> m + Z.of_nat c <= 8 ->
  exists dst', bil_bits c q input k o m dst = Some dst' /\ filled interleaved_bit k (Z.of_nat c) dst (8 * o + m) dst'.
Proof.
  revert k m dst. induction c as [|c IH]; intros k m dst Hok Hk Hkn Ho Hm Hm8; cbn [bil_bits].
  - exists dst. split; [done|by apply filled_none].
  - destruct (bil_bit_filled k o m dst) as (d1 & E1 & F1); try done; try lia. rewrite E1. cbn [mbind option_bind].
    destruct (IH (k + 1) (m + 1) d1) as (d2 & E2 & F2); try lia; [by destruct F1|destruct F1; lia|].
    exists d2. split; [done|]. replace (Z.of_nat (S c)) with (1 + Z.of_nat c) by lia.
    apply (filled_trans _ _ _ _ _ _ d1); try lia; [done|]. by replace (8 * o + m + 1) with (8 * o + (m + 1)) by lia.
Qed.

Lemma bil_byte_filled k o dst :
  bytes_ok dst -> 0 <= k -> k + 8 <= n -> 0 <= o < zlen dst ->
  exists v dst', bil_byte q input k = Some v /\ store dst o [v] = Some dst' /\ filled interleaved_bit k 8 dst (8 * o) dst'.
Proof.
  intros Hok Hk Hkn Ho. destruct (bil_byte_bits per input n Hin Hn16 Hper k Hk Hkn) as (v & Ev & Hv & Eb).
  destruct (bitm_store dst o v Ho) as (dst' & E & Hz & Hok' & Hb). exists v, dst'. split; [done|]. split; [done|].
  split; [done|by apply Hok'|]. intros i Hi. rewrite Hb by done. byte_of i qq r. destruct (Z.eqb_spec qq o) as [->|Hne]; [|split_tests; try done; lia].
  rewrite (proj2 (Z.leb_le _ _)), (proj2 (Z.ltb_lt _ _)) by lia. cbn [andb]. symmetry. apply b2z_bit.
  assert (El : srsran_bit_unpack v 8 !! Z.to_nat r = Some (permuted per input (k + (i - 8 * o)))).
  { rewrite Eb. apply map_lookup. apply lookup_seqZ. lia. }
  pose proof (bitm_bits [v] r ltac:(by apply Forall_singleton) ltac:(change (zlen [v]) with 1; lia)) as E2.
  unfold bits_of_bytes in E2. cbn [map concat] in E2. rewrite app_nil_r, El in E2. injection E2 as ->.
  replace r with (8 * 0 + r) at 2 by lia. by rewrite (bitm_byte [v] 0 v) by done.
Qed.

Lemma bil_bytes_filled c k o dst :
  bytes_ok dst -> 0 <= k -> k + 8 * Z.of_nat c <= n -> 0 <= o -> o + Z.of_nat c <= zlen dst ->
  exists dst', bil_bytes c q input k o dst = Some dst' /\ filled interleaved_bit k (8 * Z.of_nat c) dst (8 * o) dst'.
Proof.
  revert k o dst. induction c as [|c IH]; intros k o dst Hok Hk Hkn Ho Hz; cbn [bil_bytes].
  - exists dst. split; [done|by apply filled_none].
  - destruct (bil_byte_filled k o dst) as (v & d1 & Ev & E1 & F1); try done; try lia. rewrite Ev. cbn [mbind option_bind].
    rewrite E1. cbn [mbind option_bind].
    destruct (IH (k + 8) (o + 1) d1) as (d2 & E2 & F2); try lia; [by destruct F1|destruct F1; lia|].
    exists d2. split; [done|]. replace (8 * Z.of_nat (S c)) with (8 + 8 * Z.of_nat c) by lia.
    apply (filled_trans _ _ _ _ _ _ d1); try lia; [done|]. by replace (8 * o + 8) with (8 * (o + 1)) by lia.
Qed.

(** The run without an offset. *)
Lemma interleaver_run_0 dst :
  bytes_ok dst -> 0 <= n -> n <= 8 * zlen dst ->
  exists dst', srsran_bit_interleaver_run q input dst 0 = Some dst' /\ filled interleaved_bit 0 n dst 0 dst'.
Proof.
  intros Hok Hn Hz. unfold srsran_bit_interleaver_run. change ((0 <? 8) && (0 >? 0)) with false. cbv iota zeta.
  cbn [mbind option_bind]. change (nof_bits q) with n. change (0 * 8 - 0) with 0. rewrite !Z.sub_0_r.
  assert (Hq : 0 <= n / 8) by (apply Z.div_pos; lia). byte_of n c m.
  destruct (bil_bytes_filled (Z.to_nat c) 0 0 dst) as (d1 & E1 & F1); try done; try lia. rewrite E1. cbn [mbind option_bind].
  rewrite Z2Nat.id in F1 by lia. destruct (Z.eq_dec m 0) as [->|Hm0].
  { exists d1. split; [done|]. rewrite Z.add_0_r in Hd. by rewrite Hd. }
  destruct (bil_bits_filled (Z.to_nat m) (c * 8) c 0 d1) as (d2 & E2 & F2); try lia; [by destruct F1|destruct F1; lia|].
  rewrite E2. cbn [mbind option_bind]. exists d2. split; [done|]. rewrite Z2Nat.id in F2 by lia. rewrite Hd.
  apply (filled_trans _ _ _ _ _ _ d1); try lia; [done|]. rewrite !Z.add_0_l. rewrite Z.add_0_r in F2. by replace (8 * c) with (c * 8) in * by lia.
Qed.

(** The run from the middle of a byte on. *)
Lemma interleaver_run_4 dst :
  bytes_ok dst -> 8 <= n -> n mod 8 = 0 -> n + 4 <= 8 * zlen dst ->
  exists dst', srsran_bit_interleaver_run q input dst 4 = Some dst' /\ filled interleaved_bit 0 n dst 4 dst'.
Proof.
  intros Hok Hn Hm Hz. unfold srsran_bit_interleaver_run. change ((4 <? 8) && (4 >? 0)) with true. cbv iota zeta.
  change (nof_bits q) with n. change (1 * 8 - (8 - 4)) with 4. change (Z.to_nat (8 - 4)) with 4%nat.
  byte_of n c m. subst m.
  destruct (bil_bits_filled 4 0 0 4 dst) as (d1 & E1 & F1); try done; try lia. rewrite E1. cbn [mbind option_bind].
  destruct (bil_bytes_filled (Z.to_nat (c - 1)) 4 1 d1) as (d2 & E2 & F2); try lia; [by destruct F1|destruct F1; lia|].
  rewrite E2. cbn [mbind option_bind]. rewrite Z2Nat.id in F2 by lia. change (bil_bits (Z.to_nat 0)) with (bil_bits 0). cbn [bil_bits mbind option_bind].
  assert (Zd : zlen d2 = zlen dst) by (destruct F1, F2; lia).
  destruct (bil_bits_filled 4 (c * 8 - 4) c 0 d2) as (d3 & E3 & F3); try lia; [by destruct F2|].
  exists d3. split; [exact E3|]. replace n with (4 + (8 * (c - 1) + 4)) by lia.
  apply (filled_trans _ _ _ _ _ _ d1); try lia; [done|]. change (0 + 4) with 4. change (4 + 4) with (8 * 1).
  apply (filled_trans _ _ _ _ _ _ d2); try lia; [done|]. replace (4 + 8 * (c - 1)) with (c * 8 - 4) by lia.
  replace (8 * 1 + 8 * (c - 1)) with (8 * c + 0) by lia. done.
Qed.

End interleave.

(** ** The circular buffer of the standard *)

(** The bit of a stream behind [nd] dummies. *)
Definition stream_place (nd : Z) (d : list Z) (x : Z) : option Z := if x <? nd then None else d !! Z.to_nat (x - nd).

Definition circular_buffer (R nd : Z) (d0 d1 d2 : list Z) : list (option Z) :=
  map (fun k => stream_place nd d0 (sub_block R k)) (seqZ 0 (NCOLS * R)) ++
  concat (map (fun k => [stream_place nd d1 (sub_block R k); stream_place nd d2 (sub_block2 R k)]) (seqZ 0 (NCOLS * R))).

(** Bit selection: [E] bits read from the place [k0] on, round and round, without the dummies. *)
Definition selected (w : list (option Z)) (k0 E : Z) : list Z :=
  ztake E (bits_in (concat (replicate (Z.to_nat (E + 1)) (zdrop k0 w ++ ztake k0 w)))).

(** What a redundancy version sends of a code block with the streams [d0], [d1] and [d2]. *)
Definition rate_matched (j : Z) (d0 d1 d2 : list Z) (rv E : Z) : list Z :=
  selected (circular_buffer (rows j) (dummies j) d0 d1 d2) (first_place j rv) E.

Lemma bits_in_rounds n es : bits_in (concat (replicate n es)) = concat (replicate n (bits_in es)).
Proof. induction n as [|n IH]; [done|]. cbn [replicate concat]. by rewrite bits_in_app, IH. Qed.

Lemma rounds_lookup n (l : list Z) i :
  0 <= i < Z.of_nat n * zlen l -> concat (replicate n l) !! Z.to_nat i = l !! Z.to_nat (i mod zlen l).
Proof.
  revert i. induction n as [|n IH]; intros i Hi; [lia|]. cbn [replicate concat].
  assert (Hl : 0 < zlen l) by (pose proof (zlen_nonneg l); nia). assert (Hz : zlen l = Z.of_nat (length l)) by done.
  destruct (Z.lt_ge_cases i (zlen l)).
  - rewrite lookup_app_l by lia. by rewrite Z.mod_small by lia.
  - rewrite lookup_app_r by lia. replace (Z.to_nat i - length l)%nat with (Z.to_nat (i - zlen l)) by lia. rewrite IH by lia.
    do 2 f_equal. replace i with (i - zlen l + 1 * zlen l) at 2 by lia. by rewrite Z.mod_add by lia.
Qed.

Lemma rotated_lookup (l : list Z) c i :
  0 <= c < zlen l -> 0 <= i < zlen l -> (zdrop c l ++ ztake c l) !! Z.to_nat i = l !! Z.to_nat ((c + i) mod zlen l).
Proof.
  intros Hc Hi. assert (Hz := zlen_zdrop c l ltac:(lia)). unfold zlen in Hz. assert (Hl : zlen l = Z.of_nat (length l)) by done.
  destruct (Z.lt_ge_cases (c + i) (zlen l)).
  - rewrite lookup_app_l by lia. rewrite Z.mod_small by lia. unfold zdrop. rewrite lookup_drop. f_equal. lia.
  - rewrite lookup_app_r by lia. rewrite <- (Z.mod_unique (c + i) (zlen l) 1 (c + i - zlen l)) by lia.
    unfold ztake, zdrop in *. rewrite lookup_take_lt by lia. f_equal. lia.
Qed.

(** The selected bits by number. *)
Lemma selected_lookup w k0 E :
  let cw := bits_in w in let c := zlen (bits_in (ztake k0 w)) in
  0 <= E -> c < zlen cw -> zlen (selected w k0 E) = E /\
  forall i, 0 <= i < E -> selected w k0 E !! Z.to_nat i = cw !! Z.to_nat ((c + i) mod zlen cw).
Proof.
  intros cw c HE Hc. unfold selected. rewrite bits_in_rounds, bits_in_app. fold cw.
  assert (Ecw : cw = bits_in (ztake k0 w) ++ bits_in (zdrop k0 w)) by (unfold cw; rewrite <- bits_in_app; by rewrite ztake_zdrop).
  assert (Hc0 : 0 <= c) by apply zlen_nonneg.
  assert (E1 : bits_in (zdrop k0 w) = zdrop c cw) by (rewrite Ecw; symmetry; by apply zdrop_app_eq).
  assert (E2 : bits_in (ztake k0 w) = ztake c cw) by (rewrite Ecw; symmetry; by apply ztake_app_eq).
  rewrite E1, E2. set (l := zdrop c cw ++ ztake c cw).
  assert (Hl : zlen l = zlen cw) by (unfold l; rewrite zlen_app, zlen_zdrop, zlen_ztake by lia; lia).
  assert (Hr : forall i, 0 <= i < E -> concat (replicate (Z.to_nat (E + 1)) l) !! Z.to_nat i = cw !! Z.to_nat ((c + i) mod zlen cw)).
  { intros i Hi. rewrite rounds_lookup by nia. rewrite Hl. unfold l. rewrite rotated_lookup by (try apply Z.mod_pos_bound; lia).
    by rewrite Zplus_mod_idemp_r. }
  assert (Hlen : E <= zlen (concat (replicate (Z.to_nat (E + 1)) l))).
  { destruct (Z.eq_dec E 0) as [->|]; [apply zlen_nonneg|].
    assert (is_Some (concat (replicate (Z.to_nat (E + 1)) l) !! Z.to_nat (E - 1))) as H%lookup_lt_is_Some_1; [|unfold zlen; lia].
    rewrite Hr by lia. apply lookup_lt_is_Some_2. pose proof (Z.mod_pos_bound (c + (E - 1)) (zlen cw) ltac:(lia)). unfold zlen in *. lia. }
  split; [apply zlen_ztake; lia|]. intros i Hi. unfold ztake. rewrite lookup_take_lt by lia. by apply Hr.
Qed.

(** *** The buffer in terms of the tables *)

Lemma stream_place_padded nd d x : nd <= x -> x - nd < zlen d -> stream_place nd d x = bit_of d <$> padded nd x.
Proof.
  intros H1 H2. unfold stream_place, padded. rewrite (proj2 (Z.ltb_ge _ _)), Z.geb_leb, (proj2 (Z.leb_le _ _)) by lia.
  cbn [fmap option_fmap option_map]. unfold bit_of. destruct (lookup_lt_is_Some_2 d (Z.to_nat (x - nd))) as [b E]; [unfold zlen in H2; lia|].
  by rewrite E.
Qed.

Lemma stream_place_bits nd d N x : zlen d = N - nd -> 0 <= x < N -> stream_place nd d x = bit_of d <$> padded nd x.
Proof.
  intros Hd Hx. destruct (Z.lt_ge_cases x nd) as [Hlt|Hge]; [|apply stream_place_padded; lia].
  unfold stream_place, padded. by rewrite (proj2 (Z.ltb_lt _ _)), Z.geb_leb, (proj2 (Z.leb_gt _ _)) by lia.
Qed.

Lemma bit_of_app_r d1 d2 i : 0 <= i -> bit_of (d1 ++ d2) (zlen d1 + i) = bit_of d2 i.
Proof. intros Hi. unfold bit_of, zlen. rewrite lookup_app_r by lia. do 2 f_equal. lia. Qed.

Lemma bit_of_app_l d1 d2 i : 0 <= i < zlen d1 -> bit_of (d1 ++ d2) i = bit_of d1 i.
Proof. intros Hi. unfold bit_of. unfold zlen in Hi. by rewrite lookup_app_l by lia. Qed.

Section buffer.
  Variables (j : Z) (d0 d1 d2 : list Z).
  Hypotheses (Hj : 0 <= j < 188) (Hd0 : zlen d0 = stream_len j) (Hd1 : zlen d1 = stream_len j) (Hd2 : zlen d2 = stream_len j).

Definition buffer : list (option Z) := circular_buffer (rows j) (dummies j) d0 d1 d2.

Lemma buffer_tables : buffer = map (fmap (bit_of d0)) (sys_list j) ++ map (fmap (bit_of (d1 ++ d2))) (par_list j).
Proof.
  destruct (size_facts j Hj) as (_ & HD & _ & HR & Hnd & _). unfold buffer, circular_buffer.
  assert (EN : stream_len j = NCOLS * rows j - dummies j) by (unfold dummies; lia).
  destruct (sub_block_onto (rows j) ltac:(lia)) as [R1 _]. destruct (sub_block2_onto (rows j) ltac:(lia)) as [R2 _]. f_equal.
  - unfold sys_list, sys_places. rewrite map_map. apply map_ext_in. intros k [? ?]%list_elem_of_In%elem_of_seqZ.
    rewrite sys_place_padded. apply stream_place_bits with (NCOLS * rows j); [lia|]. apply R1. lia.
  - unfold par_list, par_places. rewrite concat_map, map_map. f_equal. apply map_ext_in. intros k [? ?]%list_elem_of_In%elem_of_seqZ.
    cbn [map]. rewrite sys_place_padded, place2_padded.
    rewrite (stream_place_bits _ d1 (NCOLS * rows j)), (stream_place_bits _ d2 (NCOLS * rows j)) by (try lia; (apply R1 || apply R2); lia).
    specialize (R1 k ltac:(lia)). specialize (R2 k ltac:(lia)). unfold padded. rewrite !Z.geb_leb. f_equal; [|f_equal].
    + destruct (Z.leb_spec (dummies j) (sub_block (rows j) k)); [|done]. cbn [fmap option_fmap option_map]. by rewrite bit_of_app_l by lia.
    + destruct (Z.leb_spec (dummies j) (sub_block2 (rows j) k)); [|done]. cbn [fmap option_fmap option_map].
      rewrite <- Hd1. by rewrite bit_of_app_r by lia.
Qed.

(** The bits of the buffer. *)
Definition codeword : list Z := map (bit_of d0) (bits_in (sys_list j)) ++ map (bit_of (d1 ++ d2)) (bits_in (par_list j)).

Lemma codeword_bits : bits_in buffer = codeword /\ zlen codeword = 3 * stream_len j.
Proof.
  destruct (sys_table j Hj) as (_ & Z1 & _). destruct (par_table j Hj) as (_ & Z2 & _).
  split; [by rewrite buffer_tables, bits_in_app, !bits_in_fmap|].
  unfold codeword. rewrite zlen_app. unfold zlen in *. rewrite !length_map. lia.
Qed.

(** As many bits before a place as places that hold one. *)
Lemma bits_before n : zlen (bits_in (ztake n buffer)) = zlen (bits_in (ztake n (buffer_places j))).
Proof.
  rewrite buffer_tables. unfold buffer_places.
  assert (G : forall (es es' : list (option Z)), Forall2 (fun a b => is_Some a <-> is_Some b) es es' ->
    zlen (bits_in (ztake n es)) = zlen (bits_in (ztake n es'))).
  { unfold ztake. generalize (Z.to_nat n) as c. intros c es es' HF. revert c. induction HF as [|a b es es' Hab _ IH]; intros [|c]; try done.
    cbn [take]. specialize (IH c). destruct a as [a|], b as [b|].
    - change (bits_in (Some ?v :: ?l)) with (v :: bits_in l). rewrite !zlen_cons. lia.
    - destruct Hab as [H _]. by destruct (H ltac:(by eexists)).
    - destruct Hab as [_ H]. by destruct (H ltac:(by eexists)).
    - done. }
  assert (M : forall (f : Z -> Z) (es : list (option Z)), Forall2 (fun a b => is_Some a <-> is_Some b) (map (fmap f) es) es).
  { intros f es. induction es as [|a es IH]; [constructor|]. cbn [map]. constructor; [apply fmap_is_Some|done]. }
  apply G. apply Forall2_app; apply M.
Qed.

End buffer.

(** ** The soft buffer *)

(** [m] starts with the bits [l]. *)
Definition starts_with (m l : list Z) : Prop := forall i, 0 <= i < zlen l -> l !! Z.to_nat i = Some (b2z (bitm m i)).

Lemma bitm_app_l m1 m2 i : 0 <= i < 8 * zlen m1 -> bitm (m1 ++ m2) i = bitm m1 i.
Proof.
  intros Hi. unfold bitm. assert (Hd : 0 <= i / 8 < zlen m1) by (split; [apply Z.div_pos; lia|apply Z.div_lt_upper_bound; lia]).
  rewrite !load_lookup by lia. unfold zlen in Hd. by rewrite lookup_app_l by lia.
Qed.

Lemma bitm_app_r m1 m2 i : 0 <= i -> bitm (m1 ++ m2) (8 * zlen m1 + i) = bitm m2 i.
Proof.
  intros Hi. unfold bitm. assert (Hd : 0 <= i / 8) by (apply Z.div_pos; lia).
  replace ((8 * zlen m1 + i) / 8) with (zlen m1 + i / 8) by (rewrite (Z.add_comm (8 * _)), (Z.mul_comm 8), Z.div_add by lia; lia).
  replace ((8 * zlen m1 + i) mod 8) with (i mod 8) by (rewrite (Z.add_comm (8 * _)), (Z.mul_comm 8), Z.mod_add by lia; lia).
  by rewrite load_app_r by done.
Qed.

Lemma bitm_zdrop m o i : 0 <= o <= zlen m -> 0 <= i -> bitm (zdrop o m) i = bitm m (8 * o + i).
Proof.
  intros Ho Hi. rewrite <- (ztake_zdrop o m) at 2. pose proof (zlen_ztake o m Ho) as Hz.
  replace (8 * o + i) with (8 * zlen (ztake o m) + i) by lia. by rewrite bitm_app_r.
Qed.

(** The bit of a stream that lies in a byte array. *)
Lemma stream_bit m d rest x : bits_of_bytes m = d ++ rest -> 0 <= x < zlen d -> bit_at_pos m x = bit_of d x.
Proof. intros E Hx. unfold bit_at_pos, bit_of. rewrite E. unfold zlen in Hx. by rewrite lookup_app_l by lia. Qed.

Lemma bit_of_ok d x : bits_ok d -> is_bit (bit_of d x).
Proof.
  intros Hd. unfold bit_of. destruct (d !! Z.to_nat x) as [b|] eqn:E; [|by left].
  unfold bits_ok in Hd. rewrite Forall_lookup in Hd. exact (Hd _ _ E).
Qed.

(** An interleaved stream. *)
Lemma interleaved_stream es m d rest k x :
  bits_of_bytes m = d ++ rest -> bits_ok d -> bits_in es !! Z.to_nat k = Some x -> 0 <= x < zlen d ->
  b2z (interleaved_bit (bits_in es) m k) = bit_of d x.
Proof.
  intros E Hd Ex Hx. unfold interleaved_bit, permuted. rewrite Ex. cbn [default from_option]. unfold id.
  rewrite (stream_bit m d rest x E Hx). by destruct (bit_of_ok d x Hd) as [-> | ->].
Qed.

Section fill.
  Variables (j : Z) (d0 d1 d2 systematic parity rest0 rest1 : list Z).
  Hypotheses (Hj : 0 <= j < 188) (Hd0 : zlen d0 = stream_len j) (Hd1 : zlen d1 = stream_len j) (Hd2 : zlen d2 = stream_len j)
    (Hb0 : bits_ok d0) (Hb1 : bits_ok d1) (Hb2 : bits_ok d2)
    (Hsys : bits_of_bytes systematic = d0 ++ rest0) (Hpar : bits_of_bytes parity = (d1 ++ d2) ++ rest1).

(** The entries of a table lead into the stream. *)
Lemma table_entries (es : list (option Z)) n :
  zlen (bits_in es) = n -> (forall x, x ∈ bits_in es -> 0 <= x < n) ->
  forall i, 0 <= i < n -> exists p, bits_in es !! Z.to_nat i = Some p /\ 0 <= p < n.
Proof.
  intros Hz Hx i Hi. destruct (lookup_lt_is_Some_2 (bits_in es) (Z.to_nat i)) as [p Ep]; [unfold zlen in Hz; lia|].
  exists p. split; [done|]. apply Hx. by eapply list_elem_of_lookup_2.
Qed.

Lemma fill_buffer w_buff :
  bytes_ok w_buff -> 3 * stream_len j <= 8 * zlen w_buff ->
  exists w1 w2,
    srsran_bit_interleaver_run (srsran_bit_interleaver_init (g_table (rm_systematic j)) (stream_len j)) systematic w_buff 0 = Some w1 /\
    run_at (srsran_bit_interleaver_init (g_table (rm_parity j)) (2 * stream_len j)) parity w1 ((3 * srsran_cbsegm_cbsize j + 12) / 24) 4 = Some w2 /\
    zlen w2 = zlen w_buff /\ bytes_ok w2 /\ starts_with w2 (codeword j d0 d1 d2).
Proof.
  intros Hok Hz. destruct (size_facts j Hj) as (_ & HD & HD8 & _). destruct (sys_table j Hj) as (-> & Zs & Xs). destruct (par_table j Hj) as (-> & Zp & Xp).
  assert (Zsys : 8 * zlen systematic = stream_len j + zlen rest0) by (rewrite <- zlen_bits_of_bytes, Hsys, zlen_app; lia).
  assert (Zpar : 8 * zlen parity = 2 * stream_len j + zlen rest1) by (rewrite <- zlen_bits_of_bytes, Hpar, !zlen_app; lia).
  pose proof (zlen_nonneg rest0). pose proof (zlen_nonneg rest1). pose proof (table_entries _ _ Zs Xs) as Ts. pose proof (table_entries _ _ Zp Xp) as Tp.
  assert (HD8' := Z.div_mod (stream_len j) 8 ltac:(lia)). set (o := stream_len j / 8) in *.
  assert (Eo : (3 * srsran_cbsegm_cbsize j + 12) / 24 = o) by (symmetry; apply Z.div_unique with 12; unfold stream_len in *; lia).
  destruct (interleaver_run_0 _ systematic (stream_len j) ltac:(lia) ltac:(lia) Ts w_buff Hok ltac:(lia) ltac:(lia)) as (w1 & E1 & [Z1 O1 B1]).
  destruct (interleaver_run_4 _ parity (2 * stream_len j) ltac:(lia) ltac:(lia) Tp (zdrop o w1)) as (part & E2 & [Z2 O2 B2]);
    [by apply bytes_ok_zdrop|lia|symmetry; apply Z.mod_unique with (2 * o + 1); lia|rewrite zlen_zdrop; lia|].
  rewrite zlen_zdrop in Z2 by lia. pose proof (zlen_ztake o w1 ltac:(lia)) as Z3.
  exists w1, (ztake o w1 ++ part). split; [done|]. unfold run_at. rewrite Eo, E2. split; [done|]. split_and!.
  - rewrite zlen_app, Z2, Z3. lia.
  - apply bytes_ok_app. split; [by apply bytes_ok_ztake|done].
  - intros i Hi. rewrite (proj2 (codeword_bits j d0 d1 d2 Hj Hd0 Hd1 Hd2)) in Hi. unfold codeword.
    assert (Ls : length (map (bit_of d0) (bits_in (sys_list j))) = Z.to_nat (stream_len j)) by (rewrite length_map; unfold zlen in Zs; lia).
    assert (Hlow : i < stream_len j -> bitm (ztake o w1 ++ part) i = interleaved_bit (bits_in (sys_list j)) systematic i).
    { intros Hlt. destruct (Z.lt_ge_cases i (8 * o)).
      - rewrite bitm_app_l, <- (bitm_app_l _ (zdrop o w1)) by lia. rewrite ztake_zdrop, B1 by lia. split_tests; try lia. f_equal. lia.
      - replace i with (8 * zlen (ztake o w1) + (i - 8 * o)) at 1 by lia. rewrite bitm_app_r, B2 by lia. split_tests; try lia;
        rewrite bitm_zdrop, B1 by lia; split_tests; try lia; f_equal; lia. }
    destruct (Z.lt_ge_cases i (stream_len j)) as [Hlt|Hge].
    + rewrite lookup_app_l, Hlow by lia. destruct (Ts i ltac:(lia)) as (x & Ex & Hx).
      rewrite (map_lookup _ _ _ _ Ex). f_equal. symmetry. apply (interleaved_stream _ _ _ rest0); try done. lia.
    + rewrite lookup_app_r, Ls by lia. destruct (Tp (i - stream_len j) ltac:(lia)) as (x & Ex & Hx).
      replace (Z.to_nat i - Z.to_nat (stream_len j))%nat with (Z.to_nat (i - stream_len j)) by lia.
      rewrite (map_lookup _ _ _ _ Ex). f_equal. symmetry.
      replace i with (8 * zlen (ztake o w1) + (i - 8 * o)) by lia. rewrite bitm_app_r, B2 by lia. split_tests; try lia.
      replace (0 + (i - 8 * o - 4)) with (i - stream_len j) by lia.
      apply (interleaved_stream _ _ _ rest1); try done; [by apply bits_ok_app|]. rewrite zlen_app. lia.
Qed.

End fill.

(** ** Bit selection *)

Section select.
  Variables (w_buff : list Z) (n out_len w_offset : Z).
  Hypotheses (Hw : bytes_ok w_buff) (Hn : 0 < n) (Hslack : n + 8 <= 8 * zlen w_buff) (Hoff : 0 <= w_offset).

Lemma round_up_mono a b : a <= b -> 8 * ((a + 7) / 8) <= 8 * ((b + 7) / 8).
Proof. intros H. apply Z.mul_le_mono_nonneg_l; [lia|]. apply Z.div_le_mono; lia. Qed.

(** The loop copies the bits of the buffer from [r_ptr] on, round and round. *)
Lemma select_loop_spec fuel r_ptr w_len output :
  bytes_ok output -> 0 <= r_ptr < n -> 0 <= w_len <= out_len -> w_offset + out_len <= 8 * zlen output ->
  w_len = out_len \/ out_len - w_len + r_ptr <= n * Z.of_nat fuel ->
  exists output', select_loop fuel w_buff n out_len w_offset r_ptr w_len output = Some output' /\
    zlen output' = zlen output /\ bytes_ok output' /\
    forall i, 0 <= i ->
      (w_offset + w_len <= i < w_offset + out_len -> bitm output' i = bitm w_buff ((r_ptr + (i - (w_offset + w_len))) mod n)) /\
      (i < w_offset + w_len \/ 8 * ((w_offset + out_len + 7) / 8) <= i -> bitm output' i = bitm output i).
Proof.
  revert r_ptr w_len output. induction fuel as [|fuel IH]; intros r_ptr w_len output Hok Hr Hl Hz Hf;
    cbn [select_loop]; (destruct (Z.ltb_spec w_len out_len) as [Hlt|Hge];
      [|exists output; split_and!; try done; intros i Hi; split; [lia|done]]).
  { lia. }
  set (cp := if out_len - w_len + r_ptr >=? n then n - r_ptr else out_len - w_len).
  assert (Hcp : 0 < cp <= out_len - w_len /\ r_ptr + cp <= n /\ (cp = out_len - w_len \/ r_ptr + cp = n /\ out_len - w_len + r_ptr >= n)).
  { unfold cp. rewrite Z.geb_leb. destruct (Z.leb_spec n (out_len - w_len + r_ptr)); lia. }
  clearbody cp. destruct Hcp as (Hcp & Hrn & Hcase).
  destruct (bit_copy_spec w_buff output r_ptr cp (w_len + w_offset)) as (out1 & E1 & Z1 & O1 & B1); try done; try lia.
  rewrite E1. cbn [mbind option_bind]. rewrite Z.geb_leb. set (r' := if n <=? r_ptr + cp then r_ptr + cp - n else r_ptr + cp).
  assert (Hr' : 0 <= r' < n /\ (r' = r_ptr + cp \/ r' = r_ptr + cp - n)) by (unfold r'; destruct (Z.leb_spec n (r_ptr + cp)); lia).
  assert (Hr0 : r_ptr + cp = n -> r' = 0) by (unfold r'; destruct (Z.leb_spec n (r_ptr + cp)); lia).
  clearbody r'. destruct Hr' as [Hr' Hr''].
  destruct (IH r' (w_len + cp) out1) as (out2 & E2 & Z2 & O2 & B2); try done; try lia.
  exists out2. split; [done|]. split_and!; [lia|done|]. intros i Hi. destruct (B2 i Hi) as [P1 P2], (B1 i Hi) as [Q1 Q2]. split.
  - intros Hin. destruct (Z.lt_ge_cases i (w_offset + (w_len + cp))).
    + rewrite P2, Q1 by lia. f_equal. rewrite Z.mod_small by lia. lia.
    + rewrite P1 by lia. f_equal.
      destruct Hr'' as [->| ->]; [f_equal; lia|].
      replace (r_ptr + (i - (w_offset + w_len))) with (r_ptr + cp - n + (i - (w_offset + (w_len + cp))) + 1 * n) by lia.
      by rewrite Z.mod_add by lia.
  - intros Hout. pose proof (round_up_mono (w_len + w_offset + cp) (w_offset + out_len) ltac:(lia)).
    rewrite P2 by lia. apply Q2. lia.
Qed.

End select.

(** ** The transmitter *)

(** A window of bits of a byte array. *)
Lemma bits_window m a l :
  bytes_ok m -> 0 <= a -> a + zlen l <= 8 * zlen m -> (forall i, 0 <= i < zlen l -> l !! Z.to_nat i = Some (b2z (bitm m (a + i)))) ->
  ztake (zlen l) (zdrop a (bits_of_bytes m)) = l.
Proof.
  intros Hok Ha Hz H. pose proof (zlen_bits_of_bytes m) as Hb. pose proof (zlen_nonneg l). apply list_eq. intros i. unfold ztake, zdrop.
  destruct (Z.lt_ge_cases (Z.of_nat i) (zlen l)) as [Hlt|Hge].
  - rewrite lookup_take_lt, lookup_drop by lia. specialize (H (Z.of_nat i) ltac:(lia)). rewrite Nat2Z.id in H. rewrite H.
    replace (Z.to_nat a + i)%nat with (Z.to_nat (a + Z.of_nat i)) by lia. apply bitm_bits; [done|lia].
  - rewrite lookup_take_ge by lia. symmetry. apply lookup_ge_None_2. unfold zlen in Hge. lia.
Qed.

(** Equal bits before a place, or after it. *)
Lemma bits_kept m m' a :
  bytes_ok m -> bytes_ok m' -> zlen m' = zlen m -> 0 <= a ->
  ((forall i, 0 <= i < a -> bitm m' i = bitm m i) -> ztake a (bits_of_bytes m') = ztake a (bits_of_bytes m)) /\
  ((forall i, a <= i -> bitm m' i = bitm m i) -> zdrop a (bits_of_bytes m') = zdrop a (bits_of_bytes m)).
Proof.
  intros Hok Hok' Hz Ha. pose proof (zlen_bits_of_bytes m) as Hb. pose proof (zlen_bits_of_bytes m') as Hb'. unfold zlen in Hb, Hb'.
  assert (G : forall i, 0 <= i -> (0 <= i < 8 * zlen m -> bitm m' i = bitm m i) -> bits_of_bytes m' !! Z.to_nat i = bits_of_bytes m !! Z.to_nat i).
  { intros i Hi E. destruct (Z.lt_ge_cases i (8 * zlen m)); [by rewrite !bitm_bits, E by (done || lia)|].
    unfold zlen in *. rewrite !lookup_ge_None_2 by lia. done. }
  unfold ztake, zdrop. split; intros E; apply list_eq; intros i.
  - destruct (Z.lt_ge_cases (Z.of_nat i) a); [|by rewrite !lookup_take_ge by lia].
    rewrite !lookup_take_lt by lia. rewrite <- (Nat2Z.id i). apply G; [lia|]. intros _. apply E. lia.
  - rewrite !lookup_drop. replace (Z.to_nat a + i)%nat with (Z.to_nat (a + Z.of_nat i)) by lia. apply G; [lia|]. intros _. apply E. lia.
Qed.

(** [m'] has the bits [l] at [a]; before them it agrees with [m], and after the byte they end in. *)
Record sent (m : list Z) (a : Z) (l m' : list Z) : Prop := mk_sent {
  sent_len : zlen m' = zlen m;
  sent_ok : bytes_ok m';
  sent_before : ztake a (bits_of_bytes m') = ztake a (bits_of_bytes m);
  sent_bits : ztake (zlen l) (zdrop a (bits_of_bytes m')) = l;
  sent_after : zdrop (8 * ((a + zlen l + 7) / 8)) (bits_of_bytes m') = zdrop (8 * ((a + zlen l + 7) / 8)) (bits_of_bytes m)
}.

Definition rm_generated : rm_tables := srsran_rm_turbo_gentables (mk_rm false (fun _ => bil_zero) (fun _ => bil_zero) (fun _ => [])).

Section transmit.
  Variables (j : Z) (d0 d1 d2 : list Z).
  Hypotheses (Hj : 0 <= j < 188) (Hd0 : zlen d0 = stream_len j) (Hd1 : zlen d1 = stream_len j) (Hd2 : zlen d2 = stream_len j).

Lemma rate_matched_lookup rv E :
  0 <= rv < 4 -> 0 <= E -> zlen (rate_matched j d0 d1 d2 rv E) = E /\
  forall i, 0 <= i < E -> rate_matched j d0 d1 d2 rv E !! Z.to_nat i =
    codeword j d0 d1 d2 !! Z.to_nat ((zlen (bits_in (ztake (first_place j rv) (buffer_places j))) + i) mod (3 * stream_len j)).
Proof.
  intros Hrv HE. destruct (k0_entry j Hj rv Hrv) as [_ Hk]. destruct (codeword_bits j d0 d1 d2 Hj Hd0 Hd1 Hd2) as [Ecw Zcw].
  destruct (selected_lookup (buffer j d0 d1 d2) (first_place j rv) E HE) as [Zs Ls].
  { rewrite Ecw, Zcw, bits_before by done. exact Hk. }
  rewrite Ecw, Zcw, bits_before in Ls by done. done.
Qed.

(** The selection from a soft buffer that holds the code word. *)
Lemma select_sends w_buff output E w_offset rv :
  bytes_ok w_buff -> 3 * stream_len j + 8 <= 8 * zlen w_buff -> starts_with w_buff (codeword j d0 d1 d2) ->
  bytes_ok output -> 0 <= E -> 0 <= w_offset -> w_offset + E <= 8 * zlen output -> 0 <= rv < 4 ->
  exists output', select_loop (Z.to_nat (E / (3 * srsran_cbsegm_cbsize j + 12)) + 2) w_buff (3 * srsran_cbsegm_cbsize j + 12) E w_offset
      (snd (default (0, 0) (k0_vec rm_generated j !! Z.to_nat rv))) 0 output = Some output' /\
    sent output w_offset (rate_matched j d0 d1 d2 rv E) output'.
Proof.
  intros Hok Hz Hcw Hoko HE Hoff Hzo Hrv. destruct (k0_entry j Hj rv Hrv) as [Ek Hk]. cbn [rm_generated srsran_rm_turbo_gentables rm_turbo_tables_generated k0_vec].
  rewrite Ek. cbn [default from_option snd]. unfold id. cbn [snd]. set (c := zlen (bits_in (ztake (first_place j rv) (buffer_places j)))) in *.
  destruct (codeword_bits j d0 d1 d2 Hj Hd0 Hd1 Hd2) as [_ Zcw]. destruct (size_facts j Hj) as (_ & HD & _).
  replace (3 * srsran_cbsegm_cbsize j + 12) with (3 * stream_len j) by (unfold stream_len; lia). set (n := 3 * stream_len j) in *.
  assert (Hc : 0 <= c < n) by (split; [apply zlen_nonneg|done]).
  assert (HEn := Z.div_mod E n ltac:(lia)). assert (HEm := Z.mod_pos_bound E n ltac:(lia)). assert (HEq : 0 <= E / n) by (apply Z.div_pos; lia).
  destruct (select_loop_spec w_buff n E w_offset Hok ltac:(lia) ltac:(lia) Hoff (Z.to_nat (E / n) + 2) c 0 output) as (out & Eo & Zo & Oo & Bo);
    try done; try lia; try (right; nia).
  exists out. split; [done|].
  destruct (rate_matched_lookup rv E Hrv HE) as [Zs Ls]. fold c in Ls. fold n in Ls.
  destruct (bits_kept output out w_offset Hoko Oo Zo Hoff) as [K1 _].
  destruct (bits_kept output out (8 * ((w_offset + E + 7) / 8)) Hoko Oo Zo ltac:(apply Z.mul_nonneg_nonneg; [lia|apply Z.div_pos; lia])) as [_ K2].
  split; [done|done| | |].
  - apply K1. intros i Hi. apply Bo; lia.
  - apply bits_window; [done|done|lia|]. rewrite Zs. intros i Hi. rewrite Ls by done.
    pose proof (Z.mod_pos_bound (c + i) n ltac:(lia)). rewrite Hcw by lia. do 2 f_equal.
    destruct (Bo (w_offset + i) ltac:(lia)) as [B _]. rewrite B by lia. f_equal. f_equal. lia.
  - rewrite Zs. apply K2. intros i Hi. assert (0 <= (w_offset + E + 7) / 8) by (apply Z.div_pos; lia). apply Bo; lia.
Qed.


(** The first transmission of a code block fills its soft buffer. *)
Lemma tx_lut_first systematic parity rest0 rest1 w_buff output E w_offset :
  bits_ok d0 -> bits_ok d1 -> bits_ok d2 -> bits_of_bytes systematic = d0 ++ rest0 -> bits_of_bytes parity = (d1 ++ d2) ++ rest1 ->
  bytes_ok w_buff -> 3 * stream_len j + 8 <= 8 * zlen w_buff ->
  bytes_ok output -> 0 <= E -> 0 <= w_offset -> w_offset + E <= 8 * zlen output ->
  exists w output', srsran_rm_turbo_tx_lut rm_generated w_buff systematic parity output j E w_offset 0 = Some (0, w, output') /\
    zlen w = zlen w_buff /\ bytes_ok w /\ starts_with w (codeword j d0 d1 d2) /\
    sent output w_offset (rate_matched j d0 d1 d2 0 E) output'.
Proof.
  intros B0 B1 B2 Hs Hp Hw Hzw Ho HE Hoff Hzo.
  destruct (fill_buffer j d0 d1 d2 systematic parity rest0 rest1 Hj Hd0 Hd1 Hd2 B0 B1 B2 Hs Hp w_buff Hw ltac:(lia)) as (w1 & w2 & E1 & E2 & Z2 & O2 & S2).
  destruct (select_sends w2 output E w_offset 0 O2 ltac:(lia) S2 Ho HE Hoff Hzo ltac:(lia)) as (out & Eo & So).
  exists w2, out. split; [|done]. unfold srsran_rm_turbo_tx_lut. rewrite (proj2 (Z.ltb_lt j _)) by (unfold SRSRAN_NOF_TC_CB_SIZES; lia).
  change ((0 <? 4) && true) with true. change (0 =? 0) with true. cbv iota zeta.
  cbn [bit_interleavers_systematic_bits bit_interleavers_parity_bits rm_generated srsran_rm_turbo_gentables rm_turbo_tables_generated].
  fold (stream_len j). rewrite (Z.mul_comm (stream_len j) 2), E1. cbn [mbind option_bind]. rewrite E2. cbn [mbind option_bind].
  fold rm_generated. change (k0_vec _ j) with (k0_vec rm_generated j). rewrite Eo. done.
Qed.

(** Another redundancy version of it. *)
Lemma tx_lut_again systematic parity w output E w_offset rv :
  bytes_ok w -> 3 * stream_len j + 8 <= 8 * zlen w -> starts_with w (codeword j d0 d1 d2) ->
  bytes_ok output -> 0 <= E -> 0 <= w_offset -> w_offset + E <= 8 * zlen output -> 0 < rv < 4 ->
  exists output', srsran_rm_turbo_tx_lut rm_generated w systematic parity output j E w_offset rv = Some (0, w, output') /\
    sent output w_offset (rate_matched j d0 d1 d2 rv E) output'.
Proof.
  intros Hw Hzw Hs Ho HE Hoff Hzo Hrv.
  destruct (select_sends w output E w_offset rv Hw Hzw Hs Ho HE Hoff Hzo ltac:(lia)) as (out & Eo & So).
  exists out. split; [|done]. unfold srsran_rm_turbo_tx_lut. rewrite (proj2 (Z.ltb_lt j _)), (proj2 (Z.ltb_lt rv _)) by (unfold SRSRAN_NOF_TC_CB_SIZES; lia).
  rewrite (proj2 (Z.eqb_neq rv 0)) by lia. cbn [andb mbind option_bind]. rewrite Eo. done.
Qed.

End transmit.

(** C14: rate matching sends the bits 36.212 5.1.4.1 selects: the first transmission of a code block writes [E] of the bits that are
    not dummies, read from the place of its redundancy version on round the circular buffer of the three interleaved streams,
    and leaves a soft buffer from which every other redundancy version is sent without the streams.  Bits before the write
    offset and bits after the last byte are kept. *)
Theorem rate_matching_selects j d0 d1 d2 systematic parity rest0 rest1 w_buff output E w_offset :
  0 <= j < 188 -> zlen d0 = stream_len j -> zlen d1 = stream_len j -> zlen d2 = stream_len j ->
  bits_ok d0 -> bits_ok d1 -> bits_ok d2 -> bits_of_bytes systematic = d0 ++ rest0 -> bits_of_bytes parity = (d1 ++ d2) ++ rest1 ->
  bytes_ok w_buff -> 3 * stream_len j + 8 <= 8 * zlen w_buff ->
  bytes_ok output -> 0 <= E -> 0 <= w_offset -> w_offset + E <= 8 * zlen output ->
  exists w output', srsran_rm_turbo_tx_lut rm_generated w_buff systematic parity output j E w_offset 0 = Some (0, w, output') /\
    sent output w_offset (rate_matched j d0 d1 d2 0 E) output' /\
    (forall rv systematic' parity' output2 E2 w_offset2,
      0 < rv < 4 -> bytes_ok output2 -> 0 <= E2 -> 0 <= w_offset2 -> w_offset2 + E2 <= 8 * zlen output2 ->
      exists output2', srsran_rm_turbo_tx_lut rm_generated w systematic' parity' output2 j E2 w_offset2 rv = Some (0, w, output2') /\
        sent output2 w_offset2 (rate_matched j d0 d1 d2 rv E2) output2').
Proof.
  intros Hj H0 H1 H2 B0 B1 B2 Hs Hp Hw Hzw Ho HE Hoff Hzo.
  destruct (tx_lut_first j d0 d1 d2 Hj H0 H1 H2 systematic parity rest0 rest1 w_buff output E w_offset) as (w & out & Et & Zw & Ow & Sw & So); try done.
  exists w, out. split_and!; [done|done|]. intros rv s' p' out2 E2 off2 Hrv Ho2 HE2 Hoff2 Hzo2.
  apply tx_lut_again; try done. lia.
Qed.

(** A block of 40 bits, 100 bits of which are sent from the middle of a byte on. *)
Lemma rate_matching_selects_witness :
  exists w output',
    srsran_rm_turbo_tx_lut rm_generated (replicate 20 0) (replicate 6 0x0F) (replicate 11 0xA5) (replicate 20 0) 0 100 5 0 = Some (0, w, output') /\
    ztake 100 (zdrop 5 (bits_of_bytes output')) =
      rate_matched 0 (ztake 44 (bits_of_bytes (replicate 6 0x0F))) (ztake 44 (bits_of_bytes (replicate 11 0xA5)))
        (zdrop 44 (bits_of_bytes (replicate 11 0xA5))) 0 100.
Proof.
  assert (Hb : forall c b, is_u8 b -> bytes_ok (replicate c b)) by (intros c b Hb; by apply Forall_replicate).
  assert (Hok : forall (n : Z) l, bits_ok (bits_of_bytes l) -> bits_ok (ztake n (bits_of_bytes l)) /\ bits_ok (zdrop n (bits_of_bytes l))).
  { intros n l Hl. split; [by apply Forall_take|by apply Forall_drop]. }
  destruct (rate_matching_selects 0 (ztake 44 (bits_of_bytes (replicate 6 0x0F))) (ztake 44 (bits_of_bytes (replicate 11 0xA5)))
    (zdrop 44 (bits_of_bytes (replicate 11 0xA5))) (replicate 6 0x0F) (replicate 11 0xA5) (zdrop 44 (bits_of_bytes (replicate 6 0x0F))) []
    (replicate 20 0) (replicate 20 0) 100 5) as (w & out & E1 & S1 & _); try reflexivity.
  - lia.
  - apply Hok, bits_of_bytes_ok.
  - apply Hok, bits_of_bytes_ok.
  - apply Hok, bits_of_bytes_ok.
  - apply Hb. unfold is_u8. lia.
  - vm_compute. congruence.
  - apply Hb. unfold is_u8. lia.
  - lia.
  - lia.
  - vm_compute. congruence.
  - exists w, out. split; [exact E1|]. destruct S1 as [_ _ _ S _]. etransitivity; [|exact S].
    apply (f_equal (fun n => ztake n _)). by vm_compute.
Defined.
