(* ===== verification/Sch.v ===== *)
(** * Transport blocks

    The transmitter of [lib/src/phy/phch/sch.c]: [encode_tb_off] takes the code blocks of a
    transport block one after the other, copies each into [cb_in], runs the turbo encoder
    on it and matches its rate into [e_bits]; [srsran_dlsch_encode] computes the
    segmentation and the bits per symbol first.  The soft buffers of the transmitter are
    those of [lib/src/phy/fec/softbuffer.c].

    The fields that only the receiver or the uplink control information uses are left
    out; the static tables of the turbo coder and of the rate matching are arguments. *)

From stdpp Require Import base list gmap numbers list_basics list_relations.
From S2P Require Import Prelude Float32 BitPack Crc CbSegm TurboCoder BitCopy RateMatch.

Local Open Scope Z_scope.

(** ** Soft buffers *)

Definition SOFTBUFFER_SIZE : Z := 18600.

Record srsran_softbuffer_tx_t := mk_softbuffer { max_cb : Z; max_cb_size : Z; buffer_b : list (list Z) }.

Definition softbuffer_zero : srsran_softbuffer_tx_t := mk_softbuffer 0 0 [].

(** The first [nof_cb] buffers are cleared; a buffer that was never allocated has none. *)
Definition srsran_softbuffer_tx_reset_cb (q : srsran_softbuffer_tx_t) (nof_cb : Z) : srsran_softbuffer_tx_t :=
  let nof_cb := if nof_cb >? max_cb q then max_cb q else nof_cb in
  mk_softbuffer (max_cb q) (max_cb_size q)
    (map (fun _ => replicate (Z.to_nat (max_cb_size q)) 0) (ztake nof_cb (buffer_b q)) ++ zdrop nof_cb (buffer_b q)).

Definition srsran_softbuffer_tx_reset (q : srsran_softbuffer_tx_t) : srsran_softbuffer_tx_t :=
  srsran_softbuffer_tx_reset_cb q (max_cb q).

Definition srsran_softbuffer_tx_reset_tbs (q : srsran_softbuffer_tx_t) (tbs : Z) : srsran_softbuffer_tx_t :=
  srsran_softbuffer_tx_reset_cb q (u32 (u32 (tbs + 24) / (SRSRAN_TCOD_MAX_LEN_CB - 24) + 1)).

(** [malloc n] is what the allocated [n] bytes hold. *)
Definition srsran_softbuffer_tx_init_guru (malloc : Z -> list Z) (max_cb max_cb_size : Z) : srsran_softbuffer_tx_t :=
  srsran_softbuffer_tx_reset (mk_softbuffer max_cb max_cb_size (map (fun _ => malloc max_cb_size) (seqZ 0 max_cb))).

Definition srsran_softbuffer_tx_free (q : srsran_softbuffer_tx_t) : srsran_softbuffer_tx_t := softbuffer_zero.

(** ** The encoder object *)

Record srsran_sch_t := mk_sch {
  crc_tb : srsran_crc_t;
  crc_cb : srsran_crc_t;
  encoder : srsran_tcod_t;
  cb_in : list Z;
  parity_bits : list Z
}.

(** The object and the static tables after [srsran_sch_init]. *)
Definition srsran_sch_init (t : tcod_tables) (rm : rm_tables) (malloc : Z -> list Z) : option (srsran_sch_t * tcod_tables * rm_tables) :=
  crc_tb ← srsran_crc_init SRSRAN_LTE_CRC24A 24;
  crc_cb ← srsran_crc_init SRSRAN_LTE_CRC24B 24;
  let '(encoder, t) := srsran_tcod_init t SRSRAN_TCOD_MAX_LEN_CB in
  let rm := srsran_rm_turbo_gentables rm in
  Some (mk_sch crc_tb crc_cb encoder (malloc ((SRSRAN_TCOD_MAX_LEN_CB + 8) / 8)) (malloc ((3 * SRSRAN_TCOD_MAX_LEN_CB + 16) / 8)), t, rm).

(** ** Code blocks *)

(** [cb_len] and [cblen_idx] of the code block [i]. *)
Definition cb_size (s : srsran_cbsegm_t) (i : Z) : Z * Z :=
  if i <? s_C2 s then (s_K2 s, s_K2_idx s) else (s_K1 s, s_K1_idx s).

Definition cb_rlen (s : srsran_cbsegm_t) (i : Z) : Z :=
  let cb_len := fst (cb_size s i) in if s_C s >? 1 then u32 (cb_len - 24) else cb_len.

(** [n_e], the bits sent of the code block [i]. *)
Definition cb_n_e (s : srsran_cbsegm_t) (Qm Gp gamma i : Z) : Z :=
  if i <=? u32 (u32 (s_C s - gamma) - 1) then u32 (Qm * (Gp / s_C s))
  else u32 (Qm * u32 (fl_ceil (fl_div (fl_of_int Gp) (fl_of_int (s_C s))))).

(** The copy of the data and the turbo encoder. *)
Definition encode_data (t : tcod_tables) (q : srsran_sch_t) (s : srsran_cbsegm_t) (data : option (list Z)) (i rp : Z) : option srsran_sch_t :=
  match data with
  | None => Some q
  | Some data =>
      let rlen := cb_rlen s i in
      let last_cb := negb (i <? u32 (s_C s - 1)) in
      bytes ← load_bytes data (rp / 8) ((if last_cb then u32 (rlen - 24) else rlen) / 8);
      cb_in ← store (cb_in q) 0 bytes;
      '(_, cb_in, parity, enc, tb, cb) ←
        srsran_tcod_encode_lut t (encoder q) (crc_tb q) (if s_C s >? 1 then Some (crc_cb q) else None) cb_in (parity_bits q)
          (snd (cb_size s i)) last_cb;
      Some (mk_sch tb (default (crc_cb q) cb) enc cb_in parity)
  end.

(** What the loop carries. *)
Record enc_state := mk_enc { e_q : srsran_sch_t; e_sb : srsran_softbuffer_tx_t; e_out : list Z; e_rp : Z; e_wp : Z }.

(** One turn of the loop; the status is not zero when the rate matching fails. *)
Definition encode_cb (t : tcod_tables) (rm : rm_tables) (s : srsran_cbsegm_t) (Qm rv Gp gamma : Z) (data : option (list Z))
    (w_offset i : Z) (st : enc_state) : option (Z * enc_state) :=
  q ← encode_data t (e_q st) s data i (e_rp st);
  w_buff ← buffer_b (e_sb st) !! Z.to_nat i;
  let n_e := cb_n_e s Qm Gp gamma i in
  let pos := u32 (e_wp st + w_offset) in
  let o := pos / 8 in
  '(ret, w_buff, part) ←
    srsran_rm_turbo_tx_lut rm w_buff (cb_in q) (parity_bits q) (zdrop o (e_out st)) (snd (cb_size s i)) n_e (pos mod 8) rv;
  let sb := mk_softbuffer (max_cb (e_sb st)) (max_cb_size (e_sb st)) (<[Z.to_nat i := w_buff]> (buffer_b (e_sb st))) in
  let out := ztake o (e_out st) ++ part in
  if negb (ret =? 0) then Some (SRSRAN_ERROR, mk_enc q sb out (e_rp st) (e_wp st))
  else Some (0, mk_enc q sb out (u32 (e_rp st + cb_rlen s i)) (u32 (e_wp st + n_e))).

Fixpoint encode_cbs (n : nat) (t : tcod_tables) (rm : rm_tables) (s : srsran_cbsegm_t) (Qm rv Gp gamma : Z) (data : option (list Z))
    (w_offset i : Z) (st : enc_state) : option (Z * enc_state) :=
  match n with
  | O => Some (0, st)
  | S n =>
      '(ret, st) ← encode_cb t rm s Qm rv Gp gamma data w_offset i st;
      if negb (ret =? 0) then Some (ret, st) else encode_cbs n t rm s Qm rv Gp gamma data w_offset (i + 1) st
  end.

(** The status, the object, the soft buffer and [e_bits].  [data] may be absent: a retransmission. *)
Definition encode_tb_off (t : tcod_tables) (rm : rm_tables) (q : srsran_sch_t) (sb : srsran_softbuffer_tx_t) (s : srsran_cbsegm_t)
    (Qm rv nof_e_bits : Z) (data : option (list Z)) (e_bits : list Z) (w_offset : Z) :
    option (Z * srsran_sch_t * srsran_softbuffer_tx_t * list Z) :=
  if negb (s_F s =? 0) then Some (SRSRAN_ERROR, q, sb, e_bits)
  else if s_C s >? max_cb sb then Some (SRSRAN_ERROR, q, sb, e_bits)
  else if Qm =? 0 then Some (SRSRAN_ERROR, q, sb, e_bits)
  else
    let Gp := nof_e_bits / Qm in
    let gamma := if s_C s >? 0 then Gp mod s_C s else Gp in
    let q := mk_sch (snd (srsran_crc_set_init (crc_tb q) 0)) (crc_cb q) (encoder q) (cb_in q) (parity_bits q) in
    '(ret, st) ← encode_cbs (Z.to_nat (s_C s)) t rm s Qm rv Gp gamma data w_offset 0 (mk_enc q sb e_bits 0 0);
    Some (ret, e_q st, e_sb st, e_out st).

Definition encode_tb (t : tcod_tables) (rm : rm_tables) (q : srsran_sch_t) (sb : srsran_softbuffer_tx_t) (s : srsran_cbsegm_t)
    (Qm rv nof_e_bits : Z) (data : option (list Z)) (e_bits : list Z) : option (Z * srsran_sch_t * srsran_softbuffer_tx_t * list Z) :=
  encode_tb_off t rm q sb s Qm rv nof_e_bits data e_bits 0.

(** ** Downlink shared channel *)

Inductive srsran_mod_t := SRSRAN_MOD_BPSK | SRSRAN_MOD_QPSK | SRSRAN_MOD_16QAM | SRSRAN_MOD_64QAM | SRSRAN_MOD_256QAM | SRSRAN_MOD_NITEMS.

Definition srsran_mod_bits_x_symbol (mod_ : srsran_mod_t) : Z :=
  match mod_ with
  | SRSRAN_MOD_BPSK => 1
  | SRSRAN_MOD_QPSK => 2
  | SRSRAN_MOD_16QAM => 4
  | SRSRAN_MOD_64QAM => 6
  | SRSRAN_MOD_256QAM => 8
  | SRSRAN_MOD_NITEMS => 0
  end.

(** A transport block of a grant; [cw_idx], which is for two code words, is left out. *)
Record srsran_ra_tb_t := mk_tb { tb_mod : srsran_mod_t; tb_tbs : Z; tb_rv : Z; tb_nof_bits : Z; tb_enabled : bool; tb_mcs_idx : Z }.

Definition srsran_dlsch_encode2 (t : tcod_tables) (rm : rm_tables) (q : srsran_sch_t) (sb : srsran_softbuffer_tx_t) (tb : srsran_ra_tb_t)
    (nof_tb : Z) (data : option (list Z)) (e_bits : list Z) (nof_layers : Z) : option (Z * srsran_sch_t * srsran_softbuffer_tx_t * list Z) :=
  let Nl := if negb (nof_layers =? nof_tb) then 2 else 1 in
  let '(ret, cb_segm) := srsran_cbsegm cbsegm_zero (u32 (tb_tbs tb)) in
  if negb (ret =? 0) then Some (SRSRAN_ERROR, q, sb, e_bits)
  else encode_tb t rm q sb cb_segm (srsran_mod_bits_x_symbol (tb_mod tb) * Nl) (tb_rv tb) (tb_nof_bits tb) data e_bits.

Definition srsran_dlsch_encode (t : tcod_tables) (rm : rm_tables) (q : srsran_sch_t) (sb : srsran_softbuffer_tx_t) (tb : srsran_ra_tb_t)
    (nof_tb : Z) (data : option (list Z)) (e_bits : list Z) : option (Z * srsran_sch_t * srsran_softbuffer_tx_t * list Z) :=
  srsran_dlsch_encode2 t rm q sb tb nof_tb data e_bits 1.
