(* ===== verification/SchCorrect.v ===== *)
(** * Transport blocks are coded as the standard says

    [srsran_dlsch_encode] writes the code words of 36.212 5.3.2 one after the other: the
    transport block with its checksum is cut into code blocks, each gets its own checksum
    when there are several, is coded by the turbo encoder and rate matched into its share
    of the bits of the grant. *)

From stdpp Require Import base list gmap numbers list_basics list_relations.
From S2P Require Import Prelude Float32 BitPack Crc CbSegm TurboCoder TurboCorrect BitCopy RateMatch RateMatchTables RateMatchCorrect Sch.

Local Open Scope Z_scope.

(** ** Sent bits *)

Section sent.
  Implicit Types (m l : list Z).

(** The bits after a write, by number. *)
Lemma sent_at m a l m' i :
  sent m a l m' -> 0 <= a -> a + zlen l <= 8 * zlen m -> 0 <= i ->
  (i < a -> bits_of_bytes m' !! Z.to_nat i = bits_of_bytes m !! Z.to_nat i) /\
  (a <= i < a + zlen l -> bits_of_bytes m' !! Z.to_nat i = l !! Z.to_nat (i - a)) /\
  (8 * ((a + zlen l + 7) / 8) <= i -> bits_of_bytes m' !! Z.to_nat i = bits_of_bytes m !! Z.to_nat i).
Proof.
  intros [Hz _ Hb Hl Ha] H0 H1 Hi. pose proof (zlen_nonneg l). unfold ztake, zdrop in *. split_and!.
  - intros Hlt. apply (f_equal (fun x => x !! Z.to_nat i)) in Hb. by rewrite !lookup_take_lt in Hb by lia.
  - intros Hin. apply (f_equal (fun x => x !! Z.to_nat (i - a))) in Hl. rewrite <- Hl. rewrite lookup_take_lt, lookup_drop by lia. f_equal. lia.
  - set (u := 8 * ((a + zlen l + 7) / 8)) in *. assert (Hu : 0 <= u) by (apply Z.mul_nonneg_nonneg; [lia|apply Z.div_pos; lia]).
    intros Hge. apply (f_equal (fun x => x !! Z.to_nat (i - u))) in Ha. rewrite !lookup_drop in Ha.
    by replace (Z.to_nat u + Z.to_nat (i - u))%nat with (Z.to_nat i) in Ha by lia.
Qed.

Lemma sent_intro m a l m' :
  zlen m' = zlen m -> bytes_ok m' -> 0 <= a -> a + zlen l <= 8 * zlen m ->
  (forall i, 0 <= i ->
    (i < a -> bits_of_bytes m' !! Z.to_nat i = bits_of_bytes m !! Z.to_nat i) /\
    (a <= i < a + zlen l -> bits_of_bytes m' !! Z.to_nat i = l !! Z.to_nat (i - a)) /\
    (8 * ((a + zlen l + 7) / 8) <= i -> bits_of_bytes m' !! Z.to_nat i = bits_of_bytes m !! Z.to_nat i)) ->
  sent m a l m'.
Proof.
  intros Hz Hok H0 H1 H. pose proof (zlen_nonneg l) as Hl. split; [done|done| | |]; apply list_eq; intros i; unfold ztake, zdrop.
  - destruct (Z.lt_ge_cases (Z.of_nat i) a); [|by rewrite !lookup_take_ge by lia].
    rewrite !lookup_take_lt by lia. destruct (H (Z.of_nat i) ltac:(lia)) as (P & _). rewrite Nat2Z.id in P. by apply P.
  - destruct (Z.lt_ge_cases (Z.of_nat i) (zlen l)).
    + rewrite lookup_take_lt, lookup_drop by lia. destruct (H (a + Z.of_nat i) ltac:(lia)) as (_ & P & _).
      replace (Z.to_nat a + i)%nat with (Z.to_nat (a + Z.of_nat i)) by lia. rewrite P by lia. f_equal. lia.
    + rewrite lookup_take_ge by lia. symmetry. apply lookup_ge_None_2. unfold zlen in *. lia.
  - set (u := 8 * ((a + zlen l + 7) / 8)) in *. assert (Hu : 0 <= u) by (apply Z.mul_nonneg_nonneg; [lia|apply Z.div_pos; lia]).
    rewrite !lookup_drop. destruct (H (u + Z.of_nat i) ltac:(lia)) as (_ & _ & P).
    replace (Z.to_nat u + i)%nat with (Z.to_nat (u + Z.of_nat i)) by lia. apply P. lia.
Qed.

Lemma up_bound x : x <= 8 * ((x + 7) / 8).
Proof. pose proof (Z.div_mod (x + 7) 8 ltac:(lia)). pose proof (Z.mod_pos_bound (x + 7) 8 ltac:(lia)). lia. Qed.

Lemma sent_nil m a : bytes_ok m -> 0 <= a <= 8 * zlen m -> sent m a [] m.
Proof. intros Hok Ha. apply sent_intro; try done; rewrite ?zlen_nil; try lia. intros i Hi. rewrite zlen_nil. split_and!; try done. intros; lia. Qed.

(** Two writes, one after the other. *)
Lemma sent_app m a l1 m1 l2 m2 :
  0 <= a -> a + zlen l1 + zlen l2 <= 8 * zlen m -> sent m a l1 m1 -> sent m1 (a + zlen l1) l2 m2 -> sent m a (l1 ++ l2) m2.
Proof.
  intros Ha Hz S1 S2. pose proof (zlen_nonneg l1). pose proof (zlen_nonneg l2).
  pose proof (sent_len _ _ _ _ S1) as Z1. pose proof (sent_len _ _ _ _ S2) as Z2.
  apply sent_intro; [lia|by destruct S2|done|rewrite zlen_app; lia|]. intros i Hi. rewrite zlen_app.
  destruct (sent_at m a l1 m1 i S1 Ha ltac:(lia) Hi) as (P1 & P2 & P3).
  destruct (sent_at m1 (a + zlen l1) l2 m2 i S2 ltac:(lia) ltac:(lia) Hi) as (Q1 & Q2 & Q3).
  replace (a + (zlen l1 + zlen l2) + 7) with (a + zlen l1 + zlen l2 + 7) by lia.
  pose proof (round_up_mono (a + zlen l1) (a + zlen l1 + zlen l2) ltac:(lia)). unfold zlen in *. split_and!.
  - intros ?. rewrite Q1, P1 by lia. done.
  - intros ?. destruct (Z.lt_ge_cases i (a + Z.of_nat (length l1))).
    + rewrite Q1, P2, lookup_app_l by lia. done.
    + rewrite Q2, lookup_app_r by lia. f_equal. lia.
  - intros ?. rewrite Q3, P3 by lia. done.
Qed.

(** A write through a pointer into the array. *)
Lemma sent_shift m o b l part :
  bytes_ok m -> 0 <= o <= zlen m -> 0 <= b -> b + zlen l <= 8 * (zlen m - o) -> sent (zdrop o m) b l part ->
  sent m (8 * o + b) l (ztake o m ++ part).
Proof.
  intros Hok Ho Hb Hz S. pose proof (zlen_nonneg l). pose proof (sent_len _ _ _ _ S) as Zp. rewrite zlen_zdrop in Zp by lia.
  pose proof (zlen_ztake o m Ho) as Zt. assert (Em : bits_of_bytes m = bits_of_bytes (ztake o m) ++ bits_of_bytes (zdrop o m))
    by (rewrite <- bits_of_bytes_app; by rewrite ztake_zdrop).
  pose proof (zlen_bits_of_bytes (ztake o m)) as Zb. rewrite Zt in Zb. unfold zlen in Zb.
  apply sent_intro; [rewrite zlen_app; lia|apply bytes_ok_app; split; [by apply bytes_ok_ztake|by destruct S]|lia|lia|].
  intros i Hi. rewrite bits_of_bytes_app, Em. destruct (Z.lt_ge_cases i (8 * o)) as [Hlt|Hge].
  { rewrite !lookup_app_l by lia. pose proof (up_bound (8 * o + b + zlen l)). split_and!; try done; lia. }
  rewrite !lookup_app_r by lia. replace (Z.to_nat i - length (bits_of_bytes (ztake o m)))%nat with (Z.to_nat (i - 8 * o)) by lia.
  destruct (sent_at (zdrop o m) b l part (i - 8 * o) S Hb ltac:(rewrite zlen_zdrop; lia) ltac:(lia)) as (P1 & P2 & P3).
  replace ((8 * o + b + zlen l + 7) / 8) with (o + (b + zlen l + 7) / 8)
    by (replace (8 * o + b + zlen l + 7) with (b + zlen l + 7 + o * 8) by lia; rewrite Z.div_add by lia; lia).
  split_and!; intros ?; [apply P1; lia|rewrite P2 by lia; f_equal; lia|apply P3; lia].
Qed.

End sent.

(** ** What the standard sends *)

Section standard.
  Variables (s : srsran_cbsegm_t) (Qm G rv : Z).

(** The bytes of the transport block in the code block [i], its size apart from its own checksum. *)
Definition payload (i : Z) : Z := fst (cb_size s i) / 8 - (if s_C s >? 1 then 3 else 0).

(** The code block of a payload. *)
Definition with_checksum (p : list Z) : list Z :=
  if s_C s >? 1 then p ++ checksum_bytes 24 (crc_of 24 SRSRAN_LTE_CRC24B (bits_of_bytes p)) else p.

(** Its share of the bits of the grant. *)
Definition share (i : Z) : Z :=
  let Gp := G / Qm in
  if i <=? s_C s - Gp mod s_C s - 1 then Qm * (Gp / s_C s) else Qm * ceil_div Gp (s_C s).

(** The rate matched bits of a code block of the size with the index [j], coded bit by bit. *)
Definition block_bits (j : Z) (blk : list Z) (E : Z) : list Z :=
  match srsran_tcod_encode srsran_tcod_gentable (mk_tcod SRSRAN_TCOD_MAX_LEN_CB []) (bits_of_bytes blk) (srsran_cbsegm_cbsize j) with
  | Some (inr out) => let '(x, p1, p2) := streams out in rate_matched j x p1 p2 rv E
  | _ => []
  end.

(** The bits of [n] code blocks from the block [i] on, [b] the bytes still to send. *)
Fixpoint coded_bits (n : nat) (i : Z) (b : list Z) : list Z :=
  match n with
  | O => []
  | S n => block_bits (snd (cb_size s i)) (with_checksum (ztake (payload i) b)) (share i) ++ coded_bits n (i + 1) (zdrop (payload i) b)
  end.

End standard.

(** The transport block with its checksum. *)
Definition with_tb_checksum (data : list Z) : list Z := data ++ checksum_bytes 24 (crc_of 24 SRSRAN_LTE_CRC24A (bits_of_bytes data)).

Definition transport_block_bits (s : srsran_cbsegm_t) (Qm G rv : Z) (data : list Z) : list Z :=
  coded_bits s Qm G rv (Z.to_nat (s_C s)) 0 (with_tb_checksum data).

(** ** One code block *)

(** The buffers of the encoder object are large enough. *)
Record sch_ok (q : srsran_sch_t) (ct : Z) : Prop := mk_sch_ok {
  so_tb : exists c, crc_tb q = crc_obj 24 SRSRAN_LTE_CRC24A c /\ c mod 2 ^ 24 = ct;
  so_cb : exists c, crc_cb q = crc_obj 24 SRSRAN_LTE_CRC24B c;
  so_max : tc_max_long_cb (encoder q) = SRSRAN_TCOD_MAX_LEN_CB;
  so_temp : SRSRAN_TCOD_MAX_LEN_CB / 8 <= zlen (temp (encoder q));
  so_in : SRSRAN_TCOD_MAX_LEN_CB / 8 < zlen (cb_in q);
  so_parity : 2 * (SRSRAN_TCOD_MAX_LEN_CB / 8) < zlen (parity_bits q)
}.

(** The soft buffers hold the largest code word. *)
Record softbuffer_ok (sb : srsran_softbuffer_tx_t) : Prop := mk_sb_ok {
  sb_count : zlen (buffer_b sb) = max_cb sb;
  sb_bytes : Forall (fun w => bytes_ok w /\ 3 * (SRSRAN_TCOD_MAX_LEN_CB + 4) + 8 <= 8 * zlen w) (buffer_b sb)
}.

(** The encoder that only counts bits does not depend on its buffer. *)
Lemma block_bits_streams rv j h blk E O x p1 p2 :
  tc_max_long_cb h = SRSRAN_TCOD_MAX_LEN_CB -> srsran_tcod_encode srsran_tcod_gentable h (bits_of_bytes blk) (srsran_cbsegm_cbsize j) = Some (inr O) ->
  streams O = (x, p1, p2) -> block_bits rv j blk E = rate_matched j x p1 p2 rv E.
Proof.
  intros Hm EO ES. unfold block_bits.
  replace (srsran_tcod_encode srsran_tcod_gentable (mk_tcod SRSRAN_TCOD_MAX_LEN_CB []) (bits_of_bytes blk) (srsran_cbsegm_cbsize j)) with (Some (inr (A := Z) O)).
  - by rewrite ES.
  - rewrite <- EO. unfold srsran_tcod_encode. by rewrite Hm.
Qed.

Section turn.
  Variables (s : srsran_cbsegm_t) (tbs : Z) (data : list Z).
  Hypotheses (Hseg : segments tbs s) (HF : s_F s = 0) (Htbs : 1 <= tbs < 2 ^ 24) (Hdata : bytes_ok data) (Hlen : 8 * zlen data = tbs).

Definition multi : bool := s_C s >? 1.

Lemma K1_facts : 0 <= s_K1_idx s < 188 /\ s_K1 s = size_at (s_K1_idx s) /\ s_K1 s mod 8 = 0 /\ 40 <= s_K1 s <= 6144.
Proof.
  destruct Hseg as [_ _ _ _ (_ & E & Hi) _]. destruct (size_index _ Hi) as [_ H8]. pose proof (size_range _ Hi). rewrite E. done.
Qed.

Lemma K2_facts : multi = true -> 0 <= s_K2_idx s < 188 /\ s_K2 s = size_at (s_K2_idx s) /\ s_K2 s mod 8 = 0 /\ 40 <= s_K2 s < s_K1 s.
Proof.
  unfold multi. rewrite Z.gtb_lt. intros Hm. destruct Hseg as [_ _ _ _ (_ & _ & Hi) H2]. destruct (H2 Hm) as (_ & E & Ei & Hlt).
  assert (Hi2 : 0 <= s_K2_idx s < 188).
  { destruct (Z.eq_dec (s_K1_idx s) 0) as [E0|]; [|lia]. destruct K1_facts as (_ & E1 & _). rewrite E0 in *.
    rewrite E1, E, Ei in Hlt. by vm_compute in Hlt. }
  destruct (size_index _ Hi2) as [_ H8]. pose proof (size_range _ Hi2). rewrite E in *. split_and!; done || lia.
Qed.

(** The blocks of the smaller size come first; a single block has the larger. *)
Lemma single_block : multi = false -> s_C s = 1 /\ s_C2 s = 0 /\ s_C1 s = 1.
Proof.
  unfold multi. intros Hm. destruct Hseg as [_ (Hc & H1 & H2) _ _ _ _]. rewrite Z.gtb_ltb, Z.ltb_ge in Hm. lia.
Qed.

Lemma cb_size_facts i :
  0 <= i < s_C s ->
  let '(K, j) := cb_size s i in 0 <= j < 188 /\ K = size_at j /\ K mod 8 = 0 /\ 40 <= K <= 6144 /\ (multi = true -> i = s_C s - 1 -> 48 <= K).
Proof.
  intros Hi. destruct K1_facts as (A1 & A2 & A3 & A4). unfold cb_size. destruct Hseg as [_ (Hc & H1 & H2) _ _ _ _].
  destruct (Z.ltb_spec i (s_C2 s)) as [Hlt|Hge].
  - destruct multi eqn:Em; [|destruct (single_block Em); lia]. destruct (K2_facts Em) as (B1 & B2 & B3 & B4). split_and!; try done; lia.
  - split_and!; try done; try lia. intros Em _. destruct (K2_facts Em) as (_ & _ & B3 & B4).
    pose proof (Z.div_mod (s_K1 s) 8 ltac:(lia)). pose proof (Z.div_mod (s_K2 s) 8 ltac:(lia)). lia.
Qed.

(** The bytes in the blocks from the block [i] on. *)
Definition bytes_left (i : Z) : Z :=
  let pl1 := s_K1 s / 8 - (if multi then 3 else 0) in
  let pl2 := s_K2 s / 8 - (if multi then 3 else 0) in
  if i <? s_C2 s then (s_C2 s - i) * pl2 + s_C1 s * pl1 else (s_C s - i) * pl1.

Lemma blocks_count : 1 <= s_C s < 2 ^ 24.
Proof.
  destruct Hseg as [_ (Hc & H1 & H2) Hb _ _ _]. destruct K1_facts as (_ & _ & _ & A). split; [lia|].
  unfold cb_crc_bits in Hb. destruct (Z.eqb_spec (s_C s) 1) as [|Hn]; [lia|].
  destruct (K2_facts ltac:(unfold multi; rewrite Z.gtb_ltb; apply Z.ltb_lt; lia)) as (_ & _ & _ & B). nia.
Qed.

Lemma bytes_left_0 : bytes_left 0 = zlen data + 3.
Proof.
  destruct Hseg as [_ (Hc & H1 & H2) Hb _ _ _]. destruct K1_facts as (_ & _ & A8 & A). unfold bytes_left. rewrite HF in Hb.
  pose proof (Z.div_mod (s_K1 s) 8 ltac:(lia)). destruct multi eqn:Em.
  - destruct (K2_facts Em) as (_ & _ & B8 & B). pose proof (Z.div_mod (s_K2 s) 8 ltac:(lia)).
    unfold cb_crc_bits in Hb. unfold multi in Em. rewrite Z.gtb_lt in Em. rewrite (proj2 (Z.eqb_neq _ _)) in Hb by lia.
    destruct (Z.ltb_spec 0 (s_C2 s)); nia.
  - destruct (single_block Em) as (E1 & E2 & E3). unfold cb_crc_bits in Hb. rewrite E1, E2, E3 in *. cbn [Z.eqb Pos.eqb] in Hb. change (0 <? 0) with false. cbv iota. lia.
Qed.

Lemma bytes_left_step i : 0 <= i < s_C s -> bytes_left i = payload s i + bytes_left (i + 1).
Proof.
  intros Hi. destruct Hseg as [_ (Hc & H1 & H2) _ _ _ _]. unfold bytes_left, payload, cb_size. fold multi.
  destruct (Z.ltb_spec i (s_C2 s)), (Z.ltb_spec (i + 1) (s_C2 s)); cbn [fst]; try lia.
  replace (s_C2 s) with (i + 1) by lia. replace (s_C s) with (s_C1 s + (i + 1)) by lia. lia.
Qed.

Lemma payload_facts i :
  0 <= i < s_C s ->
  0 <= payload s i /\ fst (cb_size s i) = 8 * (payload s i + (if multi then 3 else 0)) /\ cb_rlen s i = 8 * payload s i.
Proof.
  intros Hi. pose proof (cb_size_facts i Hi) as Hc. unfold payload, cb_rlen. fold multi. destruct (cb_size s i) as [K j]. cbn [fst].
  destruct Hc as (_ & _ & H8 & Hr & _). pose proof (Z.div_mod K 8 ltac:(lia)).
  assert (5 <= K / 8) by (apply Z.div_le_lower_bound; lia). destruct multi; [rewrite u32_small by lia|]; lia.
Qed.

Lemma bytes_left_bounds i : 0 <= i < s_C s -> 3 <= bytes_left i /\ (i = s_C s - 1 -> bytes_left (i + 1) = 0).
Proof.
  intros Hi. destruct Hseg as [_ (Hc & H1 & H2) _ _ _ _]. assert (Elast : bytes_left (s_C s) = 0).
  { unfold bytes_left. destruct (Z.ltb_spec (s_C s) (s_C2 s)); [lia|]. lia. }
  split; [|intros ->; by replace (s_C s - 1 + 1) with (s_C s) by lia].
  assert (Hl : 3 <= bytes_left (s_C s - 1)).
  { rewrite (bytes_left_step (s_C s - 1)) by lia. replace (s_C s - 1 + 1) with (s_C s) by lia. rewrite Elast.
    destruct multi eqn:Em.
    - pose proof (cb_size_facts (s_C s - 1) ltac:(lia)) as Hf. destruct (payload_facts (s_C s - 1) ltac:(lia)) as (_ & E & _). rewrite Em in E.
      destruct (cb_size s (s_C s - 1)) as [K j]. cbn [fst] in E. destruct Hf as (_ & _ & _ & _ & Hf). specialize (Hf Em eq_refl). lia.
    - destruct (single_block Em) as (E1 & _). pose proof bytes_left_0 as E0. rewrite (bytes_left_step 0) in E0 by lia.
      rewrite E1 in *. change (1 - 1) with 0. change (0 + 1) with 1 in E0. rewrite Elast in E0. pose proof (zlen_nonneg data). lia. }
  assert (Hm : forall k, 0 <= k -> 0 <= s_C s - 1 - k -> 3 <= bytes_left (s_C s - 1 - k)).
  { intros k Hk. pattern k. apply natlike_ind; [intros _; by rewrite Z.sub_0_r| |done]. clear k Hk. intros k Hk IH Hge.
    rewrite bytes_left_step by lia. replace (s_C s - 1 - Z.succ k + 1) with (s_C s - 1 - k) by lia.
    destruct (payload_facts (s_C s - 1 - Z.succ k) ltac:(lia)) as (Hp & _). specialize (IH ltac:(lia)). lia. }
  specialize (Hm (s_C s - 1 - i)). replace (s_C s - 1 - (s_C s - 1 - i)) with i in Hm by lia. apply Hm; lia.
Qed.

(** The part of the data in a block, and what the encoder adds to it. *)
Lemma block_data i r :
  0 <= i < s_C s -> 0 <= r -> r + bytes_left i = zlen data + 3 ->
  let last := negb (i <? u32 (s_C s - 1)) in
  let n := (if last then u32 (cb_rlen s i - 24) else cb_rlen s i) / 8 in
  0 <= n /\ r + n <= zlen data /\ n + tb_len 3 last = payload s i /\
  forall ct, ct mod 2 ^ 24 = crc_of 24 SRSRAN_LTE_CRC24A (bits_of_bytes (ztake r data)) ->
    let pd := ztake n (zdrop r data) in
    coded_block 24 SRSRAN_LTE_CRC24A 24 SRSRAN_LTE_CRC24B multi last ct pd = with_checksum s (ztake (payload s i) (zdrop r (with_tb_checksum data))) /\
    fold_left (feed 24 SRSRAN_LTE_CRC24A) (bits_of_bytes pd) (ct mod 2 ^ 24) = crc_of 24 SRSRAN_LTE_CRC24A (bits_of_bytes (ztake (r + payload s i) data)).
Proof.
  intros Hi Hr Hleft. destruct (payload_facts i Hi) as (Hp & _ & Er). destruct (bytes_left_bounds i Hi) as [Hb Hlast]. pose proof blocks_count as HC.
  rewrite (bytes_left_step i Hi) in Hleft. rewrite (u32_small (s_C s - 1)) by lia. cbv zeta.
  set (n := (if negb (i <? s_C s - 1) then u32 (cb_rlen s i - 24) else cb_rlen s i) / 8).
  assert (Hpl : r + payload s i <= zlen data + 3).
  { destruct (Z.eq_dec i (s_C s - 1)) as [E|]; [rewrite Hlast in Hleft by done; lia|]. destruct (bytes_left_bounds (i + 1) ltac:(lia)). lia. }
  assert (Hn : n = (if negb (i <? s_C s - 1) then payload s i - 3 else payload s i)).
  { unfold n. rewrite Er. destruct (Z.ltb_spec i (s_C s - 1)); cbn [negb].
    - rewrite Z.mul_comm. apply Z.div_mul. lia.
    - assert (i = s_C s - 1) as -> by lia. rewrite (bytes_left_step _ Hi), Hlast in Hb by done.
      rewrite u32_small by (pose proof (zlen_nonneg data); lia). replace (8 * payload s (s_C s - 1) - 24) with ((payload s (s_C s - 1) - 3) * 8) by lia. apply Z.div_mul. lia. }
  rewrite Hn. clear n Hn. unfold tb_len.
  assert (Hz : zlen (checksum_bytes 24 (crc_of 24 SRSRAN_LTE_CRC24A (bits_of_bytes data))) = 3) by reflexivity.
  assert (W : forall x y pd, coded_block 24 SRSRAN_LTE_CRC24A 24 SRSRAN_LTE_CRC24B multi x y pd = with_checksum s (pd ++ tb_bytes 24 SRSRAN_LTE_CRC24A x y pd)).
  { intros x y pd. unfold coded_block, with_checksum, cb_bytes. fold multi. destruct multi; [done|by rewrite app_nil_r]. }
  destruct (Z.ltb_spec i (s_C s - 1)) as [Hlt|Hge]; cbn [negb].
  - destruct (bytes_left_bounds (i + 1) ltac:(lia)) as [Hb1 _]. split_and!; try lia. intros ct Ect. cbv zeta. rewrite W. unfold tb_bytes. rewrite app_nil_r.
    unfold with_tb_checksum, zdrop, ztake. unfold zlen in *. rewrite drop_app_le, take_app_le by (rewrite ?length_drop; lia). split; [done|].
    rewrite Ect. unfold crc_of, ztake.
    rewrite <- fold_left_app, <- bits_of_bytes_app, take_take_drop. by rewrite Z2Nat.inj_add by lia.
  - assert (i = s_C s - 1) as -> by lia. rewrite Hlast in Hleft by done. rewrite (bytes_left_step _ Hi), Hlast in Hb by done. split_and!; try lia. intros ct Ect. cbv zeta. rewrite W.
    assert (Epd : ztake (payload s (s_C s - 1) - 3) (zdrop r data) = zdrop r data) by (apply ztake_all; rewrite zlen_zdrop; lia). rewrite Epd.
    assert (Ecrc : fold_left (feed 24 SRSRAN_LTE_CRC24A) (bits_of_bytes (zdrop r data)) (ct mod 2 ^ 24) = crc_of 24 SRSRAN_LTE_CRC24A (bits_of_bytes data)).
    { rewrite Ect. unfold crc_of. by rewrite <- fold_left_app, <- bits_of_bytes_app, ztake_zdrop. }
    unfold tb_bytes. rewrite Ecrc, (ztake_all _ data) by lia. split; [|done]. f_equal. unfold with_tb_checksum.
    assert (Ed : zdrop r (data ++ checksum_bytes 24 (crc_of 24 SRSRAN_LTE_CRC24A (bits_of_bytes data))) =
      zdrop r data ++ checksum_bytes 24 (crc_of 24 SRSRAN_LTE_CRC24A (bits_of_bytes data))).
    { unfold zdrop, zlen in *. by rewrite drop_app_le by lia. }
    rewrite Ed. symmetry. apply ztake_all. rewrite zlen_app, Hz, zlen_zdrop; lia.
Qed.

(** The copy and the encoder: [cb_in] and [parity_bits] hold the streams of the code block. *)
Lemma encode_data_spec i r q :
  0 <= i < s_C s -> 0 <= r -> r + bytes_left i = zlen data + 3 ->
  sch_ok q (crc_of 24 SRSRAN_LTE_CRC24A (bits_of_bytes (ztake r data))) ->
  let j := snd (cb_size s i) in
  exists q' O x p1 p2 rest0 rest1,
    encode_data srsran_tcod_gentable q s (Some data) i (8 * r) = Some q' /\
    sch_ok q' (crc_of 24 SRSRAN_LTE_CRC24A (bits_of_bytes (ztake (r + payload s i) data))) /\
    srsran_tcod_encode srsran_tcod_gentable (encoder q) (bits_of_bytes (with_checksum s (ztake (payload s i) (zdrop r (with_tb_checksum data)))))
      (srsran_cbsegm_cbsize j) = Some (inr O) /\
    streams O = (x, p1, p2) /\ bits_of_bytes (cb_in q') = x ++ rest0 /\ bits_of_bytes (parity_bits q') = (p1 ++ p2) ++ rest1 /\
    zlen x = stream_len j /\ zlen p1 = stream_len j /\ zlen p2 = stream_len j.
Proof.
  intros Hi Hr Hleft [(ct & Etb & Ect) (cc & Ecb) Hmax Htemp Hin Hpar] j.
  destruct (block_data i r Hi Hr Hleft) as (Hn & Hrn & Hpl & Hct). destruct (Hct ct Ect) as [Eblk Efeed]. clear Hct.
  destruct (payload_facts i Hi) as (_ & EK & _). pose proof (cb_size_facts i Hi) as Hsz. unfold j in *. destruct (cb_size s i) as [K idx] eqn:Ecs. cbn [fst snd] in *.
  destruct Hsz as (Hidx & EKs & H8 & HK & _). unfold encode_data. rewrite Ecs. cbn [snd]. cbv zeta. set (last := negb (i <? u32 (s_C s - 1))) in *.
  set (n := (if last then u32 (cb_rlen s i - 24) else cb_rlen s i) / 8) in *. unfold SRSRAN_TCOD_MAX_LEN_CB in *. change (6144 / 8) with 768 in *.
  replace (8 * r / 8) with r by (rewrite Z.mul_comm; symmetry; apply Z.div_mul; lia). rewrite load_bytes_Some by lia. cbn [mbind option_bind].
  set (pd := ztake n (zdrop r data)) in *. assert (Zpd : zlen pd = n) by (unfold pd; rewrite zlen_ztake; [done|]; rewrite zlen_zdrop; lia).
  assert (HnK : n + tb_len 3 last + cb_len 3 multi = K / 8).
  { rewrite EK, Z.mul_comm, Z.div_mul by lia. unfold cb_len. destruct multi; lia. }
  assert (HK8 : K / 8 <= 768) by (apply Z.div_le_upper_bound; lia).
  assert (Htl : 0 <= tb_len 3 last /\ 0 <= cb_len 3 multi) by (unfold tb_len, cb_len; destruct last, multi; lia).
  rewrite store_Some by lia. rewrite ztake_0, Z.add_0_l, Zpd. cbn [app mbind option_bind].
  destruct (encode_lut_spec 24 SRSRAN_LTE_CRC24A 3 24 SRSRAN_LTE_CRC24B 3 idx (encoder q) multi last ct cc pd (zdrop n (cb_in q)) (parity_bits q)
    (proj1 crc24_bytes) (proj2 crc24_bytes) Hidx) as (input & par & tmp & tb & cb & O & x & p1 & p2 & rest0 & rest1 & El & Etb' & Zi & Zp & Zt & EO & ES & B0 & B1 & L0 & L1 & L2).
  { apply bytes_ok_ztake. by apply bytes_ok_zdrop. } { rewrite <- EKs, Zpd. pose proof (Z.div_mod K 8 ltac:(lia)). lia. }
  { rewrite zlen_zdrop by lia. lia. } { rewrite <- EKs. lia. } { rewrite <- EKs. lia. } { rewrite <- EKs. lia. }
  rewrite Etb, Ecb. fold multi. change (if multi then Some (crc_obj 24 SRSRAN_LTE_CRC24B cc) else None) with (cb_obj 24 SRSRAN_LTE_CRC24B multi cc).
  rewrite El. cbn [mbind option_bind]. rewrite zlen_app, zlen_zdrop in Zi by lia.
  exists (mk_sch (crc_obj 24 SRSRAN_LTE_CRC24A tb) (default (crc_obj 24 SRSRAN_LTE_CRC24B cc) (cb_obj 24 SRSRAN_LTE_CRC24B multi cb)) (mk_tcod (tc_max_long_cb (encoder q)) tmp) input par), O, x, p1, p2, rest0, rest1.
  unfold stream_len. rewrite cbsize_at by done. rewrite Eblk in EO. split_and!; try done.
  split; cbn [crc_tb crc_cb encoder cb_in parity_bits tc_max_long_cb temp]; try done; unfold SRSRAN_TCOD_MAX_LEN_CB; change (6144 / 8) with 768; try lia.
  - exists tb. split; [done|]. by rewrite Etb', Efeed.
  - unfold cb_obj. destruct multi; cbn [default from_option]; by eexists.
Qed.

(** ** The loop over the code blocks *)

  Variables (Qm G : Z) (out0 : list Z) (w_offset : Z).
  Hypotheses (HQ : 0 < Qm) (HG : 0 <= G < 2 ^ 24) (Hoff : 0 <= w_offset) (Hroom : w_offset + G <= 8 * zlen out0)
    (H32 : w_offset + G < 2 ^ 32).

(** The bits of the blocks from the block [i] on. *)
Definition bits_left (i : Z) : Z :=
  let Gp := G / Qm in Qm * ((s_C s - i) * (Gp / s_C s) + Z.min (Gp mod s_C s) (s_C s - i)).

Lemma share_facts i :
  0 <= i < s_C s -> 0 <= share s Qm G i /\ bits_left i = share s Qm G i + bits_left (i + 1) /\ 0 <= bits_left (i + 1).
Proof.
  intros Hi. unfold share, bits_left. set (Gp := G / Qm). assert (HGp : 0 <= Gp) by (apply Z.div_pos; lia).
  pose proof (Z.div_mod Gp (s_C s) ltac:(lia)) as Hd. pose proof (Z.mod_pos_bound Gp (s_C s) ltac:(lia)) as Hm.
  assert (Hq : 0 <= Gp / s_C s) by (apply Z.div_pos; lia). set (q := Gp / s_C s) in *. set (g := Gp mod s_C s) in *.
  assert (0 <= (s_C s - (i + 1)) * q) by nia. cbv zeta. destruct (Z.leb_spec i (s_C s - g - 1)).
  - split_and!; nia.
  - assert (Ec : ceil_div Gp (s_C s) = q + 1) by (apply ceil_div_unique; lia). rewrite Ec. split_and!; nia.
Qed.

Lemma bits_left_0 : bits_left 0 <= G.
Proof.
  destruct blocks_count as [HC _]. unfold bits_left. set (Gp := G / Qm). rewrite Z.sub_0_r.
  pose proof (Z.div_mod Gp (s_C s) ltac:(lia)) as Hd. pose proof (Z.mod_pos_bound Gp (s_C s) ltac:(lia)) as Hm. rewrite Z.min_l by lia.
  rewrite <- Hd. unfold Gp. apply Z.mul_div_le. lia.
Qed.

(** [n_e] is the share of the standard. *)
Lemma n_e_share i : 0 <= i < s_C s -> cb_n_e s Qm (G / Qm) ((G / Qm) mod s_C s) i = share s Qm G i.
Proof.
  intros Hi. destruct blocks_count as [_ HC]. destruct (share_facts i Hi) as (H0 & H1 & H2).
  assert (Hb : bits_left i <= G).
  { assert (G2 : forall k, 0 <= k -> k <= i -> bits_left k <= G).
    { intros k Hk. pattern k. apply natlike_ind; [intros _; apply bits_left_0| |done]. clear k Hk. intros k Hk IH Hki.
      destruct (share_facts k ltac:(lia)) as (S0 & S1 & _). specialize (IH ltac:(lia)). change (Z.succ k) with (k + 1). lia. }
    apply G2; lia. }
  assert (HGp : 0 <= G / Qm <= G) by (split; [apply Z.div_pos; lia|apply Z.div_le_upper_bound; nia]).
  pose proof (Z.mod_pos_bound (G / Qm) (s_C s) ltac:(lia)) as Hm. unfold cb_n_e, share in *. cbv zeta in *.
  rewrite (u32_small (s_C s - _)), u32_small by lia. rewrite !fl_of_int_exact, fl_ceil_div_exact by lia.
  destruct (Z.leb_spec i (s_C s - (G / Qm) mod s_C s - 1)); [apply u32_small; lia|].
  assert (0 <= ceil_div (G / Qm) (s_C s)) by nia. rewrite (u32_small (ceil_div _ _)) by nia. apply u32_small. lia.
Qed.

(** Before the block [i]: [r] bytes are coded and [l] is written. *)
Record enc_ok (st : enc_state) (i r : Z) (l : list Z) : Prop := mk_enc_ok {
  eo_r : 0 <= r /\ r + bytes_left i = zlen data + 3;
  eo_q : sch_ok (e_q st) (crc_of 24 SRSRAN_LTE_CRC24A (bits_of_bytes (ztake r data)));
  eo_sb : softbuffer_ok (e_sb st) /\ s_C s <= max_cb (e_sb st);
  eo_rp : e_rp st = 8 * r;
  eo_wp : e_wp st = zlen l /\ zlen l + bits_left i = bits_left 0;
  eo_out : sent out0 w_offset l (e_out st)
}.

Lemma softbuffer_put sb i w :
  softbuffer_ok sb -> bytes_ok w -> 3 * (SRSRAN_TCOD_MAX_LEN_CB + 4) + 8 <= 8 * zlen w ->
  softbuffer_ok (mk_softbuffer (max_cb sb) (max_cb_size sb) (<[i := w]> (buffer_b sb))).
Proof.
  intros [Hc Hb] Hw Hz. split; cbn [buffer_b max_cb]; [unfold zlen in *; by rewrite length_insert|]. by apply Forall_insert.
Qed.

(** One block is coded into its share. *)
Lemma encode_cb_spec st i r l :
  0 <= i < s_C s -> enc_ok st i r l ->
  exists st', encode_cb srsran_tcod_gentable rm_generated s Qm 0 (G / Qm) ((G / Qm) mod s_C s) (Some data) w_offset i st = Some (0, st') /\
    enc_ok st' (i + 1) (r + payload s i)
      (l ++ block_bits 0 (snd (cb_size s i)) (with_checksum s (ztake (payload s i) (zdrop r (with_tb_checksum data)))) (share s Qm G i)).
Proof.
  intros Hi [[Hr Hleft] Hq [Hsb Hmax] Erp [Ewp Hl] Hout]. destruct (payload_facts i Hi) as (Hp & _ & Erl). destruct (share_facts i Hi) as (S0 & S1 & S2).
  pose proof blocks_count as HC. pose proof (zlen_nonneg l) as Hl0. pose proof bits_left_0 as HG0. pose proof (zlen_nonneg data). destruct (bytes_left_bounds i Hi) as [Hb3 _].
  assert (Hleft' : r + payload s i + bytes_left (i + 1) = zlen data + 3) by (rewrite (bytes_left_step i Hi) in Hleft; lia).
  assert (Hbl : 0 <= bytes_left (i + 1)).
  { destruct (Z.eq_dec i (s_C s - 1)) as [E|]; [rewrite (proj2 (bytes_left_bounds i Hi) E); lia|]. destruct (bytes_left_bounds (i + 1) ltac:(lia)). lia. }
  unfold encode_cb. rewrite Erp, Ewp.
  destruct (encode_data_spec i r (e_q st) Hi Hr Hleft Hq) as (q' & O & x & p1 & p2 & rest0 & rest1 & Eq & Hq' & EO & ES & B0 & B1 & L0 & L1 & L2).
  rewrite Eq. cbn [mbind option_bind]. rewrite n_e_share by done.
  pose proof (cb_size_facts i Hi) as Hsz. destruct (cb_size s i) as [K j]. cbn [fst snd] in *. destruct Hsz as (Hj & EK & _ & HK & _).
  destruct (lookup_lt_is_Some_2 (buffer_b (e_sb st)) (Z.to_nat i)) as [w Ew]; [destruct Hsb as [Hc _]; unfold zlen in Hc; lia|].
  assert (Hw : bytes_ok w /\ 3 * (SRSRAN_TCOD_MAX_LEN_CB + 4) + 8 <= 8 * zlen w).
  { destruct Hsb as [_ Hf]. rewrite Forall_lookup in Hf. exact (Hf _ _ Ew). }
  rewrite Ew. cbn [mbind option_bind]. rewrite (u32_small (zlen l + w_offset)) by lia.
  pose proof (sent_len _ _ _ _ Hout) as Zo. pose proof (sent_ok _ _ _ _ Hout) as Oo. set (pos := zlen l + w_offset) in *.
  assert (Hpos : 0 <= pos / 8) by (apply Z.div_pos; lia). pose proof (Z.div_mod pos 8 ltac:(lia)) as Hdm. pose proof (Z.mod_pos_bound pos 8 ltac:(lia)) as Hmb.
  assert (Hsl : stream_len j <= SRSRAN_TCOD_MAX_LEN_CB + 4) by (unfold stream_len, SRSRAN_TCOD_MAX_LEN_CB; rewrite cbsize_at by done; lia).
  assert (Hbits : bits_ok x /\ bits_ok p1 /\ bits_ok p2).
  { pose proof (bits_of_bytes_ok (cb_in q')) as H1. pose proof (bits_of_bytes_ok (parity_bits q')) as H2. rewrite B0 in H1. rewrite B1 in H2.
    apply bits_ok_app in H1 as [? _]. by apply bits_ok_app in H2 as [[? ?]%bits_ok_app _]. }
  destruct Hbits as (Ox & O1 & O2). rewrite (block_bits_streams 0 j (encoder (e_q st)) _ (share s Qm G i) O x p1 p2) by (try done; apply Hq).
  destruct (rate_matched_lookup j x p1 p2 Hj L0 L1 L2 0 (share s Qm G i) ltac:(lia) S0) as [Zr _].
  destruct (tx_lut_first j x p1 p2 Hj L0 L1 L2 (cb_in q') (parity_bits q') rest0 rest1 w (zdrop (pos / 8) (e_out st)) (share s Qm G i) (pos mod 8)
    Ox O1 O2 B0 B1 (proj1 Hw) ltac:(lia)) as (w' & part & Et & Zw & Ow & _ & Sp);
    [by apply bytes_ok_zdrop|lia|lia|rewrite zlen_zdrop; lia|].
  rewrite Et. cbn [mbind option_bind]. cbn [negb Z.eqb]. eexists. split; [reflexivity|].
  split; cbn [e_q e_sb e_out e_rp e_wp]; [lia|done| | | |].
  - split; [apply softbuffer_put; done || lia|done].
  - rewrite Erl, u32_small by lia. lia.
  - rewrite zlen_app, Zr, u32_small by lia. lia.
  - apply (sent_app _ _ _ (e_out st)); [done|lia|done|]. replace (w_offset + zlen l) with (8 * (pos / 8) + pos mod 8) by lia.
    apply sent_shift; try done; lia.
Qed.

(** The rest of the blocks. *)
Lemma encode_cbs_spec n st i r l :
  0 <= i -> i + Z.of_nat n = s_C s -> enc_ok st i r l ->
  exists st', encode_cbs n srsran_tcod_gentable rm_generated s Qm 0 (G / Qm) ((G / Qm) mod s_C s) (Some data) w_offset i st = Some (0, st') /\
    enc_ok st' (s_C s) (zlen data + 3) (l ++ coded_bits s Qm G 0 n i (zdrop r (with_tb_checksum data))).
Proof.
  revert st i r l. induction n as [|n IH]; intros st i r l Hi Hn Hst.
  - assert (i = s_C s) as -> by lia. exists st. split; [done|]. cbn [coded_bits]. rewrite app_nil_r. pose proof blocks_count as HC.
    replace (zlen data + 3) with r; [done|]. destruct Hst as [[_ Hl] _ _ _ _ _].
    destruct (bytes_left_bounds (s_C s - 1) ltac:(lia)) as [_ H]. specialize (H eq_refl). replace (s_C s - 1 + 1) with (s_C s) in H by lia. lia.
  - destruct (encode_cb_spec st i r l ltac:(lia) Hst) as (st1 & E1 & H1).
    destruct (IH st1 (i + 1) (r + payload s i) _ ltac:(lia) ltac:(lia) H1) as (st2 & E2 & H2).
    exists st2. cbn [encode_cbs]. rewrite E1. cbn [mbind option_bind]. cbn [negb Z.eqb]. split; [done|]. cbn [coded_bits].
    destruct (payload_facts i ltac:(lia)) as (Hp & _). destruct Hst as [[Hr _] _ _ _ _ _].
    rewrite zdrop_zdrop, (Z.add_comm (payload s i) r) by done. by rewrite app_assoc.
Qed.

Lemma encode_tb_off_spec q sb ct :
  bytes_ok out0 -> sch_ok q ct -> softbuffer_ok sb -> s_C s <= max_cb sb ->
  exists q' sb' e' ct',
    encode_tb_off srsran_tcod_gentable rm_generated q sb s Qm 0 G (Some data) out0 w_offset = Some (0, q', sb', e') /\
    sent out0 w_offset (transport_block_bits s Qm G 0 data) e' /\ zlen (transport_block_bits s Qm G 0 data) = Qm * (G / Qm) /\
    sch_ok q' ct' /\ softbuffer_ok sb'.
Proof.
  intros Hout [(c & Etb & _) Hcb Hm Ht Hin Hpar] Hsb Hmax. pose proof blocks_count as HC. pose proof bits_left_0 as HG0. unfold encode_tb_off.
  rewrite HF. cbn [negb Z.eqb]. rewrite !Z.gtb_ltb. rewrite (proj2 (Z.ltb_ge _ _)), (proj2 (Z.eqb_neq Qm 0)), (proj2 (Z.ltb_lt 0 _)) by lia. cbv zeta.
  set (q0 := mk_sch _ _ _ _ _). assert (Hq0 : sch_ok q0 (crc_of 24 SRSRAN_LTE_CRC24A (bits_of_bytes (ztake 0 data)))).
  { split; cbn [q0 crc_tb crc_cb encoder cb_in parity_bits]; try done. exists 0. rewrite Etb. done. }
  destruct (encode_cbs_spec (Z.to_nat (s_C s)) (mk_enc q0 sb out0 0 0) 0 0 [] ltac:(lia) ltac:(lia)) as (st & E & H).
  { split; cbn [e_q e_sb e_out e_rp e_wp]; [split; [lia|rewrite bytes_left_0; lia]|done|done|done|split; [done|by rewrite zlen_nil]|].
    apply sent_nil; [done|lia]. }
  rewrite E. cbn [mbind option_bind]. destruct H as [_ Hq [Hsb' _] _ [Ewp Hw] Hs]. rewrite zdrop_0 in *. cbn [app] in *.
  exists (e_q st), (e_sb st), (e_out st). eexists. split; [done|]. split; [exact Hs|]. split; [|by split; [exact Hq|]].
  fold (transport_block_bits s Qm G 0 data) in Hw. unfold bits_left in Hw. rewrite Z.sub_diag, Z.sub_0_r in Hw.
  pose proof (Z.div_mod (G / Qm) (s_C s) ltac:(lia)) as Hd. pose proof (Z.mod_pos_bound (G / Qm) (s_C s) ltac:(lia)) as Hmb.
  rewrite (Z.min_l _ (s_C s)), (Z.min_r _ 0), <- Hd in Hw by lia. unfold transport_block_bits in Hw |- *. lia.
Qed.

End turn.

(** ** Initialisation *)

(** A fresh encoder object is large enough for every code block. *)
Lemma sch_init_ok t rm malloc :
  (forall n, 0 <= n -> zlen (malloc n) = n) -> table_initiated t = false -> rm_turbo_tables_generated rm = false ->
  exists q, srsran_sch_init t rm malloc = Some (q, srsran_tcod_gentable, rm_generated) /\ sch_ok q 0.
Proof.
  intros Hm Ht Hr. unfold srsran_sch_init.
  rewrite (srsran_crc_init_obj 24 SRSRAN_LTE_CRC24A), (srsran_crc_init_obj 24 SRSRAN_LTE_CRC24B) by lia. cbn [mbind option_bind].
  unfold srsran_tcod_init. rewrite Ht. eexists. split; [unfold srsran_rm_turbo_gentables; by rewrite Hr|].
  split; cbn [crc_tb crc_cb encoder cb_in parity_bits tc_max_long_cb temp]; try (by eexists); rewrite ?Hm by (vm_compute; congruence); try done.
Qed.

Lemma softbuffer_init_ok malloc n size :
  0 <= n -> 3 * (SRSRAN_TCOD_MAX_LEN_CB + 4) + 8 <= 8 * size -> softbuffer_ok (srsran_softbuffer_tx_init_guru malloc n size).
Proof.
  intros Hn Hs. unfold srsran_softbuffer_tx_init_guru, srsran_softbuffer_tx_reset, srsran_softbuffer_tx_reset_cb. cbn [max_cb max_cb_size buffer_b].
  rewrite Z.gtb_ltb, Z.ltb_irrefl. rewrite ztake_all, zdrop_all by (unfold zlen; rewrite length_map, length_seqZ; lia). rewrite app_nil_r.
  split; cbn [buffer_b max_cb]; [unfold zlen; rewrite !length_map, length_seqZ; lia|].
  rewrite map_map. apply Forall_fmap, Forall_forall. intros x _. cbn. unfold SRSRAN_TCOD_MAX_LEN_CB in *. rewrite zlen_replicate by lia.
  split; [by apply Forall_replicate|done].
Qed.

(** ** Property *)

(** The bits per symbol and layer of [srsran_dlsch_encode2]. *)
Definition symbol_bits (mod_ : srsran_mod_t) (nof_tb nof_layers : Z) : Z :=
  srsran_mod_bits_x_symbol mod_ * (if negb (nof_layers =? nof_tb) then 2 else 1).

Lemma symbol_bits_pos mod_ nof_tb nof_layers : mod_ <> SRSRAN_MOD_NITEMS -> 0 < symbol_bits mod_ nof_tb nof_layers.
Proof. unfold symbol_bits. destruct mod_, (negb (nof_layers =? nof_tb)); by cbn. Qed.

(** Both outcomes of the encoder of the downlink shared channel. *)
Lemma dlsch_encode_spec q ct sb mod_ nof_tb nof_layers tbs G enabled mcs_idx data e_bits :
  sch_ok q ct -> softbuffer_ok sb -> mod_ <> SRSRAN_MOD_NITEMS -> 1 <= tbs < 2 ^ 24 -> bytes_ok data -> 8 * zlen data = tbs ->
  0 <= G < 2 ^ 24 -> bytes_ok e_bits -> G <= 8 * zlen e_bits ->
  let Qm := symbol_bits mod_ nof_tb nof_layers in
  exists s, srsran_cbsegm cbsegm_zero tbs = (0, s) /\ segments tbs s /\
    (s_F s = 0 -> s_C s <= max_cb sb -> exists q' sb' e' ct',
      srsran_dlsch_encode2 srsran_tcod_gentable rm_generated q sb (mk_tb mod_ tbs 0 G enabled mcs_idx) nof_tb (Some data) e_bits nof_layers = Some (0, q', sb', e') /\
      sent e_bits 0 (transport_block_bits s Qm G 0 data) e' /\ zlen (transport_block_bits s Qm G 0 data) = Qm * (G / Qm) /\
      sch_ok q' ct' /\ softbuffer_ok sb') /\
    (s_F s <> 0 \/ max_cb sb < s_C s ->
      srsran_dlsch_encode2 srsran_tcod_gentable rm_generated q sb (mk_tb mod_ tbs 0 G enabled mcs_idx) nof_tb (Some data) e_bits nof_layers =
        Some (SRSRAN_ERROR, q, sb, e_bits)).
Proof.
  intros Hq Hsb Hmod Htbs Hd Hlen HG He Hroom Qm. pose proof (symbol_bits_pos mod_ nof_tb nof_layers Hmod) as HQ. fold Qm in HQ.
  destruct (cbsegm_segments cbsegm_zero tbs ltac:(lia)) as (s & Es & Hs & _). exists s. split; [done|]. split; [done|].
  unfold srsran_dlsch_encode2. cbn [tb_tbs tb_mod tb_rv tb_nof_bits]. rewrite (u32_small tbs), Es by lia. cbn [negb Z.eqb]. fold (symbol_bits mod_ nof_tb nof_layers).
  fold Qm. unfold encode_tb. split.
  - intros HF Hmax. destruct (encode_tb_off_spec s tbs data Hs HF Htbs Hd Hlen Qm G e_bits 0 HQ HG ltac:(lia) ltac:(lia) ltac:(lia) q sb ct He Hq Hsb Hmax)
      as (q' & sb' & e' & ct' & H). by exists q', sb', e', ct'.
  - unfold encode_tb_off. intros [HF|Hmax].
    + by rewrite (proj2 (Z.eqb_neq _ _) HF).
    + destruct (negb (s_F s =? 0)); [done|]. rewrite Z.gtb_ltb. by rewrite (proj2 (Z.ltb_lt _ _) Hmax).
Qed.


