(* ===== verification/Modulation.v ===== *)
(** * Modulation

    [lib/src/phy/modem]: the constellations of [lte_tables.c], the tables of
    [modem_table.c] and the mapping of bits and of packed bytes to symbols of [mod.c].

    A symbol is its real and its imaginary part in units of the smallest level of its
    constellation, so that the levels [1/sqrt(42)], [3/sqrt(42)], ... of 64QAM are 1, 3, ...;
    the common factor of a constellation is left out.  The symbols a function stores are the
    list it returns. *)

From stdpp Require Import base list gmap numbers list_basics list_relations.
From S2P Require Import Prelude BitPack CbSegm Sch.

Local Open Scope Z_scope.

Definition cf_t : Type := (Z * Z)%type.

(** ** Constellations *)

Definition BPSK_LEVEL : Z := 1.
Definition QPSK_LEVEL : Z := 1.
Definition QAM16_LEVEL_1 : Z := 1.
Definition QAM16_LEVEL_2 : Z := 3.
Definition QAM64_LEVEL_1 : Z := 1.
Definition QAM64_LEVEL_2 : Z := 3.
Definition QAM64_LEVEL_3 : Z := 5.
Definition QAM64_LEVEL_4 : Z := 7.

Definition set_BPSKtable : list cf_t :=
  [(BPSK_LEVEL, BPSK_LEVEL); (- BPSK_LEVEL, - BPSK_LEVEL)].

Definition set_QPSKtable : list cf_t :=
  [(QPSK_LEVEL, QPSK_LEVEL); (QPSK_LEVEL, - QPSK_LEVEL);
   (- QPSK_LEVEL, QPSK_LEVEL); (- QPSK_LEVEL, - QPSK_LEVEL)].

Definition set_16QAMtable : list cf_t :=
  [(QAM16_LEVEL_1, QAM16_LEVEL_1); (QAM16_LEVEL_1, QAM16_LEVEL_2);
   (QAM16_LEVEL_2, QAM16_LEVEL_1); (QAM16_LEVEL_2, QAM16_LEVEL_2);
   (QAM16_LEVEL_1, - QAM16_LEVEL_1); (QAM16_LEVEL_1, - QAM16_LEVEL_2);
   (QAM16_LEVEL_2, - QAM16_LEVEL_1); (QAM16_LEVEL_2, - QAM16_LEVEL_2);
   (- QAM16_LEVEL_1, QAM16_LEVEL_1); (- QAM16_LEVEL_1, QAM16_LEVEL_2);
   (- QAM16_LEVEL_2, QAM16_LEVEL_1); (- QAM16_LEVEL_2, QAM16_LEVEL_2);
   (- QAM16_LEVEL_1, - QAM16_LEVEL_1); (- QAM16_LEVEL_1, - QAM16_LEVEL_2);
   (- QAM16_LEVEL_2, - QAM16_LEVEL_1); (- QAM16_LEVEL_2, - QAM16_LEVEL_2)].

Definition set_64QAMtable : list cf_t :=
  [(QAM64_LEVEL_2, QAM64_LEVEL_2); (QAM64_LEVEL_2, QAM64_LEVEL_1);
   (QAM64_LEVEL_1, QAM64_LEVEL_2); (QAM64_LEVEL_1, QAM64_LEVEL_1);
   (QAM64_LEVEL_2, QAM64_LEVEL_3); (QAM64_LEVEL_2, QAM64_LEVEL_4);
   (QAM64_LEVEL_1, QAM64_LEVEL_3); (QAM64_LEVEL_1, QAM64_LEVEL_4);
   (QAM64_LEVEL_3, QAM64_LEVEL_2); (QAM64_LEVEL_3, QAM64_LEVEL_1);
   (QAM64_LEVEL_4, QAM64_LEVEL_2); (QAM64_LEVEL_4, QAM64_LEVEL_1);
   (QAM64_LEVEL_3, QAM64_LEVEL_3); (QAM64_LEVEL_3, QAM64_LEVEL_4);
   (QAM64_LEVEL_4, QAM64_LEVEL_3); (QAM64_LEVEL_4, QAM64_LEVEL_4);
   (QAM64_LEVEL_2, - QAM64_LEVEL_2); (QAM64_LEVEL_2, - QAM64_LEVEL_1);
   (QAM64_LEVEL_1, - QAM64_LEVEL_2); (QAM64_LEVEL_1, - QAM64_LEVEL_1);
   (QAM64_LEVEL_2, - QAM64_LEVEL_3); (QAM64_LEVEL_2, - QAM64_LEVEL_4);
   (QAM64_LEVEL_1, - QAM64_LEVEL_3); (QAM64_LEVEL_1, - QAM64_LEVEL_4);
   (QAM64_LEVEL_3, - QAM64_LEVEL_2); (QAM64_LEVEL_3, - QAM64_LEVEL_1);
   (QAM64_LEVEL_4, - QAM64_LEVEL_2); (QAM64_LEVEL_4, - QAM64_LEVEL_1);
   (QAM64_LEVEL_3, - QAM64_LEVEL_3); (QAM64_LEVEL_3, - QAM64_LEVEL_4);
   (QAM64_LEVEL_4, - QAM64_LEVEL_3); (QAM64_LEVEL_4, - QAM64_LEVEL_4);
   (- QAM64_LEVEL_2, QAM64_LEVEL_2); (- QAM64_LEVEL_2, QAM64_LEVEL_1);
   (- QAM64_LEVEL_1, QAM64_LEVEL_2); (- QAM64_LEVEL_1, QAM64_LEVEL_1);
   (- QAM64_LEVEL_2, QAM64_LEVEL_3); (- QAM64_LEVEL_2, QAM64_LEVEL_4);
   (- QAM64_LEVEL_1, QAM64_LEVEL_3); (- QAM64_LEVEL_1, QAM64_LEVEL_4);
   (- QAM64_LEVEL_3, QAM64_LEVEL_2); (- QAM64_LEVEL_3, QAM64_LEVEL_1);
   (- QAM64_LEVEL_4, QAM64_LEVEL_2); (- QAM64_LEVEL_4, QAM64_LEVEL_1);
   (- QAM64_LEVEL_3, QAM64_LEVEL_3); (- QAM64_LEVEL_3, QAM64_LEVEL_4);
   (- QAM64_LEVEL_4, QAM64_LEVEL_3); (- QAM64_LEVEL_4, QAM64_LEVEL_4);
   (- QAM64_LEVEL_2, - QAM64_LEVEL_2); (- QAM64_LEVEL_2, - QAM64_LEVEL_1);
   (- QAM64_LEVEL_1, - QAM64_LEVEL_2); (- QAM64_LEVEL_1, - QAM64_LEVEL_1);
   (- QAM64_LEVEL_2, - QAM64_LEVEL_3); (- QAM64_LEVEL_2, - QAM64_LEVEL_4);
   (- QAM64_LEVEL_1, - QAM64_LEVEL_3); (- QAM64_LEVEL_1, - QAM64_LEVEL_4);
   (- QAM64_LEVEL_3, - QAM64_LEVEL_2); (- QAM64_LEVEL_3, - QAM64_LEVEL_1);
   (- QAM64_LEVEL_4, - QAM64_LEVEL_2); (- QAM64_LEVEL_4, - QAM64_LEVEL_1);
   (- QAM64_LEVEL_3, - QAM64_LEVEL_3); (- QAM64_LEVEL_3, - QAM64_LEVEL_4);
   (- QAM64_LEVEL_4, - QAM64_LEVEL_3); (- QAM64_LEVEL_4, - QAM64_LEVEL_4)].

(** One turn of the inner loop: [real] and [imag] are small whole numbers. *)
Definition qam256_step (i : Z) (acc : Z * Z * Z) (j : Z) : Z * Z * Z :=
  let '(offset, real, imag) := acc in
  let real := real + offset in
  let imag := imag + offset in
  let sign b := if negb (Z.land i (Z.shiftl 1 b) =? 0) then 1 else -1 in
  (offset * 2, real * sign (2 * j + 1), imag * sign (2 * j + 0)).

Definition set_256QAMtable : list cf_t :=
  map (fun i => let '(_, real, imag) := fold_left (qam256_step i) (seqZ 0 4) (-1, 0, 0) in (real, imag)) (seqZ 0 256).

(** ** Tables *)

Record srsran_modem_table_t := mk_modem {
  symbol_table : list cf_t;
  nsymbols : Z;
  nbits_x_symbol : Z;
  byte_tables_init : bool;
  symbol_table_bpsk : list (list cf_t);
  symbol_table_qpsk : list (list cf_t);
  symbol_table_16qam : list (list cf_t)
}.

Definition srsran_modem_table_init : srsran_modem_table_t := mk_modem [] 0 0 false [] [] [].

Definition srsran_modem_table_free (q : srsran_modem_table_t) : srsran_modem_table_t := srsran_modem_table_init.

Definition srsran_modem_table_reset (q : srsran_modem_table_t) : srsran_modem_table_t := srsran_modem_table_init.

(** The status and the new contents; a table that is set stays. *)
Definition srsran_modem_table_set (q : srsran_modem_table_t) (table : list cf_t) (nsymbols_ nbits : Z) : Z * srsran_modem_table_t :=
  if negb (nsymbols q =? 0) then (SRSRAN_ERROR, q)
  else (0, mk_modem (ztake nsymbols_ table) nsymbols_ nbits (byte_tables_init q) (symbol_table_bpsk q) (symbol_table_qpsk q) (symbol_table_16qam q)).

Definition srsran_modem_table_lte (modulation : srsran_mod_t) : srsran_modem_table_t :=
  match modulation with
  | SRSRAN_MOD_BPSK => mk_modem set_BPSKtable 2 1 false [] [] []
  | SRSRAN_MOD_QPSK => mk_modem set_QPSKtable 4 2 false [] [] []
  | SRSRAN_MOD_16QAM => mk_modem set_16QAMtable 16 4 false [] [] []
  | SRSRAN_MOD_64QAM => mk_modem set_64QAMtable 64 6 false [] [] []
  | SRSRAN_MOD_256QAM => mk_modem set_256QAMtable 256 8 false [] [] []
  | SRSRAN_MOD_NITEMS => srsran_modem_table_init
  end.

(** [symbol_table[i]]. *)
Definition symbol_at (q : srsran_modem_table_t) (i : Z) : cf_t := default (0, 0) (symbol_table q !! Z.to_nat i).

Definition mask_qpsk (j : Z) : Z := default 0 ([0xc0; 0x30; 0xc; 0x3] !! Z.to_nat j).
Definition mask_16qam (j : Z) : Z := default 0 ([0xf0; 0xf] !! Z.to_nat j).

Definition srsran_modem_table_bytes (q : srsran_modem_table_t) : srsran_modem_table_t :=
  let with_tables bpsk qpsk qam16 := mk_modem (symbol_table q) (nsymbols q) (nbits_x_symbol q) true bpsk qpsk qam16 in
  match nbits_x_symbol q with
  | 1 =>
      with_tables
        (map (fun i => map (fun j => symbol_at q (Z.shiftr (Z.land i (Z.shiftl 1 (7 - j))) (7 - j))) (seqZ 0 8)) (seqZ 0 256))
        (symbol_table_qpsk q) (symbol_table_16qam q)
  | 2 =>
      with_tables (symbol_table_bpsk q)
        (map (fun i => map (fun j => symbol_at q (Z.shiftr (Z.land i (mask_qpsk j)) (6 - j * 2))) (seqZ 0 4)) (seqZ 0 256))
        (symbol_table_16qam q)
  | 4 =>
      with_tables (symbol_table_bpsk q) (symbol_table_qpsk q)
        (map (fun i => map (fun j => symbol_at q (Z.shiftr (Z.land i (mask_16qam j)) (4 - j * 4))) (seqZ 0 2)) (seqZ 0 256))
  | 6 | 8 => with_tables (symbol_table_bpsk q) (symbol_table_qpsk q) (symbol_table_16qam q)
  | _ => q
  end.

(** ** Modulation of bits *)

(** The symbols of the next [n] turns, or the error status. *)
Fixpoint modulate_turns (n : nat) (q : srsran_modem_table_t) (bits : list Z) : option (Z + list cf_t) :=
  match n with
  | O => Some (inr [])
  | S n =>
      '(idx, bits) ← srsran_bit_pack bits (nbits_x_symbol q);
      if idx <? nsymbols q then
        r ← modulate_turns n q bits;
        match r with
        | inl e => Some (inl e)
        | inr symbols => Some (inr (symbol_at q idx :: symbols))
        end
      else Some (inl SRSRAN_ERROR)
  end.

Definition srsran_mod_modulate (q : srsran_modem_table_t) (bits : list Z) (nbits : Z) : option (Z + list cf_t) :=
  modulate_turns (Z.to_nat ((nbits + nbits_x_symbol q - 1) / nbits_x_symbol q)) q bits.

(** ** Modulation of packed bytes *)

(** The loop over whole bytes that copies entries of a table. *)
Fixpoint byte_entries (n : nat) (table : list (list cf_t)) (bits : list Z) (i : Z) : option (list cf_t) :=
  match n with
  | O => Some []
  | S n =>
      b ← load bits i;
      entry ← table !! Z.to_nat b;
      rest ← byte_entries n table bits (i + 1);
      Some (entry ++ rest)
  end.

Definition mask_bpsk (i : Z) : Z := default 0 ([0x80; 0x40; 0x20; 0x10; 0x08; 0x04; 0x02; 0x01] !! Z.to_nat i).
Definition shift_bpsk (i : Z) : Z := 7 - i.
Definition shift_qpsk (i : Z) : Z := 6 - 2 * i.

Definition mod_bpsk_bytes (q : srsran_modem_table_t) (bits : list Z) (nbits : Z) : option (list cf_t) :=
  whole ← byte_entries (Z.to_nat (nbits / 8)) (symbol_table_bpsk q) bits 0;
  rest ← mapM (fun i => b ← load bits (8 * (nbits / 8) + i); Some (symbol_at q (Z.shiftr (Z.land b (mask_bpsk i)) (shift_bpsk i))))
    (seqZ 0 (nbits mod 8));
  Some (whole ++ rest).

Definition mod_qpsk_bytes (q : srsran_modem_table_t) (bits : list Z) (nbits : Z) : option (list cf_t) :=
  whole ← byte_entries (Z.to_nat (nbits / 8)) (symbol_table_qpsk q) bits 0;
  rest ← mapM (fun i => b ← load bits (nbits / 8); Some (symbol_at q (Z.shiftr (Z.land b (mask_qpsk i)) (shift_qpsk i))))
    (seqZ 0 (nbits mod 8 / 2));
  Some (whole ++ rest).

Definition mod_16qam_bytes (q : srsran_modem_table_t) (bits : list Z) (nbits : Z) : option (list cf_t) :=
  whole ← byte_entries (Z.to_nat (nbits / 8)) (symbol_table_16qam q) bits 0;
  if negb (nbits mod 8 =? 0) then
    b ← load bits (nbits / 8);
    Some (whole ++ [symbol_at q (Z.shiftr (Z.land b 0xf0) 4)])
  else Some whole.

(** The four groups of six bits in three bytes. *)
Definition in0 (in80 : Z) : Z := u8 (Z.shiftr (Z.land in80 0xfc) 2).
Definition in1 (in80 in81 : Z) : Z := u8 (Z.lor (Z.shiftl (Z.land in80 0x03) 4) (Z.shiftr (Z.land in81 0xf0) 4)).
Definition in2 (in81 in82 : Z) : Z := u8 (Z.lor (Z.shiftl (Z.land in81 0x0f) 2) (Z.shiftr (Z.land in82 0xc0) 6)).
Definition in3 (in82 : Z) : Z := u8 (Z.land in82 0x3f).

Fixpoint triple_bytes (n : nat) (q : srsran_modem_table_t) (bits : list Z) (i : Z) : option (list cf_t) :=
  match n with
  | O => Some []
  | S n =>
      in80 ← load bits (3 * i + 0);
      in81 ← load bits (3 * i + 1);
      in82 ← load bits (3 * i + 2);
      rest ← triple_bytes n q bits (i + 1);
      Some (symbol_at q (in0 in80) :: symbol_at q (in1 in80 in81) :: symbol_at q (in2 in81 in82) :: symbol_at q (in3 in82) :: rest)
  end.

Definition mod_64qam_bytes (q : srsran_modem_table_t) (bits : list Z) (nbits : Z) : option (list cf_t) :=
  let i := nbits / 24 in
  let r := nbits mod 24 in
  whole ← triple_bytes (Z.to_nat i) q bits 0;
  if r >=? 6 then
    in80 ← load bits (3 * i + 0);
    if r >=? 12 then
      in81 ← load bits (3 * i + 1);
      if r >=? 18 then
        in82 ← load bits (3 * i + 2);
        Some (whole ++ [symbol_at q (in0 in80); symbol_at q (in1 in80 in81); symbol_at q (in2 in81 in82)])
      else Some (whole ++ [symbol_at q (in0 in80); symbol_at q (in1 in80 in81)])
    else Some (whole ++ [symbol_at q (in0 in80)])
  else Some whole.

Definition mod_256qam_bytes (q : srsran_modem_table_t) (bits : list Z) (nbits : Z) : option (list cf_t) :=
  mapM (fun i => b ← load bits i; Some (symbol_at q b)) (seqZ 0 (nbits / 8)).

(** The number of symbols with the symbols, or the error status. *)
Definition srsran_mod_modulate_bytes (q : srsran_modem_table_t) (bits : list Z) (nbits : Z) : option (Z + list cf_t) :=
  if negb (byte_tables_init q) then Some (inl SRSRAN_ERROR)
  else if negb (nbits mod nbits_x_symbol q =? 0) then Some (inl (-1))
  else
    match nbits_x_symbol q with
    | 1 => inr <$> mod_bpsk_bytes q bits nbits
    | 2 => inr <$> mod_qpsk_bytes q bits nbits
    | 4 => inr <$> mod_16qam_bytes q bits nbits
    | 6 => inr <$> mod_64qam_bytes q bits nbits
    | 8 => inr <$> mod_256qam_bytes q bits nbits
    | _ => Some (inl SRSRAN_ERROR)
    end.
