(* ===== verification/ModulationCorrect.v ===== *)
(** * Modulation follows the standard

    The constellations are those of 36.211 7.1, and the modulator of packed bytes maps the
    bits it is given to the symbols the modulator of single bits gives. *)

From stdpp Require Import base list gmap numbers list_basics list_relations.
From S2P Require Import Prelude BitPack BitCopy CbSegm Sch Modulation.

Local Open Scope Z_scope.

(** ** The standard *)

(** The level of an axis: [(1 - 2 b0) (2^n - (1 - 2 b1) (...))]. *)
Fixpoint pam (l : list Z) : Z :=
  match l with
  | [] => 0
  | b :: l => (1 - 2 * b) * (2 ^ zlen l - pam l)
  end.

(** Every second bit. *)
Fixpoint alternate (l : list Z) : list Z :=
  match l with
  | a :: _ :: l => a :: alternate l
  | [a] => [a]
  | [] => []
  end.

(** The symbol of a group of bits: the bits go in turn to the two axes; BPSK has one. *)
Definition constellation_point (l : list Z) : cf_t :=
  match l with
  | [b] => (pam [b], pam [b])
  | _ => (pam (alternate l), pam (alternate (tail l)))
  end.

(** [n] symbols of [Q] bits. *)
Fixpoint symbols_of (Q : Z) (n : nat) (bits : list Z) : list cf_t :=
  match n with
  | O => []
  | S n => constellation_point (ztake Q bits) :: symbols_of Q n (zdrop Q bits)
  end.

Definition modulation_ok (m : srsran_mod_t) : Prop := m <> SRSRAN_MOD_NITEMS.

Definition table_of (m : srsran_mod_t) : srsran_modem_table_t := srsran_modem_table_bytes (srsran_modem_table_lte m).

Lemma table_check m :
  modulation_ok m ->
  range_forallb (nsymbols (table_of m)) (fun v =>
    bool_decide (symbol_at (table_of m) v = constellation_point (srsran_bit_unpack v (nbits_x_symbol (table_of m))))) = true.
Proof. by destruct m; intros Hm; [vm_compute..|done]. Qed.

Lemma table_facts m :
  modulation_ok m ->
  nbits_x_symbol (table_of m) = srsran_mod_bits_x_symbol m /\ nsymbols (table_of m) = 2 ^ srsran_mod_bits_x_symbol m /\
  byte_tables_init (table_of m) = true /\ 1 <= srsran_mod_bits_x_symbol m <= 8.
Proof. destruct m; intros Hm; try done; split_and!; done || (cbn; lia). Qed.

(** The table holds the constellation. *)
Lemma symbol_at_point m l :
  modulation_ok m -> bits_ok l -> zlen l = srsran_mod_bits_x_symbol m -> symbol_at (table_of m) (bits_val l) = constellation_point l.
Proof.
  intros Hm Hl Hz. destruct (table_facts m Hm) as (E1 & E2 & _ & _). pose proof (bits_val_range l Hl) as Hr. rewrite Hz in Hr. rewrite <- E2 in Hr.
  pose proof (range_forallb_spec _ _ (table_check m Hm) (bits_val l) Hr) as H. cbv beta in H. apply bool_decide_eq_true in H.
  rewrite E1, <- Hz, unpack_bits_val in H by done. exact H.
Qed.

(** ** Single bits *)

Lemma modulate_turns_spec m n bits rest :
  modulation_ok m -> bits_ok bits -> zlen bits = srsran_mod_bits_x_symbol m * Z.of_nat n ->
  modulate_turns n (table_of m) (bits ++ rest) = Some (inr (symbols_of (srsran_mod_bits_x_symbol m) n bits)).
Proof.
  intros Hm. destruct (table_facts m Hm) as (E1 & E2 & _ & HQ). set (Q := srsran_mod_bits_x_symbol m) in *.
  revert bits. induction n as [|n IH]; intros bits Hok Hz; [done|]. cbn [modulate_turns symbols_of]. rewrite E1.
  assert (HQz : 0 <= Q <= zlen bits) by nia. rewrite <- (ztake_zdrop Q bits) in Hok |- *. apply bits_ok_app in Hok as [Ho1 Ho2].
  pose proof (zlen_ztake Q bits HQz) as Hzt. pose proof (zlen_zdrop Q bits HQz) as Hzd.
  rewrite <- app_assoc, (srsran_bit_pack_val (ztake Q bits)) by (done || lia). cbn [mbind option_bind].
  pose proof (bits_val_range _ Ho1) as Hr. rewrite Hzt in Hr. rewrite E2, (proj2 (Z.ltb_lt _ _)) by lia.
  rewrite IH by (done || lia). cbn [mbind option_bind]. rewrite symbol_at_point by done.
  by rewrite (ztake_app_eq Q), (zdrop_app_eq Q) by done.
Qed.

Lemma modulate_spec m bits rest n :
  modulation_ok m -> bits_ok bits -> 0 <= n -> zlen bits = srsran_mod_bits_x_symbol m * n ->
  srsran_mod_modulate (table_of m) (bits ++ rest) (zlen bits) = Some (inr (symbols_of (srsran_mod_bits_x_symbol m) (Z.to_nat n) bits)).
Proof.
  intros Hm Hok Hn Hz. destruct (table_facts m Hm) as (E1 & _ & _ & HQ). unfold srsran_mod_modulate. rewrite E1, Hz.
  set (Q := srsran_mod_bits_x_symbol m) in *. replace ((Q * n + Q - 1) / Q) with n by (apply Z.div_unique with (Q - 1); lia).
  apply modulate_turns_spec; [done|done|fold Q; lia].
Qed.

(** ** Packed bytes *)

Lemma symbols_of_app Q a b l1 l2 :
  0 <= Q -> zlen l1 = Q * Z.of_nat a -> symbols_of Q (a + b) (l1 ++ l2) = symbols_of Q a l1 ++ symbols_of Q b l2.
Proof.
  intros HQ. revert l1. induction a as [|a IH]; intros l1 Hz; cbn [Nat.add symbols_of].
  - by assert (l1 = []) as -> by (apply zlen_0; lia).
  - assert (HQz : 0 <= Q <= zlen l1) by nia. pose proof (zlen_ztake Q l1 HQz) as Ht. pose proof (zlen_zdrop Q l1 HQz) as Hd.
    rewrite <- (ztake_zdrop Q l1) at 1 2. rewrite <- app_assoc, (ztake_app_eq Q), (zdrop_app_eq Q) by done. cbn [app]. f_equal. apply IH. lia.
Qed.

(** A prefix is enough. *)
Lemma symbols_of_prefix Q n l1 l2 : 0 <= Q -> zlen l1 = Q * Z.of_nat n -> symbols_of Q n (l1 ++ l2) = symbols_of Q n l1.
Proof. intros HQ Hz. rewrite <- (Nat.add_0_r n) at 1. rewrite symbols_of_app by done. apply app_nil_r. Qed.

Lemma zdrop_load m i b : 0 <= i -> load m i = Some b -> zdrop i m = b :: zdrop (i + 1) m.
Proof.
  intros Hi E. unfold load in E. destruct (Z.ltb_spec i 0); [lia|]. unfold zdrop. replace (Z.to_nat (i + 1)) with (S (Z.to_nat i)) by lia.
  exact (drop_S _ _ _ E).
Qed.

Lemma bits_of_bytes_cons b l : bits_of_bytes (b :: l) = srsran_bit_unpack b 8 ++ bits_of_bytes l.
Proof. done. Qed.

(** A table with the symbols of every byte. *)
Definition byte_table_ok (Q : Z) (k : nat) (t : list (list cf_t)) : Prop :=
  Q * Z.of_nat k = 8 /\ forall b, is_u8 b -> t !! Z.to_nat b = Some (symbols_of Q k (srsran_bit_unpack b 8)).

Lemma byte_entries_spec Q k t d n i :
  0 <= Q -> byte_table_ok Q k t -> bytes_ok d -> 0 <= i -> i + Z.of_nat n <= zlen d ->
  byte_entries n t d i = Some (symbols_of Q (n * k) (bits_of_bytes (zdrop i d))).
Proof.
  intros HQ [Hk Ht] Hd. revert i. induction n as [|n IH]; intros i Hi Hz; [done|]. cbn [byte_entries].
  destruct (load_inside d i ltac:(lia)) as (b & Eb). rewrite Eb. cbn [mbind option_bind]. rewrite (Ht b (load_u8 _ _ _ Hd Eb)). cbn [mbind option_bind].
  rewrite IH by lia. cbn [mbind option_bind]. rewrite (zdrop_load d i b Hi Eb), bits_of_bytes_cons. cbn [Nat.mul].
  rewrite symbols_of_app by (try rewrite zlen_unpack; lia). done.
Qed.

(** Tables and last bytes, for all values of a byte. *)
Lemma all_bytes (P : Z -> bool) b : range_forallb 256 P = true -> is_u8 b -> P b = true.
Proof. intros H Hb. apply (range_forallb_spec _ _ H b). unfold is_u8 in Hb. lia. Qed.

Lemma byte_table_check Q k t :
  Q * Z.of_nat k = 8 -> range_forallb 256 (fun b => bool_decide (t !! Z.to_nat b = Some (symbols_of Q k (srsran_bit_unpack b 8)))) = true ->
  byte_table_ok Q k t.
Proof. intros Hk H. split; [done|]. intros b Hb. pose proof (all_bytes _ b H Hb) as Hc. by apply bool_decide_eq_true in Hc. Qed.

Lemma byte_tables :
  byte_table_ok 1 8 (symbol_table_bpsk (table_of SRSRAN_MOD_BPSK)) /\ byte_table_ok 2 4 (symbol_table_qpsk (table_of SRSRAN_MOD_QPSK)) /\
  byte_table_ok 4 2 (symbol_table_16qam (table_of SRSRAN_MOD_16QAM)).
Proof. split_and!; (apply byte_table_check; [done|by vm_compute]). Qed.

(** The rest of a byte string from a byte on. *)
Lemma bits_from d i : bytes_ok d -> 0 <= i <= zlen d -> bits_of_bytes d = bits_of_bytes (ztake i d) ++ bits_of_bytes (zdrop i d).
Proof. intros _ _. by rewrite <- bits_of_bytes_app, ztake_zdrop. Qed.

(** Whole bytes and a rest. *)
Lemma symbols_split Q k d c r :
  0 <= Q -> Q * Z.of_nat k = 8 -> bytes_ok d -> 0 <= c <= zlen d ->
  symbols_of Q (Z.to_nat c * k + r) (bits_of_bytes d) =
    symbols_of Q (Z.to_nat c * k) (bits_of_bytes d) ++ symbols_of Q r (bits_of_bytes (zdrop c d)).
Proof.
  intros HQ Hk Hd Hc. rewrite (bits_from d c) at 1 2 by done.
  assert (Hz : zlen (bits_of_bytes (ztake c d)) = Q * Z.of_nat (Z.to_nat c * k)) by (rewrite zlen_bits_of_bytes, zlen_ztake by lia; nia).
  rewrite symbols_of_app by done. by rewrite symbols_of_prefix by done.
Qed.

Lemma mod_qpsk_spec d n :
  bytes_ok d -> 0 <= n -> 2 * n <= 8 * zlen d ->
  mod_qpsk_bytes (table_of SRSRAN_MOD_QPSK) d (2 * n) = Some (symbols_of 2 (Z.to_nat n) (bits_of_bytes d)).
Proof.
  intros Hd Hn Hz. unfold mod_qpsk_bytes. assert (Hc : 0 <= 2 * n / 8) by (apply Z.div_pos; lia). byte_of (2 * n) c r.
  rewrite (byte_entries_spec 2 4) by (try apply byte_tables; done || lia). cbn [mbind option_bind]. rewrite zdrop_0.
  assert (Hr : r = 0 \/ r = 2 \/ r = 4 \/ r = 6) by lia. destruct (Z.eq_dec r 0) as [->|Hr0].
  { change (seqZ 0 (0 / 2)) with (@nil Z). cbn [mapM mret option_ret mbind option_bind]. rewrite app_nil_r. do 2 f_equal. lia. }
  destruct (load_inside d c ltac:(lia)) as (b & Eb). pose proof (load_u8 _ _ _ Hd Eb) as Hb. rewrite Eb.
  assert (Er : r / 2 = n - 4 * c) by (replace r with ((n - 4 * c) * 2) by lia; apply Z.div_mul; lia).
  replace (Z.to_nat n) with (Z.to_nat c * 4 + Z.to_nat (r / 2))%nat by lia.
  rewrite symbols_split, (zdrop_load d c b Hc Eb), bits_of_bytes_cons by (done || lia).
  set (P := fun r b => bool_decide (mapM (fun i => Some (symbol_at (table_of SRSRAN_MOD_QPSK) (Z.shiftr (Z.land b (mask_qpsk i)) (shift_qpsk i)))) (seqZ 0 (r / 2)) =
    Some (symbols_of 2 (Z.to_nat (r / 2)) (ztake r (srsran_bit_unpack b 8))))).
  assert (HP : P r b = true) by (destruct Hr as [->|[->|[->| ->]]]; apply all_bytes; try done; by vm_compute).
  apply bool_decide_eq_true in HP. cbn [mbind option_bind] in HP |- *. rewrite HP.
  rewrite <- (ztake_zdrop r (srsran_bit_unpack b 8)) at 2. rewrite <- app_assoc, (symbols_of_prefix 2 _ (ztake r _)); [done|lia|].
  rewrite zlen_ztake by (rewrite zlen_unpack; lia). destruct Hr as [->|[->|[->| ->]]]; done.
Qed.

Lemma mod_16qam_spec d n :
  bytes_ok d -> 0 <= n -> 4 * n <= 8 * zlen d ->
  mod_16qam_bytes (table_of SRSRAN_MOD_16QAM) d (4 * n) = Some (symbols_of 4 (Z.to_nat n) (bits_of_bytes d)).
Proof.
  intros Hd Hn Hz. unfold mod_16qam_bytes. assert (Hc : 0 <= 4 * n / 8) by (apply Z.div_pos; lia). byte_of (4 * n) c r.
  rewrite (byte_entries_spec 4 2) by (try apply byte_tables; done || lia). cbn [mbind option_bind]. rewrite zdrop_0.
  assert (Hr : r = 0 \/ r = 4) by lia. destruct Hr as [->| ->].
  { cbn [Z.eqb negb]. do 2 f_equal. lia. }
  destruct (load_inside d c ltac:(lia)) as (b & Eb). pose proof (load_u8 _ _ _ Hd Eb) as Hb. cbn [Z.eqb negb]. rewrite Eb. cbn [mbind option_bind].
  replace (Z.to_nat n) with (Z.to_nat c * 2 + 1)%nat by lia.
  rewrite symbols_split, (zdrop_load d c b Hc Eb), bits_of_bytes_cons by (done || lia). do 2 f_equal. cbn [symbols_of]. f_equal.
  pose proof (all_bytes (fun b => bool_decide (symbol_at (table_of SRSRAN_MOD_16QAM) (Z.shiftr (Z.land b 0xf0) 4) =
    constellation_point (ztake 4 (srsran_bit_unpack b 8)))) b ltac:(by vm_compute) Hb) as HP. apply bool_decide_eq_true in HP. exact HP.
Qed.

(** *** Groups of six bits *)

Lemma six_bits_of_bytes a b c :
  is_u8 a -> is_u8 b -> is_u8 c ->
  let l := srsran_bit_unpack a 8 ++ srsran_bit_unpack b 8 ++ srsran_bit_unpack c 8 in
  in0 a = bits_val (ztake 6 l) /\ in1 a b = bits_val (ztake 6 (zdrop 6 l)) /\ in2 b c = bits_val (ztake 6 (zdrop 12 l)) /\
  in3 c = bits_val (ztake 6 (zdrop 18 l)).
Proof.
  intros Ha Hb Hc l.
  assert (T : forall v, is_u8 v ->
    in0 v = bits_val (take 6 (srsran_bit_unpack v 8)) /\ Z.land v 3 = bits_val (drop 6 (srsran_bit_unpack v 8)) /\
    Z.shiftr (Z.land v 0xf0) 4 = bits_val (take 4 (srsran_bit_unpack v 8)) /\ Z.land v 0xf = bits_val (drop 4 (srsran_bit_unpack v 8)) /\
    Z.shiftr (Z.land v 0xc0) 6 = bits_val (take 2 (srsran_bit_unpack v 8)) /\ in3 v = bits_val (drop 2 (srsran_bit_unpack v 8))).
  { intros v Hv. pose proof (all_bytes (fun v => (in0 v =? bits_val (take 6 (srsran_bit_unpack v 8))) && (Z.land v 3 =? bits_val (drop 6 (srsran_bit_unpack v 8))) &&
      (Z.shiftr (Z.land v 0xf0) 4 =? bits_val (take 4 (srsran_bit_unpack v 8))) && (Z.land v 0xf =? bits_val (drop 4 (srsran_bit_unpack v 8))) &&
      (Z.shiftr (Z.land v 0xc0) 6 =? bits_val (take 2 (srsran_bit_unpack v 8))) && (in3 v =? bits_val (drop 2 (srsran_bit_unpack v 8)))) v ltac:(by vm_compute) Hv) as H.
    rewrite !andb_true_iff, !Z.eqb_eq in H. tauto. }
  assert (J1 : range_forallb 4 (fun x => range_forallb 16 (fun y => u8 (Z.lor (Z.shiftl x 4) y) =? x * 2 ^ 4 + y)) = true) by by vm_compute.
  assert (J2 : range_forallb 16 (fun x => range_forallb 4 (fun y => u8 (Z.lor (Z.shiftl x 2) y) =? x * 2 ^ 2 + y)) = true) by by vm_compute.
  assert (R : forall (k : nat) v, (k <= 8)%nat -> 0 <= bits_val (take k (srsran_bit_unpack v 8)) < 2 ^ Z.of_nat k /\
    0 <= bits_val (drop k (srsran_bit_unpack v 8)) < 2 ^ (8 - Z.of_nat k)).
  { intros k v Hk. assert (Hl : length (srsran_bit_unpack v 8) = 8%nat) by reflexivity. pose proof (unpack_bits_ok v 8) as Ho.
    pose proof (bits_val_range _ (Forall_take _ k _ Ho)) as H1. pose proof (bits_val_range _ (Forall_drop _ k _ Ho)) as H2. unfold zlen in H1, H2.
    rewrite length_take, Hl in H1. rewrite length_drop, Hl in H2. replace (Z.of_nat (k `min` 8)) with (Z.of_nat k) in H1 by lia.
    by replace (Z.of_nat (8 - k)) with (8 - Z.of_nat k) in H2 by lia. }
  destruct (T a Ha) as (A1 & A2 & _), (T b Hb) as (_ & _ & B3 & B4 & _), (T c Hc) as (_ & _ & _ & _ & C5 & C6).
  destruct (R 6%nat a ltac:(lia)) as [_ RA], (R 4%nat b ltac:(lia)) as [RB1 RB2], (R 2%nat c ltac:(lia)) as [RC _]. split_and!.
  - rewrite A1. done.
  - unfold in1. rewrite A2, B3. pose proof (range_forallb_spec _ _ J1 _ RA) as K1. cbv beta in K1.
    pose proof (range_forallb_spec _ _ K1 _ RB1) as K2. cbv beta in K2. apply Z.eqb_eq in K2. rewrite K2. symmetry. exact (bits_val_app (drop 6 (srsran_bit_unpack a 8)) (take 4 (srsran_bit_unpack b 8))).
  - unfold in2. rewrite B4, C5. pose proof (range_forallb_spec _ _ J2 _ RB2) as K1. cbv beta in K1.
    pose proof (range_forallb_spec _ _ K1 _ RC) as K2. cbv beta in K2. apply Z.eqb_eq in K2. rewrite K2. symmetry. exact (bits_val_app (drop 4 (srsran_bit_unpack b 8)) (take 2 (srsran_bit_unpack c 8))).
  - rewrite C6. done.
Qed.

Lemma six_points a b c :
  is_u8 a -> is_u8 b -> is_u8 c ->
  let q := table_of SRSRAN_MOD_64QAM in
  let l := srsran_bit_unpack a 8 ++ srsran_bit_unpack b 8 ++ srsran_bit_unpack c 8 in
  symbol_at q (in0 a) = constellation_point (ztake 6 l) /\ symbol_at q (in1 a b) = constellation_point (ztake 6 (zdrop 6 l)) /\
  symbol_at q (in2 b c) = constellation_point (ztake 6 (zdrop 12 l)) /\ symbol_at q (in3 c) = constellation_point (ztake 6 (zdrop 18 l)).
Proof.
  intros Ha Hb Hc q l. destruct (six_bits_of_bytes a b c Ha Hb Hc) as (E0 & E1 & E2 & E3). fold l in E0, E1, E2, E3.
  assert (Hl : bits_ok l) by (unfold l; rewrite !bits_ok_app; split_and!; apply unpack_bits_ok).
  assert (P : forall k, k = 0 \/ k = 6 \/ k = 12 \/ k = 18 -> symbol_at q (bits_val (ztake 6 (zdrop k l))) = constellation_point (ztake 6 (zdrop k l))).
  { intros k Hk. apply symbol_at_point; [done|by apply Forall_take, Forall_drop|]. destruct Hk as [->|[->|[->| ->]]]; reflexivity. }
  rewrite E0, E1, E2, E3. split_and!; [apply (P 0)|apply (P 6)|apply (P 12)|apply (P 18)]; lia.
Qed.

Lemma triple_bytes_spec d n i :
  bytes_ok d -> 0 <= i -> 3 * (i + Z.of_nat n) <= zlen d ->
  triple_bytes n (table_of SRSRAN_MOD_64QAM) d i = Some (symbols_of 6 (n * 4) (bits_of_bytes (zdrop (3 * i) d))).
Proof.
  intros Hd. revert i. induction n as [|n IH]; intros i Hi Hz; [done|]. cbn [triple_bytes]. rewrite Z.add_0_r.
  destruct (load_inside d (3 * i) ltac:(lia)) as (a & Ea). destruct (load_inside d (3 * i + 1) ltac:(lia)) as (b & Eb).
  destruct (load_inside d (3 * i + 2) ltac:(lia)) as (c & Ec). rewrite Ea, Eb, Ec. cbn [mbind option_bind]. rewrite IH by lia. cbn [mbind option_bind].
  destruct (six_points a b c) as (-> & -> & -> & ->); [by eapply load_u8..|].
  rewrite (zdrop_load d (3 * i) a), (zdrop_load d (3 * i + 1) b) by (done || lia). replace (3 * i + 1 + 1) with (3 * i + 2) by lia.
  rewrite (zdrop_load d (3 * i + 2) c), !bits_of_bytes_cons by (done || lia). by replace (3 * i + 2 + 1) with (3 * (i + 1)) by lia.
Qed.

Lemma mod_64qam_spec d n :
  bytes_ok d -> 0 <= n -> 6 * n <= 8 * zlen d ->
  mod_64qam_bytes (table_of SRSRAN_MOD_64QAM) d (6 * n) = Some (symbols_of 6 (Z.to_nat n) (bits_of_bytes d)).
Proof.
  intros Hd Hn Hz. unfold mod_64qam_bytes. pose proof (Z.div_mod (6 * n) 24 ltac:(lia)) as Hdm. pose proof (Z.mod_pos_bound (6 * n) 24 ltac:(lia)) as Hm.
  assert (Hc : 0 <= 6 * n / 24) by (apply Z.div_pos; lia). set (i := 6 * n / 24) in *. set (r := 6 * n mod 24) in *. clearbody i r. cbv zeta.
  rewrite triple_bytes_spec by (done || lia). cbn [mbind option_bind]. change (3 * 0) with 0. rewrite zdrop_0, Z.add_0_r.
  assert (Hr : r = 0 \/ r = 6 \/ r = 12 \/ r = 18) by lia.
  assert (Hsplit : forall k, n = 4 * i + Z.of_nat k ->
    symbols_of 6 (Z.to_nat n) (bits_of_bytes d) = symbols_of 6 (Z.to_nat i * 4) (bits_of_bytes d) ++ symbols_of 6 k (bits_of_bytes (zdrop (3 * i) d))).
  { intros k Hk. rewrite (bits_from d (3 * i)) at 1 2 by (done || lia). replace (Z.to_nat n) with (Z.to_nat i * 4 + k)%nat by lia.
    assert (Hb : zlen (bits_of_bytes (ztake (3 * i) d)) = 6 * Z.of_nat (Z.to_nat i * 4)) by (rewrite zlen_bits_of_bytes, zlen_ztake by lia; lia).
    rewrite symbols_of_app by (done || lia). by rewrite symbols_of_prefix by (done || lia). }
  destruct Hr as [->|Hr]; [change (0 >=? 6) with false; rewrite (Hsplit O) by lia; by rewrite app_nil_r|].
  assert ((r >=? 6) = true) as -> by (destruct Hr as [->|[->| ->]]; done).
  destruct (load_inside d (3 * i) ltac:(lia)) as (a & Ea). rewrite Ea. cbn [mbind option_bind]. pose proof (load_u8 _ _ _ Hd Ea) as Ha.
  assert (H0 : is_u8 0) by (unfold is_u8; lia). rewrite (zdrop_load d (3 * i) a) in Hsplit by (done || lia).
  destruct Hr as [->|Hr]; [change (6 >=? 12) with false|].
  { destruct (six_points a 0 0 Ha H0 H0) as (-> & _). by rewrite (Hsplit 1%nat) by lia. }
  assert ((r >=? 12) = true) as -> by (destruct Hr as [->| ->]; done).
  destruct (load_inside d (3 * i + 1) ltac:(lia)) as (b & Eb). rewrite Eb. cbn [mbind option_bind]. pose proof (load_u8 _ _ _ Hd Eb) as Hb.
  rewrite (zdrop_load d (3 * i + 1) b) in Hsplit by (done || lia).
  destruct Hr as [->| ->]; [change (12 >=? 18) with false|change (18 >=? 18) with true].
  { destruct (six_points a b 0 Ha Hb H0) as (-> & -> & _). by rewrite (Hsplit 2%nat) by lia. }
  destruct (load_inside d (3 * i + 2) ltac:(lia)) as (c & Ec). rewrite Ec. cbn [mbind option_bind]. pose proof (load_u8 _ _ _ Hd Ec) as Hc'.
  replace (3 * i + 1 + 1) with (3 * i + 2) in Hsplit by lia. rewrite (zdrop_load d (3 * i + 2) c) in Hsplit by (done || lia).
  destruct (six_points a b c Ha Hb Hc') as (-> & -> & -> & _). by rewrite (Hsplit 3%nat) by lia.
Qed.

Lemma mod_256qam_spec d n :
  bytes_ok d -> 0 <= n -> 8 * n <= 8 * zlen d ->
  mod_256qam_bytes (table_of SRSRAN_MOD_256QAM) d (8 * n) = Some (symbols_of 8 (Z.to_nat n) (bits_of_bytes d)).
Proof.
  intros Hd Hn Hz. unfold mod_256qam_bytes. rewrite Z.mul_comm, Z.div_mul by lia.
  assert (G : forall k i, 0 <= i -> i + Z.of_nat k <= zlen d -> mapM (fun i => b ← load d i; Some (symbol_at (table_of SRSRAN_MOD_256QAM) b)) (seqZ i (Z.of_nat k)) =
    Some (symbols_of 8 k (bits_of_bytes (zdrop i d)))).
  { induction k as [|k IH]; intros i Hi Hik; [done|]. rewrite seqZ_cons by lia. replace (Z.pred (Z.of_nat (S k))) with (Z.of_nat k) by lia. change (Z.succ i) with (i + 1).
    cbn [mapM]. destruct (load_inside d i ltac:(lia)) as (b & Eb). pose proof (load_u8 _ _ _ Hd Eb) as Hb. rewrite Eb. cbn [mbind option_bind mret option_ret].
    rewrite IH by lia. cbn [mbind option_bind]. rewrite (zdrop_load d i b Hi Eb), bits_of_bytes_cons. cbn [symbols_of].
    rewrite (ztake_app_eq 8), (zdrop_app_eq 8) by (by rewrite zlen_unpack). do 2 f_equal.
    rewrite <- (symbol_at_point SRSRAN_MOD_256QAM (srsran_bit_unpack b 8) ltac:(done) (unpack_bits_ok _ _) (zlen_unpack b 8 ltac:(lia))).
    rewrite bits_val_unpack by lia. f_equal. symmetry. apply Z.mod_small. exact Hb. }
  specialize (G (Z.to_nat n) 0 ltac:(lia) ltac:(lia)). rewrite Z2Nat.id, zdrop_0 in G by lia. exact G.
Qed.

Lemma mod_bpsk_spec d n :
  bytes_ok d -> 0 <= n <= zlen d ->
  mod_bpsk_bytes (table_of SRSRAN_MOD_BPSK) d (8 * n) = Some (symbols_of 1 (Z.to_nat (8 * n)) (bits_of_bytes d)).
Proof.
  intros Hd Hn. unfold mod_bpsk_bytes. rewrite (Z.mul_comm 8 n), Z.div_mul, Z.mod_mul by lia.
  rewrite (byte_entries_spec 1 8) by (try apply byte_tables; done || lia). cbn [mbind option_bind]. rewrite zdrop_0.
  change (seqZ 0 0) with (@nil Z). cbn [mapM mret option_ret mbind option_bind]. rewrite app_nil_r. do 2 f_equal. lia.
Qed.

(** The bytes hold the bits of [n] symbols. *)
Definition modulation_input (m : srsran_mod_t) (d : list Z) (n : Z) : Prop :=
  bytes_ok d /\ 0 <= n /\ srsran_mod_bits_x_symbol m * n <= 8 * zlen d.

(** The number of symbols for which BPSK reads the bits where they are. *)
Definition whole_bytes (m : srsran_mod_t) (n : Z) : Prop := m = SRSRAN_MOD_BPSK -> n mod 8 = 0.

Lemma modulate_bytes_spec m d n :
  modulation_ok m -> modulation_input m d n -> whole_bytes m n ->
  srsran_mod_modulate_bytes (table_of m) d (srsran_mod_bits_x_symbol m * n) =
    Some (inr (symbols_of (srsran_mod_bits_x_symbol m) (Z.to_nat n) (bits_of_bytes d))).
Proof.
  intros Hm (Hd & Hn & Hz) Hb. unfold srsran_mod_modulate_bytes. destruct (table_facts m Hm) as (E1 & _ & E3 & HQ). rewrite E1, E3. cbn [negb].
  rewrite Z.mul_comm, Z.mod_mul by lia. cbn [Z.eqb negb]. rewrite (Z.mul_comm n).
  destruct m; cbn [srsran_mod_bits_x_symbol] in *; [|rewrite mod_qpsk_spec|rewrite mod_16qam_spec|rewrite mod_64qam_spec|rewrite mod_256qam_spec|done]; try (done || lia).
  specialize (Hb eq_refl). apply Z.div_exact in Hb; [|lia]. rewrite Z.mul_1_l, Hb.
  rewrite (mod_bpsk_spec d (n / 8)); [done|done|lia].
Qed.

(** The symbol that BPSK makes of bit [i] of the last byte, which it takes from the byte
    [8 * (n / 8) + i] instead of the byte [n / 8]. *)
Definition bpsk_rest (d : list Z) (n i : Z) : option cf_t :=
  b ← load d (8 * (n / 8) + i); Some (constellation_point [Z.b2z (Z.testbit b (7 - i))]).

Lemma bpsk_masked_bit b i : is_u8 b -> 0 <= i < 8 ->
  symbol_at (table_of SRSRAN_MOD_BPSK) (Z.shiftr (Z.land b (mask_bpsk i)) (shift_bpsk i)) = constellation_point [Z.b2z (Z.testbit b (7 - i))].
Proof.
  intros Hb Hi.
  assert (T : range_forallb 256 (fun b => range_forallb 8 (fun i => Z.shiftr (Z.land b (mask_bpsk i)) (shift_bpsk i) =? Z.b2z (Z.testbit b (7 - i)))) = true)
    by (vm_compute; reflexivity).
  pose proof (range_forallb_spec _ _ T b Hb) as T1. cbv beta in T1. pose proof (range_forallb_spec _ _ T1 i Hi) as T2. apply Z.eqb_eq in T2. rewrite T2.
  by destruct (Z.testbit b (7 - i)); vm_compute.
Qed.

Lemma mod_bpsk_any d n : bytes_ok d -> 0 <= n <= 8 * zlen d ->
  mod_bpsk_bytes (table_of SRSRAN_MOD_BPSK) d n =
    (rest ← mapM (bpsk_rest d n) (seqZ 0 (n mod 8)); Some (symbols_of 1 (Z.to_nat (8 * (n / 8))) (bits_of_bytes d) ++ rest)).
Proof.
  intros Hd Hn. unfold mod_bpsk_bytes. pose proof (Z.div_mod n 8 ltac:(lia)). pose proof (Z.mod_pos_bound n 8 ltac:(lia)).
  assert (Hd8 : 0 <= n / 8 <= zlen d) by (split; [apply Z.div_pos|apply Z.div_le_upper_bound]; lia).
  rewrite (byte_entries_spec 1 8) by (try apply byte_tables; done || lia). cbn [mbind option_bind]. rewrite zdrop_0.
  replace (Z.to_nat (n / 8) * 8)%nat with (Z.to_nat (8 * (n / 8))) by lia.
  assert (E : mapM (fun i => b ← load d (8 * (n / 8) + i); Some (symbol_at (table_of SRSRAN_MOD_BPSK) (Z.shiftr (Z.land b (mask_bpsk i)) (shift_bpsk i)))) (seqZ 0 (n mod 8)) =
    mapM (bpsk_rest d n) (seqZ 0 (n mod 8))); [|by rewrite E].
  apply Forall_mapM_ext, Forall_forall. intros i Hi%elem_of_seqZ. unfold bpsk_rest. destruct (load d (8 * (n / 8) + i)) as [b|] eqn:Eb; [|done].
  cbn [mbind option_bind]. by rewrite bpsk_masked_bit by (by eapply load_u8 || lia).
Qed.

(** C15: mapping packed bytes to symbols, which uses a table of all bytes or cuts out the bits
    by masks and shifts, against mapping the single bits.  Mapping single bits gives, for every
    modulation and length, the points of the constellation of the standard.  Mapping bytes gives
    the same for QPSK, 16QAM, 64QAM and 256QAM and every length, and for BPSK when the number of
    symbols is a multiple of 8.  For BPSK with [n mod 8] symbols more, it takes the last ones from
    other bytes: bit [i] of the byte [8 * (n / 8) + i], and fails when there is no such byte. *)
Theorem modulation_agrees m d n :
  modulation_ok m -> modulation_input m d n ->
  let Q := srsran_mod_bits_x_symbol m in
  let bits := ztake (Q * n) (bits_of_bytes d) in
  srsran_mod_modulate (table_of m) bits (Q * n) = Some (inr (symbols_of Q (Z.to_nat n) bits)) /\
  ((m = SRSRAN_MOD_BPSK -> n mod 8 = 0) -> srsran_mod_modulate_bytes (table_of m) d (Q * n) = srsran_mod_modulate (table_of m) bits (Q * n)) /\
  (m = SRSRAN_MOD_BPSK -> srsran_mod_modulate_bytes (table_of m) d n =
    (rest ← mapM (bpsk_rest d n) (seqZ 0 (n mod 8)); Some (inr (symbols_of 1 (Z.to_nat (8 * (n / 8))) (bits_of_bytes d) ++ rest)))).
Proof.
  intros Hm Hin Q bits. pose proof (modulate_bytes_spec m d n Hm Hin) as E. destruct Hin as (Hd & Hn & Hz), (table_facts m Hm) as (_ & _ & _ & HQ).
  fold Q in Hz, HQ, E. assert (Hl : zlen bits = Q * n) by (unfold bits; rewrite zlen_ztake by (rewrite zlen_bits_of_bytes; nia); done).
  assert (Hok : bits_ok bits) by (apply Forall_take, bits_of_bytes_ok).
  pose proof (modulate_spec m bits [] n Hm Hok Hn Hl) as E2. rewrite app_nil_r, Hl in E2. rewrite E2. split_and!; [done| |].
  - intros Hb. rewrite (E Hb). do 2 f_equal. rewrite <- (ztake_zdrop (Q * n) (bits_of_bytes d)) at 1. apply symbols_of_prefix; [lia|]. fold bits. lia.
  - intros ->. change Q with 1 in Hz. unfold srsran_mod_modulate_bytes. change (nbits_x_symbol (table_of SRSRAN_MOD_BPSK)) with 1.
    change (byte_tables_init (table_of SRSRAN_MOD_BPSK)) with true. rewrite Z.mod_1_r. cbn [negb Z.eqb]. rewrite mod_bpsk_any by (done || lia).
    by destruct (mapM _ _).
Qed.

(** Seven symbols of 64QAM, the last in the middle of a byte. *)
Lemma modulation_agrees_witness :
  let m := SRSRAN_MOD_64QAM in
  let d := [0x1b; 0x2d; 0x6e; 0xc4; 0x5f; 0xa0] in
  let bits := ztake (6 * 7) (bits_of_bytes d) in
  srsran_mod_modulate_bytes (table_of m) d (6 * 7) = srsran_mod_modulate (table_of m) bits (6 * 7) /\
  srsran_mod_modulate (table_of m) bits (6 * 7) = Some (inr (symbols_of 6 7 bits)).
Proof.
  destruct (modulation_agrees SRSRAN_MOD_64QAM [0x1b; 0x2d; 0x6e; 0xc4; 0x5f; 0xa0] 7) as (H1 & H2 & _).
  - done.
  - split_and!; [repeat constructor; unfold is_u8; lia|lia|vm_compute; discriminate].
  - exact (conj (H2 ltac:(discriminate)) H1).
Defined.

(** A BPSK block of nine bits: the ninth is looked for in the ninth byte instead of the second. *)
Lemma bpsk_rest_reads_other_byte :
  mod_bpsk_bytes (table_of SRSRAN_MOD_BPSK) [0; 0x80] 9 = None /\
  mod_bpsk_bytes (table_of SRSRAN_MOD_BPSK) [0; 0x80; 0; 0; 0; 0; 0; 0; 0] 9 <> Some (symbols_of 1 9 (bits_of_bytes [0; 0x80])).
Proof. split; [by vm_compute|by vm_compute]. Qed.
