(* ===== verification/PhyCommon.v ===== *)
(** * Common parameters of the physical layer

    The part of [lib/include/srsran/phy/common/phy_common.h] and [lib/src/phy/common/phy_common.c]
    that the broadcast channel uses: the description of a cell and of a subframe, the numbers of
    resource elements and symbols of the three subcarrier spacings of MBSFN subframes, and the
    TDD configurations.  Fields of the records that no modelled function reads are left out. *)

From stdpp Require Import base list gmap numbers list_basics list_relations.
From S2P Require Import Prelude.

Local Open Scope Z_scope.

Inductive srsran_cp_t := SRSRAN_CP_NORM | SRSRAN_CP_EXT.
Inductive srsran_sf_t := SRSRAN_SF_NORM | SRSRAN_SF_MBSFN.
Inductive srsran_scs_t := SRSRAN_SCS_15KHZ | SRSRAN_SCS_7KHZ5 | SRSRAN_SCS_1KHZ25.
Inductive srsran_frame_type_t := SRSRAN_FDD | SRSRAN_TDD.
Inductive srsran_tdd_sf_t := SRSRAN_TDD_SF_D | SRSRAN_TDD_SF_U | SRSRAN_TDD_SF_S.

#[export] Instance cp_dec : EqDecision srsran_cp_t.
Proof. solve_decision. Defined.
#[export] Instance sf_dec : EqDecision srsran_sf_t.
Proof. solve_decision. Defined.
#[export] Instance scs_dec : EqDecision srsran_scs_t.
Proof. solve_decision. Defined.
#[export] Instance frame_type_dec : EqDecision srsran_frame_type_t.
Proof. solve_decision. Defined.
#[export] Instance tdd_sf_dec : EqDecision srsran_tdd_sf_t.
Proof. solve_decision. Defined.

Record srsran_tdd_config_t := mk_tdd { sf_config : Z; ss_config : Z; configured : bool }.

Record srsran_cell_t := mk_cell {
  nof_prb : Z;
  nof_ports : Z;
  cell_id : Z;
  cell_cp : srsran_cp_t;
  frame_type : srsran_frame_type_t;
  mbsfn_prb : Z
}.

Record srsran_dl_sf_cfg_t := mk_sf {
  tdd_config : srsran_tdd_config_t;
  sf_tti : Z;
  sf_cfi : Z;
  sf_type : srsran_sf_t;
  subcarrier_spacing : srsran_scs_t
}.

Definition SRSRAN_MAX_PORTS : Z := 4.
Definition SRSRAN_MAX_PRB : Z := 110.
Definition SRSRAN_NRE : Z := 12.
Definition SRSRAN_NRE_SCS_7KHZ5 : Z := 24.
Definition SRSRAN_NRE_SCS_1KHZ25 : Z := 144.
Definition SRSRAN_MAX_MBSFN_AREA_IDS : Z := 256.
Definition SRSRAN_PMCH_RV : Z := 0.
Definition SRSRAN_NOF_SF_X_FRAME : Z := 10.

Definition SRSRAN_NRE_SCS (scs : srsran_scs_t) : Z :=
  match scs with
  | SRSRAN_SCS_15KHZ => SRSRAN_NRE
  | SRSRAN_SCS_7KHZ5 => SRSRAN_NRE_SCS_7KHZ5
  | SRSRAN_SCS_1KHZ25 => SRSRAN_NRE_SCS_1KHZ25
  end.

Definition SRSRAN_CP_NORM_NSYMB : Z := 7.
Definition SRSRAN_CP_EXT_NSYMB : Z := 6.
Definition SRSRAN_CP_SCS_7KHZ5_NSYMB : Z := 3.
Definition SRSRAN_CP_SCS_1KHZ25_NSYMB : Z := 1.

Definition SRSRAN_MBSFN_NOF_SLOTS (scs : srsran_scs_t) : Z := if decide (scs = SRSRAN_SCS_1KHZ25) then 1 else 2.

Definition SRSRAN_MBSFN_NOF_SYMBOLS (scs : srsran_scs_t) : Z :=
  match scs with
  | SRSRAN_SCS_1KHZ25 => SRSRAN_CP_SCS_1KHZ25_NSYMB
  | SRSRAN_SCS_7KHZ5 => SRSRAN_CP_SCS_7KHZ5_NSYMB
  | SRSRAN_SCS_15KHZ => SRSRAN_CP_EXT_NSYMB
  end.

Definition SRSRAN_CP_NSYMB (cp : srsran_cp_t) : Z := if decide (cp = SRSRAN_CP_NORM) then SRSRAN_CP_NORM_NSYMB else SRSRAN_CP_EXT_NSYMB.

(** The resource elements of a slot and of a subframe, in 32 bits. *)
Definition SRSRAN_SLOT_LEN_RE (nof_prb : Z) (cp : srsran_cp_t) : Z := u32 (nof_prb * SRSRAN_NRE * SRSRAN_CP_NSYMB cp).
Definition SRSRAN_SF_LEN_RE (nof_prb : Z) (cp : srsran_cp_t) : Z := u32 (2 * SRSRAN_SLOT_LEN_RE nof_prb cp).
Definition SRSRAN_NOF_RE (cell : srsran_cell_t) : Z := u32 (2 * SRSRAN_SLOT_LEN_RE (nof_prb cell) (cell_cp cell)).

Definition SRSRAN_RE_IDX (nof_prb symbol_idx sample_idx : Z) : Z := symbol_idx * nof_prb * SRSRAN_NRE + sample_idx.
Definition SRSRAN_RE_IDX_MBSFN (nof_prb symbol_idx sample_idx : Z) (scs : srsran_scs_t) : Z :=
  symbol_idx * nof_prb * SRSRAN_NRE_SCS scs + sample_idx.

Definition SRSRAN_NOF_CTRL_SYMBOLS (cell : srsran_cell_t) (cfi : Z) : Z := u32 (cfi + (if nof_prb cell <? 10 then 1 else 0)).

Definition SRSRAN_SYMBOL_HAS_REF_MBSFN (l s : Z) : bool := (l =? 2) && (s =? 0) || (l =? 0) && (s =? 1) || (l =? 4) && (s =? 1).
Definition SRSRAN_SYMBOL_HAS_REF_MBSFN_7KHZ5 (l s : Z) : bool := (l =? 1) && (s =? 0) || (l =? 0) && (s =? 1) || (l =? 2) && (s =? 1).
Definition SRSRAN_SYMBOL_HAS_REF_MBSFN_1KHZ25 (l s : Z) : bool := true.

Definition SRSRAN_SYMBOL_HAS_REF_MBSFN_SCS (l s : Z) (scs : srsran_scs_t) : bool :=
  match scs with
  | SRSRAN_SCS_15KHZ => SRSRAN_SYMBOL_HAS_REF_MBSFN l s
  | SRSRAN_SCS_7KHZ5 => SRSRAN_SYMBOL_HAS_REF_MBSFN_7KHZ5 l s
  | SRSRAN_SCS_1KHZ25 => SRSRAN_SYMBOL_HAS_REF_MBSFN_1KHZ25 l s
  end.

Definition srsran_cellid_isvalid (cell_id : Z) : bool := cell_id <? 504.
Definition srsran_nofprb_isvalid (nof_prb : Z) : bool := (nof_prb =? 1) || (nof_prb >=? 6) && (nof_prb <=? SRSRAN_MAX_PRB).
Definition srsran_portid_isvalid (port_id : Z) : bool := port_id <=? SRSRAN_MAX_PORTS.
Definition srsran_cell_isvalid (cell : srsran_cell_t) : bool :=
  srsran_cellid_isvalid (cell_id cell) && srsran_portid_isvalid (nof_ports cell) && srsran_nofprb_isvalid (nof_prb cell).

(** ** TDD *)

Definition tdd_sf : list (list srsran_tdd_sf_t) :=
  let D := SRSRAN_TDD_SF_D in let U := SRSRAN_TDD_SF_U in let S := SRSRAN_TDD_SF_S in
  [[D; S; U; U; U; D; S; U; U; U];
   [D; S; U; U; D; D; S; U; U; D];
   [D; S; U; D; D; D; S; U; D; D];
   [D; S; U; U; U; D; D; D; D; D];
   [D; S; U; U; D; D; D; D; D; D];
   [D; S; U; D; D; D; D; D; D; D];
   [D; S; U; U; U; D; S; U; U; D]].

Definition srsran_sfidx_tdd_type (c : srsran_tdd_config_t) (sf_idx : Z) : srsran_tdd_sf_t :=
  if (sf_config c <? 7) && (sf_idx <? SRSRAN_NOF_SF_X_FRAME) && configured c
  then default SRSRAN_TDD_SF_D (tdd_sf !! Z.to_nat (sf_config c) ≫= (.!! Z.to_nat sf_idx))
  else SRSRAN_TDD_SF_D.

Definition tdd_nof_sf_symbols : list (Z * Z * Z) :=
  [(3, 10, 1); (9, 4, 1); (10, 3, 1); (11, 2, 1); (12, 1, 1); (3, 9, 2); (9, 3, 2); (10, 2, 2); (11, 1, 1); (6, 6, 2)].

Definition srsran_sfidx_tdd_nof_dw (c : srsran_tdd_config_t) : Z :=
  if ss_config c <? 10 then default 0 ((fun r => fst (fst r)) <$> tdd_nof_sf_symbols !! Z.to_nat (ss_config c)) else 0.
Definition srsran_sfidx_tdd_nof_gp (c : srsran_tdd_config_t) : Z :=
  if ss_config c <? 10 then default 0 ((fun r => snd (fst r)) <$> tdd_nof_sf_symbols !! Z.to_nat (ss_config c)) else 0.
Definition srsran_sfidx_tdd_nof_up (c : srsran_tdd_config_t) : Z :=
  if ss_config c <? 10 then default 0 (snd <$> tdd_nof_sf_symbols !! Z.to_nat (ss_config c)) else 0.

Definition srsran_sfidx_tdd_nof_dw_slot (c : srsran_tdd_config_t) (slot : Z) (cp : srsran_cp_t) : Z :=
  let n := srsran_sfidx_tdd_nof_dw c in
  if n <? SRSRAN_CP_NSYMB cp then (if slot =? 1 then 0 else n)
  else (if slot =? 1 then n - SRSRAN_CP_NSYMB cp else SRSRAN_CP_NSYMB cp).
