(* ===== verification/Ra.v ===== *)
(** * Resource allocation

    [lib/src/phy/phch/ra.c] and the parts of [ra_dl.c] that compute a grant of the broadcast
    channel: the tables of transport block sizes ([tbs_tables.h]), modulation and size of a
    modulation and coding scheme, the resource elements of a grant, and the soft buffer that is
    made for the largest block ([fec/softbuffer.c]).  Unsigned results wrap around as in the
    source. *)

From stdpp Require Import base list gmap numbers list_basics list_relations.
From S2P Require Import Prelude Float32 CbSegm RateMatch Sch PhyCommon.

Local Open Scope Z_scope.

(** ** Tables *)

Definition dl_mcs_tbs_idx_table : list Z :=
  [0; 1; 2; 3; 4; 5; 6; 7; 8; 9; 9; 10; 11; 12; 13; 14; 15; 15; 16; 17; 18; 19; 20; 21; 22; 23; 24; 25; 26].

Definition dl_mcs_tbs_idx_table2 : list Z :=
  [0; 2; 4; 6; 8; 10; 11; 12; 13; 14; 15; 16; 17; 18; 19; 20; 21; 22; 23; 24; 25; 27; 28; 29; 30; 31; 32; 33].

Definition ul_mcs_tbs_idx_table : list Z :=
  [0; 1; 2; 3; 4; 5; 6; 7; 8; 9; 10; 10; 11; 12; 13; 14; 15; 16; 17; 18; 19; 19; 20; 21; 22; 23; 24; 25; 26].

Definition tbs_table : list (list Z) :=
  [[16; 32; 56; 88; 120; 152; 176; 208; 224; 256; 288; 328; 344; 376; 392; 424; 456; 488; 504; 536; 568; 600;
    616; 648; 680; 712; 744; 776; 776; 808; 840; 872; 904; 936; 968; 1000; 1032; 1032; 1064; 1096; 1128; 1160;
    1192; 1224; 1256; 1256; 1288; 1320; 1352; 1384; 1416; 1416; 1480; 1480; 1544; 1544; 1608; 1608; 1608; 1672;
    1672; 1736; 1736; 1800; 1800; 1800; 1864; 1864; 1928; 1928; 1992; 1992; 2024; 2088; 2088; 2088; 2152; 2152;
    2216; 2216; 2280; 2280; 2280; 2344; 2344; 2408; 2408; 2472; 2472; 2536; 2536; 2536; 2600; 2600; 2664; 2664;
    2728; 2728; 2728; 2792; 2792; 2856; 2856; 2856; 2984; 2984; 2984; 2984; 2984; 3112];
   [24; 56; 88; 144; 176; 208; 224; 256; 328; 344; 376; 424; 456; 488; 520; 568; 600; 632; 680; 712; 744; 776;
    808; 872; 904; 936; 968; 1000; 1032; 1064; 1128; 1160; 1192; 1224; 1256; 1288; 1352; 1384; 1416; 1416; 1480;
    1544; 1544; 1608; 1608; 1672; 1736; 1736; 1800; 1800; 1864; 1864; 1928; 1992; 1992; 2024; 2088; 2088; 2152;
    2152; 2216; 2280; 2280; 2344; 2344; 2408; 2472; 2472; 2536; 2536; 2600; 2600; 2664; 2728; 2728; 2792; 2792;
    2856; 2856; 2856; 2984; 2984; 2984; 3112; 3112; 3112; 3240; 3240; 3240; 3240; 3368; 3368; 3368; 3496; 3496;
    3496; 3496; 3624; 3624; 3624; 3752; 3752; 3752; 3752; 3880; 3880; 3880; 4008; 4008; 4008];
   [32; 72; 144; 176; 208; 256; 296; 328; 376; 424; 472; 520; 568; 616; 648; 696; 744; 776; 840; 872; 936; 968;
    1000; 1064; 1096; 1160; 1192; 1256; 1288; 1320; 1384; 1416; 1480; 1544; 1544; 1608; 1672; 1672; 1736; 1800;
    1800; 1864; 1928; 1992; 2024; 2088; 2088; 2152; 2216; 2216; 2280; 2344; 2344; 2408; 2472; 2536; 2536; 2600;
    2664; 2664; 2728; 2792; 2856; 2856; 2856; 2984; 2984; 3112; 3112; 3112; 3240; 3240; 3240; 3368; 3368; 3368;
    3496; 3496; 3496; 3624; 3624; 3624; 3752; 3752; 3880; 3880; 3880; 4008; 4008; 4008; 4136; 4136; 4136; 4264;
    4264; 4264; 4392; 4392; 4392; 4584; 4584; 4584; 4584; 4584; 4776; 4776; 4776; 4776; 4968; 4968];
   [40; 104; 176; 208; 256; 328; 392; 440; 504; 568; 616; 680; 744; 808; 872; 904; 968; 1032; 1096; 1160; 1224;
    1256; 1320; 1384; 1416; 1480; 1544; 1608; 1672; 1736; 1800; 1864; 1928; 1992; 2024; 2088; 2152; 2216; 2280;
    2344; 2408; 2472; 2536; 2536; 2600; 2664; 2728; 2792; 2856; 2856; 2984; 2984; 3112; 3112; 3240; 3240; 3368;
    3368; 3496; 3496; 3624; 3624; 3624; 3752; 3752; 3880; 3880; 4008; 4008; 4136; 4136; 4264; 4264; 4392; 4392;
    4392; 4584; 4584; 4584; 4776; 4776; 4776; 4776; 4968; 4968; 4968; 5160; 5160; 5160; 5352; 5352; 5352; 5352;
    5544; 5544; 5544; 5736; 5736; 5736; 5736; 5992; 5992; 5992; 5992; 6200; 6200; 6200; 6200; 6456; 6456];
   [56; 120; 208; 256; 328; 408; 488; 552; 632; 696; 776; 840; 904; 1000; 1064; 1128; 1192; 1288; 1352; 1416;
    1480; 1544; 1608; 1736; 1800; 1864; 1928; 1992; 2088; 2152; 2216; 2280; 2344; 2408; 2472; 2600; 2664; 2728;
    2792; 2856; 2984; 2984; 3112; 3112; 3240; 3240; 3368; 3496; 3496; 3624; 3624; 3752; 3752; 3880; 4008; 4008;
    4136; 4136; 4264; 4264; 4392; 4392; 4584; 4584; 4584; 4776; 4776; 4968; 4968; 4968; 5160; 5160; 5160; 5352;
    5352; 5544; 5544; 5544; 5736; 5736; 5736; 5992; 5992; 5992; 5992; 6200; 6200; 6200; 6456; 6456; 6456; 6456;
    6712; 6712; 6712; 6968; 6968; 6968; 6968; 7224; 7224; 7224; 7480; 7480; 7480; 7480; 7736; 7736; 7736; 7992];
   [72; 144; 224; 328; 424; 504; 600; 680; 776; 872; 968; 1032; 1128; 1224; 1320; 1384; 1480; 1544; 1672; 1736;
    1864; 1928; 2024; 2088; 2216; 2280; 2344; 2472; 2536; 2664; 2728; 2792; 2856; 2984; 3112; 3112; 3240; 3368;
    3496; 3496; 3624; 3752; 3752; 3880; 4008; 4008; 4136; 4264; 4392; 4392; 4584; 4584; 4776; 4776; 4776; 4968;
    4968; 5160; 5160; 5352; 5352; 5544; 5544; 5736; 5736; 5736; 5992; 5992; 5992; 6200; 6200; 6200; 6456; 6456;
    6712; 6712; 6712; 6968; 6968; 6968; 7224; 7224; 7224; 7480; 7480; 7480; 7736; 7736; 7736; 7992; 7992; 7992;
    8248; 8248; 8248; 8504; 8504; 8760; 8760; 8760; 8760; 9144; 9144; 9144; 9144; 9528; 9528; 9528; 9528; 9528];
   [328; 176; 256; 392; 504; 600; 712; 808; 936; 1032; 1128; 1224; 1352; 1480; 1544; 1672; 1736; 1864; 1992;
    2088; 2216; 2280; 2408; 2472; 2600; 2728; 2792; 2984; 2984; 3112; 3240; 3368; 3496; 3496; 3624; 3752; 3880;
    4008; 4136; 4136; 4264; 4392; 4584; 4584; 4776; 4776; 4968; 4968; 5160; 5160; 5352; 5352; 5544; 5736; 5736;
    5992; 5992; 5992; 6200; 6200; 6456; 6456; 6456; 6712; 6712; 6968; 6968; 6968; 7224; 7224; 7480; 7480; 7736;
    7736; 7736; 7992; 7992; 8248; 8248; 8248; 8504; 8504; 8760; 8760; 8760; 9144; 9144; 9144; 9144; 9528; 9528;
    9528; 9528; 9912; 9912; 9912; 10296; 10296; 10296; 10296; 10680; 10680; 10680; 10680; 11064; 11064; 11064;
    11448; 11448; 11448];
   [104; 224; 328; 472; 584; 712; 840; 968; 1096; 1224; 1320; 1480; 1608; 1672; 1800; 1928; 2088; 2216; 2344;
    2472; 2536; 2664; 2792; 2984; 3112; 3240; 3368; 3368; 3496; 3624; 3752; 3880; 4008; 4136; 4264; 4392; 4584;
    4584; 4776; 4968; 4968; 5160; 5352; 5352; 5544; 5736; 5736; 5992; 5992; 6200; 6200; 6456; 6456; 6712; 6712;
    6712; 6968; 6968; 7224; 7224; 7480; 7480; 7736; 7736; 7992; 7992; 8248; 8248; 8504; 8504; 8760; 8760; 8760;
    9144; 9144; 9144; 9528; 9528; 9528; 9912; 9912; 9912; 10296; 10296; 10296; 10680; 10680; 10680; 11064; 11064;
    11064; 11448; 11448; 11448; 11448; 11832; 11832; 11832; 12216; 12216; 12216; 12576; 12576; 12576; 12960;
    12960; 12960; 12960; 13536; 13536];
   [120; 256; 392; 536; 680; 808; 968; 1096; 1256; 1384; 1544; 1672; 1800; 1928; 2088; 2216; 2344; 2536; 2664;
    2792; 2984; 3112; 3240; 3368; 3496; 3624; 3752; 3880; 4008; 4264; 4392; 4584; 4584; 4776; 4968; 4968; 5160;
    5352; 5544; 5544; 5736; 5992; 5992; 6200; 6200; 6456; 6456; 6712; 6968; 6968; 7224; 7224; 7480; 7480; 7736;
    7736; 7992; 7992; 8248; 8504; 8504; 8760; 8760; 9144; 9144; 9144; 9528; 9528; 9528; 9912; 9912; 9912; 10296;
    10296; 10680; 10680; 10680; 11064; 11064; 11064; 11448; 11448; 11448; 11832; 11832; 12216; 12216; 12216;
    12576; 12576; 12576; 12960; 12960; 12960; 13536; 13536; 13536; 13536; 14112; 14112; 14112; 14112; 14688;
    14688; 14688; 14688; 15264; 15264; 15264; 15264];
   [136; 296; 456; 616; 776; 936; 1096; 1256; 1416; 1544; 1736; 1864; 2024; 2216; 2344; 2536; 2664; 2856; 2984;
    3112; 3368; 3496; 3624; 3752; 4008; 4136; 4264; 4392; 4584; 4776; 4968; 5160; 5160; 5352; 5544; 5736; 5736;
    5992; 6200; 6200; 6456; 6712; 6712; 6968; 6968; 7224; 7480; 7480; 7736; 7992; 7992; 8248; 8248; 8504; 8760;
    8760; 9144; 9144; 9144; 9528; 9528; 9912; 9912; 10296; 10296; 10296; 10680; 10680; 11064; 11064; 11064;
    11448; 11448; 11832; 11832; 11832; 12216; 12216; 12576; 12576; 12960; 12960; 12960; 13536; 13536; 13536;
    13536; 14112; 14112; 14112; 14112; 14688; 14688; 14688; 15264; 15264; 15264; 15264; 15840; 15840; 15840;
    16416; 16416; 16416; 16416; 16992; 16992; 16992; 16992; 17568];
   [144; 328; 504; 680; 872; 1032; 1224; 1384; 1544; 1736; 1928; 2088; 2280; 2472; 2664; 2792; 2984; 3112; 3368;
    3496; 3752; 3880; 4008; 4264; 4392; 4584; 4776; 4968; 5160; 5352; 5544; 5736; 5736; 5992; 6200; 6200; 6456;
    6712; 6712; 6968; 7224; 7480; 7480; 7736; 7992; 7992; 8248; 8504; 8504; 8760; 9144; 9144; 9144; 9528; 9528;
    9912; 9912; 10296; 10296; 10680; 10680; 11064; 11064; 11448; 11448; 11448; 11832; 11832; 12216; 12216; 12576;
    12576; 12960; 12960; 12960; 13536; 13536; 13536; 14112; 14112; 14112; 14688; 14688; 14688; 14688; 15264;
    15264; 15264; 15840; 15840; 15840; 16416; 16416; 16416; 16992; 16992; 16992; 16992; 17568; 17568; 17568;
    18336; 18336; 18336; 18336; 18336; 19080; 19080; 19080; 19080];
   [176; 376; 584; 776; 1000; 1192; 1384; 1608; 1800; 2024; 2216; 2408; 2600; 2792; 2984; 3240; 3496; 3624; 3880;
    4008; 4264; 4392; 4584; 4776; 4968; 5352; 5544; 5736; 5992; 5992; 6200; 6456; 6712; 6968; 6968; 7224; 7480;
    7736; 7736; 7992; 8248; 8504; 8760; 8760; 9144; 9144; 9528; 9528; 9912; 9912; 10296; 10680; 10680; 11064;
    11064; 11448; 11448; 11832; 11832; 12216; 12216; 12576; 12576; 12960; 12960; 13536; 13536; 13536; 14112;
    14112; 14112; 14688; 14688; 14688; 15264; 15264; 15840; 15840; 15840; 16416; 16416; 16416; 16992; 16992;
    16992; 17568; 17568; 17568; 18336; 18336; 18336; 18336; 19080; 19080; 19080; 19080; 19848; 19848; 19848;
    19848; 20616; 20616; 20616; 21384; 21384; 21384; 21384; 22152; 22152; 22152];
   [208; 440; 680; 904; 1128; 1352; 1608; 1800; 2024; 2280; 2472; 2728; 2984; 3240; 3368; 3624; 3880; 4136; 4392;
    4584; 4776; 4968; 5352; 5544; 5736; 5992; 6200; 6456; 6712; 6712; 6968; 7224; 7480; 7736; 7992; 8248; 8504;
    8760; 8760; 9144; 9528; 9528; 9912; 9912; 10296; 10680; 10680; 11064; 11064; 11448; 11832; 11832; 12216;
    12216; 12576; 12576; 12960; 12960; 13536; 13536; 14112; 14112; 14112; 14688; 14688; 15264; 15264; 15264;
    15840; 15840; 16416; 16416; 16416; 16992; 16992; 17568; 17568; 17568; 18336; 18336; 18336; 19080; 19080;
    19080; 19080; 19848; 19848; 19848; 20616; 20616; 20616; 21384; 21384; 21384; 21384; 22152; 22152; 22152;
    22920; 22920; 22920; 23688; 23688; 23688; 23688; 24496; 24496; 24496; 24496; 25456];
   [224; 488; 744; 1000; 1256; 1544; 1800; 2024; 2280; 2536; 2856; 3112; 3368; 3624; 3880; 4136; 4392; 4584;
    4968; 5160; 5352; 5736; 5992; 6200; 6456; 6712; 6968; 7224; 7480; 7736; 7992; 8248; 8504; 8760; 9144; 9144;
    9528; 9912; 9912; 10296; 10680; 10680; 11064; 11448; 11448; 11832; 12216; 12216; 12576; 12960; 12960; 13536;
    13536; 14112; 14112; 14688; 14688; 14688; 15264; 15264; 15840; 15840; 16416; 16416; 16992; 16992; 16992;
    17568; 17568; 18336; 18336; 18336; 19080; 19080; 19080; 19848; 19848; 19848; 20616; 20616; 20616; 21384;
    21384; 21384; 22152; 22152; 22152; 22920; 22920; 22920; 23688; 23688; 23688; 24496; 24496; 24496; 25456;
    25456; 25456; 25456; 26416; 26416; 26416; 26416; 27376; 27376; 27376; 27376; 28336; 28336];
   [256; 552; 840; 1128; 1416; 1736; 1992; 2280; 2600; 2856; 3112; 3496; 3752; 4008; 4264; 4584; 4968; 5160;
    5544; 5736; 5992; 6200; 6456; 6968; 7224; 7480; 7736; 7992; 8248; 8504; 8760; 9144; 9528; 9912; 9912; 10296;
    10680; 11064; 11064; 11448; 11832; 12216; 12216; 12576; 12960; 12960; 13536; 13536; 14112; 14112; 14688;
    14688; 15264; 15264; 15840; 15840; 16416; 16416; 16992; 16992; 17568; 17568; 18336; 18336; 18336; 19080;
    19080; 19848; 19848; 19848; 20616; 20616; 20616; 21384; 21384; 22152; 22152; 22152; 22920; 22920; 22920;
    23688; 23688; 24496; 24496; 24496; 25456; 25456; 25456; 25456; 26416; 26416; 26416; 27376; 27376; 27376;
    28336; 28336; 28336; 28336; 29296; 29296; 29296; 29296; 30576; 30576; 30576; 30576; 31704; 31704];
   [280; 600; 904; 1224; 1544; 1800; 2152; 2472; 2728; 3112; 3368; 3624; 4008; 4264; 4584; 4968; 5160; 5544;
    5736; 6200; 6456; 6712; 6968; 7224; 7736; 7992; 8248; 8504; 8760; 9144; 9528; 9912; 10296; 10296; 10680;
    11064; 11448; 11832; 11832; 12216; 12576; 12960; 12960; 13536; 13536; 14112; 14688; 14688; 15264; 15264;
    15840; 15840; 16416; 16416; 16992; 16992; 17568; 17568; 18336; 18336; 18336; 19080; 19080; 19848; 19848;
    20616; 20616; 20616; 21384; 21384; 22152; 22152; 22152; 22920; 22920; 23688; 23688; 23688; 24496; 24496;
    24496; 25456; 25456; 25456; 26416; 26416; 26416; 27376; 27376; 27376; 28336; 28336; 28336; 29296; 29296;
    29296; 29296; 30576; 30576; 30576; 30576; 31704; 31704; 31704; 31704; 32856; 32856; 32856; 34008; 34008];
   [328; 632; 968; 1288; 1608; 1928; 2280; 2600; 2984; 3240; 3624; 3880; 4264; 4584; 4968; 5160; 5544; 5992;
    6200; 6456; 6712; 7224; 7480; 7736; 7992; 8504; 8760; 9144; 9528; 9912; 9912; 10296; 10680; 11064; 11448;
    11832; 12216; 12216; 12576; 12960; 13536; 13536; 14112; 14112; 14688; 14688; 15264; 15840; 15840; 16416;
    16416; 16992; 16992; 17568; 17568; 18336; 18336; 19080; 19080; 19848; 19848; 19848; 20616; 20616; 21384;
    21384; 22152; 22152; 22152; 22920; 22920; 23688; 23688; 24496; 24496; 24496; 25456; 25456; 25456; 26416;
    26416; 26416; 27376; 27376; 27376; 28336; 28336; 28336; 29296; 29296; 29296; 30576; 30576; 30576; 30576;
    31704; 31704; 31704; 31704; 32856; 32856; 32856; 34008; 34008; 34008; 34008; 35160; 35160; 35160; 35160];
   [336; 696; 1064; 1416; 1800; 2152; 2536; 2856; 3240; 3624; 4008; 4392; 4776; 5160; 5352; 5736; 6200; 6456;
    6712; 7224; 7480; 7992; 8248; 8760; 9144; 9528; 9912; 10296; 10296; 10680; 11064; 11448; 11832; 12216; 12576;
    12960; 13536; 13536; 14112; 14688; 14688; 15264; 15264; 15840; 16416; 16416; 16992; 17568; 17568; 18336;
    18336; 19080; 19080; 19848; 19848; 20616; 20616; 20616; 21384; 21384; 22152; 22152; 22920; 22920; 23688;
    23688; 24496; 24496; 24496; 25456; 25456; 26416; 26416; 26416; 27376; 27376; 27376; 28336; 28336; 29296;
    29296; 29296; 30576; 30576; 30576; 30576; 31704; 31704; 31704; 32856; 32856; 32856; 34008; 34008; 34008;
    35160; 35160; 35160; 35160; 36696; 36696; 36696; 36696; 37888; 37888; 37888; 39232; 39232; 39232; 39232];
   [376; 776; 1160; 1544; 1992; 2344; 2792; 3112; 3624; 4008; 4392; 4776; 5160; 5544; 5992; 6200; 6712; 7224;
    7480; 7992; 8248; 8760; 9144; 9528; 9912; 10296; 10680; 11064; 11448; 11832; 12216; 12576; 12960; 13536;
    14112; 14112; 14688; 15264; 15264; 15840; 16416; 16416; 16992; 17568; 17568; 18336; 18336; 19080; 19080;
    19848; 19848; 20616; 21384; 21384; 22152; 22152; 22920; 22920; 23688; 23688; 24496; 24496; 24496; 25456;
    25456; 26416; 26416; 27376; 27376; 27376; 28336; 28336; 29296; 29296; 29296; 30576; 30576; 30576; 31704;
    31704; 31704; 32856; 32856; 32856; 34008; 34008; 34008; 35160; 35160; 35160; 36696; 36696; 36696; 37888;
    37888; 37888; 37888; 39232; 39232; 39232; 40576; 40576; 40576; 40576; 42368; 42368; 42368; 42368; 43816; 43816];
   [408; 840; 1288; 1736; 2152; 2600; 2984; 3496; 3880; 4264; 4776; 5160; 5544; 5992; 6456; 6968; 7224; 7736;
    8248; 8504; 9144; 9528; 9912; 10296; 10680; 11064; 11448; 12216; 12576; 12960; 13536; 13536; 14112; 14688;
    15264; 15264; 15840; 16416; 16992; 16992; 17568; 18336; 18336; 19080; 19080; 19848; 20616; 20616; 21384;
    21384; 22152; 22152; 22920; 22920; 23688; 24496; 24496; 25456; 25456; 25456; 26416; 26416; 27376; 27376;
    28336; 28336; 29296; 29296; 29296; 30576; 30576; 30576; 31704; 31704; 32856; 32856; 32856; 34008; 34008;
    34008; 35160; 35160; 35160; 36696; 36696; 36696; 37888; 37888; 37888; 39232; 39232; 39232; 40576; 40576;
    40576; 40576; 42368; 42368; 42368; 43816; 43816; 43816; 43816; 45352; 45352; 45352; 46888; 46888; 46888; 46888];
   [440; 904; 1384; 1864; 2344; 2792; 3240; 3752; 4136; 4584; 5160; 5544; 5992; 6456; 6968; 7480; 7992; 8248;
    8760; 9144; 9912; 10296; 10680; 11064; 11448; 12216; 12576; 12960; 13536; 14112; 14688; 14688; 15264; 15840;
    16416; 16992; 16992; 17568; 18336; 18336; 19080; 19848; 19848; 20616; 20616; 21384; 22152; 22152; 22920;
    22920; 23688; 24496; 24496; 25456; 25456; 26416; 26416; 27376; 27376; 28336; 28336; 29296; 29296; 29296;
    30576; 30576; 31704; 31704; 31704; 32856; 32856; 34008; 34008; 34008; 35160; 35160; 35160; 36696; 36696;
    36696; 37888; 37888; 39232; 39232; 39232; 40576; 40576; 40576; 42368; 42368; 42368; 42368; 43816; 43816;
    43816; 45352; 45352; 45352; 46888; 46888; 46888; 46888; 48936; 48936; 48936; 48936; 48936; 51024; 51024; 51024];
   [488; 1000; 1480; 1992; 2472; 2984; 3496; 4008; 4584; 4968; 5544; 5992; 6456; 6968; 7480; 7992; 8504; 9144;
    9528; 9912; 10680; 11064; 11448; 12216; 12576; 12960; 13536; 14112; 14688; 15264; 15840; 15840; 16416; 16992;
    17568; 18336; 18336; 19080; 19848; 19848; 20616; 21384; 21384; 22152; 22920; 22920; 23688; 24496; 24496;
    25456; 25456; 26416; 26416; 27376; 27376; 28336; 28336; 29296; 29296; 30576; 30576; 31704; 31704; 31704;
    32856; 32856; 34008; 34008; 35160; 35160; 35160; 36696; 36696; 36696; 37888; 37888; 39232; 39232; 39232;
    40576; 40576; 40576; 42368; 42368; 42368; 43816; 43816; 43816; 45352; 45352; 45352; 46888; 46888; 46888;
    46888; 48936; 48936; 48936; 48936; 51024; 51024; 51024; 51024; 52752; 52752; 52752; 52752; 55056; 55056; 55056];
   [520; 1064; 1608; 2152; 2664; 3240; 3752; 4264; 4776; 5352; 5992; 6456; 6968; 7480; 7992; 8504; 9144; 9528;
    10296; 10680; 11448; 11832; 12576; 12960; 13536; 14112; 14688; 15264; 15840; 16416; 16992; 16992; 17568;
    18336; 19080; 19080; 19848; 20616; 21384; 21384; 22152; 22920; 22920; 23688; 24496; 24496; 25456; 25456;
    26416; 27376; 27376; 28336; 28336; 29296; 29296; 30576; 30576; 31704; 31704; 32856; 32856; 34008; 34008;
    34008; 35160; 35160; 36696; 36696; 36696; 37888; 37888; 39232; 39232; 40576; 40576; 40576; 42368; 42368;
    42368; 43816; 43816; 43816; 45352; 45352; 45352; 46888; 46888; 46888; 48936; 48936; 48936; 48936; 51024;
    51024; 51024; 51024; 52752; 52752; 52752; 55056; 55056; 55056; 55056; 57336; 57336; 57336; 57336; 59256;
    59256; 59256];
   [552; 1128; 1736; 2280; 2856; 3496; 4008; 4584; 5160; 5736; 6200; 6968; 7480; 7992; 8504; 9144; 9912; 10296;
    11064; 11448; 12216; 12576; 12960; 13536; 14112; 14688; 15264; 15840; 16416; 16992; 17568; 18336; 19080;
    19848; 19848; 20616; 21384; 22152; 22152; 22920; 23688; 24496; 24496; 25456; 25456; 26416; 27376; 27376;
    28336; 28336; 29296; 29296; 30576; 30576; 31704; 31704; 32856; 32856; 34008; 34008; 35160; 35160; 36696;
    36696; 37888; 37888; 37888; 39232; 39232; 40576; 40576; 40576; 42368; 42368; 43816; 43816; 43816; 45352;
    45352; 45352; 46888; 46888; 46888; 48936; 48936; 48936; 51024; 51024; 51024; 51024; 52752; 52752; 52752;
    55056; 55056; 55056; 55056; 57336; 57336; 57336; 57336; 59256; 59256; 59256; 59256; 61664; 61664; 61664;
    61664; 63776];
   [584; 1192; 1800; 2408; 2984; 3624; 4264; 4968; 5544; 5992; 6712; 7224; 7992; 8504; 9144; 9912; 10296; 11064;
    11448; 12216; 12960; 13536; 14112; 14688; 15264; 15840; 16416; 16992; 17568; 18336; 19080; 19848; 19848;
    20616; 21384; 22152; 22920; 22920; 23688; 24496; 25456; 25456; 26416; 26416; 27376; 28336; 28336; 29296;
    29296; 30576; 31704; 31704; 32856; 32856; 34008; 34008; 35160; 35160; 36696; 36696; 36696; 37888; 37888;
    39232; 39232; 40576; 40576; 42368; 42368; 42368; 43816; 43816; 45352; 45352; 45352; 46888; 46888; 46888;
    48936; 48936; 48936; 51024; 51024; 51024; 52752; 52752; 52752; 52752; 55056; 55056; 55056; 57336; 57336;
    57336; 57336; 59256; 59256; 59256; 61664; 61664; 61664; 61664; 63776; 63776; 63776; 63776; 66592; 66592;
    66592; 66592];
   [616; 1256; 1864; 2536; 3112; 3752; 4392; 5160; 5736; 6200; 6968; 7480; 8248; 8760; 9528; 10296; 10680; 11448;
    12216; 12576; 13536; 14112; 14688; 15264; 15840; 16416; 16992; 17568; 18336; 19080; 19848; 20616; 20616;
    21384; 22152; 22920; 23688; 24496; 24496; 25456; 26416; 26416; 27376; 28336; 28336; 29296; 29296; 30576;
    31704; 31704; 32856; 32856; 34008; 34008; 35160; 35160; 36696; 36696; 37888; 37888; 39232; 39232; 40576;
    40576; 40576; 42368; 42368; 43816; 43816; 43816; 45352; 45352; 46888; 46888; 46888; 48936; 48936; 48936;
    51024; 51024; 51024; 52752; 52752; 52752; 55056; 55056; 55056; 55056; 57336; 57336; 57336; 59256; 59256;
    59256; 61664; 61664; 61664; 61664; 63776; 63776; 63776; 63776; 66592; 66592; 66592; 66592; 68808; 68808;
    68808; 71112];
   [712; 1480; 2216; 2984; 3752; 4392; 5160; 5992; 6712; 7480; 8248; 8760; 9528; 10296; 11064; 11832; 12576;
    13536; 14112; 14688; 15264; 16416; 16992; 17568; 18336; 19080; 19848; 20616; 21384; 22152; 22920; 23688;
    24496; 25456; 25456; 26416; 27376; 28336; 29296; 29296; 30576; 30576; 31704; 32856; 32856; 34008; 35160;
    35160; 36696; 36696; 37888; 37888; 39232; 40576; 40576; 40576; 42368; 42368; 43816; 43816; 45352; 45352;
    46888; 46888; 48936; 48936; 48936; 51024; 51024; 52752; 52752; 52752; 55056; 55056; 55056; 55056; 57336;
    57336; 57336; 59256; 59256; 59256; 61664; 61664; 61664; 63776; 63776; 63776; 66592; 66592; 66592; 68808;
    68808; 68808; 71112; 71112; 71112; 73712; 73712; 75376; 75376; 75376; 75376; 75376; 75376; 75376; 75376;
    75376; 75376; 75376];
   [648; 1320; 1992; 2664; 3368; 4008; 4584; 5352; 5992; 6712; 7224; 7992; 8504; 9144; 9912; 10680; 11448; 11832;
    12576; 12960; 14112; 14688; 15264; 15840; 16416; 16992; 17568; 18336; 19080; 19848; 20616; 21384; 22152;
    22920; 22920; 23688; 24496; 25456; 25456; 26416; 27376; 27376; 28336; 29296; 29296; 30576; 31704; 31704;
    32856; 32856; 34008; 34008; 35160; 35160; 36696; 36696; 37888; 37888; 39232; 39232; 40576; 40576; 42368;
    42368; 43816; 43816; 43816; 45352; 45352; 46888; 46888; 46888; 48936; 48936; 48936; 51024; 51024; 51024;
    52752; 52752; 52752; 55056; 55056; 55056; 57336; 57336; 57336; 59256; 59256; 59256; 59256; 61664; 61664;
    61664; 63776; 63776; 63776; 63776; 66592; 66592; 66592; 66592; 68808; 68808; 68808; 71112; 71112; 71112;
    71112; 73712];
   [680; 1384; 2088; 2792; 3496; 4264; 4968; 5544; 6200; 6968; 7736; 8504; 9144; 9912; 10680; 11064; 11832;
    12576; 13536; 14112; 14688; 15264; 16416; 16992; 17568; 18336; 19080; 19848; 20616; 21384; 22152; 22152;
    22920; 23688; 24496; 25456; 26416; 26416; 27376; 28336; 29296; 29296; 30576; 30576; 31704; 32856; 32856;
    34008; 34008; 35160; 35160; 36696; 36696; 37888; 39232; 39232; 40576; 40576; 42368; 42368; 42368; 43816;
    43816; 45352; 45352; 46888; 46888; 46888; 48936; 48936; 48936; 51024; 51024; 52752; 52752; 52752; 55056;
    55056; 55056; 57336; 57336; 57336; 59256; 59256; 59256; 61664; 61664; 61664; 61664; 63776; 63776; 63776;
    66592; 66592; 66592; 66592; 68808; 68808; 68808; 71112; 71112; 71112; 73712; 73712; 73712; 75376; 75376;
    76208; 76208; 76208];
   [712; 1480; 2216; 2984; 3752; 4392; 5160; 5992; 6712; 7480; 8248; 8760; 9528; 10296; 11064; 11832; 12576;
    13536; 14112; 14688; 15840; 16416; 16992; 17568; 18336; 19080; 19848; 20616; 21384; 22152; 22920; 23688;
    24496; 25456; 26416; 26416; 27376; 28336; 29296; 29296; 30576; 31704; 31704; 32856; 34008; 34008; 35160;
    35160; 36696; 36696; 37888; 39232; 39232; 40576; 40576; 42368; 42368; 43816; 43816; 45352; 45352; 45352;
    46888; 46888; 48936; 48936; 48936; 51024; 51024; 52752; 52752; 52752; 55056; 55056; 55056; 57336; 57336;
    57336; 59256; 59256; 59256; 61664; 61664; 61664; 63776; 63776; 63776; 66592; 66592; 66592; 66592; 68808;
    68808; 68808; 71112; 71112; 71112; 73712; 73712; 73712; 75376; 76208; 76208; 76208; 78704; 78704; 78704;
    81176; 81176; 81176];
   [776; 1544; 2344; 3112; 3880; 4776; 5544; 6200; 6968; 7736; 8504; 9528; 10296; 11064; 11832; 12576; 13536;
    14112; 14688; 15840; 16416; 16992; 18336; 19080; 19848; 20616; 21384; 22152; 22920; 23688; 24496; 25456;
    25456; 26416; 27376; 28336; 29296; 29296; 30576; 31704; 31704; 32856; 34008; 34008; 35160; 36696; 36696;
    37888; 37888; 39232; 40576; 40576; 42368; 42368; 43816; 43816; 45352; 45352; 46888; 46888; 46888; 48936;
    48936; 51024; 51024; 51024; 52752; 52752; 55056; 55056; 55056; 57336; 57336; 57336; 59256; 59256; 59256;
    61664; 61664; 63776; 63776; 63776; 63776; 66592; 66592; 66592; 68808; 68808; 68808; 71112; 71112; 71112;
    73712; 73712; 75376; 75376; 76208; 76208; 78704; 78704; 78704; 81176; 81176; 81176; 81176; 84760; 84760;
    84760; 84760; 87936];
   [808; 1608; 2472; 3240; 4136; 4968; 5736; 6456; 7480; 8248; 9144; 9912; 10680; 11448; 12216; 12960; 14112;
    14688; 15840; 16416; 17568; 18336; 19080; 19848; 20616; 21384; 22152; 22920; 23688; 24496; 25456; 26416;
    27376; 28336; 29296; 29296; 30576; 31704; 31704; 32856; 34008; 35160; 35160; 36696; 36696; 37888; 39232;
    39232; 40576; 40576; 42368; 42368; 43816; 45352; 45352; 46888; 46888; 46888; 48936; 48936; 51024; 51024;
    52752; 52752; 52752; 55056; 55056; 55056; 57336; 57336; 59256; 59256; 59256; 61664; 61664; 63776; 63776;
    63776; 66592; 66592; 66592; 68808; 68808; 68808; 71112; 71112; 71112; 73712; 73712; 73712; 75376; 76208;
    76208; 78704; 78704; 78704; 81176; 81176; 81176; 81176; 84760; 84760; 84760; 84760; 87936; 87936; 87936;
    87936; 90816; 90816];
   [840; 1672; 2536; 3368; 4264; 5160; 5992; 6712; 7736; 8504; 9528; 10296; 11064; 11832; 12960; 13536; 14688;
    15264; 16416; 16992; 17568; 19080; 19848; 20616; 21384; 22152; 22920; 23688; 24496; 25456; 26416; 27376;
    28336; 29296; 29296; 30576; 31704; 32856; 32856; 34008; 35160; 35160; 36696; 37888; 37888; 39232; 40576;
    40576; 42368; 42368; 43816; 43816; 45352; 46888; 46888; 46888; 48936; 48936; 51024; 51024; 52752; 52752;
    52752; 55056; 55056; 57336; 57336; 57336; 59256; 59256; 61664; 61664; 61664; 63776; 63776; 63776; 66592;
    66592; 66592; 68808; 68808; 71112; 71112; 71112; 73712; 73712; 73712; 75376; 76208; 76208; 78704; 78704;
    78704; 81176; 81176; 81176; 84760; 84760; 84760; 84760; 87936; 87936; 87936; 87936; 90816; 90816; 90816;
    93800; 93800; 93800];
   [968; 1992; 2984; 4008; 4968; 5992; 6968; 7992; 8760; 9912; 10680; 11832; 12960; 13536; 14688; 15840; 16992;
    17568; 19080; 19848; 20616; 21384; 22920; 23688; 24496; 25456; 26416; 27376; 28336; 29296; 30576; 31704;
    32856; 34008; 35160; 35160; 36696; 37888; 39232; 39232; 40576; 40576; 42368; 43816; 43816; 45352; 46888;
    46888; 48936; 48936; 51024; 51024; 52752; 52752; 55056; 55056; 57336; 57336; 59256; 59256; 59256; 61664;
    61664; 63776; 63776; 63776; 66592; 66592; 68808; 68808; 71112; 71112; 71112; 73712; 75376; 76208; 76208;
    76208; 78704; 78704; 81176; 81176; 81176; 81176; 84760; 84760; 84760; 87936; 87936; 87936; 90816; 90816;
    90816; 93800; 93800; 93800; 93800; 97896; 97896; 97896; 97896; 97896; 97896; 97896; 97896; 97896; 97896;
    97896; 97896; 97896]].

Definition SRSRAN_RA_NOF_TBS_IDX : Z := 34.

(** ** Modulation and coding schemes *)

(** An element of a table, which is looked up inside of its bounds. *)
Definition entry (t : list Z) (i : Z) : Z := default 0 (t !! Z.to_nat i).

Definition srsran_ra_dl_tbs_idx_from_mcs (mcs : Z) (use_tbs_index_alt : bool) : Z :=
  if use_tbs_index_alt && (mcs <? 28) then entry dl_mcs_tbs_idx_table2 mcs
  else if negb use_tbs_index_alt && (mcs <? 29) then entry dl_mcs_tbs_idx_table mcs
  else SRSRAN_ERROR.

Definition srsran_ra_ul_tbs_idx_from_mcs (mcs : Z) : Z := if mcs <? 29 then entry ul_mcs_tbs_idx_table mcs else SRSRAN_ERROR.

Definition srsran_ra_tbs_idx_from_mcs (mcs : Z) (use_tbs_index_alt is_ul : bool) : Z :=
  if is_ul then srsran_ra_ul_tbs_idx_from_mcs mcs else srsran_ra_dl_tbs_idx_from_mcs mcs use_tbs_index_alt.

Definition srsran_ra_dl_mod_from_mcs (mcs : Z) (use_tbs_index_alt : bool) : srsran_mod_t :=
  if use_tbs_index_alt then
    if (mcs <? 5) || (mcs =? 28) then SRSRAN_MOD_QPSK
    else if (mcs <? 11) || (mcs =? 29) then SRSRAN_MOD_16QAM
    else if (mcs <? 20) || (mcs =? 30) then SRSRAN_MOD_64QAM
    else SRSRAN_MOD_256QAM
  else
    if (mcs <? 10) || (mcs =? 29) then SRSRAN_MOD_QPSK
    else if (mcs <? 17) || (mcs =? 30) then SRSRAN_MOD_16QAM
    else SRSRAN_MOD_64QAM.

Definition srsran_ra_ul_mod_from_mcs (mcs : Z) : srsran_mod_t :=
  if mcs <=? 10 then SRSRAN_MOD_QPSK else if mcs <=? 20 then SRSRAN_MOD_16QAM else if mcs <=? 28 then SRSRAN_MOD_64QAM else SRSRAN_MOD_BPSK.

(** The loops over the schemes downwards from [n - 1]. *)
Fixpoint mcs_downwards (t : list Z) (n : nat) (tbs_idx : Z) : Z :=
  match n with
  | O => SRSRAN_ERROR
  | S n => if tbs_idx =? entry t (Z.of_nat n) then Z.of_nat n else mcs_downwards t n tbs_idx
  end.

Definition srsran_ra_dl_mcs_from_tbs_idx (tbs_idx : Z) (use_tbs_index_alt : bool) : Z :=
  if use_tbs_index_alt then mcs_downwards dl_mcs_tbs_idx_table2 28 tbs_idx else mcs_downwards dl_mcs_tbs_idx_table 29 tbs_idx.

Definition srsran_ra_ul_mcs_from_tbs_idx (tbs_idx : Z) : Z := mcs_downwards ul_mcs_tbs_idx_table 29 tbs_idx.

Definition srsran_ra_mcs_from_tbs_idx (tbs_idx : Z) (use_tbs_index_alt is_ul : bool) : Z :=
  if is_ul then srsran_ra_ul_mcs_from_tbs_idx tbs_idx else srsran_ra_dl_mcs_from_tbs_idx tbs_idx use_tbs_index_alt.

Definition tbs_entry (tbs_idx n_prb : Z) : Z := entry (default [] (tbs_table !! Z.to_nat tbs_idx)) (n_prb - 1).

Definition srsran_ra_tbs_from_idx (tbs_idx n_prb : Z) : Z :=
  if (tbs_idx <? SRSRAN_RA_NOF_TBS_IDX) && (n_prb >? 0) && (n_prb <=? SRSRAN_MAX_PRB) then tbs_entry tbs_idx n_prb else SRSRAN_ERROR.

(** The loop downwards from [n - 1]. *)
Fixpoint tbs_downwards (n : nat) (tbs n_prb : Z) : Z :=
  match n with
  | O => SRSRAN_ERROR
  | S n => if tbs_entry (Z.of_nat n) n_prb <=? tbs then Z.of_nat n + 1 else tbs_downwards n tbs n_prb
  end.

Definition srsran_ra_tbs_to_table_idx (tbs n_prb max_tbs_idx : Z) : Z :=
  if (n_prb =? 0) || (n_prb >? SRSRAN_MAX_PRB) then SRSRAN_ERROR_INVALID_INPUTS
  else if tbs <? tbs_entry 0 n_prb then 0
  else tbs_downwards (Z.to_nat (max_tbs_idx + 1)) tbs n_prb.

(** ** Allocation of type 2 *)

Definition srsran_ra_type2_to_riv (L_crb RB_start nof_prb : Z) : Z :=
  if u32 (L_crb - 1) <=? nof_prb / 2 then u32 (nof_prb * (L_crb - 1) + RB_start)
  else u32 (nof_prb * (nof_prb - L_crb + 1) + nof_prb - 1 - RB_start).

(** [L_crb] and [RB_start]. *)
Definition srsran_ra_type2_from_riv (riv nof_prb nof_vrb : Z) : Z * Z :=
  let L_crb := u32 (riv / nof_prb + 1) in
  let RB_start := riv mod nof_prb in
  if L_crb >? u32 (nof_vrb - RB_start) then (u32 (nof_prb - riv / nof_prb + 1), u32 (nof_prb - riv mod nof_prb - 1))
  else (L_crb, RB_start).

Definition srsran_ra_type0_P (nof_prb : Z) : Z :=
  if nof_prb <=? 10 then 1 else if nof_prb <=? 26 then 2 else if nof_prb <=? 63 then 3 else 4.

Definition srsran_ra_type2_ngap (nof_prb : Z) (ngap_is_1 : bool) : Z :=
  if nof_prb <=? 10 then nof_prb / 2
  else if nof_prb =? 11 then 4
  else if nof_prb <=? 19 then 8
  else if nof_prb <=? 26 then 12
  else if nof_prb <=? 44 then 18
  else if nof_prb <=? 49 then 27
  else if nof_prb <=? 63 then (if ngap_is_1 then 27 else 9)
  else if nof_prb <=? 79 then (if ngap_is_1 then 32 else 16)
  else (if ngap_is_1 then 48 else 16).

Definition srsran_ra_type2_n_rb_step (nof_prb : Z) : Z := if nof_prb <? 50 then 2 else 4.

Definition srsran_ra_type2_n_vrb_dl (nof_prb : Z) (ngap_is_1 : bool) : Z :=
  let ngap := srsran_ra_type2_ngap nof_prb ngap_is_1 in
  if ngap_is_1 then 2 * (if ngap <? u32 (nof_prb - ngap) then ngap else u32 (nof_prb - ngap))
  else nof_prb / ngap * 2 * ngap.

(** ** Reference signals of MBSFN subframes: how many *)

Definition srsran_refsignal_mbsfn_nof_symbols (scs : srsran_scs_t) : Z := if decide (scs = SRSRAN_SCS_1KHZ25) then 1 else 3.
Definition srsran_refsignal_mbsfn_rs_per_symbol (scs : srsran_scs_t) : Z := if decide (scs = SRSRAN_SCS_1KHZ25) then 24 else 6.
Definition srsran_refsignal_mbsfn_rs_per_rb (scs : srsran_scs_t) : Z :=
  srsran_refsignal_mbsfn_nof_symbols scs * srsran_refsignal_mbsfn_rs_per_symbol scs.

(** ** Resource elements of a grant *)

(** Around the middle: the blocks with PBCH, PSS and SSS. *)
Definition middle_prb (cell : srsran_cell_t) (prb_idx : Z) : bool :=
  (prb_idx >=? u32 (nof_prb cell / 2 - 3)) && (prb_idx <? nof_prb cell / 2 + 3 + nof_prb cell mod 2).
Definition half_prb (cell : srsran_cell_t) (prb_idx : Z) : bool :=
  negb (nof_prb cell mod 2 =? 0) && ((prb_idx =? u32 (nof_prb cell / 2 - 3)) || (prb_idx =? nof_prb cell / 2 + 3)).

(** [re] and [skip_refs] after the adjustment of FDD. *)
Definition fdd_middle (cell : srsran_cell_t) (cp_ : srsran_cp_t) (subframe slot prb_idx nof_symbols nof_ctrl_symbols re : Z) : Z * bool :=
  if ((subframe =? 0) || (subframe =? 5)) && middle_prb cell prb_idx then
    let '(re, skip_refs) :=
      if subframe =? 0 then
        if slot =? 0 then (u32 ((nof_symbols - nof_ctrl_symbols - 2) * SRSRAN_NRE), true)
        else if decide (cp_ = SRSRAN_CP_EXT) then (u32 ((nof_symbols - 4) * SRSRAN_NRE), false)
        else (u32 ((nof_symbols - 4) * SRSRAN_NRE + 2 * nof_ports cell), true)
      else if slot =? 0 then (u32 ((nof_symbols - nof_ctrl_symbols - 2) * SRSRAN_NRE), true)
      else (re, true) in
    if half_prb cell prb_idx then
      if slot =? 0 then (u32 (re + 2 * SRSRAN_NRE / 2), skip_refs)
      else if subframe =? 0 then
        let re := u32 (re + 4 * SRSRAN_NRE / 2 - nof_ports cell) in
        (if decide (cp_ = SRSRAN_CP_EXT) then u32 (re - (if nof_ports cell >? 2 then 2 else nof_ports cell)) else re, skip_refs)
      else (re, skip_refs)
    else (re, skip_refs)
  else (re, true).

(** The same for TDD. *)
Definition tdd_middle (cell : srsran_cell_t) (cp_ : srsran_cp_t) (subframe slot prb_idx nof_symbols nof_ctrl_symbols re : Z) : Z * bool :=
  if (((subframe =? 0) || (subframe =? 5)) && (slot =? 1) || ((subframe =? 1) || (subframe =? 6)) && (slot =? 0)) && middle_prb cell prb_idx then
    let '(re, skip_refs) :=
      if subframe =? 0 then
        if decide (cp_ = SRSRAN_CP_EXT) then (u32 ((nof_symbols - 5) * SRSRAN_NRE), false)
        else (u32 ((nof_symbols - 5) * SRSRAN_NRE + 2 * nof_ports cell), true)
      else if subframe =? 5 then (u32 ((nof_symbols - 1) * SRSRAN_NRE), true)
      else (u32 ((nof_symbols - nof_ctrl_symbols - 1) * SRSRAN_NRE), true) in
    if half_prb cell prb_idx then
      let re := u32 (re + SRSRAN_NRE / 2) in
      if subframe =? 0 then
        let re := u32 (re + 4 * SRSRAN_NRE / 2 - nof_ports cell) in
        (if decide (cp_ = SRSRAN_CP_EXT) then u32 (re - (if nof_ports cell >? 2 then 2 else nof_ports cell)) else re, skip_refs)
      else (re, skip_refs)
    else (re, skip_refs)
  else (re, true).

(** The elements left when the cell specific reference signals are taken away. *)
Definition without_cs_refs (cell : srsran_cell_t) (cp_ : srsran_cp_t) (slot nof_symbols nof_ctrl_symbols re : Z) : Z :=
  let long := bool_decide (cp_ = SRSRAN_CP_NORM) && (nof_symbols >=? 5) || bool_decide (cp_ = SRSRAN_CP_EXT) && (nof_symbols >=? 4) in
  match nof_ports cell with
  | 1 | 2 =>
      if long then u32 (re - 2 * (slot + 1) * nof_ports cell)
      else if (slot =? 1) && (nof_symbols >=? 1) then u32 (re - 2 * nof_ports cell)
      else re
  | 4 =>
      if slot =? 1 then (if long then u32 (re - 12) else if nof_symbols >=? 2 then u32 (re - 8) else re)
      else if long then (if nof_ctrl_symbols =? 1 then u32 (re - 4 - 4) else u32 (re - 4))
      else re
  | _ => re
  end.

Definition ra_re_x_prb (cell : srsran_cell_t) (sf : srsran_dl_sf_cfg_t) (slot prb_idx : Z) : Z :=
  let subframe := sf_tti sf mod 10 in
  let nof_ctrl_symbols := SRSRAN_NOF_CTRL_SYMBOLS cell (sf_cfi sf) in
  let mbsfn := bool_decide (sf_type sf = SRSRAN_SF_MBSFN) in
  let scs := subcarrier_spacing sf in
  if mbsfn && negb (bool_decide (scs = SRSRAN_SCS_15KHZ)) then
    u32 (SRSRAN_NRE_SCS scs * SRSRAN_MBSFN_NOF_SYMBOLS scs - srsran_refsignal_mbsfn_rs_per_symbol scs * (slot + 1))
  else
    let cp_ := if mbsfn then SRSRAN_CP_EXT else cell_cp cell in
    let nof_symbols :=
      if bool_decide (frame_type cell = SRSRAN_TDD) && bool_decide (srsran_sfidx_tdd_type (tdd_config sf) subframe = SRSRAN_TDD_SF_S)
      then srsran_sfidx_tdd_nof_dw_slot (tdd_config sf) slot cp_ else SRSRAN_CP_NSYMB cp_ in
    let re := if slot =? 0 then u32 ((nof_symbols - nof_ctrl_symbols) * SRSRAN_NRE) else u32 (nof_symbols * SRSRAN_NRE) in
    let '(re, skip_refs) :=
      if decide (frame_type cell = SRSRAN_FDD)
      then fdd_middle cell cp_ subframe slot prb_idx nof_symbols nof_ctrl_symbols re
      else tdd_middle cell cp_ subframe slot prb_idx nof_symbols nof_ctrl_symbols re in
    if negb skip_refs then re
    else if mbsfn then u32 (re - 6 * (slot + 1))
    else without_cs_refs cell cp_ slot nof_symbols nof_ctrl_symbols re.

(** The grant; [tb] holds the two code words. *)
Record srsran_pdsch_grant_t := mk_grant {
  prb_idx : list (list bool);
  g_nof_prb : Z;
  g_nof_re : Z;
  nof_symb_slot : Z * Z;
  g_tb : list srsran_ra_tb_t;
  last_tbs : list Z;
  g_nof_tb : Z;
  g_nof_layers : Z
}.

Definition prb_used (g : srsran_pdsch_grant_t) (s j : Z) : bool := default false (prb_idx g !! Z.to_nat s ≫= (.!! Z.to_nat j)).

Definition srsran_ra_dl_grant_nof_re (cell : srsran_cell_t) (sf : srsran_dl_sf_cfg_t) (g : srsran_pdsch_grant_t) : Z :=
  let nof_slots := if decide (sf_type sf = SRSRAN_SF_MBSFN) then SRSRAN_MBSFN_NOF_SLOTS (subcarrier_spacing sf) else 2 in
  fold_left (fun nof_re s => fold_left (fun nof_re j =>
      if prb_used g s j then u32 (nof_re + ra_re_x_prb cell sf s j) else nof_re) (seqZ 0 (nof_prb cell)) nof_re)
    (seqZ 0 nof_slots) 0.

Definition symb_slots (cell : srsran_cell_t) (sf : srsran_dl_sf_cfg_t) : Z * Z :=
  let cp_ := if decide (sf_type sf = SRSRAN_SF_NORM) then cell_cp cell else SRSRAN_CP_EXT in
  let mbsfn := bool_decide (sf_type sf = SRSRAN_SF_MBSFN) in
  if decide (frame_type cell = SRSRAN_FDD) then
    if mbsfn && bool_decide (subcarrier_spacing sf = SRSRAN_SCS_1KHZ25) then (SRSRAN_CP_SCS_1KHZ25_NSYMB, 0)
    else if mbsfn && bool_decide (subcarrier_spacing sf = SRSRAN_SCS_7KHZ5) then (SRSRAN_CP_SCS_7KHZ5_NSYMB, SRSRAN_CP_SCS_7KHZ5_NSYMB)
    else (SRSRAN_CP_NSYMB cp_, SRSRAN_CP_NSYMB cp_)
  else if decide (srsran_sfidx_tdd_type (tdd_config sf) (sf_tti sf mod 10) = SRSRAN_TDD_SF_S) then
    (srsran_sfidx_tdd_nof_dw_slot (tdd_config sf) 0 cp_, srsran_sfidx_tdd_nof_dw_slot (tdd_config sf) 1 cp_)
  else (SRSRAN_CP_NSYMB cp_, SRSRAN_CP_NSYMB cp_).

Definition srsran_ra_dl_compute_nof_re (cell : srsran_cell_t) (sf : srsran_dl_sf_cfg_t) (g : srsran_pdsch_grant_t) : srsran_pdsch_grant_t :=
  let nof_re := srsran_ra_dl_grant_nof_re cell sf g in
  let bits tb :=
    if tb_enabled tb
    then mk_tb (tb_mod tb) (tb_tbs tb) (tb_rv tb) (u32 (nof_re * srsran_mod_bits_x_symbol (tb_mod tb))) (tb_enabled tb) (tb_mcs_idx tb)
    else tb in
  mk_grant (prb_idx g) (g_nof_prb g) nof_re (symb_slots cell sf) (map bits (g_tb g)) (last_tbs g) (g_nof_tb g) (g_nof_layers g).

(** The size of the block and the block with modulation and size. *)
Definition srsran_dl_fill_ra_mcs (tb : srsran_ra_tb_t) (last_tbs nprb : Z) (pdsch_use_tbs_index_alt : bool) : Z * srsran_ra_tb_t :=
  let mod_ := srsran_ra_dl_mod_from_mcs (tb_mcs_idx tb) pdsch_use_tbs_index_alt in
  let i_tbs := srsran_ra_tbs_idx_from_mcs (tb_mcs_idx tb) pdsch_use_tbs_index_alt false in
  let with_tbs tbs := mk_tb mod_ tbs (tb_rv tb) (tb_nof_bits tb) (tb_enabled tb) (tb_mcs_idx tb) in
  if i_tbs >=? 0 then let tbs := srsran_ra_tbs_from_idx i_tbs nprb in (tbs, with_tbs tbs)
  else (0, with_tbs last_tbs).

(** ** The soft buffer for the largest block *)

(** [None] is the error status. *)
Definition srsran_softbuffer_tx_init (malloc : Z -> list Z) (nof_prb : Z) : option srsran_softbuffer_tx_t :=
  let ret := srsran_ra_tbs_from_idx (SRSRAN_RA_NOF_TBS_IDX - 1) nof_prb in
  if ret =? SRSRAN_ERROR then None
  else Some (srsran_softbuffer_tx_init_guru malloc (ret / (SRSRAN_TCOD_MAX_LEN_CB - 24) + 1) SOFTBUFFER_SIZE).
