(* ===== verification/RaCorrect.v ===== *)
(** * Resource allocation: what the encoder relies on

    Every size of the table of transport blocks can be encoded, and the resource indication
    value of a contiguous allocation gives the allocation back. *)

From stdpp Require Import base list gmap numbers list_basics list_relations.
From S2P Require Import Prelude Float32 CbSegm RateMatch Sch SchCorrect PhyCommon Ra.

Local Open Scope Z_scope.

(** ** Transport blocks *)

Definition encodable (n_prb tbs : Z) : bool :=
  let '(ret, s) := srsran_cbsegm cbsegm_zero tbs in
  (tbs mod 8 =? 0) && (16 <=? tbs) && (tbs <? 2 ^ 17) && (ret =? 0) && (s_F s =? 0) && (s_C s <=? tbs_entry 33 n_prb / (SRSRAN_TCOD_MAX_LEN_CB - 24) + 1).

Lemma table_encodable : range_forallb 34 (fun i => range_forallb 110 (fun n => encodable (n + 1) (tbs_entry i (n + 1)))) = true.
Proof. vm_compute. reflexivity. Qed.

Lemma tbs_entry_encodable i n : 0 <= i < 34 -> 1 <= n <= 110 -> encodable n (tbs_entry i n) = true.
Proof.
  intros Hi Hn. pose proof (range_forallb_spec _ _ table_encodable i Hi) as H. cbv beta in H.
  pose proof (range_forallb_spec _ _ H (n - 1) ltac:(lia)) as H'. cbv beta in H'. by replace (n - 1 + 1) with n in H' by lia.
Qed.

Lemma tbs_from_idx_in i n : 0 <= i < 34 -> 1 <= n <= 110 -> srsran_ra_tbs_from_idx i n = tbs_entry i n.
Proof.
  intros Hi Hn. unfold srsran_ra_tbs_from_idx, SRSRAN_RA_NOF_TBS_IDX, SRSRAN_MAX_PRB.
  by rewrite (proj2 (Z.ltb_lt _ _)), (proj2 (Z.gtb_lt _ _)), (proj2 (Z.leb_le _ _)) by lia.
Qed.

(** What the encoder asks of a block, with a soft buffer of [max_cb] code blocks. *)
Definition block_fits (max_cb_ tbs : Z) : Prop :=
  tbs mod 8 = 0 /\ 16 <= tbs < 2 ^ 17 /\ exists s, srsran_cbsegm cbsegm_zero tbs = (0, s) /\ s_F s = 0 /\ s_C s <= max_cb_.

Lemma encodable_fits n tbs : encodable n tbs = true -> block_fits (tbs_entry 33 n / (SRSRAN_TCOD_MAX_LEN_CB - 24) + 1) tbs.
Proof.
  unfold encodable, block_fits. destruct (srsran_cbsegm cbsegm_zero tbs) as [ret s]. intros H. rewrite !andb_true_iff, !Z.eqb_eq, !Z.leb_le, Z.ltb_lt in H.
  destruct H as (((((H1 & H2) & H3) & ->) & H5) & H6). split_and!; [done|done|done|]. by exists s.
Qed.

Lemma softbuffer_tx_init_ok malloc n :
  1 <= n <= 110 -> exists sb, srsran_softbuffer_tx_init malloc n = Some sb /\ softbuffer_ok sb /\
    max_cb sb = tbs_entry 33 n / (SRSRAN_TCOD_MAX_LEN_CB - 24) + 1.
Proof.
  intros Hn. pose proof (tbs_entry_encodable 33 n ltac:(lia) Hn) as H. apply encodable_fits in H as (_ & H & _).
  unfold srsran_softbuffer_tx_init. cbv zeta. change (SRSRAN_RA_NOF_TBS_IDX - 1) with 33. rewrite tbs_from_idx_in by lia.
  destruct (Z.eqb_spec (tbs_entry 33 n) SRSRAN_ERROR) as [E|_]; [unfold SRSRAN_ERROR in E; lia|].
  eexists. split; [done|]. split; [|done]. apply softbuffer_init_ok; [|vm_compute; congruence].
  pose proof (Z.div_pos (tbs_entry 33 n) (SRSRAN_TCOD_MAX_LEN_CB - 24)). unfold SRSRAN_TCOD_MAX_LEN_CB in *. lia.
Qed.

(** The sizes of the schemes. *)
Lemma mcs_tbs_idx mcs alt : 0 <= mcs < (if alt : bool then 28 else 29) -> 0 <= srsran_ra_tbs_idx_from_mcs mcs alt false < 34.
Proof.
  intros H. set (f := fun alt mcs => (0 <=? srsran_ra_tbs_idx_from_mcs mcs alt false) && (srsran_ra_tbs_idx_from_mcs mcs alt false <? 34)).
  assert (E : f alt mcs = true).
  { destruct alt; [apply (range_forallb_spec 28 (f true))|apply (range_forallb_spec 29 (f false))]; done || by vm_compute. }
  unfold f in E. apply andb_true_iff in E as [E1 E2]. lia.
Qed.

Lemma fill_ra_mcs_in tb last n alt :
  0 <= tb_mcs_idx tb < (if alt : bool then 28 else 29) -> 1 <= n <= 110 ->
  let tbs := tbs_entry (srsran_ra_tbs_idx_from_mcs (tb_mcs_idx tb) alt false) n in
  srsran_dl_fill_ra_mcs tb last n alt =
    (tbs, mk_tb (srsran_ra_dl_mod_from_mcs (tb_mcs_idx tb) alt) tbs (tb_rv tb) (tb_nof_bits tb) (tb_enabled tb) (tb_mcs_idx tb)).
Proof.
  intros Hm Hn tbs. pose proof (mcs_tbs_idx _ _ Hm) as Hi. unfold srsran_dl_fill_ra_mcs. rewrite tbs_from_idx_in by done.
  fold tbs. destruct (Z.geb_spec (srsran_ra_tbs_idx_from_mcs (tb_mcs_idx tb) alt false) 0); [done|lia].
Qed.

(** C11: every modulation and coding scheme gives an encodable block.  For each allocation of 1 to 110
    resource blocks the soft buffer of the transmitter can be made, and every scheme of the two
    tables that is not reserved gives a transport block of whole bytes that is cut into code
    blocks without filler bits, not more of them than the soft buffer has room for: the encoder
    refuses none of them.  The reserved schemes keep the size of the last block, and a soft
    buffer for more or fewer resource blocks is refused. *)
Theorem mcs_gives_encodable_block malloc n_prb :
  (1 <= n_prb <= 110 -> exists sb, srsran_softbuffer_tx_init malloc n_prb = Some sb /\ softbuffer_ok sb /\
    forall tb last alt, 0 <= tb_mcs_idx tb < (if alt : bool then 28 else 29) ->
      let '(tbs, tb') := srsran_dl_fill_ra_mcs tb last n_prb alt in
      tb_tbs tb' = tbs /\ block_fits (max_cb sb) tbs) /\
  (forall tb last alt, (if alt : bool then 28 else 29) <= tb_mcs_idx tb ->
    tb_tbs (snd (srsran_dl_fill_ra_mcs tb last n_prb alt)) = last) /\
  (n_prb <= 0 \/ 110 < n_prb -> srsran_softbuffer_tx_init malloc n_prb = None).
Proof.
  split_and!.
  - intros Hn. destruct (softbuffer_tx_init_ok malloc n_prb Hn) as (sb & E & Hok & Hm). exists sb. split_and!; [done|done|].
    intros tb last alt Hmcs. rewrite (fill_ra_mcs_in tb last n_prb alt Hmcs Hn). cbn [tb_tbs]. split; [done|]. rewrite Hm.
    apply encodable_fits, tbs_entry_encodable; [by apply mcs_tbs_idx|done].
  - intros tb last alt H. unfold srsran_dl_fill_ra_mcs, srsran_ra_tbs_idx_from_mcs, srsran_ra_dl_tbs_idx_from_mcs.
    destruct alt; cbn [andb negb]; rewrite (proj2 (Z.ltb_ge _ _) H); done.
  - intros Hn. unfold srsran_softbuffer_tx_init, srsran_ra_tbs_from_idx, SRSRAN_MAX_PRB. cbn [Z.sub SRSRAN_RA_NOF_TBS_IDX].
    destruct (Z.gtb_spec n_prb 0), (Z.leb_spec n_prb 110); try lia; rewrite ?andb_false_r; done.
Qed.

(** Scheme 20 with 25 resource blocks: 64QAM, 9912 bits, two code blocks. *)
Lemma mcs_gives_encodable_block_witness :
  exists sb tb', srsran_softbuffer_tx_init (fun n => replicate (Z.to_nat n) 0) 25 = Some sb /\
    srsran_dl_fill_ra_mcs (mk_tb SRSRAN_MOD_BPSK 0 0 0 true 20) 0 25 false = (9912, tb') /\ block_fits (max_cb sb) 9912.
Proof.
  destruct (proj1 (mcs_gives_encodable_block (fun n => replicate (Z.to_nat n) 0) 25) ltac:(lia)) as (sb & E & _ & H).
  exists sb, (mk_tb SRSRAN_MOD_64QAM 9912 0 0 true 20). split; [exact E|]. split; [by vm_compute|].
  exact (proj2 (H (mk_tb SRSRAN_MOD_BPSK 0 0 0 true 20) 0 false ltac:(cbn; lia))).
Defined.

(** ** Contiguous allocations *)

(** The resource indication value of [L] blocks from [s] on gives both back. *)
Lemma riv_roundtrip L s n :
  1 <= L -> 0 <= s -> s + L <= n -> n <= 110 -> srsran_ra_type2_from_riv (srsran_ra_type2_to_riv L s n) n n = (L, s).
Proof.
  intros HL Hs Hn H110. unfold srsran_ra_type2_to_riv. rewrite (u32_id (L - 1)) by (unfold is_u32; lia).
  assert (Dm : forall q r, 0 <= r < n -> (r + q * n) / n = q /\ (r + q * n) mod n = r).
  { intros q r Hr. rewrite Z.div_add, Z.mod_add, Z.div_small, Z.mod_small by lia. lia. }
  destruct (Z.leb_spec (L - 1) (n / 2)) as [H|H]; unfold srsran_ra_type2_from_riv.
  - replace (n * (L - 1) + s) with (s + (L - 1) * n) by lia. rewrite (u32_id (s + _)) by (unfold is_u32; nia).
    destruct (Dm (L - 1) s ltac:(lia)) as [-> ->]. rewrite !u32_id by (unfold is_u32; lia).
    destruct (Z.gtb_spec (L - 1 + 1) (n - s)); [lia|]. f_equal. lia.
  - replace (n * (n - L + 1) + n - 1 - s) with ((n - 1 - s) + (n - L + 1) * n) by lia. rewrite (u32_id (n - 1 - s + _)) by (unfold is_u32; nia).
    destruct (Dm (n - L + 1) (n - 1 - s) ltac:(lia)) as [-> ->]. rewrite !u32_id by (unfold is_u32; lia).
    destruct (Z.gtb_spec (n - L + 1 + 1) (n - (n - 1 - s))); [f_equal; lia|lia].
Qed.
