(* ===== verification/MbsfnGrid.v ===== *)
(** * The resource grid of an MBSFN subframe

    Where the symbols of a PMCH and the reference signals go: the copies of [lib/src/phy/phch/prb_dl.c]
    and [pmch.c], the reference signals of MBSFN subframes of [lib/src/phy/ch_estimation/refsignal_dl.c].

    An array of samples is a list; an access outside of it gives [None].  A pointer into an array
    is its index. *)

From stdpp Require Import base list gmap numbers list_basics list_relations.
From S2P Require Import Prelude CbSegm RateMatch PhyCommon Ra.

Local Open Scope Z_scope.

(** ** Arrays and loops *)

Section arrays.
Context {A : Type}.

Definition cell_at (m : list A) (i : Z) : option A := if i <? 0 then None else m !! Z.to_nat i.

Definition put_cell (m : list A) (i : Z) (x : A) : option (list A) :=
  if (i <? 0) || (zlen m <=? i) then None else Some (<[Z.to_nat i := x]> m).

(** [memcpy] of [n] samples. *)
Definition copy_cells (dst : list A) (dp : Z) (src : list A) (sp n : Z) : option (list A) :=
  if (dp <? 0) || (sp <? 0) || (n <? 0) || (zlen dst <? dp + n) || (zlen src <? sp + n) then None
  else Some (ztake dp dst ++ ztake n (zdrop sp src) ++ zdrop (dp + n) dst).

End arrays.

(** [for (i = from; i < from + n; i++)]. *)
Fixpoint for_loop {S} (n : nat) (from : Z) (body : Z -> S -> option S) (st : S) : option S :=
  match n with
  | O => Some st
  | S n => st' ← body from st; for_loop n (from + 1) body st'
  end.

(** ** Copies of resource blocks *)

Section prb_dl.
Context {A : Type}.

(** The output array and the two pointers. *)
Record prb_ptrs := mk_ptrs { p_out : list A; in_ptr : Z; out_ptr : Z }.

Definition cp_run (input : list A) (n : Z) (st : prb_ptrs) : option prb_ptrs :=
  output ← copy_cells (p_out st) (out_ptr st) input (in_ptr st) n;
  Some (mk_ptrs output (in_ptr st + n) (out_ptr st + n)).

Definition skip_ref (advance_output : bool) (st : prb_ptrs) : prb_ptrs :=
  if advance_output then mk_ptrs (p_out st) (in_ptr st) (out_ptr st + 1) else mk_ptrs (p_out st) (in_ptr st + 1) (out_ptr st).

Definition prb_cp_ref_scs (input : list A) (st : prb_ptrs) (offset nof_refs nof_intervals : Z) (advance_output : bool) (scs : srsran_scs_t) :
    option prb_ptrs :=
  let ref_interval := SRSRAN_NRE_SCS scs / nof_refs - 1 in
  st ← cp_run input offset st;
  st ← for_loop (Z.to_nat (nof_intervals - 1)) 0 (fun _ st => cp_run input ref_interval (skip_ref advance_output st)) st;
  if ref_interval - offset >? 0 then cp_run input (ref_interval - offset) (skip_ref advance_output st) else Some st.

Definition prb_cp_ref (input : list A) (st : prb_ptrs) (offset nof_refs nof_intervals : Z) (advance_output : bool) : option prb_ptrs :=
  prb_cp_ref_scs input st offset nof_refs nof_intervals advance_output SRSRAN_SCS_15KHZ.

Definition prb_cp_scs (input : list A) (st : prb_ptrs) (nof_prb : Z) (scs : srsran_scs_t) : option prb_ptrs :=
  cp_run input (SRSRAN_NRE_SCS scs * nof_prb) st.

Definition prb_cp (input : list A) (st : prb_ptrs) (nof_prb : Z) : option prb_ptrs := prb_cp_scs input st nof_prb SRSRAN_SCS_15KHZ.

Definition prb_cp_half (input : list A) (st : prb_ptrs) (nof_prb : Z) : option prb_ptrs := cp_run input (SRSRAN_NRE * nof_prb / 2) st.

Definition prb_put_ref_ (input : list A) (st : prb_ptrs) (offset nof_refs nof_intervals : Z) : option prb_ptrs :=
  prb_cp_ref input st offset nof_refs nof_intervals false.

Definition prb_get_ref_ (input : list A) (st : prb_ptrs) (offset nof_refs nof_intervals : Z) : option prb_ptrs :=
  prb_cp_ref input st offset nof_refs nof_intervals true.

End prb_dl.

Arguments prb_ptrs : clear implicits.

(** ** Reference signals *)

Definition srsran_refsignal_cs_v (port_id ref_symbol_idx : Z) : Z :=
  match port_id with
  | 0 => if ref_symbol_idx mod 2 =? 0 then 0 else 3
  | 1 => if ref_symbol_idx mod 2 =? 0 then 3 else 0
  | 2 => if ref_symbol_idx =? 0 then 0 else 3
  | 3 => if ref_symbol_idx =? 0 then 3 else 0
  | _ => 0
  end.

Definition srsran_refsignal_cs_nsymbol (l : Z) (cp : srsran_cp_t) (port_id : Z) : Z :=
  if port_id <? 2 then
    if negb (l mod 2 =? 0) then (l / 2 + 1) * SRSRAN_CP_NSYMB cp - 3 else l / 2 * SRSRAN_CP_NSYMB cp
  else 1 + l * SRSRAN_CP_NSYMB cp.

Definition srsran_symbols_per_mbsfn_subframe (scs : srsran_scs_t) : Z :=
  match scs with SRSRAN_SCS_15KHZ => 6 | SRSRAN_SCS_7KHZ5 => 3 | SRSRAN_SCS_1KHZ25 => 1 end.

Definition srsran_refsignal_mbsfn_fidx (l : Z) (scs : srsran_scs_t) : Z :=
  match scs with
  | SRSRAN_SCS_15KHZ => if l =? 0 then 0 else if l =? 1 then 1 else 0
  | SRSRAN_SCS_7KHZ5 => if l =? 0 then 0 else if l =? 1 then 2 else 0
  | SRSRAN_SCS_1KHZ25 => 0
  end.

Definition srsran_refsignal_mbsfn_offset (l s sf : Z) (scs : srsran_scs_t) : Z :=
  match scs with
  | SRSRAN_SCS_15KHZ => if (s =? 1) && (l =? 0) then 1 else 0
  | SRSRAN_SCS_7KHZ5 => if (s =? 1) && (l =? 0) then 2 else 0
  | SRSRAN_SCS_1KHZ25 => if negb (sf mod 2 =? 0) then 3 else 0
  end.

Definition srsran_refsignal_mbsfn_nsymbol (l : Z) (scs : srsran_scs_t) : Z :=
  match scs with
  | SRSRAN_SCS_15KHZ => if l =? 0 then 2 else if l =? 1 then 6 else if l =? 2 then 10 else 0
  | SRSRAN_SCS_7KHZ5 => if l =? 0 then 1 else if l =? 1 then 3 else if l =? 2 then 5 else 0
  | SRSRAN_SCS_1KHZ25 => 0
  end.

Definition SRSRAN_REFSIGNAL_PILOT_IDX (i l : Z) (cell : srsran_cell_t) : Z := 2 * nof_prb cell * l + i.
Definition SRSRAN_REFSIGNAL_PILOT_IDX_MBSFN (i l : Z) (cell : srsran_cell_t) (scs : srsran_scs_t) : Z :=
  srsran_refsignal_mbsfn_rs_per_symbol scs * nof_prb cell * l + i.

(** The first resource element of a row of reference signals. *)
Definition mbsfn_first_fidx (l : Z) (scs : srsran_scs_t) (sf_idx : Z) : Z :=
  if decide (scs = SRSRAN_SCS_1KHZ25) then (if sf_idx mod 2 =? 0 then 0 else 3) else srsran_refsignal_mbsfn_fidx l scs.

Section refsignal.
Context {A : Type}.

(** [n] samples of [src] from [sp] on to [dst], [dp], [dp + step], ... *)
Definition spread (n : Z) (dst : list A) (dp step : Z) (src : list A) (sp : Z) : option (list A) :=
  for_loop (Z.to_nat n) 0 (fun i dst => x ← cell_at src (sp + i); put_cell dst (dp + i * step) x) dst.

(** The other way round. *)
Definition collect (n : Z) (dst : list A) (dp : Z) (src : list A) (sp step : Z) : option (list A) :=
  for_loop (Z.to_nat n) 0 (fun i dst => x ← cell_at src (sp + i * step); put_cell dst (dp + i) x) dst.

(** The status and the grid. *)
Definition srsran_refsignal_mbsfn_put_sf (cell : srsran_cell_t) (port_id : Z) (cs_pilots mbsfn_pilots sf_symbols : list A)
    (scs : srsran_scs_t) (sf_idx : Z) : option (Z * list A) :=
  if srsran_cell_isvalid cell && srsran_portid_isvalid port_id then
    sf_symbols ←
      (if decide (scs = SRSRAN_SCS_15KHZ) then
        let fidx := (srsran_refsignal_cs_v port_id 0 + cell_id cell mod 6) mod 6 in
        spread (2 * nof_prb cell) sf_symbols (SRSRAN_RE_IDX (nof_prb cell) 0 fidx) (SRSRAN_NRE / 2) cs_pilots (SRSRAN_REFSIGNAL_PILOT_IDX 0 0 cell)
      else Some sf_symbols);
    sf_symbols ← for_loop (Z.to_nat (srsran_refsignal_mbsfn_nof_symbols scs)) 0 (fun l sf_symbols =>
      spread (srsran_refsignal_mbsfn_rs_per_symbol scs * nof_prb cell) sf_symbols
        (SRSRAN_RE_IDX_MBSFN (nof_prb cell) (srsran_refsignal_mbsfn_nsymbol l scs) (mbsfn_first_fidx l scs sf_idx) scs)
        (SRSRAN_NRE_SCS scs / srsran_refsignal_mbsfn_rs_per_symbol scs) mbsfn_pilots (SRSRAN_REFSIGNAL_PILOT_IDX_MBSFN 0 l cell scs)) sf_symbols;
    Some (0, sf_symbols)
  else Some (SRSRAN_ERROR_INVALID_INPUTS, sf_symbols).

(** The status and the array of reference signals. *)
Definition srsran_refsignal_mbsfn_get_sf (cell : srsran_cell_t) (port_id : Z) (sf_symbols pilots : list A) (scs : srsran_scs_t) (sf_idx : Z) :
    option (Z * list A) :=
  if srsran_cell_isvalid cell && srsran_portid_isvalid port_id then
    pilots ←
      (if decide (scs = SRSRAN_SCS_15KHZ) then
        let nsymbol := srsran_refsignal_cs_nsymbol 0 (cell_cp cell) port_id in
        let fidx := (srsran_refsignal_cs_v port_id 0 + cell_id cell mod 6) mod 6 in
        collect (2 * nof_prb cell) pilots (SRSRAN_REFSIGNAL_PILOT_IDX 0 0 cell) sf_symbols (SRSRAN_RE_IDX (nof_prb cell) nsymbol fidx) (SRSRAN_NRE / 2)
      else Some pilots);
    let nonmbsfn_offset := if decide (scs = SRSRAN_SCS_15KHZ) then 2 * nof_prb cell else 0 in
    pilots ← for_loop (Z.to_nat (srsran_refsignal_mbsfn_nof_symbols scs)) 0 (fun l pilots =>
      collect (srsran_refsignal_mbsfn_rs_per_symbol scs * nof_prb cell) pilots (SRSRAN_REFSIGNAL_PILOT_IDX_MBSFN 0 l cell scs + nonmbsfn_offset)
        sf_symbols (SRSRAN_RE_IDX_MBSFN (nof_prb cell) (srsran_refsignal_mbsfn_nsymbol l scs) (mbsfn_first_fidx l scs sf_idx) scs)
        (SRSRAN_NRE_SCS scs / srsran_refsignal_mbsfn_rs_per_symbol scs)) pilots;
    Some (0, pilots)
  else Some (SRSRAN_ERROR_INVALID_INPUTS, pilots).

(** ** The channel *)

(** One resource block in the symbol [l] of the slot [s]. *)
Definition pmch_cp_prb (nof_prb : Z) (input : list A) (lstart_grant : Z) (put : bool) (scs : srsran_scs_t) (sf s l n : Z)
    (st : prb_ptrs A) : option (prb_ptrs A) :=
  let nof_refs := srsran_refsignal_mbsfn_rs_per_symbol scs in
  let lstart := if s =? 0 then lstart_grant else 0 in
  let lend := SRSRAN_MBSFN_NOF_SYMBOLS scs in
  let lp := l + s * SRSRAN_MBSFN_NOF_SYMBOLS scs in
  let at_ := (lp * nof_prb + n) * SRSRAN_NRE_SCS scs in
  let st := if put then mk_ptrs (p_out st) (in_ptr st) at_ else mk_ptrs (p_out st) at_ (out_ptr st) in
  if (l >=? lstart) && (l <? lend) then
    if SRSRAN_SYMBOL_HAS_REF_MBSFN_SCS l s scs
    then prb_cp_ref_scs input st (srsran_refsignal_mbsfn_offset l s sf scs) nof_refs nof_refs put scs
    else prb_cp_scs input st 1 scs
  else Some st.

(** The number of symbols and the output. *)
Definition pmch_cp (nof_prb : Z) (input output : list A) (lstart_grant : Z) (put : bool) (scs : srsran_scs_t) (sf : Z) : option (Z * list A) :=
  st ← for_loop (Z.to_nat (SRSRAN_MBSFN_NOF_SLOTS scs)) 0 (fun s =>
      for_loop (Z.to_nat (SRSRAN_MBSFN_NOF_SYMBOLS scs)) 0 (fun l =>
        for_loop (Z.to_nat nof_prb) 0 (pmch_cp_prb nof_prb input lstart_grant put scs sf s l))) (mk_ptrs output 0 0);
  Some (Z.abs (if put then 0 - in_ptr st else 0 - out_ptr st), p_out st).

Definition pmch_put (nof_prb : Z) (symbols sf_symbols : list A) (scs : srsran_scs_t) (lstart sf : Z) : option (Z * list A) :=
  pmch_cp nof_prb symbols sf_symbols lstart true scs sf.

Definition pmch_get (nof_prb : Z) (sf_symbols symbols : list A) (lstart : Z) (scs : srsran_scs_t) (sf : Z) : option (Z * list A) :=
  pmch_cp nof_prb sf_symbols symbols lstart false scs sf.

End refsignal.
