(* ===== verification/MbsfnGridCorrect.v ===== *)
(** * The grid of an MBSFN subframe is used exactly

    The copies of the channel and of the reference signals are described by a mask over the grid:
    [scatter] writes a list to the marked cells in order, [gather] reads them.  The cells of the
    channel and the cells of the reference signals are complementary masks. *)

From stdpp Require Import base list gmap numbers list_basics list_relations.
From S2P Require Import Prelude CbSegm RateMatch PhyCommon Ra MbsfnGrid.

Local Open Scope Z_scope.

(** ** Masks *)

Fixpoint count (m : list bool) : Z :=
  match m with
  | [] => 0
  | b :: m => b2z b + count m
  end.

Lemma count_app m1 m2 : count (m1 ++ m2) = count m1 + count m2.
Proof. induction m1 as [|b m1 IH]; cbn; [lia|]. rewrite IH. lia. Qed.

Lemma count_bounds m : 0 <= count m <= zlen m.
Proof. induction m as [|b m IH]; cbn; [done|]. rewrite zlen_cons. destruct b; cbn; lia. Qed.

Lemma count_replicate n b : count (replicate n b) = b2z b * Z.of_nat n.
Proof. induction n as [|n IH]; cbn [replicate count]; [lia|]. rewrite IH. lia. Qed.

Lemma count_negb m : count (map negb m) = zlen m - count m.
Proof. induction m as [|b m IH]; cbn; [done|]. rewrite IH, zlen_cons. destruct b; cbn; lia. Qed.

Section masks.
Context {A : Type}.
Implicit Types (m : list bool) (x c : list A).

Fixpoint gather (m : list bool) (c : list A) : list A :=
  match m, c with
  | b :: m, a :: c => if b then a :: gather m c else gather m c
  | _, _ => []
  end.

Fixpoint scatter (m : list bool) (x c : list A) : list A :=
  match m, c with
  | b :: m, a :: c =>
      if b then match x with [] => a :: c | y :: x => y :: scatter m x c end
      else a :: scatter m x c
  | _, _ => c
  end.

Lemma zlen_scatter m x c : zlen (scatter m x c) = zlen c.
Proof. revert x c. induction m as [|b m IH]; intros x [|a c]; cbn; try done. destruct b; [destruct x|]; rewrite ?zlen_cons, ?IH; done. Qed.

Lemma scatter_app m1 m2 x1 x2 c1 c2 :
  zlen c1 = zlen m1 -> zlen x1 = count m1 -> scatter (m1 ++ m2) (x1 ++ x2) (c1 ++ c2) = scatter m1 x1 c1 ++ scatter m2 x2 c2.
Proof.
  revert x1 c1. induction m1 as [|b m1 IH]; intros x1 c1 Hc Hx.
  - apply zlen_0 in Hc as ->. by apply zlen_0 in Hx as ->.
  - destruct c1 as [|a c1]; [rewrite zlen_nil, zlen_cons in Hc; pose proof (zlen_nonneg m1); lia|]. rewrite !zlen_cons in Hc.
    cbn in Hx |- *. destruct b; cbn in Hx |- *; [|by rewrite IH by lia].
    destruct x1 as [|y x1]; [rewrite zlen_nil in Hx; pose proof (count_bounds m1); lia|]. rewrite zlen_cons in Hx. cbn. by rewrite IH by lia.
Qed.

Lemma gather_app m1 m2 c1 c2 : zlen c1 = zlen m1 -> gather (m1 ++ m2) (c1 ++ c2) = gather m1 c1 ++ gather m2 c2.
Proof.
  revert c1. induction m1 as [|b m1 IH]; intros c1 Hc; [by apply zlen_0 in Hc as ->|].
  destruct c1 as [|a c1]; [rewrite zlen_nil, zlen_cons in Hc; pose proof (zlen_nonneg m1); lia|]. rewrite !zlen_cons in Hc.
  cbn. destruct b; cbn; by rewrite IH by lia.
Qed.

Lemma zlen_gather m c : zlen m <= zlen c -> zlen (gather m c) = count m.
Proof.
  revert c. induction m as [|b m IH]; intros c Hc; [done|]. destruct c as [|a c]; [rewrite zlen_nil, zlen_cons in Hc; pose proof (zlen_nonneg m); lia|].
  rewrite !zlen_cons in Hc. cbn. destruct b; rewrite ?zlen_cons, IH by lia; cbn; lia.
Qed.

(** What is written is read back, and nothing else is changed. *)
Lemma gather_scatter m x c : zlen m <= zlen c -> count m <= zlen x -> gather m (scatter m x c) = ztake (count m) x.
Proof.
  revert x c. induction m as [|b m IH]; intros x c Hc Hx; [done|]. destruct c as [|a c]; [rewrite zlen_nil, zlen_cons in Hc; pose proof (zlen_nonneg m); lia|].
  rewrite !zlen_cons in Hc. cbn in Hx |- *. destruct b; cbn in Hx |- *; [|by rewrite IH by lia].
  destruct x as [|y x]; [rewrite zlen_nil in Hx; pose proof (count_bounds m); lia|]. rewrite zlen_cons in Hx. cbn. rewrite IH by lia.
  unfold ztake. pose proof (count_bounds m). by replace (Z.to_nat (1 + count m)) with (S (Z.to_nat (count m))) by lia.
Qed.

Lemma gather_scatter_other m x c : gather (map negb m) (scatter m x c) = gather (map negb m) c.
Proof. revert x c. induction m as [|b m IH]; intros x [|a c]; cbn; try done. destruct b; [destruct x|]; cbn; by rewrite ?IH. Qed.

Lemma zdrop_scatter m x c n : zlen m <= n -> zdrop n (scatter m x c) = zdrop n c.
Proof.
  revert x c n. induction m as [|b m IH]; intros x [|a c] n Hn; cbn; try done. rewrite zlen_cons in Hn. pose proof (zlen_nonneg m).
  unfold zdrop in *. replace (Z.to_nat n) with (S (Z.to_nat (n - 1))) by lia. destruct b; [destruct x|]; cbn; try done; apply IH; lia.
Qed.

(** The marked cells before and the cells after. *)
Lemma scatter_split m x c :
  zlen m <= zlen c -> count m <= zlen x -> scatter m x c = scatter m (ztake (count m) x) (ztake (zlen m) c) ++ zdrop (zlen m) c.
Proof.
  intros Hc Hx. pose proof (count_bounds m) as Hb. pose proof (scatter_app m [] (ztake (count m) x) (zdrop (count m) x) (ztake (zlen m) c) (zdrop (zlen m) c)) as E.
  rewrite app_nil_r, !ztake_zdrop in E. rewrite E by (rewrite zlen_ztake; lia). done.
Qed.

Lemma scatter_more m m' x c :
  zlen m + zlen m' <= zlen c -> count m + count m' <= zlen x ->
  scatter (m ++ m') x c = ztake (zlen m) (scatter m x c) ++ scatter m' (zdrop (count m) x) (zdrop (zlen m) c).
Proof.
  intros Hc Hx. pose proof (count_bounds m) as Hb. pose proof (count_bounds m') as Hb'.
  pose proof (scatter_app m m' (ztake (count m) x) (zdrop (count m) x) (ztake (zlen m) c) (zdrop (zlen m) c)) as E.
  rewrite !ztake_zdrop in E. rewrite E by (rewrite zlen_ztake; lia). f_equal. rewrite (scatter_split m x c) by lia.
  rewrite ztake_app_eq; [done|]. rewrite zlen_scatter. apply zlen_ztake. lia.
Qed.

Lemma scatter_all n x c : Z.of_nat n <= zlen x -> Z.of_nat n <= zlen c -> scatter (replicate n true) x c = ztake (Z.of_nat n) x ++ zdrop (Z.of_nat n) c.
Proof.
  revert x c. induction n as [|n IH]; intros x c Hx Hc; [done|].
  destruct x as [|y x]; [rewrite zlen_nil in Hx; lia|]. destruct c as [|a c]; [rewrite zlen_nil in Hc; lia|]. rewrite zlen_cons in Hx, Hc.
  cbn [replicate scatter]. rewrite IH by lia. unfold ztake, zdrop. by replace (Z.to_nat (Z.of_nat (S n))) with (S (Z.to_nat (Z.of_nat n))) by lia.
Qed.

Lemma scatter_none n x c : scatter (replicate n false) x c = c.
Proof. revert c. induction n as [|n IH]; intros [|a c]; cbn; [done..|]. by rewrite IH. Qed.

Lemma scatter_then_none m n x c : count m <= zlen x -> scatter (m ++ replicate n false) x c = scatter m x c.
Proof.
  revert x c. induction m as [|b m IH]; intros x c Hx; [apply scatter_none|]. destruct c as [|a c]; [by destruct m|]. cbn in Hx |- *.
  destruct b; cbn in Hx; [|by rewrite IH by lia]. destruct x as [|y x]; [done|]. rewrite zlen_cons in Hx. by rewrite IH by lia.
Qed.

Lemma gather_all n c : gather (replicate n true) c = take n c.
Proof. revert c. induction n as [|n IH]; intros [|a c]; cbn; [done..|]. by rewrite IH. Qed.

Lemma gather_none n c : gather (replicate n false) c = [].
Proof. revert c. induction n as [|n IH]; intros [|a c]; cbn; auto. Qed.

Lemma gather_more m m' c : zlen m <= zlen c -> gather (m ++ m') c = gather m c ++ gather m' (zdrop (zlen m) c).
Proof.
  intros Hc. pose proof (gather_app m m' (ztake (zlen m) c) (zdrop (zlen m) c)) as E1. pose proof (gather_app m [] (ztake (zlen m) c) (zdrop (zlen m) c)) as E2.
  rewrite app_nil_r, ztake_zdrop in E2. rewrite ztake_zdrop in E1. rewrite E1, E2 by (rewrite zlen_ztake; pose proof (zlen_nonneg m); lia).
  by rewrite app_nil_r.
Qed.

End masks.

(** ** Loops *)

Lemma for_loop_inv {S} (I : Z -> S -> Prop) n from body st :
  I from st -> (forall i st, from <= i < from + Z.of_nat n -> I i st -> exists st', body i st = Some st' /\ I (i + 1) st') ->
  exists st', for_loop n from body st = Some st' /\ I (from + Z.of_nat n) st'.
Proof.
  revert from st. induction n as [|n IH]; intros from st Hst Hb; cbn [for_loop].
  - exists st. by rewrite Z.add_0_r.
  - destruct (Hb from st ltac:(lia) Hst) as (st1 & -> & H1). cbn [mbind option_bind].
    destruct (IH (from + 1) st1 H1) as (st2 & E2 & H2); [intros i st' Hi; apply Hb; lia|].
    exists st2. split; [done|]. by replace (from + Z.of_nat (Datatypes.S n)) with (from + 1 + Z.of_nat n) by lia.
Qed.

(** ** Copies, in both directions *)

Lemma zdrop_behind {A} (l o : list A) a n : zlen l = a -> 0 <= n -> zdrop (a + n) (l ++ zdrop a o) = zdrop (a + n) o.
Proof.
  intros <- Hn. rewrite (Z.add_comm (zlen l) n). pose proof (zlen_nonneg l). rewrite <- !zdrop_zdrop by lia. by rewrite zdrop_app_eq.
Qed.

Section copies.
Context {A : Type} (put : bool) (input output : list A).

(** What has been copied when the cells of [m] have been visited. *)
Definition progress (m : list bool) (st : prb_ptrs A) : Prop :=
  if put then p_out st = scatter m input output /\ in_ptr st = count m
  else p_out st = gather m input ++ zdrop (count m) output /\ out_ptr st = count m.

(** The pointer into the grid. *)
Definition grid_ptr (st : prb_ptrs A) : Z := if put then out_ptr st else in_ptr st.

Definition room (m : list bool) : Prop :=
  if put then zlen m <= zlen output /\ count m <= zlen input else zlen m <= zlen input /\ count m <= zlen output.

Lemma room_prefix m m' : room (m ++ m') -> room m.
Proof. unfold room. rewrite zlen_app, count_app. pose proof (zlen_nonneg m'). pose proof (count_bounds m'). destruct put; lia. Qed.

Lemma run_step m n st :
  progress m st -> grid_ptr st = zlen m -> 0 <= n -> room (m ++ replicate (Z.to_nat n) true) ->
  exists st', cp_run input n st = Some st' /\ progress (m ++ replicate (Z.to_nat n) true) st' /\ grid_ptr st' = zlen (m ++ replicate (Z.to_nat n) true).
Proof.
  intros Hp Hg Hn Hr. unfold room in Hr. unfold progress in *. unfold grid_ptr in *. rewrite zlen_app, count_app, count_replicate in Hr. rewrite zlen_app.
  assert (Hl : zlen (replicate (Z.to_nat n) true) = n) by (unfold zlen; rewrite length_replicate; lia). rewrite Hl in Hr |- *.
  change (b2z true) with 1 in Hr. replace (1 * Z.of_nat (Z.to_nat n)) with n in Hr by lia. pose proof (count_bounds m) as Hb. unfold cp_run, copy_cells.
  assert (Hc : count (m ++ replicate (Z.to_nat n) true) = count m + n) by (rewrite count_app, count_replicate; cbn; lia).
  destruct put; destruct Hp as [Ho Hi]; rewrite Ho, Hi, Hg.
  - rewrite zlen_scatter. destruct (Z.ltb_spec (zlen m) 0); [lia|]. destruct (Z.ltb_spec (count m) 0); [lia|]. destruct (Z.ltb_spec n 0); [lia|].
    destruct (Z.ltb_spec (zlen output) (zlen m + n)); [lia|]. destruct (Z.ltb_spec (zlen input) (count m + n)); [lia|]. cbn [orb mbind option_bind].
    eexists. split; [done|]. cbn [p_out in_ptr out_ptr]. split; [|done]. split; [|lia].
    rewrite (scatter_more m) by (rewrite ?Hl, ?count_replicate; cbn; lia). f_equal.
    rewrite scatter_all by (rewrite zlen_zdrop; lia). rewrite Z2Nat.id by lia. f_equal.
    rewrite zdrop_scatter, zdrop_zdrop by lia. f_equal. lia.
  - rewrite zlen_app, zlen_gather, zlen_zdrop by lia. destruct (Z.ltb_spec (count m) 0); [lia|]. destruct (Z.ltb_spec (zlen m) 0); [lia|].
    destruct (Z.ltb_spec n 0); [lia|]. destruct (Z.ltb_spec (count m + (zlen output - count m)) (count m + n)); [lia|].
    destruct (Z.ltb_spec (zlen input) (zlen m + n)); [lia|]. cbn [orb mbind option_bind].
    eexists. split; [done|]. cbn [p_out in_ptr out_ptr]. split; [|done]. split; [|lia].
    rewrite ztake_app_eq by (apply zlen_gather; lia). rewrite gather_more by lia. rewrite gather_all, Hc, <- app_assoc. f_equal. f_equal.
    apply zdrop_behind; [|lia]. apply zlen_gather. lia.
Qed.

(** Cells that are passed over. *)
Lemma pass_over m n st : progress m st -> room m -> progress (m ++ replicate n false) st.
Proof.
  unfold progress, room. intros Hp Hr. rewrite count_app, count_replicate. cbn [b2z]. rewrite Z.mul_0_l, Z.add_0_r.
  destruct put; destruct Hp as [Ho Hi]; rewrite Ho.
  - by rewrite scatter_then_none by lia.
  - rewrite gather_more by lia. by rewrite gather_none, app_nil_r.
Qed.

Lemma skip_step m st :
  progress m st -> grid_ptr st = zlen m -> room m -> progress (m ++ [false]) (skip_ref put st) /\ grid_ptr (skip_ref put st) = zlen (m ++ [false]).
Proof.
  intros Hp Hg Hr. pose proof (pass_over m 1 st Hp Hr) as H. rewrite zlen_app. unfold grid_ptr, skip_ref, progress in *. change (zlen [false]) with 1. change (replicate 1 false) with [false] in H.
  destruct put; cbn [p_out in_ptr out_ptr]; (split; [exact H|lia]).
Qed.

End copies.

(** ** Resource blocks *)

Definition marks (b : bool) (n : Z) : list bool := replicate (Z.to_nat n) b.

(** [step] cells with a reference signal at [off]. *)
Definition ref_block (off step : Z) : list bool := marks true off ++ false :: marks true (step - 1 - off).

Definition ref_row (k : nat) (off step : Z) : list bool := mjoin (replicate k (ref_block off step)).

Lemma zlen_marks b n : 0 <= n -> zlen (marks b n) = n.
Proof. intros Hn. unfold zlen, marks. rewrite length_replicate. lia. Qed.

Lemma marks_app b n k : 0 <= n -> 0 <= k -> marks b n ++ marks b k = marks b (n + k).
Proof. intros Hn Hk. unfold marks. rewrite <- replicate_add. f_equal. lia. Qed.

Lemma mjoin_first {X} (i : nat) (x : list X) : mjoin (replicate (S i) x) = x ++ mjoin (replicate i x).
Proof. done. Qed.

Lemma mjoin_snoc {X} (i : nat) (x : list X) : mjoin (replicate (S i) x) = mjoin (replicate i x) ++ x.
Proof. induction i as [|i IH]; [apply app_nil_r|]. rewrite mjoin_first, IH at 1. by rewrite mjoin_first, app_assoc. Qed.

(** The order of the source: a run, then a skipped cell before each other run. *)
Lemma ref_row_runs k off ri :
  0 <= off <= ri -> ref_row (S k) off (ri + 1) = marks true off ++ mjoin (replicate k (false :: marks true ri)) ++ false :: marks true (ri - off).
Proof.
  intros Ho. unfold ref_row, ref_block. replace (ri + 1 - 1 - off) with (ri - off) by lia. induction k as [|k IH]; [apply app_nil_r|].
  rewrite mjoin_first, IH, <- app_assoc. f_equal. rewrite mjoin_first. cbn [app]. f_equal.
  rewrite !app_assoc, marks_app by lia. replace (ri - off + off) with ri by lia. done.
Qed.

Section blocks.
Context {A : Type} (put : bool) (input output : list A).
Local Abbreviation progress := (progress put input output).
Local Abbreviation room := (room put input output).
Local Abbreviation grid_ptr := (grid_ptr put).

Lemma skip_run m n st :
  progress m st -> grid_ptr st = zlen m -> 0 <= n -> room (m ++ false :: marks true n) ->
  exists st', cp_run input n (skip_ref put st) = Some st' /\ progress (m ++ false :: marks true n) st' /\ grid_ptr st' = zlen (m ++ false :: marks true n).
Proof.
  intros Hp Hg Hn Hr. destruct (skip_step put input output m st Hp Hg (room_prefix _ _ _ _ _ Hr)) as [Hp' Hg'].
  replace (m ++ false :: marks true n) with ((m ++ [false]) ++ marks true n) in Hr |- * by (by rewrite <- app_assoc). by apply run_step.
Qed.

Lemma ref_runs m k n st :
  progress m st -> grid_ptr st = zlen m -> 0 <= n -> room (m ++ mjoin (replicate k (false :: marks true n))) ->
  exists st', for_loop k 0 (fun _ st => cp_run input n (skip_ref put st)) st = Some st' /\
    progress (m ++ mjoin (replicate k (false :: marks true n))) st' /\ grid_ptr st' = zlen (m ++ mjoin (replicate k (false :: marks true n))).
Proof.
  intros Hp Hg Hn Hr. set (M := fun i => m ++ mjoin (replicate (Z.to_nat i) (false :: marks true n))).
  destruct (for_loop_inv (fun i st => progress (M i) st /\ grid_ptr st = zlen (M i)) k 0 (fun _ st => cp_run input n (skip_ref put st)) st) as (st' & E & H).
  - unfold M. cbn. by rewrite app_nil_r.
  - intros i sti Hi [Hpi Hgi]. destruct (skip_run (M i) n sti Hpi Hgi Hn) as (st1 & E1 & H1).
    + replace (M i ++ false :: marks true n) with (M (i + 1)); [|unfold M; replace (Z.to_nat (i + 1)) with (S (Z.to_nat i)) by lia; by rewrite mjoin_snoc, app_assoc].
      unfold M. replace k with (Z.to_nat (i + 1) + (k - Z.to_nat (i + 1)))%nat in Hr by lia. rewrite replicate_add, join_app, app_assoc in Hr.
      by apply room_prefix in Hr.
    + exists st1. split; [done|]. unfold M in *. replace (Z.to_nat (i + 1)) with (S (Z.to_nat i)) by lia. rewrite mjoin_snoc, app_assoc. exact H1.
  - exists st'. split; [done|]. unfold M in H. rewrite Z.add_0_l, Nat2Z.id in H. exact H.
Qed.

(** A resource block with reference signals. *)
Lemma prb_ref_step m off k scs st :
  let step := SRSRAN_NRE_SCS scs / Z.of_nat (S k) in
  progress m st -> grid_ptr st = zlen m -> 0 <= off < step -> room (m ++ ref_row (S k) off step) ->
  exists st', prb_cp_ref_scs input st off (Z.of_nat (S k)) (Z.of_nat (S k)) put scs = Some st' /\ progress (m ++ ref_row (S k) off step) st'.
Proof.
  intros step Hp Hg Ho Hr. unfold prb_cp_ref_scs. fold step. replace (Z.to_nat (Z.of_nat (S k) - 1)) with k by lia.
  set (ri := step - 1). assert (Est : step = ri + 1) by lia. rewrite Est, ref_row_runs in Hr |- * by lia. rewrite !app_assoc in Hr.
  pose proof (room_prefix _ _ _ _ _ Hr) as Hr2. pose proof (room_prefix _ _ _ _ _ Hr2) as Hr1.
  destruct (run_step put input output m off st Hp Hg ltac:(lia) Hr1) as (st1 & E1 & Hp1 & Hg1). rewrite E1. cbn [mbind option_bind].
  destruct (ref_runs (m ++ marks true off) k ri st1 Hp1 Hg1 ltac:(lia) Hr2) as (st2 & E2 & Hp2 & Hg2). rewrite E2. cbn [mbind option_bind].
  rewrite !app_assoc. rewrite Z.gtb_ltb. destruct (Z.ltb_spec 0 (ri - off)) as [Hlt|Hge].
  - destruct (skip_run _ (ri - off) st2 Hp2 Hg2 ltac:(lia) Hr) as (st3 & E3 & Hp3 & _). by exists st3.
  - exists st2. split; [done|]. replace (ri - off) with 0 by lia. exact (pass_over put input output _ 1 st2 Hp2 Hr2).
Qed.

End blocks.

(** ** The whole subframe *)

(** The cells of one resource block that carry the channel. *)
Definition prb_mask (scs : srsran_scs_t) (sf lstart_grant s l : Z) : list bool :=
  let refs := srsran_refsignal_mbsfn_rs_per_symbol scs in
  if l <? (if s =? 0 then lstart_grant else 0) then marks false (SRSRAN_NRE_SCS scs)
  else if SRSRAN_SYMBOL_HAS_REF_MBSFN_SCS l s scs
  then ref_row (Z.to_nat refs) (srsran_refsignal_mbsfn_offset l s sf scs) (SRSRAN_NRE_SCS scs / refs)
  else marks true (SRSRAN_NRE_SCS scs).

Definition tiled {X} (f : Z -> list X) (n : Z) : list X := mjoin (map f (seqZ 0 n)).

Definition row_mask (scs : srsran_scs_t) (nof_prb sf lstart s l : Z) : list bool := tiled (fun _ => prb_mask scs sf lstart s l) nof_prb.
Definition slot_mask (scs : srsran_scs_t) (nof_prb sf lstart s : Z) : list bool :=
  tiled (row_mask scs nof_prb sf lstart s) (SRSRAN_MBSFN_NOF_SYMBOLS scs).
Definition data_mask (scs : srsran_scs_t) (nof_prb sf lstart : Z) : list bool :=
  tiled (slot_mask scs nof_prb sf lstart) (SRSRAN_MBSFN_NOF_SLOTS scs).

(** Resource elements of a subframe. *)
Definition grid_size (scs : srsran_scs_t) (nof_prb : Z) : Z :=
  SRSRAN_MBSFN_NOF_SLOTS scs * SRSRAN_MBSFN_NOF_SYMBOLS scs * nof_prb * SRSRAN_NRE_SCS scs.

Lemma tiled_snoc {X} (f : Z -> list X) n : 0 <= n -> tiled f (n + 1) = tiled f n ++ f n.
Proof.
  intros Hn. unfold tiled. rewrite seqZ_app by lia. rewrite map_app, join_app, Z.add_0_l. f_equal. rewrite seqZ_cons by lia. apply app_nil_r.
Qed.

Lemma tiled_prefix {X} (f : Z -> list X) i n : 0 <= i < n -> exists r, tiled f n = (tiled f i ++ f i) ++ r.
Proof.
  intros Hi. rewrite <- tiled_snoc by lia. exists (mjoin (map f (seqZ (i + 1) (n - (i + 1))))). unfold tiled.
  rewrite <- join_app, <- map_app. replace n with (i + 1 + (n - (i + 1))) at 1 by lia. rewrite seqZ_app by lia. by rewrite Z.add_0_l.
Qed.

Lemma zlen_tiled {X} (f : Z -> list X) n k : 0 <= n -> (forall i, 0 <= i < n -> zlen (f i) = k) -> zlen (tiled f n) = n * k.
Proof.
  intros Hn. pattern n. apply natlike_ind; [done| |done]. clear n Hn. intros n Hn IH Hf. change (Z.succ n) with (n + 1).
  rewrite tiled_snoc, zlen_app, IH, Hf by (try lia; intros; apply Hf; lia). lia.
Qed.

Lemma count_tiled f n k : 0 <= n -> (forall i, 0 <= i < n -> count (f i) = k) -> count (tiled f n) = n * k.
Proof.
  intros Hn. pattern n. apply natlike_ind; [done| |done]. clear n Hn. intros n Hn IH Hf. change (Z.succ n) with (n + 1).
  rewrite tiled_snoc, count_app, IH, Hf by (try lia; intros; apply Hf; lia). lia.
Qed.

Definition ref_step (scs : srsran_scs_t) : Z := match scs with SRSRAN_SCS_15KHZ => 2 | SRSRAN_SCS_7KHZ5 => 4 | SRSRAN_SCS_1KHZ25 => 6 end.

Lemma ref_step_eq scs : SRSRAN_NRE_SCS scs / srsran_refsignal_mbsfn_rs_per_symbol scs = ref_step scs.
Proof. by destruct scs. Qed.

Lemma refs_in_prb scs : srsran_refsignal_mbsfn_rs_per_symbol scs * ref_step scs = SRSRAN_NRE_SCS scs /\ 0 < srsran_refsignal_mbsfn_rs_per_symbol scs.
Proof. by destruct scs. Qed.

Lemma offset_range l s sf scs : 0 <= srsran_refsignal_mbsfn_offset l s sf scs < SRSRAN_NRE_SCS scs / srsran_refsignal_mbsfn_rs_per_symbol scs.
Proof. rewrite ref_step_eq. unfold srsran_refsignal_mbsfn_offset, ref_step. destruct scs; repeat case_match; lia. Qed.

Lemma zlen_ref_row k off step : 0 <= off < step -> zlen (ref_row k off step) = Z.of_nat k * step.
Proof.
  intros Ho. unfold ref_row. induction k as [|k IH]; [done|]. rewrite mjoin_first, zlen_app, IH. unfold ref_block. rewrite zlen_app, zlen_cons, !zlen_marks by lia. lia.
Qed.

Lemma count_marks b n : 0 <= n -> count (marks b n) = b2z b * n.
Proof. intros Hn. unfold marks. by rewrite count_replicate, Z2Nat.id. Qed.

Lemma count_ref_row k off step : 0 <= off < step -> count (ref_row k off step) = Z.of_nat k * (step - 1).
Proof.
  intros Ho. unfold ref_row. induction k as [|k IH]; [done|]. rewrite mjoin_first, count_app, IH. unfold ref_block. rewrite count_app. cbn [count].
  rewrite !count_marks by lia. cbn [b2z]. lia.
Qed.

Lemma scs_pos scs : 0 < SRSRAN_NRE_SCS scs /\ 0 < SRSRAN_MBSFN_NOF_SYMBOLS scs /\ 0 < SRSRAN_MBSFN_NOF_SLOTS scs.
Proof. by destruct scs. Qed.

Lemma zlen_prb_mask scs sf lstart s l : zlen (prb_mask scs sf lstart s l) = SRSRAN_NRE_SCS scs.
Proof.
  unfold prb_mask. destruct (_ <? _); [apply zlen_marks; pose proof (scs_pos scs); lia|]. destruct (SRSRAN_SYMBOL_HAS_REF_MBSFN_SCS _ _ _); [|apply zlen_marks; pose proof (scs_pos scs); lia].
  rewrite zlen_ref_row by apply offset_range. by destruct scs.
Qed.

Lemma zlen_row_mask scs nof_prb sf lstart s l : 0 <= nof_prb -> zlen (row_mask scs nof_prb sf lstart s l) = nof_prb * SRSRAN_NRE_SCS scs.
Proof. intros Hn. apply zlen_tiled; [done|]. intros. apply zlen_prb_mask. Qed.

Lemma zlen_slot_mask scs nof_prb sf lstart s :
  0 <= nof_prb -> zlen (slot_mask scs nof_prb sf lstart s) = SRSRAN_MBSFN_NOF_SYMBOLS scs * (nof_prb * SRSRAN_NRE_SCS scs).
Proof. intros Hn. apply zlen_tiled; [pose proof (scs_pos scs); lia|]. intros. by apply zlen_row_mask. Qed.

Lemma zlen_data_mask scs nof_prb sf lstart : 0 <= nof_prb -> zlen (data_mask scs nof_prb sf lstart) = grid_size scs nof_prb.
Proof.
  intros Hn. unfold data_mask, grid_size. rewrite (zlen_tiled _ _ (SRSRAN_MBSFN_NOF_SYMBOLS scs * (nof_prb * SRSRAN_NRE_SCS scs))); [lia|pose proof (scs_pos scs); lia|].
  intros. by apply zlen_slot_mask.
Qed.

Section subframe.
Context {A : Type} (put : bool) (input output : list A) (scs : srsran_scs_t) (nof_prb sf lstart : Z).
Hypothesis Hprb : 0 <= nof_prb.
Local Abbreviation progress := (progress put input output).
Local Abbreviation room := (room put input output).

(** One resource block. *)
Lemma cp_prb_step s l n m st :
  l < SRSRAN_MBSFN_NOF_SYMBOLS scs -> progress m st -> zlen m = ((l + s * SRSRAN_MBSFN_NOF_SYMBOLS scs) * nof_prb + n) * SRSRAN_NRE_SCS scs ->
  room (m ++ prb_mask scs sf lstart s l) ->
  exists st', pmch_cp_prb nof_prb input lstart put scs sf s l n st = Some st' /\ progress (m ++ prb_mask scs sf lstart s l) st'.
Proof.
  intros Hl Hp Hm Hr. unfold pmch_cp_prb. rewrite <- Hm. unfold prb_mask in *. set (ls := if s =? 0 then lstart else 0) in *.
  set (st1 := if put then _ else _). assert (Hp1 : progress m st1 /\ grid_ptr put st1 = zlen m).
  { unfold st1, MbsfnGridCorrect.progress, grid_ptr in *. by destruct put. }
  destruct Hp1 as [Hp1 Hg1]. rewrite Z.geb_leb. destruct (Z.ltb_spec l ls) as [Hlt|Hge].
  - rewrite (proj2 (Z.leb_gt _ _)) by lia. cbn [andb]. exists st1. split; [done|]. apply pass_over; [done|]. by apply room_prefix in Hr.
  - rewrite (proj2 (Z.leb_le _ _)), (proj2 (Z.ltb_lt _ _)) by lia. cbn [andb]. destruct (SRSRAN_SYMBOL_HAS_REF_MBSFN_SCS l s scs).
    + pose proof (refs_in_prb scs) as [_ Hpos]. destruct (Z.to_nat (srsran_refsignal_mbsfn_rs_per_symbol scs)) as [|k] eqn:Ek; [lia|].
      pose proof (offset_range l s sf scs) as Ho. replace (srsran_refsignal_mbsfn_rs_per_symbol scs) with (Z.of_nat (S k)) in * by lia.
      by apply prb_ref_step.
    + unfold prb_cp_scs. rewrite Z.mul_1_r. destruct (run_step put input output m (SRSRAN_NRE_SCS scs) st1 Hp1 Hg1) as (st2 & E2 & Hp2 & _); [pose proof (scs_pos scs); lia|exact Hr|].
      by exists st2.
Qed.

Lemma cp_row_step s l m st :
  l < SRSRAN_MBSFN_NOF_SYMBOLS scs -> progress m st -> zlen m = (l + s * SRSRAN_MBSFN_NOF_SYMBOLS scs) * nof_prb * SRSRAN_NRE_SCS scs ->
  room (m ++ row_mask scs nof_prb sf lstart s l) ->
  exists st', for_loop (Z.to_nat nof_prb) 0 (pmch_cp_prb nof_prb input lstart put scs sf s l) st = Some st' /\ progress (m ++ row_mask scs nof_prb sf lstart s l) st'.
Proof.
  intros Hl Hp Hm Hr. unfold row_mask in *. set (f := fun _ : Z => prb_mask scs sf lstart s l) in *.
  destruct (for_loop_inv (fun n st => progress (m ++ tiled f n) st) (Z.to_nat nof_prb) 0 (pmch_cp_prb nof_prb input lstart put scs sf s l) st) as (st' & E & H).
  - by rewrite app_nil_r.
  - intros n sti Hn Hpi. rewrite tiled_snoc, app_assoc by lia. apply cp_prb_step; [done|done| |].
    + rewrite zlen_app, Hm, (zlen_tiled f n (SRSRAN_NRE_SCS scs)); [lia|lia|]. intros. apply zlen_prb_mask.
    + destruct (tiled_prefix f n nof_prb ltac:(lia)) as (r & Er). rewrite Er, !app_assoc in Hr. by apply room_prefix in Hr.
  - exists st'. split; [done|]. by rewrite Z.add_0_l, Z2Nat.id in H by lia.
Qed.

Lemma cp_slot_step s m st :
  progress m st -> zlen m = s * SRSRAN_MBSFN_NOF_SYMBOLS scs * nof_prb * SRSRAN_NRE_SCS scs -> room (m ++ slot_mask scs nof_prb sf lstart s) ->
  exists st', for_loop (Z.to_nat (SRSRAN_MBSFN_NOF_SYMBOLS scs)) 0 (fun l =>
      for_loop (Z.to_nat nof_prb) 0 (pmch_cp_prb nof_prb input lstart put scs sf s l)) st = Some st' /\ progress (m ++ slot_mask scs nof_prb sf lstart s) st'.
Proof.
  intros Hp Hm Hr. unfold slot_mask in *. set (f := row_mask scs nof_prb sf lstart s) in *.
  assert (HN : 0 <= SRSRAN_MBSFN_NOF_SYMBOLS scs) by (pose proof (scs_pos scs); lia).
  destruct (for_loop_inv (fun l st => progress (m ++ tiled f l) st) (Z.to_nat (SRSRAN_MBSFN_NOF_SYMBOLS scs)) 0 (fun l =>
      for_loop (Z.to_nat nof_prb) 0 (pmch_cp_prb nof_prb input lstart put scs sf s l)) st) as (st' & E & H).
  - by rewrite app_nil_r.
  - intros l sti Hl Hpi. rewrite tiled_snoc, app_assoc by lia. apply cp_row_step; [lia|done| |].
    + rewrite zlen_app, Hm, (zlen_tiled f l (nof_prb * SRSRAN_NRE_SCS scs)); [lia|lia|]. intros. by apply zlen_row_mask.
    + destruct (tiled_prefix f l (SRSRAN_MBSFN_NOF_SYMBOLS scs) ltac:(lia)) as (r & Er). rewrite Er, !app_assoc in Hr. by apply room_prefix in Hr.
  - exists st'. split; [done|]. by rewrite Z.add_0_l, Z2Nat.id in H by lia.
Qed.

Lemma pmch_cp_spec :
  room (data_mask scs nof_prb sf lstart) ->
  pmch_cp nof_prb input output lstart put scs sf =
    Some (count (data_mask scs nof_prb sf lstart),
      if put then scatter (data_mask scs nof_prb sf lstart) input output
      else gather (data_mask scs nof_prb sf lstart) input ++ zdrop (count (data_mask scs nof_prb sf lstart)) output).
Proof.
  intros Hr. unfold pmch_cp. assert (HN : 0 <= SRSRAN_MBSFN_NOF_SLOTS scs) by (pose proof (scs_pos scs); lia).
  set (f := slot_mask scs nof_prb sf lstart).
  destruct (for_loop_inv (fun s st => progress (tiled f s) st) (Z.to_nat (SRSRAN_MBSFN_NOF_SLOTS scs)) 0 (fun s => for_loop (Z.to_nat (SRSRAN_MBSFN_NOF_SYMBOLS scs)) 0 (fun l =>
      for_loop (Z.to_nat nof_prb) 0 (pmch_cp_prb nof_prb input lstart put scs sf s l))) (mk_ptrs output 0 0)) as (st' & E & H).
  - unfold MbsfnGridCorrect.progress. destruct put; by destruct output.
  - intros s sti Hs Hpi. rewrite tiled_snoc by lia. apply cp_slot_step; [done| |].
    + rewrite (zlen_tiled f s (SRSRAN_MBSFN_NOF_SYMBOLS scs * (nof_prb * SRSRAN_NRE_SCS scs))); [lia|lia|]. intros. by apply zlen_slot_mask.
    + unfold data_mask in Hr. fold f in Hr. destruct (tiled_prefix f s (SRSRAN_MBSFN_NOF_SLOTS scs) ltac:(lia)) as (r & Er). rewrite Er in Hr. by apply room_prefix in Hr.
  - rewrite Z.add_0_l, Z2Nat.id in H by lia. rewrite E. cbn [mbind option_bind]. unfold data_mask. fold f.
    pose proof (count_bounds (tiled f (SRSRAN_MBSFN_NOF_SLOTS scs))) as Hb. unfold MbsfnGridCorrect.progress in H.
    destruct put; destruct H as [-> ->]; do 2 f_equal; lia.
Qed.

End subframe.

(** ** Reference signals *)

(** [n] times [step] cells, a marked one at [off] of each. *)
Definition pilot_row (n off step : Z) : list bool := map negb (ref_row (Z.to_nat n) off step).

Lemma map_negb_marks b n : map negb (marks b n) = marks (negb b) n.
Proof. unfold marks. induction (Z.to_nat n) as [|k IH]; cbn; [done|]. by rewrite IH. Qed.

Lemma pilot_row_snoc n off step : 0 <= n -> pilot_row (n + 1) off step = pilot_row n off step ++ marks false off ++ true :: marks false (step - 1 - off).
Proof.
  intros Hn. unfold pilot_row, ref_row. replace (Z.to_nat (n + 1)) with (S (Z.to_nat n)) by lia. rewrite mjoin_snoc, map_app. f_equal.
  unfold ref_block. rewrite map_app. cbn [map negb]. by rewrite !map_negb_marks.
Qed.

Lemma zlen_pilot_row n off step : 0 <= n -> 0 <= off < step -> zlen (pilot_row n off step) = n * step.
Proof. intros Hn Ho. unfold pilot_row, zlen. rewrite length_map. fold (zlen (ref_row (Z.to_nat n) off step)). by rewrite zlen_ref_row, Z2Nat.id by done. Qed.

Lemma count_pilot_row n off step : 0 <= n -> 0 <= off < step -> count (pilot_row n off step) = n.
Proof. intros Hn Ho. unfold pilot_row. rewrite count_negb, zlen_ref_row, count_ref_row, Z2Nat.id by done. lia. Qed.

Section pilots.
Context {A : Type} (src grid : list A).

Lemma put_one M off step :
  0 <= off < step -> zlen M + step <= zlen grid -> count M < zlen src ->
  exists x, cell_at src (count M) = Some x /\
    put_cell (scatter M src grid) (zlen M + off) x = Some (scatter (M ++ marks false off ++ true :: marks false (step - 1 - off)) src grid).
Proof.
  intros Ho Hg Hs. pose proof (count_bounds M) as Hb. assert (Hx : is_Some (src !! Z.to_nat (count M))) by (apply lookup_lt_is_Some; unfold zlen in Hs; lia).
  destruct Hx as [x Hx]. exists x. unfold cell_at. rewrite (proj2 (Z.ltb_ge _ _)) by lia. split; [done|].
  unfold put_cell. rewrite zlen_scatter, (proj2 (Z.ltb_ge _ _)), (proj2 (Z.leb_gt _ _)) by lia. cbn [orb]. f_equal.
  set (M' := M ++ marks false off). assert (Hc' : count M' = count M) by (unfold M'; rewrite count_app, count_marks by lia; cbn; lia).
  assert (Hz' : zlen M' = zlen M + off) by (unfold M'; rewrite zlen_app, zlen_marks by lia; done).
  replace (M ++ marks false off ++ true :: marks false (step - 1 - off)) with ((M' ++ [true]) ++ marks false (step - 1 - off)) by (unfold M'; by rewrite <- !app_assoc).
  unfold marks at 1. rewrite scatter_then_none by (rewrite count_app, Hc'; cbn; lia).
  assert (E' : scatter M' src grid = scatter M src grid) by (unfold M', marks; apply scatter_then_none; lia).
  assert (Hz1 : zlen M' + zlen [true] <= zlen grid) by (rewrite Hz'; change (zlen [true]) with 1; lia).
  assert (Hc1 : count M' + count [true] <= zlen src) by (rewrite Hc'; cbn; lia). rewrite (scatter_more M' [true] src grid Hz1 Hc1), E', Hc', Hz'.
  assert (Ez : zdrop (count M) src = x :: zdrop (count M + 1) src) by (unfold zdrop; replace (Z.to_nat (count M + 1)) with (S (Z.to_nat (count M))) by lia; by apply drop_S).
  rewrite Ez. destruct (zdrop (zlen M + off) grid) as [|a rest] eqn:Eg; [apply (f_equal zlen) in Eg; rewrite zlen_zdrop, zlen_nil in Eg by lia; lia|].
  cbn [scatter]. rewrite insert_take_drop by (pose proof (zlen_scatter M src grid) as Hl; unfold zlen in *; lia). unfold ztake. f_equal. f_equal.
  pose proof (zdrop_scatter M src grid (zlen M + off + 1) ltac:(lia)) as E2. unfold zdrop in E2, Eg. replace (Z.to_nat (zlen M + off + 1)) with (S (Z.to_nat (zlen M + off))) in E2 by lia.
  rewrite E2. apply (f_equal (drop 1)) in Eg. rewrite drop_drop, Nat.add_comm in Eg. exact Eg.
Qed.

Lemma spread_step M n off step :
  0 <= off < step -> 0 <= n -> zlen M + n * step <= zlen grid -> count M + n <= zlen src ->
  spread n (scatter M src grid) (zlen M + off) step src (count M) = Some (scatter (M ++ pilot_row n off step) src grid).
Proof.
  intros Ho Hn Hg Hs. unfold spread.
  destruct (for_loop_inv (fun i dst => dst = scatter (M ++ pilot_row i off step) src grid) (Z.to_nat n) 0
    (fun i dst => x ← cell_at src (count M + i); put_cell dst (zlen M + off + i * step) x) (scatter M src grid)) as (dst & E & H).
  - by rewrite app_nil_r.
  - intros i dst Hi ->. destruct (put_one (M ++ pilot_row i off step) off step Ho) as (x & Ex & Ep).
    + rewrite zlen_app, zlen_pilot_row by lia. nia.
    + rewrite count_app, count_pilot_row by lia. lia.
    + rewrite zlen_app, zlen_pilot_row in Ep by lia. rewrite count_app, count_pilot_row in Ex by lia. rewrite Ex. cbn [mbind option_bind].
      replace (zlen M + off + i * step) with (zlen M + i * step + off) by lia. rewrite Ep. eexists. split; [done|]. by rewrite pilot_row_snoc, <- app_assoc by lia.
  - rewrite E, H. by rewrite Z.add_0_l, Z2Nat.id by lia.
Qed.

End pilots.

(** ** The masks of the three spacings *)

Lemma tiled_const {X} (x : list X) n : 0 <= n -> tiled (fun _ => x) n = mjoin (replicate (Z.to_nat n) x).
Proof.
  intros Hn. pattern n. apply natlike_ind; [done| |done]. clear n Hn. intros n Hn IH. change (Z.succ n) with (n + 1). rewrite tiled_snoc, IH by lia.
  replace (Z.to_nat (n + 1)) with (S (Z.to_nat n)) by lia. by rewrite mjoin_snoc.
Qed.

Lemma ref_rows n k off step : 0 <= n -> tiled (fun _ => ref_row k off step) n = ref_row (Z.to_nat n * k) off step.
Proof.
  intros Hn. rewrite tiled_const by done. unfold ref_row. induction (Z.to_nat n) as [|i IH]; [done|]. rewrite mjoin_first, IH.
  change (S i * k)%nat with (k + i * k)%nat. by rewrite replicate_add, join_app.
Qed.

Lemma mark_rows n b k : 0 <= n -> 0 <= k -> tiled (fun _ => marks b k) n = marks b (n * k).
Proof.
  intros Hn Hk. pattern n. apply natlike_ind; [done| |done]. clear n Hn. intros n Hn IH. change (Z.succ n) with (n + 1).
  rewrite tiled_snoc, IH, marks_app by lia. f_equal. lia.
Qed.

Section rows.
Context (scs : srsran_scs_t) (nof_prb sf : Z).
Hypothesis Hprb : 0 <= nof_prb.
Local Abbreviation refs := (srsran_refsignal_mbsfn_rs_per_symbol scs).

(** The rows of the reference signals in the symbol [l] of the slot [s]. *)
Lemma pilot_rows s l :
  0 <= l -> map negb (row_mask scs nof_prb sf 0 s l) =
    if SRSRAN_SYMBOL_HAS_REF_MBSFN_SCS l s scs then pilot_row (refs * nof_prb) (srsran_refsignal_mbsfn_offset l s sf scs) (ref_step scs)
    else marks false (nof_prb * SRSRAN_NRE_SCS scs).
Proof.
  intros Hl. unfold row_mask, prb_mask. pose proof (scs_pos scs) as (HN & _). rewrite (proj2 (Z.ltb_ge l _)) by (destruct (s =? 0); lia).
  destruct (SRSRAN_SYMBOL_HAS_REF_MBSFN_SCS l s scs).
  - rewrite ref_step_eq, ref_rows by done. unfold pilot_row. do 2 f_equal. pose proof (refs_in_prb scs). lia.
  - rewrite mark_rows by lia. apply map_negb_marks.
Qed.

End rows.

Lemma map_tiled {X Y} (g : X -> Y) (f : Z -> list X) n : 0 <= n -> map g (tiled f n) = tiled (fun i => map g (f i)) n.
Proof.
  intros Hn. pattern n. apply natlike_ind; [done| |done]. clear n Hn. intros n Hn IH. change (Z.succ n) with (n + 1).
  rewrite !tiled_snoc, map_app, IH by lia. done.
Qed.

Lemma tiled_ext {X} (f g : Z -> list X) n : (forall i, 0 <= i < n -> f i = g i) -> tiled f n = tiled g n.
Proof. intros H. unfold tiled. f_equal. apply map_ext_in. intros i Hi. apply H. apply list_elem_of_In, elem_of_seqZ in Hi. lia. Qed.

(** The cells of the reference signals. *)
Definition pilot_mask (scs : srsran_scs_t) (nof_prb sf : Z) : list bool := map negb (data_mask scs nof_prb sf 0).

Definition gap (scs : srsran_scs_t) (nof_prb n : Z) : list bool := marks false (n * (nof_prb * SRSRAN_NRE_SCS scs)).

Lemma pilot_mask_rows scs nof_prb sf :
  0 <= nof_prb ->
  let row off := pilot_row (srsran_refsignal_mbsfn_rs_per_symbol scs * nof_prb) off (ref_step scs) in
  let gap := gap scs nof_prb in
  pilot_mask scs nof_prb sf =
    match scs with
    | SRSRAN_SCS_15KHZ => gap 2 ++ row 0 ++ gap 3 ++ row 1 ++ gap 3 ++ row 0 ++ gap 1
    | SRSRAN_SCS_7KHZ5 => gap 1 ++ row 0 ++ gap 1 ++ row 2 ++ gap 1 ++ row 0
    | SRSRAN_SCS_1KHZ25 => row (if sf mod 2 =? 0 then 0 else 3)
    end.
Proof.
  intros Hn row g. unfold pilot_mask, data_mask, slot_mask. pose proof (scs_pos scs) as (HN & HS & HT). rewrite map_tiled by lia.
  rewrite (tiled_ext _ (fun s => tiled (fun l => if SRSRAN_SYMBOL_HAS_REF_MBSFN_SCS l s scs then row (srsran_refsignal_mbsfn_offset l s sf scs) else g 1) (SRSRAN_MBSFN_NOF_SYMBOLS scs))).
  2:{ intros s Hs. rewrite map_tiled by lia. apply tiled_ext. intros l Hl. rewrite pilot_rows by lia. unfold row, g, gap. rewrite Z.mul_1_l. done. }
  assert (G : forall a b, 0 <= a -> 0 <= b -> g a ++ g b = g (a + b)) by (intros a b Ha Hb; unfold g, gap; rewrite marks_app by nia; f_equal; lia).
  pose proof (G 1 1 ltac:(lia) ltac:(lia)) as G2. pose proof (G 1 2 ltac:(lia) ltac:(lia)) as G3. change (1 + 1) with 2 in G2. change (1 + 2) with 3 in G3.
  clearbody row g. destruct scs.
  - transitivity ((g 1 ++ g 1 ++ row 0 ++ g 1 ++ g 1 ++ g 1 ++ []) ++ (row 1 ++ g 1 ++ g 1 ++ g 1 ++ row 0 ++ g 1 ++ []) ++ []); [reflexivity|].
    rewrite !app_nil_r, <- !app_assoc. by rewrite <- G3, <- G2, <- !app_assoc.
  - transitivity ((g 1 ++ row 0 ++ g 1 ++ []) ++ (row 2 ++ g 1 ++ row 0 ++ []) ++ []); [reflexivity|]. by rewrite !app_nil_r, <- !app_assoc.
  - transitivity (((row (if negb (sf mod 2 =? 0) then 3 else 0)) ++ []) ++ []); [reflexivity|]. rewrite !app_nil_r. by destruct (sf mod 2 =? 0).
Qed.

Section put_pilots.
Context {A : Type} (src grid : list A) (cell : srsran_cell_t) (scs : srsran_scs_t) (sf : Z).
Hypothesis Hprb : 0 <= nof_prb cell.
Hypothesis Hgrid : grid_size scs (nof_prb cell) <= zlen grid.
Hypothesis Hsrc : srsran_refsignal_mbsfn_rs_per_rb scs * nof_prb cell <= zlen src.
Local Abbreviation refs := (srsran_refsignal_mbsfn_rs_per_symbol scs).
Local Abbreviation row off := (pilot_row (refs * nof_prb cell) off (ref_step scs)).

(** One row of the loop of [srsran_refsignal_mbsfn_put_sf]. *)
Lemma put_row M l :
  let n := srsran_refsignal_mbsfn_nsymbol l scs in
  let off := mbsfn_first_fidx l scs sf in
  zlen M = n * nof_prb cell * SRSRAN_NRE_SCS scs -> count M = refs * nof_prb cell * l ->
  0 <= n < SRSRAN_MBSFN_NOF_SLOTS scs * SRSRAN_MBSFN_NOF_SYMBOLS scs -> 0 <= l < srsran_refsignal_mbsfn_nof_symbols scs -> 0 <= off < ref_step scs ->
  spread (refs * nof_prb cell) (scatter M src grid) (SRSRAN_RE_IDX_MBSFN (nof_prb cell) n off scs) (SRSRAN_NRE_SCS scs / refs) src
    (SRSRAN_REFSIGNAL_PILOT_IDX_MBSFN 0 l cell scs) = Some (scatter (M ++ row off) src grid).
Proof.
  intros n off Hz Hc Hn Hl Ho. unfold SRSRAN_RE_IDX_MBSFN, SRSRAN_REFSIGNAL_PILOT_IDX_MBSFN. rewrite Z.add_0_r, <- Hz, <- Hc, ref_step_eq.
  pose proof (refs_in_prb scs) as [Hr Hr0]. pose proof (scs_pos scs) as (HN & _). apply spread_step; [done|nia| |].
  - rewrite Hz. replace (refs * nof_prb cell * ref_step scs) with (nof_prb cell * SRSRAN_NRE_SCS scs) by nia. unfold grid_size in Hgrid. nia.
  - rewrite Hc. unfold srsran_refsignal_mbsfn_rs_per_rb in Hsrc. nia.
Qed.

Lemma zlen_row off : 0 <= off < ref_step scs -> zlen (row off) = nof_prb cell * SRSRAN_NRE_SCS scs.
Proof. intros Ho. pose proof (refs_in_prb scs). rewrite zlen_pilot_row by (done || nia). nia. Qed.

Lemma count_row off : 0 <= off < ref_step scs -> count (row off) = refs * nof_prb cell.
Proof. intros Ho. pose proof (refs_in_prb scs). by rewrite count_pilot_row by (done || nia). Qed.

Lemma zlen_gap n : 0 <= n -> zlen (gap scs (nof_prb cell) n) = n * (nof_prb cell * SRSRAN_NRE_SCS scs).
Proof. intros Hn. pose proof (scs_pos scs). unfold gap. by rewrite zlen_marks by nia. Qed.

Lemma count_gap n : 0 <= n -> count (gap scs (nof_prb cell) n) = 0.
Proof. intros Hn. pose proof (scs_pos scs). unfold gap. by rewrite count_marks by nia. Qed.

Lemma scatter_gap M n : count M <= zlen src -> scatter (M ++ gap scs (nof_prb cell) n) src grid = scatter M src grid.
Proof. apply scatter_then_none. Qed.

End put_pilots.

Lemma nsymbol_range l scs :
  0 <= srsran_refsignal_mbsfn_nsymbol l scs < SRSRAN_MBSFN_NOF_SLOTS scs * SRSRAN_MBSFN_NOF_SYMBOLS scs.
Proof.
  unfold srsran_refsignal_mbsfn_nsymbol. destruct scs; [change (SRSRAN_MBSFN_NOF_SLOTS _ * _) with 12|change (SRSRAN_MBSFN_NOF_SLOTS _ * _) with 6|done];
  repeat case_match; lia.
Qed.

Lemma first_fidx_range l scs sf : 0 <= mbsfn_first_fidx l scs sf < ref_step scs.
Proof. unfold mbsfn_first_fidx, srsran_refsignal_mbsfn_fidx, ref_step. destruct scs; cbn [decide]; repeat case_match; simplify_eq; lia. Qed.

Section put_sf.
Context {A : Type} (src grid : list A) (cell : srsran_cell_t) (sf : Z) (scs : srsran_scs_t).
Hypothesis Hprb : 0 <= nof_prb cell.
Hypothesis Hgrid : grid_size scs (nof_prb cell) <= zlen grid.
Hypothesis Hsrc : srsran_refsignal_mbsfn_rs_per_rb scs * nof_prb cell <= zlen src.
Local Abbreviation refs := (srsran_refsignal_mbsfn_rs_per_symbol scs).
Local Abbreviation row off := (pilot_row (refs * nof_prb cell) off (ref_step scs)).
Local Abbreviation gap := (gap scs (nof_prb cell)).

(** The loop of [srsran_refsignal_mbsfn_put_sf]. *)
Definition put_turn (l : Z) (sf_symbols : list A) : option (list A) :=
  spread (refs * nof_prb cell) sf_symbols
    (SRSRAN_RE_IDX_MBSFN (nof_prb cell) (srsran_refsignal_mbsfn_nsymbol l scs) (mbsfn_first_fidx l scs sf) scs)
    (SRSRAN_NRE_SCS scs / refs) src (SRSRAN_REFSIGNAL_PILOT_IDX_MBSFN 0 l cell scs).

(** The mask before the row [l], and the whole mask. *)
Lemma put_turn_spec l M k off :
  0 <= l < srsran_refsignal_mbsfn_nof_symbols scs -> mbsfn_first_fidx l scs sf = off ->
  zlen M = srsran_refsignal_mbsfn_nsymbol l scs * (nof_prb cell * SRSRAN_NRE_SCS scs) -> count M = l * (refs * nof_prb cell) ->
  put_turn l (scatter M src grid) = Some (scatter (M ++ row off ++ gap k) src grid).
Proof.
  intros Hl <- Hz Hc. pose proof (first_fidx_range l scs sf) as Ho. pose proof (count_row cell scs Hprb _ Ho) as Cr. unfold put_turn. rewrite put_row by (done || lia || apply nsymbol_range). f_equal. rewrite app_assoc. symmetry. apply scatter_gap.
  rewrite count_app, Cr, Hc. unfold srsran_refsignal_mbsfn_rs_per_rb in Hsrc. pose proof (refs_in_prb scs). nia.
Qed.

End put_sf.

Local Abbreviation prow scs cell off := (pilot_row (srsran_refsignal_mbsfn_rs_per_symbol scs * nof_prb cell) off (ref_step scs)).

(** A loop over the rows whose turns add a row to what [F] describes. *)
Lemma rows_of_turns {S} (F : list bool -> S) (turn : Z -> S -> option S) cell sf scs :
  0 <= nof_prb cell ->
  (forall l M k off, 0 <= l < srsran_refsignal_mbsfn_nof_symbols scs -> mbsfn_first_fidx l scs sf = off ->
    zlen M = srsran_refsignal_mbsfn_nsymbol l scs * (nof_prb cell * SRSRAN_NRE_SCS scs) ->
    count M = l * (srsran_refsignal_mbsfn_rs_per_symbol scs * nof_prb cell) -> turn l (F M) = Some (F (M ++ prow scs cell off ++ gap scs (nof_prb cell) k))) ->
  (forall k, F (gap scs (nof_prb cell) k) = F []) ->
  for_loop (Z.to_nat (srsran_refsignal_mbsfn_nof_symbols scs)) 0 turn (F []) = Some (F (pilot_mask scs (nof_prb cell) sf)).
Proof.
  intros Hprb T H0. rewrite pilot_mask_rows by done.
  assert (Zr : forall off, 0 <= off < ref_step scs -> zlen (prow scs cell off) = nof_prb cell * SRSRAN_NRE_SCS scs) by (intros; by apply zlen_row).
  assert (Cr : forall off, 0 <= off < ref_step scs -> count (prow scs cell off) = srsran_refsignal_mbsfn_rs_per_symbol scs * nof_prb cell) by (intros; by apply count_row).
  assert (Zg : forall k, 0 <= k -> zlen (gap scs (nof_prb cell) k) = k * (nof_prb cell * SRSRAN_NRE_SCS scs)) by (intros; by apply zlen_gap).
  assert (Cg : forall k, 0 <= k -> count (gap scs (nof_prb cell) k) = 0) by (intros; by apply count_gap).
  set (g := gap scs (nof_prb cell)) in *. assert (G0 : g 0 = []) by done. clearbody g. cbv zeta.
  destruct scs.
  - change (Z.to_nat (srsran_refsignal_mbsfn_nof_symbols SRSRAN_SCS_15KHZ)) with 3%nat. cbn [for_loop]. rewrite <- (H0 2) at 1.
    rewrite (T 0 (g 2) 3 0); [|done|done|by apply Zg|by rewrite Cg]. cbn [mbind option_bind].
    rewrite (T (0 + 1) (g 2 ++ prow SRSRAN_SCS_15KHZ cell 0 ++ g 3) 3 1);
      [|done|done|rewrite !zlen_app, !Zg, !Zr by (done || lia); change (srsran_refsignal_mbsfn_nsymbol (0 + 1) SRSRAN_SCS_15KHZ) with 6; lia|rewrite !count_app, !Cg, !Cr by (done || lia); lia]. cbn [mbind option_bind].
    rewrite (T (0 + 1 + 1) ((g 2 ++ prow SRSRAN_SCS_15KHZ cell 0 ++ g 3) ++ prow SRSRAN_SCS_15KHZ cell 1 ++ g 3) 1 0);
      [|done|done|rewrite !zlen_app, !Zg, !Zr by (done || lia); change (srsran_refsignal_mbsfn_nsymbol (0 + 1 + 1) SRSRAN_SCS_15KHZ) with 10; lia|rewrite !count_app, !Cg, !Cr by (done || lia); lia]. cbn [mbind option_bind]. by rewrite <- !app_assoc.
  - change (Z.to_nat (srsran_refsignal_mbsfn_nof_symbols SRSRAN_SCS_7KHZ5)) with 3%nat. cbn [for_loop]. rewrite <- (H0 1) at 1.
    rewrite (T 0 (g 1) 1 0); [|done|done|by apply Zg|by rewrite Cg]. cbn [mbind option_bind].
    rewrite (T (0 + 1) (g 1 ++ prow SRSRAN_SCS_7KHZ5 cell 0 ++ g 1) 1 2);
      [|done|done|rewrite !zlen_app, !Zg, !Zr by (done || lia); change (srsran_refsignal_mbsfn_nsymbol (0 + 1) SRSRAN_SCS_7KHZ5) with 3; lia|rewrite !count_app, !Cg, !Cr by (done || lia); lia]. cbn [mbind option_bind].
    rewrite (T (0 + 1 + 1) ((g 1 ++ prow SRSRAN_SCS_7KHZ5 cell 0 ++ g 1) ++ prow SRSRAN_SCS_7KHZ5 cell 2 ++ g 1) 0 0);
      [|done|done|rewrite !zlen_app, !Zg, !Zr by (done || lia); change (srsran_refsignal_mbsfn_nsymbol (0 + 1 + 1) SRSRAN_SCS_7KHZ5) with 5; lia|rewrite !count_app, !Cg, !Cr by (done || lia); lia]. cbn [mbind option_bind].
    rewrite G0. by rewrite <- !app_assoc, app_nil_r.
  - change (Z.to_nat (srsran_refsignal_mbsfn_nof_symbols SRSRAN_SCS_1KHZ25)) with 1%nat. cbn [for_loop]. rewrite <- (H0 0) at 1.
    rewrite (T 0 (g 0) 0 (if sf mod 2 =? 0 then 0 else 3)); [|done|done|by apply Zg|by rewrite Cg]. cbn [mbind option_bind].
    rewrite G0. by rewrite app_nil_r.
Qed.


(** *** Reading the reference signals *)

Lemma gather_marks {A} n (c : list A) : gather (marks false n) c = [].
Proof. apply gather_none. Qed.

Section get_pilots.
Context {A : Type} (out grid : list A) (cell : srsran_cell_t) (sf : Z) (scs : srsran_scs_t).

(** What has been read when the cells of [M] have been visited. *)
Definition taken (M : list bool) : list A := gather M grid ++ zdrop (count M) out.

Lemma take_one M off step :
  0 <= off < step -> zlen M + step <= zlen grid -> count M < zlen out ->
  exists x, cell_at grid (zlen M + off) = Some x /\ put_cell (taken M) (count M) x = Some (taken (M ++ marks false off ++ true :: marks false (step - 1 - off))).
Proof.
  intros Ho Hg Hs. pose proof (count_bounds M) as Hb. assert (Hx : is_Some (grid !! Z.to_nat (zlen M + off))) by (apply lookup_lt_is_Some; unfold zlen in *; lia).
  destruct Hx as [x Hx]. exists x. unfold cell_at. rewrite (proj2 (Z.ltb_ge _ _)) by lia. split; [done|].
  unfold put_cell, taken. assert (Zg : zlen (gather M grid) = count M) by (apply zlen_gather; lia).
  rewrite zlen_app, Zg, zlen_zdrop, (proj2 (Z.ltb_ge _ _)), (proj2 (Z.leb_gt _ _)) by lia. cbn [orb]. f_equal.
  rewrite !count_app. cbn [count b2z]. rewrite !count_marks by lia. cbn [b2z]. rewrite gather_more by lia.
  rewrite (gather_more (marks false off)) by (rewrite zlen_marks, zlen_zdrop; lia).
  rewrite gather_marks, app_nil_l.
  assert (Zm : zlen (M ++ marks false off) = zlen M + off) by (rewrite zlen_app, zlen_marks by lia; done).
  replace (zdrop (zlen (marks false off)) (zdrop (zlen M) grid)) with (zdrop (zlen M + off) grid) by (rewrite zdrop_zdrop, zlen_marks by (rewrite ?zlen_marks; lia); f_equal; lia).
  assert (Ez : zdrop (zlen M + off) grid = x :: zdrop (zlen M + off + 1) grid) by (unfold zdrop; replace (Z.to_nat (zlen M + off + 1)) with (S (Z.to_nat (zlen M + off))) by lia; by apply drop_S).
  rewrite Ez. cbn [gather]. rewrite gather_marks.
  replace (count M + (0 * off + (1 + 0 * (step - 1 - off)))) with (count M + 1) by lia.
  assert (Hl : length (gather M grid) = Z.to_nat (count M)) by (unfold zlen in Zg; lia). rewrite <- Hl, insert_app_r_alt, Nat.sub_diag by lia.
  destruct (zdrop (count M) out) as [|y ys] eqn:Ey; [apply (f_equal zlen) in Ey; rewrite zlen_zdrop, zlen_nil in Ey by lia; lia|].
  cbn [list_insert insert]. rewrite <- app_assoc. f_equal. cbn [app]. f_equal. unfold zdrop in *. apply (f_equal (drop 1)) in Ey. rewrite drop_drop in Ey.
  replace (Z.to_nat (count M) + 1)%nat with (Z.to_nat (count M + 1)) in Ey by lia. exact (eq_sym Ey).
Qed.

Lemma collect_step M n off step :
  0 <= off < step -> 0 <= n -> zlen M + n * step <= zlen grid -> count M + n <= zlen out ->
  collect n (taken M) (count M) grid (zlen M + off) step = Some (taken (M ++ pilot_row n off step)).
Proof.
  intros Ho Hn Hg Hs. unfold collect.
  destruct (for_loop_inv (fun i dst => dst = taken (M ++ pilot_row i off step)) (Z.to_nat n) 0
    (fun i dst => x ← cell_at grid (zlen M + off + i * step); put_cell dst (count M + i) x) (taken M)) as (dst & E & H).
  - by rewrite app_nil_r.
  - intros i dst Hi ->. destruct (take_one (M ++ pilot_row i off step) off step Ho) as (x & Ex & Ep).
    + rewrite zlen_app, zlen_pilot_row by lia. nia.
    + rewrite count_app, count_pilot_row by lia. lia.
    + rewrite zlen_app, zlen_pilot_row in Ex by lia. rewrite count_app, count_pilot_row in Ep by lia.
      replace (zlen M + off + i * step) with (zlen M + i * step + off) by lia. rewrite Ex. cbn [mbind option_bind].
      rewrite Ep. eexists. split; [done|]. by rewrite pilot_row_snoc, <- app_assoc by lia.
  - rewrite E, H. by rewrite Z.add_0_l, Z2Nat.id by lia.
Qed.

(** One row of the loop of [srsran_refsignal_mbsfn_get_sf]. *)
Definition get_turn (base l : Z) (pilots : list A) : option (list A) :=
  collect (srsran_refsignal_mbsfn_rs_per_symbol scs * nof_prb cell) pilots (SRSRAN_REFSIGNAL_PILOT_IDX_MBSFN 0 l cell scs + base) grid
    (SRSRAN_RE_IDX_MBSFN (nof_prb cell) (srsran_refsignal_mbsfn_nsymbol l scs) (mbsfn_first_fidx l scs sf) scs)
    (SRSRAN_NRE_SCS scs / srsran_refsignal_mbsfn_rs_per_symbol scs).

Lemma taken_gap M n : zlen M <= zlen grid -> taken (M ++ gap scs (nof_prb cell) n) = taken M.
Proof.
  intros Hz. unfold taken, gap. rewrite count_app. unfold marks. rewrite count_replicate. cbn [b2z]. rewrite Z.mul_0_l, Z.add_0_r.
  by rewrite gather_more, gather_none, app_nil_r.
Qed.

Lemma get_turn_spec l M k off :
  0 <= nof_prb cell -> grid_size scs (nof_prb cell) <= zlen grid -> srsran_refsignal_mbsfn_rs_per_rb scs * nof_prb cell <= zlen out ->
  0 <= l < srsran_refsignal_mbsfn_nof_symbols scs -> mbsfn_first_fidx l scs sf = off ->
  zlen M = srsran_refsignal_mbsfn_nsymbol l scs * (nof_prb cell * SRSRAN_NRE_SCS scs) ->
  count M = l * (srsran_refsignal_mbsfn_rs_per_symbol scs * nof_prb cell) -> get_turn 0 l (taken M) = Some (taken (M ++ prow scs cell off ++ gap scs (nof_prb cell) k)).
Proof.
  intros Hprb Hg Hs Hl <- Hz Hc. unfold get_turn, SRSRAN_RE_IDX_MBSFN, SRSRAN_REFSIGNAL_PILOT_IDX_MBSFN. pose proof (first_fidx_range l scs sf) as Ho.
  pose proof (nsymbol_range l scs) as Hn. pose proof (refs_in_prb scs) as [Hr Hr0]. pose proof (scs_pos scs) as (HN & _). pose proof (zlen_row cell scs Hprb _ Ho) as Zr.
  set (off := mbsfn_first_fidx l scs sf) in *. set (refs := srsran_refsignal_mbsfn_rs_per_symbol scs) in *. rewrite ref_step_eq.
  replace (refs * nof_prb cell * l + 0 + 0) with (count M) by lia.
  replace (srsran_refsignal_mbsfn_nsymbol l scs * nof_prb cell * SRSRAN_NRE_SCS scs + off) with (zlen M + off) by lia.
  assert (Hrow : refs * nof_prb cell * ref_step scs = nof_prb cell * SRSRAN_NRE_SCS scs) by nia. unfold grid_size in Hg.
  assert (Hend : zlen M + nof_prb cell * SRSRAN_NRE_SCS scs <= zlen grid) by (rewrite Hz; nia).
  rewrite collect_step; [|done|nia|lia|].
  - rewrite app_assoc, taken_gap; [done|rewrite zlen_app, Zr; lia].
  - rewrite Hc. unfold srsran_refsignal_mbsfn_rs_per_rb in Hs. fold refs in Hs. nia.
Qed.

End get_pilots.

(** ** Results *)

Lemma isvalid_prb cell : srsran_cell_isvalid cell = true -> 1 <= nof_prb cell <= SRSRAN_MAX_PRB.
Proof.
  unfold srsran_cell_isvalid, srsran_nofprb_isvalid, SRSRAN_MAX_PRB. rewrite !andb_true_iff, orb_true_iff, andb_true_iff, Z.eqb_eq, Z.geb_leb, !Z.leb_le. lia.
Qed.

Lemma put_sf_spec {A} cell (cs pilots grid : list A) scs sf :
  scs <> SRSRAN_SCS_15KHZ -> srsran_cell_isvalid cell = true -> grid_size scs (nof_prb cell) <= zlen grid ->
  srsran_refsignal_mbsfn_rs_per_rb scs * nof_prb cell <= zlen pilots ->
  srsran_refsignal_mbsfn_put_sf cell 0 cs pilots grid scs sf = Some (0, scatter (pilot_mask scs (nof_prb cell) sf) pilots grid).
Proof.
  intros Hscs Hv Hg Hp. pose proof (isvalid_prb cell Hv) as Hn. unfold srsran_refsignal_mbsfn_put_sf. rewrite Hv. cbn [andb srsran_portid_isvalid Z.leb Z.compare].
  rewrite decide_False by done. cbn [mbind option_bind].
  pose proof (rows_of_turns (fun M => scatter M pilots grid) (put_turn pilots cell sf scs) cell sf scs) as R. cbv beta in R. unfold put_turn at 2 in R.
  change (scatter [] pilots grid) with grid in R. rewrite R; [done|lia| |].
  - intros l M k off Hl Ho Hz Hc. apply put_turn_spec; (done || lia).
  - intros k. apply scatter_none.
Qed.

Lemma get_sf_spec {A} cell (out grid : list A) scs sf :
  scs <> SRSRAN_SCS_15KHZ -> srsran_cell_isvalid cell = true -> grid_size scs (nof_prb cell) <= zlen grid ->
  srsran_refsignal_mbsfn_rs_per_rb scs * nof_prb cell <= zlen out ->
  srsran_refsignal_mbsfn_get_sf cell 0 grid out scs sf = Some (0, taken out grid (pilot_mask scs (nof_prb cell) sf)).
Proof.
  intros Hscs Hv Hg Hp. pose proof (isvalid_prb cell Hv) as Hn. unfold srsran_refsignal_mbsfn_get_sf. rewrite Hv. cbn [andb srsran_portid_isvalid Z.leb Z.compare].
  rewrite !decide_False by done. cbn [mbind option_bind].
  pose proof (rows_of_turns (taken out grid) (get_turn grid cell sf scs 0) cell sf scs) as R. unfold get_turn at 2 in R.
  change (taken out grid []) with out in R. rewrite R; [done|lia| |].
  - intros l M k off Hl Ho Hz Hc. apply get_turn_spec; (done || lia).
  - intros k. exact (taken_gap out grid cell scs [] k (zlen_nonneg grid)).
Qed.

Lemma count_pilot_mask cell scs sf : 0 <= nof_prb cell -> count (pilot_mask scs (nof_prb cell) sf) = srsran_refsignal_mbsfn_rs_per_rb scs * nof_prb cell.
Proof.
  intros Hn. rewrite pilot_mask_rows by done. assert (Cr : forall off, 0 <= off < ref_step scs -> count (prow scs cell off) = srsran_refsignal_mbsfn_rs_per_symbol scs * nof_prb cell)
    by (intros; by apply count_row).
  assert (Cg : forall k, 0 <= k -> count (gap scs (nof_prb cell) k) = 0) by (intros; by apply count_gap). unfold srsran_refsignal_mbsfn_rs_per_rb. cbv zeta.
  destruct scs; rewrite ?count_app, ?Cg, !Cr by (lia || done || (destruct (sf mod 2 =? 0); done)).
  - change (srsran_refsignal_mbsfn_nof_symbols SRSRAN_SCS_15KHZ) with 3. lia.
  - change (srsran_refsignal_mbsfn_nof_symbols SRSRAN_SCS_7KHZ5) with 3. lia.
  - change (srsran_refsignal_mbsfn_nof_symbols SRSRAN_SCS_1KHZ25) with 1. lia.
Qed.

(** Resource elements of the channel in a resource block. *)
Definition data_res (scs : srsran_scs_t) : Z :=
  SRSRAN_MBSFN_NOF_SLOTS scs * SRSRAN_MBSFN_NOF_SYMBOLS scs * SRSRAN_NRE_SCS scs - srsran_refsignal_mbsfn_rs_per_rb scs.

Lemma count_data_mask cell scs sf : 0 <= nof_prb cell -> count (data_mask scs (nof_prb cell) sf 0) = nof_prb cell * data_res scs.
Proof.
  intros Hn. pose proof (count_pilot_mask cell scs sf Hn) as H. unfold pilot_mask in H. rewrite count_negb, zlen_data_mask in H by done. unfold grid_size in H.
  unfold data_res. nia.
Qed.

(** *** The grant counts the same elements *)

Lemma sum_fold n a c :
  0 <= n -> 0 <= a -> 0 <= c -> a + n * c < 2 ^ 32 -> fold_left (fun acc (_ : Z) => u32 (acc + c)) (seqZ 0 n) a = a + n * c.
Proof.
  intros Hn. revert a. pattern n. apply natlike_ind; [intros; change (seqZ 0 0) with (@nil Z); cbn [fold_left]; lia| |done]. clear n Hn. intros n Hn IH a Ha Hc Hb. change (Z.succ n) with (n + 1) in *.
  rewrite seqZ_app, fold_left_app, IH by nia. rewrite seqZ_cons by lia. rewrite (seqZ_nil _ (Z.pred 1)) by lia. cbn [fold_left]. rewrite u32_id by (unfold is_u32; nia). lia.
Qed.

Definition all_prbs (cell : srsran_cell_t) (g : srsran_pdsch_grant_t) : Prop :=
  forall s j, 0 <= s < 2 -> 0 <= j < nof_prb cell -> prb_used g s j = true.

Lemma fold_left_ext {X Y} (f g : X -> Y -> X) l a : (forall x y, y ∈ l -> f x y = g x y) -> fold_left f l a = fold_left g l a.
Proof. revert a. induction l as [|y l IH]; intros a H; [done|]. cbn. rewrite H by left. apply IH. intros x z Hz. apply H. by right. Qed.

Lemma mbsfn_nof_re cell sf g :
  sf_type sf = SRSRAN_SF_MBSFN -> subcarrier_spacing sf <> SRSRAN_SCS_15KHZ -> 0 <= nof_prb cell <= SRSRAN_MAX_PRB -> all_prbs cell g ->
  srsran_ra_dl_grant_nof_re cell sf g = nof_prb cell * data_res (subcarrier_spacing sf).
Proof.
  intros Ht Hscs Hn Hall. unfold srsran_ra_dl_grant_nof_re. rewrite decide_True by done. set (scs := subcarrier_spacing sf) in *.
  assert (Hre : forall s j, ra_re_x_prb cell sf s j = u32 (SRSRAN_NRE_SCS scs * SRSRAN_MBSFN_NOF_SYMBOLS scs - srsran_refsignal_mbsfn_rs_per_symbol scs * (s + 1))).
  { intros s j. unfold ra_re_x_prb. rewrite bool_decide_true, bool_decide_false by done. done. }
  assert (Hslot : forall s a, 0 <= s < 2 -> 0 <= a <= 2 ^ 20 -> (fold_left (fun nof_re j => if prb_used g s j then u32 (nof_re + ra_re_x_prb cell sf s j) else nof_re) (seqZ 0 (nof_prb cell)) a) =
    a + nof_prb cell * u32 (SRSRAN_NRE_SCS scs * SRSRAN_MBSFN_NOF_SYMBOLS scs - srsran_refsignal_mbsfn_rs_per_symbol scs * (s + 1))).
  { intros s a Hs Ha. set (c := u32 (_ - _)). assert (Hc : 0 <= c <= 144).
    { unfold c. destruct scs; [done| |]; (assert (s = 0 \/ s = 1) as [->| ->] by lia); vm_compute; split; congruence. }
    rewrite (fold_left_ext _ (fun acc (_ : Z) => u32 (acc + c))); [apply sum_fold; unfold SRSRAN_MAX_PRB in *; nia|].
    intros x j Hj. apply elem_of_seqZ in Hj. rewrite Hall, Hre by lia. done. }
  unfold SRSRAN_MAX_PRB in Hn. destruct scs; [done| |].
  - change (SRSRAN_MBSFN_NOF_SLOTS SRSRAN_SCS_7KHZ5) with 2. change (seqZ 0 2) with [0; 1]. cbn [fold_left].
    rewrite (Hslot 0 0) by lia. rewrite (Hslot 1) by (lia || (vm_compute (u32 _); lia)). vm_compute (u32 _). change (data_res SRSRAN_SCS_7KHZ5) with 126. lia.
  - change (SRSRAN_MBSFN_NOF_SLOTS SRSRAN_SCS_1KHZ25) with 1. change (seqZ 0 1) with [0]. cbn [fold_left].
    rewrite (Hslot 0 0) by lia. vm_compute (u32 _). change (data_res SRSRAN_SCS_1KHZ25) with 120. lia.
Qed.

Lemma put_symbols_spec {A} cell (symbols grid : list A) scs sf :
  0 <= nof_prb cell -> grid_size scs (nof_prb cell) <= zlen grid -> nof_prb cell * data_res scs <= zlen symbols ->
  pmch_put (nof_prb cell) symbols grid scs 0 sf = Some (nof_prb cell * data_res scs, scatter (data_mask scs (nof_prb cell) sf 0) symbols grid).
Proof.
  intros Hn Hg Hs. unfold pmch_put. rewrite pmch_cp_spec; [by rewrite count_data_mask|done|]. unfold room. rewrite zlen_data_mask, count_data_mask by done. lia.
Qed.

Lemma get_symbols_spec {A} cell (out grid : list A) scs sf :
  0 <= nof_prb cell -> grid_size scs (nof_prb cell) <= zlen grid -> nof_prb cell * data_res scs <= zlen out ->
  pmch_get (nof_prb cell) grid out 0 scs sf =
    Some (nof_prb cell * data_res scs, gather (data_mask scs (nof_prb cell) sf 0) grid ++ zdrop (nof_prb cell * data_res scs) out).
Proof.
  intros Hn Hg Hs. unfold pmch_get. rewrite pmch_cp_spec; [by rewrite !count_data_mask|done|]. unfold room. rewrite zlen_data_mask, count_data_mask by done. lia.
Qed.

Lemma gather_uncounted {A} m (c : list A) : count m = 0 -> gather m c = [].
Proof.
  revert c. induction m as [|b m IH]; intros [|a c] Hm; try done. cbn in Hm |- *. pose proof (count_bounds m). destruct b; cbn in Hm; [lia|]. by apply IH.
Qed.

(** The one symbol of 1.25 kHz is not reached by a receiver that starts later. *)
Lemma get_symbols_late {A} n (out grid : list A) lstart sf :
  0 <= n -> 0 < lstart -> grid_size SRSRAN_SCS_1KHZ25 n <= zlen grid ->
  pmch_get n grid out lstart SRSRAN_SCS_1KHZ25 sf = Some (0, out).
Proof.
  intros Hn Hl Hg. set (m := data_mask SRSRAN_SCS_1KHZ25 n sf lstart).
  assert (Hm : count m = 0).
  { unfold m, data_mask. rewrite (count_tiled _ _ 0); [lia|by vm_compute|]. intros s Hs. change (SRSRAN_MBSFN_NOF_SLOTS SRSRAN_SCS_1KHZ25) with 1 in Hs.
    unfold slot_mask. rewrite (count_tiled _ _ 0); [lia|by vm_compute|]. intros l Hll. change (SRSRAN_MBSFN_NOF_SYMBOLS SRSRAN_SCS_1KHZ25) with 1 in Hll.
    unfold row_mask. rewrite (count_tiled _ _ 0); [lia|done|]. intros _ _. unfold prb_mask.
    replace s with 0 by lia. cbn [Z.eqb]. rewrite (proj2 (Z.ltb_lt l lstart)) by lia. rewrite count_marks by (by vm_compute). done. }
  unfold pmch_get. rewrite pmch_cp_spec; [|done|].
  - fold m. by rewrite Hm, gather_uncounted, zdrop_0.
  - unfold room. fold m. rewrite Hm. unfold m. rewrite zlen_data_mask by done. pose proof (zlen_nonneg out). lia.
Qed.

(** C10: the channel and the reference signals of an MBSFN subframe of 7.5 or 1.25 kHz share the
    grid exactly.  The reference signals and the symbols of the PMCH, as many as the grant
    counts, are written without an access outside of an array; afterwards the receiver's
    functions read back the same symbols, from the first symbol on as they were put, and the
    same reference signals.  Together they are all the cells of the subframe, so that
    nothing of the former contents is left, and no cell behind it is touched. *)
Theorem mbsfn_grid_exact {A} cell sf g (cs pilots symbols grid : list A) :
  let scs := subcarrier_spacing sf in
  let sf_idx := sf_tti sf mod 10 in
  sf_type sf = SRSRAN_SF_MBSFN -> scs <> SRSRAN_SCS_15KHZ -> srsran_cell_isvalid cell = true -> all_prbs cell g ->
  grid_size scs (nof_prb cell) <= zlen grid -> zlen pilots = srsran_refsignal_mbsfn_rs_per_rb scs * nof_prb cell ->
  zlen symbols = srsran_ra_dl_grant_nof_re cell sf g ->
  exists g1 g2,
    srsran_refsignal_mbsfn_put_sf cell 0 cs pilots grid scs sf_idx = Some (0, g1) /\
    pmch_put (nof_prb cell) symbols g1 scs 0 sf_idx = Some (zlen symbols, g2) /\
    (forall out, zlen symbols <= zlen out ->
      pmch_get (nof_prb cell) g2 out 0 scs sf_idx = Some (zlen symbols, symbols ++ zdrop (zlen symbols) out)) /\
    (forall out, zlen pilots <= zlen out ->
      srsran_refsignal_mbsfn_get_sf cell 0 g2 out scs sf_idx = Some (0, pilots ++ zdrop (zlen pilots) out)) /\
    zlen symbols + zlen pilots = grid_size scs (nof_prb cell) /\ zlen g2 = zlen grid /\
    zdrop (grid_size scs (nof_prb cell)) g2 = zdrop (grid_size scs (nof_prb cell)) grid.
Proof.
  intros scs sf_idx Ht Hscs Hv Hall Hg Hp Hs. pose proof (isvalid_prb cell Hv) as Hn. rewrite mbsfn_nof_re in Hs by (done || lia). fold scs in Hs.
  set (m := data_mask scs (nof_prb cell) sf_idx 0). assert (Zm : zlen m = grid_size scs (nof_prb cell)) by (apply zlen_data_mask; lia).
  assert (Cm : count m = zlen symbols) by (unfold m; rewrite count_data_mask by lia; lia).
  assert (Cp : count (pilot_mask scs (nof_prb cell) sf_idx) = zlen pilots) by (rewrite count_pilot_mask by lia; lia).
  assert (Zp : zlen (pilot_mask scs (nof_prb cell) sf_idx) = zlen m) by (unfold pilot_mask, zlen, m; by rewrite length_map).
  set (g1 := scatter (pilot_mask scs (nof_prb cell) sf_idx) pilots grid). assert (Zg1 : zlen g1 = zlen grid) by apply zlen_scatter.
  set (g2 := scatter m symbols g1). assert (Zg2 : zlen g2 = zlen grid) by (unfold g2; by rewrite zlen_scatter).
  exists g1, g2. split_and!.
  - rewrite put_sf_spec by (done || lia). done.
  - rewrite put_symbols_spec by (done || lia). by rewrite Hs.
  - intros out Ho. rewrite get_symbols_spec by (done || lia). rewrite <- Hs. do 2 f_equal. f_equal. fold m. unfold g2.
    rewrite gather_scatter by lia. apply ztake_all. lia.
  - intros out Ho. rewrite get_sf_spec by (done || lia). unfold taken. rewrite Cp. do 2 f_equal. f_equal. unfold g2, pilot_mask. fold m.
    rewrite gather_scatter_other. unfold g1, pilot_mask. fold m. fold (pilot_mask scs (nof_prb cell) sf_idx) in Cp, Zp. unfold pilot_mask in Cp, Zp. fold m in Cp, Zp.
    rewrite gather_scatter by lia. apply ztake_all. lia.
  - rewrite Hs, Hp. unfold grid_size, data_res. lia.
  - done.
  - unfold g2, g1. rewrite !zdrop_scatter by lia. done.
Qed.

(** *** Examples *)

Definition demo_cell (n : Z) : srsran_cell_t := mk_cell n 1 1 SRSRAN_CP_NORM SRSRAN_FDD n.
Definition demo_sf (tti cfi : Z) (scs : srsran_scs_t) : srsran_dl_sf_cfg_t := mk_sf (mk_tdd 0 0 false) tti cfi SRSRAN_SF_MBSFN scs.
Definition demo_grant : srsran_pdsch_grant_t :=
  mk_grant (replicate 2 (replicate 110 true)) 110 0 (0, 0) [] [] 1 1.

Lemma demo_prbs n : n <= 110 -> all_prbs (demo_cell n) demo_grant.
Proof.
  intros Hn s j Hs Hj. unfold prb_used, demo_grant. cbn [prb_idx nof_prb demo_cell] in *. rewrite lookup_replicate_2 by lia. cbn [mbind option_bind].
  by rewrite lookup_replicate_2 by lia.
Qed.

(** Six resource blocks, 720 symbols and 144 reference signals in a subframe with an odd number. *)
Lemma mbsfn_grid_exact_witness :
  let cell := demo_cell 6 in
  let grid := replicate 1008 0 in
  exists g1 g2,
    srsran_refsignal_mbsfn_put_sf cell 0 [] (seqZ 1000 144) grid SRSRAN_SCS_1KHZ25 7 = Some (0, g1) /\
    pmch_put 6 (seqZ 0 720) g1 SRSRAN_SCS_1KHZ25 0 7 = Some (720, g2) /\
    pmch_get 6 g2 (replicate 720 0) 0 SRSRAN_SCS_1KHZ25 7 = Some (720, seqZ 0 720 ++ []).
Proof.
  destruct (mbsfn_grid_exact (demo_cell 6) (demo_sf 17 0 SRSRAN_SCS_1KHZ25) demo_grant [] (seqZ 1000 144) (seqZ 0 720) (replicate 1008 0)) as (g1 & g2 & E1 & E2 & E3 & _).
  - done.
  - done.
  - done.
  - apply demo_prbs. lia.
  - vm_compute. congruence.
  - by vm_compute.
  - by vm_compute.
  - exists g1, g2. split; [exact E1|]. split; [exact E2|]. apply (E3 (replicate 720 0)). by vm_compute.
Defined.

(** With 15 kHz the grant leaves out the control symbols, the transmitter starts at the first
    symbol all the same: it maps 1260 symbols of which only 1140 are made, and a receiver, which
    starts behind the control symbols, reads them from the 121st on. *)
Lemma pmch_15khz_starts_early :
  let cell := demo_cell 10 in
  let sf := demo_sf 1 1 SRSRAN_SCS_15KHZ in
  srsran_ra_dl_grant_nof_re cell sf demo_grant = 1140 /\
  exists g, pmch_put 10 (seqZ 0 1260) (replicate 1440 0) SRSRAN_SCS_15KHZ 0 1 = Some (1260, g) /\
    pmch_get 10 g (replicate 1140 0) (SRSRAN_NOF_CTRL_SYMBOLS cell 1) SRSRAN_SCS_15KHZ 1 = Some (1140, seqZ 120 1140).
Proof.
  split; [by vm_compute|].
  exists (default [] (snd <$> pmch_put 10 (seqZ 0 1260) (replicate 1440 0) SRSRAN_SCS_15KHZ 0 1)).
  split; vm_compute; reflexivity.
Qed.
