(* ===== verification/RefSignal.v ===== *)
(** * Reference signals of the downlink

    [lib/src/phy/ch_estimation/refsignal_dl.c]: the object that holds the reference signals of a
    frame, their generation for MBSFN subframes and for a cell, and the copies of the cell
    specific signals.

    A sample [(n, (a, b))] is the complex number [(a + b i) / sqrt n]: the values of the
    transmitter are of this form, and so no rounding is involved. *)

From stdpp Require Import base list gmap numbers list_basics list_relations.
From S2P Require Import Prelude Sequence CbSegm RateMatch PhyCommon Ra Modulation MbsfnGrid.

Local Open Scope Z_scope.

Definition sample : Type := Z * cf_t.
Definition sample_zero : sample := (1, (0, 0)).

(** [pilots] has a row for the ports 0 and 1 and one for the ports 2 and 3. *)
Record srsran_refsignal_t := mk_refsignal {
  rs_cell : srsran_cell_t;
  rs_pilots : list (list (list sample));
  rs_type : srsran_sf_t;
  rs_area_id : Z
}.

Definition cell_zero : srsran_cell_t := mk_cell 0 0 0 SRSRAN_CP_NORM SRSRAN_FDD 0.
Definition refsignal_zero : srsran_refsignal_t := mk_refsignal cell_zero [] SRSRAN_SF_NORM 0.

Definition srsran_refsignal_free (q : srsran_refsignal_t) : srsran_refsignal_t := refsignal_zero.

Definition SRSRAN_REFSIGNAL_NUM_SF_MBSFN (nof_prb : Z) (scs : srsran_scs_t) : Z :=
  ((if decide (scs = SRSRAN_SCS_15KHZ) then 2 else 0) + srsran_refsignal_mbsfn_rs_per_rb scs) * nof_prb.
Definition SRSRAN_REFSIGNAL_MAX_NUM_SF_MBSFN (nof_prb : Z) : Z := SRSRAN_REFSIGNAL_NUM_SF_MBSFN nof_prb SRSRAN_SCS_1KHZ25.

(** ** Pilots *)

(** The element of a sequence at [2 * mp] and the one behind it as a sample. *)
Definition pilot_of (c_ : list Z) (mp : Z) : option sample :=
  re ← load c_ (2 * mp + 0);
  im ← load c_ (2 * mp + 1);
  Some (2, (1 - 2 * re, 1 - 2 * im)).

(** The loop over [i], which fills the array of a subframe. *)
Definition fill_pilots (c_ : list Z) (n : Z) (idx mp : Z -> Z) (pilots : list sample) : option (list sample) :=
  for_loop (Z.to_nat n) 0 (fun i pilots => x ← pilot_of c_ (u32 (mp i)); put_cell pilots (u32 (idx i)) x) pilots.

(** The array [pilots[p][ns]] changed by [f]. *)
Definition at_subframe (p ns : Z) (f : list sample -> option (list sample)) (pilots : list (list (list sample))) :
    option (list (list (list sample))) :=
  row ← cell_at pilots p;
  a ← cell_at row ns;
  a ← f a;
  row ← put_cell row ns a;
  put_cell pilots p row.

(** ** MBSFN subframes *)

Definition mbsfn_c_init (scs : srsran_scs_t) (ns l N_mbsfn_id : Z) : Z :=
  let lp := srsran_refsignal_mbsfn_nsymbol l scs mod srsran_symbols_per_mbsfn_subframe scs in
  let slot := if negb (l =? 0) then ns * 2 + 1 else ns * 2 in
  u32 (512 * (7 * ((if decide (scs = SRSRAN_SCS_1KHZ25) then ns else slot) + 1) + (if decide (scs = SRSRAN_SCS_1KHZ25) then l else lp) + 1) *
    (2 * N_mbsfn_id + 1) + N_mbsfn_id).

Definition srsran_refsignal_mbsfn_gen_seq (q : srsran_refsignal_t) (cell : srsran_cell_t) (N_mbsfn_id : Z) (scs : srsran_scs_t) :
    option (Z * srsran_refsignal_t) :=
  let seq_mbsfn := srsran_sequence_init sequence_zero (20 * SRSRAN_REFSIGNAL_NUM_SF_MBSFN SRSRAN_MAX_PRB scs) in
  '(pilots, _) ←
    for_loop (Z.to_nat SRSRAN_NOF_SF_X_FRAME) 0 (fun ns =>
      for_loop 2 0 (fun p =>
        for_loop (Z.to_nat (srsran_refsignal_mbsfn_nof_symbols scs)) 0 (fun l '(pilots, seq) =>
          '(_, seq) ← srsran_sequence_set_LTE_pr seq (10 * SRSRAN_REFSIGNAL_NUM_SF_MBSFN SRSRAN_MAX_PRB scs) (mbsfn_c_init scs ns l N_mbsfn_id);
          c_ ← c seq;
          let rs := srsran_refsignal_mbsfn_rs_per_symbol scs in
          pilots ← at_subframe p ns (fill_pilots c_ (rs * nof_prb (rs_cell q))
            (fun i => SRSRAN_REFSIGNAL_PILOT_IDX_MBSFN i l (rs_cell q) scs)
            (fun i => i + 3 * (SRSRAN_MAX_PRB - nof_prb cell))) pilots;
          Some (pilots, seq)))) (rs_pilots q, seq_mbsfn);
  Some (0, mk_refsignal (rs_cell q) pilots (rs_type q) (rs_area_id q)).

Definition srsran_refsignal_mbsfn_init (malloc : Z -> list sample) (max_prb : Z) (scs : srsran_scs_t) : srsran_refsignal_t :=
  let row := map (fun _ => malloc (u32 (max_prb * srsran_refsignal_mbsfn_rs_per_rb scs))) (seqZ 0 SRSRAN_NOF_SF_X_FRAME) in
  mk_refsignal cell_zero [row; row] SRSRAN_SF_MBSFN 0.

Definition srsran_refsignal_mbsfn_set_cell (q : srsran_refsignal_t) (cell : srsran_cell_t) (mbsfn_area_id : Z) (scs : srsran_scs_t) :
    option (Z * srsran_refsignal_t) :=
  let q := mk_refsignal cell (rs_pilots q) (rs_type q) mbsfn_area_id in
  '(ret, q) ← srsran_refsignal_mbsfn_gen_seq q (rs_cell q) (rs_area_id q) scs;
  Some (if ret <? 0 then SRSRAN_ERROR else 0, q).

(** ** The signals of a cell *)

Definition srsran_refsignal_cs_init (malloc : Z -> list sample) (max_prb : Z) : srsran_refsignal_t :=
  let row := map (fun _ => malloc (u32 (SRSRAN_REFSIGNAL_MAX_NUM_SF_MBSFN max_prb))) (seqZ 0 SRSRAN_NOF_SF_X_FRAME) in
  mk_refsignal cell_zero [row; row] SRSRAN_SF_NORM 0.

Definition srsran_refsignal_cs_nof_symbols (q : srsran_refsignal_t) (sf : srsran_dl_sf_cfg_t) (port_id : Z) : Z :=
  if bool_decide (frame_type (rs_cell q) = SRSRAN_FDD) || negb (configured (tdd_config sf)) ||
    bool_decide (srsran_sfidx_tdd_type (tdd_config sf) (sf_tti sf mod 10) = SRSRAN_TDD_SF_D)
  then if port_id <? 2 then 4 else 2
  else
    let nof_dw_symbols := srsran_sfidx_tdd_nof_dw (tdd_config sf) in
    if decide (cell_cp (rs_cell q) = SRSRAN_CP_NORM) then
      if nof_dw_symbols >=? 12 then (if port_id <? 2 then 4 else 2)
      else if nof_dw_symbols >=? 9 then (if port_id <? 2 then 3 else 2)
      else if nof_dw_symbols >=? 5 then (if port_id <? 2 then 2 else 1)
      else 1
    else
      if nof_dw_symbols >=? 10 then (if port_id <? 2 then 4 else 2)
      else if nof_dw_symbols >=? 8 then (if port_id <? 2 then 3 else 2)
      else if nof_dw_symbols >=? 4 then (if port_id <? 2 then 2 else 1)
      else 1.

Definition srsran_refsignal_cs_nof_pilots_x_slot (nof_ports : Z) : Z :=
  match nof_ports with 2 => 8 | 4 => 12 | _ => 4 end.

Definition srsran_refsignal_cs_nof_re (q : srsran_refsignal_t) (sf : srsran_dl_sf_cfg_t) (port_id : Z) : Z :=
  u32 (srsran_refsignal_cs_nof_symbols q sf port_id * (nof_prb (rs_cell q) * 2)).

Definition srsran_refsignal_cs_fidx (cell : srsran_cell_t) (l port_id m : Z) : Z :=
  u32 (6 * m + (srsran_refsignal_cs_v port_id l + cell_id cell mod 6) mod 6).

Definition cs_c_init (cell : srsran_cell_t) (ns l p : Z) : Z :=
  let N_cp := if decide (cell_cp cell = SRSRAN_CP_NORM) then 1 else 0 in
  let lp := srsran_refsignal_cs_nsymbol l (cell_cp cell) (2 * p) in
  u32 (1024 * (7 * (ns + 1) + lp + 1) * (2 * cell_id cell + 1) + 2 * cell_id cell + N_cp).

(** The subframe [ns / 2] without a configuration for TDD. *)
Definition cs_sf_cfg (ns : Z) : srsran_dl_sf_cfg_t := mk_sf (mk_tdd 0 0 false) (ns / 2) 0 SRSRAN_SF_NORM SRSRAN_SCS_15KHZ.

Definition srsran_refsignal_cs_set_cell (q : srsran_refsignal_t) (cell : srsran_cell_t) : option (Z * srsran_refsignal_t) :=
  if negb (srsran_cell_isvalid cell) then Some (SRSRAN_ERROR_INVALID_INPUTS, q)
  else if (cell_id cell =? cell_id (rs_cell q)) && negb (nof_prb (rs_cell q) =? 0) then Some (0, q)
  else
    let q := mk_refsignal cell (rs_pilots q) (rs_type q) (rs_area_id q) in
    let seq := srsran_sequence_init sequence_zero (2 * 2 * SRSRAN_MAX_PRB) in
    '(pilots, _) ←
      for_loop 20 0 (fun ns =>
        for_loop 2 0 (fun p st =>
          let nsymbols := srsran_refsignal_cs_nof_symbols q (cs_sf_cfg ns) (2 * p) / 2 in
          for_loop (Z.to_nat nsymbols) 0 (fun l '(pilots, seq) =>
            '(_, seq) ← srsran_sequence_set_LTE_pr seq (2 * 2 * SRSRAN_MAX_PRB) (cs_c_init cell ns l p);
            c_ ← c seq;
            pilots ← at_subframe p (ns / 2) (fill_pilots c_ (2 * nof_prb cell)
              (fun i => SRSRAN_REFSIGNAL_PILOT_IDX i (ns mod 2 * nsymbols + l) cell)
              (fun i => i + SRSRAN_MAX_PRB - nof_prb cell)) pilots;
            Some (pilots, seq)) st)) (rs_pilots q, seq);
    Some (0, mk_refsignal cell pilots (rs_type q) (rs_area_id q)).

(** The array of a port in a subframe. *)
Definition port_pilots (q : srsran_refsignal_t) (port_id sf_idx : Z) : option (list sample) :=
  row ← cell_at (rs_pilots q) (port_id / 2); cell_at row sf_idx.

Definition srsran_refsignal_cs_put_sf (q : srsran_refsignal_t) (sf : srsran_dl_sf_cfg_t) (port_id : Z) (sf_symbols : list sample) :
    option (Z * list sample) :=
  if negb (port_id <? SRSRAN_MAX_PORTS) then Some (SRSRAN_ERROR_INVALID_INPUTS, sf_symbols)
  else
    pilots ← port_pilots q port_id (sf_tti sf mod 10);
    let cell := rs_cell q in
    sf_symbols ← for_loop (Z.to_nat (srsran_refsignal_cs_nof_symbols q sf port_id)) 0 (fun l sf_symbols =>
      let nsymbol := srsran_refsignal_cs_nsymbol l (cell_cp cell) port_id in
      let fidx := (srsran_refsignal_cs_v port_id l + cell_id cell mod 6) mod 6 in
      '(sf_symbols, _) ← for_loop (Z.to_nat (2 * nof_prb cell)) 0 (fun i '(sf_symbols, fidx) =>
        x ← cell_at pilots (SRSRAN_REFSIGNAL_PILOT_IDX i l cell);
        sf_symbols ← put_cell sf_symbols (SRSRAN_RE_IDX (nof_prb cell) nsymbol fidx) x;
        Some (sf_symbols, fidx + SRSRAN_NRE / 2)) (sf_symbols, fidx);
      Some sf_symbols) sf_symbols;
    Some (0, sf_symbols).

Definition srsran_refsignal_cs_get_sf (q : srsran_refsignal_t) (sf : srsran_dl_sf_cfg_t) (port_id : Z) (sf_symbols pilots : list sample) :
    option (Z * list sample) :=
  let cell := rs_cell q in
  pilots ← for_loop (Z.to_nat (srsran_refsignal_cs_nof_symbols q sf port_id)) 0 (fun l pilots =>
    let nsymbol := srsran_refsignal_cs_nsymbol l (cell_cp cell) port_id in
    let fidx := srsran_refsignal_cs_fidx cell l port_id 0 in
    '(pilots, _) ← for_loop (Z.to_nat (2 * nof_prb cell)) 0 (fun i '(pilots, fidx) =>
      x ← cell_at sf_symbols (SRSRAN_RE_IDX (nof_prb cell) nsymbol fidx);
      pilots ← put_cell pilots (SRSRAN_REFSIGNAL_PILOT_IDX i l cell) x;
      Some (pilots, fidx + SRSRAN_NRE / 2)) (pilots, fidx);
    Some pilots) pilots;
  Some (0, pilots).
