(* ===== verification/RefSignalCorrect.v ===== *)
(** * The reference signals of MBSFN subframes are those of the standard

    The object of the transmitter holds, for each of the ten subframes, the quadrature
    modulated pseudo-random sequence of the subframe and of the MBSFN area. *)

From stdpp Require Import base list gmap numbers list_basics list_relations.
From S2P Require Import Prelude Sequence SequenceCorrect CbSegm RateMatch PhyCommon Ra Modulation MbsfnGrid MbsfnGridCorrect RefSignal.

Local Open Scope Z_scope.

(** ** Cells of an array *)

Section cells.
Context {A : Type}.
Implicit Types m : list A.

Lemma cell_at_lookup m i : 0 <= i -> cell_at m i = m !! Z.to_nat i.
Proof. intros Hi. unfold cell_at. destruct (Z.ltb_spec i 0); [lia|done]. Qed.

Lemma cell_at_bound m i x : cell_at m i = Some x -> 0 <= i < zlen m.
Proof. unfold cell_at. destruct (Z.ltb_spec i 0); [done|]. intros Hx%lookup_lt_Some. unfold zlen. lia. Qed.

Lemma cell_at_some m i : 0 <= i < zlen m -> exists x, cell_at m i = Some x.
Proof. intros Hi. rewrite cell_at_lookup by lia. apply lookup_lt_is_Some. unfold zlen in Hi. lia. Qed.

Lemma put_cell_some m i x :
  0 <= i < zlen m -> exists m', put_cell m i x = Some m' /\ zlen m' = zlen m /\ cell_at m' i = Some x /\
    (forall j, j <> i -> cell_at m' j = cell_at m j) /\ m' = <[Z.to_nat i := x]> m.
Proof.
  intros Hi. unfold put_cell. rewrite (proj2 (Z.ltb_ge _ _)), (proj2 (Z.leb_gt _ _)) by lia. eexists. split; [done|]. unfold zlen in *. split_and!.
  - by rewrite length_insert.
  - rewrite cell_at_lookup by lia. apply list_lookup_insert_eq. lia.
  - intros j Hj. unfold cell_at. destruct (Z.ltb_spec j 0); [done|]. apply list_lookup_insert_ne. lia.
  - done.
Qed.

Lemma put_cell_split m i x :
  0 <= i < zlen m -> put_cell m i x = Some (ztake i m ++ x :: zdrop (i + 1) m).
Proof.
  intros Hi. destruct (put_cell_some m i x Hi) as (m' & -> & _ & _ & _ & ->). unfold ztake, zdrop, zlen in *. f_equal.
  rewrite insert_take_drop by lia. do 3 f_equal. lia.
Qed.

End cells.

Lemma zlen_seqZ a n : 0 <= n -> zlen (seqZ a n) = n.
Proof. intros Hn. unfold zlen. rewrite length_seqZ. lia. Qed.

(** ** Pilots *)

(** The array of a row [p] and a subframe. *)
Definition array (pilots : list (list (list sample))) (p ns : Z) : option (list sample) := row ← cell_at pilots p; cell_at row ns.

(** Two rows of new arrays. *)
Lemma fresh_arrays malloc (k p ns : Z) :
  0 <= p < 2 -> 0 <= ns < 10 ->
  let row := map (fun _ => malloc k) (seqZ 0 SRSRAN_NOF_SF_X_FRAME) in array [row; row] p ns = Some (malloc k).
Proof.
  intros Hp Hns row. unfold array.
  assert (cell_at [row; row] p = Some row) as -> by (rewrite cell_at_lookup by lia; assert (p = 0 \/ p = 1) as [-> | ->] by lia; done).
  cbn [mbind option_bind]. rewrite cell_at_lookup by lia. unfold row. change (map ?h ?l) with (h <$> l). rewrite list_lookup_fmap.
  by assert (seqZ 0 SRSRAN_NOF_SF_X_FRAME !! Z.to_nat ns = Some ns) as -> by (apply lookup_seqZ; unfold SRSRAN_NOF_SF_X_FRAME; lia).
Qed.

Lemma at_subframe_spec p ns f pilots a a' :
  array pilots p ns = Some a -> f a = Some a' ->
  exists pilots', at_subframe p ns f pilots = Some pilots' /\ array pilots' p ns = Some a' /\
    forall p' ns', (p', ns') <> (p, ns) -> array pilots' p' ns' = array pilots p' ns'.
Proof.
  unfold array, at_subframe. intros Ha Hf. destruct (cell_at pilots p) as [row|] eqn:Er; [|done]. cbn [mbind option_bind] in *.
  rewrite Ha. cbn [mbind option_bind]. rewrite Hf. cbn [mbind option_bind].
  destruct (put_cell_some row ns a' (cell_at_bound _ _ _ Ha)) as (row' & -> & _ & E1 & E2 & _). cbn [mbind option_bind].
  destruct (put_cell_some pilots p row' (cell_at_bound _ _ _ Er)) as (pilots' & E & _ & E3 & E4 & _).
  exists pilots'. split; [done|]. rewrite E3. split; [done|]. intros p' ns' Hne.
  destruct (decide (p' = p)) as [->|Hp].
  - rewrite E3, Er. cbn [mbind option_bind]. apply E2. congruence.
  - by rewrite E4.
Qed.

Lemma fill_pilots_spec c_ n idx mp pilots a f :
  0 <= n -> 0 <= a -> a + n <= zlen pilots ->
  (forall i, 0 <= i < n -> u32 (idx i) = a + i /\ pilot_of c_ (u32 (mp i)) = Some (f i)) ->
  fill_pilots c_ n idx mp pilots = Some (ztake a pilots ++ map f (seqZ 0 n) ++ zdrop (a + n) pilots).
Proof.
  intros Hn Ha Hz H. unfold fill_pilots.
  destruct (for_loop_inv (fun i st => st = ztake a pilots ++ map f (seqZ 0 i) ++ zdrop (a + i) pilots) (Z.to_nat n) 0
    (fun i pilots => x ← pilot_of c_ (u32 (mp i)); put_cell pilots (u32 (idx i)) x) pilots) as (st & E & ->).
  - change (map f (seqZ 0 0)) with (@nil sample). cbn [app]. by rewrite Z.add_0_r, ztake_zdrop.
  - intros i st Hi ->. destruct (H i ltac:(lia)) as [-> ->]. cbn [mbind option_bind].
    assert (Zl : zlen (ztake a pilots ++ map f (seqZ 0 i)) = a + i).
    { rewrite zlen_app, zlen_map, zlen_ztake, zlen_seqZ by lia. lia. }
    rewrite app_assoc. rewrite put_cell_split; [|rewrite zlen_app, Zl, zlen_zdrop; lia].
    rewrite (ztake_app_eq (a + i)) by done. eexists. split; [done|].
    rewrite (zdrop_behind _ pilots (a + i) 1) by (done || lia). rewrite seqZ_app by lia. rewrite map_app. cbn.
    rewrite <- !app_assoc. cbn. by rewrite Z.add_assoc.
  - rewrite E. do 2 f_equal. rewrite !Z2Nat.id by lia. done.
Qed.

(** ** Subframes of 1.25 kHz *)

(** The reference signal [i]: two elements of the sequence. *)
Definition mbsfn_pilot (nof_prb : Z) (f1 f2 : Z -> bool) (i : Z) : sample :=
  let m' := i + 3 * (SRSRAN_MAX_PRB - nof_prb) in
  (2, (1 - 2 * Z.b2z (gold_bit f1 f2 (2 * m')), 1 - 2 * Z.b2z (gold_bit f1 f2 (2 * m' + 1)))).

Definition mbsfn_pilots (nof_prb : Z) (f1 f2 : Z -> bool) : list sample := map (mbsfn_pilot nof_prb f1 f2) (seqZ 0 (24 * nof_prb)).

(** The array starts with the reference signals of the subframe. *)
Definition holds_pilots (nof_prb area ns : Z) (a : list sample) : Prop :=
  forall f1 f2, gold (mbsfn_c_init SRSRAN_SCS_1KHZ25 ns 0 area) f1 f2 -> exists rest, a = mbsfn_pilots nof_prb f1 f2 ++ rest.

Lemma load_gold f1 f2 n r i : 0 <= i < n -> load (gold_bits f1 f2 0 n ++ r) i = Some (Z.b2z (gold_bit f1 f2 i)).
Proof.
  intros Hi. unfold load. destruct (Z.ltb_spec i 0); [lia|]. unfold gold_bits. rewrite lookup_app_l by (rewrite length_map, length_seqZ; lia).
  change (map ?h (seqZ 0 n)) with (h <$> seqZ 0 n). rewrite list_lookup_fmap.
  assert (E : seqZ 0 n !! Z.to_nat i = Some i) by (apply lookup_seqZ; lia). by rewrite E.
Qed.

Section generate.
Variables (area : Z) (cell : srsran_cell_t).
Hypothesis Hn : 1 <= nof_prb cell <= SRSRAN_MAX_PRB.

Let n := 24 * nof_prb cell.

Definition shape (pilots : list (list (list sample))) : Prop :=
  forall p ns, 0 <= p < 2 -> 0 <= ns < 10 -> exists a, array pilots p ns = Some a /\ n <= zlen a.

(** The arrays of [P] are filled; the buffer of the sequence has its size. *)
Definition filled (P : Z -> Z -> Prop) (st : list (list (list sample)) * srsran_sequence_t) : Prop :=
  shape st.1 /\ (forall p ns a, 0 <= p < 2 -> 0 <= ns < 10 -> P p ns -> array st.1 p ns = Some a -> holds_pilots (nof_prb cell) area ns a) /\
  exists m, c st.2 = Some m /\ zlen m = 52800 /\ max_len st.2 = 52800.

Lemma filled_weaken (P Q : Z -> Z -> Prop) st : filled P st -> (forall p ns, 0 <= p < 2 -> 0 <= ns < 10 -> Q p ns -> P p ns) -> filled Q st.
Proof. intros (H1 & H2 & H3) HQ. split_and!; [done| |done]. intros p ns a Hp Hns Hq. apply H2; auto. Qed.

Lemma fill_one ns a f1 f2 r :
  gold (mbsfn_c_init SRSRAN_SCS_1KHZ25 ns 0 area) f1 f2 -> n <= zlen a ->
  fill_pilots (gold_bits f1 f2 0 26400 ++ r) n (fun i => SRSRAN_REFSIGNAL_PILOT_IDX_MBSFN i 0 cell SRSRAN_SCS_1KHZ25)
    (fun i => i + 3 * (SRSRAN_MAX_PRB - nof_prb cell)) a = Some (mbsfn_pilots (nof_prb cell) f1 f2 ++ zdrop n a).
Proof.
  intros Hg Ha. unfold n, SRSRAN_MAX_PRB in *. rewrite (fill_pilots_spec _ _ _ _ _ 0 (mbsfn_pilot (nof_prb cell) f1 f2)); try lia; [done|].
  intros i Hi. unfold SRSRAN_REFSIGNAL_PILOT_IDX_MBSFN. rewrite Z.mul_0_r. rewrite !u32_id by (unfold is_u32; lia). split; [done|].
  unfold pilot_of. rewrite !load_gold by lia. cbn [mbind option_bind]. unfold mbsfn_pilot, SRSRAN_MAX_PRB. by rewrite Z.add_0_r.
Qed.

(** The body of the loops. *)
Definition gen_turn (ns p : Z) (st : list (list (list sample)) * srsran_sequence_t) : option (list (list (list sample)) * srsran_sequence_t) :=
  for_loop 1 0 (fun l '(pilots, seq) =>
    '(_, seq) ← srsran_sequence_set_LTE_pr seq 26400 (mbsfn_c_init SRSRAN_SCS_1KHZ25 ns l area);
    c_ ← c seq;
    pilots ← at_subframe p ns (fill_pilots c_ n
      (fun i => SRSRAN_REFSIGNAL_PILOT_IDX_MBSFN i l cell SRSRAN_SCS_1KHZ25) (fun i => i + 3 * (SRSRAN_MAX_PRB - nof_prb cell))) pilots;
    Some (pilots, seq)) st.

Lemma gen_turn_spec P ns p st :
  filled P st -> 0 <= p < 2 -> 0 <= ns < 10 ->
  exists st', gen_turn ns p st = Some st' /\ filled (fun p' ns' => P p' ns' \/ (p', ns') = (p, ns)) st'.
Proof.
  destruct st as [pilots seq]. intros (Hs & Hf & m & Em & Zm & Em') Hp Hns. cbn [fst snd] in *.
  destruct (gold_exists (mbsfn_c_init SRSRAN_SCS_1KHZ25 ns 0 area)) as (g1 & g2 & Hg).
  unfold gen_turn. cbn [for_loop]. unfold srsran_sequence_set_LTE_pr. rewrite Em', Em. change (26400 >? 52800) with false. cbv iota. cbn [mbind option_bind].
  rewrite (gen_spec g1 g2 _ Hg) by lia. destruct (store_prefix m (gold_bits g1 g2 0 26400)) as (r & -> & Zr); [rewrite zlen_gold_bits; lia|].
  cbn [mbind option_bind c]. destruct (Hs p ns Hp Hns) as (a & Ea & Za).
  pose proof (fill_one ns a g1 g2 r Hg Za) as E.
  destruct (at_subframe_spec p ns _ pilots a _ Ea E) as (pilots' & -> & E1 & E2). cbn [mbind option_bind]. eexists. split; [done|].
  assert (Zn : zlen (mbsfn_pilots (nof_prb cell) g1 g2) = n) by (unfold mbsfn_pilots; rewrite zlen_map, zlen_seqZ by (unfold n in *; lia); done).
  split_and!; cbn [fst snd].
  - intros p' ns' Hp' Hns'. destruct (decide ((p', ns') = (p, ns))) as [[= -> ->]|Hne]; [|rewrite E2 by done; by apply Hs].
    eexists. split; [done|]. rewrite zlen_app, Zn. pose proof (zlen_nonneg (zdrop n a)). lia.
  - intros p' ns' a' Hp' Hns' HP Ea'. destruct (decide ((p', ns') = (p, ns))) as [[= -> ->]|Hne].
    + rewrite E1 in Ea'. injection Ea' as <-. intros f1 f2 Hgf. exists (zdrop n a). f_equal.
      pose proof (fill_one ns a f1 f2 r Hgf Za) as F. rewrite <- (gen_spec f1 f2 _ Hgf), (gen_spec g1 g2 _ Hg), E in F by lia. by injection F as F%app_inv_tail.
    + rewrite E2 in Ea' by done. apply (Hf p' ns' a'); try done. destruct HP as [HP|HP]; [done|by destruct Hne].
  - cbn [c max_len]. eexists. split_and!; [done|by rewrite Zr|done].
Qed.

Lemma mbsfn_gen_seq_spec q :
  rs_cell q = cell -> shape (rs_pilots q) ->
  exists q', srsran_refsignal_mbsfn_gen_seq q cell area SRSRAN_SCS_1KHZ25 = Some (0, q') /\ rs_cell q' = cell /\
    forall p ns, 0 <= p < 2 -> 0 <= ns < 10 -> exists a, array (rs_pilots q') p ns = Some a /\ holds_pilots (nof_prb cell) area ns a.
Proof.
  intros Hc Hs. unfold srsran_refsignal_mbsfn_gen_seq. rewrite Hc.
  change (20 * SRSRAN_REFSIGNAL_NUM_SF_MBSFN SRSRAN_MAX_PRB SRSRAN_SCS_1KHZ25) with 52800.
  set (seq0 := srsran_sequence_init sequence_zero 52800).
  destruct (for_loop_inv (fun ns => filled (fun _ ns' => ns' < ns)) (Z.to_nat SRSRAN_NOF_SF_X_FRAME) 0 (fun ns => for_loop 2 0 (gen_turn ns)) (rs_pilots q, seq0))
    as ([pilots seq] & E & Hs' & Hf & _).
  - split_and!; [done|cbn; lia|]. exists (replicate (Z.to_nat 52800) 0). split_and!; [done|unfold zlen; by rewrite length_replicate|done].
  - intros ns st Hns Hst.
    destruct (for_loop_inv (fun p => filled (fun p' ns' => ns' < ns \/ ns' = ns /\ p' < p)) 2 0 (gen_turn ns) st) as (st' & E & Hst').
    + apply (filled_weaken _ _ _ Hst). intros p' ns' Hp' Hns' H. lia.
    + intros p st1 Hp H1. destruct (gen_turn_spec _ ns p st1 H1) as (st2 & E2 & H2); [lia|unfold SRSRAN_NOF_SF_X_FRAME in Hns; lia|].
      exists st2. split; [done|]. apply (filled_weaken _ _ _ H2). intros p' ns' Hp' Hns' H.
      destruct (decide ((p', ns') = (p, ns))) as [|Hne]; [by right|left]. assert (p' <> p \/ ns' <> ns) by (destruct (decide (p' = p)), (decide (ns' = ns)); subst; auto; done). lia.
    + exists st'. split; [done|]. apply (filled_weaken _ _ _ Hst'). intros p' ns' Hp' Hns' H. lia.
  - match goal with |- context [for_loop (Z.to_nat SRSRAN_NOF_SF_X_FRAME) 0 ?f ?st] =>
      replace (for_loop (Z.to_nat SRSRAN_NOF_SF_X_FRAME) 0 f st) with (Some (pilots, seq)) by (symmetry; exact E) end. cbn [mbind option_bind].
    eexists. split; [done|]. cbn [rs_cell rs_pilots]. split; [done|]. intros p ns Hp Hns. destruct (Hs' p ns Hp Hns) as (a & Ea & _).
    exists a. split; [done|]. apply (Hf p ns a Hp Hns); [|done]. change (0 + Z.of_nat (Z.to_nat SRSRAN_NOF_SF_X_FRAME)) with 10. lia.
Qed.

End generate.

(** The object of the transmitter after its initialisation for a cell. *)
Lemma mbsfn_refsignal_ready malloc max_prb cell area :
  (forall k, 0 <= k -> zlen (malloc k) = k) -> srsran_cell_isvalid cell = true -> nof_prb cell <= max_prb <= SRSRAN_MAX_PRB ->
  exists q, srsran_refsignal_mbsfn_set_cell (srsran_refsignal_mbsfn_init malloc max_prb SRSRAN_SCS_1KHZ25) cell area SRSRAN_SCS_1KHZ25 = Some (0, q) /\
    rs_cell q = cell /\ forall port ns, 0 <= port < 4 -> 0 <= ns < 10 -> exists a, port_pilots q port ns = Some a /\ holds_pilots (nof_prb cell) area ns a.
Proof.
  intros Hm Hv Hp. pose proof (isvalid_prb cell Hv) as Hn. unfold srsran_refsignal_mbsfn_set_cell. cbn [rs_cell rs_pilots rs_type rs_area_id srsran_refsignal_mbsfn_init].
  set (row := map _ (seqZ 0 SRSRAN_NOF_SF_X_FRAME)).
  destruct (mbsfn_gen_seq_spec area cell Hn (mk_refsignal cell [row; row] SRSRAN_SF_MBSFN area)) as (q & E & Hc & Hq); [done| |].
  - intros p ns Hp' Hns. cbn [rs_pilots]. unfold row. rewrite fresh_arrays by done.
    eexists. split; [done|]. change (srsran_refsignal_mbsfn_rs_per_rb SRSRAN_SCS_1KHZ25) with 24. unfold SRSRAN_MAX_PRB in *.
    rewrite u32_id by (unfold is_u32; lia). rewrite Hm; lia.
  - rewrite E. cbn [mbind option_bind]. exists q. split; [done|]. split; [done|]. intros port ns Hport Hns.
    pose proof (Z.div_mod port 2 ltac:(lia)). pose proof (Z.mod_pos_bound port 2 ltac:(lia)). exact (Hq (port / 2) ns ltac:(lia) Hns).
Qed.

(** ** The signals of a cell *)

Section cell_signals.
Variable cell : srsran_cell_t.
Hypothesis Hn : 1 <= nof_prb cell <= SRSRAN_MAX_PRB.

(** Room for four symbols of reference signals; the buffer of the sequence has its size. *)
Definition cs_shape (st : list (list (list sample)) * srsran_sequence_t) : Prop :=
  (forall p ns, 0 <= p < 2 -> 0 <= ns < 10 -> exists a, array st.1 p ns = Some a /\ 8 * nof_prb cell <= zlen a) /\
  exists m, c st.2 = Some m /\ zlen m = 440 /\ max_len st.2 = 440.

Lemma cs_turn q ns p l st :
  cs_shape st -> 0 <= ns < 20 -> 0 <= p < 2 ->
  let nsymbols := srsran_refsignal_cs_nof_symbols q (cs_sf_cfg ns) (2 * p) / 2 in
  0 <= l < nsymbols ->
  exists st', (let '(pilots, seq) := st in
    '(_, seq) ← srsran_sequence_set_LTE_pr seq 440 (cs_c_init cell ns l p);
    c_ ← c seq;
    pilots ← at_subframe p (ns / 2) (fill_pilots c_ (2 * nof_prb cell)
      (fun i => SRSRAN_REFSIGNAL_PILOT_IDX i (ns mod 2 * nsymbols + l) cell) (fun i => i + SRSRAN_MAX_PRB - nof_prb cell)) pilots;
    Some (pilots, seq)) = Some st' /\ cs_shape st'.
Proof.
  destruct st as [pilots seq]. intros (Hs & m & Em & Zm & Em') Hns Hp nsymbols Hl. cbn [fst snd] in *. unfold SRSRAN_MAX_PRB in *.
  assert (Hsy : 1 <= nsymbols <= 2).
  { unfold nsymbols, srsran_refsignal_cs_nof_symbols, cs_sf_cfg. cbn [tdd_config configured negb]. rewrite orb_true_r. cbn [orb]. destruct (2 * p <? 2); vm_compute; split; congruence. }
  pose proof (Z.mod_pos_bound ns 2 ltac:(lia)) as Hm2. pose proof (Z.div_mod ns 2 ltac:(lia)) as Hd2. set (b := ns mod 2 * nsymbols + l). assert (Hb : 0 <= b < 4) by (unfold b; nia).
  unfold srsran_sequence_set_LTE_pr. rewrite Em', Em. change (440 >? 440) with false. cbv iota. cbn [mbind option_bind].
  destruct (gold_exists (cs_c_init cell ns l p)) as (g1 & g2 & Hg). rewrite (gen_spec g1 g2 _ Hg) by lia.
  destruct (store_prefix m (gold_bits g1 g2 0 440)) as (r & -> & Zr); [rewrite zlen_gold_bits; lia|]. cbn [mbind option_bind c].
  destruct (Hs p (ns / 2) Hp ltac:(lia)) as (a & Ea & Za).
  assert (F : fill_pilots (gold_bits g1 g2 0 440 ++ r) (2 * nof_prb cell) (fun i => SRSRAN_REFSIGNAL_PILOT_IDX i b cell) (fun i => i + 110 - nof_prb cell) a =
    Some (ztake (2 * nof_prb cell * b) a ++ map (fun i => (2, (1 - 2 * Z.b2z (gold_bit g1 g2 (2 * (i + 110 - nof_prb cell) + 0)), 1 - 2 * Z.b2z (gold_bit g1 g2 (2 * (i + 110 - nof_prb cell) + 1)))))
      (seqZ 0 (2 * nof_prb cell)) ++ zdrop (2 * nof_prb cell * b + 2 * nof_prb cell) a)).
  { apply fill_pilots_spec; try nia. intros i Hi. unfold SRSRAN_REFSIGNAL_PILOT_IDX. rewrite !u32_id by (unfold is_u32; nia). split; [done|].
    unfold pilot_of. by rewrite !load_gold by lia. }
  destruct (at_subframe_spec p (ns / 2) _ pilots a _ Ea F) as (pilots' & -> & E1 & E2). cbn [mbind option_bind]. eexists. split; [done|]. split; cbn [fst snd].
  - intros p' ns' Hp' Hns'. destruct (decide ((p', ns') = (p, ns / 2))) as [[= -> ->]|Hne]; [|rewrite E2 by done; by apply Hs].
    eexists. split; [done|]. rewrite !zlen_app, zlen_map, zlen_ztake, zlen_zdrop by nia. rewrite zlen_seqZ; lia.
  - eexists. split_and!; [done|by rewrite Zr|done].
Qed.

End cell_signals.

Lemma cs_refsignal_ready malloc max_prb cell :
  (forall k, 0 <= k -> zlen (malloc k) = k) -> srsran_cell_isvalid cell = true -> nof_prb cell <= max_prb <= SRSRAN_MAX_PRB ->
  exists q, srsran_refsignal_cs_set_cell (srsran_refsignal_cs_init malloc max_prb) cell = Some (0, q) /\ rs_cell q = cell /\
    forall port ns, 0 <= port < 4 -> 0 <= ns < 10 -> exists a, port_pilots q port ns = Some a.
Proof.
  intros Hm Hv Hp. pose proof (isvalid_prb cell Hv) as Hn. unfold srsran_refsignal_cs_set_cell. rewrite Hv. cbn [negb rs_cell rs_pilots rs_type rs_area_id srsran_refsignal_cs_init nof_prb cell_zero].
  change (0 =? 0) with true. cbn [negb]. rewrite andb_false_r. set (row := map _ (seqZ 0 SRSRAN_NOF_SF_X_FRAME)). set (seq0 := srsran_sequence_init _ _).
  set (q0 := mk_refsignal cell [row; row] SRSRAN_SF_NORM 0).
  assert (H0 : cs_shape cell ([row; row], seq0)).
  { split; [|exists (replicate 440 0); done]. intros p ns Hp' Hns. cbn [fst]. unfold row. rewrite fresh_arrays by done.
    eexists. split; [done|]. unfold SRSRAN_MAX_PRB in *. change (SRSRAN_REFSIGNAL_MAX_NUM_SF_MBSFN max_prb) with (24 * max_prb).
    rewrite u32_id by (unfold is_u32; lia). rewrite Hm; lia. }
  match goal with |- context [for_loop 20 0 ?f ?st] => destruct (for_loop_inv (fun _ => cs_shape cell) 20 0 f st H0) as ([pilots seq] & E & Hs & _) end.
  - intros ns st Hns Hst. apply (for_loop_inv (fun _ => cs_shape cell)); [done|]. intros p st1 Hp1 H1. cbv zeta.
    apply (for_loop_inv (fun _ => cs_shape cell)); [done|]. intros l [pilots seq] Hl H2.
    apply (cs_turn cell Hn q0 ns p l (pilots, seq) H2); lia.
  - rewrite E. cbn [mbind option_bind]. eexists. split; [done|]. split; [done|]. intros port ns Hport Hns. unfold port_pilots. cbn [rs_pilots].
    pose proof (Z.div_mod port 2 ltac:(lia)). pose proof (Z.mod_pos_bound port 2 ltac:(lia)). destruct (Hs (port / 2) ns ltac:(lia) Hns) as (a & Ea & _). by exists a.
Qed.
