(* ===== verification/Pmch.v ===== *)
(** * The multicast channel of the physical layer

    [lib/src/phy/phch/pmch.c]: the object with its tables, buffers and scrambling sequences, the
    configuration of a transmission and the encoder; of [lib/src/phy/enb/enb_dl.c] and
    [srsenb/src/phy/lte/cc_worker.cc] the functions around it.

    Memory is available: [malloc] gives arrays of the size that is asked for, with any contents.
    The buffers that only the receiver uses ([x], [ce]) are left out.  The static tables of the
    turbo encoder and of the rate matching are arguments. *)

From stdpp Require Import base list gmap numbers list_basics list_relations.
From S2P Require Import Prelude Mbsfn Sequence CbSegm TurboCoder RateMatch Sch PhyCommon Ra Modulation MbsfnGrid RefSignal.

Local Open Scope Z_scope.

(** ** The object *)

Record srsran_pmch_t := mk_pmch {
  q_cell : srsran_cell_t;
  nof_rx_antennas : Z;
  max_re : Z;
  q_symbols : list (option (list sample));
  q_d : list sample;
  q_e : list Z;
  q_mod : list srsran_modem_table_t;
  q_seqs : list (option (list srsran_sequence_t));
  dl_sch : srsran_sch_t
}.

Definition MAX_PMCH_RE (scs : srsran_scs_t) : Z := SRSRAN_MBSFN_NOF_SLOTS scs * SRSRAN_MBSFN_NOF_SYMBOLS scs * SRSRAN_NRE_SCS scs.

Definition modulations : list srsran_mod_t := [SRSRAN_MOD_BPSK; SRSRAN_MOD_QPSK; SRSRAN_MOD_16QAM; SRSRAN_MOD_64QAM].

Section init.
Variables (malloc : Z -> list Z) (malloc_cf : Z -> list sample).

(** The status, the object and the static tables. *)
Definition srsran_pmch_init (t : tcod_tables) (rm : rm_tables) (q : srsran_pmch_t) (max_prb nof_rx : Z) :
    option (Z * srsran_pmch_t * tcod_tables * rm_tables) :=
  if nof_rx >? SRSRAN_MAX_PORTS then Some (SRSRAN_ERROR_INVALID_INPUTS, q, t, rm)
  else
    let max_re := u32 (max_prb * MAX_PMCH_RE SRSRAN_SCS_1KHZ25) in
    let mod_ := map (fun m => srsran_modem_table_bytes (srsran_modem_table_lte m)) modulations in
    '(sch, t, rm) ← srsran_sch_init t rm malloc;
    let e := malloc (2 * u32 (max_re * srsran_mod_bits_x_symbol SRSRAN_MOD_64QAM)) in
    let symbols := map (fun j => if j <? nof_rx then Some (malloc_cf max_re) else None) (seqZ 0 SRSRAN_MAX_PORTS) in
    let seqs := replicate (Z.to_nat SRSRAN_MAX_MBSFN_AREA_IDS) None in
    Some (0, mk_pmch (mk_cell max_prb 1 0 SRSRAN_CP_NORM SRSRAN_FDD 0) nof_rx max_re symbols (malloc_cf max_re) e mod_ seqs sch, t, rm).

End init.

Definition with_cell (q : srsran_pmch_t) (cell : srsran_cell_t) (max_re : Z) : srsran_pmch_t :=
  mk_pmch cell (nof_rx_antennas q) max_re (q_symbols q) (q_d q) (q_e q) (q_mod q) (q_seqs q) (dl_sch q).

Definition with_seqs (q : srsran_pmch_t) (seqs : list (option (list srsran_sequence_t))) : srsran_pmch_t :=
  mk_pmch (q_cell q) (nof_rx_antennas q) (max_re q) (q_symbols q) (q_d q) (q_e q) (q_mod q) seqs (dl_sch q).

Definition srsran_pmch_set_cell (q : srsran_pmch_t) (cell : srsran_cell_t) : Z * srsran_pmch_t :=
  if srsran_cell_isvalid cell then (0, with_cell q cell (u32 (nof_prb cell * MAX_PMCH_RE SRSRAN_SCS_1KHZ25)))
  else (SRSRAN_ERROR_INVALID_INPUTS, q).

(** The loop over the subframes from [i] on; the status and the sequences. *)
Fixpoint area_sequences (n : nat) (i area_id len : Z) (seqs : list srsran_sequence_t) : option (Z * list srsran_sequence_t) :=
  match n with
  | O => Some (0, seqs)
  | S n =>
      s ← cell_at seqs i;
      '(ret, s) ← srsran_sequence_pmch s (2 * i) area_id len;
      seqs ← put_cell seqs i s;
      if negb (ret =? 0) then Some (SRSRAN_ERROR, seqs) else area_sequences n (i + 1) area_id len seqs
  end.

Definition srsran_pmch_set_area_id (q : srsran_pmch_t) (area_id : Z) : option (Z * srsran_pmch_t) :=
  known ← cell_at (q_seqs q) area_id;
  match known with
  | Some _ => Some (0, q)
  | None =>
      '(ret, seqs) ← area_sequences (Z.to_nat SRSRAN_NOF_SF_X_FRAME) 0 area_id (u32 (max_re q * srsran_mod_bits_x_symbol SRSRAN_MOD_64QAM))
        (replicate (Z.to_nat SRSRAN_NOF_SF_X_FRAME) sequence_zero);
      all ← put_cell (q_seqs q) area_id (Some seqs);
      Some (ret, with_seqs q all)
  end.

Definition srsran_pmch_free_area_id (q : srsran_pmch_t) (area_id : Z) : option srsran_pmch_t :=
  known ← cell_at (q_seqs q) area_id;
  match known with
  | Some _ => all ← put_cell (q_seqs q) area_id None; Some (with_seqs q all)
  | None => Some q
  end.

(** ** The configuration of a transmission *)

(** [pdsch_cfg] with the grant; its soft buffer is an argument of the encoder. *)
Record srsran_pmch_cfg_t := mk_pmch_cfg { pc_rnti : Z; pc_grant : srsran_pdsch_grant_t; pc_area_id : Z }.

Definition tb_zero : srsran_ra_tb_t := mk_tb SRSRAN_MOD_BPSK 0 0 0 false 0.
Definition grant_zero : srsran_pdsch_grant_t :=
  mk_grant (replicate 2 (replicate (Z.to_nat SRSRAN_MAX_PRB) false)) 0 0 (0, 0) [tb_zero; tb_zero] [0; 0] 0 0.
Definition pmch_cfg_zero : srsran_pmch_cfg_t := mk_pmch_cfg 0 grant_zero 0.

(** The loop that takes the first [n] resource blocks of a slot. *)
Definition take_prbs (n : Z) (row : list bool) : option (list bool) :=
  for_loop (Z.to_nat n) 0 (fun j row => put_cell row j true) row.

Definition srsran_configure_pmch (cfg : srsran_pmch_cfg_t) (cell : srsran_cell_t) (mbsfn_cfg : srsran_mbsfn_cfg_t) : option srsran_pmch_cfg_t :=
  let g := pc_grant cfg in
  let n := mbsfn_prb cell in
  tb0 ← cell_at (g_tb g) 0;
  let tb0 := mk_tb (tb_mod tb0) (tb_tbs tb0) SRSRAN_PMCH_RV (tb_nof_bits tb0) (cfg_enable mbsfn_cfg) (cfg_mcs mbsfn_cfg) in
  last ← put_cell (last_tbs g) 0 0;
  last0 ← cell_at last 0;
  let '(_, tb0) := srsran_dl_fill_ra_mcs tb0 last0 n false in
  tbs ← put_cell (g_tb g) 0 tb0;
  rows ← for_loop 2 0 (fun i rows => row ← cell_at rows i; row ← take_prbs n row; put_cell rows i row) (prb_idx g);
  Some (mk_pmch_cfg SRSRAN_MRNTI (mk_grant rows n (g_nof_re g) (nof_symb_slot g) tbs last 1 1) 1).

(** ** The encoder *)

(** The factor of a constellation: its levels are divided by the root of this number. *)
Definition norm_of (m : srsran_mod_t) : Z :=
  match m with
  | SRSRAN_MOD_BPSK | SRSRAN_MOD_QPSK => 2
  | SRSRAN_MOD_16QAM => 10
  | SRSRAN_MOD_64QAM => 42
  | SRSRAN_MOD_256QAM => 170
  | SRSRAN_MOD_NITEMS => 0
  end.

(** The index of a modulation in the enumeration. *)
Definition mod_index (m : srsran_mod_t) : Z :=
  match m with
  | SRSRAN_MOD_BPSK => 0 | SRSRAN_MOD_QPSK => 1 | SRSRAN_MOD_16QAM => 2 | SRSRAN_MOD_64QAM => 3 | SRSRAN_MOD_256QAM => 4 | SRSRAN_MOD_NITEMS => 5
  end.

(** Whether one of the first [n] pointers is NULL. *)
Fixpoint null_port (n : nat) (sf_symbols : list (option (list sample))) : option bool :=
  match n, sf_symbols with
  | O, _ => Some false
  | S _, [] => None
  | S _, None :: _ => Some true
  | S n, Some _ :: l => null_port n l
  end.

(** [srsran_mod_modulate_bytes] into the array [d], whose contents stay when it refuses. *)
Definition modulate_into (table : srsran_modem_table_t) (norm : Z) (e : list Z) (d : list sample) (nof_bits : Z) : option (list sample) :=
  r ← srsran_mod_modulate_bytes table e nof_bits;
  match r with
  | inl _ => Some d
  | inr symbols => copy_cells d 0 (map (pair norm) symbols) 0 (zlen symbols)
  end.

(** The loop over the ports. *)
Definition put_ports (q : srsran_pmch_t) (sf : srsran_dl_sf_cfg_t) (lstart : Z) (sf_symbols : list (option (list sample))) :
    option (list (option (list sample))) :=
  for_loop (Z.to_nat (nof_ports (q_cell q))) 0 (fun i sf_symbols =>
    symbols ← cell_at (q_symbols q) i; symbols ← symbols;
    grid ← cell_at sf_symbols i; grid ← grid;
    '(_, grid) ← pmch_put (nof_prb (q_cell q)) symbols grid (subcarrier_spacing sf) lstart (sf_tti sf mod 10);
    put_cell sf_symbols i (Some grid)) sf_symbols.

(** The status, the object, the soft buffer and the grids of the ports. *)
Definition srsran_pmch_encode (t : tcod_tables) (rm : rm_tables) (q : srsran_pmch_t) (sb : srsran_softbuffer_tx_t) (sf : srsran_dl_sf_cfg_t)
    (cfg : srsran_pmch_cfg_t) (data : option (list Z)) (sf_symbols : list (option (list sample))) :
    option (Z * srsran_pmch_t * srsran_softbuffer_tx_t * list (option (list sample))) :=
  let g := pc_grant cfg in
  null ← null_port (Z.to_nat (nof_ports (q_cell q))) sf_symbols;
  tb ← cell_at (g_tb g) 0;
  if (null : bool) then Some (SRSRAN_ERROR_INVALID_INPUTS, q, sb, sf_symbols)
  else if tb_tbs tb =? 0 then Some (SRSRAN_ERROR_INVALID_INPUTS, q, sb, sf_symbols)
  else if g_nof_re g >? max_re q then Some (SRSRAN_ERROR_INVALID_INPUTS, q, sb, sf_symbols)
  else
    '(ret, sch, sb, e) ← srsran_dlsch_encode t rm (dl_sch q) sb tb (g_nof_tb g) data (q_e q);
    if negb (ret =? 0)
    then Some (SRSRAN_ERROR, mk_pmch (q_cell q) (nof_rx_antennas q) (max_re q) (q_symbols q) (q_d q) e (q_mod q) (q_seqs q) sch, sb, sf_symbols)
    else
      area ← cell_at (q_seqs q) (pc_area_id cfg); area ← area;
      seq ← cell_at area (sf_tti sf mod 10);
      e ← srsran_scrambling_bytes seq e (tb_nof_bits tb);
      table ← cell_at (q_mod q) (mod_index (tb_mod tb));
      d ← modulate_into table (norm_of (tb_mod tb)) e (q_d q) (tb_nof_bits tb);
      symbols0 ← cell_at (q_symbols q) 0; symbols0 ← symbols0;
      symbols0 ← copy_cells symbols0 0 d 0 (g_nof_re g);
      symbols ← put_cell (q_symbols q) 0 (Some symbols0);
      let q := mk_pmch (q_cell q) (nof_rx_antennas q) (max_re q) symbols d e (q_mod q) (q_seqs q) sch in
      sf_symbols ← put_ports q sf 0 sf_symbols;
      Some (0, q, sb, sf_symbols).

(** How [srsran_pmch_decode] begins for one antenna: it takes the symbols from the grid behind
    the control symbols that the subframe's configuration states, and is done with an error
    when they are not as many as the grant says.  The status and the buffer of symbols. *)
Definition pmch_decode_extract (cell : srsran_cell_t) (sf : srsran_dl_sf_cfg_t) (nof_re : Z) (sf_symbols symbols : list sample) :
    option (Z * list sample) :=
  let lstart := SRSRAN_NOF_CTRL_SYMBOLS cell (sf_cfi sf) in
  '(n, symbols) ← pmch_get (nof_prb cell) sf_symbols symbols lstart (subcarrier_spacing sf) (sf_tti sf mod 10);
  if negb (n =? nof_re) then Some (SRSRAN_ERROR, symbols) else Some (0, symbols).

(** ** The transmitter around it *)

(** [srsran_enb_dl_t] without the other channels. *)
Record srsran_enb_dl_t := mk_enb_dl {
  ed_cell : srsran_cell_t;
  ed_dl_sf : srsran_dl_sf_cfg_t;
  ed_sf_symbols : list (option (list sample));
  ed_pmch : srsran_pmch_t;
  ed_csr_signal : srsran_refsignal_t;
  ed_mbsfnr_signal : srsran_refsignal_t
}.

Definition with_symbols (q : srsran_enb_dl_t) (sf_symbols : list (option (list sample))) : srsran_enb_dl_t :=
  mk_enb_dl (ed_cell q) (ed_dl_sf q) sf_symbols (ed_pmch q) (ed_csr_signal q) (ed_mbsfnr_signal q).

(** The grid of the port [i] changed by [f]. *)
Definition at_port (i : Z) (f : list sample -> option (list sample)) (q : srsran_enb_dl_t) : option srsran_enb_dl_t :=
  grid ← cell_at (ed_sf_symbols q) i; grid ← grid;
  grid ← f grid;
  sf_symbols ← put_cell (ed_sf_symbols q) i (Some grid);
  Some (with_symbols q sf_symbols).

Definition clear_sf (q : srsran_enb_dl_t) : option srsran_enb_dl_t :=
  for_loop (Z.to_nat (nof_ports (ed_cell q))) 0 (fun i =>
    at_port i (fun grid =>
      let n := SRSRAN_NOF_RE (ed_cell q) in
      copy_cells grid 0 (replicate (Z.to_nat n) sample_zero) 0 n)) q.

Definition put_refs (q : srsran_enb_dl_t) (dl_sf : srsran_dl_sf_cfg_t) : option srsran_enb_dl_t :=
  let sf_idx := sf_tti (ed_dl_sf q) mod 10 in
  if decide (sf_type (ed_dl_sf q) = SRSRAN_SF_MBSFN) then
    cs ← port_pilots (ed_csr_signal q) 0 sf_idx;
    pilots ← port_pilots (ed_mbsfnr_signal q) 0 sf_idx;
    at_port 0 (fun grid => snd <$> srsran_refsignal_mbsfn_put_sf (ed_cell q) 0 cs pilots grid (subcarrier_spacing dl_sf) sf_idx) q
  else
    for_loop (Z.to_nat (nof_ports (ed_cell q))) 0 (fun p =>
      at_port p (fun grid => snd <$> srsran_refsignal_cs_put_sf (ed_csr_signal q) (ed_dl_sf q) p grid)) q.

Definition srsran_enb_dl_put_pmch (t : tcod_tables) (rm : rm_tables) (q : srsran_enb_dl_t) (sb : srsran_softbuffer_tx_t) (cfg : srsran_pmch_cfg_t)
    (data : option (list Z)) : option (Z * srsran_enb_dl_t * srsran_softbuffer_tx_t) :=
  '(ret, pmch, sb, sf_symbols) ← srsran_pmch_encode t rm (ed_pmch q) sb (ed_dl_sf q) cfg data (ed_sf_symbols q);
  Some (ret, mk_enb_dl (ed_cell q) (ed_dl_sf q) sf_symbols pmch (ed_csr_signal q) (ed_mbsfnr_signal q), sb).

(** The members of [cc_worker] that the method uses. *)
Record cc_worker := mk_cc { enb_dl : srsran_enb_dl_t; dl_sf : srsran_dl_sf_cfg_t; temp_mbsfn_softbuffer : srsran_softbuffer_tx_t }.

(** Without the counters of the metrics. *)
Definition cc_worker_encode_pmch (t : tcod_tables) (rm : rm_tables) (w : cc_worker) (data : option (list Z)) (mbsfn_cfg : srsran_mbsfn_cfg_t) :
    option (Z * cc_worker) :=
  cfg ← srsran_configure_pmch pmch_cfg_zero (ed_cell (enb_dl w)) mbsfn_cfg;
  let cfg := mk_pmch_cfg (pc_rnti cfg) (srsran_ra_dl_compute_nof_re (ed_cell (enb_dl w)) (dl_sf w) (pc_grant cfg)) (pc_area_id cfg) in
  '(ret, enb, sb) ← srsran_enb_dl_put_pmch t rm (enb_dl w) (temp_mbsfn_softbuffer w) cfg data;
  Some (if negb (ret =? 0) then SRSRAN_ERROR else 0, mk_cc enb (dl_sf w) sb).
