(* ===== verification/PmchCorrect.v ===== *)
(** * The multicast channel carries the transport block

    A subframe of the broadcast is put together from the checksums, the turbo code, the rate
    matching, the scrambling, the modulation and the resource grid: after the transmitter's
    functions have run, the grid holds the reference signals of the MBSFN area and the symbols
    of the coded and scrambled transport block, each in its place. *)

From stdpp Require Import base list gmap numbers list_basics list_relations.
From S2P Require Import Prelude Mbsfn BitPack Crc Sequence SequenceCorrect CbSegm TurboCoder TurboCorrect BitCopy RateMatch RateMatchCorrect Sch SchCorrect.
From S2P Require Import PhyCommon Ra RaCorrect Modulation ModulationCorrect MbsfnGrid MbsfnGridCorrect RefSignal RefSignalCorrect Pmch.

Local Open Scope Z_scope.

(** ** The soft buffer keeps its size *)

Lemma encode_cb_max_cb t rm s Qm rv Gp gamma data w i st ret st' :
  encode_cb t rm s Qm rv Gp gamma data w i st = Some (ret, st') -> max_cb (e_sb st') = max_cb (e_sb st).
Proof.
  unfold encode_cb. intros H. apply bind_Some in H as (q & _ & H). apply bind_Some in H as (b & _ & H). apply bind_Some in H as ([[r b'] part] & _ & H).
  by destruct (negb (r =? 0)); injection H as <- <-.
Qed.

Lemma encode_cbs_max_cb n t rm s Qm rv Gp gamma data w i st ret st' :
  encode_cbs n t rm s Qm rv Gp gamma data w i st = Some (ret, st') -> max_cb (e_sb st') = max_cb (e_sb st).
Proof.
  revert i st. induction n as [|n IH]; intros i st H; cbn [encode_cbs] in H; [by injection H as <- <-|].
  apply bind_Some in H as ([r st1] & E%encode_cb_max_cb & H). destruct (negb (r =? 0)); [injection H as <- <-; done|].
  apply IH in H. congruence.
Qed.

Lemma dlsch_encode_max_cb t rm q sb tb nof_tb data e ret q' sb' e' :
  srsran_dlsch_encode t rm q sb tb nof_tb data e = Some (ret, q', sb', e') -> max_cb sb' = max_cb sb.
Proof.
  unfold srsran_dlsch_encode, srsran_dlsch_encode2, encode_tb, encode_tb_off. destruct (srsran_cbsegm _ _) as [r s]. intros H.
  repeat match type of H with (if ?b then _ else _) = _ => destruct b; [by injection H as <- <- <- <-|] end.
  apply bind_Some in H as ([r' st] & E%encode_cbs_max_cb & H). by injection H as <- <- <- <-.
Qed.

(** ** The object *)

Definition pmch_seed (area i : Z) : Z := u32 (u32 (Z.shiftl i 9) + area).

(** The sequences of an area, at least [N] elements of each. *)
Definition area_ready (q : srsran_pmch_t) (area N : Z) : Prop :=
  exists seqs, cell_at (q_seqs q) area = Some (Some seqs) /\
    forall i, 0 <= i < 10 -> exists s, cell_at seqs i = Some s /\ forall f1 f2, gold (pmch_seed area i) f1 f2 -> exists N', N <= N' /\ holds_sequence f1 f2 s N'.

Record pmch_ok (cell : srsran_cell_t) (area : Z) (q : srsran_pmch_t) : Prop := mk_pmch_ok {
  po_cell : q_cell q = cell;
  po_re : max_re q = 144 * nof_prb cell;
  po_symbols : exists s0 l, q_symbols q = Some s0 :: l /\ 144 * nof_prb cell <= zlen s0;
  po_d : 144 * nof_prb cell <= zlen (q_d q);
  po_e : bytes_ok (q_e q) /\ 1728 * nof_prb cell <= zlen (q_e q);
  po_mod : q_mod q = map table_of modulations;
  po_seqs : area_ready q area (864 * nof_prb cell);
  po_sch : exists ct, sch_ok (dl_sch q) ct
}.

(** The symbols of [bits], with the factor of the constellation. *)
Definition channel_symbols (m : srsran_mod_t) (n : Z) (bits : list Z) : list sample :=
  map (pair (norm_of m)) (symbols_of (srsran_mod_bits_x_symbol m) (Z.to_nat n) bits).

Lemma zlen_symbols_of Q n bits : zlen (symbols_of Q n bits) = Z.of_nat n.
Proof. revert bits. induction n as [|n IH]; intros bits; [done|]. cbn [symbols_of]. rewrite zlen_cons, IH. lia. Qed.

Lemma zlen_channel_symbols m n bits : 0 <= n -> zlen (channel_symbols m n bits) = n.
Proof. intros Hn. unfold channel_symbols. rewrite zlen_map, zlen_symbols_of. lia. Qed.

(** The modulations that the channel uses. *)
Definition channel_mod (m : srsran_mod_t) : Prop := m = SRSRAN_MOD_QPSK \/ m = SRSRAN_MOD_16QAM \/ m = SRSRAN_MOD_64QAM.

Lemma channel_mod_facts m :
  channel_mod m -> modulation_ok m /\ m <> SRSRAN_MOD_BPSK /\ 2 <= srsran_mod_bits_x_symbol m <= 6 /\
    cell_at (map table_of modulations) (mod_index m) = Some (table_of m).
Proof. intros [->|[->| ->]]; split_and!; done. Qed.

Lemma copy_cells_front {A} (dst src : list A) n :
  0 <= n <= zlen dst -> n <= zlen src -> copy_cells dst 0 src 0 n = Some (ztake n src ++ zdrop n dst).
Proof.
  intros Hd Hs. unfold copy_cells. cbn [Z.ltb Z.compare orb]. rewrite !Z.add_0_l, (proj2 (Z.ltb_ge n 0)), (proj2 (Z.ltb_ge _ n)), (proj2 (Z.ltb_ge _ n)) by lia.
  by rewrite ztake_0, zdrop_0.
Qed.

Lemma modulate_into_spec m e d n :
  channel_mod m -> bytes_ok e -> 0 <= n -> srsran_mod_bits_x_symbol m * n <= 8 * zlen e -> n <= zlen d ->
  modulate_into (table_of m) (norm_of m) e d (srsran_mod_bits_x_symbol m * n) =
    Some (channel_symbols m n (ztake (srsran_mod_bits_x_symbol m * n) (bits_of_bytes e)) ++ zdrop n d).
Proof.
  intros Hm He Hn Hz Hd. destruct (channel_mod_facts m Hm) as (Hok & Hb & HQ & _). unfold modulate_into.
  rewrite modulate_bytes_spec by (done || (by split_and!) || by intros ->). cbn [mbind option_bind]. set (Q := srsran_mod_bits_x_symbol m) in *.
  assert (E : symbols_of Q (Z.to_nat n) (bits_of_bytes e) = symbols_of Q (Z.to_nat n) (ztake (Q * n) (bits_of_bytes e))).
  { rewrite <- (ztake_zdrop (Q * n) (bits_of_bytes e)) at 1. apply symbols_of_prefix; [lia|]. rewrite zlen_ztake; [lia|]. rewrite zlen_bits_of_bytes. nia. }
  rewrite E. set (l := symbols_of Q _ _). assert (Zl : zlen l = n) by (unfold l; rewrite zlen_symbols_of; lia).
  rewrite Zl, copy_cells_front by (rewrite ?zlen_map; lia). unfold channel_symbols. fold l. by rewrite ztake_all by (rewrite zlen_map; lia).
Qed.

(** ** One transmission *)

Section encode.
Variables (cell : srsran_cell_t) (area : Z) (sf : srsran_dl_sf_cfg_t).
Hypotheses (Hv : srsran_cell_isvalid cell = true) (Hports : nof_ports cell = 1).

Let scs := subcarrier_spacing sf.
Let sf_idx := sf_tti sf mod 10.
Let n := nof_prb cell * data_res scs.

Lemma prb_range : 1 <= nof_prb cell <= 110.
Proof. exact (isvalid_prb cell Hv). Qed.

Lemma n_range : 0 <= n <= 144 * nof_prb cell /\ n <= 15840.
Proof. pose proof prb_range. unfold n. assert (0 <= data_res scs <= 144) by (destruct scs; vm_compute; split; congruence). nia. Qed.

Lemma sf_idx_range : 0 <= sf_idx < 10.
Proof. apply Z.mod_pos_bound. lia. Qed.

(** The symbols are mapped to the grid of the only port. *)
Lemma put_ports_spec q s0 l grid rest :
  q_cell q = cell -> q_symbols q = Some s0 :: l -> n <= zlen s0 -> grid_size scs (nof_prb cell) <= zlen grid ->
  put_ports q sf 0 (Some grid :: rest) = Some (Some (scatter (data_mask scs (nof_prb cell) sf_idx 0) s0 grid) :: rest).
Proof.
  intros Hc Hs Hz Hg. pose proof prb_range. unfold put_ports. rewrite Hc, Hports, Hs. change (Z.to_nat 1) with 1%nat. cbn [for_loop].
  change (cell_at (Some s0 :: l) 0) with (Some (Some s0)). change (cell_at (Some grid :: rest) 0) with (Some (Some grid)). cbn [mbind option_bind].
  fold scs sf_idx. rewrite put_symbols_spec by (done || lia). cbn [mbind option_bind].
  unfold put_cell. pose proof (zlen_nonneg rest). rewrite zlen_cons, (proj2 (Z.leb_gt _ _)) by lia. done.
Qed.

(** From the coded bits to the symbols. *)
Lemma scramble_modulate m q e coded f1 f2 d :
  area_ready q area (864 * nof_prb cell) -> channel_mod m -> gold (pmch_seed area sf_idx) f1 f2 ->
  bytes_ok e -> 1728 * nof_prb cell <= zlen e -> 144 * nof_prb cell <= zlen d ->
  let G := srsran_mod_bits_x_symbol m * n in
  ztake G (bits_of_bytes e) = coded ->
  exists seqs seq e', cell_at (q_seqs q) area = Some (Some seqs) /\ cell_at seqs sf_idx = Some seq /\
    srsran_scrambling_bytes seq e G = Some e' /\ bytes_ok e' /\ zlen e' = zlen e /\
    modulate_into (table_of m) (norm_of m) e' d G = Some (channel_symbols m n (xor_bits coded (gold_bits f1 f2 0 G)) ++ zdrop n d).
Proof.
  intros (seqs & Es & Hseqs) Hm Hg He Ze Zd G HG. destruct (channel_mod_facts m Hm) as (_ & _ & HQ & _). pose proof n_range as Hn. pose proof prb_range.
  destruct (Hseqs sf_idx sf_idx_range) as (seq & Eq & Hseq). destruct (Hseq f1 f2 Hg) as (N & HN & Hold).
  assert (HG' : 0 <= G <= 864 * nof_prb cell) by (unfold G; nia).
  destruct (scrambling_bytes_spec f1 f2 seq N e G Hold He ltac:(lia) ltac:(lia)) as (e' & E' & Ok' & Z' & B' & _).
  exists seqs, seq, e'. split_and!; try done. unfold G in *. rewrite modulate_into_spec by (done || lia). by rewrite B', HG.
Qed.

(** The whole encoder. *)
Lemma pmch_encode_spec q sb cfg tb tbs_rest m tbs mcs enabled data grid rest f1 f2 :
  pmch_ok cell area q -> softbuffer_ok sb -> channel_mod m -> block_fits (max_cb sb) tbs -> bytes_ok data -> 8 * zlen data = tbs ->
  pc_area_id cfg = area -> g_nof_re (pc_grant cfg) = n -> g_nof_tb (pc_grant cfg) = 1 -> g_tb (pc_grant cfg) = tb :: tbs_rest ->
  tb = mk_tb m tbs 0 (srsran_mod_bits_x_symbol m * n) enabled mcs -> grid_size scs (nof_prb cell) <= zlen grid ->
  gold (pmch_seed area sf_idx) f1 f2 ->
  let G := srsran_mod_bits_x_symbol m * n in
  exists s q' sb' buf, srsran_cbsegm cbsegm_zero tbs = (0, s) /\
    srsran_pmch_encode srsran_tcod_gentable rm_generated q sb sf cfg (Some data) (Some grid :: rest) =
      Some (0, q', sb', Some (scatter (data_mask scs (nof_prb cell) sf_idx 0) buf grid) :: rest) /\
    ztake n buf = channel_symbols m n (xor_bits (transport_block_bits s (srsran_mod_bits_x_symbol m) G 0 data) (gold_bits f1 f2 0 G)) /\
    n <= zlen buf /\ pmch_ok cell area q' /\ softbuffer_ok sb' /\ max_cb sb' = max_cb sb.
Proof.
  intros [Hc Hre (s0 & l & Hs & Zs) Zd [He Ze] Hmod Hseqs [ct Hsch]] Hsb Hm (_ & Ht & s & Es & HF & HC) Hdat Zdat Ha Hnre Hntb Htb Etb Hg Hgold G.
  destruct (channel_mod_facts m Hm) as (Hmok & _ & HQ & Htab). pose proof n_range as Hn. pose proof prb_range as Hp.
  assert (HG : 0 <= G <= 864 * nof_prb cell) by (unfold G; nia).
  destruct (dlsch_encode_spec (dl_sch q) ct sb m 1 1 tbs G enabled mcs data (q_e q)) as (s' & Es' & _ & Henc & _); try (done || lia).
  rewrite Es in Es'. injection Es' as <-. destruct (Henc HF HC) as (sch' & sb' & e' & ct' & Edl & [Ze' Ok' _ Hbits _] & Zt & Hsch' & Hsb'). clear Henc.
  replace (symbol_bits m 1 1) with (srsran_mod_bits_x_symbol m) in * by (unfold symbol_bits; cbn; lia).
  set (Q := srsran_mod_bits_x_symbol m) in *. assert (HGQ : Q * (G / Q) = G) by (unfold G; rewrite (Z.mul_comm Q n), Z.div_mul; lia). rewrite HGQ in Zt. rewrite Zt, zdrop_0 in Hbits.
  destruct (scramble_modulate m q e' _ f1 f2 (q_d q) Hseqs Hm Hgold Ok' ltac:(lia) Zd Hbits) as (seqs & seq & e'' & E1 & E2 & E3 & Ok'' & Z'' & E4).
  set (sy := channel_symbols m n _) in E4. assert (Zsy : zlen sy = n) by (apply zlen_channel_symbols; lia).
  change (srsran_dlsch_encode2 ?a ?b ?c ?d ?e ?f ?g ?h 1) with (srsran_dlsch_encode a b c d e f g h) in Edl. pose proof (dlsch_encode_max_cb _ _ _ _ _ _ _ _ _ _ _ _ Edl) as Hmax.
  unfold srsran_pmch_encode. rewrite Hc, Hports. change (null_port (Z.to_nat 1) (Some grid :: rest)) with (Some false). cbn [mbind option_bind].
  rewrite Htb. change (cell_at (tb :: tbs_rest) 0) with (Some tb). cbn [mbind option_bind]. rewrite Hnre, Hre, Hntb, Ha, Hmod. subst tb. cbn [tb_tbs tb_mod tb_nof_bits].
  rewrite (proj2 (Z.eqb_neq tbs 0)) by lia. rewrite Z.gtb_ltb, (proj2 (Z.ltb_ge _ _)) by lia.
  fold Q G. rewrite Edl. cbn [mbind option_bind]. change (negb (0 =? 0)) with false. cbv iota. rewrite E1. cbn [mbind option_bind]. fold sf_idx. rewrite E2. cbn [mbind option_bind].
  fold Q G in E3, E4. rewrite E3, Htab. cbn [mbind option_bind]. rewrite E4. cbn [mbind option_bind]. rewrite Hs. change (cell_at (Some s0 :: l) 0) with (Some (Some s0)). cbn [mbind option_bind].
  rewrite copy_cells_front by (rewrite ?zlen_app; pose proof (zlen_nonneg (zdrop n (q_d q))); lia). rewrite (ztake_app_eq n sy) by done. cbn [mbind option_bind].
  set (buf := sy ++ zdrop n s0). assert (Zbuf : zlen buf = zlen s0) by (unfold buf; rewrite zlen_app, zlen_zdrop; lia).
  unfold put_cell. pose proof (zlen_nonneg l). rewrite zlen_cons, (proj2 (Z.leb_gt _ _)) by lia. change (0 <? 0) with false. cbn [orb insert list_insert Z.to_nat mbind option_bind].
  rewrite (put_ports_spec _ buf l grid rest) by (done || lia). cbn [mbind option_bind].
  exists s. do 2 eexists. exists buf. split_and!; [done|done|by unfold buf; rewrite (ztake_app_eq n)|lia| |done|done].
  split; cbn [q_cell max_re q_symbols q_d q_e q_mod q_seqs dl_sch]; try done; [by exists buf, l; split; [|lia]|rewrite zlen_app, zlen_zdrop; lia|split; [done|lia]|by exists ct'].
Qed.

End encode.

(** ** The object after its initialisation *)

Lemma sequence_pmch_spec s i area len :
  0 <= len -> exists s', srsran_sequence_pmch s (2 * i) area len = Some (0, s') /\
    forall f1 f2, gold (pmch_seed area i) f1 f2 -> holds_sequence f1 f2 s' len.
Proof.
  intros Hl. unfold srsran_sequence_pmch. rewrite (Z.mul_comm 2 i), Z.div_mul by lia. fold (pmch_seed area i).
  destruct (gold_exists (pmch_seed area i)) as (g1 & g2 & Hg). destruct (LTE_pr_stores g1 g2 _ sequence_zero len Hg zero_ok Hl) as (s' & E & _).
  exists s'. split; [done|]. intros f1 f2 Hf. destruct (LTE_pr_stores f1 f2 _ sequence_zero len Hf zero_ok Hl) as (s'' & E' & H & _). rewrite E in E'. by injection E' as <-.
Qed.

Lemma area_sequences_spec k i area len seqs :
  0 <= len -> 0 <= i -> i + Z.of_nat k <= zlen seqs ->
  exists seqs', area_sequences k i area len seqs = Some (0, seqs') /\ (forall j, j < i -> cell_at seqs' j = cell_at seqs j) /\
    forall j, i <= j < i + Z.of_nat k -> exists s, cell_at seqs' j = Some s /\ forall f1 f2, gold (pmch_seed area j) f1 f2 -> holds_sequence f1 f2 s len.
Proof.
  intros Hl. revert i seqs. induction k as [|k IH]; intros i seqs Hi Hz; cbn [area_sequences].
  { exists seqs. split_and!; [done|done|]. intros j Hj. lia. }
  destruct (cell_at_some seqs i ltac:(lia)) as (s0 & ->). cbn [mbind option_bind]. destruct (sequence_pmch_spec s0 i area len Hl) as (s & -> & Hs). cbn [mbind option_bind].
  destruct (put_cell_some seqs i s ltac:(lia)) as (seqs1 & -> & Z1 & E1 & E2 & _). cbn [mbind option_bind]. change (negb (0 =? 0)) with false. cbv iota.
  destruct (IH (i + 1) seqs1 ltac:(lia) ltac:(lia)) as (seqs' & E & Hb & Ha). exists seqs'. split_and!; [done| |].
  - intros j Hj. rewrite Hb by lia. apply E2. lia.
  - intros j Hj. destruct (decide (j = i)) as [->|Hne]; [|apply Ha; lia]. exists s. split; [|done]. rewrite Hb by lia. done.
Qed.

(** [srsran_pmch_init], [srsran_pmch_set_area_id] and [srsran_pmch_set_cell], as [enb_dl.c] calls them. *)
Lemma pmch_ready malloc malloc_cf t rm q0 max_prb cell area :
  (forall k, 0 <= k -> zlen (malloc k) = k /\ bytes_ok (malloc k)) -> (forall k, 0 <= k -> zlen (malloc_cf k) = k) ->
  table_initiated t = false -> rm_turbo_tables_generated rm = false ->
  srsran_cell_isvalid cell = true -> nof_prb cell <= max_prb <= SRSRAN_MAX_PRB -> 0 <= area < SRSRAN_MAX_MBSFN_AREA_IDS ->
  exists q1 q2 q3, srsran_pmch_init malloc malloc_cf t rm q0 max_prb 1 = Some (0, q1, srsran_tcod_gentable, rm_generated) /\
    srsran_pmch_set_area_id q1 area = Some (0, q2) /\ srsran_pmch_set_cell q2 cell = (0, q3) /\ pmch_ok cell area q3.
Proof.
  intros Hm Hmc Ht Hr Hv Hp Ha. pose proof (isvalid_prb cell Hv) as Hn. unfold SRSRAN_MAX_PRB, SRSRAN_MAX_MBSFN_AREA_IDS in *.
  destruct (sch_init_ok t rm malloc (fun k Hk => proj1 (Hm k Hk)) Ht Hr) as (sch & Es & Hs).
  unfold srsran_pmch_init. change (1 >? SRSRAN_MAX_PORTS) with false. cbv iota zeta. change (MAX_PMCH_RE SRSRAN_SCS_1KHZ25) with 144. rewrite Es. cbn [mbind option_bind].
  rewrite (u32_id (max_prb * 144)) by (unfold is_u32; lia). cbn [srsran_mod_bits_x_symbol]. rewrite (u32_id (max_prb * 144 * 6)) by (unfold is_u32; lia).
  match goal with |- exists q1 q2 q3, Some (_, ?q, _, _) = _ /\ _ => exists q end. unfold srsran_pmch_set_area_id, srsran_pmch_set_cell. rewrite Hv. cbn [q_seqs max_re]. change (MAX_PMCH_RE SRSRAN_SCS_1KHZ25) with 144. rewrite (u32_id (nof_prb cell * 144)) by (unfold is_u32; lia).
  set (none := replicate (Z.to_nat SRSRAN_MAX_MBSFN_AREA_IDS) None). assert (Zn : zlen none = 256) by (unfold none, zlen; by rewrite length_replicate).
  destruct (area_sequences_spec 10 0 area (max_prb * 144 * 6) (replicate 10 sequence_zero)) as (seqs & E1 & _ & E2); [lia|done|done|].
  destruct (put_cell_some none area (Some seqs) ltac:(lia)) as (all & E3 & _ & E4 & _).
  do 2 eexists. split_and!; [done| |done|].
  - assert (cell_at none area = Some None) as -> by (rewrite cell_at_lookup by lia; apply lookup_replicate_2; unfold SRSRAN_MAX_MBSFN_AREA_IDS; lia). cbn [mbind option_bind srsran_mod_bits_x_symbol].
    rewrite (u32_id (max_prb * 144 * 6)) by (unfold is_u32; lia). change (Z.to_nat SRSRAN_NOF_SF_X_FRAME) with 10%nat. rewrite E1. cbn [mbind option_bind]. rewrite E3. done.
  - split; cbn [with_cell with_seqs q_cell max_re q_symbols q_d q_e q_mod q_seqs dl_sch nof_rx_antennas]; [done|lia| | | |done| |by exists 0].
    + do 2 eexists. split; [done|]. rewrite Hmc; lia.
    + rewrite Hmc; lia.
    + destruct (Hm (2 * (max_prb * 144 * 6)) ltac:(lia)) as [-> Hb]. split; [done|lia].
    + exists seqs. split; [done|]. intros i Hi. destruct (E2 i ltac:(lia)) as (s & Ei & H). exists s. split; [done|]. intros f1 f2 Hg. exists (max_prb * 144 * 6). split; [lia|by apply H].
Qed.

(** ** The configuration *)

Lemma take_prbs_spec n k : 0 <= n <= Z.of_nat k -> take_prbs n (replicate k false) = Some (replicate (Z.to_nat n) true ++ replicate (k - Z.to_nat n) false).
Proof.
  intros Hn. unfold take_prbs.
  destruct (for_loop_inv (fun j row => row = replicate (Z.to_nat j) true ++ replicate (k - Z.to_nat j) false) (Z.to_nat n) 0 (fun j row => put_cell row j true) (replicate k false))
    as (row & E & ->).
  - cbn. by rewrite Nat.sub_0_r.
  - intros j row Hj ->. assert (Zr : zlen (replicate (Z.to_nat j) true) = j) by (unfold zlen; rewrite length_replicate; lia).
    rewrite put_cell_split by (rewrite zlen_app, Zr; unfold zlen; rewrite length_replicate; lia). eexists. split; [done|].
    rewrite (ztake_app_eq j) by done. rewrite (Z.add_comm j 1), <- zdrop_zdrop, (zdrop_app_eq j) by (done || lia).
    replace (k - Z.to_nat j)%nat with (S (k - Z.to_nat (1 + j))) by lia. replace (Z.to_nat (1 + j)) with (S (Z.to_nat j)) by lia.
    cbn [replicate]. unfold zdrop. change (drop (Z.to_nat 1) (false :: ?l)) with l. rewrite replicate_cons_app. by rewrite <- app_assoc.
  - rewrite E. by replace (0 + Z.of_nat (Z.to_nat n)) with n by lia.
Qed.

(** The grant of the channel: all resource blocks, one block of the scheme. *)
Lemma configure_pmch_spec cell cfg :
  1 <= nof_prb cell <= 110 -> mbsfn_prb cell = nof_prb cell ->
  exists c_, srsran_configure_pmch pmch_cfg_zero cell cfg = Some c_ /\ pc_area_id c_ = 1 /\ all_prbs cell (pc_grant c_) /\ g_nof_tb (pc_grant c_) = 1 /\
    g_tb (pc_grant c_) = [snd (srsran_dl_fill_ra_mcs (mk_tb SRSRAN_MOD_BPSK 0 0 0 (cfg_enable cfg) (cfg_mcs cfg)) 0 (nof_prb cell) false); tb_zero].
Proof.
  intros Hn Hp. unfold srsran_configure_pmch. rewrite Hp. change (cell_at (g_tb (pc_grant pmch_cfg_zero)) 0) with (Some tb_zero). cbn [mbind option_bind tb_mod tb_tbs tb_nof_bits tb_zero].
  change (put_cell (last_tbs (pc_grant pmch_cfg_zero)) 0 0) with (Some [0; 0]). cbn [mbind option_bind]. change (cell_at [0; 0] 0) with (Some 0). cbn [mbind option_bind]. change SRSRAN_PMCH_RV with 0.
  destruct (srsran_dl_fill_ra_mcs _ _ _ _) as [ret tb]. change (put_cell (g_tb (pc_grant pmch_cfg_zero)) 0 tb) with (Some [tb; tb_zero]). cbn [mbind option_bind snd].
  change (prb_idx (pc_grant pmch_cfg_zero)) with [replicate 110 false; replicate 110 false].
  cbn [for_loop]. change (cell_at [replicate 110 false; replicate 110 false] 0) with (Some (replicate 110 false)). cbn [mbind option_bind].
  rewrite take_prbs_spec by lia. set (row := replicate (Z.to_nat (nof_prb cell)) true ++ _). cbn [mbind option_bind].
  change (put_cell [replicate 110 false; replicate 110 false] 0 row) with (Some [row; replicate 110 false]). cbn [mbind option_bind].
  change (cell_at [row; replicate 110 false] (0 + 1)) with (Some (replicate 110 false)). cbn [mbind option_bind]. rewrite take_prbs_spec by lia. fold row. cbn [mbind option_bind].
  change (put_cell [row; replicate 110 false] (0 + 1) row) with (Some [row; row]). cbn [mbind option_bind]. eexists. split; [done|]. cbn [pc_area_id pc_grant g_nof_tb g_tb]. split_and!; try done.
  intros s j Hs Hj. unfold prb_used. cbn [prb_idx]. assert (Er : [row; row] !! Z.to_nat s = Some row) by (assert (s = 0 \/ s = 1) as [-> | ->] by lia; done). rewrite Er. cbn [mbind option_bind].
  unfold row. rewrite lookup_app_l by (rewrite length_replicate; lia). by rewrite lookup_replicate_2 by lia.
Qed.

Lemma dl_mod_channel mcs : channel_mod (srsran_ra_dl_mod_from_mcs mcs false).
Proof. unfold srsran_ra_dl_mod_from_mcs, channel_mod. destruct ((mcs <? 10) || _); [auto|]. destruct ((mcs <? 17) || _); auto. Qed.

(** ** A subframe *)

Lemma grid_cells scs n : grid_size scs n = 144 * n.
Proof. unfold grid_size. destruct scs; vm_compute (SRSRAN_MBSFN_NOF_SLOTS _ * _); vm_compute (SRSRAN_NRE_SCS _); lia. Qed.

(** The part of a worker that sends MBSFN subframes, set up for a cell; the area is number 1. *)
Record worker_ok (cell : srsran_cell_t) (w : cc_worker) : Prop := mk_worker_ok {
  wo_cell : ed_cell (enb_dl w) = cell;
  wo_sf : ed_dl_sf (enb_dl w) = dl_sf w;
  wo_grid : exists grid rest, ed_sf_symbols (enb_dl w) = Some grid :: rest /\ 144 * nof_prb cell <= zlen grid;
  wo_pmch : pmch_ok cell 1 (ed_pmch (enb_dl w));
  wo_csr : forall ns, 0 <= ns < 10 -> exists a, port_pilots (ed_csr_signal (enb_dl w)) 0 ns = Some a;
  wo_refs : forall ns, 0 <= ns < 10 -> exists a, port_pilots (ed_mbsfnr_signal (enb_dl w)) 0 ns = Some a /\ holds_pilots (nof_prb cell) 1 ns a;
  wo_sb : softbuffer_ok (temp_mbsfn_softbuffer w) /\ max_cb (temp_mbsfn_softbuffer w) = tbs_entry 33 (nof_prb cell) / (SRSRAN_TCOD_MAX_LEN_CB - 24) + 1
}.

(** The bits and symbols of the block of a scheme. *)
Definition scheme_tbs (cell : srsran_cell_t) (mcs : Z) : Z := tbs_entry (srsran_ra_tbs_idx_from_mcs mcs false false) (nof_prb cell).

Definition sent_symbols (cell : srsran_cell_t) (mcs : Z) (data : list Z) (f1 f2 : Z -> bool) : list sample :=
  let m := srsran_ra_dl_mod_from_mcs mcs false in
  let n := 120 * nof_prb cell in
  let G := srsran_mod_bits_x_symbol m * n in
  channel_symbols m n (xor_bits (transport_block_bits (snd (srsran_cbsegm cbsegm_zero (scheme_tbs cell mcs))) (srsran_mod_bits_x_symbol m) G 0 data) (gold_bits f1 f2 0 G)).

Section subframe.
Variables (cell : srsran_cell_t) (cfg : srsran_mbsfn_cfg_t) (sf : srsran_dl_sf_cfg_t).
Hypotheses (Hv : srsran_cell_isvalid cell = true) (Hports : nof_ports cell = 1) (Hprb : mbsfn_prb cell = nof_prb cell)
  (Hsf : sf_type sf = SRSRAN_SF_MBSFN) (Hscs : subcarrier_spacing sf = SRSRAN_SCS_1KHZ25)
  (Hmcs : 0 <= cfg_mcs cfg < 29) (Hen : cfg_enable cfg = true).

Let sf_idx := sf_tti sf mod 10.

Lemma put_refs_spec enb grid rest a :
  ed_cell enb = cell -> ed_dl_sf enb = sf -> ed_sf_symbols enb = Some grid :: rest -> 144 * nof_prb cell <= zlen grid ->
  (exists cs, port_pilots (ed_csr_signal enb) 0 sf_idx = Some cs) -> port_pilots (ed_mbsfnr_signal enb) 0 sf_idx = Some a -> 24 * nof_prb cell <= zlen a ->
  put_refs enb sf = Some (with_symbols enb (Some (scatter (pilot_mask SRSRAN_SCS_1KHZ25 (nof_prb cell) sf_idx) a grid) :: rest)).
Proof.
  intros Hc Hd Hs Hg [cs Hcs] Ha Za. pose proof (isvalid_prb cell Hv) as Hn. unfold put_refs. rewrite Hd, Hsf, decide_True by done. fold sf_idx. rewrite Hcs, Ha. cbn [mbind option_bind].
  unfold at_port. rewrite Hs, Hc, Hscs. change (cell_at (Some grid :: rest) 0) with (Some (Some grid)). cbn [mbind option_bind].
  rewrite put_sf_spec by (done || (rewrite ?grid_cells; change (srsran_refsignal_mbsfn_rs_per_rb SRSRAN_SCS_1KHZ25) with 24; lia)). cbn [fmap option_fmap option_map snd mbind option_bind].
  unfold put_cell. pose proof (zlen_nonneg rest). rewrite zlen_cons, (proj2 (Z.leb_gt _ _)) by lia. done.
Qed.

(** What [encode_pmch] makes of the grid. *)
Lemma encode_pmch_spec w data grid rest f1 f2 :
  worker_ok cell w -> dl_sf w = sf -> ed_sf_symbols (enb_dl w) = Some grid :: rest -> 144 * nof_prb cell <= zlen grid ->
  bytes_ok data -> 8 * zlen data = scheme_tbs cell (cfg_mcs cfg) -> gold (pmch_seed 1 sf_idx) f1 f2 ->
  exists w' buf, cc_worker_encode_pmch srsran_tcod_gentable rm_generated w (Some data) cfg = Some (0, w') /\ worker_ok cell w' /\
    ed_sf_symbols (enb_dl w') = Some (scatter (data_mask SRSRAN_SCS_1KHZ25 (nof_prb cell) sf_idx 0) buf grid) :: rest /\
    120 * nof_prb cell <= zlen buf /\ ztake (120 * nof_prb cell) buf = sent_symbols cell (cfg_mcs cfg) data f1 f2.
Proof.
  intros [Hc Hd _ Hpmch Hcsr Hrefs [Hsb Hmax]] Hw Hs Hg Hdat Zdat Hgold. pose proof (isvalid_prb cell Hv) as Hn. change SRSRAN_MAX_PRB with 110 in Hn.
  destruct (configure_pmch_spec cell cfg Hn Hprb) as (c_ & Ec & Ea & Hall & Hnt & Htb). rewrite fill_ra_mcs_in in Htb by (cbn; lia). cbn [snd tb_mcs_idx tb_rv tb_nof_bits tb_enabled] in Htb.
  unfold cc_worker_encode_pmch. rewrite Hc, Ec. cbn [mbind option_bind]. rewrite Hw, Ea.
  assert (Hre : srsran_ra_dl_grant_nof_re cell sf (pc_grant c_) = 120 * nof_prb cell).
  { rewrite mbsfn_nof_re; [rewrite Hscs; change (data_res SRSRAN_SCS_1KHZ25) with 120; lia|done|by rewrite Hscs|unfold SRSRAN_MAX_PRB; lia|done]. }
  set (m := srsran_ra_dl_mod_from_mcs (cfg_mcs cfg) false) in *. pose proof (dl_mod_channel (cfg_mcs cfg)) as Hm. fold m in Hm. destruct (channel_mod_facts m Hm) as (_ & _ & HQ & _).
  set (c2 := mk_pmch_cfg _ _ _). set (Q := srsran_mod_bits_x_symbol m) in *.
  assert (Hfit : block_fits (max_cb (temp_mbsfn_softbuffer w)) (scheme_tbs cell (cfg_mcs cfg))).
  { rewrite Hmax. apply encodable_fits, tbs_entry_encodable; [by apply mcs_tbs_idx|lia]. }
  assert (Ht2 : g_tb (pc_grant c2) = mk_tb m (scheme_tbs cell (cfg_mcs cfg)) 0 (Q * (nof_prb cell * data_res (subcarrier_spacing sf))) true (cfg_mcs cfg) :: [tb_zero]).
  { unfold c2, srsran_ra_dl_compute_nof_re. cbn [pc_grant g_tb]. rewrite Htb, Hre, Hen. cbn [map tb_enabled tb_mod tb_tbs tb_rv tb_mcs_idx tb_zero]. fold m Q.
    rewrite u32_id by (unfold is_u32; nia). rewrite Hscs. change (data_res SRSRAN_SCS_1KHZ25) with 120. by replace (Q * (nof_prb cell * 120)) with (120 * nof_prb cell * Q) by lia. }
  assert (Hr2 : g_nof_re (pc_grant c2) = nof_prb cell * data_res (subcarrier_spacing sf)).
  { unfold c2, srsran_ra_dl_compute_nof_re. cbn [pc_grant g_nof_re]. rewrite Hre, Hscs. change (data_res SRSRAN_SCS_1KHZ25) with 120. lia. }
  assert (Hg2 : grid_size (subcarrier_spacing sf) (nof_prb cell) <= zlen grid) by (by rewrite grid_cells).
  destruct (pmch_encode_spec cell 1 sf Hv Hports (ed_pmch (enb_dl w)) (temp_mbsfn_softbuffer w) c2 _ _ m _ (cfg_mcs cfg) true data grid rest f1 f2
    Hpmch Hsb Hm Hfit Hdat Zdat eq_refl Hr2 Hnt Ht2 eq_refl Hg2 Hgold) as (s & q' & sb' & buf & Es & E & Hbuf & Zbuf & Hq' & Hsb' & Hmax').
  rewrite Hscs in *. change (data_res SRSRAN_SCS_1KHZ25) with 120 in *. replace (nof_prb cell * 120) with (120 * nof_prb cell) in * by lia.
  unfold srsran_enb_dl_put_pmch. rewrite Hd, Hw, Hs, E. cbn [mbind option_bind]. change (negb (0 =? 0)) with false. cbv iota. eexists. exists buf. split; [done|].
  split; [|split; [done|split; [done|]]].
  - split; cbn [enb_dl dl_sf temp_mbsfn_softbuffer ed_cell ed_dl_sf ed_sf_symbols ed_pmch ed_csr_signal ed_mbsfnr_signal]; try (done || congruence || by rewrite Hmax').
    do 2 eexists. split; [done|]. by rewrite zlen_scatter.
  - rewrite Hbuf. unfold sent_symbols. cbv zeta. fold m Q. by rewrite Es.
Qed.

End subframe.

(** The reference signals are put into the grid of a worker that is ready. *)
Lemma worker_put_refs cell sf w :
  srsran_cell_isvalid cell = true -> sf_type sf = SRSRAN_SF_MBSFN -> subcarrier_spacing sf = SRSRAN_SCS_1KHZ25 -> worker_ok cell w -> dl_sf w = sf ->
  exists grid rest a enb, port_pilots (ed_mbsfnr_signal (enb_dl w)) 0 (sf_tti sf mod 10) = Some a /\ holds_pilots (nof_prb cell) 1 (sf_tti sf mod 10) a /\
    24 * nof_prb cell <= zlen a /\ 144 * nof_prb cell <= zlen grid /\
    put_refs (enb_dl w) sf = Some enb /\ ed_sf_symbols enb = Some (scatter (pilot_mask SRSRAN_SCS_1KHZ25 (nof_prb cell) (sf_tti sf mod 10)) a grid) :: rest /\
    worker_ok cell (mk_cc enb sf (temp_mbsfn_softbuffer w)).
Proof.
  intros Hv Hsf Hscs [Hc Hd (grid & rest & Hs & Hg) Hpmch Hcsr Hrefs Hsb] Hw. pose proof (isvalid_prb cell Hv) as Hn. pose proof (Z.mod_pos_bound (sf_tti sf) 10 ltac:(lia)) as Hi.
  destruct (Hrefs _ Hi) as (a & Ea & Ha). destruct (gold_exists (mbsfn_c_init SRSRAN_SCS_1KHZ25 (sf_tti sf mod 10) 0 1)) as (g1 & g2 & Hgold).
  assert (Za : 24 * nof_prb cell <= zlen a).
  { destruct (Ha g1 g2 Hgold) as (r & ->). pose proof (zlen_nonneg r). unfold mbsfn_pilots. rewrite zlen_app, zlen_map, zlen_seqZ; lia. }
  exists grid, rest, a. eexists. split_and!; try done.
  - apply (put_refs_spec cell sf Hv Hsf Hscs); try done; [congruence|by apply Hcsr].
  - done.
  - split; cbn [enb_dl dl_sf temp_mbsfn_softbuffer with_symbols ed_cell ed_dl_sf ed_sf_symbols ed_pmch ed_csr_signal ed_mbsfnr_signal]; try (done || congruence).
    do 2 eexists. split; [done|]. by rewrite zlen_scatter.
Qed.

(** The grid of a subframe: the theorem below. *)
Lemma pmch_subframe_spec cell w cfg data f1 f2 g1 g2 :
  let sf := dl_sf w in
  let sf_idx := sf_tti sf mod 10 in
  let n := 120 * nof_prb cell in
  srsran_cell_isvalid cell = true -> nof_ports cell = 1 -> mbsfn_prb cell = nof_prb cell -> worker_ok cell w ->
  sf_type sf = SRSRAN_SF_MBSFN -> subcarrier_spacing sf = SRSRAN_SCS_1KHZ25 -> 0 <= cfg_mcs cfg <= 28 -> cfg_enable cfg = true ->
  bytes_ok data -> 8 * zlen data = scheme_tbs cell (cfg_mcs cfg) ->
  gold (pmch_seed 1 sf_idx) f1 f2 -> gold (mbsfn_c_init SRSRAN_SCS_1KHZ25 sf_idx 0 1) g1 g2 ->
  exists enb w' grid rest,
    put_refs (enb_dl w) sf = Some enb /\
    cc_worker_encode_pmch srsran_tcod_gentable rm_generated (mk_cc enb sf (temp_mbsfn_softbuffer w)) (Some data) cfg = Some (0, w') /\
    worker_ok cell w' /\ ed_sf_symbols (enb_dl w') = Some grid :: rest /\
    (forall out, n <= zlen out ->
      pmch_get (nof_prb cell) grid out 0 SRSRAN_SCS_1KHZ25 sf_idx = Some (n, sent_symbols cell (cfg_mcs cfg) data f1 f2 ++ zdrop n out)) /\
    (forall out, 24 * nof_prb cell <= zlen out ->
      srsran_refsignal_mbsfn_get_sf cell 0 grid out SRSRAN_SCS_1KHZ25 sf_idx =
        Some (0, mbsfn_pilots (nof_prb cell) g1 g2 ++ zdrop (24 * nof_prb cell) out)) /\
    (forall rsf out, subcarrier_spacing rsf = SRSRAN_SCS_1KHZ25 -> sf_tti rsf mod 10 = sf_idx -> n <= zlen out ->
      pmch_decode_extract cell rsf n grid out =
        if SRSRAN_NOF_CTRL_SYMBOLS cell (sf_cfi rsf) =? 0
        then Some (0, sent_symbols cell (cfg_mcs cfg) data f1 f2 ++ zdrop n out) else Some (SRSRAN_ERROR, out)).
Proof.
  intros sf sf_idx n Hv Hports Hprb Hw Hsf Hscs Hmcs Hen Hdat Zdat Hgold Hgold2. pose proof (isvalid_prb cell Hv) as Hn.
  destruct (worker_put_refs cell sf w Hv Hsf Hscs Hw eq_refl) as (grid & rest & a & enb & Ea & Ha & Za & Zg & Eput & Es & Hw1). fold sf_idx in Ea, Ha, Es.
  set (grid1 := scatter _ a grid) in Es. assert (Zg1 : zlen grid1 = zlen grid) by apply zlen_scatter.
  destruct (encode_pmch_spec cell cfg sf Hv Hports Hprb Hsf Hscs ltac:(lia) Hen (mk_cc enb sf (temp_mbsfn_softbuffer w)) data grid1 rest f1 f2)
    as (w' & buf & Eenc & Hw' & Es' & Zbuf & Hbuf); [done|done|done|lia|done|done|done|]. fold sf_idx n in Es', Zbuf, Hbuf.
  set (dm := data_mask SRSRAN_SCS_1KHZ25 (nof_prb cell) sf_idx 0) in Es'. set (grid2 := scatter dm buf grid1) in Es'. assert (Zg2 : zlen grid2 = zlen grid) by (unfold grid2; by rewrite zlen_scatter).
  assert (Zdm : zlen dm = 144 * nof_prb cell) by (unfold dm; rewrite zlen_data_mask, grid_cells by lia; done).
  assert (Cdm : count dm = n) by (unfold dm, n; rewrite count_data_mask by lia; change (data_res SRSRAN_SCS_1KHZ25) with 120; lia).
  assert (Hget : forall out, n <= zlen out -> pmch_get (nof_prb cell) grid2 out 0 SRSRAN_SCS_1KHZ25 sf_idx = Some (n, sent_symbols cell (cfg_mcs cfg) data f1 f2 ++ zdrop n out)).
  { intros out Ho. rewrite get_symbols_spec by (rewrite ?grid_cells; change (data_res SRSRAN_SCS_1KHZ25) with 120; lia). change (data_res SRSRAN_SCS_1KHZ25) with 120. fold dm.
    replace (nof_prb cell * 120) with n by lia. unfold grid2. rewrite gather_scatter by lia. by rewrite Cdm, Hbuf. }
  exists enb, w', grid2, rest. split_and!; try done.
  - intros out Ho. rewrite get_sf_spec by (done || (rewrite ?grid_cells; change (srsran_refsignal_mbsfn_rs_per_rb SRSRAN_SCS_1KHZ25) with 24; lia)).
    unfold taken. rewrite count_pilot_mask by lia. change (srsran_refsignal_mbsfn_rs_per_rb SRSRAN_SCS_1KHZ25) with 24. do 2 f_equal. f_equal.
    destruct (Ha g1 g2 Hgold2) as (r & ->). unfold grid2, pilot_mask. fold dm. rewrite gather_scatter_other. unfold grid1, pilot_mask. fold dm.
    rewrite gather_scatter by (unfold zlen in *; rewrite ?length_map; rewrite ?count_negb; unfold zlen; lia). rewrite count_negb, Zdm, Cdm. apply ztake_app_eq.
    unfold mbsfn_pilots. rewrite zlen_map, zlen_seqZ; lia.
  - intros rsf out Hrs Hrt Ho. unfold pmch_decode_extract. rewrite Hrs, Hrt. destruct (Z.eqb_spec (SRSRAN_NOF_CTRL_SYMBOLS cell (sf_cfi rsf)) 0) as [E|E].
    + rewrite E, Hget by done. cbn [mbind option_bind]. by rewrite Z.eqb_refl.
    + assert (Hl : 0 < SRSRAN_NOF_CTRL_SYMBOLS cell (sf_cfi rsf)) by (unfold SRSRAN_NOF_CTRL_SYMBOLS, u32 in *; pose proof (Z.mod_pos_bound (sf_cfi rsf + (if nof_prb cell <? 10 then 1 else 0)) (2 ^ 32) ltac:(lia)); lia).
      rewrite get_symbols_late by (rewrite ?grid_cells; lia). cbn [mbind option_bind]. by rewrite (proj2 (Z.eqb_neq 0 n)) by (unfold n; lia).
Qed.

(** C9: a subframe of the broadcast is what the standard says.  For a valid cell with one port, all of
    whose resource blocks are of the MBSFN area, with the 1.25 kHz grid, every subframe, every modulation and coding scheme that is not reserved and every transport block of
    its size, the worker puts the reference signals and the PMCH into the grid without an access
    outside of an array.  A receiver that knows the positions then reads from the grid, whatever
    was in it before, the symbols of the turbo coded, rate matched and scrambled transport block
    and the reference signals of the MBSFN area; the worker is ready for the next subframe.  The
    symbols are read from the first on, as the encoder puts them; [srsran_pmch_decode] starts
    behind the control symbols its configuration states, and so finds them when these are none
    ([cfi] 0 and at least ten resource blocks), and otherwise finds nothing and fails, since
    there is one symbol. *)
Theorem pmch_subframe_exact cell w cfg data f1 f2 g1 g2 :
  let sf := dl_sf w in
  let sf_idx := sf_tti sf mod 10 in
  let n := 120 * nof_prb cell in
  srsran_cell_isvalid cell = true -> nof_ports cell = 1 -> mbsfn_prb cell = nof_prb cell -> worker_ok cell w ->
  sf_type sf = SRSRAN_SF_MBSFN -> subcarrier_spacing sf = SRSRAN_SCS_1KHZ25 -> 0 <= cfg_mcs cfg <= 28 -> cfg_enable cfg = true ->
  bytes_ok data -> 8 * zlen data = scheme_tbs cell (cfg_mcs cfg) ->
  gold (pmch_seed 1 sf_idx) f1 f2 -> gold (mbsfn_c_init SRSRAN_SCS_1KHZ25 sf_idx 0 1) g1 g2 ->
  exists enb w' grid rest,
    put_refs (enb_dl w) sf = Some enb /\
    cc_worker_encode_pmch srsran_tcod_gentable rm_generated (mk_cc enb sf (temp_mbsfn_softbuffer w)) (Some data) cfg = Some (0, w') /\
    worker_ok cell w' /\ ed_sf_symbols (enb_dl w') = Some grid :: rest /\
    (forall out, n <= zlen out ->
      pmch_get (nof_prb cell) grid out 0 SRSRAN_SCS_1KHZ25 sf_idx = Some (n, sent_symbols cell (cfg_mcs cfg) data f1 f2 ++ zdrop n out)) /\
    (forall out, 24 * nof_prb cell <= zlen out ->
      srsran_refsignal_mbsfn_get_sf cell 0 grid out SRSRAN_SCS_1KHZ25 sf_idx =
        Some (0, mbsfn_pilots (nof_prb cell) g1 g2 ++ zdrop (24 * nof_prb cell) out)) /\
    (forall rsf out, subcarrier_spacing rsf = SRSRAN_SCS_1KHZ25 -> sf_tti rsf mod 10 = sf_idx -> n <= zlen out ->
      pmch_decode_extract cell rsf n grid out =
        if SRSRAN_NOF_CTRL_SYMBOLS cell (sf_cfi rsf) =? 0
        then Some (0, sent_symbols cell (cfg_mcs cfg) data f1 f2 ++ zdrop n out) else Some (SRSRAN_ERROR, out)).
Proof. exact (pmch_subframe_spec cell w cfg data f1 f2 g1 g2). Qed.

(** ** The worker after its initialisation *)

(** The grids that [srsran_enb_dl_init] allocates. *)
Definition new_grids (malloc_cf : Z -> list sample) (max_prb : Z) : list (option (list sample)) :=
  map (fun _ => Some (malloc_cf (SRSRAN_SF_LEN_RE max_prb SRSRAN_CP_EXT))) (seqZ 0 SRSRAN_MAX_PORTS).

Lemma new_grid_cells n : 0 <= n <= 110 -> SRSRAN_SF_LEN_RE n SRSRAN_CP_EXT = 144 * n.
Proof.
  intros Hn. unfold SRSRAN_SF_LEN_RE, SRSRAN_SLOT_LEN_RE, SRSRAN_NRE. change (SRSRAN_CP_NSYMB SRSRAN_CP_EXT) with 6.
  rewrite (u32_id (n * 12 * 6)) by (unfold is_u32; lia). rewrite u32_id by (unfold is_u32; lia). lia.
Qed.

Lemma worker_ready malloc malloc_cf t rm q0 sf cell :
  (forall k, 0 <= k -> zlen (malloc k) = k /\ bytes_ok (malloc k)) -> (forall k, 0 <= k -> zlen (malloc_cf k) = k) ->
  table_initiated t = false -> rm_turbo_tables_generated rm = false -> srsran_cell_isvalid cell = true ->
  exists q1 q2 q3 csr mbsfnr sb,
    srsran_pmch_init malloc malloc_cf t rm q0 (nof_prb cell) 1 = Some (0, q1, srsran_tcod_gentable, rm_generated) /\
    srsran_pmch_set_area_id q1 1 = Some (0, q2) /\ srsran_pmch_set_cell q2 cell = (0, q3) /\
    srsran_refsignal_cs_set_cell (srsran_refsignal_cs_init malloc_cf (nof_prb cell)) cell = Some (0, csr) /\
    srsran_refsignal_mbsfn_set_cell (srsran_refsignal_mbsfn_init malloc_cf (nof_prb cell) SRSRAN_SCS_1KHZ25) cell 1 SRSRAN_SCS_1KHZ25 = Some (0, mbsfnr) /\
    srsran_softbuffer_tx_init malloc (nof_prb cell) = Some sb /\
    worker_ok cell (mk_cc (mk_enb_dl cell sf (new_grids malloc_cf (nof_prb cell)) q3 csr mbsfnr) sf sb).
Proof.
  intros Hm Hmc Ht Hr Hv. pose proof (isvalid_prb cell Hv) as Hn. assert (Hp : nof_prb cell <= nof_prb cell <= SRSRAN_MAX_PRB) by lia. change SRSRAN_MAX_PRB with 110 in Hn.
  destruct (pmch_ready malloc malloc_cf t rm q0 (nof_prb cell) cell 1 Hm Hmc Ht Hr Hv Hp ltac:(unfold SRSRAN_MAX_MBSFN_AREA_IDS; lia)) as (q1 & q2 & q3 & E1 & E2 & E3 & Hq).
  destruct (cs_refsignal_ready malloc_cf (nof_prb cell) cell Hmc Hv Hp) as (csr & E4 & _ & Hcsr).
  destruct (mbsfn_refsignal_ready malloc_cf (nof_prb cell) cell 1 Hmc Hv Hp) as (mbsfnr & E5 & _ & Hrefs).
  destruct (softbuffer_tx_init_ok malloc (nof_prb cell) Hn) as (sb & E6 & Hsb & Hmax).
  exists q1, q2, q3, csr, mbsfnr, sb. do 6 (split; [assumption|]).
  split; cbn [enb_dl dl_sf temp_mbsfn_softbuffer ed_cell ed_dl_sf ed_sf_symbols ed_pmch ed_csr_signal ed_mbsfnr_signal];
    [reflexivity|reflexivity| |exact Hq| | |exact (conj Hsb Hmax)].
  - do 2 eexists. split; [reflexivity|]. rewrite new_grid_cells by lia. rewrite Hmc; lia.
  - intros ns Hns. exact (Hcsr 0 ns ltac:(lia) Hns).
  - intros ns Hns. exact (Hrefs 0 ns ltac:(lia) Hns).
Qed.

(** A worker for six resource blocks, in the subframe 7 of a frame. *)
Lemma demo_worker : exists w, worker_ok (demo_cell 6) w /\ dl_sf w = demo_sf 17 0 SRSRAN_SCS_1KHZ25.
Proof.
  destruct (worker_ready (fun k => replicate (Z.to_nat k) 0) (fun k => replicate (Z.to_nat k) sample_zero) (mk_tables false (fun _ => []) (fun _ => bil_zero))
    (mk_rm false (fun _ => bil_zero) (fun _ => bil_zero) (fun _ => [])) (mk_pmch cell_zero 0 0 [] [] [] [] [] (mk_sch (crc_obj 24 0 0) (crc_obj 24 0 0) (mk_tcod 0 []) [] []))
    (demo_sf 17 0 SRSRAN_SCS_1KHZ25) (demo_cell 6)) as (q1 & q2 & q3 & csr & mr & sb & _ & _ & _ & _ & _ & _ & Hw).
  - intros k Hk. split; [unfold zlen; rewrite length_replicate; lia|]. apply Forall_replicate. unfold is_u8. lia.
  - intros k Hk. unfold zlen. rewrite length_replicate. lia.
  - done.
  - done.
  - done.
  - eexists. split; [exact Hw|reflexivity].
Qed.

(** Scheme 0: a block of 19 bytes. *)
Lemma pmch_subframe_exact_witness :
  let cell := demo_cell 6 in
  let sf := demo_sf 17 0 SRSRAN_SCS_1KHZ25 in
  exists w enb w' grid rest f1 f2,
    put_refs (enb_dl w) sf = Some enb /\
    cc_worker_encode_pmch srsran_tcod_gentable rm_generated (mk_cc enb sf (temp_mbsfn_softbuffer w)) (Some (replicate 19 0x5A))
      (mk_mbsfn_cfg 1 0 0 true false scs_unset) = Some (0, w') /\
    ed_sf_symbols (enb_dl w') = Some grid :: rest /\
    pmch_get 6 grid (replicate 720 sample_zero) 0 SRSRAN_SCS_1KHZ25 7 = Some (720, sent_symbols cell 0 (replicate 19 0x5A) f1 f2 ++ []).
Proof.
  destruct (gold_exists (pmch_seed 1 7)) as (f1 & f2 & Hf). destruct (gold_exists (mbsfn_c_init SRSRAN_SCS_1KHZ25 7 0 1)) as (g1 & g2 & Hg).
  destruct demo_worker as (w & Hw & Es). pose proof (pmch_subframe_exact (demo_cell 6) w (mk_mbsfn_cfg 1 0 0 true false scs_unset) (replicate 19 0x5A) f1 f2 g1 g2) as T.
  rewrite Es in T. destruct T as (enb & w' & grid & rest & E1 & E2 & _ & E3 & E4 & _);
    [vm_compute; reflexivity|reflexivity|reflexivity|exact Hw|reflexivity|reflexivity|cbn; lia|reflexivity| |vm_compute; reflexivity|exact Hf|exact Hg|].
  - apply Forall_replicate. unfold is_u8. lia.
  - exists w, enb, w', grid, rest, f1, f2. split; [exact E1|]. split; [exact E2|]. split; [exact E3|]. apply (E4 (replicate 720 sample_zero)). by vm_compute.
Defined.

(** ** Refusals and faults *)

(** The reserved schemes have no block size: the transmission is refused and nothing changes. *)
Lemma pmch_reserved_scheme_refused cell w cfg data :
  srsran_cell_isvalid cell = true -> nof_ports cell = 1 -> mbsfn_prb cell = nof_prb cell -> worker_ok cell w -> 29 <= cfg_mcs cfg ->
  cc_worker_encode_pmch srsran_tcod_gentable rm_generated w data cfg = Some (SRSRAN_ERROR, w).
Proof.
  intros Hv Hports Hprb [Hc _ (grid & rest & Hs & _) [Hqc _ _ _ _ _ _ _] _ _ _] Hmcs. pose proof (isvalid_prb cell Hv) as Hn. change SRSRAN_MAX_PRB with 110 in Hn.
  destruct (configure_pmch_spec cell cfg Hn Hprb) as (c_ & Ec & _ & _ & _ & Htb).
  assert (Et : tb_tbs (snd (srsran_dl_fill_ra_mcs (mk_tb SRSRAN_MOD_BPSK 0 0 0 (cfg_enable cfg) (cfg_mcs cfg)) 0 (nof_prb cell) false)) = 0).
  { unfold srsran_dl_fill_ra_mcs, srsran_ra_tbs_idx_from_mcs, srsran_ra_dl_tbs_idx_from_mcs. cbn [tb_mcs_idx andb negb]. by rewrite (proj2 (Z.ltb_ge _ _)) by lia. }
  set (tb := snd _) in Htb, Et. unfold cc_worker_encode_pmch, srsran_enb_dl_put_pmch, srsran_pmch_encode. rewrite Hc, Ec, Hqc, Hports, Hs. cbn [mbind option_bind].
  change (null_port (Z.to_nat 1) (Some grid :: rest)) with (Some false). unfold srsran_ra_dl_compute_nof_re. cbn [mbind option_bind pc_grant g_tb]. rewrite Htb. cbn [map].
  change (cell_at (?x :: ?l) 0) with (Some x). cbn [mbind option_bind].
  match goal with |- context [tb_tbs ?x =? 0] => replace (tb_tbs x) with 0 by (by destruct (tb_enabled tb)) end.
  change (0 =? 0) with true. cbv iota. cbn [mbind option_bind]. change (negb (SRSRAN_ERROR_INVALID_INPUTS =? 0)) with true. cbv iota. do 2 f_equal.
  clear - Hc Hs. destruct w as [[c0 s0 g0 q0 r0 m0] sf0 sb0]. cbn [enb_dl dl_sf temp_mbsfn_softbuffer ed_cell ed_dl_sf ed_sf_symbols ed_pmch ed_csr_signal ed_mbsfnr_signal] in *. by subst.
Qed.

(** The configuration ignores the area that the MAC announces. *)
Lemma pmch_area_ignored c_ cell cfg c' : srsran_configure_pmch c_ cell cfg = Some c' -> pc_area_id c' = 1.
Proof.
  unfold srsran_configure_pmch. intros H. apply bind_Some in H as (tb & _ & H). apply bind_Some in H as (last & _ & H). apply bind_Some in H as (last0 & _ & H).
  destruct (srsran_dl_fill_ra_mcs _ _ _ _). apply bind_Some in H as (tbs & _ & H). apply bind_Some in H as (rows & _ & H). by injection H as <-.
Qed.

(** The object of the transmitter has symbols for one antenna only, the loop over the ports reads
    those of every port: with two ports it follows a NULL pointer. *)
Lemma pmch_two_ports_fault malloc malloc_cf t rm q0 max_prb q1 t' rm' cell max_re_ sf lstart grids :
  srsran_pmch_init malloc malloc_cf t rm q0 max_prb 1 = Some (0, q1, t', rm') -> nof_ports cell = 2 ->
  put_ports (with_cell q1 cell max_re_) sf lstart grids = None.
Proof.
  unfold srsran_pmch_init. change (1 >? SRSRAN_MAX_PORTS) with false. cbv iota zeta. intros H Hp. apply bind_Some in H as ([[sch t1] rm1] & _ & H). injection H as <- <- <-.
  unfold put_ports. cbn [with_cell q_cell q_symbols]. rewrite Hp. change (Z.to_nat 2) with 2%nat. cbn [for_loop].
  change (map _ (seqZ 0 SRSRAN_MAX_PORTS)) with [Some (malloc_cf (u32 (max_prb * MAX_PMCH_RE SRSRAN_SCS_1KHZ25))); None; None; None].
  change (cell_at [?a; ?b; ?c; ?d] (0 + 1)) with (Some b). cbn [mbind option_bind]. by destruct (cell_at _ 0 ≫= _).
Qed.

(** The grids have room for the extended cyclic prefix; a cell with the normal one, the default,
    is cleared beyond their end. *)
Lemma clear_sf_overflows malloc_cf q :
  (forall k, 0 <= k -> zlen (malloc_cf k) = k) -> 1 <= nof_prb (ed_cell q) <= 110 -> 1 <= nof_ports (ed_cell q) -> cell_cp (ed_cell q) = SRSRAN_CP_NORM ->
  ed_sf_symbols q = new_grids malloc_cf (nof_prb (ed_cell q)) -> clear_sf q = None.
Proof.
  intros Hm Hn Hp Hcp Hs. unfold clear_sf. replace (Z.to_nat (nof_ports (ed_cell q))) with (S (Z.to_nat (nof_ports (ed_cell q) - 1))) by lia. cbn [for_loop].
  assert (at_port 0 (fun grid => copy_cells grid 0 (replicate (Z.to_nat (SRSRAN_NOF_RE (ed_cell q))) sample_zero) 0 (SRSRAN_NOF_RE (ed_cell q))) q = None) as ->; [|done].
  assert (En : SRSRAN_NOF_RE (ed_cell q) = 168 * nof_prb (ed_cell q)).
  { unfold SRSRAN_NOF_RE, SRSRAN_SLOT_LEN_RE, SRSRAN_NRE. rewrite Hcp. change (SRSRAN_CP_NSYMB SRSRAN_CP_NORM) with 7. rewrite (u32_id (_ * 12 * 7)) by (unfold is_u32; lia). rewrite u32_id by (unfold is_u32; lia). lia. }
  unfold at_port. rewrite Hs. change (cell_at (new_grids malloc_cf ?n) 0) with (Some (Some (malloc_cf (SRSRAN_SF_LEN_RE n SRSRAN_CP_EXT)))). cbn [mbind option_bind].
  unfold copy_cells. rewrite new_grid_cells, Hm, En by lia. rewrite !Z.add_0_l, (proj2 (Z.ltb_lt (144 * _) _)) by lia. by rewrite orb_true_r.
Qed.
