(* ===== verification/OnAir.v ===== *)
(** * From the logical channel to the resource grid

    The composition of the MAC scheduler of the eNodeB with its PHY: [mac::get_mch_sched]
    ([srsenb/src/stack/mac/mac.cc]) takes the block sizes from the functions of the physical
    layer, and the PDU that it hands over is put on the grid by the worker. *)

From stdpp Require Import base list gmap numbers list_basics list_relations.
From S2P Require Import Prelude ByteBuffer MacPdu MacPduWire MacPduCorrect MacMch Mbsfn BitPack Crc Sequence SequenceCorrect.
From S2P Require Import CbSegm TurboCoder TurboCorrect RateMatch RateMatchCorrect Sch SchCorrect PhyCommon Ra RaCorrect Modulation.
From S2P Require Import MbsfnGrid MbsfnGridCorrect RefSignal RefSignalCorrect Pmch PmchCorrect.

Local Open Scope Z_scope.

(** The block size of a scheme as the MAC computes it. *)
Definition mac_tbs (cell : srsran_cell_t) (mcs : Z) : Z :=
  tb_tbs (snd (srsran_dl_fill_ra_mcs (mk_tb SRSRAN_MOD_BPSK 0 0 0 false mcs) 0 (nof_prb cell) false)).

(** [mac::get_mch_sched] with the schemes of the signalling and of the data. *)
Definition mac_get_mch_sched {R} `{MchRlc R} (cell : srsran_cell_t) (m : mac) (r : R) (tti : Z) (is_mcch : bool) (sig_mcs data_mcs : Z) :
    option (mch_sched_res * mac * R) :=
  get_mch_sched m r tti is_mcch (mac_tbs cell sig_mcs) (mac_tbs cell data_mcs).

(** ** Block sizes *)

(** MAC and PHY compute the same size. *)
Lemma mac_tbs_scheme cell mcs : 1 <= nof_prb cell <= 110 -> 0 <= mcs < 29 -> mac_tbs cell mcs = scheme_tbs cell mcs.
Proof. intros Hn Hm. unfold mac_tbs. rewrite fill_ra_mcs_in by (cbn; lia). done. Qed.

(** The schemes of a cell with at least six resource blocks fill the buffers of the MAC. *)
Lemma scheme_tbs_range cell mcs : 6 <= nof_prb cell <= 110 -> 0 <= mcs < 29 -> 152 <= scheme_tbs cell mcs <= 80000.
Proof.
  intros Hn Hm. set (f := fun mcs n => (152 <=? tbs_entry (srsran_ra_tbs_idx_from_mcs mcs false false) (n + 6)) && (tbs_entry (srsran_ra_tbs_idx_from_mcs mcs false false) (n + 6) <=? 80000)).
  assert (T : range_forallb 29 (fun mcs => range_forallb 105 (f mcs)) = true) by (vm_compute; reflexivity).
  pose proof (range_forallb_spec _ _ T mcs ltac:(lia)) as T1. cbv beta in T1. pose proof (range_forallb_spec _ _ T1 (nof_prb cell - 6) ltac:(lia)) as T2.
  unfold f in T2. replace (nof_prb cell - 6 + 6) with (nof_prb cell) in T2 by lia. unfold scheme_tbs. apply andb_true_iff in T2 as [T2 T3]. lia.
Qed.


